(* ===== verification/_CoqProject ===== *)
-Q . S2P
Prelude.v
PyFloat.v
PyText.v
PyVal.v
PyJson.v
PyScript.v
Shlex.v
Regenerate.v
PyStats.v
PyHash.v
Counters.v
Evidence.v
Difflib.v
PyIO.v
System.v
Ipaddr.v
Connections.v
Ingress.v
WorkerCpus.v
ProcSample.v
RemoteLoad.v
Compare.v
CheckClient.v
Crew.v
Http2Remote.v
Overload.v
Architecture.v
UploadClient.v
KeepaliveReturning.v
IdlePressureClient.v
AccessLog.v
PerfTrial.v
CompareFootprint.v
CompareKernel.v
CompareKernelEcho.v
SummarizeOverload.v
CheckOverload.v
SummarizeArchitecture.v
KeepalivePolicy.v
IdlePressure.v
UploadCompare.v
AuditUploadParity.v
SummarizeGoAfterNginx.v
AuditArchitecture.v
AuditArchitectureImplementation.v
AuditNginxImplementation.v
AuditHttp2Lan.v
SummarizeHttp2Lan.v
SummarizeKeepalivePolicy.v
AuditHttp2.v
Histogram.v
CompareHttp2.v
CompareHttp2Lan.v
Http2Report.v
Http2LanReport.v
CompareHttp2Variants.v
UploadReport.v
AuditKernelWork.v
KernelReport.v
AuditGoPerformance.v
AuditGoLan.v
SummarizeHttp2Storage.v
SummarizeHttp2Diagnosis.v
SummarizeHttp2Variants.v
MeasureKernelLayout.v
CompareHotPaths.v
MeasureAccessLog.v
AggregationRevisit.v
CompareRequestPath.v
InspectRequestPath.v
DiagnoseHttp2Loopback.v
CheckHttp2LanIdle.v
MeasureHttp2Storage.v
StorageReport.v
