(* ===== verification/Prelude.v ===== *)
(** * ZHTPS Python tooling: a verification development

    ZHTPS is an HTTP server written in Zig.  Around it the repository keeps Python programs that decide how the server
    is deployed and whether a measurement of it may be believed: generators of firewall and NGINX configurations,
    drivers that start servers and load clients, supervisors that run on the generator hosts, and audits that
    recompute every published number from retained evidence.  This development models those programs and proves what
    they promise.  It follows CPython 3.14.

    ** Parts and how they interact

    - Deployment ([src/deploy]).  [ingress.py] validates its options, prints an NGINX configuration, a unit and an
      environment file, and calls [connections.py] for the nftables ruleset; [worker_cpus.py] reads the NIC interrupts
      and the CPU topology from [/sys] and [/proc], picks one CPU per worker and launches the server with them.
    - Build ([src/build/openssl/regenerate.py]).  It walks the library graph of an OpenSSL build and writes the
      manifest [build.zig] compiles from.
    - Fixed-rate runs ([src/bench/overload.py]) start a server and a load client, locally or through the agent of
      [remote_load.py] over SSH, sample both and write a report; [summarize_overload.py] reduces it to rows and
      [check_overload.py] decides from the rows whether the server withstands an overload.
    - Comparisons: [compare.py] (throughput against a Go server; audited by [audit_go_lan.py]) and [architecture.py]
      (request cost and profiles; read by [summarize_architecture.py], audited by [audit_architecture.py]) use the same
      collector; [upload_client.py] is a closed-loop upload client.  [upload_compare.py] loads servers with it over the
      same collector, and [audit_upload_parity.py] audits its experiments; [access_log.py] measures what an access log costs
      against a real sink.
    - Variants of the request path: [compare_request_path.py] runs [overload.py] for every build and reduces the reports with
      [summarize_overload.py]; [inspect_request_path.py] counts the system calls or profiles the cost of one server.
      [compare_hot_paths.py] and [measure_access_log.py] alternate microbenchmarks, [aggregation_revisit.py] rotates pipelined
      requests, and [measure_kernel_layout.py] counts the cache lines that the fields of a connection touch.
    - Hardware counters: [compare_kernel.py], [compare_footprint.py] and [compare_kernel_echo.py] are three copies of one program
      that loads a pinned server while [perf] counts its events; [audit_kernel_work.py] audits their reports.
      [check_client.py] repeats runs of [compare.py] with more CPUs for the load client.
    - Idle connections: [keepalive_policy.py] rotates reclaim ages, over [architecture.py] or with the client of
      [keepalive_returning_client.py] on another host; [idle_pressure.py] compares two servers with the client of
      [idle_pressure_client.py].
    - HTTP/2: [compare_http2.py] compares servers over the loopback and [audit_http2.py] audits its reports.
      [compare_http2_lan.py] compares them from another host, on which [http2_remote.py] supervises the load clients;
      [audit_http2_lan.py] recomputes a finished benchmark from the records of the clients and
      [summarize_http2_lan.py] reports it.  [compare_http2_variants.py] compares builds of the server with the same trials and
      [summarize_http2_variants.py] pairs their repeats; [measure_http2_storage.py] measures their memory, which
      [summarize_http2_storage.py] audits, and [summarize_http2_diagnosis.py] audits the investigation of their failures, down to the
      wrapping counters of the network cards.  [diagnose_http2_loopback.py] repeats the failing load without a network, under the
      same supervisor, and [check_http2_lan_idle.py] lets connections of the load client idle before they are measured.
    - Further audits and summaries read retained evidence only: [audit_kernel_work.py], [audit_go_performance.py],
      [summarize_keepalive_policy.py], [summarize_go_after_nginx.py] (uploads, rates and closed loops of one comparison),
      [audit_architecture_implementation.py] (archives, binaries and runs of all architecture experiments) and
      [audit_nginx_implementation.py] (builds, the runs of eight groups, and that later changes of the sources are comments).

    ** Files

    Language and standard library, shared by all components:
    - [Prelude]: exceptions and results ([res], [raise], [guard], [x <- e ;; k]), generic list, option and integer
      lemmas, tactics, the hint database [zhtps].
    - [PyFloat] (binary64 and its decimal printing), [PyText] ([str] methods, printing and parsing of integers),
      [PyVal] (dynamically typed values; expressions evaluate left to right to a value or an exception), [PyJson]
      ([json.dumps] and [json.loads]), [PyScript] (comprehensions, dictionaries, script outcomes), [PyStats]
      ([statistics], [round], [Counter]), [PyHash] (SHA-256 and CRC-32), [Shlex] ([shlex.quote], [join], [split]), [Ipaddr]
      ([ipaddress.ip_address]), [Difflib] ([difflib.SequenceMatcher]).
    - Three models of the outside world.  [PyIO]: a monad of state and exceptions with a Hoare triple, and a file
      system that other processes change between any two calls, for the generators.  [Evidence]: the fixed tree of
      files an audit reads.  [System]: a host of child processes, clocks, messages and calls that may fail, driven by
      an oracle that takes a turn before every call, for everything that runs processes.  [Crew] is its part for the
      trials whose cleanup knows which processes were started.
    - What the benchmarks count: [Counters] (a dictionary of counts as a function, for any class of keys) and [Histogram]
      (latency histograms and their percentiles).

    One file per program, named after it; a definition has the name of the Python function or method it models, and
    parts of a long function are definitions of their own that the function's definition composes:
    - [Connections], [Ingress], [WorkerCpus]: [src/deploy/connections.py], [ingress.py], [worker_cpus.py].
    - [Regenerate]: [src/build/openssl/regenerate.py].
    - [ProcSample] and [Overload]: [src/bench/overload.py], first the parsing of [/proc] texts, then the run.
    - [RemoteLoad], [Compare], [CompareHttp2], [CompareHttp2Lan], [CompareHttp2Variants], [Http2Remote], [Architecture], [UploadClient],
      [UploadCompare], [AccessLog], [CheckClient], [MeasureHttp2Storage], [CompareRequestPath], [InspectRequestPath], [CompareHotPaths],
      [MeasureAccessLog], [AggregationRevisit], [MeasureKernelLayout], [DiagnoseHttp2Loopback], [CheckHttp2LanIdle], [KeepalivePolicy], [KeepaliveReturning], [IdlePressure],
      [IdlePressureClient]: the driver or client of that name.
    - [PerfTrial] is the program that [compare_kernel.py] and its copies share, over a record [harness] of what differs;
      [CompareKernel], [CompareFootprint] and [CompareKernelEcho] are its instances.
    - [SummarizeOverload], [CheckOverload], [SummarizeArchitecture], [AuditArchitecture], [AuditHttp2Lan],
      [SummarizeHttp2Lan], [SummarizeKeepalivePolicy], [AuditHttp2], [AuditKernelWork], [AuditGoPerformance],
      [AuditGoLan], [AuditUploadParity], [SummarizeGoAfterNginx], [AuditArchitectureImplementation], [AuditNginxImplementation],
      [SummarizeHttp2Storage], [SummarizeHttp2Diagnosis], [SummarizeHttp2Variants]: the audit or summary of that name.
    - [Http2Report], [Http2LanReport], [UploadReport], [KernelReport] and [StorageReport] prove a driver against its audit: they hold no code of their own.

    State and operations correspond as follows.  Parsed arguments are a record [Options] per program.  A Python
    dictionary that JSON is read into or written from is a [val]; an object with attributes is a record ([remote] for
    [RemoteLoad], [progress] for the supervisor, [worker] for an upload thread).  A function without effects is a
    function to [res]; one with effects is an [io] program over its world, and the variables that an [except] or
    [finally] clause reads are fields of that world, since they survive an exception.

    ** What the theorems show

    - Configurations: accepted budgets fit the server they protect ([validate_budgets]), no option value can add syntax
      to a generated file ([nginx_config_no_injection], [nft_config_no_injection]), the ingress checks imply those of
      the module it calls ([ingress_bundle_total]), and the effective budgets agree with the captured server
      configuration ([effective_agrees]).
    - Output directories: under interference and faults the generators only create entries where nothing was, a
      success leaves exactly the generated contents, and existing files are refused ([ingress_write_additive],
      [write_bundle_complete] and their companions).
    - CPU placement: the selected CPUs are allowed, online, distinct and share no core with an interrupt CPU or with
      each other; the selection ends, gives up only when nothing is left, and reaches the server unchanged
      ([suggest_sound], [select_terminates], [select_gives_up], [cpu_list_roundtrip], [launch_keeps_mapping]).
    - Reports: [summarize_accounts], [summarize_refuses], [summary_keeps_trials], [upload_accounting], [variants_rows_partition] and
      [access_log_accounts] say that nothing is lost or counted twice (for the two clients of idle connections,
      [returning_accounts] and [idle_client_accounts]), and [access_log_typed] that a returned record has
      the declared keys and types whatever the server reports; [validate_exact], [audit_demonstrates], [audit_exit] say what an accepted
      overload report has demonstrated, from its raw phases to the exit status.
    - Audits: the [_sound] theorems (those of the implementation audits are [go_after_nginx_sound], [implementation_audit_sound],
      [nginx_audit_sound]) and [audit_failures_recorded] derive from a passing audit what it claims of the evidence;
      [final_core_unchanged] that sources whose changes were audited as comments have the same lines of code;
      [percentile_rank] shows the audited percentile to be the nearest-rank one, and [nic_samples_exact] what the readings of a
      16-bit counter say of the frames it has counted.
    - Processes: however a driver ends - success, failed check, dead child, fault at any call, exhausted fuel - no
      process it started is left ([overload_stops_everything], [agent_stops_child], [compare_stops_everything],
      [http2_stops_everything], [lan_stops_everything], [access_log_stops_everything], [upload_stops_everything],
      [supervisor_stops_clients], [architecture_stops_everything], [perf_stops_everything], [policy_stops_everything],
      [idle_stops_everything], [variants_stops_everything], [storage_stops_everything], [request_path_stops_everything],
      [loopback_stops_everything], [idle_check_stops_everything], [layout_stops_everything], [hot_paths_stops_everything],
      [access_benchmark_stops_everything], [aggregation_stops_everything]).
      Some carry a condition the code needs: [architecture_stops_everything] that a profiler ends in time,
      [lan_stops_everything] and [variants_stops_everything] that no input is found broken when it is closed, [policy_stops_everything] and
      [idle_stops_everything] both, for the client; examples in [Architecture], [CompareHttp2Lan] and [KeepalivePolicy] evaluate
      a run in which the condition fails and a server is left.  [inspect_stops_everything] holds when the inspection succeeds: a
      profiler that hangs ends the cleanup early ([inspect_profiler_hangs]).
    - Matrices: a comparison that ends has exactly the runs that were asked for, in their order ([comparison_complete],
      [variants_matrix], [request_path_rows], [loopback_runs]); microbenchmarks that are compared have done the same work
      ([hot_paths_same_work], [access_benchmark_agrees]).
    - Cache lines: the eight alignments that are tried stand for every address of a structure ([coverage_complete]).
    - Drivers against audits: a loopback report is accepted by its audit ([http2_report_audited]), a valid LAN trial
      carries the numbers its audit recomputes from the failure logs ([lan_trial_audited]), what an upload trial writes
      satisfies what the audit asks of it ([upload_trial_presentable]), a row of the kernel comparison passes the audit of
      the kernel work ([kernel_row_audited]), the runs of a finished storage measurement pass the audit of their summary
      ([storage_report_audited]), and the percentile functions of the two sides are
      the same function ([quantile_audited]).
    - Collectors: samples, clocks, files and commands arrive as they were sent ([collect_outcome],
      [clock_offset_bound], [base64_roundtrip], [ssh_command_words]) and clients start together or not at all
      ([supervise_barrier]).
    - Build inputs: the library walk ends despite cycles and finds exactly the reachable objects, and the manifest
      lists one source for each ([walk_exact], [generate_complete]).

    ** Fuel and bounds

    Recursion that is structural needs no fuel.  Where the source loops on a condition the model takes a [fuel] and
    raises [RuntimeError] with the text ["out of fuel"] when it is used up.  Three loops have a bound that is proved
    enough: the CPU selection takes as many rounds as there are workers ([select_terminates]), the library walk as
    many as there are libraries ([walk_exact]) and the search for matching blocks as many as the lines allow ([blocks_fuel]).  The wait for an access log ends once time passes, and any fuel beyond the
    turns that takes gives the same outcome ([drain_ends]).  JSON and float parsing take the length of their input.  The
    other loops of the drivers wait for the outside world and need not end; their theorems hold for every fuel, and
    exhausting it counts as one more way to fail.  The witnesses evaluate the definitions on concrete worlds.  Python integers are
    unbounded and are [Z]; the 32-bit words of SHA-256 are reduced modulo 2^32; floats are binary64 with the rounding
    of IEEE 754.

    ** Assumptions

    There are no axioms about the programs.  Programs outside this repository and the operating system are answers of
    the oracle or of the environment of the file system, and the theorems hold for all of them.  A signal is only
    modelled where the source installs a handler; [kill] ends a process of ours, and an interrupt between two calls
    is not modelled.  The members of a [tar] archive are an argument of the two audits that open archives, and so is
    the decoder of kernel structures that [summarize_http2_diagnosis.py] imports from a file the repository does not hold.

    ** Not modelled

    - The server ([src/src], [examples], [zig-pkg]), the Zig build ([build.zig], [src/build/*.zig]) and the load
      generators and reference servers in Go, Zig, C and JavaScript: other languages; the Python programs only start
      them and read what they write.
    - The generated OpenSSL sources ([src/build/openssl/generated]), documents and recorded results ([src/docs]).
    - [argparse] declarations of the scripts: the models start from the parsed arguments, whose types and choices
      they take from the declarations.
    - The end-to-end tests ([src/tests]): they exercise the Zig server.  Of their helpers, [MeasureHttp2Storage] models the context
      that runs a server ([wire.Running]); the HTTP/2 client and the request for the metrics are answers of the environment.
    - The remaining scripts of [src/bench]: kernel and NIC experiments on one machine, plots and report pages, whose content
      is the text they print or the devices they drive. *)

From stdpp Require Import base list strings gmap sorting.
From Stdlib Require Import ZArith Lia.

Local Open Scope Z_scope.

(** Concatenations of literals reduce. *)
#[global] Arguments String.append !_ _ / : simpl nomatch.

(** ** Python exceptions

    The exception classes the modelled scripts raise or catch.  [isa] is the part of the class
    hierarchy their [except] clauses rely on. *)

Inductive exn_class :=
  | ValueError | KeyError | TypeError | IndexError | AttributeError | AssertionError
  | ZeroDivisionError | OverflowError | RuntimeError | TimeoutError | OSError
  | FileNotFoundError | FileExistsError | NotADirectoryError | IsADirectoryError
  | PermissionError | BrokenPipeError | HTTPException | CalledProcessError
  | TimeoutExpired | QueueEmpty | KeyboardInterrupt | RecursionError | StructError
  | StopIteration | EOFError | ProcessLookupError | BlockingIOError | ConnectionResetError
  | SystemExit (code : Z).

#[export] Instance exn_class_eq_dec : EqDecision exn_class.
Proof. solve_decision. Defined.

Record exn := Exn { ex_class : exn_class; ex_msg : string }.

#[export] Instance exn_eq_dec : EqDecision exn.
Proof. solve_decision. Defined.

(** Subclasses of [OSError] among the modelled classes ([TimeoutError] is one since 3.10). *)
Definition is_oserror (c : exn_class) : bool :=
  match c with
  | OSError | FileNotFoundError | FileExistsError | NotADirectoryError | IsADirectoryError
  | PermissionError | BrokenPipeError | TimeoutError | ProcessLookupError | BlockingIOError | ConnectionResetError => true
  | _ => false
  end.

Definition isa (e : exn) (c : exn_class) : bool :=
  match c with
  | OSError => is_oserror (ex_class e)
  | RuntimeError => bool_decide (ex_class e = RuntimeError) || bool_decide (ex_class e = RecursionError)
  | _ => bool_decide (ex_class e = c)
  end.

Definition class_name (c : exn_class) : string :=
  match c with
  | ValueError => "ValueError" | KeyError => "KeyError" | TypeError => "TypeError" | IndexError => "IndexError"
  | AttributeError => "AttributeError" | AssertionError => "AssertionError"
  | ZeroDivisionError => "ZeroDivisionError" | OverflowError => "OverflowError" | RuntimeError => "RuntimeError"
  | TimeoutError => "TimeoutError" | OSError => "OSError" | FileNotFoundError => "FileNotFoundError"
  | FileExistsError => "FileExistsError" | NotADirectoryError => "NotADirectoryError"
  | IsADirectoryError => "IsADirectoryError" | PermissionError => "PermissionError"
  | BrokenPipeError => "BrokenPipeError" | HTTPException => "HTTPException"
  | CalledProcessError => "CalledProcessError" | TimeoutExpired => "TimeoutExpired" | QueueEmpty => "Empty"
  | KeyboardInterrupt => "KeyboardInterrupt" | RecursionError => "RecursionError" | StructError => "error"
  | StopIteration => "StopIteration" | EOFError => "EOFError" | ProcessLookupError => "ProcessLookupError"
  | BlockingIOError => "BlockingIOError" | ConnectionResetError => "ConnectionResetError" | SystemExit _ => "SystemExit"
  end.

(** ** Results: a value or a raised exception *)

Inductive res (A : Type) :=
  | Ok (a : A)
  | Err (e : exn).
Arguments Ok {A} a.
Arguments Err {A} e.

#[export] Instance Ok_inj {A} : Inj (=) (=) (@Ok A).
Proof. by intros x y [= ->]. Qed.

Definition rbind {A B} (x : res A) (k : A -> res B) : res B :=
  match x with Ok a => k a | Err e => Err e end.

Definition rmap {A B} (f : A -> B) (x : res A) : res B := rbind x (fun a => Ok (f a)).

Declare Scope res_scope.
Delimit Scope res_scope with res.
Bind Scope res_scope with res.
Open Scope res_scope.

Notation "x <- e ;; k" := (rbind e (fun x => k))
  (at level 100, e at next level, right associativity) : res_scope.
Notation "'let*' p ':=' e 'in' k" := (rbind e (fun p => k))
  (at level 10, p strict pattern, e at level 200, k at level 200) : res_scope.
Notation "e ;;; k" := (rbind e (fun _ => k))
  (at level 100, right associativity) : res_scope.

Definition raise {A} (c : exn_class) (msg : string) : res A := Err (Exn c msg).

(** [if test: raise ...] *)
Definition guard (test : bool) (c : exn_class) (msg : string) : res unit :=
  if test then raise c msg else Ok tt.

(** [assert test, msg] *)
Definition require (test : bool) (msg : string) : res unit :=
  if test then Ok tt else raise AssertionError msg.

Definition is_ok {A} (x : res A) : bool := match x with Ok _ => true | Err _ => false end.

Definition of_option {A} (o : option A) (c : exn_class) (msg : string) : res A :=
  match o with Some a => Ok a | None => raise c msg end.

(** *** Monadic traversals, left to right, stopping at the first exception *)

Fixpoint mapR {A B} (f : A -> res B) (l : list A) : res (list B) :=
  match l with
  | [] => Ok []
  | x :: l => y <- f x ;; ys <- mapR f l ;; Ok (y :: ys)
  end.

Fixpoint foldR {A S} (f : S -> A -> res S) (s : S) (l : list A) : res S :=
  match l with
  | [] => Ok s
  | x :: l => s' <- f s x ;; foldR f s' l
  end.

Fixpoint filterR {A} (f : A -> res bool) (l : list A) : res (list A) :=
  match l with
  | [] => Ok []
  | x :: l => b <- f x ;; r <- filterR f l ;; Ok (if b : bool then x :: r else r)
  end.

Fixpoint eachR {A} (f : A -> res unit) (l : list A) : res unit :=
  match l with
  | [] => Ok tt
  | x :: l => f x ;;; eachR f l
  end.

(** [any(...)] and [all(...)], with Python's early exit. *)
Fixpoint anyR {A} (f : A -> res bool) (l : list A) : res bool :=
  match l with
  | [] => Ok false
  | x :: l => b <- f x ;; if b : bool then Ok true else anyR f l
  end.

Fixpoint allR {A} (f : A -> res bool) (l : list A) : res bool :=
  match l with
  | [] => Ok true
  | x :: l => b <- f x ;; if b : bool then allR f l else Ok false
  end.

(** ** Inversion lemmas *)

Lemma rbind_ok {A B} (x : res A) (k : A -> res B) b :
  rbind x k = Ok b <-> exists a, x = Ok a /\ k a = Ok b.
Proof.
  destruct x as [a|e]; cbn; split.
  - intros ?. by exists a.
  - by intros (? & [= <-] & ?).
  - done.
  - by intros (? & ? & ?).
Qed.

(** The value of a computation that succeeds. *)
Definition value_or {A} (a : A) (x : res A) : A := match x with Ok b => b | Err _ => a end.
Lemma ok_pair {A B} (x : res A * B) a : x.1 = Ok a -> x = (Ok a, x.2).
Proof. destruct x. by intros [= ->]. Qed.
Lemma rbind_err {A B} (x : res A) (k : A -> res B) e :
  rbind x k = Err e <-> x = Err e \/ exists a, x = Ok a /\ k a = Err e.
Proof.
  destruct x as [a|e']; cbn; split.
  - intros ?. right. by exists a.
  - intros [?|(? & [= <-] & ?)]; done.
  - intros [= <-]. by left.
  - intros [[= ->]|(? & [=] & ?)]; done.
Qed.

Lemma rmap_ok {A B} (f : A -> B) (x : res A) b :
  rmap f x = Ok b <-> exists a, x = Ok a /\ b = f a.
Proof.
  unfold rmap. rewrite rbind_ok. split; intros (a & ? & H); exists a; split; congruence.
Qed.

Lemma guard_ok test c msg u : guard test c msg = Ok u <-> test = false.
Proof. destruct test, u; cbv [guard require raise]; split; intros [=]; done. Qed.

Lemma require_ok test msg u : require test msg = Ok u <-> test = true.
Proof. destruct test, u; cbv [guard require raise]; split; intros [=]; done. Qed.

Lemma of_option_ok {A} (o : option A) c msg a : of_option o c msg = Ok a <-> o = Some a.
Proof. destruct o; cbv [of_option raise]; split; congruence. Qed.

(** [inv_res] turns a hypothesis [... = Ok _] about a monadic computation into the facts about
    its steps. *)
Ltac inv_res1 :=
  match goal with
  | H : rbind _ _ = Ok _ |- _ =>
      apply rbind_ok in H;
      let a := fresh "a" in let H1 := fresh "H" in let H2 := fresh "H" in
      destruct H as [a [H1 H2]]
  | H : Ok _ = Ok _ |- _ => injection H; clear H; intros; subst
  | H : Err _ = Ok _ |- _ => discriminate H
  | H : Ok _ = Err _ |- _ => discriminate H
  | H : raise _ _ = Ok _ |- _ => discriminate H
  | H : rmap _ _ = Ok _ |- _ => apply rmap_ok in H; destruct H as [? [? ->]]
  | H : guard _ _ _ = Ok _ |- _ => apply guard_ok in H
  | H : require _ _ = Ok _ |- _ => apply require_ok in H
  | H : of_option _ _ _ = Ok _ |- _ => apply of_option_ok in H
  | u : unit |- _ => destruct u
  end.

Ltac inv_res := repeat (inv_res1; cbv beta in *).

(** A decidable fact about literal lists. *)
Ltac computed := apply (bool_decide_unpack _); reflexivity.
(** The members of a literal list, one by one. *)
Ltac each_of H := repeat (apply elem_of_cons in H as [->|H]); try (by apply not_elem_of_nil in H).

(** [bsimp] splits boolean hypotheses into their atoms. *)
Ltac bsimp :=
  repeat match goal with
         | H : _ || _ = false |- _ => apply orb_false_iff in H as [? ?]
         | H : _ && _ = true |- _ => apply andb_true_iff in H as [? ?]
         | H : negb _ = false |- _ => apply negb_false_iff in H
         | H : negb _ = true |- _ => apply negb_true_iff in H
         end.

Section Traversals.
Context {A B S : Type}.

Lemma mapR_ok (f : A -> res B) l ys :
  mapR f l = Ok ys <-> Forall2 (fun x y => f x = Ok y) l ys.
Proof.
  revert ys. induction l as [|x l IH]; intros ys; cbn; split.
  - intros [= <-]. constructor.
  - by inversion 1.
  - intros H. inv_res. constructor; [done|]. by apply IH.
  - inversion 1 as [|? y ? ys' Hy Hys]; subst. rewrite Hy. cbn.
    apply IH in Hys. rewrite Hys. done.
Qed.

Lemma mapR_length (f : A -> res B) l ys : mapR f l = Ok ys -> length ys = length l.
Proof. intros H%mapR_ok. symmetry. by eapply Forall2_length. Qed.

Lemma eachR_ok (f : A -> res unit) l u :
  eachR f l = Ok u <-> Forall (fun x => f x = Ok tt) l.
Proof.
  destruct u. induction l as [|x l IH]; cbn; [by split; [constructor|]|].
  rewrite rbind_ok, Forall_cons, <- IH. split.
  - by intros ([] & ? & ?).
  - intros [??]. by exists tt.
Qed.

Lemma foldR_app (f : S -> A -> res S) s l1 l2 :
  foldR f s (l1 ++ l2) = (s' <- foldR f s l1 ;; foldR f s' l2).
Proof. revert s. induction l1 as [|x l IH]; intros s; cbn; [done|]. by destruct (f s x); cbn. Qed.

(** Rule of invariants for a Python [for] loop. *)
Lemma foldR_inv (I : S -> Prop) (f : S -> A -> res S) l s s' :
  I s -> (forall s x s', x ∈ l -> I s -> f s x = Ok s' -> I s') ->
  foldR f s l = Ok s' -> I s'.
Proof.
  revert s. induction l as [|x l IH]; cbn; intros s Hs Hstep H; inv_res; [done|].
  eapply IH; [|..|exact H1]; [eapply Hstep; eauto; left|].
  intros; eapply Hstep; eauto. by right.
Qed.

(** A fact established in the iteration of an element and kept by the later ones. *)
Lemma foldR_elem (P : A -> S -> Prop) (f : S -> A -> res S) l s s' :
  (forall s x s', f s x = Ok s' -> P x s') ->
  (forall y s x s', P y s -> f s x = Ok s' -> P y s') ->
  foldR f s l = Ok s' -> Forall (fun x => P x s') l.
Proof.
  intros Hnew Hkeep. revert s. induction l as [|x l IH]; cbn; intros s H; inv_res; [done|].
  constructor; [|by eapply IH].
  eapply (foldR_inv (P x)); [by eapply Hnew | | done]. eauto.
Qed.

(** Every iteration of a loop that ends was one. *)
Lemma foldR_steps (f : S -> A -> res S) l s s' :
  foldR f s l = Ok s' -> Forall (fun x => exists s1 s2, f s1 x = Ok s2) l.
Proof. apply (foldR_elem (fun x _ => exists s1 s2, f s1 x = Ok s2)); eauto. Qed.

Lemma allR_ok (f : A -> res bool) l :
  allR f l = Ok true <-> Forall (fun x => f x = Ok true) l.
Proof.
  induction l as [|x l IH]; cbn; [by split; [constructor|]|].
  rewrite Forall_cons, <- IH, rbind_ok. split.
  - by intros ([] & ? & ?).
  - intros [? ?]. by exists true.
Qed.

Lemma allR_false (f : A -> res bool) l : allR f l = Ok false -> exists x, x ∈ l /\ f x = Ok false.
Proof.
  induction l as [|x l IH]; cbn; [done|]. intros (b & Hb & H)%rbind_ok. destruct b.
  - destruct (IH H) as (y & ? & ?). exists y. split; [by right|done].
  - exists x. split; [by left|done].
Qed.

Lemma anyR_false (f : A -> res bool) l : anyR f l = Ok false <-> Forall (fun x => f x = Ok false) l.
Proof.
  induction l as [|x l IH]; cbn [anyR]; [by split; [constructor|]|].
  rewrite Forall_cons, <- IH, rbind_ok. split.
  - by intros ([] & ? & ?).
  - intros [? ?]. by exists false.
Qed.

Lemma filterR_ok (f : A -> res bool) l r :
  filterR f l = Ok r -> Forall (fun x => f x = Ok true) r /\ sublist r l.
Proof.
  revert r. induction l as [|x l IH]; cbn; intros r H; inv_res; [by split; constructor|].
  edestruct IH as [??]; [done|]. destruct a; split; eauto using Forall_cons_2.
  all: by constructor.
Qed.
End Traversals.

(** ** Sums of integer lists *)

Fixpoint sumZ (l : list Z) : Z :=
  match l with [] => 0 | x :: l => x + sumZ l end.

Lemma sumZ_app l1 l2 : sumZ (l1 ++ l2) = sumZ l1 + sumZ l2.
Proof. induction l1 as [|x l IH]; cbn; [done|]. rewrite IH. lia. Qed.

Lemma sumZ_map_add {A} (f g : A -> Z) l :
  sumZ (map (fun x => f x + g x) l) = sumZ (map f l) + sumZ (map g l).
Proof. induction l as [|x l IH]; cbn; [done|]. rewrite IH. lia. Qed.

Lemma foldl_add_sumZ l z : foldl Z.add z l = z + sumZ l.
Proof. revert z. induction l as [|x l IH]; intros z; cbn; [lia|]. rewrite IH. lia. Qed.

Lemma sumZ_nonneg l : Forall (fun x => 0 <= x) l -> 0 <= sumZ l.
Proof. induction 1; cbn; lia. Qed.

(** ** Rotation

    [xs[k % len(xs):] + xs[:k % len(xs)]], the trial order of the benchmark drivers. *)

Definition rotate {A} (k : nat) (l : list A) : list A :=
  drop (k mod length l) l ++ take (k mod length l) l.

Lemma rotate_perm {A} k (l : list A) : rotate k l ≡ₚ l.
Proof. unfold rotate. rewrite (comm (++)). by rewrite take_drop. Qed.

Lemma rotate_length {A} k (l : list A) : length (rotate k l) = length l.
Proof. by rewrite rotate_perm. Qed.

Lemma rotate_lookup {A} k (l : list A) i :
  (i < length l)%nat -> rotate k l !! i = l !! ((i + k) mod length l)%nat.
Proof.
  intros Hi. unfold rotate. set (n := length l) in *. set (r := (k mod n)%nat).
  assert (r < n)%nat by (apply Nat.mod_upper_bound; lia).
  assert (Hm : ((i + k) mod n = (i + r) mod n)%nat) by (unfold r; by rewrite Nat.Div0.add_mod_idemp_r).
  rewrite Hm. destruct (decide (i + r < n)%nat).
  - rewrite lookup_app_l by (rewrite length_drop; lia).
    rewrite lookup_drop, Nat.mod_small by lia. f_equal. lia.
  - rewrite lookup_app_r by (rewrite length_drop; lia).
    rewrite length_drop, lookup_take_lt by lia. f_equal.
    replace (i + r)%nat with ((i + r - n) + 1 * n)%nat by lia.
    rewrite Nat.Div0.mod_add, Nat.mod_small; lia.
Qed.

(** ** Hints *)

Create HintDb zhtps.
#[export] Hint Resolve Z.le_refl Z.lt_le_incl sumZ_nonneg : zhtps.
#[export] Hint Resolve rotate_perm rotate_length : zhtps.
