(* ===== verification/PyFloat.v ===== *)
(** * Python [float]: IEEE 754 binary64 with round to nearest even

    Python's [float] is binary64.  The Standard Library's [SpecFloat] gives the format and its
    operations as plain functions on integers, so every definition below evaluates.  Added here:
    the conversions between [int] and [float], true division of two [int]s (correctly rounded from
    the exact quotient, whatever the size of the operands), the exact mixed comparisons of Python,
    decimal literals, [int()], [repr()] and fixed-point formatting. *)

From stdpp Require Import base list strings.
From Stdlib Require Import ZArith SpecFloat Lia Ascii.
From S2P Require Import Prelude.

Local Open Scope Z_scope.

Abbreviation f64 := spec_float.

Definition prec : Z := 53.
Definition emax : Z := 1024.

Definition f64_zero : f64 := S754_zero false.

Definition f64_add : f64 -> f64 -> f64 := SFadd prec emax.
Definition f64_sub : f64 -> f64 -> f64 := SFsub prec emax.
Definition f64_mul : f64 -> f64 -> f64 := SFmul prec emax.
Definition f64_div : f64 -> f64 -> f64 := SFdiv prec emax.
Definition f64_neg : f64 -> f64 := SFopp.
Definition f64_abs : f64 -> f64 := SFabs.

Definition f64_finite (x : f64) : bool :=
  match x with S754_zero _ | S754_finite _ _ _ => true | _ => false end.

Definition f64_is_zero (x : f64) : bool :=
  match x with S754_zero _ => true | _ => false end.

(** [float(z)]: nearest binary64, [None] where Python raises [OverflowError]. *)
Definition f64_of_Z (z : Z) : option f64 :=
  let x := binary_normalize prec emax z 0 false in
  if f64_finite x then Some x else None.

(** An integer as an exact, not necessarily canonical, finite number. *)
Definition exact_of_Z (z : Z) : f64 :=
  match z with
  | Z0 => S754_zero false
  | Zpos p => S754_finite false p 0
  | Zneg p => S754_finite true p 0
  end.

(** [a / b] on two [int]s with [b <> 0]: one rounding of the exact quotient. *)
Definition f64_of_quotient (a b : Z) : option f64 :=
  match a with
  | Z0 => Some f64_zero
  | _ => let x := SFdiv prec emax (exact_of_Z a) (exact_of_Z b) in
         if f64_finite x then Some x else None
  end.

(** The literal [m * 10^-d], e.g. [99.9] is [f64_lit 999 1]. *)
Definition f64_lit (m : Z) (d : nat) : f64 :=
  default S754_nan (f64_of_quotient m (10 ^ Z.of_nat d)).

(** ** Comparisons *)

(** A finite number is [m * 2^e] with a signed integer [m]. *)
Definition f64_mant (x : f64) : option (Z * Z) :=
  match x with
  | S754_zero _ => Some (0, 0)
  | S754_finite s m e => Some (if s then Zneg m else Zpos m, e)
  | _ => None
  end.

(** Exact comparison of an [int] with a [float]; [None] for a NaN. *)
Definition cmp_Z_f64 (z : Z) (x : f64) : option comparison :=
  match x with
  | S754_nan => None
  | S754_infinity s => Some (if s then Gt else Lt)
  | _ => match f64_mant x with
         | Some (m, e) =>
             Some (if 0 <=? e then Z.compare z (m * 2 ^ e) else Z.compare (z * 2 ^ (- e)) m)
         | None => None
         end
  end.

Definition f64_cmp : f64 -> f64 -> option comparison := SFcompare.

Definition cmp_is_lt (c : option comparison) : bool := match c with Some Lt => true | _ => false end.
Definition cmp_is_le (c : option comparison) : bool :=
  match c with Some Lt | Some Eq => true | _ => false end.
Definition cmp_is_eq (c : option comparison) : bool := match c with Some Eq => true | _ => false end.
Definition cmp_flip (c : option comparison) : option comparison :=
  match c with Some c => Some (CompOpp c) | None => None end.

(** ** Conversion to [int] *)

(** [int(x)]: truncation toward zero; [None] for infinities and NaN. *)
Definition f64_trunc (x : f64) : option Z :=
  match f64_mant x with
  | Some (m, e) => Some (if 0 <=? e then m * 2 ^ e else Z.quot m (2 ^ (- e)))
  | None => None
  end.

(** [n / d] rounded half to even, for [0 <= n] and [0 < d]. *)
Definition round_half_even (n d : Z) : Z :=
  let q := n / d in
  let r := 2 * (n mod d) in
  if r <? d then q else if d <? r then q + 1 else if Z.even q then q else q + 1.

(** [|x| * 10^p] rounded half to even, the digits of [format(x, '.pf')]. *)
Definition f64_scaled (x : f64) (p : Z) : option Z :=
  match f64_mant (f64_abs x) with
  | Some (m, e) =>
      Some (if 0 <=? e then round_half_even (m * 2 ^ e * 10 ^ p) 1
            else round_half_even (m * 10 ^ p) (2 ^ (- e)))
  | None => None
  end.

(** Sign of the representation ([-0.0] is negative). *)
Definition f64_neg_sign (x : f64) : bool :=
  match x with
  | S754_zero s | S754_infinity s | S754_finite s _ _ => s
  | S754_nan => false
  end.

(** ** Decimal digits of an integer *)

Definition digit (z : Z) : Ascii.ascii := Ascii.ascii_of_N (Z.to_N (48 + z)).

Fixpoint digits_fuel (fuel : nat) (z : Z) (acc : string) : string :=
  match fuel with
  | O => acc
  | S fuel =>
      let acc := String (digit (z mod 10)) acc in
      if z / 10 =? 0 then acc else digits_fuel fuel (z / 10) acc
  end.

(** Decimal digits of [z >= 0].  A number with [k] bits has at most [k] decimal digits. *)
Definition digits_of_Z (z : Z) : string := digits_fuel (S (Z.to_nat (Z.log2 z))) z "".

Definition string_of_Z (z : Z) : string :=
  if z <? 0 then String "-"%char (digits_of_Z (- z)) else digits_of_Z z.

(** ** [repr(float)]

    The shortest decimal that reads back as the same number.  [shortest_from] tries 1 to 17
    significant digits; 17 always suffice for binary64. *)

Fixpoint strip_zeros (fuel : nat) (d e : Z) : Z * Z :=
  match fuel with
  | O => (d, e)
  | S fuel => if (d =? 0) || negb (d mod 10 =? 0) then (d, e) else strip_zeros fuel (d / 10) (e + 1)
  end.

(** Position of the leading decimal digit of a positive [n/d]: [10^k <= n/d < 10^(k+1)]. *)
Fixpoint lead_up (fuel : nat) (k n d : Z) : Z :=
  match fuel with
  | O => k
  | S fuel => if 10 * d <=? n then lead_up fuel (k + 1) n (10 * d) else k
  end.
Fixpoint lead_down (fuel : nat) (k n d : Z) : Z :=
  match fuel with
  | O => k
  | S fuel => if n <? d then lead_down fuel (k - 1) (10 * n) d else k
  end.
Definition lead (n d : Z) : Z :=
  if d <=? n then lead_up 400 0 n d else lead_down 400 0 n d.

Definition same_f64 (x y : f64) : bool := cmp_is_eq (f64_cmp x y).

(** The number [d * 10^e] rounded to binary64. *)
Definition f64_of_dec (d e : Z) : option f64 :=
  if 0 <=? e then f64_of_Z (d * 10 ^ e) else f64_of_quotient d (10 ^ (- e)).

Fixpoint shortest_from (fuel : nat) (p : Z) (x : f64) (n d k : Z) : Z * Z :=
  let e := k - p + 1 in
  let c := if 0 <=? e then round_half_even n (d * 10 ^ e) else round_half_even (n * 10 ^ (- e)) d in
  match fuel with
  | O => (c, e)
  | S fuel =>
      match f64_of_dec c e with
      | Some y => if same_f64 x y then (c, e) else shortest_from fuel (p + 1) x n d k
      | None => shortest_from fuel (p + 1) x n d k
      end
  end.

(** Digits and exponent of the shortest decimal of a positive finite [x]. *)
Definition shortest (x : f64) : Z * Z :=
  match f64_mant x with
  | Some (m, e) =>
      let n := if 0 <=? e then m * 2 ^ e else m in
      let d := if 0 <=? e then 1 else 2 ^ (- e) in
      let '(c, e) := shortest_from 16 1 x n d (lead n d) in strip_zeros 20 c e
  | None => (0, 0)
  end.

Fixpoint zeros (n : nat) : string := match n with O => "" | S n => String "0"%char (zeros n) end.

Definition pad_left (n : nat) (s : string) : string := zeros (n - String.length s) +:+ s.

Definition repr_pos (x : f64) : string :=
  let '(c, e) := shortest x in
  let ds := digits_of_Z c in
  let n := Z.of_nat (String.length ds) in
  let k := n + e - 1 in
  if (k <? -4) || (16 <=? k) then
    let m := match ds with
             | String a EmptyString => ds
             | String a r => String a ("." +:+ r)
             | EmptyString => ds
             end in
    m +:+ "e" +:+ (if k <? 0 then "-" else "+") +:+ pad_left 2 (digits_of_Z (Z.abs k))
  else if 0 <=? e then ds +:+ zeros (Z.to_nat e) +:+ ".0"
  else if 0 <=? k then
    String.substring 0 (Z.to_nat (k + 1)) ds +:+ "." +:+
    String.substring (Z.to_nat (k + 1)) (String.length ds) ds
  else "0." +:+ zeros (Z.to_nat (- k - 1)) +:+ ds.

Definition repr_f64 (x : f64) : string :=
  match x with
  | S754_nan => "nan"
  | S754_infinity s => if s then "-inf" else "inf"
  | S754_zero s => if s then "-0.0" else "0.0"
  | S754_finite s m e => (if s then "-" else "") +:+ repr_pos (S754_finite false m e)
  end.

(** ** Lemmas *)

Lemma cmp_Z_f64_int z w x :
  f64_mant x = Some (w, 0) -> cmp_Z_f64 z x = Some (Z.compare z w).
Proof.
  destruct x as [s| | |s m e]; cbn; try done.
  - by intros [= <-].
  - intros [= <- ->]. cbn. by rewrite Z.mul_1_r.
Qed.

Lemma f64_of_quotient_finite a b x : f64_of_quotient a b = Some x -> f64_finite x = true.
Proof.
  unfold f64_of_quotient. intros H. destruct a; [by injection H as <-|..].
  all: by case_match; simplify_eq.
Qed.

Lemma f64_of_Z_finite z x : f64_of_Z z = Some x -> f64_finite x = true.
Proof. unfold f64_of_Z. intros H. by case_match; simplify_eq. Qed.

(** Truncation is monotone in the sign: a nonnegative number truncates to a nonnegative [int]. *)
Lemma f64_trunc_nonneg x z : f64_neg_sign x = false -> f64_trunc x = Some z -> 0 <= z.
Proof.
  unfold f64_trunc. destruct x as [s| | |s m e]; cbn; try done; intros ->; [intros [= <-]; done|].
  destruct (0 <=? e) eqn:He; intros [= <-].
  - apply Z.leb_le in He. assert (0 <= 2 ^ e) by (apply Z.pow_nonneg; lia). nia.
  - apply Z.quot_pos; [lia|]. apply Z.pow_pos_nonneg; lia.
Qed.

(** *** NaN

    The operations on numbers that are not NaN give a NaN only for the undefined combinations of infinities
    and zeros. *)

Definition is_nan (x : f64) : bool := match x with S754_nan => true | _ => false end.

Lemma f64_cmp_refl x : is_nan x = false -> f64_cmp x x = Some Eq.
Proof.
  destruct x as [s|s| |s m e]; cbn; try done; [by destruct s|]. intros _. rewrite Z.compare_refl.
  change (Pos.compare_cont Eq m m) with (Pos.compare m m). rewrite Pos.compare_refl. by destruct s.
Qed.
Lemma finite_not_nan x : f64_finite x = true -> is_nan x = false.
Proof. by destruct x. Qed.

Lemma shr_1_nonneg r : 0 <= shr_m r -> 0 <= shr_m (shr_1 r).
Proof. destruct r as [[|[p|p|]|p] b c]; cbn; lia. Qed.
Lemma iter_shr_nonneg p r : 0 <= shr_m r -> 0 <= shr_m (iter_pos shr_1 p r).
Proof. revert r. induction p; intros r Hr; cbn; auto using shr_1_nonneg. Qed.
Lemma shr_fexp_nonneg m e l : 0 <= m -> 0 <= shr_m (shr_fexp prec emax m e l).1.
Proof.
  intros Hm. unfold shr_fexp, shr. assert (0 <= shr_m (shr_record_of_loc m l)) by by destruct l as [|[]].
  case_match; cbn; [done| |done]. by apply iter_shr_nonneg.
Qed.
Lemma round_nonneg m l : 0 <= m -> 0 <= round_nearest_even m l.
Proof. destruct l as [|[]]; cbn; intros; try case_match; lia. Qed.

Lemma round_not_nan s m e l : 0 <= m -> is_nan (binary_round_aux prec emax s m e l) = false.
Proof.
  intros Hm. unfold binary_round_aux. pose proof (shr_fexp_nonneg m e l Hm) as H1.
  destruct (shr_fexp prec emax m e l) as [r1 e1]. cbn in H1.
  pose proof (shr_fexp_nonneg (round_nearest_even (shr_m r1) (loc_of_shr_record r1)) e1 loc_Exact (round_nonneg _ _ H1)) as H2.
  destruct (shr_fexp prec emax _ e1 loc_Exact) as [r2 e2]. cbn in H2.
  destruct (shr_m r2); [done|by case_match|lia].
Qed.
Lemma normalize_not_nan m e s : is_nan (binary_normalize prec emax m e s) = false.
Proof.
  unfold binary_normalize, binary_round. destruct m as [|p|p]; [done|..];
    destruct (shl_align _ _ _); by apply round_not_nan.
Qed.

Lemma f64_add_not_nan x y : f64_finite x = true -> f64_finite y = true -> is_nan (f64_add x y) = false.
Proof. destruct x as [sx| | |sx mx ex], y as [sy| | |sy my ey]; cbn; try done; [by destruct sx, sy|]. intros. apply normalize_not_nan. Qed.
Lemma f64_sub_not_nan x y : f64_finite x = true -> f64_finite y = true -> is_nan (f64_sub x y) = false.
Proof. destruct x as [sx| | |sx mx ex], y as [sy| | |sy my ey]; cbn; try done; [by destruct sx, sy|]. intros. apply normalize_not_nan. Qed.

(** A number that is neither NaN nor zero nor infinite. *)
Definition is_regular (x : f64) : bool := match x with S754_finite _ _ _ => true | _ => false end.
Lemma f64_mul_not_nan x y : is_nan x = false -> is_regular y = true -> is_nan (f64_mul x y) = false.
Proof. destruct x, y; cbn; try done. intros. by apply round_not_nan. Qed.
Lemma f64_div_not_nan x y : is_nan x = false -> is_regular y = true -> is_nan (f64_div x y) = false.
Proof.
  destruct x as [sx| sx| |sx mx ex], y as [sy|sy| |sy my ey]; cbn [f64_div SFdiv]; try done. intros _ _.
  destruct (SFdiv_core_binary _ _ _ _ _ _) as [[q e] l] eqn:E. apply round_not_nan. unfold SFdiv_core_binary in E.
  match type of E with context [Z.div_eucl ?a ?b] => assert (Ha : 0 <= a) end.
  { match goal with |- _ <= match ?s with _ => _ end => generalize s end.
    intros [|s|s]; [lia|apply Z.shiftl_nonneg; lia|lia]. }
  match type of E with context [Z.div_eucl ?a ?b] => pose proof (Z.div_pos a b Ha ltac:(lia)) as Hq end.
  unfold Z.div in Hq. destruct (Z.div_eucl _ _) as [q' r]. by injection E as <- _ _.
Qed.
(** A finite number over a number that is not zero. *)
Lemma f64_div_finite x y : f64_finite x = true -> is_nan y = false -> f64_is_zero y = false -> is_nan (f64_div x y) = false.
Proof.
  intros Hx Hy Hz. destruct y as [sy|sy| |sy my ey]; try done; [by destruct x|].
  apply f64_div_not_nan; [by apply finite_not_nan|done].
Qed.

(** ** Checks against CPython *)

Example repr_examples :
  map repr_f64 [f64_lit 1 1; f64_lit 999 1; f64_lit 100 0; f64_lit 1 5; f64_lit 123456789 3;
                f64_add (f64_lit 1 1) (f64_lit 2 1); default S754_nan (f64_of_quotient 1 3);
                default S754_nan (f64_of_Z (10 ^ 22)); f64_neg (f64_lit 25 1)]
  = ["0.1"; "99.9"; "100.0"; "1e-05"; "123456.789"; "0.30000000000000004"; "0.3333333333333333";
     "1e+22"; "-2.5"].
Proof. vm_compute. reflexivity. Qed.

Example big_quotient :
  f64_of_quotient 9007199254740993 3 = f64_of_Z 3002399751580331.
Proof. vm_compute. reflexivity. Qed.
