(* ===== verification/PyText.v ===== *)
(** * Python [str] operations

    Strings are byte strings holding UTF-8, so that concatenation, equality, prefix tests and code
    point order are those of Python's [str]; the operations that look at characters (digits, white
    space, separators, regular expressions) only ever compare with ASCII characters. *)

From stdpp Require Import base list strings.
From Stdlib Require Import ZArith Lia Ascii.
From S2P Require Import Prelude PyFloat.

Local Open Scope Z_scope.

(** ** Characters *)

Definition code (a : ascii) : Z := Z.of_N (N_of_ascii a).

Definition between (lo hi : Z) (a : ascii) : bool := (lo <=? code a) && (code a <=? hi).
Definition is_digit : ascii -> bool := between 48 57.
Definition is_upper : ascii -> bool := between 65 90.
Definition is_lower : ascii -> bool := between 97 122.
Definition is_alpha (a : ascii) : bool := is_upper a || is_lower a.
Definition is_alnum (a : ascii) : bool := is_alpha a || is_digit a.
Definition is_hex (a : ascii) : bool := is_digit a || between 65 70 a || between 97 102 a.
(** White space of [str.split()] and [str.strip()]. *)
Definition is_space (a : ascii) : bool := between 9 13 a || between 28 32 a.
(** Line boundaries of [str.splitlines()]. *)
Definition is_newline (a : ascii) : bool := between 10 13 a || between 28 30 a.

Definition char_in (a : ascii) (l : list ascii) : bool := existsb (Ascii.eqb a) l.

Fixpoint str_forall (p : ascii -> bool) (s : string) : bool :=
  match s with EmptyString => true | String a s => p a && str_forall p s end.

Definition str_exists (p : ascii -> bool) (s : string) : bool :=
  negb (str_forall (fun a => negb (p a)) s).

Fixpoint str_count (p : ascii -> bool) (s : string) : nat :=
  match s with EmptyString => 0 | String a s => (if p a then 1 else 0) + str_count p s end.

(** ** Prefixes, search, replacement *)

Fixpoint startswith (p s : string) : bool :=
  match p, s with
  | EmptyString, _ => true
  | String a p, String b s => Ascii.eqb a b && startswith p s
  | _, _ => false
  end.

Fixpoint str_drop (n : nat) (s : string) : string :=
  match n, s with O, _ => s | S n, String _ s => str_drop n s | S _, EmptyString => "" end.

Fixpoint str_take (n : nat) (s : string) : string :=
  match n, s with O, _ => "" | S n, String a s => String a (str_take n s) | S _, EmptyString => "" end.

Definition endswith (p s : string) : bool :=
  let n := (String.length s - String.length p)%nat in
  (String.length p <=? String.length s)%nat && String.eqb (str_drop n s) p.

(** [sub in s] *)
Fixpoint str_contains (sub s : string) : bool :=
  startswith sub s || match s with EmptyString => false | String _ s => str_contains sub s end.

(** [s.replace(old, new)] and [s.count(old)] for a nonempty [old]: non-overlapping, from the
    left.  [skip] counts the characters of a match still to be consumed. *)
Fixpoint replace_go (old new : string) (skip : nat) (s : string) : string :=
  match s with
  | EmptyString => ""
  | String a r =>
      match skip with
      | S skip => replace_go old new skip r
      | O => if startswith old s then new +:+ replace_go old new (String.length old - 1) r
             else String a (replace_go old new 0 r)
      end
  end.
Definition str_replace (old new s : string) : string := replace_go old new 0 s.

Fixpoint count_go (old : string) (skip : nat) (s : string) : Z :=
  match s with
  | EmptyString => 0
  | String a r =>
      match skip with
      | S skip => count_go old skip r
      | O => if startswith old s then 1 + count_go old (String.length old - 1) r
             else count_go old 0 r
      end
  end.
Definition str_count_sub (old s : string) : Z := count_go old 0 s.

(** ** Splitting and joining *)

(** Put a character in front of the first field of a split. *)
Definition cons_head (a : ascii) (l : list string) : list string :=
  match l with [] => [String a ""] | h :: t => String a h :: t end.

(** [s.split(c)] for a one-character separator; always at least one field. *)
Fixpoint split_char (c : ascii) (s : string) : list string :=
  match s with
  | EmptyString => [""]
  | String a s => if Ascii.eqb a c then "" :: split_char c s else cons_head a (split_char c s)
  end.

(** [s.split(c, 1)] when [c] occurs in [s]: the text before and after its first occurrence. *)
Fixpoint split_once (c : ascii) (s : string) : option (string * string) :=
  match s with
  | EmptyString => None
  | String a s =>
      if Ascii.eqb a c then Some ("", s)
      else match split_once c s with Some (h, t) => Some (String a h, t) | None => None end
  end.

(** [s.rsplit(c, 1)] when [c] occurs in [s]: around its last occurrence. *)
Fixpoint rsplit_once (c : ascii) (s : string) : option (string * string) :=
  match s with
  | EmptyString => None
  | String a s =>
      match rsplit_once c s with
      | Some (h, t) => Some (String a h, t)
      | None => if Ascii.eqb a c then Some ("", s) else None
      end
  end.

(** [sep.join(l)] *)
Fixpoint join (sep : string) (l : list string) : string :=
  match l with
  | [] => ""
  | [x] => x
  | x :: l => x +:+ sep +:+ join sep l
  end.

(** [s.split()]: maximal runs of non-space characters.  [cur] is the run being read. *)
Fixpoint split_ws_go (cur : option string) (s : string) : list string :=
  match s with
  | EmptyString => match cur with Some w => [w] | None => [] end
  | String a s =>
      if is_space a then match cur with Some w => w :: split_ws_go None s | None => split_ws_go None s end
      else split_ws_go (Some (default "" cur +:+ String a "")) s
  end.
Definition split_ws (s : string) : list string := split_ws_go None s.

Fixpoint lstrip (s : string) : string :=
  match s with
  | EmptyString => ""
  | String a r => if is_space a then lstrip r else s
  end.
Fixpoint str_rev_go (s acc : string) : string :=
  match s with EmptyString => acc | String a s => str_rev_go s (String a acc) end.
Definition str_rev (s : string) : string := str_rev_go s "".
(** [s.strip()] *)
Definition strip (s : string) : string := str_rev (lstrip (str_rev (lstrip s))).

(** [s.splitlines()]; "\r\n" is one boundary and a final boundary opens no empty line. *)
Fixpoint splitlines_go (cur : string) (s : string) : list string :=
  match s with
  | EmptyString => if String.eqb cur "" then [] else [cur]
  | String a r =>
      if is_newline a then
        cur :: match r with
               | String b r' => if Ascii.eqb a "013" && Ascii.eqb b "010" then splitlines_go "" r'
                                else splitlines_go "" r
               | EmptyString => []
               end
      else splitlines_go (cur +:+ String a "") r
  end.
Definition splitlines (s : string) : list string := splitlines_go "" s.

(** ** [int(text)] *)

Definition digit_value (a : ascii) : Z :=
  if is_digit a then code a - 48 else if is_upper a then code a - 55 else code a - 87.

(** Digits with single underscores between them; [prev] tells that a digit came before. *)
Fixpoint int_digits (base : Z) (prev : bool) (acc : Z) (s : string) : option Z :=
  match s with
  | EmptyString => if prev then Some acc else None
  | String a s =>
      if (is_hex a || is_alpha a) && (digit_value a <? base)
      then int_digits base true (acc * base + digit_value a) s
      else if Ascii.eqb a "_" && prev then int_digits base false acc s else None
  end.

Definition signed (f : string -> option Z) (s : string) : option Z :=
  match s with
  | String "-" r => Z.opp <$> f r
  | String "+" r => f r
  | _ => f s
  end.

(** [int(s)]; [None] where Python raises [ValueError]. *)
Definition parse_int (s : string) : option Z := signed (int_digits 10 false 0) (strip s).

(** [int(s, 16)], with its optional [0x] prefix. *)
Definition parse_hex (s : string) : option Z :=
  signed (fun r => match r with
                   | String "0" (String "x" r') | String "0" (String "X" r') =>
                       match r' with
                       | String "_" r'' => int_digits 16 false 0 r''
                       | _ => int_digits 16 false 0 r'
                       end
                   | _ => int_digits 16 false 0 r
                   end) (strip s).

Definition py_int (s : string) : res Z :=
  of_option (parse_int s) ValueError ("invalid literal for int() with base 10: " +:+ s).

Definition py_int16 (s : string) : res Z :=
  of_option (parse_hex s) ValueError ("invalid literal for int() with base 16: " +:+ s).

(** ** Fixed-point and grouped formatting: [f'{x:.pf}'], [f'{x:,.pf}'], [f'{n:,}'] *)

(** Thousands separators in a digit string. *)
Definition group (s : string) : string :=
  str_rev ((fix go (k : nat) (s : string) {struct s} : string :=
              match s with
              | EmptyString => ""
              | String a r => match k with
                              | O => String "," (String a (go 2%nat r))
                              | S k => String a (go k r)
                              end
              end) 3%nat (str_rev s)).

Definition format_int_grouped (z : Z) : string :=
  (if z <? 0 then "-" else "") +:+ group (digits_of_Z (Z.abs z)).

Definition fixed_digits (grouped : bool) (p : nat) (n : Z) : string :=
  let ds := pad_left (S p) (digits_of_Z n) in
  let k := (String.length ds - p)%nat in
  let ip := str_take k ds in
  (if grouped then group ip else ip) +:+ match p with O => "" | _ => "." +:+ str_drop k ds end.

Definition format_f64 (grouped : bool) (p : nat) (x : f64) : string :=
  match f64_scaled x (Z.of_nat p) with
  | Some n => (if f64_neg_sign x then "-" else "") +:+ fixed_digits grouped p n
  | None => repr_f64 x
  end.

(** [f'{s:>n}'] and [f'{s:<n}'] *)
Fixpoint blanks (n : nat) : string := match n with O => "" | S n => String " " (blanks n) end.
Definition rjust (n : nat) (s : string) : string := blanks (n - String.length s) +:+ s.
Definition ljust (n : nat) (s : string) : string := s +:+ blanks (n - String.length s).

(** ** Lemmas *)

Lemma str_app_nil (s : string) : s +:+ "" = s.
Proof. induction s as [|a s IH]; cbn; [done|]. by rewrite IH. Qed.

Lemma str_app_cons a (s t : string) : String a s +:+ t = String a (s +:+ t).
Proof. done. Qed.

Lemma str_app_assoc (s t u : string) : (s +:+ t) +:+ u = s +:+ (t +:+ u).
Proof. induction s as [|a s IH]; cbn; [done|]. by rewrite IH. Qed.

Lemma str_forall_app p s t : str_forall p (s +:+ t) = str_forall p s && str_forall p t.
Proof. induction s as [|a s IH]; cbn; [done|]. by rewrite IH, andb_assoc. Qed.

Lemma str_forall_impl (p q : ascii -> bool) s :
  (forall a, p a = true -> q a = true) -> str_forall p s = true -> str_forall q s = true.
Proof.
  intros Hpq. induction s as [|a s IH]; cbn; [done|]. rewrite !andb_true_iff.
  intros [? ?]. auto.
Qed.

Lemma str_count_app p s t : str_count p (s +:+ t) = (str_count p s + str_count p t)%nat.
Proof. induction s as [|a s IH]; cbn; [done|]. rewrite IH. lia. Qed.

Lemma str_count_0 p s : str_forall (fun a => negb (p a)) s = true -> str_count p s = 0%nat.
Proof.
  induction s as [|a s IH]; cbn; [done|]. rewrite andb_true_iff, negb_true_iff.
  intros [-> ?]. auto.
Qed.

Lemma join_cons sep x y l : join sep (x :: y :: l) = x +:+ sep +:+ join sep (y :: l).
Proof. done. Qed.

Lemma str_forall_join p sep l :
  str_forall p sep = true -> Forall (fun s => str_forall p s = true) l ->
  str_forall p (join sep l) = true.
Proof.
  intros Hsep. induction 1 as [|x l Hx Hl IH]; [done|]. destruct l as [|y l]; [done|].
  rewrite join_cons, !str_forall_app, Hx, Hsep. done.
Qed.

(** Splitting loses nothing... *)
Lemma split_char_nonnil c s : split_char c s <> [].
Proof. destruct s as [|a s]; cbn; [done|]. case_match; [done|]. by destruct (split_char c s). Qed.

Lemma join_split_char c s : join (String c "") (split_char c s) = s.
Proof.
  induction s as [|a s IH]; [done|]. cbn [split_char].
  pose proof (split_char_nonnil c s) as Hnn.
  destruct (split_char c s) as [|h t] eqn:E; [done|]. destruct (Ascii.eqb_spec a c) as [->|Hne].
  - rewrite join_cons, IH. done.
  - cbn [cons_head]. destruct t as [|h' t]; [cbn in *; by rewrite IH|].
    rewrite join_cons, str_app_cons, <- join_cons. by rewrite IH.
Qed.

(** ... and joining fields without the separator is undone by splitting. *)
Lemma split_char_app c x s :
  str_forall (fun a => negb (Ascii.eqb a c)) x = true ->
  split_char c (x +:+ String c s) = x :: split_char c s.
Proof.
  induction x as [|a x IH]; cbn.
  - by rewrite Ascii.eqb_refl.
  - rewrite andb_true_iff, negb_true_iff. intros [Ha Hx].
    rewrite Ha. rewrite IH by done. done.
Qed.

Lemma split_char_none c x :
  str_forall (fun a => negb (Ascii.eqb a c)) x = true -> split_char c x = [x].
Proof.
  induction x as [|a x IH]; cbn; [done|].
  rewrite andb_true_iff, negb_true_iff. intros [Ha Hx]. by rewrite Ha, IH.
Qed.

Lemma split_char_join c l :
  l <> [] -> Forall (fun x => str_forall (fun a => negb (Ascii.eqb a c)) x = true) l ->
  split_char c (join (String c "") l) = l.
Proof.
  intros Hl H. induction H as [|x l Hx H IH]; [done|]. destruct l as [|y l].
  - by apply split_char_none.
  - rewrite join_cons. change (String c "" +:+ ?r) with (String c r).
    rewrite split_char_app by done. by rewrite IH.
Qed.

(** *** Decimal numerals *)

Lemma str_length_app (s t : string) :
  String.length (s +:+ t) = (String.length s + String.length t)%nat.
Proof. induction s as [|a s IH]; cbn; [done|]. by rewrite IH. Qed.

Lemma code_digit z : 0 <= z < 10 -> code (digit z) = 48 + z.
Proof.
  intros Hz. unfold code, digit. rewrite N_ascii_embedding by lia. lia.
Qed.

Lemma is_digit_digit z : 0 <= z < 10 -> is_digit (digit z) = true.
Proof. intros Hz. unfold is_digit, between. rewrite code_digit by done. lia. Qed.

Lemma digits_fuel_app fuel z acc : digits_fuel fuel z acc = digits_fuel fuel z "" +:+ acc.
Proof.
  revert z acc. induction fuel as [|fuel IH]; intros z acc; cbn; [done|].
  case_match; [done|]. rewrite IH, (IH _ (String _ "")), str_app_assoc. done.
Qed.

Lemma int_digits_app base prev acc s t v :
  int_digits base prev acc s = Some v -> int_digits base prev acc (s +:+ t) = int_digits base true v t.
Proof.
  revert prev acc. induction s as [|a s IH]; intros prev acc; cbn.
  - destruct prev; [|done]. by intros [= <-].
  - case_match; [apply IH|]. case_match; [apply IH|done].
Qed.

Lemma int_digits_digit prev acc z :
  0 <= z < 10 -> int_digits 10 prev acc (String (digit z) "") = Some (acc * 10 + z).
Proof.
  intros Hz. cbn. assert (is_hex (digit z) = true) as ->
    by (unfold is_hex; by rewrite is_digit_digit).
  assert (digit_value (digit z) = z) as ->.
  { unfold digit_value. rewrite is_digit_digit, code_digit by done. lia. }
  cbn. by replace (z <? 10) with true by lia.
Qed.

Lemma int_digits_true_false acc s v :
  int_digits 10 false acc s = Some v -> int_digits 10 true acc s = Some v.
Proof. destruct s as [|a s]; cbn; [done|]. case_match; [done|]. by rewrite andb_false_r. Qed.

Lemma digits_fuel_spec fuel z acc :
  0 <= z < 2 ^ Z.of_nat fuel -> (0 < fuel)%nat ->
  int_digits 10 false acc (digits_fuel fuel z "") =
    Some (acc * 10 ^ (Z.of_nat (String.length (digits_fuel fuel z ""))) + z)
  /\ str_forall is_digit (digits_fuel fuel z "") = true.
Proof.
  revert z acc. induction fuel as [|fuel IH]; intros z acc Hz Hf; [lia|].
  assert (Hm : 0 <= z mod 10 < 10) by (apply Z.mod_pos_bound; lia).
  cbn [digits_fuel]. destruct (Z.eqb_spec (z / 10) 0) as [H0|H0].
  - rewrite int_digits_digit by done. cbn. rewrite is_digit_digit by done.
    split; [|done]. f_equal. change (10 ^ 1) with 10. pose proof (Z.div_mod z 10). lia.
  - rewrite digits_fuel_app.
    assert (0 < z / 10) by (pose proof (Z.div_pos z 10); lia).
    assert (Hfuel : (0 < fuel)%nat).
    { destruct fuel; [|lia]. cbn in Hz. assert (z = 0 \/ z = 1) as [->| ->] by lia; done. }
    destruct (IH (z / 10) acc) as [IH1 IH2]; [|done|].
    { split; [lia|]. rewrite Nat2Z.inj_succ, Z.pow_succ_r in Hz by lia.
      apply Z.div_lt_upper_bound; lia. }
    rewrite (int_digits_app _ _ _ _ _ _ IH1), int_digits_digit by done.
    rewrite str_forall_app, IH2. cbn. rewrite is_digit_digit by done. split; [|done].
    rewrite str_length_app. cbn. rewrite Nat2Z.inj_add, Z.pow_add_r by lia.
    change (10 ^ Z.of_nat 1) with 10. f_equal. pose proof (Z.div_mod z 10). lia.
Qed.

Lemma str_rev_go_app s acc : str_rev_go s acc = str_rev s +:+ acc.
Proof.
  unfold str_rev. revert acc. induction s as [|a s IH]; intros acc; cbn; [done|].
  rewrite IH, (IH (String a "")), str_app_assoc. done.
Qed.

Lemma str_rev_cons a s : str_rev (String a s) = str_rev s +:+ String a "".
Proof. unfold str_rev at 1. cbn. apply str_rev_go_app. Qed.

Lemma str_rev_app s t : str_rev (s +:+ t) = str_rev t +:+ str_rev s.
Proof.
  induction s as [|a s IH]; cbn [String.append].
  - by rewrite str_app_nil.
  - rewrite !str_rev_cons, IH, str_app_assoc. done.
Qed.

Lemma str_rev_involutive s : str_rev (str_rev s) = s.
Proof.
  induction s as [|a s IH]; [done|]. rewrite str_rev_cons, str_rev_app, IH. done.
Qed.

Lemma str_forall_rev p s : str_forall p (str_rev s) = str_forall p s.
Proof.
  induction s as [|a s IH]; [done|]. rewrite str_rev_cons, str_forall_app, IH. cbn.
  rewrite andb_true_r. apply andb_comm.
Qed.

Definition no_space (s : string) : bool := str_forall (fun a => negb (is_space a)) s.

Lemma lstrip_no_space s : no_space s = true -> lstrip s = s.
Proof.
  destruct s as [|a s]; [done|]. unfold no_space. cbn.
  rewrite andb_true_iff, negb_true_iff. by intros [-> _].
Qed.

Lemma strip_no_space s : no_space s = true -> strip s = s.
Proof.
  intros H. unfold strip. rewrite (lstrip_no_space s) by done.
  rewrite lstrip_no_space; [apply str_rev_involutive|]. unfold no_space. by rewrite str_forall_rev.
Qed.

Lemma is_digit_not_space a : is_digit a = true -> is_space a = false.
Proof. unfold is_digit, is_space, between. lia. Qed.

Lemma digits_of_Z_spec z :
  0 <= z -> int_digits 10 false 0 (digits_of_Z z) = Some z
            /\ str_forall is_digit (digits_of_Z z) = true.
Proof.
  intros Hz. destruct (digits_fuel_spec (S (Z.to_nat (Z.log2 z))) z 0) as [H1 H2]; [|lia|].
  - split; [done|]. rewrite Nat2Z.inj_succ, Z2Nat.id by apply Z.log2_nonneg.
    destruct (decide (z = 0)) as [->|]; [done|]. apply Z.log2_spec. lia.
  - split; [|done]. unfold digits_of_Z. rewrite H1. done.
Qed.

Lemma digits_of_Z_nonempty z : digits_of_Z z <> "".
Proof.
  unfold digits_of_Z. cbn. case_match; [done|]. rewrite digits_fuel_app.
  by destruct (digits_fuel _ _ _).
Qed.

(** [int(str(z)) == z] *)
Lemma parse_int_string_of_Z z : parse_int (string_of_Z z) = Some z.
Proof.
  destruct (digits_of_Z_spec (Z.abs z)) as [Hp Hd]; [lia|].
  assert (Hs : no_space (digits_of_Z (Z.abs z)) = true).
  { eapply str_forall_impl; [|exact Hd]. intros a Ha. by rewrite is_digit_not_space. }
  unfold parse_int, string_of_Z. destruct (Z.ltb_spec z 0).
  - rewrite Z.abs_neq in * by lia. rewrite strip_no_space; [|done].
    change (Z.opp <$> int_digits 10 false 0 (digits_of_Z (- z)) = Some z).
    rewrite Hp. cbn. f_equal. lia.
  - rewrite Z.abs_eq in * by lia. rewrite strip_no_space by done.
    destruct (digits_of_Z z) as [|a s] eqn:E; [done|]. cbn in Hd.
    apply andb_true_iff in Hd as [Hd _]. unfold signed.
    destruct a as [[] [] [] [] [] [] [] []]; done.
Qed.

(** *** Round-trip and formatting checks against CPython *)

Example split_examples :
  (split_char "," "1,2-3,", split_ws "  a b	c ", splitlines "x

y
", strip " 7
", rsplit_once ")" "12 (a) b) S 1", str_replace "ab" "-" "xababy")
  = (["1"; "2-3"; ""], ["a"; "b"; "c"], ["x"; ""; "y"], "7", Some ("12 (a) b", " S 1"), "x--y").
Proof. vm_compute. reflexivity. Qed.

Example int_examples :
  (parse_int " -12
", parse_int "1_000", parse_int "", parse_int "1__0", parse_int "0x1", parse_hex "00000000", parse_hex "ff")
  = (Some (-12), Some 1000, None, None, None, Some 0, Some 255).
Proof. vm_compute. reflexivity. Qed.

Example format_examples :
  (format_int_grouped 1234567, format_f64 true 0 (f64_lit 12345675 1), format_f64 false 3 (f64_lit 5 4),
   format_f64 true 2 (f64_lit 999999 2))
  = ("1,234,567", "1,234,568", "0.001", "9,999.99").
Proof. vm_compute. reflexivity. Qed.
