(* ===== verification/PyVal.v ===== *)
(** * Python values and expressions

    The benchmark scripts compute on JSON documents and on dictionaries of numbers, so their
    models compute on dynamically typed values.  A Python expression becomes a term of type
    [expr], a value or the exception its evaluation raises, and the operators below evaluate their
    operands from left to right.  A dictionary is its list of items in insertion order. *)

From stdpp Require Import base list strings.
From Stdlib Require Import ZArith SpecFloat Lia Ascii.
From S2P Require Import Prelude PyFloat PyText.

Local Open Scope Z_scope.

#[warnings="-register-all"]
Inductive val :=
  | VNone
  | VBool (b : bool)
  | VInt (z : Z)
  | VFloat (x : f64)
  | VStr (s : string)
  | VList (l : list val)
  | VTuple (l : list val)
  | VDict (d : list (val * val)).

Definition expr := res val.

(** ** Numbers *)

Inductive num := NI (z : Z) | NF (x : f64).

Definition num_of (v : val) : option num :=
  match v with
  | VBool b => Some (NI (if b then 1 else 0))
  | VInt z => Some (NI z)
  | VFloat x => Some (NF x)
  | _ => None
  end.

(** Comparison of numbers is exact, also between [int] and [float]. *)
Definition num_cmp (a b : num) : option comparison :=
  match a, b with
  | NI x, NI y => Some (Z.compare x y)
  | NI x, NF y => cmp_Z_f64 x y
  | NF x, NI y => cmp_flip (cmp_Z_f64 y x)
  | NF x, NF y => f64_cmp x y
  end.

Definition to_f64 (n : num) : res f64 :=
  match n with
  | NF x => Ok x
  | NI z => of_option (f64_of_Z z) OverflowError "int too large to convert to float"
  end.

(** ** Equality and membership *)

Fixpoint py_eqb (a b : val) {struct a} : bool :=
  match a, b with
  | VNone, VNone => true
  | VStr s, VStr t => String.eqb s t
  | VList l, VList m | VTuple l, VTuple m =>
      (fix go (l m : list val) : bool :=
         match l, m with
         | [], [] => true
         | x :: l, y :: m => py_eqb x y && go l m
         | _, _ => false
         end) l m
  | VDict d, VDict e =>
      (length d =? length e)%nat &&
      (fix go (d : list (val * val)) : bool :=
         match d with
         | [] => true
         | (k, v) :: d =>
             (fix find (e : list (val * val)) : bool :=
                match e with
                | [] => false
                | (k', v') :: e => if py_eqb k k' then py_eqb v v' else find e
                end) e && go d
         end) d
  | _, _ => match num_of a, num_of b with
            | Some x, Some y => cmp_is_eq (num_cmp x y)
            | _, _ => false
            end
  end.

(** ** Dictionaries *)

Abbreviation dict := (list (val * val)).

Fixpoint dget (k : val) (d : dict) : option val :=
  match d with
  | [] => None
  | (k', v) :: d => if py_eqb k k' then Some v else dget k d
  end.

(** [d[k] = v] keeps the position of an existing key. *)
Fixpoint dset (k v : val) (d : dict) : dict :=
  match d with
  | [] => [(k, v)]
  | (k', v') :: d => if py_eqb k k' then (k', v) :: d else (k', v') :: dset k v d
  end.

Definition dupdate (d e : dict) : dict := foldl (fun d kv => dset kv.1 kv.2 d) d e.

Definition sget (k : string) (d : dict) : option val := dget (VStr k) d.
Definition sset (k : string) (v : val) (d : dict) : dict := dset (VStr k) v d.

(** ** Text: [str()] and [repr()] *)

Definition squote : ascii := "039".

(** [repr] of a string without control characters: single quotes, unless only double quotes
    avoid escaping. *)
Definition repr_char (q : ascii) (a : ascii) : string :=
  if Ascii.eqb a q || Ascii.eqb a "\" then String "\" (String a "")
  else if Ascii.eqb a "010" then "\n" else if Ascii.eqb a "013" then "\r"
  else if Ascii.eqb a "009" then "\t" else String a "".
Fixpoint repr_chars (q : ascii) (s : string) : string :=
  match s with EmptyString => "" | String a s => repr_char q a +:+ repr_chars q s end.
Definition repr_str (s : string) : string :=
  let q : ascii := if str_exists (Ascii.eqb squote) s && negb (str_exists (Ascii.eqb "034") s)
                   then "034"%char else squote in
  String q (repr_chars q s +:+ String q "").

Fixpoint py_repr (v : val) : string :=
  match v with
  | VNone => "None"
  | VBool b => if b then "True" else "False"
  | VInt z => string_of_Z z
  | VFloat x => repr_f64 x
  | VStr s => repr_str s
  | VList l => "[" +:+ join ", " (map py_repr l) +:+ "]"
  | VTuple [x] => "(" +:+ py_repr x +:+ ",)"
  | VTuple l => "(" +:+ join ", " (map py_repr l) +:+ ")"
  | VDict d => "{" +:+ join ", " (map (fun kv => py_repr kv.1 +:+ ": " +:+ py_repr kv.2) d) +:+ "}"
  end.

Definition py_str (v : val) : string := match v with VStr s => s | _ => py_repr v end.

(** [repr] of an exception with one argument *)
Definition exn_repr (e : exn) : string := class_name (ex_class e) +:+ "(" +:+ repr_str (ex_msg e) +:+ ")".

(** ** Truth *)

Definition truthy (v : val) : bool :=
  match v with
  | VNone => false
  | VBool b => b
  | VInt z => negb (z =? 0)
  | VFloat x => negb (f64_is_zero x)
  | VStr s => negb (String.eqb s "")
  | VList l | VTuple l => match l with [] => false | _ => true end
  | VDict d => match d with [] => false | _ => true end
  end.

(** ** Order *)

Definition type_error {A} (what : string) : res A := raise TypeError what.

Section Order.
(** [strict] selects [<] against [<=]. *)
Context (strict : bool).

Definition cmp_ok (c : option comparison) : bool := if strict then cmp_is_lt c else cmp_is_le c.

(** Sequences compare by their first differing items. *)
Fixpoint py_ord (a b : val) {struct a} : res bool :=
  match a, b with
  | VStr s, VStr t => Ok (cmp_ok (Some (String.compare s t)))
  | VList l, VList m | VTuple l, VTuple m =>
      (fix go (l m : list val) : res bool :=
         match l, m with
         | [], [] => Ok (negb strict)
         | [], _ => Ok true
         | _, [] => Ok false
         | x :: l, y :: m => if py_eqb x y then go l m else py_ord x y
         end) l m
  | _, _ => match num_of a, num_of b with
            | Some x, Some y => Ok (cmp_ok (num_cmp x y))
            | _, _ => type_error "'<' not supported between these operands"
            end
  end.
End Order.

Definition py_ltb : val -> val -> res bool := py_ord true.
Definition py_leb : val -> val -> res bool := py_ord false.

(** ** Arithmetic *)

Definition arith (fz : Z -> Z -> Z) (ff : f64 -> f64 -> f64) (a b : val) : expr :=
  match num_of a, num_of b with
  | Some (NI x), Some (NI y) => Ok (VInt (fz x y))
  | Some x, Some y => x' <- to_f64 x ;; y' <- to_f64 y ;; Ok (VFloat (ff x' y'))
  | _, _ => type_error "unsupported operand type(s)"
  end.

Definition py_add (a b : val) : expr :=
  match a, b with
  | VStr s, VStr t => Ok (VStr (s +:+ t))
  | VList l, VList m => Ok (VList (l ++ m))
  | VTuple l, VTuple m => Ok (VTuple (l ++ m))
  | _, _ => arith Z.add f64_add a b
  end.
Definition py_sub : val -> val -> expr := arith Z.sub f64_sub.
Definition py_mul : val -> val -> expr := arith Z.mul f64_mul.

(** True division: one correct rounding of a quotient of [int]s. *)
Definition py_div (a b : val) : expr :=
  match num_of a, num_of b with
  | Some (NI x), Some (NI y) =>
      if y =? 0 then raise ZeroDivisionError "division by zero"
      else rmap VFloat (of_option (f64_of_quotient x y) OverflowError "integer division result too large for a float")
  | Some x, Some y =>
      x' <- to_f64 x ;; y' <- to_f64 y ;;
      if f64_is_zero y' then raise ZeroDivisionError "float division by zero"
      else Ok (VFloat (f64_div x' y'))
  | _, _ => type_error "unsupported operand type(s) for /"
  end.

(** [a // b] on [int]s, the only use the sources make of it. *)
Definition py_floordiv (a b : val) : expr :=
  match num_of a, num_of b with
  | Some (NI x), Some (NI y) =>
      if y =? 0 then raise ZeroDivisionError "integer division or modulo by zero" else Ok (VInt (x / y))
  | _, _ => type_error "unsupported operand type(s) for //"
  end.

(** ** Subscripts *)

(** Python's index normalisation: a negative index counts from the end. *)
Definition norm_index (i : Z) (n : nat) : option nat :=
  let j := if i <? 0 then i + Z.of_nat n else i in
  if (0 <=? j) && (j <? Z.of_nat n) then Some (Z.to_nat j) else None.

Definition py_getitem (c k : val) : expr :=
  match c with
  | VDict d => of_option (dget k d) KeyError (py_repr k)
  | VList l | VTuple l =>
      match num_of k with
      | Some (NI i) => of_option (norm_index i (length l) ≫= (l !!.)) IndexError "list index out of range"
      | _ => type_error "list indices must be integers or slices"
      end
  | _ => type_error "object is not subscriptable"
  end.

(** [d.get(k, default)] *)
Definition py_get (c : val) (k : string) (dflt : val) : expr :=
  match c with
  | VDict d => Ok (default dflt (sget k d))
  | _ => raise AttributeError "object has no attribute 'get'"
  end.

(** [c[k] = v] as the updated container. *)
Definition py_setitem (c k v : val) : expr :=
  match c with
  | VDict d => Ok (VDict (dset k v d))
  | _ => type_error "object does not support item assignment"
  end.

(** [x in c] *)
Definition py_in (x c : val) : res bool :=
  match c with
  | VDict d => Ok (match dget x d with Some _ => true | None => false end)
  | VList l | VTuple l => Ok (existsb (py_eqb x) l)
  | VStr s => match x with VStr t => Ok (str_contains t s) | _ => type_error "requires string as left operand" end
  | _ => type_error "argument is not iterable"
  end.

Definition py_len (v : val) : res Z :=
  match v with
  | VList l | VTuple l => Ok (Z.of_nat (length l))
  | VDict d => Ok (Z.of_nat (length d))
  | VStr s => Ok (Z.of_nat (String.length s))
  | _ => type_error "object has no len()"
  end.

(** What [for x in v] runs over. *)
Definition py_iter (v : val) : res (list val) :=
  match v with
  | VList l | VTuple l => Ok l
  | VDict d => Ok (map fst d)
  | VStr s => Ok (map (fun a => VStr (String a "")) (String.list_ascii_of_string s))
  | _ => type_error "object is not iterable"
  end.

Definition py_items (v : val) : res dict :=
  match v with VDict d => Ok d | _ => raise AttributeError "object has no attribute 'items'" end.

Definition py_values (v : val) : res (list val) := rmap (map snd) (py_items v).

(** ** Reductions *)

(** [sum(l)] from [0]: exact on [int]s; once a [float] has been met, CPython (3.12 and later) keeps
    a running compensation [lo] and adds it at the end. *)
Definition cs_add (hi lo x : f64) : f64 * f64 :=
  let t := f64_add hi x in
  if cmp_is_le (f64_cmp (f64_abs x) (f64_abs hi))
  then (t, f64_add lo (f64_add (f64_sub hi t) x))
  else (t, f64_add lo (f64_add (f64_sub x t) hi)).
Definition sum_step (acc : val * f64) (v : val) : res (val * f64) :=
  match acc.1, num_of v with
  | VFloat hi, Some n => x <- to_f64 n ;; let '(h, l) := cs_add hi acc.2 x in Ok (VFloat h, l)
  | a, _ => s <- py_add a v ;; Ok (s, f64_zero)
  end.
Definition sum_result (acc : val * f64) : val :=
  match acc.1 with
  | VFloat hi => VFloat (if negb (f64_is_zero acc.2) && f64_finite acc.2 then f64_add hi acc.2 else hi)
  | v => v
  end.
Definition py_sum (l : list val) : expr := rmap sum_result (foldR sum_step (VInt 0, f64_zero) l).

Definition pick_min (m x : val) : expr := b <- py_ltb x m ;; Ok (if b : bool then x else m).
Definition pick_max (m x : val) : expr := b <- py_ltb m x ;; Ok (if b : bool then x else m).

Definition py_min (l : list val) : expr :=
  match l with [] => raise ValueError "min() iterable argument is empty" | x :: l => foldR pick_min x l end.
Definition py_max (l : list val) : expr :=
  match l with [] => raise ValueError "max() iterable argument is empty" | x :: l => foldR pick_max x l end.

(** [sorted(l, key=key)]: stable insertion.  [x] goes before the first item whose key is greater. *)
Fixpoint insertR {A} (key : A -> val) (x : A) (l : list A) : res (list A) :=
  match l with
  | [] => Ok [x]
  | y :: r => b <- py_ltb (key x) (key y) ;;
              if b : bool then Ok (x :: l) else r' <- insertR key x r ;; Ok (y :: r')
  end.
Definition py_sorted_by {A} (key : A -> val) (l : list A) : res (list A) :=
  foldR (fun acc x => insertR key x acc) [] l.
Definition py_sorted : list val -> res (list val) := py_sorted_by id.

(** [statistics.median] *)
Definition py_median (l : list val) : expr :=
  s <- py_sorted l ;;
  let n := length s in
  if (n =? 0)%nat then raise ValueError "no median for empty data"
  else if Nat.odd n then of_option (s !! (n / 2)%nat) IndexError ""
  else a <- of_option (s !! (n / 2 - 1)%nat) IndexError "" ;;
       b <- of_option (s !! (n / 2)%nat) IndexError "" ;;
       t <- py_add a b ;; py_div t (VInt 2).

(** [int(x)] of a number or of a string. *)
Definition py_int_of (v : val) : expr :=
  match v with
  | VStr s => rmap VInt (py_int s)
  | _ => match num_of v with
         | Some (NI z) => Ok (VInt z)
         | Some (NF x) => rmap VInt (of_option (f64_trunc x) OverflowError "cannot convert float to integer")
         | None => type_error "int() argument must be a string or a number"
         end
  end.

(** ** Expressions

    [$x] reads a variable; the primed operators evaluate both operands and apply the operation. *)

Definition lift2 {A} (f : val -> val -> res A) (a b : expr) : res A := x <- a ;; y <- b ;; f x y.

Definition idx (e : expr) (k : string) : expr := v <- e ;; py_getitem v (VStr k).
Definition idx_at (e : expr) (i : Z) : expr := v <- e ;; py_getitem v (VInt i).
Definition has (e : expr) (k : string) : res bool := v <- e ;; py_in (VStr k) v.
Definition getd (e : expr) (k : string) (dflt : val) : expr := v <- e ;; py_get v k dflt.

Definition eqR : expr -> expr -> res bool := lift2 (fun a b => Ok (py_eqb a b)).
Definition ltR : expr -> expr -> res bool := lift2 py_ltb.
Definition leR : expr -> expr -> res bool := lift2 py_leb.
Definition notR (b : res bool) : res bool := rmap negb b.
Definition andR (a b : res bool) : res bool := x <- a ;; if x : bool then b else Ok false.
Definition orR (a b : res bool) : res bool := x <- a ;; if x : bool then Ok true else b.
Definition ifR {A} (c : res bool) (a b : res A) : res A := x <- c ;; if x : bool then a else b.

(** [bool(e)], the test of [if e] and [not e]. *)
Definition test (e : expr) : res bool := rmap truthy e.

Definition is_none (v : val) : bool := match v with VNone => true | _ => false end.

Declare Scope py_scope.
Delimit Scope py_scope with py.

Notation "$ x" := (Ok x) (at level 1, x at level 0) : py_scope.
Notation "e .[ k ]" := (idx e k%string) (at level 1, left associativity, format "e .[ k ]") : py_scope.
Infix "+'" := (lift2 py_add) (at level 50, left associativity) : py_scope.
Infix "-'" := (lift2 py_sub) (at level 50, left associativity) : py_scope.
Infix "*'" := (lift2 py_mul) (at level 40, left associativity) : py_scope.
Infix "/'" := (lift2 py_div) (at level 40, left associativity) : py_scope.
Infix "=='" := eqR (at level 70) : py_scope.
Notation "a !=' b" := (notR (eqR a b)) (at level 70) : py_scope.
Infix "<'" := ltR (at level 70) : py_scope.
Infix "<='" := leR (at level 70) : py_scope.
Notation "a >' b" := (lift2 (fun x y => py_ltb y x) a b) (at level 70) : py_scope.
Notation "a >=' b" := (lift2 (fun x y => py_leb y x) a b) (at level 70) : py_scope.
Infix "&&'" := andR (at level 74, right associativity) : py_scope.
Infix "||'" := orR (at level 76, right associativity) : py_scope.

Definition int (z : Z) : expr := Ok (VInt z).
Definition str (s : string) : expr := Ok (VStr s).
Definition lit (m : Z) (d : nat) : expr := Ok (VFloat (f64_lit m d)).

(** [dict(k1=e1, ...)] and dict displays with distinct literal keys. *)
Definition mkdict (l : list (string * expr)) : expr :=
  rmap VDict (mapR (fun ke => v <- ke.2 ;; Ok (VStr ke.1, v)) l).

(** [row[k] = e] *)
Definition setR (row : val) (k : string) (e : expr) : expr := v <- e ;; py_setitem row (VStr k) v.

(** [{k: f k for k in keys}] over literal keys *)
Definition dictcomp (keys : list string) (f : string -> expr) : expr :=
  mkdict (map (fun k => (k, f k)) keys).

(** [assert e, msg] *)
Definition assertR (c : res bool) (msg : string) : res unit := b <- c ;; require b msg.

(** [if e: raise cls(msg)] *)
Definition guardR (c : res bool) (cls : exn_class) (msg : string) : res unit :=
  b <- c ;; guard b cls msg.

(** ** Lemmas *)

Lemma lift2_ok {A} (f : val -> val -> res A) a b r :
  lift2 f a b = Ok r <-> exists x y, a = Ok x /\ b = Ok y /\ f x y = Ok r.
Proof.
  unfold lift2. rewrite rbind_ok. setoid_rewrite rbind_ok. split.
  - intros (x & ? & y & ? & ?). by exists x, y.
  - intros (x & y & ? & ? & ?). exists x. split; [done|]. by exists y.
Qed.

Lemma assertR_ok c msg u : assertR c msg = Ok u <-> c = Ok true.
Proof.
  unfold assertR. rewrite rbind_ok. setoid_rewrite require_ok. split; [by intros (? & -> & ->)|].
  intros ->. by exists true.
Qed.

Lemma guardR_ok c cls msg u : guardR c cls msg = Ok u <-> c = Ok false.
Proof.
  unfold guardR. rewrite rbind_ok. setoid_rewrite guard_ok. split; [by intros (? & -> & ->)|].
  intros ->. by exists false.
Qed.

Lemma notR_ok c b : notR c = Ok b <-> c = Ok (negb b).
Proof.
  unfold notR. rewrite rmap_ok. split.
  - intros (a & -> & ->). by rewrite negb_involutive.
  - intros ->. exists (negb b). by rewrite negb_involutive.
Qed.

(** An assertion that holds is passed. *)
Lemma assertR_then {B} c msg (k : unit -> res B) : c = Ok true -> rbind (assertR c msg) k = k tt.
Proof. by intros ->. Qed.

Lemma andR_true a b : andR a b = Ok true <-> a = Ok true /\ b = Ok true.
Proof.
  unfold andR. rewrite rbind_ok. split; [by intros ([] & ? & ?)|]. intros [??]. by exists true.
Qed.

Lemma orR_false a b : orR a b = Ok false <-> a = Ok false /\ b = Ok false.
Proof.
  unfold orR. rewrite rbind_ok. split; [by intros ([] & ? & ?)|]. intros [??]. by exists false.
Qed.

Lemma num_cmp_int x y : num_cmp (NI x) (NI y) = Some (Z.compare x y).
Proof. done. Qed.

Lemma cmp_is_eq_Z x y : cmp_is_eq (Some (Z.compare x y)) = (x =? y).
Proof. unfold cmp_is_eq. destruct (Z.compare_spec x y); lia. Qed.
Lemma cmp_is_lt_Z x y : cmp_is_lt (Some (Z.compare x y)) = (x <? y).
Proof. unfold cmp_is_lt. destruct (Z.compare_spec x y); lia. Qed.
Lemma cmp_is_le_Z x y : cmp_is_le (Some (Z.compare x y)) = (x <=? y).
Proof. unfold cmp_is_le. destruct (Z.compare_spec x y); lia. Qed.

Lemma py_eqb_int x y : py_eqb (VInt x) (VInt y) = (x =? y).
Proof. apply cmp_is_eq_Z. Qed.
Lemma py_eqb_str s t : py_eqb (VStr s) (VStr t) = String.eqb s t.
Proof. done. Qed.
Lemma eqR_int x y c : eqR (int x) (int y) = Ok c -> c = (x =? y).
Proof. intros E. assert (E' : Ok (py_eqb (VInt x) (VInt y)) = Ok c) by exact E. rewrite py_eqb_int in E'. by injection E'. Qed.
Lemma eqR_int_refl x : eqR (int x) (int x) = Ok true.
Proof. change (Ok (py_eqb (VInt x) (VInt x)) = Ok true). by rewrite py_eqb_int, Z.eqb_refl. Qed.
Lemma py_ltb_int x y : py_ltb (VInt x) (VInt y) = Ok (x <? y).
Proof. done. Qed.
Lemma py_leb_int x y : py_leb (VInt x) (VInt y) = Ok (x <=? y).
Proof. done. Qed.

(** A value equal to an [int] is that [int], a [bool] or a [float] of the same value. *)
Lemma py_eqb_int_inv v z :
  py_eqb v (VInt z) = true -> exists n, num_of v = Some n /\ cmp_is_eq (num_cmp n (NI z)) = true.
Proof. destruct v; cbn; try done; eauto. Qed.

Lemma sum_step_int z w : sum_step (VInt z, f64_zero) (VInt w) = Ok (VInt (z + w), f64_zero).
Proof. done. Qed.

(** [sum] of [int]s is their exact sum. *)
Lemma py_sum_int l : py_sum (map VInt l) = Ok (VInt (sumZ l)).
Proof.
  unfold py_sum.
  assert (forall z, foldR sum_step (VInt z, f64_zero) (map VInt l) = Ok (VInt (z + sumZ l), f64_zero)) as H.
  { induction l as [|x l IH]; intros z; cbn; [by rewrite Z.add_0_r|].
    rewrite IH. by rewrite Z.add_assoc. }
  by rewrite H.
Qed.

Lemma dget_dset_str k k' v d :
  dget (VStr k) (dset (VStr k') v d) = if String.eqb k k' then Some v else dget (VStr k) d.
Proof.
  induction d as [|[k0 v0] d IH]; cbn [dset dget].
  - by rewrite py_eqb_str.
  - destruct (py_eqb (VStr k') k0) eqn:E0; cbn [dget].
    + destruct k0; try done. rewrite !py_eqb_str in *. apply String.eqb_eq in E0 as ->. by case_match.
    + destruct (py_eqb (VStr k) k0) eqn:E1; [|done]. destruct k0; try done.
      rewrite !py_eqb_str in *. apply String.eqb_eq in E1 as ->.
      rewrite String.eqb_sym in E0. by rewrite E0.
Qed.

Lemma idx_ok e k v : idx e k = Ok v -> exists d, e = Ok (VDict d) /\ sget k d = Some v.
Proof.
  unfold idx. intros H. inv_res. destruct a; cbn in *; inv_res; try done.
  by exists d.
Qed.

Lemma setR_ok row k e r :
  setR row k e = Ok r -> exists d v, row = VDict d /\ e = Ok v /\ r = VDict (sset k v d).
Proof.
  unfold setR. intros H. inv_res. destruct row; cbn in *; inv_res; try done. by exists d, a.
Qed.

(** Decompose the hypotheses about expressions. *)
Ltac inv_expr1 :=
  first
    [ inv_res1
    | match goal with
      | H : assertR _ _ = Ok _ |- _ => apply assertR_ok in H
      | H : guardR _ _ _ = Ok _ |- _ => apply guardR_ok in H
      | H : notR _ = Ok _ |- _ => apply notR_ok in H; cbn [negb] in H
      | H : andR _ _ = Ok true |- _ => apply andR_true in H; destruct H
      | H : orR _ _ = Ok false |- _ => apply orR_false in H; destruct H
      | H : eachR _ _ = Ok _ |- _ => apply eachR_ok in H
      | H : lift2 _ _ _ = Ok _ |- _ => apply lift2_ok in H; destruct H as (? & ? & ? & ? & ?)
      | H : eqR _ _ = Ok _ |- _ => unfold eqR in H
      end ].
Ltac inv_expr := repeat (inv_expr1; cbv beta in *).
