(* ===== verification/PyJson.v ===== *)
(** * [json.dumps] and [json.loads] of the Python standard library *)

From stdpp Require Import base list strings.
From Stdlib Require Import ZArith SpecFloat Lia Ascii.
From S2P Require Import Prelude PyFloat PyText PyVal.

Local Open Scope Z_scope.

Definition dquote : ascii := "034".
Definition nl : string := String "010" "".

(** ** Encoding *)

Definition hex4 (z : Z) : string :=
  let d i := let x := Z.land (Z.shiftr z i) 15 in
             ascii_of_N (Z.to_N (if x <? 10 then 48 + x else 87 + x)) in
  String (d 12) (String (d 8) (String (d 4) (String (d 0) ""))).

Definition u_escape (z : Z) : string := "\u" +:+ hex4 z.

(** A code point above the ASCII range, as [ensure_ascii] writes it. *)
Definition escape_code (z : Z) : string :=
  if z <? 65536 then u_escape z
  else let v := z - 65536 in
       u_escape (55296 + Z.shiftr v 10) +:+ u_escape (56320 + Z.land v 1023).

Definition escape_ascii (a : ascii) : string :=
  if Ascii.eqb a dquote then String "\" (String dquote "")
  else if Ascii.eqb a "\" then "\\"
  else if Ascii.eqb a "010" then "\n" else if Ascii.eqb a "013" then "\r"
  else if Ascii.eqb a "009" then "\t" else if Ascii.eqb a "012" then "\f"
  else if Ascii.eqb a "008" then "\b"
  else if code a <? 32 then u_escape (code a) else String a "".

(** Characters of a UTF-8 string; [acc] and [more] hold a multi-byte sequence being read. *)
Fixpoint escape_utf8 (acc : Z) (more : nat) (s : string) : string :=
  match s with
  | EmptyString => ""
  | String a s =>
      let c := code a in
      match more with
      | S more => let acc := acc * 64 + Z.land c 63 in
                  (match more with O => escape_code acc | _ => "" end) +:+ escape_utf8 acc more s
      | O => if c <? 128 then escape_ascii a +:+ escape_utf8 0 0 s
             else if c <? 224 then escape_utf8 (Z.land c 31) 1 s
             else if c <? 240 then escape_utf8 (Z.land c 15) 2 s
             else escape_utf8 (Z.land c 7) 3 s
      end
  end.

Definition json_string (s : string) : string :=
  String dquote (escape_utf8 0 0 s +:+ String dquote "").

Definition json_float (x : f64) : string :=
  match x with
  | S754_nan => "NaN"
  | S754_infinity s => if s then "-Infinity" else "Infinity"
  | _ => repr_f64 x
  end.

(** Keys that are not strings are written as the string of their JSON form. *)
Definition json_key (k : val) : res string :=
  match k with
  | VStr s => Ok s
  | VInt z => Ok (string_of_Z z)
  | VBool b => Ok (if b then "true" else "false")
  | VNone => Ok "null"
  | VFloat x => Ok (json_float x)
  | _ => raise TypeError "keys must be str, int, float, bool or None"
  end.

(** [indent = Some n] is [json.dumps(v, indent=n)]; [colon] and [comma] are the separators. *)
Section Dumps.
Context (indent : option nat) (comma colon : string).

Definition newline (level : nat) : string :=
  match indent with
  | Some n => nl +:+ String.concat "" (repeat " " (n * level))
  | None => ""
  end.

Definition wrap (o c : string) (level : nat) (items : list string) : string :=
  match items with
  | [] => o +:+ c
  | _ => o +:+ newline (S level) +:+ join (comma +:+ newline (S level)) items +:+ newline level +:+ c
  end.

Fixpoint dumps (level : nat) (v : val) : res string :=
  match v with
  | VNone => Ok "null"
  | VBool b => Ok (if b then "true" else "false")
  | VInt z => Ok (string_of_Z z)
  | VFloat x => Ok (json_float x)
  | VStr s => Ok (json_string s)
  | VList l | VTuple l =>
      items <- (fix go (l : list val) : res (list string) :=
                  match l with
                  | [] => Ok []
                  | x :: l => y <- dumps (S level) x ;; ys <- go l ;; Ok (y :: ys)
                  end) l ;;
      Ok (wrap "[" "]" level items)
  | VDict d =>
      items <- (fix go (d : dict) : res (list string) :=
                  match d with
                  | [] => Ok []
                  | (k, x) :: d =>
                      k' <- json_key k ;; y <- dumps (S level) x ;; ys <- go d ;;
                      Ok ((json_string k' +:+ colon +:+ y) :: ys)
                  end) d ;;
      Ok (wrap "{" "}" level items)
  end.
End Dumps.

(** [json.dumps(v)], [json.dumps(v, indent=2)] and [json.dumps(v, separators=(",", ":"))] *)
Definition json_dumps (v : val) : res string := dumps None ", " ": " 0 v.
Definition json_dumps2 (v : val) : res string := dumps (Some 2%nat) "," ": " 0 v.
Definition json_dumps_min (v : val) : res string := dumps None "," ":" 0 v.

(** ** Decoding *)

Definition json_space (a : ascii) : bool := char_in a [" "; "009"; "010"; "013"]%char.

Fixpoint skip_space (s : string) : string :=
  match s with String a r => if json_space a then skip_space r else s | EmptyString => "" end.

(** UTF-8 of a code point *)
Definition utf8 (z : Z) : string :=
  let b x := ascii_of_N (Z.to_N x) in
  if z <? 128 then String (b z) ""
  else if z <? 2048 then String (b (192 + Z.shiftr z 6)) (String (b (128 + Z.land z 63)) "")
  else if z <? 65536 then
    String (b (224 + Z.shiftr z 12)) (String (b (128 + Z.land (Z.shiftr z 6) 63))
      (String (b (128 + Z.land z 63)) ""))
  else String (b (240 + Z.shiftr z 18)) (String (b (128 + Z.land (Z.shiftr z 12) 63))
         (String (b (128 + Z.land (Z.shiftr z 6) 63)) (String (b (128 + Z.land z 63)) ""))).

Definition hex_quad (s : string) : option (Z * string) :=
  match s with
  | String a (String b (String c (String d r))) =>
      if forallb is_hex [a; b; c; d]
      then Some (((digit_value a * 16 + digit_value b) * 16 + digit_value c) * 16 + digit_value d, r)
      else None
  | _ => None
  end.

Definition simple_escape (a : ascii) : option ascii :=
  if char_in a [dquote; "\"%char; "/"%char] then Some a
  else if Ascii.eqb a "n" then Some "010"%char else if Ascii.eqb a "r" then Some "013"%char
  else if Ascii.eqb a "t" then Some "009"%char else if Ascii.eqb a "f" then Some "012"%char
  else if Ascii.eqb a "b" then Some "008"%char else None.

(** The rest of a string literal after its opening quote. *)
Fixpoint string_body (fuel : nat) (s : string) : option (string * string) :=
  match fuel, s with
  | S fuel, String a r =>
      if Ascii.eqb a dquote then Some ("", r)
      else if Ascii.eqb a "\" then
        match r with
        | String "u" r =>
            match hex_quad r with
            | Some (hi, r1) =>
                let plain := '(t, rest) ← string_body fuel r1; Some (utf8 hi +:+ t, rest) in
                match r1 with
                | String "\" (String "u" r2) =>
                    match hex_quad r2 with
                    | Some (lo, r3) =>
                        if (55296 <=? hi) && (hi <? 56320) && (56320 <=? lo) && (lo <? 57344)
                        then '(t, rest) ← string_body fuel r3;
                             Some (utf8 (65536 + (hi - 55296) * 1024 + (lo - 56320)) +:+ t, rest)
                        else plain
                    | None => None
                    end
                | _ => plain
                end
            | None => None
            end
        | String e r =>
            match simple_escape e with
            | Some c => '(t, rest) ← string_body fuel r; Some (String c t, rest)
            | None => None
            end
        | EmptyString => None
        end
      else if code a <? 32 then None
      else '(t, rest) ← string_body fuel r; Some (String a t, rest)
  | _, _ => None
  end.

Fixpoint span (p : ascii -> bool) (s : string) : string * string :=
  match s with
  | String a r => if p a then let '(x, y) := span p r in (String a x, y) else ("", s)
  | EmptyString => ("", "")
  end.

Definition digits_value (s : string) : Z := default 0 (int_digits 10 false 0 s).

(** A JSON number without its sign: digits without leading zero, fraction, exponent. *)
Definition number (s : string) : option (bool * Z * Z * string) :=
  let '(ip, r) := span is_digit s in
  if String.eqb ip "" || (startswith "0" ip && negb (String.eqb ip "0")) then None
  else
    let '(fp, r1) := match r with
                     | String "." q => let '(f, q') := span is_digit q in
                                       if String.eqb f "" then ("", r) else (f, q')
                     | _ => ("", r)
                     end in
    let exponent (q : string) :=
      let '(neg, q1) := match q with String "-" q1 => (true, q1) | String "+" q1 => (false, q1) | _ => (false, q) end in
      let '(ds, q2) := span is_digit q1 in
      if String.eqb ds "" then None else Some (if neg : bool then - digits_value ds else digits_value ds, q2) in
    let '(ev, r2) := match r1 with
                     | String "e" q | String "E" q =>
                         match exponent q with Some (e, q') => (Some e, q') | None => (None, r1) end
                     | _ => (None, r1)
                     end in
    let is_float := negb (String.eqb fp "") || match ev with Some _ => true | None => false end in
    Some (is_float, digits_value (ip +:+ fp), default 0 ev - Z.of_nat (String.length fp), r2).

Definition number_value (neg : bool) (n : bool * Z * Z * string) : val * string :=
  let '(is_float, m, e, r) := n in
  if is_float then
    let x := default (S754_infinity false) (f64_of_dec m e) in
    (VFloat (if neg then f64_neg x else x), r)
  else (VInt (if neg then - m else m), r).

Definition strip_prefix (p s : string) : option string :=
  if startswith p s then Some (str_drop (String.length p) s) else None.

Definition keyword (s : string) : option (val * string) :=
  match strip_prefix "null" s with Some r => Some (VNone, r) | None =>
  match strip_prefix "true" s with Some r => Some (VBool true, r) | None =>
  match strip_prefix "false" s with Some r => Some (VBool false, r) | None =>
  match strip_prefix "NaN" s with Some r => Some (VFloat S754_nan, r) | None =>
  match strip_prefix "Infinity" s with Some r => Some (VFloat (S754_infinity false), r) | None =>
  match strip_prefix "-Infinity" s with Some r => Some (VFloat (S754_infinity true), r) | None => None
  end end end end end end.

(** A value at the start of [s].  Every step consumes a character, so the length of the text is
    enough fuel. *)
Fixpoint json_value (fuel : nat) (s : string) : option (val * string) :=
  match fuel with
  | O => None
  | S fuel =>
      match skip_space s with
      | String "[" r =>
          match skip_space r with
          | String "]" r => Some (VList [], r)
          | _ => '(l, rest) ← json_items fuel r; Some (VList l, rest)
          end
      | String "{" r =>
          match skip_space r with
          | String "}" r => Some (VDict [], r)
          | _ => '(d, rest) ← json_members fuel [] r; Some (VDict d, rest)
          end
      | String a r as s' =>
          if Ascii.eqb a dquote then '(t, rest) ← string_body fuel r; Some (VStr t, rest)
          else match keyword s' with
               | Some v => Some v
               | None => if Ascii.eqb a "-" then number_value true <$> number r
                         else number_value false <$> number s'
               end
      | EmptyString => None
      end
  end
with json_items (fuel : nat) (s : string) : option (list val * string) :=
  match fuel with
  | O => None
  | S fuel =>
      '(v, r) ← json_value fuel s;
      match skip_space r with
      | String "]" r => Some ([v], r)
      | String "," r => '(l, rest) ← json_items fuel r; Some (v :: l, rest)
      | _ => None
      end
  end
with json_members (fuel : nat) (d : dict) (s : string) : option (dict * string) :=
  match fuel with
  | O => None
  | S fuel =>
      match skip_space s with
      | String a r =>
          if Ascii.eqb a dquote then
            '(k, r) ← string_body fuel r;
            match skip_space r with
            | String ":" r =>
                '(v, r) ← json_value fuel r;
                let d := dset (VStr k) v d in
                match skip_space r with
                | String "}" r => Some (d, r)
                | String "," r => json_members fuel d r
                | _ => None
                end
            | _ => None
            end
          else None
      | EmptyString => None
      end
  end.

(** [json.loads(s)] *)
Definition json_loads (s : string) : res val :=
  match json_value (S (S (2 * String.length s))) s with
  | Some (v, r) => if String.eqb (skip_space r) "" then Ok v else raise ValueError "Extra data"
  | None => raise ValueError "Expecting value"
  end.

(** ** Checks against CPython *)

Definition sample : val :=
  VDict [(VStr "a", VList [VInt (-3); VFloat (f64_lit 25 1); VNone; VBool true]);
         (VStr "b", VDict []); (VStr "c", VList []); (VStr "d", VStr "x\y")].

Example dumps_loads_sample :
  (s <- json_dumps2 sample ;; json_loads s) = Ok sample
  /\ (s <- json_dumps sample ;; json_loads s) = Ok sample
  /\ (s <- json_dumps_min sample ;; json_loads s) = Ok sample.
Proof. vm_compute. auto. Qed.

Example dumps_list : json_dumps2 (VList [VInt 1; VList []]) = Ok (join nl ["["; "  1,"; "  []"; "]"]).
Proof. vm_compute. reflexivity. Qed.

Example loads_numbers :
  json_loads "[0, -1, 1.5e2, 12E-1, 1e400, -0]"
  = Ok (VList [VInt 0; VInt (-1); VFloat (f64_lit 150 0); VFloat (f64_lit 12 1);
               VFloat (S754_infinity false); VInt 0]).
Proof. vm_compute. reflexivity. Qed.

Example loads_rejects : map (fun s => is_ok (json_loads s)) ["[1,]"; "01"; "{1:2}"; ""; "[1] x"; "1."] = repeat false 6.
Proof. vm_compute. reflexivity. Qed.

(** ** [float(text)] *)

(** Underscores stand between digits only; [prev] is the character before. *)
Fixpoint plain_digits (prev : ascii) (s : string) : option string :=
  match s with
  | EmptyString => if Ascii.eqb prev "_" then None else Some ""
  | String a r =>
      if Ascii.eqb prev "_" && negb (is_digit a) then None
      else if Ascii.eqb a "_" then if is_digit prev then plain_digits a r else None
      else String a <$> plain_digits a r
  end.

(** Decimal digits with an optional fraction and exponent. *)
Definition decimal (s : string) : option f64 :=
  let '(ip, r) := span is_digit s in
  let '(fp, r1) := match r with String "." q => span is_digit q | _ => ("", r) end in
  if String.eqb (ip +:+ fp) "" then None else
  let value e := Some (default (S754_infinity false) (f64_of_dec (digits_value (ip +:+ fp)) (e - Z.of_nat (String.length fp)))) in
  match r1 with
  | EmptyString => value 0
  | String "e" q | String "E" q =>
      let '(neg, q1) := match q with String "-" q1 => (true, q1) | String "+" q1 => (false, q1) | _ => (false, q) end in
      let '(ds, q2) := span is_digit q1 in
      if String.eqb ds "" || negb (String.eqb q2 "") then None
      else value (if neg : bool then - digits_value ds else digits_value ds)
  | _ => None
  end.

Fixpoint str_lower (s : string) : string :=
  match s with
  | String a r => String (if is_upper a then ascii_of_N (Z.to_N (code a + 32)) else a) (str_lower r)
  | EmptyString => ""
  end.

Definition unsigned_float (s : string) : option f64 :=
  let l := str_lower s in
  if String.eqb l "inf" || String.eqb l "infinity" then Some (S754_infinity false)
  else if String.eqb l "nan" then Some S754_nan else decimal s.
Definition parse_float (s : string) : option f64 :=
  s ← plain_digits " " (strip s);
  match s with
  | String "-" r => f64_neg <$> unsigned_float r
  | String "+" r => unsigned_float r
  | _ => unsigned_float s
  end.
Definition py_float (s : string) : res f64 :=
  of_option (parse_float s) ValueError ("could not convert string to float: " +:+ s).

Example float_examples :
  map (fun s => rmap repr_f64 (py_float s)) [" 100.00 "; "12345"; "-1_0.5e-1"; ".5"; "5."; "1e400"; "-Infinity"; "1e"; "_1"; ""]
  = [Ok "100.0"; Ok "12345.0"; Ok "-1.05"; Ok "0.5"; Ok "5.0"; Ok "inf"; Ok "-inf";
     raise ValueError "could not convert string to float: 1e"; raise ValueError "could not convert string to float: _1";
     raise ValueError "could not convert string to float: "].
Proof. vm_compute. reflexivity. Qed.
