(* ===== verification/PyScript.v ===== *)
(** * Comprehensions, dictionaries in construction and script outcomes

    What the report scripts share on top of [PyVal]: comprehensions over expressions, dictionaries
    keyed by data, formatted strings, lists of audit issues, and the two ways a report script ends
    (a text written to [--output] or printed, and an exit status). *)

From stdpp Require Import base list strings sets sorting.
From Stdlib Require Import ZArith Lia Ascii.
From S2P Require Import Prelude PyFloat PyText PyVal PyJson.

Local Open Scope Z_scope.
Open Scope py_scope.

(** ** Comprehensions *)

(** [for x in e] *)
Definition iterR (e : expr) : res (list val) := v <- e ;; py_iter v.
Definition itemsR (e : expr) : res dict := v <- e ;; py_items v.
Definition valuesR (e : expr) : res (list val) := v <- e ;; py_values v.

(** [[f(x) for x in l]] as a value *)
Definition listR (f : val -> expr) (l : list val) : expr := rmap VList (mapR f l).

Definition sumR (f : val -> expr) (l : list val) : expr := xs <- mapR f l ;; py_sum xs.
Definition maxR (f : val -> expr) (l : list val) : expr := xs <- mapR f l ;; py_max xs.
Definition minR (f : val -> expr) (l : list val) : expr := xs <- mapR f l ;; py_min xs.
Definition medianR (f : val -> expr) (l : list val) : expr := xs <- mapR f l ;; py_median xs.

(** [e1 or e2] as a value *)
Definition orE (a b : expr) : expr := x <- a ;; if truthy x then Ok x else b.

(** [e is None] *)
Definition noneR (e : expr) : res bool := rmap is_none e.

(** [e[i]] for an expression [i], and [e.get(k)] *)
Definition at_ (e k : expr) : expr := v <- e ;; i <- k ;; py_getitem v i.
Definition get (e : expr) (k : string) : expr := getd e k VNone.

(** [d.get(k)] for a computed key *)
Definition vget (c k : val) : expr :=
  match c with VDict d => Ok (default VNone (dget k d)) | _ => raise AttributeError "object has no attribute 'get'" end.

Definition lenR (e : expr) : expr := v <- e ;; rmap VInt (py_len v).

(** Keys of dictionaries and members of sets must be hashable. *)
Fixpoint hashable (v : val) : bool :=
  match v with
  | VList _ | VDict _ => false
  | VTuple l => forallb hashable l
  | _ => true
  end.
Definition key (e : expr) : expr :=
  k <- e ;; if hashable k then Ok k else type_error "unhashable type".

(** [{f(x): g(x) for x in l}] *)
Definition dict_by {A} (f g : A -> expr) (l : list A) : res dict :=
  foldR (fun d x => k <- key (f x) ;; v <- g x ;; Ok (dset k v d)) [] l.

(** [{f(x) for x in l}], by first occurrence. *)
Definition set_by {A} (f : A -> expr) (l : list A) : res (list val) :=
  foldR (fun s x => k <- key (f x) ;; Ok (if existsb (py_eqb k) s then s else s ++ [k])) [] l.

(** [(e1, e2, ...)] *)
Definition tupleR (l : list expr) : expr := rmap VTuple (mapR id l).

(** Equality of sets given by their members. *)
Definition subsetb (s t : list val) : bool := forallb (fun x => existsb (py_eqb x) t) s.
Definition set_eqb (s t : list val) : bool := subsetb s t && subsetb t s.

(** [k.startswith(p)] and the like on values *)
Definition startswithR (e : expr) (p : string) : res bool :=
  v <- e ;; match v with VStr s => Ok (startswith p s) | _ => raise AttributeError "object has no attribute 'startswith'" end.
Definition as_str (v : val) : res string :=
  match v with VStr s => Ok s | _ => type_error "a string is required" end.

(** [e in ('a', 'b', ...)] *)
Definition one_of (e : expr) (l : list string) : res bool := v <- e ;; py_in v (VTuple (map VStr l)).

(** [a == b == c == ...] *)
Fixpoint chain_eq (a : expr) (l : list expr) : res bool :=
  match l with
  | [] => Ok true
  | b :: l => (a ==' b) &&' chain_eq b l
  end.

(** Formatted strings: [F s] is a literal part, [V e] a replacement field without a format. *)
Inductive piece := F (s : string) | V (e : expr).
Definition piece_text (p : piece) : res string :=
  match p with F s => Ok s | V e => rmap py_str e end.
Definition fstring (l : list piece) : res string := rmap (join "") (mapR piece_text l).
Definition fstr (l : list piece) : expr := rmap VStr (fstring l).

(** ** Audit issues

    An audit appends to a list of issues; [issue c m] is one of its [if c: issues.append(m)]. *)

Definition issue (c : res bool) (m : list piece) : res (list string) :=
  ifR c (rmap (fun s => [s]) (fstring m)) (Ok []).
Definition issues_of (l : list (res (list string))) : res (list string) := rmap (@concat _) (mapR id l).

(** ** How a script ends *)

Inductive output := Written (path text : string) | Printed (text : string).

(** [if output: output.write_text(text) else: print(text, end="")] *)
Definition emit (out : option string) (text : string) : output :=
  match out with Some p => Written p text | None => Printed text end.

(** [{str(path): f(json.loads(path.read_text())) for path in paths}] *)
Definition reports_by (read : string -> res string) (f : val -> expr) (paths : list string) : res dict :=
  dict_by (fun p => str p) (fun p => t <- read p ;; v <- json_loads t ;; f v) paths.

(** ** Documents

    A JSON object with the given members, for the concrete documents of the examples. *)

Definition obj (l : list (string * val)) : val := VDict (map (fun kv => (VStr kv.1, kv.2)) l).

(** ** Lemmas *)

Lemma issue_none c m : issue c m = Ok [] -> c = Ok false.
Proof.
  unfold issue, ifR. intros H. inv_res. destruct a; [|done]. by destruct (fstring m).
Qed.

Lemma issues_of_none l : issues_of l = Ok [] -> Forall (fun c => c = Ok []) l.
Proof.
  unfold issues_of. intros (xs & H0 & H)%rmap_ok. apply mapR_ok in H0.
  induction H0 as [|c x l xs Hc Hl IH]; [done|]. cbn in *. symmetry in H. apply app_eq_nil in H as [-> H].
  constructor; auto.
Qed.

Lemma idx_intro d k v : sget k d = Some v -> idx (Ok (VDict d)) k = Ok v.
Proof. unfold sget. intros H. unfold idx. cbn. by rewrite H. Qed.

Lemma idx_det e k v w : idx e k = Ok v -> idx e k = Ok w -> v = w.
Proof. intros -> [= ->]. done. Qed.

Lemma sget_sset k k' v d : sget k (sset k' v d) = if String.eqb k k' then Some v else sget k d.
Proof. apply dget_dset_str. Qed.

(** Reading a dictionary display. *)
Lemma mkdict_ok l v :
  mkdict l = Ok v -> exists d, v = VDict d /\
    Forall2 (fun ke kv => kv.1 = VStr ke.1 /\ ke.2 = Ok kv.2) l d.
Proof.
  unfold mkdict. intros (a & H0 & ->)%rmap_ok. exists a. split; [done|]. apply mapR_ok in H0.
  eapply Forall2_impl; [exact H0|]. intros [k e] [kv v] H. cbn in *. inv_res. by subst.
Qed.

Fixpoint assoc {A} (k : string) (l : list (string * A)) : option A :=
  match l with
  | [] => None
  | (k', x) :: l => if String.eqb k k' then Some x else assoc k l
  end.

(** [d[k] = v] in an insertion-ordered dictionary with string keys *)
Fixpoint assign {A} (k : string) (v : A) (d : list (string * A)) : list (string * A) :=
  match d with
  | [] => [(k, v)]
  | (k', v') :: d => if String.eqb k k' then (k', v) :: d else (k', v') :: assign k v d
  end.

Lemma mkdict_get l v k e :
  mkdict l = Ok v -> assoc k l = Some e -> exists w, e = Ok w /\ idx (Ok v) k = Ok w.
Proof.
  intros (d & -> & H)%mkdict_ok Hk.
  assert (exists w, e = Ok w /\ sget k d = Some w) as (w & -> & Hw).
  { induction H as [|[k' e'] [kv w] l d [Hkv Hw] H IH]; [done|]. cbn in *. subst.
    unfold sget. cbn. case_match; [|by apply IH]. injection Hk as <-. by exists w. }
  exists w. split; [done|]. by apply idx_intro.
Qed.

(** A key that is not in the display is not in the dictionary. *)
Lemma mkdict_miss l v k d :
  mkdict l = Ok v -> assoc k l = None -> v = VDict d -> sget k d = None.
Proof.
  intros (d' & -> & H)%mkdict_ok Hk [= ->].
  induction H as [|[k' e'] [kv w] l d' [Hkv Hw] H IH]; [done|]. cbn in *. subst.
  unfold sget. cbn. case_match; [done|]. by apply IH.
Qed.

(** *** Dictionaries built by comprehension *)

Lemma dset_length k v d : length (dset k v d) = match dget k d with Some _ => length d | None => S (length d) end.
Proof.
  induction d as [|[k' v'] d IH]; cbn; [done|]. destruct (py_eqb k k'); cbn; [done|].
  rewrite IH. by destruct (dget k d).
Qed.

Lemma dget_In k d v : dget k d = Some v -> exists k', (k', v) ∈ d.
Proof.
  induction d as [|[k' w] d IH]; cbn; [done|]. case_match.
  - intros [= ->]. exists k'. by left.
  - intros (k2 & ?)%IH. exists k2. by right.
Qed.

Lemma dset_In k v d k' v' : (k', v') ∈ dset k v d -> v' = v \/ (k', v') ∈ d.
Proof.
  induction d as [|[k0 v0] d IH]; cbn [dset].
  - intros [= -> ->]%list_elem_of_singleton. by left.
  - destruct (py_eqb k k0); rewrite !elem_of_cons; intros [[= -> ->]|H]; auto.
    destruct (IH H); auto.
Qed.

Lemma py_eqb_str_inv s v : py_eqb (VStr s) v = true -> v = VStr s.
Proof. destruct v; cbn; try done. by intros <-%String.eqb_eq. Qed.

Lemma dget_dset_same s v d : dget (VStr s) (dset (VStr s) v d) = Some v.
Proof. by rewrite dget_dset_str, String.eqb_refl. Qed.

(** Setting a key that is not the string [s] does not touch the entry of [s]. *)
Lemma dget_dset_ne s k v d : k <> VStr s -> dget (VStr s) (dset k v d) = dget (VStr s) d.
Proof.
  intros Hk. assert (E : py_eqb (VStr s) k = false).
  { destruct (py_eqb (VStr s) k) eqn:E; [|done]. by apply py_eqb_str_inv in E. }
  induction d as [|[k' v'] d IH]; cbn [dset dget]; [by rewrite E|].
  destruct (py_eqb k k') eqn:Ek; cbn [dget].
  - destruct (py_eqb (VStr s) k') eqn:E'; [|done]. apply py_eqb_str_inv in E' as ->.
    destruct k; cbn in Ek; try done. apply String.eqb_eq in Ek as ->. done.
  - by rewrite IH.
Qed.

#[export] Instance eq_VStr_dec v s : Decision (v = VStr s).
Proof. destruct v as [| | | |t| | |]; try (right; congruence). destruct (decide (t = s)); [left|right]; congruence. Defined.

Section DictBy.
Context {A : Type} (f g : A -> expr).

Lemma key_ok e k : key e = Ok k -> e = Ok k.
Proof. unfold key. intros H. inv_res. destruct (hashable a); inv_res; done. Qed.

Lemma dict_by_snoc l x d :
  dict_by f g (l ++ [x]) = Ok d <->
  exists d' k v, dict_by f g l = Ok d' /\ key (f x) = Ok k /\ g x = Ok v /\ d = dset k v d'.
Proof.
  unfold dict_by. rewrite foldR_app. cbn [foldR]. split.
  - intros H. apply rbind_ok in H as (d' & Hd & H). apply rbind_ok in H as (d2 & H & [= <-]).
    apply rbind_ok in H as (k & Hk & H). apply rbind_ok in H as (v & Hv & [= <-]). by exists d', k, v.
  - intros (d' & k & v & Hd & Hk & Hv & ->). rewrite Hd. cbn [rbind]. rewrite Hk. cbn [rbind].
    by rewrite Hv.
Qed.

Lemma dict_by_get l d s v :
  dict_by f g l = Ok d -> dget (VStr s) d = Some v ->
  exists i x, l !! i = Some x /\ f x = Ok (VStr s) /\ g x = Ok v.
Proof.
  revert d. induction l as [|x l IH] using rev_ind; intros d H Hget; [by injection H as <-|].
  apply dict_by_snoc in H as (d' & k & w & Hd & Hk%key_ok & Hw & ->).
  destruct (decide (k = VStr s)) as [->|Hne].
  - rewrite dget_dset_same in Hget. injection Hget as ->. exists (length l), x.
    by rewrite lookup_app_r, Nat.sub_diag by lia.
  - rewrite dget_dset_ne in Hget by done. destruct (IH d' Hd Hget) as (i & y & Hi & ?).
    exists i, y. split; [|done]. by apply lookup_app_l_Some.
Qed.

Lemma dict_by_has l d s x :
  dict_by f g l = Ok d -> x ∈ l -> f x = Ok (VStr s) -> exists v, dget (VStr s) d = Some v.
Proof.
  revert d. induction l as [|y l IH] using rev_ind; intros d H Hin Hf; [by apply elem_of_nil in Hin|].
  apply dict_by_snoc in H as (d' & k & w & Hd & Hk%key_ok & Hw & ->).
  destruct (decide (k = VStr s)) as [->|Hne].
  - exists w. apply dget_dset_same.
  - rewrite dget_dset_ne by done. apply elem_of_app in Hin as [Hin|Hin]; [by eapply IH|].
    apply list_elem_of_singleton in Hin as ->. congruence.
Qed.

Lemma dict_by_length l d : dict_by f g l = Ok d -> (length d <= length l)%nat.
Proof.
  revert d. induction l as [|y l IH] using rev_ind; intros d H; [by injection H as <-|].
  apply dict_by_snoc in H as (d' & k & w & Hd & _ & _ & ->). apply IH in Hd.
  rewrite dset_length, length_app. cbn. destruct (dget k d'); lia.
Qed.

(** Every value comes from an element. *)
Lemma dict_by_In l d k v :
  dict_by f g l = Ok d -> (k, v) ∈ d -> exists x, x ∈ l /\ (exists e, f x = Ok e) /\ g x = Ok v.
Proof.
  revert d. induction l as [|y l IH] using rev_ind; intros d H Hin; [injection H as <-; by apply elem_of_nil in Hin|].
  apply dict_by_snoc in H as (d' & k' & w & Hd & Hk%key_ok & Hw & ->).
  apply dset_In in Hin as [->|Hin].
  - exists y. split_and!; [|by eexists|done]. apply elem_of_app. right. by apply list_elem_of_singleton.
  - destruct (IH d' Hd Hin) as (x & Hx & ? & ?). exists x. split_and!; try done. apply elem_of_app. by left.
Qed.

(** As many entries as elements: string keys occur once. *)
Lemma dict_by_unique l d s i j x y :
  dict_by f g l = Ok d -> length d = length l ->
  l !! i = Some x -> l !! j = Some y -> f x = Ok (VStr s) -> f y = Ok (VStr s) -> i = j.
Proof.
  revert d i j x y. induction l as [|z l IH] using rev_ind; intros d i j x y H Hlen Hi Hj Hx Hy; [done|].
  apply dict_by_snoc in H as (d' & k & w & Hd & Hk%key_ok & Hw & ->).
  pose proof (dict_by_length _ _ Hd). rewrite dset_length, length_app in Hlen. cbn in Hlen.
  destruct (dget k d') eqn:Eg; [lia|].
  assert (Hfresh : forall n u, l !! n = Some u -> f u = Ok (VStr s) -> f z = Ok (VStr s) -> False).
  { intros n u Hn Hu Hz. rewrite Hk in Hz. injection Hz as ->.
    destruct (dict_by_has _ _ _ _ Hd (list_elem_of_lookup_2 _ _ _ Hn) Hu) as [v Hv]. congruence. }
  apply lookup_snoc_Some in Hi as [[Hi1 Hi]|[-> ->]], Hj as [[Hj1 Hj]|[-> ->]].
  - eapply (IH d' i j x y); eauto. lia.
  - by edestruct Hfresh.
  - by edestruct Hfresh.
  - done.
Qed.
End DictBy.

(** [sorted] keeps the members. *)
Lemma insertR_perm {A} (k : A -> val) x l r : insertR k x l = Ok r -> r ≡ₚ x :: l.
Proof.
  revert r. induction l as [|y l IH]; intros r H; cbn in H; [by injection H as <-|].
  apply rbind_ok in H as (b & _ & H). destruct b; [by injection H as <-|].
  apply rbind_ok in H as (r' & Hr & H). injection H as <-. rewrite (IH _ Hr). apply Permutation_swap.
Qed.

Lemma py_sorted_by_perm {A} (k : A -> val) l r : py_sorted_by k l = Ok r -> r ≡ₚ l.
Proof.
  unfold py_sorted_by. intros H.
  assert (G : forall acc, foldR (fun acc x => insertR k x acc) acc l = Ok r -> r ≡ₚ acc ++ l).
  { clear H. induction l as [|x l IH]; intros acc H; cbn in H; [injection H as <-; by rewrite app_nil_r|].
    apply rbind_ok in H as (acc' & Ha & H). rewrite (IH _ H), (insertR_perm _ _ _ _ Ha). cbn. by rewrite Permutation_middle. }
  by apply (G []).
Qed.

(** [sorted] by integer keys succeeds and sorts. *)
Section SortedInts.
Context {A : Type} (k : A -> val) (kz : A -> Z).
Definition in_order : relation A := fun x y => kz x <= kz y.

Lemma insertR_ints x l :
  (forall y, y ∈ x :: l -> k y = VInt (kz y)) -> StronglySorted in_order l ->
  exists r, insertR k x l = Ok r /\ StronglySorted in_order r.
Proof.
  intros Hk Hs. induction Hs as [|y l Hs IH Hf]; cbn; [exists [x]; split; [done|]; by repeat constructor|].
  rewrite (Hk x), (Hk y), py_ltb_int by set_solver. cbn. destruct (Z.ltb_spec (kz x) (kz y)) as [Hlt|Hge].
  - exists (x :: y :: l). split; [done|]. constructor; [by constructor|]. constructor; [unfold in_order; lia|].
    eapply Forall_impl; [exact Hf|]. intros z. unfold in_order. lia.
  - destruct IH as (r & Hr & Hsr); [intros z Hz; apply Hk; set_solver|]. rewrite Hr. cbn. exists (y :: r). split; [done|].
    constructor; [done|]. apply insertR_perm in Hr. rewrite Hr. by constructor.
Qed.

Lemma py_sorted_by_ints l :
  (forall y, y ∈ l -> k y = VInt (kz y)) ->
  exists r, py_sorted_by k l = Ok r /\ r ≡ₚ l /\ StronglySorted in_order r.
Proof.
  intros Hk. unfold py_sorted_by.
  assert (G : forall acc, (forall y, y ∈ acc ++ l -> k y = VInt (kz y)) -> StronglySorted in_order acc ->
    exists r, foldR (fun acc x => insertR k x acc) acc l = Ok r /\ StronglySorted in_order r).
  { clear Hk. induction l as [|x l IH]; intros acc Hk Hs; cbn; [by exists acc|].
    destruct (insertR_ints x acc) as (acc' & Ha & Hs'); [intros y Hy; apply Hk; set_solver|done|]. rewrite Ha. cbn.
    apply IH; [|done]. intros y Hy. apply Hk. apply insertR_perm in Ha. rewrite Ha in Hy. set_solver. }
  destruct (G [] Hk (SSorted_nil _)) as (r & Hr & Hs). exists r. split; [done|]. split; [|done].
  exact (py_sorted_by_perm k l r Hr).
Qed.
End SortedInts.

(** As many members of a set as elements of the list it is made from: they are the elements, all distinct. *)
Lemma set_by_length {A} (f : A -> expr) l s :
  set_by f l = Ok s ->
  (length s <= length l)%nat
  /\ (length s = length l ->
      Forall2 (fun x k => f x = Ok k) l s /\ forall i j x y, (i < j)%nat -> s !! i = Some x -> s !! j = Some y -> py_eqb y x = false).
Proof.
  revert s. induction l as [|x l IH] using rev_ind; intros s H; [injection H as <-; by split; [|split; [constructor|]]|].
  unfold set_by in H. rewrite foldR_app in H. apply rbind_ok in H as (s' & Hs & H). cbn [foldR] in H.
  apply rbind_ok in H as (s2 & H & [= <-]). apply rbind_ok in H as (k & Hk%key_ok & [= <-]).
  destruct (IH _ Hs) as [Hle Heq]. rewrite !length_app. destruct (existsb (py_eqb k) s') eqn:E; rewrite ?length_app; cbn.
  - split; [lia|]. intros ?. lia.
  - split; [lia|]. intros Hlen. destruct Heq as [H2 Hd]; [lia|]. split; [apply Forall2_app; [done|by repeat constructor]|].
    intros i j a b Hij [[? Hi]|[? ?]]%lookup_snoc_Some [[? Hj]|[? <-]]%lookup_snoc_Some; [exact (Hd i j a b Hij Hi Hj)| |lia|lia].
    destruct (py_eqb k a) eqn:Ea; [|done]. rewrite (proj2 (existsb_exists _ _)) in E; [done|].
    exists a. split; [|done]. apply list_elem_of_In. by eapply list_elem_of_lookup_2.
Qed.

(** *** Rows under construction *)

(** [row'] still has what [row] has under [k]. *)
Definition keeps (k : string) (row row' : val) : Prop :=
  forall v, idx (Ok row) k = Ok v -> idx (Ok row') k = Ok v.

Lemma keeps_refl k row : keeps k row row.
Proof. by intros v. Qed.
Lemma keeps_trans k r1 r2 r3 : keeps k r1 r2 -> keeps k r2 r3 -> keeps k r1 r3.
Proof. intros H1 H2 v Hv. by apply H2, H1. Qed.

Lemma setR_keeps k k' row e row' : k <> k' -> setR row k' e = Ok row' -> keeps k row row'.
Proof.
  intros Hk (d & v & -> & _ & ->)%setR_ok w (d' & [= <-] & Hw)%idx_ok. apply idx_intro.
  rewrite sget_sset. destruct (String.eqb_spec k k'); [done|exact Hw].
Qed.

Lemma setR_new row k e row' : setR row k e = Ok row' -> exists v, e = Ok v /\ idx (Ok row') k = Ok v.
Proof.
  intros (d & v & -> & -> & ->)%setR_ok. exists v. split; [done|]. apply idx_intro.
  by rewrite sget_sset, String.eqb_refl.
Qed.
Lemma setR_other row k' e row' k : setR row k' e = Ok row' -> k <> k' -> $row'.[k] = $row.[k].
Proof.
  intros (d & v & -> & _ & ->)%setR_ok Hk. unfold idx. cbn [rbind py_getitem]. change (dget (VStr k)) with (sget k).
  change (dset (VStr k') v d) with (sset k' v d). rewrite sget_sset. by destruct (String.eqb_spec k k').
Qed.

Lemma foldR_keeps {A} k (f : val -> A -> expr) row l row' :
  (forall r x r', x ∈ l -> f r x = Ok r' -> keeps k r r') -> foldR f row l = Ok row' -> keeps k row row'.
Proof.
  intros Hf H. apply (foldR_inv (keeps k row)) in H; [done|apply keeps_refl|].
  intros s x s' Hx Hs Hstep. eapply keeps_trans; [exact Hs|by eapply Hf].
Qed.

(** [keep] follows a column through the statements of a monadic function. *)
Ltac keep_step :=
  match goal with
  | H : Ok ?a = Ok ?b |- keeps _ ?a ?b => injection H as ->; apply keeps_refl
  | H : setR ?r _ _ = Ok ?x |- keeps _ ?r ?b =>
      apply (keeps_trans _ _ x); [eapply setR_keeps; [clear H|exact H]|clear H]
  | H : foldR _ ?r _ = Ok ?x |- keeps _ ?r ?b =>
      apply (keeps_trans _ _ x); [eapply foldR_keeps, H; clear H; intros ???? H|clear H]
  | |- keeps _ ?a ?a => apply keeps_refl
  end.
Ltac keep := repeat (inv_res; cbv beta iota in *; try keep_step).
