(* ===== verification/Shlex.v ===== *)
(** * [shlex.quote], [shlex.join] and [shlex.split]

    The words of a POSIX command line, as [bench/remote_load.py] writes them for the remote shell and
    [build/openssl/regenerate.py] reads them from recipes of make.  Splitting is the state machine of the
    [shlex] class in POSIX mode with [whitespace_split]. *)

From stdpp Require Import base list strings.
From Stdlib Require Import ZArith Lia Ascii.
From S2P Require Import Prelude PyFloat PyText PyVal PyJson.

(** ** Quoting *)

Definition apostrophe : ascii := "'".
Definition safe_char (a : ascii) : bool :=
  is_alnum a || char_in a ["_"; "@"; "%"; "+"; "="; ":"; ","; "."; "/"; "-"]%char.
Definition quoted_quote : string := String "'" (String dquote (String "'" (String dquote "'"))).
Definition shlex_quote (s : string) : string :=
  if negb (String.eqb s "") && str_forall safe_char s then s
  else "'" +:+ str_replace "'" quoted_quote s +:+ "'".
Definition shlex_join (l : list string) : string := join " " (map shlex_quote l).

(** ** Splitting *)

Definition blank (a : ascii) : bool := char_in a [" "; "009"; "010"; "013"]%char.
Definition is_quote (a : ascii) : bool := Ascii.eqb a "'" || Ascii.eqb a dquote.
Definition is_escape (a : ascii) : bool := Ascii.eqb a "\".

(** Between words, in a word, in a quoted part of one, and after a backslash in a word or in double quotes. *)
Inductive lex_state := Between | InWord | InQuotes (q : ascii) | Escaping (in_quotes : bool).

Fixpoint lex (st : lex_state) (token : string) (s : string) : res (list string) :=
  match s with
  | EmptyString =>
      match st with
      | Between => Ok []
      | InWord => Ok [token]
      | InQuotes _ => raise ValueError "No closing quotation"
      | Escaping _ => raise ValueError "No escaped character"
      end
  | String a s =>
      match st with
      | Between =>
          if blank a then lex Between "" s
          else if is_escape a then lex (Escaping false) "" s
          else if is_quote a then lex (InQuotes a) "" s
          else lex InWord (String a "") s
      | InWord =>
          if blank a then rmap (cons token) (lex Between "" s)
          else if is_quote a then lex (InQuotes a) token s
          else if is_escape a then lex (Escaping false) token s
          else lex InWord (token +:+ String a "") s
      | InQuotes q =>
          if Ascii.eqb a q then lex InWord token s
          else if is_escape a && Ascii.eqb q dquote then lex (Escaping true) token s
          else lex (InQuotes q) (token +:+ String a "") s
      | Escaping in_quotes =>
          (* in double quotes a backslash only escapes itself and the quote *)
          let token := if in_quotes && negb (is_escape a) && negb (Ascii.eqb a dquote)
                       then token +:+ "\" else token in
          lex (if in_quotes then InQuotes dquote else InWord) (token +:+ String a "") s
      end
  end.
Definition shlex_split (s : string) : res (list string) := lex Between "" s.

(** ** Lemmas *)

(** A character that no state treats specially outside quotes. *)
Definition plain (a : ascii) : bool := negb (blank a) && negb (is_quote a) && negb (is_escape a).

Lemma safe_plain a : safe_char a = true -> plain a = true.
Proof. destruct a as [[] [] [] [] [] [] [] []]; intros H; first [reflexivity|discriminate H]. Qed.

Lemma lex_word s token t : str_forall plain s = true -> lex InWord token (s +:+ t) = lex InWord (token +:+ s) t.
Proof.
  revert token. induction s as [|a s IH]; intros token H; [by rewrite str_app_nil|].
  cbn [str_forall] in H. apply andb_prop in H as [Ha H]. unfold plain in Ha. cbn [String.append lex].
  destruct (blank a); [done|]. destruct (is_quote a); [done|]. destruct (is_escape a); [done|].
  rewrite IH by done. f_equal. by rewrite str_app_assoc.
Qed.

Lemma lex_quoted s token t :
  lex (InQuotes apostrophe) token (str_replace "'" quoted_quote s +:+ String apostrophe t)
  = lex InWord (token +:+ s) t.
Proof.
  unfold str_replace. revert token. induction s as [|a s IH]; intros token; [by cbn; rewrite str_app_nil|].
  cbn [replace_go startswith]. rewrite andb_true_r. destruct (Ascii.eqb_spec "'" a) as [<-|Hne].
  - cbn -[replace_go lex]. cbn [lex]. cbn -[replace_go lex]. rewrite IH. by rewrite str_app_assoc.
  - cbn [String.append lex]. destruct (Ascii.eqb_spec a apostrophe) as [->|]; [by destruct Hne|].
    rewrite andb_false_r. rewrite IH. by rewrite str_app_assoc.
Qed.

(** A quoted word is read back whole, whatever follows it. *)
Lemma lex_quote s t : lex Between "" (shlex_quote s +:+ t) = lex InWord s t.
Proof.
  unfold shlex_quote. destruct (negb (String.eqb s "") && str_forall safe_char s) eqn:E.
  - apply andb_prop in E as [Hne H]. destruct s as [|a s]; [done|].
    assert (Hp : str_forall plain (String a s) = true) by (by eapply str_forall_impl; [apply safe_plain|]).
    cbn [str_forall] in Hp. apply andb_prop in Hp as [Ha Hp]. unfold plain in Ha. cbn [String.append lex].
    destruct (blank a); [done|]. destruct (is_quote a); [done|]. destruct (is_escape a); [done|].
    by rewrite lex_word.
  - rewrite !str_app_assoc. cbn [String.append lex]. cbn. apply (lex_quoted s "" t).
Qed.

Lemma split_join l : shlex_split (shlex_join l) = Ok l.
Proof.
  unfold shlex_split, shlex_join. induction l as [|x [|y l] IH]; [done| |].
  - cbn [map join]. rewrite <- (str_app_nil (shlex_quote x)). by rewrite lex_quote.
  - cbn [map] in *. rewrite join_cons, lex_quote. cbn [String.append lex]. change (blank " ") with true. cbv iota. by rewrite IH.
Qed.

Example split_recipes :
  shlex_split "cc  -I. '-DX=a b' -c -o a.o d\ir/a\ b.c" = Ok ["cc"; "-I."; "-DX=a b"; "-c"; "-o"; "a.o"; "dir/a b.c"].
Proof. reflexivity. Qed.
