(* ===== verification/Regenerate.v ===== *)
(** * [build/openssl/regenerate.py]: the OpenSSL build inputs

    [generate] configures an upstream release, walks the library graph from [libssl] and [libcrypto],
    reads the compile recipes of make and groups the sources by their include paths and definitions.
    The commands it runs (perl, make, zig) and the files they leave are arguments.  The walk is proved to
    find exactly the objects reachable from the two libraries and to end; the groups are proved to
    hold exactly one source for every such object. *)

From stdpp Require Import base list strings gmap sets.
From Stdlib Require Import ZArith Lia Ascii.
From S2P Require Import Prelude PyFloat PyText PyVal PyJson PyScript Shlex.

Local Open Scope Z_scope.
Open Scope py_scope.

(** ** The library graph *)

Definition names_in (e : expr) : res (list string) := l <- iterR e ;; mapR as_str l.

(** [unified["sources"][library]] and [unified["depends"].get(library, ())] *)
Definition sources_of (unified : val) (library : string) : res (list string) :=
  names_in $unified.["sources"].[library].
Definition depends_of (unified : val) (library : string) : res (list string) :=
  names_in (getd $unified.["depends"] library (VTuple [])).
Definition is_library (unified : val) (dependency : string) : res bool := has $unified.["libraries"] dependency.

Definition is_object (name : string) : bool := endswith ".o" name.

(** [visited] and [objects] of [generate] *)
Record found := Found { visited : gset string; objects : gset string }.

(** [visit]; the fuel is what Python's recursion limit leaves. *)
Fixpoint visit (fuel : nat) (unified : val) (st : found) (library : string) : res found :=
  match fuel with
  | O => raise RecursionError "maximum recursion depth exceeded"
  | S fuel =>
      if decide (library ∈ visited st) then Ok st else
      children <- sources_of unified library ;;
      st <- foldR (fun st child =>
              if is_object child then Ok (Found (visited st) ({[child]} ∪ objects st)) else visit fuel unified st child)
            (Found ({[library]} ∪ visited st) (objects st)) children ;;
      dependencies <- depends_of unified library ;;
      foldR (fun st dependency => ifR (is_library unified dependency) (visit fuel unified st dependency) (Ok st))
        st dependencies
  end.

Definition walk (fuel : nat) (unified : val) : res found :=
  st <- visit fuel unified (Found ∅ ∅) "libssl" ;; visit fuel unified st "libcrypto".

(** ** Generated files *)

Definition CONFIGURE : list string :=
  ["linux-x86_64"; "no-shared"; "no-module"; "no-engine"; "no-dso"; "no-legacy"; "no-apps"; "no-tests"; "no-docs";
   "--prefix=/usr"; "--openssldir=/etc/ssl"; "--libdir=lib"; "CC=cc"].

Definition set_of (l : list string) : gset string := list_to_set l.

(** [sorted(names)] of a set of names *)
Definition sorted_names (s : gset string) : res (list string) := py_sorted_by VStr (elements s).

Definition generated_sources_of (unified : val) (st : found) : res (gset string) :=
  foldR (fun acc obj =>
    l <- sources_of unified obj ;;
    l <- filterR (fun name => has $unified.["generate"] name) l ;;
    Ok (acc ∪ set_of l)) ∅ (elements (objects st)).

Definition generated_header (name : string) : bool :=
  endswith ".h" name
  && (startswith "include/" name || startswith "crypto/" name || startswith "providers/" name)
  && negb (String.eqb name "crypto/buildinf.h").
Definition generated_headers_of (unified : val) : res (gset string) :=
  l <- names_in $unified.["generate"] ;; Ok (set_of (List.filter generated_header l)).

(** ** Compile recipes *)

Record files := Files { f_upstream : list string; f_generated : list string }.
Definition recipe_key : Type := list string * list string.
Definition groups : Type := list (recipe_key * files).

Definition add_file (generated : bool) (name : string) (f : files) : files :=
  if generated then Files (f_upstream f) (f_generated f ++ [name]) else Files (f_upstream f ++ [name]) (f_generated f).

(** [groups[key][origin].append(name)] on a [defaultdict] *)
Fixpoint add_source (k : recipe_key) (generated : bool) (name : string) (g : groups) : groups :=
  match g with
  | [] => [(k, add_file generated name (Files [] []))]
  | (k', f) :: g => if decide (k = k') then (k', add_file generated name f) :: g
                    else (k', f) :: add_source k generated name g
  end.

Definition elem_str (s : string) (l : list string) : bool := existsb (String.eqb s) l.

(** [args[args.index(flag) + 1]] *)
Fixpoint argument_after (flag : string) (args : list string) : res string :=
  match args with
  | [] => raise ValueError "list.index(x): x not in list"
  | a :: args => if String.eqb a flag then of_option (head args) IndexError "list index out of range"
                 else argument_after flag args
  end.

Definition includes_of (args : list string) : list string :=
  map (str_drop 2) (List.filter (startswith "-I") args).
Definition flags_of (args : list string) : list string :=
  List.filter (fun arg => startswith "-D" arg && negb (String.eqb arg "-DNDEBUG")) args.

(** One line of the dry run of make. *)
Definition recipe (unified : val) (objects generated : gset string) (st : gset string * groups) (line : string)
    : res (gset string * groups) :=
  if negb (startswith "cc " line) then Ok st else
  args <- shlex_split line ;;
  if negb (elem_str "-c" args && elem_str "-o" args) then Ok st else
  obj <- argument_after "-o" args ;;
  if negb (bool_decide (obj ∈ objects)) then Ok st else
  name <- of_option (last args) IndexError "list index out of range" ;;
  same <- $unified.["sources"].[obj] ==' $(VList [VStr name]) ;;
  guard (negb same) ValueError
    ("unexpected source mapping for " +:+ obj +:+ ": " +:+ py_repr (VList (map VStr args))) ;;;
  Ok ({[obj]} ∪ st.1,
      add_source (includes_of args, flags_of args) (bool_decide (name ∈ generated)) name st.2).

Definition recipes (unified : val) (objects generated : gset string) (commands : string) : res groups :=
  let* (compiled, g) := foldR (recipe unified objects generated) (∅, []) (splitlines commands) in
  if decide (compiled = objects) then Ok g else
  missing <- sorted_names (objects ∖ compiled) ;;
  raise ValueError ("missing compile recipes: " +:+ py_repr (VList (map VStr missing))).

(** ** The CPU initializer *)

Definition tab : string := String "009" "".
Definition initializer : string :=
  ".section" +:+ tab +:+ ".init" +:+ nl +:+ tab +:+ "call" +:+ tab +:+ "OPENSSL_cpuid_setup" +:+ nl.
Definition registration : string :=
  ".section" +:+ tab +:+ ".init_array," +:+ String dquote "aw" +:+ String dquote ",@init_array" +:+ nl
  +:+ ".p2align" +:+ tab +:+ "3" +:+ nl +:+ ".quad" +:+ tab +:+ "OPENSSL_cpuid_setup" +:+ nl.

Definition adapt_cpuid (assembly : string) : res string :=
  guard (negb (str_count_sub initializer assembly =? 1)) ValueError
    "upstream CPU initialization changed; review the .init_array adaptation" ;;;
  Ok ("# Modified by ZHTPS: register CPU initialization through .init_array" +:+ nl
      +:+ "# for Zig's native ELF linker. The initializer itself is unchanged." +:+ nl
      +:+ str_replace initializer registration assembly).

(** ** The manifest *)

Definition version_of (text : string) : gmap string string :=
  foldl (fun d line =>
    if negb (startswith "#" line)
    then match split_once "=" line with Some (k, v) => <[k := v]> d | None => d end
    else d) ∅ (splitlines text).
Definition release_of (text : string) : res string :=
  l <- mapR (fun k => of_option (version_of text !! k) KeyError k) ["MAJOR"; "MINOR"; "PATCH"] ;; Ok (join "." l).

Definition item_lines (k : string) (items : list string) : list string :=
  (("            ." +:+ k +:+ " = .{") :: map (fun item => "                " +:+ json_string item +:+ ",") items)
  ++ ["            },"].
Definition group_lines (kf : recipe_key * files) : res (list string) :=
  upstream <- py_sorted_by VStr (f_upstream kf.2) ;;
  generated <- py_sorted_by VStr (f_generated kf.2) ;;
  Ok (["        .{"] ++ item_lines "includes" kf.1.1 ++ item_lines "flags" kf.1.2
      ++ item_lines "upstream" upstream ++ item_lines "generated" generated ++ ["        },"]).
Definition group_key (kf : recipe_key * files) : val :=
  VTuple [VTuple (map VStr kf.1.1); VTuple (map VStr kf.1.2)].
Definition manifest_text (release version_file : string) (g : groups) : res string :=
  g <- py_sorted_by group_key g ;;
  lines <- mapR group_lines g ;;
  Ok (join nl (["// Generated by regenerate.py from OpenSSL's configured library build."; ".{";
                "    .version = " +:+ json_string release +:+ ",";
                "    .version_file = " +:+ json_string version_file +:+ ","; "    .groups = .{"]
               ++ concat lines ++ ["    },"; "}"; ""])).

(** ** [generate] *)

(** What is left in the output folder, and the line printed. *)
Record product := Product { generated_files : list (string * string); sources_zon : string; summary : string }.

Section Generate.
(** The output of a command run in the private copy, the files of that copy once the commands have run,
    and [zig fmt]. *)
Variable run : list string -> res string.
Variable work : string -> option string.
Variable zig_fmt : string -> res string.

Definition read_work (name : string) : res string := of_option (work name) FileNotFoundError name.

Definition unified_of : expr :=
  run ("perl" :: "Configure" :: CONFIGURE) ;;;
  run ["make"; "-j4"; "build_generated"] ;;;
  text <- run ["perl"; "-I."; "-Mconfigdata"; "-MJSON::PP"; "-e";
               "print JSON::PP->new->canonical->encode(\%unified_info)"] ;;
  json_loads text.

(** The files copied to [generated], with the CPU initializer adapted. *)
Definition copy_generated (names : list string) : res (list (string * string)) :=
  copied <- mapR (fun name => text <- read_work name ;; Ok (name, text)) names ;;
  assembly <- of_option (snd <$> list_find (fun kv => kv.1 = "crypto/x86_64cpuid.s") copied)
                FileNotFoundError "crypto/x86_64cpuid.s" ;;
  adapted <- adapt_cpuid assembly.2 ;;
  Ok (map (fun kv => if String.eqb kv.1 "crypto/x86_64cpuid.s" then (kv.1, adapted) else kv) copied).

Definition generate (fuel : nat) (configured : bool) : res product :=
  guard configured ValueError "use a clean, unconfigured OpenSSL release directory" ;;;
  unified <- unified_of ;;
  st <- walk fuel unified ;;
  generated_sources <- generated_sources_of unified st ;;
  generated_headers <- generated_headers_of unified ;;
  names <- sorted_names (generated_sources ∪ generated_headers) ;;
  run (["make"; "-j4"] ++ names) ;;;
  commands <- run ["make"; "-n"; "build_libs"] ;;
  g <- recipes unified (objects st) generated_sources (str_replace (String "\" nl) " " commands) ;;
  copied <- copy_generated names ;;
  version_file <- read_work "VERSION.dat" ;;
  release <- release_of version_file ;;
  text <- manifest_text release version_file g ;;
  manifest <- zig_fmt text ;;
  Ok (Product copied manifest
        ("OpenSSL " +:+ release +:+ ": " +:+ string_of_Z (Z.of_nat (size (objects st))) +:+ " objects, "
         +:+ string_of_Z (Z.of_nat (size generated_sources)) +:+ " generated sources, "
         +:+ string_of_Z (Z.of_nat (size generated_headers)) +:+ " headers")).
End Generate.

(** ** The walk *)

(** [l] leads to [m]: [m] is a component of [l] that is not an object, or a library [l] depends on. *)
Inductive edge (unified : val) (l : string) : string -> Prop :=
  | edge_component cs c : sources_of unified l = Ok cs -> c ∈ cs -> is_object c = false -> edge unified l c
  | edge_dependency ds d : depends_of unified l = Ok ds -> d ∈ ds -> is_library unified d = Ok true -> edge unified l d.

Definition object_of (unified : val) (l o : string) : Prop :=
  exists cs, sources_of unified l = Ok cs /\ o ∈ cs /\ is_object o = true.

Definition reachable (unified : val) (l : string) : Prop :=
  exists root, root ∈ ["libssl"; "libcrypto"] /\ rtc (edge unified) root l.

Section Walk.
Variable unified : val.

(** Everything [m] leads to has been visited and its objects are collected. *)
Definition closed_at (st : found) (m : string) : Prop :=
  (forall n, edge unified m n -> n ∈ visited st) /\ (forall o, object_of unified m o -> o ∈ objects st).

(** [st'] extends [st] by libraries of [R]: they are closed in [st'], and nothing else was added. *)
Record extends (R : string -> Prop) (st st' : found) : Prop := {
  e_visited : visited st ⊆ visited st';
  e_objects : objects st ⊆ objects st';
  e_closed : forall m, m ∈ visited st' -> m ∉ visited st -> closed_at st' m;
  e_sound : forall m, m ∈ visited st' -> m ∈ visited st \/ R m;
  e_collected : forall o, o ∈ objects st' -> o ∈ objects st \/ exists m, R m /\ object_of unified m o;
}.

Lemma closed_at_mono R st st' m : extends R st st' -> closed_at st m -> closed_at st' m.
Proof. intros H [H1 H2]. split; intros n Hn; [apply (e_visited _ _ _ H)|apply (e_objects _ _ _ H)]; auto. Qed.

Lemma extends_refl R st : extends R st st.
Proof. split; set_solver. Qed.

Lemma extends_trans R st1 st2 st3 : extends R st1 st2 -> extends R st2 st3 -> extends R st1 st3.
Proof.
  intros H1 H2. split.
  - by etrans; [apply (e_visited _ _ _ H1)|apply (e_visited _ _ _ H2)].
  - by etrans; [apply (e_objects _ _ _ H1)|apply (e_objects _ _ _ H2)].
  - intros m Hm Hn. destruct (decide (m ∈ visited st2)) as [Hi|Hi].
    + eapply closed_at_mono; [exact H2|]. by apply (e_closed _ _ _ H1).
    + by apply (e_closed _ _ _ H2).
  - intros m Hm. destruct (e_sound _ _ _ H2 m Hm) as [Hi|]; [|by right]. by apply (e_sound _ _ _ H1).
  - intros o Ho. destruct (e_collected _ _ _ H2 o Ho) as [Hi|]; [|by right]. by apply (e_collected _ _ _ H1).
Qed.

Lemma extends_weaken (R R' : string -> Prop) st st' : (forall m, R m -> R' m) -> extends R st st' -> extends R' st st'.
Proof.
  intros HR [H1 H2 H3 H4 H5]. split; try done.
  - intros m Hm. destruct (H4 m Hm); auto.
  - intros o Ho. destruct (H5 o Ho) as [|(m & ? & ?)]; [by left|]. right. exists m. auto.
Qed.

(** A fold of extensions, each of which establishes [Q] of its element. *)
Lemma extends_fold {A} R (f : found -> A -> res found) (Q : A -> found -> Prop) l st st' :
  (forall x s s', x ∈ l -> f s x = Ok s' -> extends R s s' /\ Q x s') ->
  (forall x s s', extends R s s' -> Q x s -> Q x s') ->
  foldR f st l = Ok st' -> extends R st st' /\ forall x, x ∈ l -> Q x st'.
Proof.
  intros Hf HQ. revert st. induction l as [|x l IH]; intros st H; cbn in H.
  - injection H as <-. split; [apply extends_refl|set_solver].
  - apply rbind_ok in H as (s1 & Hs1 & H). destruct (Hf _ _ _ (list_elem_of_here _ _) Hs1) as [H1 H2].
    destruct (IH (fun y s s' Hy => Hf y s s' (list_elem_of_further _ _ _ Hy)) _ H) as [H3 H4].
    split; [by eapply extends_trans|]. intros y [->|Hy]%elem_of_cons; [by eapply HQ|auto].
Qed.

(** [visit] explores what its library leads to. *)
Lemma visit_extends fuel st l st' :
  visit fuel unified st l = Ok st' -> extends (rtc (edge unified) l) st st' /\ l ∈ visited st'.
Proof.
  revert st l st'. induction fuel as [|fuel IH]; intros st l st' H; [done|]. cbn [visit] in H.
  destruct (decide (l ∈ visited st)) as [Hl|Hl]; [inv_res; by split; [apply extends_refl|]|].
  apply rbind_ok in H as (cs & Hcs & H). apply rbind_ok in H as (st2 & Hst2 & H). apply rbind_ok in H as (ds & Hds & H).
  set (st1 := Found ({[l]} ∪ visited st) (objects st)) in Hst2.
  apply (extends_fold (rtc (edge unified) l) _ (fun c s => if is_object c then c ∈ objects s else c ∈ visited s)) in Hst2
    as [X1 Q1].
  2: { intros c s s' Hc. destruct (is_object c) eqn:Eo.
       - intros [= <-]. split; [|cbn; set_solver]. split; cbn; try set_solver.
         intros o [->%elem_of_singleton|]%elem_of_union; [|by left]. right. exists l. split; [done|]. by exists cs.
       - intros [X Hv]%IH. split; [|done]. eapply extends_weaken; [|exact X]. intros m Hm.
         eapply rtc_l; [by eapply edge_component|done]. }
  2: { intros c s s' X. case_match; [apply (e_objects _ _ _ X)|apply (e_visited _ _ _ X)]. }
  apply (extends_fold (rtc (edge unified) l) _ (fun d s => is_library unified d = Ok true -> d ∈ visited s)) in H as [X2 Q2].
  2: { intros d s s' Hd. unfold ifR. intros (b & Hb & Hf)%rbind_ok. destruct b.
       - apply IH in Hf as [X Hv]. split; [|done]. eapply extends_weaken; [|exact X]. intros m Hm.
         eapply rtc_l; [by eapply edge_dependency|done].
       - injection Hf as <-. split; [apply extends_refl|congruence]. }
  2: { intros d s s' X Hq Hb. apply (e_visited _ _ _ X). auto. }
  pose proof (extends_trans _ _ _ _ X1 X2) as X. assert (Hin : l ∈ visited st').
  { apply (e_visited _ _ _ X). cbn. set_solver. }
  split; [|done]. split.
  - etrans; [|apply (e_visited _ _ _ X)]. cbn. set_solver.
  - apply (e_objects _ _ _ X).
  - intros m Hm Hn. destruct (decide (m = l)) as [->|Hne].
    + split.
      * intros n He. destruct He as [cs' c Hcs' Hc Ho|ds' d Hds' Hd Hb].
        -- assert (cs' = cs) as -> by congruence. specialize (Q1 _ Hc). rewrite Ho in Q1. by apply (e_visited _ _ _ X2).
        -- assert (ds' = ds) as -> by congruence. by apply Q2.
      * intros o (cs' & Hcs' & Hc & Ho). assert (cs' = cs) as -> by congruence. specialize (Q1 _ Hc). rewrite Ho in Q1.
        by apply (e_objects _ _ _ X2).
    + apply (e_closed _ _ _ X); [done|]. cbn. set_solver.
  - intros m Hm. destruct (e_sound _ _ _ X m Hm) as [Hi|]; [|by right]. cbn in Hi.
    apply elem_of_union in Hi as [->%elem_of_singleton|]; [by right|by left].
  - apply (e_collected _ _ _ X).
Qed.

(** What one library asks of the configuration: its lists exist and hold names. *)
Definition described (l : string) : Prop :=
  exists cs ds, sources_of unified l = Ok cs /\ depends_of unified l = Ok ds
  /\ Forall (fun d => exists b, is_library unified d = Ok b) ds.

(** The libraries the configuration gives sources for. *)
Definition source_names : gset string :=
  match idx (Ok unified) "sources" with
  | Ok (VDict d) => list_to_set (omap (fun kv => match kv.1 with VStr s => Some s | _ => None end) d)
  | _ => ∅
  end.

Lemma sources_known l cs : sources_of unified l = Ok cs -> l ∈ source_names.
Proof.
  unfold sources_of, names_in, iterR, source_names, idx at 1. intros (vs & (v & (w & -> & Hg)%rbind_ok & _)%rbind_ok & _)%rbind_ok.
  destruct w; try done. cbn in Hg. apply of_option_ok in Hg. apply elem_of_list_to_set, list_elem_of_omap.
  induction d as [|[k x] d IH]; [done|]. cbn in Hg. case_match eqn:E.
  - apply py_eqb_str_inv in E as ->. exists (VStr l, x). split; [left|done].
  - destruct (IH Hg) as (kv & ? & ?). exists kv. split; [by right|done].
Qed.

Lemma total_fold {A} (f : found -> A -> res found) (P : found -> Prop) l st :
  (forall x s, x ∈ l -> P s -> exists s', f s x = Ok s' /\ P s') -> P st -> exists st', foldR f st l = Ok st' /\ P st'.
Proof.
  revert st. induction l as [|x l IH]; intros st Hf HP; cbn; [by exists st|].
  destruct (Hf x st (list_elem_of_here _ _) HP) as (s1 & -> & H1). cbn. apply IH; [|done].
  intros y s Hy. apply Hf. by right.
Qed.

(** The walk never needs more recursion than there are libraries left to visit. *)
Lemma visit_total fuel st l :
  (forall m, rtc (edge unified) l m -> described m) -> (size (source_names ∖ visited st) < fuel)%nat ->
  exists st', visit fuel unified st l = Ok st'.
Proof.
  revert st l. induction fuel as [|fuel IH]; intros st l Hd Hf; [lia|]. cbn [visit].
  destruct (decide (l ∈ visited st)) as [Hl|Hl]; [by exists st|].
  destruct (Hd l (rtc_refl _ _)) as (cs & ds & Hcs & Hds & Hb). rewrite Hcs, Hds. cbn [rbind].
  set (st1 := Found _ _).
  pose (P := fun s : found => (size (source_names ∖ visited s) < fuel)%nat).
  assert (P1 : P st1).
  { unfold P, st1. cbn. apply sources_known in Hcs. enough (size (source_names ∖ ({[l]} ∪ visited st)) < size (source_names ∖ visited st))%nat by lia.
    apply subset_size. set_solver. }
  assert (step : forall s m, rtc (edge unified) l m -> P s -> exists s', visit fuel unified s m = Ok s' /\ P s').
  { intros s m Hm Hs. destruct (IH s m) as (s' & Hs'); [intros n Hn; apply Hd; by etrans|exact Hs|].
    exists s'. split; [done|]. apply visit_extends in Hs' as [X _]. pose proof (e_visited _ _ _ X). unfold P in *.
    enough (size (source_names ∖ visited s') <= size (source_names ∖ visited s))%nat by lia. apply subseteq_size. set_solver. }
  edestruct (total_fold (fun st child => if is_object child then Ok (Found (visited st) ({[child]} ∪ objects st))
                                         else visit fuel unified st child) P cs st1) as (st2 & -> & P2); [|exact P1|].
  { intros c s Hc Hs. destruct (is_object c) eqn:Eo; [by eexists|]. apply step; [|done].
    apply rtc_once. by eapply edge_component. }
  cbn [rbind]. edestruct (total_fold (fun st d => ifR (is_library unified d) (visit fuel unified st d) (Ok st)) P ds st2)
    as (st3 & -> & _); [|exact P2|by exists st3].
  intros d s Hin Hs. rewrite Forall_forall in Hb. destruct (Hb d Hin) as ([] & Eb); rewrite Eb; cbn [ifR rbind].
  - apply step; [|done]. apply rtc_once. by eapply edge_dependency.
  - by exists s.
Qed.
End Walk.

Lemma walk_spec fuel unified st :
  walk fuel unified = Ok st ->
  (forall l, l ∈ visited st <-> reachable unified l)
  /\ (forall o, o ∈ objects st <-> exists l, reachable unified l /\ object_of unified l o).
Proof.
  unfold walk. intros (st1 & [X1 V1]%visit_extends & [X2 V2]%visit_extends)%rbind_ok.
  apply (extends_weaken _ _ (reachable unified)) in X1; [|intros m Hm; exists "libssl"; split; [left|done]].
  apply (extends_weaken _ _ (reachable unified)) in X2; [|intros m Hm; exists "libcrypto"; split; [right; left|done]].
  pose proof (extends_trans _ _ _ _ _ X1 X2) as X. apply (e_visited _ _ _ _ X2) in V1.
  assert (closed : forall m, m ∈ visited st -> closed_at unified st m).
  { intros m Hm. apply (e_closed _ _ _ _ X); [done|]. cbn. set_solver. }
  assert (reached : forall l, reachable unified l -> l ∈ visited st).
  { intros l (root & Hroot & Hp). assert (Hin : root ∈ visited st) by (rewrite elem_of_cons, list_elem_of_singleton in Hroot; destruct Hroot; by subst).
    clear Hroot. induction Hp as [x|x y z He _ IH]; [done|]. apply IH. by apply (closed x). }
  split; split.
  - intros Hl. destruct (e_sound _ _ _ _ X l Hl) as [H|]; [cbn in H; set_solver|done].
  - apply reached.
  - intros Ho. destruct (e_collected _ _ _ _ X o Ho) as [H|]; [cbn in H; set_solver|done].
  - intros (l & Hl & Ho). by apply (closed l (reached l Hl)).
Qed.

(** ** The groups *)

Definition listed (g : groups) (generated : bool) (name : string) : Prop :=
  exists k f, (k, f) ∈ g /\ name ∈ (if generated then f_generated f else f_upstream f).

Lemma listed_add k b n g b' n' : listed (add_source k b n g) b' n' <-> listed g b' n' \/ (b' = b /\ n' = n).
Proof.
  assert (add : forall f, n' ∈ (if b' then f_generated (add_file b n f) else f_upstream (add_file b n f))
            <-> n' ∈ (if b' then f_generated f else f_upstream f) \/ (b' = b /\ n' = n)).
  { intros f. destruct b, b'; cbn; rewrite ?elem_of_app, ?list_elem_of_singleton; naive_solver. }
  unfold listed. induction g as [|[k' f'] g IH]; cbn.
  - split.
    + intros (k' & f & [= -> ->]%list_elem_of_singleton & H%add). destruct H as [H|H]; [|by right].
      cbn in H. destruct b'; by apply not_elem_of_nil in H.
    + intros [(k' & f & H & _)|H]; [by apply not_elem_of_nil in H|].
      eexists _, _. split; [left|]. apply add. by right.
  - destruct (decide (k = k')) as [->|Hne]; split.
    + intros (k & f & [[= -> ->]|Hin]%elem_of_cons & H); [apply add in H as [H|H]; [left|by right]|left].
      * exists k', f'. split; [left|done].
      * exists k, f. split; [by right|done].
    + intros [(k & f & [[= -> ->]|Hin]%elem_of_cons & H)|H].
      * eexists _, _. split; [left|]. apply add. by left.
      * exists k, f. split; [by right|done].
      * eexists _, _. split; [left|]. apply add. by right.
    + intros (k0 & f & [[= -> ->]|Hin]%elem_of_cons & H); [left; exists k', f'; split; [left|done]|].
      destruct (proj1 IH) as [(k1 & f1 & ? & ?)|]; [by exists k0, f| |by right]. left. exists k1, f1. split; [by right|done].
    + intros H. enough (H' : listed g b' n' \/ (b' = b /\ n' = n) \/ (k', f') ∈ [(k', f')] /\ n' ∈ (if b' then f_generated f' else f_upstream f')).
      { destruct H' as [H'|[H'|[_ H']]]; [| |by exists k', f'; split; [left|]];
        (destruct (proj2 IH) as (k1 & f1 & ? & ?); [tauto|]; exists k1, f1; split; [by right|done]). }
      destruct H as [(k0 & f & [[= -> ->]|Hin]%elem_of_cons & H)|H]; [|left; by exists k0, f|tauto].
      right. right. split; [by apply list_elem_of_singleton|done].
Qed.

(** The one source file of an object. *)
Definition source_of (unified : val) (obj name : string) : Prop :=
  $unified.["sources"].[obj] = Ok (VList [VStr name]).

Lemma py_eqb_names v name : py_eqb v (VList [VStr name]) = true -> v = VList [VStr name].
Proof.
  destruct v as [| | | | |[|x [|y l]]| |]; cbn; try done; [|by rewrite andb_false_r]. rewrite andb_true_r. intros H.
  destruct x; try done. cbn in H. by apply String.eqb_eq in H as ->.
Qed.

(** Every compiled object has its source in a group of the right origin, and nothing else is in a group. *)
Definition accounted (unified : val) (objects generated : gset string) (st : gset string * groups) : Prop :=
  (forall obj, obj ∈ st.1 -> exists name, source_of unified obj name /\ listed st.2 (bool_decide (name ∈ generated)) name)
  /\ (forall b name, listed st.2 b name -> b = bool_decide (name ∈ generated)
       /\ exists obj, obj ∈ objects /\ source_of unified obj name).

Lemma recipe_accounted unified objects generated st line st' :
  accounted unified objects generated st -> recipe unified objects generated st line = Ok st' ->
  accounted unified objects generated st'.
Proof.
  intros [H1 H2] H. unfold recipe in H. case_match; [by inv_res|]. apply rbind_ok in H as (args & _ & H).
  case_match; [by inv_res|]. apply rbind_ok in H as (obj & _ & H). case_match eqn:Eo; [by inv_res|].
  apply rbind_ok in H as (name & _ & H). apply rbind_ok in H as (same & Hs & H). apply rbind_ok in H as ([] & Hg & H).
  apply guard_ok, negb_false_iff in Hg as ->. injection H as <-. apply negb_false_iff, bool_decide_eq_true_1 in Eo.
  assert (source_of unified obj name).
  { unfold eqR, lift2 in Hs. apply rbind_ok in Hs as (v & Hv & Hs). cbn in Hs. injection Hs as Hs.
    apply py_eqb_names in Hs as ->. exact Hv. }
  split; cbn.
  - intros o [->%elem_of_singleton|Ho]%elem_of_union.
    + exists name. split; [done|]. apply listed_add. by right.
    + destruct (H1 o Ho) as (n & ? & ?). exists n. split; [done|]. apply listed_add. by left.
  - intros b n [Hl|[-> ->]]%listed_add; [by apply H2|]. split; [done|]. by exists obj.
Qed.

Lemma recipes_accounted unified objects generated commands g :
  recipes unified objects generated commands = Ok g -> accounted unified objects generated (objects, g).
Proof.
  unfold recipes. intros ([compiled g'] & Hf & H)%rbind_ok. cbn in H. destruct (decide (compiled = objects)) as [->|_].
  - injection H as <-. apply (foldR_inv (accounted unified objects generated)) in Hf; [done| |intros; by eapply recipe_accounted].
    split; [set_solver|]. intros b name (k & f & Hin & _). by apply not_elem_of_nil in Hin.
  - by apply rbind_ok in H as (missing & _ & H).
Qed.

(** ** What is written *)

Lemma sorted_names_ok s l : sorted_names s = Ok l -> forall x, x ∈ l <-> x ∈ s.
Proof. intros H%py_sorted_by_perm x. by rewrite H, elem_of_elements. Qed.

Lemma copy_generated_names work names copied :
  copy_generated work names = Ok copied -> map fst copied = names.
Proof.
  unfold copy_generated. intros (l & Hl & (_ & _ & (adapted & _ & [= <-])%rbind_ok)%rbind_ok)%rbind_ok.
  rewrite map_map. transitivity (map fst l).
  - apply map_ext. intros [k v]. cbn. by case_match.
  - apply mapR_ok in Hl. induction Hl as [|x y xs ys Hx _ IH]; [done|]. cbn. rewrite IH. f_equal.
    by apply rbind_ok in Hx as (? & _ & [= <-]).
Qed.

(** ** A release of three objects

    [libssl] has one object and depends on [libcrypto], which has a component with another and a generated one. *)

Definition names (l : list string) : val := VList (map VStr l).
Definition sample_unified : val :=
  obj [("sources", obj [("libssl", names ["ssl/s.o"]); ("libcrypto", names ["providers/liba.a"; "crypto/x86_64cpuid.o"]);
                        ("providers/liba.a", names ["providers/p.o"]); ("ssl/s.o", names ["ssl/s.c"]);
                        ("providers/p.o", names ["providers/p.c"]);
                        ("crypto/x86_64cpuid.o", names ["crypto/x86_64cpuid.s"])]);
       ("depends", obj [("libssl", names ["libcrypto"; "elsewhere"]); ("libcrypto", names ["libssl"])]);
       ("libraries", obj [("libssl", VList []); ("libcrypto", VList [])]);
       ("generate", obj [("crypto/x86_64cpuid.s", VList []); ("include/a.h", VList []); ("crypto/buildinf.h", VList [])])].
Definition sample_recipes : string :=
  join nl ["echo cc"; "cc -I. -Iinclude -DNDEBUG '-DNAME=a b' -c -o ssl/s.o ssl/s.c";
           "cc -I. -c -o crypto/x86_64cpuid.o crypto/x86_64cpuid.s"; "cc -I. -Iinclude \";
           " '-DNAME=a b' -c -o providers/p.o providers/p.c"; "cc -c -o apps/x.o apps/x.c"].
Definition sample_run (command : list string) : res string :=
  match command with
  | "perl" :: "-I." :: _ => json_dumps sample_unified
  | ["make"; "-n"; "build_libs"] => Ok sample_recipes
  | _ => Ok ""
  end.
Definition sample_work (name : string) : option string :=
  if String.eqb name "crypto/x86_64cpuid.s" then Some ("# code" +:+ nl +:+ initializer)
  else if String.eqb name "include/a.h" then Some "int a;"
  else if String.eqb name "VERSION.dat" then Some (join nl ["# version"; "MAJOR=3"; "MINOR=5"; "PATCH=1"]) else None.

Lemma sample_described l : reachable sample_unified l -> described sample_unified l.
Proof.
  intros Hl. destruct (walk 10 sample_unified) as [st|] eqn:E; [|by vm_compute in E].
  apply (proj1 (walk_spec _ _ _ E)) in Hl. rewrite <- elem_of_elements in Hl.
  assert (H : Forall (described sample_unified) (elements (visited st))).
  { vm_compute in E. injection E as <-. vm_compute elements.
    repeat constructor; eexists _, _; (split; [reflexivity|]); (split; [reflexivity|]); repeat constructor; by eexists. }
  by apply (proj1 (Forall_forall _ _) H).
Qed.

(** ** Properties *)

(** C34: The walk of the library graph finishes, with more recursion allowed than there are entries under [sources],
    whatever cycles the dependencies have, and then it has visited exactly the libraries reachable from [libssl]
    and [libcrypto] and collected exactly their objects. *)
Theorem walk_exact fuel unified :
  (forall l, reachable unified l -> described unified l) -> (size (source_names unified) < fuel)%nat ->
  exists st, walk fuel unified = Ok st
  /\ (forall l, l ∈ visited st <-> reachable unified l)
  /\ (forall o, o ∈ objects st <-> exists l, reachable unified l /\ object_of unified l o).
Proof.
  intros Hd Hf.
  destruct (visit_total unified fuel (Found ∅ ∅) "libssl") as (st1 & E1).
  { intros m Hm. apply Hd. exists "libssl". split; [left|done]. }
  { cbn. enough (size (source_names unified ∖ ∅) <= size (source_names unified))%nat by lia. apply subseteq_size. set_solver. }
  destruct (visit_total unified fuel st1 "libcrypto") as (st & E2).
  { intros m Hm. apply Hd. exists "libcrypto". split; [right; left|done]. }
  { enough (size (source_names unified ∖ visited st1) <= size (source_names unified))%nat by lia. apply subseteq_size. set_solver. }
  exists st. assert (Hw : walk fuel unified = Ok st) by (unfold walk; rewrite E1; exact E2).
  split; [done|]. exact (walk_spec _ _ _ Hw).
Qed.

Lemma walk_exact_witness : exists st, walk 7 sample_unified = Ok st
  /\ (forall l, l ∈ visited st <-> reachable sample_unified l)
  /\ (forall o, o ∈ objects st <-> exists l, reachable sample_unified l /\ object_of sample_unified l o).
Proof. apply walk_exact; [apply sample_described|vm_compute; lia]. Defined.


