(* ===== verification/PyStats.v ===== *)
(** * Numbers of the summaries

    [statistics.mean], [round], [abs], fixed-point formatting of numbers, [zip(..., strict=True)],
    slices and [collections.Counter], on the values of [PyVal]. *)

From stdpp Require Import base list strings.
From Stdlib Require Import ZArith Lia Ascii.
From S2P Require Import Prelude PyFloat PyText PyVal PyScript.

Local Open Scope Z_scope.
Open Scope py_scope.

(** ** Rounding and formatting *)

(** [abs(v)] *)
Definition py_abs (v : val) : expr :=
  match num_of v with
  | Some (NI z) => Ok (VInt (Z.abs z))
  | Some (NF x) => Ok (VFloat (f64_abs x))
  | None => type_error "bad operand type for abs()"
  end.

(** [round(v)], to the nearest even integer *)
Definition py_round (v : val) : expr :=
  match num_of v with
  | Some (NI z) => Ok (VInt z)
  | Some (NF x) =>
      match f64_scaled x 0 with
      | Some n => Ok (VInt (if f64_neg_sign x then - n else n))
      | None => raise ValueError "cannot convert float to integer"
      end
  | None => type_error "type doesn't define __round__ method"
  end.

(** [round(v, p)] of a [float]: the nearest float to the decimal rounding *)
Definition round_to (p : Z) (v : val) : expr :=
  match num_of v with
  | Some (NI z) => Ok (VInt z)
  | Some (NF x) =>
      match f64_scaled x p with
      | Some n => let n := if f64_neg_sign x then - n else n in
                  rmap VFloat (of_option (f64_of_quotient n (10 ^ p)) OverflowError "rounded value too large to represent")
      | None => Ok v
      end
  | None => type_error "type doesn't define __round__ method"
  end.

(** [f'{v:.pf}'], or [f'{v:,.pf}'] when [grouped] *)
Definition format_fixed (grouped : bool) (p : nat) (v : val) : res string :=
  match num_of v with
  | Some n => x <- to_f64 n ;; Ok (format_f64 grouped p x)
  | None => raise (if is_none v then TypeError else ValueError) "unsupported format string"
  end.

(** [f'{v:,}'] of an [int] *)
Definition format_grouped (v : val) : res string :=
  match num_of v with
  | Some (NI z) => Ok (format_int_grouped z)
  | _ => type_error "unsupported format string"
  end.

(** Replacement fields with a format. *)
Definition V_ (f : val -> res string) (e : expr) : piece := V (v <- e ;; rmap VStr (f v)).

(** ** Means

    [statistics.mean] adds exactly and rounds once. *)

(** A finite number as a fraction with a power of two below. *)
Definition fraction (n : num) : option (Z * Z) :=
  match n with
  | NI z => Some (z, 1)
  | NF x => match f64_mant x with
            | Some (m, e) => Some (if 0 <=? e then (m * 2 ^ e, 1) else (m, 2 ^ (- e)))
            | None => None
            end
  end.
Definition add_fraction (a b : Z * Z) : Z * Z := (a.1 * b.2 + b.1 * a.2, a.2 * b.2).

Definition is_float (v : val) : bool := match v with VFloat _ => true | _ => false end.

Definition py_mean (l : list val) : expr :=
  ns <- mapR (fun v => of_option (num_of v) TypeError "can't convert type to numerator/denominator") l ;;
  match ns with
  | [] => raise ValueError "mean requires at least one data point"
  | _ =>
      let k := Z.of_nat (length ns) in
      match mapM fraction ns with
      | Some qs =>
          let '(n, d) := foldl add_fraction (0, 1) qs in
          if negb (existsb is_float l) && (n mod (d * k) =? 0) then Ok (VInt (n / (d * k)))
          else rmap VFloat (of_option (f64_of_quotient n (d * k)) OverflowError "integer division result too large for a float")
      | None =>
          rmap VFloat (foldR (fun acc n => match n with
                                           | NF x => Ok (if f64_finite x then acc else f64_add acc x)
                                           | NI _ => Ok acc end) f64_zero ns)
      end
  end.
Definition meanR (f : val -> expr) (l : list val) : expr := xs <- mapR f l ;; py_mean xs.

(** ** Slices and strict pairing *)

(** [l[::2]] *)
Fixpoint evens {A} (l : list A) : list A :=
  match l with [] => [] | [x] => [x] | x :: _ :: r => x :: evens r end.

(** [zip(l, m, strict=True)] consumed to its end *)
Fixpoint zip_strict {A B} (l : list A) (m : list B) : res (list (A * B)) :=
  match l, m with
  | [], [] => Ok []
  | x :: l, y :: m => r <- zip_strict l m ;; Ok ((x, y) :: r)
  | _, _ => raise ValueError "zip() arguments have different lengths"
  end.

(** [l[0]] and [l[-1]] *)
Definition firstR (l : list val) : expr := of_option (head l) IndexError "list index out of range".
Definition lastR (l : list val) : expr := of_option (last l) IndexError "list index out of range".

(** ** Counters

    A [Counter] is the dictionary of its counts. *)

(** [counter.update(mapping)]: an empty counter copies the mapping, another one adds its counts. *)
Definition counter_update (c d : dict) : res dict :=
  match c with
  | [] => Ok (dupdate [] d)
  | _ => foldR (fun c kn => s <- py_add kn.2 (default (VInt 0) (dget kn.1 c)) ;; Ok (dset kn.1 s c)) c d
  end.

(** [counter[k] += 1] *)
Definition counter_add (c : dict) (k : val) : res dict :=
  k <- key (Ok k) ;; s <- py_add (default (VInt 0) (dget k c)) (VInt 1) ;; Ok (dset k s c).

(** [Counter(v)] *)
Definition counter_of (v : val) : res dict :=
  match v with
  | VNone => Ok []
  | VDict d => Ok (dupdate [] d)
  | _ => l <- py_iter v ;; foldR counter_add [] l
  end.

(** Equality of counters: a missing key counts zero. *)
Definition counter_eqb (c d : dict) : bool :=
  forallb (fun kn => py_eqb kn.2 (default (VInt 0) (dget kn.1 d))) c
  && forallb (fun kn => py_eqb kn.2 (default (VInt 0) (dget kn.1 c))) d.

Example mean_examples :
  (py_mean [VInt 1; VInt 2; VInt 3], py_mean [VInt 1; VInt 2], py_mean [VFloat (f64_lit 1 1); VFloat (f64_lit 2 1)])
  = (Ok (VInt 2), Ok (VFloat (f64_lit 15 1)), Ok (VFloat (f64_lit 15000000000000002 17))).
Proof. vm_compute. reflexivity. Qed.

Example round_examples :
  (py_round (VFloat (f64_lit 25 1)), py_round (VFloat (f64_lit 35 1)), py_round (VFloat (f64_neg (f64_lit 26 1))))
  = (Ok (VInt 2), Ok (VInt 4), Ok (VInt (-3))).
Proof. vm_compute. reflexivity. Qed.

(** ** Lemmas *)

Lemma zip_strict_ok {A B} (l : list A) (m : list B) r :
  zip_strict l m = Ok r -> length l = length m /\ r = zip l m.
Proof.
  revert m r. induction l as [|x l IH]; intros [|y m] r; cbn; try done; [by intros [= <-]|].
  intros (r' & H & [= <-])%rbind_ok. apply IH in H as [-> ->]. done.
Qed.
