(* ===== verification/PyHash.v ===== *)
(** * [hashlib.sha256] and [zlib.crc32]

    The two digests the audits compare files by, on byte strings, as the published algorithms compute
    them: 32-bit words are integers reduced modulo [2^32]. *)

From stdpp Require Import base list strings.
From Stdlib Require Import ZArith Lia Ascii.
From S2P Require Import Prelude PyText PyJson.

Local Open Scope Z_scope.

Definition word (z : Z) : Z := Z.land z 4294967295.
Definition add32 (a b : Z) : Z := word (a + b).
Definition rotr (n w : Z) : Z := Z.lor (Z.shiftr w n) (word (Z.shiftl w (32 - n))).

(** ** SHA-256 *)

Definition round_constants : list Z :=
  [1116352408; 1899447441; 3049323471; 3921009573; 961987163; 1508970993; 2453635748; 2870763221;
   3624381080; 310598401; 607225278; 1426881987; 1925078388; 2162078206; 2614888103; 3248222580;
   3835390401; 4022224774; 264347078; 604807628; 770255983; 1249150122; 1555081692; 1996064986;
   2554220882; 2821834349; 2952996808; 3210313671; 3336571891; 3584528711; 113926993; 338241895;
   666307205; 773529912; 1294757372; 1396182291; 1695183700; 1986661051; 2177026350; 2456956037;
   2730485921; 2820302411; 3259730800; 3345764771; 3516065817; 3600352804; 4094571909; 275423344;
   430227734; 506948616; 659060556; 883997877; 958139571; 1322822218; 1537002063; 1747873779;
   1955562222; 2024104815; 2227730452; 2361852424; 2428436474; 2756734187; 3204031479; 3329325298].

Definition initial_hash : list Z :=
  [1779033703; 3144134277; 1013904242; 2773480762; 1359893119; 2600822924; 528734635; 1541459225].

(** Big-endian bytes of a [n]-byte integer. *)
Fixpoint be_bytes (n : nat) (z : Z) : list Z :=
  match n with O => [] | S n => be_bytes n (Z.shiftr z 8) ++ [Z.land z 255] end.

Definition be_value (l : list Z) : Z := foldl (fun acc b => acc * 256 + b) 0 l.

(** The message, a one bit, zeros up to 8 bytes short of a block, and the length in bits. *)
Definition padded (bytes : list Z) : list Z :=
  let n := Z.of_nat (length bytes) in
  bytes ++ [128] ++ replicate (Z.to_nat ((55 - n) mod 64)) 0 ++ be_bytes 8 (8 * n).

Fixpoint chunks {A} (fuel : nat) (n : nat) (l : list A) : list (list A) :=
  match fuel, l with
  | S fuel, _ :: _ => take n l :: chunks fuel n (drop n l)
  | _, _ => []
  end.
Definition split_every {A} (n : nat) (l : list A) : list (list A) := chunks (length l) n l.

(** The message schedule, latest word first. *)
Definition schedule_word (w : list Z) : Z :=
  let x := nth 14 w 0 in
  let y := nth 1 w 0 in
  let s0 := Z.lxor (Z.lxor (rotr 7 x) (rotr 18 x)) (Z.shiftr x 3) in
  let s1 := Z.lxor (Z.lxor (rotr 17 y) (rotr 19 y)) (Z.shiftr y 10) in
  word (nth 15 w 0 + s0 + nth 6 w 0 + s1).
Fixpoint schedule (n : nat) (w : list Z) : list Z :=
  match n with O => w | S n => schedule n (schedule_word w :: w) end.

Definition compress_round (st : list Z) (kw : Z * Z) : list Z :=
  match st with
  | [a; b; c; d; e; f; g; h] =>
      let s1 := Z.lxor (Z.lxor (rotr 6 e) (rotr 11 e)) (rotr 25 e) in
      let ch := Z.lxor (Z.land e f) (Z.land (4294967295 - e) g) in
      let t1 := word (h + s1 + ch + kw.1 + kw.2) in
      let s0 := Z.lxor (Z.lxor (rotr 2 a) (rotr 13 a)) (rotr 22 a) in
      let maj := Z.lxor (Z.lxor (Z.land a b) (Z.land a c)) (Z.land b c) in
      [add32 t1 (word (s0 + maj)); a; b; c; add32 d t1; e; f; g]
  | _ => st
  end.

Definition compress (h : list Z) (block : list Z) : list Z :=
  let w := rev (schedule 48 (rev (map be_value (split_every 4 block)))) in
  zip_with add32 h (foldl compress_round h (combine round_constants w)).

Definition string_bytes (s : string) : list Z := map code (String.list_ascii_of_string s).

(** [hashlib.sha256(s).hexdigest()] *)
Definition sha256_hex (s : string) : string :=
  let h := foldl compress initial_hash (split_every 64 (padded (string_bytes s))) in
  join "" (map (fun w => hex4 (Z.shiftr w 16) +:+ hex4 (Z.land w 65535)) h).

Example sha256_abc :
  sha256_hex "abc" = "ba7816bf8f01cfea414140de5dae2223b00361a396177a9cb410ff61f20015ad".
Proof. vm_compute. reflexivity. Qed.

Example sha256_two_blocks :
  sha256_hex "abcdbcdecdefdefgefghfghighijhijkijkljklmklmnlmnomnopnopq"
  = "248d6a61d20638b8e5c026930c3e6039a33ce45964ff2167f6ecedd419db06c1".
Proof. vm_compute. reflexivity. Qed.

(** ** CRC-32 *)

Definition crc_bit (c : Z) : Z := if Z.odd c then Z.lxor (Z.shiftr c 1) 3988292384 else Z.shiftr c 1.
Definition crc_byte (c b : Z) : Z := Nat.iter 8 crc_bit (Z.lxor c b).

(** [zlib.crc32(s)] *)
Definition crc32 (s : string) : Z := Z.lxor (foldl crc_byte 4294967295 (string_bytes s)) 4294967295.

(** [f'{crc:08x}'] *)
Definition hex8 (z : Z) : string := hex4 (Z.shiftr z 16) +:+ hex4 (Z.land z 65535).

Example crc32_check : hex8 (crc32 "123456789") = "cbf43926".
Proof. vm_compute. reflexivity. Qed.
