(* ===== verification/Counters.v ===== *)
(** * Counters over typed keys

    The scripts keep counts in dictionaries - trials per place of the matrix, failures per kind, observations per
    bucket - and compare them as [collections.Counter] does, where a missing key counts zero.  A [CounterKey] embeds a
    key type into Python's values; [counts d f] says that the dictionary [d] holds the counts [f]. *)

From stdpp Require Import base list strings sets.
From Stdlib Require Import ZArith Lia.
From S2P Require Import Prelude PyVal PyScript PyStats.

Local Open Scope Z_scope.
Open Scope py_scope.

Class CounterKey {K} `{EqDecision K} (emb : K -> val) := {
  emb_eqb p q : py_eqb (emb p) (emb q) = bool_decide (p = q);
  emb_key p : key (Ok (emb p)) = Ok (emb p) }.

#[export] Instance string_key : CounterKey VStr.
Proof.
  split; [|done]. intros p q. rewrite py_eqb_str. destruct (String.eqb_spec p q); symmetry; [by apply bool_decide_eq_true|].
  by apply bool_decide_eq_false.
Qed.
#[export] Instance int_key : CounterKey VInt.
Proof.
  split; [|done]. intros p q. rewrite py_eqb_int. destruct (Z.eqb_spec p q); symmetry; [by apply bool_decide_eq_true|].
  by apply bool_decide_eq_false.
Qed.

(** ** Association lists *)

Section Association.
Context {K : Type} `{EqDecision K}.

Fixpoint lookup_count (k : K) (l : list (K * Z)) : option Z :=
  match l with [] => None | (k', n) :: l => if bool_decide (k = k') then Some n else lookup_count k l end.
Fixpoint insert_count (k : K) (n : Z) (l : list (K * Z)) : list (K * Z) :=
  match l with [] => [(k, n)] | (k', n') :: l => if bool_decide (k = k') then (k', n) :: l else (k', n') :: insert_count k n l end.
Definition count_of (k : K) (l : list (K * Z)) : Z := default 0 (lookup_count k l).

Lemma lookup_insert_count k k' n l : lookup_count k (insert_count k' n l) = if bool_decide (k = k') then Some n else lookup_count k l.
Proof.
  induction l as [|[k0 n0] l IH]; cbn; [done|]. destruct (bool_decide_reflect (k' = k0)) as [->|Hk]; cbn; [by case_bool_decide|].
  destruct (bool_decide_reflect (k = k0)) as [->|]; [|done]. rewrite bool_decide_eq_false_2; [done|congruence].
Qed.
Lemma count_insert k k' n l : count_of k (insert_count k' n l) = if bool_decide (k = k') then n else count_of k l.
Proof. unfold count_of. rewrite lookup_insert_count. by case_bool_decide. Qed.
Lemma insert_count_keys k n l :
  map fst (insert_count k n l) = if bool_decide (k ∈ map fst l) then map fst l else map fst l ++ [k].
Proof.
  induction l as [|[k' n'] l IH]; [done|]. cbn [insert_count map fst]. destruct (bool_decide_reflect (k = k')) as [->|Hk].
  - cbn. rewrite bool_decide_eq_true_2; [done|set_solver].
  - cbn [map fst]. rewrite IH. destruct (bool_decide_reflect (k ∈ map fst l)) as [Hin|Hin].
    + rewrite bool_decide_eq_true_2; [done|set_solver].
    + rewrite bool_decide_eq_false_2; [done|set_solver].
Qed.
Lemma NoDup_insert_count k n l : NoDup (map fst l) -> NoDup (map fst (insert_count k n l)).
Proof.
  intros Hl. rewrite insert_count_keys. case_bool_decide; [done|]. apply NoDup_app. split_and!; [done| |apply NoDup_singleton].
  set_solver.
Qed.
Lemma insert_new k n l : k ∉ map fst l -> insert_count k n l = l ++ [(k, n)].
Proof.
  induction l as [|[k' n'] l IH]; [done|]. cbn [map fst insert_count]. intros Hk. rewrite bool_decide_eq_false_2 by set_solver.
  cbn. rewrite IH; [done|set_solver].
Qed.
Lemma lookup_count_In k n l : NoDup (map fst l) -> (k, n) ∈ l -> lookup_count k l = Some n.
Proof.
  induction l as [|[k' n'] l IH]; cbn; [set_solver|]. intros [Hk Hn]%NoDup_cons [[= -> ->]|Hin]%elem_of_cons.
  - by rewrite bool_decide_eq_true_2.
  - rewrite bool_decide_eq_false_2; [by apply IH|]. intros ->. apply Hk. by apply (list_elem_of_fmap_2 fst _ (k', n)).
Qed.
Lemma count_cons k k' n l : k' ∉ map fst l -> count_of k ((k', n) :: l) = (if bool_decide (k = k') then n else 0) + count_of k l.
Proof.
  intros Hk. unfold count_of. cbn. case_bool_decide as E; [|done]. subst k'. replace (lookup_count k l) with (@None Z); [cbn; lia|].
  symmetry. revert Hk. induction l as [|[k' n'] l IH]; [done|]. cbn. intros Hk. rewrite bool_decide_eq_false_2 by set_solver.
  apply IH. set_solver.
Qed.
Lemma count_nowhere k l : k ∉ map fst l -> count_of k l = 0.
Proof.
  unfold count_of. induction l as [|[k' n] l IH]; [done|]. cbn. intros Hk. rewrite bool_decide_eq_false_2 by set_solver.
  apply IH. set_solver.
Qed.
End Association.

(** ** Dictionaries *)

Section Counters.
Context {K : Type} `{EqDecision K} (emb : K -> val) `{!CounterKey emb}.

Definition counts_dict (l : list (K * Z)) : dict := map (fun kn => (emb kn.1, VInt kn.2)) l.

Lemma dget_counts_dict k l : dget (emb k) (counts_dict l) = option_map VInt (lookup_count k l).
Proof.
  induction l as [|[k' n] l IH]; [done|]. change (counts_dict ((k', n) :: l)) with ((emb k', VInt n) :: counts_dict l).
  cbn [dget lookup_count]. rewrite emb_eqb. by case_bool_decide.
Qed.
Lemma dset_counts_dict k n l : dset (emb k) (VInt n) (counts_dict l) = counts_dict (insert_count k n l).
Proof.
  induction l as [|[k' n'] l IH]; [done|]. change (counts_dict ((k', n') :: l)) with ((emb k', VInt n') :: counts_dict l).
  cbn [dset insert_count]. rewrite emb_eqb. case_bool_decide; [done|]. by rewrite IH.
Qed.
(** ** What a dictionary counts *)

Definition counts (d : dict) (f : K -> Z) : Prop :=
  exists l, d = counts_dict l /\ NoDup (map fst l) /\ forall k, count_of k l = f k.

Lemma counts_nil : counts [] (fun _ => 0).
Proof. exists []. split_and!; [done|constructor|done]. Qed.
Lemma counts_ext d f g : (forall k, f k = g k) -> counts d f -> counts d g.
Proof. intros E (l & -> & Hl & Hf). exists l. split_and!; [done|done|]. intros k. by rewrite Hf. Qed.
Lemma counts_get d f k : counts d f -> default (VInt 0) (dget (emb k) d) = VInt (f k).
Proof. intros (l & -> & _ & Hf). rewrite dget_counts_dict, <- Hf. unfold count_of. by destruct (lookup_count k l). Qed.
Lemma counts_set d f k n : counts d f -> counts (dset (emb k) (VInt n) d) (fun k' => if bool_decide (k' = k) then n else f k').
Proof.
  intros (l & -> & Hl & Hf). exists (insert_count k n l). split_and!; [apply dset_counts_dict|by apply NoDup_insert_count|].
  intros k'. rewrite count_insert. by rewrite Hf.
Qed.

Lemma counts_add d f k : counts d f ->
  exists d', counter_add d (emb k) = Ok d' /\ counts d' (fun k' => f k' + if bool_decide (k' = k) then 1 else 0).
Proof.
  intros H. unfold counter_add. rewrite emb_key. cbn [rbind]. rewrite (counts_get _ _ k H). cbn [py_add arith num_of rbind].
  eexists. split; [done|]. eapply counts_ext; [|by apply counts_set]. intros k'. cbn. case_bool_decide; subst; lia.
Qed.
Lemma counts_adds ks d f : counts d f ->
  exists d', foldR counter_add d (map emb ks) = Ok d'
  /\ counts d' (fun k => f k + Z.of_nat (length (filter (fun k' => k' = k) ks))).
Proof.
  revert d f. induction ks as [|k ks IH]; intros d f H; cbn [map foldR].
  - exists d. split; [done|]. eapply counts_ext; [|exact H]. intros k. cbn. lia.
  - destruct (counts_add _ _ k H) as (d1 & -> & H1). cbn [rbind]. destruct (IH _ _ H1) as (d' & H2 & H3). exists d'. split; [done|].
    eapply counts_ext; [|exact H3]. intros k'. cbn beta. rewrite filter_cons. destruct (decide (k = k')) as [->|Hk].
    + rewrite bool_decide_eq_true_2 by done. cbn [length]. lia.
    + rewrite bool_decide_eq_false_2 by congruence. lia.
Qed.

(** A dictionary with the same value at every key of a list. *)
Lemma counts_constant n ks d f : counts d f ->
  counts (foldl (fun d k => dset (emb k) (VInt n) d) d ks) (fun k => if bool_decide (k ∈ ks) then n else f k).
Proof.
  revert d f. induction ks as [|k ks IH]; intros d f H; cbn [foldl].
  - eapply counts_ext; [|exact H]. intros k. by rewrite bool_decide_eq_false_2 by set_solver.
  - eapply counts_ext; [|apply IH; by apply counts_set]. intros k'. cbn beta.
    destruct (bool_decide_reflect (k' ∈ ks)); [by rewrite bool_decide_eq_true_2 by set_solver|].
    destruct (bool_decide_reflect (k' = k)) as [->|]; [by rewrite bool_decide_eq_true_2 by set_solver|].
    by rewrite bool_decide_eq_false_2 by set_solver.
Qed.
Lemma constant_new n ks l : NoDup (map fst l ++ ks) ->
  foldl (fun d k => dset (emb k) (VInt n) d) (counts_dict l) ks = counts_dict (l ++ map (fun k => (k, n)) ks).
Proof.
  revert l. induction ks as [|k ks IH]; intros l Hn; cbn [foldl map]; [by rewrite app_nil_r|].
  rewrite dset_counts_dict, insert_new; [|apply NoDup_app in Hn as (_ & Hd & _); intros Hk; apply (Hd k Hk); by left].
  rewrite IH; [by rewrite <- app_assoc|]. rewrite map_app. cbn. by rewrite <- app_assoc.
Qed.

(** Building a dictionary from another one copies it. *)
Lemma dupdate_new l m : NoDup (map fst l ++ map fst m) -> dupdate (counts_dict l) (counts_dict m) = counts_dict (l ++ m).
Proof.
  revert l. induction m as [|[k n] m IH]; intros l Hn; [by rewrite app_nil_r|].
  change (dupdate (counts_dict l) (counts_dict ((k, n) :: m))) with (dupdate (dset (emb k) (VInt n) (counts_dict l)) (counts_dict m)).
  rewrite dset_counts_dict, insert_new; [|apply NoDup_app in Hn as (_ & Hd & _); intros Hk; apply (Hd k Hk); cbn; by left].
  rewrite IH; [by rewrite <- app_assoc|]. rewrite map_app. cbn. by rewrite <- app_assoc.
Qed.
Lemma counts_copy d f : counts d f -> dupdate [] d = d.
Proof. intros (l & -> & Hl & _). by rewrite (dupdate_new []). Qed.
Lemma counts_counter d f : counts d f -> counter_of (VDict d) = Ok d.
Proof. intros H. cbn. by rewrite (counts_copy _ _ H). Qed.

(** [counter.update(d)] adds the counts. *)
Lemma counts_update c f d g : counts c f -> counts d g ->
  exists e, counter_update c d = Ok e /\ counts e (fun k => f k + g k).
Proof.
  intros Hc Hd. destruct (decide (c = [])) as [->|Hne].
  { exists d. cbn. rewrite (counts_copy _ _ Hd). split; [done|]. eapply counts_ext; [|exact Hd].
    intros k. pose proof (counts_get _ _ k Hc) as G. injection G as G. cbn in G. lia. }
  replace (counter_update c d) with
    (foldR (fun c kn => s <- py_add kn.2 (default (VInt 0) (dget kn.1 c)) ;; Ok (dset kn.1 s c)) c d) by by destruct c.
  destruct Hd as (m & -> & Hm & Hg).
  assert (G : exists e, foldR (fun c kn => s <- py_add kn.2 (default (VInt 0) (dget kn.1 c)) ;; Ok (dset kn.1 s c)) c (counts_dict m) = Ok e
            /\ counts e (fun k => f k + count_of k m)).
  { clear -Hc Hm CounterKey0. revert c f Hc. induction m as [|[k n] m IH]; intros c f Hc.
    - exists c. split; [done|]. eapply counts_ext; [|exact Hc]. intros k. unfold count_of. cbn. lia.
    - apply NoDup_cons in Hm as [Hk Hm]. cbn [counts_dict map foldR fst snd]. rewrite (counts_get _ _ k Hc).
      cbn [py_add arith num_of rbind]. destruct (IH Hm _ _ (counts_set _ _ k (n + f k) Hc)) as (e & He & H). exists e. split; [done|].
      eapply counts_ext; [|exact H]. intros k'. cbn beta. rewrite count_cons by done. case_bool_decide; [subst; lia|lia]. }
  destruct G as (e & He & H). exists e. split; [done|]. eapply counts_ext; [|exact H]. intros k. cbn beta. by rewrite Hg.
Qed.

(** A key that is present stays present. *)
Lemma counts_has d f k : counts d f -> is_Some (dget (emb k) d) -> dget (emb k) d = Some (VInt (f k)).
Proof. intros H [v Hv]. pose proof (counts_get _ _ k H) as G. rewrite Hv in *. by rewrite <- G. Qed.
Lemma has_update c f d g e k :
  counts c f -> counts d g -> counter_update c d = Ok e -> is_Some (dget (emb k) c) \/ is_Some (dget (emb k) d) ->
  is_Some (dget (emb k) e).
Proof.
  intros Hc Hd. destruct (decide (c = [])) as [->|Hne].
  { cbn. rewrite (counts_copy _ _ Hd). intros [= <-] [[? ?]|?]; done. }
  replace (counter_update c d) with
    (foldR (fun c kn => s <- py_add kn.2 (default (VInt 0) (dget kn.1 c)) ;; Ok (dset kn.1 s c)) c d) by by destruct c.
  clear Hne. destruct Hd as (m & -> & _ & _). revert c f Hc. induction m as [|[k' n] m IH]; intros c f Hc.
  { intros [= <-] [?|[? ?]]; done. }
  cbn [counts_dict map foldR fst snd]. rewrite (counts_get _ _ k' Hc). cbn [py_add arith num_of rbind]. intros H Hk.
  eapply IH; [by apply (counts_set _ _ k' (n + f k')) in Hc|exact H|]. destruct Hc as (l & -> & _ & _).
  rewrite dset_counts_dict, !dget_counts_dict, lookup_insert_count in *. destruct (bool_decide_reflect (k = k')) as [->|Hkk]; [left; by eexists|].
  destruct Hk as [Hk|Hk]; [by left|right]. change (counts_dict ((k', n) :: m)) with ((emb k', VInt n) :: counts_dict m) in Hk.
  cbn [dget] in Hk. rewrite emb_eqb, bool_decide_eq_false_2, dget_counts_dict in Hk by done. exact Hk.
Qed.

(** Counters are equal when their counts are. *)
Lemma counts_half l d g : NoDup (map fst l) -> counts d g ->
  forallb (fun kn => py_eqb kn.2 (default (VInt 0) (dget kn.1 d))) (counts_dict l) = true
  <-> forall k, k ∈ map fst l -> count_of k l = g k.
Proof.
  intros Hl Hd. rewrite <- Is_true_true, forallb_True, Forall_forall. split.
  - intros H k ([k' n] & -> & Hin)%list_elem_of_fmap. unfold count_of. cbn [fst]. rewrite (lookup_count_In _ _ _ Hl Hin).
    assert (Hin' : (emb k', VInt n) ∈ counts_dict l) by by apply (list_elem_of_fmap_2 (fun kn : K * Z => (emb kn.1, VInt kn.2)) l (k', n)).
    specialize (H _ Hin'). apply Is_true_true in H. cbn [fst snd] in H. rewrite (counts_get _ _ k' Hd), py_eqb_int in H. cbn. lia.
  - intros H x ([k n] & -> & Hin)%list_elem_of_fmap. apply Is_true_true. cbn [fst snd]. rewrite (counts_get _ _ k Hd), py_eqb_int.
    rewrite <- H by by apply (list_elem_of_fmap_2 fst _ (k, n)). unfold count_of. rewrite (lookup_count_In _ _ _ Hl Hin). cbn. lia.
Qed.
Lemma counts_eqb c f d g : counts c f -> counts d g -> counter_eqb c d = true <-> forall k, f k = g k.
Proof.
  intros Hc Hd. pose proof Hc as (l & -> & Hl & Hf). pose proof Hd as (m & -> & Hm & Hg).
  unfold counter_eqb. rewrite andb_true_iff, (counts_half l _ g Hl Hd), (counts_half m _ f Hm Hc). split.
  - intros [H1 H2] k. rewrite <- Hf. destruct (decide (k ∈ map fst l)) as [|Hk]; [by apply H1|]. rewrite count_nowhere by done.
    destruct (decide (k ∈ map fst m)) as [Hin|Hk']; [|by rewrite <- Hg, count_nowhere]. rewrite <- Hg, (H2 _ Hin), <- Hf.
    by rewrite count_nowhere.
  - intros H. split; intros k _; [by rewrite Hf|by rewrite Hg].
Qed.
End Counters.
