(* ===== verification/Evidence.v ===== *)
(** * The files an audit reads

    The audits and summaries of [bench/] read a folder of recorded evidence and write a report.  A
    [tree] is what they see of the file system: its regular files in the order the operating system
    lists them, and the working directory.  Nothing else writes to it during a run.  A path is the
    list of its [parts], leaf first; an absolute path ends with ["/"]. *)

From stdpp Require Import base list strings.
From Stdlib Require Import ZArith Lia Ascii.
From S2P Require Import Prelude PyFloat PyText PyVal PyJson PyScript PyHash.

Local Open Scope Z_scope.

Abbreviation parts := (list string).

(** ** Paths *)

(** [Path(s)] *)
Definition path_of (s : string) : parts :=
  let names := List.filter (fun x => negb (String.eqb x "" || String.eqb x ".")) (split_char "/" s) in
  rev names ++ (if startswith "/" s then ["/"] else []).

Definition is_absolute (p : parts) : bool := match last p with Some r => String.eqb r "/" | None => false end.

(** [p / s] *)
Definition under (p : parts) (s : string) : parts :=
  let q := path_of s in if is_absolute q then q else q ++ p.

(** [str(p)] *)
Definition str_path (p : parts) : string :=
  match rev p with
  | [] => "."
  | x :: r => if String.eqb x "/" then "/" +:+ join "/" r else join "/" (x :: r)
  end.

(** [p.parent] and [p.name] *)
Definition parent (p : parts) : parts := match p with [] => [] | ["/"] => p | _ :: q => q end.
Definition name (p : parts) : string := match p with x :: _ => if String.eqb x "/" then "" else x | [] => "" end.

(** [p.stem] of a name, and [p.with_suffix(suffix)] as a text *)
Fixpoint leading_dots (s : string) : nat :=
  match s with String a s => if Ascii.eqb a "." then S (leading_dots s) else O | EmptyString => O end.
Definition stem_of (name : string) : string :=
  let n := leading_dots name in
  match rsplit_once "." (str_drop n name) with Some (h, _) => str_take n name +:+ h | None => name end.
Definition with_suffix (suffix path : string) : res string :=
  let p := path_of path in
  if String.eqb (name p) "" then raise ValueError "has an empty name"
  else Ok (str_path ((stem_of (name p) +:+ suffix) :: parent p)).

(** [p.relative_to(q)] *)
Fixpoint relative_go (p q : parts) : option parts :=
  if bool_decide (p = q) then Some []
  else match p with [] => None | x :: p => fmap (cons x) (relative_go p q) end.
Definition relative_to (p q : parts) : res parts :=
  of_option (relative_go p q) ValueError "the path is not in the subpath of the other".

(** Paths sort by their parts, root first. *)
Fixpoint parts_ltb (p q : list string) : bool :=
  match p, q with
  | [], [] => false
  | [], _ => true
  | _, [] => false
  | x :: p, y :: q => match String.compare x y with Eq => parts_ltb p q | Lt => true | Gt => false end
  end.
Fixpoint insert_path (p : parts) (l : list parts) : list parts :=
  match l with
  | [] => [p]
  | q :: r => if parts_ltb (rev p) (rev q) then p :: l else q :: insert_path p r
  end.
Definition sorted_paths (l : list parts) : list parts := foldl (fun acc p => insert_path p acc) [] l.

(** ** The tree *)

Record tree := Tree { t_files : list (parts * string); t_cwd : parts }.

Definition absolute (t : tree) (p : parts) : parts := if is_absolute p then p else p ++ t_cwd t.

(** [p.resolve()]: the trees have no symbolic links, so only [..] is removed. *)
Fixpoint no_dotdot (p : parts) (skip : nat) : parts :=
  match p with
  | [] => []
  | x :: q => if String.eqb x "/" then [x]
              else if String.eqb x ".." then no_dotdot q (S skip)
              else match skip with O => x :: no_dotdot q 0 | S n => no_dotdot q n end
  end.
Definition resolve (t : tree) (p : parts) : parts := no_dotdot (absolute t p) 0.

Fixpoint find_file (p : parts) (l : list (parts * string)) : option string :=
  match l with
  | [] => None
  | (q, s) :: l => if bool_decide (p = q) then Some s else find_file p l
  end.

(** [p.read_bytes()] and [p.read_text()] *)
Definition read_text (t : tree) (p : parts) : res string :=
  of_option (find_file (absolute t p) (t_files t)) FileNotFoundError (str_path p).

(** [json.loads(p.read_text())] *)
Definition read (t : tree) (p : parts) : res val := s <- read_text t p ;; json_loads s.

(** [p.exists()], of a file or of one of its directories *)
Definition suffix_of (p q : parts) : bool := match relative_go q p with Some _ => true | None => false end.
Definition exists_ (t : tree) (p : parts) : bool :=
  existsb (fun f => suffix_of (absolute t p) f.1) (t_files t).

(** [hashlib.sha256(p.read_bytes()).hexdigest()] *)
Definition digest (t : tree) (p : parts) : res string := rmap sha256_hex (read_text t p).

(** The part of the path of a file below [p], leaf first, for each file below [p]. *)
Definition below (t : tree) (p : parts) : list parts :=
  omap (fun f => relative_go f.1 (absolute t p)) (t_files t).

(** [folder.glob(pattern)] and [folder.rglob(name)] *)
Definition glob (t : tree) (folder : parts) (match_ : parts -> bool) : list parts :=
  map (fun q => q ++ folder) (List.filter match_ (below t folder)).

Definition is_child (leaf : string) (q : parts) : bool :=
  match q with [x; _] => String.eqb x leaf | _ => false end.
Definition is_grandchild (leaf : string) (q : parts) : bool :=
  match q with [x; _; _] => String.eqb x leaf | _ => false end.
Definition is_anywhere (leaf : string) (q : parts) : bool :=
  match q with x :: _ => String.eqb x leaf | _ => false end.

(** ** Lemmas *)

Lemma relative_go_app p q r : relative_go p q = Some r -> p = r ++ q.
Proof.
  revert r. induction p as [|x p IH]; intros r; cbn; case_bool_decide as E; try done; intros H.
  - by injection H as <-.
  - by injection H as <-.
  - apply fmap_Some in H as (r' & Hr & ->). cbn. by rewrite (IH _ Hr).
Qed.

Lemma insert_path_perm p l : insert_path p l ≡ₚ p :: l.
Proof.
  induction l as [|q l IH]; cbn; [done|]. case_match; [done|]. rewrite IH. apply Permutation_swap.
Qed.

Lemma sorted_paths_perm l : sorted_paths l ≡ₚ l.
Proof.
  unfold sorted_paths.
  assert (H : forall acc, foldl (fun acc p => insert_path p acc) acc l ≡ₚ acc ++ l).
  { induction l as [|p l IH]; intros acc; cbn; [by rewrite app_nil_r|].
    rewrite IH, insert_path_perm. cbn. by rewrite Permutation_middle. }
  apply (H []).
Qed.
