(* ===== verification/Difflib.v ===== *)
(** * [difflib.SequenceMatcher] on lines

    The opcodes that turn one list of lines into another, as CPython computes them: the longest match found with the
    positions of each line, popular lines left out of a long text, then extended to both sides; the parts before and
    after it in the same way; adjacent matches joined.  The queue of the library takes the parts in another order and
    sorts the matches at the end, which gives the list in order that the recursion gives here.  Whatever matches are found,
    the opcodes are a script: they cover both texts in order, and only their equal parts are shared. *)

From stdpp Require Import base list strings gmap.
From Stdlib Require Import ZArith Lia Ascii.
From S2P Require Import Prelude.

Local Open Scope nat_scope.

(** A block of equal lines: where it begins in both texts, and its size. *)
Record match_ := Match { m_a : nat; m_b : nat; m_size : nat }.
Inductive tag := Replace | Delete | Insert | Equal.
Record opcode := Code { c_tag : tag; c_i1 : nat; c_i2 : nat; c_j1 : nat; c_j2 : nat }.

(** [l[i:j]] *)
Definition slice {A} (i j : nat) (l : list A) : list A := take (j - i) (drop i l).

Section Matcher.
Context (a b : list string).

(** ** The longest match *)

Definition same (x y : string) : bool := String.eqb x y.
Definition positions (x : string) : list nat := List.filter (fun j => bool_decide (b !! j = Some x)) (seq 0 (length b)).
(** With at least 200 lines, a line on more than one percent of them is popular. *)
Definition popular (x : string) : bool :=
  (200 <=? length b) && (length b / 100 + 1 <? length (positions x)).
Definition b2j (x : string) : list nat := if popular x then [] else positions x.

(** [i], [j], the length of the match that ends there, and the best match so far. *)
Definition row_step (old : gmap nat nat) (i : nat) (st : gmap nat nat * match_) (j : nat) : gmap nat nat * match_ :=
  let k := S (match j with O => 0 | S j' => match old !! j' with Some k => k | None => 0 end end) in
  (<[j := k]> st.1, if m_size st.2 <? k then Match (S i - k) (S j - k) k else st.2).
Definition scan_step (blo bhi : nat) (st : gmap nat nat * match_) (i : nat) : gmap nat nat * match_ :=
  let js := match a !! i with Some x => b2j x | None => [] end in
  foldl (row_step st.1 i) (∅, st.2) (List.filter (fun j => (blo <=? j) && (j <? bhi)) js).
Definition scan (alo ahi blo bhi : nat) : match_ :=
  (foldl (scan_step blo bhi) (∅, Match alo blo 0) (seq alo (ahi - alo))).2.

Definition equal_at (i j : nat) : bool :=
  match a !! i, b !! j with Some x, Some y => same x y | _, _ => false end.
Fixpoint extend_left (alo blo i j k : nat) : match_ :=
  match i with
  | S i' => if (alo <? i) && (blo <? j) && equal_at i' (j - 1) then extend_left alo blo i' (j - 1) (S k) else Match i j k
  | O => Match i j k
  end.
Fixpoint extend_right (room ahi bhi : nat) (m : match_) : match_ :=
  match room with
  | S room => if (m_a m + m_size m <? ahi) && (m_b m + m_size m <? bhi) && equal_at (m_a m + m_size m) (m_b m + m_size m)
              then extend_right room ahi bhi (Match (m_a m) (m_b m) (S (m_size m))) else m
  | O => m
  end.
Definition find_longest_match (alo ahi blo bhi : nat) : match_ :=
  let m := scan alo ahi blo bhi in
  extend_right (ahi - alo) ahi bhi (extend_left alo blo (m_a m) (m_b m) (m_size m)).

(** ** The matching blocks *)

Fixpoint blocks (fuel alo ahi blo bhi : nat) : list match_ :=
  match fuel with
  | O => []
  | S fuel =>
      let m := find_longest_match alo ahi blo bhi in
      let '(Match i j k) := m in
      if k =? 0 then []
      else (if (alo <? i) && (blo <? j) then blocks fuel alo i blo j else [])
           ++ m :: (if (i + k <? ahi) && (j + k <? bhi) then blocks fuel (i + k) ahi (j + k) bhi else [])
  end.

(** Adjacent blocks are joined; the block under construction is given. *)
Fixpoint joined (i1 j1 k1 : nat) (l : list match_) : list match_ :=
  match l with
  | [] => if k1 =? 0 then [] else [Match i1 j1 k1]
  | Match i2 j2 k2 :: l =>
      if (i1 + k1 =? i2) && (j1 + k1 =? j2) then joined i1 j1 (k1 + k2) l
      else (if k1 =? 0 then [] else [Match i1 j1 k1]) ++ joined i2 j2 k2 l
  end.
Definition get_matching_blocks : list match_ :=
  joined 0 0 0 (blocks (S (length a)) 0 (length a) 0 (length b)) ++ [Match (length a) (length b) 0].

(** ** The opcodes *)

Definition edit (i ai j bj : nat) : list opcode :=
  if (i <? ai) && (j <? bj) then [Code Replace i ai j bj]
  else if i <? ai then [Code Delete i ai j bj]
  else if j <? bj then [Code Insert i ai j bj] else [].
Fixpoint opcodes (i j : nat) (l : list match_) : list opcode :=
  match l with
  | [] => []
  | Match ai bj size :: l =>
      edit i ai j bj
      ++ (if size =? 0 then [] else [Code Equal ai (ai + size) bj (bj + size)])
      ++ opcodes (ai + size) (bj + size) l
  end.
Definition get_opcodes : list opcode := opcodes 0 0 get_matching_blocks.

(** ** Correctness *)

(** The lines of the two texts agree from [i] and [j] on, for [k] lines. *)
Definition agree (i j k : nat) : Prop := forall n, n < k -> equal_at (i + n) (j + n) = true.

Lemma equal_at_lookup i j : equal_at i j = true -> exists x, a !! i = Some x /\ b !! j = Some x.
Proof.
  unfold equal_at, same. destruct (a !! i) as [x|] eqn:Ha; [|done]. destruct (b !! j) as [y|] eqn:Hb; [|done].
  intros ->%String.eqb_eq. eauto.
Qed.
Lemma agree_bound i j k : agree i j k -> 0 < k -> i + k <= length a /\ j + k <= length b.
Proof.
  intros H Hk. destruct (equal_at_lookup _ _ (H (k - 1) ltac:(lia))) as (x & Ha%lookup_lt_Some & Hb%lookup_lt_Some). lia.
Qed.
Lemma agree_snoc i j k : agree i j k -> equal_at (i + k) (j + k) = true -> agree i j (S k).
Proof. intros H E n Hn. destruct (decide (n = k)) as [->|]; [done|]. apply H. lia. Qed.
Lemma agree_cons i j k : agree (S i) (S j) k -> equal_at i j = true -> agree i j (S k).
Proof. intros H E [|n] Hn; [by rewrite !Nat.add_0_r|]. specialize (H n). rewrite !Nat.add_succ_r. apply H. lia. Qed.

(** A match within the given part of the texts. *)
Record within (alo ahi blo bhi : nat) (m : match_) : Prop := {
  w_a : alo <= m_a m /\ m_a m + m_size m <= ahi;
  w_b : blo <= m_b m /\ m_b m + m_size m <= bhi;
  w_agree : agree (m_a m) (m_b m) (m_size m) }.

(** The lengths kept per position of [b] after row [i] are those of matches that end in this row. *)
Definition ends_at (alo blo i : nat) (old : gmap nat nat) : Prop := forall j k, old !! j = Some k ->
  k <= S j /\ alo + k <= S i /\ blo + k <= S j /\ agree (S i - k) (S j - k) k.

Lemma b2j_equal i x j : a !! i = Some x -> j ∈ b2j x -> equal_at i j = true.
Proof.
  intros Ha H. unfold b2j in H. destruct (popular x); [by apply elem_of_nil in H|].
  unfold positions in H. apply list_elem_of_In, filter_In in H as [_ H%bool_decide_eq_true]. unfold equal_at, same.
  rewrite Ha, H. apply String.eqb_refl.
Qed.

Lemma row_step_sound alo ahi blo bhi i old st j :
  alo <= i < ahi -> blo <= j < bhi -> equal_at i j = true ->
  (alo < i -> ends_at alo blo (i - 1) old) -> (i = alo -> old = ∅) ->
  ends_at alo blo i st.1 -> within alo ahi blo bhi st.2 ->
  ends_at alo blo i (row_step old i st j).1 /\ within alo ahi blo bhi (row_step old i st j).2.
Proof.
  intros Hi Hj E Hold Hfirst Hn Hw. unfold row_step. cbn zeta.
  set (p := match j with O => 0 | S j' => match old !! j' with Some k => k | None => 0 end end).
  assert (S p <= S j /\ alo + S p <= S i /\ blo + S p <= S j /\ agree (S i - S p) (S j - S p) (S p)) as (P1 & P2 & P3 & P4).
  { assert (Z : agree i j 1) by (intros n Hn'; replace n with 0 by lia; by rewrite !Nat.add_0_r).
    unfold p. destruct j as [|j']; [rewrite !Nat.sub_succ, !Nat.sub_0_r; split_and!; [lia..|exact Z]|].
    destruct (old !! j') as [k|] eqn:Ek; [|rewrite !Nat.sub_succ, !Nat.sub_0_r; split_and!; [lia..|exact Z]].
destruct (decide (i = alo)) as [->|Hne]; [rewrite Hfirst in Ek by done; by rewrite lookup_empty in Ek|].
    assert (alo < i) as Hlt by lia. destruct (Hold Hlt _ _ Ek) as (K1 & K2 & K3 & K4). split_and!; [lia..|].
    replace (S i - S k) with (S (i - 1) - k) by lia. replace (S (S j') - S k) with (S j' - k) by lia.
    apply agree_snoc; [exact K4|]. replace (S (i - 1) - k + k) with i by lia. by replace (S j' - k + k) with (S j') by lia. }
  split; cbn [fst snd].
  - intros j0 k0. destruct (decide (j0 = j)) as [->|]; [rewrite lookup_insert_eq; intros [= <-]; by split_and!|].
    rewrite lookup_insert_ne by done. apply Hn.
  - destruct (m_size st.2 <? S p); [|done]. split; cbn [m_a m_b m_size]; [lia|lia|exact P4].
Qed.

Lemma scan_sound alo ahi blo bhi : alo <= ahi -> blo <= bhi -> within alo ahi blo bhi (scan alo ahi blo bhi).
Proof.
  intros Ha Hb. unfold scan. set (n := ahi - alo). assert (Hn : n <= ahi - alo) by lia. clearbody n.
  assert (G : let st := foldl (scan_step blo bhi) (∅, Match alo blo 0) (seq alo n) in
              within alo ahi blo bhi st.2 /\ (0 < n -> ends_at alo blo (alo + n - 1) st.1) /\ (n = 0 -> st.1 = ∅)); [|apply G].
  induction n as [|n IH]; [cbn; split; [split; cbn; [lia|lia|intros ??; lia]|split; [lia|done]]|].
  destruct (IH ltac:(lia)) as (Hw & He & H0). rewrite seq_S, foldl_app. cbn zeta. cbn [foldl].
  set (st := foldl _ _ (seq alo n)) in *. unfold scan_step at 1 2 3. cbn zeta.
  set (js := match a !! (alo + n) with Some x => b2j x | None => [] end).
  assert (Hjs : forall j, j ∈ List.filter (fun j => (blo <=? j) && (j <? bhi)) js -> blo <= j < bhi /\ equal_at (alo + n) j = true).
  { intros j [Hj [H1%Nat.leb_le H2%Nat.ltb_lt]%andb_true_iff]%list_elem_of_In%filter_In. split; [lia|].
    unfold js in Hj. destruct (a !! (alo + n)) as [x|] eqn:Ex; [|done]. by eapply b2j_equal, list_elem_of_In. }
  revert Hjs. generalize (List.filter (fun j => (blo <=? j) && (j <? bhi)) js). intros l Hl.
  assert (L : forall cur, ends_at alo blo (alo + n) cur.1 -> within alo ahi blo bhi cur.2 ->
    let r := foldl (row_step st.1 (alo + n)) cur l in ends_at alo blo (alo + n) r.1 /\ within alo ahi blo bhi r.2).
  { induction l as [|j l IHl]; intros cur Hc Hcw; [done|]. cbn [foldl].
    destruct (Hl j ltac:(by left)) as [Hj Ej].
    destruct (row_step_sound alo ahi blo bhi (alo + n) st.1 cur j ltac:(lia) Hj Ej) as [R1 R2]; [|intros; apply H0; lia|done|done|].
    - intros. replace (alo + n - 1) with (alo + n - 1) by lia. apply He. lia.
    - apply IHl; [intros; apply Hl; by right|done|done]. }
  destruct (L (∅, st.2)) as [L1 L2]; [intros ? ? E; cbn in E; by rewrite lookup_empty in E|exact Hw|].
  split; [exact L2|]. split; [|lia]. intros _. by replace (alo + S n - 1) with (alo + n) by lia.
Qed.

Lemma extend_left_sound alo ahi blo bhi i j k :
  within alo ahi blo bhi (Match i j k) -> within alo ahi blo bhi (extend_left alo blo i j k) /\ k <= m_size (extend_left alo blo i j k).
Proof.
  revert j k. induction i as [|i IH]; intros j k H; cbn [extend_left]; [by split|].
  destruct ((alo <? S i) && (blo <? j) && equal_at i (j - 1)) eqn:E; [|by split].
  apply andb_true_iff in E as [[E1%Nat.ltb_lt E2%Nat.ltb_lt]%andb_true_iff E3]. destruct H as [Ha Hb Hk]. cbn [m_a m_b m_size] in *.
  destruct (IH (j - 1) (S k)) as [W L]; [|split; [done|lia]]. split; cbn [m_a m_b m_size]; [lia|lia|].
  apply agree_cons; [|done]. by replace (S (j - 1)) with j by lia.
Qed.
Lemma extend_right_sound alo ahi blo bhi room m :
  within alo ahi blo bhi m -> within alo ahi blo bhi (extend_right room ahi bhi m) /\ m_size m <= m_size (extend_right room ahi bhi m).
Proof.
  revert m. induction room as [|room IH]; intros m H; cbn [extend_right]; [by split|].
  destruct ((m_a m + m_size m <? ahi) && (m_b m + m_size m <? bhi) && equal_at (m_a m + m_size m) (m_b m + m_size m)) eqn:E; [|by split].
  apply andb_true_iff in E as [[E1%Nat.ltb_lt E2%Nat.ltb_lt]%andb_true_iff E3]. destruct H as [Ha Hb Hk].
  destruct (IH (Match (m_a m) (m_b m) (S (m_size m)))) as [W L]; [|split; [done|cbn in L; lia]].
  split; cbn [m_a m_b m_size]; [lia|lia|by apply agree_snoc].
Qed.
Lemma find_longest_sound alo ahi blo bhi :
  alo <= ahi -> blo <= bhi -> within alo ahi blo bhi (find_longest_match alo ahi blo bhi).
Proof.
  intros Ha Hb. unfold find_longest_match. pose proof (scan_sound _ _ _ _ Ha Hb) as W. destruct (scan _ _ _ _) as [i j k].
  apply extend_right_sound. by apply extend_left_sound.
Qed.

(** Blocks in order, within a part of the texts. *)
Fixpoint ordered (alo ahi blo bhi : nat) (l : list match_) : Prop :=
  match l with
  | [] => alo <= ahi /\ blo <= bhi
  | m :: l => alo <= m_a m /\ blo <= m_b m /\ agree (m_a m) (m_b m) (m_size m) /\ ordered (m_a m + m_size m) ahi (m_b m + m_size m) bhi l
  end.
Lemma ordered_app alo i ahi blo j bhi l1 l2 : ordered alo i blo j l1 -> ordered i ahi j bhi l2 -> ordered alo ahi blo bhi (l1 ++ l2).
Proof.
  intros H1 H2. revert alo blo H1. induction l1 as [|m l1 IH]; intros alo blo; cbn.
  - intros [Ha Hb]. destruct l2 as [|m l2]; cbn in *; [lia|]. destruct H2 as (? & ? & ?). split_and!; [lia|lia|tauto..].
  - intros (? & ? & ? & H). split_and!; [done|done|done|]. by apply IH.
Qed.

Lemma blocks_ordered fuel alo ahi blo bhi : alo <= ahi -> blo <= bhi -> ordered alo ahi blo bhi (blocks fuel alo ahi blo bhi).
Proof.
  revert alo ahi blo bhi. induction fuel as [|fuel IH]; intros alo ahi blo bhi Ha Hb; cbn [blocks]; [done|].
  pose proof (find_longest_sound _ _ _ _ Ha Hb) as [Wa Wb Wk]. destruct (find_longest_match _ _ _ _) as [i j k]. cbn [m_a m_b m_size] in *.
  destruct (k =? 0); [done|]. apply (ordered_app _ i _ _ j).
  - destruct ((alo <? i) && (blo <? j)); [apply IH; lia|cbn; lia].
  - cbn [ordered m_a m_b m_size]. split_and!; [lia|lia|done|]. destruct ((i + k <? ahi) && (j + k <? bhi)); [apply IH; lia|cbn; lia].
Qed.

(** Enough fuel: a block is not empty, so the parts around it are smaller. *)
Lemma blocks_fuel f1 f2 alo ahi blo bhi :
  alo <= ahi -> blo <= bhi -> ahi - alo < f1 -> ahi - alo < f2 -> blocks f1 alo ahi blo bhi = blocks f2 alo ahi blo bhi.
Proof.
  revert f2 alo ahi blo bhi. induction f1 as [|f1 IH]; intros [|f2] alo ahi blo bhi Ha Hb H1 H2; try lia. cbn [blocks].
  pose proof (find_longest_sound _ _ _ _ Ha Hb) as [Wa Wb _]. destruct (find_longest_match _ _ _ _) as [i j k]. cbn [m_a m_b m_size] in *.
  destruct (Nat.eqb_spec k 0); [done|]. f_equal; [|f_equal].
  - destruct ((alo <? i) && (blo <? j)); [apply IH; lia|done].
  - destruct ((i + k <? ahi) && (j + k <? bhi)); [apply IH; lia|done].
Qed.

Lemma joined_ordered i1 j1 k1 ahi bhi l alo blo :
  alo <= i1 -> blo <= j1 -> agree i1 j1 k1 -> ordered (i1 + k1) ahi (j1 + k1) bhi l -> ordered alo ahi blo bhi (joined i1 j1 k1 l).
Proof.
  revert i1 j1 k1 alo blo. induction l as [|[i2 j2 k2] l IH]; intros i1 j1 k1 alo blo Ha Hb Hk; cbn [joined].
  - intros [H1 H2]. destruct (k1 =? 0); cbn; [lia|]. split_and!; [lia|lia|done|lia|lia].
  - cbn [ordered m_a m_b m_size]. intros (H1 & H2 & Hk2 & H).
    destruct ((i1 + k1 =? i2) && (j1 + k1 =? j2)) eqn:E.
    + apply andb_true_iff in E as [<-%Nat.eqb_eq <-%Nat.eqb_eq]. apply IH; [done|done| |by rewrite !Nat.add_assoc].
      intros n Hn. destruct (decide (n < k1)); [by apply Hk|]. specialize (Hk2 (n - k1) ltac:(lia)).
      replace (i1 + n) with (i1 + k1 + (n - k1)) by lia. by replace (j1 + n) with (j1 + k1 + (n - k1)) by lia.
    + destruct (k1 =? 0) eqn:E0; [cbn [app]; apply IH; [lia|lia|done|done]|].
      cbn [app ordered m_a m_b m_size]. split_and!; [lia|lia|done|]. by apply IH.
Qed.
Lemma matching_blocks_ordered : ordered 0 (length a) 0 (length b) get_matching_blocks.
Proof.
  unfold get_matching_blocks. eapply ordered_app.
  - apply joined_ordered; [lia|lia|intros ??; lia|]. apply blocks_ordered; lia.
  - cbn. split_and!; [lia|lia|intros ??; lia|lia|lia].
Qed.

(** A script from the lines [i] and [j] on: it goes on where the last opcode ended, up to the end of both texts. *)
Inductive script : nat -> nat -> list opcode -> Prop :=
  | script_end : script (length a) (length b) []
  | script_equal i i2 j j2 codes : i <= i2 -> j <= j2 -> slice i i2 a = slice j j2 b -> script i2 j2 codes ->
      script i j (Code Equal i i2 j j2 :: codes)
  | script_edit tag i i2 j j2 codes : tag <> Equal -> i <= i2 -> j <= j2 -> script i2 j2 codes ->
      script i j (Code tag i i2 j j2 :: codes).

Lemma edit_script i ai j bj codes : i <= ai -> j <= bj -> script ai bj codes -> script i j (edit i ai j bj ++ codes).
Proof.
  intros Hi Hj H. unfold edit. destruct (Nat.ltb_spec i ai), (Nat.ltb_spec j bj); cbn [andb app]; try (by apply script_edit).
  by replace i with ai by lia; replace j with bj by lia.
Qed.
Lemma agree_slice i j k : agree i j k -> slice i (i + k) a = slice j (j + k) b.
Proof.
  intros H. unfold slice. replace (i + k - i) with k by lia. replace (j + k - j) with k by lia. apply list_eq. intros n.
  destruct (decide (n < k)) as [Hn|Hn]; [|rewrite !lookup_take_ge by lia; done].
  rewrite !lookup_take_lt, !lookup_drop by lia. destruct (equal_at_lookup _ _ (H n Hn)) as (x & -> & ->). done.
Qed.
Lemma opcodes_script i j l :
  ordered i (length a) j (length b) (l ++ [Match (length a) (length b) 0]) -> script i j (opcodes i j (l ++ [Match (length a) (length b) 0])).
Proof.
  revert i j. induction l as [|[ai bj k] l IH]; intros i j; cbn [app ordered opcodes m_a m_b m_size].
  - intros (H1 & H2 & _). cbn. apply edit_script; [done|done|]. constructor.
  - intros (H1 & H2 & Hk & H%IH). apply edit_script; [done|done|]. destruct (Nat.eqb_spec k 0) as [->|].
    + cbn [app]. by rewrite !Nat.add_0_r in *.
    + cbn [app]. apply script_equal; [lia|lia|by apply agree_slice|done].
Qed.
Lemma get_opcodes_script : script 0 0 get_opcodes.
Proof. apply opcodes_script, matching_blocks_ordered. Qed.
End Matcher.

(** Texts whose differences are only lines that a predicate drops are the same to a reader who drops them. *)
Lemma script_filter (keep : string -> bool) a b i j codes :
  script a b i j codes ->
  (forall c, c ∈ codes -> c_tag c <> Equal ->
     forall line, line ∈ slice (c_i1 c) (c_i2 c) a ++ slice (c_j1 c) (c_j2 c) b -> keep line = false) ->
  List.filter keep (drop i a) = List.filter keep (drop j b).
Proof.
  assert (D : forall (l : list string) i i2, i <= i2 -> drop i l = slice i i2 l ++ drop i2 l).
  { intros l i0 i2 Hi. unfold slice. rewrite <- (take_drop (i2 - i0) (drop i0 l)) at 1. rewrite drop_drop. do 2 f_equal. lia. }
  assert (N : forall l : list string, (forall line, line ∈ l -> keep line = false) -> List.filter keep l = []).
  { induction l as [|x l IH]; [done|]. intros H. cbn. rewrite (H x) by (by left). apply IH. intros. apply H. by right. }
  induction 1 as [|i i2 j j2 codes Hi Hj E _ IH|tag i i2 j j2 codes Ht Hi Hj _ IH]; intros H.
  - by rewrite !drop_all.
  - rewrite (D a i i2), (D b j j2), !List.filter_app, E by done. f_equal. apply IH. intros c Hc. apply H. by right.
  - rewrite (D a i i2), (D b j j2), !List.filter_app by done. rewrite IH by (intros c Hc; apply H; by right). f_equal.
    pose proof (H (Code tag i i2 j j2) ltac:(by left) Ht) as K. cbn in K.
    rewrite !N; [done|intros; apply K, elem_of_app; by right|intros; apply K, elem_of_app; by left].
Qed.

(** *** The library's own examples *)

Definition chars (s : string) : list string := map (fun c => String c "") (String.list_ascii_of_string s).
Example opcodes_of_qabxcd : get_opcodes (chars "qabxcd") (chars "abycdf")
  = [Code Delete 0 1 0 0; Code Equal 1 3 0 2; Code Replace 3 4 2 3; Code Equal 4 6 3 5; Code Insert 6 6 5 6].
Proof. vm_compute. reflexivity. Qed.
Example matches_of_abxcd : get_matching_blocks (chars "abxcd") (chars "abcd") = [Match 0 0 2; Match 3 2 2; Match 5 4 0].
Proof. vm_compute. reflexivity. Qed.
