(* ===== verification/PyIO.v ===== *)
(** * Effects: a state and exception monad, and a file system shared with other processes

    A script that touches the outside world is a function from the world to a result and a new
    world.  The file system below is the part of it the deployment generators use: regular files,
    directories and symbolic links.  Before every system call the environment may change the
    file system in an arbitrary way ([w_env]), and a call may fail or write only a prefix
    ([w_fault]), so a theorem about a generator holds whatever other processes do meanwhile. *)

From stdpp Require Import base list strings gmap.
From Stdlib Require Import ZArith Lia.
From S2P Require Import Prelude.

(** ** The monad *)

Definition io (W A : Type) := W -> res A * W.

Section Monad.
Context {W : Type}.

Definition ret {A} (a : A) : io W A := fun w => (Ok a, w).
Definition throw {A} (e : exn) : io W A := fun w => (Err e, w).
Definition lift {A} (r : res A) : io W A := fun w => (r, w).
Definition bind {A B} (m : io W A) (k : A -> io W B) : io W B := fun w =>
  match m w with (Ok a, w') => k a w' | (Err e, w') => (Err e, w') end.

(** [try: m except ...: h] where [h] re-raises what it does not handle. *)
Definition catch {A} (m : io W A) (h : exn -> io W A) : io W A := fun w =>
  match m w with (Ok a, w') => (Ok a, w') | (Err e, w') => h e w' end.

(** [try: m finally: f]; an exception of [f] replaces the outcome of [m]. *)
Definition finally {A} (m : io W A) (f : io W unit) : io W A := fun w =>
  let '(r, w1) := m w in
  match f w1 with (Ok _, w2) => (r, w2) | (Err e, w2) => (Err e, w2) end.

Definition gets {A} (f : W -> A) : io W A := fun w => (Ok (f w), w).
Definition modify (f : W -> W) : io W unit := fun w => (Ok tt, f w).

Fixpoint each {A} (f : A -> io W unit) (l : list A) : io W unit :=
  match l with [] => ret tt | x :: l => bind (f x) (fun _ => each f l) end.

Fixpoint mapM {A B} (f : A -> io W B) (l : list A) : io W (list B) :=
  match l with
  | [] => ret []
  | x :: l => bind (f x) (fun y => bind (mapM f l) (fun ys => ret (y :: ys)))
  end.

Fixpoint foldM {A S} (f : S -> A -> io W S) (s : S) (l : list A) : io W S :=
  match l with [] => ret s | x :: l => bind (f s x) (fun s => foldM f s l) end.

(** [any(f(x) for x in l)] *)
Fixpoint anyM {A} (f : A -> io W bool) (l : list A) : io W bool :=
  match l with
  | [] => ret false
  | x :: l => bind (f x) (fun b => if b : bool then ret true else anyM f l)
  end.
End Monad.

Declare Scope io_scope.
Delimit Scope io_scope with io.
Notation "x <~ m ; k" := (bind m (fun x => k)) (at level 100, m at next level, right associativity) : io_scope.
Notation "m ;~ k" := (bind m (fun _ => k)) (at level 100, right associativity) : io_scope.
Notation "'let~' p ':=' m 'in' k" := (bind m (fun p => k))
  (at level 10, p strict pattern, m at level 200, k at level 200) : io_scope.
Open Scope io_scope.

(** A computation on a part of the world. *)
Definition zoom {W V A} (get : W -> V) (set : V -> W -> W) (m : io V A) : io W A :=
  fun w => let '(r, v) := m (get w) in (r, set v w).

Lemma bind_ok {W A B} (m : io W A) (k : A -> io W B) w b w' :
  bind m k w = (Ok b, w') <-> exists a w1, m w = (Ok a, w1) /\ k a w1 = (Ok b, w').
Proof.
  unfold bind. destruct (m w) as [[a|e] w1]; split.
  - intros ?. by exists a, w1.
  - by intros (? & ? & [= <- <-] & ?).
  - done.
  - by intros (? & ? & ? & ?).
Qed.

Lemma finally_ok {S A} (m : io S A) c s a s' : finally m c s = (Ok a, s') -> exists s1, m s = (Ok a, s1) /\ c s1 = (Ok tt, s').
Proof.
  unfold finally. destruct (m s) as [r1 s1]. destruct (c s1) as [[[]|e] s2] eqn:E; [|done]. intros [= -> <-]. by exists s1.
Qed.

Lemma lift_ok {W A} (x : res A) (w : W) a w' : lift x w = (Ok a, w') -> x = Ok a /\ w' = w.
Proof. unfold lift. by destruct x; intros [= -> ->]. Qed.

(** What a loop appends: if an iteration on [x] adds to the list [P] sees rows that match [g x], the loop
    adds rows that match them all in order. *)
Lemma foldM_rows {W A S B C} (f : S -> A -> io W S) (P : S -> list C -> Prop) (g : A -> list B) (T : B -> C -> Prop) l :
  (forall s x w s' w' xs, P s xs -> f s x w = (Ok s', w') -> exists ys, Forall2 T (g x) ys /\ P s' (xs ++ ys)) ->
  forall s w s' w' xs, P s xs -> foldM f s l w = (Ok s', w') ->
  exists ys, Forall2 T (concat (map g l)) ys /\ P s' (xs ++ ys).
Proof.
  intros Hf. induction l as [|x l IH]; intros s w s' w' xs Hs H; cbn in H.
  - injection H as <- _. exists []. split; [constructor|]. by rewrite app_nil_r.
  - apply bind_ok in H as (s1 & w1 & H1 & H). destruct (Hf _ _ _ _ _ _ Hs H1) as (ys & Hy & Hs1).
    destruct (IH _ _ _ _ _ Hs1 H) as (zs & Hz & Hs'). exists (ys ++ zs). split; [by apply Forall2_app|].
    by rewrite (assoc (++)).
Qed.

(** ** Triples

    [m] run where [P] holds ends in [Q] of its result, or raises where [E] holds. *)

Definition triple {W A} (P : W -> Prop) (m : io W A) (Q : A -> W -> Prop) (E : W -> Prop) : Prop :=
  forall w r w', P w -> m w = (r, w') -> match r with Ok a => Q a w' | Err _ => E w' end.

Section Triples.
Context {W : Type} {A B : Type}.

Lemma triple_ret (P E : W -> Prop) (a : A) : triple P (ret a) (fun b w => b = a /\ P w) E.
Proof. by intros w r w' H [= <- <-]. Qed.
Lemma triple_bind (P : W -> Prop) (m : io W A) Q (k : A -> io W B) R E :
  triple P m Q E -> (forall a, triple (Q a) (k a) R E) -> triple P (bind m k) R E.
Proof.
  intros Hm Hk w r w' Hw. unfold bind. destruct (m w) as [[a|e] w1] eqn:Em; specialize (Hm _ _ _ Hw Em); cbn in Hm.
  - by apply Hk.
  - by intros [= <- <-].
Qed.
Lemma triple_weaken (P P' : W -> Prop) (m : io W A) (Q Q' : A -> W -> Prop) (E E' : W -> Prop) :
  (forall w, P' w -> P w) -> (forall a w, Q a w -> Q' a w) -> (forall w, E w -> E' w) ->
  triple P m Q E -> triple P' m Q' E'.
Proof. intros HP HQ HE Hm w r w' Hw Em. specialize (Hm _ _ _ (HP _ Hw) Em). destruct r; auto. Qed.
End Triples.

(** ** Paths and nodes *)

(** An absolute path without symbolic links in its directories, leaf first:
    [parent / name] is [name :: parent]. *)
Abbreviation path := (list string).

Inductive node := File (content : string) | Dir | Link (target : path).

#[export] Instance node_eq_dec : EqDecision node.
Proof. solve_decision. Defined.

Inductive fault := NoFault | Denied | Truncated (bytes : nat).

(** A write of this process: the path and what was there before. *)
Record write := Write { wr_path : path; wr_before : option node }.

Record world := World {
  w_fs : gmap path node;
  w_env : nat -> gmap path node -> gmap path node;
  w_time : nat;
  w_fault : path -> fault;
  w_log : list write;
}.

(** One turn of the other processes. *)
Definition tick : io world unit :=
  modify (fun w => World (w_env w (w_time w) (w_fs w)) (w_env w) (S (w_time w)) (w_fault w) (w_log w)).

Definition put_node (p : path) (n : node) : io world unit :=
  modify (fun w => World (<[p := n]> (w_fs w)) (w_env w) (w_time w) (w_fault w)
                         (w_log w ++ [Write p (w_fs w !! p)])).

(** ** System calls *)

(** [str(path)] *)
Definition path_str (p : path) : string :=
  match p with [] => "/" | _ => foldl (fun s x => s +:+ "/" +:+ x) "" (rev p) end.

Definition oserror (c : exn_class) (p : path) : exn := Exn c (path_str p).

(** Follow the links at the end of a path; the kernel gives up after 40. *)
Fixpoint follow (fuel : nat) (fs : gmap path node) (p : path) : option node :=
  match p with
  | [] => Some Dir
  | _ => match fs !! p, fuel with
         | Some (Link t), S fuel => follow fuel fs t
         | Some (Link _), O => None
         | n, _ => n
         end
  end.

(** [Path.exists()] *)
Definition path_exists (p : path) : io world bool :=
  tick ;~ gets (fun w => match follow 40 (w_fs w) p with Some _ => true | None => false end).

Definition dir_at (fs : gmap path node) (p : path) : bool :=
  match follow 40 fs p with Some Dir => true | _ => false end.

(** [Path.is_dir()] *)
Definition is_dir (p : path) : io world bool := tick ;~ gets (fun w => dir_at (w_fs w) p).

(** What creating an entry at [p] meets: its directory, then the name itself, then permissions. *)
Definition creation_error (w : world) (p : path) : option exn_class :=
  match p with
  | [] => Some FileExistsError
  | _ :: parent =>
      match follow 40 (w_fs w) parent with
      | None => Some FileNotFoundError
      | Some Dir => match w_fs w !! p, w_fault w p with
                    | Some _, _ => Some FileExistsError
                    | None, Denied => Some PermissionError
                    | None, _ => None
                    end
      | Some _ => Some NotADirectoryError
      end
  end.

(** [os.mkdir(p)] *)
Definition os_mkdir (p : path) : io world unit :=
  tick ;~ c <~ gets (fun w => creation_error w p) ;
  match c with Some c => throw (oserror c p) | None => put_node p Dir end.

(** [p.mkdir(exist_ok=True)] *)
Definition mkdir_exist_ok (p : path) : io world unit :=
  catch (os_mkdir p) (fun e =>
    if bool_decide (ex_class e = FileNotFoundError) then throw e
    else d <~ is_dir p ; if d : bool then ret tt else throw e).

(** [p.mkdir(parents=True, exist_ok=True)] *)
Fixpoint mkdir_parents (p : path) : io world unit :=
  catch (os_mkdir p) (fun e =>
    if bool_decide (ex_class e = FileNotFoundError) then
      match p with
      | [] => throw e
      | _ :: parent => mkdir_parents parent ;~ mkdir_exist_ok p
      end
    else d <~ is_dir p ; if d : bool then ret tt else throw e).

(** [with p.open("x") as f: f.write(content)]: exclusive creation, then the buffered write, which
    reports a full disk when the file is closed. *)
Definition write_exclusive (p : path) (content : string) : io world unit :=
  tick ;~ c <~ gets (fun w => creation_error w p) ;
  match c with
  | Some c => throw (oserror c p)
  | None => f <~ gets (fun w => w_fault w p) ;
            match f with
            | Truncated n => put_node p (File (String.substring 0 n content)) ;~ throw (oserror OSError p)
            | _ => put_node p (File content)
            end
  end.

(** ** Additive computations

    A computation is additive when it only ever creates entries where nothing was.  The property
    is closed under the combinators, so it holds of every script built from the calls above. *)

Definition quiet (w : world) : Prop := forall n fs, w_env w n fs = fs.

Definition additive {A} (m : io world A) : Prop := forall w r w', m w = (r, w') ->
  w_env w' = w_env w /\ w_fault w' = w_fault w /\
  (exists evs, w_log w' = w_log w ++ evs /\ Forall (fun ev => wr_before ev = None) evs) /\
  (quiet w -> w_fs w ⊆ w_fs w').

Section Additive.
Context {A B : Type}.

Lemma additive_ret (a : A) : additive (ret a).
Proof.
  intros w r w' [= <- <-]. split_and!; try done. exists []. by rewrite app_nil_r.
Qed.
Lemma additive_lift (x : res A) : additive (lift x).
Proof.
  intros w r w' [= <- <-]. split_and!; try done. exists []. by rewrite app_nil_r.
Qed.
Lemma additive_throw e : additive (throw (A:=A) e).
Proof. apply (additive_lift (Err e)). Qed.
Lemma additive_gets (f : world -> A) : additive (gets f).
Proof.
  intros w r w' [= <- <-]. split_and!; try done. exists []. by rewrite app_nil_r.
Qed.

(** Two additive steps in a row. *)
Lemma additive_trans w w1 w2 :
  (w_env w1 = w_env w /\ w_fault w1 = w_fault w /\
   (exists evs, w_log w1 = w_log w ++ evs /\ Forall (fun ev => wr_before ev = None) evs) /\
   (quiet w -> w_fs w ⊆ w_fs w1)) ->
  (w_env w2 = w_env w1 /\ w_fault w2 = w_fault w1 /\
   (exists evs, w_log w2 = w_log w1 ++ evs /\ Forall (fun ev => wr_before ev = None) evs) /\
   (quiet w1 -> w_fs w1 ⊆ w_fs w2)) ->
  w_env w2 = w_env w /\ w_fault w2 = w_fault w /\
  (exists evs, w_log w2 = w_log w ++ evs /\ Forall (fun ev => wr_before ev = None) evs) /\
  (quiet w -> w_fs w ⊆ w_fs w2).
Proof.
  intros (E1 & F1 & (l1 & L1 & P1) & S1) (E2 & F2 & (l2 & L2 & P2) & S2).
  split_and!; [congruence|congruence| |].
  - exists (l1 ++ l2). rewrite L2, L1, (assoc (++)). by rewrite Forall_app.
  - intros Q. etrans; [by apply S1|]. apply S2. unfold quiet in *. by rewrite E1.
Qed.

Lemma additive_bind (m : io world A) (k : A -> io world B) :
  additive m -> (forall a, additive (k a)) -> additive (bind m k).
Proof.
  intros Hm Hk w r w'. unfold bind. destruct (m w) as [[a|e] w1] eqn:E.
  - intros H. eapply additive_trans; [by eapply Hm|by eapply Hk].
  - intros [= <- <-]. by eapply Hm.
Qed.

Lemma additive_catch (m : io world A) h :
  additive m -> (forall e, additive (h e)) -> additive (catch m h).
Proof.
  intros Hm Hh w r w'. unfold catch. destruct (m w) as [[a|e] w1] eqn:E.
  - intros [= <- <-]. by eapply Hm.
  - intros H. eapply additive_trans; [by eapply Hm|by eapply Hh].
Qed.
End Additive.

Lemma additive_each {A} (f : A -> io world unit) l : (forall a, additive (f a)) -> additive (each f l).
Proof. intros Hf. induction l; cbn; auto using additive_ret, additive_bind. Qed.

Lemma additive_anyM {A} (f : A -> io world bool) l : (forall a, additive (f a)) -> additive (anyM f l).
Proof.
  intros Hf. induction l as [|x l IH]; cbn; [apply additive_ret|].
  apply additive_bind; [done|]. intros []; auto using additive_ret.
Qed.

Lemma additive_tick : additive tick.
Proof.
  intros w r w' [= <- <-]. cbn. split_and!; try done.
  - exists []. by rewrite app_nil_r.
  - intros Q. by rewrite Q.
Qed.

(** [put_node] is additive where nothing was. *)
Lemma put_node_fresh p n w r w' :
  w_fs w !! p = None -> put_node p n w = (r, w') ->
  w_env w' = w_env w /\ w_fault w' = w_fault w /\
  (exists evs, w_log w' = w_log w ++ evs /\ Forall (fun ev => wr_before ev = None) evs) /\
  (quiet w -> w_fs w ⊆ w_fs w').
Proof.
  intros Hp [= <- <-]. cbn. split_and!; try done.
  - eexists. split; [done|]. by repeat constructor.
  - intros _. by apply insert_subseteq.
Qed.

Lemma creation_error_none w p : creation_error w p = None -> w_fs w !! p = None.
Proof. unfold creation_error. destruct p; [done|]. by repeat case_match. Qed.

#[export] Hint Resolve additive_ret additive_lift additive_throw additive_gets additive_bind additive_catch
  additive_each additive_anyM additive_tick : zhtps.

(** A creation guarded by [creation_error] is additive. *)
Lemma additive_create p (m : io world unit) :
  (forall w r w', w_fs w !! p = None -> m w = (r, w') ->
     w_env w' = w_env w /\ w_fault w' = w_fault w /\
     (exists evs, w_log w' = w_log w ++ evs /\ Forall (fun ev => wr_before ev = None) evs) /\
     (quiet w -> w_fs w ⊆ w_fs w')) ->
  additive (tick ;~ c <~ gets (fun w => creation_error w p) ;
            match c with Some c => throw (oserror c p) | None => m end).
Proof.
  intros Hm. apply additive_bind; [apply additive_tick|]. intros _ w r w'. unfold bind, gets.
  destruct (creation_error w p) as [c|] eqn:E.
  - apply additive_throw.
  - apply Hm. by apply creation_error_none.
Qed.

Lemma additive_os_mkdir p : additive (os_mkdir p).
Proof. apply additive_create. intros. by eapply put_node_fresh. Qed.

Lemma additive_write_exclusive p content : additive (write_exclusive p content).
Proof.
  apply additive_create. intros w r w' Hp. unfold bind, gets.
  destruct (w_fault w p); [by apply put_node_fresh..|].
  cbn. intros [= <- <-]. by eapply put_node_fresh.
Qed.

#[export] Hint Resolve additive_os_mkdir additive_write_exclusive : zhtps.

Lemma additive_path_exists p : additive (path_exists p).
Proof. unfold path_exists. auto with zhtps. Qed.
Lemma additive_is_dir p : additive (is_dir p).
Proof. unfold is_dir. auto with zhtps. Qed.
#[export] Hint Resolve additive_path_exists additive_is_dir : zhtps.

Lemma additive_mkdir_exist_ok p : additive (mkdir_exist_ok p).
Proof.
  unfold mkdir_exist_ok. apply additive_catch; [auto with zhtps|]. intros e. case_match; [auto with zhtps|].
  apply additive_bind; [auto with zhtps|]. intros []; auto with zhtps.
Qed.
#[export] Hint Resolve additive_mkdir_exist_ok : zhtps.

Lemma additive_mkdir_parents p : additive (mkdir_parents p).
Proof.
  induction p as [|x p IH]; cbn; (apply additive_catch; [auto with zhtps|]); intros e; case_match;
    auto with zhtps; (apply additive_bind; [auto with zhtps|]); intros []; auto with zhtps.
Qed.
#[export] Hint Resolve additive_mkdir_parents : zhtps.

(** ** What the calls do in a quiet world *)

Lemma quiet_tick w r w' : quiet w -> tick w = (r, w') -> w_fs w' = w_fs w /\ w_log w' = w_log w /\ quiet w'.
Proof. intros Q [= <- <-]. cbn. split_and!; [by rewrite Q|done|exact Q]. Qed.

Lemma additive_quiet {A} (m : io world A) w r w' :
  additive m -> quiet w -> m w = (r, w') -> quiet w' /\ w_fs w ⊆ w_fs w'.
Proof.
  intros Hm Q (E & _ & _ & S)%Hm. split; [|by apply S]. unfold quiet. by rewrite E.
Qed.

(** A successful exclusive write leaves exactly the content. *)
Lemma write_exclusive_ok p c w u w' :
  write_exclusive p c w = (Ok u, w') -> w_fs w' !! p = Some (File c).
Proof.
  unfold write_exclusive. intros (? & w1 & _ & (c' & w2 & [= <- <-] & H)%bind_ok)%bind_ok.
  destruct (creation_error w1 p); [done|].
  apply bind_ok in H as (f & w3 & [= <- <-] & H).
  destruct (w_fault w1 p).
  - injection H as _ <-. cbn. by rewrite lookup_insert_eq.
  - injection H as _ <-. cbn. by rewrite lookup_insert_eq.
  - by apply bind_ok in H as (? & ? & ? & ?).
Qed.

(** The answer of [exists()] in a quiet world. *)
Definition visible (fs : gmap path node) (p : path) : bool :=
  match follow 40 fs p with Some _ => true | None => false end.

Lemma path_exists_quiet p w r w' :
  quiet w -> path_exists p w = (r, w') ->
  r = Ok (visible (w_fs w) p) /\ w_fs w' = w_fs w /\ w_log w' = w_log w /\ quiet w'.
Proof.
  intros Q [= <- <-]. cbn. rewrite Q. done.
Qed.

Lemma anyM_exists_quiet {A} (f : A -> path) l w r w' :
  quiet w -> anyM (fun x => path_exists (f x)) l w = (r, w') ->
  r = Ok (existsb (fun x => visible (w_fs w) (f x)) l) /\ w_fs w' = w_fs w /\ w_log w' = w_log w /\ quiet w'.
Proof.
  revert w. induction l as [|x l IH]; intros w Q; cbn [anyM existsb].
  - by intros [= <- <-].
  - unfold bind at 1. destruct (path_exists (f x) w) as [r1 w1] eqn:E.
    apply path_exists_quiet in E as (-> & Hfs & Hlog & Q1); [|done].
    destruct (visible (w_fs w) (f x)); cbn.
    + by intros [= <- <-].
    + intros H. apply IH in H as (-> & -> & -> & ?); [|done]. by rewrite Hfs.
Qed.
