(* ===== verification/System.v ===== *)
(** * Child processes, clocks and messages of a measurement

    The load drivers start processes, read clocks and [/proc], exchange messages with a reader thread
    and write files.  A [host] is that outside world.  It is driven by an oracle: before every call the
    environment takes a [turn], in which running processes may exit, messages may arrive, the pipe to a
    process may break and the call may be made to fail, so a theorem for every oracle holds for every interleaving. *)

From stdpp Require Import base list strings.
From Stdlib Require Import ZArith Lia Ascii.
From S2P Require Import Prelude PyFloat PyText PyVal PyJson PyScript PyIO.

Local Open Scope Z_scope.

Inductive pstate := Running | Exited (code : Z).

#[export] Instance pstate_eq_dec : EqDecision pstate.
Proof. solve_decision. Defined.

(** A process is known by its place in the list of started processes. *)
Abbreviation handle := nat.

Inductive event :=
  | Environment (changes : list (string * option string))
  | Started (h : handle) (command : list string)
  | Sent (text : string)
  | Input (h : handle) (text : string)
  | Wrote (path text : string)
  | Renamed (old new : string)
  | Said (text : string).

Record turn := Turn {
  t_exits : list (handle * Z);
  t_fault : option exn;
  t_answer : val;
  t_arrivals : list val;
  t_broken : bool;
}.

Record host := Host {
  procs : list pstate;
  oracle : nat -> turn;
  steps : nat;
  events : list val;
  trace : list event;
}.

(** ** Turns *)

Definition exit_proc (ps : list pstate) (hc : handle * Z) : list pstate :=
  match ps !! hc.1 with Some Running => <[hc.1 := Exited hc.2]> ps | _ => ps end.

Definition advance : io host turn := fun w =>
  let t := oracle w (steps w) in
  (Ok t, Host (foldl exit_proc (procs w) (t_exits t)) (oracle w) (S (steps w)) (events w ++ t_arrivals t) (trace w)).

Definition log (e : event) : io host unit :=
  modify (fun w => Host (procs w) (oracle w) (steps w) (events w) (trace w ++ [e])).

Definition set_procs (ps : list pstate) : io host unit :=
  modify (fun w => Host ps (oracle w) (steps w) (events w) (trace w)).

(** A call answered by the environment, which may fail. *)
Definition external : io host val :=
  t <~ advance ; match t_fault t with Some e => throw e | None => ret (t_answer t) end.

(** A clock: answered by the environment, never fails. *)
Definition clock : io host val := t <~ advance ; ret (t_answer t).

(** ** Files and output *)

Definition fallible (e : event) : io host unit := external ;~ log e.

Definition write_file (path text : string) : io host unit := fallible (Wrote path text).
Definition rename_file (old new : string) : io host unit := fallible (Renamed old new).
Definition say (text : string) : io host unit := fallible (Said text).

(** ** Processes *)

(** [subprocess.Popen(command, ...)] *)
Definition popen (command : list string) : io host handle :=
  external ;~
  h <~ gets (fun w => length (procs w)) ;
  ps <~ gets procs ;
  set_procs (ps ++ [Running]) ;~ log (Started h command) ;~ ret h.

(** [process.poll()] *)
Definition poll (h : handle) : io host (option Z) :=
  advance ;~ gets (fun w => match procs w !! h with Some (Exited c) => Some c | _ => None end).

(** [process.terminate()] and [process.kill()] of an own child do not fail.  A terminated process
    exits when the environment lets it, a killed one is gone. *)
Definition terminate (h : handle) : io host unit := advance ;~ ret tt.
Definition kill (h : handle) : io host unit :=
  advance ;~ ps <~ gets procs ; set_procs (exit_proc ps (h, -9)).

(** [process.wait(timeout=...)]: the process may exit during the wait. *)
Definition wait_timeout (h : handle) : io host Z :=
  c <~ poll h ;
  match c with Some c => ret c | None => throw (Exn TimeoutExpired "timed out") end.

(** [process.wait()] of a process that was killed *)
Definition wait (h : handle) : io host unit := advance ;~ ret tt.

(** [process.returncode], from the last time the process was seen. *)
Definition returncode (h : handle) : io host val :=
  gets (fun w => match procs w !! h with Some (Exited c) => VInt c | _ => VNone end).

(** The environment variables of the next process that are set ([Some]) or removed ([None]). *)
Definition with_env (changes : list (string * option string)) : io host unit := log (Environment changes).

Definition end_proc (hc : handle * Z) : io host unit :=
  modify (fun w => Host (exit_proc (procs w) hc) (oracle w) (steps w) (events w) (trace w)).

(** The end of a process that is waited for without a limit: the call returns when the environment lets
    the process exit, so its answer is the code when the process had not exited before. *)
Definition wait_end (h : handle) : io host Z :=
  t <~ advance ;
  (match t_fault t with Some e => throw e | None => ret tt end) ;~
  ps <~ gets procs ;
  match ps !! h with
  | Some (Exited c) => ret c
  | _ => let c := match t_answer t with VInt z => z | _ => 0 end in end_proc (h, c) ;~ ret c
  end.

(** [subprocess.run(command, capture_output=True, text=True, timeout=...)]: the return code, the output and
    the diagnostics.  Whatever ends the communication, the process is killed and reaped. *)
Record completed_process := Completed { cp_code : Z; cp_stdout : string; cp_stderr : string }.

Definition answer_text : io host string :=
  v <~ external ; lift (match v with VStr s => Ok s | _ => type_error "a string is required" end).

(** A command started, communicated with by [talk], and killed when that fails. *)
Definition run_with {A} (talk : handle -> io host A) (command : list string) : io host A :=
  h <~ popen command ;
  catch (talk h) (fun e => kill h ;~ wait h ;~ throw e).

Definition run_process (limited : bool) : list string -> io host completed_process :=
  run_with (fun h =>
    stdout <~ answer_text ;
    stderr <~ answer_text ;
    code <~ (if limited then wait_timeout h else wait_end h) ;
    ret (Completed code stdout stderr)).

(** [parser.error(message)] *)
Definition usage {A} (message : string) : res A := raise (SystemExit 2) message.
Definition usage_if (b : bool) (message : string) : res unit := if b then usage message else Ok tt.

(** A text option that is given and not empty. *)
Definition given (o : option string) : bool := match o with Some s => negb (String.eqb s "") | None => false end.

Definition is_class (e : exn) (c : exn_class) : bool := bool_decide (ex_class e = c).

(** ** Processes are never revived *)

Definition exited (h : handle) (w : host) : Prop := exists c, procs w !! h = Some (Exited c).

(** What every call of this file keeps: an exited process stays exited, the list only grows, and the
    environment is the same. *)
Definition later (w w' : host) : Prop :=
  (forall h, exited h w -> exited h w') /\ (length (procs w) <= length (procs w'))%nat /\ oracle w' = oracle w.

Definition steady {A} (m : io host A) : Prop := forall w r w', m w = (r, w') -> later w w'.

(** A steady computation that starts no process. *)
Definition settled {A} (m : io host A) : Prop := forall w r w', m w = (r, w') ->
  later w w' /\ length (procs w') = length (procs w).

Lemma later_refl w : later w w.
Proof. by repeat split. Qed.
Lemma later_trans w1 w2 w3 : later w1 w2 -> later w2 w3 -> later w1 w3.
Proof. intros (A1 & B1 & C1) (A2 & B2 & C2). split_and!; [auto|lia|congruence]. Qed.

(** No input is found broken when it is closed. *)
Definition pipes_hold (w : host) : Prop := forall n, t_broken (oracle w n) = false.

Lemma pipes_later w w' : later w w' -> pipes_hold w -> pipes_hold w'.
Proof. intros (_ & _ & E) H n. by rewrite E. Qed.

Lemma settled_steady {A} (m : io host A) : settled m -> steady m.
Proof. intros H w r w' E. by apply H in E as [? _]. Qed.

Section Closure.
Context {A B : Type}.

Lemma steady_ret (a : A) : steady (ret a).
Proof. intros w r w' [= _ <-]. apply later_refl. Qed.
Lemma steady_throw e : steady (throw (A:=A) e).
Proof. intros w r w' [= _ <-]. apply later_refl. Qed.
Lemma steady_lift (x : res A) : steady (lift x).
Proof. intros w r w' [= _ <-]. apply later_refl. Qed.
Lemma steady_gets (f : host -> A) : steady (gets f).
Proof. intros w r w' [= _ <-]. apply later_refl. Qed.
Lemma steady_bind (m : io host A) (k : A -> io host B) : steady m -> (forall a, steady (k a)) -> steady (bind m k).
Proof.
  intros Hm Hk w r w'. unfold bind. destruct (m w) as [[a|e] w1] eqn:E.
  - intros H. eapply later_trans; [by eapply Hm|by eapply Hk].
  - intros [= _ <-]. by eapply Hm.
Qed.
Lemma steady_catch (m : io host A) h : steady m -> (forall e, steady (h e)) -> steady (catch m h).
Proof.
  intros Hm Hh w r w'. unfold catch. destruct (m w) as [[a|e] w1] eqn:E.
  - intros [= _ <-]. by eapply Hm.
  - intros H. eapply later_trans; [by eapply Hm|by eapply Hh].
Qed.

Lemma settled_ret (a : A) : settled (ret a).
Proof. intros w r w' [= _ <-]. by split; [apply later_refl|]. Qed.
Lemma settled_throw e : settled (throw (A:=A) e).
Proof. intros w r w' [= _ <-]. by split; [apply later_refl|]. Qed.
Lemma settled_lift (x : res A) : settled (lift x).
Proof. intros w r w' [= _ <-]. by split; [apply later_refl|]. Qed.
Lemma settled_gets (f : host -> A) : settled (gets f).
Proof. intros w r w' [= _ <-]. by split; [apply later_refl|]. Qed.
Lemma settled_bind (m : io host A) (k : A -> io host B) :
  settled m -> (forall a, settled (k a)) -> settled (bind m k).
Proof.
  intros Hm Hk w r w'. unfold bind. destruct (m w) as [[a|e] w1] eqn:E.
  - intros H. apply Hm in E as [? ?]. apply Hk in H as [? ?]. split; [by eapply later_trans|congruence].
  - intros [= _ <-]. by eapply Hm.
Qed.
Lemma settled_catch (m : io host A) h : settled m -> (forall e, settled (h e)) -> settled (catch m h).
Proof.
  intros Hm Hh w r w'. unfold catch. destruct (m w) as [[a|e] w1] eqn:E.
  - intros [= _ <-]. by eapply Hm.
  - intros H. apply Hm in E as [? ?]. apply Hh in H as [? ?]. split; [by eapply later_trans|congruence].
Qed.
End Closure.

Lemma settled_each {A} (f : A -> io host unit) l : (forall a, settled (f a)) -> settled (each f l).
Proof. intros Hf. induction l; cbn; auto using settled_ret, settled_bind. Qed.
Lemma settled_mapM {A B} (f : A -> io host B) l : (forall a, settled (f a)) -> settled (mapM f l).
Proof.
  intros Hf. induction l as [|a l IH]; cbn; [apply settled_ret|]. apply settled_bind; [done|]. intros b.
  apply settled_bind; [done|]. intros bs. apply settled_ret.
Qed.
Lemma settled_foldM {A S} (f : S -> A -> io host S) l s : (forall s a, settled (f s a)) -> settled (foldM f s l).
Proof. intros Hf. revert s. induction l; intros s; cbn; auto using settled_ret, settled_bind. Qed.

#[export] Hint Resolve steady_ret steady_throw steady_lift steady_gets steady_bind steady_catch
  settled_ret settled_throw settled_lift settled_gets settled_bind settled_catch settled_each settled_foldM
  settled_steady : zhtps.

Lemma exit_proc_exited ps hc h c :
  ps !! h = Some (Exited c) -> exit_proc ps hc !! h = Some (Exited c).
Proof.
  unfold exit_proc. intros H. destruct (ps !! hc.1) as [[]|] eqn:E; [|done..].
  rewrite list_lookup_insert_ne; [done|]. congruence.
Qed.
Lemma exit_proc_length ps hc : length (exit_proc ps hc) = length ps.
Proof. unfold exit_proc. repeat case_match; by rewrite ?length_insert. Qed.

Lemma exit_all ps l :
  (forall h c, ps !! h = Some (Exited c) -> foldl exit_proc ps l !! h = Some (Exited c))
  /\ length (foldl exit_proc ps l) = length ps.
Proof.
  revert ps. induction l as [|hc l IH]; intros ps; cbn; [done|].
  destruct (IH (exit_proc ps hc)) as [IH1 IH2]. rewrite IH2, exit_proc_length. split; [|done].
  intros h c H. by apply IH1, exit_proc_exited.
Qed.

Lemma settled_advance : settled advance.
Proof.
  intros w r w' [= _ <-]. unfold later, exited. cbn.
  destruct (exit_all (procs w) (t_exits (oracle w (steps w)))) as [H1 H2]. rewrite H2.
  split_and!; [|done..]. intros h (c & Hc). exists c. by apply H1.
Qed.
#[export] Hint Resolve settled_advance : zhtps.

Lemma settled_external : settled external.
Proof. unfold external. apply settled_bind; [auto with zhtps|]. intros t. case_match; auto with zhtps. Qed.
Lemma settled_clock : settled clock.
Proof. unfold clock. auto with zhtps. Qed.
Lemma settled_log e : settled (log e).
Proof. intros w r w' [= _ <-]. by repeat split. Qed.
#[export] Hint Resolve settled_external settled_clock settled_log : zhtps.

Lemma settled_fallible e : settled (fallible e).
Proof. unfold fallible. auto with zhtps. Qed.
Lemma settled_poll h : settled (poll h).
Proof. unfold poll. auto with zhtps. Qed.
Lemma settled_terminate h : settled (terminate h).
Proof. unfold terminate. auto with zhtps. Qed.
Lemma settled_wait h : settled (wait h).
Proof. unfold wait. auto with zhtps. Qed.
Lemma settled_returncode h : settled (returncode h).
Proof. unfold returncode. auto with zhtps. Qed.
#[export] Hint Resolve settled_fallible settled_poll settled_terminate settled_wait settled_returncode : zhtps.
Lemma settled_write_file p t : settled (write_file p t).
Proof. apply settled_fallible. Qed.
Lemma settled_rename_file old new : settled (rename_file old new).
Proof. apply settled_fallible. Qed.
Lemma settled_say t : settled (say t).
Proof. apply settled_fallible. Qed.
Lemma settled_wait_timeout h : settled (wait_timeout h).
Proof. unfold wait_timeout. apply settled_bind; [auto with zhtps|]. intros []; auto with zhtps. Qed.
#[export] Hint Resolve settled_write_file settled_rename_file settled_say settled_wait_timeout : zhtps.

Lemma settled_kill h : settled (kill h).
Proof.
  unfold kill. apply settled_bind; [auto with zhtps|]. intros _ w r w' [= _ <-]. unfold later, exited. cbn.
  rewrite exit_proc_length. split_and!; [|done..]. intros k (c & Hc). exists c. by apply exit_proc_exited.
Qed.
#[export] Hint Resolve settled_kill : zhtps.

Lemma steady_popen command : steady (popen command).
Proof.
  unfold popen. apply steady_bind; [auto with zhtps|]. intros _ w r w' [= _ <-]. unfold later, exited. cbn.
  split_and!; [|rewrite length_app; cbn; lia|done]. intros h (c & Hc). exists c. by apply lookup_app_l_Some.
Qed.
#[export] Hint Resolve steady_popen : zhtps.

(** ** Facts about single calls *)

Lemma poll_some h w c w' : poll h w = (Ok (Some c), w') -> exited h w'.
Proof.
  unfold poll, advance, bind, gets. cbn. intros H. injection H as H <-. case_match; [|done]. case_match; [done|].
  exists code. cbn. done.
Qed.

Lemma wait_timeout_ok h w c w' : wait_timeout h w = (Ok c, w') -> exited h w'.
Proof.
  unfold wait_timeout. intros (o & w1 & H1 & H2)%bind_ok. destruct o; [|done]. injection H2 as _ <-.
  by eapply poll_some.
Qed.

(** A killed process has exited. *)
Lemma kill_exited h w u w' : (h < length (procs w))%nat -> kill h w = (Ok u, w') -> exited h w'.
Proof.
  intros Hh. unfold kill. intros (t & w1 & H1 & H2)%bind_ok.
  pose proof (settled_advance _ _ _ H1) as [_ Hlen]. injection H2 as _ <-.
  unfold exited. cbn. unfold exit_proc. cbn.
  destruct (procs w1 !! h) as [[|c]|] eqn:E.
  - exists (-9). apply list_lookup_insert_eq. lia.
  - by exists c.
  - apply lookup_ge_None in E. lia.
Qed.

Lemma popen_ok command w h w' :
  popen command w = (Ok h, w') ->
  h = length (procs w) /\ length (procs w') = S (length (procs w)) /\ (forall k, exited k w -> exited k w').
Proof.
  intros H. pose proof (steady_popen _ _ _ _ H) as (Hex & _ & _). revert H. unfold popen.
  intros (v & w1 & H1 & H2)%bind_ok. pose proof (settled_external _ _ _ H1) as [_ Hlen].
  injection H2 as <- <-. cbn. rewrite length_app. cbn. split_and!; [done|lia|done].
Qed.

Lemma popen_err command w e w' : popen command w = (Err e, w') -> length (procs w') = length (procs w).
Proof.
  unfold popen. unfold bind at 1. destruct (external w) as [[v|e'] w1] eqn:E.
  - discriminate.
  - intros [= _ <-]. by apply settled_external in E as [_ ?].
Qed.

Lemma wait_timeout_err h w e w' : wait_timeout h w = (Err e, w') -> is_class e TimeoutExpired = true.
Proof.
  unfold wait_timeout, bind. destruct (poll h w) as [[o|e0] w1] eqn:E.
  - destruct o; [done|]. by intros [= <- _].
  - unfold poll, bind in E. discriminate E.
Qed.

(** ** Nothing is left running

    A computation is tidy when every process it starts has exited when it is over, however it ends. *)

(** Every process of the host has exited. *)
Definition all_exited (w : host) : Prop := forall h, (h < length (procs w))%nat -> exited h w.

Definition tidy {A} (m : io host A) : Prop := forall w r w', m w = (r, w') ->
  later w w' /\ forall k, (length (procs w) <= k < length (procs w'))%nat -> exited k w'.

Lemma tidy_all_exited {A} (m : io host A) w r w' : tidy m -> procs w = [] -> m w = (r, w') -> all_exited w'.
Proof. intros Hm Hw E. apply Hm in E as [_ Hx]. rewrite Hw in Hx. intros k Hk. apply Hx. cbn. lia. Qed.

(** Two tidy steps in a row. *)
Lemma tidy_trans w w1 w2 :
  later w w1 -> (forall k, (length (procs w) <= k < length (procs w1))%nat -> exited k w1) ->
  later w1 w2 -> (forall k, (length (procs w1) <= k < length (procs w2))%nat -> exited k w2) ->
  later w w2 /\ forall k, (length (procs w) <= k < length (procs w2))%nat -> exited k w2.
Proof.
  intros L1 X1 L2 X2. split; [by eapply later_trans|]. intros k Hk.
  destruct (decide (k < length (procs w1))%nat); [apply L2, X1; lia|apply X2; lia].
Qed.

Section Tidy.
Context {A B : Type}.

Lemma tidy_settled (m : io host A) : settled m -> tidy m.
Proof. intros Hm w r w' E. apply Hm in E as [L N]. split; [done|]. intros k Hk. lia. Qed.
Lemma tidy_bind (m : io host A) (k : A -> io host B) : tidy m -> (forall a, tidy (k a)) -> tidy (bind m k).
Proof.
  intros Hm Hk w r w'. unfold bind. destruct (m w) as [[a|e] w1] eqn:E.
  - intros H. apply Hm in E as [L1 X1]. apply Hk in H as [L2 X2]. by eapply tidy_trans.
  - intros [= _ <-]. by eapply Hm.
Qed.
Lemma tidy_catch (m : io host A) h : tidy m -> (forall e, tidy (h e)) -> tidy (catch m h).
Proof.
  intros Hm Hh w r w'. unfold catch. destruct (m w) as [[a|e] w1] eqn:E.
  - intros [= _ <-]. by eapply Hm.
  - intros H. apply Hm in E as [L1 X1]. apply Hh in H as [L2 X2]. by eapply tidy_trans.
Qed.
Lemma tidy_finally (m : io host A) f : tidy m -> tidy f -> tidy (finally m f).
Proof.
  intros Hm Hf w r w'. unfold finally. destruct (m w) as [r1 w1] eqn:E1. destruct (f w1) as [r2 w2] eqn:E2.
  apply Hm in E1 as [L1 X1]. apply Hf in E2 as [L2 X2]. destruct r2; intros [= _ <-]; by eapply tidy_trans.
Qed.
End Tidy.

Lemma tidy_each {A} (f : A -> io host unit) l : (forall a, tidy (f a)) -> tidy (each f l).
Proof. intros Hf. induction l; cbn; [apply tidy_settled; auto with zhtps|]. by apply tidy_bind. Qed.
Lemma tidy_mapM {A B} (f : A -> io host B) l : (forall a, tidy (f a)) -> tidy (mapM f l).
Proof.
  intros Hf. induction l; cbn; [apply tidy_settled; auto with zhtps|]. apply tidy_bind; [done|]. intros y.
  apply tidy_bind; [done|]. intros. apply tidy_settled. auto with zhtps.
Qed.
Lemma tidy_foldM {A S} (f : S -> A -> io host S) l s : (forall s a, tidy (f s a)) -> tidy (foldM f s l).
Proof.
  intros Hf. revert s. induction l; intros s; cbn; [apply tidy_settled; auto with zhtps|]. by apply tidy_bind.
Qed.

(** Every process but one, which a later step ends. *)
Lemma tidy_popen {A} command (k : handle -> io host A) :
  (forall h w r w', (h < length (procs w))%nat -> k h w = (r, w') ->
     later w w' /\ exited h w' /\ forall j, (length (procs w) <= j < length (procs w'))%nat -> exited j w') ->
  tidy (h <~ popen command ; k h).
Proof.
  intros Hk w r w'. unfold bind. destruct (popen command w) as [[h|e] w1] eqn:E.
  - destruct (popen_ok _ _ _ _ E) as (-> & N & _). apply steady_popen in E as L. intros H.
    apply Hk in H as (L2 & Hh & Hx); [|lia]. split; [by eapply later_trans|]. intros j Hj.
    destruct (decide (j = length (procs w))) as [->|]; [done|apply Hx; lia].
  - apply steady_popen in E as L. apply popen_err in E. intros [= _ <-]. split; [done|]. intros k' ?. lia.
Qed.

(** A tidy body whose [finally] clause ends the process [h]. *)
Definition ends_child (h : handle) (c : io host unit) : Prop := forall w r w', (h < length (procs w))%nat -> c w = (r, w') ->
  later w w' /\ length (procs w') = length (procs w) /\ exited h w'.
Lemma finally_ends {A} h (m : io host A) c w r w' :
  tidy m -> ends_child h c -> (h < length (procs w))%nat -> finally m c w = (r, w') ->
  later w w' /\ exited h w' /\ forall j, (length (procs w) <= j < length (procs w'))%nat -> exited j w'.
Proof.
  intros Hm Hc Hh. unfold finally. destruct (m w) as [y w1] eqn:E1. apply Hm in E1 as [L1 N1]. destruct (c w1) as [z w2] eqn:E2.
  intros E. assert (w' = w2) as -> by (destruct z; by injection E as _ <-). pose proof L1 as (_ & Hl & _).
  apply Hc in E2 as (L2 & N2 & X2); [|lia].
  split_and!; [by eapply later_trans|done|]. intros j Hj. apply L2, N1. lia.
Qed.

Lemma settled_end_proc hc : settled (end_proc hc).
Proof.
  intros w r w' [= _ <-]. unfold later, exited. cbn. rewrite exit_proc_length. split_and!; [|done..].
  intros k (c & Hc). exists c. by apply exit_proc_exited.
Qed.
#[export] Hint Resolve settled_end_proc : zhtps.

Lemma settled_wait_end h : settled (wait_end h).
Proof.
  unfold wait_end. apply settled_bind; [auto with zhtps|]. intros t. apply settled_bind; [case_match; auto with zhtps|].
  intros _. apply settled_bind; [auto with zhtps|]. intros ps.
  repeat case_match; auto with zhtps.
Qed.
Lemma wait_end_ok h w c w' : (h < length (procs w))%nat -> wait_end h w = (Ok c, w') -> exited h w'.
Proof.
  unfold wait_end. intros Hh (t & w1 & H1 & H2)%bind_ok. pose proof (settled_advance _ _ _ H1) as [_ L].
  apply bind_ok in H2 as (u & w2 & H2 & H3). assert (w2 = w1) as -> by (destruct (t_fault t); by injection H2).
  apply bind_ok in H3 as (ps & w3 & [= <- <-] & H3). unfold exited.
  destruct (procs w1 !! h) as [[|c']|] eqn:E.
  - apply bind_ok in H3 as (? & w4 & [= _ <-] & [= _ <-]). cbn. unfold exit_proc. cbn. rewrite E.
    eexists. apply list_lookup_insert_eq. lia.
  - injection H3 as _ <-. by exists c'.
  - apply lookup_ge_None in E. lia.
Qed.
Lemma settled_answer_text : settled answer_text.
Proof. unfold answer_text. auto with zhtps. Qed.
Lemma settled_with_env c : settled (with_env c).
Proof. apply settled_log. Qed.
#[export] Hint Resolve settled_wait_end settled_answer_text settled_with_env : zhtps.

(** [subprocess.run] is tidy: a completed process has exited, any other way out kills it. *)
Lemma tidy_run_with {A} (talk : handle -> io host A) command :
  (forall h, settled (talk h)) ->
  (forall h w a w', (h < length (procs w))%nat -> talk h w = (Ok a, w') -> exited h w') ->
  tidy (run_with talk command).
Proof.
  intros Ht Hx. apply tidy_popen. intros h w r w' Hh. unfold catch.
  destruct (talk h w) as [[a|e] w1] eqn:E; pose proof (Ht _ _ _ _ E) as [L1 N1].
  - intros [= _ <-]. split; [done|]. split; [|lia]. by eapply Hx.
  - unfold bind at 1. destruct (kill h w1) as [[u|e2] w2] eqn:E2; [|by unfold kill, bind in E2].
    pose proof (settled_kill _ _ _ _ E2) as [L2 N2]. apply kill_exited in E2; [|lia]. intros H.
    assert (Hs : settled (wait h ;~ throw (A:=A) e)) by auto with zhtps.
    apply Hs in H as [L3 N3]. split; [do 2 (eapply later_trans; [done|]); done|]. split; [by apply L3|lia].
Qed.

Lemma tidy_run_process limited command : tidy (run_process limited command).
Proof.
  apply tidy_run_with; intros h.
  - apply settled_bind; [auto with zhtps|]. intros ?. apply settled_bind; [auto with zhtps|]. intros ?.
    apply settled_bind; [destruct limited; auto with zhtps|]. auto with zhtps.
  - intros w a w' Hh (out & w2 & E2 & E)%bind_ok. apply settled_answer_text in E2 as [_ N2].
    apply bind_ok in E as (err & w3 & E3 & E). apply settled_answer_text in E3 as [_ N3].
    apply bind_ok in E as (c & w4 & E4 & [= _ <-]).
    destruct limited; [by eapply wait_timeout_ok|eapply wait_end_ok, E4; lia].
Qed.

Lemma tidy_run_to_end command : tidy (run_with wait_end command).
Proof. apply tidy_run_with; [auto with zhtps|]. apply wait_end_ok. Qed.

#[export] Hint Resolve tidy_settled tidy_bind tidy_catch tidy_finally tidy_each tidy_mapM tidy_foldM tidy_run_process tidy_run_to_end : zhtps.

(** ** What a computation adds to the trace *)

Definition adds {A} (P : event -> Prop) (m : io host A) : Prop := forall w r w', m w = (r, w') ->
  exists evs, trace w' = trace w ++ evs /\ Forall P evs.

Section Adds.
Context {A B : Type} (P : event -> Prop).

Lemma adds_none (m : io host A) : (forall w r w', m w = (r, w') -> trace w' = trace w) -> adds P m.
Proof. intros Hm w r w' H%Hm. exists []. by rewrite app_nil_r. Qed.
Lemma adds_lift (x : res A) : adds P (lift x).
Proof. apply adds_none. by intros w r w' [= _ <-]. Qed.
Lemma adds_ret (a : A) : adds P (ret a).
Proof. apply (adds_lift (Ok a)). Qed.
Lemma adds_throw e : adds P (throw (A:=A) e).
Proof. apply (adds_lift (Err e)). Qed.
Lemma adds_gets (f : host -> A) : adds P (gets f).
Proof. apply adds_none. by intros w r w' [= _ <-]. Qed.
Lemma adds_bind (m : io host A) (k : A -> io host B) : adds P m -> (forall a, adds P (k a)) -> adds P (bind m k).
Proof.
  intros Hm Hk w r w'. unfold bind. destruct (m w) as [[a|e] w1] eqn:E; apply Hm in E as (l1 & T1 & F1).
  - intros (l2 & T2 & F2)%Hk. exists (l1 ++ l2). rewrite T2, T1, app_assoc, Forall_app. by split.
  - intros [= _ <-]. by exists l1.
Qed.
Lemma adds_catch (m : io host A) h : adds P m -> (forall e, adds P (h e)) -> adds P (catch m h).
Proof.
  intros Hm Hh w r w'. unfold catch. destruct (m w) as [[a|e] w1] eqn:E; apply Hm in E as (l1 & T1 & F1).
  - intros [= _ <-]. by exists l1.
  - intros (l2 & T2 & F2)%Hh. exists (l1 ++ l2). rewrite T2, T1, app_assoc, Forall_app. by split.
Qed.
End Adds.

Lemma adds_advance P : adds P advance.
Proof. apply adds_none. by intros w r w' [= _ <-]. Qed.
Lemma adds_external P : adds P external.
Proof. unfold external. apply adds_bind; [apply adds_advance|]. intros t. case_match; [apply adds_throw|apply adds_ret]. Qed.
Lemma adds_clock P : adds P clock.
Proof. unfold clock. apply adds_bind; [apply adds_advance|]. intros t. apply adds_ret. Qed.
Lemma adds_fallible (P : event -> Prop) e : P e -> adds P (fallible e).
Proof.
  intros He. unfold fallible. apply adds_bind; [apply adds_external|]. intros _ w r w' [= _ <-]. exists [e].
  split; [done|by constructor].
Qed.
Lemma adds_each {A} P (f : A -> io host unit) l : (forall a, adds P (f a)) -> adds P (each f l).
Proof. intros Hf. induction l; cbn; [apply adds_ret|by apply adds_bind]. Qed.
Lemma adds_foldM {A S} P (f : S -> A -> io host S) l s : (forall s a, adds P (f s a)) -> adds P (foldM f s l).
Proof. intros Hf. revert s. induction l; intros s; cbn; [apply adds_ret|by apply adds_bind]. Qed.

#[export] Hint Resolve adds_lift adds_ret adds_throw adds_gets adds_bind adds_catch adds_advance adds_external adds_clock
  adds_fallible adds_each adds_foldM : zhtps.

(** Watching and ending processes is not traced. *)
Lemma adds_poll P p : adds P (poll p).
Proof. unfold poll. auto with zhtps. Qed.
Lemma adds_wait_timeout P p : adds P (wait_timeout p).
Proof. unfold wait_timeout. apply adds_bind; [apply adds_poll|]. intros c. case_match; auto with zhtps. Qed.
Lemma adds_set_procs P ps : adds P (set_procs ps).
Proof. apply adds_none. by intros w r w' [= _ <-]. Qed.
Lemma adds_kill P p : adds P (kill p).
Proof. unfold kill. apply adds_bind; [auto with zhtps|]. intros _. apply adds_bind; [auto with zhtps|]. intros ps. apply adds_set_procs. Qed.
Lemma adds_returncode P h : adds P (returncode h).
Proof. unfold returncode. auto with zhtps. Qed.
#[export] Hint Resolve adds_poll adds_wait_timeout adds_kill adds_returncode : zhtps.

(** A fallible output that succeeds is in the trace. *)
Lemma fallible_said e w u w' : fallible e w = (Ok u, w') -> trace w' = trace w ++ [e].
Proof.
  unfold fallible. intros (v & w1 & H1 & [= _ <-])%bind_ok. cbn.
  assert (trace w1 = trace w) as ->; [|done].
  unfold external in H1. apply bind_ok in H1 as (t & w2 & [= <- <-] & H1). by case_match; injection H1 as _ <-.
Qed.
