(* ===== verification/Ipaddr.v ===== *)
(** * [ipaddress.ip_address] of the Python standard library

    The parts the sources use: parsing, [version], [is_unspecified], [is_multicast],
    [is_loopback] and equality of addresses (CPython 3.13 and later, where IPv4-mapped IPv6
    addresses answer with the properties of the IPv4 address). *)

From stdpp Require Import base list strings.
From Stdlib Require Import ZArith Lia Ascii.
From S2P Require Import Prelude PyFloat PyText.

Local Open Scope Z_scope.

Record ip := Ip { version : Z; ip_int : Z; scope_id : option string }.

#[export] Instance ip_eq_dec : EqDecision ip.
Proof. solve_decision. Defined.

(** ** IPv4 *)

(** [_BaseV4._parse_octet] *)
Definition parse_octet (s : string) : option Z :=
  if (String.eqb s "") || negb (str_forall is_digit s) || (3 <? String.length s)%nat
     || (negb (String.eqb s "0") && startswith "0" s) then None
  else match int_digits 10 false 0 s with
       | Some z => if z <=? 255 then Some z else None
       | None => None
       end.

(** [_BaseV4._ip_int_from_string] *)
Definition parse_v4 (s : string) : option Z :=
  match split_char "." s with
  | [a; b; c; d] =>
      match parse_octet a, parse_octet b, parse_octet c, parse_octet d with
      | Some a, Some b, Some c, Some d => Some (((a * 256 + b) * 256 + c) * 256 + d)
      | _, _, _, _ => None
      end
  | _ => None
  end.

(** ** IPv6 *)

(** [_BaseV6._parse_hextet] *)
Definition parse_hextet (s : string) : option Z :=
  if negb (str_forall is_hex s) || (4 <? String.length s)%nat then None
  else int_digits 16 false 0 s.

(** Value of a run of hextets, most significant first, continuing from [acc]. *)
Fixpoint hextets (acc : Z) (l : list string) : option Z :=
  match l with
  | [] => Some acc
  | s :: l => match parse_hextet s with Some z => hextets (acc * 65536 + z) l | None => None end
  end.

(** Indices of the empty parts other than the two end points. *)
Definition inner_empty (parts : list string) : list nat :=
  filter (fun i => parts !! i = Some "") (seq 1 (length parts - 2)).

Definition empty_at (parts : list string) (i : nat) : bool := bool_decide (parts !! i = Some "").

(** The groups of [_BaseV6._ip_int_from_string] once the text is split at its colons;
    [tail] is the value and the number of hextets (0 or 2) of an IPv4 suffix, whose two hextets
    follow [parts]. *)
Definition hextet_value (parts : list string) : option Z :=
  let n := length parts in
  if (9 <? n)%nat then None
  else match inner_empty parts with
       | [] => if negb (n =? 8)%nat || empty_at parts 0 || empty_at parts (n - 1) then None
               else hextets 0 parts
       | [skip] =>
           let lead := empty_at parts 0 in
           let trail := empty_at parts (n - 1) in
           let hi := if lead then (skip - 1)%nat else skip in
           let lo := if trail then (n - skip - 2)%nat else (n - skip - 1)%nat in
           if (lead && (0 <? hi)%nat) || (trail && (0 <? lo)%nat) || (8 <=? hi + lo)%nat then None
           else match hextets 0 (take hi parts) with
                | Some v => hextets (v * 65536 ^ (8 - Z.of_nat (hi + lo)))
                                    (drop (n - lo) parts)
                | None => None
                end
       | _ => None
       end.

Definition hex_digit (z : Z) : ascii := ascii_of_N (Z.to_N (if z <? 10 then 48 + z else 87 + z)).

(** ['%x' % z] for [0 <= z < 65536] *)
Definition hex16 (z : Z) : string :=
  let d i := hex_digit (Z.land (Z.shiftr z i) 15) in
  if z <? 16 then String (d 0) ""
  else if z <? 256 then String (d 4) (String (d 0) "")
  else if z <? 4096 then String (d 8) (String (d 4) (String (d 0) ""))
  else String (d 12) (String (d 8) (String (d 4) (String (d 0) ""))).

(** [_BaseV6._ip_int_from_string] *)
Definition parse_v6 (s : string) : option Z :=
  if (45 <? String.length s)%nat then None
  else
    let parts := split_char ":" s in
    if (length parts <? 3)%nat then None
    else match last parts with
         | Some suffix =>
             if str_exists (Ascii.eqb ".") suffix then
               match parse_v4 suffix with
               | Some v => hextet_value (take (length parts - 1) parts ++
                                         [hex16 (Z.land (Z.shiftr v 16) 65535); hex16 (Z.land v 65535)])
               | None => None
               end
             else hextet_value parts
         | None => None
         end.

(** [IPv6Address(s)], with its scope identifier *)
Definition parse_v6_scoped (s : string) : option ip :=
  match split_once "%" s with
  | None => (fun v => Ip 6 v None) <$> parse_v6 s
  | Some (addr, scope) =>
      if String.eqb scope "" || str_exists (Ascii.eqb "%") scope then None
      else (fun v => Ip 6 v (Some scope)) <$> parse_v6 addr
  end.

(** [ipaddress.ip_address(s)].  Both constructors refuse a [/]. *)
Definition ip_address (s : string) : res ip :=
  let err := raise ValueError (s +:+ " does not appear to be an IPv4 or IPv6 address") in
  if str_exists (Ascii.eqb "/") s then err
  else match parse_v4 s with
       | Some v => Ok (Ip 4 v None)
       | None => match parse_v6_scoped s with Some a => Ok a | None => err end
       end.

(** ** Properties *)

(** [IPv6Address.ipv4_mapped] *)
Definition ipv4_mapped (a : ip) : option Z :=
  if (version a =? 6) && (Z.shiftr (ip_int a) 32 =? 65535) then Some (Z.land (ip_int a) 4294967295)
  else None.

Definition v4_multicast (v : Z) : bool := Z.shiftr v 28 =? 14.

Definition is_unspecified (a : ip) : bool :=
  match ipv4_mapped a with Some v => v =? 0 | None => ip_int a =? 0 end.

Definition is_multicast (a : ip) : bool :=
  if version a =? 4 then v4_multicast (ip_int a)
  else match ipv4_mapped a with
       | Some v => v4_multicast v
       | None => Z.shiftr (ip_int a) 120 =? 255
       end.

Definition v4_loopback (v : Z) : bool := Z.shiftr v 24 =? 127.

Definition is_loopback (a : ip) : bool :=
  if version a =? 4 then v4_loopback (ip_int a)
  else match ipv4_mapped a with Some v => v4_loopback v | None => ip_int a =? 1 end.

(** ** The characters of an accepted address *)

Definition addr_char (a : ascii) : bool := is_hex a || Ascii.eqb a "." || Ascii.eqb a ":".

Lemma split_char_forall c p s :
  p c = true -> Forall (fun x => str_forall p x = true) (split_char c s) -> str_forall p s = true.
Proof.
  intros Hc H. rewrite <- (join_split_char c s). apply str_forall_join; [|done]. cbn. by rewrite Hc.
Qed.

Lemma parse_octet_chars s z : parse_octet s = Some z -> str_forall is_digit s = true.
Proof.
  unfold parse_octet. case_match; [done|]. intros _.
  repeat match goal with H : _ || _ = false |- _ => apply orb_false_iff in H as [? ?] end.
  by apply negb_false_iff.
Qed.

Lemma parse_v4_chars s z : parse_v4 s = Some z -> str_forall (fun a => is_digit a || Ascii.eqb a ".") s = true.
Proof.
  unfold parse_v4. intros H. apply (split_char_forall "."); [done|].
  destruct (split_char "." s) as [|a [|b [|c [|d [|]]]]]; try done.
  destruct (parse_octet a) eqn:?, (parse_octet b) eqn:?, (parse_octet c) eqn:?, (parse_octet d) eqn:?; try done.
  repeat constructor; (eapply str_forall_impl; [|by eapply parse_octet_chars]).
  all: by intros ? ->.
Qed.

Lemma hextets_chars acc l v :
  hextets acc l = Some v -> Forall (fun s => str_forall is_hex s = true) l.
Proof.
  revert acc. induction l as [|s l IH]; intros acc; cbn; [constructor|].
  destruct (parse_hextet s) eqn:E; [|done]. intros H. constructor; [|by eapply IH].
  unfold parse_hextet in E. case_match; [done|].
  apply orb_false_iff in H0 as [H0 _]. by apply negb_false_iff.
Qed.

Lemma empty_at_true parts i : empty_at parts i = true -> parts !! i = Some "".
Proof. by intros ?%bool_decide_eq_true. Qed.

Lemma inner_empty_elem parts i :
  i ∈ inner_empty parts -> parts !! i = Some "" /\ (1 <= i)%nat /\ (i < length parts - 1)%nat.
Proof.
  unfold inner_empty. intros [? H]%list_elem_of_filter. apply elem_of_seq in H. split; [done|].
  lia.
Qed.

Lemma hextet_value_chars parts v :
  hextet_value parts = Some v -> Forall (fun s => str_forall is_hex s = true) parts.
Proof.
  unfold hextet_value. case_match eqn:Hn; [done|].
  destruct (inner_empty parts) as [|skip [|]] eqn:E; [|clear Hn|done].
  { case_match; [done|]. apply hextets_chars. }
  destruct (inner_empty_elem parts skip) as (Hs & H1 & H2); [rewrite E; by left|].
  set (n := length parts) in *.
  set (lead := empty_at parts 0) in *. set (trail := empty_at parts (n - 1)) in *.
  set (hi := if lead then (skip - 1)%nat else skip) in *.
  set (lo := if trail then (n - skip - 2)%nat else (n - skip - 1)%nat) in *.
  case_match eqn:Hc; [done|]. apply orb_false_iff in Hc as [[Hl Ht]%orb_false_iff _].
  destruct (hextets 0 (take hi parts)) eqn:Hhi; [|done]. intros Hlo.
  apply hextets_chars in Hhi, Hlo. rewrite Forall_lookup in Hhi, Hlo. apply Forall_lookup.
  intros i x Hx. assert (i < n)%nat by (by eapply lookup_lt_Some).
  destruct (decide (i < hi)%nat); [eapply (Hhi i); by rewrite lookup_take_lt|].
  destruct (decide (n - lo <= i)%nat).
  { eapply (Hlo (i - (n - lo))%nat). rewrite lookup_drop. by replace (n - lo + (i - (n - lo)))%nat with i by lia. }
  assert (parts !! i = Some "") as Hi; [|by rewrite Hi in Hx; injection Hx as <-].
  subst hi lo. destruct lead eqn:El, trail eqn:Et; cbn [andb] in *; cbv iota in *;
    rewrite ?Nat.ltb_ge in Hl; rewrite ?Nat.ltb_ge in Ht.
  all: destruct (decide (i = skip)) as [->|]; [done|].
  all: destruct (decide (i = 0)%nat) as [->|]; [apply empty_at_true; first [exact El | exfalso; lia]|].
  all: destruct (decide (i = n - 1)%nat) as [->|]; [apply empty_at_true; first [exact Et | exfalso; lia]|].
  all: exfalso; clear -H1 H2 Hl Ht H n0 n1 n2 n3 n4; clearbody n; lia.
Qed.

Lemma is_digit_hex a : is_digit a = true -> is_hex a = true.
Proof. unfold is_hex. by intros ->. Qed.

Lemma parse_v6_chars s v : parse_v6 s = Some v -> str_forall addr_char s = true.
Proof.
  unfold parse_v6. case_match; [done|]. cbv zeta.
  set (parts := split_char ":" s). case_match; [done|].
  destruct (last parts) as [suffix|] eqn:Hlast; [|done].
  assert (Hsplit : Forall (fun x => str_forall addr_char x = true) parts -> str_forall addr_char s = true)
    by (by apply split_char_forall).
  case_match; intros Hv; apply Hsplit.
  - destruct (parse_v4 suffix) eqn:H4; [|done].
    apply hextet_value_chars, Forall_app in Hv as [Hv _].
    apply last_Some in Hlast as [l Hl]. rewrite Hl in *. rewrite length_app in Hv. cbn in Hv.
    replace (length l + 1 - 1)%nat with (length l) in Hv by lia.
    rewrite take_app_length in Hv. apply Forall_app. split.
    + eapply Forall_impl; [exact Hv|]. intros x. apply str_forall_impl.
      intros ? Hh. unfold addr_char. by rewrite Hh.
    + constructor; [|done]. apply parse_v4_chars in H4.
      eapply str_forall_impl; [|exact H4]. intros a. unfold addr_char.
      rewrite orb_true_iff. intros [Hd|Hd]; [by rewrite is_digit_hex|].
      rewrite Hd. by rewrite orb_true_r.
  - apply hextet_value_chars in Hv. eapply Forall_impl; [exact Hv|]. intros x.
    apply str_forall_impl. intros ? Hh. unfold addr_char. by rewrite Hh.
Qed.

Lemma split_once_none c s :
  split_once c s = None <-> str_exists (Ascii.eqb c) s = false.
Proof.
  unfold str_exists. rewrite negb_false_iff. induction s as [|a s IH]; cbn; [done|].
  rewrite Ascii.eqb_sym. destruct (Ascii.eqb c a); cbn; [done|]. rewrite <- IH.
  by destruct (split_once c s) as [[]|].
Qed.

(** An address accepted by [ip_address] that contains no [%] is made of hexadecimal digits,
    dots and colons. *)
Lemma ip_address_chars s a :
  ip_address s = Ok a -> str_exists (Ascii.eqb "%") s = false -> str_forall addr_char s = true.
Proof.
  unfold ip_address. case_match; [done|]. destruct (parse_v4 s) as [v|] eqn:H4.
  - intros _ _. apply parse_v4_chars in H4. eapply str_forall_impl; [|exact H4].
    intros c. unfold addr_char. rewrite orb_true_iff.
    intros [Hd|Hd]; [by rewrite is_digit_hex|]. rewrite Hd. by rewrite orb_true_r.
  - unfold parse_v6_scoped. intros H6 Hp%split_once_none. rewrite Hp in H6.
    destruct (parse_v6 s) eqn:E; [|done]. by eapply parse_v6_chars.
Qed.

(** ** Checks against CPython *)

Example ip_examples :
  (ip_address "192.0.2.10", ip_address "::1", ip_address "fe80::1%eth0", is_ok (ip_address "1.2.3.04"),
   ip_address "2001:db8::a:b", ip_address "::ffff:1.2.3.4", is_ok (ip_address "1::2::3"), is_ok (ip_address "12345::"))
  = (Ok (Ip 4 3221225994 None), Ok (Ip 6 1 None),
     Ok (Ip 6 338288524927261089654018896841347694593 (Some "eth0")), false,
     Ok (Ip 6 42540766411282592856903984951654481931 None), Ok (Ip 6 281470698652420 None), false, false).
Proof. vm_compute. reflexivity. Qed.
