(* ===== verification/Connections.v ===== *)
(** * deploy/connections.py: the SYN budget of a direct listener

    [Options.validate], the nftables ruleset of [nft_config] and the output directory of
    [write_bundle].  The module is also called by deploy/ingress.py. *)

From stdpp Require Import base list strings gmap.
From Stdlib Require Import ZArith Lia Ascii.
From S2P Require Import Prelude PyFloat PyText PyVal PyJson PyIO Ipaddr.

Local Open Scope Z_scope.

(** ** Shared by the two generators *)

(** [re.fullmatch(r"[A-Za-z0-9_.:-]{1,15}", s)] *)
Definition iface_char (a : ascii) : bool := is_alnum a || char_in a ["_"; "."; ":"; "-"]%char.
Definition interface_ok (s : string) : bool :=
  str_forall iface_char s && (1 <=? String.length s)%nat && (String.length s <=? 15)%nat.

(** [re.fullmatch(r"[A-Za-z][A-Za-z0-9_]{0,47}", s)] *)
Definition word_char (a : ascii) : bool := is_alnum a || Ascii.eqb a "_".
Definition table_ok (s : string) : bool :=
  match s with
  | String a r => is_alpha a && str_forall word_char r && (String.length r <=? 47)%nat
  | EmptyString => false
  end.

(** [not lo <= x <= hi] *)
Definition outside (lo hi x : Z) : bool := negb ((lo <=? x) && (x <=? hi)).

(** ["%" in address] *)
Definition has_scope (address : string) : bool := str_exists (Ascii.eqb "%") address.

Definition q : string := String dquote "".

(** A text of lines, each ended by a newline. *)
Definition lines (l : list string) : string := join nl l +:+ nl.

Section WriteFiles.
Context (output : path).

(** [any((output / name).exists() for name in files)] *)
Definition any_exists (files : list (string * string)) : io world bool :=
  anyM (fun f => path_exists (f.1 :: output)) files.

(** [for name, content in files.items(): with (output / name).open("x") ...] *)
Definition write_all (files : list (string * string)) : io world unit :=
  each (fun f => write_exclusive (f.1 :: output) f.2) files.
End WriteFiles.

Definition already : exn :=
  Exn ValueError "output already contains a configuration; choose a new directory".


Record Options := {
  listen_address : string;
  listen_port : Z;
  interface : string;
  connection_rate : Z;
  connection_burst : Z;
  reset_rate : Z;
  reset_burst : Z;
  table : string;
}.

Definition validate (o : Options) : res unit :=
  address <- ip_address (listen_address o) ;;
  guard (is_unspecified address || is_multicast address || has_scope (listen_address o))
        ValueError "use an explicit unicast listener IP without a scope suffix" ;;;
  guard (outside 1 65535 (listen_port o)) ValueError "listen port must be in 1..65535" ;;;
  guard (negb (interface_ok (interface o))) ValueError "invalid interface name" ;;;
  guard (negb (table_ok (table o))) ValueError "invalid nftables table name" ;;;
  eachR (fun amount => guard (outside 1 1000000000 amount) ValueError
           "calibrated rates and bursts must be explicit positive values <= 1000000000")
        [connection_rate o; connection_burst o; reset_rate o; reset_burst o].

(** The ruleset, with the address family already chosen. *)
Definition nft_text (o : Options) (family : string) : string :=
  let i := string_of_Z in
  lines [
    "# Generated by deploy/connections.py. SYN packets, including retries, are counted.";
    "# Only this explicit listener/interface is policed; existing connections pass.";
    "table inet " +:+ table o +:+ " {";
    "    counter syn_attempts { }";
    "    counter syn_over_limit { }";
    "    counter syn_resets { }";
    "    counter syn_drops { }";
    "    chain reject_connection {";
    "        limit rate " +:+ i (reset_rate o) +:+ "/second burst " +:+ i (reset_burst o)
      +:+ " packets counter name syn_resets reject with tcp reset";
    "        counter name syn_drops drop";
    "    }";
    "    chain incoming {";
    "        type filter hook prerouting priority -300; policy accept;";
    "        iifname " +:+ q +:+ interface o +:+ q +:+ " " +:+ family +:+ " daddr " +:+ listen_address o
      +:+ " tcp dport " +:+ i (listen_port o)
      +:+ " tcp flags & (syn | ack) == syn counter name syn_attempts limit rate over "
      +:+ i (connection_rate o) +:+ "/second burst " +:+ i (connection_burst o)
      +:+ " packets counter name syn_over_limit jump reject_connection";
    "    }";
    "}"].

Definition nft_config (o : Options) : res string :=
  validate o ;;;
  a <- ip_address (listen_address o) ;;
  Ok (nft_text o (if version a =? 6 then "ip6" else "ip")).

(** [asdict(options)] *)
Definition asdict (o : Options) : val :=
  VDict [(VStr "listen_address", VStr (listen_address o)); (VStr "listen_port", VInt (listen_port o));
         (VStr "interface", VStr (interface o)); (VStr "connection_rate", VInt (connection_rate o));
         (VStr "connection_burst", VInt (connection_burst o)); (VStr "reset_rate", VInt (reset_rate o));
         (VStr "reset_burst", VInt (reset_burst o)); (VStr "table", VStr (table o))].

Definition bundle (o : Options) : res (list (string * string)) :=
  nft <- nft_config o ;;
  limits <- json_dumps2 (asdict o) ;;
  Ok [("connections.nft", nft);
      ("remove-connections.nft", "delete table inet " +:+ table o +:+ nl);
      ("limits.json", limits +:+ nl)].

Definition write_bundle (o : Options) (output : path) : io world unit :=
  lift (validate o) ;~
  files <~ lift (bundle o) ;
  taken <~ any_exists output files ;
  if taken : bool then throw already
  else mkdir_parents output ;~ write_all output files.

(** [main] after argument parsing: [parser.error] prints the message and exits with status 2. *)
Definition main (arguments : Options) (output : path) : io world string :=
  catch (write_bundle arguments output)
        (fun error => if isa error ValueError || isa error OSError
                      then throw (Exn (SystemExit 2) (ex_msg error)) else throw error) ;~
  ret ("Wrote direct-listener connection policy to " +:+ path_str output).


(** ** Lemmas on the bundle writer *)

Section WriteFilesFacts.
Context (output : path).

Lemma additive_write_all files : additive (write_all output files).
Proof. unfold write_all. auto with zhtps. Qed.

Lemma additive_any_exists files : additive (any_exists output files).
Proof. unfold any_exists. auto with zhtps. Qed.

(** After a successful run every file holds its content, whatever was written after it. *)
Lemma write_all_ok files w u w' :
  quiet w -> write_all output files w = (Ok u, w') ->
  Forall (fun f => w_fs w' !! (f.1 :: output) = Some (File f.2)) files.
Proof.
  revert w. induction files as [|f files IH]; intros w Q; cbn; [constructor|].
  intros (? & w1 & H1 & H2)%bind_ok. constructor.
  - apply additive_quiet in H2 as [_ Hsub]; [|apply additive_write_all|].
    + eapply lookup_weaken; [|exact Hsub]. by eapply write_exclusive_ok.
    + by eapply (additive_quiet (write_exclusive _ _)) in H1 as [??]; [..|done]; auto with zhtps.
  - eapply IH; [|done].
    by eapply (additive_quiet (write_exclusive _ _)) in H1 as [??]; [..|done]; auto with zhtps.
Qed.
End WriteFilesFacts.

#[export] Hint Resolve additive_write_all additive_any_exists : zhtps.

(** ** Text lemmas: what validated fields cannot contain *)

(** The characters with a meaning in nftables and NGINX configurations, and white space. *)
Definition special (a : ascii) : bool :=
  is_space a || char_in a ["{"; "}"; ";"; "034"; "#"; "$"; "'"; "\"]%char.

Definition plain (s : string) : bool := str_forall (fun a => negb (special a)) s.

Lemma plain_of (p : ascii -> bool) s :
  (forall a, p a = true -> special a = false) -> str_forall p s = true -> plain s = true.
Proof. intros H. apply str_forall_impl. intros a Ha. by rewrite H. Qed.

Lemma plain_app s t : plain (s +:+ t) = plain s && plain t.
Proof. apply str_forall_app. Qed.

Ltac char_cases := intros [[] [] [] [] [] [] [] []]; vm_compute; congruence.

Lemma iface_char_special a : iface_char a = true -> special a = false.
Proof. revert a. char_cases. Qed.
Lemma word_char_special a : word_char a = true -> special a = false.
Proof. revert a. char_cases. Qed.
Lemma is_alpha_special a : is_alpha a = true -> special a = false.
Proof. revert a. char_cases. Qed.
Lemma addr_char_special a : addr_char a = true -> special a = false.
Proof. revert a. char_cases. Qed.
Lemma is_digit_special a : is_digit a = true -> special a = false.
Proof. revert a. char_cases. Qed.

Lemma interface_plain s : interface_ok s = true -> plain s = true.
Proof.
  unfold interface_ok. rewrite !andb_true_iff. intros [[H _] _].
  exact (plain_of _ _ iface_char_special H).
Qed.

Lemma table_plain s : table_ok s = true -> plain s = true.
Proof.
  destruct s as [|a s]; [done|]. cbn. rewrite !andb_true_iff. intros [[Ha H] _].
  unfold plain. cbn. rewrite is_alpha_special by done. split; [done|].
  exact (plain_of _ _ word_char_special H).
Qed.

Lemma address_plain s a : ip_address s = Ok a -> has_scope s = false -> plain s = true.
Proof. intros H1 H2. exact (plain_of _ _ addr_char_special (ip_address_chars _ _ H1 H2)). Qed.

Lemma string_of_Z_plain z : plain (string_of_Z z) = true.
Proof.
  destruct (digits_of_Z_spec (Z.abs z)) as [_ H]; [lia|].
  apply (plain_of _ _ is_digit_special) in H. unfold string_of_Z. case_match.
  - rewrite Z.abs_neq in H by lia. change (plain ("-" +:+ digits_of_Z (- z)) = true).
    by rewrite plain_app, H.
  - by rewrite Z.abs_eq in H by lia.
Qed.

(** Inserting plain text changes no count of special characters. *)
Lemma plain_count c s : special c = true -> plain s = true -> str_count (Ascii.eqb c) s = 0%nat.
Proof.
  intros Hc Hs. apply str_count_0. eapply str_forall_impl; [|exact Hs].
  intros a Ha. destruct (Ascii.eqb_spec c a) as [<-|]; [|done]. by rewrite Hc in Ha.
Qed.

Lemma str_count_join c sep l :
  str_count c (join sep l) = (str_count c sep * (length l - 1) + sum_list (map (str_count c) l))%nat.
Proof.
  induction l as [|x l IH]; cbn; [lia|]. destruct l as [|y l]; cbn in *; [lia|].
  rewrite !str_count_app, IH. lia.
Qed.

(** Counts of a special character [c] on both sides of an equation: distribute over the pieces and
    drop the plain ones, found among the hypotheses or printed integers. *)
Ltac count_pieces c Hc :=
  rewrite ?str_count_app;
  repeat match goal with
         | |- context [str_count (Ascii.eqb c) (string_of_Z ?z)] =>
             rewrite (plain_count c (string_of_Z z) Hc (string_of_Z_plain z))
         | H : plain ?s = true |- context [str_count (Ascii.eqb c) ?s] =>
             rewrite (plain_count c s Hc H)
         end.


(** What an accepted option set satisfies. *)
Record Valid (o : Options) : Prop := {
  valid_address : exists a, ip_address (listen_address o) = Ok a
                            /\ is_unspecified a = false /\ is_multicast a = false;
  valid_scope : has_scope (listen_address o) = false;
  valid_port : 1 <= listen_port o <= 65535;
  valid_interface : interface_ok (interface o) = true;
  valid_table : table_ok (table o) = true;
  valid_rates : Forall (fun x => 1 <= x <= 1000000000)
                  [connection_rate o; connection_burst o; reset_rate o; reset_burst o];
}.

Lemma outside_false lo hi x : outside lo hi x = false <-> lo <= x <= hi.
Proof. unfold outside. lia. Qed.

Lemma validate_valid o : validate o = Ok tt <-> Valid o.
Proof.
  unfold validate. split.
  - intros H. inv_res. bsimp.
    repeat match goal with
           | H : outside _ _ _ = false |- _ => apply outside_false in H
           | H : eachR _ _ = Ok _ |- _ => apply eachR_ok in H
           end.
    split; eauto. eapply Forall_impl; [eassumption|].
    cbv beta. intros x Hx. inv_res. by apply outside_false.
  - intros [(a & Ha & Hu & Hm) Hs Hp Hi Ht Hr]. apply outside_false in Hp.
    rewrite Ha. cbn [rbind]. rewrite Hu, Hm, Hs, Hp, Hi, Ht. cbn [rbind orb negb guard].
    apply eachR_ok. eapply Forall_impl; [exact Hr|].
    intros x Hx%outside_false. by rewrite Hx.
Qed.

Definition blank : Options :=
  {| listen_address := ""; listen_port := 0; interface := ""; connection_rate := 0;
     connection_burst := 0; reset_rate := 0; reset_burst := 0; table := "" |}.

Lemma nft_text_count o family c :
  special c = true -> plain (listen_address o) = true -> plain (interface o) = true ->
  plain (table o) = true -> plain family = true ->
  str_count (Ascii.eqb c) (nft_text o family) = str_count (Ascii.eqb c) (nft_text blank "ip").
Proof.
  intros Hc Ha Hi Ht Hf. unfold nft_text, lines. rewrite !str_count_app, !str_count_join.
  f_equal. f_equal. cbn [map sum_list]. cbv zeta.
  assert (Hip : plain "ip" = true) by done. assert (He : plain "" = true) by done.
  cbn [table interface listen_address blank]. count_pieces c Hc. done.
Qed.
Lemma nft_config_ok o s :
  nft_config o = Ok s ->
  Valid o /\ exists a, ip_address (listen_address o) = Ok a
                      /\ s = nft_text o (if version a =? 6 then "ip6" else "ip").
Proof. unfold nft_config. intros H. inv_res. rewrite <- validate_valid. eauto. Qed.

Lemma valid_plain o : Valid o ->
  plain (listen_address o) = true /\ plain (interface o) = true /\ plain (table o) = true.
Proof.
  intros [(a & Ha & _) Hs _ Hi Ht _].
  split_and!; [by eapply address_plain|by apply interface_plain|by apply table_plain].
Qed.

Lemma bundle_total o : Valid o -> exists files, bundle o = Ok files.
Proof.
  intros V. pose proof (valid_address o V) as (a & Ha & _). apply validate_valid in V.
  assert (exists limits, json_dumps2 (asdict o) = Ok limits) as [limits Hl] by (eexists; reflexivity).
  unfold bundle, nft_config. rewrite V, Ha, Hl. cbn [rbind]. eauto.
Qed.

Definition sample_options : Options :=
  {| listen_address := "192.0.2.10"; listen_port := 8080; interface := "eth0"; connection_rate := 1000;
     connection_burst := 200; reset_rate := 100; reset_burst := 50; table := "zhtps_connections" |}.

(** An empty disk whose root directory can be written. *)
Definition empty_world : world := World ∅ (fun _ fs => fs) 0 (fun _ => NoFault) [].

(** C15: an accepted configuration cannot smuggle syntax into the nftables ruleset.  Whatever the
    options, the ruleset has exactly as many newlines, braces, quotes, semicolons and comment
    signs (and any other character with a meaning to nft) as the template with empty fields. *)
Theorem nft_config_no_injection o s c :
  nft_config o = Ok s -> special c = true ->
  str_count (Ascii.eqb c) s = str_count (Ascii.eqb c) (nft_text blank "ip").
Proof.
  intros (V & a & _ & ->)%nft_config_ok Hc. destruct (valid_plain o V) as (? & ? & ?).
  apply nft_text_count; try done. by case_match.
Qed.

Lemma nft_config_no_injection_witness :
  exists s, nft_config sample_options = Ok s /\ str_count (Ascii.eqb "{") s = 7%nat.
Proof.
  eexists. split; [vm_compute; reflexivity|].
  etransitivity; [apply (nft_config_no_injection sample_options)|]; vm_compute; reflexivity.
Defined.

(** the generator never overwrites anything and never follows a symbolic link to write:
    whatever other processes do to the output directory between its system calls, and whichever
    of them fail, every entry it creates had nothing before it, and in a directory nobody else
    touches all entries that existed are still there unchanged. *)
Theorem write_bundle_additive o output : additive (write_bundle o output).
Proof.
  unfold write_bundle. do 3 (apply additive_bind; [auto with zhtps|intros ?]).
  case_match; auto with zhtps.
Qed.

(** a run that succeeds leaves the three files with the generated contents. *)
Theorem write_bundle_complete o output w u w' :
  quiet w -> write_bundle o output w = (Ok u, w') ->
  exists files, bundle o = Ok files /\ map fst files = ["connections.nft"; "remove-connections.nft"; "limits.json"]
    /\ Forall (fun f => w_fs w' !! (f.1 :: output) = Some (File f.2)) files.
Proof.
  intros Q. unfold write_bundle.
  intros (? & w1 & [= _ <-] & (files & w2 & [= Hf <-] & (t & w3 & Ht & H)%bind_ok)%bind_ok)%bind_ok.
  assert (quiet w3) by (eapply additive_quiet; [..|exact Ht]; auto with zhtps).
  destruct t; [done|]. apply bind_ok in H as (? & w4 & Hm & Hw).
  assert (quiet w4) by (eapply additive_quiet; [..|exact Hm]; auto with zhtps).
  exists files. split_and!; [done| |by eapply write_all_ok].
  unfold bundle in Hf. by inv_res.
Qed.

Lemma write_bundle_complete_witness :
  let r := write_bundle sample_options ["out"; "srv"] empty_world in
  r.1 = Ok tt /\ exists files, bundle sample_options = Ok files
     /\ map fst files = ["connections.nft"; "remove-connections.nft"; "limits.json"]
     /\ Forall (fun f => w_fs r.2 !! (f.1 :: ["out"; "srv"]) = Some (File f.2)) files.
Proof.
  intros r. split; [vm_compute; reflexivity|].
  apply (write_bundle_complete sample_options ["out"; "srv"] empty_world tt); [done|].
  vm_compute. reflexivity.
Defined.

(** C25: if any of the three names is already visible in the output directory the run is refused
    and nothing at all is written. *)
Theorem write_bundle_refuses o output w name :
  quiet w -> validate o = Ok tt ->
  name ∈ ["connections.nft"; "remove-connections.nft"; "limits.json"] ->
  visible (w_fs w) (name :: output) = true ->
  exists w', write_bundle o output w = (Err already, w') /\ w_fs w' = w_fs w /\ w_log w' = w_log w.
Proof.
  intros Q V Hn Hv. destruct (bundle_total o) as [files Hf]; [by apply validate_valid|].
  assert (Hnames : map fst files = ["connections.nft"; "remove-connections.nft"; "limits.json"])
    by (unfold bundle in Hf; by inv_res).
  unfold write_bundle, bind, lift. rewrite V, Hf.
  destruct (any_exists output files w) as [r w'] eqn:E.
  apply anyM_exists_quiet in E as (-> & Hfs & Hlog & _); [|done].
  replace (existsb _ files) with true; [by exists w'|]. symmetry. apply existsb_exists.
  rewrite <- Hnames in Hn. apply list_elem_of_In, in_map_iff in Hn as (f & <- & ?). by exists f.
Qed.

Lemma write_bundle_refuses_witness :
  let w := World {[ ["limits.json"; "out"] := File "{}" ]} (fun _ fs => fs) 0 (fun _ => NoFault) [] in
  exists w', write_bundle sample_options ["out"] w = (Err already, w') /\ w_fs w' = w_fs w /\ w_log w' = w_log w.
Proof.
  apply (write_bundle_refuses _ _ _ "limits.json"); [done|vm_compute; reflexivity| |vm_compute; reflexivity].
  do 2 right. left.
Defined.
