(* ===== verification/Ingress.v ===== *)
(** * deploy/ingress.py: an NGINX request gate in front of the server

    [Options.validate] with its budget arithmetic, the generated NGINX configuration, the call into
    deploy/connections.py for the SYN policer, the output directory, and the merge of a captured
    server configuration with the command line. *)

From stdpp Require Import base list strings gmap.
From Stdlib Require Import ZArith Lia Ascii.
From S2P Require Import Prelude PyFloat PyText PyVal PyJson PyIO Ipaddr Connections.

Local Open Scope Z_scope.


Record Options := {
  listen_address : string;
  listen_port : Z;
  origin_address : string;
  origin_port : Z;
  interface : string;
  request_rate : Z;
  request_burst : Z;
  connection_rate : Z;
  connection_burst : Z;
  reset_rate : Z;
  reset_burst : Z;
  origin_workers : Z;
  origin_slots : Z;
  origin_active_per_worker : option Z;
  proxy_workers : Z;
  proxy_connections : Z;
  max_body_bytes : Z;
  keepalive_requests : Z;
  access_log : bool;
  table : string;
}.

(** ** Budgets *)

Definition connection_budget (o : Options) : Z :=
  origin_workers o * Z.max 1 (origin_slots o * 3 / 4).

Definition idle_per_worker (o : Options) : Z :=
  Z.min 32 (connection_budget o / (2 * proxy_workers o)).

Definition active_budget (o : Options) : Z :=
  let available := connection_budget o - proxy_workers o * idle_per_worker o in
  match origin_active_per_worker o with
  | Some n => Z.min available (origin_workers o * n)
  | None => available
  end.

(** ** Validation *)

Definition check_address (address : string) : res unit :=
  parsed <- ip_address address ;;
  guard (is_unspecified parsed || is_multicast parsed || has_scope address) ValueError
        "use explicit unicast listen and origin IP addresses without scope suffixes".

Definition validate (o : Options) : res unit :=
  eachR check_address [listen_address o; origin_address o] ;;;
  eachR (fun port => guard (outside 1 65535 port) ValueError "ports must be in 1..65535")
        [listen_port o; origin_port o] ;;;
  listen <- ip_address (listen_address o) ;;
  origin <- ip_address (origin_address o) ;;
  guard (bool_decide (listen = origin) && (listen_port o =? origin_port o)) ValueError
        "ingress cannot proxy to its own listener" ;;;
  guard (negb (interface_ok (interface o))) ValueError "invalid interface name" ;;;
  guard (negb (table_ok (table o))) ValueError "invalid nftables table name" ;;;
  eachR (fun rate => guard (outside 1 1000000000 rate) ValueError
           "calibrated rates must be explicit positive values <= 1000000000")
        [request_rate o; connection_rate o; reset_rate o] ;;;
  eachR (fun burst => guard (outside 1 1000000000 burst) ValueError
           "connection and reset bursts must be positive")
        [connection_burst o; reset_burst o] ;;;
  guard (outside 0 1000000000 (request_burst o)) ValueError
        "request burst must be in 0..1000000000" ;;;
  guard (outside 1 256 (origin_workers o) || outside 1 8176 (origin_slots o)) ValueError
        "invalid origin worker/connection budget" ;;;
  guard (match origin_active_per_worker o with
         | Some n => outside 1 (origin_slots o) n
         | None => false
         end) ValueError "invalid origin active-request budget" ;;;
  guard (outside 1 256 (proxy_workers o) || outside 16 1000000 (proxy_connections o)) ValueError
        "invalid proxy worker/connection budget" ;;;
  guard (outside 1 (2 ^ 32 - 1) (max_body_bytes o) || outside 1 (2 ^ 32 - 1) (keepalive_requests o))
        ValueError "invalid body/connection lifetime bound" ;;;
  guard (connection_budget o <? 2 * proxy_workers o) ValueError
        "origin budget must leave an active and an idle slot per proxy worker" ;;;
  guard (proxy_connections o <=? 2 * active_budget o + idle_per_worker o) ValueError
        "proxy connection budget must leave room for both client and origin sockets".

(** ** Generated files *)

Definition endpoint (address : string) (port : Z) : res string :=
  a <- ip_address address ;;
  Ok (if version a =? 6 then "[" +:+ address +:+ "]:" +:+ string_of_Z port
      else address +:+ ":" +:+ string_of_Z port).

(** The local variables [burst] and [access] of [nginx_config]. *)
Definition burst_text (o : Options) : string :=
  if request_burst o =? 0 then "" else " burst=" +:+ string_of_Z (request_burst o).
Definition access_text (o : Options) : string :=
  if access_log o then "access_log logs/access.json admission buffer=256k flush=1s;"
  else "access_log off;".

(** The text of the configuration, with the two endpoints already formatted. *)
Definition nginx_text (o : Options) (origin listen : string) : string :=
  let i := string_of_Z in
  lines [
    "# Generated by deploy/ingress.py. NGINX 1.30 or newer; budgets are aggregate.";
    "worker_processes " +:+ i (proxy_workers o) +:+ ";";
    "pid logs/nginx.pid;";
    "error_log logs/error.log crit;";
    "events { worker_connections " +:+ i (proxy_connections o) +:+ "; }";
    "http {";
    "    # A constant key shares one budget across clients and proxy workers.";
    "    limit_req_zone " +:+ q +:+ "zhtps_origin" +:+ q +:+ " zone=requests:64k rate="
      +:+ i (request_rate o) +:+ "r/s;";
    "    limit_conn_zone " +:+ q +:+ "zhtps_origin" +:+ q +:+ " zone=active:64k;";
    "    log_format admission escape=json '{" +:+ q +:+ "status" +:+ q +:+ ":$status," +:+ q +:+ "limit"
      +:+ q +:+ ":" +:+ q +:+ "$limit_req_status" +:+ q +:+ ",'";
    "        '" +:+ q +:+ "upstream" +:+ q +:+ ":" +:+ q +:+ "$upstream_status" +:+ q +:+ "," +:+ q
      +:+ "request_time" +:+ q +:+ ":$request_time}';";
    "    " +:+ access_text o;
    "    client_body_temp_path body_temp;";
    "    proxy_temp_path proxy_temp;";
    "    client_header_timeout 5s;";
    "    client_body_timeout 30s;";
    "    send_timeout 5s;";
    "    reset_timedout_connection on;";
    "    keepalive_timeout 15s;";
    "    keepalive_requests " +:+ i (keepalive_requests o) +:+ ";";
    "    client_max_body_size " +:+ i (max_body_bytes o) +:+ ";";
    "    upstream origin {";
    "        zone origin 64k;";
    "        server " +:+ origin +:+ " max_conns=" +:+ i (active_budget o) +:+ " max_fails=0;";
    "        # Active + idle connections remain inside the configured origin budget.";
    "        keepalive " +:+ i (idle_per_worker o) +:+ ";";
    "        keepalive_timeout 10s;";
    "        keepalive_requests " +:+ i (keepalive_requests o) +:+ ";";
    "    }";
    "    server {";
    "        listen " +:+ listen +:+ ";";
    "        server_name zhtps_ingress;";
    "        limit_req_status 503;";
    "        limit_req_log_level notice;";
    "        limit_conn_status 503;";
    "        limit_conn_log_level notice;";
    "        location / {";
    "            # No waiting room for excess requests or busy origin connections.";
    "            limit_req zone=requests" +:+ burst_text o +:+ " nodelay;";
    "            limit_conn active " +:+ i (active_budget o) +:+ ";";
    "            proxy_pass http://origin;";
    "            proxy_http_version 1.1;";
    "            proxy_set_header Connection " +:+ q +:+ q +:+ ";";
    "            proxy_set_header Host $http_host;";
    "            proxy_request_buffering off;";
    "            proxy_buffering off;";
    "            proxy_next_upstream off;";
    "            proxy_connect_timeout 1s;";
    "            proxy_read_timeout 5s;";
    "            proxy_send_timeout 5s;";
    "        }";
    "    }";
    "}"].

Definition nginx_config (o : Options) : res string :=
  validate o ;;;
  origin <- endpoint (origin_address o) (origin_port o) ;;
  listen <- endpoint (listen_address o) (listen_port o) ;;
  Ok (nginx_text o origin listen).

(** The options handed to [connections.nft_config]. *)
Definition connection_options (o : Options) : Connections.Options :=
  {| Connections.listen_address := listen_address o;
     Connections.listen_port := listen_port o;
     Connections.interface := interface o;
     Connections.connection_rate := connection_rate o;
     Connections.connection_burst := connection_burst o;
     Connections.reset_rate := reset_rate o;
     Connections.reset_burst := reset_burst o;
     Connections.table := table o |}.

Definition nft_config (o : Options) : res string :=
  validate o ;;; Connections.nft_config (connection_options o).

(** [dict(asdict(options), origin_connection_budget=..., ...)] *)
Definition limits (o : Options) : val :=
  VDict [
    (VStr "listen_address", VStr (listen_address o)); (VStr "listen_port", VInt (listen_port o));
    (VStr "origin_address", VStr (origin_address o)); (VStr "origin_port", VInt (origin_port o));
    (VStr "interface", VStr (interface o)); (VStr "request_rate", VInt (request_rate o));
    (VStr "request_burst", VInt (request_burst o)); (VStr "connection_rate", VInt (connection_rate o));
    (VStr "connection_burst", VInt (connection_burst o)); (VStr "reset_rate", VInt (reset_rate o));
    (VStr "reset_burst", VInt (reset_burst o)); (VStr "origin_workers", VInt (origin_workers o));
    (VStr "origin_slots", VInt (origin_slots o));
    (VStr "origin_active_per_worker",
       match origin_active_per_worker o with Some n => VInt n | None => VNone end);
    (VStr "proxy_workers", VInt (proxy_workers o)); (VStr "proxy_connections", VInt (proxy_connections o));
    (VStr "max_body_bytes", VInt (max_body_bytes o)); (VStr "keepalive_requests", VInt (keepalive_requests o));
    (VStr "access_log", VBool (access_log o)); (VStr "table", VStr (table o));
    (VStr "origin_connection_budget", VInt (connection_budget o));
    (VStr "origin_active_budget", VInt (active_budget o));
    (VStr "idle_connections_per_proxy_worker", VInt (idle_per_worker o))].

Definition bundle (o : Options) (origin_config : option val) : res (list (string * string)) :=
  nginx <- nginx_config o ;;
  nft <- nft_config o ;;
  l <- json_dumps2 (limits o) ;;
  extra <- match origin_config with
           | Some c => s <- json_dumps2 c ;; Ok [("origin-config.json", s +:+ nl)]
           | None => Ok []
           end ;;
  Ok ([("nginx.conf", nginx); ("connections.nft", nft);
       ("remove-connections.nft", "delete table inet " +:+ table o +:+ nl);
       ("limits.json", l +:+ nl)] ++ extra).

Definition write_bundle (o : Options) (output : path) (origin_config : option val) : io world unit :=
  lift (validate o) ;~
  mkdir_parents output ;~
  files <~ lift (bundle o origin_config) ;
  taken <~ any_exists output files ;
  if taken : bool then throw already
  else each (fun d => mkdir_exist_ok (d :: output)) ["logs"; "body_temp"; "proxy_temp"] ;~
       write_all output files.

(** ** Command line and captured server configuration *)

(** One of the three fields of a captured configuration.  The server writes integers there (or
    nothing, for the last one); other JSON types are outside the model. *)
Definition captured_int (v : val) : res (option Z) :=
  match v with
  | VInt z => Ok (Some z)
  | VNone => Ok None
  | _ => raise TypeError "captured budget is not an integer"
  end.

Definition captured (c : val) : res (option Z * option Z * option Z) :=
  workers <- (v <- py_getitem c (VStr "workers") ;; captured_int v) ;;
  slots <- (v <- py_getitem c (VStr "max_connections") ;; captured_int v) ;;
  active <- (adm <- py_get c "admission" (VDict []) ;; v <- py_get adm "max_active" VNone ;; captured_int v) ;;
  Ok (workers, slots, active).

(** One turn of the loop over the captured fields; [parser.error] exits with status 2. *)
Definition merge (field : string) (argument value : option Z) : res (option Z) :=
  guard (match argument, value with Some a, Some v => negb (a =? v) | _, _ => false end)
        (SystemExit 2) (field +:+ " conflicts with the effective origin configuration") ;;;
  Ok (match argument with Some a => Some a | None => value end).

(** [make] is [Options] applied to all the other arguments. *)
Definition effective (make : Z -> Z -> option Z -> Options)
    (workers slots active : option Z) (config : option val) : res Options :=
  let* (workers, slots, active) :=
    match config with
    | Some c =>
        let* (cw, cs, ca) := captured c in
        w <- merge "origin_workers" workers cw ;;
        s <- merge "origin_slots" slots cs ;;
        a <- merge "origin_active_per_worker" active ca ;;
        Ok (w, s, a)
    | None => Ok (workers, slots, active)
    end in
  match workers, slots with
  | Some w, Some s => Ok (make w s active)
  | _, _ => raise (SystemExit 2) "supply --origin-config or both --origin-workers and --origin-slots"
  end.

(** [main] from the parsed arguments on; [config_text] is the content of [--origin-config]. *)
Definition main (make : Z -> Z -> option Z -> Options) (workers slots active : option Z)
    (config_text : option string) (output : path) : io world string :=
  config <~ lift (match config_text with
                  | Some t => rmap Some (json_loads t)
                  | None => Ok None
                  end) ;
  o <~ lift (effective make workers slots active config) ;
  catch (write_bundle o output config)
        (fun error => if isa error ValueError || isa error OSError
                      then throw (Exn (SystemExit 2) (ex_msg error)) else throw error) ;~
  ret ("Wrote ingress configuration to " +:+ path_str output).



(** What an accepted option set satisfies. *)
Record Valid (o : Options) : Prop := {
  valid_addresses : Forall (fun s => exists a, ip_address s = Ok a /\ is_unspecified a = false
                                     /\ is_multicast a = false /\ has_scope s = false)
                      [listen_address o; origin_address o];
  valid_ports : 1 <= listen_port o <= 65535 /\ 1 <= origin_port o <= 65535;
  valid_loop : ip_address (listen_address o) = ip_address (origin_address o) ->
               listen_port o <> origin_port o;
  valid_names : interface_ok (interface o) = true /\ table_ok (table o) = true;
  valid_rates : Forall (fun x => 1 <= x <= 1000000000)
                  [request_rate o; connection_rate o; reset_rate o; connection_burst o; reset_burst o];
  valid_request_burst : 0 <= request_burst o <= 1000000000;
  valid_origin : 1 <= origin_workers o <= 256 /\ 1 <= origin_slots o <= 8176;
  valid_active : forall n, origin_active_per_worker o = Some n -> 1 <= n <= origin_slots o;
  valid_proxy : 1 <= proxy_workers o <= 256 /\ 16 <= proxy_connections o <= 1000000;
  valid_limits : 1 <= max_body_bytes o < 2 ^ 32 /\ 1 <= keepalive_requests o < 2 ^ 32;
  valid_split : 2 * proxy_workers o <= connection_budget o;
  valid_sockets : 2 * active_budget o + idle_per_worker o < proxy_connections o;
}.

Lemma check_address_ok s u :
  check_address s = Ok u -> exists a, ip_address s = Ok a /\ is_unspecified a = false
                                      /\ is_multicast a = false /\ has_scope s = false.
Proof. unfold check_address. intros H. inv_res. bsimp. eauto. Qed.

Lemma guards_outside lo hi msg l u :
  eachR (fun x => guard (outside lo hi x) ValueError msg) l = Ok u -> Forall (fun x => lo <= x <= hi) l.
Proof.
  intros H%eachR_ok. eapply Forall_impl; [exact H|]. cbv beta. intros x Hx. inv_res.
  by apply outside_false.
Qed.

Lemma ingress_validate_valid o u : validate o = Ok u -> Valid o.
Proof.
  unfold validate. intros H. inv_res.
  repeat match goal with
         | H : eachR check_address _ = Ok _ |- _ => apply eachR_ok in H
         | H : eachR _ _ = Ok _ |- _ => apply guards_outside in H
         end.
  bsimp. repeat match goal with H : outside _ _ _ = false |- _ => apply outside_false in H end.
  repeat match goal with H : Forall _ (_ :: _) |- _ => apply Forall_cons in H as [? H] end.
  split; try done; try lia.
  - repeat (constructor; [by eapply check_address_ok|]). constructor.
  - intros Heq Hp. rewrite Hp, Z.eqb_refl, andb_true_r in *.
    match goal with H : bool_decide _ = false |- _ => apply bool_decide_eq_false in H; apply H end. congruence.
  - repeat (constructor; [done|]); constructor.
  - intros n Hn. rewrite Hn in *. by apply outside_false.
Qed.

(** *** Budget arithmetic *)

Lemma idle_bounds o : Valid o ->
  1 <= idle_per_worker o <= 32 /\ 2 * (proxy_workers o * idle_per_worker o) <= connection_budget o.
Proof.
  intros [_ _ _ _ _ _ _ _ [Hp _] _ Hs _]. unfold idle_per_worker.
  set (b := connection_budget o) in *. set (p := proxy_workers o) in *.
  assert (1 <= b / (2 * p)) by (apply Z.div_le_lower_bound; lia).
  assert (2 * p * (b / (2 * p)) <= b) by (apply Z.mul_div_le; lia). nia.
Qed.

Lemma connection_budget_bounds o : Valid o ->
  origin_workers o <= connection_budget o <= origin_workers o * origin_slots o
  /\ (2 <= origin_slots o -> 4 * connection_budget o <= 3 * (origin_workers o * origin_slots o)).
Proof.
  intros [_ _ _ _ _ _ [Hw Hs] _ _ _ _ _]. unfold connection_budget.
  assert (Hd : 4 * (origin_slots o * 3 / 4) <= origin_slots o * 3) by (apply Z.mul_div_le; lia).
  split; [nia|]. intros H2.
  assert (1 <= origin_slots o * 3 / 4) by (apply Z.div_le_lower_bound; lia).
  rewrite Z.max_r by done. nia.
Qed.

Definition sample_options : Options :=
  {| listen_address := "192.0.2.10"; listen_port := 80; origin_address := "::1"; origin_port := 8080;
     interface := "eth0"; request_rate := 50000; request_burst := 100; connection_rate := 1000;
     connection_burst := 200; reset_rate := 100; reset_burst := 50; origin_workers := 4;
     origin_slots := 512; origin_active_per_worker := Some 300; proxy_workers := 2;
     proxy_connections := 4096; max_body_bytes := 67108864; keepalive_requests := 1000;
     access_log := true; table := "zhtps_ingress" |}.

(** C22: the connection budgets of an accepted configuration.  NGINX opens at most
    [active_budget] busy and [idle_per_worker] idle connections per proxy worker; together they
    fit in the origin's budget, which is at most its slots (three quarters of them from two slots
    up), the active part respects the origin's own limit, and every proxy worker can hold a client
    and an origin socket for each.  All budgets are positive. *)
Theorem validate_budgets o :
  validate o = Ok tt ->
  1 <= idle_per_worker o <= 32 /\ 1 <= active_budget o
  /\ active_budget o + proxy_workers o * idle_per_worker o <= connection_budget o
  /\ connection_budget o <= origin_workers o * origin_slots o
  /\ (2 <= origin_slots o -> 4 * connection_budget o <= 3 * (origin_workers o * origin_slots o))
  /\ (forall n, origin_active_per_worker o = Some n -> active_budget o <= origin_workers o * n)
  /\ 2 * active_budget o + idle_per_worker o < proxy_connections o.
Proof.
  intros V%ingress_validate_valid. pose proof (idle_bounds o V) as [Hi Hs].
  pose proof (connection_budget_bounds o V) as [Hb Hq].
  destruct V as [_ _ _ _ _ _ [Hw _] Ha [Hp _] _ Hsplit Hsock].
  unfold active_budget in *. destruct (origin_active_per_worker o) as [n|].
  - specialize (Ha n eq_refl). assert (1 <= origin_workers o * n) by (clear -Ha Hw; nia).
    split_and!; try done; try lia. intros n' [= <-]. lia.
  - split_and!; try done; lia.
Qed.

Lemma validate_budgets_witness :
  validate sample_options = Ok tt /\ 2 * active_budget sample_options + idle_per_worker sample_options < 4096.
Proof.
  split; [vm_compute; reflexivity|].
  apply (validate_budgets sample_options). vm_compute. reflexivity.
Defined.

(** *** Text *)

Lemma endpoint_plain address port s :
  plain address = true -> endpoint address port = Ok s -> plain s = true.
Proof.
  unfold endpoint. intros Ha (a & _ & H)%rbind_ok.
  destruct (version a =? 6); apply (inj Ok) in H as <-; rewrite !plain_app, Ha, string_of_Z_plain; done.
Qed.

Definition blank : Options :=
  {| listen_address := ""; listen_port := 0; origin_address := ""; origin_port := 0;
     interface := ""; request_rate := 0; request_burst := 0; connection_rate := 0;
     connection_burst := 0; reset_rate := 0; reset_burst := 0; origin_workers := 0;
     origin_slots := 0; origin_active_per_worker := None; proxy_workers := 0;
     proxy_connections := 0; max_body_bytes := 0; keepalive_requests := 0;
     access_log := false; table := "" |}.

Lemma burst_count o c :
  special c = true -> c <> " "%char -> str_count (Ascii.eqb c) (burst_text o) = 0%nat.
Proof.
  intros Hc Hsp. unfold burst_text. destruct (request_burst o =? 0); [reflexivity|].
  count_pieces c Hc. clear o. revert c Hc Hsp. intros [[] [] [] [] [] [] [] []]; vm_compute; congruence.
Qed.

Lemma access_count o c :
  special c = true -> c <> " "%char ->
  str_count (Ascii.eqb c) (access_text o) = str_count (Ascii.eqb c) (access_text blank).
Proof.
  unfold access_text. cbn [access_log blank]. destruct (access_log o); [|reflexivity]. clear o.
  revert c. intros [[] [] [] [] [] [] [] []]; vm_compute; congruence.
Qed.

Lemma nginx_text_count o origin listen c :
  special c = true -> c <> " "%char -> plain origin = true -> plain listen = true ->
  str_count (Ascii.eqb c) (nginx_text o origin listen) = str_count (Ascii.eqb c) (nginx_text blank "" "").
Proof.
  intros Hc Hsp Ho Hl. unfold nginx_text, lines. rewrite !str_count_app, !str_count_join.
  f_equal. f_equal. cbn [map sum_list]. cbv zeta.
  assert (He : plain "" = true) by done.
  rewrite !str_count_app, !burst_count, (access_count o) by done. count_pieces c Hc. done.
Qed.

Lemma nginx_config_ok o s :
  nginx_config o = Ok s ->
  Valid o /\ exists origin listen, endpoint (origin_address o) (origin_port o) = Ok origin
    /\ endpoint (listen_address o) (listen_port o) = Ok listen /\ s = nginx_text o origin listen.
Proof. unfold nginx_config. intros H. inv_res. split; [by eapply ingress_validate_valid|]. eauto. Qed.

Lemma ingress_valid_plain o : Valid o -> plain (listen_address o) = true /\ plain (origin_address o) = true.
Proof.
  intros [H _ _ _ _ _ _ _ _ _ _ _].
  apply Forall_cons in H as [(a & Ha & _ & _ & Hs) [(b & Hb & _ & _ & Ht) _]%Forall_cons].
  split; by eapply address_plain.
Qed.

(** C16: no option value can add syntax to the generated NGINX configuration.  Every accepted
    option set gives a text with exactly as many semicolons, braces, quotes, newlines, comment and
    variable signs as the template with empty fields, so the directives and blocks are those of the
    template. *)
Theorem nginx_config_no_injection o s c :
  nginx_config o = Ok s -> special c = true -> c <> " "%char ->
  str_count (Ascii.eqb c) s = str_count (Ascii.eqb c) (nginx_text blank "" "").
Proof.
  intros (V & origin & listen & Ho & Hl & ->)%nginx_config_ok Hc Hsp.
  destruct (ingress_valid_plain o V). apply nginx_text_count; eauto using endpoint_plain.
Qed.

Lemma nginx_config_no_injection_witness :
  exists s, nginx_config sample_options = Ok s /\ str_count (Ascii.eqb ";") s = 41%nat.
Proof.
  eexists. split; [vm_compute; reflexivity|].
  etransitivity; [apply (nginx_config_no_injection sample_options)|]; vm_compute; congruence.
Defined.

(** *** Composition with deploy/connections.py *)

Lemma connection_options_valid o : Valid o -> Connections.Valid (connection_options o).
Proof.
  intros [Ha [Hl _] _ [Hi Ht] Hr _ _ _ _ _ _ _]. rewrite !Forall_cons in *.
  destruct Ha as [(a & ? & ? & ? & ?) _]. split; cbn; try done; [by exists a|].
  rewrite !Forall_cons. destruct_and!. split_and!; done.
Qed.

Lemma endpoint_total address port a : ip_address address = Ok a -> exists s, endpoint address port = Ok s.
Proof. unfold endpoint. intros ->. cbn [rbind]. eauto. Qed.

(** C11: generation cannot fail half-way.  Options that pass the ingress checks also pass the
    checks of deploy/connections.py, so every file of the bundle (the NGINX configuration, the two
    nftables files and the limits) is produced without an exception. *)
Theorem ingress_bundle_total o :
  validate o = Ok tt ->
  Connections.validate (connection_options o) = Ok tt
  /\ exists files, bundle o None = Ok files
     /\ map fst files = ["nginx.conf"; "connections.nft"; "remove-connections.nft"; "limits.json"].
Proof.
  intros H. pose proof (ingress_validate_valid o _ H) as V. pose proof (connection_options_valid o V) as VC.
  pose proof (valid_addresses o V) as [(a & Ha & _) [(b & Hb & _) _]%Forall_cons]%Forall_cons.
  split; [by apply Connections.validate_valid|].
  apply Connections.validate_valid in VC.
  destruct (endpoint_total _ (origin_port o) _ Hb) as [origin Ho].
  destruct (endpoint_total _ (listen_port o) _ Ha) as [listen Hl].
  assert (exists l, json_dumps2 (limits o) = Ok l) as [l Hj].
  { unfold limits. destruct (origin_active_per_worker o); eexists; reflexivity. }
  unfold bundle, nginx_config, nft_config, Connections.nft_config.
  rewrite H, Ho, Hl, VC, Hj. cbn [rbind Connections.listen_address connection_options]. rewrite Ha.
  cbn [rbind]. eexists. split; [reflexivity|]. reflexivity.
Qed.

Lemma ingress_bundle_total_witness :
  Connections.validate (connection_options sample_options) = Ok tt
  /\ exists files, bundle sample_options None = Ok files
     /\ map fst files = ["nginx.conf"; "connections.nft"; "remove-connections.nft"; "limits.json"].
Proof. apply (ingress_bundle_total sample_options). vm_compute. reflexivity. Defined.

(** *** The output directory *)

(** C23: like the direct-listener generator, the ingress generator only ever creates entries where
    nothing was, whatever other processes do and whichever calls fail. *)
Theorem ingress_write_additive o output config : additive (write_bundle o output config).
Proof.
  unfold write_bundle. do 4 (apply additive_bind; [auto with zhtps|intros ?]).
  case_match; auto 6 with zhtps.
Qed.

(** C24: a successful run of the ingress generator leaves all files of the bundle, the captured
    configuration included, with their generated contents. *)
Theorem ingress_write_complete o output config w u w' :
  quiet w -> write_bundle o output config w = (Ok u, w') ->
  exists files, bundle o config = Ok files
    /\ Forall (fun f => w_fs w' !! (f.1 :: output) = Some (File f.2)) files
    /\ (is_Some config -> exists c, w_fs w' !! ("origin-config.json" :: output) = Some (File c)).
Proof.
  intros Q. unfold write_bundle.
  intros (? & w1 & [= _ <-] & (? & w2 & Hm & (files & w3 & [= Hf <-] & (t & w4 & Ht & H)%bind_ok)%bind_ok)%bind_ok)%bind_ok.
  assert (quiet w2) by (eapply additive_quiet; [..|exact Hm]; auto with zhtps).
  assert (quiet w4) by (eapply additive_quiet; [..|exact Ht]; auto with zhtps).
  destruct t; [done|]. apply bind_ok in H as (? & w5 & Hd & Hw).
  assert (quiet w5) by (eapply additive_quiet; [..|exact Hd]; auto with zhtps).
  assert (Hall : Forall (fun f => w_fs w' !! (f.1 :: output) = Some (File f.2)) files)
    by (by eapply write_all_ok).
  exists files. split_and!; [done|done|]. intros [c ->].
  unfold bundle in Hf. inv_res. rewrite !Forall_cons in Hall.
  destruct Hall as (_ & _ & _ & _ & Hall & _). eauto.
Qed.

Lemma ingress_write_complete_witness :
  let r := write_bundle sample_options ["out"] (Some (VDict [])) Connections.empty_world in
  r.1 = Ok tt /\ exists files, bundle sample_options (Some (VDict [])) = Ok files
    /\ Forall (fun f => w_fs r.2 !! (f.1 :: ["out"]) = Some (File f.2)) files
    /\ (is_Some (Some (VDict [])) -> exists c, w_fs r.2 !! ("origin-config.json" :: ["out"]) = Some (File c)).
Proof.
  intros r. split; [vm_compute; reflexivity|].
  apply (ingress_write_complete sample_options ["out"] (Some (VDict [])) Connections.empty_world tt); [done|].
  vm_compute. reflexivity.
Defined.

(** *** Merging the captured configuration *)

Lemma merge_ok field a v r :
  merge field a v = Ok r ->
  (forall x, a = Some x -> r = Some x) /\ (forall y, v = Some y -> r = Some y)
  /\ (a = None -> v = None -> r = None).
Proof.
  unfold merge. intros H. inv_res. destruct a, v; bsimp; split_and!; intros; simplify_eq; try done.
  f_equal. lia.
Qed.

(** C26: an ingress is only generated from budgets on which the command line and the captured
    server configuration agree: each effective value equals the flag if one was given and the
    captured value if there is one, and a contradiction ends the run instead. *)
Theorem effective_agrees make workers slots active c o :
  effective make workers slots active (Some c) = Ok o ->
  exists cw cs ca w s a, captured c = Ok (cw, cs, ca) /\ o = make w s a
    /\ (forall x, workers = Some x \/ cw = Some x -> w = x)
    /\ (forall x, slots = Some x \/ cs = Some x -> s = x)
    /\ (forall x, active = Some x \/ ca = Some x -> a = Some x)
    /\ (active = None -> ca = None -> a = None).
Proof.
  unfold effective. intros H. apply rbind_ok in H as ([[w s] a] & H & Ho).
  apply rbind_ok in H as ([[cw cs] ca] & Hc & H). inv_res.
  repeat match goal with H : merge _ _ _ = Ok _ |- _ => apply merge_ok in H end.
  destruct w as [w|], s as [s|]; inv_res; try done.
  exists cw, cs, ca, w, s, a. destruct_and!. split_and!; try done; naive_solver.
Qed.

Definition sample_config : val :=
  VDict [(VStr "workers", VInt 4); (VStr "max_connections", VInt 512);
         (VStr "admission", VDict [(VStr "max_active", VInt 384)])].

Lemma effective_agrees_witness :
  exists o cw cs ca w s a,
    effective (fun w s a => sample_options) None (Some 512) None (Some sample_config) = Ok o
    /\ captured sample_config = Ok (cw, cs, ca) /\ (forall x, None = Some x \/ cw = Some x -> w = x)
    /\ (forall x, Some 512 = Some x \/ cs = Some x -> s = x)
    /\ (forall x, None = Some x \/ ca = Some x -> a = Some x).
Proof.
  destruct (effective_agrees (fun w s a => sample_options) None (Some 512) None sample_config sample_options)
    as (cw & cs & ca & w & s & a & H1 & _ & H2 & H3 & H4 & _); [reflexivity|].
  by exists sample_options, cw, cs, ca, w, s, a.
Defined.

(** Conflicting flags are refused before anything is written. *)
Example conflict_refused :
  effective (fun w s a => sample_options) (Some 8) None None (Some sample_config)
  = Err (Exn (SystemExit 2) "origin_workers conflicts with the effective origin configuration").
Proof. reflexivity. Qed.
