(* ===== verification/WorkerCpus.v ===== *)
(** * deploy/worker_cpus.py: worker CPUs from the NIC topology

    [cpu_list], the selection loop of [suggest] and the files it reads, [launch_arguments].
    The tree of [sysfs] and [procfs] is a finite map from paths to texts as the script sees it
    through the links of those file systems. *)

From stdpp Require Import base list strings gmap sorting.
From Stdlib Require Import ZArith Lia Ascii.
From S2P Require Import Prelude PyFloat PyText PyVal PyJson PyIO Connections.

Local Open Scope Z_scope.

(** ** CPU lists *)

Definition invalid_list {A} (text : string) : res A :=
  raise ValueError ("invalid CPU list: " +:+ repr_str text).

Definition cpu_part (text : string) (cpus : gset Z) (part : string) : res (gset Z) :=
  if String.eqb part "" then Ok cpus
  else match split_char "-" part with
       | [a] => x <- py_int a ;; Ok ({[x]} ∪ cpus)
       | [a; b] =>
           x <- py_int a ;; y <- py_int b ;;
           if x <=? y then Ok (list_to_set (seqZ x (y + 1 - x)) ∪ cpus) else invalid_list text
       | _ => invalid_list text
       end.

Definition cpu_list (text : string) : res (gset Z) :=
  foldR (cpu_part text) ∅ (split_char "," (strip text)).

(** [sorted(s)] *)
Definition sorted_set (s : gset Z) : list Z := merge_sort Z.le (elements s).

(** ** The selection loop

    [siblings] reads the SMT siblings of a CPU, [groups] are the candidates of each cache domain. *)

Section Selection.
Context (siblings : Z -> res (gset Z)) (groups : list (list Z)) (workers : nat).

(** [next((cpu for cpu in group if cpu not in used), None)] *)
Definition next_free (used : gset Z) (group : list Z) : option Z :=
  head (filter (fun cpu => cpu ∉ used) group).

(** The [for group in groups] loop; the last component is [advanced]. *)
Fixpoint one_round (gs : list (list Z)) (selected : list Z) (used : gset Z) (advanced : bool)
    : res (list Z * gset Z * bool) :=
  match gs with
  | [] => Ok (selected, used, advanced)
  | group :: gs =>
      match next_free used group with
      | None => one_round gs selected used advanced
      | Some cpu =>
          s <- siblings cpu ;;
          let selected := selected ++ [cpu] in
          let used := used ∪ s in
          if (length selected =? workers)%nat then Ok (selected, used, true)
          else one_round gs selected used true
      end
  end.

Definition too_few (selected : list Z) : exn :=
  Exn ValueError ("only " +:+ string_of_Z (Z.of_nat (length selected)) +:+
                  " allowed physical cores share IRQ L3 caches; requested " +:+
                  string_of_Z (Z.of_nat workers)).

Definition out_of_fuel : exn := Exn RuntimeError "out of fuel".

(** The [while len(selected) < workers] loop.  Every round that does not raise selects a CPU, so
    [workers] rounds are enough (see [select_fuel]). *)
Fixpoint select (fuel : nat) (selected : list Z) (used : gset Z) : res (list Z) :=
  if (length selected <? workers)%nat then
    match fuel with
    | O => Err out_of_fuel
    | S fuel =>
        let* (selected', used', advanced) := one_round groups selected used false in
        if advanced : bool then select fuel selected' used' else Err (too_few selected')
    end
  else Ok selected.

End Selection.

(** ** Reading the topology *)

(** A path relative to a mount point, leaf first, and the text of a file. *)
Abbreviation tree := (gmap path string).

Section Topology.
Context (sysfs procfs : tree).

Definition read_text (t : tree) (p : path) : res string :=
  of_option (t !! p) FileNotFoundError (path_str p).

(** The first path component below [dir] of a path of the tree. *)
Definition child_of (dir p : path) : list string :=
  let n := (length p - length dir)%nat in
  if (0 <? n)%nat && bool_decide (drop n p = dir) then option_list (p !! (n - 1)%nat) else [].

(** The names in a directory: [dir.glob('*')]. *)
Definition children (t : tree) (dir : path) : list string :=
  remove_dups (map_to_list t ≫= (fun kv => child_of dir kv.1)).

Definition dir_exists (t : tree) (dir : path) : bool :=
  match children t dir with [] => false | _ => true end.

Definition cpu_root : path := ["cpu"; "system"; "devices"].

Definition siblings (cpu : Z) : res (gset Z) :=
  t <- read_text sysfs ("thread_siblings_list" :: "topology" :: ("cpu" +:+ string_of_Z cpu) :: cpu_root) ;;
  cpu_list t.

(** [sorted] on names: code point order *)
Definition str_le (a b : string) : Prop := String.leb a b = true.
#[export] Instance str_le_dec : RelDecision str_le.
Proof. intros a b. unfold str_le. apply _. Defined.

Fixpoint l3_scan (dir : path) (cpu : Z) (caches : list string) : res (gset Z) :=
  match caches with
  | [] => raise ValueError ("CPU " +:+ string_of_Z cpu +:+ " has no exposed L3 topology")
  | c :: caches =>
      level <- read_text sysfs ("level" :: c :: dir) ;;
      if String.eqb (strip level) "3"
      then t <- read_text sysfs ("shared_cpu_list" :: c :: dir) ;; cpu_list t
      else l3_scan dir cpu caches
  end.

Definition l3 (cpu : Z) : res (gset Z) :=
  let dir := "cache" :: ("cpu" +:+ string_of_Z cpu) :: cpu_root in
  l3_scan dir cpu (merge_sort str_le (filter (fun c => startswith "index" c = true) (children sysfs dir))).

(** [set().union(...)] of the sets read for each CPU *)
Definition union_of (read : Z -> res (gset Z)) (cpus : list Z) : res (gset Z) :=
  foldR (fun acc c => s <- read c ;; Ok (acc ∪ s)) ∅ cpus.

(** [min(domain)] *)
Definition set_min (s : gset Z) : res Z :=
  match sorted_set s with x :: _ => Ok x | [] => raise ValueError "min() iterable argument is empty" end.

(** [sorted(domains, key=min)] on pairs of a key and a domain *)
Definition key_le (a b : Z * gset Z) : Prop := a.1 <= b.1.
#[export] Instance key_le_dec : RelDecision key_le.
Proof. intros a b. unfold key_le. apply _. Defined.

Definition iface_head (s : string) : bool :=
  match s with String a r => word_char a && str_forall iface_char r | EmptyString => false end.

(** The RPS check over the receive queues *)
Definition check_rps (nic : path) : res unit :=
  eachR (fun queue =>
           match sysfs !! ("rps_cpus" :: queue :: "queues" :: nic) with
           | Some text =>
               m <- py_int16 (str_replace "," "" (strip text)) ;;
               guard (negb (m =? 0)) ValueError
                     "RPS is enabled; measure its processing CPUs before choosing an explicit mapping"
           | None => Ok tt
           end)
        (filter (fun n => startswith "rx-" n = true) (children sysfs ("queues" :: nic))).

(** The interrupts of the NIC: its MSI vectors, or else its legacy line *)
Definition nic_irqs (nic : path) : res (list Z) :=
  irqs <- rmap (merge_sort Z.le) (mapR py_int (children sysfs ("msi_irqs" :: "device" :: nic))) ;;
  match irqs with
  | _ :: _ => Ok irqs
  | [] => match sysfs !! ("irq" :: "device" :: nic) with
          | Some text => z <- py_int text ;; if 0 <? z then Ok [z] else Ok []
          | None => Ok []
          end
  end.

Definition effective_cpus (online : gset Z) (irq : Z) : res (Z * list Z) :=
  t <- read_text procfs ("effective_affinity_list" :: string_of_Z irq :: ["irq"]) ;;
  s <- cpu_list t ;;
  let cpus := sorted_set (s ∩ online) in
  guard (match cpus with [] => true | _ => false end) ValueError
        ("IRQ " +:+ string_of_Z irq +:+ " has no effective online CPU") ;;;
  Ok (irq, cpus).

(** What [suggest] computes before and after the loop. *)
Record suggestion := Suggestion {
  sg_interface : string;
  irq_affinity : list (Z * list Z);
  excluded_irq_siblings : list Z;
  allowed_online_cpus : list Z;
  worker_cpus : list Z;
  sg_arguments : list string;
}.

Definition worker_arguments (workers : Z) (selected : list Z) : list string :=
  ["--workers"; string_of_Z workers; "--worker-cpus"; join "," (map string_of_Z selected)].

(** The sorted candidate lists of the cache domains of the interrupt CPUs *)
Definition cache_groups (irq_cpus candidates : gset Z) : res (list (list Z)) :=
  domains <- mapR l3 (elements irq_cpus) ;;
  keyed <- mapR (fun d => m <- set_min d ;; Ok (m, d)) (remove_dups domains) ;;
  Ok (map (fun kd => sorted_set (kd.2 ∩ candidates)) (merge_sort key_le keyed)).

Definition suggest (interface : string) (workers : Z) (allowed : gset Z) : res suggestion :=
  guard (negb (iface_head interface)) ValueError "invalid interface name" ;;;
  guard (outside 1 256 workers) ValueError "workers must be between 1 and 256" ;;;
  let nic := interface :: ["net"; "class"] in
  guard (negb (dir_exists sysfs nic)) ValueError ("interface " +:+ interface +:+ " does not exist") ;;;
  check_rps nic ;;;
  irqs <- nic_irqs nic ;;
  guard (match irqs with [] => true | _ => false end) ValueError
        "no physical NIC IRQs found; use an explicit mapping for virtual interfaces" ;;;
  online_text <- read_text sysfs ("online" :: cpu_root) ;;
  online <- cpu_list online_text ;;
  effective <- mapR (effective_cpus online) irqs ;;
  let irq_cpus : gset Z := ⋃ (map (fun e => list_to_set e.2) effective) in
  excluded <- union_of siblings (elements irq_cpus) ;;
  let candidates := allowed ∩ online ∩ (list_to_set (seqZ 0 1024) ∖ excluded) in
  groups <- cache_groups irq_cpus candidates ;;
  selected <- select siblings groups (Z.to_nat workers) (Z.to_nat workers) [] excluded ;;
  Ok {| sg_interface := interface;
        irq_affinity := effective;
        excluded_irq_siblings := sorted_set excluded;
        allowed_online_cpus := sorted_set (allowed ∩ online);
        worker_cpus := selected;
        sg_arguments := worker_arguments workers selected |}.

End Topology.

(** ** Launching *)

Definition override (argument : string) : bool :=
  existsb (String.eqb (match split_once "=" argument with Some (flag, _) => flag | None => argument end))
          ["--workers"; "--worker-cpus"].

Definition launch_arguments (result : suggestion) (executable : string) (arguments : list string)
    : res (list string) :=
  let arguments := match arguments with "--" :: r => r | _ => arguments end in
  eachR (fun a => guard (override a) ValueError
           "set worker count on the launcher; worker mapping comes from NIC topology") arguments ;;;
  Ok (executable :: sg_arguments result ++ arguments).

(** The result as printed: [json.dumps(result, indent=2)] or the argument string. *)
Definition result_json (r : suggestion) : val :=
  VDict [(VStr "interface", VStr (sg_interface r));
         (VStr "irq_affinity", VDict (dupdate [] (map (fun e => (VStr (string_of_Z e.1), VList (map VInt e.2)))
                                                      (irq_affinity r))));
         (VStr "excluded_irq_siblings", VList (map VInt (excluded_irq_siblings r)));
         (VStr "allowed_online_cpus", VList (map VInt (allowed_online_cpus r)));
         (VStr "worker_cpus", VList (map VInt (worker_cpus r)));
         (VStr "arguments", VList (map VStr (sg_arguments r)))].

(** What a run of [main] ends in: text on standard output or the server's image. *)
Inductive outcome := Printed (text : string) | Executed (executable : string) (argv : list string).

(** [main] from the parsed arguments on; [allowed] is [os.sched_getaffinity(0)]. *)
Definition main (sysfs procfs : tree) (allowed : gset Z) (interface : string) (workers : Z) (json : bool)
    (executable : option string) (arguments : list string) : res outcome :=
  guard (json && bool_decide (is_Some executable)) (SystemExit 2) "--json and --exec are mutually exclusive" ;;;
  guard (negb (bool_decide (arguments = [])) && bool_decide (executable = None)) (SystemExit 2)
        "server arguments require --exec" ;;;
  let run :=
    result <- suggest sysfs procfs interface workers allowed ;;
    match executable with
    | Some x => command <- launch_arguments result x arguments ;; Ok (Executed x command)
    | None => t <- (if json then json_dumps2 (result_json result) else Ok (join " " (sg_arguments result))) ;;
              Ok (Printed t)
    end in
  match run with
  | Err e => if isa e OSError || isa e ValueError then raise (SystemExit 2) (ex_msg e) else Err e
  | ok => ok
  end.

(** ** Correctness of the selection *)

Lemma sorted_set_elem c s : c ∈ sorted_set s <-> c ∈ s.
Proof. unfold sorted_set. by rewrite merge_sort_Permutation, elem_of_elements. Qed.

Lemma sorted_set_sorted s : Sorted Z.le (sorted_set s).
Proof. apply Sorted_merge_sort. intros x y. lia. Qed.

Lemma sorted_set_NoDup s : NoDup (sorted_set s).
Proof. unfold sorted_set. rewrite merge_sort_Permutation. apply NoDup_elements. Qed.

Lemma next_free_Some used g c : next_free used g = Some c -> c ∈ g /\ c ∉ used.
Proof.
  unfold next_free. intros H. apply head_Some_elem_of in H. by apply list_elem_of_filter in H as [??].
Qed.

Lemma next_free_None used g c : next_free used g = None -> c ∈ g -> c ∈ used.
Proof.
  unfold next_free. intros H Hc. destruct (decide (c ∈ used)) as [|Hn]; [done|].
  assert (c ∈ filter (fun c => c ∉ used) g) as He by (by apply list_elem_of_filter).
  destruct (filter _ g); [by apply not_elem_of_nil in He|done].
Qed.

Section SelectionFacts.
Context (siblings : Z -> res (gset Z)) (groups : list (list Z)) (workers : nat) (excluded : gset Z).

(** The loop invariant: [used] is exactly the excluded CPUs and the siblings of the selected ones,
    and no selected CPU was used when it was selected. *)
Record Inv (selected : list Z) (used : gset Z) : Prop := {
  inv_used : forall c, c ∈ used <-> c ∈ excluded \/ (exists d s, d ∈ selected /\ siblings d = Ok s /\ c ∈ s);
  inv_read : Forall (fun c => is_ok (siblings c) = true) selected;
  inv_apart : forall i j c d s, (i < j)%nat -> selected !! i = Some c -> selected !! j = Some d ->
                siblings c = Ok s -> d ∉ s;
  inv_source : Forall (fun c => (c ∉ excluded) /\ (exists g, g ∈ groups /\ c ∈ g)) selected;
  inv_length : (length selected <= workers)%nat;
}.

Lemma inv_start : Inv [] excluded.
Proof.
  split; [|constructor|done|constructor|cbn; lia]. intros c. split; [by left|].
  intros [?|(d & s & Hd & _)]; [done|]. by apply not_elem_of_nil in Hd.
Qed.

Lemma inv_step selected used g c s :
  Inv selected used -> g ∈ groups -> next_free used g = Some c -> siblings c = Ok s ->
  (length selected < workers)%nat -> Inv (selected ++ [c]) (used ∪ s).
Proof.
  intros [Hu Hr Ha Hs Hl] Hg [Hc Hn]%next_free_Some Hsib Hw. split.
  - intros x. rewrite elem_of_union, Hu. setoid_rewrite elem_of_app. setoid_rewrite list_elem_of_singleton.
    split.
    + intros [[?|(d & t & ? & ? & ?)]|?]; [by left|right; exists d, t; auto|right; exists c, s; auto].
    + intros [?|(d & t & [?| ->] & ? & ?)]; [by left; left|left; right; by exists d, t|right; congruence].
  - apply Forall_app. split; [done|]. constructor; [by rewrite Hsib|done].
  - intros i j x y t Hij Hi Hj Ht. destruct (decide (j < length selected)%nat) as [Hlt|Hge].
    + rewrite lookup_app_l in Hj by done. rewrite lookup_app_l in Hi by lia. exact (Ha i j x y t Hij Hi Hj Ht).
    + rewrite lookup_app_r in Hj by lia. apply list_lookup_singleton_Some in Hj as [Hj ->].
      rewrite lookup_app_l in Hi by lia. intros Hy. apply Hn, Hu. right.
      exists x, t. split; [|done]. by apply list_elem_of_lookup_2 in Hi.
  - apply Forall_app. split; [done|]. constructor; [|done]. split; [|by exists g].
    intros ?. apply Hn, Hu. by left.
  - rewrite length_app. cbn. lia.
Qed.

Lemma one_round_ok gs selected used adv selected' used' adv' :
  gs ⊆ groups -> Inv selected used -> (length selected < workers)%nat ->
  one_round siblings workers gs selected used adv = Ok (selected', used', adv') ->
  Inv selected' used' /\ (length selected <= length selected')%nat
  /\ (adv = true -> adv' = true)
  /\ (adv' = true -> adv = true \/ (length selected < length selected')%nat)
  /\ (adv' = false -> selected' = selected /\ used' = used /\ Forall (fun g => next_free used g = None) gs).
Proof.
  revert selected used adv. induction gs as [|g gs IH]; intros selected used adv Hgs HI Hl; cbn.
  - intros H. inv_res. split_and!; auto.
  - assert (gs ⊆ groups) as Hsub by (intros x Hx; apply Hgs; by right).
    destruct (next_free used g) as [c|] eqn:En.
    + intros H0. apply rbind_ok in H0 as (s & Hs & H0).
      assert (HI' : Inv (selected ++ [c]) (used ∪ s)).
      { eapply inv_step; eauto. apply Hgs. by left. }
      pose proof (inv_length _ _ HI') as Hlen. rewrite length_app in Hlen. cbn in Hlen.
      case_match eqn:Hw.
      * inv_res. rewrite length_app. cbn. split_and!; auto; [lia| |done]. intros _. right. lia.
      * apply Nat.eqb_neq in Hw. rewrite length_app in Hw. cbn in Hw.
        apply IH in H0 as (? & Hlen' & Ht & _ & _); [|done|done|rewrite length_app; cbn; lia].
        rewrite length_app in Hlen'. cbn in Hlen'. specialize (Ht eq_refl).
        split_and!; auto; [lia| |congruence]. intros _. right. lia.
    + intros H0. apply IH in H0 as (? & ? & ? & ? & Hf); [|done..].
      split_and!; auto. intros ->. destruct Hf as (? & ? & ?); auto.
Qed.

Lemma select_ok fuel selected used r :
  Inv selected used -> select siblings groups workers fuel selected used = Ok r ->
  exists used', Inv r used' /\ length r = workers.
Proof.
  revert selected used. induction fuel as [|fuel IH]; intros selected used HI H;
    pose proof (inv_length _ _ HI); cbn [select] in H; destruct (Nat.ltb_spec (length selected) workers).
  - discriminate H.
  - inv_res. exists used. split; [done|lia].
  - apply rbind_ok in H as ([[sel us] adv] & Hr & Hk).
    apply one_round_ok in Hr as (HI' & _); [|done..]. destruct adv; [by eapply IH|done].
  - inv_res. exists used. split; [done|lia].
Qed.

(** What the error [too_few] reports: every candidate is excluded or shares a core with a CPU
    already selected. *)
Lemma select_err fuel selected used e :
  (workers <= length selected + fuel)%nat -> Inv selected used ->
  select siblings groups workers fuel selected used = Err e ->
  (exists c, siblings c = Err e)
  \/ (exists sel us, e = too_few workers sel /\ Inv sel us /\ (length sel < workers)%nat
      /\ Forall (Forall (fun c => c ∈ us)) groups).
Proof.
  revert selected used. induction fuel as [|fuel IH]; intros selected used Hf HI; cbn [select];
    (destruct (Nat.ltb_spec (length selected) workers) as [Hlt|]; [|done]); [lia|].
  intros [Hr|([[sel us] adv] & Hr & Hk)]%rbind_err.
  - left. clear -Hr. revert selected used Hr. generalize false. generalize groups as gs.
    induction gs as [|g gs IHg]; intros b selected used; cbn; [done|].
    destruct (next_free used g) as [c|]; [|apply IHg].
    intros [Hs|(s & Hs & Hk)]%rbind_err; [by exists c|]. case_match; [done|]. by eapply IHg.
  - apply one_round_ok in Hr as (HI' & Hlen & _ & Ht & Hfalse); [|done..]. destruct adv.
    + destruct (Ht eq_refl) as [|]; [done|]. eapply IH; [|done|done]. lia.
    + right. destruct (Hfalse eq_refl) as (-> & -> & Hall). injection Hk as <-.
      exists selected, used. split_and!; try done. eapply Forall_impl; [exact Hall|].
      cbv beta. intros g Hg. apply Forall_forall. intros c. by apply next_free_None.
Qed.

(** More rounds than [workers] change nothing. *)
Lemma select_fuel fuel k selected used :
  (workers <= length selected + fuel)%nat -> Inv selected used ->
  select siblings groups workers (fuel + k) selected used = select siblings groups workers fuel selected used.
Proof.
  revert selected used. induction fuel as [|fuel IH]; intros selected used Hf HI.
  - destruct k; cbn [select Nat.add]; (destruct (Nat.ltb_spec (length selected) workers); [lia|done]).
  - cbn [select Nat.add]. destruct (Nat.ltb_spec (length selected) workers) as [Hlt|]; [|done].
    destruct (one_round siblings workers groups selected used false) as [[[sel us] adv]|] eqn:Hr; [|done].
    cbn. apply one_round_ok in Hr as (HI' & Hlen & _ & Ht & _); [|done..]. destruct adv; [|done].
    destruct (Ht eq_refl) as [|]; [done|]. apply IH; [lia|done].
Qed.

(** If sibling lists contain their own CPU, the selected CPUs are distinct. *)
Lemma inv_NoDup selected used :
  (forall c s, siblings c = Ok s -> c ∈ s) -> Inv selected used -> NoDup selected.
Proof.
  intros Hself [_ Hr Ha _ _]. apply NoDup_alt. intros i j c Hi Hj.
  pose proof (Forall_lookup_1 _ _ _ _ Hr Hi) as Hok. cbv beta in Hok. destruct (siblings c) as [s|] eqn:Hs; [|done].
  destruct (lt_eq_lt_dec i j) as [[l|?]|l]; [|done|].
  - exfalso. exact (Ha i j c c s l Hi Hj Hs (Hself c s Hs)).
  - exfalso. exact (Ha j i c c s l Hj Hi Hs (Hself c s Hs)).
Qed.
End SelectionFacts.

(** ** CPU list syntax *)

(** One comma-separated part: a CPU or an inclusive range. *)
Inductive item := One (a : Z) | Range (a b : Z).

Definition item_ok (i : item) : Prop := match i with One a => 0 <= a | Range a b => 0 <= a <= b end.
Definition render_item (i : item) : string :=
  match i with
  | One a => string_of_Z a
  | Range a b => string_of_Z a +:+ String "-" (string_of_Z b)
  end.
Definition item_cpus (i : item) : gset Z :=
  match i with One a => {[a]} | Range a b => list_to_set (seqZ a (b + 1 - a)) end.

Lemma string_of_Z_digits z : 0 <= z -> str_forall is_digit (string_of_Z z) = true.
Proof.
  intros Hz. unfold string_of_Z. replace (z <? 0) with false by lia. by apply digits_of_Z_spec.
Qed.

Lemma string_of_Z_nonempty z : 0 <= z -> string_of_Z z <> "".
Proof.
  intros Hz. unfold string_of_Z. replace (z <? 0) with false by lia. apply digits_of_Z_nonempty.
Qed.

Lemma digits_avoid (p : ascii -> bool) s :
  (forall a, is_digit a = true -> p a = true) -> str_forall is_digit s = true -> str_forall p s = true.
Proof. apply str_forall_impl. Qed.

(** A part never contains a comma or a space. *)
Lemma render_item_chars i :
  item_ok i -> str_forall (fun a => is_digit a || Ascii.eqb a "-") (render_item i) = true.
Proof.
  destruct i as [a|a b]; cbn [item_ok render_item]; intros H; rewrite ?str_forall_app; cbn [str_forall];
    repeat (rewrite (digits_avoid _ (string_of_Z _)); [|by intros ? ->|apply string_of_Z_digits; lia]); done.
Qed.

Lemma cpu_part_render text cpus i :
  item_ok i -> cpu_part text cpus (render_item i) = Ok (item_cpus i ∪ cpus).
Proof.
  assert (Hd : forall z, 0 <= z -> str_forall (fun c => negb (Ascii.eqb c "-")) (string_of_Z z) = true).
  { intros z Hz. apply (digits_avoid _ _); [|by apply string_of_Z_digits].
    intros [[] [] [] [] [] [] [] []]; vm_compute; congruence. }
  intros Hok. unfold cpu_part. destruct i as [a|a b]; cbn [item_ok render_item item_cpus] in *.
  - destruct (String.eqb_spec (string_of_Z a) ""); [by destruct (string_of_Z_nonempty a)|].
    rewrite split_char_none by auto. unfold py_int. rewrite parse_int_string_of_Z. done.
  - destruct (String.eqb_spec (string_of_Z a +:+ String "-" (string_of_Z b)) "") as [He|_].
    { destruct (string_of_Z a) eqn:E; [|done]. destruct (string_of_Z_nonempty a); [lia|done]. }
    rewrite split_char_app, split_char_none by (apply Hd; lia).
    unfold py_int. rewrite !parse_int_string_of_Z. cbn [of_option rbind].
    by replace (a <=? b) with true by lia.
Qed.

Lemma cpu_list_render items :
  items <> [] -> Forall item_ok items ->
  cpu_list (join "," (map render_item items)) = Ok (⋃ (map item_cpus (rev items))).
Proof.
  intros Hne Hok. unfold cpu_list.
  assert (Hchars : Forall (fun s => str_forall (fun a => is_digit a || Ascii.eqb a "-") s = true)
                          (map render_item items)).
  { rewrite Forall_map. eapply Forall_impl; [exact Hok|]. apply render_item_chars. }
  rewrite strip_no_space.
  2: { apply str_forall_join; [done|]. eapply Forall_impl; [exact Hchars|]. intros s.
       apply str_forall_impl. intros [[] [] [] [] [] [] [] []]; vm_compute; congruence. }
  change "," with (String "," ""). rewrite split_char_join.
  2: { by destruct items. }
  2: { eapply Forall_impl; [exact Hchars|]. intros s. apply str_forall_impl.
       intros [[] [] [] [] [] [] [] []]; vm_compute; congruence. }
  generalize (join (String "," "") (map render_item items)) as text. intros text. clear Hchars Hne.
  assert (forall acc, foldR (cpu_part text) acc (map render_item items) = Ok (⋃ (map item_cpus (rev items)) ∪ acc)) as H.
  { induction Hok as [|i items Hi Hok IH]; intros acc; cbn [map foldR rev].
    - f_equal. set_solver.
    - rewrite cpu_part_render by done. cbn [rbind]. rewrite IH, map_app, union_list_app_L. cbn. f_equal. set_solver. }
  rewrite H. f_equal. set_solver.
Qed.

(** ** What the files contribute *)

Section TopologyFacts.
Context (sysfs procfs : tree).

Lemma cache_groups_candidates irq_cpus candidates gs g c :
  cache_groups sysfs irq_cpus candidates = Ok gs -> g ∈ gs -> c ∈ g -> c ∈ candidates.
Proof.
  unfold cache_groups. intros H Hg Hc. inv_res.
  apply list_elem_of_In, in_map_iff in Hg as (kd & <- & _).
  apply sorted_set_elem in Hc. set_solver.
Qed.

Lemma union_of_elem (read : Z -> res (gset Z)) cpus (acc r : gset Z) c s :
  foldR (fun acc c => s <- read c ;; Ok (acc ∪ s)) acc cpus = Ok r ->
  c ∈ cpus -> read c = Ok s -> s ⊆ r.
Proof.
  assert (Hmono : forall cpus acc r, foldR (fun acc c => s <- read c ;; Ok (acc ∪ s)) acc cpus = Ok r -> acc ⊆ r).
  { clear. intros l. induction l as [|x l IH]; intros acc r H; cbn in H; inv_res; [done|].
    match goal with H : foldR _ _ _ = Ok _ |- _ => apply IH in H end. set_solver. }
  revert acc. induction cpus as [|x cpus IH]; intros acc H Hc Hs; [by apply not_elem_of_nil in Hc|].
  cbn in H. inv_res. apply elem_of_cons in Hc as [->|Hc]; [|by eapply IH].
  rewrite Hs in *. simplify_eq. match goal with H : foldR _ _ _ = Ok _ |- _ => apply Hmono in H end. set_solver.
Qed.

Lemma suggest_ok interface workers allowed r :
  suggest sysfs procfs interface workers allowed = Ok r ->
  1 <= workers <= 256 /\
  exists online excluded groups used,
    allowed_online_cpus r = sorted_set (allowed ∩ online)
    /\ excluded_irq_siblings r = sorted_set excluded
    /\ sg_arguments r = worker_arguments workers (worker_cpus r)
    /\ (forall e c s, e ∈ irq_affinity r -> c ∈ e.2 -> siblings sysfs c = Ok s -> s ⊆ excluded)
    /\ (forall g c, g ∈ groups -> c ∈ g -> c ∈ allowed ∩ online /\ 0 <= c < 1024)
    /\ Inv (siblings sysfs) groups (Z.to_nat workers) excluded (worker_cpus r) used
    /\ length (worker_cpus r) = Z.to_nat workers.
Proof.
  unfold suggest. intros H.
  apply rbind_ok in H as (? & _ & H). apply rbind_ok in H as (? & Hw & H).
  apply guard_ok, outside_false in Hw. split; [done|].
  apply rbind_ok in H as (? & _ & H). apply rbind_ok in H as (? & _ & H).
  apply rbind_ok in H as (irqs & _ & H). apply rbind_ok in H as (? & _ & H).
  apply rbind_ok in H as (? & _ & H). apply rbind_ok in H as (online & _ & H).
  apply rbind_ok in H as (effective & _ & H). cbv zeta in H.
  apply rbind_ok in H as (excluded & Hex & H). apply rbind_ok in H as (groups & Hg & H).
  apply rbind_ok in H as (selected & Hsel & H). apply (inj Ok) in H as <-.
  cbn [allowed_online_cpus excluded_irq_siblings sg_arguments irq_affinity worker_cpus].
  apply (select_ok _ _ _ excluded) in Hsel as (used & HI & Hlen); [|apply inv_start].
  exists online, excluded, groups, used. split_and!; try done.
  - intros e c s He Hc. apply (union_of_elem _ _ _ _ _ _ Hex). apply elem_of_elements.
    apply elem_of_union_list. exists (list_to_set e.2). split; [|by apply elem_of_list_to_set].
    apply list_elem_of_In, in_map_iff. exists e. by rewrite <- list_elem_of_In.
  - intros g c Hin Hc. pose proof (cache_groups_candidates _ _ _ _ _ Hg Hin Hc) as Hcand.
    apply elem_of_intersection in Hcand as [? [Hr _]%elem_of_difference].
    apply elem_of_list_to_set, elem_of_seqZ in Hr. split; [done|lia].
Qed.
End TopologyFacts.

(** ** Properties *)

(** A 16-CPU host: cores pair CPU [n] with [n + 8], two L3 domains, two NIC interrupts. *)
Definition cpu_files (n : Z) : list (path * string) :=
  let dir : path := ("cpu" +:+ string_of_Z n) :: cpu_root in
  let core := n mod 8 in
  [("thread_siblings_list" :: "topology" :: dir, string_of_Z core +:+ "," +:+ string_of_Z (core + 8) +:+ nl);
   ("level" :: "index0" :: "cache" :: dir, "1" +:+ nl);
   ("level" :: "index3" :: "cache" :: dir, "3" +:+ nl);
   ("shared_cpu_list" :: "index3" :: "cache" :: dir, if core <? 4 then "0-3,8-11" else "4-7,12-15")].

Definition sample_sysfs : tree :=
  list_to_map ((["online"; "cpu"; "system"; "devices"], "0-15" +:+ nl)
               :: (["40"; "msi_irqs"; "device"; "eth0"; "net"; "class"], "msix")
               :: (["41"; "msi_irqs"; "device"; "eth0"; "net"; "class"], "msix")
               :: (["rps_cpus"; "rx-0"; "queues"; "eth0"; "net"; "class"], "0000,00000000" +:+ nl)
               :: concat (map cpu_files (seqZ 0 16))).

Definition sample_procfs : tree :=
  list_to_map [(["effective_affinity_list"; "40"; "irq"], "0" +:+ nl);
               (["effective_affinity_list"; "41"; "irq"], "4" +:+ nl)].

Definition sample_allowed : gset Z := list_to_set (seqZ 0 16).

Example sample_suggestion :
  rmap worker_cpus (suggest sample_sysfs sample_procfs "eth0" 5 sample_allowed) = Ok [1; 5; 2; 6; 3].
Proof. vm_compute. reflexivity. Qed.

(** The size and the members of a suggestion. *)
Lemma suggest_members sysfs procfs interface workers allowed r :
  suggest sysfs procfs interface workers allowed = Ok r ->
  Z.of_nat (length (worker_cpus r)) = workers
  /\ (forall c, c ∈ worker_cpus r -> c ∈ allowed /\ c ∈ allowed_online_cpus r /\ 0 <= c < 1024).
Proof.
  intros (Hw & online & excluded & groups & used & Hon & _ & _ & Hirq & Hgr & HI & Hlen)%suggest_ok.
  pose proof (inv_source _ _ _ _ _ _ HI) as Hsrc. rewrite Forall_forall in Hsrc. split; [lia|].
  intros c Hc. destruct (Hsrc c Hc) as (_ & g & Hg & Hcg). destruct (Hgr g c Hg Hcg) as [Hin Hb].
  rewrite Hon, sorted_set_elem. apply elem_of_intersection in Hin as Hin'. destruct Hin'. done.
Qed.

(** The CPUs a printed list denotes. *)
Lemma cpu_list_items items :
  items <> [] -> Forall item_ok items ->
  exists s, cpu_list (join "," (map render_item items)) = Ok s
    /\ forall c, c ∈ s <-> exists i, i ∈ items /\ match i with One a => c = a | Range a b => a <= c <= b end.
Proof.
  intros Hne Hok. eexists. split; [by apply cpu_list_render|]. intros c.
  rewrite elem_of_union_list. setoid_rewrite list_elem_of_In. setoid_rewrite in_map_iff.
  setoid_rewrite <- in_rev. split.
  - intros (x & (i & <- & Hi) & Hc). exists i. split; [done|].
    destruct i; cbn in Hc; [by apply elem_of_singleton in Hc|].
    apply elem_of_list_to_set, elem_of_seqZ in Hc. lia.
  - intros (i & Hi & Hc). exists (item_cpus i). split; [by exists i|].
    destruct i; cbn; [by apply elem_of_singleton|]. apply elem_of_list_to_set, elem_of_seqZ. lia.
Qed.

(** C27: the suggested mapping is safe.  It has exactly one CPU per worker; each is allowed, online
    and below 1024; none is an SMT sibling of a CPU that handles a NIC interrupt, nor of a CPU
    suggested before it; and when every sibling list contains its own CPU, all are distinct. *)
Theorem suggest_sound sysfs procfs interface workers allowed r :
  suggest sysfs procfs interface workers allowed = Ok r ->
  Z.of_nat (length (worker_cpus r)) = workers
  /\ (forall c, c ∈ worker_cpus r -> c ∈ allowed /\ c ∈ allowed_online_cpus r /\ 0 <= c < 1024)
  /\ (forall c e irq_cpu s, c ∈ worker_cpus r -> e ∈ irq_affinity r -> irq_cpu ∈ e.2 ->
        siblings sysfs irq_cpu = Ok s -> c ∉ s)
  /\ (forall i j c d s, (i < j)%nat -> worker_cpus r !! i = Some c -> worker_cpus r !! j = Some d ->
        siblings sysfs c = Ok s -> d ∉ s)
  /\ ((forall c s, siblings sysfs c = Ok s -> c ∈ s) -> NoDup (worker_cpus r)).
Proof.
  intros H. destruct (suggest_members _ _ _ _ _ _ H) as [Hlen Hmem].
  apply suggest_ok in H as (_ & online & excluded & groups & used & _ & _ & _ & Hirq & _ & HI & _).
  pose proof (inv_source _ _ _ _ _ _ HI) as Hsrc. rewrite Forall_forall in Hsrc.
  split_and!; [done|done| |exact (inv_apart _ _ _ _ _ _ HI)|intros Hself; by eapply inv_NoDup].
  intros c e k s Hc He Hk Hs Hcs. destruct (Hsrc c Hc) as (Hn & _). apply Hn.
  by apply (Hirq e k s).
Qed.

Lemma suggest_sound_witness :
  exists r, suggest sample_sysfs sample_procfs "eth0" 5 sample_allowed = Ok r
  /\ Z.of_nat (length (worker_cpus r)) = 5
  /\ forall i j c d s, (i < j)%nat -> worker_cpus r !! i = Some c -> worker_cpus r !! j = Some d ->
       siblings sample_sysfs c = Ok s -> d ∉ s.
Proof.
  assert (H : is_ok (suggest sample_sysfs sample_procfs "eth0" 5 sample_allowed) = true) by (vm_compute; reflexivity).
  destruct (suggest sample_sysfs sample_procfs "eth0" 5 sample_allowed) as [r|] eqn:E; [|discriminate H].
  exists r. destruct (suggest_sound _ _ _ _ _ _ E) as (H1 & _ & _ & H2 & _). split; [reflexivity|]. split; [exact H1|exact H2].
Defined.


(** giving up is justified.  When the loop fails although every sibling list is readable, fewer
    CPUs than requested were selected and no candidate is left: each is excluded or shares a core with
    a selected CPU. *)
Theorem select_gives_up siblings groups workers excluded e :
  (forall c, exists s, siblings c = Ok s) ->
  select siblings groups workers workers [] excluded = Err e ->
  exists selected, e = too_few workers selected /\ (length selected < workers)%nat
    /\ forall g c, g ∈ groups -> c ∈ g ->
         c ∈ excluded \/ exists d s, d ∈ selected /\ siblings d = Ok s /\ c ∈ s.
Proof.
  intros Hread H. apply (select_err siblings groups workers excluded) in H; [|cbn; lia|apply inv_start].
  destruct H as [[c Hc]|(sel & us & -> & HI & Hlt & Hall)].
  - destruct (Hread c) as [s Hs]. by rewrite Hs in Hc.
  - exists sel. split_and!; try done. intros g c Hg Hc. apply (inv_used _ _ _ _ _ _ HI).
    rewrite Forall_forall in Hall. specialize (Hall g Hg). rewrite Forall_forall in Hall. by apply Hall.
Qed.

Lemma select_gives_up_witness :
  let sib c := Ok ({[c; c + 4]} : gset Z) in
  select sib [[1; 5]; [2]] 3 3 [] {[0]} = Err (too_few 3 [1; 2])
  /\ exists selected, too_few 3 [1; 2] = too_few 3 selected /\ (length selected < 3)%nat
    /\ forall g c, g ∈ [[1; 5]; [2]] -> c ∈ g ->
         c ∈ ({[0]} : gset Z) \/ exists d s, d ∈ selected /\ sib d = Ok s /\ c ∈ s.
Proof.
  intros sib. assert (H : select sib [[1; 5]; [2]] 3 3 [] {[0]} = Err (too_few 3 [1; 2])) by (vm_compute; reflexivity).
  split; [exact H|]. apply (select_gives_up sib); [|exact H]. intros c. eexists. reflexivity.
Defined.

(** C29: CPU lists round-trip: a nonempty list of CPUs and ranges, printed in the kernel's syntax,
    parses to exactly the CPUs it denotes. *)
Theorem cpu_list_roundtrip items :
  items <> [] -> Forall item_ok items ->
  exists s, cpu_list (join "," (map render_item items)) = Ok s
    /\ forall c, c ∈ s <-> exists i, i ∈ items /\ match i with One a => c = a | Range a b => a <= c <= b end.
Proof. apply cpu_list_items. Qed.

Lemma cpu_list_roundtrip_witness :
  exists s, cpu_list "9,10-12" = Ok s
    /\ forall c, c ∈ s <-> exists i, i ∈ [One 9; Range 10 12] /\ match i with One a => c = a | Range a b => a <= c <= b end.
Proof. apply (cpu_list_roundtrip [One 9; Range 10 12]); [done|]. repeat (constructor; [cbn; lia|]). constructor. Defined.

(** the server always gets the mapping of the launcher: its arguments start with the suggested
    worker count and CPU list, no later argument sets either again, and the CPU list reads back as
    the suggested CPUs. *)
Theorem launch_keeps_mapping sysfs procfs interface workers allowed r executable arguments argv :
  suggest sysfs procfs interface workers allowed = Ok r ->
  launch_arguments r executable arguments = Ok argv ->
  exists cpus rest, argv = executable :: "--workers" :: string_of_Z workers :: "--worker-cpus" :: cpus :: rest
    /\ Forall (fun a => override a = false) rest
    /\ exists s, cpu_list cpus = Ok s /\ forall c, c ∈ s <-> c ∈ worker_cpus r.
Proof.
  intros Hs. unfold launch_arguments. intros H. apply rbind_ok in H as (u & Hg & H).
  apply (inj Ok) in H as <-. apply eachR_ok in Hg.
  pose proof (suggest_members _ _ _ _ _ _ Hs) as (Hl & Hc).
  apply suggest_ok in Hs as (Hw & ? & ? & ? & ? & _ & _ & -> & _).
  exists (join "," (map string_of_Z (worker_cpus r))). eexists. split; [reflexivity|]. split.
  { eapply Forall_impl; [exact Hg|]. cbv beta. intros a Ha. by inv_res. }
  destruct (cpu_list_items (map One (worker_cpus r))) as (s & Hs & Helem).
  { destruct (worker_cpus r); [cbn in Hl; lia|done]. }
  { rewrite Forall_map. apply Forall_forall. intros c Hin. cbn. apply Hc in Hin. lia. }
  exists s. split; [by rewrite map_map in Hs|]. intros c. rewrite Helem. split.
  - intros (i & Hi & Hi'). apply list_elem_of_In, in_map_iff in Hi as (d & <- & Hd). subst.
    by apply list_elem_of_In.
  - intros Hin. exists (One c). split; [|done]. apply list_elem_of_In, in_map_iff. exists c.
    by rewrite <- list_elem_of_In.
Qed.

Lemma launch_keeps_mapping_witness :
  exists r argv, launch_arguments r "zhtps" ["--"; "--port"; "80"] = Ok argv
  /\ exists cpus rest, argv = "zhtps" :: "--workers" :: string_of_Z 5 :: "--worker-cpus" :: cpus :: rest
    /\ Forall (fun a => override a = false) rest
    /\ exists s, cpu_list cpus = Ok s /\ forall c, c ∈ s <-> c ∈ worker_cpus r.
Proof.
  assert (H : is_ok (suggest sample_sysfs sample_procfs "eth0" 5 sample_allowed) = true) by (vm_compute; reflexivity).
  destruct (suggest sample_sysfs sample_procfs "eth0" 5 sample_allowed) as [r|] eqn:E; [|discriminate H].
  exists r. eexists. split; [reflexivity|]. apply (launch_keeps_mapping sample_sysfs sample_procfs "eth0" 5 sample_allowed r "zhtps" ["--"; "--port"; "80"] _ E).
  reflexivity.
Defined.
