(* ===== verification/ProcSample.v ===== *)
(** * [bench/overload.py]: parsing CPU lists and [/proc] samples

    The samplers take the texts they read as arguments; [Overload] reads them. *)

From stdpp Require Import base list strings.
From Stdlib Require Import ZArith Lia Ascii.
From S2P Require Import Prelude PyFloat PyText PyVal PyJson PyScript PyStats.

Local Open Scope Z_scope.
Open Scope py_scope.

(** ** CPU lists *)

(** [range(int(ends[0]), int(ends[-1]) + 1)] *)
Definition cpu_range (part : string) : res (list Z) :=
  let ends := split_char "-" part in
  first <- py_int (hd "" ends) ;;
  last <- py_int (List.last ends "") ;;
  Ok (seqZ first (last + 1 - first)).

Definition cpu_list (value : string) : res (list Z) := rmap (@concat _) (mapR cpu_range (split_char "," value)).

(** ** Processes *)

Definition status_fields : list string := ["VmRSS:"; "VmHWM:"; "VmSwap:"].
Definition switch_fields : list string := ["voluntary_ctxt_switches:"; "nonvoluntary_ctxt_switches:"].
Definition starts_any (l : list string) (line : string) : bool := existsb (fun p => startswith p line) l.

Definition unpack_error {A} : res A := raise ValueError "wrong number of values to unpack".

(** [key[:-1]] *)
Definition drop_last (s : string) : string := str_take (String.length s - 1) s.

(** A line [VmRSS: 1234 kB] in bytes. *)
Definition memory_line (status : dict) (line : string) : res dict :=
  match split_ws line with
  | [key; amount; _] => n <- py_int amount ;; Ok (sset (drop_last key) (VInt (n * 1024)) status)
  | _ => unpack_error
  end.

Definition switch_line (status : dict) (line : string) : res dict :=
  match split_ws line with
  | [key; amount] => n <- py_int amount ;; Ok (sset (drop_last key) (VInt n) status)
  | _ => unpack_error
  end.

Definition status_line (status : dict) (line : string) : res dict :=
  if starts_any status_fields line then memory_line status line
  else if starts_any switch_fields line then switch_line status line
  else Ok status.

(** [text.rsplit(")", 1)[1].split()] *)
Definition stat_fields (text : string) : res (list string) :=
  r <- of_option (rsplit_once ")" text) IndexError "list index out of range" ;; Ok (split_ws r.2).

Definition field (fields : list string) (i : nat) : res Z :=
  s <- of_option (fields !! i) IndexError "list index out of range" ;; py_int s.

(** [os.sysconf("SC_CLK_TCK")] is [tick]; [fds] is the number of entries of [/proc/PID/fd]. *)
Definition proc_sample (stat status : string) (tick : Z) (fds : Z) : expr :=
  fields <- stat_fields stat ;;
  d <- foldR status_line [] (splitlines status) ;;
  user <- field fields 11 ;;
  system <- field fields 12 ;;
  cpu <- py_div (VInt (user + system)) (VInt tick) ;;
  user_s <- py_div (VInt user) (VInt tick) ;;
  system_s <- py_div (VInt system) (VInt tick) ;;
  minor <- field fields 7 ;;
  major <- field fields 9 ;;
  last_cpu <- field fields 36 ;;
  Ok (VDict (dupdate d [(VStr "cpu_seconds", cpu); (VStr "user_seconds", user_s); (VStr "system_seconds", system_s);
                        (VStr "minor_faults", VInt minor); (VStr "major_faults", VInt major);
                        (VStr "last_cpu", VInt last_cpu); (VStr "fds", VInt fds)])).

(** ** The kernel *)

Definition selected : list string :=
  ["ListenOverflows"; "ListenDrops"; "TCPReqQFullDoCookies"; "TCPReqQFullDrop"; "TCPBacklogDrop"].

(** [dict(zip(line.split()[1:], map(int, lines[index + 1].split()[1:])))] *)
Definition named_ints (names values : string) : res dict :=
  let ns := tail (split_ws names) in
  vs <- mapR py_int (take (length ns) (tail (split_ws values))) ;;
  dict_by (fun nv => str nv.1) (fun nv => int nv.2) (combine ns vs).

(** The pairs [parts[i], parts[i + 1]] of a [TCP:] line. *)
Fixpoint socket_pairs (result : dict) (parts : list string) : res dict :=
  match parts with
  | [] => Ok result
  | [_] => raise IndexError "list index out of range"
  | k :: v :: parts => n <- py_int v ;; socket_pairs (sset ("tcp_" +:+ k) (VInt n) result) parts
  end.

Definition socket_line (result : dict) (line : string) : res dict :=
  if startswith "TCP:" line then socket_pairs result (tail (split_ws line)) else Ok result.

Definition softirq_rows (text : string) : res dict :=
  dict_by (fun ws => str (drop_last (hd "" ws))) (fun ws => vs <- mapR py_int (tail ws) ;; Ok (VList (map VInt vs)))
    (List.filter (fun ws => match ws with w :: _ => String.eqb w "NET_RX:" || String.eqb w "NET_TX:" | [] => false end)
       (map split_ws (splitlines text))).

Definition interface_names : list string :=
  ["rx_bytes"; "rx_packets"; "rx_errors"; "rx_drops"; "tx_bytes"; "tx_packets"; "tx_errors"; "tx_drops"].

Definition interface_line (line : string) : res (string * val) :=
  nv <- of_option (split_once ":" line) ValueError "not enough values to unpack" ;;
  fields <- mapR py_int (split_ws nv.2) ;;
  d <- dict_by (fun kv => str kv.1) (fun kv => int kv.2)
         (combine interface_names (take 4 fields ++ take 4 (drop 8 fields))) ;;
  Ok (strip nv.1, VDict d).

(** The sample once the [TcpExt:] header is found at a line followed by [rest]. *)
Definition kernel_rows (line : string) (rest : list string) (sockstat softirqs dev : string) : expr :=
  values <- of_option (head rest) IndexError "list index out of range" ;;
  fields <- named_ints line values ;;
  let result := map (fun k => (VStr k, default (VInt 0) (sget k fields))) selected in
  result <- foldR socket_line result (splitlines sockstat) ;;
  rows <- softirq_rows softirqs ;;
  interfaces <- foldR (fun d line => nd <- interface_line line ;; Ok (sset nd.1 nd.2 d)) []
                  (drop 2 (splitlines dev)) ;;
  Ok (VDict (sset "interfaces" (VDict interfaces) (sset "softirqs" (VDict rows) result))).

Fixpoint kernel_lines (lines : list string) (sockstat softirqs dev : string) : expr :=
  match lines with
  | [] => Ok (VDict [])
  | line :: rest => if startswith "TcpExt:" line then kernel_rows line rest sockstat softirqs dev
                    else kernel_lines rest sockstat softirqs dev
  end.
Definition kernel_sample (netstat sockstat softirqs dev : string) : expr :=
  kernel_lines (splitlines netstat) sockstat softirqs dev.

Definition core_sample (cpus : list Z) (stat : string) : expr :=
  let names := map (fun cpu => "cpu" +:+ string_of_Z cpu) cpus in
  rmap VDict
    (dict_by (fun ws => str (hd "" ws)) (fun ws => vs <- mapR py_int (tail ws) ;; Ok (VList (map VInt vs)))
       (List.filter (fun ws => match ws with w :: _ => existsb (String.eqb w) names | [] => false end)
          (map split_ws (splitlines stat)))).

Example sample_cpu_list : cpu_list "0,2-4,7" = Ok [0; 2; 3; 4; 7].
Proof. vm_compute. reflexivity. Qed.

Example sample_core_sample :
  rmap py_repr (core_sample [1] ("cpu  9 9" +:+ nl +:+ "cpu0 1 2" +:+ nl +:+ "cpu1 3 4" +:+ nl +:+ "intr 5"))
  = Ok "{'cpu1': [3, 4]}".
Proof. vm_compute. reflexivity. Qed.
