(* ===== verification/RemoteLoad.v ===== *)
(** * [bench/remote_load.py]: the remote load agent and its collector

    [agent] runs on the generator host and owns one load client; [RemoteLoad] owns the SSH process,
    estimates the clock offset and collects the agent's messages.  Both are programs over a [host]
    ([System]), so their properties hold for every behaviour of the processes, clocks and messages. *)

From stdpp Require Import base list strings.
From Stdlib Require Import ZArith Lia Ascii.
From S2P Require Import Prelude PyFloat PyText PyVal PyJson PyScript Shlex PyStats PyHash PyIO System ProcSample.

Local Open Scope Z_scope.
Open Scope py_scope.

(** ** Base 64 *)

Definition base64_digits : string := "ABCDEFGHIJKLMNOPQRSTUVWXYZabcdefghijklmnopqrstuvwxyz0123456789+/".
Definition digit64 (z : Z) : ascii := default "="%char (String.get (Z.to_nat z) base64_digits).

(** [base64.b64encode(content).decode("ascii")] *)
Fixpoint encode_bytes (l : list Z) : string :=
  match l with
  | [] => ""
  | [a] => String (digit64 (a / 4)) (String (digit64 (a mod 4 * 16)) "==")
  | [a; b] => String (digit64 (a / 4)) (String (digit64 (a mod 4 * 16 + b / 16))
                (String (digit64 (b mod 16 * 4)) "="))
  | a :: b :: c :: l =>
      String (digit64 (a / 4)) (String (digit64 (a mod 4 * 16 + b / 16))
        (String (digit64 (b mod 16 * 4 + c / 64)) (String (digit64 (c mod 64)) (encode_bytes l))))
  end.
Definition b64encode (content : string) : string := encode_bytes (string_bytes content).

Definition value64 (a : ascii) : option Z :=
  let c := code a in
  if between 65 90 a then Some (c - 65) else if between 97 122 a then Some (c - 71)
  else if between 48 57 a then Some (c + 4) else if Ascii.eqb a "+" then Some 62
  else if Ascii.eqb a "/" then Some 63 else None.

Definition byte_char (z : Z) : ascii := ascii_of_N (Z.to_N z).

(** [base64.b64decode(text, validate=True)] *)
Fixpoint decode_quads (s : string) : option string :=
  match s with
  | EmptyString => Some ""
  | String a (String b (String c (String d r))) =>
      x ← value64 a; y ← value64 b;
      let first := byte_char (x * 4 + y / 16) in
      match value64 c with
      | None => if Ascii.eqb c "=" && Ascii.eqb d "=" && String.eqb r "" then Some (String first "") else None
      | Some z =>
          let second := byte_char (y mod 16 * 16 + z / 4) in
          match value64 d with
          | None => if Ascii.eqb d "=" && String.eqb r "" then Some (String first (String second "")) else None
          | Some w => rest ← decode_quads r;
                      Some (String first (String second (String (byte_char (z mod 4 * 64 + w)) rest)))
          end
      end
  | _ => None
  end.
Definition b64decode (text : string) : res string :=
  of_option (decode_quads text) ValueError "Invalid base64-encoded string".

Example base64_examples :
  (b64encode "load!", b64decode "bG9hZCE=", b64decode "bG9h ZCE=")
  = ("bG9hZCE=", Ok "load!", raise ValueError "Invalid base64-encoded string").
Proof. vm_compute. reflexivity. Qed.

(** ** Samples and identity *)

(** [sample_process(pid)] on the texts it reads. *)
Definition sample_process_of (unix_ns : val) (stat status : string) (tick fds : Z) : expr :=
  fields <- stat_fields stat ;;
  user <- field fields 11 ;;
  system <- field fields 12 ;;
  cpu <- py_div (VInt (user + system)) (VInt tick) ;;
  d <- foldR (fun d line => if starts_any status_fields line then memory_line d line else Ok d)
         [(VStr "unix_ns", unix_ns); (VStr "cpu_seconds", cpu)] (splitlines status) ;;
  Ok (VDict (sset "fds" (VInt fds) d)).

Definition lift_val {A} (f : val -> res A) (m : io host val) : io host A := v <~ m ; lift (f v).
Definition as_int (v : val) : res Z := match v with VInt z => Ok z | _ => type_error "an integer is required" end.
Definition read_proc : io host string := lift_val as_str external.
Definition read_clock : io host Z := lift_val as_int clock.

Definition sample_process (pid : val) : io host val :=
  stat <~ read_proc ;
  now <~ clock ;
  tick <~ lift_val as_int clock ;
  status <~ read_proc ;
  fds <~ lift_val as_int external ;
  lift (sample_process_of now stat status tick fds).

(** [identity()]: node, release, machine, boot id and allowed CPUs. *)
Definition identity : io host val :=
  hostname <~ clock ;
  kernel <~ clock ;
  machine <~ clock ;
  boot <~ read_proc ;
  allowed <~ clock ;
  lift (allowed <- py_iter allowed ;; allowed <- py_sorted allowed ;;
        mkdict [("hostname", $hostname); ("kernel", $kernel); ("machine", $machine); ("boot_id", str (strip boot));
                ("allowed_cpus", $(VList allowed))]).

(** [stop_child(process)] *)
Definition stop_child (process : option handle) : io host unit :=
  match process with
  | None => ret tt
  | Some h =>
      code <~ poll h ;
      match code with
      | Some _ => ret tt
      | None =>
          terminate h ;~
          catch (wait_timeout h ;~ ret tt)
            (fun e => if is_class e TimeoutExpired then kill h ;~ wait h else throw e)
      end
  end.

(** ** The agent *)

(** [emit(kind, **fields)] *)
Definition emit (kind : string) (fields : list (string * val)) : io host unit :=
  text <~ lift (json_dumps_min (obj (("kind", VStr kind) :: fields))) ; say text.

(** [sys.stdin.readline()], and the JSON value of the line *)
Definition read_line : io host string := lift_val as_str external.

(** The clock exchange: [None] when the parent closes its end, else the [run] command.  The number of
    clock requests is the parent's choice; [fuel] bounds it. *)
Fixpoint handshake (fuel : nat) : io host (option val) :=
  match fuel with
  | O => throw (Exn RuntimeError "out of fuel")
  | S fuel =>
      line <~ read_line ;
      if String.eqb line "" then ret None else
      command <~ lift (json_loads line) ;
      kind <~ lift ($command.["kind"]) ;
      if py_eqb kind (VStr "clock") then now <~ clock ; emit "clock" [("unix_ns", now)] ;~ handshake fuel
      else if py_eqb kind (VStr "run") then ret (Some command)
      else throw (Exn ValueError "unsupported agent command")
  end.

Definition max_file : Z := 64 * 1024 * 1024.

(** One uploaded workload file: checked, decoded and written into the folder. *)
Definition place_file (folder : string) (st : list val * dict) (fe : val * val) : io host (list val * dict) :=
  flag <~ lift (as_str fe.1) ;
  encoded <~ lift (as_str fe.2) ;
  lift (guard (negb (String.eqb flag "-request-body" || String.eqb flag "-expect-body")) ValueError
          "unsupported workload file") ;~
  content <~ lift (b64decode encoded) ;
  lift (guard (max_file <? Z.of_nat (String.length content)) ValueError "workload file exceeds 64 MiB") ;~
  let path := folder +:+ "/" +:+ str_drop 1 flag in
  write_file path content ;~
  ret (st.1 ++ [VStr flag; VStr path],
       sset flag (obj [("bytes", VInt (Z.of_nat (String.length content))); ("sha256", VStr (sha256_hex content))]) st.2).

(** [child.wait(timeout=.1)] after a sample failed: the end of the loop, or the sampling error. *)
Definition after_sample_error (child : handle) (e : exn) : io host bool :=
  if is_class e FileNotFoundError || is_class e PermissionError then
    catch (wait_timeout child ;~ ret false) (fun w => if is_class w TimeoutExpired then throw e else throw w)
  else throw e.

(** One round of the monitoring loop while the child runs; [false] leaves the loop.  The environment
    answers whether the parent is gone, how long ago it was heard, and the time. *)
Definition monitor_round (child : handle) (command : val) (deadline : val) : io host bool :=
  stopping <~ clock ;
  (if truthy stopping then throw (Exn RuntimeError "parent disconnected or cancelled the run") else ret tt) ;~
  silence <~ clock ;
  expired <~ lift ($silence >' getd ($command) "heartbeat_seconds" (VInt 15)) ;
  (if expired : bool then throw (Exn RuntimeError "parent heartbeat expired") else ret tt) ;~
  now <~ clock ;
  late <~ lift ($now >=' $deadline) ;
  (if late : bool then throw (Exn TimeoutError "remote client exceeded its run deadline") else ret tt) ;~
  catch (pid <~ clock ; sample <~ sample_process pid ; emit "sample" [("sample", sample)] ;~ ret true)
    (after_sample_error child).

Fixpoint monitor (fuel : nat) (child : handle) (command deadline : val) : io host unit :=
  match fuel with
  | O => throw (Exn RuntimeError "out of fuel")
  | S fuel =>
      code <~ poll child ;
      match code with
      | Some _ => ret tt
      | None =>
          go_on <~ monitor_round child command deadline ;
          if go_on : bool then advance ;~ monitor fuel child command deadline else ret tt
      end
  end.

(** [json.load(output)], of the report the client left *)
Definition load_report : io host val := text <~ read_proc ; lift (json_loads text).

(** The report after the child ended. *)
Definition finish (child : handle) : io host unit :=
  code <~ wait_timeout child ;
  diagnostics <~ external ;
  size <~ lift_val as_int external ;
  lift (guard (16 * 1024 * 1024 <? size) ValueError "load report exceeds 16 MiB") ;~
  if negb (code =? 0) then
    failed <~ catch load_report (fun e => if is_class e ValueError || is_oserror (ex_class e) then ret VNone else throw e) ;
    text <~ lift (fstring [F "load client exited "; V (int code); F ": "; V ($diagnostics)]) ;
    emit "error" [("error", VStr text); ("client", failed); ("exit_code", VInt code)]
  else
    result <~ load_report ;
    emit "result" [("client", result); ("stderr", diagnostics); ("exit_code", VInt code)].

(** The [run] command: checks, files, and the child, whose handle is given to [k]. *)
Definition prepare (command : val) : io host (list string * list (string * val)) :=
  cpus <~ lift (l <- iterR ($command.["cpus"]) ;; set_by (fun v => $v) l) ;
  allowed <~ lift_val py_iter clock ;
  lift (guard (negb (truthy (VList cpus)) || negb (subsetb cpus allowed)) ValueError
          "client CPU list is not available on this host") ;~
  binary <~ lift_val as_str external ;
  content <~ read_proc ;
  external ;~
  hard <~ clock ;
  needed <~ lift ($command.["connections"] +' int 256) ;
  too_low <~ lift ($hard <' $needed) ;
  lift (guard too_low ValueError "remote hard descriptor limit is below the requested client capacity") ;~
  external ;~
  folder <~ lift_val as_str external ;
  arguments <~ lift (l <- iterR ($command.["arguments"]) ;; Ok (VStr binary :: l)) ;
  files <~ lift (v <- getd ($command) "files" (VDict []) ;; py_items v) ;
  let~ (arguments, uploads) := foldM (place_file folder) (arguments, []) files in
  words <~ lift (mapR as_str arguments) ;
  sorted <~ lift (py_sorted cpus) ;
  ret (words, [("command", VList (map VStr words)); ("binary_sha256", VStr (sha256_hex content));
               ("cpus", VList sorted); ("files", VDict uploads)]).

(** The agent after the handshake, with the child it starts recorded for the cleanup. *)
Definition run_child (fuel : nat) (command : val) : io host (option handle * res unit) :=
  fun w =>
    match prepare command w with
    | (Err e, w) => (Ok (None, Err e), w)
    | (Ok (words, fields), w) =>
        match popen words w with
        | (Err e, w) => (Ok (None, Err e), w)
        | (Ok child, w) =>
            let body :=
              pid <~ clock ;
              emit "started" (("pid", pid) :: fields) ;~
              clock ;~
              deadline <~ (now <~ clock ; lift ($now +' $command.["max_seconds"])) ;
              monitor fuel child command deadline ;~
              finish child in
            let '(r, w) := body w in (Ok (Some child, r), w)
        end
    end.

(** [agent()]: the exit status 0, or 1 after an error. *)
Definition agent (fuel : nat) : io host Z :=
  r <~ (fun w =>
    let start := id_ <~ identity ; emit "hello" [("identity", id_)] ;~ handshake fuel in
    match start w with
    | (Err e, w) => (Ok (None, Err e), w)
    | (Ok None, w) => (Ok (None, Ok tt), w)
    | (Ok (Some command), w) => run_child fuel command w
    end) ;
  let '(child, outcome) := r in
  finally
    (match outcome with
     | Ok _ => ret 0
     | Err e =>
         stop_child child ;~
         emit "error" [("error", VStr (exn_repr e))] ;~
         ret 1
     end)
    (stop_child child).

(** ** The collector *)

(** The attributes of a [RemoteLoad]; [None] as in Python until set. *)
Record remote := Remote {
  rl_process : handle;
  rl_stdin_open : bool;
  rl_samples : list val;
  rl_started : val;
  rl_result : val;
  rl_error : val;
  rl_failure : val;
  rl_clock_offset_ns : val;
  rl_clock_uncertainty_ns : val;
  rl_last_heartbeat : val;
  rl_identity : val;
}.

Definition new_remote (process : handle) : remote :=
  Remote process true [] VNone VNone VNone VNone VNone VNone (VInt 0) VNone.

(** A host together with the object. *)
Record session := Session { s_host : host; s_remote : remote }.

Definition on_host {A} (m : io host A) : io session A := zoom s_host (fun h s => Session h (s_remote s)) m.
Definition set_remote (f : remote -> remote) : io session unit := modify (fun s => Session (s_host s) (f (s_remote s))).

(** [send(message)] *)
Definition send (message : val) : io host unit :=
  text <~ lift (json_dumps_min message) ; fallible (Sent (text +:+ nl)).

(** [self.events.get(timeout=...)] and [get_nowait()]: what the reader thread has put so far. *)
Definition get_event : io host val :=
  advance ;~
  l <~ gets events ;
  match l with
  | [] => throw (Exn QueueEmpty "")
  | e :: l => modify (fun w => Host (procs w) (oracle w) (steps w) l (trace w)) ;~ ret e
  end.

Definition next_event (expected : string) : io host val :=
  event <~ get_event ;
  kind <~ lift ($event.["kind"]) ;
  if py_eqb kind (VStr expected) then ret event
  else throw (Exn RuntimeError ("expected " +:+ expected +:+ ", received " +:+ py_str event)).

(** One clock exchange: [(elapsed // 2, begin_wall + elapsed // 2 - response["unix_ns"])]. *)
Definition clock_estimate (begin_wall begin now unix_ns : Z) : Z * Z :=
  let elapsed := now - begin in
  (elapsed / 2, begin_wall + elapsed / 2 - unix_ns).

Definition estimate_clock : io host (Z * Z) :=
  begin_wall <~ read_clock ;
  begin <~ read_clock ;
  send (obj [("kind", VStr "clock")]) ;~
  response <~ next_event "clock" ;
  now <~ read_clock ;
  unix_ns <~ lift (v <- $response.["unix_ns"] ;; as_int v) ;
  ret (clock_estimate begin_wall begin now unix_ns).

(** [min(estimates)]: tuples compare by the uncertainty first. *)
Definition pair_ltb (a b : Z * Z) : bool := (a.1 <? b.1) || ((a.1 =? b.1) && (a.2 <? b.2)).
Fixpoint min_pair (m : Z * Z) (l : list (Z * Z)) : Z * Z :=
  match l with [] => m | x :: l => min_pair (if pair_ltb x m then x else m) l end.

Definition estimate_clocks : io host (Z * Z) :=
  estimates <~ mapM (fun _ => estimate_clock) (seq 0 5) ;
  match estimates with
  | [] => throw (Exn ValueError "min() iterable argument is empty")
  | e :: l => ret (min_pair e l)
  end.

(** [self.process.stdin.close()] flushes, so it fails when the pipe is broken, and only then. *)
Definition close_pipe : io host unit :=
  t <~ advance ; if t_broken t then throw (Exn BrokenPipeError "") else ret tt.

(** [stop()]: close our end, give the process its time, then stop it. *)
Definition stop_process (h : handle) (stdin_open : bool) : io host unit :=
  (if stdin_open
   then catch close_pipe (fun e => if is_class e BrokenPipeError then ret tt else throw e)
   else ret tt) ;~
  catch (wait_timeout h ;~ ret tt)
    (fun e => if is_class e TimeoutExpired then stop_child (Some h) else throw e) ;~
  advance ;~ ret tt.

Definition stop : io session unit :=
  r <~ gets s_remote ;
  on_host (stop_process (rl_process r) (rl_stdin_open r)) ;~
  set_remote (fun r => Remote (rl_process r) false (rl_samples r) (rl_started r) (rl_result r) (rl_error r)
                         (rl_failure r) (rl_clock_offset_ns r) (rl_clock_uncertainty_ns r) (rl_last_heartbeat r)
                         (rl_identity r)).

(** *** Construction *)

Definition ssh_command (target source : string) : list string :=
  ["ssh"; "-T"; "-o"; "BatchMode=yes"; "-o"; "StrictHostKeyChecking=yes"; "-o"; "ConnectTimeout=10";
   "-o"; "ServerAliveInterval=5"; "-o"; "ServerAliveCountMax=3"; target;
   shlex_join ["python3"; "-u"; "-c"; source]].

(** The hello and the clock exchanges. *)
Definition greet : io host (val * (Z * Z)) :=
  hello <~ next_event "hello" ;
  id_ <~ lift ($hello.["identity"]) ;
  best <~ estimate_clocks ;
  ret (id_, best).

(** [RemoteLoad(host, error_file, transport=transport)]; [source] is the text of the module.  A failure
    once the process runs stops it again. *)
Definition connect (target source : string) (transport : option (list string)) : io host remote :=
  lift (guard (startswith "-" target || str_exists is_space target) ValueError "invalid SSH host") ;~
  read_proc ;~
  h <~ popen (default (ssh_command target source) transport) ;
  let~ (id_, (uncertainty, offset)) :=
    catch greet (fun e => stop_process h true ;~ throw e) in
  ret (Remote h true [] VNone VNone VNone VNone (VInt offset) (VInt uncertainty) (VInt 0) id_).

(** [start(binary, arguments, cpus, connections, max_seconds, files)] *)
Definition upload_file (uploads : dict) (fp : string * string) : io host dict :=
  content <~ read_proc ;
  lift (guard (max_file <? Z.of_nat (String.length content)) ValueError "workload file exceeds 64 MiB") ;~
  ret (sset fp.1 (VStr (b64encode content)) uploads).

Definition run_message (binary : string) (arguments : list string) (cpus : list Z) (connections : Z)
    (max_seconds : val) (uploads : dict) (heartbeat_seconds : Z) : val :=
  obj [("kind", VStr "run"); ("binary", VStr binary); ("arguments", VList (map VStr arguments));
       ("cpus", VList (map VInt cpus)); ("connections", VInt connections); ("max_seconds", max_seconds);
       ("files", VDict uploads); ("heartbeat_seconds", VInt heartbeat_seconds)].

Definition start (binary : string) (arguments : list string) (cpus : list Z) (connections : Z) (max_seconds : val)
    (files : list (string * string)) (heartbeat_seconds : Z) : io session unit :=
  started <~ on_host (
    uploads <~ foldM upload_file [] files ;
    send (run_message binary arguments cpus connections max_seconds uploads heartbeat_seconds) ;~
    next_event "started") ;
  set_remote (fun r => Remote (rl_process r) (rl_stdin_open r) (rl_samples r) started (rl_result r) (rl_error r)
                         (rl_failure r) (rl_clock_offset_ns r) (rl_clock_uncertainty_ns r) (rl_last_heartbeat r)
                         (rl_identity r)).

(** *** Collection *)

Definition set_outcome (r : remote) (samples : list val) (result error failure : val) : remote :=
  Remote (rl_process r) (rl_stdin_open r) samples (rl_started r) result error failure
    (rl_clock_offset_ns r) (rl_clock_uncertainty_ns r) (rl_last_heartbeat r) (rl_identity r).

(** One event of the loop of [collect]. *)
Definition take_event (r : remote) (event : val) : res remote :=
  kind <- $event.["kind"] ;;
  if py_eqb kind (VStr "sample") then
    sample <- $event.["sample"] ;;
    Ok (set_outcome r (rl_samples r ++ [sample]) (rl_result r) (rl_error r) (rl_failure r))
  else if py_eqb kind (VStr "result") then
    Ok (set_outcome r (rl_samples r) event (rl_error r) (rl_failure r))
  else if py_eqb kind (VStr "error") then
    error <- $event.["error"] ;; Ok (set_outcome r (rl_samples r) (rl_result r) error event)
  else if py_eqb kind (VStr "eof") then
    Ok (if is_none (rl_result r) && is_none (rl_error r)
        then set_outcome r (rl_samples r) (rl_result r) (VStr "remote agent closed without a result") (rl_failure r)
        else r)
  else
    Ok (set_outcome r (rl_samples r) (rl_result r) (VStr ("unexpected remote event: " +:+ py_str event)) (rl_failure r)).

(** The loop takes events until the queue is empty; [fuel] bounds how many arrive meanwhile. *)
Fixpoint drain (fuel : nat) : io session unit :=
  match fuel with
  | O => throw (Exn RuntimeError "out of fuel")
  | S fuel =>
      event <~ catch (e <~ on_host get_event ; ret (Some e))
                 (fun e => if is_class e QueueEmpty then ret None else throw e) ;
      match event with
      | None => ret tt
      | Some event =>
          r <~ gets s_remote ;
          r <~ lift (take_event r event) ;
          set_remote (fun _ => r) ;~ drain fuel
      end
  end.

Definition set_heartbeat (now : val) (r : remote) : remote :=
  Remote (rl_process r) (rl_stdin_open r) (rl_samples r) (rl_started r) (rl_result r) (rl_error r) (rl_failure r)
    (rl_clock_offset_ns r) (rl_clock_uncertainty_ns r) now (rl_identity r).

Definition heartbeat : io session unit :=
  catch
    (on_host (send (obj [("kind", VStr "heartbeat")])) ;~
     now <~ on_host clock ;
     set_remote (set_heartbeat now))
    (fun e => if is_class e BrokenPipeError then ret tt else throw e).

Definition collect (fuel : nat) : io session unit :=
  drain fuel ;~
  r <~ gets s_remote ;
  (if truthy (rl_error r) then throw (Exn RuntimeError (py_str (rl_error r))) else ret tt) ;~
  if truthy (rl_started r) && is_none (rl_result r) then
    now <~ on_host clock ;
    due <~ lift ($now -' $(rl_last_heartbeat r) >=' int 1) ;
    if due : bool then heartbeat else ret tt
  else ret tt.

Definition completed (fuel : nat) : io session bool :=
  collect fuel ;~ r <~ gets s_remote ; ret (negb (is_none (rl_result r))).

(** ** Lemmas *)

(** *** Nothing but [popen] starts a process *)

Ltac settle :=
  repeat first
    [ progress intros
    | solve [auto with zhtps]
    | apply settled_bind
    | apply settled_catch
    | case_match
    | apply settled_each
    | apply settled_mapM
    | apply settled_foldM ].

Lemma settled_lift_val {A} (f : val -> res A) m : settled m -> settled (lift_val f m).
Proof. intros H. unfold lift_val. auto with zhtps. Qed.
#[export] Hint Resolve settled_lift_val : zhtps.
Lemma settled_read_proc : settled read_proc.
Proof. unfold read_proc. auto with zhtps. Qed.
Lemma settled_read_clock : settled read_clock.
Proof. unfold read_clock. auto with zhtps. Qed.
#[export] Hint Resolve settled_read_proc settled_read_clock : zhtps.
Lemma settled_sample_process pid : settled (sample_process pid).
Proof. unfold sample_process. settle. Qed.
Lemma settled_identity : settled identity.
Proof. unfold identity. settle. Qed.
Lemma settled_close_pipe : settled close_pipe.
Proof. unfold close_pipe. settle. Qed.
Lemma settled_stop_child p : settled (stop_child p).
Proof. unfold stop_child. settle. Qed.
Lemma settled_emit k l : settled (emit k l).
Proof. unfold emit. settle. Qed.
Lemma settled_read_line : settled read_line.
Proof. unfold read_line. auto with zhtps. Qed.
#[export] Hint Resolve settled_sample_process settled_identity settled_stop_child settled_emit settled_read_line : zhtps.
Lemma settled_handshake fuel : settled (handshake fuel).
Proof. induction fuel; cbn; settle. Qed.
Lemma settled_place_file folder st fe : settled (place_file folder st fe).
Proof. unfold place_file. settle. Qed.
Lemma settled_after e child : settled (after_sample_error child e).
Proof. unfold after_sample_error. settle. Qed.
#[export] Hint Resolve settled_handshake settled_place_file settled_after : zhtps.
Lemma settled_round child command deadline : settled (monitor_round child command deadline).
Proof. unfold monitor_round. settle. Qed.
#[export] Hint Resolve settled_round : zhtps.
Lemma settled_monitor fuel child command deadline : settled (monitor fuel child command deadline).
Proof. induction fuel; cbn; settle. Qed.
Lemma settled_load_report : settled load_report.
Proof. unfold load_report. settle. Qed.
#[export] Hint Resolve settled_monitor settled_load_report : zhtps.
Lemma settled_finish child : settled (finish child).
Proof. unfold finish. settle. Qed.
Lemma settled_prepare command : settled (prepare command).
Proof. unfold prepare. settle. Qed.
#[export] Hint Resolve settled_finish settled_prepare : zhtps.
Lemma settled_get_event : settled get_event.
Proof.
  unfold get_event. apply settled_bind; [auto with zhtps|]. intros _. apply settled_bind; [auto with zhtps|].
  intros [|e l]; [auto with zhtps|]. apply settled_bind; [|auto with zhtps].
  intros w r w' [= _ <-]. by repeat split.
Qed.
Lemma settled_send m : settled (send m).
Proof. unfold send. settle. Qed.
#[export] Hint Resolve settled_get_event settled_send : zhtps.
Lemma settled_next_event k : settled (next_event k).
Proof. unfold next_event. settle. Qed.
#[export] Hint Resolve settled_next_event : zhtps.
Lemma settled_greet : settled greet.
Proof.
  unfold greet, estimate_clocks. settle.
Qed.
Lemma settled_stop_process h o : settled (stop_process h o).
Proof. unfold stop_process, close_pipe. settle. Qed.
#[export] Hint Resolve settled_greet settled_stop_process : zhtps.

(** *** Stopping a child *)

Lemma exited_bind {A} h (m : io host A) (k : A -> io host unit) w r w' :
  (forall a, settled (k a)) -> (forall a w1, m w = (Ok a, w1) -> exited h w1) ->
  bind m k w = (r, w') -> (exists e, m w = (Err e, w')) \/ exited h w'.
Proof.
  intros Hk Hm. unfold bind. destruct (m w) as [[a|e] w1] eqn:E.
  - intros H. right. apply Hk in H as [(Hx & _) _]. apply Hx. by eapply Hm.
  - intros [= _ <-]. left. by exists e.
Qed.

(** [stop_child] always succeeds and leaves the child exited. *)
Lemma stop_child_spec h w r w' :
  (h < length (procs w))%nat -> stop_child (Some h) w = (r, w') -> r = Ok tt /\ exited h w'.
Proof.
  intros Hh. unfold stop_child. unfold bind at 1. destruct (poll h w) as [[[c|]|e] w1] eqn:Ep.
  - intros [= <- <-]. split; [done|]. by eapply poll_some.
  - unfold bind at 1. pose proof (settled_poll _ _ _ _ Ep) as [_ L1].
    destruct (terminate h w1) as [r2 w2] eqn:Et. pose proof (settled_terminate _ _ _ _ Et) as [_ L2].
    injection Et as <- _. unfold catch, bind. destruct (wait_timeout h w2) as [[c|e] w3] eqn:Ew.
    + intros [= <- <-]. split; [done|]. by eapply wait_timeout_ok.
    + pose proof (settled_wait_timeout _ _ _ _ Ew) as [_ L3].
      assert (is_class e TimeoutExpired = true) as ->.
      { by eapply wait_timeout_err. }
      destruct (kill h w3) as [[u|e3] w4] eqn:Ek.
      * assert (Hw3 : (h < length (procs w3))%nat) by lia. pose proof (kill_exited h _ _ _ Hw3 Ek) as Hx.
        intros H. split; [by injection H as <- _|]. apply (settled_wait h _ _ _ H). done.
      * exfalso. unfold kill, bind in Ek. discriminate Ek.
  - exfalso. unfold poll, bind in Ep. discriminate Ep.
Qed.

(** [run_child] starts at most the one process it reports. *)
Lemma run_child_spec fuel command w r w' :
  all_exited w -> run_child fuel command w = (r, w') ->
  exists child outcome, r = Ok (child, outcome)
  /\ match child with
     | None => all_exited w'
     | Some h => (h < length (procs w'))%nat /\ forall k, (k < length (procs w'))%nat -> k <> h -> exited k w'
     end.
Proof.
  intros Hall. unfold run_child. destruct (prepare command w) as [[[words fields]|e] w1] eqn:Ep;
    pose proof (settled_prepare _ _ _ _ Ep) as [(Hx & _) L1].
  - destruct (popen words w1) as [[h|e] w2] eqn:Epo.
    + destruct (popen_ok _ _ _ _ Epo) as (-> & L2 & Hx2).
      match goal with |- (let '(_, _) := ?b w2 in _) = _ -> _ => set (body := b) end.
      assert (Hb : settled body).
      { unfold body. settle. }
      destruct (body w2) as [o w3] eqn:Eb. pose proof (Hb _ _ _ Eb) as [(Hx3 & _) L3].
      intros [= <- <-]. eexists _, _. split; [done|]. cbn. split; [lia|].
      intros k Hk Hne. apply Hx3, Hx2, Hx, Hall. lia.
    + intros [= <- <-]. eexists _, _. split; [done|]. intros k Hk.
      apply popen_err in Epo as L2. pose proof (steady_popen _ _ _ _ Epo) as (Hx2 & _). apply Hx2, Hx, Hall. lia.
  - intros [= <- <-]. eexists _, _. split; [done|]. intros k Hk. apply Hx, Hall. lia.
Qed.

Lemma settled_all {A} (m : io host A) w r w' : settled m -> m w = (r, w') -> all_exited w -> all_exited w'.
Proof. intros Hm E Hall k Hk. apply Hm in E as [(Hx & _) L]. apply Hx, Hall. lia. Qed.

(** The collected events. *)
Definition is_kind (k : string) (event : val) : bool :=
  match sget "kind" (match event with VDict d => d | _ => [] end) with Some (VStr s) => String.eqb s k | _ => false end.

(** The messages [agent] sends: a sample, a result, or an error with a text. *)
Inductive message := Sample (v : val) | Result (fields : list (string * val)) | Failure (text : string) (fields : list (string * val)).

Definition message_event (m : message) : val :=
  match m with
  | Sample v => obj [("kind", VStr "sample"); ("sample", v)]
  | Result fields => obj (("kind", VStr "result") :: fields)
  | Failure text fields => obj (("kind", VStr "error") :: ("error", VStr text) :: fields)
  end.
Definition eof : val := obj [("kind", VStr "eof")].

(** What the messages of a run amount to. *)
Definition samples_in (l : list message) : list val := omap (fun m => match m with Sample v => Some v | _ => None end) l.
Definition last_result (l : list message) : val :=
  default VNone (last (omap (fun m => match m with Result _ => Some (message_event m) | _ => None end) l)).
Definition last_failure (l : list message) : val :=
  default VNone (last (omap (fun m => match m with Failure t _ => Some (VStr t) | _ => None end) l)).

Lemma take_message r m :
  take_event r (message_event m) = Ok (
    match m with
    | Sample v => set_outcome r (rl_samples r ++ [v]) (rl_result r) (rl_error r) (rl_failure r)
    | Result _ => set_outcome r (rl_samples r) (message_event m) (rl_error r) (rl_failure r)
    | Failure t _ => set_outcome r (rl_samples r) (rl_result r) (VStr t) (message_event m)
    end).
Proof. by destruct m. Qed.

Lemma default_last_snoc {A} (d : A) (o : option A) l :
  default d (last (l ++ match o with Some x => [x] | None => [] end)) = default (default d (last l)) o.
Proof. destruct o as [x|]; cbn; [by rewrite last_snoc|]. by rewrite app_nil_r. Qed.

Lemma omap_snoc {A B} (f : A -> option B) l x :
  omap f (l ++ [x]) = omap f l ++ match f x with Some y => [y] | None => [] end.
Proof. rewrite omap_app. cbn. by destruct (f x). Qed.

(** Any messages are taken, and leave their samples, the last result and the last error. *)
Lemma take_messages process l :
  exists r, foldR take_event (new_remote process) (map message_event l) = Ok r
  /\ rl_samples r = samples_in l /\ rl_result r = last_result l /\ rl_error r = last_failure l
  /\ rl_process r = process.
Proof.
  induction l as [|m l (r & Hr & Hs & Hres & Herr & Hp)] using rev_ind; [by eexists|].
  rewrite map_app, foldR_app, Hr. cbn [rbind map foldR]. rewrite take_message.
  unfold samples_in, last_result, last_failure. rewrite !omap_snoc, !default_last_snoc.
  eexists. split; [done|]. destruct m; cbn; rewrite ?app_nil_r, Hs, ?Hres, ?Herr; split_and!; done.
Qed.

(** *** Base 64 *)

Ltac Zify.zify_post_hook ::= Z.to_euclidean_division_equations.

Lemma value64_digit z : 0 <= z < 64 -> value64 (digit64 z) = Some z.
Proof.
  intros H.
  assert (forallb (fun n => bool_decide (value64 (digit64 (Z.of_nat n)) = Some (Z.of_nat n))) (seq 0 64) = true) as Hall
    by (vm_compute; reflexivity).
  rewrite forallb_forall in Hall. specialize (Hall (Z.to_nat z)). rewrite Z2Nat.id in Hall by lia.
  eapply bool_decide_eq_true_1, Hall, in_seq. lia.
Qed.

Lemma byte_char_code a : byte_char (code a) = a.
Proof. unfold byte_char, code. by rewrite N2Z.id, ascii_N_embedding. Qed.

Lemma code_range a : 0 <= code a < 256.
Proof. unfold code. pose proof (N_ascii_bounded a). lia. Qed.

Lemma decode_encode (l : list ascii) :
  decode_quads (encode_bytes (map code l)) = Some (String.string_of_list_ascii l).
Proof.
  remember (length l) as n eqn:Hn. assert (Hle : (length l <= n)%nat) by lia. clear Hn. revert l Hle.
  induction n as [|n IH]; intros l Hle; [by destruct l; cbn in Hle; [|lia]|].
  destruct l as [|a [|b [|c l]]]; [done|..].
  - pose proof (code_range a). cbn [map encode_bytes decode_quads]. rewrite !value64_digit by lia. cbn.
    replace (_ * 4 + _) with (code a) by lia. by rewrite byte_char_code.
  - pose proof (code_range a). pose proof (code_range b).
    cbn [map encode_bytes decode_quads]. rewrite !value64_digit by lia. cbn.
    replace (code a / 4 * 4 + _) with (code a) by lia.
    replace ((code a mod 4 * 16 + code b / 16) mod 16 * 16 + _) with (code b) by lia. by rewrite !byte_char_code.
  - pose proof (code_range a). pose proof (code_range b). pose proof (code_range c).
    cbn [map encode_bytes decode_quads]. rewrite !value64_digit by lia. cbn [mbind option_bind].
    rewrite IH by (cbn in Hle; lia). cbn.
    replace (code a / 4 * 4 + _) with (code a) by lia.
    replace ((code a mod 4 * 16 + code b / 16) mod 16 * 16 + _) with (code b) by lia.
    replace ((code b mod 16 * 4 + code c / 64) mod 4 * 64 + _) with (code c) by lia. by rewrite !byte_char_code.
Qed.

(** *** Clock estimates *)

(** The smaller pair is one of the list and has the smallest first component. *)
Lemma min_pair_spec m l :
  In (min_pair m l) (m :: l) /\ Forall (fun e => (min_pair m l).1 <= e.1) (m :: l).
Proof.
  revert m. induction l as [|x l IH]; intros m; cbn [min_pair]; [by split; [left|repeat constructor]|].
  destruct (IH (if pair_ltb x m then x else m)) as [Hin Hle].
  unfold pair_ltb in *. inversion Hle as [|? ? H1 H2]; subst.
  destruct ((x.1 <? m.1) || ((x.1 =? m.1) && (x.2 <? m.2))) eqn:E.
  - split; [destruct Hin; [right; by left|right; by right]|].
    constructor; [|by constructor]. apply orb_true_iff in E as [E|[E _]%andb_true_iff]; lia.
  - split; [destruct Hin; [by left|right; by right]|].
    constructor; [done|]. constructor; [|done]. apply orb_false_iff in E as [E _]. lia.
Qed.

(** An exchange between readings [begin] and [now] of the local clock, answered with the remote clock at
    a moment in between; the remote clock is [offset] behind the local one. *)
Definition honest (offset : Z) (estimate : Z * Z) : Prop :=
  exists begin_wall begin now moment,
    begin <= now /\ begin_wall <= moment <= begin_wall + (now - begin)
    /\ estimate = clock_estimate begin_wall begin now (moment - offset).

Lemma honest_bound offset e : honest offset e -> Z.abs (e.2 - offset) <= e.1 + 1.
Proof.
  intros (bw & b & n & m & Hb & Hm & ->). unfold clock_estimate. cbn. lia.
Qed.

(** ** Properties *)

(** C19: the agent never leaves a load client behind.  Whatever the parent sends, whenever the child, the
    clocks, [/proc] or the pipes misbehave, and however the run ends (the parent closes its end, a bad
    command, a lost heartbeat, the deadline, a client failure, a failed report), every process the agent
    started has exited when it returns or raises. *)
Theorem agent_stops_child fuel w r w' :
  procs w = [] -> agent fuel w = (r, w') -> all_exited w'.
Proof.
  intros Hp. assert (Hall : all_exited w) by (intros k Hk; rewrite Hp in Hk; cbn in Hk; lia). clear Hp.
  unfold agent. unfold bind at 1. cbv zeta.
  set (start := (id_ <~ identity ; emit "hello" [("identity", id_)] ;~ handshake fuel)).
  assert (Hs : settled start) by (unfold start; settle).
  set (tail := fun c : option handle => fun o : res unit =>
    finally (match o with Ok _ => ret 0 | Err e => stop_child c ;~ emit "error" [("error", VStr (exn_repr e))] ;~ ret 1 end)
      (stop_child c)).
  assert (Htail : forall c o w1 r1 w2,
            match c with None => all_exited w1
            | Some h => (h < length (procs w1))%nat /\ forall k, (k < length (procs w1))%nat -> k <> h -> exited k w1 end ->
            tail c o w1 = (r1, w2) -> all_exited w2).
  { intros c o w1 r1 w2 Hc. unfold tail, finally.
    set (m := match o with Ok _ => _ | Err e => _ end). assert (Hm : settled m) by (unfold m; settle).
    destruct (m w1) as [r3 w3] eqn:Em. pose proof (Hm _ _ _ Em) as [(Hx & _) L].
    destruct (stop_child c w3) as [r4 w4] eqn:Es. pose proof (settled_stop_child _ _ _ _ Es) as [(Hx' & _) L'].
    intros Hr. assert (w2 = w4) as -> by (destruct r4; by injection Hr). intros k Hk. destruct c as [h|].
    - destruct Hc as [Hh Hc]. destruct (decide (k = h)) as [->|Hne].
      + assert (Hh3 : (h < length (procs w3))%nat) by lia. by apply (stop_child_spec h w3 _ _ Hh3 Es).
      + apply Hx', Hx, Hc; [lia|done].
    - apply Hx', Hx, Hc. lia. }
  destruct (start w) as [[[command|]|e] w1] eqn:Est; pose proof (settled_all _ _ _ _ Hs Est Hall) as Hall1.
  - destruct (run_child fuel command w1) as [o w2] eqn:Er.
    destruct (run_child_spec _ _ _ _ _ Hall1 Er) as (c & out & -> & Hc). by apply Htail.
  - by apply (Htail None (Ok tt) w1).
  - by apply (Htail None (Err e) w1).
Qed.

(** An agent asked for the time and then for a run; after the child started, its clock answers nonsense
    and the child ignores the termination. *)
Definition json_line (v : val) : val := match json_dumps v with Ok s => VStr (s +:+ nl) | Err _ => VStr "" end.

Definition sample_agent_answers : list val :=
  [VStr "gen"; VStr "6.1"; VStr "x86_64"; VStr "boot-2"; VList (map VInt [0; 1]); VNone;
   json_line (obj [("kind", VStr "clock")]); VInt 77; VNone;
   json_line (obj [("kind", VStr "run"); ("cpus", VList [VInt 1]); ("connections", VInt 64);
                   ("arguments", VList [VStr "-churn"]); ("max_seconds", VInt 60)]);
   VList (map VInt [0; 1]); VStr "/opt/load"; VStr "binary"; VNone; VInt 4096; VNone; VStr "/tmp/x"; VNone;
   VInt 4711; VNone; VNone; VInt 100].

Definition sample_agent_oracle (n : nat) : turn := Turn [] None (nth n sample_agent_answers VNone) [] false.

Lemma agent_stops_child_witness :
  exists r w', agent 10 (Host [] sample_agent_oracle 0 [] []) = (r, w') /\ procs w' = [Exited (-9)] /\ all_exited w'.
Proof.
  destruct (agent 10 (Host [] sample_agent_oracle 0 [] [])) as [r w'] eqn:E.
  exists r, w'. split; [reflexivity|]. split; [vm_compute in E; injection E as _ <-; reflexivity|].
  apply (agent_stops_child 10 (Host [] sample_agent_oracle 0 [] []) r w'); [reflexivity|exact E].
Defined.



(** C31: the collector never waits for a run that is over.  Whatever sequence of samples, results and
    errors the agent sends before its end of file, every event is taken, the samples are kept in order,
    the last result and the last error survive, and when there is neither, the end of file is itself an
    error: a result or an error is always left. *)
Theorem collect_outcome process l :
  exists r, foldR take_event (new_remote process) (map message_event l ++ [eof]) = Ok r
  /\ rl_samples r = samples_in l
  /\ rl_result r = last_result l
  /\ rl_error r = (if is_none (last_result l) && is_none (last_failure l)
                   then VStr "remote agent closed without a result" else last_failure l)
  /\ (rl_result r <> VNone \/ rl_error r <> VNone).
Proof.
  destruct (take_messages process l) as (r & Hr & Hs & Hres & Herr & _).
  rewrite foldR_app, Hr. cbn [rbind foldR]. unfold take_event at 1. cbn.
  rewrite <- Hres, <- Herr, <- Hs.
  destruct (is_none (rl_result r)) eqn:E1; destruct (is_none (rl_error r)) eqn:E2; cbn; eexists;
    (split; [reflexivity|]); cbn; split_and!; try done; try (by right); try (left; by intros ->; by destruct (rl_result r)).
  - right. intros H. by rewrite H in E2.
  - left. intros H. by rewrite H in E1.
  - left. intros H. by rewrite H in E1.
Qed.

(** a workload file arrives as it was sent: decoding what [start] encodes gives the bytes back. *)
Theorem base64_roundtrip content : b64decode (b64encode content) = Ok content.
Proof.
  unfold b64decode, b64encode, string_bytes. rewrite decode_encode. cbn.
  by rewrite String.string_of_list_ascii_of_string.
Qed.

(** *** What other scripts rely on *)

(** A method of the collector that keeps its process. *)
Definition method_calm {A} (m : io session A) : Prop := forall s r s', m s = (r, s') ->
  later (s_host s) (s_host s') /\ length (procs (s_host s')) = length (procs (s_host s))
  /\ rl_process (s_remote s') = rl_process (s_remote s).

Section MethodCalm.
Context {A B : Type}.
Lemma mcalm_ret (a : A) : method_calm (ret a).
Proof. intros s r s' [= _ <-]. by repeat split. Qed.
Lemma mcalm_throw e : method_calm (throw (A:=A) e).
Proof. intros s r s' [= _ <-]. by repeat split. Qed.
Lemma mcalm_lift (x : res A) : method_calm (lift x).
Proof. intros s r s' [= _ <-]. by repeat split. Qed.
Lemma mcalm_gets (f : session -> A) : method_calm (gets f).
Proof. intros s r s' [= _ <-]. by repeat split. Qed.
Lemma mcalm_on_host (m : io host A) : settled m -> method_calm (on_host m).
Proof.
  intros Hm s r s'. unfold on_host, zoom. destruct (m (s_host s)) as [x h] eqn:E. apply Hm in E as [??].
  by intros [= _ <-].
Qed.
Lemma mcalm_bind (m : io session A) (k : A -> io session B) :
  method_calm m -> (forall a, method_calm (k a)) -> method_calm (bind m k).
Proof.
  intros Hm Hk s r s'. unfold bind. destruct (m s) as [[a|e] s1] eqn:E.
  - intros H. apply Hm in E as (L1 & N1 & E1). apply Hk in H as (L2 & N2 & E2).
    split_and!; [by eapply later_trans|congruence|congruence].
  - intros [= _ <-]. by eapply Hm.
Qed.
Lemma mcalm_catch (m : io session A) h : method_calm m -> (forall e, method_calm (h e)) -> method_calm (catch m h).
Proof.
  intros Hm Hh s r s'. unfold catch. destruct (m s) as [[a|e] s1] eqn:E.
  - intros [= _ <-]. by eapply Hm.
  - intros H. apply Hm in E as (L1 & N1 & E1). apply Hh in H as (L2 & N2 & E2).
    split_and!; [by eapply later_trans|congruence|congruence].
Qed.
End MethodCalm.
#[export] Hint Resolve mcalm_ret mcalm_throw mcalm_lift mcalm_gets mcalm_on_host mcalm_bind mcalm_catch : zhtps.

Lemma mcalm_set_remote f : (forall r, rl_process (f r) = rl_process r) -> method_calm (set_remote f).
Proof. intros Hf s r s' [= _ <-]. split; [apply later_refl|]. split; [done|]. apply Hf. Qed.
Lemma mcalm_stop : method_calm stop.
Proof.
  unfold stop. apply mcalm_bind; [auto with zhtps|]. intros r.
  apply mcalm_bind; [auto with zhtps|]. intros _. by apply mcalm_set_remote.
Qed.
Lemma mcalm_start b a c n m f hb : method_calm (start b a c n m f hb).
Proof.
  unfold start. apply mcalm_bind; [|intros; by apply mcalm_set_remote].
  apply mcalm_on_host. apply settled_bind; [|intros; settle].
  apply settled_foldM. intros s fp. unfold upload_file. settle.
Qed.

Lemma take_event_process r e r' : take_event r e = Ok r' -> rl_process r' = rl_process r.
Proof.
  unfold take_event. intros H. apply rbind_ok in H as (kind & _ & H).
  repeat (case_match; inv_res; subst; try done).
Qed.

Lemma mcalm_drain fuel : method_calm (drain fuel).
Proof.
  induction fuel as [|fuel IH]; cbn [drain]; [apply mcalm_throw|].
  apply mcalm_bind; [|intros [e|]; [|apply mcalm_ret]].
  - apply mcalm_catch; [auto with zhtps|]. intros e. case_match; auto with zhtps.
  - intros s r s'. unfold bind at 1, gets. unfold bind at 1, lift.
    destruct (take_event (s_remote s) e) as [rl|err] eqn:E.
    + unfold bind, set_remote, modify. intros H. apply IH in H. cbn in H.
      by rewrite (take_event_process _ _ _ E) in H.
    + intros [= _ <-]. by repeat split.
Qed.
Lemma mcalm_heartbeat : method_calm heartbeat.
Proof.
  unfold heartbeat. apply mcalm_catch; [|intros e; case_match; auto with zhtps].
  apply mcalm_bind; [auto with zhtps|]. intros _. apply mcalm_bind; [auto with zhtps|]. intros now.
  by apply mcalm_set_remote.
Qed.
Lemma mcalm_collect fuel : method_calm (collect fuel).
Proof.
  unfold collect. apply mcalm_bind; [apply mcalm_drain|]. intros _. apply mcalm_bind; [auto with zhtps|]. intros r.
  apply mcalm_bind; [case_match; auto with zhtps|]. intros _. case_match; [|auto with zhtps].
  apply mcalm_bind; [auto with zhtps|]. intros now. apply mcalm_bind; [auto with zhtps|]. intros due.
  case_match; [apply mcalm_heartbeat|auto with zhtps].
Qed.
Lemma mcalm_completed fuel : method_calm (completed fuel).
Proof. unfold completed. auto using mcalm_collect, mcalm_bind, mcalm_ret, mcalm_gets. Qed.
#[export] Hint Resolve mcalm_stop mcalm_start mcalm_collect mcalm_completed : zhtps.


(** Stopping the SSH process always succeeds and leaves it exited. *)
Lemma stop_process_spec h o w r w' :
  (h < length (procs w))%nat -> stop_process h o w = (r, w') -> r = Ok tt /\ exited h w'.
Proof.
  intros Hh. unfold stop_process.
  set (close := if o then _ else _).
  assert (settled close /\ forall w, exists w1, close w = (Ok tt, w1)) as [Hcs Hco].
  { unfold close, close_pipe. split; [settle|]. intros v. destruct o; [|by eexists].
    unfold catch, bind. destruct (advance v) as [[t|e] v1] eqn:E; [|by unfold advance in E].
    destruct (t_broken t); by eexists. }
  unfold bind at 1. destruct (Hco w) as [w1 E1]. rewrite E1. pose proof (Hcs _ _ _ E1) as [_ L1].
  unfold bind at 1. unfold catch.
  assert (Hok : forall m v, exited h v -> (let '(x, v') := m v in x = Ok tt /\ exited h v') ->
            forall x v', m v = (x, v') -> x = Ok tt /\ exited h v').
  { intros m v _ Hm x v' E. by rewrite E in Hm. }
  destruct ((wait_timeout h ;~ ret tt) w1) as [[u|e] w2] eqn:E2.
  - apply bind_ok in E2 as (c & w3 & E3 & [= _ <-]). apply wait_timeout_ok in E3.
    intros H. split; [by injection H as <- _|]. by apply (settled_wait h _ _ _ H).
  - assert (settled (wait_timeout h ;~ ret tt)) as Hs by settle. pose proof (Hs _ _ _ E2) as [_ L2].
    assert (is_class e TimeoutExpired = true) as ->.
    { unfold bind in E2. destruct (wait_timeout h w1) as [[c|e0] w0] eqn:E0; [discriminate E2|].
      injection E2 as <- _. by eapply wait_timeout_err. }
    destruct (stop_child (Some h) w2) as [x w3] eqn:E3.
    assert (Hh2 : (h < length (procs w2))%nat) by lia.
    destruct (stop_child_spec h w2 x w3 Hh2 E3) as [-> Hx].
    intros H. split; [by injection H as <- _|]. by apply (settled_wait h _ _ _ H).
Qed.

Lemma steady_connect target source transport : steady (connect target source transport).
Proof.
  unfold connect. do 3 (apply steady_bind; [auto with zhtps|intros ?]).
  apply steady_bind; [|intros [? [? ?]]; auto with zhtps].
  apply steady_catch; [auto with zhtps|]. intros e. apply steady_bind; auto with zhtps.
Qed.
#[export] Hint Resolve steady_connect : zhtps.

(** [connect] starts one process and returns its object, or leaves nothing running. *)
Lemma connect_spec target source transport w r w' :
  connect target source transport w = (r, w') ->
  ((forall k, exited k w -> exited k w') /\ (length (procs w) <= length (procs w'))%nat)
  /\ match r with
     | Ok o => rl_process o = length (procs w) /\ length (procs w') = S (length (procs w))
     | Err _ => forall k, (length (procs w) <= k < length (procs w'))%nat -> exited k w'
     end.
Proof.
  unfold connect. intros H. unfold bind at 1, lift in H.
  destruct (guard _ _ _); cbn [fst] in H; [|injection H as <- <-; split; [by split|intros; lia]].
  unfold bind at 1 in H. destruct (read_proc w) as [[u|e] w1] eqn:E1;
    pose proof (settled_read_proc _ _ _ E1) as [(Hx1 & _) L1]; [|injection H as <- <-; split; [split; [done|lia]|intros; lia]].
  unfold bind at 1 in H. destruct (popen _ w1) as [[h|e] w2] eqn:E2.
  2:{ injection H as <- <-. apply popen_err in E2 as L2. pose proof (steady_popen _ _ _ _ E2) as (Hx2 & _).
      split; [split; [auto|lia]|intros; lia]. }
  destruct (popen_ok _ _ _ _ E2) as (-> & L2 & Hx2).
  unfold bind at 1 in H. unfold catch at 1 in H. destruct (greet w2) as [[g|e] w3] eqn:E3;
    pose proof (settled_greet _ _ _ E3) as [(Hx3 & _) L3].
  - destruct g as [id_ [u' o]]. injection H as <- <-. split; [split; [auto|lia]|]. cbn. lia.
  - unfold bind at 1 in H. destruct (stop_process (length (procs w1)) true w3) as [x w4] eqn:E4.
    pose proof (settled_stop_process _ _ _ _ _ E4) as [(Hx4 & _) L4].
    assert (Hh : (length (procs w1) < length (procs w3))%nat) by lia.
    destruct (stop_process_spec _ _ _ _ _ Hh E4) as [-> Hex].
    injection H as <- <-. split; [split; [auto|lia]|]. intros k Hk. replace k with (length (procs w1)) by lia. done.
Qed.

