(* ===== verification/Compare.v ===== *)
(** * [bench/compare.py]: ZHTPS against a minimal Go server

    [build] compiles both servers and the load client, [run_one] measures one of them with a local or a
    remote load client, [summarize] reduces the runs and [main] rotates the variants over the repeats and
    keeps the report on disk.  The programs run over a [host] ([System]); a trial also holds the collector
    of a remote client.  Paths below the repository are given by its root. *)

From stdpp Require Import base list strings.
From Stdlib Require Import ZArith Lia Ascii.
From S2P Require Import Prelude PyFloat PyText PyVal PyJson PyScript Shlex PyStats PyHash Evidence PyIO System ProcSample RemoteLoad.

Local Open Scope Z_scope.
Open Scope py_scope.

(** ** Options *)

(** The parsed arguments.  The scripts that reuse [run_one] leave some attributes out; [getattr] gives
    those the defaults of this record: no client host, no capacities, one worker and so on. *)
Record Options := mkOptions {
  duration : val; warmup : val; repeats : Z; connections_ : list Z; go_cpu_mode : string; client_cores : Z;
  server_address : string; client_host : option string; remote_client_binary : option string;
  ssh_config : option string; variants : list string; allow_errors : bool; zig_workers : Z;
  zig_access_log : bool; zig_max_connections : option Z; zig_max_active : option Z;
  tls_certificate : option string; tls_key : option string; output : string }.

Definition VARIANTS : list string := ["zig_debug"; "zig_release_safe"; "go"].

Definition is_go (variant : string) : bool := String.eqb variant "go".
Definition is_some {A} (o : option A) : bool := match o with Some _ => true | None => false end.

(** ** Processes, ports and clocks *)

(** [command(args, capture_output=True).stdout] *)
Definition command (args : list string) : io host string :=
  r <~ run_process false args ;
  if cp_code r =? 0 then ret (cp_stdout r) else throw (Exn CalledProcessError (join " " args)).

(** [command(args, env=env)], with the output left to the terminal *)
Definition command_shown (args : list string) : io host unit :=
  code <~ run_with wait_end args ;
  if code =? 0 then ret tt else throw (Exn CalledProcessError (join " " args)).

(** One CPU of every core: the first in order, kept when its siblings follow. *)
Definition core_of (cores : dict) (cpu : val) : io host dict :=
  package <~ read_proc ;
  core <~ read_proc ;
  let k := VTuple [VStr (strip package); VStr (strip core)] in
  ret (match dget k cores with Some _ => cores | None => dset k cpu cores end).

Definition sched_getaffinity : io host val :=
  allowed <~ lift_val py_iter external ; lift (rmap VList (py_sorted allowed)).

Definition available_cores : io host (list Z) :=
  allowed <~ lift_val py_iter sched_getaffinity ;
  cores <~ foldM core_of [] allowed ;
  lift (mapR as_int (map snd cores)).

Definition free_port : io host Z := lift_val as_int external.

(** [while admin_port == port: admin_port = free_port()]; [fuel] bounds the attempts. *)
Fixpoint other_port (fuel : nat) (port : Z) : io host Z :=
  match fuel with
  | O => throw (Exn RuntimeError "out of fuel")
  | S fuel => p <~ free_port ; if p =? port then other_port fuel port else ret p
  end.

Definition cpu_seconds : io host val :=
  stat <~ read_proc ;
  tick <~ lift_val as_int clock ;
  lift (fields <- stat_fields stat ;;
        user <- field fields 11 ;;
        system <- field fields 12 ;;
        py_div (VInt (user + system)) (VInt tick)).

(** One request of [wait_ready]: the headers, or [None] when the server is not there yet.  Over TLS only
    the connection differs, which is the environment's. *)
Definition ready_request : io host (option val) :=
  catch
    (external ;~
     status <~ clock ;
     body <~ (if py_eqb status (VInt 200) then external else ret VNone) ;
     (if negb (py_eqb status (VInt 200)) || negb (py_eqb body (VStr ("ZHTPS" +:+ nl)))
      then throw (Exn AssertionError "server response does not match workload") else ret tt) ;~
     headers <~ lift_val py_iter clock ;
     headers <~ lift (dict_by (fun h => idx_at ($h) 0) (fun h => idx_at ($h) 1) headers) ;
     ret (Some (VDict headers)))
    (fun e => if is_oserror (ex_class e) || is_class e HTTPException then advance ;~ ret None else throw e).

(** The loop of [wait_ready]; [fuel] bounds its rounds. *)
Fixpoint ready_loop (fuel : nat) (process : handle) (deadline : val) : io host val :=
  match fuel with
  | O => throw (Exn RuntimeError "out of fuel")
  | S fuel =>
      now <~ clock ;
      before <~ lift ($now <' $deadline) ;
      if negb before then throw (Exn TimeoutError "server did not become ready") else
      code <~ poll process ;
      match code with
      | Some c => throw (Exn RuntimeError ("server exited with " +:+ string_of_Z c +:+ "; io_uring must be permitted"))
      | None =>
          headers <~ ready_request ;
          match headers with Some h => ret h | None => ready_loop fuel process deadline end
      end
  end.

Definition wait_ready (fuel : nat) (process : handle) : io host val :=
  deadline <~ (now <~ clock ; lift ($now +' int 10)) ; ready_loop fuel process deadline.

Definition admin_json (path : string) : io host val :=
  external ;~
  status <~ clock ;
  (if py_eqb status (VInt 200) then ret tt
   else throw (Exn RuntimeError ("admin " +:+ path +:+ ": HTTP " +:+ py_str status))) ;~
  body <~ read_proc ;
  lift (json_loads body).

(** The counters of one interface that belongs to a device, and all of them. *)
Definition nic_counter (d : dict) (name : val) : io host dict :=
  text <~ read_proc ;
  lift (n <- py_int text ;; Ok (dset name (VInt n) d)).
Definition nic_sample (d : dict) (nic : val) : io host dict :=
  device <~ clock ;
  if truthy device then
    names <~ lift_val py_iter external ;
    counters <~ foldM nic_counter [] names ;
    ret (dset nic (VDict counters) d)
  else ret d.
Definition network_sample : io host val :=
  now <~ clock ;
  nics <~ lift_val py_iter external ;
  nics <~ foldM nic_sample [] nics ;
  snmp <~ read_proc ;
  netstat <~ read_proc ;
  ret (obj [("monotonic_ns", now); ("nics", VDict nics); ("snmp", VStr snmp); ("netstat", VStr netstat)]).

(** ** The server of a trial *)

Section Root.
Context (ROOT : string).

Definition BUILD : string := ROOT +:+ "/zig-out/bench".

Definition capacity (o : Options) (connections : Z) : Z :=
  match zig_max_connections o with
  | Some z => z
  | None => if allow_errors o then Z.min (Z.max connections 256) 8168 else Z.max connections 256
  end.
Definition active (o : Options) (connections : Z) : Z :=
  match zig_max_active o with
  | Some z => if z =? 0 then capacity o connections else z
  | None => capacity o connections
  end.

Definition zig_unrestricted (o : Options) (variant : string) : bool := negb (is_go variant) && (1 <? zig_workers o).
Definition go_unrestricted (o : Options) (variant : string) : bool :=
  is_go variant && String.eqb (go_cpu_mode o) "unrestricted".

(** The server's command line before the TLS options. *)
Definition server_args (variant binary : string) (o : Options) (server_cpu connections port admin_port : Z) : list string :=
  (if go_unrestricted o variant || zig_unrestricted o variant then [binary]
   else ["taskset"; "-c"; string_of_Z server_cpu; binary])
  ++ (if is_go variant then ["-listen"; server_address o +:+ ":" +:+ string_of_Z port]
      else ["--port"; string_of_Z port; "--admin-port"; string_of_Z admin_port; "--max-requests"; "4294967295"]
           ++ ["--address"; server_address o]
           ++ (if 1 <? zig_workers o then ["--workers"; string_of_Z (zig_workers o)] else [])
           ++ (if zig_access_log o then [] else ["--no-access-log"])
           ++ ["--max-connections"; string_of_Z (capacity o connections);
               "--max-active"; string_of_Z (active o connections)]).

(** A capacity above the public limit: the server must reject it itself. *)
Definition beyond_capacity (o : Options) (variant : string) (connections : Z) : bool :=
  negb (is_go variant) && (8176 <? capacity o connections + 8).

Definition quoted (s : string) : string := String dquote (s +:+ String dquote "").

Definition capacity_probe (variant : string) (repeat connections : Z) (args : list string) : io host val :=
  probe <~ run_process true args ;
  (if negb (cp_code probe =? 2) || negb (str_contains (quoted "reason" +:+ ":" +:+ quoted "InvalidLimit") (cp_stderr probe))
   then throw (Exn RuntimeError ("unexpected capacity probe: " +:+ string_of_Z (cp_code probe) +:+ " " +:+ cp_stderr probe))
   else ret tt) ;~
  ret (obj [("variant", VStr variant); ("repeat", VInt repeat); ("connections", VInt connections);
            ("outcome", VStr "unsupported"); ("reason", VStr "InvalidLimit");
            ("server_command", VList (map VStr args)); ("server_returncode", VInt (cp_code probe));
            ("server_stderr", VStr (cp_stderr probe)); ("public_connection_limit", VInt 8168)]).

(** [prefix + "tls-certificate", str(path.resolve()), ...] *)
Definition tls_args (variant : string) (o : Options) : io host (list string) :=
  if is_some (tls_certificate o) then
    let prefix := if is_go variant then "-" else "--" in
    certificate <~ answer_text ;
    (if is_some (tls_key o) then ret tt else throw (Exn AttributeError "'NoneType' object has no attribute 'resolve'")) ;~
    key <~ answer_text ;
    ret [prefix +:+ "tls-certificate"; certificate; prefix +:+ "tls-key"; key]
  else ret [].

(** ** The trial *)

Record trial := Trial { t_host : host; t_remote : option remote }.

Definition on_host {A} (m : io host A) : io trial A := zoom t_host (fun h t => Trial h (t_remote t)) m.

(** A method of the collector; the script only calls them when there is one. *)
Definition on_remote {A} (m : io session A) : io trial A := fun t =>
  match t_remote t with
  | None => (raise AttributeError "'NoneType' object has no attribute", t)
  | Some r => let '(x, s) := m (Session (t_host t) r) in (x, Trial (s_host s) (Some (s_remote s)))
  end.

(** [remote = RemoteLoad(client_host, None, transport=transport)] *)
Definition acquire (target source : string) (transport : option (list string)) : io trial remote := fun t =>
  match connect target source transport (t_host t) with
  | (Ok r, h) => (Ok r, Trial h (Some r))
  | (Err e, h) => (Err e, Trial h (t_remote t))
  end.

(** The text of the module the remote side runs is read where [RemoteLoad] needs it. *)
Definition transport_of (o : Options) (target source : string) : option (list string) :=
  match ssh_config o with
  | None => None
  | Some config =>
      Some ["ssh"; "-F"; config; "-T"; "-o"; "BatchMode=yes"; "-o"; "StrictHostKeyChecking=yes";
            "-o"; "ConnectTimeout=10"; "-o"; "ServerAliveInterval=5"; "-o"; "ServerAliveCountMax=3"; target;
            shlex_join ["python3"; "-u"; "-c"; source]]
  end.

(** The collector of a trial with a client host, on another kernel. *)
Definition open_remote (o : Options) (source : string) : io trial unit :=
  match client_host o with
  | None => ret tt
  | Some target =>
      if String.eqb target "" then ret tt else
      (if is_some (ssh_config o) then on_host read_proc ;~ ret tt else ret tt) ;~
      r <~ acquire target source (transport_of o target source) ;
      mine <~ on_host identity ;
      same <~ lift ($(rl_identity r).["boot_id"] ==' $mine.["boot_id"]) ;
      if same : bool then throw (Exn ValueError "load generator shares the server kernel") else ret tt
  end.

(** [cpu_seconds] of every worker thread, before the load. *)
Definition worker_start (d : dict) (w : val) : io host dict :=
  thread <~ lift ($w.["thread"]) ;
  cpu <~ cpu_seconds ;
  k <~ lift (key ($thread)) ;
  ret (dset k cpu d).
Definition worker_starts (workers : val) : io host dict :=
  if truthy workers then l <~ lift (iterR ($workers.["workers"])) ; foldM worker_start [] l else ret [].
(** [str(tid): cpu_seconds(...) - before] *)
Definition worker_end (d : dict) (tb : val * val) : io host dict :=
  cpu <~ cpu_seconds ;
  delta <~ lift ($cpu -' $(tb.2)) ;
  ret (sset (py_str tb.1) delta d).

Definition workers_json (o : Options) (variant : string) : io host val :=
  if (1 <? zig_workers o) && negb (is_go variant) then admin_json "/debug/workers" else ret VNone.

Definition load_arguments (o : Options) (connections port : Z) : list string :=
  ["-address"; server_address o +:+ ":" +:+ string_of_Z port; "-connections"; string_of_Z connections;
   "-duration"; py_str (duration o) +:+ "s"; "-warmup"; py_str (warmup o) +:+ "s"]
  ++ (if is_some (tls_certificate o) then ["-tls"] else [])
  ++ (if allow_errors o then ["-allow-errors"] else []).

(** The loop that waits for the remote client; [fuel] bounds its rounds and the messages of each. *)
Fixpoint await_remote (fuel rounds : nat) (process : handle) (deadline : val) : io trial unit :=
  match rounds with
  | O => throw (Exn RuntimeError "out of fuel")
  | S rounds =>
      finished <~ on_remote (completed fuel) ;
      if finished : bool then ret tt else
      now <~ on_host clock ;
      late <~ lift ($now >=' $deadline) ;
      (if late : bool then throw (Exn TimeoutError "remote load did not finish") else ret tt) ;~
      code <~ on_host (poll process) ;
      (match code with
       | Some _ => throw (Exn RuntimeError "server exited during remote load")
       | None => ret tt
       end) ;~
      on_host (advance ;~ ret tt) ;~
      await_remote fuel rounds process deadline
  end.

(** The load from the collector's host: the client's report and its command. *)
Definition remote_load (fuel : nat) (o : Options) (process : handle) (client_cpus : list Z) (connections port : Z)
    : io trial (val * val) :=
  timeout <~ lift ($(duration o) +' $(warmup o) +' int 90) ;
  on_remote (start (default "" (remote_client_binary o)) (load_arguments o connections port) client_cpus connections
               timeout [] 15) ;~
  r <~ on_remote (gets s_remote) ;
  content <~ on_host read_proc ;
  other <~ lift ($(rl_started r).["binary_sha256"] !=' str (sha256_hex content)) ;
  (if other : bool then throw (Exn ValueError "remote load binary does not match this build") else ret tt) ;~
  deadline <~ (now <~ on_host clock ; lift ($now +' $timeout)) ;
  await_remote fuel fuel process deadline ;~
  r <~ on_remote (gets s_remote) ;
  result <~ lift ($(rl_result r).["client"]) ;
  args <~ lift ($(rl_started r).["command"]) ;
  ret (result, args).

(** The load from this host. *)
Definition local_load (o : Options) (client_cpus : list Z) (connections port : Z) : io host (val * val) :=
  let args := ["taskset"; "-c"; join "," (map string_of_Z client_cpus); BUILD +:+ "/load"]
              ++ load_arguments o connections port in
  with_env [("GOMAXPROCS", Some (string_of_Z (Z.of_nat (length client_cpus))))] ;~
  run <~ run_process true args ;
  (if cp_code run =? 0 then ret tt
   else throw (Exn RuntimeError ("load failed: " +:+ cp_stdout run +:+ nl +:+ cp_stderr run))) ;~
  result <~ lift (json_loads (cp_stdout run)) ;
  ret (result, VList (map VStr args)).

(** [result.update(k=e, ...)] *)
Definition update (result : val) (l : list (string * val)) : expr :=
  d <- py_items result ;; Ok (VDict (dupdate d (map (fun kv => (VStr kv.1, kv.2)) l))).

(** What a remote client adds to the result. *)
Definition remote_columns (network_before network_after : val) (r : remote) (result : val) : expr :=
  started <- py_items (rl_started r) ;;
  let described := VDict (dupdate started
    [(VStr "identity", rl_identity r); (VStr "separate_kernel", VBool true); (VStr "samples", VList (rl_samples r));
     (VStr "clock_offset_ns", rl_clock_offset_ns r); (VStr "clock_uncertainty_ns", rl_clock_uncertainty_ns r)]) in
  update result [("remote_client", described); ("server_network_before", network_before);
                 ("server_network_after", network_after)].

(** The checks that make a result a measurement. *)
Definition check_result (o : Options) (connections : Z) (result : val) : res unit :=
  let r := $result in
  guardR (r.["attempts"] !=' r.["successes"] +' r.["errors"]) AssertionError
    "load outcomes do not account for every attempt" ;;;
  guardR (Ok (negb (allow_errors o)) &&' ((r.["connections_ready"] !=' int connections)
            ||' (r.["connections_measured"] !=' int connections))) AssertionError
    "not every requested connection participated" ;;;
  guardR (Ok (negb (allow_errors o)) &&' (r.["connections_opened"] !=' int connections)) AssertionError
    "connection turnover invalidates a persistent-connection trial".

(** [value if variant != "go" else None] *)
Definition unless_go (variant : string) (v : val) : val := if is_go variant then VNone else v.

(** Everything sampled before the load. *)
Record baseline := Baseline {
  b_go_runtime : val; b_headers : val; b_affinity : val; b_workers : val; b_worker_cpu : dict; b_cpu : val;
  b_network : val; b_started : val }.

Definition before_load (fuel : nat) (source variant : string) (o : Options) (process : handle) : io trial baseline :=
  go_runtime <~ on_host (if is_go variant then line <~ answer_text ; lift (json_loads line) else ret VNone) ;
  headers <~ on_host (wait_ready fuel process) ;
  open_remote o source ;~
  affinity <~ on_host sched_getaffinity ;
  workers <~ on_host (workers_json o variant) ;
  worker_cpu <~ on_host (worker_starts workers) ;
  cpu <~ on_host cpu_seconds ;
  remote <~ gets t_remote ;
  network <~ on_host (if is_some remote then network_sample else ret VNone) ;
  started <~ on_host clock ;
  ret (Baseline go_runtime headers affinity workers worker_cpu cpu network started).

(** The [try] block of [run_one]. *)
Definition measure (fuel : nat) (source variant : string) (o : Options) (process : handle) (args : list string)
    (client_cpus : list Z) (connections repeat port : Z) : io trial val :=
  b <~ before_load fuel source variant o process ;
  remote <~ gets t_remote ;
  let~ (result, load_args) :=
    (if is_some remote then remote_load fuel o process client_cpus connections port
     else on_host (local_load o client_cpus connections port)) in
  elapsed <~ (now <~ on_host clock ; lift ($now -' $(b_started b))) ;
  cpu <~ (after <~ on_host cpu_seconds ; lift ($after -' $(b_cpu b))) ;
  remote <~ gets t_remote ;
  result <~ (match remote with
             | None => ret result
             | Some r => network_after <~ on_host network_sample ;
                         lift (remote_columns (b_network b) network_after r result)
             end) ;
  lift (check_result o connections result) ;~
  workers_after <~ on_host (workers_json o variant) ;
  worker_cpu <~ on_host (foldM worker_end [] (b_worker_cpu b)) ;
  metrics_after <~ on_host (if is_go variant then ret VNone else admin_json "/debug/metrics") ;
  percent <~ lift (int 100 *' $cpu /' $elapsed) ;
  lift (update result
    [("variant", VStr variant); ("repeat", VInt repeat); ("server_command", VList (map VStr args));
     ("client_command", load_args); ("response_headers", b_headers b); ("outcome", VStr "measured");
     ("server_cpus", b_affinity b); ("go_runtime", b_go_runtime b);
     ("zig_workers", unless_go variant (VInt (zig_workers o))); ("workers_before", b_workers b);
     ("workers_after", workers_after); ("worker_cpu_seconds_including_warmup", VDict worker_cpu);
     ("metrics_after", metrics_after); ("zig_connection_capacity", unless_go variant (VInt (capacity o connections)));
     ("zig_max_active", unless_go variant (VInt (active o connections)));
     ("server_cpu_percent_including_warmup", percent)]).

(** The end of the server in the [finally] block of [run_one], and the block. *)
Definition stop_server (process : handle) : io host unit :=
  code <~ poll process ;
  (match code with None => terminate process | Some _ => ret tt end) ;~
  catch (wait_timeout process ;~ ret tt)
    (fun e => if is_class e TimeoutExpired
              then kill process ;~ wait process ;~ throw (Exn RuntimeError "server did not stop within eight seconds")
              else throw e) ;~
  code <~ returncode process ;
  if py_eqb code (VInt 0) || py_eqb code (VInt (-15)) then ret tt
  else throw (Exn RuntimeError ("server exited with " +:+ py_str code)).

Definition shut_down (process : handle) : io trial unit :=
  remote <~ gets t_remote ;
  (if is_some remote then on_remote RemoteLoad.stop else ret tt) ;~
  on_host (stop_server process).

Definition run_one (fuel : nat) (source variant binary : string) (o : Options) (server_cpu : Z) (client_cpus : list Z)
    (connections repeat : Z) : io host val :=
  port <~ free_port ;
  admin_port <~ other_port fuel port ;
  let args := server_args variant binary o server_cpu connections port admin_port in
  if beyond_capacity o variant connections then capacity_probe variant repeat connections args else
  tls <~ tls_args variant o ;
  let args := args ++ tls in
  with_env [("GOMAXPROCS", if go_unrestricted o variant then None else Some "1")] ;~
  process <~ popen args ;
  fun h =>
    let '(r, t) := finally (measure fuel source variant o process args client_cpus connections repeat port)
                     (shut_down process) (Trial h None) in
    (r, t_host t).

(** ** Building *)

(** The commands of [build]; the Zig ones get the cache folders. *)
Definition build_commands : list (list string) :=
  [["zig"; "build"; "-Doptimize=Debug"; "--prefix"; "zig-out/bench/debug"];
   ["zig"; "build"; "--release=safe"; "--prefix"; "zig-out/bench/release_safe"];
   ["go"; "build"; "-o"; "zig-out/bench/go_server"; "bench/go_server/main.go"];
   ["go"; "build"; "-o"; "zig-out/bench/load"; "bench/load/main.go"; "bench/load/offered.go"]].
Definition with_caches (args : list string) : list string :=
  match args with
  | "zig" :: _ => args ++ ["--cache-dir"; "/tmp/zhtps-zig-cache"; "--global-cache-dir"; "/tmp/zhtps-zig-global-cache";
                           "--summary"; "all"]
  | _ => args
  end.
Definition build_step (args : list string) : io host unit :=
  say ("Building: " +:+ join " " args) ;~
  with_env [("GOCACHE", Some "/tmp/zhtps-go-cache")] ;~
  command_shown args.
Definition build : io host (list (list string)) :=
  external ;~
  let commands := map with_caches build_commands in
  each build_step commands ;~
  ret commands.

End Root.

(** ** Reducing the runs *)

Definition column (group : list val) (k : string) : res (list val) := mapR (fun run => $run.[k]) group.

(** The median, the smallest and the largest value of a column, under a name. *)
Definition spread (name : string) (group : list val) (k : string) : list (string * expr) :=
  [(name +:+ "_median", l <- column group k ;; py_median l); (name +:+ "_min", l <- column group k ;; py_min l);
   (name +:+ "_max", l <- column group k ;; py_max l)].

Definition latency_keys : list string := ["p50"; "p95"; "p99"].

Definition measured_row (variant connections : val) (group : list val) : expr :=
  mkdict ([("variant", $variant); ("connections", $connections); ("outcome", str "measured")]
    ++ spread "requests_per_second" group "requests_per_second"
    ++ spread "window_successes_per_second" group "window_successes_per_second"
    ++ [("window_failures_per_run", listR (fun run => orE ($run.["window_failures"]) ($(VDict []))) group);
        ("latency_us_median_of_runs",
           dictcomp latency_keys (fun k => medianR (fun run => $run.["latency_us"].[k]) group));
        ("errors", sumR (fun run => $run.["errors"] +' $run.["warmup_errors"]) group);
        ("server_cpu_percent_median", medianR (fun run => $run.["server_cpu_percent_including_warmup"]) group);
        ("generator_cpu_percent_median", medianR (fun run => $run.["generator_cpu_percent_including_warmup"]) group)]).

Definition group_of (runs : list val) (connections variant : val) : res (list val) :=
  filterR (fun run => ($run.["variant"] ==' $variant) &&' ($run.["connections"] ==' $connections)) runs.

Definition summary_row (runs : list val) (connections variant : val) : expr :=
  group <- group_of runs connections variant ;;
  unsupported <- allR (fun run => $run.["outcome"] ==' str "unsupported") group ;;
  if unsupported : bool then
    mkdict [("variant", $variant); ("connections", $connections); ("outcome", str "unsupported");
            ("reason", (firstR group).["reason"])]
  else measured_row variant connections group.

Definition summarize (runs : list val) (concurrency variants : list val) : res (list val) :=
  rows <- mapR (fun connections => mapR (summary_row runs connections) variants) concurrency ;;
  Ok (concat rows).

(** ** The comparison *)

(** [1 <= z <= hi] *)
Definition in_range (z hi : Z) : bool := (1 <=? z) && (z <=? hi).
Definition none_or (f : Z -> bool) (o : option Z) : bool := match o with Some z => f z | None => true end.

Definition validate (o : Options) : res unit :=
  usage_if (xorb (is_some (tls_certificate o)) (is_some (tls_key o))) "TLS requires both --tls-certificate and --tls-key" ;;;
  valid <- ((int 0 <' $(duration o)) &&' ($(duration o) <=' int 60) &&' (int 0 <' $(warmup o)) &&'
            ($(warmup o) <=' int 30) &&' Ok (in_range (repeats o) 20 && forallb (fun c => in_range c 16384) (connections_ o)
            && in_range (client_cores o) 16)) ;;
  usage_if (negb valid)
    "require duration (0,60], warmup (0,30], repeats 1..20, connections 1..16384, client cores 1..16" ;;;
  usage_if (negb (in_range (zig_workers o) 32)) "require 1..32 Zig workers" ;;;
  usage_if (negb (none_or (fun z => in_range z 8168) (zig_max_connections o)))
    "Zig public connection capacity must be 1..8168" ;;;
  usage_if (negb (none_or (fun z => in_range z 8192) (zig_max_active o)))
    "Zig active-request capacity must be 1..8192".

(** [list(range(n))] *)
Definition range_list (n : Z) : list Z := map Z.of_nat (seq 0 (Z.to_nat n)).

(** The CPU of the server and those of the client. *)
Definition placement (o : Options) (cores : list Z) : res (Z * list Z) :=
  let first := of_option (head cores) IndexError "list index out of range" in
  if given (client_host o) then
    usage_if (negb (given (remote_client_binary o))
              || existsb (String.eqb (server_address o)) ["127.0.0.1"; "0.0.0.0"; "localhost"])
      "remote load requires a binary path and a reachable --server-address" ;;;
    cpu <- first ;; Ok (cpu, range_list (client_cores o))
  else
    usage_if (Z.of_nat (length cores) <? client_cores o + 1)
      "require one physical core for Zig plus the requested client cores" ;;;
    cpu <- first ;; Ok (cpu, take (Z.to_nat (client_cores o)) (drop 1 cores)).

(** The descriptor limit; [RLIM_INFINITY] is -1. *)
Definition raise_limit (o : Options) : io host unit :=
  soft <~ read_clock ;
  hard <~ read_clock ;
  largest <~ lift (v <- py_max (map VInt (connections_ o)) ;; as_int v) ;
  let required := largest + 256 in
  lift (usage_if (negb (hard =? -1) && (hard <? required))
    ("RLIMIT_NOFILE hard limit " +:+ string_of_Z hard +:+ " is below required " +:+ string_of_Z required)) ;~
  external ;~ ret tt.

Section Main.
Context (ROOT : string).

Definition binaries : list (string * string) :=
  [("zig_debug", BUILD ROOT +:+ "/debug/bin/zhtps"); ("zig_release_safe", BUILD ROOT +:+ "/release_safe/bin/zhtps");
   ("go", BUILD ROOT +:+ "/go_server")].

(** [sorted(folder.rglob(pattern))], relative to the root *)
Definition rglob : io host (list string) :=
  l <~ lift_val py_iter external ;
  names <~ lift (mapR as_str l) ;
  ret (map str_path (sorted_paths (map path_of names))).

Definition sha_of (d : dict) (name : string) : io host dict :=
  content <~ read_proc ; ret (sset name (VStr (sha256_hex content)) d).

Definition tls_report (o : Options) : io host val :=
  let enabled := is_some (tls_certificate o) in
  openssl <~ clock ;
  sha <~ (if enabled then content <~ read_proc ; ret (VStr (sha256_hex content)) else ret VNone) ;
  ret (obj [("enabled", VBool enabled); ("version", if enabled then VStr "TLS 1.3" else VNone);
            ("certificate_verification", if enabled then VBool false else VNone);
            ("openssl", openssl); ("certificate_sha256", sha)]).

Definition opt_str (o : option string) : val := match o with Some s => VStr s | None => VNone end.
Definition opt_int (o : option Z) : val := match o with Some z => VInt z | None => VNone end.

(** The report before the first run. *)
Definition initial_report (o : Options) (commands : list (list string)) (server_cpu : Z) (client_cpus : list Z) : io host val :=
  zig_sources <~ rglob ;
  go_sources <~ rglob ;
  let sources := ["build.zig"; "build.zig.zon"] ++ zig_sources ++ go_sources ++ ["bench/compare.py"; "bench/remote_load.py"] in
  timestamp <~ clock ;
  kernel <~ clock ;
  machine <~ clock ;
  cpu <~ command ["lscpu"] ;
  zig <~ command ["zig"; "version"] ;
  go <~ command ["go"; "version"] ;
  go_environment <~ (text <~ command ["go"; "env"; "-json"; "GOAMD64"; "GOEXPERIMENT"] ; lift (json_loads text)) ;
  server_identity <~ identity ;
  tls <~ tls_report o ;
  available <~ sched_getaffinity ;
  limits <~ clock ;
  binary_sha <~ foldM sha_of [] (map fst binaries ++ ["load"]) ;
  source_sha <~ foldM sha_of [] sources ;
  ret (obj
    [("timestamp_utc", timestamp); ("kernel", kernel); ("machine", machine); ("cpu", VStr cpu);
     ("zig", VStr (strip zig)); ("go", VStr (strip go)); ("go_environment", go_environment);
     ("server_cpu", VInt server_cpu); ("client_cpus", VList (map VInt client_cpus)); ("server_identity", server_identity);
     ("server_address", VStr (server_address o)); ("client_host", opt_str (client_host o));
     ("go_cpu_mode", VStr (go_cpu_mode o)); ("tls", tls); ("allow_errors", VBool (allow_errors o));
     ("zig_workers", VInt (zig_workers o)); ("zig_access_log", VBool (zig_access_log o));
     ("zig_max_connections", opt_int (zig_max_connections o)); ("zig_max_active", opt_int (zig_max_active o));
     ("available_cpus", available); ("nofile_limits", limits);
     ("build_commands", VList (map (fun c => VList (map VStr c)) commands));
     ("binary_sha256", VDict binary_sha); ("source_sha256", VDict source_sha);
     ("workload", VStr "HTTP/1.1 GET /, 6-byte ZHTPS\n body, keep-alive, no pipelining, closed loop");
     ("duration_seconds", duration o); ("warmup_seconds", warmup o); ("repeats", VInt (repeats o)); ("runs", VList [])]).

(** The line of a run. *)
Definition fixed (width p : nat) (e : expr) : piece :=
  V (v <- e ;; s <- format_fixed false p v ;; str (rjust width s)).
Definition run_line (o : Options) (repeat : Z) (connections : Z) (variant : string) (result : val) : res string :=
  let r := $result in
  ifR (r.["outcome"] ==' str "unsupported")
    (fstring [F "run "; V (int repeat); F " c="; V (int connections); F " "; F variant; F ": unsupported (";
              V (r.["reason"]); F ")"])
    (fstring [F "run "; V (int repeat); F " c="; F (rjust 3 (string_of_Z connections)); F " "; F (ljust 16 variant); F " ";
              fixed 10 0 (if allow_errors o then r.["window_successes_per_second"] else r.["requests_per_second"]);
              F " req/s p99="; fixed 9 1 (r.["latency_us"].["p99"]); F " us failures=";
              V (orE (r.["window_failures"]) ($(VDict []))); F " server_cpu=";
              fixed 0 1 (r.["server_cpu_percent_including_warmup"]); F "% client_cpu=";
              fixed 0 1 (r.["generator_cpu_percent_including_warmup"]); F "%"]).

(** [report["runs"].append(result)] *)
Definition append_run (report result : val) : expr :=
  runs <- iterR ($report.["runs"]) ;; setR report "runs" ($(VList (runs ++ [result]))).

Definition save (o : Options) (report : val) : io host unit :=
  text <~ lift (json_dumps2 report) ; write_file (output o) (text +:+ nl).

Definition trial_step (fuel : nat) (source : string) (o : Options) (server_cpu : Z) (client_cpus : list Z)
    (repeat connections : Z) (report : val) (variant : string) : io host val :=
  binary <~ lift (of_option (assoc variant binaries) KeyError (repr_str variant)) ;
  result <~ run_one ROOT fuel source variant binary o server_cpu client_cpus connections repeat ;
  report <~ lift (append_run report result) ;
  save o report ;~
  line <~ lift (run_line o repeat connections variant result) ;
  say line ;~
  ret report.

(** One repeat: the variants rotated by its number, for every number of connections. *)
Definition repeat_step (fuel : nat) (source : string) (o : Options) (server_cpu : Z) (client_cpus : list Z)
    (report : val) (repeat : nat) : io host val :=
  foldM (fun report connections =>
           foldM (trial_step fuel source o server_cpu client_cpus (Z.of_nat repeat + 1) connections) report
             (rotate repeat (variants o)))
    report (connections_ o).

(** [main] from its parsed arguments on; [source] is the text of [remote_load.py]. *)
Definition main (fuel : nat) (source : string) (o : Options) : io host val :=
  lift (validate o) ;~
  cores <~ available_cores ;
  let~ (server_cpu, client_cpus) := lift (placement o cores) in
  raise_limit o ;~
  commands <~ build ;
  report <~ initial_report o commands server_cpu client_cpus ;
  external ;~
  report <~ foldM (repeat_step fuel source o server_cpu client_cpus) report (seq 0 (Z.to_nat (repeats o))) ;
  report <~ lift (runs <- iterR ($report.["runs"]) ;;
                  rows <- summarize runs (map VInt (connections_ o)) (map VStr (variants o)) ;;
                  setR report "summary" ($(VList rows))) ;
  save o report ;~
  say ("Wrote " +:+ output o) ;~
  ret report.
End Main.

(** ** Lemmas *)

(** *** Nothing is left running *)

Ltac tidily :=
  repeat first
    [ progress intros
    | solve [auto with zhtps]
    | apply tidy_bind
    | apply tidy_catch
    | apply tidy_foldM
    | case_match
    | apply tidy_settled; settle ].

Lemma settled_sched_getaffinity : settled sched_getaffinity.
Proof. unfold sched_getaffinity. settle. Qed.
Lemma settled_free_port : settled free_port.
Proof. unfold free_port. settle. Qed.
#[export] Hint Resolve settled_sched_getaffinity settled_free_port : zhtps.
Lemma settled_other_port fuel port : settled (other_port fuel port).
Proof. induction fuel; cbn; settle. Qed.
Lemma settled_cpu_seconds : settled cpu_seconds.
Proof. unfold cpu_seconds. settle. Qed.
Lemma settled_ready_request : settled ready_request.
Proof. unfold ready_request. settle. Qed.
#[export] Hint Resolve settled_other_port settled_cpu_seconds settled_ready_request : zhtps.
Lemma settled_ready_loop fuel process deadline : settled (ready_loop fuel process deadline).
Proof. induction fuel; cbn; settle. Qed.
#[export] Hint Resolve settled_ready_loop : zhtps.
Lemma settled_wait_ready fuel process : settled (wait_ready fuel process).
Proof. unfold wait_ready. settle. Qed.
Lemma settled_admin_json path : settled (admin_json path).
Proof. unfold admin_json. settle. Qed.
Lemma settled_nic_sample d nic : settled (nic_sample d nic).
Proof. unfold nic_sample, nic_counter. settle. Qed.
#[export] Hint Resolve settled_wait_ready settled_admin_json settled_nic_sample : zhtps.
Lemma settled_network_sample : settled network_sample.
Proof. unfold network_sample. settle. Qed.
Lemma settled_workers_json o variant : settled (workers_json o variant).
Proof. unfold workers_json. settle. Qed.
Lemma settled_worker_starts workers : settled (worker_starts workers).
Proof. unfold worker_starts, worker_start. settle. Qed.
Lemma settled_worker_end d tb : settled (worker_end d tb).
Proof. unfold worker_end. settle. Qed.
Lemma settled_tls_args variant o : settled (tls_args variant o).
Proof. unfold tls_args. settle. Qed.
#[export] Hint Resolve settled_network_sample settled_workers_json settled_worker_starts settled_worker_end
  settled_tls_args : zhtps.

Lemma tidy_command args : tidy (command args).
Proof. unfold command. tidily. Qed.
Lemma tidy_command_shown args : tidy (command_shown args).
Proof. unfold command_shown. tidily. Qed.
Lemma tidy_local_load ROOT o cpus connections port : tidy (local_load ROOT o cpus connections port).
Proof. unfold local_load. tidily. Qed.
Lemma tidy_capacity_probe variant repeat connections args : tidy (capacity_probe variant repeat connections args).
Proof. unfold capacity_probe. tidily. Qed.
#[export] Hint Resolve tidy_command tidy_command_shown tidy_local_load tidy_capacity_probe : zhtps.

(** The process of the collector, when the trial has one. *)
Definition owned (t : trial) : option handle := option_map rl_process (t_remote t).

(** Of the processes started since [t0] only the collector's may still run. *)
Definition holds (t0 t : trial) : Prop :=
  later (t_host t0) (t_host t)
  /\ (forall k, (length (procs (t_host t0)) <= k < length (procs (t_host t)))%nat -> exited k (t_host t) \/ owned t = Some k)
  /\ (forall k, owned t = Some k -> (length (procs (t_host t0)) <= k < length (procs (t_host t)))%nat).

(** A step that leaves nothing behind and keeps the collector. *)
Definition kept {A} (m : io trial A) : Prop := forall t r t', m t = (r, t') ->
  later (t_host t) (t_host t')
  /\ (forall k, (length (procs (t_host t)) <= k < length (procs (t_host t')))%nat -> exited k (t_host t'))
  /\ owned t' = owned t.

Definition safe {A} (t0 : trial) (m : io trial A) : Prop := forall t r t', holds t0 t -> m t = (r, t') -> holds t0 t'.

(** Safe from a trial without a collector. *)
Definition fresh {A} (t0 : trial) (m : io trial A) : Prop := forall t r t',
  t_remote t = None -> holds t0 t -> m t = (r, t') -> holds t0 t'.

Section Kept.
Context {A B : Type}.

Lemma kept_lift (x : res A) : kept (lift x).
Proof. intros t r t' [= _ <-]. split; [apply later_refl|]. split; [|done]. intros k Hk. lia. Qed.
Lemma kept_gets (f : trial -> A) : kept (gets f).
Proof. intros t r t' [= _ <-]. split; [apply later_refl|]. split; [|done]. intros k Hk. lia. Qed.
Lemma kept_ret (a : A) : kept (ret a).
Proof. apply (kept_lift (Ok a)). Qed.
Lemma kept_throw e : kept (throw (A:=A) e).
Proof. apply (kept_lift (Err e)). Qed.
Lemma kept_on_host (m : io host A) : tidy m -> kept (on_host m).
Proof.
  intros Hm t r t'. unfold on_host, zoom. destruct (m (t_host t)) as [x h] eqn:E. apply Hm in E as [L X].
  by intros [= _ <-].
Qed.
Lemma kept_on_remote (m : io session A) : method_calm m -> kept (on_remote m).
Proof.
  intros Hm t r t'. unfold on_remote, owned. destruct (t_remote t) as [rl|] eqn:Er.
  - destruct (m (Session (t_host t) rl)) as [x s] eqn:E. apply Hm in E as (L & N & P). cbn in *.
    intros [= _ <-]. cbn. rewrite P. split_and!; [done|intros; lia|done].
  - intros [= _ <-]. rewrite Er. split_and!; [apply later_refl|intros; lia|done].
Qed.
Lemma kept_bind (m : io trial A) (k : A -> io trial B) : kept m -> (forall a, kept (k a)) -> kept (bind m k).
Proof.
  intros Hm Hk t r t'. unfold bind. destruct (m t) as [[a|e] t1] eqn:E.
  - intros H. apply Hm in E as (L1 & X1 & O1). apply Hk in H as (L2 & X2 & O2).
    destruct (tidy_trans _ _ _ L1 X1 L2 X2). split_and!; [done|done|congruence].
  - intros [= _ <-]. by eapply Hm.
Qed.
Lemma kept_safe t0 (m : io trial A) : kept m -> safe t0 m.
Proof.
  intros Hm t r t' (L & X & O) (L1 & X1 & O1)%Hm. split_and!; [by eapply later_trans|..].
  - intros k Hk. rewrite O1. destruct (decide (k < length (procs (t_host t)))%nat); [|left; apply X1; lia].
    destruct (X k) as [Hx|?]; [lia|left; by apply L1|by right].
  - intros k. rewrite O1. intros Hk%O. destruct L1 as (_ & N & _). lia.
Qed.
Lemma safe_bind t0 (m : io trial A) (k : A -> io trial B) : safe t0 m -> (forall a, safe t0 (k a)) -> safe t0 (bind m k).
Proof.
  intros Hm Hk t r t' Ht. unfold bind. destruct (m t) as [[a|e] t1] eqn:E; apply Hm in E; try done.
  - by apply Hk.
  - by intros [= _ <-].
Qed.
Lemma fresh_bind t0 (m : io trial A) (k : A -> io trial B) : kept m -> (forall a, fresh t0 (k a)) -> fresh t0 (bind m k).
Proof.
  intros Hm Hk t r t' Hr Ht. unfold bind. destruct (m t) as [[a|e] t1] eqn:E; pose proof (kept_safe t0 _ Hm _ _ _ Ht E) as Ht1.
  - apply Hk; [|done]. apply Hm in E as (_ & _ & O). unfold owned in O. rewrite Hr in O. by destruct (t_remote t1).
  - by intros [= _ <-].
Qed.
Lemma fresh_then t0 (m : io trial A) (k : A -> io trial B) : fresh t0 m -> (forall a, safe t0 (k a)) -> fresh t0 (bind m k).
Proof.
  intros Hm Hk t r t' Hr Ht. unfold bind. destruct (m t) as [[a|e] t1] eqn:E; apply Hm in E; try done.
  - by apply Hk.
  - by intros [= _ <-].
Qed.
Lemma safe_fresh t0 (m : io trial A) : safe t0 m -> fresh t0 m.
Proof. intros Hm t r t' _. apply Hm. Qed.
End Kept.
#[export] Hint Resolve kept_lift kept_gets kept_ret kept_throw kept_on_host kept_on_remote kept_bind : zhtps.

Ltac keeps_all :=
  repeat first
    [ progress intros
    | solve [auto with zhtps]
    | apply kept_bind
    | apply kept_on_host
    | case_match
    | apply tidy_settled; settle ].

Lemma fresh_acquire t0 target source transport : fresh t0 (acquire target source transport).
Proof.
  intros t r t' Hr (L & X & O). unfold acquire. destruct (connect target source transport (t_host t)) as [c h] eqn:E.
  destruct (connect_spec _ _ _ _ _ _ E) as [[Hx Hlen] H].
  assert (L' : later (t_host t) h).
  { split_and!; [done|done|]. by apply steady_connect in E as (_ & _ & ?). }
  destruct c as [rl|e]; intros [= _ <-]; unfold holds, owned; cbn.
  - destruct H as [Hp N]. rewrite Hp. split_and!; [by eapply later_trans| |intros k [= <-]; destruct L as (_ & ? & _); lia].
    intros k Hk. destruct (decide (k = length (procs (t_host t)))) as [->|]; [by right|]. left.
    destruct (X k) as [?|Ho]; [lia|auto|]. unfold owned in Ho. by rewrite Hr in Ho.
  - rewrite Hr. split_and!; [by eapply later_trans| |done]. intros k Hk. left.
    destruct (decide (k < length (procs (t_host t)))%nat); [|apply H; lia].
    destruct (X k) as [?|Ho]; [lia|auto|]. unfold owned in Ho. by rewrite Hr in Ho.
Qed.

Lemma kept_await_remote fuel rounds process deadline : kept (await_remote fuel rounds process deadline).
Proof. induction rounds; cbn; keeps_all. Qed.
#[export] Hint Resolve kept_await_remote : zhtps.
Lemma kept_remote_load fuel o process cpus connections port : kept (remote_load fuel o process cpus connections port).
Proof. unfold remote_load. keeps_all. Qed.
#[export] Hint Resolve kept_remote_load : zhtps.

Lemma fresh_open_remote t0 o source : fresh t0 (open_remote o source).
Proof.
  unfold open_remote. case_match; [|apply safe_fresh, kept_safe; auto with zhtps].
  case_match; [apply safe_fresh, kept_safe; auto with zhtps|].
  apply fresh_bind; [keeps_all|]. intros _. apply fresh_then; [apply fresh_acquire|]. intros r. apply kept_safe. keeps_all.
Qed.

Lemma fresh_before_load t0 fuel source variant o process : fresh t0 (before_load fuel source variant o process).
Proof.
  unfold before_load. apply fresh_bind; [keeps_all|]. intros runtime. apply fresh_bind; [keeps_all|]. intros headers.
  apply fresh_then; [apply fresh_open_remote|]. intros _. apply kept_safe. keeps_all.
Qed.

Lemma fresh_measure ROOT t0 fuel source variant o process args cpus connections repeat port :
  fresh t0 (measure ROOT fuel source variant o process args cpus connections repeat port).
Proof.
  unfold measure. apply fresh_then; [apply fresh_before_load|]. intros b. apply kept_safe. keeps_all.
Qed.

Lemma settled_stop_server process : settled (stop_server process).
Proof. unfold stop_server. settle. Qed.

(** Whatever stopping the server raises, it has exited. *)
Lemma stop_server_spec h w r w' : (h < length (procs w))%nat -> stop_server h w = (r, w') -> exited h w'.
Proof.
  intros Hp H. unfold stop_server in H. unfold bind at 1 in H.
  destruct (poll h w) as [[c|e] w1] eqn:Ep; [|by unfold poll, bind in Ep].
  pose proof (settled_poll _ _ _ _ Ep) as [_ N3]. unfold bind at 1 in H.
  set (m2 := match c with Some _ => _ | None => _ end) in H.
  assert (H2 : exists w2, m2 w1 = (Ok tt, w2) /\ length (procs w2) = length (procs w1)).
  { unfold m2. destruct c; [by exists w1|]. destruct (terminate h w1) as [z v'] eqn:Et.
    pose proof (settled_terminate _ _ _ _ Et) as [_ ?]. injection Et as <- <-. eexists. split; [reflexivity|done]. }
  destruct H2 as (w2 & E3 & N4). rewrite E3 in H. clear E3 m2. unfold bind at 1, catch at 1 in H.
  destruct ((wait_timeout h ;~ ret tt) w2) as [[u|e] w3] eqn:Ew.
  - apply bind_ok in Ew as (z & w4 & Ew & [= _ <-]). apply wait_timeout_ok in Ew.
    match type of H with ?m _ = _ => assert (Hm : settled m) by settle end. apply Hm in H as [(Hx & _) _]. by apply Hx.
  - assert (Hs : settled (wait_timeout h ;~ ret tt)) by settle. pose proof (Hs _ _ _ Ew) as [_ N5].
    assert (is_class e TimeoutExpired = true) as Hc.
    { unfold bind in Ew. destruct (wait_timeout h w2) as [[z|e0] w0] eqn:E0; [discriminate Ew|].
      injection Ew as <- _. by eapply wait_timeout_err. }
    rewrite Hc in H. unfold bind at 1 in H. destruct (kill h w3) as [[u|e3] w4] eqn:Ek; [|by unfold kill, bind in Ek].
    apply kill_exited in Ek; [|lia]. unfold bind, wait in H. cbn in H. injection H as _ <-.
    destruct Ek as (z & Hz). by apply (settled_wait h w4 _ _ eq_refl); exists z.
Qed.

(** The [finally] block ends the collector and the server. *)
Lemma shut_down_spec h0 process t r t' :
  holds (Trial h0 None) t -> (process < length (procs h0))%nat -> shut_down process t = (r, t') ->
  later h0 (t_host t') /\ exited process (t_host t')
  /\ forall k, (length (procs h0) <= k < length (procs (t_host t')))%nat -> exited k (t_host t').
Proof.
  intros (L & X & O) Hp H. cbn in L, X, O. unfold shut_down in H. unfold bind at 1, gets at 1 in H.
  set (first := if is_some (t_remote t) then _ else _) in H.
  assert (Hf : forall x t1, first t = (x, t1) -> x = Ok tt /\ later (t_host t) (t_host t1)
            /\ length (procs (t_host t1)) = length (procs (t_host t)) /\ forall k, owned t = Some k -> exited k (t_host t1)).
  { unfold first, owned in *. intros x t1 E. destruct (t_remote t) as [rl|] eqn:Er; cbn in *.
    - unfold on_remote in E. rewrite Er in E. destruct (stop (Session (t_host t) rl)) as [y s] eqn:Es.
      pose proof (mcalm_stop _ _ _ Es) as (L1 & N1 & _). injection E as <- <-. cbn in *.
      unfold stop, bind, gets, RemoteLoad.on_host, zoom in Es. cbn in Es.
      destruct (stop_process (rl_process rl) (rl_stdin_open rl) (t_host t)) as [z w] eqn:Ez.
      destruct (stop_process_spec (rl_process rl) _ _ _ _ (proj2 (O _ eq_refl)) Ez) as [-> Hx].
      injection Es as <- <-. cbn in *. split_and!; try done. by intros k [= <-].
    - injection E as <- <-. split_and!; try done; apply later_refl. }
  unfold bind at 1 in H. destruct (first t) as [x t1] eqn:E1. destruct (Hf _ _ eq_refl) as (-> & L1 & N1 & X1). clear Hf.
  unfold on_host, zoom in H. destruct (stop_server process (t_host t1)) as [y w] eqn:E2.
  injection H as _ <-. cbn. pose proof (settled_stop_server _ _ _ _ E2) as [L2 N2].
  destruct L as (? & Nl & ?). apply stop_server_spec in E2; [|lia].
  split_and!; [by do 2 (eapply later_trans; [done|])|done|]. intros k Hk.
  destruct (X k) as [?|?]; [lia|by apply L2, L1|by apply L2, X1].
Qed.

Lemma tidy_run_one ROOT fuel source variant binary o cpu cpus connections repeat :
  tidy (run_one ROOT fuel source variant binary o cpu cpus connections repeat).
Proof.
  unfold run_one. apply tidy_bind; [auto with zhtps|]. intros port. apply tidy_bind; [auto with zhtps|]. intros admin.
  cbv zeta. case_match; [auto with zhtps|]. apply tidy_bind; [auto with zhtps|]. intros tls.
  apply tidy_bind; [auto with zhtps|]. intros _. apply tidy_popen. intros h w r w' Hh. unfold finally.
  match goal with |- context [measure ?a ?b ?c ?d ?e ?f ?g ?h0 ?i ?j ?k ?t] =>
    destruct (measure a b c d e f g h0 i j k t) as [r1 t1] eqn:E1 end.
  apply (fresh_measure _ (Trial w None)) in E1; [|done|split_and!; [apply later_refl|cbn; intros; lia|done]].
  destruct (shut_down h t1) as [r2 t2] eqn:E2. apply (shut_down_spec w) in E2 as (L & Hx & X); [|done..].
  destruct r2; intros [= _ <-]; done.
Qed.
#[export] Hint Resolve tidy_run_one : zhtps.

Lemma tidy_available_cores : tidy available_cores.
Proof. unfold available_cores, core_of. tidily. Qed.
Lemma tidy_raise_limit o : tidy (raise_limit o).
Proof. unfold raise_limit. tidily. Qed.
Lemma tidy_build : tidy build.
Proof. unfold build, build_step. cbv zeta. tidily. Qed.
Lemma tidy_initial_report ROOT o commands cpu cpus : tidy (initial_report ROOT o commands cpu cpus).
Proof. unfold initial_report, rglob, tls_report, sha_of. cbv zeta. tidily. Qed.
Lemma tidy_repeat_step ROOT fuel source o cpu cpus report repeat :
  tidy (repeat_step ROOT fuel source o cpu cpus report repeat).
Proof. unfold repeat_step, trial_step, save. tidily. Qed.
#[export] Hint Resolve tidy_available_cores tidy_raise_limit tidy_build tidy_initial_report tidy_repeat_step : zhtps.
Lemma tidy_main ROOT fuel source o : tidy (main ROOT fuel source o).
Proof. unfold main, save. tidily. Qed.

(** *** Results *)

Lemma sget_dupdate k d l :
  sget k (dupdate d (map (fun kv : string * val => (VStr kv.1, kv.2)) l))
  = match assoc k (rev l) with Some v => Some v | None => sget k d end.
Proof.
  unfold dupdate. revert d. induction l as [|[k' v] l IH] using rev_ind; intros d; [done|].
  rewrite map_app, foldl_app, rev_app_distr. cbn [map foldl fst snd rev app assoc]. change (dset (VStr k') v) with (sset k' v). rewrite sget_sset.
  destruct (String.eqb k k'); [done|apply IH].
Qed.

Lemma update_get result l row k :
  update result l = Ok row ->
  idx (Ok row) k = match assoc k (rev l) with Some v => Ok v | None => idx (Ok result) k end.
Proof.
  unfold update. intros (d & Hd & H)%rbind_ok. injection H as <-. destruct result; try discriminate. injection Hd as ->.
  unfold idx. cbn. change (dget (VStr k)) with (sget k). rewrite sget_dupdate. by destruct (assoc k (rev l)).
Qed.

(** The accounting of a result, as the script compares it. *)
Definition accounted (o : Options) (connections : Z) (row : val) : Prop :=
  eqR ($row.["attempts"]) ($row.["successes"] +' $row.["errors"]) = Ok true
  /\ (allow_errors o = false ->
      eqR ($row.["connections_ready"]) (int connections) = Ok true
      /\ eqR ($row.["connections_measured"]) (int connections) = Ok true
      /\ eqR ($row.["connections_opened"]) (int connections) = Ok true).

Lemma guardR_not a cls msg u : guardR (notR a) cls msg = Ok u -> a = Ok true.
Proof.
  unfold guardR, notR. intros (b & Hb & H)%rbind_ok. apply rmap_ok in Hb as (c & -> & ->). apply guard_ok in H.
  by destruct c.
Qed.

Lemma check_result_ok o connections result u :
  check_result o connections result = Ok u -> accounted o connections result.
Proof.
  unfold check_result, accounted. intros H. apply rbind_ok in H as (u1 & H1%guardR_not & H).
  apply rbind_ok in H as (u2 & H2 & H). split; [done|]. intros Ho. rewrite Ho in *. cbn [negb andR rbind] in *.
  unfold andR in H, H2. cbn [rbind] in H, H2. apply guardR_not in H. unfold guardR in H2.
  apply rbind_ok in H2 as (b & H2 & Hg). apply guard_ok in Hg as ->. unfold orR in H2.
  apply rbind_ok in H2 as (x & Hx & H2). destruct x; [done|]. unfold notR in *.
  apply rmap_ok in Hx as (y & Hy & ?). apply rmap_ok in H2 as (z & Hz & ?). destruct y, z; done.
Qed.

(** What [update] did not name is kept. *)
Lemma update_keeps result l row k :
  update result l = Ok row -> existsb (String.eqb k) (map fst l) = false -> idx (Ok row) k = idx (Ok result) k.
Proof.
  intros Hu Hk. rewrite (update_get _ _ _ k Hu). replace (assoc k (rev l)) with (@None val); [done|]. symmetry.
  clear Hu. induction l as [|[k' v] l IH] using rev_ind; [done|]. rewrite map_app, existsb_app in Hk. cbn in Hk.
  apply orb_false_iff in Hk as [Hk Hk']. rewrite orb_false_r in Hk'. rewrite rev_app_distr. cbn. rewrite Hk'. by apply IH.
Qed.

(** Columns the final update does not touch keep the accounting. *)
Lemma accounted_update o connections result l row :
  forallb (fun k => negb (existsb (String.eqb k) (map fst l)))
    ["attempts"; "successes"; "errors"; "connections_ready"; "connections_measured"; "connections_opened"] = true ->
  update result l = Ok row -> accounted o connections result -> accounted o connections row.
Proof.
  intros Hl Hu. pose proof (fun k => update_keeps _ _ _ k Hu) as Hk.
  cbn [forallb] in Hl. bsimp. unfold accounted.
  rewrite (Hk "attempts"), (Hk "successes"), (Hk "errors"), (Hk "connections_ready"), (Hk "connections_measured"),
    (Hk "connections_opened") by assumption. done.
Qed.

(** What a result of [run_one] says. *)
Definition trial_result (o : Options) (trial_ : Z * Z * string) (row : val) : Prop :=
  let '(repeat, connections, variant) := trial_ in
  $row.["variant"] = Ok (VStr variant) /\ $row.["repeat"] = Ok (VInt repeat)
  /\ if beyond_capacity o variant connections
     then $row.["outcome"] = Ok (VStr "unsupported") /\ $row.["connections"] = Ok (VInt connections)
     else $row.["outcome"] = Ok (VStr "measured") /\ accounted o connections row.

Ltac next H := let x := fresh "x" in let w := fresh "w" in let E := fresh "E" in
  apply bind_ok in H as (x & w & E & H).

Lemma measure_result ROOT fuel source variant o process args cpus connections repeat port t row t' :
  measure ROOT fuel source variant o process args cpus connections repeat port t = (Ok row, t') ->
  $row.["variant"] = Ok (VStr variant) /\ $row.["repeat"] = Ok (VInt repeat)
  /\ $row.["outcome"] = Ok (VStr "measured") /\ accounted o connections row.
Proof.
  unfold measure. intros H. do 2 next H. apply bind_ok in H as ([result load_args] & wl & _ & H). do 4 next H.
  apply bind_ok in H as (u & wc & Hc & H). apply lift_ok in Hc as [Hc _]. do 4 next H.
  apply lift_ok in H as [H _]. split_and!.
  - by rewrite (update_get _ _ _ "variant" H).
  - by rewrite (update_get _ _ _ "repeat" H).
  - by rewrite (update_get _ _ _ "outcome" H).
  - eapply accounted_update, check_result_ok, Hc; [|exact H]. reflexivity.
Qed.

Lemma run_one_result ROOT fuel source variant binary o cpu cpus connections repeat w row w' :
  run_one ROOT fuel source variant binary o cpu cpus connections repeat w = (Ok row, w') ->
  trial_result o (repeat, connections, variant) row.
Proof.
  unfold run_one, trial_result. intros H. do 2 next H. cbv zeta in H. destruct (beyond_capacity o variant connections).
  - unfold capacity_probe in H. do 2 next H. injection H as <- _. by split_and!.
  - do 3 next H. unfold finally in H.
    match type of H with context [measure ?a ?b ?c ?d ?e ?f ?g ?h ?i ?j ?k ?t] =>
      destruct (measure a b c d e f g h i j k t) as [r1 t1] eqn:Em end.
    match type of H with context [shut_down ?p ?t] => destruct (shut_down p t) as [[u|e] t2] end; [|discriminate H].
    injection H as -> _. by eapply measure_result.
Qed.

(** The trials of a comparison in their order. *)
Definition trials_of (o : Options) (order : nat -> list string) (repeat : nat) : list (Z * Z * string) :=
  concat (map (fun c => map (fun v => (Z.of_nat repeat + 1, c, v)) (order repeat)) (connections_ o)).
Definition schedule (o : Options) : list (Z * Z * string) :=
  concat (map (trials_of o (fun repeat => rotate repeat (variants o))) (seq 0 (Z.to_nat (repeats o)))).
(** Every repeat, number of connections and variant once. *)
Definition matrix (o : Options) : list (Z * Z * string) :=
  concat (map (trials_of o (fun _ => variants o)) (seq 0 (Z.to_nat (repeats o)))).

Lemma concat_map_perm {A B} (f g : A -> list B) l : (forall x, f x ≡ₚ g x) -> concat (map f l) ≡ₚ concat (map g l).
Proof. intros H. induction l as [|x l IH]; [done|]. cbn. by rewrite H, IH. Qed.

Lemma concat_map_single {A B} (f : A -> B) l : concat (map (fun x => [f x]) l) = map f l.
Proof. induction l as [|x l IH]; cbn; [done|]. by rewrite IH. Qed.

Lemma schedule_perm o : schedule o ≡ₚ matrix o.
Proof. apply concat_map_perm. intros r. apply concat_map_perm. intros c. by rewrite rotate_perm. Qed.

Definition has_runs (report : val) (runs : list val) : Prop := $report.["runs"] = Ok (VList runs).

Lemma trial_step_rows ROOT fuel source o cpu cpus repeat connections report variant w report' w' runs :
  has_runs report runs ->
  trial_step ROOT fuel source o cpu cpus repeat connections report variant w = (Ok report', w') ->
  exists rows, Forall2 (trial_result o) [(repeat, connections, variant)] rows /\ has_runs report' (runs ++ rows).
Proof.
  unfold has_runs, trial_step. intros Hr H. next H. apply bind_ok in H as (row & wr & Hrun & H). next H.
  apply lift_ok in E0 as [E0 _]. do 3 next H. injection H as -> _. exists [row].
  split; [repeat constructor; by eapply run_one_result|]. unfold append_run in E0. unfold iterR in E0.
  rewrite Hr in E0. cbn [rbind py_iter] in E0. apply setR_new in E0 as (v & [= <-] & ->). done.
Qed.

Lemma repeat_step_rows ROOT fuel source o cpu cpus report repeat w report' w' runs :
  has_runs report runs ->
  repeat_step ROOT fuel source o cpu cpus report repeat w = (Ok report', w') ->
  exists rows, Forall2 (trial_result o) (trials_of o (fun repeat => rotate repeat (variants o)) repeat) rows
               /\ has_runs report' (runs ++ rows).
Proof.
  unfold repeat_step, trials_of. intros Hr H.
  eapply foldM_rows in H as (rows & Hrows & Hr'); [by exists rows| |exact Hr]. intros s1 c w1 s2 w2 xs Hs H1.
  eapply (foldM_rows _ has_runs (fun v => [(Z.of_nat repeat + 1, c, v)])) in H1 as (ys & Hys & Hs');
    [exists ys; split; [by rewrite <- concat_map_single|exact Hs']| |exact Hs].
  intros s3 v w3 s4 w4 zs Hs3 H3. by eapply trial_step_rows in H3.
Qed.

Lemma summarize_length runs concurrency vs rows :
  summarize runs concurrency vs = Ok rows -> length rows = (length concurrency * length vs)%nat.
Proof.
  unfold summarize. intros (rss & Hrss & [= <-])%rbind_ok. apply mapR_ok in Hrss.
  induction Hrss as [|c rs cs rss Hc _ IH]; [done|]. cbn. rewrite length_app, IH. by rewrite (mapR_length _ _ _ Hc).
Qed.

(** *** A comparison of one variant *)

Definition sample_options : Options :=
  mkOptions (VInt 5) (VInt 1) 1 [1] "single" 1 "127.0.0.1" None None None ["go"] false 1 true None None None None "out.json".

Definition answered (v : val) : turn := Turn [] None v [] false.
Definition ended (h : handle) (c : Z) : turn := Turn [(h, c)] None VNone [] false.
Definition text_ (s : string) : turn := answered (VStr s).
Definition number_ (z : Z) : turn := answered (VInt z).
Definition blank : turn := answered VNone.
(** A captured command: started, its two outputs, its end. *)
Definition command_turns (stdout : string) : list turn := [blank; text_ stdout; text_ ""; number_ 0].
Definition stat_text : string := "12 (zhtps) S 1 1 1 0 -1 4194304 100 0 0 0 150 50 0 0 20 0 1 0".
Definition load_text : string := match json_dumps (obj
  [("attempts", VInt 10); ("successes", VInt 10); ("errors", VInt 0); ("connections", VInt 1);
   ("connections_ready", VInt 1); ("connections_measured", VInt 1); ("connections_opened", VInt 1);
   ("requests_per_second", VInt 2); ("window_successes_per_second", VInt 2); ("window_failures", VNone);
   ("latency_us", obj [("p50", VInt 1); ("p95", VInt 2); ("p99", VInt 3)]); ("warmup_errors", VInt 0);
   ("generator_cpu_percent_including_warmup", VInt 7)]) with Ok s => s | Err _ => "" end.

Definition sample_turns : list turn :=
  [answered (VList [VInt 0; VInt 1]); text_ "0"; text_ "0"; text_ "0"; text_ "1"; number_ 1024; number_ 4096; blank]
  ++ [blank] ++ concat (repeat [blank; blank; number_ 0] 4)
  ++ [answered (VList []); answered (VList []); text_ "now"; text_ "6.1"; text_ "x86_64"]
  ++ command_turns "cpus" ++ command_turns "0.15" ++ command_turns "go1.25" ++ command_turns "{}"
  ++ [text_ "gen"; text_ "6.1"; text_ "x86_64"; text_ "boot"; answered (VList [VInt 0])]
  ++ [text_ "OpenSSL"; answered (VList [VInt 0]); answered (VTuple [VInt 1024; VInt 4096])]
  ++ repeat (text_ "bytes") 8 ++ [blank]
  ++ [number_ 9000; number_ 9001; blank; text_ "{}"; number_ 0; number_ 1; blank; blank; number_ 200;
      text_ ("ZHTPS" +:+ nl); answered (VList []); answered (VList [VInt 0]); text_ stat_text; number_ 100; number_ 2]
  ++ [blank; text_ load_text; text_ ""; ended 9 0; number_ 7; text_ stat_text; number_ 100]
  ++ [blank; blank; ended 8 (-15)].

Definition sample_host : host := Host [] (fun n => nth n sample_turns blank) 0 [] [].

(** ** Properties *)

(** However a comparison ends - success, a refused argument, a failed build, a server that does not start, a load
    client that times out, a collector that is lost, a result that does not add up, a fault of the environment at any
    call - every process [main] started has exited: builds, version commands, servers, load clients and collectors. *)
Theorem compare_stops_everything ROOT fuel source o h r h' :
  procs h = [] -> main ROOT fuel source o h = (r, h') -> all_exited h'.
Proof. intros Hh. by apply tidy_all_exited; [apply tidy_main|]. Qed.

Lemma compare_stops_everything_witness :
  exists r h', main "/r" 10 "text" sample_options sample_host = (r, h')
  /\ procs h' = [Exited 0; Exited 0; Exited 0; Exited 0; Exited 0; Exited 0; Exited 0; Exited 0; Exited (-15); Exited 0]
  /\ all_exited h'.
Proof.
  destruct (main "/r" 10 "text" sample_options sample_host) as [r h'] eqn:E. exists r, h'. split; [reflexivity|].
  split; [vm_compute in E; injection E as _ <-; reflexivity|].
  exact (compare_stops_everything "/r" 10 "text" sample_options sample_host r h' eq_refl E).
Defined.

(** C21: A comparison that succeeds is complete and adds up.  Its runs are, in order, one for every trial of the schedule
    - each repeat, number of connections and variant exactly once, the variants rotated by the repeat - and each is a
    measurement in which successes and errors account for every attempt and, unless errors are allowed, every requested
    connection was ready, measured and opened once; only a ZHTPS capacity beyond the public limit is reported as
    unsupported instead, after the server itself rejected it.  The summary is that of these runs, one row per number of
    connections and variant. *)
Theorem comparison_complete ROOT fuel source o h report h' :
  main ROOT fuel source o h = (Ok report, h') ->
  exists runs rows,
    $report.["runs"] = Ok (VList runs) /\ $report.["summary"] = Ok (VList rows)
    /\ Forall2 (trial_result o) (schedule o) runs /\ schedule o ≡ₚ matrix o
    /\ summarize runs (map VInt (connections_ o)) (map VStr (variants o)) = Ok rows
    /\ length rows = (length (connections_ o) * length (variants o))%nat.
Proof.
  unfold main. intros H. do 2 next H. apply bind_ok in H as ([cpu cpus] & wp & _ & H). do 2 next H.
  apply bind_ok in H as (report0 & wi & Hi & H). next H. apply bind_ok in H as (report1 & wl & Hl & H).
  apply bind_ok in H as (report2 & ws & Hs & H). do 2 next H. injection H as -> _.
  assert (H0 : has_runs report0 []).
  { unfold initial_report in Hi. repeat next Hi. injection Hi as <- _. by unfold has_runs, idx. }
  eapply foldM_rows in Hl as (runs & Hruns & H1); [|intros *; apply repeat_step_rows|exact H0].
  apply lift_ok in Hs as [Hs _]. unfold iterR, has_runs in *. rewrite H1 in Hs. cbn [rbind py_iter app] in Hs.
  apply rbind_ok in Hs as (rows & Hrows & Hs). exists runs, rows. split_and!.
  - by apply (setR_keeps "runs") in Hs; [apply Hs|].
  - by apply setR_new in Hs as (v & [= <-] & ->).
  - done.
  - apply schedule_perm.
  - done.
  - apply summarize_length in Hrows. by rewrite !length_map in Hrows.
Qed.

Lemma comparison_complete_witness :
  exists report h' runs rows, main "/r" 10 "text" sample_options sample_host = (Ok report, h')
  /\ $report.["runs"] = Ok (VList runs) /\ $report.["summary"] = Ok (VList rows)
  /\ Forall2 (trial_result sample_options) (schedule sample_options) runs
  /\ schedule sample_options ≡ₚ matrix sample_options
  /\ summarize runs [VInt 1] [VStr "go"] = Ok rows /\ length rows = 1%nat.
Proof.
  assert (B : is_ok (main "/r" 10 "text" sample_options sample_host).1 = true) by (vm_compute; reflexivity).
  destruct (main "/r" 10 "text" sample_options sample_host) as [[report|e] h'] eqn:E; [|discriminate B].
  destruct (comparison_complete "/r" 10 "text" sample_options sample_host report h' E) as (runs & rows & H).
  exists report, h', runs, rows. exact (conj eq_refl H).
Defined.
