(* ===== verification/CheckClient.v ===== *)
(** * [bench/check_client.py]: the generator's CPUs are not the limit

    Three rotated repeats of one case of [compare.py], with four and with eight CPUs for the load client. *)

From stdpp Require Import base list strings.
From Stdlib Require Import ZArith Lia Ascii.
From S2P Require Import Prelude PyFloat PyText PyVal PyJson PyScript PyStats PyHash Evidence PyIO System ProcSample RemoteLoad Compare.

Local Open Scope Z_scope.
Open Scope py_scope.

(** [SimpleNamespace(duration=3, warmup=1)]: what [run_one] looks up with a default has that default.  The other options are
    not looked at by [run_one]. *)
Definition options : Options :=
  mkOptions (VInt 3) (VInt 1) 3 [128] "unrestricted" 8 "127.0.0.1" None None None ["zig_release_safe"] false 1 true None None None None "".

(** [(4, 8) if repeat % 2 == 0 else (8, 4)] *)
Definition counts (repeat : nat) : list Z := if Nat.even repeat then [4; 8] else [8; 4].
(** [cores[1:count + 1]] *)
Definition load_cores (cores : list Z) (count : Z) : list Z := take (Z.to_nat count) (tail cores).

Definition run_line (count : Z) (result : val) : res string :=
  fstring [F "client cores="; V (int count); F ": "; fixed 0 0 ($result.["requests_per_second"]); F " req/s"].

Section Root.
Context (ROOT : string).

Definition binary : string := BUILD ROOT +:+ "/release_safe/bin/zhtps".
Definition output_path : string := str_path (under (path_of ROOT) "docs/go-comparison-client-check.json").

Definition count_step (fuel : nat) (source : string) (cores : list Z) (repeat : nat) (runs : list val) (count : Z) : io host (list val) :=
  server <~ lift (of_option (head cores) IndexError "list index out of range") ;
  result <~ run_one ROOT fuel source "zig_release_safe" binary options server (load_cores cores count) 128 (Z.of_nat repeat + 1) ;
  result <~ lift (setR result "client_cores" (int count)) ;
  line <~ lift (run_line count result) ;
  say line ;~
  ret (runs ++ [result]).
Definition repeat_step (fuel : nat) (source : string) (cores : list Z) (runs : list val) (repeat : nat) : io host (list val) :=
  foldM (count_step fuel source cores repeat) runs (counts repeat).

Definition report_json (server client : string) (runs : list val) : val :=
  obj [("server_sha256", VStr (sha256_hex server)); ("client_sha256", VStr (sha256_hex client)); ("runs", VList runs)].

Definition main (fuel : nat) (source : string) : io host unit :=
  cores <~ available_cores ;
  lift (guard (Z.of_nat (length cores) <? 9) (SystemExit 1) "nine distinct physical cores required") ;~
  runs <~ foldM (repeat_step fuel source cores) [] (seq 0 3) ;
  server <~ read_proc ;
  client <~ read_proc ;
  text <~ lift (json_dumps2 (report_json server client runs)) ;
  write_file output_path (text +:+ nl) ;~
  say ("Wrote " +:+ output_path).

(** ** Lemmas *)

Lemma tidy_check_main fuel source : tidy (main fuel source).
Proof.
  unfold main. do 2 (apply tidy_bind; [tidily|]; intros ?). apply tidy_bind; [|tidily].
  apply tidy_foldM. intros runs repeat. apply tidy_foldM. intros runs' count. unfold count_step. tidily.
Qed.

(** The CPUs of the server and of the client never overlap when the cores are distinct. *)
Lemma load_cores_apart cores count server : NoDup cores -> head cores = Some server -> server ∉ load_cores cores count.
Proof.
  intros Hn Hs. destruct cores as [|c cores]; [done|]. injection Hs as ->. apply NoDup_cons in Hn as [Hn _]. intros Hin.
  apply Hn. unfold load_cores in Hin. cbn in Hin. apply elem_of_take in Hin as (i & Hi & _). by eapply list_elem_of_lookup_2.
Qed.
End Root.
