(* ===== verification/Crew.v ===== *)
(** * A driver and the processes it has started

    Several drivers keep a list of child processes that the [finally] clause of a function ends.  A [crew] is the
    outside world with that list and the driver's own variables.  [watch] says of a computation that every process
    started meanwhile has exited or is on the list; a cleanup that ends the list then leaves nothing running. *)

From stdpp Require Import base list strings.
From Stdlib Require Import ZArith Lia.
From S2P Require Import Prelude PyVal PyIO System RemoteLoad.

(** ** The state *)

Record crew (X : Type) := Crew { cr_host : host; cr_members : list handle; cr_own : X }.
Arguments Crew {X}.
Arguments cr_host {X}.
Arguments cr_members {X}.
Arguments cr_own {X}.

Section Operations.
Context {X : Type}.

Definition on_host {A} (m : io host A) : io (crew X) A :=
  zoom cr_host (fun h s => Crew h (cr_members s) (cr_own s)) m.
Definition set_own (x : X) : io (crew X) unit := modify (fun s => Crew (cr_host s) (cr_members s) x).

(** [clients.append(subprocess.Popen(command, ...))] *)
Definition enlist (command : list string) : io (crew X) handle :=
  h <~ on_host (popen command) ;
  modify (fun s => Crew (cr_host s) (cr_members s ++ [h]) (cr_own s)) ;~
  ret h.

(** A function whose processes are ended by its [finally] clause. *)
Definition with_crew {A} (x : X) (body : io (crew X) A) (cleanup : io (crew X) unit) : io host (A * X) := fun h =>
  let '(r, s) := finally body cleanup (Crew h [] x) in (rmap (fun a => (a, cr_own s)) r, cr_host s).
End Operations.

(** ** Lemmas *)

(** *** Watched computations *)

Section Watch.
Context {X : Type} (h0 : host).

(** Of the processes started since [h0] only the members may still run. *)
Definition watched (s : crew X) : Prop :=
  later h0 (cr_host s)
  /\ (forall k, (length (procs h0) <= k < length (procs (cr_host s)))%nat -> exited k (cr_host s) \/ In k (cr_members s))
  /\ (forall k, In k (cr_members s) -> (k < length (procs (cr_host s)))%nat).

Definition watch {A} (m : io (crew X) A) : Prop := triple watched m (fun _ => watched) watched.

(** Every process started since [h0] has exited. *)
Definition dismissed (s : crew X) : Prop :=
  later h0 (cr_host s) /\ forall k, (length (procs h0) <= k < length (procs (cr_host s)))%nat -> exited k (cr_host s).

Context {A B : Type}.

Lemma watch_lift (x : res A) : watch (lift x).
Proof. intros s r s' H [= <- <-]. by destruct x. Qed.
Lemma watch_ret (a : A) : watch (ret a).
Proof. apply (watch_lift (Ok a)). Qed.
Lemma watch_throw e : watch (throw (A:=A) e).
Proof. apply (watch_lift (Err e)). Qed.
Lemma watch_gets (f : crew X -> A) : watch (gets f).
Proof. by intros s r s' H [= <- <-]. Qed.
Lemma watch_set_own x : watch (set_own x).
Proof. intros s r s' H [= <- <-]. exact H. Qed.
Lemma watch_bind (m : io (crew X) A) (k : A -> io (crew X) B) : watch m -> (forall a, watch (k a)) -> watch (bind m k).
Proof. intros Hm Hk. by eapply triple_bind. Qed.
Lemma watch_catch (m : io (crew X) A) k : watch m -> (forall e, watch (k e)) -> watch (catch m k).
Proof.
  intros Hm Hk s r s' Hs. unfold catch. destruct (m s) as [[a|e] s1] eqn:E; specialize (Hm _ _ _ Hs E); cbn in Hm;
    [by intros [= <- <-]|by apply Hk].
Qed.
Lemma watch_on_host (m : io host A) : tidy m -> watch (on_host m).
Proof.
  intros Hm s r s' (L & N & C). unfold on_host, zoom. destruct (m (cr_host s)) as [x h] eqn:E. apply Hm in E as [L1 X1].
  intros [= <- <-].
  assert (W : watched (Crew h (cr_members s) (cr_own s))); [|by destruct x].
  split_and!; cbn; [by eapply later_trans|..].
  - intros k Hk. destruct (decide (k < length (procs (cr_host s)))%nat); [|left; apply X1; lia].
    destruct (N k); [lia|left; by apply L1|by right].
  - intros k Hk%C. destruct L1 as (_ & ? & _). lia.
Qed.
End Watch.

(** A started process is a member at once. *)
Lemma watch_enlist {X} h0 command : watch (X:=X) h0 (enlist command).
Proof.
  intros s r s' (L & N & C). unfold enlist, bind at 1, on_host, zoom. destruct (popen command (cr_host s)) as [[h|e] w] eqn:E.
  - pose proof (steady_popen _ _ _ _ E) as L1. destruct (popen_ok _ _ _ _ E) as (-> & M & _).
    intros [= <- <-]. split_and!; cbn; [by eapply later_trans|..].
    + intros j Hj. rewrite in_app_iff. destruct (decide (j = length (procs (cr_host s)))) as [->|]; [right; right; by left|].
      destruct (N j); [lia|left; by apply L1|right; by left].
    + intros j [Hj%C|[<-|[]]]%in_app_iff; lia.
  - pose proof (steady_popen _ _ _ _ E) as L1. apply popen_err in E. intros [= <- <-]. split_and!; cbn; [by eapply later_trans|..].
    + intros j Hj. destruct (N j); [lia|left; by apply L1|by right].
    + intros j Hj%C. lia.
Qed.

Lemma watch_each {X A} h0 (f : A -> io (crew X) unit) l : (forall a, watch h0 (f a)) -> watch h0 (each f l).
Proof. intros Hf. induction l as [|a l IH]; cbn; [apply watch_ret|]. by apply watch_bind. Qed.
Lemma watch_foldM {X A S} h0 (f : S -> A -> io (crew X) S) l s : (forall s a, watch h0 (f s a)) -> watch h0 (foldM f s l).
Proof. intros Hf. revert s. induction l as [|x l IH]; intros s; cbn; [apply watch_ret|]. by apply watch_bind. Qed.
Lemma watch_mapM {X A B} h0 (f : A -> io (crew X) B) l : (forall a, watch h0 (f a)) -> watch h0 (mapM f l).
Proof.
  intros Hf. induction l as [|x l IH]; cbn; [apply watch_ret|]. apply watch_bind; [done|]. intros y.
  apply watch_bind; [done|]. intros ys. apply watch_ret.
Qed.

#[export] Hint Resolve watch_lift watch_ret watch_throw watch_gets watch_set_own watch_bind watch_catch watch_on_host
  watch_enlist watch_each watch_foldM watch_mapM : zhtps.

(** A watched body whose cleanup dismisses what is left runs no process beyond its end. *)
Lemma tidy_with_crew {X A} (x : X) (body : io (crew X) A) cleanup :
  (forall h, watch h body) ->
  (forall h s r s', watched h s -> cleanup s = (r, s') -> dismissed h s') ->
  tidy (with_crew x body cleanup).
Proof.
  intros Hb Hc h r w. unfold with_crew, finally. destruct (body (Crew h [] x)) as [r1 s1] eqn:E1.
  assert (W0 : watched h (Crew h [] x)) by (split_and!; [apply later_refl|cbn; intros; lia|done]).
  pose proof (Hb h _ _ _ W0 E1) as W. assert (W1 : watched h s1) by by destruct r1.
  destruct (cleanup s1) as [r2 s2] eqn:E2. apply (Hc h) in E2 as [L N]; [|done]. by destruct r2; intros [= _ <-].
Qed.

(** *** Ending the members *)

(** [g] ends a process without an exception. *)
Definition ender (g : handle -> io host unit) : Prop :=
  forall h, settled (g h)
  /\ forall w r w', (h < length (procs w))%nat -> g h w = (r, w') -> r = Ok tt /\ exited h w'.

Lemma ender_stop_child : ender (fun h => stop_child (Some h)).
Proof. intros h. split; [apply settled_stop_child|]. intros *. apply stop_child_spec. Qed.

Lemma each_ender g l w r w' :
  ender g -> (forall h, In h l -> (h < length (procs w))%nat) -> each g l w = (r, w') ->
  r = Ok tt /\ forall h, In h l -> exited h w'.
Proof.
  intros Hg. revert w. induction l as [|h l IH]; intros w Hl; cbn; [by intros [= <- _]|]. unfold bind.
  destruct (g h w) as [y w1] eqn:E. destruct (Hg h) as [Hs Hx]. pose proof (Hs _ _ _ E) as [L N].
  apply Hx in E as [-> Hex]; [|apply Hl; by left]. intros H.
  assert (Hs' : settled (each g l)) by (apply settled_each; intros; apply Hg). pose proof (Hs' _ _ _ H) as [(L1 & _) _].
  apply IH in H as [-> Hr]; [|intros k Hk; rewrite N; apply Hl; by right]. split; [done|]. intros k [<-|Hk]; auto.
Qed.

(** Steps that start nothing keep the members watched, also after an exception. *)
Lemma watched_settled {X A} h0 (m : io host A) (s : crew X) r s' :
  settled m -> watched h0 s -> on_host m s = (r, s') -> watched h0 s' /\ cr_members s' = cr_members s /\ cr_own s' = cr_own s.
Proof.
  intros Hm Hs E. pose proof (watch_on_host h0 m (tidy_settled _ Hm) _ _ _ Hs E) as W. unfold on_host, zoom in E.
  destruct (m (cr_host s)). injection E as <- <-. split; [by destruct r0|done].
Qed.

(** Once all members are ended, everything is. *)
Lemma dismiss_members {X} h0 g (s : crew X) l r s' :
  ender g -> watched h0 s -> (forall k, In k (cr_members s) -> In k l) ->
  (forall k, In k l -> (k < length (procs (cr_host s)))%nat) ->
  on_host (each g l) s = (r, s') -> r = Ok tt /\ dismissed h0 s' /\ cr_own s' = cr_own s.
Proof.
  intros Hg (L & N & C) Hin Hl. unfold on_host, zoom. destruct (each g l (cr_host s)) as [x w] eqn:E. intros [= <- <-].
  assert (Hs : settled (each g l)) by (apply settled_each; intros; apply Hg). pose proof (Hs _ _ _ E) as [L1 N1].
  apply each_ender in E as [-> Hx]; [|done|done]. split; [done|]. split; [|done]. split; cbn; [by eapply later_trans|].
  intros k Hk. destruct (N k) as [?|Hm]; [lia|by apply L1|]. by apply Hx, Hin.
Qed.

(** What follows may start processes as long as it ends them. *)
Lemma dismissed_tidy {X A} h0 (m : io host A) (s : crew X) r s' :
  tidy m -> dismissed h0 s -> on_host m s = (r, s') -> dismissed h0 s'.
Proof.
  intros Hm [L N]. unfold on_host, zoom. destruct (m (cr_host s)) as [x w] eqn:E. apply Hm in E as [L1 N1]. intros [= _ <-].
  split; cbn; [by eapply later_trans|]. intros k Hk.
  destruct (decide (k < length (procs (cr_host s)))%nat); [apply L1, N; lia|apply N1; lia].
Qed.

(** *** Facts about the members or the own state

    [stays P m]: the computation keeps [P], also when it fails.  Calls of the host keep what does not mention it. *)

Definition stays {X A} (P : crew X -> Prop) (m : io (crew X) A) : Prop := triple P m (fun _ => P) P.

Section Stays.
Context {X : Type} (P : crew X -> Prop) {A B : Type}.

Lemma stays_lift (x : res A) : stays P (lift x).
Proof. intros s r s' H [= <- <-]. by destruct x. Qed.
Lemma stays_ret (a : A) : stays P (ret a).
Proof. apply (stays_lift (Ok a)). Qed.
Lemma stays_throw e : stays P (throw (A:=A) e).
Proof. apply (stays_lift (Err e)). Qed.
Lemma stays_gets (f : crew X -> A) : stays P (gets f).
Proof. by intros s r s' H [= <- <-]. Qed.
Lemma stays_bind (m : io (crew X) A) (k : A -> io (crew X) B) : stays P m -> (forall a, stays P (k a)) -> stays P (bind m k).
Proof. intros Hm Hk. by eapply triple_bind. Qed.
Lemma stays_catch (m : io (crew X) A) k : stays P m -> (forall e, stays P (k e)) -> stays P (catch m k).
Proof.
  intros Hm Hk s r s' Hs. unfold catch. destruct (m s) as [[a|e] s1] eqn:E; specialize (Hm _ _ _ Hs E); cbn in Hm;
    [by intros [= <- <-]|by apply Hk].
Qed.
Lemma stays_on_host (m : io host A) : (forall s h, P s -> P (Crew h (cr_members s) (cr_own s))) -> stays P (on_host m).
Proof.
  intros Hp s r s' Hs. unfold on_host, zoom. destruct (m (cr_host s)) as [x h]. intros [= <- <-].
  destruct x; by apply Hp.
Qed.
End Stays.

Lemma stays_mapM {X A B} (P : crew X -> Prop) (f : A -> io (crew X) B) l : (forall a, stays P (f a)) -> stays P (mapM f l).
Proof.
  intros Hf. induction l as [|x l IH]; cbn; [apply stays_ret|]. apply stays_bind; [done|]. intros y.
  apply stays_bind; [done|]. intros ys. apply stays_ret.
Qed.

(** A started process joins the members, and nothing else changes. *)
Lemma enlist_spec {X} command (s : crew X) r s' : enlist command s = (r, s') ->
  cr_own s' = cr_own s
  /\ match r with Ok h => cr_members s' = cr_members s ++ [h] | Err _ => cr_members s' = cr_members s end.
Proof.
  unfold enlist, bind at 1, on_host, zoom. destruct (popen command (cr_host s)) as [[h|e] w]; by intros [= <- <-].
Qed.

(** At most [n] members. *)
Definition at_most_members {X} (n : nat) (s : crew X) : Prop := (length (cr_members s) <= n)%nat.
Lemma enlist_members {X} n command : triple (at_most_members (X:=X) n) (enlist command) (fun _ => at_most_members (S n)) (at_most_members (S n)).
Proof.
  intros s r s' Hs [_ H]%enlist_spec. unfold at_most_members in *. destruct r; rewrite H, ?length_app; cbn; lia.
Qed.

(** The end of a watched body with its cleanup, and what the cleanup starts from. *)
Lemma with_crew_cases {X A} (x : X) (body : io (crew X) A) cleanup h r h' :
  with_crew x body cleanup h = (r, h') ->
  exists r1 s1 r2 s2, body (Crew h [] x) = (r1, s1) /\ cleanup s1 = (r2, s2) /\ h' = cr_host s2
  /\ match r with Ok a => r1 = Ok a.1 /\ a.2 = cr_own s2 | Err e => True end.
Proof.
  unfold with_crew, finally. destruct (body (Crew h [] x)) as [r1 s1]. destruct (cleanup s1) as [r2 s2] eqn:E.
  exists r1, s1, r2, s2. split_and!; [done|done|..].
  - destruct r2; by injection H as _ <-.
  - destruct r2; [|by injection H as <- _]. destruct r1; by injection H as <- _.
Qed.
