(* ===== verification/Http2Remote.v ===== *)
(** * [bench/http2_remote.py]: the supervisor of remote HTTP/2 clients

    [run] starts one load client per CPU placement, relays their phases to the controller - all prepared, all
    ready, all measured -, passes the controller's start times on to them and reports their results and failure
    logs.  The reader threads put what clients and controller send into one queue, which the environment turns
    of [System] fill; the state adds what the [finally] clause reads. *)

From stdpp Require Import base list strings.
From Stdlib Require Import ZArith Lia Ascii.
From S2P Require Import Prelude PyFloat PyText PyVal PyJson PyScript PyStats PyHash PyIO System ProcSample RemoteLoad Crew.

Local Open Scope Z_scope.
Open Scope py_scope.

(** ** Samples of the host *)

(** [path.read_text()] of a number, and of a line *)
Definition read_int : io host val := text <~ read_proc ; lift (rmap VInt (py_int text)).
Definition read_line_of : io host val := text <~ read_proc ; ret (VStr (strip text)).

Definition diagnostic_sample : io host val :=
  started <~ clock ;
  result <~ run_process true ["tc"; "-s"; "-j"; "qdisc"; "show"] ;
  finished <~ clock ;
  qdiscs <~ lift (if cp_code result =? 0 then json_loads (cp_stdout result) else Ok (VList [])) ;
  softnet <~ read_proc ;
  interrupts <~ read_proc ;
  stat <~ read_proc ;
  ret (obj [("started_ns", started); ("finished_ns", finished); ("qdisc_exit", VInt (cp_code result));
            ("qdisc_stderr", VStr (cp_stderr result)); ("qdiscs", qdiscs); ("softnet", VStr softnet);
            ("interrupts", VStr interrupts); ("stat", VStr stat)]).

Definition cpu_topology (d : dict) (cpu : val) : io host dict :=
  package <~ read_int ;
  core <~ read_int ;
  ret (sset (py_str cpu) (VList [package; core]) d).

(** [next(line.split(':', 1)[1].strip() for line in text.splitlines() if line.startswith('model name'))] *)
Definition model_name (cpuinfo : string) : res string :=
  match List.filter (startswith "model name") (splitlines cpuinfo) with
  | [] => raise StopIteration ""
  | line :: _ => rmap (fun p : string * string => strip p.2)
                   (of_option (split_once ":" line) IndexError "list index out of range")
  end.

Definition identity : io host val :=
  cpus <~ (allowed <~ lift_val py_iter clock ; lift (py_sorted allowed)) ;
  topology <~ foldM cpu_topology [] cpus ;
  hostname <~ clock ;
  kernel <~ clock ;
  machine <~ clock ;
  boot <~ read_line_of ;
  cpu <~ (text <~ read_proc ; lift (model_name text)) ;
  limits <~ lift_val py_iter clock ;
  memory <~ read_proc ;
  ports <~ read_line_of ;
  ret (obj [("hostname", hostname); ("kernel", kernel); ("machine", machine); ("boot_id", boot); ("cpu", VStr cpu);
            ("allowed_cpus", VList cpus); ("topology", VDict topology); ("file_limit", VList limits);
            ("memory", VStr memory); ("port_range", ports)]).

Definition nic_counter (d : dict) (name : val) : io host dict := n <~ read_int ; ret (dset name n d).
(** [speed], [duplex] and [mtu], where they can be read *)
Definition nic_setting (d : dict) (name : string) : io host dict :=
  catch (v <~ read_line_of ; ret (sset name v d)) (fun e => if is_oserror (ex_class e) then ret d else throw e).
Definition nic_row (nics : dict) (nic : val) : io host dict :=
  device <~ clock ;
  if negb (truthy device) then ret nics else
  names <~ lift_val py_iter external ;
  values <~ foldM nic_counter [] names ;
  values <~ foldM nic_setting values ["speed"; "duplex"; "mtu"] ;
  ret (dset nic (VDict values) nics).

Definition host_sample (diagnostics : bool) : io host val :=
  names <~ lift_val py_iter external ;
  nics <~ foldM nic_row [] names ;
  now <~ clock ;
  diagnostic <~ (if diagnostics then d <~ diagnostic_sample ; ret [("diagnostic", d)] else ret []) ;
  tcp <~ read_proc ;
  netstat <~ read_proc ;
  ret (obj ([("unix_ns", now); ("nics", VDict nics)] ++ diagnostic ++ [("tcp", VStr tcp); ("netstat", VStr netstat)])).

(** ** [MissedPackets]

    The interfaces to sample, one row of the sampling thread, and the end of it: the rows are those the thread
    has appended by then. *)

Definition missed_path (l : list val) (nic : val) : io host (list val) :=
  device <~ clock ;
  if negb (truthy device) then ret l else
  state <~ read_line_of ;
  ret (if py_eqb state (VStr "up") then l ++ [nic] else l).
Definition missed_paths : io host (list val) :=
  names <~ lift_val py_iter external ; foldM missed_path [] names.

Definition missed_row (paths : list val) : io host val :=
  started <~ clock ;
  counted <~ catch (d <~ foldM nic_counter [] paths ; ret ("counters", VDict d))
    (fun e => if is_oserror (ex_class e) then ret ("error", VStr (exn_repr e)) else throw e) ;
  finished <~ clock ;
  ret (obj [("started_ns", started); counted; ("finished_ns", finished)]).

Definition missed_close (path : string) : io host unit :=
  alive <~ clock ;
  (if truthy alive then throw (Exn RuntimeError "NIC sampler did not stop") else ret tt) ;~
  rows <~ lift_val py_iter clock ;
  lines <~ lift (mapR json_dumps_min rows) ;
  write_file path (join "" (map (fun line => line +:+ nl) lines)).

(** ** The state *)

(** The clients are the members; [cr_own] says whether there is a sampler of missed packets. *)
Abbreviation supervisor := (crew bool).
Definition set_missed : io supervisor unit := set_own true.

(** ** The controller's first messages *)

Fixpoint initial (fuel : nat) : io host val :=
  match fuel with
  | O => throw (Exn RuntimeError "out of fuel")
  | S fuel =>
      line <~ read_line ;
      message <~ lift (json_loads line) ;
      kind <~ lift ($message.["kind"]) ;
      if py_eqb kind (VStr "clock") then now <~ clock ; emit "clock" [("unix_ns", now)] ;~ initial fuel
      else if py_eqb kind (VStr "run") then ret message
      else throw (Exn ValueError "unsupported initial command")
  end.

(** ** Placement *)

(** [l[i::n]] for [n > 0] *)
Fixpoint stride_from {A} (skip n : nat) (l : list A) : list A :=
  match l with
  | [] => []
  | x :: l => match skip with O => x :: stride_from (n - 1) n l | S skip => stride_from skip n l end
  end.
Definition stride {A} (i n : nat) (l : list A) : list A := stride_from i n l.

Definition placements_of (cpus : list val) (processes : Z) : list (list val) :=
  map (fun i => stride i (Z.to_nat processes) cpus) (seq 0 (Z.to_nat processes)).

(** [connections // processes + (i < connections % processes)] *)
Definition share (connections processes i : Z) : Z :=
  connections / processes + (if i <? connections mod processes then 1 else 0).

(** [f"{config[k]}s"] *)
Definition seconds (config : val) (k : string) : res string := fstring [V ($config.[k]); F "s"].
Definition text_of (config : val) (k : string) : res string := v <- $config.[k] ;; as_str v.

Definition client_command (config : val) (folder binary : string) (placement : list val) (i connections : Z) : res (list string) :=
  url <- text_of config "url" ;;
  certificate <- text_of config "certificate" ;;
  streams <- fstring [V ($config.["streams"])] ;;
  duration <- seconds config "duration" ;;
  warmup <- seconds config "warmup" ;;
  timeout <- seconds config "timeout" ;;
  setup_deadline <- seconds config "setup_deadline" ;;
  setup_concurrency <- fstring [V ($config.["setup_concurrency"])] ;;
  more <- (l <- (v <- getd ($config) "client_args" (VList []) ;; py_iter v) ;; mapR as_str l) ;;
  Ok (["taskset"; "-c"; join "," (map py_str placement); binary; "-url"; url; "-ca"; certificate;
       "-connections"; string_of_Z connections; "-streams"; streams; "-duration"; duration; "-warmup"; warmup;
       "-timeout"; timeout; "-setup-deadline"; setup_deadline; "-setup-concurrency"; setup_concurrency;
       "-failures"; folder +:+ "/client-" +:+ string_of_Z i +:+ ".failures.jsonl"; "-synchronize"] ++ more).

Definition launch_one (config : val) (folder binary : string) (processes : Z)
    (commands : list val) (ip : Z * list val) : io supervisor (list val) :=
  let '(i, placement) := ip in
  connections <~ lift (v <- $config.["connections"] ;; as_int v) ;
  command <~ lift (client_command config folder binary placement i (share connections processes i)) ;
  on_host external ;~
  on_host (with_env [("GOMAXPROCS", Some (string_of_Z (Z.of_nat (length placement))))]) ;~
  enlist command ;~
  ret (commands ++ [VList (map VStr command)]).

(** [enumerate(l)] *)
Definition enumerate {A} (l : list A) : list (Z * A) := combine (seqZ 0 (Z.of_nat (length l))) l.

(** ** The phases of the clients *)

Record progress := Progress { p_prepared : dict; p_ready : dict; p_measured : dict; p_results : dict; p_exited : dict }.
Definition no_progress : progress := Progress [] [] [] [] [].

(** [[d[i] for i in range(n)]] *)
Definition all_of (d : dict) (n : nat) : res (list val) :=
  mapR (fun i => of_option (dget (VInt i) d) KeyError (string_of_Z i)) (seqZ 0 (Z.of_nat n)).

(** [if len(d) == len(clients): emit(kind, clients=[...])] *)
Definition announce (kind : string) (n : nat) (d : dict) : io host unit :=
  if (length d =? n)%nat then l <~ lift (all_of d n) ; emit kind [("clients", VList l)] else ret tt.

Definition client_event (folder : string) (n : nat) (p : progress) (index value : val) : io host progress :=
  phase <~ lift ($value.["phase"]) ;
  k <~ lift (key ($index)) ;
  if py_eqb phase (VStr "prepared") then
    let d := dset k value (p_prepared p) in
    announce "prepared" n d ;~ ret (Progress d (p_ready p) (p_measured p) (p_results p) (p_exited p))
  else if py_eqb phase (VStr "ready") then
    let d := dset k value (p_ready p) in
    announce "ready" n d ;~ ret (Progress (p_prepared p) d (p_measured p) (p_results p) (p_exited p))
  else if py_eqb phase (VStr "measured") then
    let d := dset k value (p_measured p) in
    announce "measured" n d ;~ ret (Progress (p_prepared p) (p_ready p) d (p_results p) (p_exited p))
  else if py_eqb phase (VStr "result") then
    text <~ lift (json_dumps2 value) ;
    write_file (folder +:+ "/client-" +:+ py_str index +:+ ".json") (text +:+ nl) ;~
    ret (Progress (p_prepared p) (p_ready p) (p_measured p) (dset k value (p_results p)) (p_exited p))
  else throw (Exn ValueError ("unknown client phase " +:+ py_str phase)).

(** A start time from the controller, passed on to every client. *)
Definition control_event (clients : list handle) (p : progress) (value : val) : io host unit :=
  phase <~ lift ($value.["kind"]) ;
  (if (py_eqb phase (VStr "warmup") && (length (p_prepared p) =? length clients)%nat)
      || (py_eqb phase (VStr "measure") && (length (p_ready p) =? length clients)%nat)
   then ret tt else throw (Exn ValueError "load requested before clients ready")) ;~
  now <~ read_clock ;
  let start := now + 500000000 in
  each (fun h => fallible (Input h (string_of_Z start +:+ nl))) clients ;~
  emit (if py_eqb phase (VStr "measure") then "scheduled" else "warmup_scheduled") [("start_ns", VInt start)].

Definition exit_event (p : progress) (index value : val) : io host progress :=
  k <~ lift (key ($index)) ;
  (if negb (py_eqb value (VInt 0)) || negb (is_ok (py_getitem (VDict (p_results p)) k))
   then throw (Exn RuntimeError ("client " +:+ py_str index +:+ " exited " +:+ py_str value +:+ " without a complete result"))
   else ret tt) ;~
  ret (Progress (p_prepared p) (p_ready p) (p_measured p) (p_results p) (dset k value (p_exited p))).

(** [kind, index, value = event] *)
Definition unpack3 (v : val) : res (val * val * val) :=
  match v with VTuple [a; b; c] => Ok (a, b, c) | _ => unpack_error end.

Definition take_event (folder : string) (clients : list handle) (p : progress) (event : option val) : io host progress :=
  match event with
  | None => ret p
  | Some event =>
      let~ ((kind, index), value) := lift (unpack3 event) in
      if py_eqb kind (VStr "client") then client_event folder (length clients) p index value
      else if py_eqb kind (VStr "control") then control_event clients p value ;~ ret p
      else if py_eqb kind (VStr "exit") then exit_event p index value
      else if py_eqb kind (VStr "invalid")
           then throw (Exn RuntimeError ("client " +:+ py_str index +:+ ": " +:+ py_str value))
      else ret p
  end.

(** CPU time and memory of a client that still runs. *)
Definition client_sample (samples : list val) (h : handle) : io host (list val) :=
  catch
    (pid <~ clock ;
     stat <~ read_proc ;
     tick <~ lift_val as_int clock ;
     page <~ lift_val as_int clock ;
     row <~ lift (fields <- stat_fields stat ;;
                  user <- field fields 11 ;;
                  system <- field fields 12 ;;
                  pages <- field fields 21 ;;
                  mkdict [("pid", $pid); ("cpu_seconds", py_div (VInt (user + system)) (VInt tick));
                          ("rss_bytes", int (pages * page))]) ;
     ret (samples ++ [row]))
    (fun e => if is_class e FileNotFoundError || is_class e ProcessLookupError then ret samples else throw e).

Definition sample_clients (clients : list handle) (last_sample : val) : io host val :=
  now <~ clock ;
  due <~ lift ($now -' $last_sample >=' int 1) ;
  if due : bool then
    samples <~ foldM client_sample [] clients ;
    unix_ns <~ clock ;
    emit "sample" [("unix_ns", unix_ns); ("clients", VList samples)] ;~
    clock
  else ret last_sample.

(** One round of the loop while clients run.  The environment answers whether a signal or the end of the input
    cancelled the run, and how long ago the controller was heard. *)
Definition check_contact (deadline : val) : io host unit :=
  cancelled <~ clock ;
  silence <~ clock ;
  lost <~ lift (Ok (truthy cancelled) ||' ($silence >' int 20)) ;
  (if lost : bool then throw (Exn RuntimeError "controller disconnected") else ret tt) ;~
  now <~ clock ;
  late <~ lift ($now >' $deadline) ;
  if late : bool then throw (Exn TimeoutError "remote trial deadline") else ret tt.

Definition next_item : io host (option val) :=
  catch (e <~ get_event ; ret (Some e)) (fun e => if is_class e QueueEmpty then ret None else throw e).

Fixpoint supervise (fuel : nat) (folder : string) (clients : list handle) (deadline last_sample : val) (p : progress)
    : io host progress :=
  if (length clients <=? length (p_exited p))%nat then ret p else
  match fuel with
  | O => throw (Exn RuntimeError "out of fuel")
  | S fuel =>
      check_contact deadline ;~
      event <~ next_item ;
      p <~ take_event folder clients p event ;
      last_sample <~ sample_clients clients last_sample ;
      supervise fuel folder clients deadline last_sample p
  end.

(** ** The report *)

(** The lines a binary file iterates over. *)
Definition line_count (content : string) : Z :=
  let n := Z.of_nat (str_count (Ascii.eqb "010") content) in
  if String.eqb content "" || endswith nl content then n else n + 1.

(** The failure log of a client: compressed, counted against its result, and removed. *)
Definition failure_log (folder : string) (results : dict) (failures : list val) (i : Z) : io host (list val) :=
  let name := "client-" +:+ string_of_Z i +:+ ".failures.jsonl" in
  content <~ read_proc ;
  write_file (folder +:+ "/" +:+ name +:+ ".gz") content ;~
  entries <~ lift ((of_option (dget (VInt i) results) KeyError (string_of_Z i)).["failure_log_entries"]) ;
  (if py_eqb (VInt (line_count content)) entries then ret tt
   else throw (Exn ValueError "failure log count mismatch")) ;~
  external ;~
  ret (failures ++ [obj [("path", VStr (name +:+ ".gz")); ("entries", VInt (line_count content));
                         ("sha256_uncompressed", VStr (sha256_hex content))]]).

Definition report (diagnostics : bool) (folder : string) (n : nat) (p : progress) : io host unit :=
  failures <~ foldM (failure_log folder (p_results p)) [] (seqZ 0 (Z.of_nat n)) ;
  shards <~ lift (all_of (p_results p) n) ;
  sample <~ host_sample diagnostics ;
  emit "result" [("shards", VList shards); ("exit_codes", VDict (p_exited p)); ("failure_logs", VList failures);
                 ("host", sample)].

(** ** The run *)

(** What is fixed before the clients start. *)
Record plan := Plan {
  pl_config : val; pl_diagnostics : bool; pl_folder : string; pl_binary : string; pl_digest : string;
  pl_placements : list (list val); pl_processes : Z }.

Definition prepare (config : val) : io host plan :=
  soft <~ clock ;
  hard <~ clock ;
  lift (l <- py_max [soft; VInt 65536] ;; py_min [hard; l]) ;~
  external ;~
  folder <~ lift (text_of config "folder") ;
  diagnostics <~ lift (getd ($config) "diagnostics" (VBool false)) ;
  external ;~
  binary <~ lift (text_of config "binary") ;
  content <~ read_proc ;
  differs <~ lift (str (sha256_hex content) !=' $config.["binary_sha256"]) ;
  (if differs : bool then throw (Exn ValueError "client executable hash mismatch") else ret tt) ;~
  cpus <~ lift (iterR ($config.["client_cpus"])) ;
  allowed <~ lift_val py_iter clock ;
  (if subsetb cpus allowed then ret tt else throw (Exn ValueError "unavailable client CPUs")) ;~
  processes <~ lift (v <- $config.["client_processes"] ;; as_int v) ;
  let placements := placements_of cpus processes in
  (if existsb (fun l : list val => (length l =? 0)%nat) placements
   then throw (Exn ValueError "empty client CPU placement") else ret tt) ;~
  ret (Plan config (truthy diagnostics) folder binary (sha256_hex content) placements processes).

(** The [try] block. *)
Definition supervised (fuel : nat) (c : plan) : io supervisor unit :=
  sampled <~ lift (getd ($(pl_config c)) "sample_missed" (VBool false)) ;
  (if truthy sampled then on_host (missed_paths ;~ ret tt) ;~ set_missed else ret tt) ;~
  commands <~ foldM (launch_one (pl_config c) (pl_folder c) (pl_binary c) (pl_processes c)) []
                (enumerate (pl_placements c)) ;
  clients <~ gets cr_members ;
  pids <~ on_host (mapM (fun _ => clock) clients) ;
  sample <~ on_host (host_sample (pl_diagnostics c)) ;
  on_host (emit "launched" [("binary_sha256", VStr (pl_digest c)); ("commands", VList commands);
                            ("placements", VList (map VList (pl_placements c))); ("pids", VList pids); ("host", sample)]) ;~
  deadline <~ (now <~ on_host clock ; lift ($now +' $(pl_config c).["max_seconds"])) ;
  p <~ on_host (supervise fuel (pl_folder c) clients deadline (VInt 0) no_progress) ;
  on_host (report (pl_diagnostics c) (pl_folder c) (length clients) p).

(** The [finally] block. *)
Definition ask_to_end (h : handle) : io host unit :=
  code <~ poll h ; match code with None => terminate h | Some _ => ret tt end.
Definition reap (h : handle) : io host unit :=
  catch (wait_timeout h ;~ ret tt) (fun e => if is_class e TimeoutExpired then kill h ;~ wait h else throw e).
Definition clean_up (folder : string) : io supervisor unit :=
  clients <~ gets cr_members ;
  on_host (each ask_to_end clients) ;~
  on_host (each reap clients) ;~
  missed <~ gets cr_own ;
  if missed : bool then on_host (missed_close (folder +:+ "/nic-missed.jsonl")) else ret tt.

Definition run (fuel : nat) (identify : bool) : io host unit :=
  if identify then
    id_ <~ identity ; sample <~ host_sample false ; emit "identity" [("identity", id_); ("host", sample)]
  else
    id_ <~ identity ;
    emit "hello" [("identity", id_)] ;~
    config <~ initial fuel ;
    c <~ prepare config ;
    with_crew false
      (catch (supervised fuel c) (fun e => on_host (emit "error" [("error", VStr (exn_repr e))]) ;~ throw e))
      (clean_up (pl_folder c)) ;~
    ret tt.

(** ** Lemmas *)

(** *** No client is left running *)

Lemma settled_read_int : settled read_int.
Proof. unfold read_int. settle. Qed.
Lemma settled_read_line_of : settled read_line_of.
Proof. unfold read_line_of. settle. Qed.
#[export] Hint Resolve settled_read_int settled_read_line_of : zhtps.
Lemma settled_h2_identity : settled identity.
Proof. unfold identity, cpu_topology. settle. Qed.
Lemma settled_nic_counter d name : settled (nic_counter d name).
Proof. unfold nic_counter. settle. Qed.
Lemma settled_nic_setting d name : settled (nic_setting d name).
Proof. unfold nic_setting. settle. Qed.
#[export] Hint Resolve settled_h2_identity settled_nic_counter settled_nic_setting : zhtps.
Lemma settled_nic_row nics nic : settled (nic_row nics nic).
Proof. unfold nic_row. settle. Qed.
Lemma settled_missed_paths : settled missed_paths.
Proof. unfold missed_paths, missed_path. settle. Qed.
Lemma settled_missed_close path : settled (missed_close path).
Proof. unfold missed_close. settle. Qed.
Lemma settled_initial fuel : settled (initial fuel).
Proof. induction fuel; cbn; settle. Qed.
Lemma settled_h2_prepare config : settled (prepare config).
Proof. unfold prepare. settle. Qed.
#[export] Hint Resolve settled_nic_row settled_missed_paths settled_missed_close settled_initial settled_h2_prepare : zhtps.

Lemma tidy_diagnostic_sample : tidy diagnostic_sample.
Proof.
  unfold diagnostic_sample. apply tidy_bind; [auto with zhtps|]. intros started. apply tidy_bind; [auto with zhtps|].
  intros result. apply tidy_settled. settle.
Qed.
Lemma tidy_host_sample diagnostics : tidy (host_sample diagnostics).
Proof.
  unfold host_sample. apply tidy_bind; [apply tidy_settled; settle|]. intros names.
  apply tidy_bind; [apply tidy_settled; settle|]. intros nics. apply tidy_bind; [auto with zhtps|]. intros now.
  apply tidy_bind; [destruct diagnostics; [|auto with zhtps]|].
  - apply tidy_bind; [apply tidy_diagnostic_sample|]. auto with zhtps.
  - intros d. apply tidy_settled. settle.
Qed.
#[export] Hint Resolve tidy_host_sample : zhtps.

Lemma settled_announce kind n d : settled (announce kind n d).
Proof. unfold announce. settle. Qed.
#[export] Hint Resolve settled_announce : zhtps.
Lemma settled_take_event folder clients p event : settled (take_event folder clients p event).
Proof. unfold take_event, client_event, control_event, exit_event. settle. Qed.
Lemma settled_sample_clients clients last_sample : settled (sample_clients clients last_sample).
Proof. unfold sample_clients, client_sample. settle. Qed.
Lemma settled_check_contact deadline : settled (check_contact deadline).
Proof. unfold check_contact. settle. Qed.
Lemma settled_next_item : settled next_item.
Proof. unfold next_item. settle. Qed.
#[export] Hint Resolve settled_take_event settled_sample_clients settled_check_contact settled_next_item : zhtps.
Lemma settled_supervise fuel folder clients deadline last_sample p : settled (supervise fuel folder clients deadline last_sample p).
Proof. revert last_sample p. induction fuel; intros; cbn [supervise]; settle. Qed.
Lemma settled_failure_log folder results failures i : settled (failure_log folder results failures i).
Proof. unfold failure_log. settle. Qed.
#[export] Hint Resolve settled_supervise settled_failure_log : zhtps.
Lemma tidy_report diagnostics folder n p : tidy (report diagnostics folder n p).
Proof.
  unfold report. apply tidy_bind; [auto with zhtps|]. intros failures. apply tidy_bind; [auto with zhtps|]. intros shards.
  apply tidy_bind; auto with zhtps.
Qed.
#[export] Hint Resolve tidy_report : zhtps.

Lemma watch_launch_one h0 config folder binary processes commands ip :
  watch h0 (launch_one config folder binary processes commands ip).
Proof. destruct ip as [i placement]. unfold launch_one. auto 10 with zhtps. Qed.
#[export] Hint Resolve watch_launch_one : zhtps.

Lemma watch_supervised h0 fuel c : watch h0 (supervised fuel c).
Proof.
  unfold supervised, set_missed. apply watch_bind; [auto with zhtps|]. intros sampled.
  apply watch_bind; [destruct (truthy sampled); auto with zhtps|]. intros _. auto 15 with zhtps.
Qed.

(** Reaping a client always succeeds and leaves it exited. *)
Lemma settled_ask_to_end h : settled (ask_to_end h).
Proof. unfold ask_to_end. settle. Qed.
Lemma settled_reap h : settled (reap h).
Proof. unfold reap. settle. Qed.
#[export] Hint Resolve settled_ask_to_end settled_reap : zhtps.

Lemma ask_to_end_ok h w r w' : ask_to_end h w = (r, w') -> r = Ok tt.
Proof.
  unfold ask_to_end, bind. destruct (poll h w) as [[[c|]|e] w1] eqn:E; [by intros [= <- _]|by intros [= <- _]|].
  by unfold poll, bind in E.
Qed.

Lemma reap_spec h w r w' : (h < length (procs w))%nat -> reap h w = (r, w') -> r = Ok tt /\ exited h w'.
Proof.
  intros Hh. unfold reap, catch. destruct ((wait_timeout h ;~ ret tt) w) as [[u|e] w1] eqn:E.
  - intros [= <- <-]. apply bind_ok in E as (c & w2 & E & [= <- <-]). split; [done|]. by eapply wait_timeout_ok.
  - assert (Hs : settled (wait_timeout h ;~ ret tt)) by settle. pose proof (Hs _ _ _ E) as [_ N].
    assert (is_class e TimeoutExpired = true) as ->.
    { unfold bind in E. destruct (wait_timeout h w) as [[c|e0] w0] eqn:E0; [discriminate E|].
      injection E as <- _. by eapply wait_timeout_err. }
    unfold bind. destruct (kill h w1) as [[u|e3] w2] eqn:Ek; [|by unfold kill, bind in Ek].
    apply kill_exited in Ek; [|lia]. intros H. split; [by injection H as <- _|].
    destruct Ek as (c & Hc). apply (settled_wait h w2 _ _ H). by exists c.
Qed.

Lemma each_ok {A} (f : A -> io host unit) l w r w' :
  (forall x w r w', f x w = (r, w') -> r = Ok tt) -> each f l w = (r, w') -> r = Ok tt.
Proof.
  intros Hf. revert w. induction l as [|x l IH]; intros w; cbn; [by intros [= <- _]|]. unfold bind.
  destruct (f x w) as [y w1] eqn:E. apply Hf in E as ->. apply IH.
Qed.

Lemma ender_reap : ender reap.
Proof. intros h. split; [apply settled_reap|]. intros *. apply reap_spec. Qed.

Lemma clean_up_spec h0 folder s r s' : watched h0 s -> clean_up folder s = (r, s') -> dismissed h0 s'.
Proof.
  intros W H. unfold clean_up in H. unfold bind at 1, gets at 1 in H. unfold bind at 1 in H.
  destruct (on_host (each ask_to_end (cr_members s)) s) as [r1 s1] eqn:E1.
  assert (r1 = Ok tt) as ->.
  { unfold on_host, zoom in E1. destruct (each ask_to_end (cr_members s) (cr_host s)) as [x w] eqn:E.
    apply each_ok in E as ->; [|apply ask_to_end_ok]. by injection E1 as <- _. }
  apply (watched_settled h0) in E1 as (W1 & Em & _); [|auto with zhtps|done]. unfold bind at 1 in H.
  destruct (on_host (each reap (cr_members s)) s1) as [r2 s2] eqn:E2. rewrite <- Em in E2.
  destruct (dismiss_members h0 _ _ _ _ _ ender_reap W1 (fun k H => H) (proj2 (proj2 W1)) E2) as (-> & D & _).
  unfold bind at 1, gets in H. destruct (cr_own s2).
  - eapply dismissed_tidy; [|exact D|exact H]. auto with zhtps.
  - by injection H as _ <-.
Qed.

Lemma tidy_run fuel identify : tidy (run fuel identify).
Proof.
  unfold run. destruct identify; [auto 10 with zhtps|].
  do 4 (apply tidy_bind; [auto with zhtps|]; intros ?). apply tidy_bind; [|auto with zhtps]. apply tidy_with_crew.
  - intros h. pose proof (watch_supervised h). auto 10 with zhtps.
  - intros *. apply clean_up_spec.
Qed.

(** *** The barrier *)

(** Not a start time for a client. *)
Definition silent (e : event) : Prop := match e with Input _ _ => False | _ => True end.

Ltac mutely :=
  repeat first
    [ progress intros
    | solve [auto with zhtps]
    | apply adds_fallible; exact I
    | apply adds_bind
    | apply adds_catch
    | apply adds_foldM
    | case_match ].

Lemma silent_check_contact deadline : adds silent (check_contact deadline).
Proof. unfold check_contact. mutely. Qed.
Lemma silent_next_item : adds silent next_item.
Proof.
  unfold next_item, get_event. mutely. apply adds_none. by intros w r w' [= _ <-].
Qed.
Lemma silent_sample_clients clients last_sample : adds silent (sample_clients clients last_sample).
Proof. unfold sample_clients, client_sample, emit, say, lift_val, read_proc. mutely. Qed.

(** The controller has been told of all [n] clients. *)
Definition announced (n : nat) (evs : list event) : Prop :=
  exists kind l text, (kind = "prepared" \/ kind = "ready") /\ length l = n
  /\ json_dumps_min (obj [("kind", VStr kind); ("clients", VList l)]) = Ok text /\ In (Said text) evs.

(** No client is given a start time before that. *)
Definition barred (n : nat) (evs : list event) : Prop :=
  forall pre h t post, evs = pre ++ Input h t :: post -> announced n pre.

Lemma announced_app n evs evs' : announced n evs -> announced n (evs ++ evs').
Proof. intros (k & l & t & ? & ? & ? & ?). exists k, l, t. split_and!; try done. apply in_app_iff. by left. Qed.

Lemma barred_app n evs evs' : barred n evs -> announced n evs \/ Forall silent evs' -> barred n (evs ++ evs').
Proof.
  intros Hb Ho pre h t post Heq. apply app_eq_inv in Heq as [(k & -> & Heq)|(k & -> & Heq)].
  - destruct k as [|e k].
    + rewrite app_nil_r in *. destruct evs' as [|e evs']; [done|]. injection Heq as <- <-.
      destruct Ho as [?|Ho]; [done|]. by inversion Ho.
    + injection Heq as <- ->. by eapply Hb.
  - destruct Ho as [Ho|Ho]; [by apply announced_app|]. rewrite Heq, Forall_app, Forall_cons in Ho. by destruct Ho as (_ & [] & _).
Qed.

(** The trace since [w0] is barred, and the barrier has been announced when enough clients are known. *)
Section Barrier.
Context (n : nat) (tr0 : list event).

Definition open_barrier (p : progress) (w : host) : Prop := exists evs, trace w = tr0 ++ evs /\ barred n evs
  /\ ((n <= length (p_prepared p))%nat \/ (n <= length (p_ready p))%nat -> announced n evs).
Definition kept_barrier (w : host) : Prop := exists evs, trace w = tr0 ++ evs /\ barred n evs.

Lemma open_kept p w : open_barrier p w -> kept_barrier w.
Proof. intros (evs & H1 & H2 & _). by exists evs. Qed.

(** Silent steps keep both. *)
Lemma triple_silent {A} p (m : io host A) :
  adds silent m -> triple (open_barrier p) m (fun _ => open_barrier p) kept_barrier.
Proof.
  intros Hm w r w' (evs & T & Hb & Ha) (evs' & T' & F)%Hm.
  assert (W : open_barrier p w').
  { exists (evs ++ evs'). split_and!; [by rewrite T', T, app_assoc|by apply barred_app; [|right]|].
    intros H. by apply announced_app, Ha. }
  destruct r; [done|by eapply open_kept].
Qed.

Lemma triple_silent_bind {A B} p (m : io host A) (k : A -> io host B) Q :
  adds silent m -> (forall a, triple (open_barrier p) (k a) Q kept_barrier) -> triple (open_barrier p) (bind m k) Q kept_barrier.
Proof. intros Hm Hk. eapply triple_bind; [by apply triple_silent|exact Hk]. Qed.

Lemma all_of_length d l : all_of d n = Ok l -> length l = n.
Proof. unfold all_of. intros H%mapR_length. rewrite H, length_seqZ. lia. Qed.

(** An announcement by which the last client becomes known. *)
Lemma triple_announce kind d p p' :
  kind = "prepared" \/ kind = "ready" ->
  ((n <= length (p_prepared p'))%nat \/ (n <= length (p_ready p'))%nat ->
     length d = n \/ (n <= length (p_prepared p))%nat \/ (n <= length (p_ready p))%nat) ->
  triple (open_barrier p) (announce kind n d ;~ ret p') (fun q w => q = p' /\ open_barrier p' w) kept_barrier.
Proof.
  intros Hk Hp w r w' (evs & T & Hb & Ha) H. unfold announce in H. unfold bind at 1 in H.
  destruct (length d =? n)%nat eqn:En.
  - unfold bind at 1, lift at 1 in H. destruct (all_of d n) as [l|e] eqn:El.
    2:{ injection H as <- <-. by exists evs. }
    unfold emit in H. unfold bind at 1, lift at 1 in H.
    destruct (json_dumps_min _) as [text|e] eqn:Ej; [|injection H as <- <-; by exists evs].
    destruct (say text w) as [[u|e] w1] eqn:Es.
    + injection H as <- <-. apply fallible_said in Es. split; [done|].
      assert (An : announced n (evs ++ [Said text])).
      { exists kind, l, text. split_and!; [done|by eapply all_of_length|exact Ej|]. apply in_app_iff. right. by left. }
      exists (evs ++ [Said text]). split_and!; [by rewrite Es, T, app_assoc| |done].
      apply barred_app; [done|]. right. by repeat constructor.
    + injection H as <- <-.
      assert (Hs : adds silent (say text)) by (unfold say; apply adds_fallible; exact I).
      apply Hs in Es as (evs' & T' & F). exists (evs ++ evs'). split; [by rewrite T', T, app_assoc|]. by apply barred_app; [|right].
  - injection H as <- <-. apply Nat.eqb_neq in En. split; [done|]. exists evs. split_and!; [done|done|]. intros H.
    apply Ha. destruct (Hp H) as [?|?]; [done|done].
Qed.
Lemma triple_done p p' :
  p_prepared p' = p_prepared p -> p_ready p' = p_ready p ->
  triple (open_barrier p) (ret p') (fun q => open_barrier q) kept_barrier.
Proof. intros H1 H2 w r w' Hw [= <- <-]. unfold open_barrier in *. by rewrite H1, H2. Qed.

Lemma triple_client_event folder p index value :
  triple (open_barrier p) (client_event folder n p index value) (fun q => open_barrier q) kept_barrier.
Proof.
  unfold client_event. apply triple_silent_bind; [auto with zhtps|]. intros phase.
  apply triple_silent_bind; [auto with zhtps|]. intros k. repeat case_match.
  - eapply triple_weaken; [| | |apply (triple_announce "prepared")]; [done|by intros a w [-> ?]|done|by left|].
    cbn. rewrite dset_length. case_match; lia.
  - eapply triple_weaken; [| | |apply (triple_announce "ready")]; [done|by intros a w [-> ?]|done|by right|].
    cbn. rewrite dset_length. case_match; lia.
  - apply triple_silent_bind; [|intros _; by apply triple_done]. unfold announce, emit, say. mutely.
  - apply triple_silent_bind; [auto with zhtps|]. intros text. apply triple_silent_bind; [|intros _; by apply triple_done].
    unfold write_file. mutely.
  - intros w r w' Hw [= <- <-]. by eapply open_kept.
Qed.
End Barrier.

Lemma triple_control_event clients tr0 p value :
  triple (open_barrier (length clients) tr0 p) (control_event clients p value)
    (fun _ => open_barrier (length clients) tr0 p) (kept_barrier (length clients) tr0).
Proof.
  unfold control_event. apply triple_silent_bind; [auto with zhtps|]. intros phase w r w' Hw H.
  unfold bind at 1 in H.
  match type of H with context [if ?c then _ else _] => destruct c eqn:Ec end;
    [unfold ret at 1 in H|injection H as <- <-; by eapply open_kept]. cbv beta iota in H. destruct Hw as (evs & T & Hb & Ha).
  assert (An : announced (length clients) evs).
  { apply Ha. apply orb_true_iff in Ec as [[_ E]%andb_true_iff|[_ E]%andb_true_iff]; apply Nat.eqb_eq in E; lia. }
  match type of H with ?m w = _ => assert (Hm : adds (fun _ => True) m) end.
  { unfold read_clock, lift_val, emit, say. mutely. }
  apply Hm in H as (evs' & T' & _).
  assert (W : open_barrier (length clients) tr0 p w').
  { exists (evs ++ evs'). split_and!; [by rewrite T', T, app_assoc|apply barred_app; [done|by left]|].
    intros _. by apply announced_app. }
  destruct r; [done|by eapply open_kept].
Qed.

Lemma triple_take_event folder clients tr0 p event :
  triple (open_barrier (length clients) tr0 p) (take_event folder clients p event)
    (fun q => open_barrier (length clients) tr0 q) (kept_barrier (length clients) tr0).
Proof.
  unfold take_event. destruct event as [event|]; [|by apply triple_done].
  apply triple_silent_bind; [auto with zhtps|]. intros [[kind index] value]. repeat case_match.
  - apply triple_client_event.
  - eapply triple_bind; [apply triple_control_event|]. intros []. by apply triple_done.
  - unfold exit_event. apply triple_silent_bind; [auto with zhtps|]. intros k.
    apply triple_silent_bind; [mutely|]. intros []. by apply triple_done.
  - intros w r w' Hw [= <- <-]. by eapply open_kept.
  - by apply triple_done.
Qed.

Lemma triple_supervise fuel folder clients deadline last_sample tr0 p :
  triple (open_barrier (length clients) tr0 p) (supervise fuel folder clients deadline last_sample p)
    (fun q => open_barrier (length clients) tr0 q) (kept_barrier (length clients) tr0).
Proof.
  revert last_sample p. induction fuel as [|fuel IH]; intros last_sample p; cbn [supervise];
    (case_match; [by apply triple_done|]).
  - intros w r w' Hw [= <- <-]. by eapply open_kept.
  - apply triple_silent_bind; [apply silent_check_contact|]. intros [].
    apply triple_silent_bind; [apply silent_next_item|]. intros event.
    eapply triple_bind; [apply triple_take_event|]. intros q.
    apply triple_silent_bind; [apply silent_sample_clients|]. intros last. apply IH.
Qed.

(** *** Complete results *)

(** Every exit so far was a success. *)
Definition clean_exits (p : progress) : Prop := Forall (fun kv => py_eqb kv.2 (VInt 0) = true) (p_exited p).

Lemma take_event_exits folder clients p event w q w' :
  take_event folder clients p event w = (Ok q, w') -> clean_exits p -> clean_exits q.
Proof.
  unfold take_event. intros H Hp. destruct event as [event|]; [|by injection H as <- _].
  apply bind_ok in H as ([[kind index] value] & w1 & _ & H). repeat case_match.
  - unfold client_event in H. apply bind_ok in H as (phase & w2 & _ & H). apply bind_ok in H as (k & w3 & _ & H).
    repeat case_match; [| | | |done]; repeat (apply bind_ok in H as (? & ? & _ & H)); injection H as <- _; exact Hp.
  - apply bind_ok in H as (? & ? & _ & H). by injection H as <- _.
  - unfold exit_event in H. apply bind_ok in H as (k & w2 & _ & H). apply bind_ok in H as (u & w3 & Hc & H).
    injection H as <- _. destruct (py_eqb value (VInt 0)) eqn:Ev; [|by cbn in Hc]. unfold clean_exits in *. cbn.
    apply Forall_forall. intros [k' v'] [->|Hin]%dset_In; [done|]. rewrite Forall_forall in Hp. by apply (Hp (k', v')).
  - done.
  - by injection H as <- _.
Qed.

Lemma supervise_exits fuel folder clients deadline last_sample p w q w' :
  supervise fuel folder clients deadline last_sample p w = (Ok q, w') -> clean_exits p ->
  clean_exits q /\ (length clients <= length (p_exited q))%nat.
Proof.
  revert last_sample p w. induction fuel as [|fuel IH]; intros last_sample p w H Hp; cbn [supervise] in H;
    (destruct (length clients <=? length (p_exited p))%nat eqn:E;
       [injection H as <- _; split; [done|by apply Nat.leb_le]|]); [done|].
  apply bind_ok in H as (? & ? & _ & H). apply bind_ok in H as (event & ? & _ & H).
  apply bind_ok in H as (p1 & ? & Ht & H). apply bind_ok in H as (last & ? & _ & H).
  eapply IH; [exact H|]. by eapply take_event_exits.
Qed.

(** *** Two clients from their preparation to their exit *)

Definition phase_of (i : Z) (phase : string) : val :=
  VTuple [VStr "client"; VInt i; obj [("phase", VStr phase); ("failure_log_entries", VInt 0)]].
Definition control_of (kind : string) : val := VTuple [VStr "control"; VInt 0; obj [("kind", VStr kind)]].
Definition exit_of (i : Z) : val := VTuple [VStr "exit"; VInt i; VInt 0].
Definition sample_queue : list val :=
  [phase_of 1 "prepared"; phase_of 0 "prepared"; control_of "warmup"; phase_of 0 "ready"; phase_of 1 "ready";
   control_of "measure"; phase_of 0 "measured"; phase_of 1 "measured"; phase_of 0 "result"; exit_of 0;
   phase_of 1 "result"; exit_of 1].
Definition sample_host (procs_ : list pstate) : host :=
  Host procs_ (fun n => Turn [] None (VInt 0) (if (n =? 0)%nat then sample_queue else []) false) 0 [] [].

(** ** Properties *)

(** However a supervised run ends - a refused configuration, a client that cannot be started, a lost controller, the
    deadline, a client that fails or sends nonsense, or success - every client the supervisor started, and every
    [tc] it ran, has exited. *)
Theorem supervisor_stops_clients fuel identify h r h' :
  procs h = [] -> run fuel identify h = (r, h') -> all_exited h'.
Proof. intros Hh. by apply tidy_all_exited; [apply tidy_run|]. Qed.

Lemma supervisor_stops_clients_witness :
  exists r h', run 10 false (Host [] (fun _ => Turn [] None (VStr "") [] false) 0 [] []) = (r, h') /\ all_exited h'.
Proof.
  destruct (run 10 false (Host [] (fun _ => Turn [] None (VStr "") [] false) 0 [] [])) as [r h'] eqn:E.
  exists r, h'. split; [reflexivity|].
  exact (supervisor_stops_clients 10 false (Host [] (fun _ => Turn [] None (VStr "") [] false) 0 [] []) r h' eq_refl E).
Defined.

(** C17: The supervisor is a barrier.  Whatever clients and controller send and in whatever order, no client is given a
    start time before the supervisor has announced that all of them are prepared, or that all are ready; and when the
    loop ends without an exception, as many exits as clients have been seen and every one of them was a success. *)
Theorem supervise_barrier fuel folder clients deadline last_sample w r w' :
  clients <> [] -> supervise fuel folder clients deadline last_sample no_progress w = (r, w') ->
  (exists evs, trace w' = trace w ++ evs /\ barred (length clients) evs)
  /\ forall p, r = Ok p -> clean_exits p /\ (length clients <= length (p_exited p))%nat.
Proof.
  intros Hc H. split.
  - assert (W : open_barrier (length clients) (trace w) no_progress w).
    { exists []. split_and!; [by rewrite app_nil_r|by intros [] ? ? ? ?|]. cbn. destruct clients; cbn; [done|lia]. }
    pose proof (triple_supervise _ _ _ _ _ _ _ _ _ _ W H) as T. destruct r; [by eapply open_kept|done].
  - intros p ->. by eapply supervise_exits in H; [|constructor].
Qed.

Lemma supervise_barrier_witness :
  exists p h', supervise 20 "out" [0%nat; 1%nat] (VInt 60) (VInt 0) no_progress (sample_host [Running; Running]) = (Ok p, h')
  /\ length (List.filter (fun e => match e with Input _ _ => true | _ => false end) (trace h')) = 4%nat
  /\ (exists evs, trace h' = trace (sample_host [Running; Running]) ++ evs /\ barred 2 evs)
  /\ clean_exits p.
Proof.
  assert (B : match supervise 20 "out" [0%nat; 1%nat] (VInt 60) (VInt 0) no_progress (sample_host [Running; Running]) with
              | (Ok _, h) => length (List.filter (fun e => match e with Input _ _ => true | _ => false end) (trace h)) = 4%nat
              | _ => False end) by (vm_compute; reflexivity).
  destruct (supervise 20 "out" [0%nat; 1%nat] (VInt 60) (VInt 0) no_progress (sample_host [Running; Running]))
    as [[p|e] h'] eqn:E; [|destruct B].
  destruct (supervise_barrier 20 "out" [0%nat; 1%nat] (VInt 60) (VInt 0) _ _ _ ltac:(discriminate) E) as [H1 H2].
  exists p, h'. exact (conj eq_refl (conj B (conj H1 (proj1 (H2 p eq_refl))))).
Defined.
