(* ===== verification/Overload.v ===== *)
(** * [bench/overload.py]: a fixed-rate run against one server

    [main] starts the server and a local or remote load client, samples both until the client ends, and
    writes one report.  The state of the model is the outside world ([System.host]) and the variables
    that the [except] and [finally] clauses of the script read.  The properties are about what is left
    when the run is over, however it ends. *)

From stdpp Require Import base list strings.
From Stdlib Require Import ZArith Lia Ascii.
From S2P Require Import Prelude PyFloat PyText PyVal PyJson PyScript PyStats PyHash PyIO System ProcSample RemoteLoad Ipaddr.

Local Open Scope Z_scope.
Open Scope py_scope.

(** ** Options *)

Record Options := mkOptions {
  output : string; server_binary : string; server_address : string; server_port : Z;
  target_address : option string; client_host : option string; remote_client_binary : option string;
  remote_timeout : val; allow_same_host_client : bool; schedule : string; labels : option string;
  server_cpus : string; client_cpus : string; client_netns_pid : option Z; observed_cpus : option string;
  workers : Z; max_connections : Z; connections : Z; shards : Z; queue : Z; max_lag : string;
  rate_limit : Z; burst : option Z; max_active : option Z; rejection_rate : Z; churn : bool; access_log : bool;
  source_ips : Z; method : string; path_ : string; request_body : option string; expect_body : option string;
  content_type : string; allow_chunked : bool; client_max_requests : Z; server_max_requests : Z; timeout : string;
  vars : val (* [vars(options)], with paths as text *) }.

Definition intersects (l m : list Z) : bool := existsb (fun x => existsb (Z.eqb x) m) l.

Definition is_loopback_address (s : string) : res bool :=
  a <- ip_address s ;; Ok (is_loopback a).

Definition validate_options (o : Options) : res unit :=
  let remote := given (client_host o) in
  usage_if (match client_netns_pid o with Some _ => remote | None => false end)
    "local network namespaces cannot be combined with a remote client" ;;;
  (if remote then Ok tt else
     servers <- cpu_list (server_cpus o) ;;
     clients <- cpu_list (client_cpus o) ;;
     usage_if (intersects servers clients) "server and client CPU lists must not overlap") ;;;
  (if remote then
     bad <- (if given (remote_client_binary o)
             then notR ((int 0 <' $(remote_timeout o)) &&' ($(remote_timeout o) <=' int 86400)) else Ok true) ;;
     usage_if bad "remote runs require a binary path and timeout in (0, 86400] seconds" ;;;
     usage_if (negb (source_ips o =? 0)) "loopback source IP sharding is not valid for a remote generator" ;;;
     (if given (target_address o) then Ok tt else
        loopback <- is_loopback_address (server_address o) ;;
        usage_if loopback "remote runs require a reachable --server-address or an explicit --target-address")
   else Ok tt) ;;;
  servers <- cpu_list (server_cpus o) ;;
  usage_if (Z.of_nat (length servers) <? workers o) "provide at least one server CPU per worker".

(** ** Commands *)

(** [([flag, str(value)] if value is not None else [])] *)
Definition optional_flag (flag : string) (v : option Z) : list string :=
  match v with Some z => [flag; string_of_Z z] | None => [] end.

Definition server_command (o : Options) (binary : string) : list string :=
  ["taskset"; "-c"; server_cpus o; binary; "--address"; server_address o; "--port"; string_of_Z (server_port o);
   "--admin-port"; "0"; "--workers"; string_of_Z (workers o); "--max-connections"; string_of_Z (max_connections o);
   "--rate"; string_of_Z (rate_limit o); "--rejection-rate"; string_of_Z (rejection_rate o);
   "--max-requests"; string_of_Z (server_max_requests o)]
  ++ (if access_log o then [] else ["--no-access-log"])
  ++ optional_flag "--burst" (burst o) ++ optional_flag "--max-active" (max_active o).

Definition client_arguments (o : Options) (destination : string) : list string :=
  ["-address"; destination; "-schedule"; schedule o; "-connections"; string_of_Z (connections o);
   "-shards"; string_of_Z (shards o); "-queue"; string_of_Z (queue o); "-max-lag"; max_lag o; "-timeout"; timeout o;
   "-source-ips"; string_of_Z (source_ips o); "-method"; method o; "-path"; path_ o;
   "-content-type"; content_type o; "-max-requests"; string_of_Z (client_max_requests o)]
  ++ (if churn o then ["-churn"] else []) ++ (if allow_chunked o then ["-allow-chunked"] else []).

Definition local_client_command (o : Options) (client_binary : string) (arguments : list string)
    (files : list (string * string)) : list string :=
  let command := ["taskset"; "-c"; client_cpus o; client_binary] ++ arguments in
  let command := match client_netns_pid o with
                 | Some pid => ["nsenter"; "--target"; string_of_Z pid; "--net"] ++ command
                 | None => command end in
  command ++ concat (map (fun fp => [fp.1; fp.2]) files).

(** ** The state *)

Record state := State {
  o_host : host;
  o_report : val;
  o_server : option handle;
  o_client : option handle;
  o_connection : bool;
  o_remote : option remote;
}.

Definition on_host {A} (m : io host A) : io state A :=
  zoom o_host (fun h s => State h (o_report s) (o_server s) (o_client s) (o_connection s) (o_remote s)) m.

(** A method of the remote object; the script only calls them when there is one. *)
Definition on_remote {A} (m : io session A) : io state A := fun s =>
  match o_remote s with
  | None => (raise AttributeError "'NoneType' object has no attribute", s)
  | Some r => let '(x, ses) := m (Session (o_host s) r) in
              (x, State (s_host ses) (o_report s) (o_server s) (o_client s) (o_connection s) (Some (s_remote ses)))
  end.

Definition set_report (f : val -> expr) : io state unit := fun s =>
  match f (o_report s) with
  | Ok v => (Ok tt, State (o_host s) v (o_server s) (o_client s) (o_connection s) (o_remote s))
  | Err e => (Err e, s)
  end.
(** [report[k] = v] *)
Definition put (k : string) (v : val) : io state unit := set_report (fun r => setR r k (Ok v)).

Definition set_server (h : handle) : io state unit :=
  modify (fun s => State (o_host s) (o_report s) (Some h) (o_client s) (o_connection s) (o_remote s)).
Definition set_client (h : handle) : io state unit :=
  modify (fun s => State (o_host s) (o_report s) (o_server s) (Some h) (o_connection s) (o_remote s)).
Definition set_connection (b : bool) : io state unit :=
  modify (fun s => State (o_host s) (o_report s) (o_server s) (o_client s) b (o_remote s)).
Definition set_remote (r : remote) : io state unit :=
  modify (fun s => State (o_host s) (o_report s) (o_server s) (o_client s) (o_connection s) (Some r)).

(** ** Parts of the run *)

(** [get_json(connection, path)] *)
Definition get_json (path : string) : io host val :=
  external ;~
  status <~ clock ;
  body <~ read_proc ;
  (if py_eqb status (VInt 200) then ret tt
   else throw (Exn RuntimeError (path +:+ ": HTTP " +:+ py_str status))) ;~
  lift (json_loads body).

Definition take_proc_sample : io host val :=
  stat <~ read_proc ;
  status <~ read_proc ;
  tick <~ lift_val as_int clock ;
  fds <~ lift_val as_int external ;
  lift (proc_sample stat status tick fds).

Definition take_kernel_sample : io host val :=
  netstat <~ read_proc ;
  sockstat <~ read_proc ;
  softirqs <~ read_proc ;
  dev <~ read_proc ;
  lift (kernel_sample netstat sockstat softirqs dev).

(** [stop(process)] *)
Definition stop (process : option handle) : io host unit :=
  match process with
  | None => ret tt
  | Some h =>
      code <~ poll h ;
      match code with
      | Some _ => ret tt
      | None =>
          terminate h ;~
          catch (wait_timeout h ;~ ret tt)
            (fun e => if is_class e TimeoutExpired then kill h ;~ wait h else throw e)
      end
  end.

(** One line of the server log. *)
Definition log_line (ports : dict) (line : string) : res dict :=
  event <- json_loads line ;;
  ifR (one_of (get ($event) "event") ["listening"; "admin_listening"])
    (k <- $event.["event"] ;; port <- $event.["port"] ;; Ok (dset k port ports)) (Ok ports).

(** The startup loop; [fuel] bounds its rounds. *)
Fixpoint wait_ports (fuel : nat) (server : handle) (deadline : val) (ports : dict) : io host dict :=
  if (2 <=? length ports)%nat then ret ports else
  match fuel with
  | O => throw (Exn RuntimeError "out of fuel")
  | S fuel =>
      code <~ poll server ;
      (match code with
       | Some _ => text <~ read_proc ; throw (Exn RuntimeError ("server exited: " +:+ text))
       | None => ret tt
       end) ;~
      text <~ read_proc ;
      ports <~ lift (foldR log_line ports (splitlines text)) ;
      now <~ clock ;
      late <~ lift ($now >' $deadline) ;
      (if late : bool then throw (Exn TimeoutError "startup") else ret tt) ;~
      advance ;~
      wait_ports fuel server deadline ports
  end.

(** The workload files that are given, with the flags they belong to. *)
Definition workload_files (o : Options) : list (string * string) :=
  omap (fun fp => match fp.2 with Some p => Some (fp.1, p) | None => None end)
    [("-request-body", request_body o); ("-expect-body", expect_body o)].

(** The remote client: a generator on another kernel, unless explicitly allowed. *)
Definition start_remote (o : Options) (source : string) (arguments : list string) : io state unit :=
  r <~ on_host (connect (default "" (client_host o)) source None) ;
  set_remote r ;~
  report <~ gets o_report ;
  separate <~ lift ($(rl_identity r).["boot_id"] !=' $report.["server_identity"].["boot_id"]) ;
  (if negb separate && negb (allow_same_host_client o)
   then throw (Exn ValueError "generator shares the origin kernel; this is not a separate-host run") else ret tt) ;~
  cpus <~ lift (cpu_list (client_cpus o)) ;
  on_remote (start (default "" (remote_client_binary o)) arguments cpus (connections o) (remote_timeout o)
               (workload_files o) 15) ;~
  set_client (rl_process r) ;~
  r <~ gets (fun s => default r (o_remote s)) ;
  command <~ lift ($(rl_started r).["command"]) ;
  put "client_command" command ;~
  described <~ lift (
    started <- py_items (rl_started r) ;;
    Ok (VDict (dupdate started
      [(VStr "host", VStr (default "" (client_host o))); (VStr "identity", rl_identity r);
       (VStr "separate_kernel", VBool separate); (VStr "samples", VList (rl_samples r));
       (VStr "clock_offset_to_server_ns", rl_clock_offset_ns r);
       (VStr "clock_uncertainty_ns", rl_clock_uncertainty_ns r)]))) ;
  put "remote_client" described ;~
  pid <~ lift ($(rl_started r).["pid"]) ;
  put "client_pid" pid.

Definition start_local (o : Options) (client_binary : string) (arguments : list string) : io state unit :=
  let command := local_client_command o client_binary arguments (workload_files o) in
  put "client_command" (VList (map VStr command)) ;~
  lift (cpu_list (client_cpus o)) ;~
  h <~ on_host (popen command) ;
  set_client h ;~
  pid <~ on_host clock ;
  put "client_pid" pid.

(** ** The sampling loop *)

Definition client_sample (client : option handle) (remote : option remote) (sample : val) : io host val :=
  match remote with
  | Some r => match last (rl_samples r) with
              | Some s => lift (setR sample "client" (Ok s))
              | None => ret sample
              end
  | None =>
      catch (s <~ take_proc_sample ; lift (setR sample "client" (Ok s)))
        (fun e => if is_class e FileNotFoundError then ret sample else throw e)
  end.

(** The admin metrics of a sample; a failure to get them is part of the sample (the script also
    closes the connection, which reopens itself).  The duration is recorded before the counters, so it survives a malformed document. *)
Definition admin_sample (sample : val) : io state val :=
  begin <~ on_host clock ;
  metrics <~ catch (m <~ on_host (get_json "/debug/metrics") ; ret (inl m))
    (fun e => if is_oserror (ex_class e) || is_class e HTTPException || is_class e RuntimeError
              then ret (inr e) else throw e) ;
  match metrics with
  | inr e => lift (setR sample "admin_error" (str (ex_msg e)))
  | inl m =>
      now <~ on_host clock ;
      lift (sample <- setR sample "admin_duration_ns" ($now -' $begin) ;;
            counters <- $m.["counters"] ;;
            gauges <- $m.["gauges"] ;;
            sample <- setR sample "counters" (Ok counters) ;;
            setR sample "gauges" (Ok gauges))
  end.

(** The report as it is dumped: [report["remote_client"]["samples"]] is the list the collector appends
    to, not a copy of it. *)
Definition current_report (s : state) : expr :=
  match o_remote s with
  | None => Ok (o_report s)
  | Some r =>
      ifR (has ($(o_report s)) "remote_client")
        (remote <- $(o_report s).["remote_client"] ;;
         remote <- setR remote "samples" ($(VList (rl_samples r))) ;;
         setR (o_report s) "remote_client" ($remote))
        (Ok (o_report s))
  end.

(** [options.output.write_text(json.dumps(report, indent=2) + "\n")] *)
Definition write_report (o : Options) : io state unit :=
  report <~ gets current_report ;
  text <~ lift (v <- report ;; json_dumps2 v) ;
  on_host (write_file (output o) (text +:+ nl)).

Definition progress (o : Options) (count : Z) (sample : val) : io state unit :=
  write_report o ;~
  line <~ lift (
    rss <- (v <- $sample.["server"].["VmRSS"] /' int 1048576 ;; round_to 1 v) ;;
    active <- get (getd ($sample) "gauges" (VDict [])) "requests_active" ;;
    rejected <- get (getd ($sample) "counters" (VDict [])) "requests_rejected_total" ;;
    v <- mkdict [("output", str (output o)); ("elapsed_samples", int count); ("rss_mib", $rss);
                 ("active", $active); ("rejected", $rejected)] ;;
    json_dumps v) ;
  on_host (say line).

(** [finished = remote.completed() if remote else client.poll() is not None] *)
Definition finished (fuel : nat) : io state bool :=
  remote <~ gets o_remote ;
  match remote with
  | Some _ => on_remote (completed fuel)
  | None =>
      client <~ gets o_client ;
      match client with
      | Some h => code <~ on_host (poll h) ; ret (match code with Some _ => true | None => false end)
      | None => throw (Exn AttributeError "'NoneType' object has no attribute 'poll'")
      end
  end.

Definition sample_round (o : Options) (server : handle) : io state unit :=
  now <~ on_host clock ;
  proc <~ on_host take_proc_sample ;
  kernel <~ on_host take_kernel_sample ;
  cpus <~ lift (cpu_list (if given (observed_cpus o) then default "" (observed_cpus o) else server_cpus o)) ;
  stat <~ on_host read_proc ;
  cores <~ lift (core_sample cpus stat) ;
  sample <~ lift (mkdict [("unix_ns", $now); ("server", $proc); ("kernel", $kernel); ("server_cores", $cores)]) ;
  client <~ gets o_client ;
  remote <~ gets o_remote ;
  sample <~ on_host (client_sample client remote sample) ;
  sample <~ admin_sample sample ;
  set_report (fun r => samples <- $r.["samples"] ;; l <- py_iter samples ;; setR r "samples" ($(VList (l ++ [sample])))) ;~
  report <~ gets o_report ;
  count <~ lift (l <- iterR ($report.["samples"]) ;; Ok (Z.of_nat (length l))) ;
  (if count mod 15 =? 0 then progress o count sample else ret tt) ;~
  code <~ on_host (poll server) ;
  (match code with
   | Some _ => throw (Exn RuntimeError "server exited during load")
   | None => ret tt
   end) ;~
  on_host (advance ;~ ret tt).

Fixpoint sample_loop (fuel : nat) (o : Options) (server : handle) : io state unit :=
  match fuel with
  | O => throw (Exn RuntimeError "out of fuel")
  | S fuel =>
      done_ <~ finished fuel ;
      if done_ : bool then ret tt else sample_round o server ;~ sample_loop fuel o server
  end.

(** ** The end of a successful run *)

(** The phases of a remote client on the server's clock. *)
Definition shift_phase (offset : val) (phase : val) : expr :=
  phase <- setR phase "start_unix_ns" ($phase.["start_unix_ns"] +' $offset) ;;
  setR phase "end_unix_ns" ($phase.["end_unix_ns"] +' $offset).
Definition shift_phases (offset client : val) : expr :=
  phases <- iterR ($client.["phases"]) ;;
  phases <- mapR (shift_phase offset) phases ;;
  setR client "phases" ($(VList phases)).

Definition check_client_exit (what : string) : io state unit :=
  client <~ gets o_client ;
  match client with
  | None => throw (Exn AttributeError "'NoneType' object has no attribute 'returncode'")
  | Some h =>
      code <~ on_host (returncode h) ;
      if py_eqb code (VInt 0) then ret tt
      else if String.eqb what "remote" then
        throw (Exn RuntimeError ("remote collector exited " +:+ py_str code))
      else text <~ on_host read_proc ; throw (Exn RuntimeError ("client exited: " +:+ text))
  end.

Definition remote_result (fuel : nat) (client_log client_output : string) : io state unit :=
  on_remote RemoteLoad.stop ;~
  on_remote (collect fuel) ;~
  check_client_exit "remote" ;~
  r <~ gets o_remote ;
  match r with
  | None => throw (Exn AttributeError "'NoneType' object has no attribute 'result'")
  | Some r =>
      client <~ lift ($(rl_result r).["client"]) ;
      text <~ lift (json_dumps client) ;
      on_host (write_file client_output (text +:+ nl)) ;~
      client <~ lift (json_loads text) ;
      client <~ lift (shift_phases (rl_clock_offset_ns r) client) ;
      put "client" client ;~
      errors <~ lift (v <- $(rl_result r).["stderr"] ;; as_str v) ;
      on_host (write_file client_log errors)
  end.

Definition local_result : io state unit :=
  check_client_exit "local" ;~
  text <~ on_host read_proc ;
  client <~ lift (json_loads text) ;
  put "client" client.

(** [for phase, label in zip(phases, labels): phase["label"] = label] *)
Definition add_labels (l : list string) (report : val) : expr :=
  phases <- iterR ($report.["client"].["phases"]) ;;
  guard (negb (length l =? length phases)%nat) ValueError "phase label count does not match" ;;;
  phases <- mapR (fun pl => setR pl.1 "label" (str pl.2)) (combine phases l) ;;
  client <- $report.["client"] ;;
  client <- setR client "phases" ($(VList phases)) ;;
  setR report "client" ($client).

Definition phase_line (phase : val) : res string :=
  v <- dictcomp ["offered_rate"; "duration_seconds"; "sent_per_second"; "window_successes_per_second";
                 "success_latency"; "failures"] (fun k => $phase.[k]) ;;
  json_dumps v.

(** ** The run *)

(** What is recorded before anything is started: hashes of the sources and binaries and the toolchains
    are answers of the environment. *)
Definition initial_report (o : Options) (command : list string) : io host val :=
  started <~ clock ;
  kernel <~ clock ;
  machine <~ clock ;
  cpus <~ lift_val py_iter external ;
  cpus <~ lift (py_sorted cpus) ;
  id_ <~ identity ;
  before <~ take_kernel_sample ;
  hashes <~ external ;
  toolchains <~ external ;
  lift (mkdict
    [("status", str "running"); ("started_unix_ns", $started); ("kernel", $kernel); ("machine", $machine);
     ("options", $(vars o)); ("server_command", $(VList (map VStr command))); ("monitor_cpus", $(VList cpus));
     ("server_identity", $id_); ("samples", $(VList [])); ("kernel_before", $before); ("hashes", $hashes);
     ("toolchains", $toolchains)]).

(** CPU affinity and the descriptor limit of this process, then the output folder. *)
Definition prepare_host (o : Options) : io host unit :=
  allowed <~ lift_val py_iter external ;
  monitor <~ lift (
    servers <- cpu_list (server_cpus o) ;;
    clients <- (if given (client_host o) then Ok [] else cpu_list (client_cpus o)) ;;
    Ok (List.filter (fun c => negb (existsb (fun z => py_eqb (VInt z) c) (servers ++ clients))) allowed)) ;
  (match monitor with [] => ret tt | _ => lift (py_min monitor) ;~ external ;~ ret tt end) ;~
  external ;~
  external ;~
  external ;~
  ret tt.

(** [raw_path] and so on: [output] with another suffix, as the caller names them. *)
Record paths := Paths { p_client_json : string; p_server_log : string; p_client_log : string;
                        p_server_binary : string; p_client_binary : string; p_source : string }.

(** The server's configuration and counters before and after the load. *)
Definition put_json (k path : string) : io state unit := v <~ on_host (get_json path) ; put k v.

Definition run (fuel : nat) (o : Options) (p : paths) : io state unit :=
  on_host (external ;~ external ;~ external) ;~
  server <~ on_host (popen (server_command o (p_server_binary p))) ;
  set_server server ;~
  now <~ on_host clock ;
  deadline <~ lift ($now +' int 10) ;
  ports <~ on_host (wait_ports fuel server deadline []) ;
  lift ($(VDict ports).["admin_listening"]) ;~
  set_connection true ;~
  put_json "config" "/debug/config" ;~
  put_json "workers_before" "/debug/workers" ;~
  put_json "metrics_before" "/debug/metrics" ;~
  destination <~ lift (
    match target_address o with
    | Some t => if String.eqb t "" then fstring [F (server_address o); F ":"; V ($(VDict ports).["listening"])] else Ok t
    | None => fstring [F (server_address o); F ":"; V ($(VDict ports).["listening"])]
    end) ;
  let arguments := client_arguments o destination in
  (if given (client_host o) then start_remote o (p_source p) arguments
   else start_local o (p_client_binary p) arguments) ;~
  pid <~ on_host clock ;
  put "server_pid" pid ;~
  on_host (advance ;~ ret tt) ;~
  sample_loop fuel o server ;~
  (if given (client_host o) then remote_result fuel (p_client_log p) (p_client_json p) else local_result) ;~
  (if given (labels o) then set_report (add_labels (split_char "," (default "" (labels o)))) else ret tt) ;~
  put_json "metrics_after" "/debug/metrics" ;~
  put_json "workers_after" "/debug/workers" ;~
  after <~ on_host take_kernel_sample ;
  put "kernel_after" after ;~
  put "status" (VStr "complete") ;~
  report <~ gets o_report ;
  phases <~ lift (iterR ($report.["client"].["phases"])) ;
  each (fun phase => line <~ lift (phase_line phase) ; on_host (say line)) phases.

(** The [finally] clause. *)
Definition cleanup (o : Options) : io state unit :=
  remote <~ gets o_remote ;
  (match remote with Some _ => on_remote RemoteLoad.stop | None => ret tt end) ;~
  client <~ gets o_client ;
  on_host (stop client) ;~
  server <~ gets o_server ;
  on_host (stop server) ;~
  code <~ on_host (match server with Some h => returncode h | None => ret VNone end) ;
  put "server_exit" code ;~
  finished <~ on_host clock ;
  put "finished_unix_ns" finished ;~
  write_report o.

(** [main] from its parsed arguments on. *)
Definition main (fuel : nat) (o : Options) (p : paths) : io host unit := fun h0 =>
  match lift (validate_options o) h0 with
  | (Err e, h) => (Err e, h)
  | (Ok _, h) =>
      let prepared := prepare_host o ;~ initial_report o (server_command o (p_server_binary p)) in
      match prepared h with
      | (Err e, h) => (Err e, h)
      | (Ok report, h) =>
          let body :=
            finally
              (catch (run fuel o p)
                 (fun e => put "status" (VStr "failed") ;~ put "error" (VStr (exn_repr e)) ;~ throw e))
              (cleanup o) in
          let '(r, s) := body (State h report None None false None) in
          (r, o_host s)
      end
  end.

(** ** Lemmas *)

(** *** Calm computations

    They start no process and do not change which processes the script knows. *)

Definition names_of (s : state) : option handle * option handle * option handle :=
  (o_server s, o_client s, option_map rl_process (o_remote s)).

Definition calm {A} (m : io state A) : Prop := forall s r s', m s = (r, s') ->
  later (o_host s) (o_host s') /\ length (procs (o_host s')) = length (procs (o_host s)) /\ names_of s' = names_of s.

Section Calm.
Context {A B : Type}.

Lemma calm_ret (a : A) : calm (ret a).
Proof. intros s r s' [= _ <-]. by repeat split. Qed.
Lemma calm_throw e : calm (throw (A:=A) e).
Proof. intros s r s' [= _ <-]. by repeat split. Qed.
Lemma calm_lift (x : res A) : calm (lift x).
Proof. intros s r s' [= _ <-]. by repeat split. Qed.
Lemma calm_gets (f : state -> A) : calm (gets f).
Proof. intros s r s' [= _ <-]. by repeat split. Qed.
Lemma calm_on_host (m : io host A) : settled m -> calm (on_host m).
Proof.
  intros Hm s r s'. unfold on_host, zoom. destruct (m (o_host s)) as [x h] eqn:E. apply Hm in E as [??].
  by intros [= _ <-].
Qed.
Lemma calm_bind (m : io state A) (k : A -> io state B) : calm m -> (forall a, calm (k a)) -> calm (bind m k).
Proof.
  intros Hm Hk s r s'. unfold bind. destruct (m s) as [[a|e] s1] eqn:E.
  - intros H. apply Hm in E as (L1 & N1 & E1). apply Hk in H as (L2 & N2 & E2).
    split_and!; [by eapply later_trans|congruence|congruence].
  - intros [= _ <-]. by eapply Hm.
Qed.
Lemma calm_catch (m : io state A) h : calm m -> (forall e, calm (h e)) -> calm (catch m h).
Proof.
  intros Hm Hh s r s'. unfold catch. destruct (m s) as [[a|e] s1] eqn:E.
  - intros [= _ <-]. by eapply Hm.
  - intros H. apply Hm in E as (L1 & N1 & E1). apply Hh in H as (L2 & N2 & E2).
    split_and!; [by eapply later_trans|congruence|congruence].
Qed.
End Calm.

Lemma calm_set_report f : calm (set_report f).
Proof. intros s r s'. unfold set_report. destruct (f (o_report s)); intros [= _ <-]; by repeat split. Qed.
Lemma calm_put k v : calm (put k v).
Proof. apply calm_set_report. Qed.
Lemma calm_set_connection b : calm (set_connection b).
Proof. intros s r s' [= _ <-]. by repeat split. Qed.

Lemma calm_on_remote {A} (m : io session A) : method_calm m -> calm (on_remote m).
Proof.
  intros Hm s r s'. unfold on_remote, names_of. destruct (o_remote s) as [rl|] eqn:Er.
  - destruct (m (Session (o_host s) rl)) as [x ses] eqn:E. apply Hm in E as (? & ? & Hp). cbn in *.
    intros [= _ <-]. cbn. by rewrite Hp.
  - intros [= _ <-]. rewrite Er. by repeat split.
Qed.

Lemma calm_each {A} (f : A -> io state unit) l : (forall a, calm (f a)) -> calm (each f l).
Proof. intros Hf. induction l; cbn; [apply calm_ret|]. by apply calm_bind. Qed.

#[export] Hint Resolve calm_ret calm_throw calm_lift calm_gets calm_on_host calm_bind calm_catch calm_set_report
  calm_put calm_set_connection calm_on_remote calm_each : zhtps.

Ltac calmly :=
  repeat first
    [ progress intros
    | solve [auto with zhtps]
    | apply calm_bind
    | apply calm_catch
    | apply calm_on_host
    | case_match
    | settle ].

Lemma settled_get_json path : settled (get_json path).
Proof. unfold get_json. settle. Qed.
Lemma settled_take_proc : settled take_proc_sample.
Proof. unfold take_proc_sample. settle. Qed.
Lemma settled_take_kernel : settled take_kernel_sample.
Proof. unfold take_kernel_sample. settle. Qed.
#[export] Hint Resolve settled_get_json settled_take_proc settled_take_kernel : zhtps.
Lemma settled_stop p : settled (stop p).
Proof. unfold stop. settle. Qed.
Lemma settled_wait_ports fuel server deadline ports : settled (wait_ports fuel server deadline ports).
Proof. revert ports. induction fuel; intros ports; cbn; settle. Qed.
Lemma settled_client_sample c r s : settled (client_sample c r s).
Proof. unfold client_sample. settle. Qed.
#[export] Hint Resolve settled_stop settled_wait_ports settled_client_sample : zhtps.

(** *** The processes the script knows *)

Definition named (k : handle) (s : state) : Prop :=
  o_server s = Some k \/ o_client s = Some k \/ option_map rl_process (o_remote s) = Some k.

(** Every process that is not named, or being named as [h], has exited. *)
Definition tracked_but (h : option handle) (s : state) : Prop :=
  (forall k, (k < length (procs (o_host s)))%nat -> exited k (o_host s) \/ named k s \/ h = Some k)
  /\ (forall k, named k s \/ h = Some k -> (k < length (procs (o_host s)))%nat).

Definition tracked (s : state) : Prop := tracked_but None s.
Definition no_client (s : state) : Prop := o_client s = None /\ o_remote s = None.
Definition no_server (s : state) : Prop := o_server s = None.

(** A predicate that calm computations keep. *)
Definition stable (P : state -> Prop) : Prop := forall s s',
  later (o_host s) (o_host s') -> length (procs (o_host s')) = length (procs (o_host s)) ->
  names_of s' = names_of s -> P s -> P s'.

Lemma named_same k s s' : names_of s' = names_of s -> named k s' <-> named k s.
Proof. unfold names_of, named. intros [= -> -> ->]. done. Qed.

Lemma stable_tracked_but h : stable (tracked_but h).
Proof.
  intros s s' (Hx & _) L N [H1 H2]. split; intros k Hk.
  - destruct (H1 k) as [?|[?|?]]; [lia|left; auto|right; left; by eapply named_same|by right; right].
  - rewrite L. apply H2. destruct Hk as [Hk|Hk]; [left; by eapply named_same|by right].
Qed.
Lemma stable_no_client : stable no_client.
Proof.
  intros s s' _ _ N [H1 H2]. unfold names_of in N. injection N as _ N1 N2. split; [congruence|].
  rewrite H2 in N2. by destruct (o_remote s').
Qed.
Lemma stable_no_server : stable no_server.
Proof. intros s s' _ _ N H. unfold names_of in N. injection N as N _ _. unfold no_server. congruence. Qed.
Lemma stable_and P Q : stable P -> stable Q -> stable (fun s => P s /\ Q s).
Proof. intros HP HQ s s' L N E [??]. split; [by eapply HP|by eapply HQ]. Qed.

(** [m] run from [P] ends in [Q] of its result, or raises with every process tracked. *)
Abbreviation guards P m Q := (triple P m Q tracked).

Lemma triple_calm {A} P (m : io state A) :
  calm m -> stable P -> (forall s, P s -> tracked s) -> guards P m (fun _ => P).
Proof.
  intros Hm HP HPt s r s' Hs E. destruct (Hm _ _ _ E) as (L & N & Hn).
  assert (P s') by by eapply HP. destruct r; auto.
Qed.

Lemma triple_calm_bind {A B} P (m : io state A) (k : A -> io state B) R :
  calm m -> stable P -> (forall s, P s -> tracked s) -> (forall a, guards P (k a) R) -> guards P (bind m k) R.
Proof. intros. eapply triple_bind; [by apply triple_calm|done]. Qed.

(** Starting a process leaves one that is not named yet. *)
Lemma triple_popen P command :
  stable P -> (forall s, P s -> tracked s) ->
  guards (fun s => P s) (on_host (popen command)) (fun h s => tracked_but (Some h) s /\
     exists s0, P s0 /\ names_of s = names_of s0).
Proof.
  intros HP HPt s r s' Hs. unfold on_host, zoom. destruct (popen command (o_host s)) as [x w] eqn:E.
  intros [= <- <-]. specialize (HPt _ Hs) as [H1 H2]. destruct x as [h|e].
  - destruct (popen_ok _ _ _ _ E) as (-> & L & Hx). split; [|by exists s]. split; cbn.
    + intros k Hk. destruct (decide (k = length (procs (o_host s)))) as [->|Hne]; [by right; right|].
      destruct (H1 k) as [?|[?|?]]; [lia|left; auto|right; left; done|done].
    + intros k [Hk|[= <-]]; [|lia]. specialize (H2 k). rewrite L. apply Nat.lt_lt_succ_r, H2. by left.
  - pose proof (steady_popen _ _ _ _ E) as (Hx & _). apply popen_err in E as L. split; cbn.
    + intros k Hk. destruct (H1 k) as [?|[?|?]]; [lia|left; auto|right; left; done|done].
    + intros k Hk. rewrite L. by apply H2.
Qed.

Lemma triple_set_server h :
  guards (fun s => tracked_but (Some h) s /\ exists s0, (tracked s0 /\ no_client s0 /\ no_server s0) /\ names_of s = names_of s0)
    (set_server h) (fun _ s => tracked s /\ no_client s).
Proof.
  intros s r s' [[H1 H2] (s0 & (_ & [Hc Hr] & Hs) & N)] [= <- <-]. unfold names_of in N. injection N as N1 N2 N3.
  unfold no_server in Hs. rewrite Hr in N3.
  assert (Hr' : o_remote s = None) by by destruct (o_remote s). split; [|by split; cbn; congruence].
  split; cbn.
  - intros k Hk. destruct (H1 k Hk) as [?|[[?|[?|?]]|[= <-]]]; [by left|congruence|congruence| |].
    + rewrite Hr' in H. done.
    + right. left. by left.
  - intros k Hk. apply H2. destruct Hk as [[Hk|[Hk|Hk]]|Hk]; cbn in Hk; [right; congruence|left; right; by left| |done].
    left. by right; right.
Qed.

(** The second process becomes known while there is no other; a collector may be. *)
Lemma triple_set_client P h :
  (forall s, P s -> o_client s = None) ->
  guards (fun s => tracked_but (Some h) s /\ exists s0, P s0 /\ names_of s = names_of s0) (set_client h) (fun _ => tracked).
Proof.
  intros HP s r s' [[H1 H2] (s0 & Hs0 & N)] [= <- <-]. apply HP in Hs0. unfold names_of in N. injection N as N1 N2 N3.
  split; cbn.
  - intros k Hk. destruct (H1 k Hk) as [?|[[?|[?|?]]|[= <-]]]; [by left|right; left; by left|congruence| |].
    + right. left. by right; right.
    + right. left. right. by left.
  - intros k Hk. apply H2. destruct Hk as [[Hk|[Hk|Hk]]|Hk]; cbn in Hk; [left; by left|right; congruence| |done].
    left. by right; right.
Qed.

Definition waiting (s : state) : Prop := tracked s /\ no_client s.
Lemma stable_waiting : stable waiting.
Proof. apply stable_and; [apply stable_tracked_but|apply stable_no_client]. Qed.
Lemma waiting_tracked s : waiting s -> tracked s.
Proof. by intros [? _]. Qed.
Lemma stable_tracked : stable tracked.
Proof. apply stable_tracked_but. Qed.

Lemma triple_connect P target source transport :
  (forall s, P s -> tracked s) ->
  guards P (on_host (connect target source transport)) (fun r s => tracked_but (Some (rl_process r)) s /\
     exists s0, P s0 /\ names_of s = names_of s0).
Proof.
  intros HPt s r s' Hs. unfold on_host, zoom. destruct (connect target source transport (o_host s)) as [x w] eqn:E.
  intros [= <- <-]. destruct (connect_spec _ _ _ _ _ _ E) as [[Hx Hlen] H]. pose proof (HPt _ Hs) as [H1 H2]. destruct x as [o|e].
  - destruct H as [Hp L]. split; [|by exists s]. rewrite Hp. split; cbn.
    + intros k Hk. destruct (decide (k = length (procs (o_host s)))) as [->|Hne]; [by right; right|].
      destruct (H1 k) as [?|[?|?]]; [lia|left; auto|right; left; done|done].
    + intros k [Hk|[= <-]]; [|lia]. specialize (H2 k). rewrite L. apply Nat.lt_lt_succ_r, H2. by left.
  - split; cbn.
    + intros k Hk. destruct (decide (k < length (procs (o_host s)))%nat) as [Hlt|]; [|left; apply H; lia].
      destruct (H1 k) as [?|[?|?]]; [done|left; auto|right; left; done|done].
    + intros k [Hk|Hk]; [|done]. specialize (H2 k (or_introl Hk)).
      lia.
Qed.

(** The collector is known before the client variable is. *)
Definition linked (h : handle) (s : state) : Prop :=
  tracked s /\ o_client s = None /\ option_map rl_process (o_remote s) = Some h.

Lemma stable_linked h : stable (linked h).
Proof.
  intros s s' L N E [H1 [H2 H3]]. split; [by eapply stable_tracked|].
  unfold names_of in E. injection E as _ E1 E2. split; congruence.
Qed.

Lemma triple_set_remote r :
  guards (fun s => tracked_but (Some (rl_process r)) s /\ exists s0, waiting s0 /\ names_of s = names_of s0)
    (set_remote r) (fun _ => linked (rl_process r)).
Proof.
  intros s x s' [[H1 H2] (s0 & (_ & [Hc Hr]) & N)] [= <- <-]. unfold names_of in N. injection N as N1 N2 N3.
  rewrite Hr in N3. assert (Hr' : o_remote s = None) by by destruct (o_remote s).
  split; [|by split; cbn; congruence]. split; cbn.
  - intros k Hk. destruct (H1 k Hk) as [?|[[?|[?|?]]|[= <-]]]; [by left|right; left; by left|congruence| |].
    + rewrite Hr' in H. done.
    + right. left. right. by right.
  - intros k Hk. apply H2. destruct Hk as [[Hk|[Hk|Hk]]|Hk]; cbn in Hk; [left; by left|left; right; by left| |done].
    right. congruence.
Qed.

(** The collector becomes known while there is none; a second process may be. *)
Lemma triple_set_remote_from P r :
  (forall s, P s -> o_remote s = None) ->
  guards (fun s => tracked_but (Some (rl_process r)) s /\ exists s0, P s0 /\ names_of s = names_of s0) (set_remote r) (fun _ => tracked).
Proof.
  intros HP s x s' [[H1 H2] (s0 & Hs0%HP & N)] [= <- <-]. unfold names_of in N. injection N as N1 N2 N3.
  rewrite Hs0 in N3. assert (Hr : o_remote s = None) by by destruct (o_remote s). split; cbn.
  - intros k Hk. destruct (H1 k Hk) as [?|[[?|[?|Hx]]|[= <-]]]; [by left|right; left; by left|right; left; right; by left| |].
    + by rewrite Hr in Hx.
    + right. left. right. by right.
  - intros k Hk. apply H2. destruct Hk as [[Hk|[Hk|Hk]]|Hk]; cbn in Hk; [left; by left|left; right; by left| |done].
    right. congruence.
Qed.

Lemma triple_link_client h : guards (linked h) (set_client h) (fun _ => tracked).
Proof.
  intros s x s' [[H1 H2] [Hc Hr]] [= <- <-]. split; cbn.
  - intros k Hk. destruct (H1 k Hk) as [?|[[?|[?|?]]|?]]; [by left|right; left; by left|congruence| |done].
    right. left. by right; right.
  - intros k Hk. apply H2. left. destruct Hk as [[Hk|[Hk|Hk]]|Hk]; cbn in Hk; [by left|right; right; congruence|by right; right|done].
Qed.

Ltac calm_bind P :=
  apply (triple_calm_bind P); [calmly|apply stable_linked || apply stable_waiting || apply stable_tracked|
    by intros ? [? ?] || done|]; intros.

Lemma triple_start_remote o source arguments : guards waiting (start_remote o source arguments) (fun _ => tracked).
Proof.
  unfold start_remote. eapply triple_bind; [apply triple_connect, waiting_tracked|]. intros r.
  eapply triple_bind; [apply triple_set_remote|]. intros ?; cbv beta.
  calm_bind (linked (rl_process r)). calm_bind (linked (rl_process r)). calm_bind (linked (rl_process r)).
  calm_bind (linked (rl_process r)). calm_bind (linked (rl_process r)).
  eapply triple_bind; [apply triple_link_client|]. intros ?; cbv beta.
  apply triple_calm; [calmly|apply stable_tracked|done].
Qed.

Lemma triple_start_local o binary arguments : guards waiting (start_local o binary arguments) (fun _ => tracked).
Proof.
  unfold start_local. calm_bind waiting. calm_bind waiting.
  eapply triple_bind; [apply triple_popen; [apply stable_waiting|apply waiting_tracked]|]. intros h.
  eapply triple_bind; [apply (triple_set_client waiting); by intros ? [_ [? _]]|]. intros ?; cbv beta.
  apply triple_calm; [calmly|apply stable_tracked|done].
Qed.

Lemma calm_sample_loop fuel o server : calm (sample_loop fuel o server).
Proof.
  induction fuel as [|fuel IH]; cbn [sample_loop]; [apply calm_throw|].
  apply calm_bind; [unfold finished; calmly|]. intros []; [apply calm_ret|]. apply calm_bind; [|done].
  unfold sample_round, admin_sample, progress, write_report. calmly.
Qed.

Lemma calm_results fuel o p :
  calm (if given (client_host o) then remote_result fuel (p_client_log p) (p_client_json p) else local_result).
Proof. unfold remote_result, local_result, check_client_exit. calmly. Qed.

Lemma triple_run fuel o p :
  guards (fun s => tracked s /\ no_client s /\ no_server s) (run fuel o p) (fun _ => tracked).
Proof.
  assert (HS : stable (fun s => tracked s /\ no_client s /\ no_server s)).
  { apply stable_and; [apply stable_tracked|]. apply stable_and; [apply stable_no_client|apply stable_no_server]. }
  assert (HT : forall s, tracked s /\ no_client s /\ no_server s -> tracked s) by by intros s [? _].
  unfold run. eapply triple_calm_bind; [calmly|exact HS|exact HT|]. intros _.
  eapply triple_bind; [apply (triple_popen _ _ HS HT)|]. intros server.
  apply (triple_bind _ _ (fun _ => waiting)); [exact (triple_set_server server)|]. intros ?; cbv beta.
  do 9 calm_bind waiting.
  eapply triple_bind; [destruct (given (client_host o)); [apply triple_start_remote|apply triple_start_local]|]. intros ?; cbv beta.
  apply triple_calm; [|apply stable_tracked|done].
  apply calm_bind; [calmly|]. intros. apply calm_bind; [calmly|]. intros _. apply calm_bind; [calmly|]. intros _.
  apply calm_bind; [apply calm_sample_loop|]. intros _. apply calm_bind; [apply calm_results|]. intros _.
  unfold put_json. calmly.
Qed.

(** *** Cleaning up *)

(** [stop] always succeeds and leaves its process exited. *)
Lemma stop_spec h w r w' :
  (h < length (procs w))%nat -> stop (Some h) w = (r, w') -> r = Ok tt /\ exited h w'.
Proof. apply (stop_child_spec h). Qed.

Lemma ends_stop h (c : io host unit) : settled c -> ends_child h (stop (Some h) ;~ c).
Proof.
  intros Hc w r w' Hh. unfold bind. destruct (stop (Some h) w) as [y w1] eqn:E.
  pose proof (settled_stop _ _ _ _ E) as [L N]. apply stop_spec in E as [-> Hx]; [|done].
  intros [L1 N1]%Hc. split_and!; [by eapply later_trans|lia|by apply L1].
Qed.
Lemma adds_stop P p : adds P (stop p).
Proof.
  unfold stop, terminate, wait. case_match; [|auto with zhtps]. apply adds_bind; [auto with zhtps|]. intros c.
  case_match; [auto with zhtps|]. apply adds_bind; [auto with zhtps|]. intros _. apply adds_catch; [auto with zhtps|].
  intros e. case_match; auto with zhtps.
Qed.
#[export] Hint Resolve adds_stop : zhtps.

Lemma on_host_stop p s r s' :
  (forall h, p = Some h -> (h < length (procs (o_host s)))%nat) -> on_host (stop p) s = (r, s') ->
  r = Ok tt /\ (forall h, p = Some h -> exited h (o_host s'))
  /\ later (o_host s) (o_host s') /\ length (procs (o_host s')) = length (procs (o_host s)) /\ names_of s' = names_of s.
Proof.
  intros Hp E. pose proof (calm_on_host _ (settled_stop p) _ _ _ E) as (L & N & En). revert E. unfold on_host, zoom.
  destruct (stop p (o_host s)) as [x w] eqn:E. intros [= <- <-]. destruct p as [h|]; [|injection E as <- _].
  - destruct (stop_spec h _ _ _ (Hp h eq_refl) E) as [-> Hx]. split_and!; try done. by intros ? [= <-].
  - by split_and!.
Qed.

Lemma on_remote_stop s r s' rl :
  o_remote s = Some rl -> (rl_process rl < length (procs (o_host s)))%nat -> on_remote RemoteLoad.stop s = (r, s') ->
  r = Ok tt /\ exited (rl_process rl) (o_host s').
Proof.
  intros Hr Hlt. unfold on_remote. rewrite Hr. unfold RemoteLoad.stop, bind, gets, RemoteLoad.on_host, zoom. cbn.
  destruct (stop_process (rl_process rl) (rl_stdin_open rl) (o_host s)) as [x w] eqn:E.
  destruct (stop_process_spec _ _ _ _ _ Hlt E) as [-> Hx]. by intros [= <- <-].
Qed.

Lemma calm_stop_remote (remote : option remote) :
  calm (match remote with Some _ => on_remote RemoteLoad.stop | None => ret tt end).
Proof. calmly. Qed.

(** The collector, when there is one, is stopped without an exception. *)
Lemma stop_remote_spec s r s' :
  tracked s ->
  (match o_remote s with Some _ => on_remote RemoteLoad.stop | None => ret tt end) s = (r, s') ->
  r = Ok tt /\ later (o_host s) (o_host s') /\ length (procs (o_host s')) = length (procs (o_host s))
  /\ names_of s' = names_of s /\ forall k, option_map rl_process (o_remote s) = Some k -> exited k (o_host s').
Proof.
  intros [_ H2] E. destruct (calm_stop_remote _ _ _ _ E) as (? & ? & ?). destruct (o_remote s) as [rl|] eqn:Er.
  - assert (Hlt : (rl_process rl < length (procs (o_host s)))%nat).
    { apply H2. left. right. right. by rewrite Er. }
    destruct (on_remote_stop _ _ _ _ Er Hlt E) as [-> Hx]. split_and!; try done. by intros k [= <-].
  - injection E as <- _. by split_and!.
Qed.

(** The cleanup stops every process the script knows, so none is left. *)
Lemma cleanup_all o s r s' : tracked s -> cleanup o s = (r, s') -> all_exited (o_host s').
Proof.
  intros Ht H. pose proof Ht as [H1 H2]. unfold cleanup in H. unfold bind at 1, gets at 1 in H. unfold bind at 1 in H.
  destruct ((match o_remote s with Some _ => on_remote RemoteLoad.stop | None => ret tt end) s) as [r1 s1] eqn:E1.
  destruct (stop_remote_spec _ _ _ Ht E1) as (-> & L1 & N1 & E1' & X1). unfold bind at 1, gets at 1 in H.
  unfold names_of in E1'. injection E1' as Es1 Ec1 Er1.
  unfold bind at 1 in H. destruct (on_host (stop (o_client s1)) s1) as [r2 s2] eqn:E2.
  assert (B2 : forall h, o_client s1 = Some h -> (h < length (procs (o_host s1)))%nat).
  { intros h Hh. rewrite N1. apply H2. left. right. left. congruence. }
  destruct (on_host_stop _ _ _ _ B2 E2) as (-> & X2 & L2 & N2 & Es2). unfold names_of in Es2. injection Es2 as Es2 Ec2 Er2.
  unfold bind at 1, gets at 1 in H. unfold bind at 1 in H.
  destruct (on_host (stop (o_server s2)) s2) as [r3 s3] eqn:E3.
  assert (B3 : forall h, o_server s2 = Some h -> (h < length (procs (o_host s2)))%nat).
  { intros h Hh. rewrite N2, N1. apply H2. left. left. congruence. }
  destruct (on_host_stop _ _ _ _ B3 E3) as (-> & X3 & L3 & N3 & _).
  match type of H with (?m s3 = _) => assert (Hm : calm m) by (unfold write_report; calmly) end.
  destruct (Hm _ _ _ H) as ((Lx & _) & N4 & _). intros k Hk. apply Lx.
  assert (Hk0 : (k < length (procs (o_host s)))%nat) by lia.
  destruct (H1 k Hk0) as [Hx|[[Hx|[Hx|Hx]]|Hx]]; [| | | |done].
  - by apply L3, L2, L1.
  - apply X3. congruence.
  - apply L3, X2. congruence.
  - apply L3, L2, X1. congruence.
Qed.

Lemma settled_initial_report o c : settled (initial_report o c).
Proof. unfold initial_report, identity. settle. Qed.
Lemma settled_prepare_host o : settled (prepare_host o).
Proof. unfold prepare_host. settle. Qed.
Lemma settled_prepared o c : settled (prepare_host o ;~ initial_report o c).
Proof. apply settled_bind; [apply settled_prepare_host|intros; apply settled_initial_report]. Qed.

(** The body with its [except] clause keeps every process tracked, whatever its outcome. *)
Lemma guarded_run fuel o p s r s' :
  tracked s /\ no_client s /\ no_server s ->
  catch (run fuel o p)
    (fun e => put "status" (VStr "failed") ;~ put "error" (VStr (exn_repr e)) ;~ throw e) s = (r, s') -> tracked s'.
Proof.
  intros Hs. unfold catch. destruct (run fuel o p s) as [[a|e] s1] eqn:E.
  - intros [= _ <-]. by apply (triple_run _ _ _ _ _ _ Hs E).
  - intros H. pose proof (triple_run _ _ _ _ _ _ Hs E) as Ht. cbn in Ht.
    match type of H with (?m s1 = _) => assert (Hm : calm m) by calmly end.
    destruct (Hm _ _ _ H) as (? & ? & ?). by eapply stable_tracked.
Qed.

(** *** A run that fails after its server started *)

Definition sample_options : Options :=
  mkOptions "run.json" "zhtps" "127.0.0.1" 8080 None None None (VInt 60) false "1:100" None
    "0" "1" None None 1 100 10 1 10 "1s" 0 None None 0 false false 0 "GET" "/" None None "" false 0 0 "1s" (VDict []).
Definition sample_paths : paths := Paths "client.json" "server.log" "client.log" "zhtps" "client" "remote_load.py".
(** An environment that answers every read with nothing and lets the server ignore its termination. *)
Definition silent : host := Host [] (fun _ => Turn [] None (VStr "") [] false) 0 [] [].

(** ** Properties *)

(** C12: However a load run ends - success, a failed check, a child that dies, a fault of the environment at any
    step, or exhausted fuel - [main] leaves every process it started exited: the server, a local client and the
    [ssh] process of a remote one. *)
Theorem overload_stops_everything fuel o p h r h' :
  procs h = [] -> main fuel o p h = (r, h') -> all_exited h'.
Proof.
  intros H0. unfold main.
  destruct (lift (validate_options o) h) as [[u|e] h1] eqn:E1; injection E1 as Hv ->;
    [|intros [= _ <-] k Hk; rewrite H0 in Hk; cbn in Hk; lia].
  destruct ((prepare_host o ;~ initial_report o (server_command o (p_server_binary p))) h1) as [[rep|e] h2] eqn:E2;
    apply settled_prepared in E2 as [L2 N2]; rewrite H0 in N2;
    [|intros [= _ <-] k Hk; rewrite N2 in Hk; cbn in Hk; lia].
  unfold finally.
  match goal with |- context [catch ?m ?k ?s0] => destruct (catch m k s0) as [r1 s1] eqn:E3 end.
  apply guarded_run in E3; [|split; [|done]; split; cbn; [|by intros k [[?|[?|?]]|?]]; intros k; rewrite N2; cbn; lia].
  destruct (cleanup o s1) as [r2 s2] eqn:E4. pose proof (cleanup_all _ _ _ _ E3 E4) as Hx.
  by destruct r2; intros [= _ <-].
Qed.

Lemma overload_stops_everything_witness :
  exists r h, main 10 sample_options sample_paths silent = (r, h) /\ procs h = [Exited (-9)] /\ all_exited h.
Proof.
  destruct (main 10 sample_options sample_paths silent) as [r h] eqn:E. exists r, h. split; [reflexivity|].
  split; [vm_compute in E; injection E as _ <-; reflexivity|].
  exact (overload_stops_everything 10 sample_options sample_paths silent r h eq_refl E).
Defined.
