(* ===== verification/Architecture.v ===== *)
(** * [bench/architecture.py]: request cost, host packets and profiles over a LAN

    [run_one] measures one server with a remote client and, when asked, a profiler; [main] rotates the variants
    over the repeats.  The state is that of [Overload]: the evidence is its report and [perf] its second process.
    The cleanup waits for [perf] before it stops anything else, so a profiler that does not end leaves the server
    and the collector running: [architecture_stops_everything] says so exactly, [perf_hang_leaves_server] shows it. *)

From stdpp Require Import base list strings.
From Stdlib Require Import ZArith Lia Ascii.
From S2P Require Import Prelude PyFloat PyText PyVal PyJson PyScript Shlex PyStats PyHash Evidence PyIO System ProcSample RemoteLoad Compare Overload.

Local Open Scope Z_scope.
Open Scope py_scope.

(** ** Options *)

Record Options := mkOptions {
  output : string; variants : list string; connections : Z; repeats : Z; duration : Z; schedule : string;
  workers : Z; capacity : Z; worker_cpus : string; server_cpus : string; completion_budget : Z;
  idle_reclaim_ms : option Z; go_procs : option Z; go_binary : string; go_gc_off : bool; zig_binary : string;
  before_binary : string; profile : bool; method : string; path_ : string; request_body : string;
  expect_body : string; churn : bool; access_log : bool; log_output : string; address : string;
  client_host : string; client_cpus : string; ssh_config : string; client_binary : string;
  local_client_binary : string; vars : val (* [vars(args)] *) }.

Definition set (s : string) : bool := negb (String.eqb s "").

(** ** Samples and the remote source *)

Definition nic_counter (d : dict) (name : val) : io host dict :=
  text <~ read_proc ; lift (n <- py_int text ;; Ok (dset name (VInt n) d)).
Definition nic_row (d : dict) (nic : val) : io host dict :=
  device <~ clock ;
  if negb (truthy device) then ret d else
  names <~ lift_val py_iter external ;
  counters <~ foldM nic_counter [] names ;
  ret (dset nic (VDict counters) d).
Definition proc_text (d : dict) (name : string) : io host dict := text <~ read_proc ; ret (sset name (VStr text) d).

Definition host_sample : io host val :=
  now <~ clock ;
  d <~ foldM proc_text [(VStr "unix_ns", now)] ["stat"; "softirqs"; "net/snmp"; "net/netstat"; "net/softnet_stat"] ;
  names <~ lift_val py_iter external ;
  nics <~ foldM nic_row [] names ;
  ret (VDict (sset "nics" (VDict nics) d)).

(** [text.rsplit(sub, 1)[0]] *)
Fixpoint before_last (sub s : string) : option string :=
  match s with
  | EmptyString => None
  | String a r => match before_last sub r with
                  | Some p => Some (String a p)
                  | None => if startswith sub s then Some "" else None
                  end
  end.

(** What is appended to the module on the generator host. *)
Definition wrapper : string := "
base_sample = sample_process
def sample_process(pid):
    try:
        result = base_sample(pid)
    except PermissionError as error:
        # A client closing thousands of sockets can make fd enumeration
        # unavailable before it has finished exiting. Retain other counters.
        fields = Path(f'/proc/{pid}/stat').read_text().rsplit(')', 1)[1].split()
        result = dict(unix_ns=time.time_ns(),
                      cpu_seconds=(int(fields[11])+int(fields[12]))/os.sysconf('SC_CLK_TCK'),
                      fd_sample_error=repr(error))
    result['host'] = host_sample()
    return result
agent()
".

(** [remote_source()], with [inspect.getsource(host_sample)] as [sampler] *)
Definition remote_source (sampler : string) : io host string :=
  text <~ read_proc ;
  ret (default text (before_last (nl +:+ "if __name__") text) +:+ nl +:+ sampler +:+ wrapper).

(** ** Commands *)

Section Root.
Context (ROOT sampler : string).

(** [str(binary)]: a resolved path, or a build product *)
Definition binary_of (o : Options) (variant : string) : io host string :=
  if is_go variant then
    if set (go_binary o) then answer_text
    else ret (BUILD ROOT +:+ "/" +:+ (if profile o then "go_profile" else "go_server"))
  else answer_text.

Definition server_command (o : Options) (variant binary : string) (port admin : Z) : list string :=
  (if set (server_cpus o) then ["taskset"; "-c"; server_cpus o] else []) ++ [binary]
  ++ (if is_go variant then ["-listen"; address o +:+ ":" +:+ string_of_Z port]
      else ["--address"; address o; "--port"; string_of_Z port; "--admin-port"; string_of_Z admin;
            "--workers"; string_of_Z (workers o); "--max-connections"; string_of_Z (capacity o);
            "--max-active"; string_of_Z (capacity o); "--max-requests"; "4294967295";
            "--completion-budget"; string_of_Z (completion_budget o)]
           ++ (if access_log o then [] else ["--no-access-log"])
           ++ (if set (worker_cpus o) then ["--worker-cpus"; worker_cpus o] else [])
           ++ optional_flag "--idle-reclaim-ms" (idle_reclaim_ms o)).

Definition server_env (o : Options) (variant folder : string) : list (string * option string) :=
  [("GOMAXPROCS", None); ("GOGC", None); ("GOMEMLIMIT", None); ("GODEBUG", None)]
  ++ (match go_procs o with Some n => if n =? 0 then [] else [("GOMAXPROCS", Some (string_of_Z n))] | None => [] end)
  ++ (if is_go variant && profile o then [("ZHTPS_GO_PROFILE", Some (folder +:+ "/go")); ("GODEBUG", Some "gctrace=1")] else [])
  ++ (if is_go variant && go_gc_off o then [("GOGC", Some "off")] else []).

Definition perf_command (folder pid : string) : list string :=
  ["perf"; "record"; "-F"; "199"; "-e"; "cycles:u"; "--call-graph"; "dwarf,4096"; "-o"; folder +:+ "/user.perf.data";
   "-p"; pid].

Definition load_arguments (o : Options) (port : Z) : list string :=
  ["-address"; address o +:+ ":" +:+ string_of_Z port; "-connections"; string_of_Z (connections o)]
  ++ (if set (schedule o)
      then ["-schedule"; schedule o; "-shards"; "8"; "-queue"; "128"; "-timeout"; "2s";
            "-method"; method o; "-path"; path_ o] ++ (if churn o then ["-churn"] else [])
      else ["-warmup"; "2s"; "-duration"; string_of_Z (duration o) +:+ "s"; "-allow-errors"]).

Definition workload_files (o : Options) : list (string * string) :=
  List.filter (fun fp => set fp.2) [("-request-body", request_body o); ("-expect-body", expect_body o)].

(** ** The trial *)

(** [evidence[k] = e] for an effect [e] *)
Definition record (k : string) (m : io host val) : io state unit := v <~ on_host m ; put k v.

Definition require_ (b : res bool) : io state unit :=
  ok <~ lift b ; if ok : bool then ret tt else throw (Exn AssertionError "").

Definition proc_sample_ : io host val := take_proc_sample.

(** The collector on another kernel. *)
Definition open_remote (o : Options) : io state unit :=
  source <~ on_host (remote_source sampler) ;
  let transport := ["ssh"; "-F"; ssh_config o; "-T"; client_host o; shlex_join ["python3"; "-u"; "-c"; source]] in
  r <~ on_host (connect (client_host o) source (Some transport)) ;
  set_remote r ;~
  report <~ gets o_report ;
  require_ ($(rl_identity r).["boot_id"] !=' $report.["server_identity"].["boot_id"]) ;~
  put "remote_identity" (rl_identity r) ;~
  put "remote_source_sha256" (VStr (sha256_hex source)).

Definition start_perf (o : Options) (variant folder : string) : io state unit :=
  if profile o && negb (is_go variant) then
    pid <~ on_host clock ;
    let command := perf_command folder (py_str pid) in
    h <~ on_host (popen command) ;
    set_client h ;~
    put "perf_command" (VList (map VStr command))
  else ret tt.

Definition start_load (o : Options) (port : Z) : io state unit :=
  cpus <~ lift (cpu_list (client_cpus o)) ;
  on_remote (start (client_binary o) (load_arguments o port) cpus (connections o) (VInt 180) (workload_files o) 15) ;~
  local <~ on_host read_proc ;
  r <~ on_remote (gets s_remote) ;
  require_ ($(rl_started r).["binary_sha256"] ==' str (sha256_hex local)) ;~
  put "remote_started" (rl_started r) ;~
  put "clock_offset_ns" (rl_clock_offset_ns r) ;~
  put "clock_uncertainty_ns" (rl_clock_uncertainty_ns r).

(** [evidence['samples'].append(sample)] *)
Definition take_sample (variant : string) : io state unit :=
  now <~ on_host clock ;
  server <~ on_host proc_sample_ ;
  sample_host <~ on_host host_sample ;
  more <~ (if is_go variant then ret [] else
             metrics <~ on_host (admin_json "/debug/metrics") ;
             workers <~ on_host (admin_json "/debug/workers") ;
             ret [("metrics", metrics); ("workers", workers)]) ;
  set_report (fun report =>
    samples <- iterR ($report.["samples"]) ;;
    setR report "samples" ($(VList (samples ++ [obj ([("unix_ns", now); ("server", server); ("host", sample_host)] ++ more)])))).

(** The loop until the remote client is done; [fuel] bounds its rounds and the messages of each. *)
Fixpoint await_load (fuel rounds : nat) (variant : string) (server : handle) (begin next_sample : val) : io state unit :=
  match rounds with
  | O => throw (Exn RuntimeError "out of fuel")
  | S rounds =>
      finished <~ on_remote (completed fuel) ;
      if finished : bool then ret tt else
      code <~ on_host (poll server) ;
      (match code with Some _ => throw (Exn RuntimeError "server exited during load") | None => ret tt end) ;~
      now <~ on_host clock ;
      late <~ lift ($now -' $begin >' int 185) ;
      (if late : bool then throw (Exn TimeoutError "load deadline") else ret tt) ;~
      due <~ (now <~ on_host clock ; lift ($now >=' $next_sample)) ;
      next_sample <~ (if due : bool
                      then take_sample variant ;~ now <~ on_host clock ; lift ($now +' lit 5 1)
                      else ret next_sample) ;
      on_host (advance ;~ ret tt) ;~
      await_load fuel rounds variant server begin next_sample
  end.

(** The client received the workload files that were sent. *)
Definition check_body (fp : string * string) : io state unit :=
  let field := if String.eqb fp.1 "-request-body" then "request_body_sha256" else "expected_body_sha256" in
  content <~ on_host read_proc ;
  report <~ gets o_report ;
  require_ ($report.["load"].["workload"].[field] ==' str (sha256_hex content)).

(** [perf.send_signal(signal.SIGINT); perf.wait(timeout=10)] *)
Definition interrupt (h : handle) : io host Z := terminate h ;~ wait_timeout h.

Definition end_perf : io state unit :=
  perf <~ gets o_client ;
  match perf with
  | None => ret tt
  | Some h =>
      on_host (interrupt h) ;~
      code <~ on_host (returncode h) ;
      if py_eqb code (VInt 0) || py_eqb code (VInt (-2)) then ret tt
      else throw (Exn RuntimeError ("perf exited " +:+ py_str code))
  end.

Definition admin_pair (variant suffix : string) : io state unit :=
  if is_go variant then ret tt else
  record ("metrics_" +:+ suffix) (admin_json "/debug/metrics") ;~
  record ("workers_" +:+ suffix) (admin_json "/debug/workers").

(** The [try] block. *)
Definition trial (fuel : nat) (o : Options) (variant folder : string) (command : list string) (port : Z) : io state unit :=
  on_host (with_env (server_env o variant folder)) ;~
  server <~ on_host (popen command) ;
  set_server server ;~
  record "go_runtime" (if is_go variant then line <~ answer_text ; lift (json_loads line) else ret VNone) ;~
  on_host (wait_ready fuel server) ;~
  running <~ on_host read_proc ;
  put "running_binary_sha256" (VStr (sha256_hex running)) ;~
  report <~ gets o_report ;
  require_ ($report.["running_binary_sha256"] ==' $report.["binary_sha256"]) ;~
  record "server_affinity" sched_getaffinity ;~
  open_remote o ;~
  admin_pair variant "before" ;~
  record "server_before" proc_sample_ ;~
  record "host_before" host_sample ;~
  start_perf o variant folder ;~
  begin <~ on_host clock ;
  start_load o port ;~
  await_load fuel fuel variant server begin (VInt 0) ;~
  elapsed <~ (now <~ on_host clock ; lift ($now -' $begin)) ;
  put "elapsed_seconds" elapsed ;~
  record "server_after" proc_sample_ ;~
  record "host_after" host_sample ;~
  r <~ on_remote (gets s_remote) ;
  load <~ lift ($(rl_result r).["client"]) ;
  put "load" load ;~
  each check_body (workload_files o) ;~
  put "remote_samples" (VList (rl_samples r)) ;~
  admin_pair variant "after" ;~
  end_perf ;~
  put "outcome" (VStr "measured").

Definition on_failure (e : exn) : io state unit :=
  put "outcome" (VStr "failed") ;~
  put "error" (VStr (exn_repr e)) ;~
  remote <~ gets o_remote ;
  put "remote_failure" (match remote with Some r => rl_failure r | None => VNone end) ;~
  throw e.

(** The [finally] block: the profiler is waited for first. *)
Definition wait_perf : io state unit :=
  perf <~ gets o_client ;
  match perf with
  | None => ret tt
  | Some h =>
      code <~ on_host (poll h) ;
      match code with Some _ => ret tt | None => on_host (interrupt h) ;~ ret tt end
  end.
Definition stop_rest (folder : string) : io state unit :=
  remote <~ gets o_remote ;
  (match remote with Some _ => on_remote RemoteLoad.stop | None => ret tt end) ;~
  server <~ gets o_server ;
  on_host (stop server) ;~
  (match server with Some h => record "server_exit" (returncode h) | None => ret tt end) ;~
  report <~ gets o_report ;
  text <~ lift (json_dumps2 report) ;
  on_host (write_file (folder +:+ "/run.json") (text +:+ nl)).
Definition cleanup (folder : string) : io state unit := wait_perf ;~ stop_rest folder.

Definition profile_report (o : Options) (variant binary folder : string) : io host unit :=
  if profile o then
    let command :=
      if is_go variant then ["go"; "tool"; "pprof"; "-top"; "-nodecount=80"; binary; folder +:+ "/go.cpu.pprof"]
      else ["perf"; "report"; "--stdio"; "--no-children"; "-g"; "none"; "--sort"; "symbol,dso"; "--percent-limit"; ".5";
            "-i"; folder +:+ "/user.perf.data"] in
    result <~ run_process false command ;
    (if cp_code result =? 0 then ret tt else throw (Exn CalledProcessError (join " " command))) ;~
    write_file (folder +:+ "/profile.txt") (cp_stdout result +:+ cp_stderr result)
  else ret tt.

(** What is known before the [try]: the command and the first evidence. *)
Definition evidence_of (fuel : nat) (o : Options) (variant : string) (repeat : Z)
    : io host (Z * string * list string * val) :=
  port <~ free_port ;
  admin <~ other_port fuel port ;
  binary <~ binary_of o variant ;
  let command := server_command o variant binary port admin in
  content <~ read_proc ;
  mine <~ identity ;
  external ;~
  external ;~
  ret (port, binary, command,
       obj [("variant", VStr variant); ("repeat", VInt repeat); ("command", VList (map VStr command));
            ("binary_sha256", VStr (sha256_hex content)); ("server_identity", mine); ("options", vars o);
            ("samples", VList [])]).

Definition run_one (fuel : nat) (o : Options) (variant : string) (repeat : Z) (folder : string) : io host val :=
  let~ (((port, binary), command), evidence) := evidence_of fuel o variant repeat in
  evidence <~ (fun h =>
    let '(r, s) := finally (catch (trial fuel o variant folder command port) on_failure) (cleanup folder)
                     (State h evidence None None false None) in
    (rmap (fun _ => o_report s) r, o_host s)) ;
  profile_report o variant binary folder ;~
  ret evidence.

(** ** The comparison *)

Definition distinct_cpus (o : Options) : res unit :=
  match cpu_list (client_cpus o) with
  | Ok cpus =>
      usage_if (match cpus with [] => true | _ => false end || negb (bool_decide (NoDup cpus)) || existsb (fun c => c <? 0) cpus)
        "--client-cpus must contain distinct nonnegative CPU IDs or ranges"
  | Err e => if isa e ValueError then usage "--client-cpus must contain distinct nonnegative CPU IDs or ranges" else Err e
  end.

Definition validate (o : Options) : res unit :=
  distinct_cpus o ;;;
  usage_if (existsb (String.eqb "before") (variants o) && negb (set (before_binary o)))
    "--variants before requires --before-binary" ;;;
  usage_if (negb (set (schedule o))
            && (negb (String.eqb (method o) "GET") || negb (String.eqb (path_ o) "/")
                || set (request_body o) || set (expect_body o) || churn o))
    "custom workloads require --schedule".

Definition source_files (zig : list string) : list string :=
  ["bench/architecture.py"; "bench/go_server/main.go"; "bench/go_server/profile.go"; "bench/remote_load.py";
   "bench/load/main.go"; "bench/load/offered.go"] ++ zig.

Definition manifest_of : io host val :=
  zig <~ rglob ;
  timestamp <~ clock ;
  command <~ clock ;
  sources <~ foldM sha_of [] (source_files zig) ;
  ret (obj [("timestamp_utc", timestamp); ("command", command); ("sources", VDict sources); ("runs", VList [])]).

(** The lines printed for a trial: [print(variant, ...)] separates by spaces. *)
Definition print_line (l : list expr) : res string := rmap (join " ") (mapR (rmap py_str) l).
Definition phase_line (variant : string) (phase : val) : res string :=
  print_line [str variant; $phase.["offered_rate"]; (v <- $phase.["window_successes_per_second"] ;; py_round v);
              $phase.["failures"]].
Definition load_lines (variant : string) (load : val) : res (list string) :=
  ifR (has ($load) "phases")
    (phases <- iterR ($load.["phases"]) ;; mapR (phase_line variant) phases)
    (rmap (fun line => [line])
       (print_line [str variant; (v <- $load.["window_successes_per_second"] ;; py_round v); $load.["failures"]])).

Definition trial_step (fuel : nat) (o : Options) (repeat : Z) (manifest : val) (variant : string) : io host val :=
  let name := variant +:+ "-" +:+ string_of_Z repeat in
  let folder := output o +:+ "/" +:+ name in
  external ;~
  say ("Starting " +:+ name) ;~
  evidence <~ run_one fuel o variant repeat folder ;
  manifest <~ lift (runs <- iterR ($manifest.["runs"]) ;;
                    setR manifest "runs" ($(VList (runs ++ [VStr (folder +:+ "/run.json")])))) ;
  text <~ lift (json_dumps2 manifest) ;
  write_file (output o +:+ "/manifest.json") (text +:+ nl) ;~
  lines <~ lift (load <- $evidence.["load"] ;; load_lines variant load) ;
  each say lines ;~
  ret manifest.

Definition repeat_step (fuel : nat) (o : Options) (manifest : val) (repeat : nat) : io host val :=
  foldM (trial_step fuel o (Z.of_nat repeat + 1)) manifest (rotate repeat (variants o)).

(** [main] from its parsed arguments on, with the output folder resolved. *)
Definition main (fuel : nat) (o : Options) : io host unit :=
  lift (validate o) ;~
  external ;~
  soft <~ clock ;
  hard <~ clock ;
  lift (py_max [soft; VInt 65536]) ;~
  external ;~
  manifest <~ manifest_of ;
  foldM (repeat_step fuel o) manifest (seq 0 (Z.to_nat (repeats o))) ;~
  ret tt.
End Root.

(** ** Lemmas *)

Lemma settled_nic_field d name : settled (nic_counter d name).
Proof. unfold nic_counter. settle. Qed.
#[export] Hint Resolve settled_nic_field : zhtps.
Lemma settled_arch_nic_row d nic : settled (nic_row d nic).
Proof.
  unfold nic_row. apply settled_bind; [settle|]. intros device. destruct (negb _); [settle|].
  apply settled_bind; [settle|]. intros names. apply settled_bind; [apply settled_foldM|]; settle.
Qed.
Lemma settled_proc_text d name : settled (proc_text d name).
Proof. unfold proc_text. settle. Qed.
#[export] Hint Resolve settled_arch_nic_row settled_proc_text : zhtps.
Lemma settled_host_sample : settled host_sample.
Proof.
  unfold host_sample. apply settled_bind; [settle|]. intros now. apply settled_bind; [apply settled_foldM; settle|].
  intros d. apply settled_bind; [settle|]. intros names. apply settled_bind; [apply settled_foldM|]; settle.
Qed.
Lemma settled_remote_source sampler : settled (remote_source sampler).
Proof. unfold remote_source. settle. Qed.
Lemma settled_arch_proc : settled proc_sample_.
Proof. apply settled_take_proc. Qed.
Lemma settled_interrupt h : settled (interrupt h).
Proof. unfold interrupt. settle. Qed.
#[export] Hint Resolve settled_host_sample settled_remote_source settled_arch_proc settled_interrupt settled_advance
  settled_admin_json settled_sched_getaffinity settled_wait_ready settled_answer_text settled_with_env : zhtps.
Lemma settled_binary_of ROOT o variant : settled (binary_of ROOT o variant).
Proof. unfold binary_of. settle. Qed.
#[export] Hint Resolve settled_binary_of settled_free_port settled_other_port settled_identity : zhtps.
Lemma settled_evidence_of ROOT fuel o variant repeat : settled (evidence_of ROOT fuel o variant repeat).
Proof. unfold evidence_of. settle. Qed.

Lemma calm_record k m : settled m -> calm (record k m).
Proof. intros. unfold record. calmly. Qed.
Lemma calm_require b : calm (require_ b).
Proof. unfold require_. calmly. Qed.
#[export] Hint Resolve calm_record calm_require mcalm_start mcalm_completed mcalm_stop mcalm_gets : zhtps.

Lemma calm_admin_pair variant suffix : calm (admin_pair variant suffix).
Proof. unfold admin_pair. calmly. Qed.
Lemma calm_start_load o port : calm (start_load o port).
Proof. unfold start_load. calmly. Qed.
Lemma calm_take_sample variant : calm (take_sample variant).
Proof. unfold take_sample. calmly. Qed.
Lemma calm_check_body fp : calm (check_body fp).
Proof. unfold check_body. calmly. Qed.
Lemma calm_end_perf : calm end_perf.
Proof. unfold end_perf. calmly. Qed.
Lemma calm_on_failure e : calm (on_failure e).
Proof. unfold on_failure. calmly. Qed.
#[export] Hint Resolve calm_admin_pair calm_start_load calm_take_sample calm_check_body calm_end_perf calm_on_failure : zhtps.
Lemma calm_await_load fuel rounds variant server begin next : calm (await_load fuel rounds variant server begin next).
Proof.
  revert next. induction rounds as [|rounds IH]; intros next; cbn [await_load]; [apply calm_throw|].
  apply calm_bind; [auto with zhtps|]. intros []; [apply calm_ret|]. calmly.
Qed.
#[export] Hint Resolve calm_await_load : zhtps.

(** *** The processes of a trial *)

(** No profiler is known yet. *)
Definition unprofiled (s : state) : Prop := tracked s /\ o_client s = None.
Lemma stable_unprofiled : stable unprofiled.
Proof.
  intros s s' L N E [H1 H2]. split; [by eapply stable_tracked|]. unfold names_of in E. injection E as _ E _. congruence.
Qed.
Lemma unprofiled_tracked s : unprofiled s -> tracked s.
Proof. by intros [? _]. Qed.
Lemma linked_unprofiled h s : linked h s -> unprofiled s.
Proof. by intros (? & ? & _). Qed.

Lemma triple_open_remote sampler o : guards waiting (open_remote sampler o) (fun _ => unprofiled).
Proof.
  unfold open_remote. calm_bind waiting. cbv zeta. eapply triple_bind; [apply triple_connect, waiting_tracked|]. intros r.
  eapply triple_bind; [apply triple_set_remote|]. intros ?; cbv beta.
  apply (triple_weaken (linked (rl_process r)) _ _ (fun _ => linked (rl_process r)) _ tracked _);
    [done|intros ?; apply linked_unprofiled|done|].
  apply triple_calm; [calmly|apply stable_linked|by intros ? [? _]].
Qed.

Ltac calm_step P := apply (triple_calm_bind P); [calmly|apply stable_unprofiled || apply stable_waiting || apply stable_tracked|
  apply unprofiled_tracked || apply waiting_tracked || done|]; intros.

Lemma triple_start_perf o variant folder : guards unprofiled (start_perf o variant folder) (fun _ => tracked).
Proof.
  unfold start_perf. destruct (_ && _).
  - calm_step unprofiled. cbv zeta.
    eapply triple_bind; [apply triple_popen; [apply stable_unprofiled|apply unprofiled_tracked]|]. intros h.
    eapply triple_bind; [apply (triple_set_client unprofiled); by intros ? [_ ?]|]. intros ?; cbv beta.
    apply triple_calm; [calmly|apply stable_tracked|done].
  - apply (triple_weaken tracked _ _ (fun _ => tracked) _ tracked _); [apply unprofiled_tracked|done|done|].
    apply triple_calm; [calmly|apply stable_tracked|done].
Qed.

Lemma triple_trial sampler fuel o variant folder command port :
  guards (fun s => tracked s /\ no_client s /\ no_server s) (trial sampler fuel o variant folder command port) (fun _ => tracked).
Proof.
  assert (HS : stable (fun s => tracked s /\ no_client s /\ no_server s)).
  { apply stable_and; [apply stable_tracked|]. apply stable_and; [apply stable_no_client|apply stable_no_server]. }
  assert (HT : forall s, tracked s /\ no_client s /\ no_server s -> tracked s) by by intros s [? _].
  unfold trial. eapply triple_calm_bind; [calmly|exact HS|exact HT|]. intros _.
  eapply triple_bind; [apply (triple_popen _ _ HS HT)|]. intros server.
  apply (triple_bind _ _ (fun _ => waiting)); [exact (triple_set_server server)|]. intros ?; cbv beta.
  do 7 calm_step waiting.
  eapply triple_bind; [apply triple_open_remote|]. intros ?; cbv beta. do 3 calm_step unprofiled.
  eapply triple_bind; [apply triple_start_perf|]. intros ?; cbv beta.
  apply triple_calm; [calmly|apply stable_tracked|done].
Qed.

Lemma guarded_trial sampler fuel o variant folder command port s r s' :
  tracked s /\ no_client s /\ no_server s ->
  catch (trial sampler fuel o variant folder command port) on_failure s = (r, s') -> tracked s'.
Proof.
  intros Hs. unfold catch. destruct (trial sampler fuel o variant folder command port s) as [[a|e] s1] eqn:E;
    pose proof (triple_trial _ _ _ _ _ _ _ _ _ _ Hs E) as Ht; cbn in Ht.
  - by intros [= _ <-].
  - intros H. destruct (calm_on_failure e _ _ _ H) as (? & ? & ?). by eapply stable_tracked.
Qed.

(** *** Whether there is a profiler *)

(** [m] does not start one. *)
Definition keeps_client {A} (m : io state A) : Prop := forall s r s', m s = (r, s') -> o_client s' = o_client s.

Lemma keeps_calm {A} (m : io state A) : calm m -> keeps_client m.
Proof. intros Hm s r s' E. destruct (Hm _ _ _ E) as (_ & _ & N). unfold names_of in N. congruence. Qed.
Lemma keeps_bind {A B} (m : io state A) (k : A -> io state B) :
  keeps_client m -> (forall a, keeps_client (k a)) -> keeps_client (bind m k).
Proof.
  intros Hm Hk s r s'. unfold bind. destruct (m s) as [[a|e] s1] eqn:E; apply Hm in E.
  - intros H. apply Hk in H. congruence.
  - by intros [= _ <-].
Qed.
Lemma keeps_on_host {A} (m : io host A) : keeps_client (on_host m).
Proof. intros s r s'. unfold on_host, zoom. destruct (m (o_host s)). by intros [= _ <-]. Qed.
Lemma keeps_set_server h : keeps_client (set_server h).
Proof. by intros s r s' [= _ <-]. Qed.
Lemma keeps_set_remote r : keeps_client (set_remote r).
Proof. by intros s x s' [= _ <-]. Qed.
#[export] Hint Resolve keeps_on_host keeps_set_server keeps_set_remote : zhtps.

Ltac keep := repeat first [ solve [auto with zhtps | apply keeps_calm; calmly] | apply keeps_bind; intros ].

Lemma trial_unprofiled sampler fuel o variant folder command port :
  profile o && negb (is_go variant) = false -> keeps_client (trial sampler fuel o variant folder command port).
Proof. intros Hp. unfold trial, open_remote, start_perf. rewrite Hp. cbv zeta. keep. Qed.

(** *** Cleaning up *)

Lemma calm_wait_perf : calm wait_perf.
Proof. unfold wait_perf. calmly. Qed.

Lemma interrupt_spec h w r w' :
  interrupt h w = (r, w') -> match r with Ok _ => exited h w' | Err e => is_class e TimeoutExpired = true end.
Proof.
  unfold interrupt, bind at 1. destruct (terminate h w) as [[u|e] w1] eqn:E; [|discriminate E]. intros H.
  destruct r; [by eapply wait_timeout_ok|by eapply wait_timeout_err].
Qed.

(** Waiting for the profiler ends it, or is given up when it did not end in time. *)
Lemma wait_perf_spec s r s' :
  wait_perf s = (r, s') ->
  match r with
  | Ok _ => forall h, o_client s = Some h -> exited h (o_host s')
  | Err e => is_class e TimeoutExpired = true /\ is_Some (o_client s)
  end.
Proof.
  unfold wait_perf. unfold bind at 1, gets. destruct (o_client s) as [h|]; [|by intros [= <- _]].
  unfold bind at 1, on_host at 1, zoom. destruct (poll h (o_host s)) as [x w1] eqn:E1.
  assert (exists c, x = Ok c) as [c ->] by (by injection E1 as <- _; eauto). destruct c as [c|].
  - intros [= <- <-] k [= <-]. by eapply poll_some.
  - unfold bind at 1, on_host, zoom. cbn [o_host]. destruct (interrupt h w1) as [[c|e] w2] eqn:E2;
      apply interrupt_spec in E2; intros [= <- <-]; [by intros k [= <-]|by split].
Qed.

Lemma stop_rest_all folder s r s' :
  tracked s -> (forall h, o_client s = Some h -> exited h (o_host s)) -> stop_rest folder s = (r, s') -> all_exited (o_host s').
Proof.
  intros Ht Hp H. pose proof Ht as [H1 H2]. unfold stop_rest in H. unfold bind at 1, gets at 1 in H. unfold bind at 1 in H.
  destruct ((match o_remote s with Some _ => on_remote RemoteLoad.stop | None => ret tt end) s) as [r1 s1] eqn:E1.
  destruct (stop_remote_spec _ _ _ Ht E1) as (-> & L1 & N1 & E1' & X1). unfold bind at 1, gets at 1 in H.
  unfold names_of in E1'. injection E1' as Es1 Ec1 Er1.
  unfold bind at 1 in H. destruct (on_host (stop (o_server s1)) s1) as [r2 s2] eqn:E2.
  assert (B2 : forall h, o_server s1 = Some h -> (h < length (procs (o_host s1)))%nat).
  { intros h Hh. rewrite N1. apply H2. left. left. congruence. }
  destruct (on_host_stop _ _ _ _ B2 E2) as (-> & X2 & L2 & N2 & _).
  match type of H with (?m s2 = _) => assert (Hm : calm m) by calmly end.
  destruct (Hm _ _ _ H) as ((Lx & _) & N3 & _). intros k Hk. apply Lx.
  assert (Hk0 : (k < length (procs (o_host s)))%nat) by lia.
  destruct (H1 k Hk0) as [Hx|[[Hx|[Hx|Hx]]|Hx]]; [| | | |done].
  - by apply L2, L1.
  - apply X2. congruence.
  - by apply L2, L1, Hp.
  - by apply L2, X1.
Qed.

Lemma cleanup_ends folder s r s' :
  tracked s -> cleanup folder s = (r, s') ->
  all_exited (o_host s') \/ exists e, r = Err e /\ is_class e TimeoutExpired = true /\ is_Some (o_client s).
Proof.
  intros Ht. unfold cleanup. unfold bind at 1. destruct (wait_perf s) as [[u|e] s1] eqn:E1;
    pose proof (wait_perf_spec _ _ _ E1) as Hp; cbn in Hp; destruct (calm_wait_perf _ _ _ E1) as (L & N & En).
  - intros E2. left. refine (stop_rest_all folder s1 r s' _ _ E2); [by eapply stable_tracked|].
    intros h Hh. apply Hp. unfold names_of in En. congruence.
  - intros [= <- <-]. right. by exists e.
Qed.

(** *** Computations that end every process, unless a profiler does not end *)

Definition ends {A} (o : Options) (m : io host A) : Prop := forall w r w', all_exited w -> m w = (r, w') ->
  all_exited w' \/ (profile o = true /\ exists e, r = Err e /\ is_class e TimeoutExpired = true).

Lemma ends_tidy {A} o (m : io host A) : tidy m -> ends o m.
Proof.
  intros Hm w r w' Hw E. apply Hm in E as [(L & _) Hx]. left. intros k Hk.
  destruct (decide (k < length (procs w))%nat); [by apply L, Hw|apply Hx; lia].
Qed.
Lemma ends_bind {A B} o (m : io host A) (k : A -> io host B) : ends o m -> (forall a, ends o (k a)) -> ends o (bind m k).
Proof.
  intros Hm Hk w r w' Hw. unfold bind. destruct (m w) as [[a|e] w1] eqn:E; destruct (Hm _ _ _ Hw E) as [Hx|(Hp & e' & He & Hc)].
  - intros H. by eapply Hk.
  - done.
  - intros [= _ <-]. by left.
  - intros [= <- <-]. right. injection He as ->. eauto.
Qed.
Lemma ends_foldM {A S} o (f : S -> A -> io host S) l s : (forall s a, ends o (f s a)) -> ends o (foldM f s l).
Proof. intros Hf. revert s. induction l as [|a l IH]; intros s; cbn; [apply ends_tidy; auto with zhtps|]. by apply ends_bind. Qed.

Lemma ends_run_one ROOT sampler fuel o variant repeat folder : ends o (run_one ROOT sampler fuel o variant repeat folder).
Proof.
  unfold run_one. apply ends_bind; [apply ends_tidy, tidy_settled, settled_evidence_of|].
  intros [[[port binary] command] evidence]. apply ends_bind.
  - intros w r w' Hw. unfold finally.
    match goal with |- context [catch ?m ?k ?s0] => destruct (catch m k s0) as [r1 s1] eqn:E1; set (s := s0) in * end.
    assert (Hs : tracked s /\ no_client s /\ no_server s).
    { split; [|done]. split; cbn; [|by intros k [[?|[?|?]]|?]]. intros k Hk. left. by apply Hw. }
    pose proof (guarded_trial _ _ _ _ _ _ _ _ _ _ Hs E1) as Ht.
    assert (Hc : profile o && negb (is_go variant) = false -> o_client s1 = None).
    { intros Hp. revert E1. unfold catch. destruct (trial _ _ _ _ _ _ _ s) as [[a|e] s2] eqn:E2;
        pose proof (trial_unprofiled _ _ _ _ _ _ _ Hp _ _ _ E2) as Hk; [by intros [= _ <-]|].
      intros E3. apply (keeps_calm _ (calm_on_failure e)) in E3. cbn in Hk. congruence. }
    destruct (cleanup folder s1) as [r2 s2] eqn:E2.
    destruct (cleanup_ends _ _ _ _ Ht E2) as [Hx|(e & -> & He & [h Hh])].
    + destruct r2; intros [= _ <-]; by left.
    + intros [= <- <-]. right. split; [|by exists e].
      destruct (profile o && negb (is_go variant)) eqn:Hp; [by apply andb_prop in Hp as [? _]|]. rewrite Hc in Hh; done.
  - intros v. apply ends_bind; [|intros; apply ends_tidy; auto with zhtps]. apply ends_tidy. unfold profile_report.
    destruct (profile o); [|auto with zhtps]. apply tidy_bind; [apply tidy_run_process|]. intros result.
    apply tidy_settled. settle.
Qed.

Lemma ends_main ROOT sampler fuel o : ends o (main ROOT sampler fuel o).
Proof.
  unfold main. apply ends_bind; [apply ends_tidy; auto with zhtps|]. intros _.
  do 5 (apply ends_bind; [apply ends_tidy; auto with zhtps|]; intros ?).
  apply ends_bind.
  { apply ends_tidy, tidy_settled. unfold manifest_of, rglob. apply settled_bind; [settle|]. intros. settle. }
  intros manifest. apply ends_bind; [|intros; apply ends_tidy; auto with zhtps].
  apply ends_foldM. intros d repeat. apply ends_foldM. intros d' variant. unfold trial_step.
  apply ends_bind; [apply ends_tidy; auto with zhtps|]. intros _.
  apply ends_bind; [apply ends_tidy; auto with zhtps|]. intros _.
  apply ends_bind; [apply ends_run_one|]. intros evidence. apply ends_tidy, tidy_settled. settle.
Qed.

(** *** A profiled trial whose generator is lost and whose profiler does not end *)

Definition sample_options (profiled : bool) : Options :=
  mkOptions "out" ["zig"] 1 1 1 "" 1 1024 "" "" 64 None None "" false "zhtps" "" profiled "GET" "/" "" "" false true "file"
    "127.0.0.1" "generator" "0" "ssh.conf" "load" "load" VNone.

Definition greeting : list val :=
  obj [("kind", VStr "hello"); ("identity", obj [("boot_id", VStr "other")])]
  :: repeat (obj [("kind", VStr "clock"); ("unix_ns", VInt 5)]) 5.

Definition long_stat : string := join " " (stat_text :: repeat "0" 20).

Definition profile_turns : list turn :=
  [number_ 9000; number_ 9001; text_ "/b/zhtps"; text_ "bytes"; text_ "gen"; text_ "6.1"; text_ "x86_64"; text_ "boot";
   answered (VList [VInt 0]); blank; blank]
  ++ [blank; number_ 0; number_ 1; blank; blank; number_ 200; text_ ("ZHTPS" +:+ nl); answered (VList []); text_ "bytes";
      answered (VList [VInt 0])]
  ++ [text_ "source"; text_ "source"; blank; blank] ++ concat (repeat [number_ 0; number_ 0; blank; blank; number_ 0] 5)
  ++ concat (repeat [blank; number_ 200; text_ "{}"] 2) ++ [text_ long_stat; text_ ""; number_ 100; number_ 2]
  ++ [number_ 0; text_ ""; text_ ""; text_ ""; text_ ""; text_ ""; answered (VList [])] ++ [number_ 12; blank; number_ 0].

Definition profile_host : host := Host [] (fun n => nth n profile_turns blank) 0 greeting [].
Definition main_host : host :=
  Host [] (fun n => nth n ([blank; number_ 1024; number_ 4096; blank; answered (VList []); text_ "now"; blank]
                           ++ repeat (text_ "source") 6 ++ [blank; blank] ++ profile_turns) blank) 0 greeting [].

(** The server, the collector and the profiler are left running by the same trial that stops them when it
    is not profiled. *)
Example perf_hang_leaves_server :
  (let '(r, h) := run_one "/r" "sampler" 10 (sample_options true) "zig" 1 "out/zig-1" profile_host in (r, procs h))
  = (raise TimeoutExpired "timed out", [Running; Running; Running])
  /\ (let '(r, h) := run_one "/r" "sampler" 10 (sample_options false) "zig" 1 "out/zig-1" profile_host in (r, procs h))
     = (raise QueueEmpty "", [Exited (-9); Exited (-9)]).
Proof. split; vm_compute; reflexivity. Qed.

(** ** Properties *)

(** However a comparison over the LAN ends - success, a server that does not start, a generator that is lost, a
    check that fails, a fault of the environment at any call, exhausted fuel - every process [main] started has exited:
    servers, collectors, profilers and report commands.  The one exception is named: with [--profile] the run may end
    with the [TimeoutExpired] of a profiler that did not end when it was interrupted. *)
Theorem architecture_stops_everything ROOT sampler fuel o h r h' :
  procs h = [] -> main ROOT sampler fuel o h = (r, h') ->
  all_exited h' \/ (profile o = true /\ exists e, r = Err e /\ is_class e TimeoutExpired = true).
Proof. intros Hh. apply ends_main. intros k Hk. rewrite Hh in Hk. cbn in Hk. lia. Qed.

Lemma architecture_stops_everything_witness :
  exists r h', main "/r" "sampler" 10 (sample_options false) main_host = (r, h')
  /\ procs h' = [Exited (-9); Exited (-9)]
  /\ (all_exited h' \/ (false = true /\ exists e, r = Err e /\ is_class e TimeoutExpired = true)).
Proof.
  destruct (main "/r" "sampler" 10 (sample_options false) main_host) as [r h'] eqn:E. exists r, h'. split; [reflexivity|].
  split; [vm_compute in E; injection E as _ <-; reflexivity|].
  exact (architecture_stops_everything "/r" "sampler" 10 (sample_options false) main_host r h' eq_refl E).
Defined.
