(* ===== verification/UploadClient.v ===== *)
(** * [bench/upload_client.py]: closed-loop checksum uploads

    Every worker thread prepares its connection, waits for a common start and uploads until the end of the
    window, optionally under a cap on its start rate.  A worker runs in the outside world of [System.host],
    whose answers are arbitrary at every step: clocks, socket options, responses and faults.  The workers share
    only the set of used queue buckets, under a lock, so their preparations are run one after the other in the
    order in which they get that lock, and their measured loops one by one. *)

From stdpp Require Import base list strings sets.
From Stdlib Require Import ZArith Lia Ascii.
From S2P Require Import Prelude PyFloat PyText PyVal PyJson PyScript PyStats PyHash PyIO System RemoteLoad.

Local Open Scope Z_scope.
Open Scope py_scope.

(** ** Arguments *)

Record arguments := Arguments {
  address : string; connections : Z; body : string; expected : string; warmup : val; duration : val; rate : val;
  trace_ : bool; queue_mode : string; probe_queues : bool; unique_queues : bool; freeze_hash : bool;
  calibrate_body : bool }.

Definition probing (a : arguments) : bool := probe_queues a || unique_queues a.

(** [host, _, port = args.address.rpartition(':')] *)
Definition host_port (a : arguments) : string * string := default ("", address a) (rsplit_once ":" (address a)).

Definition check_arguments (a : arguments) : res unit :=
  let n := Z.of_nat (String.length (body a)) in
  require ((0 <? n) && (n <=? 8388608) && (1 <=? connections a) && (connections a <=? 256)) "" ;;;
  assertR ($(rate a) >=' int 0) "" ;;;
  require (String.eqb (queue_mode a) "hash" || (connections a <=? 6)) "" ;;;
  require (negb (probing a) || String.eqb (queue_mode a) "hash") "".

(** [bytes(range(256)) * 32768], and the response to it *)
Definition byte_range : string := String.string_of_list_ascii (map (fun z => byte_char (Z.of_nat z)) (seq 0 256)).
Definition probe_body : string := join "" (repeat byte_range (Z.to_nat 32768)).
Definition checksum_response (body : string) : string :=
  string_of_Z (Z.of_nat (String.length body)) +:+ ":" +:+ hex8 (crc32 body) +:+ nl.

(** ** A worker *)

(** What the thread adds to [outcomes[index]]; [r_more] holds the other members in order of insertion. *)
Record row := Row { r_attempts : Z; r_successes : Z; r_failures : list string; r_latencies : list Z; r_more : dict }.
Definition new_row : row := Row 0 0 [] [] [].

Record worker := Worker { w_host : host; w_row : row; w_used : list val }.

Definition on_host {A} (m : io host A) : io worker A :=
  zoom w_host (fun h w => Worker h (w_row w) (w_used w)) m.
Definition set_row (f : row -> row) : io worker unit := modify (fun w => Worker (w_host w) (f (w_row w)) (w_used w)).
Definition put (k : string) (v : val) : io worker unit :=
  set_row (fun r => Row (r_attempts r) (r_successes r) (r_failures r) (r_latencies r) (sset k v (r_more r))).
Definition append_to (k : string) (v : val) : io worker unit :=
  set_row (fun r => Row (r_attempts r) (r_successes r) (r_failures r) (r_latencies r)
                      (sset k (VList (match sget k (r_more r) with Some (VList l) => l | _ => [] end ++ [v])) (r_more r))).
Definition attempt : io worker unit :=
  set_row (fun r => Row (r_attempts r + 1) (r_successes r) (r_failures r) (r_latencies r) (r_more r)).
Definition succeed : io worker unit :=
  set_row (fun r => Row (r_attempts r) (r_successes r + 1) (r_failures r) (r_latencies r) (r_more r)).
Definition latency (ns : Z) : io worker unit :=
  set_row (fun r => Row (r_attempts r) (r_successes r) (r_failures r) (r_latencies r ++ [ns]) (r_more r)).
Definition failure (text : string) : io worker unit :=
  set_row (fun r => Row (r_attempts r) (r_successes r) (r_failures r ++ [text]) (r_latencies r) (r_more r)).

(** [connection.request('POST', ...)] and the check of its response *)
Definition request : io host unit := external ;~ ret tt.
Definition check_response (expected message : string) : io host unit :=
  status <~ external ;
  (if py_eqb status (VInt 200) then ret tt else throw (Exn ValueError message)) ;~
  text <~ read_proc ;
  if String.eqb text expected then ret tt else throw (Exn ValueError message).

(** *** [tcp_info] *)

Definition tcp_fields : list (string * nat * nat) :=
  [("rto_us", 4, 8); ("unacked", 4, 24); ("lost", 4, 32); ("rtt_us", 4, 68); ("snd_cwnd", 4, 80);
   ("total_retrans", 4, 100); ("bytes_acked", 8, 120); ("notsent_bytes", 4, 144); ("delivery_rate", 8, 160);
   ("busy_us", 8, 168); ("rwnd_limited_us", 8, 176); ("sndbuf_limited_us", 8, 184)]%nat.

(** [struct.unpack_from('=' + fmt, raw, offset)[0]] on a little-endian machine *)
Definition unpack_from (width offset : nat) (raw : string) : res Z :=
  let bytes := take width (drop offset (string_bytes raw)) in
  guard (length bytes <? width)%nat StructError "unpack_from requires a larger buffer" ;;;
  Ok (foldr (fun b acc => b + 256 * acc) 0 bytes).
Definition tcp_info_of (raw : string) : expr :=
  mkdict (map (fun f => (f.1.1, rmap VInt (unpack_from f.1.2 f.2 raw))) tcp_fields).
Definition tcp_info : io host val := raw <~ read_proc ; lift (tcp_info_of raw).

(** *** [probe_queue] *)

(** The observer thread: what it counted, its samples, and the error that ended it. *)
Record observer := Observer { o_observed : dict; o_samples : list val; o_error : option exn }.

(** [{row['handle']: row['stats']['backlog'] for row in classes if ...}] *)
Definition backlogs (classes : val) : res dict :=
  l <- py_iter classes ;;
  l <- filterR (fun row => (get ($row) "class" ==' str "fq_codel") &&' ($row.["stats"].["backlog"] >=' int 16384)) l ;;
  dict_by (fun row => $row.["handle"]) (fun row => $row.["stats"].["backlog"]) l.

(** One finished run of [tc]: a text is its output, anything else the failure of the command. *)
Definition observe (o : observer) (arrival : val) : observer :=
  match o_error o with
  | Some _ => o
  | None =>
      let step :=
        text <- (match arrival with VStr s => Ok s | _ => raise CalledProcessError (py_str arrival) end) ;;
        classes <- json_loads text ;;
        sample <- backlogs classes ;;
        observed <- counter_update (o_observed o) sample ;;
        Ok (Observer observed (o_samples o ++ [VDict sample]) None) in
      match step with Ok o => o | Err e => Observer (o_observed o) (o_samples o) (Some e) end
  end.

(** What the observer has seen so far. *)
Definition observations (o : observer) : io host observer := fun w =>
  (Ok (foldl observe o (events w)), Host (procs w) (oracle w) (steps w) [] (trace w)).

(** The requests of the probe until a bucket is seen or a tenth of a second has passed. *)
Fixpoint probe_requests (fuel : nat) (expected : string) (deadline : f64) (o : observer) (requests : Z)
    : io host (observer * Z) :=
  match fuel with
  | O => throw (Exn RuntimeError "out of fuel")
  | S fuel =>
      request ;~
      check_response expected "queue-probe response differs" ;~
      o <~ observations o ;
      let requests := requests + 1 in
      match o_observed o with
      | _ :: _ => ret (o, requests)
      | [] =>
          now <~ clock ;
          late <~ lift ($now >=' $(VFloat deadline)) ;
          if late : bool then ret (o, requests) else probe_requests fuel expected deadline o requests
      end
  end.

(** [observed.most_common()[0]]: the first of the largest counts *)
Definition most_common (d : dict) : res (option (val * val)) :=
  foldR (fun best kn => match best with
                        | None => Ok (Some kn)
                        | Some b => more <- py_ltb b.2 kn.2 ;; Ok (Some (if more : bool then kn else b))
                        end) None d.
Definition bucket_of (observed : dict) : expr :=
  top <- most_common observed ;;
  match top with
  | None => Ok VNone
  | Some (bucket, n) => ifR ($n >=' py_sum (map snd observed) *' lit 9 1) ($bucket) (Ok VNone)
  end.

Definition probe_queue (fuel : nat) (body expected : string) : io host val :=
  now <~ lift_val (fun v => match v with VFloat x => Ok x | _ => type_error "a float is required" end) clock ;
  let~ (o, requests) := probe_requests fuel expected (f64_add now (f64_lit 1 1)) (Observer [] [] None) 0 in
  advance ;~
  o <~ observations o ;
  (match o_error o with Some e => throw e | None => ret tt end) ;~
  local <~ external ;
  lift (mkdict [("bucket", bucket_of (o_observed o)); ("weights", $(VDict (o_observed o)));
                ("samples", $(VList (o_samples o))); ("requests", int requests);
                ("body_bytes", int (Z.of_nat (String.length body))); ("local_address", $local)]).

(** *** Preparation *)

Definition use_bucket (bucket : val) : io worker unit :=
  put "queue_bucket" bucket ;~
  modify (fun w => Worker (w_host w) (w_row w) (if existsb (py_eqb bucket) (w_used w) then w_used w else w_used w ++ [bucket])).

(** [for attempt in range(32)]: [n] attempts are left. *)
Fixpoint prepare_queue (fuel n : nat) (a : arguments) : io worker unit :=
  match n with
  | O => throw (Exn RuntimeError "could not prepare a confirmed client queue bucket")
  | S n =>
      on_host external ;~
      option_ <~ on_host external ;
      (if py_eqb option_ (VInt 0) then ret tt else throw (Exn AssertionError "")) ;~
      probe <~ on_host (probe_queue fuel probe_body (checksum_response probe_body)) ;
      append_to "queue_probes" probe ;~
      bucket <~ lift ($probe.["bucket"]) ;
      used <~ gets w_used ;
      if is_none bucket then prepare_queue fuel n a
      else if unique_queues a && existsb (py_eqb bucket) used then
        on_host external ;~ on_host external ;~ prepare_queue fuel n a
      else use_bucket bucket
  end.

Definition priority_of (a : arguments) (index : Z) : Z :=
  let priority := if String.eqb (queue_mode a) "hash" then 0 else index + 1 in
  if String.eqb (queue_mode a) "pair" && (index =? 1) then 1 else priority.

(** [work(index)] up to [ready.put(None)] *)
Definition prepare (fuel : nat) (a : arguments) (index : Z) : io worker unit :=
  on_host external ;~
  (if probing a then put "queue_probes" (VList []) ;~ prepare_queue fuel 32 a else ret tt) ;~
  (if freeze_hash a then on_host external ;~ ret tt else ret tt) ;~
  rehash <~ on_host external ;
  put "tx_rehash" rehash ;~
  (if (freeze_hash a || probing a) && negb (py_eqb rehash (VInt 0)) then throw (Exn AssertionError "") else ret tt) ;~
  (if calibrate_body a then
     on_host request ;~
     on_host (check_response (checksum_response probe_body) "calibration response differs") ;~
     put "calibration_bytes" (VInt (Z.of_nat (String.length probe_body)))
   else ret tt) ;~
  (if priority_of a index =? 0 then ret tt else on_host external ;~ ret tt) ;~
  priority <~ on_host external ;
  put "queue_priority" priority ;~
  (if trace_ a then
     local <~ on_host external ;
     put "local_address" local ;~ put "trace" (VList [])
   else ret tt).

(** *** The measured loop *)

Record timing := Timing { begin_mono : Z; start_mono : Z; end_mono : Z }.

(** [int(x * 1e9)] *)
Definition nanoseconds (x : expr) : res Z := v <- (v <- x *' lit 1000000000 0 ;; py_int_of v) ;; as_int v.

(** The distance of two starts of one worker under the cap. *)
Definition interval (a : arguments) : res Z := nanoseconds (int (connections a) /' $(rate a)).

Definition traced (a : arguments) : io worker val := if trace_ a then on_host tcp_info else ret VNone.

(** [max(0, (next_start - now) / 1e9)] slept; whether the window is over then. *)
Definition wait_start (t : timing) (next_start : Z) : io worker bool :=
  now <~ on_host read_clock ;
  lift (int (next_start - now) /' lit 1000000000 0) ;~
  on_host advance ;~
  now <~ on_host read_clock ;
  ret (end_mono t <=? now).

(** One upload; the time its response was complete. *)
Definition upload (a : arguments) (t : timing) : io worker Z :=
  started <~ on_host read_clock ;
  before <~ traced a ;
  attempt ;~
  on_host request ;~
  sent <~ (if trace_ a then on_host read_clock else ret 0) ;
  after_send <~ traced a ;
  on_host (check_response (expected a) "response status, body length, or checksum differs") ;~
  finished <~ on_host read_clock ;
  (if trace_ a then
     info <~ traced a ;
     entry <~ lift (mkdict [("started_ns", int started); ("sent_ns", int sent); ("finished_ns", int finished);
                            ("before", $before); ("after_send", $after_send); ("after_response", $info)]) ;
     append_to "trace" entry
   else ret tt) ;~
  succeed ;~
  (if (start_mono t <=? finished) && (finished <? end_mono t) then latency (finished - started) else ret tt) ;~
  ret finished.

(** [while time.monotonic_ns() < timing['end_mono']] *)
Fixpoint measure (fuel : nat) (a : arguments) (t : timing) (next_start : Z) : io worker unit :=
  match fuel with
  | O => throw (Exn RuntimeError "out of fuel")
  | S fuel =>
      now <~ on_host read_clock ;
      if end_mono t <=? now then ret tt
      else if truthy (rate a) then
        if end_mono t <=? next_start then ret tt
        else
          over <~ wait_start t next_start ;
          if over : bool then ret tt
          else
            finished <~ upload a t ;
            step <~ lift (interval a) ;
            measure fuel a t (Z.max (next_start + step) finished)
      else upload a t ;~ measure fuel a t next_start
  end.

(** [work(index)] from the start barrier on; no timing was set when the preparation of a worker failed. *)
Definition measured (fuel : nat) (a : arguments) (t : option timing) (index : Z) : io worker unit :=
  started <~ on_host external ;
  (if truthy started then ret tt else throw (Exn TimeoutError "start barrier")) ;~
  match t with
  | None => throw (Exn KeyError "begin_mono")
  | Some t =>
      offset <~ (if truthy (rate a) then lift (nanoseconds (int index /' $(rate a))) else ret 0) ;
      measure fuel a t (begin_mono t + offset)
  end.

(** [except BaseException as error: ...; finally: connection.close()] of a part of [work], with what it
    puts in [ready] *)
Definition guarded (m : io worker unit) : io worker (option string) :=
  catch (m ;~ ret None) (fun e => failure (exn_repr e) ;~ ret (Some (exn_repr e))).

(** ** The client *)

Record clients := Clients { c_host : host; c_rows : list row; c_used : list val }.

Definition main_host {A} (m : io host A) : io clients A :=
  zoom c_host (fun h c => Clients h (c_rows c) (c_used c)) m.

(** A part of the thread of one worker, which owns its row. *)
Definition on_worker {A} (index : nat) (m : io worker A) : io clients A := fun c =>
  match c_rows c !! index with
  | None => (raise IndexError "list index out of range", c)
  | Some r => let '(x, w) := m (Worker (c_host c) r (c_used c)) in
              (x, Clients (w_host w) (<[index := w_row w]> (c_rows c)) (w_used w))
  end.

(** The route and the queue discipline, when queues are probed. *)
Definition queue_configuration (a : arguments) : io host val :=
  if probing a then
    text <~ read_proc ;
    interface <~ lift (routes <- json_loads text ;; (idx_at ($routes) 0).["dev"]) ;
    text <~ read_proc ;
    configuration <~ lift (json_loads text) ;
    single <~ lift ((lenR ($configuration) ==' int 1) &&' ((idx_at ($configuration) 0).["kind"] ==' str "fq_codel")) ;
    if single : bool then ret configuration else throw (Exn AssertionError "")
  else ret VNone.

Definition timing_of (a : arguments) (now : Z) : res timing :=
  warm <- nanoseconds ($(warmup a)) ;;
  all_ <- nanoseconds ($(warmup a) +' $(duration a)) ;;
  Ok (Timing now (now + warm) (now + all_)).

Definition row_value (r : row) : val :=
  VDict ([(VStr "attempts", VInt (r_attempts r)); (VStr "successes", VInt (r_successes r));
          (VStr "failures", VList (map VStr (r_failures r))); (VStr "latencies_ns", VList (map VInt (r_latencies r)))]
         ++ r_more r).

(** [sorted(value for row in outcomes for value in row['latencies_ns'])] *)
Definition all_latencies (rows : list row) : res (list val) := py_sorted (map VInt (concat (map r_latencies rows))).
Definition all_failures (rows : list row) : res dict := foldR counter_add [] (map VStr (concat (map r_failures rows))).

(** [latencies[min(len(latencies) - 1, int(.99 * len(latencies)))] / 1e6 if latencies else None] *)
Definition p99_ms (latencies : list val) : expr :=
  let n := Z.of_nat (length latencies) in
  match latencies with
  | [] => Ok VNone
  | _ => i <- (v <- (v <- lit 99 2 *' int n ;; py_int_of v) ;; as_int v) ;;
         idx_at ($(VList latencies)) (Z.min (n - 1) i) /' lit 1000000 0
  end.

Definition result_of (a : arguments) (configuration : val) (start_wall end_wall : Z) (rows : list row) : expr :=
  latencies <- all_latencies rows ;;
  failures <- all_failures rows ;;
  let n := Z.of_nat (length latencies) in
  let size := Z.of_nat (String.length (body a)) in
  mkdict
    [("connections", int (connections a)); ("rate_cap", $(rate a)); ("request_body_bytes", int size);
     ("queue_mode", str (queue_mode a)); ("freeze_hash", $(VBool (freeze_hash a)));
     ("calibrate_body", $(VBool (calibrate_body a))); ("queue_configuration", $configuration);
     ("unique_queues", $(VBool (unique_queues a))); ("request_body_sha256", str (sha256_hex (body a)));
     ("expected_body_sha256", str (sha256_hex (expected a))); ("measure_start_unix_ns", int start_wall);
     ("measure_end_unix_ns", int end_wall); ("duration_seconds", $(duration a)); ("window_successes", int n);
     ("validated_body_bytes", int (n * size)); ("goodput_bytes_per_second", int (n * size) /' $(duration a));
     ("service_p99_ms", p99_ms latencies); ("failures", $(VDict failures));
     ("workers", $(VList (map row_value rows)))].

(** [main] from its parsed arguments and read bodies on, with its exit status.  [order] is the order in which the
    workers get the preparation lock, [fuel] bounds every loop of a worker. *)
Definition main (fuel : nat) (a : arguments) (order : list nat) : io clients Z :=
  lift (check_arguments a) ;~
  configuration <~ main_host (queue_configuration a) ;
  (match py_int (host_port a).2 with Ok _ => ret tt | Err _ => throw (Exn QueueEmpty "") end) ;~
  ready <~ mapM (fun index => on_worker index (guarded (prepare fuel a (Z.of_nat index)))) order ;
  (match omap id ready with [] => ret tt | text :: _ => throw (Exn RuntimeError text) end) ;~
  now_mono <~ main_host read_clock ;
  now_wall <~ main_host read_clock ;
  t <~ lift (timing_of a now_mono) ;
  start_wall <~ lift (rmap (Z.add now_wall) (nanoseconds ($(warmup a)))) ;
  end_wall <~ lift (rmap (Z.add start_wall) (nanoseconds ($(duration a)))) ;
  mapM (fun index => on_worker index (guarded (measured fuel a (Some t) (Z.of_nat index)))) order ;~
  rows <~ gets c_rows ;
  line <~ lift (v <- result_of a configuration start_wall end_wall rows ;; json_dumps v) ;
  main_host (say (line +:+ nl)) ;~
  failures <~ lift (all_failures rows) ;
  ret (match failures with [] => 0 | _ => 1 end).

(** [outcomes] before the threads start *)
Definition initial (a : arguments) (h : host) : clients := Clients h (repeat new_row (Z.to_nat (connections a))) [].

#[local] Opaque probe_body checksum_response.

(** ** Accounting

    [row_triple P m Q E]: from a row with [P], [m] ends normally in one with [Q] or raises in one with [E]. *)

Definition row_triple {A} (P : row -> Prop) (m : io worker A) (Q E : row -> Prop) : Prop :=
  PyIO.triple (fun w => P (w_row w)) m (fun _ w => Q (w_row w)) (fun w => E (w_row w)).

Section Triples.
Context {A B : Type}.
Implicit Types P Q R E : row -> Prop.

Lemma row_bind P R Q E (m : io worker A) (k : A -> io worker B) :
  row_triple P m R E -> (forall a, row_triple R (k a) Q E) -> row_triple P (bind m k) Q E.
Proof.
  intros Hm Hk. by eapply triple_bind.
Qed.
Lemma row_conseq P P' Q Q' E (m : io worker A) :
  row_triple P' m Q' E -> (forall r, P r -> P' r) -> (forall r, Q' r -> Q r) -> row_triple P m Q E.
Proof. intros Hm HP HQ w x w' Hw Em. specialize (Hm w x w' (HP _ Hw) Em). destruct x; auto. Qed.
Lemma row_ret P E (a : A) : row_triple P (ret a) P E.
Proof. by intros w x w' Hw [= <- <-]. Qed.
Lemma row_throw P Q E e : (forall r, P r -> E r) -> row_triple P (throw (A:=A) e) Q E.
Proof. intros H w x w' Hw [= <- <-]. by apply H. Qed.
Lemma row_lift P E (r : res A) : (forall r, P r -> E r) -> row_triple P (lift r) P E.
Proof. intros H w x w' Hw [= <- <-]. destruct r; auto. Qed.
Lemma row_gets P E (f : worker -> A) : row_triple P (gets f) P E.
Proof. by intros w x w' Hw [= <- <-]. Qed.
Lemma row_on_host P E (m : io host A) : (forall r, P r -> E r) -> row_triple P (on_host m) P E.
Proof.
  intros H w x w' Hw. unfold on_host, zoom. destruct (m (w_host w)) as [y h]. intros [= <- <-]. destruct y; cbn; auto.
Qed.
End Triples.

Lemma row_set_row (P Q E : row -> Prop) f : (forall r, P r -> Q (f r)) -> row_triple P (set_row f) Q E.
Proof. intros H w x w' Hw [= <- <-]. cbn. auto. Qed.

(** Nothing has failed and every attempt has succeeded. *)
Definition clean (r : row) : Prop :=
  r_attempts r = r_successes r /\ Z.of_nat (length (r_latencies r)) <= r_successes r /\ r_failures r = [].
(** An attempt may be open. *)
Definition begun (r : row) : Prop :=
  r_attempts r = r_successes r + 1 /\ Z.of_nat (length (r_latencies r)) <= r_successes r /\ r_failures r = [].
Definition stopped (r : row) : Prop := clean r \/ begun r.

Definition balanced (r : row) : Prop :=
  Z.of_nat (length (r_latencies r)) <= r_successes r
  /\ r_successes r <= r_attempts r <= r_successes r + Z.of_nat (length (r_failures r))
  /\ (length (r_failures r) <= 1)%nat.

Lemma clean_stopped r : clean r -> stopped r.
Proof. by left. Qed.
Lemma begun_stopped r : begun r -> stopped r.
Proof. by right. Qed.
#[export] Hint Resolve clean_stopped begun_stopped : zhtps.

Ltac row_step :=
  first
    [ apply row_ret
    | apply row_throw; solve [auto with zhtps]
    | apply row_lift; solve [auto with zhtps]
    | apply row_gets
    | apply row_on_host; solve [auto with zhtps]
    | eapply row_bind; [|intros]
    | case_match ].

(** The members of [r_more] do not count. *)
Definition indifferent (P : row -> Prop) : Prop :=
  forall r more, P r -> P (Row (r_attempts r) (r_successes r) (r_failures r) (r_latencies r) more).
Lemma row_put (P E : row -> Prop) k v : indifferent P -> row_triple P (put k v) P E.
Proof. intros H. apply row_set_row. intros r Hr. by apply H. Qed.
Lemma row_append_to (P E : row -> Prop) k v : indifferent P -> row_triple P (append_to k v) P E.
Proof. intros H. apply row_set_row. intros r Hr. by apply H. Qed.
Ltac indifferent := solve [intros [] ? Hindifferent; exact Hindifferent].

Ltac rows := repeat first [apply row_put; indifferent | apply row_append_to; indifferent | row_step].

Lemma row_upload a t : row_triple clean (upload a t) clean stopped.
Proof.
  unfold upload, traced. eapply row_bind; [rows|intros started]. eapply row_bind; [rows|intros before].
  eapply (row_bind _ begun); [apply row_set_row; intros [] (? & ? & ?); unfold begun; cbn in *; split_and!; lia || done|].
  intros _. eapply row_bind; [rows|intros _]. eapply row_bind; [rows|intros sent]. eapply row_bind; [rows|intros after].
  eapply row_bind; [rows|intros _]. eapply row_bind; [rows|intros finished]. eapply row_bind; [rows|intros _].
  unfold succeed. eapply (row_bind _ (fun r => r_attempts r = r_successes r
    /\ Z.of_nat (length (r_latencies r)) < r_successes r /\ r_failures r = [])).
  { apply row_set_row. intros [] (? & ? & ?). cbn in *. split_and!; lia || done. }
  intros _. eapply (row_bind _ clean); [|intros; apply row_ret]. case_match.
  - apply row_set_row. intros [] (? & ? & ?). unfold clean. cbn in *. rewrite length_app. cbn. split_and!; lia || done.
  - eapply row_conseq; [apply row_ret| |done]. intros [] (? & ? & ?). unfold clean. cbn in *. split_and!; lia || done.
Qed.

Lemma row_measure fuel a t next : row_triple clean (measure fuel a t next) clean stopped.
Proof.
  revert next. induction fuel as [|fuel IH]; intros next; cbn [measure]; [rows|].
  eapply row_bind; [rows|intros now]. case_match; [rows|]. case_match.
  - case_match; [rows|]. unfold wait_start. eapply row_bind; [rows|intros over]. destruct over; [rows|].
    eapply row_bind; [apply row_upload|intros finished]. eapply row_bind; [rows|intros]. apply IH.
  - eapply row_bind; [apply row_upload|intros]. apply IH.
Qed.

Lemma row_measured fuel a t index : row_triple clean (measured fuel a t index) clean stopped.
Proof.
  unfold measured. eapply row_bind; [rows|intros]. eapply row_bind; [rows|intros]. case_match; [|rows].
  eapply row_bind; [rows|intros]. apply row_measure.
Qed.

Lemma row_prepare_queue fuel n a : row_triple clean (prepare_queue fuel n a) clean stopped.
Proof.
  induction n as [|n IH]; cbn [prepare_queue]; [rows|]. repeat first [apply IH | rows].
  by intros w x w' Hw [= <- <-].
Qed.

Lemma row_prepare fuel a index : row_triple clean (prepare fuel a index) clean stopped.
Proof. 
  unfold prepare.
  repeat lazymatch goal with
         | |- row_triple _ (prepare_queue _ _ _) _ _ => apply row_prepare_queue
         | |- row_triple _ (put _ _) _ _ => apply row_put; indifferent
         | _ => row_step
         end.
 Qed.

Lemma row_guarded m w x w' :
  row_triple clean m clean stopped -> clean (w_row w) -> guarded m w = (x, w') ->
  balanced (w_row w') /\ (x = Ok None -> clean (w_row w')).
Proof.
  intros Hm Hw. unfold guarded, catch, bind at 1. destruct (m w) as [[u|e] w1] eqn:E; specialize (Hm _ _ _ Hw E); cbn in Hm.
  - intros [= <- <-]. split; [|done]. destruct Hm as (? & ? & Hf). unfold balanced. rewrite Hf. cbn. lia.
  - intros [= <- <-]. split; [|done]. unfold balanced. cbn. rewrite length_app. cbn.
    destruct Hm as [(? & ? & Hf)|(? & ? & Hf)]; rewrite Hf; cbn; lia.
Qed.

(** *** The rate cap *)

(** How many starts a distance of [step] leaves room for between [next] and the end. *)
Definition starts (t : timing) (next step : Z) : Z := Z.max 0 ((end_mono t - next + step - 1) / step).

Lemma starts_next t next step finished :
  0 < step -> next < end_mono t -> starts t (Z.max (next + step) finished) step + 1 <= starts t next step.
Proof.
  intros Hs Hn. unfold starts. set (e := end_mono t) in *.
  replace (e - next + step - 1) with ((e - next - 1) + 1 * step) by lia. rewrite Z.div_add by lia.
  assert (0 <= (e - next - 1) / step) by (apply Z.div_pos; lia).
  assert ((e - Z.max (next + step) finished + step - 1) / step <= (e - next - 1) / step) by (apply Z.div_le_mono; lia).
  lia.
Qed.

Lemma upload_attempts a t n :
  row_triple (fun r => r_attempts r = n) (upload a t) (fun r => r_attempts r = n + 1) (fun r => r_attempts r <= n + 1).
Proof.
  assert (H0 : forall r, r_attempts r = n -> r_attempts r <= n + 1) by lia.
  assert (H1 : forall r, r_attempts r = n + 1 -> r_attempts r <= n + 1) by lia.
  unfold upload, traced. eapply row_bind; [rows|intros started]. eapply row_bind; [rows|intros before].
  eapply (row_bind _ (fun r => r_attempts r = n + 1)); [apply row_set_row; intros []; cbn; lia|intros _].
  unfold succeed, latency. rows; by apply row_set_row; intros [].
Qed.

Lemma measure_attempts fuel a t next step w x w' :
  truthy (rate a) = true -> interval a = Ok step -> 0 < step ->
  measure fuel a t next w = (x, w') -> r_attempts (w_row w') <= r_attempts (w_row w) + starts t next step.
Proof.
  intros Hr Hi Hs. revert next w. induction fuel as [|fuel IH]; intros next w H; cbn [measure] in H.
  { injection H as <- <-. unfold starts. lia. }
  assert (H0 : 0 <= starts t next step) by (unfold starts; lia).
  rewrite Hr in H. unfold bind at 1 in H.
  destruct (on_host read_clock w) as [[now|e] w1] eqn:E1;
    pose proof (row_on_host (fun r => r = w_row w) (fun r => r = w_row w) read_clock (fun r H => H) w _ w1 eq_refl E1) as R1;
    cbn in R1; [|injection H as <- <-; rewrite R1; lia].
  destruct (end_mono t <=? now); [injection H as <- <-; rewrite R1; lia|].
  destruct (end_mono t <=? next) eqn:En; [injection H as <- <-; rewrite R1; lia|]. apply Z.leb_gt in En.
  unfold bind at 1 in H. destruct (wait_start t next w1) as [[over|e] w2] eqn:E2.
  2: { assert (T : row_triple (fun r => r = w_row w1) (wait_start t next) (fun r => r = w_row w1) (fun r => r = w_row w1))
         by (unfold wait_start; rows).
       pose proof (T w1 _ w2 eq_refl E2) as R2. cbn in R2. injection H as <- <-. rewrite R2, R1. lia. }
  assert (T : row_triple (fun r => r = w_row w1) (wait_start t next) (fun r => r = w_row w1) (fun r => r = w_row w1))
    by (unfold wait_start; rows).
  pose proof (T w1 _ w2 eq_refl E2) as R2. cbn in R2. clear T.
  destruct over; [injection H as <- <-; rewrite R2, R1; lia|].
  unfold bind at 1 in H. destruct (upload a t w2) as [[finished|e] w3] eqn:E3;
    pose proof (upload_attempts a t (r_attempts (w_row w)) w2 _ w3 ltac:(cbn; by rewrite R2, R1) E3) as R3; cbn in R3;
    pose proof (starts_next t next step 0 Hs En); [|injection H as <- <-; unfold starts in *; lia].
  unfold bind at 1, lift in H. rewrite Hi in H. apply IH in H.
  pose proof (starts_next t next step finished Hs En). lia.
Qed.

Lemma bind_congr {W A B} (m : io W A) (k k' : A -> io W B) w : (forall a w', k a w' = k' a w') -> bind m k w = bind m k' w.
Proof. intros H. unfold bind. destruct (m w) as [[]]; auto. Qed.

(** The number of starts is also all the fuel the loop can use. *)
Lemma measure_fuel fuel fuel' a t next step w :
  truthy (rate a) = true -> interval a = Ok step -> 0 < step ->
  starts t next step < Z.of_nat fuel -> starts t next step < Z.of_nat fuel' ->
  measure fuel a t next w = measure fuel' a t next w.
Proof.
  intros Hr Hi Hs. revert fuel' next w. induction fuel as [|fuel IH]; intros [|fuel'] next w H1 H2;
    try (unfold starts in *; lia).
  cbn [measure]. rewrite Hr. apply bind_congr. intros now w1. destruct (end_mono t <=? now); [done|].
  destruct (end_mono t <=? next) eqn:En; [done|]. apply Z.leb_gt in En. apply bind_congr. intros [] w2; [done|].
  apply bind_congr. intros finished w3. rewrite Hi. unfold bind, lift.
  pose proof (starts_next t next step finished Hs En). apply IH; lia.
Qed.

(** *** All workers *)

(** From clients with [P], [m] ends normally with [Q] or raises with every row balanced. *)
Definition ctriple {A} (P : clients -> Prop) (m : io clients A) (Q : A -> clients -> Prop) : Prop :=
  PyIO.triple P m Q (fun c => Forall balanced (c_rows c)).

Lemma all_rows_bind {A B} P R (m : io clients A) (k : A -> io clients B) Q :
  ctriple P m R -> (forall a, ctriple (R a) (k a) Q) -> ctriple P (bind m k) Q.
Proof.
  apply triple_bind.
Qed.

(** Computations that leave the rows alone keep what is known about them. *)
Definition keeps_rows {A} (m : io clients A) : Prop := forall c x c', m c = (x, c') -> c_rows c' = c_rows c.

Lemma keeps_main_host {A} (m : io host A) : keeps_rows (main_host m).
Proof. intros c x c'. unfold main_host, zoom. destruct (m (c_host c)). by intros [= _ <-]. Qed.
Lemma keeps_lift {A} (r : res A) : keeps_rows (lift r).
Proof. by intros c x c' [= _ <-]. Qed.
Lemma keeps_ret {A} (a : A) : keeps_rows (ret a).
Proof. by intros c x c' [= _ <-]. Qed.
Lemma keeps_throw {A} e : keeps_rows (throw (A:=A) e).
Proof. by intros c x c' [= _ <-]. Qed.
#[local] Hint Resolve keeps_main_host keeps_lift keeps_ret keeps_throw : zhtps.

(** A bind whose first part only leaves the rows alone. *)
Lemma all_rows_skip {A B} (P : list row -> Prop) (m : io clients A) (k : A -> io clients B) Q :
  keeps_rows m -> (forall rows, P rows -> Forall balanced rows) ->
  (forall a, ctriple (fun c => P (c_rows c)) (k a) Q) -> ctriple (fun c => P (c_rows c)) (bind m k) Q.
Proof.
  intros Hm HP Hk. apply (all_rows_bind _ (fun _ c => P (c_rows c))); [|exact Hk].
  intros c x c' Hc E. specialize (Hm _ _ _ E). destruct x; rewrite Hm; auto.
Qed.

Definition clean_at (l : list nat) (rows : list row) : Prop :=
  Forall balanced rows /\ forall i r, i ∈ l -> rows !! i = Some r -> clean r.

(** One part of the threads of distinct workers. *)
Lemma workers_run (m : nat -> io worker unit) l c x c' :
  (forall i, row_triple clean (m i) clean stopped) -> NoDup l -> clean_at l (c_rows c) ->
  mapM (fun i => on_worker i (guarded (m i))) l c = (x, c') ->
  Forall balanced (c_rows c') /\ (forall i, i ∉ l -> c_rows c' !! i = c_rows c !! i)
  /\ forall ready, x = Ok ready -> omap id ready = [] -> forall i r, i ∈ l -> c_rows c' !! i = Some r -> clean r.
Proof.
  intros Hm Hnd. revert c x c'. induction Hnd as [|i l Hi Hnd IH]; intros c x c' [Hb Hc] H; cbn [mapM] in H.
  { injection H as <- <-. split; [done|]. split; [done|]. intros ? _ _ i r Hn. by apply not_elem_of_nil in Hn. }
  unfold bind in H. unfold on_worker at 1 in H. destruct (c_rows c !! i) as [r|] eqn:Er.
  2: { injection H as <- <-. split; [done|]. split; [done|]. discriminate. }
  pose proof (Hc i r (list_elem_of_here _ _) Er) as Hr.
  destruct (guarded (m i) (Worker (c_host c) r (c_used c))) as [y w] eqn:Eg.
  destruct (row_guarded (m i) (Worker (c_host c) r (c_used c)) y w (Hm i) Hr Eg) as [Hbw Hcw].
  set (c1 := Clients (w_host w) (<[i:=w_row w]> (c_rows c)) (w_used w)) in H.
  assert (Hb1 : Forall balanced (c_rows c1)) by (cbn; by apply Forall_insert).
  assert (Hsame : forall j, j <> i -> c_rows c1 !! j = c_rows c !! j) by (intros j Hj; cbn; by apply list_lookup_insert_ne).
  destruct y as [t|e]; [|injection H as <- <-; split; [done|]; split; [|discriminate];
                         intros j Hj; apply Hsame; set_solver].
  destruct (mapM _ l c1) as [z c2] eqn:El.
  destruct (IH c1 z c2) as (Hb2 & Hs2 & Hc2); [split; [done|]|exact El|].
  { intros j r' Hj. rewrite Hsame by (intros ->; by apply Hi). apply Hc. by right. }
  assert (Hs : forall j, j ∉ i :: l -> c_rows c2 !! j = c_rows c !! j).
  { intros j Hj. rewrite Hs2 by set_solver. apply Hsame. set_solver. }
  destruct z as [ts|e]; injection H as <- <-; (split; [done|]; split; [done|]); [|discriminate].
  intros ready [= <-] Ho j r' Hj Hr'. cbn in Ho. destruct t as [t|]; [done|].
  apply elem_of_cons in Hj as [->|Hj]; [|by eapply Hc2]. rewrite Hs2 in Hr' by done. cbn in Hr'.
  rewrite list_lookup_insert_eq in Hr' by (by eapply lookup_lt_Some). injection Hr' as <-. by apply Hcw.
Qed.

Lemma all_rows_workers (m : nat -> io worker unit) l :
  NoDup l -> (forall i, row_triple clean (m i) clean stopped) ->
  ctriple (fun c => clean_at l (c_rows c)) (mapM (fun i => on_worker i (guarded (m i))) l)
    (fun ready c => Forall balanced (c_rows c) /\ (omap id ready = [] -> clean_at l (c_rows c))).
Proof.
  intros Hnd Hm c x c' Hc H. destruct (workers_run m l c x c' Hm Hnd Hc H) as (Hb & _ & Hc').
  destruct x as [ready|]; [|done]. split; [done|]. intros Ho. split; [done|]. by apply (Hc' ready).
Qed.

(** The failures of the report are those of the rows. *)
Lemma counter_nonempty l d d' : foldR counter_add d l = Ok d' -> (d' = [] <-> d = [] /\ l = []).
Proof.
  revert d. induction l as [|x l IH]; intros d H; cbn in H; [injection H as <-; naive_solver|].
  apply rbind_ok in H as (d1 & Hd & H). rewrite (IH _ H). unfold counter_add in Hd.
  apply rbind_ok in Hd as (k & _ & Hd). apply rbind_ok in Hd as (n & _ & [= <-]).
  split; [|naive_solver]. intros [Hn _]. destruct d as [|[]]; cbn in Hn; [done|]. by case_match.
Qed.

Lemma no_failures rows d : all_failures rows = Ok d -> (d = [] <-> Forall (fun r => r_failures r = []) rows).
Proof.
  intros H%counter_nonempty. rewrite H. clear H. induction rows as [|r rows IH]; cbn; [naive_solver|].
  rewrite Forall_cons, <- IH. destruct (r_failures r); naive_solver.
Qed.

Lemma initial_clean l n : clean_at l (repeat new_row n).
Proof.
  split.
  - induction n; cbn; [constructor|]. constructor; [|done]. unfold balanced. cbn. lia.
  - intros i r _ Hr. apply list_elem_of_lookup_2, list_elem_of_In, repeat_spec in Hr as ->. done.
Qed.

(** *** One worker, two uploads in a window of a second *)

Definition sample_arguments : arguments :=
  Arguments "127.0.0.1:80" 1 "x" "1:8cdc1683" (VFloat (f64_lit 0 0)) (VFloat (f64_lit 1 0)) (VFloat (f64_lit 2 0))
    false "hash" false false false false.
Definition sample_host : host :=
  Host [] (fun n => Turn [] None (if existsb (Nat.eqb n) [13; 22]%nat then VStr "1:8cdc1683" else VInt 200) [] false) 0 [] [].

(** ** Properties *)

(** C36: Every worker's books balance however the client ends.  A latency is recorded for no more than the successes,
    every attempt either succeeded or is the one that failed, and a worker fails at most once; and a client that
    ends with a status exits with 0 exactly when no worker failed. *)
Theorem upload_accounting fuel a order h r c :
  NoDup order -> main fuel a order (initial a h) = (r, c) ->
  Forall balanced (c_rows c)
  /\ forall status, r = Ok status -> (status = 0 <-> Forall (fun row => r_failures row = []) (c_rows c)).
Proof.
  intros Hnd H.
  assert (T : ctriple (fun c => clean_at order (c_rows c)) (main fuel a order)
    (fun status c => Forall balanced (c_rows c) /\ (status = 0 <-> Forall (fun row => r_failures row = []) (c_rows c)))).
  { clear r c H. assert (Hs : forall rows, clean_at order rows -> Forall balanced rows) by by intros rows [].
    unfold main. do 2 (apply (all_rows_skip (clean_at order)); [auto with zhtps|done|intros]).
    apply (all_rows_skip (clean_at order)); [case_match; auto with zhtps|done|intros].
    eapply all_rows_bind; [apply all_rows_workers; [done|intros; apply row_prepare]|intros ready].
    eapply (all_rows_bind _ (fun _ c => clean_at order (c_rows c))).
    { intros c x c' [Hb Ho] E. destruct (omap id ready); injection E as <- <-; auto. }
    intros _. do 5 (apply (all_rows_skip (clean_at order)); [auto with zhtps|done|intros]).
    eapply all_rows_bind; [apply all_rows_workers; [done|intros; apply row_measured]|intros ready2].
    intros c x c' [Hb _]. unfold bind at 1, gets. unfold bind at 1, lift at 1.
    destruct (v <- _ ;; _) as [line|e]; [|by intros [= <- <-]]. unfold bind at 1.
    destruct (main_host (say (line +:+ nl)) c) as [u c1] eqn:E. pose proof (keeps_main_host _ _ _ _ E) as Hk.
    destruct u; [|intros [= <- <-]; by rewrite Hk]. unfold bind, lift. destruct (all_failures (c_rows c)) as [d|e] eqn:Ed.
    - intros [= <- <-]. rewrite Hk. split; [done|]. rewrite <- (no_failures _ _ Ed). by destruct d.
    - intros [= <- <-]. by rewrite Hk. }
  specialize (T (initial a h) r c (initial_clean _ _) H). destruct r as [status|e]; [|done].
  destruct T as [Hb Hx]. split; [done|]. by intros ? [= <-].
Qed.

Lemma upload_accounting_witness : exists c,
  main 10 sample_arguments [0%nat] (initial sample_arguments sample_host) = (Ok 0, c)
  /\ map r_attempts (c_rows c) = [2] /\ Forall balanced (c_rows c).
Proof.
  set (run := main 10 sample_arguments [0%nat] (initial sample_arguments sample_host)).
  assert (B : run.1 = Ok 0 /\ map r_attempts (c_rows run.2) = [2]) by (vm_compute; split; reflexivity).
  destruct run as [r c] eqn:E. exists c. cbn in B.
  destruct B as [-> B]. split; [reflexivity|]. split; [exact B|].
  apply (upload_accounting 10 sample_arguments [0%nat] sample_host (Ok 0) c); [|exact E].
  apply NoDup_singleton.
Defined.

(** The rate cap holds whatever the clocks and the responses do.  A worker whose starts are [step] apart makes no
    more attempts than such starts fit before the end of the window, and its loop ends: any fuel above that number
    gives the same run. *)
Theorem upload_pace fuel a t next step w :
  truthy (rate a) = true -> interval a = Ok step -> 0 < step -> starts t next step < Z.of_nat fuel ->
  r_attempts (w_row (measure fuel a t next w).2) <= r_attempts (w_row w) + starts t next step
  /\ forall fuel', starts t next step < Z.of_nat fuel' -> measure fuel' a t next w = measure fuel a t next w.
Proof.
  intros Hr Hi Hs Hf. split.
  - destruct (measure fuel a t next w) as [x w'] eqn:E. by apply (measure_attempts fuel a t next step w x w').
  - intros fuel' Hf'. by apply (measure_fuel fuel' fuel a t next step).
Qed.

Lemma upload_pace_witness :
  starts (Timing 0 0 1000000000) 0 500000000 = 2
  /\ r_attempts (w_row (measure 10 sample_arguments (Timing 0 0 1000000000) 0 (Worker sample_host new_row [])).2) <= 0 + 2.
Proof.
  split; [reflexivity|].
  apply (upload_pace 10 sample_arguments (Timing 0 0 1000000000) 0 500000000 (Worker sample_host new_row []));
    [reflexivity|vm_compute; reflexivity|lia|vm_compute; reflexivity].
Defined.
