(* ===== verification/KeepaliveReturning.v ===== *)
(** * [bench/keepalive_returning_client.py]: newcomers and returning connections

    The client fills the server's slots with residents, then lets newcomers arrive and every resident return, round after
    round.  A request is a sequence of calls of one connection, which shares nothing with the other connections; the
    requests of a round, which a pool of threads makes, are run one after the other, in an outside world whose answers are
    arbitrary at every call. *)

From stdpp Require Import base list strings.
From Stdlib Require Import ZArith Lia Ascii.
From S2P Require Import Prelude PyFloat PyText PyVal PyJson PyScript PyStats PyIO System ProcSample RemoteLoad.

Local Open Scope Z_scope.
Open Scope py_scope.

(** ** A request *)

Record row := Row { r_success : bool; r_elapsed : val; r_attempts : list string; r_opened : Z }.
Definition row_json (r : row) : val :=
  obj [("success", VBool (r_success r)); ("elapsed_us", r_elapsed r); ("attempts", VList (map VStr (r_attempts r)));
       ("connections_opened", VInt (r_opened r))].

(** [GET /] and whether the response is the expected one; its body is only read when the status is. *)
Definition fetch : io host bool :=
  external ;~
  external ;~
  status <~ clock ;
  if py_eqb status (VInt 200) then body <~ external ; ret (py_eqb body (VStr ("ZHTPS" +:+ nl))) else ret false.

Definition dropped (e : exn) : bool := is_oserror (ex_class e) || is_class e HTTPException.

(** One attempt: whether the connection stays open after the expected response, or the name of the error that closed it. *)
Definition attempt : io host (bool + string) :=
  catch (ok <~ fetch ;
         (if ok : bool then ret tt else throw (Exn ValueError "invalid response")) ;~
         stays <~ clock ;
         ret (inl (truthy stays)))
    (fun e => if dropped e then advance ;~ ret (inr (class_name (ex_class e))) else throw e).

(** [(time.monotonic_ns() - begin) / 1000] *)
Definition since (begin : val) : io host val := now <~ clock ; lift (($now -' $begin) /' int 1000).

(** The loop over the attempts; [open] is whether the connection has a socket. *)
Fixpoint attempts (n : nat) (begin : val) (open : bool) (errors : list string) (opened : Z) : io host (row * bool) :=
  match n with
  | O => elapsed <~ since begin ; ret (Row false elapsed errors opened, open)
  | S n =>
      let opened := if open then opened else opened + 1 in
      r <~ attempt ;
      match r with
      | inl stays => elapsed <~ since begin ; ret (Row true elapsed errors opened, stays)
      | inr error => attempts n begin false (errors ++ [error]) opened
      end
  end.
Definition tries (resident : bool) : nat := if resident then 2 else 1.
Definition request (resident open : bool) : io host (row * bool) := begin <~ clock ; attempts (tries resident) begin open [] 0.

Definition newcomer : io host row := finally (r <~ request false false ; ret r.1) (advance ;~ ret tt).

(** ** The summary *)

Definition summarize (rows : list row) : expr :=
  successes <- py_sorted (map r_elapsed (List.filter r_success rows)) ;;
  let n := Z.of_nat (length successes) in
  let offered := Z.of_nat (length rows) in
  mkdict [("offered", int offered); ("successes", int n); ("failures", int (offered - n));
          ("connections_opened", int (sumZ (map r_opened rows)));
          ("attempt_errors", rmap VDict (counter_of (VList (map VStr (concat (map r_attempts rows))))));
          ("p50_us", if n =? 0 then $VNone else idx_at ($(VList successes)) (n / 2));
          ("p99_us", if n =? 0 then $VNone
                     else (i <- (a <- (x <- int n *' lit 99 2 ;; py_int_of x) ;; py_min [VInt (n - 1); a]) ;;
                           at_ ($(VList successes)) ($i)))].

(** ** The rounds *)

Definition residents : nat := 1024.
Definition arrivals_per_round : nat := 128.

(** Every resident makes a request on its connection; the sockets they are left with. *)
Definition returning (resident : bool) (open : list bool) : io host (list (row * bool)) := mapM (request resident) open.

Record round := Round { rd_newcomers : list row; rd_residents : list row }.
Definition round_step (idle_ms : val) (st : list round * list bool) (number : nat) : io host (list round * list bool) :=
  lift ($idle_ms /' int 1000) ;~
  advance ;~
  arrivals <~ mapM (fun _ => newcomer) (seq 0 arrivals_per_round) ;
  back <~ returning true st.2 ;
  ret (st.1 ++ [Round arrivals (map fst back)], map snd back).
Definition round_json (number : nat) (r : round) : val :=
  obj [("round", VInt (Z.of_nat number + 1)); ("newcomers", VList (map row_json (rd_newcomers r)));
       ("residents", VList (map row_json (rd_residents r)))].

Definition emit (result : val) : io host unit := text <~ lift (json_dumps result) ; say text.
(** [json.loads(sys.stdin.readline())] *)
Definition command : io host val := line <~ answer_text ; lift (json_loads line).
Definition expect (key : string) : io host unit := message <~ command ; lift (assertR (test ($message.[key])) "").

(** Every slot holds a validated connection. *)
Definition fill_slot (open : list bool) (i : nat) : io host (list bool) :=
  r <~ request false false ;
  (if r_success r.1 then ret tt else throw (Exn AssertionError "")) ;~
  ret (open ++ [r.2]).

Definition report (elapsed : val) (rounds : list round) : expr :=
  mkdict [("elapsed_seconds", $elapsed); ("rounds", $(VList (imap round_json rounds)));
          ("newcomers", summarize (concat (map rd_newcomers rounds))); ("residents", summarize (concat (map rd_residents rounds)))].

Definition body (options : val) : io host unit :=
  open <~ foldM fill_slot [] (seq 0 residents) ;
  hostname <~ clock ;
  boot <~ read_proc ;
  emit (obj [("validated", VInt (Z.of_nat residents)); ("identity", obj [("hostname", hostname); ("boot_id", VStr (strip boot))])]) ;~
  expect "go" ;~
  begin <~ clock ;
  n <~ lift (v <- $options.["rounds"] ;; as_int v) ;
  st <~ foldM (fun st number => idle_ms <~ lift ($options.["idle_ms"]) ; round_step idle_ms st number) ([], open) (seq 0 (Z.to_nat n)) ;
  elapsed <~ (now <~ clock ; lift ($now -' $begin)) ;
  result <~ lift (report elapsed st.1) ;
  emit result ;~
  expect "finish".

Definition main : io host unit :=
  options <~ command ;
  external ;~
  soft <~ clock ;
  hard <~ clock ;
  lift (py_max [soft; VInt 4096]) ;~
  external ;~
  lift (_ <- $options.["address"] ;; $options.["port"]) ;~
  finally (body options) (each (fun _ => advance ;~ ret tt) (seq 0 residents)).

(** ** Lemmas *)

(** A row of a request with [n] attempts: failed only when every attempt has, and a connection per attempt at most. *)
Record accounted (n : nat) (r : row) : Prop := {
  ac_errors : if r_success r then (length (r_attempts r) < n)%nat else length (r_attempts r) = n;
  ac_opened : 0 <= r_opened r <= Z.of_nat n }.

Lemma attempts_accounted n begin open errors opened w r o w' :
  attempts n begin open errors opened w = (Ok (r, o), w') -> 0 <= opened <= Z.of_nat (length errors) ->
  accounted (length errors + n) r.
Proof.
  revert open errors opened w. induction n as [|n IH]; intros open errors opened w H Ho; cbn [attempts] in H.
  - apply bind_ok in H as (elapsed & w1 & _ & H). injection H as <- _ _. split; cbn; lia.
  - set (opened' := if open then opened else opened + 1) in H.
    assert (Ho' : 0 <= opened' <= Z.of_nat (length errors) + 1) by (unfold opened'; case_match; lia).
    apply bind_ok in H as ([stays|error] & w1 & _ & H).
    + apply bind_ok in H as (elapsed & w2 & _ & H). injection H as <- _ _. split; cbn; lia.
    + apply IH in H; [|rewrite length_app; cbn; lia]. rewrite length_app in H. cbn in H. by replace (length errors + S n)%nat with (length errors + 1 + n)%nat by lia.
Qed.
Lemma request_accounted resident open w r o w' : request resident open w = (Ok (r, o), w') -> accounted (tries resident) r.
Proof. intros (begin & w1 & _ & H)%bind_ok. apply attempts_accounted in H; [done|cbn; lia]. Qed.

(** A round: the arrivals and the residents, each request accounted for, and a socket state per resident. *)
Record sound_round (n : nat) (r : round) : Prop := {
  sr_arrivals : length (rd_newcomers r) = arrivals_per_round;
  sr_residents : length (rd_residents r) = n;
  sr_newcomers : Forall (accounted 1) (rd_newcomers r);
  sr_returning : Forall (accounted 2) (rd_residents r) }.

Lemma mapM_all {A B} (P : B -> Prop) (f : A -> io host B) l w ys w' :
  (forall a w b w', f a w = (Ok b, w') -> P b) -> mapM f l w = (Ok ys, w') -> length ys = length l /\ Forall P ys.
Proof.
  intros Hf. revert w ys w'. induction l as [|a l IH]; intros w ys w'; cbn [mapM]; [by intros [= <- _]|].
  intros (b & w1 & Hb & H)%bind_ok. apply bind_ok in H as (bs & w2 & Hbs & H). injection H as <- _. apply Hf in Hb. destruct (IH _ _ _ Hbs) as [L F].
  split; [cbn; congruence|by constructor].
Qed.
Lemma newcomer_accounted w r w' : newcomer w = (Ok r, w') -> accounted 1 r.
Proof.
  intros (w1 & E & _)%finally_ok. apply bind_ok in E as ([r' o] & w3 & E & H). injection H as <- _. by apply (request_accounted false) in E.
Qed.
Lemma round_step_sound idle_ms st number w st' w' :
  round_step idle_ms st number w = (Ok st', w') -> exists r, st'.1 = st.1 ++ [r] /\ sound_round (length st.2) r /\ length st'.2 = length st.2.
Proof.
  unfold round_step. intros (? & w1 & _ & H)%bind_ok. apply bind_ok in H as (? & w2 & _ & H).
  apply bind_ok in H as (arrivals & w3 & Ha & H). apply bind_ok in H as (back & w4 & Hb & H). injection H as <- _. cbn.
  apply (mapM_all (accounted 1)) in Ha as [La Fa]; [|intros ? ? ? ? E; by eapply newcomer_accounted]. rewrite length_seq in La.
  apply (mapM_all (fun ro => accounted 2 ro.1)) in Hb as [Lb Fb]; [|intros ? ? [r o] ? E; by apply (request_accounted true) in E].
  eexists. split_and!; [done| |by rewrite length_map]. split; cbn; [done|by rewrite length_map|done|]. by apply Forall_map.
Qed.

(** Success and failure of the rows add up in the summary. *)
Lemma summarize_counts rows s : summarize rows = Ok s ->
  $s.["offered"] = int (Z.of_nat (length rows)) /\ $s.["successes"] = int (Z.of_nat (length (List.filter r_success rows)))
  /\ $s.["failures"] = int (Z.of_nat (length (List.filter (fun r => negb (r_success r)) rows)))
  /\ $s.["connections_opened"] = int (sumZ (map r_opened rows)).
Proof.
  unfold summarize. intros (sorted & Hs & H)%rbind_ok. cbv zeta in H. pose proof (fun k e Hk => mkdict_get _ _ k e H Hk) as G.
  destruct (G "offered" _ eq_refl) as (a & [= <-] & Ga). destruct (G "successes" _ eq_refl) as (b & [= <-] & Gb).
  destruct (G "failures" _ eq_refl) as (c & [= <-] & Gc). destruct (G "connections_opened" _ eq_refl) as (d & [= <-] & Gd).
  assert (L : length sorted = length (List.filter r_success rows)).
  { apply (py_sorted_by_perm id), Permutation_length in Hs. by rewrite length_map in Hs. }
  rewrite Ga, Gb, Gc, Gd, L. split_and!; [done|done| |done]. apply (f_equal (fun z => Ok (VInt z))).
  assert (length rows = length (List.filter r_success rows) + length (List.filter (fun r => negb (r_success r)) rows))%nat; [|lia].
  clear. induction rows as [|r rows IH]; [done|]. cbn. destruct (r_success r); cbn; lia.
Qed.

(** The rounds of a run, and the open connections after them. *)
Definition sound_rounds (st : list round * list bool) : Prop := length st.2 = residents /\ Forall (sound_round residents) st.1.

Lemma rounds_sound idle l st w st' w' :
  sound_rounds st -> foldM (fun st number => idle_ms <~ lift (idle) ; round_step idle_ms st number) st l w = (Ok st', w') ->
  sound_rounds st' /\ length st'.1 = (length st.1 + length l)%nat.
Proof.
  revert st w. induction l as [|i l IH]; intros st w Hs; cbn [foldM]; [intros [= <- _]; split; [done|cbn; lia]|].
  intros (st1 & w1 & E & H)%bind_ok. apply bind_ok in E as (idle_ms & w2 & _ & E).
  apply round_step_sound in E as (r & E & R & L). destruct Hs as [Ho Hr]. apply IH in H as [H N].
  - split; [done|]. rewrite N, E, length_app. cbn. lia.
  - split; [congruence|]. rewrite E, Forall_app. split; [done|]. constructor; [by rewrite <- Ho|done].
Qed.

Lemma fill_slots open l w open' w' : foldM fill_slot open l w = (Ok open', w') -> length open' = (length open + length l)%nat.
Proof.
  revert open w. induction l as [|i l IH]; intros open w; cbn [foldM]; [intros [= <- _]; cbn; lia|].
  intros (o & w1 & E & H)%bind_ok. apply IH in H. unfold fill_slot in E. apply bind_ok in E as (r & w2 & _ & E).
  apply bind_ok in E as (? & w3 & _ & E). injection E as <- _. rewrite H, length_app. cbn. lia.
Qed.

Lemma adds_answer_text P : adds P answer_text.
Proof. unfold answer_text. auto with zhtps. Qed.
Lemma adds_expect P k : adds P (expect k).
Proof. unfold expect, command. apply adds_bind; [apply adds_bind; [apply adds_answer_text|auto with zhtps]|auto with zhtps]. Qed.

(** Accounting of the returning client.  When the client ends, it has printed a report of the rounds that were asked for; in each
    round 128 newcomers made one attempt and all 1024 residents at most two; a failed row has an error for every attempt and a
    successful one has fewer; and the summary counts every row once, as a success or as a failure. *)
Theorem returning_accounts w w' : main w = (Ok tt, w') ->
  exists options n elapsed rounds result text, $options.["rounds"] = Ok n /\ (exists z, as_int n = Ok z /\ length rounds = Z.to_nat z)
    /\ Forall (sound_round residents) rounds /\ report elapsed rounds = Ok result
    /\ json_dumps result = Ok text /\ Said text ∈ trace w'.
Proof.
  unfold main. intros (options & w1 & _ & H)%bind_ok. do 6 (apply bind_ok in H as (? & ? & _ & H)).
  apply finally_ok in H as (w2 & E & Hc). unfold body in E. apply bind_ok in E as (open & ? & Ho & E).
  apply fill_slots in Ho. rewrite length_seq in Ho. do 5 (apply bind_ok in E as (? & ? & _ & E)).
  apply bind_ok in E as (z & ? & [Hz ->]%lift_ok & E). apply rbind_ok in Hz as (n & Hn & Hz).
  apply bind_ok in E as (st & ? & Hst & E). apply rounds_sound in Hst as [[_ Hr] Hl]; [|by split]. rewrite length_seq in Hl.
  apply bind_ok in E as (elapsed & ? & _ & E). apply bind_ok in E as (result & ? & [Hres ->]%lift_ok & E).
  apply bind_ok in E as ([] & w3 & He & E). unfold emit in He. apply bind_ok in He as (text & ? & [Ht ->]%lift_ok & He).
  apply fallible_said in He. apply (adds_expect (fun _ => True)) in E as (l1 & E & _).
  assert (Ha : adds (fun _ => True) (each (fun _ : nat => advance ;~ ret tt) (seq 0 residents))) by auto with zhtps.
  apply Ha in Hc as (l2 & Hc & _).
  exists options, n, elapsed, st.1, result, text. split_and!; [done|by exists z|done|done|done|].
  rewrite Hc, E, He. do 2 (apply elem_of_app; left). apply elem_of_app. right. by left.
Qed.
