(* ===== verification/IdlePressureClient.v ===== *)
(** * [bench/idle_pressure_client.py]: new connections against a full set of idle ones

    The client fills the server with idle connections, offers new ones from a pool of threads and then looks which idle
    ones were closed.  As in [KeepaliveReturning], the requests of the pool are run one after the other. *)

From stdpp Require Import base list strings.
From Stdlib Require Import ZArith Lia Ascii.
From S2P Require Import Prelude PyFloat PyText PyVal PyJson PyScript PyStats PyIO System ProcSample RemoteLoad KeepaliveReturning.

Local Open Scope Z_scope.
Open Scope py_scope.

Record outcome := Outcome { o_error : option string; o_elapsed : Z }.
Definition error_json (o : outcome) : val := match o_error o with Some e => VStr e | None => VNone end.
Definition outcome_json (o : outcome) : val := obj [("error", error_json o); ("elapsed_ns", VInt (o_elapsed o))].
Definition succeeded (o : outcome) : bool := match o_error o with None => true | Some _ => false end.

(** [request_new(_)]: the connection is closed in any case. *)
Definition request_new : io host outcome :=
  begin <~ read_clock ;
  finally
    (error <~ catch (ok <~ fetch ; ret (if ok : bool then None else Some "invalid_response"))
                (fun e => if dropped e then ret (Some (class_name (ex_class e))) else throw e) ;
     now <~ read_clock ;
     ret (Outcome error (now - begin)))
    (advance ;~ ret tt).

(** A connection that is kept idle after its first response. *)
Definition open_idle (_ : nat) : io host unit := ok <~ fetch ; if ok : bool then ret tt else throw (Exn AssertionError "").

(** Whether the server has closed an idle connection: nothing to read without an end of file means that it has not. *)
Definition is_closed : io host bool :=
  external ;~
  catch (peeked <~ external ; ret (py_eqb peeked (VStr "")))
    (fun e => if is_class e BlockingIOError then ret false else if is_class e ConnectionResetError then ret true else throw e).
Definition count_closed (n : Z) (_ : nat) : io host Z := closed <~ is_closed ; ret (if closed : bool then n + 1 else n).

Definition expect_kind (kind : string) : io host unit :=
  message <~ command ; lift (assertR ($message.["kind"] ==' str kind) "").

(** [successes[min(len(successes) - 1, int(len(successes) * .99))] / 1e6] *)
Definition p99_ms (successes : list val) : expr :=
  let n := Z.of_nat (length successes) in
  if n =? 0 then $VNone
  else (i <- (a <- (x <- int n *' lit 99 2 ;; py_int_of x) ;; py_min [VInt (n - 1); a]) ;; at_ ($(VList successes)) ($i)) /' lit 1000000 0.

Definition result_of (elapsed cpu : val) (results : list outcome) (successes : list val) (closed : Z) : expr :=
  let n := Z.of_nat (length successes) in
  mkdict [("kind", str "result"); ("elapsed_seconds", $elapsed); ("client_cpu_seconds", $cpu);
          ("offered_new_connections", int (Z.of_nat (length results))); ("successes", int n);
          ("failures", rmap VDict (counter_of (VList (List.filter truthy (map error_json results)))));
          ("new_connection_goodput", int n /' $elapsed); ("success_p99_ms", p99_ms successes);
          ("idle_connections_closed", int closed); ("outcomes", $(VList (map outcome_json results)))].

Definition body (options : val) (count : Z) : io host unit :=
  lift (_ <- $options.["address"] ;; $options.["port"]) ;~
  each open_idle (seq 0 (Z.to_nat count)) ;~
  emit (obj [("kind", VStr "ready"); ("validated_initial_responses", VInt count)]) ;~
  expect_kind "go" ;~
  cpu_begin <~ clock ;
  begin <~ clock ;
  requests <~ lift (v <- $options.["requests"] ;; as_int v) ;
  results <~ mapM (fun _ => request_new) (seq 0 (Z.to_nat requests)) ;
  elapsed <~ (now <~ clock ; lift ($now -' $begin)) ;
  successes <~ lift (py_sorted (map (fun o => VInt (o_elapsed o)) (List.filter succeeded results))) ;
  closed <~ foldM count_closed 0 (seq 0 (Z.to_nat count)) ;
  cpu <~ (now <~ clock ; lift ($now -' $cpu_begin)) ;
  result <~ lift (result_of elapsed cpu results successes closed) ;
  emit result ;~
  expect_kind "finish".

(** The connections that are open are closed at the end, which nothing shows. *)
Definition main : io host unit :=
  options <~ command ;
  count <~ lift ($options.["connections"]) ;
  lift (assertR (($count >=' int 1) &&' ($count <=' int 8192) &&' ($options.["requests"] >=' int 1)
                 &&' ($options.["requests"] <=' int 1024)) "") ;~
  external ;~
  soft <~ clock ;
  hard <~ clock ;
  lift (n <- $count +' int 256 ;; py_max [soft; n]) ;~
  external ;~
  hostname <~ clock ;
  boot <~ read_proc ;
  emit (obj [("kind", VStr "hello"); ("hostname", hostname); ("boot_id", VStr (strip boot))]) ;~
  n <~ lift (as_int count) ;
  finally (body options n) (each (fun _ => advance ;~ ret tt) (seq 0 (Z.to_nat n))).

(** ** Lemmas *)

(** What the client reports: every offered connection is counted once, and no more idle ones closed than were opened. *)
Lemma count_closed_bound l n w m w' : foldM count_closed n l w = (Ok m, w') -> n <= m <= n + Z.of_nat (length l).
Proof.
  revert n w. induction l as [|i l IH]; intros n w; cbn [foldM]; [intros [= <- _]; cbn; lia|].
  intros (k & w1 & E & H)%bind_ok. apply bind_ok in E as (b & w2 & _ & E). injection E as <- _. apply IH in H.
  cbn [length]. destruct b; lia.
Qed.

Lemma requests_count l w results w' : mapM (fun _ : nat => request_new) l w = (Ok results, w') -> length results = length l.
Proof. intros H. apply (mapM_all (fun _ => True)) in H as [H _]; [exact H|done]. Qed.

(** Accounting of the client: when it ends, it has printed a result that offers the asked number of connections, whose
    successes and failures add up to them, and in which at most the opened idle connections are closed. *)
Theorem idle_client_accounts options count w w' : body options count w = (Ok tt, w') ->
  exists requests elapsed cpu results successes closed result text,
    $options.["requests"] = int requests /\ result_of elapsed cpu results successes closed = Ok result /\ json_dumps result = Ok text /\ Said text ∈ trace w'
    /\ length results = Z.to_nat requests
    /\ length successes = length (List.filter succeeded results) /\ 0 <= closed <= Z.of_nat (Z.to_nat count).
Proof.
  unfold body. intros (? & w1 & _ & H)%bind_ok. do 5 (apply bind_ok in H as (? & ? & _ & H)).
  apply bind_ok in H as (requests & ? & [(v & Hv & Hi)%rbind_ok ->]%lift_ok & H). destruct v; try done. injection Hi as ->.
  apply bind_ok in H as (results & ? & Hr & H). apply requests_count in Hr. rewrite length_seq in Hr.
  apply bind_ok in H as (elapsed & ? & _ & H). apply bind_ok in H as (successes & ? & [Hs ->]%lift_ok & H).
  apply bind_ok in H as (closed & ? & Hc & H). apply count_closed_bound in Hc. rewrite length_seq in Hc.
  apply bind_ok in H as (cpu & ? & _ & H). apply bind_ok in H as (result & ? & [Hres ->]%lift_ok & H).
  apply bind_ok in H as ([] & w3 & He & H). unfold emit in He. apply bind_ok in He as (text & ? & [Ht ->]%lift_ok & He).
  apply fallible_said in He. exists requests, elapsed, cpu, results, successes, closed, result, text.
  apply (py_sorted_by_perm id), Permutation_length in Hs. rewrite length_map in Hs. split_and!; [done|done|done| |done|done|lia|lia].
  assert (A : adds (fun _ => True) (expect_kind "finish")).
  { unfold expect_kind, command. apply adds_bind; [apply adds_bind; [apply adds_answer_text|auto with zhtps]|auto with zhtps]. }
  apply A in H as (l & -> & _). rewrite He. apply elem_of_app. left. apply elem_of_app. right. by left.
Qed.
