(* ===== verification/AccessLog.v ===== *)
(** * [bench/access_log.py]: access logs measured against a real sink

    A trial starts a server that logs to a file or through a pipe, loads it twice, and then reads every line of the
    log back: the records must be those of the load, and the ones that are missing must have been counted as dropped.
    The thread that copies the pipe into the file is part of the environment, which answers what the file holds;
    the trial only sees whether the thread ended. *)

From stdpp Require Import base list strings gmap.
From Stdlib Require Import ZArith Lia Ascii.
From S2P Require Import Prelude PyFloat PyText PyVal PyJson PyScript PyStats PyHash Evidence PyIO System ProcSample RemoteLoad Compare Overload.

Local Open Scope Z_scope.
Open Scope py_scope.

(** ** Options *)

Record Options := mkOptions {
  variants : list string; client : string; offered_client : option string; rate : Z; output : string; repeats : Z;
  seconds : val; workers : Z; server_cpus : string; client_cpus : string; connections : Z; capacity : Z; depth : Z;
  log_slots : Z; logging : string; sink : string; keep_logs : bool }.

Definition USER_AGENT : string :=
  "Mozilla/5.0 (X11; Linux x86_64) AppleWebKit/537.36 (KHTML, like Gecko) Chrome/140.0.0.0 Safari/537.36".

(** ** The server's metrics and ports *)

Definition metrics : io host val :=
  external ;~
  status <~ clock ;
  (if py_eqb status (VInt 200) then ret tt else throw (Exn RuntimeError ("metrics returned " +:+ py_str status))) ;~
  body <~ read_proc ;
  lift (json_loads body).

(** [data.splitlines()] of bytes *)
Fixpoint splitlines_bytes (cur : string) (s : string) : list string :=
  match s with
  | "" => if String.eqb cur "" then [] else [str_rev cur]
  | String "010" s => str_rev cur :: splitlines_bytes "" s
  | String "013" (String "010" s) => str_rev cur :: splitlines_bytes "" s
  | String "013" s => str_rev cur :: splitlines_bytes "" s
  | String a s => splitlines_bytes (String a cur) s
  end%string.

(** A line that is not JSON is passed over. *)
Definition port_line (ports : dict) (line : string) : res dict :=
  match json_loads line with
  | Err e => if isa e ValueError then Ok ports else Err e
  | Ok event =>
      ifR (one_of (get ($event) "event") ["listening"; "admin_listening"])
        (k <- $event.["event"] ;; port <- $event.["port"] ;; Ok (dset k port ports)) (Ok ports)
  end.

(** The startup loop; [fuel] bounds its rounds. *)
Fixpoint ports_loop (fuel : nat) (process : handle) (deadline : val) : io host dict :=
  match fuel with
  | O => throw (Exn RuntimeError "out of fuel")
  | S fuel =>
      now <~ clock ;
      early <~ lift ($now <' $deadline) ;
      if early : bool then
        content <~ read_proc ;
        ports <~ lift (foldR port_line [] (splitlines_bytes "" content)) ;
        if (length ports =? 2)%nat then ret ports else
        code <~ poll process ;
        (match code with Some _ => text <~ read_proc ; throw (Exn RuntimeError text) | None => ret tt end) ;~
        advance ;~
        ports_loop fuel process deadline
      else throw (Exn TimeoutError "server startup")
  end.
Definition ports_from_log (fuel : nat) (process : handle) : io host dict :=
  deadline <~ (now <~ clock ; lift ($now +' int 10)) ; ports_loop fuel process deadline.

(** Waiting for the server to write what it has logged: one round, and the loop. *)
Definition drain_round (deadline : val) : io host (option val) :=
  captured <~ metrics ;
  low <~ lift ($captured.["gauges"].["log_pending"] <=' int 1) ;
  if low : bool then ret (Some captured) else
  now <~ clock ;
  late <~ lift ($now >' $deadline) ;
  (if late : bool then throw (Exn TimeoutError "log drain") else ret tt) ;~
  advance ;~
  ret None.
Fixpoint drain_loop (fuel : nat) (deadline : val) : io host val :=
  match fuel with
  | O => throw (Exn RuntimeError "out of fuel")
  | S fuel => captured <~ drain_round deadline ; match captured with Some v => ret v | None => drain_loop fuel deadline end
  end.
Definition drain (fuel : nat) : io host val :=
  deadline <~ (now <~ clock ; lift ($now +' int 5)) ; drain_loop fuel deadline.

(** ** The client *)

(** [subprocess.check_output(command, timeout=...)] *)
Definition check_output (args : list string) : io host string :=
  r <~ run_process true args ;
  if cp_code r =? 0 then ret (cp_stdout r) else throw (Exn CalledProcessError (join " " args)).

Definition client_load (o : Options) (seconds_ : val) : list string :=
  if o.(rate) =? 0 then ["-duration"; py_str seconds_ +:+ "s"]
  else ["-schedule"; string_of_Z (rate o) +:+ ":" +:+ py_str seconds_ +:+ "s"].

(** What a closed loop reports stands as it is; an offered load must have met its target. *)
Definition client_result (o : Options) (raw : val) : expr :=
  if rate o =? 0 then Ok raw else
  phase <- idx_at ($raw.["phases"]) 0 ;;
  guardR (orR (orR ($phase.["successes"] !=' $phase.["sent"]) (test ($phase.["failures"])))
              ($phase.["successes"] <' (v <- lit 99 2 ;; w <- $phase.["offered"] ;; py_mul v w)))
    RuntimeError ("offered load missed its target or failed to validate sent requests: " +:+ py_str phase) ;;;
  mkdict [("validated_responses", $phase.["successes"]); ("elapsed_seconds", $raw.["elapsed_seconds"]);
          ("responses_per_second", $phase.["successes"] /' $raw.["elapsed_seconds"]);
          ("failures", $phase.["failures"]); ("offered", Ok raw)].

Definition run_client (o : Options) (client_ : list string) (env : list (string * option string)) (seconds_ : val) : io host val :=
  let command := client_ ++ client_load o seconds_ in
  with_env env ;~
  raw <~ (text <~ check_output command ; lift (json_loads text)) ;
  lift (client_result o raw).

(** ** The retained log *)

(** The lines of a binary file, each with its line feed. *)
Fixpoint file_lines (cur s : string) : list string :=
  match s with
  | "" => if String.eqb cur "" then [] else [str_rev cur]
  | String "010" s => str_rev (String "010" cur) :: file_lines "" s
  | String a s => file_lines (String a cur) s
  end%string.

Record log_state := LogState { l_digested : string; l_records : Z; l_access : Z }.

Definition not_ours (event : val) : res bool :=
  get ($event) "event" !=' str "request_complete" ||' get ($event) "user_agent" !=' str USER_AGENT.
Definition check_key (event : val) (key : string) : res unit :=
  v <- $event.[key] ;; guard (match v with VInt _ => false | _ => true end) RuntimeError ("noninteger " +:+ key).
Definition check_record (event : val) : res unit :=
  guardR ($event.["status"] !=' int 200 ||' $event.["method"] !=' str "GET" ||' $event.["bytes"] !=' int 6)
    RuntimeError ("incorrect access record: " +:+ py_str event) ;;;
  guardR (has ($event) "request" ||' has ($event) "connection") RuntimeError "obsolete access fields" ;;;
  eachR (check_key event) ["worker"; "conn_gen"; "conn_slot"].

Definition log_record (s : log_state) (line : string) : res log_state :=
  let digested := l_digested s +:+ line in
  event <- json_loads line ;;
  ifR (not_ours event)
    (Ok (LogState digested (l_records s + 1) (l_access s)))
    (check_record event ;;; Ok (LogState digested (l_records s + 1) (l_access s + 1))).

Definition read_log (content : string) : res log_state := foldR log_record (LogState "" 0 0) (file_lines "" content).

(** No record too many, and the missing ones counted as dropped. *)
Definition check_counts (logged : bool) (access : Z) (expected dropped : val) : res unit :=
  guardR ((int access >' $expected) ||' Ok (negb logged && negb (access =? 0))) RuntimeError "incorrect number of access records" ;;;
  guardR (Ok logged &&' (int access <' $expected) &&' ($dropped <' ($expected -' int access)))
    RuntimeError "missing access records not accounted for by dropped logs".

Definition log_entry (logged : bool) (s : log_state) (expected dropped errors size : val) : expr :=
  let wanted := if logged then expected else VInt 0 in
  mkdict [("records", int (l_records s)); ("access_records", int (l_access s)); ("expected_access_records", $wanted);
          ("bytes", $size); ("sha256", str (sha256_hex (l_digested s))); ("dropped", $dropped); ("write_errors", $errors);
          ("complete", rmap VBool (int (l_access s) ==' $wanted &&' ($dropped ==' $errors &&' $errors ==' int 0)))].

(** ** The trial *)

(** [cpu_set(value)] *)
Definition cpu_part (part : string) : res (list Z) :=
  match split_once "-" part with
  | Some (first, last) => a <- py_int first ;; b <- py_int last ;; Ok (seqZ a (b + 1 - a))
  | None => a <- py_int part ;; Ok [a]
  end.
Definition cpu_set (value : string) : res (gset Z) :=
  rmap (fun l => list_to_set (concat l)) (mapR cpu_part (split_char "," value)).

Definition log_path (o : Options) (name : string) (repeat : Z) (logged : bool) : string :=
  str_path (under (parent (path_of (output o)))
    (name +:+ "-" +:+ string_of_Z repeat +:+ "-" +:+ (if logged then "on" else "off") +:+ ".jsonl")).

Definition server_command (o : Options) (binary : string) (logged : bool) : list string :=
  ["taskset"; "-c"; server_cpus o; binary; "--port"; "0"; "--admin-port"; "0"; "--workers"; string_of_Z (workers o);
   "--worker-cpus"; server_cpus o; "--max-connections"; string_of_Z (capacity o); "--max-active"; string_of_Z (capacity o);
   "--max-requests"; "4294967295"; "--log-slots"; string_of_Z (log_slots o); "--large-buffer-bytes"; "67108864";
   "--http2-worker-streams"; "256"; "--http2-memory-bytes"; "67108864"]
  ++ (if logged then [] else ["--no-access-log"]).

Definition client_binary (o : Options) : string :=
  if rate o =? 0 then client o else match offered_client o with Some c => c | None => "None" end.
Definition client_command (o : Options) (port : val) : list string :=
  ["taskset"; "-c"; client_cpus o; client_binary o; "-address"; "127.0.0.1:" +:+ py_str port;
   "-connections"; string_of_Z (connections o); "-user-agent"; USER_AGENT]
  ++ (if rate o =? 0 then ["-depth"; string_of_Z (depth o)]
      else ["-shards"; "4"; "-queue"; "4096"; "-max-lag"; "100ms"]).

(** What the [try] block leaves in its variables. *)
Record measurement := Measurement {
  m_client : list string; m_warmup : val; m_before_metrics : val; m_before : val; m_workload : val;
  m_collector_cpu : val; m_after : val; m_after_metrics : val; m_drained : val }.

Definition measure (fuel : nat) (o : Options) (server : handle) : io host measurement :=
  ports <~ ports_from_log fuel server ;
  port <~ lift ($(VDict ports).["listening"]) ;
  let client_ := client_command o port in
  cpus <~ lift (cpu_set (client_cpus o)) ;
  let env := [("GOMAXPROCS", Some (string_of_Z (Z.of_nat (size cpus))))] in
  warmup <~ run_client o client_ env (VFloat (f64_lit 5 1)) ;
  lift ($(VDict ports).["admin_listening"]) ;~
  before_metrics <~ drain fuel ;
  advance ;~
  before <~ take_proc_sample ;
  started <~ clock ;
  workload <~ run_client o client_ env (seconds o) ;
  collector_cpu <~ (now <~ clock ; lift ($now -' $started)) ;
  after <~ take_proc_sample ;
  after_metrics <~ drain fuel ;
  advance ;~
  drained <~ take_proc_sample ;
  ret (Measurement client_ warmup before_metrics before workload collector_cpu after after_metrics drained).

(** The thread that copies the pipe has five seconds to end. *)
Definition join_collector (o : Options) : io host unit :=
  if String.eqb (sink o) "pipe" then
    advance ;~ alive <~ clock ; if truthy alive then throw (Exn TimeoutError "log collector") else ret tt
  else ret tt.

Definition cpu_between (first last : val) : expr := $last.["cpu_seconds"] -' $first.["cpu_seconds"].

(** Everything after the server has stopped. *)
Definition audit_log (o : Options) (name : string) (repeat : Z) (logged : bool) (command : list string) (server : handle)
    (m : measurement) : io host val :=
  code <~ returncode server ;
  failed <~ lift (($code !=' int 0) ||' test ($(m_workload m).["failures"])) ;
  (if failed : bool then throw (Exn RuntimeError "server or client failed") else ret tt) ;~
  content <~ read_proc ;
  s <~ lift (read_log content) ;
  expected <~ lift ($(m_warmup m).["validated_responses"] +' $(m_workload m).["validated_responses"]) ;
  dropped <~ lift ($(m_after_metrics m).["counters"].["log_dropped_total"]) ;
  errors <~ lift ($(m_after_metrics m).["counters"].["log_write_errors_total"]) ;
  lift (check_counts logged (l_access s) expected dropped) ;~
  per_response <~ lift ((v <- cpu_between (m_before m) (m_after m) ;; py_mul v (VFloat (f64_lit 1000000000 0)))
                        /' $(m_workload m).["validated_responses"]) ;
  drain_cpu <~ lift (cpu_between (m_after m) (m_drained m)) ;
  size <~ lift_val as_int external ;
  entry <~ lift (log_entry logged s expected dropped errors (VInt size)) ;
  let result :=
    obj [("variant", VStr name); ("repeat", VInt repeat); ("logging", VBool logged);
         ("server_command", VList (map VStr command)); ("client_command", VList (map VStr (m_client m)));
         ("workload", m_workload m); ("warmup", m_warmup m); ("cpu_ns_per_response", per_response);
         ("drain_cpu_seconds", drain_cpu); ("collector_cpu_seconds", m_collector_cpu m);
         ("metrics_before", m_before_metrics m); ("metrics_after", m_after_metrics m); ("log", entry)] in
  (if keep_logs o then ret tt else external ;~ ret tt) ;~
  ret result.

Definition trial (fuel : nat) (o : Options) (binary name : string) (repeat : Z) (logged : bool) : io host val :=
  let command := server_command o binary logged in
  external ;~
  server <~ popen command ;
  m <~ finally (measure fuel o server) (stop (Some server) ;~ join_collector o) ;
  audit_log o name repeat logged command server m.

(** ** The measurement *)

Definition valid_options (o : Options) : res unit :=
  few <- (v <- py_min [VInt (repeats o); seconds o; VInt (workers o); VInt (connections o); VInt (capacity o); VInt (log_slots o)] ;;
          $v <=' int 0) ;;
  usage_if few "counts and durations must be positive" ;;;
  mine <- cpu_set (server_cpus o) ;;
  theirs <- cpu_set (client_cpus o) ;;
  usage_if (bool_decide (mine ∩ theirs ≠ ∅)) "server and client CPUs must be disjoint" ;;;
  usage_if (negb (Z.of_nat (size mine) =? workers o)) "supply exactly one server CPU per worker" ;;;
  usage_if ((rate o <? 0) || (negb (rate o =? 0) && (match offered_client o with None => true | _ => false end || negb (depth o =? 1))))
    "offered load needs --offered-client and --depth=1".

(** The measurement itself is kept on a CPU of its own. *)
Definition pin_monitor (o : Options) : io host unit :=
  mine <~ lift (cpu_set (server_cpus o)) ;
  theirs <~ lift (cpu_set (client_cpus o)) ;
  allowed <~ sched_getaffinity ;
  cpus <~ lift (l <- py_iter allowed ;; mapR as_int l) ;
  let monitor : gset Z := list_to_set cpus ∖ mine ∖ theirs in
  match elements monitor with
  | [] => ret tt
  | _ => external ;~ ret tt (* [min(monitor)] *)
  end.

Definition resolved (o : Options) (client_ : string) (offered : option string) : Options :=
  mkOptions (variants o) client_ offered (rate o) (output o) (repeats o) (seconds o) (workers o) (server_cpus o) (client_cpus o)
    (connections o) (capacity o) (depth o) (log_slots o) (logging o) (sink o) (keep_logs o).
Definition resolve_clients (o : Options) : io host Options :=
  client_ <~ answer_text ;
  offered <~ (match offered_client o with Some _ => path <~ answer_text ; ret (Some path) | None => ret None end) ;
  ret (resolved o client_ offered).

(** [name=path]: the last path of a name counts, at the place of its first. *)
Definition variant_of (d : dict) (v : string) : io host dict :=
  match split_once "=" v with
  | Some (name, _) => path <~ answer_text ; ret (dset (VStr name) (VStr path) d)
  | None => throw (Exn ValueError "not enough values to unpack (expected 2, got 1)")
  end.

Definition vars (o : Options) : val :=
  obj [("variants", VList (map VStr (variants o))); ("client", VStr (client o));
       ("offered_client", match offered_client o with Some c => VStr c | None => VNone end); ("rate", VInt (rate o));
       ("output", VStr (output o)); ("repeats", VInt (repeats o)); ("seconds", seconds o); ("workers", VInt (workers o));
       ("server_cpus", VStr (server_cpus o)); ("client_cpus", VStr (client_cpus o)); ("connections", VInt (connections o));
       ("capacity", VInt (capacity o)); ("depth", VInt (depth o)); ("log_slots", VInt (log_slots o));
       ("logging", VStr (logging o)); ("sink", VStr (sink o)); ("keep_logs", VBool (keep_logs o))].

Definition sha_of_file : io host val := content <~ read_proc ; ret (VStr (sha256_hex content)).
Definition hash_variant (d : dict) (np : val * val) : io host dict := sha <~ sha_of_file ; ret (dset np.1 sha d).

Definition initial_report (o : Options) (variants_ : dict) : io host val :=
  kernel <~ clock ;
  machine <~ clock ;
  shas <~ foldM hash_variant [] variants_ ;
  sha <~ sha_of_file ;
  let report := [("kernel", kernel); ("machine", machine); ("sink", VStr (sink o)); ("options", vars o);
                 ("binary_sha256", VDict shas); ("client_sha256", sha); ("runs", VList [])] in
  match offered_client o with
  | Some _ => sha <~ sha_of_file ; ret (obj (report ++ [("offered_client_sha256", sha)]))
  | None => ret (obj report)
  end.

Definition modes (o : Options) : list bool :=
  if String.eqb (logging o) "both" then [true; false] else [String.eqb (logging o) "on"].
Definition cases_of (o : Options) (variants_ : dict) : list (val * val * bool) :=
  concat (map (fun nb => map (fun logged => (nb.1, nb.2, logged)) (modes o)) variants_).

Definition save (o : Options) (report : val) : io host unit :=
  text <~ lift (json_dumps2 report) ; write_file (output o) (text +:+ nl).

Definition run_line (result : val) : res string :=
  line <- dictcomp ["variant"; "repeat"; "logging"; "cpu_ns_per_response"; "log"] (fun k => $result.[k]) ;;
  line <- setR line "rps" ($result.["workload"].["responses_per_second"]) ;;
  json_dumps line.

Definition case_step (fuel : nat) (o : Options) (repeat : Z) (report : val) (case : val * val * bool) : io host val :=
  let '(name, binary, logged) := case in
  result <~ trial fuel o (py_str binary) (py_str name) repeat logged ;
  report <~ lift (runs <- iterR ($report.["runs"]) ;; setR report "runs" ($(VList (runs ++ [result])))) ;
  save o report ;~
  line <~ lift (run_line result) ;
  say line ;~
  ret report.

Definition repeat_step (fuel : nat) (o : Options) (cases : list (val * val * bool)) (report : val) (repeat : nat) : io host val :=
  foldM (case_step fuel o (Z.of_nat repeat)) report (if Nat.even repeat then cases else rev cases).

(** A variant in one mode, over its repeats. *)
Definition same_case (name : val) (logged : bool) (r : val) : res bool :=
  $r.["variant"] ==' $name &&' $r.["logging"] ==' $(VBool logged).
Definition retained (runs : list val) : expr :=
  rmap VList (foldR (fun fractions r =>
    ifR (test ($r.["log"].["expected_access_records"]))
      (f <- $r.["log"].["access_records"] /' $r.["log"].["expected_access_records"] ;; Ok (fractions ++ [f]))
      (Ok fractions)) [] runs).
Definition summary_row (runs : list val) : expr :=
  mkdict [("median_cpu_ns", medianR (fun r => $r.["cpu_ns_per_response"]) runs);
          ("median_rps", medianR (fun r => $r.["workload"].["responses_per_second"]) runs);
          ("all_logs_complete", rmap VBool (allR (fun r => test ($r.["log"].["complete"])) runs));
          ("retained_fraction", retained runs)].
Definition summary_step (report : val) (case : val * val * bool) : expr :=
  let '(name, _, logged) := case in
  all <- iterR ($report.["runs"]) ;;
  runs <- filterR (same_case name logged) all ;;
  row <- summary_row runs ;;
  summary <- $report.["summary"] ;;
  setR report "summary" (setR summary (py_str name +:+ (if logged then "_on" else "_off")) ($row)).

Definition main (fuel : nat) (o : Options) : io host val :=
  lift (valid_options o) ;~
  pin_monitor o ;~
  o <~ resolve_clients o ;
  variants_ <~ foldM variant_of [] (variants o) ;
  external ;~
  report <~ initial_report o variants_ ;
  let cases := cases_of o variants_ in
  report <~ foldM (repeat_step fuel o cases) report (seq 0 (Z.to_nat (repeats o))) ;
  report <~ lift (setR report "summary" ($(VDict []))) ;
  report <~ lift (foldR summary_step report cases) ;
  save o report ;~
  ret report.

(** ** Lemmas *)

(** *** The lines of a log *)

Lemma file_lines_content cur s : foldr String.append "" (file_lines cur s) = str_rev cur +:+ s.
Proof.
  revert cur. induction s as [|c s IH]; intros cur.
  - cbn. destruct (String.eqb_spec cur "") as [->|]; [done|]. cbn. done.
  - assert (E : file_lines cur (String c s) = str_rev (String "010" cur) :: file_lines "" s /\ c = "010"%char
                \/ file_lines cur (String c s) = file_lines (String c cur) s).
    { destruct c as [[] [] [] [] [] [] [] []]; first [by right|by left]. }
    destruct E as [[-> -> ] | -> ].
    + cbn [foldr]. rewrite IH, str_rev_cons, str_app_assoc. done.
    + rewrite IH, str_rev_cons, str_app_assoc. done.
Qed.

(** An access record of this measurement. *)
Definition ours (line : string) : bool :=
  match json_loads line with
  | Ok event => match not_ours event with Ok false => true | _ => false end
  | Err _ => false
  end.
Definition sound_record (line : string) : Prop := exists event, json_loads line = Ok event /\ check_record event = Ok tt.
Definition count_ours (l : list string) : Z := Z.of_nat (length (List.filter ours l)).

Lemma log_record_ok s line s' :
  log_record s line = Ok s' ->
  l_digested s' = l_digested s +:+ line /\ l_records s' = l_records s + 1
  /\ l_access s' = l_access s + (if ours line then 1 else 0) /\ (ours line = true -> sound_record line).
Proof.
  unfold log_record, ours, sound_record. intros (event & E & H)%rbind_ok. rewrite E. unfold ifR in H.
  apply rbind_ok in H as (b & Hb & H). rewrite Hb. destruct b.
  - injection H as <-. cbn. split_and!; [done|done|lia|done].
  - apply rbind_ok in H as ([] & Hc & [= <-]). cbn. split_and!; [done|done|done|]. intros _. by exists event.
Qed.

Lemma log_records_ok l s s' :
  foldR log_record s l = Ok s' ->
  l_digested s' = l_digested s +:+ foldr String.append "" l /\ l_records s' = l_records s + Z.of_nat (length l)
  /\ l_access s' = l_access s + count_ours l /\ Forall (fun line => ours line = true -> sound_record line) l.
Proof.
  unfold count_ours. revert s. induction l as [|line l IH]; intros s; cbn [foldR].
  - intros [= <-]. cbn. split_and!; [by rewrite str_app_nil|lia|lia|constructor].
  - intros (s1 & (D1 & R1 & A1 & S1)%log_record_ok & (D2 & R2 & A2 & S2)%IH)%rbind_ok. cbn [foldr length List.filter].
    split_and!; [by rewrite D2, D1, str_app_assoc|lia| |by constructor]. destruct (ours line); cbn [length]; lia.
Qed.

Lemma read_log_ok content s :
  read_log content = Ok s ->
  let lines := file_lines "" content in
  l_digested s = content /\ l_records s = Z.of_nat (length lines) /\ l_access s = count_ours lines
  /\ Forall (fun line => ours line = true -> sound_record line) lines.
Proof.
  intros (D & R & A & S)%log_records_ok. cbn in *. split_and!; [|lia|lia|done]. rewrite D, file_lines_content. done.
Qed.

(** *** What is written about it *)

Lemma check_counts_ok logged access expected dropped u :
  check_counts logged access expected dropped = Ok u ->
  (int access >' $expected) = Ok false /\ (logged = false -> access = 0)
  /\ (logged = true -> (int access <' $expected) = Ok false \/ ($dropped <' ($expected -' int access)) = Ok false).
Proof.
  unfold check_counts. intros (? & H1%guardR_ok & H2%guardR_ok)%rbind_ok. unfold orR in H1.
  apply rbind_ok in H1 as (b & Hb & H1). destruct b; [done|]. split; [exact Hb|]. split.
  - intros ->. injection H1 as H1. cbn in H1. by apply negb_false_iff, Z.eqb_eq in H1.
  - intros ->. unfold andR in H2. cbn [rbind] in H2. apply rbind_ok in H2 as (c & Hc & H2). destruct c; [by right|by left].
Qed.

(** A comparison with an integer only succeeds on a number. *)
Definition number (v : val) : Prop := match v with VInt _ | VFloat _ | VBool _ => True | _ => False end.
Lemma int_gt_number a v b : (int a >' $v) = Ok b -> number v.
Proof. cbn. by destruct v. Qed.

(** What [audit_log] has found when it returns, and the record it returns. *)
Definition result_of (name : string) (repeat : Z) (logged : bool) (command : list string) (m : measurement)
    (per_response drain_cpu entry : val) : val :=
  obj [("variant", VStr name); ("repeat", VInt repeat); ("logging", VBool logged);
       ("server_command", VList (map VStr command)); ("client_command", VList (map VStr (m_client m)));
       ("workload", m_workload m); ("warmup", m_warmup m); ("cpu_ns_per_response", per_response);
       ("drain_cpu_seconds", drain_cpu); ("collector_cpu_seconds", m_collector_cpu m);
       ("metrics_before", m_before_metrics m); ("metrics_after", m_after_metrics m); ("log", entry)].

Lemma audit_log_ok o name repeat logged command server m h result h' :
  audit_log o name repeat logged command server m h = (Ok result, h') ->
  exists content s expected dropped errors size per_response drain_cpu entry,
    read_log content = Ok s
    /\ ($(m_warmup m).["validated_responses"] +' $(m_workload m).["validated_responses"]) = Ok expected
    /\ $(m_after_metrics m).["counters"].["log_dropped_total"] = Ok dropped
    /\ $(m_after_metrics m).["counters"].["log_write_errors_total"] = Ok errors
    /\ check_counts logged (l_access s) expected dropped = Ok tt
    /\ ((v <- cpu_between (m_before m) (m_after m) ;; py_mul v (VFloat (f64_lit 1000000000 0)))
        /' $(m_workload m).["validated_responses"]) = Ok per_response
    /\ cpu_between (m_after m) (m_drained m) = Ok drain_cpu
    /\ log_entry logged s expected dropped errors (VInt size) = Ok entry
    /\ result = result_of name repeat logged command m per_response drain_cpu entry.
Proof.
  unfold audit_log. intros H. do 3 (apply bind_ok in H as (? & ? & _ & H)).
  apply bind_ok in H as (content & ? & _ & H). apply bind_ok in H as (s & ? & [Hs _]%lift_ok & H).
  apply bind_ok in H as (expected & ? & [He _]%lift_ok & H). apply bind_ok in H as (dropped & ? & [Hd _]%lift_ok & H).
  apply bind_ok in H as (errors & ? & [Hr _]%lift_ok & H). apply bind_ok in H as ([] & ? & [Hc _]%lift_ok & H).
  apply bind_ok in H as (per & ? & [Hp _]%lift_ok & H). apply bind_ok in H as (dr & ? & [Hdr _]%lift_ok & H).
  apply bind_ok in H as (size & ? & _ & H). apply bind_ok in H as (entry & ? & [Hn _]%lift_ok & H).
  apply bind_ok in H as ([] & ? & _ & H). injection H as <- _.
  exists content, s, expected, dropped, errors, size, per, dr, entry. by split_and!.
Qed.

Lemma trial_ok fuel o binary name repeat logged h result h' :
  trial fuel o binary name repeat logged h = (Ok result, h') ->
  exists m server h1 h2 h3 h4, measure fuel o server h1 = (Ok m, h2)
    /\ audit_log o name repeat logged (server_command o binary logged) server m h3 = (Ok result, h4).
Proof.
  unfold trial. cbv zeta. intros H. apply bind_ok in H as (? & ? & _ & H). apply bind_ok in H as (server & h1 & _ & H).
  apply bind_ok in H as (m & h3 & Hm & H). unfold finally in Hm. destruct (measure fuel o server h1) as [r h2] eqn:E.
  destruct ((stop (Some server) ;~ join_collector o) h2) as [[[]|e] w]; [|done]. injection Hm as -> <-.
  exists m, server, h1, h2, w, h'. by split.
Qed.

(** ** Properties *)

(** C13: A trial accounts for its log.  When it returns, the record it returns has the digest and the number of lines of the
    log it has read; its access records are exactly the lines that report a completed request of this client, each of
    them a 200 response to a GET with the expected six bytes and integer identifiers; there are no more of them than the
    clients validated responses, none when logging is off, and when it is on those that are missing are no more than the
    server has counted as dropped; and the log is called complete exactly when nothing is missing, dropped or failed. *)
Theorem access_log_accounts fuel o binary name repeat logged h result h' :
  trial fuel o binary name repeat logged h = (Ok result, h') ->
  exists content,
    let lines := file_lines "" content in
    let a := count_ours lines in
    $result.["log"].["sha256"] = str (sha256_hex content)
    /\ $result.["log"].["records"] = int (Z.of_nat (length lines))
    /\ $result.["log"].["access_records"] = int a
    /\ Forall (fun line => ours line = true -> sound_record line) lines
    /\ (logged = false -> a = 0)
    /\ forall w v d e,
         $result.["warmup"].["validated_responses"] = int w -> $result.["workload"].["validated_responses"] = int v ->
         $result.["metrics_after"].["counters"].["log_dropped_total"] = int d ->
         $result.["metrics_after"].["counters"].["log_write_errors_total"] = int e ->
         a <= w + v /\ (logged = true -> w + v - a <= Z.max 0 d)
         /\ $result.["log"].["complete"] = Ok (VBool (bool_decide (a = (if logged then w + v else 0) /\ d = 0 /\ e = 0))).
Proof.
  intros (m & server & h1 & h2 & h3 & h4 & _ & H)%trial_ok.
  apply audit_log_ok in H as (content & s & expected & dropped & errors & size & per & dr & entry & Hs & He & Hd & Hr & Hc & _ & _ & Hn & ->).
  apply read_log_ok in Hs as (Ds & Rs & As & Ss). exists content. cbv zeta. rewrite <- Rs, <- As.
  apply check_counts_ok in Hc as (C1 & C2 & C3).
  pose proof (fun k e Hk => mkdict_get _ _ k e Hn Hk) as G.
  assert (L : $(result_of name repeat logged (server_command o binary logged) m per dr entry).["log"] = Ok entry) by reflexivity.
  rewrite L.
  split_and!; [destruct (G "sha256" _ eq_refl) as (x & [= <-] & ->); by rewrite Ds
              |by destruct (G "records" _ eq_refl) as (x & [= <-] & ->)
              |by destruct (G "access_records" _ eq_refl) as (x & [= <-] & ->)|done|done|].
  intros w v d e Ew Ev Ed Ee. change ($(m_warmup m).["validated_responses"] = int w) in Ew.
  change ($(m_workload m).["validated_responses"] = int v) in Ev.
  change ($(m_after_metrics m).["counters"].["log_dropped_total"] = int d) in Ed.
  change ($(m_after_metrics m).["counters"].["log_write_errors_total"] = int e) in Ee.
  rewrite Ew, Ev in He. injection He as <-. rewrite Ed in Hd. injection Hd as <-. rewrite Ee in Hr. injection Hr as <-.
  unfold lift2 in C1, C3. cbn [rbind] in C1, C3. unfold int, ltR, lift2 in C1, C3. cbn [rbind] in C1, C3. rewrite py_ltb_int in C1.
  injection C1 as C1. apply Z.ltb_ge in C1. split; [lia|]. split.
  - intros Hl. destruct (C3 Hl) as [E|E].
    + rewrite py_ltb_int in E. injection E as E. apply Z.ltb_ge in E. lia.
    + change (py_sub (VInt (w + v)) (VInt (l_access s))) with (Ok (VInt (w + v - l_access s))) in E. cbn [rbind] in E.
      rewrite py_ltb_int in E. injection E as E. apply Z.ltb_ge in E. lia.
  - destruct (G "complete" _ eq_refl) as (x & E & ->). revert E. unfold andR, eqR, lift2, int. cbn [rbind].
    replace (if logged then VInt (w + v) else VInt 0) with (VInt (if logged then w + v else 0)) by by destruct logged.
    rewrite !py_eqb_int. intros E.
    destruct (Z.eqb_spec (l_access s) (if logged then w + v else 0)), (Z.eqb_spec d e), (Z.eqb_spec e 0); cbn in E;
      injection E as <-; do 2 f_equal; symmetry; first [apply bool_decide_eq_true_2|apply bool_decide_eq_false_2]; intuition congruence || lia.
Qed.

(** *** The type of a result *)

Inductive ty := TInt | TBool | TStr | TNum | TAny | TList (t : ty) | TEnd | TField (k : string) (t rest : ty).
Fixpoint has_type (t : ty) (v : val) {struct t} : bool :=
  match t, v with
  | TInt, VInt _ | TBool, VBool _ | TStr, VStr _ | TNum, (VInt _ | VFloat _) | TAny, _ | TEnd, VDict [] => true
  | TList t, VList l => forallb (has_type t) l
  | TField k t rest, VDict ((VStr k', w) :: d) => String.eqb k k' && has_type t w && has_type rest (VDict d)
  | _, _ => false
  end.
(** Exactly these keys, in this order. *)
Definition TRecord (fields : list (string * ty)) : ty := foldr (fun kt rest => TField kt.1 kt.2 rest) TEnd fields.

Definition log_type : ty :=
  TRecord [("records", TInt); ("access_records", TInt); ("expected_access_records", TNum); ("bytes", TInt); ("sha256", TStr);
           ("dropped", TAny); ("write_errors", TAny); ("complete", TBool)].
Definition result_type : ty :=
  TRecord [("variant", TStr); ("repeat", TInt); ("logging", TBool); ("server_command", TList TStr); ("client_command", TList TStr);
           ("workload", TAny); ("warmup", TAny); ("cpu_ns_per_response", TNum); ("drain_cpu_seconds", TNum);
           ("collector_cpu_seconds", TNum); ("metrics_before", TAny); ("metrics_after", TAny); ("log", log_type)].

Lemma arith_num fz ff a b v : arith fz ff a b = Ok v -> has_type TNum v = true.
Proof.
  unfold arith. destruct (num_of a) as [[]|]; destruct (num_of b) as [[]|]; cbn; try done;
    intros H; repeat (apply rbind_ok in H as (? & _ & H)); by injection H as <-.
Qed.
Lemma sub_num x y v : (x -' y) = Ok v -> has_type TNum v = true.
Proof. intros (a & _ & (b & _ & H)%rbind_ok)%rbind_ok. by eapply arith_num. Qed.
Lemma add_num a b v : py_add a b = Ok v -> number v -> has_type TNum v = true.
Proof.
  intros H Hn. destruct v; try done. exfalso. revert H. unfold py_add. destruct a, b; try done; intros H;
    apply arith_num in H; discriminate H.
Qed.
Lemma div_num a b v : py_div a b = Ok v -> has_type TNum v = true.
Proof.
  unfold py_div. intros H. destruct (num_of a) as [[x|x]|]; destruct (num_of b) as [[y|y]|]; try done.
  { destruct (y =? 0); [done|]. by apply rmap_ok in H as (q & _ & ->). }
  all: apply rbind_ok in H as (? & _ & H); apply rbind_ok in H as (? & _ & H); destruct (f64_is_zero _); [done|]; by injection H as <-.
Qed.
Lemma strings_typed l : has_type (TList TStr) (VList (map VStr l)) = true.
Proof. induction l as [|s l IH]; [done|exact IH]. Qed.

Lemma measure_collector fuel o server h m h' :
  measure fuel o server h = (Ok m, h') -> has_type TNum (m_collector_cpu m) = true.
Proof.
  unfold measure. intros H. do 9 (apply bind_ok in H as (? & ? & _ & H)). cbv zeta in H.
  apply bind_ok in H as (? & ? & _ & H). apply bind_ok in H as (cpu & ? & Hc & H).
  do 4 (apply bind_ok in H as (? & ? & _ & H)). injection H as <- _. cbn.
  apply bind_ok in Hc as (? & ? & _ & [Hc _]%lift_ok). by eapply sub_num.
Qed.

Lemma field_typed k t w rest d :
  has_type t w = true -> has_type rest (VDict d) = true -> has_type (TField k t rest) (VDict ((VStr k, w) :: d)) = true.
Proof. cbn. intros -> ->. by rewrite String.eqb_refl. Qed.
Lemma mkdict_typed l fields v :
  mkdict l = Ok v -> Forall2 (fun ke kt => ke.1 = kt.1 /\ forall w, ke.2 = Ok w -> has_type kt.2 w = true) l fields ->
  has_type (TRecord fields) v = true.
Proof.
  intros (d & -> & H)%mkdict_ok Hf. revert d H. induction Hf as [|[k e] [k' t] l fields [Hk Ht] Hf IH]; intros d H.
  - by inversion H.
  - apply Forall2_cons_inv_l in H as ([k2 w] & d' & [Hk2 Hw] & H & ->). cbn in Hk, Ht, Hk2, Hw. subst. cbn.
    rewrite String.eqb_refl, (Ht w eq_refl). by apply IH.
Qed.

Lemma log_entry_typed logged s expected dropped errors size entry :
  log_entry logged s expected dropped errors (VInt size) = Ok entry -> has_type TNum expected = true ->
  has_type log_type entry = true.
Proof.
  intros H Ht. eapply mkdict_typed; [exact H|]. repeat constructor; try (by intros w [= <-]).
  - intros w [= <-]. by destruct logged.
  - by intros w (b & _ & ->)%rmap_ok.
Qed.


(** *** Waiting for the log *)

(** One turn taken, and its answer. *)
Definition one_turn (w : host) (v : val) (w' : host) : Prop :=
  oracle w' = oracle w /\ steps w' = S (steps w) /\ v = t_answer (oracle w (steps w)).
Lemma clock_turn w v w' : clock w = (Ok v, w') -> one_turn w v w'.
Proof. by intros [= <- <-]. Qed.
Lemma external_turn w v w' : external w = (Ok v, w') -> one_turn w v w'.
Proof.
  unfold external. intros (t & w1 & [= <- <-] & H)%bind_ok. destruct (t_fault _); [done|]. by injection H as <- <-.
Qed.

Lemma drain_round_again d w w' :
  drain_round d w = (Ok None, w') ->
  oracle w' = oracle w /\ steps w' = (steps w + 5)%nat /\ ($(t_answer (oracle w (steps w + 3)%nat)) >' $d) = Ok false.
Proof.
  unfold drain_round. intros (captured & w1 & Hm & H)%bind_ok. apply bind_ok in H as (low & w2 & [_ ->]%lift_ok & H).
  destruct low; [done|]. apply bind_ok in H as (now & w3 & (O3 & S3 & ->)%clock_turn & H).
  apply bind_ok in H as (late & w4 & [Hl ->]%lift_ok & H). destruct late; [by apply bind_ok in H as (? & ? & ? & _)|].
  apply bind_ok in H as (? & w5 & [= _ <-] & H). apply bind_ok in H as (t & w6 & [= _ <-] & [= <-]). cbn.
  unfold metrics in Hm. apply bind_ok in Hm as (v & u1 & (O1 & S1 & _)%external_turn & Hm).
  apply bind_ok in Hm as (status & u2 & (O2 & S2 & _)%clock_turn & Hm).
  apply bind_ok in Hm as (? & u3 & E & Hm). assert (u3 = u2) as -> by (revert E; case_match; by intros [= _ ->]).
  apply bind_ok in Hm as (body & u4 & Hb & [_ ->]%lift_ok).
  apply bind_ok in Hb as (b & u5 & (O5 & S5 & _)%external_turn & [_ ->]%lift_ok).
  assert (S1' : steps u5 = (steps w + 3)%nat) by lia. assert (O1' : oracle u5 = oracle w) by congruence.
  rewrite S1', O1' in Hl. split_and!; [congruence|lia|exact Hl].
Qed.

Lemma drain_round_low d w v w' :
  drain_round d w = (Ok (Some v), w') -> ($v.["gauges"].["log_pending"] <=' int 1) = Ok true.
Proof.
  unfold drain_round. intros (captured & w1 & _ & H)%bind_ok. apply bind_ok in H as (low & w2 & [Hl ->]%lift_ok & H).
  destruct low; [by injection H as <- <-|]. by do 4 (apply bind_ok in H as (? & ? & _ & H)).
Qed.

(** From turn [n] on, no answer is a time before the deadline. *)
Definition passes (d : val) (n : nat) (w : host) : Prop :=
  forall k, (n <= k)%nat -> ($(t_answer (oracle w k)) >' $d) <> Ok false.

Lemma drain_loop_ends d n k w :
  passes d n w -> (n <= steps w + k)%nat ->
  exists r w', (forall fuel, (k < fuel)%nat -> drain_loop fuel d w = (r, w'))
    /\ forall v, r = Ok v -> ($v.["gauges"].["log_pending"] <=' int 1) = Ok true.
Proof.
  revert w. induction k as [|k IH]; intros w Hp Hn; destruct (drain_round d w) as [[[v|]|e] w1] eqn:E.
  all: try (exists (Ok v), w1; split; [|intros u [= <-]; by eapply drain_round_low];
    intros [|fuel] ?; [lia|]; cbn [drain_loop]; unfold bind at 1; by rewrite E).
  all: try (exists (Err e), w1; split; [|done]; intros [|fuel] ?; [lia|]; cbn [drain_loop]; unfold bind at 1; by rewrite E).
  - apply drain_round_again in E as (_ & _ & E). by apply Hp in E; [|lia].
  - pose proof E as (O & S & _)%drain_round_again. destruct (IH w1) as (r & w' & Hr & Hv); [unfold passes; rewrite O; exact Hp|lia|].
    exists r, w'. split; [|done]. intros [|fuel] ?; [lia|]. cbn [drain_loop]. unfold bind at 1. rewrite E. apply Hr. lia.
Qed.


(** *** Nothing is left running *)

Lemma tidy_client_output args : tidy (check_output args).
Proof. unfold check_output. apply tidy_bind; [apply tidy_run_process|]. intros r. apply tidy_settled. settle. Qed.
Lemma settled_metrics : settled metrics.
Proof. unfold metrics. settle. Qed.
#[export] Hint Resolve tidy_client_output settled_metrics : zhtps.
Lemma settled_drain fuel : settled (drain fuel).
Proof.
  unfold drain. apply settled_bind; [settle|]. intros d. induction fuel as [|fuel IH]; cbn [drain_loop]; [settle|].
  apply settled_bind; [unfold drain_round; settle|]. intros [v|]; [settle|exact IH].
Qed.
Lemma settled_ports_from_log fuel h : settled (ports_from_log fuel h).
Proof.
  unfold ports_from_log. apply settled_bind; [settle|]. intros d. induction fuel as [|fuel IH]; cbn [ports_loop]; settle.
Qed.
#[export] Hint Resolve settled_drain settled_ports_from_log : zhtps.
Lemma tidy_run_client o c env s : tidy (run_client o c env s).
Proof. unfold run_client. tidily. Qed.
#[export] Hint Resolve tidy_run_client : zhtps.
Lemma tidy_measure fuel o h : tidy (measure fuel o h).
Proof. unfold measure. tidily. Qed.

Lemma tidy_log_trial fuel o binary name repeat logged : tidy (trial fuel o binary name repeat logged).
Proof.
  unfold trial. apply tidy_bind; [auto with zhtps|]. intros _. apply tidy_popen. intros h w r w' Hh H.
  unfold bind at 1 in H. destruct (finally (measure fuel o h) (stop (Some h) ;~ join_collector o) w) as [x w3] eqn:E.
  assert (Hjoin : settled (join_collector o)) by (unfold join_collector; settle).
  pose proof (finally_ends h _ _ _ _ _ (tidy_measure fuel o h) (ends_stop h _ Hjoin) Hh E) as D.
  destruct D as (L & X & N). destruct x as [m|e]; [|by injection H as _ <-].
  assert (Ha : settled (audit_log o name repeat logged (server_command o binary logged) h m)) by (unfold audit_log; settle).
  apply Ha in H as [L4 N4]. split_and!; [by eapply later_trans|by apply L4|]. intros j Hj. apply L4, N. lia.
Qed.

Lemma settled_hash_variant d np : settled (hash_variant d np).
Proof. unfold hash_variant, sha_of_file. settle. Qed.
Lemma settled_variant_of d v : settled (variant_of d v).
Proof. unfold variant_of. settle. Qed.
#[export] Hint Resolve settled_hash_variant settled_variant_of tidy_log_trial : zhtps.
Lemma settled_access_report o v : settled (initial_report o v).
Proof. unfold initial_report, sha_of_file. do 2 (apply settled_bind; [settle|]; intros ?).
  apply settled_bind; [apply settled_foldM; auto with zhtps|]. intros. settle.
Qed.
Lemma settled_pin_monitor o : settled (pin_monitor o).
Proof. unfold pin_monitor. settle. Qed.
#[export] Hint Resolve settled_access_report settled_pin_monitor : zhtps.

Lemma tidy_access_main fuel o : tidy (main fuel o).
Proof.
  unfold main. do 2 (apply tidy_bind; [tidily|]; intros ?). apply tidy_bind; [unfold resolve_clients; tidily|]. intros o'.
  apply tidy_bind; [apply tidy_foldM; tidily|]. intros vs. do 2 (apply tidy_bind; [tidily|]; intros ?). cbv zeta.
  apply tidy_bind; [|intros; unfold save; tidily].
  apply tidy_foldM. intros report repeat. apply tidy_foldM. intros report' [[name binary] logged]. unfold case_step, save. tidily.
Qed.

(** However a measurement ends, every server and client it started has exited. *)
Theorem access_log_stops_everything fuel o h r h' :
  procs h = [] -> main fuel o h = (r, h') -> all_exited h'.
Proof. intros Hh. by apply tidy_all_exited; [apply tidy_access_main|]. Qed.

(** *** A trial of one client with one dropped record *)

Definition sample_options : Options :=
  mkOptions ["new=/b/zhtps"] "client" None 0 "out/report.json" 1 (VInt 3) 1 "2" "4-5" 64 256 1 256 "on" "file" true.
Definition json_text (v : val) : string := match json_dumps v with Ok s => s | Err _ => "" end.
Definition long_stat : string := join " " (stat_text :: List.repeat "0" 20).
Definition ports_text : string :=
  "starting" +:+ nl +:+ json_text (obj [("event", VStr "listening"); ("port", VInt 8080)]) +:+ nl
  +:+ json_text (obj [("event", VStr "admin_listening"); ("port", VInt 8081)]) +:+ nl.
Definition served (n : Z) : string :=
  json_text (obj [("validated_responses", VInt n); ("failures", VInt 0); ("responses_per_second", VInt n)]).
Definition pending_ (n dropped : Z) : string :=
  json_text (obj [("gauges", obj [("log_pending", VInt n)]);
                  ("counters", obj [("log_dropped_total", VInt dropped); ("log_write_errors_total", VInt 0)])]).
Definition access_line : string :=
  json_text (obj [("event", VStr "request_complete"); ("user_agent", VStr USER_AGENT); ("status", VInt 200); ("method", VStr "GET");
                  ("bytes", VInt 6); ("worker", VInt 0); ("conn_gen", VInt 1); ("conn_slot", VInt 0)]) +:+ nl.
Definition log_text : string :=
  json_text (obj [("event", VStr "listening"); ("port", VInt 8080)]) +:+ nl +:+ access_line +:+ access_line.

Definition client_turns (k : handle) (n : Z) : list turn := [blank; text_ (served n); text_ ""; ended k 0].
Definition metrics_turns (n dropped : Z) : list turn := [blank; number_ 200; text_ (pending_ n dropped)].
Definition proc_turns : list turn := [text_ long_stat; text_ "VmRSS: 1 kB"; number_ 100; number_ 5].
Definition trial_turns : list turn :=
  [blank; blank; number_ 0; number_ 1; text_ ports_text] ++ client_turns 1 1
  ++ [number_ 2] ++ metrics_turns 3 0 ++ [number_ 3; blank] ++ metrics_turns 0 0 ++ [blank] ++ proc_turns
  ++ [number_ 4] ++ client_turns 2 2 ++ [number_ 5] ++ proc_turns ++ [number_ 6] ++ metrics_turns 1 1 ++ [blank] ++ proc_turns
  ++ [blank; blank; ended 0 0; text_ log_text; number_ 400].
Definition access_host : host := Host [] (fun n => nth n trial_turns (number_ 100)) 0 [] [].
Definition access_trial : res val := (trial 5 sample_options "/b/zhtps" "new" 0 true access_host).1.
Definition access_result : val := match access_trial with Ok v => v | Err _ => VNone end.

Lemma access_trial_returns :
  trial 5 sample_options "/b/zhtps" "new" 0 true access_host
  = (Ok access_result, (trial 5 sample_options "/b/zhtps" "new" 0 true access_host).2).
Proof. apply ok_pair. vm_compute. reflexivity. Qed.

Lemma access_log_accounts_witness :
  trial 5 sample_options "/b/zhtps" "new" 0 true access_host
    = (Ok access_result, (trial 5 sample_options "/b/zhtps" "new" 0 true access_host).2)
  /\ exists content,
    let lines := file_lines "" content in
    let a := count_ours lines in
    $access_result.["log"].["sha256"] = str (sha256_hex content)
    /\ $access_result.["log"].["records"] = int (Z.of_nat (length lines))
    /\ $access_result.["log"].["access_records"] = int a
    /\ Forall (fun line => ours line = true -> sound_record line) lines
    /\ (true = false -> a = 0)
    /\ forall w v d e,
         $access_result.["warmup"].["validated_responses"] = int w -> $access_result.["workload"].["validated_responses"] = int v ->
         $access_result.["metrics_after"].["counters"].["log_dropped_total"] = int d ->
         $access_result.["metrics_after"].["counters"].["log_write_errors_total"] = int e ->
         a <= w + v /\ (true = true -> w + v - a <= Z.max 0 d)
         /\ $access_result.["log"].["complete"] = Ok (VBool (bool_decide (a = (if true then w + v else 0) /\ d = 0 /\ e = 0))).
Proof.
  split; [exact access_trial_returns|].
  exact (access_log_accounts _ _ _ _ _ true _ _ _ access_trial_returns).
Defined.


(** The second capture is low; from turn 20 on the clock is past the deadline. *)
Definition drain_host : host :=
  Host [] (fun n => nth n ([number_ 0] ++ metrics_turns 3 0 ++ [number_ 3; blank] ++ metrics_turns 1 2 ++ List.repeat blank 11) (number_ 100))
    0 [] [].
