(* ===== verification/PerfTrial.v ===== *)
(** * What the three PMU comparisons share

    [bench/compare_footprint.py], [bench/compare_kernel.py] and [bench/compare_kernel_echo.py] are copies of one program:
    rotated trials of prebuilt server variants, each under [perf stat], whose responses, counters and events are checked
    before a row is kept.  They differ in the events, the cases, the workload and its checks, and in what is sampled; these
    are the fields of a [harness], and each program is an instance of the definitions of this file. *)

From stdpp Require Import base list strings.
From Stdlib Require Import ZArith Lia Ascii.
From S2P Require Import Prelude PyFloat PyText PyVal PyJson PyScript PyStats PyHash Evidence PyIO System ProcSample RemoteLoad Compare Overload.

Local Open Scope Z_scope.
Open Scope py_scope.

(** ** The program's constants and options *)

Record bench := Bench { connections : Z; capacity : Z; server_cpus : list Z; client_cpus : list Z }.

Record Options := mkOptions {
  variants : list string; workspace : string; records : string; output : string; cases : list string; repeats : Z;
  duration : val; warmup : val }.

Record harness := Harness {
  EVENTS : list string;
  CASES : list (string * bench);
  client : string;
  with_kernel : bool;
  scope_text : string;
  (** The echoed body, if the workload has one: written when it is not there yet. *)
  needs_body : bool;
  load_arguments : Options -> string -> list string;
  (** The checks of the client's report; a file's content may be read for them. *)
  check_load : bench -> val -> io host unit;
  goodput : val -> expr;
  p99 : val -> expr }.

(** ** Counters of [perf] *)

(** [float(text)] *)
Definition text_float (text : string) : expr := rmap VFloat (py_float text).

Definition perf_line (events : list string) (counts : dict) (line : string) : res dict :=
  match split_char ";" line with
  | count :: _ :: event :: _ :: percent :: _ =>
      if existsb (String.eqb event) events then
        entry <- mkdict [("count", if startswith "<" count then $VNone else text_float count);
                         ("running_percent", text_float percent); ("raw", str line)] ;;
        Ok (sset event entry counts)
      else Ok counts
  | _ => Ok counts
  end.

(** An event that was not counted, or not all the time. *)
Definition unreliable (v : val) : res bool := noneR ($v.["count"]) ||' ($v.["running_percent"] <' int 95).

Definition perf_counts (events : list string) : io host dict :=
  text <~ read_proc ;
  counts <~ lift (foldR (perf_line events) [] (splitlines text)) ;
  (if set_eqb (map fst counts) (map VStr events) then ret tt
   else text <~ read_proc ; throw (Exn RuntimeError ("missing counters: " +:+ text))) ;~
  bad <~ lift (anyR unreliable (map snd counts)) ;
  (if bad : bool then throw (Exn RuntimeError ("counter unavailable or multiplexed: " +:+ py_str (VDict counts)))
   else ret tt) ;~
  ret counts.

(** ** Samples *)

Definition switch_fields : list string := ["voluntary_ctxt_switches"; "nonvoluntary_ctxt_switches"].
Definition switch_line (d : dict) (line : string) : res dict :=
  match split_once ":" line with
  | Some (k, v) => if existsb (String.eqb k) switch_fields then n <- py_int v ;; Ok (sset k (VInt n) d) else Ok d
  | None => Ok d
  end.
(** A task that is gone is passed over. *)
Definition task_switches (d : dict) (task : val) : io host dict :=
  catch (text <~ read_proc ; counts <~ lift (foldR switch_line [] (splitlines text)) ; ret (dset task (VDict counts) d))
    (fun e => if is_class e FileNotFoundError then ret d else throw e).
Definition thread_switches : io host val :=
  tasks <~ lift_val py_iter external ; d <~ foldM task_switches [] tasks ; ret (VDict d).

(** [core_sample(range(os.cpu_count()))] *)
Definition all_cores : io host val :=
  n <~ lift_val as_int clock ; stat <~ read_proc ; lift (core_sample (seqZ 0 n) stat).

(** The server's process, and the kernel, its cores and the server's threads if they are sampled. *)
Record sampled := Sampled { s_proc : val; s_kernel : val; s_cores : val; s_threads : val }.
Definition sample (kernel : bool) : io host sampled :=
  proc <~ take_proc_sample ;
  if kernel then
    kernel <~ take_kernel_sample ; cores <~ all_cores ; threads <~ thread_switches ; ret (Sampled proc kernel cores threads)
  else ret (Sampled proc VNone VNone VNone).

(** ** The workers *)

(** [zip(workers, cpus, strict=True)]: each worker's thread is pinned to its CPU. *)
Fixpoint pin_workers (workers : list val) (cpus : list Z) : io host unit :=
  match workers, cpus with
  | [], [] => ret tt
  | w :: workers, _ :: cpus => lift ($w.["thread"]) ;~ external ;~ pin_workers workers cpus
  | _, _ => throw (Exn ValueError "zip() arguments have different lengths")
  end.
Definition worker_affinity (d : dict) (w : val) : io host dict :=
  thread <~ lift ($w.["thread"]) ; allowed <~ sched_getaffinity ; ret (dset (VStr (py_str thread)) allowed d).

(** ** Counters of the server *)

Definition counter_deltas (before after : val) : res dict :=
  counters <- itemsR ($after.["counters"]) ;;
  dict_by (fun kv => $(kv.1)) (fun kv => $(kv.2) -' at_ ($before.["counters"]) ($(kv.1))) counters.

Definition HEALTH : list string :=
  ["requests_rejected_total"; "requests_aborted_total"; "protocol_errors_total"; "request_timeouts_total"; "io_errors_total";
   "log_dropped_total"].
Definition check_counter (deltas : dict) (k : string) : res unit :=
  ok <- $(VDict deltas).[k] ==' int 0 ;;
  if ok : bool then Ok tt else d <- $(VDict deltas).[k] ;; raise AssertionError (py_str (VTuple [VStr k; d])).

(** ** The trial *)

Definition cpu_text (cpus : list Z) : string := join "," (map string_of_Z cpus).

Definition server_command (b : bench) (binary : string) (port admin : Z) : list string :=
  ["taskset"; "-c"; cpu_text (server_cpus b); binary; "--port"; string_of_Z port; "--admin-port"; string_of_Z admin;
   "--workers"; string_of_Z (Z.of_nat (length (server_cpus b))); "--max-connections"; string_of_Z (capacity b);
   "--max-active"; string_of_Z (capacity b); "--max-requests"; "4294967295"; "--no-access-log"].

(** [(after[k] - before[k]) * 1e9 / completed] *)
Definition per_completed (k : string) (before after completed : val) : expr :=
  ($after.[k] -' $before.[k]) *' lit 1000000000 0 /' $completed.

Section Harness.
Context (H : harness).

Definition client_command (o : Options) (b : bench) (port : Z) (body : string) : list string :=
  ["taskset"; "-c"; cpu_text (client_cpus b); client H; "-address"; "127.0.0.1:" +:+ string_of_Z port;
   "-connections"; string_of_Z (connections b)] ++ load_arguments H o body.
Definition perf_command (path pid : string) (load : list string) : list string :=
  ["perf"; "stat"; "-x"; ";"; "-o"; path; "-e"; join "," (EVENTS H); "-p"; pid; "--"] ++ load.

(** [prefix.parent / 'echo-body.bin'] *)
Definition body_path (prefix : string) : string := str_path (under (parent (path_of prefix)) "echo-body.bin").
Definition echo_body : string :=
  String.concat "" (repeat (String.string_of_list_ascii (map byte_char (seqZ 0 256))) 256).
Definition write_body (prefix : string) : io host unit :=
  if needs_body H then
    present <~ external ; if truthy present then ret tt else write_file (body_path prefix) echo_body
  else ret tt.

(** The measured command's report, with its time. *)
Definition run_load (o : Options) (b : bench) (measured : list string) : io host (completed_process * val) :=
  started <~ clock ;
  with_env [("GOMAXPROCS", Some (string_of_Z (Z.of_nat (length (client_cpus b)))))] ;~
  result <~ run_process true measured ;
  elapsed <~ (now <~ clock ; lift ($now -' $started)) ;
  ret (result, elapsed).

Definition kernel_fields (before after : sampled) : list (string * expr) :=
  if with_kernel H then
    [("kernel_before", $(s_kernel before)); ("kernel_after", $(s_kernel after)); ("cores_before", $(s_cores before));
     ("cores_after", $(s_cores after)); ("threads_before", $(s_threads before)); ("threads_after", $(s_threads after))]
  else [].

Definition words (l : list string) : expr := $(VList (map VStr l)).

(** What is known at the end of a trial. *)
Record evidence := Evidence {
  e_server : list string; e_client : list string; e_perf : list string; e_affinity : dict; e_workers_before : val;
  e_workers_after : val; e_headers : val; e_load : val; e_before : sampled; e_after : sampled; e_elapsed : val; e_deltas : dict;
  e_metrics_before : val; e_metrics_after : val; e_counts : dict; e_completed : val }.
Definition row_fields (e : evidence) : list (string * expr) :=
  let before := s_proc (e_before e) in let after := s_proc (e_after e) in let completed := e_completed e in
  [("server_command", words (e_server e)); ("client_command", words (e_client e)); ("perf_command", words (e_perf e));
   ("worker_affinities", $(VDict (e_affinity e))); ("workers_before", $(e_workers_before e));
   ("workers_after", $(e_workers_after e)); ("response_headers", $(e_headers e)); ("load", $(e_load e));
   ("server_before", $before); ("server_after", $after)]
  ++ kernel_fields (e_before e) (e_after e)
  ++ [("elapsed_including_setup_seconds", $(e_elapsed e)); ("counter_deltas", $(VDict (e_deltas e)));
      ("metrics_before", $(e_metrics_before e)); ("metrics_after", $(e_metrics_after e)); ("perf", $(VDict (e_counts e)));
      ("cpu_ns_per_completed", per_completed "cpu_seconds" before after completed);
      ("user_ns_per_completed", per_completed "user_seconds" before after completed);
      ("system_ns_per_completed", per_completed "system_seconds" before after completed);
      ("perf_per_completed",
       rmap VDict (dict_by (fun kv => $(kv.1)) (fun kv => $(kv.2).["count"] /' $completed) (e_counts e)))].
Definition row_of (e : evidence) : expr := mkdict (row_fields e).

Definition measure (fuel : nat) (o : Options) (b : bench) (prefix : string) (command : list string) (port : Z) (server : handle)
    : io host val :=
  headers <~ wait_ready fuel server ;
  workers_before <~ admin_json "/debug/workers" ;
  workers <~ lift (iterR ($workers_before.["workers"])) ;
  pin_workers workers (server_cpus b) ;~
  affinity <~ foldM worker_affinity [] workers ;
  metrics_before <~ admin_json "/debug/metrics" ;
  before <~ sample (with_kernel H) ;
  write_body prefix ;~
  let load_command := client_command o b port (body_path prefix) in
  pid <~ clock ;
  perf_path <~ lift (with_suffix ".perf" prefix) ;
  let measured := perf_command perf_path (py_str pid) load_command in
  let~ (result, elapsed) := run_load o b measured in
  after <~ sample (with_kernel H) ;
  (if cp_code result =? 0 then ret tt
   else throw (Exn RuntimeError ("load/perf failed: " +:+ cp_stdout result +:+ " " +:+ cp_stderr result))) ;~
  load <~ lift (json_loads (cp_stdout result)) ;
  client_path <~ lift (with_suffix ".client.json" prefix) ;
  write_file client_path (cp_stdout result) ;~
  check_load H b load ;~
  metrics_after <~ admin_json "/debug/metrics" ;
  workers_after <~ admin_json "/debug/workers" ;
  deltas <~ lift (counter_deltas metrics_before metrics_after) ;
  lift (eachR (check_counter deltas) HEALTH) ;~
  completed <~ lift ($(VDict deltas).["requests_completed_total"]) ;
  counts <~ perf_counts (EVENTS H) ;
  row <~ lift (row_of (Evidence command load_command measured affinity workers_before workers_after headers load before after elapsed
                         deltas metrics_before metrics_after counts completed)) ;
  path <~ lift (with_suffix ".json" prefix) ;
  text <~ lift (json_dumps2 row) ;
  write_file path (text +:+ nl) ;~
  ret row.

(** The [finally] clause. *)
Definition check_exit (prefix : string) (server : handle) : io host unit :=
  stop (Some server) ;~
  code <~ returncode server ;
  differs <~ lift ($code !=' int 0) ;
  if differs : bool then
    path <~ lift (with_suffix ".server.log" prefix) ;
    throw (Exn RuntimeError ("server exit " +:+ py_str code +:+ "; see " +:+ path))
  else ret tt.

Definition trial (fuel : nat) (o : Options) (b : bench) (prefix binary : string) : io host val :=
  port <~ free_port ;
  admin <~ other_port fuel port ;
  let command := server_command b binary port admin in
  lift (with_suffix ".server.log" prefix) ;~
  external ;~
  server <~ popen command ;
  finally (measure fuel o b prefix command port server) (check_exit prefix server).

(** ** The comparison *)

Definition valid_options (o : Options) : res unit :=
  invalid <- (Ok (negb ((1 <=? repeats o) && (repeats o <=? 20)))
              ||' notR (($(duration o) >' int 0) &&' ($(duration o) <=' int 60))
              ||' notR (($(warmup o) >' int 0) &&' ($(warmup o) <=' int 30))) ;;
  usage_if invalid "require repeats 1..20, duration (0,60], warmup (0,30]".

Definition binary_of (o : Options) (name : string) : string := str_path (under (under (path_of (workspace o)) name) "out/bin/zhtps").
(** [{name: ... for name in args.variants}] *)
Definition names (o : Options) : dict := foldl (fun d n => sset n (VStr (binary_of o n)) d) [] (variants o).

(** A variant's build record, which its binary and its sources must match. *)
Definition check_build (provenance : dict) (nb : val * val) : io host dict :=
  record <~ (text <~ read_proc ; lift (json_loads text)) ;
  content <~ read_proc ;
  lift (assertR (str (sha256_hex content) ==' $record.["binaries"].["zhtps"]) "") ;~
  files <~ rglob ;
  sources <~ foldM sha_of [] files ;
  lift (assertR ($(VDict sources) ==' $record.["sources"]) "") ;~
  ret (dset nb.1 record provenance).

Definition bench_json (b : bench) : val :=
  obj [("connections", VInt (connections b)); ("capacity", VInt (capacity b)); ("server_cpus", VList (map VInt (server_cpus b)));
       ("client_cpus", VList (map VInt (client_cpus b)))].
Definition case_of (name : string) : res bench := of_option (assoc name (CASES H)) KeyError name.
Definition cases_json (o : Options) : res dict :=
  foldR (fun d name => b <- case_of name ;; Ok (sset name (bench_json b) d)) [] (cases o).
(** [vars(args)], paths as texts *)
Definition options_json (o : Options) : val :=
  obj [("variants", VList (map VStr (variants o))); ("workspace", VStr (workspace o)); ("records", VStr (records o));
       ("output", VStr (output o)); ("cases", VList (map VStr (cases o))); ("repeats", VInt (repeats o));
       ("duration", duration o); ("warmup", warmup o)].

Definition initial_report (o : Options) (provenance : dict) : io host val :=
  timestamp <~ clock ;
  cases_ <~ lift (cases_json o) ;
  mine <~ read_proc ;
  theirs <~ read_proc ;
  ret (obj [("timestamp_utc", timestamp); ("options", options_json o); ("cases", VDict cases_); ("builds", VDict provenance);
            ("harness_sha256", VStr (sha256_hex mine)); ("client_sha256", VStr (sha256_hex theirs));
            ("pmu_scope", VStr (scope_text H)); ("runs", VList [])]).

Definition brief_of (case_name variant : string) (repeat_ : Z) (row : val) : expr :=
  mkdict [("case", str case_name); ("variant", str variant); ("repeat", int repeat_); ("goodput", goodput H row);
          ("p99_us", p99 H row); ("cpu_ns", $row.["cpu_ns_per_completed"]); ("user_ns", $row.["user_ns_per_completed"]);
          ("system_ns", $row.["system_ns_per_completed"]); ("perf_per_completed", $row.["perf_per_completed"]);
          ("rss_bytes", $row.["server_after"].["VmRSS"])].

Definition save (o : Options) (report : val) : io host unit :=
  text <~ lift (json_dumps2 report) ; write_file (output o +:+ "/summary.json") (text +:+ nl).
Definition append (report : val) (k : string) (v : val) : expr :=
  l <- iterR ($report.[k]) ;; setR report k ($(VList (l ++ [v]))).

Definition trial_name (case_name variant : string) (repeat_ : Z) : string :=
  case_name +:+ "-" +:+ variant +:+ "-" +:+ string_of_Z repeat_.
Definition trial_step (fuel : nat) (o : Options) (case_name : string) (b : bench) (repeat_ : Z) (report : val) (variant : string)
    : io host val :=
  say (case_name +:+ " " +:+ string_of_Z repeat_ +:+ ": " +:+ variant) ;~
  row <~ trial fuel o b (str_path (under (path_of (output o)) (trial_name case_name variant repeat_))) (binary_of o variant) ;
  brief <~ lift (brief_of case_name variant repeat_ row) ;
  report <~ lift (append report "runs" brief) ;
  save o report ;~
  line <~ lift (json_dumps brief) ;
  say line ;~
  ret report.

Definition disjoint (b : bench) : bool := negb (existsb (fun cpu => existsb (Z.eqb cpu) (client_cpus b)) (server_cpus b)).
Definition case_step (fuel : nat) (o : Options) (report : val) (case_name : string) : io host val :=
  b <~ lift (case_of case_name) ;
  (if disjoint b then ret tt else throw (Exn AssertionError "")) ;~
  foldM (fun report repeat_ =>
           foldM (trial_step fuel o case_name b (Z.of_nat repeat_ + 1)) report (rotate repeat_ (variants o)))
        report (seq 0 (Z.to_nat (repeats o))).

(** *** Medians *)

Definition same_trials (case_name variant : string) (r : val) : res bool :=
  ($r.["case"] ==' str case_name) &&' ($r.["variant"] ==' str variant).
Definition median_row (report : val) (case_name variant : string) : expr :=
  runs <- iterR ($report.["runs"]) ;;
  group <- filterR (same_trials case_name variant) runs ;;
  mkdict ([("case", str case_name); ("variant", str variant)]
          ++ map (fun k => (k, medianR (fun r => $r.[k]) group)) ["goodput"; "p99_us"; "cpu_ns"; "user_ns"; "system_ns"; "rss_bytes"]
          ++ [("goodput_min", minR (fun r => $r.["goodput"]) group); ("goodput_max", maxR (fun r => $r.["goodput"]) group);
              ("perf_per_completed",
               dictcomp (EVENTS H) (fun k => medianR (fun r => $r.["perf_per_completed"].[k]) group))]).
Definition add_median (report : val) (cv : string * string) : expr :=
  row <- median_row report cv.1 cv.2 ;; append report "medians" row.
Definition medians (o : Options) (report : val) : expr :=
  report <- setR report "medians" ($(VList [])) ;;
  foldR add_median report (concat (map (fun c => map (pair c) (variants o)) (cases o))).

(** [main] from its parsed arguments on. *)
Definition main (fuel : nat) (o : Options) : io host unit :=
  lift (valid_options o) ;~
  exists_ <~ external ;
  lift (usage_if (truthy exists_) "choose a new output directory to preserve previous trials") ;~
  external ;~
  soft <~ clock ;
  hard <~ clock ;
  lift (py_max [soft; VInt 20000]) ;~
  external ;~
  provenance <~ foldM check_build [] (names o) ;
  report <~ initial_report o provenance ;
  report <~ foldM (case_step fuel o) report (cases o) ;
  report <~ lift (medians o report) ;
  save o report ;~
  text <~ lift (v <- $report.["medians"] ;; json_dumps2 v) ;
  say text.
End Harness.

(** ** Lemmas *)

(** *** Nothing is left running *)

Lemma settled_take_sample : settled take_proc_sample.
Proof. unfold take_proc_sample. settle. Qed.
Lemma settled_kernel_taken : settled take_kernel_sample.
Proof. unfold take_kernel_sample. settle. Qed.
Lemma settled_thread_switches : settled thread_switches.
Proof.
  unfold thread_switches. apply settled_bind; [settle|]. intros tasks. apply settled_bind; [|settle].
  apply settled_foldM. intros d task. unfold task_switches. settle.
Qed.
#[export] Hint Resolve settled_take_sample settled_kernel_taken settled_thread_switches : zhtps.
Lemma settled_sample kernel : settled (sample kernel).
Proof. unfold sample, all_cores. settle. Qed.
Lemma settled_pin_workers workers cpus : settled (pin_workers workers cpus).
Proof. revert cpus. induction workers as [|w workers IH]; intros [|c cpus]; cbn [pin_workers]; settle. Qed.
Lemma settled_worker_affinity d w : settled (worker_affinity d w).
Proof. unfold worker_affinity. settle. Qed.
Lemma settled_perf_counts events : settled (perf_counts events).
Proof. unfold perf_counts. settle. Qed.
Lemma settled_write_body H prefix : settled (write_body H prefix).
Proof. unfold write_body. settle. Qed.
#[export] Hint Resolve settled_sample settled_pin_workers settled_worker_affinity settled_perf_counts settled_write_body : zhtps.
Lemma tidy_run_load o b measured : tidy (run_load o b measured).
Proof. unfold run_load. tidily. Qed.
Lemma settled_check_build provenance nb : settled (check_build provenance nb).
Proof. unfold check_build, rglob, sha_of. settle. Qed.
Lemma settled_perf_report H o provenance : settled (initial_report H o provenance).
Proof. unfold initial_report. settle. Qed.
#[export] Hint Resolve tidy_run_load settled_check_build settled_perf_report : zhtps.

Section Ends.
Context (H : harness) (check_settled : forall b load, settled (check_load H b load)).

Lemma tidy_perf_measure fuel o b prefix command port server : tidy (measure H fuel o b prefix command port server).
Proof.
  assert (forall b load, tidy (check_load H b load)) by auto with zhtps.
  unfold measure. cbv zeta. do 9 (apply tidy_bind; [tidily|]; intros ?). apply tidy_bind; [tidily|]. intros ?.
  apply tidy_bind; [tidily|]. intros [result elapsed]. tidily.
Qed.
Lemma ends_check_exit prefix server : ends_child server (check_exit prefix server).
Proof. apply ends_stop. unfold returncode. settle. Qed.

(** A trial leaves no process, and a returned row is that of a server that exited with 0. *)
Lemma tidy_perf_trial fuel o b prefix binary : tidy (trial H fuel o b prefix binary).
Proof.
  unfold trial. do 4 (apply tidy_bind; [tidily|]; intros ?). apply tidy_popen. intros h w r w' Hh E.
  eapply finally_ends; [apply tidy_perf_measure|apply ends_check_exit|exact Hh|exact E].
Qed.
Lemma tidy_perf_case fuel o report case_name : tidy (case_step H fuel o report case_name).
Proof.
  pose proof tidy_perf_trial. unfold case_step. apply tidy_bind; [tidily|]. intros b. apply tidy_bind; [tidily|]. intros _.
  apply tidy_foldM. intros report' repeat_. apply tidy_foldM. intros report'' variant. unfold trial_step, save. tidily.
Qed.

(** However a comparison ends, no process it started is left. *)
Theorem perf_stops_everything fuel o h r h' : procs h = [] -> main H fuel o h = (r, h') -> all_exited h'.
Proof.
  intros Hh E. eapply tidy_all_exited; [|exact Hh|exact E]. pose proof tidy_perf_case. unfold main, save.
  do 7 (apply tidy_bind; [tidily|]; intros ?). do 4 (apply tidy_bind; [tidily|]; intros ?). tidily.
Qed.
End Ends.
