(* ===== verification/CompareFootprint.v ===== *)
(** * [bench/compare_footprint.py]: memory layouts under user-space events

    The instance of [PerfTrial] that measures closed loops with user-space events only. *)

From stdpp Require Import base list strings.
From Stdlib Require Import ZArith Lia Ascii.
From S2P Require Import Prelude PyFloat PyText PyVal PyJson PyScript PyStats PyHash Evidence PyIO System ProcSample RemoteLoad Compare Overload PerfTrial.

Local Open Scope Z_scope.
Open Scope py_scope.

Definition EVENTS : list string := ["cycles:u"; "instructions:u"; "cache-misses:u"; "L1-dcache-load-misses:u"].
Definition CASES : list (string * bench) :=
  [("small", Bench 64 256 [2] [4; 5; 6; 7]); ("many", Bench 4096 8168 [2] [4; 5; 6; 7]);
   ("multicore", Bench 16384 4096 (seqZ 0 8) (seqZ 8 8)); ("latency", Bench 1 256 [2] [4; 5; 6; 7])].

Definition load_arguments (o : Options) (body : string) : list string :=
  ["-warmup"; py_str (warmup o) +:+ "s"; "-duration"; py_str (duration o) +:+ "s"].

(** What a closed loop must have reported. *)
Definition check_connections (b : bench) (load : val) (k : string) : res unit :=
  ok <- $load.[k] ==' int (connections b) ;;
  if ok : bool then Ok tt else v <- $load.[k] ;; raise AssertionError (py_str (VTuple [VStr k; v])).
Definition check_load (b : bench) (load : val) : res unit :=
  assertR (chain_eq ($load.["errors"]) [$load.["setup_errors"]; $load.["warmup_errors"]; int 0]) "" ;;;
  assertR (notR (test ($load.["failures"])) &&' notR (test ($load.["window_failures"]))) "" ;;;
  assertR (($load.["attempts"] ==' $load.["successes"]) &&' ($load.["successes"] >' int 0)) "" ;;;
  eachR (check_connections b load) ["connections_ready"; "connections_measured"; "connections_opened"].

Definition goodput (row : val) : expr := $row.["load"].["window_successes_per_second"].
Definition p99 (row : val) : expr := $row.["load"].["latency_us"].["p99"].

Definition footprint (ROOT : string) : harness :=
  Harness EVENTS CASES (str_path (under (path_of ROOT) "zig-out/bench/load")) false
    "user-space server threads, including client setup/warmup/drain" false load_arguments
    (fun b load => lift (check_load b load)) goodput p99.

Definition perf_counts : io host dict := PerfTrial.perf_counts EVENTS.
Definition trial (ROOT : string) : nat -> Options -> bench -> string -> string -> io host val := PerfTrial.trial (footprint ROOT).
Definition main (ROOT : string) : nat -> Options -> io host unit := PerfTrial.main (footprint ROOT).
