(* ===== verification/CompareKernel.v ===== *)
(** * [bench/compare_kernel.py]: transports under kernel and user events

    The instance of [PerfTrial] that measures closed loops and also samples the kernel, its cores and the server's threads.
    [bench/audit_kernel_work.py] audits the rows it retains. *)

From stdpp Require Import base list strings.
From Stdlib Require Import ZArith Lia Ascii.
From S2P Require Import Prelude PyFloat PyText PyVal PyJson PyScript PyStats PyHash Evidence PyIO System ProcSample RemoteLoad Compare Overload PerfTrial CompareFootprint.

Local Open Scope Z_scope.
Open Scope py_scope.

Definition EVENTS : list string :=
  ["cycles:k"; "instructions:k"; "cycles:u"; "instructions:u"; "context-switches"; "cpu-migrations"].
Definition CASES : list (string * bench) :=
  [("small", Bench 64 256 [2] [4; 5; 6; 7]); ("many", Bench 4096 8168 [2] [4; 5; 6; 7]);
   ("multicore", Bench 16384 4096 (seqZ 0 8) (seqZ 8 8)); ("latency", Bench 1 256 [2] [4; 5; 6; 7])].
Definition scope_text : string :=
  "kernel and user execution charged to server threads, including client setup/warmup/drain; host core/packet counters also include other activity".

(** The workload and its checks are those of [compare_footprint.py]. *)
Definition kernel : harness :=
  Harness EVENTS CASES "/tmp/zhtps-kernel-work/load" true scope_text false CompareFootprint.load_arguments
    (fun b load => lift (CompareFootprint.check_load b load)) CompareFootprint.goodput CompareFootprint.p99.

Definition perf_counts : io host dict := PerfTrial.perf_counts EVENTS.
Definition trial : nat -> Options -> bench -> string -> string -> io host val := PerfTrial.trial kernel.
Definition main : nat -> Options -> io host unit := PerfTrial.main kernel.
