(* ===== verification/CompareKernelEcho.v ===== *)
(** * [bench/compare_kernel_echo.py]: large echoes at an offered rate

    The instance of [PerfTrial] whose client offers bodies of 64 KiB at a rate and validates the echoes. *)

From stdpp Require Import base list strings.
From Stdlib Require Import ZArith Lia Ascii.
From S2P Require Import Prelude PyFloat PyText PyVal PyJson PyScript PyStats PyHash Evidence PyIO System ProcSample RemoteLoad Compare Overload PerfTrial CompareKernel.

Local Open Scope Z_scope.
Open Scope py_scope.

Definition CASES : list (string * bench) := [("echo", Bench 64 256 [2] [4; 5; 6; 7])].

Definition load_arguments (o : Options) (body : string) : list string :=
  ["-schedule"; "2000:" +:+ py_str (warmup o) +:+ "s,20000:" +:+ py_str (duration o) +:+ "s"; "-shards"; "8"; "-method"; "POST";
   "-path"; "/echo"; "-request-body"; body; "-expect-body"; body].

Definition check_phase (phase : val) : res unit :=
  assertR (notR (test ($phase.["failures"]))) "" ;;;
  assertR ($phase.["successes"] ==' $phase.["sent"]) "" ;;;
  assertR ($phase.["response_bytes_validated"] ==' $phase.["successes"] *' int 65536) "".
Definition check_workload (load : val) (key : string) : io host unit :=
  expected <~ lift ($load.["workload"].[key]) ;
  content <~ read_proc ;
  lift (assertR ($expected ==' str (sha256_hex content)) "").
Definition check_load (b : bench) (load : val) : io host unit :=
  check_workload load "request_body_sha256" ;~
  check_workload load "expected_body_sha256" ;~
  lift (assertR (($load.["workload"].["method"] ==' str "POST") &&' ($load.["workload"].["path"] ==' str "/echo")) "" ;;;
        phases <- iterR ($load.["phases"]) ;;
        assertR (sumR (fun p => $p.["connections_opened"]) phases ==' int (connections b)) "" ;;;
        eachR check_phase phases ;;;
        phase <- idx_at ($load.["phases"]) (-1) ;;
        assertR ($phase.["sent"] >=' $phase.["offered"] *' lit 999 3) "").

Definition goodput (row : val) : expr := (idx_at ($row.["load"].["phases"]) (-1)).["window_successes_per_second"].
Definition p99 (row : val) : expr := (idx_at ($row.["load"].["phases"]) (-1)).["success_service_latency"].["p99_us"].

Definition echo : harness :=
  Harness CompareKernel.EVENTS CASES "/tmp/zhtps-kernel-work/load" true CompareKernel.scope_text true load_arguments check_load goodput p99.

Definition perf_counts : io host dict := PerfTrial.perf_counts CompareKernel.EVENTS.
Definition trial : nat -> Options -> bench -> string -> string -> io host val := PerfTrial.trial echo.
Definition main : nat -> Options -> io host unit := PerfTrial.main echo.
