(* ===== verification/SummarizeOverload.v ===== *)
(** * [bench/summarize_overload.py]: rows of an overload report

    [summarize] turns a completed overload report into one row per load phase.  A phase whose offers
    do not add up (successes, failures by kind, and offers the generator never sent) is refused.
    The properties say that every accepted phase balances exactly, and that the success, HTTP
    failure, transport failure and unsent columns of its row partition the offers. *)

From stdpp Require Import base list strings.
From Stdlib Require Import ZArith Lia Ascii.
From S2P Require Import Prelude PyFloat PyText PyVal PyJson PyScript.

Local Open Scope Z_scope.
Open Scope py_scope.

(** ** The operations *)

(** The samples taken during a phase. *)
Definition phase_samples (report phase : val) : res (list val) :=
  l <- iterR ($report.["samples"]) ;;
  filterR (fun sample => ($phase.["start_unix_ns"] <=' $sample.["unix_ns"])
                         &&' ($sample.["unix_ns"] <=' $phase.["end_unix_ns"])) l.

(** [phase["failures"] or {}], the unsent offers, and the balance check. *)
Definition accounting (phase : val) : res (val * val) :=
  failures <- orE ($phase.["failures"]) ($(VDict [])) ;;
  unsent <- $phase.["generator_queue_drops"] +' $phase.["generator_expired"] ;;
  guardR ($phase.["successes"] +' (l <- valuesR ($failures) ;; py_sum l) +' $unsent !=' $phase.["offered"])
    ValueError "offer accounting does not balance" ;;;
  Ok (failures, unsent).

(** [sum(n for kind, n in failures.items() if kind.startswith("http_") == http)] *)
Definition failure_sum (http : bool) (failures : val) : expr :=
  l <- itemsR ($failures) ;;
  l <- filterR (fun kn => rmap (Bool.eqb http) (startswithR ($(kn.1)) "http_")) l ;;
  py_sum (map snd l).

(** [phase[field]["p99_us"] / 1000 if phase[field]["count"] else None] *)
Definition p99_if_any (phase : val) (field : string) : expr :=
  ifR (test ($phase.[field].["count"])) ($phase.[field].["p99_us"] /' int 1000) (Ok VNone).

Definition columns (phase failures unsent : val) (samples : list val) : list (string * expr) :=
    [("label", get ($phase) "label");
     ("offered_rate", $phase.["offered_rate"]);
     ("seconds", $phase.["duration_seconds"]);
     ("sent_rate", $phase.["sent_per_second"]);
     ("goodput", $phase.["window_successes_per_second"]);
     ("success_percent", int 100 *' $phase.["successes"] /' $phase.["offered"]);
     ("unsent_percent", int 100 *' $unsent /' $phase.["offered"]);
     ("http_failures_per_second", failure_sum true failures /' $phase.["duration_seconds"]);
     ("transport_failures_per_second", failure_sum false failures /' $phase.["duration_seconds"]);
     ("success_p99_ms", $phase.["success_latency"].["p99_us"] /' int 1000);
     ("service_p99_ms", $phase.["success_service_latency"].["p99_us"] /' int 1000);
     ("rejection_p99_ms", p99_if_any phase "rejection_latency");
     ("failure_p99_ms", p99_if_any phase "failure_latency");
     ("scheduler_p99_ms", $phase.["scheduler_lag"].["p99_us"] /' int 1000);
     ("failures", $failures);
     ("admin_errors", sumR (fun sample => rmap VBool (has ($sample) "admin_error")) samples)].

Definition phase_columns (phase failures unsent : val) (samples : list val) : expr :=
  mkdict (columns phase failures unsent samples).

(** The [for label, field in (...)] loop. *)
Definition distributions : list (string * string) :=
  [("success", "success_latency"); ("service", "success_service_latency");
   ("rejection", "rejection_latency"); ("failure", "failure_latency"); ("scheduler", "scheduler_lag")].

Definition distribution_columns (phase row : val) : expr :=
  foldR (fun row '(label, field) =>
    distribution <- $phase.[field] ;;
    row <- setR row (label +:+ "_latency_count") ($distribution.["count"]) ;;
    foldR (fun row quantile =>
      value <- get ($distribution) (quantile +:+ "_us") ;;
      setR row (label +:+ "_" +:+ quantile +:+ "_ms")
        (ifR (notR (noneR ($value)) &&' test ($distribution.["count"])) ($value /' int 1000) (Ok VNone)))
      row ["p999"; "p9999"; "max"])
    row distributions.

Definition traffic_columns (phase row : val) : expr :=
  row <- setR row "dial_attempts" (get ($phase) "dial_attempts") ;;
  row <- setR row "request_bytes_written" (get ($phase) "request_bytes_written") ;;
  row <- setR row "response_bytes_validated" (get ($phase) "response_bytes_validated") ;;
  setR row "meets_baseline_target"
    (rmap VBool (($row.["success_percent"] >=' lit 999 1) &&' ($row.["success_p99_ms"] <=' int 10))).

(** [if samples:] *)
Definition memory_columns (samples : list val) (row : val) : expr :=
  match samples with
  | [] => Ok row
  | _ =>
      row <- setR row "rss_min_mib" (minR (fun s => $s.["server"].["VmRSS"]) samples /' int 1048576) ;;
      row <- setR row "rss_max_mib" (maxR (fun s => $s.["server"].["VmRSS"]) samples /' int 1048576) ;;
      row <- setR row "fds_max" (maxR (fun s => $s.["server"].["fds"]) samples) ;;
      row <- setR row "tcp_time_wait_max" (maxR (fun s => getd ($s.["kernel"]) "tcp_tw" (VInt 0)) samples) ;;
      setR row "tcp_mem_pages_max" (maxR (fun s => getd ($s.["kernel"]) "tcp_mem" (VInt 0)) samples)
  end.

(** [if len(client_samples) >= 2:] *)
Definition client_cpu (samples : list val) (row : val) : expr :=
  client_samples <- filterR (fun sample => has ($sample) "client") samples ;;
  match client_samples, last client_samples with
  | client_first :: _ :: _, Some client_last =>
      client_elapsed <- ((d <- $client_last.["unix_ns"] ;; getd ($client_last.["client"]) "unix_ns" d)
                         -' (d <- $client_first.["unix_ns"] ;; getd ($client_first.["client"]) "unix_ns" d))
                        /' lit 1000000000 0 ;;
      ifR ($client_elapsed >' int 0)
        (setR row "client_cpu_cores"
           (($client_last.["client"].["cpu_seconds"] -' $client_first.["client"].["cpu_seconds"]) /' $client_elapsed))
        (Ok row)
  | _, _ => Ok row
  end.

(** One CPU of [first["server_cores"]]: its tick deltas, their total and their busy part. *)
Definition core_ticks (last_sample : val) (name ticks : val) : res (val * val) :=
  last_ticks <- (c <- $last_sample.["server_cores"] ;; py_getitem c name) ;;
  begins <- py_iter ticks ;;
  ends <- py_iter last_ticks ;;
  delta <- mapR (fun be => py_sub be.2 be.1) (combine begins ends) ;;
  core_total <- py_sum (take 8 delta) ;;
  core_busy <- $core_total -' idx_at ($(VList delta)) 3 -' idx_at ($(VList delta)) 4 ;;
  Ok (core_total, core_busy).

Record cores := Cores { c_busy : val; c_total : val; c_per_core : dict }.

Definition core_step (last_sample : val) (st : cores) (nt : val * val) : res cores :=
  let* (core_total, core_busy) := core_ticks last_sample nt.1 nt.2 in
  total <- py_add (c_total st) core_total ;;
  busy <- py_add (c_busy st) core_busy ;;
  per_core <- (if truthy core_total
               then v <- (int 100 *' $core_busy /' $core_total) ;; Ok (dset nt.1 v (c_per_core st))
               else Ok (c_per_core st)) ;;
  Ok (Cores busy total per_core).

Definition server_cpu (first last_sample row : val) : expr :=
  ifR (has ($first) "server_cores")
    (l <- itemsR ($first.["server_cores"]) ;;
     st <- foldR (core_step last_sample) (Cores (VInt 0) (VInt 0) []) l ;;
     if truthy (c_total st) then
       row <- setR row "server_core_busy_percent" (int 100 *' $(c_busy st) /' $(c_total st)) ;;
       row <- setR row "server_core_busy_percent_by_cpu" ($(VDict (c_per_core st))) ;;
       setR row "server_core_busy_percent_max" (py_max (map snd (c_per_core st)))
     else Ok row)
    (Ok row).

Definition counter_columns (first last_sample elapsed row : val) : expr :=
  ifR (has ($first) "counters" &&' has ($last_sample) "counters")
    (foldR (fun row name =>
       setR row ("sampled_" +:+ name +:+ "_per_second")
         (($last_sample.["counters"].[name] -' $first.["counters"].[name]) /' $elapsed))
       row ["requests_admitted_total"; "requests_rejected_total"])
    (Ok row).

(** [if len(samples) >= 2:] *)
Definition interval_columns (samples : list val) (row : val) : expr :=
  match samples, last samples with
  | first :: _ :: _, Some last_sample =>
      elapsed <- ($last_sample.["unix_ns"] -' $first.["unix_ns"]) /' lit 1000000000 0 ;;
      row <- setR row "server_cpu_cores"
               (($last_sample.["server"].["cpu_seconds"] -' $first.["server"].["cpu_seconds"]) /' $elapsed) ;;
      row <- client_cpu samples row ;;
      row <- server_cpu first last_sample row ;;
      row <- counter_columns first last_sample elapsed row ;;
      setR row "sampled_listen_overflows"
        ($last_sample.["kernel"].["ListenOverflows"] -' $first.["kernel"].["ListenOverflows"])
  | _, _ => Ok row
  end.

(** The body of the loop over the phases. *)
Definition phase_row (report phase : val) : expr :=
  samples <- phase_samples report phase ;;
  let* (failures, unsent) := accounting phase in
  row <- phase_columns phase failures unsent samples ;;
  row <- distribution_columns phase row ;;
  row <- traffic_columns phase row ;;
  row <- memory_columns samples row ;;
  interval_columns samples row.

Definition kernel_counters : list string :=
  ["ListenOverflows"; "ListenDrops"; "TCPReqQFullDoCookies"; "TCPReqQFullDrop"; "TCPBacklogDrop"].

Definition summarize (report : val) : expr :=
  guardR (($report.["status"] !=' str "complete") ||' ($report.["server_exit"] !=' int 0))
    ValueError "require a completed run and clean server exit" ;;;
  raw <- iterR ($report.["client"].["phases"]) ;;
  phases <- listR (phase_row report) raw ;;
  mkdict
    [("config", $report.["config"]);
     ("phases", $phases);
     ("server_exit", $report.["server_exit"]);
     ("kernel_delta", dictcomp kernel_counters (fun name =>
        $report.["kernel_after"].[name] -' $report.["kernel_before"].[name]))].

(** [main]: the reports given by the [str] of their paths. *)
Definition main (read : string -> res string) (reports : list string) (out : option string) : res output :=
  results <- reports_by read summarize reports ;;
  text <- json_dumps2 (VDict results) ;;
  Ok (emit out (text +:+ nl)).

(** ** Lemmas *)

(** *** Columns written later keep the earlier ones *)

(** The columns each stage writes. *)
Definition quantiles : list string := ["p999"; "p9999"; "max"].
Definition distribution_names : list string :=
  concat (map (fun lf => (lf.1 +:+ "_latency_count") :: map (fun q => lf.1 +:+ "_" +:+ q +:+ "_ms") quantiles) distributions).
Definition traffic_names : list string :=
  ["dial_attempts"; "request_bytes_written"; "response_bytes_validated"; "meets_baseline_target"].
Definition sample_names : list string :=
  ["rss_min_mib"; "rss_max_mib"; "fds_max"; "tcp_time_wait_max"; "tcp_mem_pages_max"; "server_cpu_cores";
   "client_cpu_cores"; "server_core_busy_percent"; "server_core_busy_percent_by_cpu";
   "server_core_busy_percent_max"; "sampled_requests_admitted_total_per_second";
   "sampled_requests_rejected_total_per_second"; "sampled_listen_overflows"].

Ltac not_written := let E := fresh in intros E; subst; match goal with H : _ ∉ _ |- _ => apply H; vm_compute; repeat constructor end.

Lemma distribution_keeps k phase row row' :
  k ∉ distribution_names -> distribution_columns phase row = Ok row' -> keeps k row row'.
Proof.
  intros Hk H. eapply foldR_keeps, H. clear H. intros r [label field] r' Hin H.
  apply rbind_ok in H as (distribution & _ & H). apply rbind_ok in H as (r1 & Hset & H).
  assert (Hsub : forall n, n ∈ (label +:+ "_latency_count") :: map (fun q => label +:+ "_" +:+ q +:+ "_ms") quantiles ->
                 n ∈ distribution_names).
  { intros n Hn. apply list_elem_of_In, in_concat. eexists. rewrite list_elem_of_In in Hn.
    split; [|exact Hn]. apply in_map_iff. exists (label, field). split; [done|]. by apply list_elem_of_In. }
  apply (keeps_trans _ _ r1).
  - eapply setR_keeps, Hset. intros ->. apply Hk, Hsub. left.
  - eapply foldR_keeps, H. clear H. intros r2 q r3 Hq H. apply rbind_ok in H as (value & _ & H).
    eapply setR_keeps, H. intros ->. apply Hk, Hsub. right. apply list_elem_of_In, in_map_iff. exists q.
    split; [done|]. by apply list_elem_of_In.
Qed.

Lemma traffic_keeps k phase row row' :
  k ∉ traffic_names -> traffic_columns phase row = Ok row' -> keeps k row row'.
Proof. intros Hk. unfold traffic_columns. intros H. keep; not_written. Qed.

Lemma memory_keeps k samples row row' :
  k ∉ sample_names -> memory_columns samples row = Ok row' -> keeps k row row'.
Proof. intros Hk. unfold memory_columns. destruct samples; intros H; keep; not_written. Qed.

Lemma ifR_ok {A} c (a b : res A) x : ifR c a b = Ok x -> (c = Ok true /\ a = Ok x) \/ (c = Ok false /\ b = Ok x).
Proof. unfold ifR. intros H. inv_res. destruct a0; auto. Qed.

Ltac if_ok H := apply ifR_ok in H as [[? H]|[? H]].

Lemma client_cpu_keeps k samples row row' :
  k ∉ sample_names -> client_cpu samples row = Ok row' -> keeps k row row'.
Proof.
  intros Hk H. unfold client_cpu in H. apply rbind_ok in H as (l & _ & H). repeat case_match; try (keep; fail).
  apply rbind_ok in H as (el & _ & H). if_ok H; keep; not_written.
Qed.

Lemma server_cpu_keeps k first last_sample row row' :
  k ∉ sample_names -> server_cpu first last_sample row = Ok row' -> keeps k row row'.
Proof.
  intros Hk H. unfold server_cpu in H. if_ok H; [|by keep].
  apply rbind_ok in H as (l & _ & H). apply rbind_ok in H as (st & _ & H). case_match; keep; not_written.
Qed.

Lemma counter_keeps k first last_sample elapsed row row' :
  k ∉ sample_names -> counter_columns first last_sample elapsed row = Ok row' -> keeps k row row'.
Proof.
  intros Hk H. unfold counter_columns in H. if_ok H; [|by keep]. cbn [foldR] in H. keep; not_written.
Qed.

Lemma interval_keeps k samples row row' :
  k ∉ sample_names -> interval_columns samples row = Ok row' -> keeps k row row'.
Proof.
  intros Hk H. unfold interval_columns in H. repeat case_match; try (by keep).
  apply rbind_ok in H as (el & _ & H). apply rbind_ok in H as (r1 & E1 & H).
  apply rbind_ok in H as (r2 & E2 & H). apply rbind_ok in H as (r3 & E3 & H).
  apply rbind_ok in H as (r4 & E4 & H).
  eapply keeps_trans; [eapply setR_keeps, E1; not_written|].
  eapply keeps_trans; [by eapply client_cpu_keeps|]. eapply keeps_trans; [by eapply server_cpu_keeps|].
  eapply keeps_trans; [by eapply counter_keeps|]. eapply setR_keeps, H. not_written.
Qed.

(** The columns of the display survive to the finished row. *)
Lemma phase_row_columns report phase row :
  phase_row report phase = Ok row ->
  exists samples failures unsent, phase_samples report phase = Ok samples
  /\ accounting phase = Ok (failures, unsent)
  /\ forall k e, assoc k (columns phase failures unsent samples) = Some e ->
       k ∉ distribution_names ++ traffic_names ++ sample_names -> exists v, e = Ok v /\ idx ($row) k = Ok v.
Proof.
  unfold phase_row. intros H. apply rbind_ok in H as (samples & Hs & H).
  apply rbind_ok in H as ([failures unsent] & Ha & H). apply rbind_ok in H as (c0 & H0 & H).
  apply rbind_ok in H as (c1 & H1 & H). apply rbind_ok in H as (c2 & H2 & H).
  apply rbind_ok in H as (c3 & H3 & H). exists samples, failures, unsent. split_and!; [done..|].
  intros k e He [Hd [Ht Hi]%not_elem_of_app]%not_elem_of_app.
  destruct (mkdict_get _ _ _ _ H0 He) as (v & Hev & Hv). exists v. split; [done|]. apply (fun K : keeps k c0 row => K v Hv).
  eapply keeps_trans; [by eapply distribution_keeps|]. eapply keeps_trans; [by eapply traffic_keeps|].
  eapply keeps_trans; [by eapply memory_keeps|]. by eapply interval_keeps.
Qed.

(** *** Phases with integer counts *)

Record counts := Counts {
  n_success : Z; n_failures : list (string * Z); n_drops : Z; n_expired : Z; n_offered : Z }.

Definition failure_dict (l : list (string * Z)) : val := VDict (map (fun kn => (VStr kn.1, VInt kn.2)) l).

Definition counts_of (phase : val) (c : counts) : Prop :=
  idx ($phase) "successes" = Ok (VInt (n_success c))
  /\ (idx ($phase) "failures" = Ok (failure_dict (n_failures c))
      \/ idx ($phase) "failures" = Ok VNone /\ n_failures c = [])
  /\ idx ($phase) "generator_queue_drops" = Ok (VInt (n_drops c))
  /\ idx ($phase) "generator_expired" = Ok (VInt (n_expired c))
  /\ idx ($phase) "offered" = Ok (VInt (n_offered c)).

(** The failures whose kind starts with [http_], or the others. *)
Definition failures_where (http : bool) (c : counts) : Z :=
  sumZ (map snd (List.filter (fun kn => Bool.eqb http (startswith "http_" kn.1)) (n_failures c))).

Lemma failures_split c : failures_where true c + failures_where false c = sumZ (map snd (n_failures c)).
Proof.
  unfold failures_where. induction (n_failures c) as [|[k n] l IH]; cbn [map List.filter sumZ snd fst]; [done|].
  destruct (startswith "http_" k); cbn [Bool.eqb map sumZ snd] in *; lia.
Qed.

Lemma failure_filter http l :
  filterR (fun kn : val * val => rmap (Bool.eqb http) (startswithR ($(kn.1)) "http_"))
    (map (fun kn => (VStr kn.1, VInt kn.2)) l)
  = Ok (map (fun kn => (VStr kn.1, VInt kn.2)) (List.filter (fun kn => Bool.eqb http (startswith "http_" kn.1)) l)).
Proof.
  induction l as [|[k n] l IH]; [done|]. cbn [map filterR List.filter fst snd]. rewrite IH.
  unfold startswithR, rmap. cbn [rbind]. by destruct (Bool.eqb http (startswith "http_" k)).
Qed.

Lemma snd_ints (l : list (string * Z)) : map snd (map (fun kn => (VStr kn.1, VInt kn.2)) l) = map VInt (map snd l).
Proof. induction l as [|[k n] l IH]; [done|]. cbn in *. by rewrite IH. Qed.

Lemma failure_sum_int http c :
  failure_sum http (failure_dict (n_failures c)) = Ok (VInt (failures_where http c)).
Proof.
  unfold failure_sum, itemsR, failure_dict. cbn [rbind py_items]. rewrite failure_filter. cbn [rbind].
  by rewrite snd_ints, py_sum_int.
Qed.

Definition balanced (c : counts) : bool :=
  n_success c + sumZ (map snd (n_failures c)) + (n_drops c + n_expired c) =? n_offered c.

(** The balance check is exact. *)
Lemma accounting_int phase c :
  counts_of phase c ->
  accounting phase = if balanced c then Ok (failure_dict (n_failures c), VInt (n_drops c + n_expired c))
                     else raise ValueError "offer accounting does not balance".
Proof.
  intros (Hs & Hf & Hd & He & Ho). unfold accounting.
  assert (orE ($phase.["failures"]) ($(VDict [])) = Ok (failure_dict (n_failures c))) as ->.
  { unfold orE. destruct Hf as [-> | [-> ->]]; [|done]. cbn [rbind]. by destruct (n_failures c) as [|[]]. }
  cbn [rbind]. rewrite Hd, He, Hs, Ho. unfold lift2 at 1. cbn [rbind].
  unfold valuesR, py_values, failure_dict. cbn [rbind py_items rmap]. rewrite snd_ints, py_sum_int.
  unfold guardR, notR, eqR, lift2, balanced. cbn [rbind rmap py_add arith num_of].
  rewrite py_eqb_int. by destruct (_ =? _).
Qed.

(** ** Properties *)

(** A report with the seven phases of a sustained run, [seconds] apart. *)
Definition sample_distribution (n p99 : Z) : val :=
  obj [("count", VInt n); ("p99_us", VInt p99); ("p999_us", VInt (2 * p99)); ("max_us", VInt (3 * p99))].

Definition sample_phase (label : string) (start seconds rate successes rejected dropped : Z) : val :=
  obj [("label", VStr label); ("start_unix_ns", VInt (start * 1000000000));
       ("end_unix_ns", VInt ((start + seconds) * 1000000000));
       ("duration_seconds", VInt seconds); ("offered_rate", VInt rate); ("sent_per_second", VInt rate);
       ("window_successes_per_second", VInt (successes / seconds));
       ("successes", VInt successes); ("failures", obj [("http_503", VInt rejected); ("timeout", VInt 2)]);
       ("generator_queue_drops", VInt dropped); ("generator_expired", VInt 1);
       ("offered", VInt (successes + rejected + 2 + dropped + 1)); ("sent", VInt (successes + rejected + 2));
       ("success_latency", sample_distribution successes 4000);
       ("success_service_latency", sample_distribution successes 3000);
       ("rejection_latency", sample_distribution rejected 1000);
       ("failure_latency", sample_distribution 2 1500); ("scheduler_lag", sample_distribution successes 50)].

Definition sample_server (at_s cpu busy idle : Z) : val :=
  obj [("unix_ns", VInt (at_s * 1000000000));
       ("server", obj [("VmRSS", VInt 20971520); ("fds", VInt 900); ("cpu_seconds", VInt cpu)]);
       ("kernel", obj [("ListenOverflows", VInt 0); ("tcp_tw", VInt 12)]);
       ("server_cores", obj [("cpu2", VList (map VInt [busy; 0; 0; idle; 0; 0; 0; 0; 0; 0]))])].

Definition sample_kernel (n : Z) : val := obj (map (fun k => (k, VInt n)) kernel_counters).

Definition sample_report : val :=
  obj [("status", VStr "complete"); ("server_exit", VInt 0); ("config", obj []);
       ("client", obj [("churn", VBool false);
          ("phases", VList
             [sample_phase "baseline" 0 60 100 6000 0 0;
              sample_phase "overload_2x" 100 180 200 18000 17900 1; sample_phase "recovery_2x" 300 30 100 3000 0 0;
              sample_phase "overload_5x" 400 180 500 18000 71000 1; sample_phase "recovery_5x" 600 30 100 3000 0 0;
              sample_phase "overload_10x" 700 180 1000 18000 160000 1; sample_phase "recovery_10x" 900 30 100 3000 0 0])]);
       ("samples", VList (concat (map (fun t => [sample_server t t t t; sample_server (t + 20) (t + 40) (t + 10) (t + 20)])
                                      [0; 100; 300; 400; 600; 700; 900])));
       ("kernel_before", sample_kernel 3); ("kernel_after", sample_kernel 5);
       ("server_identity", obj [("boot_id", VStr "origin")]);
       ("remote_client", obj [("identity", obj [("boot_id", VStr "generator")]); ("separate_kernel", VBool true);
                              ("clock_uncertainty_ns", VInt 250000)])].

Definition sample_counts : counts := Counts 18000 [("http_503", 17900); ("timeout", 2)] 1 1 35904.

Example sample_rows :
  (s <- summarize sample_report ;; r <- idx_at (idx (Ok s) "phases") 1 ;;
   mapR (fun k => rmap py_str (idx (Ok r) k))
     ["label"; "success_percent"; "http_failures_per_second"; "server_core_busy_percent_max"; "rss_max_mib"])
  = Ok ["overload_2x"; "50.13368983957219"; "99.44444444444444"; "33.333333333333336"; "20.0"].
Proof. vm_compute. reflexivity. Qed.

(** What a row says about a phase with the given counts. *)
Definition accounted (phase row : val) : Prop := forall c, counts_of phase c ->
  n_success c + failures_where true c + failures_where false c + (n_drops c + n_expired c) = n_offered c
  /\ idx ($row) "success_percent" = py_div (VInt (100 * n_success c)) (VInt (n_offered c))
  /\ idx ($row) "unsent_percent" = py_div (VInt (100 * (n_drops c + n_expired c))) (VInt (n_offered c))
  /\ exists seconds, idx ($phase) "duration_seconds" = Ok seconds
     /\ idx ($row) "http_failures_per_second" = py_div (VInt (failures_where true c)) seconds
     /\ idx ($row) "transport_failures_per_second" = py_div (VInt (failures_where false c)) seconds.

Ltac column Hcol k v E R :=
  destruct (Hcol k _ eq_refl) as (v & E & R); [apply (bool_decide_unpack _); vm_compute; exact I|].

Lemma phase_row_accounted report phase row : phase_row report phase = Ok row -> accounted phase row.
Proof.
  intros (samples & failures & unsent & _ & Ha & Hcol)%phase_row_columns c H.
  rewrite (accounting_int phase c H) in Ha. destruct (balanced c) eqn:Eb; [|discriminate Ha].
  injection Ha as <- <-. unfold balanced in Eb. pose proof (failures_split c).
  split; [lia|]. destruct H as (Hs & _ & _ & _ & Ho).
  column Hcol "success_percent" v1 E1 R1. column Hcol "unsent_percent" v2 E2 R2.
  column Hcol "http_failures_per_second" v3 E3 R3. column Hcol "transport_failures_per_second" v4 E4 R4.
  rewrite failure_sum_int in E3, E4. rewrite Hs, Ho in E1. rewrite Ho in E2.
  rewrite R1, R2. split_and!; [by rewrite <- E1|by rewrite <- E2|].
  apply lift2_ok in E3 as E3'. destruct E3' as (? & secs & _ & Hd & _). exists secs. rewrite Hd in E3, E4.
  rewrite R3, R4. split_and!; [done|by rewrite <- E3|by rewrite <- E4].
Qed.

(** The phases of a summary are the rows of the report's phases. *)
Lemma summarize_phases report summary :
  summarize report = Ok summary ->
  exists raw rows, iterR ($report.["client"].["phases"]) = Ok raw
  /\ idx ($summary) "phases" = Ok (VList rows) /\ Forall2 (fun p r => phase_row report p = Ok r) raw rows.
Proof.
  unfold summarize. intros H. apply rbind_ok in H as ([] & Hg & H). apply rbind_ok in H as (raw & Hraw & H).
  apply rbind_ok in H as (phases & Hp & H). apply rmap_ok in Hp as (rows & Hrows & ->).
  exists raw, rows. split; [done|]. split; [|by apply mapR_ok].
  destruct (mkdict_get _ _ "phases" ($(VList rows)) H eq_refl) as (v & Hv & Hr). by injection Hv as <-.
Qed.

(** C30: every offer of an accepted report is accounted for.  A report summarises only when the run
    completed and the server exited cleanly; the summary has one row per phase, in order; and for a
    phase with integer counts the successes, the HTTP failures, the transport failures and the unsent
    offers partition the offered requests exactly, and its row reports those four shares, so an unsent
    offer is never counted as a failure of the server. *)
Theorem summarize_accounts report summary :
  summarize report = Ok summary ->
  ($report.["status"] ==' str "complete") = Ok true /\ ($report.["server_exit"] ==' int 0) = Ok true /\
  exists raw rows, iterR ($report.["client"].["phases"]) = Ok raw
     /\ idx ($summary) "phases" = Ok (VList rows) /\ Forall2 accounted raw rows.
Proof.
  intros H. destruct (summarize_phases _ _ H) as (raw & rows & Hraw & Hrows & HF).
  unfold summarize in H. apply rbind_ok in H as ([] & Hg & _).
  apply guardR_ok, orR_false in Hg as [H1%notR_ok H2%notR_ok]. split; [done|]. split; [done|].
  exists raw, rows. split_and!; [done..|]. eapply Forall2_impl; [exact HF|]. apply phase_row_accounted.
Qed.

Lemma summarize_accounts_witness :
  exists summary, summarize sample_report = Ok summary
  /\ counts_of (sample_phase "overload_2x" 100 180 200 18000 17900 1) sample_counts
  /\ exists raw rows, iterR ($sample_report.["client"].["phases"]) = Ok raw
     /\ idx ($summary) "phases" = Ok (VList rows) /\ Forall2 accounted raw rows.
Proof.
  assert (H : is_ok (summarize sample_report) = true) by (vm_compute; reflexivity).
  destruct (summarize sample_report) as [summary|] eqn:E; [|discriminate H].
  exists summary. split; [reflexivity|]. split.
  - unfold counts_of. split_and!; try reflexivity. left. reflexivity.
  - apply (summarize_accounts sample_report summary E).
Defined.

(** an unbalanced report is refused, whatever the rest of it says.  When the phases before it
    summarise and its samples can be selected, a phase whose integer counts do not add up makes
    [summarize] raise [ValueError] instead of producing a smaller summary. *)
Theorem summarize_refuses report before phase after c :
  ($report.["status"] ==' str "complete") = Ok true -> ($report.["server_exit"] ==' int 0) = Ok true ->
  iterR ($report.["client"].["phases"]) = Ok (before ++ phase :: after) ->
  Forall (fun p => is_ok (phase_row report p) = true) before ->
  is_ok (phase_samples report phase) = true -> counts_of phase c -> balanced c = false ->
  summarize report = raise ValueError "offer accounting does not balance".
Proof.
  intros H1 H2 Hraw Hbefore Hs Hc Hb. unfold summarize, notR. rewrite H1, H2. cbn [rbind orR guardR guard rmap negb].
  unfold guardR, orR. cbn [rmap rbind negb guard]. rewrite Hraw. cbn [rbind]. unfold listR.
  enough (mapR (phase_row report) (before ++ phase :: after)
          = raise ValueError "offer accounting does not balance") as -> by done.
  clear Hraw. induction Hbefore as [|p l Hp Hl IH]; cbn [app mapR].
  - assert (phase_row report phase = raise ValueError "offer accounting does not balance") as ->; [|done].
    unfold phase_row. destruct (phase_samples report phase); [|done]. cbn [rbind].
    by rewrite (accounting_int phase c Hc), Hb.
  - destruct (phase_row report p); [|done]. cbn [rbind]. by rewrite IH.
Qed.

(** One dropped offer is missing from the total of the second phase. *)
Definition short_phase : val :=
  match sample_phase "overload_2x" 100 180 200 18000 17900 1 with
  | VDict d => VDict (sset "offered" (VInt 35903) d)
  | v => v
  end.

Definition short_report : val :=
  obj [("status", VStr "complete"); ("server_exit", VInt 0); ("samples", VList []);
       ("client", obj [("phases", VList [sample_phase "baseline" 0 60 100 6000 0 0; short_phase])])].

Lemma summarize_refuses_witness :
  summarize short_report = raise ValueError "offer accounting does not balance".
Proof.
  apply (summarize_refuses short_report [sample_phase "baseline" 0 60 100 6000 0 0] short_phase []
    (Counts 18000 [("http_503", 17900); ("timeout", 2)] 1 1 35903));
    try reflexivity.
  - repeat constructor.
  - unfold counts_of. split_and!; try reflexivity. left. reflexivity.
Defined.
