(* ===== verification/CheckOverload.v ===== *)
(** * [bench/check_overload.py]: the audit of sustained ingress evidence

    [audit] compares the phases of a summarised overload report with explicit targets and keeps every
    unmet criterion.  The properties say what a passing audit demonstrates about the raw report, that
    [validate] admits exactly the documented target ranges, and when the script exits with 0. *)

From stdpp Require Import base list strings.
From Stdlib Require Import ZArith Lia Ascii.
From S2P Require Import Prelude PyFloat PyText PyVal PyJson PyScript SummarizeOverload.

Local Open Scope Z_scope.
Open Scope py_scope.

(** ** Targets *)

Record Targets := mkTargets {
  baseline_seconds : val; overload_seconds : val; recovery_seconds : val; max_unsent_percent : val;
  min_goodput_ratio : val; max_success_p99_ms : val; max_failure_p999_ms : val; max_core_busy_percent : val;
  max_rss_growth_percent : val; max_clock_uncertainty_ms : val }.

(** [Targets()] *)
Definition default_targets : Targets :=
  mkTargets (VInt 60) (VInt 180) (VInt 30) (VFloat (f64_lit 1 1)) (VFloat (f64_lit 9 1)) (VInt 10) (VInt 100)
    (VInt 85) (VInt 5) (VInt 50).

Definition asdict (t : Targets) : list (string * val) :=
  [("baseline_seconds", baseline_seconds t); ("overload_seconds", overload_seconds t);
   ("recovery_seconds", recovery_seconds t); ("max_unsent_percent", max_unsent_percent t);
   ("min_goodput_ratio", min_goodput_ratio t); ("max_success_p99_ms", max_success_p99_ms t);
   ("max_failure_p999_ms", max_failure_p999_ms t); ("max_core_busy_percent", max_core_busy_percent t);
   ("max_rss_growth_percent", max_rss_growth_percent t);
   ("max_clock_uncertainty_ms", max_clock_uncertainty_ms t)].

(** [math.isfinite] *)
Definition isfinite (v : val) : res bool :=
  match num_of v with
  | Some n => rmap f64_finite (to_f64 n)
  | None => type_error "must be real number"
  end.

Definition validate (t : Targets) : res unit :=
  guardR (anyR (fun kv => notR (isfinite kv.2) ||' ($(kv.2) <' int 0)) (asdict t))
    ValueError "targets must be finite, nonnegative numbers" ;;;
  guardR (($(baseline_seconds t) <' int 60) ||' ($(overload_seconds t) <' int 180)
          ||' ($(recovery_seconds t) <' int 30))
    ValueError "sustained evidence requires at least 60/180/30-second baseline/overload/recovery phases" ;;;
  guardR (notR ((int 0 <' $(min_goodput_ratio t)) &&' ($(min_goodput_ratio t) <=' int 1))
          ||' notR ($(max_unsent_percent t) <' int 100))
    ValueError "invalid goodput or unsent-offer target" ;;;
  guardR (notR ((int 0 <' $(max_core_busy_percent t)) &&' ($(max_core_busy_percent t) <=' int 100)))
    ValueError "invalid CPU headroom target".

(** ** The audit *)

Definition identity_issues (report : val) (targets : Targets) : res (list string) :=
  remote <- getd ($report) "remote_client" (VDict []) ;;
  origin_boot <- get (getd ($report) "server_identity" (VDict [])) "boot_id" ;;
  client_boot <- get (getd ($remote) "identity" (VDict [])) "boot_id" ;;
  uncertainty <- get ($remote) "clock_uncertainty_ns" ;;
  issues_of
    [issue (notR (test ($origin_boot)) ||' notR (test ($client_boot)) ||' ($origin_boot ==' $client_boot)
            ||' notR (test (get ($remote) "separate_kernel")))
       [F "separate generator kernel has not been demonstrated"];
     issue (noneR ($uncertainty)
            ||' ($uncertainty /' lit 1000000 0 >' $(max_clock_uncertainty_ms targets)))
       [F "clock alignment is missing or too uncertain"]].

(** [required] *)
Definition multiples : list Z := [2; 5; 10].
Definition required (targets : Targets) : list (string * val) :=
  ("baseline", baseline_seconds targets)
  :: concat (map (fun multiple => [("overload_" +:+ string_of_Z multiple +:+ "x", overload_seconds targets);
                                   ("recovery_" +:+ string_of_Z multiple +:+ "x", recovery_seconds targets)]) multiples).

(** [int(label.split("_")[1][:-1])] *)
Definition label_multiple (label : string) : res Z :=
  part <- of_option (split_char "_" label !! 1%nat) IndexError "list index out of range" ;;
  py_int (str_take (String.length part - 1) part).

(** [baseline and e] where [baseline] is the row of the baseline phase, if any. *)
Definition with_baseline (baseline : val) (e : res bool) : res bool := test ($baseline) &&' e.

(** The issues of an overload phase, after the ones every phase can have. *)
Definition overload_issues (report : val) (targets : Targets) (baseline phase raw : val) (label : string)
  : res (list string) :=
  multiple <- label_multiple label ;;
  issues_of
    [issue (with_baseline baseline ($phase.["offered_rate"] <' int multiple *' $baseline.["offered_rate"]))
       [F label; F ": scheduled rate is below its claimed multiple"];
     (attempted <- ifR (test ($report.["client"].["churn"])) (get ($raw) "dial_attempts") ($raw.["sent"]) ;;
      issue (noneR ($attempted)
             ||' ($attempted <' $raw.["offered"] *' (int 1 -' $(max_unsent_percent targets) /' int 100)))
        [F label; F ": insufficient network attempts/writes; nominal offers are not delivered pressure"]);
     issue (with_baseline baseline
              ($phase.["goodput"] <' $baseline.["goodput"] *' $(min_goodput_ratio targets)))
       [F label; F ": useful throughput fell below the baseline retention target"];
     (busy <- get ($phase) "server_core_busy_percent_max" ;;
      issue (noneR ($busy) ||' ($busy >' $(max_core_busy_percent targets)))
        [F label; F ": required per-core CPU headroom is missing"]);
     issues_of (map (fun kind =>
       ifR (test ($phase.[kind +:+ "_latency_count"]))
         (tail <- get ($phase) (kind +:+ "_p999_ms") ;;
          issue (noneR ($tail) ||' ($tail >' $(max_failure_p999_ms targets)))
            [F label; F ": "; F kind; F " p99.9 is missing or exceeds the failure target"])
         (Ok [])) ["rejection"; "failure"])].

(** The body of [for label, seconds in required]. *)
Definition phase_issues (report : val) (targets : Targets) (phases raw_phases : dict) (baseline : val)
    (label : string) (seconds : val) : res (list string) :=
  phase <- vget (VDict phases) (VStr label) ;;
  if is_none phase then rmap (fun s => [s]) (fstring [F label; F ": missing phase"]) else
  raw <- py_getitem (VDict raw_phases) (VStr label) ;;
  issues_of
    [issue ($phase.["seconds"] <' $seconds)
       [F label; F ": duration "; V ($phase.["seconds"]); F " s is below "; V ($seconds); F " s"];
     issue ($phase.["success_p99_ms"] >' $(max_success_p99_ms targets))
       [F label; F ": successful p99 exceeds target"];
     issue (test ($phase.["admin_errors"])) [F label; F ": admin sampling failed"];
     issue (with_baseline baseline
              (notR (has ($phase) "rss_max_mib") ||' notR (has ($baseline) "rss_max_mib")
               ||' ($phase.["rss_max_mib"]
                    >' $baseline.["rss_max_mib"] *' (int 1 +' $(max_rss_growth_percent targets) /' int 100))))
       [F label; F ": bounded server RSS has not been demonstrated"];
     (if startswith "overload_" label then overload_issues report targets baseline phase raw label
      else issue ($phase.["success_percent"] <' lit 999 1)
             [F label; F ": fewer than 99.9% of scheduled offers succeeded"])].

Definition audit (report : val) (targets : Targets) : expr :=
  validate targets ;;;
  summary <- summarize report ;;
  identity <- identity_issues report targets ;;
  rows <- iterR ($summary.["phases"]) ;;
  phases <- dict_by (fun phase => $phase.["label"]) (fun phase => $phase) rows ;;
  baseline <- vget (VDict phases) (VStr "baseline") ;;
  let structure :=
    (if (length phases =? length rows)%nat then [] else ["phase labels are not unique"])
    ++ (if is_none baseline then ["missing baseline phase"] else []) in
  raws <- iterR ($report.["client"].["phases"]) ;;
  raw_phases <- dict_by (fun phase => get ($phase) "label") (fun phase => $phase) raws ;;
  findings <- issues_of (map (fun '(label, seconds) =>
    phase_issues report targets phases raw_phases baseline label seconds) (required targets)) ;;
  let issues := identity ++ structure ++ findings in
  mkdict
    [("passed", $(VBool (match issues with [] => true | _ => false end)));
     ("targets", $(VDict (map (fun kv => (VStr kv.1, kv.2)) (asdict targets))));
     ("issues", $(VList (map VStr issues)));
     ("scope", str "one workload/configuration; does not prove a production workload matrix");
     ("summary", $summary)].

(** [main] after argument parsing: the output and the exit status.  Invalid targets are a usage error,
    which [argparse] reports with status 2. *)
Definition main (read : string -> res string) (reports : list string) (out : option string) (targets : Targets)
  : res (option output * Z) :=
  match validate targets with
  | Err e => if isa e ValueError then Ok (None, 2) else Err e
  | Ok _ =>
      results <- reports_by read (fun report => audit report targets) reports ;;
      rendered <- json_dumps2 (VDict results) ;;
      passed <- allR (fun result => test ($result.["passed"])) (map snd results) ;;
      Ok (Some (emit out (rendered +:+ nl)), if passed : bool then 0 else 1)
  end.

(** ** Lemmas *)

Definition num_finite (n : num) : bool :=
  match n with NI z => bool_decide (is_Some (f64_of_Z z)) | NF x => f64_finite x end.
Definition num_lt (a b : num) : bool := cmp_is_lt (num_cmp a b).
Definition num_le (a b : num) : bool := cmp_is_le (num_cmp a b).

(** [v] is a finite number that passes [p]. *)
Definition finite_number (v : val) (p : num -> bool) : Prop :=
  exists n, num_of v = Some n /\ num_finite n = true /\ p n = true.

Lemma finite_cmp z n : num_finite n = true -> num_cmp (NI z) n <> None.
Proof. destruct n as [w|x]; cbn [num_cmp num_finite]; [done|]. intros H. unfold cmp_Z_f64. by destruct x. Qed.

Lemma num_cmp_flip z n : num_cmp n (NI z) = cmp_flip (num_cmp (NI z) n).
Proof.
  destruct n as [w|x]; cbn [num_cmp cmp_flip]; [|by destruct (cmp_Z_f64 z x) as [[]|]].
  rewrite Z.compare_antisym. by destruct (z ?= w).
Qed.

(** Not below an integer means at least that integer, for a finite number. *)
Lemma not_lt_le z n : num_finite n = true -> num_lt n (NI z) = negb (num_le (NI z) n).
Proof.
  intros H%(finite_cmp z). unfold num_lt, num_le. rewrite num_cmp_flip.
  by destruct (num_cmp (NI z) n) as [[]|].
Qed.

Lemma isfinite_ok v b : isfinite v = Ok b -> exists n, num_of v = Some n /\ b = num_finite n.
Proof.
  unfold isfinite. destruct (num_of v) as [[z|x]|]; [| |done]; cbn [to_f64]; intros H.
  - exists (NI z). split; [done|]. cbn. destruct (f64_of_Z z) eqn:E; [|done]. cbn in H. injection H as <-.
    apply f64_of_Z_finite in E as ->. by rewrite bool_decide_true by eauto.
  - exists (NF x). split; [done|]. by injection H as <-.
Qed.

Lemma isfinite_number v n : num_of v = Some n -> num_finite n = true -> isfinite v = Ok true.
Proof.
  unfold isfinite. intros ->. destruct n as [z|x]; cbn; [|by intros ->].
  intros H%bool_decide_eq_true_1. destruct H as [y E]. rewrite E. cbn. by rewrite (f64_of_Z_finite _ _ E).
Qed.

Lemma ltR_num v w x y : num_of v = Some x -> num_of w = Some y -> ltR ($v) ($w) = Ok (num_lt x y).
Proof. intros Hv Hw. unfold ltR, lift2. cbn [rbind]. by destruct v, w; cbn in *; simplify_eq. Qed.
Lemma leR_num v w x y : num_of v = Some x -> num_of w = Some y -> leR ($v) ($w) = Ok (num_le x y).
Proof. intros Hv Hw. unfold leR, lift2. cbn [rbind]. by destruct v, w; cbn in *; simplify_eq. Qed.

(** One field of the first check. *)
Lemma field_ok v :
  (notR (isfinite v) ||' ($v <' int 0)) = Ok false <-> finite_number v (num_le (NI 0)).
Proof.
  rewrite orR_false. split.
  - intros [(n & Hn & Hf)%notR_ok%isfinite_ok H]. exists n. split_and!; [done|done|].
    unfold int in H. rewrite (ltR_num v (VInt 0) n (NI 0)) in H by done.
    rewrite not_lt_le in H by done. by destruct (num_le (NI 0) n).
  - intros (n & Hn & Hf & Hle). unfold notR. rewrite (isfinite_number v n) by done. split; [done|].
    unfold int. rewrite (ltR_num v (VInt 0) n (NI 0)) by done. rewrite not_lt_le by done. by rewrite Hle.
Qed.

(** The target ranges the script documents. *)
Definition Sustained (t : Targets) : Prop :=
  Forall (fun kv => finite_number kv.2 (num_le (NI 0))) (asdict t)
  /\ finite_number (baseline_seconds t) (num_le (NI 60))
  /\ finite_number (overload_seconds t) (num_le (NI 180))
  /\ finite_number (recovery_seconds t) (num_le (NI 30))
  /\ finite_number (min_goodput_ratio t) (fun n => num_lt (NI 0) n && num_le n (NI 1))
  /\ finite_number (max_unsent_percent t) (fun n => num_lt n (NI 100))
  /\ finite_number (max_core_busy_percent t) (fun n => num_lt (NI 0) n && num_le n (NI 100)).

(** Comparisons of a finite number with a constant. *)
Lemma at_least_ok v z n :
  num_of v = Some n -> num_finite n = true ->
  ($v <' int z) = Ok false <-> finite_number v (num_le (NI z)).
Proof.
  intros Hn Hf. unfold int. rewrite (ltR_num v (VInt z) n (NI z)) by done. rewrite not_lt_le by done. split.
  - intros [= H]. exists n. split_and!; [done..|]. by destruct (num_le (NI z) n).
  - intros (m & Hm & _ & H). rewrite Hn in Hm. injection Hm as ->. by rewrite H.
Qed.

Lemma within_ok v z n :
  num_of v = Some n -> num_finite n = true ->
  notR ((int 0 <' $v) &&' ($v <=' int z)) = Ok false
  <-> finite_number v (fun n => num_lt (NI 0) n && num_le n (NI z)).
Proof.
  intros Hn Hf. rewrite notR_ok, andR_true. unfold int.
  rewrite (ltR_num (VInt 0) v (NI 0) n), (leR_num v (VInt z) n (NI z)) by done. split.
  - intros [[= H1] [= H2]]. exists n. by rewrite H1, H2.
  - intros (m & Hm & _ & [H1 H2]%andb_true_iff). rewrite Hn in Hm. injection Hm as ->. by rewrite H1, H2.
Qed.

Lemma below_ok v z n :
  num_of v = Some n -> num_finite n = true ->
  notR ($v <' int z) = Ok false <-> finite_number v (fun n => num_lt n (NI z)).
Proof.
  intros Hn Hf. rewrite notR_ok. unfold int. rewrite (ltR_num v (VInt z) n (NI z)) by done. split.
  - intros [= H]. by exists n.
  - intros (m & Hm & _ & H). rewrite Hn in Hm. injection Hm as ->. by rewrite H.
Qed.

Lemma target_number t name v : 
  Forall (fun kv => finite_number kv.2 (num_le (NI 0))) (asdict t) -> In (name, v) (asdict t) ->
  exists n, num_of v = Some n /\ num_finite n = true.
Proof.
  rewrite Forall_forall. intros H Hin%list_elem_of_In. apply H in Hin as (n & ? & ? & _). by exists n.
Qed.

Lemma sum_of_bools bs z :
  foldR sum_step (VInt z, f64_zero) (map VBool bs)
  = Ok (VInt (z + sumZ (map (fun b : bool => if b then 1 else 0) bs)), f64_zero).
Proof.
  revert z. induction bs as [|b bs IH]; intros z; cbn [map foldR sumZ]; [by rewrite Z.add_0_r|].
  cbn [sum_step fst num_of py_add arith rbind]. rewrite IH. by rewrite Z.add_assoc.
Qed.

(** [sum("admin_error" in sample ...)] is zero exactly when no sample has the key. *)
Lemma no_admin_errors samples v :
  sumR (fun sample => rmap VBool (has ($sample) "admin_error")) samples = Ok v -> truthy v = false ->
  Forall (fun sample => has ($sample) "admin_error" = Ok false) samples.
Proof.
  unfold sumR. intros H Hv. apply rbind_ok in H as (xs & Hxs & H). apply mapR_ok in Hxs.
  assert (exists bs, xs = map VBool bs /\ Forall2 (fun s b => has ($s) "admin_error" = Ok b) samples bs)
    as (bs & -> & Hbs).
  { clear H. induction Hxs as [|s x l xs Hs Hl (bs & -> & IH)]; [by exists []|].
    apply rmap_ok in Hs as (b & Hb & ->). exists (b :: bs). split; [done|]. by constructor. }
  unfold py_sum in H. rewrite sum_of_bools in H. cbn in H. injection H as <-. clear Hxs.
  cbn [truthy] in Hv. apply negb_false_iff, Z.eqb_eq in Hv. cbn in Hv.
  assert (Hpos : forall bs, 0 <= sumZ (map (fun b : bool => if b then 1 else 0) bs)).
  { intros l. apply sumZ_nonneg, Forall_map, Forall_true. by intros []. }
  induction Hbs as [|s b l bs Hb Hl IH]; [done|]. cbn in Hv. specialize (Hpos bs).
  destruct b; [lia|]. constructor; [done|]. apply IH. lia.
Qed.

Lemma with_baseline_false base c : truthy base = true -> with_baseline base c = Ok false -> c = Ok false.
Proof. unfold with_baseline, test, andR. cbn. by intros ->. Qed.

Lemma noneR_false v : noneR ($v) = Ok false -> v <> VNone.
Proof. cbn. by intros [= H] ->. Qed.

(** ** What a passing audit demonstrates *)

Section Demonstrated.
Context (report : val) (targets : Targets).

(** Phase number [i] of the report is the only one with this label and summarises to [row]. *)
Definition unique_phase (label : string) (phase row : val) : Prop :=
  exists raws i, iterR ($report.["client"].["phases"]) = Ok raws /\ raws !! i = Some phase
  /\ get ($phase) "label" = Ok (VStr label) /\ phase_row report phase = Ok row
  /\ forall j other, raws !! j = Some other -> get ($other) "label" = Ok (VStr label) -> j = i.

(** Every required phase: long enough, fast enough, observed throughout, with bounded memory. *)
Definition sound_phase (base phase row seconds : val) : Prop :=
  ($phase.["duration_seconds"] <' $seconds) = Ok false
  /\ ($phase.["success_latency"].["p99_us"] /' int 1000 >' $(max_success_p99_ms targets)) = Ok false
  /\ (exists samples, phase_samples report phase = Ok samples
      /\ Forall (fun sample => has ($sample) "admin_error" = Ok false) samples)
  /\ ($row.["rss_max_mib"] >' $base.["rss_max_mib"] *' (int 1 +' $(max_rss_growth_percent targets) /' int 100))
     = Ok false.

(** An overload phase of [m] times the baseline rate. *)
Definition sound_overload (base phase row : val) (m : Z) : Prop :=
  ($phase.["offered_rate"] <' int m *' $base.["offered_rate"]) = Ok false
  /\ (exists attempted, ifR (test ($report.["client"].["churn"])) (get ($phase) "dial_attempts") ($phase.["sent"])
        = Ok attempted
      /\ ($attempted <' $phase.["offered"] *' (int 1 -' $(max_unsent_percent targets) /' int 100)) = Ok false)
  /\ ($phase.["window_successes_per_second"] <' $base.["goodput"] *' $(min_goodput_ratio targets)) = Ok false
  /\ ($row.["server_core_busy_percent_max"] >' $(max_core_busy_percent targets)) = Ok false
  /\ Forall (fun kind => test ($row.[kind +:+ "_latency_count"]) = Ok false
             \/ ($row.[kind +:+ "_p999_ms"] >' $(max_failure_p999_ms targets)) = Ok false) ["rejection"; "failure"].

Definition demonstrated (base : val) (label : string) (seconds : val) : Prop :=
  exists phase row, unique_phase label phase row /\ sound_phase base phase row seconds
  /\ if startswith "overload_" label
     then exists m, label_multiple label = Ok m /\ sound_overload base phase row m
     else ($row.["success_percent"] <' lit 999 1) = Ok false.

Lemma label_column phase row : phase_row report phase = Ok row -> idx ($row) "label" = get ($phase) "label".
Proof.
  intros (samples & failures & unsent & _ & Ha & Hcol)%phase_row_columns.
  column Hcol "label" v E R. by rewrite E, R.
Qed.

(** The two dictionaries by label agree on a unique label. *)
Lemma same_phase raws rows phases raw_phases label row raw :
  Forall2 (fun p r => phase_row report p = Ok r) raws rows ->
  dict_by (fun phase => idx ($phase) "label") (fun phase => $phase) rows = Ok phases ->
  dict_by (fun phase => get ($phase) "label") (fun phase => $phase) raws = Ok raw_phases ->
  length phases = length rows ->
  dget (VStr label) phases = Some row -> dget (VStr label) raw_phases = Some raw ->
  iterR ($report.["client"].["phases"]) = Ok raws -> unique_phase label raw row.
Proof.
  intros HF Hp Hr Hlen Hrow Hraw Hiter.
  destruct (dict_by_get _ _ _ _ _ _ Hp Hrow) as (i & r & Hi & Hli & [= ->]).
  destruct (dict_by_get _ _ _ _ _ _ Hr Hraw) as (j & p & Hj & Hlj & [= ->]).
  assert (Huniq : forall k other, raws !! k = Some other -> get ($other) "label" = Ok (VStr label) -> k = i).
  { intros k other Hk Hlk. destruct (Forall2_lookup_l _ _ _ _ _ HF Hk) as (rk & Hrk & Hprk).
    rewrite <- (label_column _ _ Hprk) in Hlk. exact (dict_by_unique _ _ _ _ _ _ _ _ _ Hp Hlen Hrk Hi Hlk Hli). }
  rewrite (Huniq j raw Hj Hlj) in Hj. exists raws, i. split_and!; try done.
  destruct (Forall2_lookup_l _ _ _ _ _ HF Hj) as (ri & Hri & Hpri). congruence.
Qed.
End Demonstrated.

Lemma get_idx row k v : get ($row) k = Ok v -> v <> VNone -> idx ($row) k = Ok v.
Proof.
  unfold get, getd. cbn [rbind]. destruct row; cbn [py_get]; try done. intros [= H] Hv.
  apply idx_intro. destruct (sget k d); cbn in H; congruence.
Qed.

Lemma idx_truthy row k v : idx ($row) k = Ok v -> truthy row = true.
Proof. intros (d & [= ->] & H)%idx_ok. by destruct d. Qed.

Ltac issues H := apply issues_of_none in H; rewrite ?Forall_cons in H.

Lemma overload_issues_none report targets base phase row label :
  truthy base = true -> phase_row report phase = Ok row ->
  overload_issues report targets base row phase label = Ok [] ->
  exists m, label_multiple label = Ok m /\ sound_overload report targets base phase row m.
Proof.
  intros Hb Hrow H. unfold overload_issues in H. apply rbind_ok in H as (m & Hm & H). issues H.
  destruct H as (H1 & H2 & H3 & H4 & H5 & _). exists m. split; [done|].
  destruct (phase_row_columns _ _ _ Hrow) as (samples & failures & unsent & _ & _ & Hcol).
  column Hcol "offered_rate" v1 E1 R1. column Hcol "goodput" v2 E2 R2.
  apply issue_none, with_baseline_false in H1; [|done]. apply issue_none, with_baseline_false in H3; [|done].
  apply rbind_ok in H2 as (attempted & Ha & H2). apply rbind_ok in H4 as (busy & Hbusy & H4).
  apply issue_none, orR_false in H2 as [_ H2]. apply issue_none, orR_false in H4 as [Hn%noneR_false H4].
  unfold sound_overload. rewrite E1, E2, <- R1, <- R2. split_and!; [done|by exists attempted|done| |].
  - by rewrite (get_idx _ _ _ Hbusy Hn).
  - apply issues_of_none in H5. rewrite Forall_map in H5. eapply Forall_impl; [exact H5|].
    cbv beta. intros kind Hk. apply ifR_ok in Hk as [[Ht Hk]|[Ht _]]; [right|by left].
    apply rbind_ok in Hk as (tail & Htail & Hk). apply issue_none, orR_false in Hk as [Hnt%noneR_false Hk].
    by rewrite (get_idx _ _ _ Htail Hnt).
Qed.

Lemma phase_issues_none report targets phases raw_phases raws rows base label seconds :
  iterR ($report.["client"].["phases"]) = Ok raws ->
  Forall2 (fun p r => phase_row report p = Ok r) raws rows ->
  dict_by (fun phase => idx ($phase) "label") (fun phase => $phase) rows = Ok phases ->
  dict_by (fun phase => get ($phase) "label") (fun phase => $phase) raws = Ok raw_phases ->
  length phases = length rows -> truthy base = true ->
  phase_issues report targets phases raw_phases base label seconds = Ok [] ->
  demonstrated report targets base label seconds.
Proof.
  intros Hraws HF Hp Hr Hlen Hb H. unfold phase_issues in H. cbn [vget rbind] in H.
  destruct (dget (VStr label) phases) as [row|] eqn:Erow; cbn [default is_none id] in H; [|by destruct (fstring _)].
  destruct (is_none row) eqn:En; [by destruct (fstring _)|].
  apply rbind_ok in H as (phase & Hphase & H). cbn [py_getitem] in Hphase. apply of_option_ok in Hphase.
  pose proof (same_phase _ _ _ _ _ _ _ _ HF Hp Hr Hlen Erow Hphase Hraws) as Hu.
  destruct Hu as (raws' & i & Hraws' & Hi & Hlabel & Hrow & Huniq).
  destruct (phase_row_columns _ _ _ Hrow) as (samples & failures & unsent & Hs & _ & Hcol).
  column Hcol "seconds" v1 E1 R1. column Hcol "success_p99_ms" v2 E2 R2. column Hcol "admin_errors" v3 E3 R3.
  issues H. destruct H as (H1 & H2 & H3 & H4 & H5 & _).
  apply issue_none in H1, H2, H3. apply issue_none, with_baseline_false in H4; [|done].
  apply orR_false in H4 as [_ [_ H4]%orR_false].
  rewrite R1 in H1. rewrite R2 in H2. unfold test in H3. rewrite R3 in H3. cbn [rmap rbind] in H3.
  injection H3 as H3. exists phase, row. split; [by exists raws', i|]. split.
  - unfold sound_phase. rewrite E1, E2. split_and!; [done|done| |done].
    exists samples. split; [done|]. by eapply no_admin_errors.
  - destruct (startswith "overload_" label); [by apply overload_issues_none|by apply issue_none in H5].
Qed.

Lemma app_nil3 {A} (a b c d : list A) : a ++ (b ++ c) ++ d = [] -> a = [] /\ b = [] /\ c = [] /\ d = [].
Proof. by destruct a, b, c, d. Qed.

(** ** Properties *)

(** [validate] admits exactly the target ranges the script documents: every target is a finite
    number of at least zero, the sustained phases last at least 60, 180 and 30 seconds, the goodput
    ratio is in (0, 1], the unsent share below 100 percent and the CPU limit in (0, 100].  A NaN, an
    infinity or a value that is no number never passes. *)
Theorem validate_exact t : validate t = Ok tt <-> Sustained t.
Proof.
  assert (Hall : anyR (fun kv => notR (isfinite kv.2) ||' ($(kv.2) <' int 0)) (asdict t) = Ok false
                 <-> Forall (fun kv => finite_number kv.2 (num_le (NI 0))) (asdict t)).
  { rewrite anyR_false, !Forall_forall. by setoid_rewrite field_ok. }
  assert (Hnum : Forall (fun kv => finite_number kv.2 (num_le (NI 0))) (asdict t) ->
                 forall name v, In (name, v) (asdict t) -> exists n, num_of v = Some n /\ num_finite n = true).
  { intros HF name v. by apply target_number. }
  unfold Sustained, validate. split.
  - intros H. apply rbind_ok in H as (? & H1%guardR_ok & H). apply rbind_ok in H as (? & H2%guardR_ok & H).
    apply rbind_ok in H as (? & H3%guardR_ok & H4%guardR_ok). apply Hall in H1. specialize (Hnum H1).
    apply orR_false in H2 as [H2 [H2' H2'']%orR_false], H3 as [H3 H3'].
    edestruct (Hnum "baseline_seconds") as (n1 & N1 & F1); [cbn; auto 20|].
    edestruct (Hnum "overload_seconds") as (n2 & N2 & F2); [cbn; auto 20|].
    edestruct (Hnum "recovery_seconds") as (n3 & N3 & F3); [cbn; auto 20|].
    edestruct (Hnum "min_goodput_ratio") as (n4 & N4 & F4); [cbn; auto 20|].
    edestruct (Hnum "max_unsent_percent") as (n5 & N5 & F5); [cbn; auto 20|].
    edestruct (Hnum "max_core_busy_percent") as (n6 & N6 & F6); [cbn; auto 20|].
    split_and!; [done|by eapply at_least_ok|by eapply at_least_ok|by eapply at_least_ok|by eapply within_ok
                |by eapply below_ok|by eapply within_ok].
  - intros (H1 & H2 & H2' & H2'' & H3 & H3' & H4). apply Hall in H1 as ->. cbn [guardR rbind].
    destruct H2 as (n1 & N1 & F1 & ?), H2' as (n2 & N2 & F2 & ?), H2'' as (n3 & N3 & F3 & ?),
      H3 as (n4 & N4 & F4 & ?), H3' as (n5 & N5 & F5 & ?), H4 as (n6 & N6 & F6 & ?).
    unfold orR, guardR. rewrite (proj2 (at_least_ok _ 60 n1 N1 F1)), (proj2 (at_least_ok _ 180 n2 N2 F2)),
      (proj2 (at_least_ok _ 30 n3 N3 F3)), (proj2 (within_ok _ 1 n4 N4 F4)), (proj2 (below_ok _ 100 n5 N5 F5)),
      (proj2 (within_ok _ 100 n6 N6 F6)); [done|by eexists..].
Qed.

(** C18: a passing audit demonstrates sustained overload behaviour.  The generator ran on another kernel
    with a bounded clock uncertainty; and for each required phase the raw report has exactly one phase
    with its label, whose offers balance (it summarises), which lasted long enough, met the latency
    target, was observed without an admin error in any sample and with bounded memory; an overload phase
    carried its multiple of the baseline rate with enough real attempts, retained goodput, CPU headroom
    and bounded rejection and failure tails; the baseline and every recovery phase succeeded. *)
Theorem audit_demonstrates report targets result :
  audit report targets = Ok result -> idx ($result) "passed" = Ok (VBool true) ->
  validate targets = Ok tt /\ identity_issues report targets = Ok []
  /\ exists base, (exists phase, unique_phase report "baseline" phase base)
     /\ Forall (fun ls => demonstrated report targets base ls.1 ls.2) (required targets).
Proof.
  unfold audit. intros H Hpass. apply rbind_ok in H as ([] & Hv & H).
  apply rbind_ok in H as (summary & Hsum & H). apply rbind_ok in H as (identity & Hid & H).
  apply rbind_ok in H as (rows & Hrows & H). apply rbind_ok in H as (phases & Hp & H).
  apply rbind_ok in H as (base & Hbase & H). cbv zeta in H. apply rbind_ok in H as (raws & Hraws & H).
  apply rbind_ok in H as (raw_phases & Hr & H). apply rbind_ok in H as (found & Hf & H).
  destruct (mkdict_get _ _ "passed" _ H eq_refl) as (v & Ev & Hpv).
  rewrite Hpass in Hpv. rewrite <- Ev in Hpv. injection Hpv as Hpv. clear H v Ev.
  destruct (identity ++ _) eqn:Eall in Hpv; [clear Hpv|discriminate Hpv].
  apply app_nil3 in Eall as (-> & Hlen & Hbn & ->).
  destruct (_ =? _)%nat eqn:El in Hlen; [apply Nat.eqb_eq in El|discriminate Hlen].
  destruct (is_none base) eqn:En; [discriminate Hbn|].
  destruct (summarize_phases _ _ Hsum) as (raws' & rows' & Hraws' & Hrows' & HF).
  rewrite Hraws in Hraws'. injection Hraws' as <-. rewrite Hrows' in Hrows. cbn in Hrows. injection Hrows as ->.
  cbn [vget] in Hbase. destruct (dget (VStr "baseline") phases) as [b|] eqn:Eb; cbn in Hbase; injection Hbase as <-;
    [|discriminate En].
  destruct (dict_by_get _ _ _ _ _ _ Hp Eb) as (i & r & Hi & Hli & [= ->]).
  split_and!; [done|done|]. exists b. split.
  - destruct (Forall2_lookup_r _ _ _ _ _ HF Hi) as (ph & Hph & Hrow).
    assert (Hl : get ($ph) "label" = Ok (VStr "baseline")) by by rewrite <- (label_column _ _ _ Hrow).
    destruct (dict_by_has _ _ _ _ _ _ Hr (list_elem_of_lookup_2 _ _ _ Hph) Hl) as (q & Hq).
    exists q. by eapply same_phase.
  - apply issues_of_none in Hf. rewrite Forall_map in Hf. eapply Forall_impl; [exact Hf|].
    intros [label seconds] Hls. cbn [fst snd] in *. eapply phase_issues_none; try done.
    by eapply idx_truthy.
Qed.

(** The sample report is audited against the default targets; its document form is read by [main]. *)
Example sample_audit :
  (r <- audit sample_report default_targets ;; rmap py_repr (idx ($r) "issues")) = Ok "[]".
Proof. vm_compute. reflexivity. Qed.

Lemma audit_demonstrates_witness :
  exists base, (exists phase, unique_phase sample_report "baseline" phase base)
  /\ demonstrated sample_report default_targets base "overload_10x" (VInt 180).
Proof.
  assert (H : (r <- audit sample_report default_targets ;; idx ($r) "passed") = Ok (VBool true)) by (vm_compute; reflexivity).
  destruct (audit sample_report default_targets) as [r|] eqn:E; [|discriminate H].
  destruct (audit_demonstrates sample_report default_targets r E H) as (_ & _ & base & Hb & HF).
  exists base. split; [exact Hb|]. rewrite Forall_forall in HF.
  apply (HF ("overload_10x", VInt 180)). vm_compute. do 5 apply list_elem_of_further. apply list_elem_of_here.
Defined.

Definition passes (read : string -> res string) (targets : Targets) (path : string) : Prop :=
  exists text report result, read path = Ok text /\ json_loads text = Ok report
  /\ audit report targets = Ok result /\ idx ($result) "passed" = Ok (VBool true).

Lemma passed_bool report targets result b :
  audit report targets = Ok result -> test (idx ($result) "passed") = Ok b -> idx ($result) "passed" = Ok (VBool b).
Proof.
  unfold audit. intros H Ht. do 6 apply rbind_ok in H as (? & _ & H). cbv zeta in H. do 3 apply rbind_ok in H as (? & _ & H).
  destruct (mkdict_get _ _ "passed" _ H eq_refl) as (v & Ev & Hp). rewrite Hp in *. injection Ev as <-.
  cbn in Ht. by injection Ht as ->.
Qed.

(** the exit status is the verdict.  With status 0 every report given was read, parsed and passes
    the audit with valid targets; with status 1 some report fails it; with status 2 the targets were
    invalid and nothing was written; there is no other status. *)
Theorem audit_exit read reports out targets o status :
  main read reports out targets = Ok (o, status) ->
  (status = 0 /\ validate targets = Ok tt /\ Forall (passes read targets) reports)
  \/ (status = 1 /\ validate targets = Ok tt /\ exists path, path ∈ reports /\ ~ passes read targets path)
  \/ (status = 2 /\ o = None /\ exists msg, validate targets = raise ValueError msg).
Proof.
  unfold main. destruct (validate targets) as [[]|e] eqn:Ev.
  2:{ destruct (isa e ValueError) eqn:Ei; [|done]. intros [= <- <-]. right. right. split_and!; try done.
      unfold isa in Ei. apply bool_decide_eq_true_1 in Ei. destruct e as [c m]. cbn in Ei. subst. by exists m. }
  intros H. apply rbind_ok in H as (results & Hres & H). apply rbind_ok in H as (text & _ & H).
  apply rbind_ok in H as (passed & Hpass & [= <- <-]). unfold reports_by in Hres.
  destruct passed; [left|right; left].
  - split_and!; [done..|]. apply Forall_forall. intros path Hin. apply allR_ok in Hpass.
    destruct (dict_by_has _ _ _ _ path path Hres Hin eq_refl) as (v & Hv).
    destruct (dict_by_get _ _ _ _ _ _ Hres Hv) as (i & p & _ & [= ->] & Hp).
    apply rbind_ok in Hp as (txt & Ht & Hp). apply rbind_ok in Hp as (rep & Hrep & Hp).
    exists txt, rep, v. split_and!; [done..|]. apply (passed_bool rep targets); [done|].
    rewrite Forall_map, Forall_forall in Hpass. apply dget_In in Hv as (k & Hk). exact (Hpass _ Hk).
  - split_and!; [done..|]. apply allR_false in Hpass as (v & Hin & Hv).
    apply list_elem_of_In, in_map_iff in Hin as ([k v'] & Heq & Hin). cbn in Heq. subst v'.
    apply list_elem_of_In in Hin.
    destruct (dict_by_In _ _ _ _ _ _ Hres Hin) as (p & Hpin & Hk & Hp). exists p. split; [done|].
    intros (txt & rep & r & Ht & Hrep & Ha & Hpp). rewrite Ht in Hp. cbn [rbind] in Hp.
    rewrite Hrep in Hp. cbn [rbind] in Hp. rewrite Ha in Hp. injection Hp as <-. rewrite Hpp in Hv. done.
Qed.

(** A file system holding one report, and a too lenient target. *)
Definition sample_read (path : string) : res string :=
  if String.eqb path "run.json" then json_dumps2 sample_report else raise FileNotFoundError path.

Lemma audit_exit_witness :
  exists o, main sample_read ["run.json"] None default_targets = Ok (o, 0)
  /\ Forall (passes sample_read default_targets) ["run.json"].
Proof.
  assert (H : rmap snd (main sample_read ["run.json"] None default_targets) = Ok 0) by (vm_compute; reflexivity).
  destruct (main sample_read ["run.json"] None default_targets) as [[o status]|] eqn:E; [|discriminate H].
  injection H as ->. exists o. split; [reflexivity|].
  destruct (audit_exit sample_read ["run.json"] None default_targets o 0 E) as [(_ & _ & H)|[(H & _)|(H & _)]];
    [exact H|discriminate H|discriminate H].
Defined.
