(* ===== verification/SummarizeArchitecture.v ===== *)
(** * [bench/summarize_architecture.py]: interval counters of a diagnostic trial

    [host_delta] subtracts two snapshots of [/proc]: CPU ticks per core, TCP counters and NIC
    counters.  [summarize] turns the recorded [run.json] of a trial into rates per load phase. *)

From stdpp Require Import base list strings.
From Stdlib Require Import ZArith Lia Ascii.
From S2P Require Import Prelude PyFloat PyText PyVal PyJson PyScript PyStats Evidence.

Local Open Scope Z_scope.
Open Scope py_scope.

(** ** Parsing [/proc] *)

(** [map(int, words)] *)
Definition ints (words : list string) : res (list Z) := mapR py_int words.

(** The pairs of header and value lines, up to the first header of the protocol.  The lengths are
    compared only when the pairs run out. *)
Fixpoint find_counters (protocol : string) (lines : list string) : res dict :=
  match lines with
  | names :: values :: rest =>
      if startswith (protocol +:+ ":") names then
        vs <- ints (tail (split_ws values)) ;;
        l <- zip_strict (tail (split_ws names)) vs ;;
        dict_by (fun nv => str nv.1) (fun nv => int nv.2) l
      else find_counters protocol rest
  | [_] => raise ValueError "zip() argument 2 is shorter than argument 1"
  | [] => raise ValueError protocol
  end.
Definition counters (text protocol : string) : res dict := find_counters protocol (splitlines text).

(** [words and words[0].startswith('cpu') and words[0] != 'cpu'] *)
Definition core_words (line : string) : list string :=
  match split_ws line with
  | w :: ws => if startswith "cpu" w && negb (String.eqb w "cpu") then w :: ws else []
  | [] => []
  end.
Definition cores (text : string) : res dict :=
  dict_by (fun words => str (hd "" words)) (fun words => vs <- ints (take 8 (tail words)) ;; Ok (VList (map VInt vs)))
    (List.filter (fun ws => match ws with [] => false | _ => true end) (map core_words (splitlines text))).

(** ** Deltas of two snapshots *)

Definition text_of (host : val) (k : string) : res string := v <- $host.[k] ;; as_str v.

(** The busy and softirq shares of one core. *)
Definition core_share (before : dict) (cpu values : val) : res (val * val) :=
  l <- py_iter values ;;
  m <- (v <- py_getitem (VDict before) cpu ;; py_iter v) ;;
  pairs <- zip_strict l m ;;
  delta <- mapR (fun ab => py_sub ab.1 ab.2) pairs ;;
  ticks <- py_sum delta ;;
  let d := $(VList delta) in
  busy <- (if truthy ticks then ($ticks -' idx_at d 3 -' idx_at d 4) /' $ticks else int 0) ;;
  softirq <- (if truthy ticks then idx_at d 6 /' $ticks else int 0) ;;
  Ok (busy, softirq).

Definition core_shares (before after : dict) : res (dict * dict) :=
  foldR (fun bs kv =>
    let* (busy, softirq) := core_share before kv.1 kv.2 in
    Ok (dset kv.1 busy bs.1, dset kv.1 softirq bs.2)) ([], []) after.

Definition tcp_names : list string := ["InSegs"; "OutSegs"; "RetransSegs"; "InErrs"; "OutRsts"].
Definition tcp_ext_names : list string :=
  ["ListenOverflows"; "ListenDrops"; "TCPBacklogDrop"; "TCPRcvQDrop"; "TCPOFODrop";
   "TCPTimeouts"; "TCPFastRetrans"; "TCPLostRetransmit"; "TCPMemoryPressures"].

Definition nic_delta (first : val) (nic values : val) : expr :=
  l <- itemsR ($values) ;;
  rmap VDict (dict_by (fun kv => $(kv.1)) (fun kv => $(kv.2) -' at_ (at_ ($first.["nics"]) ($nic)) ($(kv.1))) l).

Definition host_delta (first last : val) : expr :=
  seconds <- ($last.["unix_ns"] -' $first.["unix_ns"]) /' lit 1000000000 0 ;;
  before <- (t <- text_of first "stat" ;; cores t) ;;
  after <- (t <- text_of last "stat" ;; cores t) ;;
  let* (busy, softirq) := core_shares before after in
  tcp_before <- (t <- text_of first "net/snmp" ;; counters t "Tcp") ;;
  tcp_after <- (t <- text_of last "net/snmp" ;; counters t "Tcp") ;;
  ext_before <- (t <- text_of first "net/netstat" ;; counters t "TcpExt") ;;
  ext_after <- (t <- text_of last "net/netstat" ;; counters t "TcpExt") ;;
  mkdict
    [("seconds", $seconds);
     ("busy_cores", py_sum (map snd busy)); ("busy_by_cpu", $(VDict busy));
     ("softirq_cores", py_sum (map snd softirq)); ("softirq_by_cpu", $(VDict softirq));
     ("tcp", dictcomp tcp_names (fun k => $(VDict tcp_after).[k] -' $(VDict tcp_before).[k]));
     ("tcp_ext", dictcomp tcp_ext_names (fun k =>
        getd ($(VDict ext_after)) k (VInt 0) -' getd ($(VDict ext_before)) k (VInt 0)));
     ("nics", l <- itemsR ($last.["nics"]) ;;
              rmap VDict (dict_by (fun kv => $(kv.1)) (fun kv => nic_delta first kv.1 kv.2) l))].

(** ** Summaries *)

(** [[s for s in samples if start+500_000_000 <= s['unix_ns'] < end-200_000_000]] *)
Definition within (start end_ : expr) (s : val) : res bool :=
  (start +' int 500000000 <=' $s.["unix_ns"]) &&' ($s.["unix_ns"] <' end_ -' int 200000000).

Definition unmeasured (path : parts) (run : val) : expr :=
  mkdict [("path", str (str_path path)); ("outcome", get ($run) "outcome"); ("error", get ($run) "error")].

Definition result_columns (path : parts) (run : val) : expr :=
  mkdict
    [("path", str (str_path path)); ("variant", $run.["variant"]); ("repeat", $run.["repeat"]);
     ("rss_mib", $run.["server_after"].["VmRSS"] /' int 1048576);
     ("process_cpu_seconds", $run.["server_after"].["cpu_seconds"] -' $run.["server_before"].["cpu_seconds"]);
     ("server_network", a <- $run.["host_before"] ;; b <- $run.["host_after"] ;; host_delta a b);
     ("server_exit", $run.["server_exit"]); ("phases", $(VList []))].

(** [if run.get('workers_after'):] *)
Definition worker_columns (run result : val) : expr :=
  ifR (test (get ($run) "workers_after"))
    (workers <- iterR ($run.["workers_after"].["workers"]) ;;
     counts <- mapR (fun worker => $worker.["requests_completed_total"]) workers ;;
     result <- setR result "worker_requests_max_over_mean" (py_max counts /' py_mean counts) ;;
     result <- setR result "worker_requests_min_over_mean" (py_min counts /' py_mean counts) ;;
     let after := $run.["metrics_after"].["counters"] in
     let before := $run.["metrics_before"].["counters"] in
     setR result "io_per_completion"
       (dictcomp ["io_submissions_total"; "io_completions_total"] (fun k =>
          (idx after k -' idx before k)
          /' (idx after "requests_completed_total" -' idx before "requests_completed_total"))))
    (Ok result).

Definition closed_loop_names : list string :=
  ["connections"; "connections_ready"; "connections_measured"; "connections_opened";
   "window_successes_per_second"; "latency_us"; "setup_errors"; "warmup_errors"; "errors"; "failures"].

(** One phase of an offered load. *)
Definition phase_row (run phase : val) : expr :=
  start <- $phase.["start_unix_ns"] +' $run.["clock_offset_ns"] ;;
  end_ <- $phase.["end_unix_ns"] +' $run.["clock_offset_ns"] ;;
  samples <- iterR ($run.["samples"]) ;;
  interval <- filterR (within ($start) ($end_)) samples ;;
  first <- firstR interval ;;
  last <- lastR interval ;;
  seconds <- ($last.["unix_ns"] -' $first.["unix_ns"]) /' lit 1000000000 0 ;;
  cpu <- dictcomp ["cpu_seconds"; "user_seconds"; "system_seconds"] (fun k =>
           ($last.["server"].[k] -' $first.["server"].[k]) /' $seconds) ;;
  row <- mkdict
    [("offered_rate", $phase.["offered_rate"]); ("goodput", $phase.["window_successes_per_second"]);
     ("failures", $phase.["failures"]); ("connections_opened", $phase.["connections_opened"]);
     ("generator_drops", $phase.["generator_queue_drops"] +' $phase.["generator_expired"]);
     ("offer_p99_us", $phase.["success_latency"].["p99_us"]);
     ("service_p99_us", $phase.["success_service_latency"].["p99_us"]);
     ("cpu_interval_seconds", $seconds); ("process_cpu_cores", $cpu.["cpu_seconds"]);
     ("user_cpu_cores", $cpu.["user_seconds"]); ("system_cpu_cores", $cpu.["system_seconds"]);
     ("cpu_us_per_success_estimate",
        $cpu.["cpu_seconds"] *' lit 1000000 0 /' $phase.["window_successes_per_second"]);
     ("server_host", a <- $first.["host"] ;; b <- $last.["host"] ;; host_delta a b)] ;;
  remote_samples <- iterR ($run.["remote_samples"]) ;;
  remote <- filterR (fun s => has ($s) "host"
              &&' within ($phase.["start_unix_ns"]) ($phase.["end_unix_ns"]) s) remote_samples ;;
  if (2 <=? length remote)%nat
  then setR row "client_host" (a <- idx (firstR remote) "host" ;; b <- idx (lastR remote) "host" ;; host_delta a b)
  else Ok row.

Definition whole_run_columns (run successes result : val) : expr :=
  let cpu_us k := ($run.["server_after"].[k] -' $run.["server_before"].[k]) *' lit 1000000 0 /' $successes in
  result <- setR result "total_successes" ($successes) ;;
  result <- setR result "whole_run_cpu_us_per_success"
              ($result.["process_cpu_seconds"] *' lit 1000000 0 /' $successes) ;;
  result <- setR result "whole_run_user_us_per_success" (cpu_us "user_seconds") ;;
  setR result "whole_run_system_us_per_success" (cpu_us "system_seconds").

(** [summarize] after [json.loads]. *)
Definition summarize_run (path : parts) (run : val) : expr :=
  ifR (get ($run) "outcome" !=' str "measured") (unmeasured path run)
    (_ <- $run.["server_before"] ;; _ <- $run.["server_after"] ;;
     load <- $run.["load"] ;;
     result <- result_columns path run ;;
     _ <- $run.["samples"] ;;
     result <- worker_columns run result ;;
     ifR (notR (has ($load) "phases"))
       (setR result "closed_loop" (dictcomp closed_loop_names (fun k => $load.[k])))
       (phases <- iterR ($load.["phases"]) ;;
        successes <- sumR (fun phase => $phase.["successes"]) phases ;;
        result <- whole_run_columns run successes result ;;
        rows <- mapR (phase_row run) phases ;;
        setR result "phases" ($(VList rows)))).

Definition summarize (t : tree) (path : parts) : expr := run <- read t path ;; summarize_run path run.

(** ** The script *)

Definition phase_line (phase : val) : res string :=
  fstring [V ($phase.["offered_rate"]); F " "; V (v <- $phase.["goodput"] ;; py_round v); F " ";
           V_ (format_fixed false 2) ($phase.["cpu_us_per_success_estimate"]);
           F " us CPU/response (estimate) ";
           V_ (format_fixed false 3) ($phase.["service_p99_us"] /' int 1000); F " ms service p99 ";
           V ($phase.["server_host"].["tcp"].["RetransSegs"]); F " retransmitted segments"].

Definition main (t : tree) (folder : parts) : res (list output) :=
  rows <- mapR (summarize t) (sorted_paths (glob t folder (is_child "run.json"))) ;;
  text <- json_dumps2 (VList rows) ;;
  printed <- mapR (fun row =>
    p <- fstring [V ($row.["path"])] ;;
    phases <- (v <- getd ($row) "phases" (VList []) ;; py_iter v) ;;
    lines <- mapR phase_line phases ;;
    Ok (join "" (map (fun l => l +:+ nl) (p :: lines)))) rows ;;
  Ok [Written (str_path (under folder "summary.json")) (text +:+ nl); Printed (join "" printed)].
