(* ===== verification/KeepalivePolicy.v ===== *)
(** * [bench/keepalive_policy.py]: rotated trials of the keepalive policy

    [main] rotates the ages after which idle connections may be reclaimed; a normal trial runs [architecture.py], a
    pressure trial starts a server and a client on another host that fills the server's slots and lets newcomers in.  The
    state of a pressure trial is that of [Overload]: the evidence is its report and the [ssh] process its second process. *)

From stdpp Require Import base list strings.
From Stdlib Require Import ZArith Lia Ascii.
From S2P Require Import Prelude PyFloat PyText PyVal PyJson PyScript Shlex PyStats PyHash Evidence PyIO System ProcSample RemoteLoad Compare Overload SummarizeArchitecture Architecture.

Local Open Scope Z_scope.
Open Scope py_scope.

(** ** Options *)

Record Options := mkOptions {
  output : string; pressing : bool; ages : list Z; repeats : Z; rounds : Z; idle_ms : Z; schedule : string; address : string;
  client_host : string; ssh_config : string }.

(** ** A pressure trial *)

Definition server_command (o : Options) (binary : string) (port admin age : Z) : list string :=
  [binary; "--address"; address o; "--port"; string_of_Z port; "--admin-port"; string_of_Z admin; "--workers"; "1";
   "--worker-cpus"; "9"; "--max-connections"; "1024"; "--max-active"; "1024"; "--max-requests"; "1000000";
   "--idle-timeout-ms"; "60000"; "--idle-reclaim-ms"; string_of_Z age; "--no-access-log"].
Definition remote_command (o : Options) (source : string) : list string :=
  ["ssh"; "-F"; ssh_config o; "-T"; client_host o; shlex_join ["python3"; "-u"; "-c"; source]].

(** [send(message)]: written to the client's input and flushed *)
Definition send (remote : handle) (message : val) : io host unit :=
  text <~ lift (json_dumps message) ; fallible (Input remote (text +:+ nl)).
(** [json.loads(remote.stdout.readline())] *)
Definition answer : io host val := line <~ answer_text ; lift (json_loads line).

Definition start_message (o : Options) (port : Z) : val :=
  obj [("address", VStr (address o)); ("port", VInt port); ("rounds", VInt (rounds o)); ("idle_ms", VInt (idle_ms o))].

(** The samples around the load. *)
Definition sample_all (when_ : string) : io state unit :=
  record ("server_" +:+ when_) take_proc_sample ;~
  record ("host_" +:+ when_) host_sample ;~
  record ("metrics_" +:+ when_) (admin_json "/debug/metrics").

(** The [try] block. *)
Definition trial (fuel : nat) (o : Options) (source : string) (port : Z) (command : list string) : io state unit :=
  server <~ on_host (popen command) ;
  set_server server ;~
  on_host (wait_ready fuel server) ;~
  running <~ on_host read_proc ;
  put "running_binary_sha256" (VStr (sha256_hex running)) ;~
  report <~ gets o_report ;
  require_ ($report.["running_binary_sha256"] ==' $report.["binary_sha256"]) ;~
  remote <~ on_host (popen (remote_command o source)) ;
  set_client remote ;~
  on_host (send remote (start_message o port)) ;~
  record "setup" answer ;~
  report <~ gets o_report ;
  require_ ($report.["setup"].["validated"] ==' int 1024) ;~
  require_ ($report.["setup"].["identity"].["boot_id"] !=' $report.["server_identity"].["boot_id"]) ;~
  sample_all "before" ;~
  on_host (send remote (obj [("go", VBool true)])) ;~
  record "load" answer ;~
  sample_all "after" ;~
  on_host (send remote (obj [("finish", VBool true)])) ;~
  on_host (wait_timeout remote) ;~
  code <~ on_host (returncode remote) ;
  require_ ($code ==' int 0) ;~
  put "outcome" (VStr "measured").

(** The [finally] block. *)
Definition end_remote (remote : handle) : io host unit :=
  code <~ poll remote ;
  (match code with Some _ => ret tt | None => terminate remote ;~ wait_timeout remote ;~ ret tt end) ;~
  close_pipe ;~
  advance ;~ ret tt.
(** The client is ended first, then the server; [rest] is what follows. *)
Definition end_both (rest : option handle -> io state unit) : io state unit :=
  remote <~ gets o_client ;
  (match remote with Some h => on_host (end_remote h) | None => ret tt end) ;~
  server <~ gets o_server ;
  on_host (stop server) ;~
  rest server.
Definition write_record (folder : string) : io state unit :=
  report <~ gets o_report ;
  text <~ lift (json_dumps2 report) ;
  on_host (write_file (folder +:+ "/run.json") (text +:+ nl)).
Definition cleanup (folder : string) : io state unit := end_both (fun _ => write_record folder).

(** A trial from its first evidence to what it has recorded. *)
Definition recorded_by (body cleanup : io state unit) (evidence : val) : io host val := fun h =>
  let '(r, s) := finally body cleanup (State h evidence None None false None) in (rmap (fun _ => o_report s) r, o_host s).

Definition counter_delta (k : string) (report : val) : expr :=
  $report.["metrics_after"].["counters"].[k] -' $report.["metrics_before"].["counters"].[k].
Definition pressure_result (report : val) : expr :=
  _ <- $report.["metrics_after"].["counters"] ;;
  _ <- $report.["metrics_before"].["counters"] ;;
  mkdict [("load", $report.["load"]);
          ("server_cpu_seconds", $report.["server_after"].["cpu_seconds"] -' $report.["server_before"].["cpu_seconds"]);
          ("reclaimed", counter_delta "connections_reclaimed_total" report);
          ("reclaim_timeouts", counter_delta "connection_reclaim_timeouts_total" report)].

(** What is known before the [try]. *)
Definition evidence_of (o : Options) (age : Z) : io host (Z * list string * string * val) :=
  port <~ free_port ;
  admin <~ free_port ;
  binary <~ answer_text ;
  let command := server_command o binary port admin age in
  source <~ read_proc ;
  mine <~ identity ;
  content <~ read_proc ;
  ret (port, command, source,
       obj [("command", VList (map VStr command)); ("server_identity", mine); ("binary_sha256", VStr (sha256_hex content));
            ("client_source_sha256", VStr (sha256_hex source))]).

Definition pressure (fuel : nat) (o : Options) (age : Z) (folder : string) : io host val :=
  let~ (((port, command), source), evidence) := evidence_of o age in
  external ;~
  external ;~
  report <~ recorded_by (trial fuel o source port command) (cleanup folder) evidence ;
  lift (pressure_result report).

(** ** The rotation *)

Section Root.
Context (ROOT : string).

Definition normal_command (o : Options) (python binary folder : string) (age : Z) : list string :=
  [python; str_path (under (path_of ROOT) "bench/architecture.py"); "--output"; folder; "--variants"; "zig"; "--zig-binary"; binary;
   "--connections"; "8192"; "--workers"; "7"; "--capacity"; "4096"; "--worker-cpus"; "9-15";
   "--idle-reclaim-ms"; string_of_Z age; "--schedule"; schedule o; "--repeats"; "1"; "--address"; address o;
   "--client-host"; client_host o; "--ssh-config"; ssh_config o].
Definition normal (o : Options) (python folder : string) (age : Z) : io host val :=
  binary <~ answer_text ;
  command_shown (normal_command o python binary folder age) ;~
  text <~ read_proc ;
  lift (run <- json_loads text ;; summarize_run (under (path_of folder) "zig-1/run.json") run).

Definition result_line (o : Options) (age repeat : Z) (result : val) : res string :=
  if pressing o then print_line [int age; int repeat; $result.["load"].["newcomers"]; $result.["load"].["residents"]]
  else print_line [int age; int repeat;
                   (phases <- iterR ($result.["phases"]) ;;
                    listR (fun p => tupleR [$p.["offered_rate"]; $p.["cpu_us_per_success_estimate"]; $p.["service_p99_us"];
                                            $p.["failures"]]) phases)].

Definition age_step (fuel : nat) (o : Options) (python : string) (repeat : Z) (summary : list val) (age : Z) : io host (list val) :=
  let folder := str_path (under (path_of (output o)) ("age-" +:+ string_of_Z age +:+ "-r" +:+ string_of_Z repeat)) in
  say ("Starting " +:+ folder) ;~
  result <~ (if pressing o then external ;~ pressure fuel o age folder else normal o python folder age) ;
  let summary := summary ++ [obj [("age_ms", VInt age); ("repeat", VInt repeat); ("result", result)]] in
  text <~ lift (json_dumps2 (VList summary)) ;
  write_file (output o +:+ "/summary.json") (text +:+ nl) ;~
  line <~ lift (result_line o age repeat result) ;
  say line ;~
  ret summary.

(** [main] from its parsed arguments on; [python] is [sys.executable]. *)
Definition main (fuel : nat) (o : Options) (python : string) : io host unit :=
  external ;~
  soft <~ clock ;
  hard <~ clock ;
  lift (py_max [soft; VInt 65536]) ;~
  external ;~
  foldM (fun summary repeat => foldM (age_step fuel o python (Z.of_nat repeat + 1)) summary (rotate repeat (ages o)))
    [] (seq 0 (Z.to_nat (repeats o))) ;~
  ret tt.
End Root.

(** ** Lemmas *)

Lemma calm_sample_all when_ : calm (sample_all when_).
Proof. unfold sample_all, record. calmly. Qed.
#[export] Hint Resolve calm_sample_all : zhtps.

Lemma settled_end_remote remote : settled (end_remote remote).
Proof. unfold end_remote. settle. Qed.

(** The client is ended, or did not end in time. *)
Lemma end_remote_spec remote w r w' :
  pipes_hold w -> end_remote remote w = (r, w') ->
  match r with Ok _ => exited remote w' | Err e => is_class e TimeoutExpired = true end.
Proof.
  intros Hp. unfold end_remote. unfold bind at 1. destruct (poll remote w) as [x w1] eqn:E1.
  pose proof (settled_poll _ _ _ _ E1) as [L1 _]. assert (exists c, x = Ok c) as [c ->] by (by injection E1 as <- _; eauto).
  set (m := match c with Some _ => ret tt | None => terminate remote ;~ wait_timeout remote ;~ ret tt end).
  assert (Hm : settled m) by (unfold m; case_match; settle). unfold bind at 1. destruct (m w1) as [y w2] eqn:E2.
  pose proof (Hm _ _ _ E2) as [L2 _].
  assert (Hy : match y with Ok _ => exited remote w2 | Err e => is_class e TimeoutExpired = true end).
  { subst m. destruct c as [c|]; [injection E2 as <- <-; by eapply poll_some|]. unfold bind at 1 in E2.
    destruct (terminate remote w1) as [z w3] eqn:E3. assert (z = Ok tt) as -> by by injection E3 as <- _.
    unfold bind in E2. destruct (wait_timeout remote w3) as [[q|e] w4] eqn:E4; injection E2 as <- <-;
      [by eapply wait_timeout_ok|by eapply wait_timeout_err]. }
  destruct y as [[]|e]; [|by intros [= <- <-]]. assert (U : pipes_hold w2) by by do 2 (eapply pipes_later; [done|]).
  unfold bind at 1. destruct (close_pipe w2) as [z w3] eqn:E3. pose proof (settled_close_pipe _ _ _ E3) as [L3 _].
  assert (z = Ok tt) as ->.
  { unfold close_pipe, bind, advance in E3. cbn in E3. rewrite (U (steps w2)) in E3. by injection E3 as <- _. }
  intros E4. assert (Ha : settled (advance ;~ ret tt)) by settle. pose proof (Ha _ _ _ E4) as [L4 _].
  assert (r = Ok tt) as -> by by injection E4 as <- _. by apply L4, L3.
Qed.

(** A pressure trial starts its server first and its client second, and names both. *)
Lemma triple_pressure_trial fuel o source port command :
  guards (fun s => tracked s /\ no_client s /\ no_server s) (trial fuel o source port command) (fun _ => tracked).
Proof.
  assert (HS : stable (fun s => tracked s /\ no_client s /\ no_server s)).
  { apply stable_and; [apply stable_tracked|]. apply stable_and; [apply stable_no_client|apply stable_no_server]. }
  assert (HT : forall s, tracked s /\ no_client s /\ no_server s -> tracked s) by by intros s [? _].
  unfold trial. eapply triple_bind; [apply (triple_popen _ _ HS HT)|]. intros server.
  apply (triple_bind _ _ (fun _ => waiting)); [exact (triple_set_server server)|]. intros ?; cbv beta.
  do 5 calm_step waiting.
  eapply triple_bind; [apply triple_popen; [apply stable_waiting|apply waiting_tracked]|]. intros remote.
  eapply triple_bind; [apply (triple_set_client waiting); by intros ? [_ [? _]]|]. intros ?; cbv beta.
  apply triple_calm; [unfold record, answer, send, returncode; calmly|apply stable_tracked|done].
Qed.

Lemma end_both_ends rest s r s' :
  (forall server, calm (rest server)) -> tracked s -> o_remote s = None -> pipes_hold (o_host s) -> end_both rest s = (r, s') ->
  all_exited (o_host s') \/ exists e, r = Err e /\ is_class e TimeoutExpired = true.
Proof.
  intros Hrest Ht Hr Hp H. pose proof Ht as [H1 H2]. unfold end_both in H. unfold bind at 1, gets at 1 in H. unfold bind at 1 in H.
  set (m := match o_client s with Some h => on_host (end_remote h) | None => ret tt end) in H.
  assert (Cm : calm m) by (subst m; destruct (o_client s); [apply calm_on_host, settled_end_remote|apply calm_ret]).
  destruct (m s) as [r1 s1] eqn:E1. destruct (Cm _ _ _ E1) as (L1 & N1 & Es1).
  assert (X1 : match r1 with Ok _ => forall h, o_client s = Some h -> exited h (o_host s1) | Err e => is_class e TimeoutExpired = true end).
  { subst m. destruct (o_client s) as [h|]; [|by injection E1 as <- _]. unfold on_host, zoom in E1.
    destruct (end_remote h (o_host s)) as [x w] eqn:Ee. apply end_remote_spec in Ee; [|done]. injection E1 as <- <-. cbn.
    destruct x; [by intros k [= <-]|done]. }
  destruct r1 as [u|e]; [|injection H as <- <-; right; by exists e]. left. unfold names_of in Es1. injection Es1 as Es1 Ec1 Er1.
  unfold bind at 1, gets at 1 in H. unfold bind at 1 in H. destruct (on_host (stop (o_server s1)) s1) as [r2 s2] eqn:E2.
  assert (B2 : forall h, o_server s1 = Some h -> (h < length (procs (o_host s1)))%nat).
  { intros h Hh. rewrite N1. apply H2. left. left. congruence. }
  destruct (on_host_stop _ _ _ _ B2 E2) as (-> & X2 & L2 & N2 & _).
  destruct (Hrest _ _ _ _ H) as ((Lx & _) & N3 & _). intros k Hk0. apply Lx.
  destruct (H1 k) as [Hx|[[Hx|[Hx|Hx]]|Hx]]; [lia| | | | |done].
  - by apply L2, L1.
  - apply X2. congruence.
  - by apply L2, X1.
  - rewrite Hr in Hx. done.
Qed.

(** *** Computations that end every process, unless one does not end in time *)

Definition winds_up {A} (m : io host A) : Prop := forall w r w', all_exited w -> pipes_hold w -> m w = (r, w') ->
  pipes_hold w' /\ (all_exited w' \/ exists e, r = Err e /\ is_class e TimeoutExpired = true).

Lemma winds_tidy {A} (m : io host A) : tidy m -> winds_up m.
Proof.
  intros Hm w r w' Hw Hp E. apply Hm in E as [L Hx]. split; [by eapply pipes_later|]. left. intros k Hk.
  destruct (decide (k < length (procs w))%nat); [by apply L, Hw|apply Hx; lia].
Qed.
Lemma winds_bind {A B} (m : io host A) (k : A -> io host B) : winds_up m -> (forall a, winds_up (k a)) -> winds_up (bind m k).
Proof.
  intros Hm Hk w r w' Hw Hp. unfold bind. destruct (m w) as [[a|e] w1] eqn:E; destruct (Hm _ _ _ Hw Hp E) as [Hq [Hx|(e' & He & Hc)]].
  - by intros H%Hk.
  - done.
  - intros [= _ <-]. split; [done|by left].
  - intros [= <- <-]. split; [done|]. right. injection He as ->. eauto.
Qed.
Lemma winds_foldM {A S} (f : S -> A -> io host S) l s : (forall s a, winds_up (f s a)) -> winds_up (foldM f s l).
Proof. intros Hf. revert s. induction l as [|a l IH]; intros s; cbn; [apply winds_tidy; auto with zhtps|]. by apply winds_bind. Qed.

Lemma winds_each {A} (f : A -> io host unit) l : (forall a, winds_up (f a)) -> winds_up (each f l).
Proof. intros Hf. induction l as [|a l IH]; cbn; [apply winds_tidy; auto with zhtps|]. by apply winds_bind. Qed.

(** Nothing in a pressure trial makes a collector. *)
Definition keeps_remote {A} (m : io state A) : Prop := forall s r s', m s = (r, s') ->
  o_remote s' = o_remote s /\ oracle (o_host s') = oracle (o_host s).
Lemma keeps_remote_bind {A B} (m : io state A) (k : A -> io state B) :
  keeps_remote m -> (forall a, keeps_remote (k a)) -> keeps_remote (bind m k).
Proof.
  intros Hm Hk s r s'. unfold bind. destruct (m s) as [[a|e] s1] eqn:E; apply Hm in E as [H1 H2]; [|by intros [= _ <-]].
  intros [H3 H4]%Hk. split; congruence.
Qed.
Lemma keeps_remote_on_host {A} (m : io host A) : steady m -> keeps_remote (on_host m).
Proof.
  intros Hm s r s'. unfold on_host, zoom. destruct (m (o_host s)) as [x w] eqn:E. apply Hm in E as (_ & _ & E).
  by intros [= _ <-].
Qed.
Lemma keeps_remote_lift {A} (x : res A) : keeps_remote (lift x).
Proof. by intros s r s' [= _ <-]. Qed.
Lemma keeps_remote_ret {A} (a : A) : keeps_remote (ret a).
Proof. by intros s r s' [= _ <-]. Qed.
Lemma keeps_remote_throw {A} e : keeps_remote (throw (A:=A) e).
Proof. by intros s r s' [= _ <-]. Qed.
Lemma keeps_remote_gets {A} (f : state -> A) : keeps_remote (gets f).
Proof. by intros s r s' [= _ <-]. Qed.
Lemma keeps_remote_put k v : keeps_remote (put k v).
Proof. intros s r s'. unfold put, set_report. destruct (setR _ _ _); by intros [= _ <-]. Qed.
Lemma keeps_remote_server h : keeps_remote (set_server h).
Proof. by intros s r s' [= _ <-]. Qed.
Lemma keeps_remote_client h : keeps_remote (set_client h).
Proof. by intros s r s' [= _ <-]. Qed.
#[export] Hint Resolve keeps_remote_lift keeps_remote_ret keeps_remote_throw keeps_remote_gets keeps_remote_put keeps_remote_server
  keeps_remote_client : zhtps.
Ltac keep_remote := repeat first
  [ progress intros | solve [auto with zhtps] | apply keeps_remote_bind
  | apply keeps_remote_on_host; first [solve [auto with zhtps] | apply settled_steady; settle] | case_match ].
Lemma trial_keeps_remote fuel o source port command : keeps_remote (trial fuel o source port command).
Proof. unfold trial, sample_all, record, require_, answer, send, returncode. keep_remote. Qed.

(** A trial that names the processes it starts, ended by [end_both]. *)
Lemma winds_recorded body rest evidence :
  guards (fun s => tracked s /\ no_client s /\ no_server s) body (fun _ => tracked) -> keeps_remote body ->
  (forall server, calm (rest server)) -> (forall server, keeps_remote (rest server)) ->
  winds_up (recorded_by body (end_both rest) evidence).
Proof.
  intros Hb Hk Hc Hkc w r w' Hw Hp. unfold recorded_by, finally. set (s := State w evidence None None false None).
  assert (Hs : tracked s /\ no_client s /\ no_server s).
  { split; [|done]. split; cbn; [|by intros k [[?|[?|?]]|?]]. intros k Hk0. left. by apply Hw. }
  destruct (body s) as [r1 s1] eqn:E1. pose proof (Hk _ _ _ E1) as [Hr Ho].
  assert (Ht : tracked s1) by (pose proof (Hb _ _ _ Hs E1) as Ht; by destruct r1).
  assert (P1 : pipes_hold (o_host s1)) by (intros n; rewrite Ho; apply Hp).
  destruct (end_both rest s1) as [r2 s2] eqn:E2.
  assert (K : keeps_remote (end_both rest)) by (unfold end_both, end_remote; keep_remote; auto).
  destruct (K _ _ _ E2) as [_ O2]. pose proof (end_both_ends _ _ _ _ Hc Ht Hr P1 E2) as Hx.
  intros E. assert (w' = o_host s2 /\ (forall e, r2 = Err e -> r = Err e)) as [-> He]
    by (destruct r2; injection E as <- <-; split; [done|done|done|by intros ? [= ->]]).
  split; [intros n; rewrite O2; apply P1|]. destruct Hx as [Hx|(e & -> & He')]; [by left|right]. exists e. split; [by apply He|done].
Qed.

Lemma calm_write_record folder : calm (write_record folder).
Proof. unfold write_record. calmly. Qed.
Lemma write_record_keeps folder : keeps_remote (write_record folder).
Proof. unfold write_record, write_file. keep_remote. Qed.

Lemma settled_policy_evidence o age : settled (evidence_of o age).
Proof. unfold evidence_of. settle. Qed.
Lemma winds_main ROOT fuel o python : winds_up (main ROOT fuel o python).
Proof.
  unfold main. do 5 (apply winds_bind; [apply winds_tidy; auto with zhtps|]; intros ?).
  apply winds_bind; [|intros; apply winds_tidy; auto with zhtps]. apply winds_foldM. intros s repeat_. apply winds_foldM.
  intros s' age. unfold age_step. cbv zeta. apply winds_bind; [apply winds_tidy; tidily|]. intros _.
  apply winds_bind; [|intros; apply winds_tidy; tidily]. destruct (pressing o).
  - apply winds_bind; [apply winds_tidy; tidily|]. intros _. unfold pressure.
    apply winds_bind; [apply winds_tidy, tidy_settled, settled_policy_evidence|]. intros [[[port command] source] evidence].
    do 2 (apply winds_bind; [apply winds_tidy; tidily|]; intros ?).
    apply winds_bind; [apply winds_recorded; intros; auto using triple_pressure_trial, trial_keeps_remote, calm_write_record, write_record_keeps|].
    intros report. apply winds_tidy. tidily.
  - unfold normal. apply winds_bind; [apply winds_tidy; tidily|]. intros binary. apply winds_tidy. tidily.
Qed.

(** However a rotation ends, as long as no input is found broken when it is closed, every process it started has exited,
    unless it ends with the [TimeoutExpired] of a client that did not end in time. *)
Theorem policy_stops_everything ROOT fuel o python h r h' :
  procs h = [] -> pipes_hold h -> main ROOT fuel o python h = (r, h') ->
  all_exited h' \/ exists e, r = Err e /\ is_class e TimeoutExpired = true.
Proof. intros Hh Hp E. apply winds_main in E as [_ Hx]; [done| |done]. intros k Hk. rewrite Hh in Hk. cbn in Hk. lia. Qed.

(** *** A client that is lost *)

Definition sample_options : Options := mkOptions "out" true [0] 1 1 150 "" "127.0.0.1" "client" "ssh.conf".
Definition pressure_turns : list turn :=
  [number_ 9000; number_ 9001; text_ "/b/zhtps"; text_ "source"; text_ "server"; text_ "6.1"; text_ "x86_64"; text_ "boot";
   answered (VList [VInt 0]); text_ "bytes"; blank; blank]
  ++ [blank; number_ 0; number_ 1; blank; blank; number_ 200; text_ ("ZHTPS" +:+ nl); answered (VList []); text_ "bytes"; blank].
Definition lost_client_host : host :=
  Host [] (fun n => nth n pressure_turns (Turn [(1%nat, 255)] (Some (Exn BrokenPipeError "")) VNone [] true)) 0 [] [].

(** The [ssh] process dies before the first message: the message fails, and closing the client's input in the [finally]
    block fails again, so the server is left running and the record is not written. *)
Example lost_client_leaves_server :
  (let '(r, h) := pressure 10 sample_options 50 "out/age-50-r1" lost_client_host in (r, procs h))
  = (raise BrokenPipeError "", [Running; Exited 255]).
Proof. vm_compute. reflexivity. Qed.
