(* ===== verification/IdlePressure.v ===== *)
(** * [bench/idle_pressure.py]: admission under a full set of idle connections

    Two variants are rotated; a trial starts a server and the client of [idle_pressure_client.py] on another host, whose
    messages a thread puts on a queue.  The state is that of [Overload], as in [KeepalivePolicy]; the queue is that of the
    outside world, with [None] for the end of the client's output. *)

From stdpp Require Import base list strings.
From Stdlib Require Import ZArith Lia Ascii.
From S2P Require Import Prelude PyFloat PyText PyVal PyJson PyScript Shlex PyStats PyHash Evidence PyIO System ProcSample RemoteLoad Compare Overload SummarizeArchitecture Architecture KeepalivePolicy.

Local Open Scope Z_scope.
Open Scope py_scope.

Record Options := mkOptions { output : string; connections : Z; repeats : Z }.

(** A variant with its resolved binary and the digest of it. *)
Record variant := Variant { v_name : string; v_binary : string; v_hash : string }.

Definition server_command (o : Options) (v : variant) (port admin : Z) : list string :=
  [v_binary v; "--address"; "192.0.2.10"; "--port"; string_of_Z port; "--admin-port"; string_of_Z admin; "--workers"; "1";
   "--worker-cpus"; "9"; "--max-connections"; string_of_Z (connections o); "--max-active"; string_of_Z (connections o);
   "--idle-timeout-ms"; "60000"; "--no-access-log"]
  ++ (if String.eqb (v_name v) "candidate" then ["--idle-reclaim-ms"; "50"] else []).
Definition remote_command (source : string) : list string :=
  ["ssh"; "-F"; "/path/to/benchmark-ssh.conf"; "-T"; "client.example"; shlex_join ["python3"; "-u"; "-c"; source]].

(** [receive(kind)] *)
Definition receive (kind : string) : io host val :=
  result <~ get_event ;
  same <~ lift (if is_none result then Ok false else $result.["kind"] ==' str kind) ;
  if same : bool then ret result else throw (Exn AssertionError (py_str result)).

Definition start_message (o : Options) (port : Z) : val :=
  obj [("address", VStr "192.0.2.10"); ("port", VInt port); ("connections", VInt (connections o)); ("requests", VInt 128)].
Definition kind_message (kind : string) : val := obj [("kind", VStr kind)].

(** The [try] block. *)
Definition trial (fuel : nat) (o : Options) (v : variant) (source : string) (port : Z) (command : list string) : io state unit :=
  server <~ on_host (popen command) ;
  set_server server ;~
  on_host (wait_ready fuel server) ;~
  running <~ on_host read_proc ;
  put "running_binary_sha256" (VStr (sha256_hex running)) ;~
  report <~ gets o_report ;
  require_ ($report.["running_binary_sha256"] ==' str (v_hash v)) ;~
  remote <~ on_host (popen (remote_command source)) ;
  set_client remote ;~
  on_host (send remote (start_message o port)) ;~
  record "remote_identity" (receive "hello") ;~
  report <~ gets o_report ;
  require_ ($report.["remote_identity"].["boot_id"] !=' $report.["server_identity"].["boot_id"]) ;~
  record "setup" (receive "ready") ;~
  record "metrics_before" (admin_json "/debug/metrics") ;~
  record "server_before" take_proc_sample ;~
  record "host_before" host_sample ;~
  on_host (send remote (kind_message "go")) ;~
  record "load" (receive "result") ;~
  record "server_after" take_proc_sample ;~
  record "host_after" host_sample ;~
  record "metrics_after" (admin_json "/debug/metrics") ;~
  on_host (send remote (kind_message "finish")) ;~
  on_host (wait_timeout remote) ;~
  code <~ on_host (returncode remote) ;
  require_ ($code ==' int 0) ;~
  put "outcome" (VStr "measured").

Definition on_failure (e : exn) : io state unit :=
  put "outcome" (VStr "failed") ;~ put "error" (VStr (exn_repr e)) ;~ throw e.

(** The [finally] block. *)
Definition cleanup (folder : string) : io state unit :=
  end_both (fun server =>
    code <~ on_host (match server with Some h => returncode h | None => ret VNone end) ;
    put "server_exit" code ;~
    write_record folder).

(** [{key: value for key, value in record['load'].items() if key != 'outcomes'}] *)
Definition shown (report : val) : expr :=
  d <- itemsR ($report.["load"]) ;; Ok (VDict (List.filter (fun kv => negb (py_eqb kv.1 (VStr "outcomes"))) d)).

Definition variant_step (fuel : nat) (o : Options) (source : string) (repeat : Z) (v : variant) : io host unit :=
  let folder := str_path (under (path_of (output o)) (v_name v +:+ "-" +:+ string_of_Z repeat)) in
  external ;~
  port <~ free_port ;
  admin <~ free_port ;
  let command := server_command o v port admin in
  mine <~ identity ;
  let evidence := obj [("variant", VStr (v_name v)); ("repeat", VInt repeat); ("command", VList (map VStr command));
                       ("binary_sha256", VStr (v_hash v)); ("server_identity", mine);
                       ("client_source_sha256", VStr (sha256_hex source))] in
  external ;~
  external ;~
  report <~ recorded_by (catch (trial fuel o v source port command) on_failure) (cleanup folder) evidence ;
  line <~ lift (print_line [str (v_name v); int repeat; shown report]) ;
  say line.

Definition resolve (name : string) : io host (string * string) := path <~ answer_text ; ret (name, path).
Definition hash_of (np : string * string) : io host variant := content <~ read_proc ; ret (Variant np.1 np.2 (sha256_hex content)).

(** [main] from its parsed arguments on: the variants differ. *)
Definition main (fuel : nat) (o : Options) : io host unit :=
  soft <~ clock ;
  hard <~ clock ;
  lift (py_max [soft; VInt (connections o + 256)]) ;~
  external ;~
  external ;~
  paths <~ mapM resolve ["before"; "candidate"] ;
  variants <~ mapM hash_of paths ;
  (if bool_decide (NoDup (map v_hash variants)) then ret tt else throw (Exn AssertionError "")) ;~
  source <~ read_proc ;
  each (fun repeat => each (variant_step fuel o source (Z.of_nat repeat + 1)) (rotate (repeat mod 2) variants))
    (seq 0 (Z.to_nat (repeats o))).

(** ** Lemmas *)

Lemma settled_receive_event kind : settled (receive kind).
Proof. unfold receive. settle. Qed.
Lemma calm_pressure_failure e : calm (on_failure e).
Proof. unfold on_failure. calmly. Qed.
#[export] Hint Resolve settled_receive_event calm_pressure_failure : zhtps.

Lemma triple_idle_trial fuel o v source port command :
  guards (fun s => tracked s /\ no_client s /\ no_server s) (trial fuel o v source port command) (fun _ => tracked).
Proof.
  assert (HS : stable (fun s => tracked s /\ no_client s /\ no_server s)).
  { apply stable_and; [apply stable_tracked|]. apply stable_and; [apply stable_no_client|apply stable_no_server]. }
  assert (HT : forall s, tracked s /\ no_client s /\ no_server s -> tracked s) by by intros s [? _].
  unfold trial. eapply triple_bind; [apply (triple_popen _ _ HS HT)|]. intros server.
  apply (triple_bind _ _ (fun _ => waiting)); [exact (triple_set_server server)|]. intros ?; cbv beta.
  do 5 calm_step waiting.
  eapply triple_bind; [apply triple_popen; [apply stable_waiting|apply waiting_tracked]|]. intros remote.
  eapply triple_bind; [apply (triple_set_client waiting); by intros ? [_ [? _]]|]. intros ?; cbv beta.
  apply triple_calm; [unfold record, send, returncode; calmly|apply stable_tracked|done].
Qed.

Lemma guarded_idle_trial fuel o v source port command :
  guards (fun s => tracked s /\ no_client s /\ no_server s) (catch (trial fuel o v source port command) on_failure) (fun _ => tracked).
Proof.
  intros s r s' Hs. unfold catch. destruct (trial fuel o v source port command s) as [[u|e] s1] eqn:E1;
    pose proof (triple_idle_trial _ _ _ _ _ _ _ _ _ Hs E1) as Ht; cbn in Ht; [by intros [= <- <-]|].
  intros E. pose proof (calm_pressure_failure e _ _ _ E) as (L & N & En).
  assert (tracked s') by by eapply stable_tracked. by destruct r.
Qed.
Lemma idle_trial_keeps fuel o v source port command : keeps_remote (catch (trial fuel o v source port command) on_failure).
Proof.
  assert (Hf : forall e, keeps_remote (on_failure e)) by (intros e; unfold on_failure; keep_remote).
  assert (Ht : keeps_remote (trial fuel o v source port command)).
  { assert (forall k, steady (receive k)) by auto with zhtps. unfold trial, record, require_, send, returncode. keep_remote. }
  intros s r s'. unfold catch. destruct (trial fuel o v source port command s) as [[u|e] s1] eqn:E; apply Ht in E as [E1 E2].
  - by intros [= _ <-].
  - intros H. apply Hf in H as [H1 H2]. split; congruence.
Qed.

Lemma winds_idle_main fuel o : winds_up (main fuel o).
Proof.
  unfold main. do 5 (apply winds_bind; [apply winds_tidy; auto with zhtps|]; intros ?).
  do 2 (apply winds_bind; [apply winds_tidy, tidy_mapM; intros; unfold resolve, hash_of; tidily|]; intros ?).
  do 2 (apply winds_bind; [apply winds_tidy; tidily|]; intros ?).
  apply winds_each. intros repeat_. apply winds_each. intros v. unfold variant_step. cbv zeta.
  do 6 (apply winds_bind; [apply winds_tidy; tidily|]; intros ?).
  apply winds_bind; [|intros; apply winds_tidy; tidily]. apply winds_recorded.
  - apply guarded_idle_trial.
  - apply idle_trial_keeps.
  - intros server. assert (forall s, settled (match s with Some h => returncode h | None => ret VNone end)) by (intros; unfold returncode; settle).
    pose proof calm_write_record. calmly.
  - intros server. pose proof write_record_keeps. unfold returncode. keep_remote; destruct server; keep_remote.
Qed.

(** However a comparison ends, as long as no input is found broken when it is closed, every process it started has exited,
    unless it ends with the [TimeoutExpired] of a client that did not end in time. *)
Theorem idle_stops_everything fuel o h r h' :
  procs h = [] -> pipes_hold h -> main fuel o h = (r, h') ->
  all_exited h' \/ exists e, r = Err e /\ is_class e TimeoutExpired = true.
Proof. intros Hh Hp E. apply winds_idle_main in E as [_ Hx]; [done| |done]. intros k Hk. rewrite Hh in Hk. cbn in Hk. lia. Qed.
