(* ===== verification/UploadCompare.v ===== *)
(** * [bench/upload_compare.py]: upload servers with the same large bodies

    [main] prepares the bodies and their expected answers and rotates the variants over the repeats; a trial starts one
    server, optionally pins its application threads and profiles it, and loads it through the collector of
    [remote_load.py] on another host.  The state is that of [Overload]: the record of the trial is its report and the
    profiler its second process. *)

From stdpp Require Import base list strings.
From Stdlib Require Import ZArith Lia Ascii.
From S2P Require Import Prelude PyFloat PyText PyVal PyJson PyScript Shlex PyStats PyHash Evidence PyIO System ProcSample RemoteLoad Compare Overload SummarizeArchitecture Architecture.

Local Open Scope Z_scope.
Open Scope py_scope.

(** ** Options *)

Record Options := mkOptions {
  before : option string; go_binary : option string; before_label : string; go_procs : Z; candidate : string; output : string;
  repeats : Z; body_bytes : list Z; connections : Z; workers : Z; worker_cpus : string; capacity : Z; zig_cpus : string;
  app_cpu : option Z; duration : val; rate : val; trace_client : bool; queue_mode : string; profile : bool;
  probe_queues : bool; unique_queues : bool; freeze_hash : bool; calibrate_body : bool }.

(** ** Bodies *)

Definition bytes_range (n : Z) : string := String.string_of_list_ascii (map byte_char (seqZ 0 n)).
(** [bytes(range(256)) * (size // 256) + bytes(range(size % 256))] *)
Definition body_of (size : Z) : string :=
  String.concat "" (repeat (bytes_range 256) (Z.to_nat (size / 256))) +:+ bytes_range (size mod 256).
Definition expected_of (size : Z) (body : string) : string := string_of_Z size +:+ ":" +:+ hex8 (crc32 body) +:+ nl.

(** ** Commands *)

Definition is_go (name : string) : bool := String.eqb name "go".

Definition server_command (o : Options) (name binary : string) (port admin : Z) : list string :=
  if is_go name then [binary; "-listen"; "192.0.2.10:" +:+ string_of_Z port] else
  (if set (zig_cpus o) then ["taskset"; "-c"; zig_cpus o] else [])
  ++ [binary; "--address"; "192.0.2.10"; "--port"; string_of_Z port; "--admin-port"; string_of_Z admin;
      "--workers"; string_of_Z (workers o); "--worker-cpus"; worker_cpus o; "--max-connections"; string_of_Z (capacity o);
      "--max-active"; string_of_Z (capacity o); "--max-requests"; "4294967295"; "--no-access-log"].

Definition server_env (o : Options) (name : string) : list (string * option string) :=
  [("GOMAXPROCS", None); ("GOGC", None); ("GOMEMLIMIT", None); ("GODEBUG", None)]
  ++ (if is_go name then [("GOMAXPROCS", Some (string_of_Z (go_procs o)))] else []).

Definition profile_command (folder pid : string) : list string :=
  ["perf"; "record"; "-F"; "997"; "-e"; "cycles:u"; "--call-graph"; "dwarf,8192"; "-o"; folder +:+ "/user.perf.data";
   "-p"; pid].

Definition load_arguments (o : Options) (client_source : string) (port : Z) : list string :=
  ["-c"; client_source; "-address"; "192.0.2.10:" +:+ string_of_Z port; "-connections"; string_of_Z (connections o);
   "-warmup"; "5"; "-duration"; py_str (duration o); "-rate"; py_str (rate o)]
  ++ (if trace_client o then ["-trace"] else []) ++ ["-queue-mode"; queue_mode o]
  ++ (if probe_queues o then ["-probe-queues"] else []) ++ (if unique_queues o then ["-unique-queues"] else [])
  ++ (if freeze_hash o then ["-freeze-hash"] else []) ++ (if calibrate_body o then ["-calibrate-body"] else []).

(** ** The trial *)

(** What is fixed for a trial before it begins. *)
Record case := Case { c_name : string; c_size : Z; c_body : string; c_body_path : string; c_expected_path : string;
                      c_hash : string; c_folder : string; c_label : string; c_port : Z }.

(** A task of the server that is not its main thread: moved to the application CPU if it may run there. *)
Definition affinity_row (cpu : Z) (tid : Z) : io host val :=
  previous <~ sched_getaffinity ;
  text <~ read_proc ;
  let base := [("tid", VInt tid); ("name", VStr (strip text)); ("before", previous)] in
  may <~ lift (py_in (VInt cpu) previous) ;
  if may : bool then
    external ;~
    after <~ sched_getaffinity ;
    ret (obj (base ++ [("after", after)]))
  else ret (obj (base ++ [("skipped", VStr "inherits network-worker affinity")])).
Definition pin_task (cpu : Z) (task : val) : io state unit :=
  tid <~ lift (s <- as_str task ;; py_int s) ;
  pid <~ on_host clock ;
  if py_eqb (VInt tid) pid then ret tt else
  row <~ on_host (affinity_row cpu tid) ;
  set_report (fun report =>
    rows <- iterR ($report.["application_affinity"]) ;; setR report "application_affinity" ($(VList (rows ++ [row])))).
Definition pin_application (o : Options) (name : string) : io state unit :=
  match app_cpu o with
  | Some cpu =>
      if is_go name then ret tt else
      put "application_affinity" (VList []) ;~
      tasks <~ on_host (lift_val py_iter external) ;
      each (pin_task cpu) tasks
  | None => ret tt
  end.

Definition start_profile (o : Options) (folder : string) : io state unit :=
  if profile o then
    pid <~ on_host clock ;
    let command := profile_command folder (py_str pid) in
    h <~ on_host (popen command) ;
    set_client h ;~
    put "profile_command" (VList (map VStr command))
  else ret tt.

(** The collector on another kernel. *)
Definition open_remote (agent_source : string) : io state unit :=
  let transport := ["ssh"; "-F"; "/path/to/benchmark-ssh.conf"; "-T"; "client.example";
                    shlex_join ["python3"; "-u"; "-c"; agent_source]] in
  r <~ on_host (connect "client.example" agent_source (Some transport)) ;
  set_remote r ;~
  put "remote_identity" (rl_identity r) ;~
  report <~ gets o_report ;
  require_ ($(rl_identity r).["boot_id"] !=' $report.["server_identity"].["boot_id"]) ;~
  put "clock_offset_ns" (rl_clock_offset_ns r) ;~
  put "clock_uncertainty_ns" (rl_clock_uncertainty_ns r).

(** [record['samples'].append(dict(...))] *)
Definition take_sample (name : string) : io state unit :=
  now <~ on_host clock ;
  server <~ on_host take_proc_sample ;
  sample <~ on_host host_sample ;
  metrics <~ on_host (if is_go name then ret VNone else admin_json "/debug/metrics") ;
  set_report (fun report =>
    samples <- iterR ($report.["samples"]) ;;
    setR report "samples" ($(VList (samples ++ [obj [("unix_ns", now); ("server", server); ("host", sample); ("metrics", metrics)]])))).

(** The loop until the remote client is done; [fuel] bounds its rounds and the messages of each. *)
Fixpoint await_load (fuel rounds : nat) (name : string) (server : handle) (next_sample : val) : io state unit :=
  match rounds with
  | O => throw (Exn RuntimeError "out of fuel")
  | S rounds =>
      finished <~ on_remote (completed fuel) ;
      if finished : bool then ret tt else
      code <~ on_host (poll server) ;
      (match code with Some _ => throw (Exn RuntimeError "server exited during upload load") | None => ret tt end) ;~
      due <~ (now <~ on_host clock ; lift ($now >=' $next_sample)) ;
      next_sample <~ (if due : bool
                      then take_sample name ;~ now <~ on_host clock ; lift ($now +' lit 25 2)
                      else ret next_sample) ;
      on_host (advance ;~ ret tt) ;~
      await_load fuel rounds name server next_sample
  end.

(** *** What a measured trial has shown *)

Definition all_succeeded (load : val) : res bool :=
  rows <- iterR ($load.["workers"]) ;; allR (fun row => $row.["attempts"] ==' $row.["successes"]) rows.
(** The samples a quarter of a second inside the measured interval. *)
Definition inside (begin end_ : val) (s : val) : res bool :=
  ($begin +' int 250000000 <=' $s.["unix_ns"]) &&' ($s.["unix_ns"] <' ($end_ -' int 250000000)).
Definition window (load offset : val) (samples : list val) : res (list val) :=
  begin <- $load.["measure_start_unix_ns"] +' $offset ;;
  end_ <- $load.["measure_end_unix_ns"] +' $offset ;;
  filterR (inside begin end_) samples.

Definition rss (s : val) : expr := $s.["server"].["VmRSS"] /' int 1048576.

Definition summary_of (o : Options) (name : string) (size : Z) (load : val) (samples : list val) : expr :=
  require (4 <=? length samples)%nat "" ;;;
  first <- idx_at ($(VList samples)) 0 ;;
  last <- idx_at ($(VList samples)) (-1) ;;
  seconds <- ($last.["unix_ns"] -' $first.["unix_ns"]) /' lit 1000000000 0 ;;
  cpu_cores <- ($last.["server"].["cpu_seconds"] -' $first.["server"].["cpu_seconds"]) /' $seconds ;;
  goodput <- $load.["goodput_bytes_per_second"] /' int 1048576 ;;
  mkdict [("variant", str name); ("body_bytes", int size); ("connections", int (connections o)); ("rate_cap", $(rate o));
          ("goodput_mib_per_second", $goodput); ("service_p99_ms", $load.["service_p99_ms"]);
          ("rss_median_mib", medianR rss samples); ("rss_peak_mib", maxR rss samples);
          ("cpu_cores", $cpu_cores); ("cpu_us_per_mib", ($cpu_cores /' $goodput) *' lit 1000000 0);
          ("cpu_interval_seconds", $seconds);
          ("server_host", (a <- $first.["host"] ;; b <- $last.["host"] ;; host_delta a b))].

(** [{k: v for k, v in summary.items() if k != 'server_host'}] *)
Definition shown (summary : val) : expr :=
  d <- py_items summary ;; Ok (VDict (List.filter (fun kv => negb (py_eqb kv.1 (VStr "server_host"))) d)).

Definition finish (o : Options) (c : case) : io state unit :=
  r <~ on_remote (gets s_remote) ;
  load <~ lift ($(rl_result r).["client"]) ;
  put "load" load ;~
  put "remote_samples" (VList (rl_samples r)) ;~
  (if is_go (c_name c) then ret tt else record "metrics_after" (admin_json "/debug/metrics")) ;~
  lift (assertR (notR (test ($load.["failures"])) &&' $load.["window_successes"] >' int 0) "" ;;;
        assertR ($load.["request_body_sha256"] ==' str (sha256_hex (c_body c))) "") ;~
  expected <~ on_host read_proc ;
  lift (assertR ($load.["expected_body_sha256"] ==' str (sha256_hex expected)) "" ;;; assertR (all_succeeded load) "") ;~
  report <~ gets o_report ;
  summary <~ lift (samples <- iterR ($report.["samples"]) ;;
                   samples <- window load (rl_clock_offset_ns r) samples ;;
                   summary_of o (c_name c) (c_size c) load samples) ;
  text <~ lift (json_dumps2 summary) ;
  on_host (write_file (c_folder c +:+ "/summary.json") (text +:+ nl)) ;~
  put "outcome" (VStr "measured") ;~
  line <~ lift (shown summary) ;
  on_host (say ("DONE " +:+ c_label c +:+ " " +:+ py_str line)).

(** The [try] block. *)
Definition trial (fuel : nat) (o : Options) (client_source agent_source : string) (c : case) (command : list string)
    : io state unit :=
  on_host (with_env (server_env o (c_name c))) ;~
  server <~ on_host (popen command) ;
  set_server server ;~
  (if is_go (c_name c) then
     record "go_runtime" (line <~ answer_text ; lift (json_loads line)) ;~
     report <~ gets o_report ;
     require_ ($report.["go_runtime"].["gomaxprocs"] ==' int (go_procs o))
   else ret tt) ;~
  on_host (wait_ready fuel server) ;~
  pin_application o (c_name c) ;~
  start_profile o (c_folder c) ;~
  running <~ on_host read_proc ;
  put "running_binary_sha256" (VStr (sha256_hex running)) ;~
  require_ (str (sha256_hex running) ==' str (c_hash c)) ;~
  record "server_affinity" sched_getaffinity ;~
  open_remote agent_source ;~
  (if is_go (c_name c) then ret tt else record "metrics_before" (admin_json "/debug/metrics")) ;~
  on_remote (start "/usr/bin/python3" (load_arguments o client_source (c_port c)) (seqZ 0 8) (connections o) (VInt 120)
               [("-request-body", c_body_path c); ("-expect-body", c_expected_path c)] 15) ;~
  r <~ on_remote (gets s_remote) ;
  put "remote_started" (rl_started r) ;~
  await_load fuel fuel (c_name c) server (VInt 0) ;~
  finish o c.

Definition on_failure (e : exn) : io state unit :=
  put "outcome" (VStr "failed") ;~
  put "error" (VStr (exn_repr e)) ;~
  remote <~ gets o_remote ;
  put "remote_failure" (match remote with Some r => rl_failure r | None => VNone end) ;~
  throw e.

(** The [finally] block. *)
Definition cleanup (folder : string) : io state unit :=
  remote <~ gets o_remote ;
  (match remote with Some _ => on_remote RemoteLoad.stop | None => ret tt end) ;~
  profiler <~ gets o_client ;
  on_host (stop profiler) ;~
  (match profiler with Some h => record "profile_exit" (returncode h) | None => ret tt end) ;~
  server <~ gets o_server ;
  on_host (stop server) ;~
  code <~ on_host (match server with Some h => returncode h | None => ret VNone end) ;
  put "server_exit" code ;~
  report <~ gets o_report ;
  text <~ lift (json_dumps2 report) ;
  on_host (write_file (folder +:+ "/run.json") (text +:+ nl)).

Definition run_one (fuel : nat) (o : Options) (client_source agent_source binary : string) (c : case) (repeat : Z) (admin : Z)
    : io host unit :=
  let command := server_command o (c_name c) binary (c_port c) admin in
  mine <~ identity ;
  let evidence := obj [("variant", VStr (c_name c)); ("repeat", VInt repeat); ("body_bytes", VInt (c_size c));
                       ("connections", VInt (connections o)); ("command", VList (map VStr command));
                       ("binary_sha256", VStr (c_hash c)); ("server_identity", mine); ("samples", VList [])] in
  say ("START " +:+ c_label c) ;~
  external ;~
  external ;~
  (fun h =>
    let '(r, s) := finally (catch (trial fuel o client_source agent_source c command) on_failure) (cleanup (c_folder c))
                     (State h evidence None None false None) in
    (r, o_host s)).

(** ** The comparison *)

Definition valid_options (o : Options) : res unit :=
  usage_if (match before o, go_binary o with None, None => true | _, _ => false end)
    "at least one of --before or --go-binary is required" ;;;
  usage_if (match app_cpu o with Some _ => negb (workers o =? 1) | None => false end) "--app-cpu requires one network worker".
Definition valid_label (o : Options) : res unit :=
  usage_if (match before o with Some _ => existsb (String.eqb (before_label o)) ["go"; "streaming"] | None => false end)
    "--before-label must differ from go and streaming".

(** The variants by name, with their resolved binaries. *)
Definition binaries_of (o : Options) : io host (list (string * string)) :=
  b <~ (match before o with Some _ => path <~ answer_text ; ret [(before_label o, path)] | None => ret [] end) ;
  g <~ (match go_binary o with Some _ => path <~ answer_text ; ret [("go", path)] | None => ret [] end) ;
  path <~ answer_text ;
  ret (b ++ g ++ [("streaming", path)]).
Definition hash_of (np : string * string) : io host (string * (string * string)) :=
  content <~ read_proc ; ret (np.1, (np.2, sha256_hex content)).

Definition copied : list string :=
  ["upload_client.py"; "upload_compare.py"; "architecture.py"; "remote_load.py"; "compare.py"; "overload.py"].
Definition copy_source (o : Options) (name : string) : io host unit :=
  content <~ read_proc ; write_file (output o +:+ "/" +:+ name) content.

Definition variants_json (binaries : list (string * (string * string))) (client_source agent_source : string) : val :=
  obj [("binaries", obj (map (fun b => (b.1, VStr b.2.1)) binaries)); ("sha256", obj (map (fun b => (b.1, VStr b.2.2)) binaries));
       ("client_source_sha256", VStr (sha256_hex client_source)); ("agent_source_sha256", VStr (sha256_hex agent_source))].

Definition variant_step (fuel : nat) (o : Options) (client_source agent_source : string) (size : Z) (body : string)
    (body_path expected_path : string) (repeat : Z) (b : string * (string * string)) : io host unit :=
  let '(name, (binary, hash)) := b in
  let label := "n" +:+ string_of_Z size +:+ "-" +:+ name +:+ "-" +:+ string_of_Z repeat in
  let folder := output o +:+ "/" +:+ label in
  external ;~
  port <~ free_port ;
  admin <~ free_port ;
  run_one fuel o client_source agent_source binary (Case name size body body_path expected_path hash folder label port) repeat admin.

Definition size_step (fuel : nat) (o : Options) (client_source agent_source : string)
    (binaries : list (string * (string * string))) (size : Z) : io host unit :=
  let body := body_of size in
  let body_path := output o +:+ "/body-" +:+ string_of_Z size +:+ ".bin" in
  let expected_path := output o +:+ "/expected-" +:+ string_of_Z size +:+ ".bin" in
  write_file body_path body ;~
  write_file expected_path (expected_of size body) ;~
  each (fun repeat =>
      each (variant_step fuel o client_source agent_source size body body_path expected_path (Z.of_nat repeat + 1))
        (rotate (repeat mod length binaries) binaries))
    (seq 0 (Z.to_nat (repeats o))).

(** [main] from its parsed arguments on; [sampler] is [inspect.getsource(host_sample)]. *)
Definition main (sampler : string) (fuel : nat) (o : Options) : io host unit :=
  lift (valid_options o) ;~
  external ;~
  soft <~ clock ;
  hard <~ clock ;
  lift (py_max [soft; VInt 65536]) ;~
  external ;~
  lift (valid_label o) ;~
  binaries <~ binaries_of o ;
  binaries <~ mapM hash_of binaries ;
  lift (require (bool_decide (NoDup (map (fun b => b.2.2) binaries))) "") ;~
  client_source <~ read_proc ;
  agent_source <~ remote_source sampler ;
  each (copy_source o) copied ;~
  text <~ lift (json_dumps2 (variants_json binaries client_source agent_source)) ;
  write_file (output o +:+ "/variants.json") (text +:+ nl) ;~
  each (size_step fuel o client_source agent_source binaries) (body_bytes o).

(** ** Lemmas *)

(** *** The processes of a trial *)

(** No collector is known yet. *)
Definition unlinked (s : state) : Prop := tracked s /\ o_remote s = None.
Lemma stable_unlinked : stable unlinked.
Proof.
  intros s s' L N E [H1 H2]. split; [by eapply stable_tracked|]. unfold names_of in E. injection E as _ _ E.
  rewrite H2 in E. by destruct (o_remote s').
Qed.
Lemma unlinked_tracked s : unlinked s -> tracked s.
Proof. by intros [? _]. Qed.
Lemma waiting_unlinked s : waiting s -> unlinked s.
Proof. by intros [? [_ ?]]. Qed.

Lemma settled_affinity_row cpu tid : settled (affinity_row cpu tid).
Proof. unfold affinity_row. settle. Qed.
#[export] Hint Resolve settled_affinity_row : zhtps.
Lemma calm_pin_task cpu task : calm (pin_task cpu task).
Proof. unfold pin_task. calmly. Qed.
#[export] Hint Resolve calm_pin_task : zhtps.
Lemma calm_pin_application o name : calm (pin_application o name).
Proof. unfold pin_application. calmly. Qed.
Lemma calm_upload_sample name : calm (take_sample name).
Proof. unfold take_sample. calmly. Qed.
#[export] Hint Resolve calm_pin_application calm_upload_sample : zhtps.
Lemma calm_await_upload fuel rounds name server next : calm (await_load fuel rounds name server next).
Proof.
  revert next. induction rounds as [|rounds IH]; intros next; cbn [await_load]; [apply calm_throw|].
  apply calm_bind; [auto with zhtps|]. intros []; [apply calm_ret|]. calmly.
Qed.
Lemma calm_finish o c : calm (finish o c).
Proof. unfold finish. calmly. Qed.
Lemma calm_upload_failure e : calm (on_failure e).
Proof. unfold on_failure. calmly. Qed.
#[export] Hint Resolve calm_await_upload calm_finish calm_upload_failure : zhtps.

Lemma triple_start_profile o folder : guards waiting (start_profile o folder) (fun _ => unlinked).
Proof.
  unfold start_profile. destruct (profile o).
  - apply (triple_calm_bind waiting); [calmly|apply stable_waiting|apply waiting_tracked|]. intros pid. cbv zeta.
    eapply triple_bind; [apply triple_popen; [apply stable_waiting|apply waiting_tracked]|]. intros h.
    apply (triple_bind _ _ (fun _ => unlinked)).
    + intros s r s' Hs E. pose proof (triple_set_client waiting h (fun s H => proj1 (proj2 H)) s r s' Hs E) as Ht.
      destruct Hs as [_ (s0 & [_ [_ Hr]] & N)]. injection E as <- <-. split; [exact Ht|]. cbn.
      unfold names_of in N. injection N as _ _ N. rewrite Hr in N. by destruct (o_remote s).
    + intros ?. apply triple_calm; [calmly|apply stable_unlinked|apply unlinked_tracked].
  - intros s r s' Hs [= <- <-]. by apply waiting_unlinked.
Qed.

Lemma triple_open_upload agent_source : guards unlinked (open_remote agent_source) (fun _ => tracked).
Proof.
  unfold open_remote. cbv zeta. eapply triple_bind; [apply triple_connect, unlinked_tracked|]. intros r.
  eapply triple_bind; [apply (triple_set_remote_from unlinked); by intros ? [_ ?]|]. intros ?; cbv beta.
  apply triple_calm; [calmly|apply stable_tracked|done].
Qed.

Ltac calm_from P := apply (triple_calm_bind P); [calmly|apply stable_waiting || apply stable_unlinked || apply stable_tracked|
  apply waiting_tracked || apply unlinked_tracked || done|]; intros.

Lemma triple_upload_trial fuel o client_source agent_source c command :
  guards (fun s => tracked s /\ no_client s /\ no_server s) (trial fuel o client_source agent_source c command) (fun _ => tracked).
Proof.
  assert (HS : stable (fun s => tracked s /\ no_client s /\ no_server s)).
  { apply stable_and; [apply stable_tracked|]. apply stable_and; [apply stable_no_client|apply stable_no_server]. }
  assert (HT : forall s, tracked s /\ no_client s /\ no_server s -> tracked s) by by intros s [? _].
  unfold trial. eapply triple_calm_bind; [calmly|exact HS|exact HT|]. intros _.
  eapply triple_bind; [apply (triple_popen _ _ HS HT)|]. intros server.
  apply (triple_bind _ _ (fun _ => waiting)); [exact (triple_set_server server)|]. intros ?; cbv beta.
  do 3 calm_from waiting. eapply triple_bind; [apply triple_start_profile|]. intros ?; cbv beta.
  do 4 calm_from unlinked. eapply triple_bind; [apply triple_open_upload|]. intros ?; cbv beta.
  apply triple_calm; [calmly|apply stable_tracked|done].
Qed.

(** *** The record of a trial is a dictionary *)

Definition recorded (s : state) : Prop := exists d, o_report s = VDict d.
Definition records {A} (m : io state A) : Prop := forall s r s', recorded s -> m s = (r, s') -> recorded s'.

Lemma records_ret {A} (a : A) : records (ret a).
Proof. by intros s r s' H [= _ <-]. Qed.
Lemma records_throw {A} e : records (throw (A:=A) e).
Proof. by intros s r s' H [= _ <-]. Qed.
Lemma records_lift {A} (x : res A) : records (lift x).
Proof. by intros s r s' H [= _ <-]. Qed.
Lemma records_gets {A} (f : state -> A) : records (gets f).
Proof. by intros s r s' H [= _ <-]. Qed.
Lemma records_on_host {A} (m : io host A) : records (on_host m).
Proof. intros s r s' H. unfold on_host, zoom. destruct (m (o_host s)). by intros [= _ <-]. Qed.
Lemma records_on_remote {A} (m : io session A) : records (on_remote m).
Proof.
  intros s r s' H. unfold on_remote. destruct (o_remote s); [|by intros [= _ <-]]. destruct (m _). by intros [= _ <-].
Qed.
Lemma records_set_server h : records (set_server h).
Proof. by intros s r s' H [= _ <-]. Qed.
Lemma records_set_client h : records (set_client h).
Proof. by intros s r s' H [= _ <-]. Qed.
Lemma records_set_remote r : records (set_remote r).
Proof. by intros s x s' H [= _ <-]. Qed.
Lemma records_set_report f : (forall v w, f v = Ok w -> exists d, w = VDict d) -> records (set_report f).
Proof.
  intros Hf s r s' H. unfold set_report. destruct (f (o_report s)) as [w|e] eqn:E; intros [= _ <-]; [|done].
  apply Hf in E as [d ->]. by exists d.
Qed.
Lemma setR_dict row k e w : setR row k e = Ok w -> exists d, w = VDict d.
Proof. intros (d & v & _ & _ & ->)%setR_ok. by eexists. Qed.
Lemma records_put k v : records (put k v).
Proof. apply records_set_report. intros row w. apply setR_dict. Qed.
Lemma records_bind {A B} (m : io state A) (k : A -> io state B) : records m -> (forall a, records (k a)) -> records (bind m k).
Proof.
  intros Hm Hk s r s' H. unfold bind. destruct (m s) as [[a|e] s1] eqn:E; apply Hm in E; try done; [by apply Hk|by intros [= _ <-]].
Qed.
Lemma records_each {A} (f : A -> io state unit) l : (forall a, records (f a)) -> records (each f l).
Proof. intros Hf. induction l; cbn; [apply records_ret|]. by apply records_bind. Qed.
#[export] Hint Resolve records_ret records_throw records_lift records_gets records_on_host records_on_remote records_set_server
  records_set_client records_set_remote records_put records_each : zhtps.

Ltac recording := repeat first
  [ progress intros | solve [auto with zhtps] | apply records_bind | apply records_each | case_match ].

Lemma records_take_sample name : records (take_sample name).
Proof.
  unfold take_sample. recording. apply records_set_report. intros v w (samples & _ & E)%rbind_ok. by apply setR_dict in E.
Qed.
Lemma records_pin_task cpu task : records (pin_task cpu task).
Proof.
  unfold pin_task. recording. apply records_set_report. intros v w (rows & _ & E)%rbind_ok. by apply setR_dict in E.
Qed.
#[export] Hint Resolve records_take_sample records_pin_task : zhtps.
Lemma records_await_load fuel rounds name server next : records (await_load fuel rounds name server next).
Proof. revert next. induction rounds as [|rounds IH]; intros next; cbn [await_load]; recording. Qed.
#[export] Hint Resolve records_await_load : zhtps.
Lemma records_trial fuel o client_source agent_source c command : records (trial fuel o client_source agent_source c command).
Proof. unfold trial, pin_application, start_profile, open_remote, finish, require_, record. recording. Qed.
Lemma records_failure e : records (on_failure e).
Proof. unfold on_failure. recording. Qed.

Lemma put_recorded k v s r s' : recorded s -> put k v s = (r, s') -> r = Ok tt.
Proof. intros [d Hd]. unfold put, set_report. rewrite Hd. cbn. by intros [= <- _]. Qed.

(** *** Cleaning up *)

Lemma profile_exit_ok profiler s r s' :
  recorded s -> (match profiler with Some h => record "profile_exit" (returncode h) | None => ret tt end) s = (r, s') -> r = Ok tt.
Proof.
  intros Hd. destruct profiler as [h|]; [|by intros [= <- _]]. unfold record. unfold bind.
  destruct (on_host (returncode h) s) as [[c|e] s1] eqn:E.
  - apply (records_on_host (returncode h)) in E; [|done]. by apply put_recorded.
  - unfold on_host, zoom in E. discriminate E.
Qed.

Lemma records_stop_remote (remote : option remote) :
  records (match remote with Some _ => on_remote RemoteLoad.stop | None => ret tt end).
Proof. recording. Qed.

Lemma upload_cleanup_all folder s r s' : tracked s -> recorded s -> cleanup folder s = (r, s') -> all_exited (o_host s').
Proof.
  intros Ht Hd H. pose proof Ht as [H1 H2]. unfold cleanup in H. unfold bind at 1, gets at 1 in H. unfold bind at 1 in H.
  destruct ((match o_remote s with Some _ => on_remote RemoteLoad.stop | None => ret tt end) s) as [r1 s1] eqn:E1.
  assert (D1 : recorded s1) by (by apply records_stop_remote in E1).
  destruct (stop_remote_spec _ _ _ Ht E1) as (-> & L1 & N1 & E1' & X1). unfold bind at 1, gets at 1 in H.
  unfold names_of in E1'. injection E1' as Es1 Ec1 Er1.
  unfold bind at 1 in H. destruct (on_host (stop (o_client s1)) s1) as [r2 s2] eqn:E2.
  assert (B2 : forall h, o_client s1 = Some h -> (h < length (procs (o_host s1)))%nat).
  { intros h Hh. rewrite N1. apply H2. left. right. left. congruence. }
  assert (D2 : recorded s2) by by apply records_on_host in E2.
  destruct (on_host_stop _ _ _ _ B2 E2) as (-> & X2 & L2 & N2 & Es2). unfold names_of in Es2. injection Es2 as Es2 Ec2 Er2.
  unfold bind at 1 in H.
  destruct ((match o_client s1 with Some h => record "profile_exit" (returncode h) | None => ret tt end) s2) as [r3 s3] eqn:E3.
  assert (C3 : calm (match o_client s1 with Some h => record "profile_exit" (returncode h) | None => ret tt end)) by calmly.
  destruct (C3 _ _ _ E3) as (L3 & N3 & Es3). apply profile_exit_ok in E3 as ->; [|done].
  unfold names_of in Es3. injection Es3 as Es3 Ec3 Er3.
  unfold bind at 1, gets at 1 in H. unfold bind at 1 in H.
  destruct (on_host (stop (o_server s3)) s3) as [r4 s4] eqn:E4.
  assert (B4 : forall h, o_server s3 = Some h -> (h < length (procs (o_host s3)))%nat).
  { intros h Hh. rewrite N3, N2, N1. apply H2. left. left. congruence. }
  destruct (on_host_stop _ _ _ _ B4 E4) as (-> & X4 & L4 & N4 & _).
  match type of H with (?m s4 = _) => assert (Hm : calm m) by calmly end.
  destruct (Hm _ _ _ H) as ((Lx & _) & N5 & _). intros k Hk. apply Lx.
  assert (Hk0 : (k < length (procs (o_host s)))%nat) by lia.
  destruct (H1 k Hk0) as [Hx|[[Hx|[Hx|Hx]]|Hx]]; [| | | |done].
  - by apply L4, L3, L2, L1.
  - apply X4. congruence.
  - apply L4, L3, X2. congruence.
  - apply L4, L3, L2, X1. congruence.
Qed.

(** *** Computations that end every process *)

Definition ending {A} (m : io host A) : Prop := forall w r w', all_exited w -> m w = (r, w') -> all_exited w'.
Lemma ending_tidy {A} (m : io host A) : tidy m -> ending m.
Proof.
  intros Hm w r w' Hw E. apply Hm in E as [(L & _) Hx]. intros k Hk.
  destruct (decide (k < length (procs w))%nat); [by apply L, Hw|apply Hx; lia].
Qed.
Lemma ending_bind {A B} (m : io host A) (k : A -> io host B) : ending m -> (forall a, ending (k a)) -> ending (bind m k).
Proof.
  intros Hm Hk w r w' Hw. unfold bind. destruct (m w) as [[a|e] w1] eqn:E; apply Hm in E; try done; [by apply Hk|by intros [= _ <-]].
Qed.
Lemma ending_each {A} (f : A -> io host unit) l : (forall a, ending (f a)) -> ending (each f l).
Proof. intros Hf. induction l; cbn; [apply ending_tidy; auto with zhtps|]. by apply ending_bind. Qed.

Lemma ending_run_one fuel o client_source agent_source binary c repeat admin :
  ending (run_one fuel o client_source agent_source binary c repeat admin).
Proof.
  unfold run_one. cbv zeta. do 4 (apply ending_bind; [apply ending_tidy; auto with zhtps|]; intros ?).
  intros w r w' Hw. unfold finally.
  match goal with |- context [catch ?m ?k ?s0] => destruct (catch m k s0) as [r1 s1] eqn:E1; set (s := s0) in * end.
  assert (Hs : tracked s /\ no_client s /\ no_server s).
  { split; [|done]. split; cbn; [|by intros k [[?|[?|?]]|?]]. intros k Hk. left. by apply Hw. }
  assert (Hd : recorded s) by by eexists.
  assert (H1 : tracked s1 /\ recorded s1).
  { revert E1. unfold catch. destruct (trial _ _ _ _ _ _ s) as [[u|e] s2] eqn:E2;
      pose proof (triple_upload_trial _ _ _ _ _ _ _ _ _ Hs E2) as Ht; cbn in Ht; apply records_trial in E2; try done.
    - by intros [= _ <-].
    - intros E3. pose proof (calm_upload_failure _ _ _ _ E3) as (? & ? & ?). apply records_failure in E3; [|done].
      split; [by eapply stable_tracked|done]. }
  destruct H1 as [Ht Hd1]. destruct (cleanup (c_folder c) s1) as [r2 s2] eqn:E2.
  apply upload_cleanup_all in E2; [|done|done]. destruct r2; by intros [= _ <-].
Qed.

Lemma ending_upload_main sampler fuel o : ending (main sampler fuel o).
Proof.
  unfold main, binaries_of. do 8 (apply ending_bind; [apply ending_tidy; tidily|]; intros ?).
  apply ending_bind; [apply ending_tidy, tidy_mapM; intros; unfold hash_of; tidily|]. intros bs.
  do 3 (apply ending_bind; [apply ending_tidy; tidily|]; intros ?).
  apply ending_bind; [apply ending_tidy, tidy_each; intros; unfold copy_source; tidily|]. intros ?.
  do 2 (apply ending_bind; [apply ending_tidy; tidily|]; intros ?).
  apply ending_each. intros size. unfold size_step. cbv zeta. do 2 (apply ending_bind; [apply ending_tidy; tidily|]; intros ?).
  apply ending_each. intros repeat. apply ending_each. intros [name [binary hash]]. unfold variant_step. cbv zeta.
  do 3 (apply ending_bind; [apply ending_tidy; tidily|]; intros ?). apply ending_run_one.
Qed.

(** However a comparison ends - success, a failed check, a dead server or generator, a fault of the environment at any
    call, exhausted fuel - every server, profiler and collector it started has exited. *)
Theorem upload_stops_everything sampler fuel o h r h' :
  procs h = [] -> main sampler fuel o h = (r, h') -> all_exited h'.
Proof. intros Hh. apply ending_upload_main. intros k Hk. rewrite Hh in Hk. cbn in Hk. lia. Qed.
