(* ===== verification/AuditUploadParity.v ===== *)
(** * [bench/audit_upload_parity.py]: audit of the upload experiments

    [main] goes through every recorded run: a failed one must be one of the known failures; a GET control is checked
    against its manifest, its binary and its own request accounting; an upload run is checked down to the single
    latencies, and the figures of its summary are recomputed from its samples.  The result is what the script writes and
    prints when it ends; an exception is a failed audit. *)

From stdpp Require Import base list strings.
From Stdlib Require Import ZArith Lia Ascii.
From S2P Require Import Prelude PyFloat PyText PyVal PyJson PyScript PyStats PyHash Evidence SummarizeArchitecture.

Local Open Scope Z_scope.
Open Scope py_scope.

(** ** Receipts *)

Section Root.
Context (t : tree) (ROOT : parts).

(** [digest(Path(e))] of a path given as text *)
Definition digest_of (e : expr) : expr := v <- e ;; s <- as_str v ;; rmap VStr (digest t (path_of s)).
Definition digest_at (p : parts) : expr := rmap VStr (digest t p).

(** A binary, with its expected digest and the receipt that says so. *)
Definition add_binary (path : parts) (receipts : dict) (be : val * val) : res dict :=
  binary <- as_str be.1 ;;
  p <- relative_to path ROOT ;;
  Ok (dset (VStr (str_path (resolve t (under ROOT binary)))) (VTuple [be.2; VStr (str_path p)]) receipts).
Definition add_build (receipts : dict) (path : parts) : res dict :=
  receipt <- read t path ;;
  binaries <- itemsR (getd ($receipt) "binaries" (VDict [])) ;;
  foldR (add_binary path) receipts binaries.
Definition add_row (receipts : dict) (row : val) : res dict :=
  sha <- $row.["binary_sha256"] ;;
  k <- key ($row.["binary"]) ;;
  Ok (dset k (VTuple [sha; VStr "docs/go-after-nginx/build.json"]) receipts).
Definition receipts_of : res dict :=
  receipts <- foldR add_build [] (glob t (under ROOT "docs/nginx-implementation") (is_child "build.json")) ;;
  rows <- iterR ((read t (under ROOT "docs/go-after-nginx/build.json")).["builds"]) ;;
  foldR add_row receipts rows.

(** ** Failed runs *)

Definition expected_failures : dict :=
  [(VStr "assigned-saturated/n65536-streaming-1/run.json", VStr "AssertionError()");
   (VStr "body-read-pairs/n65536-before-1/run.json", VStr "could not prepare a confirmed client queue bucket")].

Definition failed_run (relative : string) (run : val) : expr :=
  assertR (expected <- $(VDict expected_failures).[relative] ;; error <- $run.["error"] ;; py_in expected error) relative ;;;
  mkdict [("path", str relative); ("error", $run.["error"]); ("server_exit", $run.["server_exit"])].

(** ** GET controls *)

Definition eight_cpus : expr := $(VList (map VInt (seqZ 0 8))).
Definition other_kernel (run : val) : res bool := $run.["remote_identity"].["boot_id"] !=' $run.["server_identity"].["boot_id"].
Definition is_go (run : val) : res bool := $run.["variant"] ==' str "go".

Definition check_source (source_checksum : val * val) : res unit :=
  s <- as_str source_checksum.1 ;; assertR (digest_at (under ROOT s) ==' $(source_checksum.2)) s.

Definition check_control (receipts : dict) (group path : parts) (run : val) : res unit :=
  assertR (one_of ($run.["variant"]) ["go"; "zig"]) "" ;;;
  binary <- idx_at ($run.["command"]) 0 ;;
  expected <- idx_at (at_ ($(VDict receipts)) ($binary)) 0 ;;
  assertR (chain_eq (digest_of ($binary)) [$expected; $run.["binary_sha256"]; $run.["running_binary_sha256"]]) "" ;;;
  assertR (other_kernel run) "" ;;;
  assertR ($run.["remote_started"].["cpus"] ==' eight_cpus) "" ;;;
  assertR ($run.["remote_started"].["binary_sha256"] ==' digest_at (under ROOT "zig-out/bench/load")) "" ;;;
  assertR ($run.["server_exit"] ==' ifR (is_go run) (int (-15)) (int 0)) "" ;;;
  ifR (is_go run)
    (assertR ($run.["go_runtime"].["gomaxprocs"] ==' int 32) "")
    (assertR ($run.["metrics_after"].["counters"].["connections_reclaimed_total"] ==' int 0) "") ;;;
  manifest <- read t (under group "manifest.json") ;;
  assertR (runs <- $manifest.["runs"] ;; py_in (VStr (str_path path)) runs) "" ;;;
  sources <- itemsR ($manifest.["sources"]) ;;
  eachR check_source sources.

(** [sum((phase['failures'] or {}).values())] *)
Definition failures_total (phase : val) : expr := l <- valuesR (orE ($phase.["failures"]) ($(VDict []))) ;; py_sum l.

(** The failed requests of a phase, balanced against everything it offered. *)
Definition check_phase (phase : val) : expr :=
  failed <- $phase.["failure_latency"].["count"] +' $phase.["rejection_latency"].["count"] ;;
  assertR ($failed ==' failures_total phase) "" ;;;
  assertR ($phase.["offered"] ==' $phase.["successes"] +' $failed +' $phase.["generator_expired"] +' $phase.["generator_queue_drops"]) "" ;;;
  assertR ($phase.["response_bytes_validated"] ==' $phase.["successes"] *' int 6) "" ;;;
  Ok failed.

Definition rss (s : val) : expr := $s.["server"].["VmRSS"] /' int 1048576.

Definition get_row (group : parts) (relative : string) (run phase result failed : val) : expr :=
  start <- $phase.["start_unix_ns"] +' $run.["clock_offset_ns"] ;;
  end_ <- $phase.["end_unix_ns"] +' $run.["clock_offset_ns"] ;;
  all <- iterR ($run.["samples"]) ;;
  samples <- filterR (fun s => ($start +' int 500000000 <=' $s.["unix_ns"]) &&' ($s.["unix_ns"] <' ($end_ -' int 200000000))) all ;;
  mkdict [("group", str (name group)); ("path", str relative); ("variant", $run.["variant"]);
          ("connections", $run.["options"].["connections"]); ("rate", $phase.["offered_rate"]);
          ("goodput", $result.["goodput"]); ("p99_ms", $result.["service_p99_us"] /' int 1000);
          ("cpu_us", $result.["cpu_us_per_success_estimate"]); ("rss_mib", medianR rss samples);
          ("failures", $failed); ("failure_types", $phase.["failures"]); ("generator_drops", $result.["generator_drops"])].

(** [zip(phases, results, strict=True)]: a missing partner is only found when it is reached. *)
Fixpoint get_rows (group : parts) (relative : string) (run : val) (rows : list val) (phases results : list val) : res (list val) :=
  match phases, results with
  | [], [] => Ok rows
  | phase :: phases, result :: results =>
      failed <- check_phase phase ;;
      rows <- ifR ($phase.["offered_rate"] <' int 100000) (Ok rows)
                (row <- get_row group relative run phase result failed ;; Ok (rows ++ [row])) ;;
      get_rows group relative run rows phases results
  | _, _ => raise ValueError "zip() arguments have different lengths"
  end.

(** What the loop over the runs collects. *)
Record collected := Collected { s_rows : list val; s_failures : list val; s_get_rows : list val; s_get_checked : list val;
                                s_output : list output }.

Definition control_run (receipts : dict) (group path : parts) (relative : string) (run : val) (s : collected) : res collected :=
  check_control receipts group path run ;;;
  load <- $run.["load"] ;;
  assertR ($load.["gomaxprocs"] ==' int 8) "" ;;;
  derived <- summarize t path ;;
  text <- json_dumps2 derived ;;
  phases <- iterR ($load.["phases"]) ;;
  results <- iterR ($derived.["phases"]) ;;
  rows <- get_rows group relative run (s_get_rows s) phases results ;;
  Ok (Collected (s_rows s) (s_failures s) rows (s_get_checked s ++ [VStr relative])
        (s_output s ++ [Written (str_path (under (parent path) "summary.json")) (text +:+ nl)])).

(** ** Upload runs *)

(** [command[command.index(flag) + 1]] *)
Fixpoint index_of (x : val) (l : list val) (i : Z) : expr :=
  match l with
  | [] => raise ValueError "x not in list"
  | y :: l => if py_eqb y x then int i else index_of x l (i + 1)
  end.
Definition after_flag (command : val) (flag : string) : expr :=
  l <- (match command with VList l => Ok l | _ => raise AttributeError "object has no attribute 'index'" end) ;;
  at_ ($command) (index_of (VStr flag) l 0 +' int 1).

Definition check_provenance (receipts : dict) (group : parts) (run : val) : expr :=
  variants <- read t (under group "variants.json") ;;
  binary <- at_ ($variants.["binaries"]) ($run.["variant"]) ;;
  pair <- at_ ($(VDict receipts)) ($binary) ;;
  expected <- idx_at ($pair) 0 ;;
  receipt <- idx_at ($pair) 1 ;;
  assertR (chain_eq (digest_of ($binary)) [$expected; at_ ($variants.["sha256"]) ($run.["variant"])]) "" ;;;
  assertR (chain_eq ($run.["running_binary_sha256"]) [$run.["binary_sha256"]; $expected]) "" ;;;
  assertR (digest_at (under group "upload_client.py") ==' $variants.["client_source_sha256"]) "" ;;;
  command <- $run.["remote_started"].["command"] ;;
  assertR (after_flag command "-c" ==' rmap VStr (read_text t (under group "upload_client.py"))) "" ;;;
  assertR (other_kernel run) "" ;;;
  assertR ($run.["remote_started"].["cpus"] ==' eight_cpus) "" ;;;
  ifR (is_go run)
    (assertR ($run.["go_runtime"].["gomaxprocs"] ==' int 32) "" ;;; assertR ($run.["server_exit"] ==' int (-15)) "")
    (assertR ($run.["server_exit"] ==' int 0) "") ;;;
  Ok receipt.

Definition response_of (body : string) : string :=
  string_of_Z (Z.of_nat (String.length body)) +:+ ":" +:+ hex8 (crc32 body) +:+ nl.
Definition file_row (content : string) : val :=
  obj [("bytes", VInt (Z.of_nat (String.length content))); ("sha256", VStr (sha256_hex content))].
Definition check_body (group : parts) (run load : val) : res unit :=
  size <- $run.["body_bytes"] ;;
  body <- read_text t (under group ("body-" +:+ py_str size +:+ ".bin")) ;;
  let response := response_of body in
  assertR (chain_eq (int (Z.of_nat (String.length body))) [$size; $load.["request_body_bytes"]]) "" ;;;
  assertR (str (sha256_hex body) ==' $load.["request_body_sha256"]) "" ;;;
  assertR (str (sha256_hex response) ==' $load.["expected_body_sha256"]) "" ;;;
  assertR ($run.["remote_started"].["files"].["-request-body"] ==' $(file_row body)) "" ;;;
  assertR ($run.["remote_started"].["files"].["-expect-body"] ==' $(file_row response)) "".

(** Every latency of every worker, sorted. *)
Definition latencies_of (workers : list val) : res (list val) :=
  all <- mapR (fun worker => iterR ($worker.["latencies_ns"])) workers ;; py_sorted (concat all).
(** [latencies[min(len(latencies) - 1, int(.99 * len(latencies)))] / 1e6] *)
Definition p99_of (latencies : list val) : expr :=
  let n := Z.of_nat (length latencies) in
  i <- (a <- (x <- lit 99 2 *' int n ;; py_int_of x) ;; py_min [VInt (n - 1); a]) ;;
  at_ ($(VList latencies)) ($i) /' lit 1000000 0.

Definition clean_worker (w : val) : res bool := ($w.["attempts"] ==' $w.["successes"]) &&' notR (test ($w.["failures"])).
Definition check_load (run load : val) : res (list val * list val) :=
  assertR (notR (test ($load.["failures"]))) "" ;;;
  workers <- $load.["workers"] ;;
  assertR (chain_eq (lenR ($workers)) [$load.["connections"]; $run.["connections"]]) "" ;;;
  workers <- py_iter workers ;;
  latencies <- latencies_of workers ;;
  let n := Z.of_nat (length latencies) in
  assertR ((int n ==' $load.["window_successes"]) &&' ($load.["window_successes"] >' int 0)) "" ;;;
  assertR ($load.["validated_body_bytes"] ==' int n *' $run.["body_bytes"]) "" ;;;
  assertR ($load.["goodput_bytes_per_second"] ==' int n *' $run.["body_bytes"] /' $load.["duration_seconds"]) "" ;;;
  assertR (allR clean_worker workers) "" ;;;
  assertR ($load.["service_p99_ms"] ==' p99_of latencies) "" ;;;
  Ok (workers, latencies).

(** The queue controls of a worker. *)
Definition check_queue (load worker : val) : res unit :=
  ifR (test (get ($load) "freeze_hash") ||' test (get ($load) "unique_queues"))
    (ifR (has ($worker) "tx_rehash") (assertR ($worker.["tx_rehash"] ==' int 0) "") (Ok tt)) (Ok tt) ;;;
  ifR (test (get ($load) "calibrate_body")) (assertR ($worker.["calibration_bytes"] ==' int 8388608) "") (Ok tt) ;;;
  ifR (has ($worker) "queue_bucket")
    (assertR ($worker.["queue_bucket"] ==' (idx_at ($worker.["queue_probes"]) (-1)).["bucket"]) "" ;;;
     weights <- (idx_at ($worker.["queue_probes"]) (-1)).["weights"] ;;
     assertR (at_ ($weights) ($worker.["queue_bucket"]) >=' (l <- valuesR ($weights) ;; py_sum l) *' lit 9 1) "") (Ok tt).
Definition check_queues (load : val) (workers : list val) : res unit :=
  ifR (test (get ($load) "unique_queues"))
    (buckets <- set_by (fun w => $w.["queue_bucket"]) workers ;;
     assertR (int (Z.of_nat (length buckets)) ==' $load.["connections"]) "") (Ok tt) ;;;
  eachR (check_queue load) workers.
End Root.

(** ** Recomputed figures *)

Definition inside (start end_ : val) (s : val) : res bool :=
  ($start +' int 250000000 <=' $s.["unix_ns"]) &&' ($s.["unix_ns"] <' ($end_ -' int 250000000)).
Definition measured_samples (run load : val) : res (list val) :=
  start <- $load.["measure_start_unix_ns"] +' $run.["clock_offset_ns"] ;;
  end_ <- $load.["measure_end_unix_ns"] +' $run.["clock_offset_ns"] ;;
  samples <- iterR ($run.["samples"]) ;;
  filterR (inside start end_) samples.

(** [last['server'][k] - first['server'][k]] *)
Definition server_delta (k : string) (first last : val) : expr := $last.["server"].[k] -' $first.["server"].[k].

Record figures := Figures { f_first : val; f_last : val; f_seconds : val; f_cpu : val; f_goodput : val; f_rss : val }.
Definition figures_of (load : val) (samples : list val) : res figures :=
  first <- idx_at ($(VList samples)) 0 ;;
  last <- idx_at ($(VList samples)) (-1) ;;
  seconds <- ($last.["unix_ns"] -' $first.["unix_ns"]) /' lit 1000000000 0 ;;
  cpu <- server_delta "cpu_seconds" first last /' $seconds ;;
  goodput <- $load.["goodput_bytes_per_second"] /' int 1048576 ;;
  median <- medianR rss samples ;;
  Ok (Figures first last seconds cpu goodput median).
Definition cpu_per_mib (f : figures) : expr := ($(f_cpu f) /' $(f_goodput f)) *' lit 1000000 0.
Definition check_figures (summary : val) (f : figures) : res unit :=
  assertR ($summary.["cpu_cores"] ==' $(f_cpu f)) "" ;;;
  assertR ($summary.["cpu_us_per_mib"] ==' cpu_per_mib f) "" ;;;
  assertR ($summary.["rss_median_mib"] ==' $(f_rss f)) "".

(** ** The rows of the report *)

Definition allocations (s : val) : expr := $s.["metrics"].["counters"].["buffer_allocations_total"].
Definition per_mib (k : string) (f : figures) : expr :=
  (server_delta k (f_first f) (f_last f) /' $(f_seconds f) /' $(f_goodput f)) *' lit 1000000 0.

Definition upload_row (group : parts) (relative : string) (run load receipt client_delta : val) (latencies : list val) (f : figures) : expr :=
  mkdict [("group", str (name group)); ("path", str relative); ("variant", $run.["variant"]); ("body_bytes", $run.["body_bytes"]);
          ("receipt", $receipt); ("connections", $load.["connections"]); ("rate", $load.["rate_cap"]);
          ("profiled", rmap VBool (has ($run) "profile_command")); ("unique_queues", getd ($load) "unique_queues" (VBool false));
          ("freeze_hash", getd ($load) "freeze_hash" (VBool false)); ("calibrate_body", getd ($load) "calibrate_body" (VBool false));
          ("goodput_mib_per_second", $(f_goodput f)); ("p50_ms", py_median latencies /' lit 1000000 0);
          ("p99_ms", $load.["service_p99_ms"]); ("rss_mib", $(f_rss f)); ("cpu_us_per_mib", cpu_per_mib f);
          ("client_retransmissions", $client_delta.["tcp"].["RetransSegs"]); ("successes", $load.["window_successes"]);
          ("minor_faults", server_delta "minor_faults" (f_first f) (f_last f));
          ("buffer_allocations",
           ifR (test (get ($(f_first f)) "metrics")) (allocations (f_last f) -' allocations (f_first f)) ($VNone));
          ("user_cpu_us_per_mib", per_mib "user_seconds" f); ("system_cpu_us_per_mib", per_mib "system_seconds" f)].

Section Runs.
Context (t : tree) (ROOT : parts) (receipts : dict).

Definition upload_run (group path : parts) (relative : string) (run : val) (s : collected) : res collected :=
  receipt <- check_provenance t receipts group run ;;
  load <- $run.["load"] ;;
  check_body t group run load ;;;
  let* (workers, latencies) := check_load run load in
  check_queues load workers ;;;
  summary <- read t (under (parent path) "summary.json") ;;
  samples <- measured_samples run load ;;
  f <- figures_of load samples ;;
  check_figures summary f ;;;
  client_delta <- (a <- (idx_at ($run.["remote_samples"]) 0).["host"] ;; b <- (idx_at ($run.["remote_samples"]) (-1)).["host"] ;;
                   host_delta a b) ;;
  row <- upload_row group relative run load receipt client_delta latencies f ;;
  Ok (Collected (s_rows s ++ [row]) (s_failures s) (s_get_rows s) (s_get_checked s) (s_output s)).

Definition audit_run (folder : parts) (s : collected) (path : parts) : res collected :=
  p <- relative_to path folder ;;
  let relative := str_path p in
  run <- read t path ;;
  ifR ($run.["outcome"] !=' str "measured")
    (failure <- failed_run relative run ;;
     Ok (Collected (s_rows s) (s_failures s ++ [failure]) (s_get_rows s) (s_get_checked s) (s_output s)))
    (let group := parent (parent path) in
     if startswith "final-get-" (name group) then control_run t ROOT receipts group path relative run s
     else upload_run group path relative run s).
End Runs.

(** ** Groups *)

Definition add_trial (groups : list (val * list val)) (row : val) : res (list (val * list val)) :=
  k <- key (tupleR [$row.["group"]; $row.["variant"]; $row.["body_bytes"]]) ;;
  Ok ((fix go (l : list (val * list val)) :=
         match l with
         | [] => [(k, [row])]
         | (k', rows) :: l => if py_eqb k k' then (k', rows ++ [row]) :: l else (k', rows) :: go l
         end) groups).
Definition aggregate_fields : list string := ["goodput_mib_per_second"; "p50_ms"; "p99_ms"; "rss_mib"; "cpu_us_per_mib"].
Definition aggregate_row (g : val * list val) : expr :=
  mkdict [("group", idx_at ($(g.1)) 0); ("variant", idx_at ($(g.1)) 1); ("body_bytes", idx_at ($(g.1)) 2);
          ("repeats", int (Z.of_nat (length (g.2))));
          ("medians", dictcomp aggregate_fields (fun k => medianR (fun row => $row.[k]) (g.2)));
          ("trials", dictcomp aggregate_fields (fun k => listR (fun row => $row.[k]) (g.2)))].

(** ** The final build *)

Definition is_built (path : string) : bool :=
  startswith "src/" path || startswith "tests/" path || existsb (String.eqb path) ["build.zig"; "bench/upload.zig"; "bench/Crc32.zig"].
Definition check_built (t : tree) (ROOT : parts) (pe : val * val) : res unit :=
  path <- as_str pe.1 ;;
  if is_built path then assertR (rmap VStr (digest t (under ROOT path)) ==' $(pe.2)) path else Ok tt.
Definition check_final (t : tree) (ROOT : parts) (final_build : parts) : res unit :=
  final <- read t final_build ;;
  sources <- itemsR ($final.["sources"]) ;;
  eachR (check_built t ROOT) sources.
Definition check_planned (t : tree) (folder : parts) (item : val) : res unit :=
  command <- $item.["command"] ;;
  repeats <- (v <- after_flag command "--repeats" ;; py_int_of v) ;;
  label <- (v <- $item.["label"] ;; as_str v) ;;
  assertR (int (Z.of_nat (length (glob t (under folder label) (is_child "run.json")))) ==' $repeats *' int 2) label.
Definition check_plan (t : tree) (folder : parts) : res unit :=
  if exists_ t (under folder "final-plan.json") then
    items <- iterR (read t (under folder "final-plan.json")) ;; eachR (check_planned t folder) items
  else Ok tt.

(** ** The audit *)

Definition file_out (folder : parts) (name : string) (v : val) : res output :=
  text <- json_dumps2 v ;; Ok (Written (str_path (under folder name)) (text +:+ nl)).
Definition group_line (row : val) : res string :=
  rmap (fun l => join " " (map py_str l))
    (mapR (fun k => $row.[k]) ["group"; "variant"; "body_bytes"; "repeats"; "medians"]).

Definition main (t : tree) (ROOT folder : parts) (final_build : option parts) : res (list output) :=
  let folder := resolve t folder in
  receipts <- receipts_of t ROOT ;;
  s <- foldR (audit_run t ROOT receipts folder) (Collected [] [] [] [] []) (sorted_paths (glob t folder (is_grandchild "run.json"))) ;;
  groups <- foldR add_trial [] (s_rows s) ;;
  aggregate <- mapR aggregate_row groups ;;
  match final_build with Some p => check_final t ROOT p ;;; check_plan t folder | None => Ok tt end ;;;
  checked <- mapR (fun row => $row.["path"]) (s_rows s) ;;
  let receipt :=
    obj [("outcome", VStr "passed"); ("measured_runs", VInt (Z.of_nat (length (s_rows s))));
         ("get_control_runs", VInt (Z.of_nat (length (s_get_checked s)))); ("failed_excluded", VList (s_failures s));
         ("checked", VList (checked ++ s_get_checked s));
         ("final_build", match final_build with Some p => VStr (str_path p) | None => VNone end)] in
  out1 <- file_out folder "get-controls.json" (VList (s_get_rows s)) ;;
  out2 <- file_out folder "trials.json" (VList (s_rows s)) ;;
  out3 <- file_out folder "aggregate.json" (VList aggregate) ;;
  out4 <- file_out folder "audit.json" receipt ;;
  lines <- mapR group_line aggregate ;;
  Ok (s_output s ++ [out1; out2; out3; out4]
      ++ [Printed ("Audited " +:+ string_of_Z (Z.of_nat (length (s_rows s))) +:+ " measured runs; "
                   +:+ string_of_Z (Z.of_nat (length (s_failures s))) +:+ " failed setup runs retained separately." +:+ nl)]
      ++ map (fun line => Printed (line +:+ nl)) lines).

(** ** Lemmas *)

Lemma chain_eq_ok a l : chain_eq a l = Ok true -> match l with b :: _ => (a ==' b) = Ok true | [] => True end.
Proof. destruct l as [|b l]; [done|]. cbn. unfold andR. intros (x & Hx & H)%rbind_ok. by destruct x. Qed.

Lemma iter_len v l : py_iter v = Ok l -> py_len v = Ok (Z.of_nat (length l)).
Proof.
  destruct v; cbn; try done; intros [= <-]; rewrite ?length_map; try done. do 2 f_equal. by induction s as [|a s IH]; cbn; [|rewrite IH].
Qed.

(** What an audited upload run has shown of its requests. *)
Record load_sound (run load : val) (workers latencies : list val) : Prop := {
  ls_workers : iterR ($load.["workers"]) = Ok workers;
  ls_connections : (int (Z.of_nat (length workers)) ==' $load.["connections"]) = Ok true;
  ls_clean : forall w, w ∈ workers -> ($w.["attempts"] ==' $w.["successes"]) = Ok true /\ test ($w.["failures"]) = Ok false;
  ls_latencies : latencies_of workers = Ok latencies;
  ls_successes : (int (Z.of_nat (length latencies)) ==' $load.["window_successes"]) = Ok true
                 /\ ($load.["window_successes"] >' int 0) = Ok true;
  ls_bytes : ($load.["validated_body_bytes"] ==' int (Z.of_nat (length latencies)) *' $run.["body_bytes"]) = Ok true;
  ls_goodput : ($load.["goodput_bytes_per_second"]
                ==' int (Z.of_nat (length latencies)) *' $run.["body_bytes"] /' $load.["duration_seconds"]) = Ok true;
  ls_p99 : ($load.["service_p99_ms"] ==' p99_of latencies) = Ok true;
  ls_failures : test ($load.["failures"]) = Ok false }.

Lemma check_load_sound run load workers latencies :
  check_load run load = Ok (workers, latencies) -> load_sound run load workers latencies.
Proof.
  unfold check_load. intros (? & H1%assertR_ok & H)%rbind_ok. apply rbind_ok in H as (ws & Hw & H).
  apply rbind_ok in H as (? & H2%assertR_ok & H). apply rbind_ok in H as (l & Hl & H). apply rbind_ok in H as (lat & Ha & H).
  cbv zeta in H. apply rbind_ok in H as (? & H3%assertR_ok%andR_true & H). apply rbind_ok in H as (? & H4%assertR_ok & H).
  apply rbind_ok in H as (? & H5%assertR_ok & H). apply rbind_ok in H as (? & H6%assertR_ok & H).
  apply rbind_ok in H as (? & H7%assertR_ok & [= <- <-]). 
  assert (Hn : forall e, notR (test e) = Ok true -> test e = Ok false).
  { intros e. unfold notR. intros (b & -> & E)%rmap_ok. by destruct b. }
  split; try done.
  - unfold iterR. by rewrite Hw.
  - apply chain_eq_ok in H2. revert H2. unfold lenR. cbn [rbind]. 
    by rewrite (iter_len _ _ Hl).
  - rewrite allR_ok, Forall_forall in H6. intros w Hin. apply H6 in Hin. apply andR_true in Hin as [Ha' Hb]. split; [done|by apply Hn].
  - by apply Hn.
Qed.

(** The provenance of an upload run. *)
Record provenance_sound (t : tree) (receipts : dict) (group : parts) (run : val) : Prop := {
  ps_binary : exists binary pair expected, $(VDict receipts).[binary] = Ok pair /\ idx_at ($pair) 0 = Ok expected
              /\ (digest_at t (path_of binary) ==' $expected) = Ok true
              /\ ($run.["running_binary_sha256"] ==' $run.["binary_sha256"]) = Ok true
              /\ ($run.["binary_sha256"] ==' $expected) = Ok true;
  ps_kernel : other_kernel run = Ok true;
  ps_client : exists variants, read t (under group "variants.json") = Ok variants
              /\ (digest_at t (under group "upload_client.py") ==' $variants.["client_source_sha256"]) = Ok true }.

Lemma check_provenance_sound t receipts group run receipt :
  check_provenance t receipts group run = Ok receipt -> provenance_sound t receipts group run.
Proof.
  unfold check_provenance. intros (variants & Hv & H)%rbind_ok. apply rbind_ok in H as (binary & _ & H).
  apply rbind_ok in H as (pair & Hp & H). apply rbind_ok in H as (expected & He & H). apply rbind_ok in H as (? & _ & H).
  apply rbind_ok in H as (? & H1%assertR_ok%chain_eq_ok & H). apply rbind_ok in H as (? & H2%assertR_ok & H).
  apply rbind_ok in H as (? & H3%assertR_ok & H). apply rbind_ok in H as (command & _ & H).
  apply rbind_ok in H as (? & _ & H). apply rbind_ok in H as (? & H4%assertR_ok & _).
  unfold chain_eq in H2. apply andR_true in H2 as [H2 [H2' _]%andR_true].
  assert (exists b, binary = VStr b) as [b ->].
  { revert H1. unfold digest_of, eqR, lift2. cbn [rbind]. destruct binary; try done. by eexists. }
  split; [|done|by exists variants]. exists b, pair, expected. by split_and!.
Qed.

(** The bodies of an upload run. *)
Record body_sound (t : tree) (group : parts) (run load : val) : Prop := {
  bs_body : exists size body, $run.["body_bytes"] = Ok size
    /\ read_text t (under group ("body-" +:+ py_str size +:+ ".bin")) = Ok body
    /\ (int (Z.of_nat (String.length body)) ==' $size) = Ok true
    /\ (str (sha256_hex body) ==' $load.["request_body_sha256"]) = Ok true
    /\ (str (sha256_hex (response_of body)) ==' $load.["expected_body_sha256"]) = Ok true }.
Lemma check_body_sound t group run load u : check_body t group run load = Ok u -> body_sound t group run load.
Proof.
  unfold check_body. intros (size & Hs & H)%rbind_ok. apply rbind_ok in H as (body & Hb & H). cbv zeta in H.
  apply rbind_ok in H as (? & H1%assertR_ok%chain_eq_ok & H). apply rbind_ok in H as (? & H2%assertR_ok & H).
  apply rbind_ok in H as (? & H3%assertR_ok & _). split. exists size, body. by split_and!.
Qed.

(** The recomputed figures of an upload run. *)
Record figures_sound (t : tree) (path : parts) (run load : val) : Prop := {
  fs_figures : exists summary samples f, read t (under (parent path) "summary.json") = Ok summary
    /\ measured_samples run load = Ok samples /\ figures_of load samples = Ok f
    /\ ($summary.["cpu_cores"] ==' $(f_cpu f)) = Ok true /\ ($summary.["cpu_us_per_mib"] ==' cpu_per_mib f) = Ok true
    /\ ($summary.["rss_median_mib"] ==' $(f_rss f)) = Ok true }.

(** A phase of a GET control. *)
Definition phase_balanced (phase : val) : Prop := exists failed,
  ($phase.["failure_latency"].["count"] +' $phase.["rejection_latency"].["count"]) = Ok failed
  /\ ($failed ==' failures_total phase) = Ok true
  /\ ($phase.["offered"] ==' $phase.["successes"] +' $failed +' $phase.["generator_expired"] +' $phase.["generator_queue_drops"]) = Ok true.

Lemma check_phase_balanced phase failed : check_phase phase = Ok failed -> phase_balanced phase.
Proof.
  unfold check_phase. intros (f & Ef & Hf)%rbind_ok. apply rbind_ok in Hf as (? & H1%assertR_ok & Hf).
  apply rbind_ok in Hf as (? & H2%assertR_ok & _). exists f. by split_and!.
Qed.
Lemma get_rows_balanced group relative run rows phases results rows' :
  get_rows group relative run rows phases results = Ok rows' -> length phases = length results /\ Forall phase_balanced phases.
Proof.
  revert rows results. induction phases as [|phase phases IH]; intros rows [|result results]; cbn [get_rows]; try done.
  intros (failed & Hf%check_phase_balanced & H)%rbind_ok. apply rbind_ok in H as (? & _ & H). apply IH in H as [L F].
  split; [cbn; congruence|by constructor].
Qed.

(** What a run file that the audit accepts is. *)
Inductive accepted (t : tree) (ROOT : parts) (receipts : dict) (folder path : parts) (run : val) : Prop :=
  | KnownFailure p expected error : ($run.["outcome"] !=' str "measured") = Ok true -> relative_to path folder = Ok p ->
      sget (str_path p) expected_failures = Some expected -> $run.["error"] = Ok error -> py_in expected error = Ok true ->
      accepted t ROOT receipts folder path run
  | Control load phases : ($run.["outcome"] !=' str "measured") = Ok false ->
      startswith "final-get-" (name (parent (parent path))) = true ->
      check_control t ROOT receipts (parent (parent path)) path run = Ok tt ->
      $run.["load"] = Ok load -> iterR ($load.["phases"]) = Ok phases -> Forall phase_balanced phases ->
      accepted t ROOT receipts folder path run
  | Upload load workers latencies : ($run.["outcome"] !=' str "measured") = Ok false ->
      startswith "final-get-" (name (parent (parent path))) = false ->
      provenance_sound t receipts (parent (parent path)) run -> $run.["load"] = Ok load ->
      body_sound t (parent (parent path)) run load -> load_sound run load workers latencies ->
      figures_sound t path run load -> accepted t ROOT receipts folder path run.

(** The runs seen so far. *)
Definition seen (s : collected) : nat := (length (s_rows s) + length (s_get_checked s) + length (s_failures s))%nat.

Lemma audit_run_accepts t ROOT receipts folder s path s' :
  audit_run t ROOT receipts folder s path = Ok s' ->
  seen s' = S (seen s) /\ exists run, read t path = Ok run /\ accepted t ROOT receipts folder path run.
Proof.
  unfold audit_run. intros (p & Hp & H)%rbind_ok. cbv zeta in H. apply rbind_ok in H as (run & Hr & H).
  unfold ifR at 1 in H. apply rbind_ok in H as (b & Hb & H). destruct b.
  - apply rbind_ok in H as (failure & Hf & [= <-]). unfold seen. cbn. rewrite length_app. cbn. split; [lia|]. exists run. split; [done|].
    unfold failed_run in Hf. apply rbind_ok in Hf as (? & Ha%assertR_ok & _).
    apply rbind_ok in Ha as (e & (d & [= <-] & He)%idx_ok & (error & Herr & Hin)%rbind_ok). by eapply KnownFailure.
  - destruct (startswith "final-get-" _) eqn:Eg.
    + unfold control_run in H. apply rbind_ok in H as ([] & Hc & H). apply rbind_ok in H as (load & Hl & H).
      do 3 (apply rbind_ok in H as (? & _ & H)). apply rbind_ok in H as (phases & Hph & H). apply rbind_ok in H as (results & _ & H).
      apply rbind_ok in H as (rows & Hrows & [= <-]). unfold seen. cbn. rewrite length_app. cbn. split; [lia|]. exists run. split; [done|].
      apply get_rows_balanced in Hrows as [_ Hph']. by eapply Control.
    + unfold upload_run in H. apply rbind_ok in H as (receipt & Hpr%check_provenance_sound & H). apply rbind_ok in H as (load & Hl & H).
      apply rbind_ok in H as ([] & Hbody%check_body_sound & H). apply rbind_ok in H as ([workers latencies] & Hld%check_load_sound & H).
      apply rbind_ok in H as (? & _ & H). apply rbind_ok in H as (summary & Hsum & H). apply rbind_ok in H as (samples & Hsam & H).
      apply rbind_ok in H as (f & Hfig & H). apply rbind_ok in H as ([] & Hchk & H). do 2 (apply rbind_ok in H as (? & _ & H)).
      injection H as <-. unfold seen. cbn. rewrite length_app. cbn. split; [lia|]. exists run. split; [done|].
      unfold check_figures in Hchk. apply rbind_ok in Hchk as (? & C1%assertR_ok & Hchk). apply rbind_ok in Hchk as (? & C2%assertR_ok & C3%assertR_ok).
      eapply Upload; try done. split. exists summary, samples, f. by split_and!.
Qed.

Lemma audit_runs_accept t ROOT receipts folder l s s' :
  foldR (audit_run t ROOT receipts folder) s l = Ok s' ->
  seen s' = (seen s + length l)%nat
  /\ forall path, path ∈ l -> exists run, read t path = Ok run /\ accepted t ROOT receipts folder path run.
Proof.
  revert s. induction l as [|p l IH]; intros s; cbn [foldR].
  - intros [= <-]. split; [cbn; lia|]. intros path Hp. by apply not_elem_of_nil in Hp.
  - intros (s1 & [E1 H1]%audit_run_accepts & [E2 H2]%IH)%rbind_ok. split; [cbn; lia|].
    intros path [->|Hp]%elem_of_cons; [done|by apply H2].
Qed.

(** C14: Soundness of the upload audit.  When it ends, every recorded run below its folder is one of the known failed runs with the
    expected error; or a GET control whose binary, kernel, manifest and sources check out and whose phases balance every
    offered request; or an upload run whose binary and client source are those of the receipts, whose body and expected
    answer are the recorded ones, whose workers succeeded in every attempt, whose successes, bytes, goodput and 99th
    percentile are those of the single latencies, and whose summary has the CPU and memory figures of its samples.  And
    the receipt it writes accounts for every run file exactly once. *)
Theorem upload_audit_sound t ROOT folder final_build out :
  main t ROOT folder final_build = Ok out ->
  exists receipts receipt text measured controls failures,
    let runs := glob t (resolve t folder) (is_grandchild "run.json") in
    receipts_of t ROOT = Ok receipts
    /\ (forall path, path ∈ runs -> exists run, read t path = Ok run /\ accepted t ROOT receipts (resolve t folder) path run)
    /\ Written (str_path (under (resolve t folder) "audit.json")) (text +:+ nl) ∈ out /\ json_dumps2 receipt = Ok text
    /\ $receipt.["outcome"] = str "passed" /\ $receipt.["measured_runs"] = int measured
    /\ $receipt.["get_control_runs"] = int controls /\ $receipt.["failed_excluded"] = $(VList failures)
    /\ measured + controls + Z.of_nat (length failures) = Z.of_nat (length runs).
Proof.
  unfold main. cbv zeta. intros (receipts & Hr & H)%rbind_ok. apply rbind_ok in H as (s & [Hn Ha]%audit_runs_accept & H).
  apply rbind_ok in H as (groups & _ & H). apply rbind_ok in H as (aggregate & _ & H). apply rbind_ok in H as (? & _ & H).
  apply rbind_ok in H as (checked & _ & H). do 3 (apply rbind_ok in H as (? & _ & H)). apply rbind_ok in H as (out4 & H4 & H).
  apply rbind_ok in H as (lines & _ & [= <-]). unfold file_out in H4. apply rbind_ok in H4 as (text & Ht & [= <-]).
  exists receipts. eexists. exists text. eexists _, _, _. split_and!; [done| | |exact Ht|reflexivity|reflexivity|reflexivity|reflexivity|].
  - intros path Hp. apply Ha. by rewrite sorted_paths_perm.
  - apply elem_of_app. right. do 3 right. by left.
  - rewrite (Permutation_length (sorted_paths_perm _)) in Hn. unfold seen in Hn. cbn in Hn. lia.
Qed.

(** *** An experiment of one upload run *)

Definition json_text (v : val) : string := match json_dumps v with Ok s => s | Err _ => "" end.
Definition sample_client : string := "client source".
Definition sample_body : string := "ab".
Definition sample_sha : val := VStr (sha256_hex "elf").
Definition sample_host (now : Z) : val :=
  obj [("unix_ns", VInt now); ("stat", VStr ("cpu0 1 0 " +:+ string_of_Z now +:+ " 5 0 0 0 0 0 0" +:+ nl));
       ("net/snmp", VStr ("Tcp: InSegs OutSegs RetransSegs InErrs OutRsts" +:+ nl +:+ "Tcp: 1 2 3 4 5" +:+ nl));
       ("net/netstat", VStr ("TcpExt: ListenDrops" +:+ nl +:+ "TcpExt: 0" +:+ nl)); ("nics", obj [])].
Definition sample_at (now cpu : Z) : val :=
  obj [("unix_ns", VInt now); ("host", sample_host now);
       ("server", obj [("cpu_seconds", VInt cpu); ("user_seconds", VInt cpu); ("system_seconds", VInt 0); ("minor_faults", VInt 7);
                       ("VmRSS", VInt 1048576)])].
Definition sample_load : val :=
  obj [("failures", obj []); ("connections", VInt 1); ("window_successes", VInt 2); ("validated_body_bytes", VInt 4);
       ("goodput_bytes_per_second", VFloat (f64_lit 2 0)); ("duration_seconds", VInt 2); ("service_p99_ms", VFloat (f64_lit 2 0));
       ("rate_cap", VInt 0); ("measure_start_unix_ns", VInt 0); ("measure_end_unix_ns", VInt 1000000000);
       ("request_body_bytes", VInt 2); ("request_body_sha256", VStr (sha256_hex sample_body));
       ("expected_body_sha256", VStr (sha256_hex (response_of sample_body)));
       ("workers", VList [obj [("attempts", VInt 2); ("successes", VInt 2); ("failures", obj []);
                               ("latencies_ns", VList [VInt 2000000; VInt 1000000])]])].
Definition sample_samples : list val := [sample_at 300000000 0; sample_at 700000000 1].
Definition sample_run : val :=
  obj [("outcome", VStr "measured"); ("variant", VStr "streaming"); ("binary_sha256", sample_sha); ("running_binary_sha256", sample_sha);
       ("remote_identity", obj [("boot_id", VStr "c")]); ("server_identity", obj [("boot_id", VStr "s")]);
       ("remote_started", obj [("command", VList [VStr "python3"; VStr "-c"; VStr sample_client]); ("cpus", VList (map VInt (seqZ 0 8)));
                               ("files", obj [("-request-body", file_row sample_body); ("-expect-body", file_row (response_of sample_body))])]);
       ("server_exit", VInt 0); ("body_bytes", VInt 2); ("connections", VInt 1); ("load", sample_load); ("clock_offset_ns", VInt 0);
       ("samples", VList sample_samples); ("remote_samples", VList sample_samples)].
Definition sample_failure : val :=
  obj [("outcome", VStr "failed"); ("error", VStr "AssertionError()"); ("server_exit", VInt 0)].
Definition sample_summary : val :=
  match figures_of sample_load sample_samples with
  | Ok f => obj [("cpu_cores", f_cpu f); ("cpu_us_per_mib", match cpu_per_mib f with Ok v => v | Err _ => VNone end); ("rss_median_mib", f_rss f)]
  | Err _ => VNone
  end.
Definition sample_tree : tree :=
  Tree [(path_of "/r/docs/go-after-nginx/build.json",
         json_text (obj [("builds", VList [obj [("binary", VStr "/b/streaming"); ("binary_sha256", sample_sha)]])]));
        (path_of "/b/streaming", "elf");
        (path_of "/r/x/assigned-saturated/n65536-streaming-1/run.json", json_text sample_failure);
        (path_of "/r/x/g/variants.json",
         json_text (obj [("binaries", obj [("streaming", VStr "/b/streaming")]); ("sha256", obj [("streaming", sample_sha)]);
                         ("client_source_sha256", VStr (sha256_hex sample_client))]));
        (path_of "/r/x/g/upload_client.py", sample_client); (path_of "/r/x/g/body-2.bin", sample_body);
        (path_of "/r/x/g/n2-streaming-1/run.json", json_text sample_run);
        (path_of "/r/x/g/n2-streaming-1/summary.json", json_text sample_summary)] (path_of "/r").

Definition sample_out : list output := match main sample_tree (path_of "/r") (path_of "x") None with Ok out => out | Err _ => [] end.

Lemma sample_audit_passes : main sample_tree (path_of "/r") (path_of "x") None = Ok sample_out.
Proof. vm_compute. reflexivity. Qed.

Lemma upload_audit_sound_witness :
  main sample_tree (path_of "/r") (path_of "x") None = Ok sample_out
  /\ exists receipts receipt text measured controls failures,
    let runs := glob sample_tree (resolve sample_tree (path_of "x")) (is_grandchild "run.json") in
    receipts_of sample_tree (path_of "/r") = Ok receipts
    /\ (forall path, path ∈ runs -> exists run, read sample_tree path = Ok run
          /\ accepted sample_tree (path_of "/r") receipts (resolve sample_tree (path_of "x")) path run)
    /\ Written (str_path (under (resolve sample_tree (path_of "x")) "audit.json")) (text +:+ nl) ∈ sample_out
    /\ json_dumps2 receipt = Ok text
    /\ $receipt.["outcome"] = str "passed" /\ $receipt.["measured_runs"] = int measured
    /\ $receipt.["get_control_runs"] = int controls /\ $receipt.["failed_excluded"] = $(VList failures)
    /\ measured + controls + Z.of_nat (length failures) = Z.of_nat (length runs).
Proof.
  split; [exact sample_audit_passes|].
  exact (upload_audit_sound sample_tree (path_of "/r") (path_of "x") None sample_out sample_audit_passes).
Defined.
