(* ===== verification/SummarizeGoAfterNginx.v ===== *)
(** * [bench/summarize_go_after_nginx.py]: audit and summary of the Go comparison

    [main] checks every binary and source of the build against its receipt, every planned run against its own accounting
    - uploads, GET rates and closed loops - and the checksum trials against checksums it computes itself; then it takes the
    medians of three trials.  The result is what the script writes and prints when it ends; an exception is a failed audit.
    The checks an upload or a phase shares with [audit_upload_parity.py] are those of [AuditUploadParity]. *)

From stdpp Require Import base list strings.
From Stdlib Require Import ZArith Lia Ascii.
From S2P Require Import Prelude PyFloat PyText PyVal PyJson PyScript PyStats PyHash Evidence SummarizeArchitecture AuditUploadParity.

Local Open Scope Z_scope.
Open Scope py_scope.

(** ** Receipts *)

Section Root.
Context (t : tree) (ROOT : parts).

(** [binaries]: the path of every binary with its expected digest. *)
Definition binaries_of (receipt : val) : res dict :=
  rows <- iterR ($receipt.["builds"]) ;;
  binaries <- dict_by (fun row => $row.["binary"]) (fun row => $row.["binary_sha256"]) rows ;;
  zhtps <- dict_by (fun k => $receipt.[k].["path"]) (fun k => $receipt.[k].["sha256"]) ["zhtps"; "zhtps_upload"] ;;
  Ok (dupdate binaries zhtps).

Definition check_binary (pe : val * val) : res unit :=
  path <- as_str pe.1 ;; assertR (digest_of t ($(pe.1)) ==' $(pe.2)) path.
Definition check_build_source (row : val) : res unit :=
  assertR ((v <- $row.["source"] ;; s <- as_str v ;; digest_at t (under ROOT s)) ==' $row.["source_sha256"]) "".
Definition check_plan_source (folder : parts) (pe : val * val) : res unit :=
  path <- as_str pe.1 ;;
  assertR (chain_eq (digest_at t (under ROOT path)) [digest_at t (under (under folder "sources") path); $(pe.2)]) path.
Definition check_root_source (pe : val * val) : res unit :=
  path <- as_str pe.1 ;; assertR (digest_at t (under ROOT path) ==' $(pe.2)) path.
(** The production sources and the two files the upload server is built from. *)
Definition is_production (path : string) : bool :=
  startswith "src/" path || existsb (String.eqb path) ["build.zig"; "bench/upload.zig"].
Definition check_production (pe : val * val) : res unit :=
  path <- as_str pe.1 ;; if is_production path then check_root_source pe else Ok tt.

(** The binaries, the client and the sources they were built from. *)
Definition check_builds (receipt : val) (binaries : dict) : res unit :=
  eachR check_binary binaries ;;;
  assertR (digest_of t ($receipt.["client"].["path"]) ==' $receipt.["client"].["sha256"]) "" ;;;
  builds <- iterR ($receipt.["builds"]) ;;
  eachR check_build_source builds.
(** The sources of the plan, kept beside the runs, and those of the final build. *)
Definition check_sources (folder : parts) (plan : val) : res unit :=
  sources <- itemsR ($plan.["source_sha256"]) ;;
  eachR (check_plan_source folder) sources ;;;
  final <- itemsR ((read t (under ROOT "docs/nginx-implementation/final/build.json")).["sources"]) ;;
  eachR check_production final.
End Root.

(** ** Runs *)

(** What holds of every run. *)
Definition check_run (binaries : dict) (path : parts) (run : val) : res unit :=
  assertR ($run.["outcome"] ==' str "measured") (str_path path) ;;;
  assertR (chain_eq ($run.["binary_sha256"])
             [$run.["running_binary_sha256"]; at_ ($(VDict binaries)) (idx_at ($run.["command"]) 0)]) (str_path path) ;;;
  assertR ($run.["server_identity"].["boot_id"] !=' $run.["remote_identity"].["boot_id"]) "" ;;;
  assertR ($run.["remote_started"].["cpus"] ==' eight_cpus) "" ;;;
  ifR (is_go run)
    (assertR ($run.["go_runtime"].["gomaxprocs"] ==' int 32) "" ;;; assertR ($run.["server_exit"] ==' int (-15)) "")
    (assertR ($run.["server_exit"] ==' int 0) "").

(** [base], which every row begins with. *)
Definition base_of (group : string) (path : parts) (relative : string) (variant : val) : list (string * expr) :=
  [("group", str group); ("trial", str (name (parent path))); ("path", str relative); ("variant", $variant)].

(** *** Uploads *)

Definition even_worker (w : val) : res bool := ($w.["successes"] ==' $w.["attempts"]) &&' notR (test ($w.["failures"])).
Definition check_file (run : val) (flag content : string) : res unit :=
  assertR ($run.["remote_started"].["files"].[flag] ==' $(file_row content)) "".
Definition check_upload (run load : val) (body : string) : res unit :=
  let response := response_of body in
  assertR (chain_eq (int (Z.of_nat (String.length body))) [$run.["body_bytes"]; $load.["request_body_bytes"]]) "" ;;;
  assertR ($load.["request_body_sha256"] ==' str (sha256_hex body)) "" ;;;
  assertR ($load.["expected_body_sha256"] ==' str (sha256_hex response)) "" ;;;
  assertR (notR (test ($load.["failures"]))) "" ;;;
  assertR (chain_eq (lenR ($load.["workers"])) [$load.["connections"]; $run.["connections"]; int 32]) "" ;;;
  workers <- iterR ($load.["workers"]) ;;
  assertR (allR even_worker workers) "" ;;;
  assertR ((sumR (fun w => lenR ($w.["latencies_ns"])) workers ==' $load.["window_successes"])
           &&' ($load.["window_successes"] >' int 0)) "" ;;;
  assertR ($load.["validated_body_bytes"] ==' $load.["window_successes"] *' $run.["body_bytes"]) "" ;;;
  assertR ($load.["goodput_bytes_per_second"] ==' $load.["validated_body_bytes"] /' int 20) "" ;;;
  check_file run "-request-body" body ;;;
  check_file run "-expect-body" response.

Definition upload_row (base : list (string * expr)) (size result : val) : expr :=
  mkdict (base ++
    [("body_bytes", $size); ("goodput", $result.["goodput_mib_per_second"]); ("p99_ms", $result.["service_p99_ms"]);
     ("rss_mib", $result.["rss_median_mib"]); ("cpu_us_per_mib", $result.["cpu_us_per_mib"]); ("cpu_cores", $result.["cpu_cores"]);
     ("failures", int 0); ("retrans_server", $result.["server_host"].["tcp"].["RetransSegs"])]).

(** *** Rates *)

Definition rate_row (base : list (string * expr)) (run phase result count failures : val) : expr :=
  start <- $phase.["start_unix_ns"] +' $run.["clock_offset_ns"] ;;
  end_ <- $phase.["end_unix_ns"] +' $run.["clock_offset_ns"] ;;
  all <- iterR ($run.["samples"]) ;;
  samples <- filterR (within ($start) ($end_)) all ;;
  mkdict (base ++
    [("connections", $count); ("rate", $phase.["offered_rate"]); ("goodput", $result.["goodput"]);
     ("p99_ms", $result.["service_p99_us"] /' int 1000); ("rss_mib", medianR rss samples);
     ("cpu_us", $result.["cpu_us_per_success_estimate"]); ("cpu_cores", $result.["process_cpu_cores"]); ("failures", $failures);
     ("failure_types", $phase.["failures"]); ("generator_drops", $result.["generator_drops"]);
     ("retrans_server", $result.["server_host"].["tcp"].["RetransSegs"]);
     ("retrans_client", get (getd (getd ($result) "client_host" (VDict [])) "tcp" (VDict [])) "RetransSegs")]).

(** The rows of the phases from 100,000 requests a second on; every phase is checked. *)
Fixpoint rate_rows (base : list (string * expr)) (run count : val) (rows : list val) (phases results : list val) : res (list val) :=
  match phases, results with
  | [], [] => Ok rows
  | phase :: phases, result :: results =>
      failures <- check_phase phase ;;
      rows <- ifR ($phase.["offered_rate"] <' int 100000) (Ok rows)
                (row <- rate_row base run phase result count failures ;; Ok (rows ++ [row])) ;;
      rate_rows base run count rows phases results
  | _, _ => raise ValueError "zip() arguments have different lengths"
  end.

(** *** Closed loops *)

Definition check_closed (load count : val) : res unit :=
  assertR ($load.["attempts"] ==' $load.["successes"] +' $load.["errors"]) "" ;;;
  assertR (failures_total load ==' $load.["errors"]) "" ;;;
  assertR ($load.["window_successes_per_second"] ==' $load.["window_successes"] /' int 10) "" ;;;
  assertR ($load.["connections_ready"] +' $load.["setup_errors"] ==' $count) "" ;;;
  assertR (chain_eq ($load.["connections_measured"]) [$load.["connections_ready"]; $count]) "".
Definition closed_row (base : list (string * expr)) (load result count : val) : expr :=
  mkdict (base ++
    [("connections", $count); ("goodput", $load.["window_successes_per_second"]); ("p99_ms", $load.["latency_us"].["p99"] /' int 1000);
     ("failures", $load.["errors"]); ("warmup_errors", $load.["warmup_errors"]); ("setup_errors", $load.["setup_errors"]);
     ("failure_types", $load.["failures"]); ("connections_measured", $load.["connections_measured"]);
     ("connections_opened", $load.["connections_opened"]); ("retrans_server", $result.["server_network"].["tcp"].["RetransSegs"])]).

(** *** The loops over the plan *)

(** What they collect: the rows, the checked paths and the summaries written on the way. *)
Record collected := Collected { g_rows : list val; g_checked : list val; g_output : list output }.

Section Runs.
Context (t : tree) (receipt : val) (binaries : dict) (folder : parts) (group : string).

Definition upload_run (base : list (string * expr)) (path : parts) (run load : val) : res (list val * list output) :=
  size <- $run.["body_bytes"] ;;
  body <- read_text t (under (under folder group) ("body-" +:+ py_str size +:+ ".bin")) ;;
  check_upload run load body ;;;
  result <- read t (under (parent path) "summary.json") ;;
  row <- upload_row base size result ;;
  Ok ([row], []).

Definition get_run (base : list (string * expr)) (path : parts) (run load : val) : res (list val * list output) :=
  assertR ($run.["remote_started"].["binary_sha256"] ==' $receipt.["client"].["sha256"]) "" ;;;
  count <- $run.["options"].["connections"] ;;
  ifR ($run.["variant"] ==' str "zig")
    (assertR ($run.["metrics_after"].["counters"].["connections_reclaimed_total"] ==' int 0) "") (Ok tt) ;;;
  result <- summarize t path ;;
  text <- json_dumps2 result ;;
  rows <- (if startswith "rates" group then
             assertR ($load.["gomaxprocs"] ==' int 8) "" ;;;
             phases <- iterR ($load.["phases"]) ;;
             results <- iterR ($result.["phases"]) ;;
             rate_rows base run count [] phases results
           else
             check_closed load count ;;;
             row <- closed_row base load result count ;;
             Ok [row]) ;;
  Ok (rows, [Written (str_path (under (parent path) "summary.json")) (text +:+ nl)]).

Definition audit_run (s : collected) (path : parts) : res collected :=
  run <- read t path ;;
  check_run binaries path run ;;;
  load <- $run.["load"] ;;
  p <- relative_to path folder ;;
  variant <- $run.["variant"] ;;
  let base := base_of group path (str_path p) variant in
  let* (rows, out) := if startswith "uploads" group then upload_run base path run load else get_run base path run load in
  Ok (Collected (g_rows s ++ rows) (g_checked s ++ [VStr (str_path p)]) (g_output s ++ out)).
End Runs.

(** How many runs a group has. *)
Definition expected_runs (group : string) : nat := if String.eqb group "uploads" then 12 else 6.
Definition group_files (t : tree) (folder : parts) (group : string) : list parts :=
  sorted_paths (glob t (under folder group) (is_child "run.json")).
Definition audit_group (t : tree) (receipt : val) (binaries : dict) (folder : parts) (s : collected) (item : val) : res collected :=
  group <- (v <- $item.["label"] ;; as_str v) ;;
  let files := group_files t folder group in
  require (length files =? expected_runs group)%nat group ;;;
  foldR (audit_run t receipt binaries folder group) s files.

(** ** Groups *)

Definition group_key (row : val) : expr :=
  tupleR [$row.["group"]; $row.["variant"]; getd ($row) "rate" (VInt 0); getd ($row) "body_bytes" (VInt 0)].
Definition fields : list string := ["goodput"; "p99_ms"; "rss_mib"; "cpu_us"; "cpu_us_per_mib"; "cpu_cores"].
(** [[key for key in fields if key in trials[0]]] *)
Fixpoint present (first : val) (keys : list string) : res (list string) :=
  match keys with
  | [] => Ok []
  | k :: keys => b <- has ($first) k ;; l <- present first keys ;; Ok (if b : bool then k :: l else l)
  end.
Definition aggregate_row (rows : list val) (k : val) : expr :=
  trials <- filterR (fun row => group_key row ==' $k) rows ;;
  require (length trials =? 3)%nat "" ;;;
  keys <- present (hd VNone trials) fields ;;
  mkdict [("group", idx_at ($k) 0); ("variant", idx_at ($k) 1); ("rate", idx_at ($k) 2); ("body_bytes", idx_at ($k) 3);
          ("medians", dictcomp keys (fun key => medianR (fun row => $row.[key]) trials));
          ("trials", dictcomp keys (fun key => listR (fun row => $row.[key]) trials));
          ("failures", sumR (fun row => $row.["failures"]) trials);
          ("warmup_errors", sumR (fun row => getd ($row) "warmup_errors" (VInt 0)) trials);
          ("setup_errors", sumR (fun row => getd ($row) "setup_errors" (VInt 0)) trials);
          ("retrans_server", listR (fun row => $row.["retrans_server"]) trials)].
Definition aggregate_of (rows : list val) : res (list val) :=
  keys <- (s <- set_by group_key rows ;; py_sorted s) ;;
  mapR (aggregate_row rows) keys.

(** ** Checksum trials *)

(** [bytes(range(256)) * n], as integers *)
Definition checksum_body (n : nat) : list Z := concat (replicate n (seqZ 0 256)).
Definition crc_of (bytes : list Z) : Z := Z.lxor (foldl crc_byte 4294967295 bytes) 4294967295.
(** The first byte counts the rounds; the sum of the checksums. *)
Fixpoint checksum_sum (rounds : nat) (body : list Z) : Z :=
  match rounds with
  | O => 0
  | S rounds =>
      let body := match body with b :: body => (b + 1) mod 256 :: body | [] => [] end in
      crc_of body + checksum_sum rounds body
  end.
Definition check_trial (size warm sum : Z) (trial : val) : res unit :=
  assertR (($trial.["bytes"] ==' int size) &&' ($trial.["iterations"] ==' int 64)) "" ;;;
  assertR ($trial.["chunk_bytes"] ==' int 65536) "" ;;;
  assertR ($trial.["warm_checksum"] ==' int warm) "" ;;;
  assertR ($trial.["checksum_sum"] ==' int sum) "" ;;;
  assertR ($trial.["cpu_us_per_mib"] ==' $trial.["cpu_ns"] /' int 1000 /' int 512) "".
Definition check_costs (checksum : val) (trials : list val) (variant : string) : res unit :=
  of_variant <- filterR (fun t => $t.["variant"] ==' str variant) trials ;;
  costs <- mapR (fun t => $t.["cpu_us_per_mib"]) of_variant ;;
  require (length costs =? 3)%nat "" ;;;
  assertR ($checksum.["medians"].[variant] ==' py_median costs) "".
Definition check_checksum_binary (t : tree) (ROOT : parts) (ve : val * val) : res unit :=
  assertR (digest_at t (under ROOT ("zig-out/go-after-nginx/checksum-" +:+ py_str ve.1)) ==' $(ve.2)) "".
(** The checksum trials over a body of [256 * n] bytes. *)
Definition check_checksums (n : nat) (t : tree) (ROOT folder : parts) : res unit :=
  checksum <- read t (under folder "checksum/results.json") ;;
  sources <- itemsR ($checksum.["sources"]) ;;
  eachR (check_root_source t ROOT) sources ;;;
  built <- itemsR ($checksum.["binaries"]) ;;
  eachR (check_checksum_binary t ROOT) built ;;;
  let body := checksum_body n in
  trials <- $checksum.["trials"] ;;
  assertR (lenR ($trials) ==' int 6) "" ;;;
  trials <- py_iter trials ;;
  eachR (check_trial (Z.of_nat (length body)) (crc_of body) (checksum_sum 64 body)) trials ;;;
  eachR (check_costs checksum trials) ["zig"; "go"].

(** ** The audit *)

Definition audit_json (checked : list val) : val :=
  obj [("outcome", VStr "passed"); ("runs", VInt (Z.of_nat (length checked))); ("checked", VList checked);
       ("production_source_unchanged", VBool true); ("go_gomaxprocs", VInt 32); ("offered_client_gomaxprocs", VInt 8);
       ("checksum_trials", VInt 6); ("all_closed_loop_connections_participated", VBool true);
       ("get_idle_connections_reclaimed", VInt 0); ("excluded", VList [VStr "upload-smoke"])].
Definition group_line (row : val) : res string :=
  rmap (fun l => join " " (map py_str l))
    (mapR id [$row.["group"]; $row.["variant"]; $row.["rate"]; $row.["body_bytes"]; $row.["medians"]; str "failures"; $row.["failures"]]).

(** [main] over a checksum body of [256 * n] bytes. *)
Definition main_with (n : nat) (t : tree) (ROOT folder : parts) : res (list output) :=
  let folder := resolve t folder in
  receipt <- read t (under folder "build.json") ;;
  binaries <- binaries_of receipt ;;
  check_builds t ROOT receipt binaries ;;;
  plan <- read t (under folder "plan.json") ;;
  check_sources t ROOT folder plan ;;;
  items <- iterR ($plan.["runs"]) ;;
  s <- foldR (audit_group t receipt binaries folder) (Collected [] [] []) items ;;
  aggregate <- aggregate_of (g_rows s) ;;
  check_checksums n t ROOT folder ;;;
  out1 <- file_out folder "trials.json" (VList (g_rows s)) ;;
  out2 <- file_out folder "aggregate.json" (VList aggregate) ;;
  out3 <- file_out folder "audit.json" (audit_json (g_checked s)) ;;
  lines <- mapR group_line aggregate ;;
  Ok (g_output s ++ [out1; out2; out3]
      ++ [Printed ("Audited " +:+ string_of_Z (Z.of_nat (length (g_checked s))) +:+ " two-host trials and six checksum-only trials." +:+ nl)]
      ++ map (fun line => Printed (line +:+ nl)) lines).

(** [8 * 1024 * 1024] bytes. *)
Definition main : tree -> parts -> parts -> res (list output) := main_with (Z.to_nat (8 * 1024 * 1024 / 256)).

(** ** Lemmas *)

(** What holds of every audited run. *)
Record run_sound (binaries : dict) (run : val) : Prop := {
  rs_measured : ($run.["outcome"] ==' str "measured") = Ok true;
  rs_binary : ($run.["binary_sha256"] ==' $run.["running_binary_sha256"]) = Ok true
              /\ ($run.["running_binary_sha256"] ==' at_ ($(VDict binaries)) (idx_at ($run.["command"]) 0)) = Ok true;
  rs_hosts : ($run.["server_identity"].["boot_id"] !=' $run.["remote_identity"].["boot_id"]) = Ok true;
  rs_exit : exists go, is_go run = Ok go /\ ($run.["server_exit"] ==' int (if go : bool then -15 else 0)) = Ok true }.
Lemma check_run_sound binaries path run u : check_run binaries path run = Ok u -> run_sound binaries run.
Proof.
  unfold check_run. intros (? & H1%assertR_ok & H)%rbind_ok. apply rbind_ok in H as (? & H2%assertR_ok & H).
  apply rbind_ok in H as (? & H3%assertR_ok & H). apply rbind_ok in H as (? & _ & H).
  unfold chain_eq in H2. apply andR_true in H2 as [H2 [H2' _]%andR_true].
  unfold ifR in H. apply rbind_ok in H as (go & Hg & H). split; [done|done|done|]. exists go. split; [done|].
  destruct go; [apply rbind_ok in H as (? & _ & H)|]; by apply assertR_ok in H.
Qed.

(** An upload run: every attempt of every worker succeeded, and successes, bytes and goodput are those of the latencies. *)
Record upload_sound (run load : val) (body : string) (workers : list val) : Prop := {
  us_body : (int (Z.of_nat (String.length body)) ==' $run.["body_bytes"]) = Ok true
            /\ ($load.["request_body_sha256"] ==' str (sha256_hex body)) = Ok true
            /\ ($load.["expected_body_sha256"] ==' str (sha256_hex (response_of body))) = Ok true;
  us_workers : iterR ($load.["workers"]) = Ok workers;
  us_even : Forall (fun w => ($w.["successes"] ==' $w.["attempts"]) = Ok true /\ test ($w.["failures"]) = Ok false) workers;
  us_successes : (sumR (fun w => lenR ($w.["latencies_ns"])) workers ==' $load.["window_successes"]) = Ok true
                 /\ ($load.["window_successes"] >' int 0) = Ok true;
  us_bytes : ($load.["validated_body_bytes"] ==' $load.["window_successes"] *' $run.["body_bytes"]) = Ok true;
  us_goodput : ($load.["goodput_bytes_per_second"] ==' $load.["validated_body_bytes"] /' int 20) = Ok true }.
Lemma check_upload_sound run load body u : check_upload run load body = Ok u -> exists workers, upload_sound run load body workers.
Proof.
  unfold check_upload. cbv zeta. intros (? & H1%assertR_ok%chain_eq_ok & H)%rbind_ok.
  apply rbind_ok in H as (? & H2%assertR_ok & H). apply rbind_ok in H as (? & H3%assertR_ok & H).
  do 2 (apply rbind_ok in H as (? & _ & H)). apply rbind_ok in H as (workers & Hw & H).
  apply rbind_ok in H as (? & H4%assertR_ok%allR_ok & H). apply rbind_ok in H as (? & H5%assertR_ok%andR_true & H).
  apply rbind_ok in H as (? & H6%assertR_ok & H). apply rbind_ok in H as (? & H7%assertR_ok & _).
  exists workers. split; try done. eapply Forall_impl; [exact H4|]. intros w [Ha Hb%notR_ok]%andR_true. done.
Qed.

(** A closed loop: attempts, failures and connections add up. *)
Record closed_sound (load count : val) : Prop := {
  cs_attempts : ($load.["attempts"] ==' $load.["successes"] +' $load.["errors"]) = Ok true;
  cs_errors : (failures_total load ==' $load.["errors"]) = Ok true;
  cs_connections : ($load.["connections_ready"] +' $load.["setup_errors"] ==' $count) = Ok true
                   /\ ($load.["connections_measured"] ==' $load.["connections_ready"]) = Ok true }.
Lemma check_closed_sound load count u : check_closed load count = Ok u -> closed_sound load count.
Proof.
  unfold check_closed. intros (? & H1%assertR_ok & H)%rbind_ok. apply rbind_ok in H as (? & H2%assertR_ok & H).
  apply rbind_ok in H as (? & _ & H). apply rbind_ok in H as (? & H3%assertR_ok & H4%assertR_ok%chain_eq_ok). by split.
Qed.

Lemma rate_rows_balanced base run count rows phases results rows' :
  rate_rows base run count rows phases results = Ok rows' -> length phases = length results /\ Forall phase_balanced phases.
Proof.
  revert rows results. induction phases as [|phase phases IH]; intros rows [|result results]; cbn [rate_rows]; try done.
  intros (failed & Hf%check_phase_balanced & H)%rbind_ok. apply rbind_ok in H as (? & _ & H). apply IH in H as [L F].
  split; [cbn; congruence|by constructor].
Qed.

(** The load of an audited run, by the kind of its group. *)
Inductive load_checked (t : tree) (folder : parts) (group : string) (run load : val) : Prop :=
  | Uploaded size body workers : startswith "uploads" group = true -> $run.["body_bytes"] = Ok size ->
      read_text t (under (under folder group) ("body-" +:+ py_str size +:+ ".bin")) = Ok body ->
      upload_sound run load body workers -> load_checked t folder group run load
  | Rated phases : startswith "uploads" group = false -> startswith "rates" group = true ->
      iterR ($load.["phases"]) = Ok phases -> Forall phase_balanced phases -> load_checked t folder group run load
  | Closed count : startswith "uploads" group = false -> startswith "rates" group = false ->
      $run.["options"].["connections"] = Ok count -> closed_sound load count -> load_checked t folder group run load.

Lemma upload_run_checked t folder group base path run load rows :
  startswith "uploads" group = true -> upload_run t folder group base path run load = Ok rows -> load_checked t folder group run load.
Proof.
  intros Eg (size & Hs & H)%rbind_ok. apply rbind_ok in H as (body & Hb & H).
  apply rbind_ok in H as (? & [workers Hw]%check_upload_sound & _). by eapply Uploaded.
Qed.
Lemma get_run_checked t receipt folder group base path run load rows :
  startswith "uploads" group = false -> get_run t receipt group base path run load = Ok rows -> load_checked t folder group run load.
Proof.
  intros Eg (? & _ & H)%rbind_ok. apply rbind_ok in H as (count & Hc & H). do 3 (apply rbind_ok in H as (? & _ & H)).
  apply rbind_ok in H as (rs & H & _). destruct (startswith "rates" group) eqn:Er.
  - apply rbind_ok in H as (? & _ & H). apply rbind_ok in H as (phases & Hp & H). apply rbind_ok in H as (results & _ & H).
    apply rate_rows_balanced in H as [_ F]. by eapply Rated.
  - apply rbind_ok in H as (? & Hcl%check_closed_sound & _). by eapply Closed.
Qed.

(** A run file that was gone through. *)
Definition run_checked (t : tree) (binaries : dict) (folder : parts) (group : string) (path : parts) : Prop :=
  exists run load, read t path = Ok run /\ run_sound binaries run /\ $run.["load"] = Ok load /\ load_checked t folder group run load.

Lemma audit_run_checked t receipt binaries folder group s path s' :
  audit_run t receipt binaries folder group s path = Ok s' ->
  run_checked t binaries folder group path /\ length (g_checked s') = S (length (g_checked s)).
Proof.
  unfold audit_run. intros (run & Hr & H)%rbind_ok. apply rbind_ok in H as (? & Hs%check_run_sound & H).
  apply rbind_ok in H as (load & Hl & H). do 2 (apply rbind_ok in H as (? & _ & H)). cbv zeta in H.
  apply rbind_ok in H as ([rows out] & H & [= <-]). split; [|cbn; rewrite length_app; cbn; lia].
  exists run, load. split_and!; [done|done|done|]. destruct (startswith "uploads" group) eqn:Eg; [by eapply upload_run_checked|by eapply get_run_checked].
Qed.
Lemma audit_runs_checked t receipt binaries folder group s l s' :
  foldR (audit_run t receipt binaries folder group) s l = Ok s' ->
  Forall (run_checked t binaries folder group) l /\ length (g_checked s') = (length (g_checked s) + length l)%nat.
Proof.
  revert s. induction l as [|p l IH]; intros s; cbn [foldR]; [intros [= <-]; split; [constructor|cbn; lia]|].
  intros (s1 & [Hp E1]%audit_run_checked & [Hl E]%IH)%rbind_ok. split; [by constructor|cbn; lia].
Qed.

(** A group of the plan: it has the expected number of runs, and each of them was gone through. *)
Definition group_checked (t : tree) (binaries : dict) (folder : parts) (item : val) (group : string) : Prop :=
  $item.["label"] = str group /\ length (group_files t folder group) = expected_runs group
  /\ Forall (run_checked t binaries folder group) (group_files t folder group).

Lemma audit_groups_checked t receipt binaries folder s items s' :
  foldR (audit_group t receipt binaries folder) s items = Ok s' ->
  exists groups, Forall2 (group_checked t binaries folder) items groups
    /\ length (g_checked s') = (length (g_checked s) + sum_list (map expected_runs groups))%nat.
Proof.
  revert s. induction items as [|item items IH]; intros s; cbn [foldR]; [intros [= <-]; exists []; split; [constructor|cbn; lia]|].
  intros (s1 & E & (groups & F & L)%IH)%rbind_ok. unfold audit_group in E.
  apply rbind_ok in E as (group & (v & Hv & Hg)%rbind_ok & E). apply rbind_ok in E as (? & Hn%require_ok%Nat.eqb_eq & E).
  apply audit_runs_checked in E as [Hf Hl]. exists (group :: groups). split; [|cbn; lia]. constructor; [|done]. split_and!; [|done|done].
  destruct v; try done. injection Hg as ->. exact Hv.
Qed.

(** A row of the aggregate: medians of three trials of its group, and the sum of their failures. *)
Definition aggregated (rows : list val) (row : val) : Prop := exists k trials,
  filterR (fun row => group_key row ==' $k) rows = Ok trials /\ length trials = 3%nat
  /\ $row.["failures"] = sumR (fun row => $row.["failures"]) trials.
Lemma aggregate_of_sound rows aggregate : aggregate_of rows = Ok aggregate -> Forall (aggregated rows) aggregate.
Proof.
  unfold aggregate_of. intros (keys & _ & H%mapR_ok)%rbind_ok. eapply Forall2_Forall_r; [exact H|]. apply Forall_forall. clear.
  intros k _ row (trials & Ht & H)%rbind_ok. apply rbind_ok in H as (? & Hn%require_ok%Nat.eqb_eq & H).
  apply rbind_ok in H as (present_ & _ & H). exists k, trials. split_and!; [done|done|].
  destruct (mkdict_get _ _ "failures" _ H eq_refl) as (w & Hw & ->). by rewrite Hw.
Qed.

(** A checksum trial has the checksums of the body that is built here. *)
Lemma check_checksums_sound n t ROOT folder u :
  check_checksums n t ROOT folder = Ok u ->
  exists checksum trials, read t (under folder "checksum/results.json") = Ok checksum /\ iterR ($checksum.["trials"]) = Ok trials
    /\ length trials = 6%nat
    /\ Forall (fun trial => ($trial.["warm_checksum"] ==' int (crc_of (checksum_body n))) = Ok true
                          /\ ($trial.["checksum_sum"] ==' int (checksum_sum 64 (checksum_body n))) = Ok true) trials.
Proof.
  unfold check_checksums. intros (checksum & Hc & H)%rbind_ok. do 4 (apply rbind_ok in H as (? & _ & H)). cbv zeta in H.
  apply rbind_ok in H as (v & Hv & H). apply rbind_ok in H as (? & Hn%assertR_ok & H). apply rbind_ok in H as (trials & Ht & H).
  apply rbind_ok in H as (? & F%eachR_ok & _). exists checksum, trials. split_and!; [done|by unfold iterR; rewrite Hv| |].
  - unfold lenR in Hn. cbn [rbind] in Hn. rewrite (iter_len _ _ Ht) in Hn. apply eqR_int in Hn. lia.
  - eapply Forall_impl; [exact F|]. clear. unfold check_trial. intros trial (? & _ & H)%rbind_ok.
    apply rbind_ok in H as (? & _ & H). apply rbind_ok in H as (? & H1%assertR_ok & H). by apply rbind_ok in H as (? & H2%assertR_ok & _).
Qed.

(** Soundness of the audit.  When it ends, every planned group has its number of runs; each of them was measured with the
    binary of the receipts, between two hosts, and ended as its server ends; its uploads, phases or closed loop add up; every
    row of the aggregate is made of three trials; the checksum trials have the checksums the audit computes itself; and the
    receipt it writes counts every run. *)
Theorem go_after_nginx_sound n t ROOT folder out :
  main_with n t ROOT folder = Ok out ->
  exists receipt plan binaries items groups rows trials_text aggregate aggregate_text checked text,
    let folder := resolve t folder in
    read t (under folder "build.json") = Ok receipt /\ binaries_of receipt = Ok binaries
    /\ read t (under folder "plan.json") = Ok plan /\ iterR ($plan.["runs"]) = Ok items
    /\ Forall2 (group_checked t binaries folder) items groups
    /\ Written (str_path (under folder "trials.json")) (trials_text +:+ nl) ∈ out /\ json_dumps2 (VList rows) = Ok trials_text
    /\ Written (str_path (under folder "aggregate.json")) (aggregate_text +:+ nl) ∈ out /\ json_dumps2 (VList aggregate) = Ok aggregate_text
    /\ aggregate_of rows = Ok aggregate /\ Forall (aggregated rows) aggregate
    /\ (exists checksum trials, read t (under folder "checksum/results.json") = Ok checksum
        /\ iterR ($checksum.["trials"]) = Ok trials /\ length trials = 6%nat
        /\ Forall (fun trial => ($trial.["warm_checksum"] ==' int (crc_of (checksum_body n))) = Ok true
                              /\ ($trial.["checksum_sum"] ==' int (checksum_sum 64 (checksum_body n))) = Ok true) trials)
    /\ Written (str_path (under folder "audit.json")) (text +:+ nl) ∈ out /\ json_dumps2 (audit_json checked) = Ok text
    /\ length checked = sum_list (map expected_runs groups).
Proof.
  unfold main_with. cbv zeta. intros (receipt & Hr & H)%rbind_ok. apply rbind_ok in H as (binaries & Hb & H).
  apply rbind_ok in H as (? & _ & H). apply rbind_ok in H as (plan & Hp & H). apply rbind_ok in H as (? & _ & H).
  apply rbind_ok in H as (items & Hi & H). apply rbind_ok in H as (s & (groups & F & L)%audit_groups_checked & H).
  apply rbind_ok in H as (aggregate & Ha & H). apply rbind_ok in H as (? & Hc%check_checksums_sound & H).
  apply rbind_ok in H as (out1 & H1 & H). apply rbind_ok in H as (out2 & H2 & H). apply rbind_ok in H as (out3 & H3 & H).
  apply rbind_ok in H as (lines & _ & [= <-]). unfold file_out in *.
  apply rbind_ok in H1 as (text1 & Ht1 & [= <-]). apply rbind_ok in H2 as (text2 & Ht2 & [= <-]). apply rbind_ok in H3 as (text & Ht & [= <-]).
  exists receipt, plan, binaries, items, groups, (g_rows s), text1, aggregate, text2, (g_checked s), text.
  split_and!; [done|done|done|done|done| |done| |done|done|by apply aggregate_of_sound|done| |done|done];
    apply elem_of_app; right; cbn [app]; rewrite !elem_of_cons; auto.
Qed.

(** *** An experiment of three groups *)

Definition elf (variant : string) : string := "elf " +:+ variant.
Definition sample_receipt : val :=
  obj [("builds", VList [obj [("binary", VStr "/b/go"); ("binary_sha256", VStr (sha256_hex (elf "go"))); ("source", VStr "bench/main.go");
                              ("source_sha256", VStr (sha256_hex "package main"))]]);
       ("zhtps", obj [("path", VStr "/b/zig"); ("sha256", VStr (sha256_hex (elf "zig")))]);
       ("zhtps_upload", obj [("path", VStr "/b/zig"); ("sha256", VStr (sha256_hex (elf "zig")))]);
       ("client", obj [("path", VStr "/b/load"); ("sha256", VStr (sha256_hex "load"))])].
Definition sample_common (variant : string) (repeat : Z) (rest : list (string * val)) : val :=
  let go := String.eqb variant "go" in
  obj ([("outcome", VStr "measured"); ("variant", VStr variant); ("repeat", VInt repeat); ("command", VList [VStr ("/b/" +:+ variant)]);
        ("binary_sha256", VStr (sha256_hex (elf variant))); ("running_binary_sha256", VStr (sha256_hex (elf variant)));
        ("server_identity", obj [("boot_id", VStr "s")]); ("remote_identity", obj [("boot_id", VStr "c")]);
        ("remote_started", obj [("cpus", VList (map VInt (seqZ 0 8))); ("binary_sha256", VStr (sha256_hex "load"));
                                ("files", obj [("-request-body", file_row sample_body);
                                               ("-expect-body", file_row (response_of sample_body))])]);
        ("go_runtime", obj [("gomaxprocs", VInt 32)]); ("server_exit", VInt (if go then -15 else 0));
        ("options", obj [("connections", VInt 8)]);
        ("metrics_after", obj [("counters", obj [("connections_reclaimed_total", VInt 0)])]);
        ("server_before", obj [("cpu_seconds", VInt 1); ("user_seconds", VInt 1); ("system_seconds", VInt 0)]);
        ("server_after", obj [("cpu_seconds", VInt 3); ("user_seconds", VInt 2); ("system_seconds", VInt 1); ("VmRSS", VInt 1048576)]);
        ("host_before", sample_host 1000000000); ("host_after", sample_host 2000000000); ("clock_offset_ns", VInt 0);
        ("samples", VList [sample_at 1000000000 0; sample_at 2000000000 1]); ("remote_samples", VList [])] ++ rest).
Definition closed_run (variant : string) (repeat : Z) : val := sample_common variant repeat
  [("load", obj [("connections", VInt 8); ("connections_ready", VInt 8); ("connections_measured", VInt 8); ("connections_opened", VInt 8);
                 ("attempts", VInt 10); ("successes", VInt 9); ("errors", VInt 1); ("failures", obj [("timeout", VInt 1)]);
                 ("window_successes", VInt 5); ("window_successes_per_second", VFloat (f64_lit 5 1)); ("setup_errors", VInt 0);
                 ("warmup_errors", VInt 0); ("latency_us", obj [("p99", VInt 10)])])].
Definition rates_run (variant : string) (repeat : Z) : val := sample_common variant repeat
  [("load", obj [("gomaxprocs", VInt 8);
     ("phases", VList [obj [("offered_rate", VInt 100000); ("offered", VInt 4); ("successes", VInt 3); ("generator_expired", VInt 0);
        ("generator_queue_drops", VInt 0); ("response_bytes_validated", VInt 18); ("failures", obj [("timeout", VInt 1)]);
        ("failure_latency", obj [("count", VInt 1)]); ("rejection_latency", obj [("count", VInt 0)]); ("start_unix_ns", VInt 0);
        ("end_unix_ns", VInt 3000000000); ("window_successes_per_second", VInt 3); ("connections_opened", VInt 8);
        ("success_latency", obj [("p99_us", VInt 10)]); ("success_service_latency", obj [("p99_us", VInt 5)])]])])].
Definition uploads_run (variant : string) (repeat : Z) : val := sample_common variant repeat
  [("body_bytes", VInt 2); ("connections", VInt 32);
   ("load", obj [("request_body_bytes", VInt 2); ("request_body_sha256", VStr (sha256_hex sample_body));
                 ("expected_body_sha256", VStr (sha256_hex (response_of sample_body))); ("failures", obj []); ("connections", VInt 32);
                 ("workers", VList (replicate 32 (obj [("successes", VInt 1); ("attempts", VInt 1); ("failures", obj []);
                                                       ("latencies_ns", VList [VInt 5])])));
                 ("window_successes", VInt 32); ("validated_body_bytes", VInt 64); ("goodput_bytes_per_second", VFloat (f64_lit 32 1))])].
Definition uploads_summary : val :=
  obj [("goodput_mib_per_second", VInt 1); ("service_p99_ms", VInt 2); ("rss_median_mib", VInt 3); ("cpu_us_per_mib", VInt 4);
       ("cpu_cores", VInt 5); ("server_host", obj [("tcp", obj [("RetransSegs", VInt 0)])])].
Definition sample_checksum : val :=
  let body := checksum_body 1 in
  obj [("sources", obj [("bench/main.go", VStr (sha256_hex "package main"))]); ("binaries", obj [("zig", VStr (sha256_hex "checksum"))]);
       ("trials", VList (map (fun v => obj [("variant", VStr v); ("bytes", VInt 256); ("iterations", VInt 64); ("chunk_bytes", VInt 65536);
          ("warm_checksum", VInt (crc_of body)); ("checksum_sum", VInt (checksum_sum 64 body)); ("cpu_ns", VInt 1024000);
          ("cpu_us_per_mib", VInt 2)]) ["zig"; "go"; "zig"; "go"; "zig"; "go"]));
       ("medians", obj [("zig", VInt 2); ("go", VInt 2)])].
Definition trial_files (group : string) (run : string -> Z -> val) (summary : list (string * val)) : list (parts * string) :=
  concat (map (fun variant => concat (map (fun repeat =>
    let folder := "/r/x/" +:+ group +:+ "/" +:+ variant +:+ "-" +:+ string_of_Z repeat +:+ "/" in
    (path_of (folder +:+ "run.json"), json_text (run variant repeat))
    :: map (fun nv => (path_of (folder +:+ nv.1), json_text nv.2)) summary) [1; 2; 3])) ["zig"; "go"]).
Definition sample_files : list (parts * string) :=
  [(path_of "/b/zig", elf "zig"); (path_of "/b/go", elf "go"); (path_of "/b/load", "load"); (path_of "/r/bench/main.go", "package main");
   (path_of "/r/x/build.json", json_text sample_receipt);
   (path_of "/r/x/plan.json",
    json_text (obj [("source_sha256", obj [("bench/main.go", VStr (sha256_hex "package main"))]);
                    ("runs", VList (map (fun l => obj [("label", VStr l)]) ["closed"; "rates"; "uploads-paced"]))]));
   (path_of "/r/x/sources/bench/main.go", "package main");
   (path_of "/r/docs/nginx-implementation/final/build.json", json_text (obj [("sources", obj [("src/main.zig", VStr (sha256_hex "zig"))])]));
   (path_of "/r/src/main.zig", "zig"); (path_of "/r/zig-out/go-after-nginx/checksum-zig", "checksum");
   (path_of "/r/x/checksum/results.json", json_text sample_checksum); (path_of "/r/x/uploads-paced/body-2.bin", sample_body)]
  ++ trial_files "closed" closed_run [] ++ trial_files "rates" rates_run []
  ++ trial_files "uploads-paced" uploads_run [("summary.json", uploads_summary)].

(** The lines that are printed. *)
Definition printed (out : list output) : string :=
  join "" (omap (fun o => match o with Printed s => Some s | Written _ _ => None end) out).

Example sample_go_audit :
  rmap (fun out => splitlines (printed out)) (main_with 1 (Tree sample_files (path_of "/r")) (path_of "/r") (path_of "x"))
  = Ok ["Audited 18 two-host trials and six checksum-only trials.";
        "closed go 0 0 {'goodput': 0.5, 'p99_ms': 0.01} failures 3";
        "closed zig 0 0 {'goodput': 0.5, 'p99_ms': 0.01} failures 3";
        "rates go 100000 0 {'goodput': 3, 'p99_ms': 0.005, 'rss_mib': 1.0, "
        +:+ "'cpu_us': 333333.3333333333, 'cpu_cores': 1.0} failures 3";
        "rates zig 100000 0 {'goodput': 3, 'p99_ms': 0.005, 'rss_mib': 1.0, "
        +:+ "'cpu_us': 333333.3333333333, 'cpu_cores': 1.0} failures 3";
        "uploads-paced go 0 2 {'goodput': 1, 'p99_ms': 2, 'rss_mib': 3, 'cpu_us_per_mib': 4, 'cpu_cores': 5} failures 0";
        "uploads-paced zig 0 2 {'goodput': 1, 'p99_ms': 2, 'rss_mib': 3, 'cpu_us_per_mib': 4, 'cpu_cores': 5} failures 0"].
Proof. vm_compute. reflexivity. Qed.
