(* ===== verification/AuditArchitecture.v ===== *)
(** * [bench/audit_architecture.py]: provenance and accounting of diagnostic runs

    [audit] checks every recorded manifest against the present sources and every measured run against
    its own accounting.  It reports issues and excludes nothing silently: an unmeasured run is listed
    as excluded, a failed check is listed by its position. *)

From stdpp Require Import base list strings.
From Stdlib Require Import ZArith Lia Ascii.
From S2P Require Import Prelude PyFloat PyText PyVal PyJson PyScript PyStats PyHash Evidence SummarizeOverload.

Local Open Scope Z_scope.
Open Scope py_scope.

(** ** Manifests *)

(** The file a manifest entry names: the harness itself is kept beside the manifest. *)
Definition source_path (path : parts) (name : string) : parts :=
  if String.eqb name "bench/architecture.py" then under (parent path) "harness.py" else path_of name.

Definition source_changed (t : tree) (path : parts) (name expected : val) : res bool :=
  n <- as_str name ;;
  let source := source_path path n in
  if exists_ t source then d <- digest t source ;; Ok (negb (py_eqb (VStr d) expected)) else Ok true.

Definition changed_sources (t : tree) (path : parts) (manifest : val) : res (list val) :=
  l <- itemsR ($manifest.["sources"]) ;;
  rmap (map fst) (filterR (fun kv => source_changed t path kv.1 kv.2) l).

Definition manifest_row (t : tree) (path : parts) : res (val * list string) :=
  manifest <- read t path ;;
  changed <- changed_sources t path manifest ;;
  row <- mkdict [("path", str (str_path path)); ("changed_sources", $(VList changed))] ;;
  Ok (row, match changed with
           | [] => []
           | _ => [str_path path +:+ ": source mismatch: " +:+ py_repr (VList changed)]
           end).

(** ** Runs *)

(** [(0 if ... else -15)] *)
Definition expected_exit (run : val) : expr :=
  ifR (($run.["variant"] ==' str "zig") ||' test ($run.["options"].["profile"])) (int 0) (int (-15)).

Definition binary_checks (t : tree) (run : val) : res (list bool) :=
  b1 <- $run.["server_identity"].["boot_id"] !=' $run.["remote_identity"].["boot_id"] ;;
  b2 <- $run.["remote_started"].["binary_sha256"] ==' rmap VStr (digest t (path_of "zig-out/bench/load")) ;;
  binary <- getd ($run.["options"]) "zig_binary" (VStr "zig-out/bench/release_safe/bin/zhtps") ;;
  go <- $run.["variant"] ==' str "go" ;;
  binary <- (if go : bool then ifR (test ($run.["options"].["profile"])) (str "zig-out/bench/go_profile")
                                   (str "zig-out/bench/go_server") else Ok binary) ;;
  b3 <- (if go : bool then rmap (fun b => [b]) ($run.["go_runtime"].["gomaxprocs"] ==' int 32) else Ok []) ;;
  b4 <- $run.["binary_sha256"] ==' (n <- as_str binary ;; rmap VStr (digest t (path_of n))) ;;
  b5 <- $run.["server_exit"] ==' expected_exit run ;;
  b6 <- $run.["clock_uncertainty_ns"] <' int 5000000 ;;
  b7 <- $run.["load"].["connections"] ==' int 8192 ;;
  Ok ([b1; b2] ++ b3 ++ [b4; b5; b6; b7]).

(** [sum(start <= sample['unix_ns'] < end for sample in run['samples']) >= 2] *)
Definition enough_samples (run phase : val) : res bool :=
  start <- $phase.["start_unix_ns"] +' $run.["clock_offset_ns"] +' int 500000000 ;;
  end_ <- $phase.["end_unix_ns"] +' $run.["clock_offset_ns"] -' int 200000000 ;;
  samples <- iterR ($run.["samples"]) ;;
  sumR (fun sample => rmap VBool (($start <=' $sample.["unix_ns"]) &&' ($sample.["unix_ns"] <' $end_))) samples
  >=' int 2.

(** [phase['failures'] or {}] *)
Definition failures_of (phase : val) : expr := orE ($phase.["failures"]) ($(VDict [])).

(** The accounting checks of one phase. *)
Definition phase_checks (run phase : val) : res (list bool) :=
  phase_failures <- (l <- valuesR (failures_of phase) ;; py_sum l) ;;
  b1 <- $phase.["offered"] ==' $phase.["started"] +' $phase.["generator_queue_drops"] +' $phase.["generator_expired"] ;;
  b2 <- $phase.["started"] ==' $phase.["successes"] +' $phase.["rejection_latency"].["count"] +' $phase_failures ;;
  b3 <- $phase.["success_latency"].["count"] ==' $phase.["successes"] ;;
  b4 <- $phase.["success_service_latency"].["count"] ==' $phase.["successes"] ;;
  b5 <- $phase.["window_successes"] <=' $phase.["successes"] ;;
  b6 <- (d <- $phase.["window_successes_per_second"] *' $phase.["duration_seconds"] -' $phase.["window_successes"] ;;
         py_abs d) <' lit 1 3 ;;
  b7 <- enough_samples run phase ;;
  Ok [b1; b2; b3; b4; b5; b6; b7].

(** [failures[kind] = failures.get(kind, 0) + count] *)
Definition add_failures (failures : dict) (phase : val) : res dict :=
  l <- itemsR (failures_of phase) ;;
  foldR (fun failures kn => s <- py_add (default (VInt 0) (dget kn.1 failures)) kn.2 ;; Ok (dset kn.1 s failures))
    failures l.

Definition load_checks (run : val) : res (list bool * dict) :=
  load <- $run.["load"] ;;
  ifR (has ($load) "phases")
    (b1 <- $load.["gomaxprocs"] ==' int 8 ;;
     b2 <- (idx_at ($load.["phases"]) 0).["connections_opened"] ==' int 8192 ;;
     phases <- iterR ($load.["phases"]) ;;
     foldR (fun st phase =>
       bs <- phase_checks run phase ;;
       failures <- add_failures st.2 phase ;;
       Ok (st.1 ++ bs, failures)) ([b1; b2], []) phases)
    (b1 <- ($load.["connections_ready"] ==' $load.["connections_measured"])
           &&' ($load.["connections_measured"] ==' int 8192) ;;
     b2 <- $load.["attempts"] ==' $load.["successes"] +' $load.["errors"] ;;
     b3 <- $load.["errors"] ==' (l <- valuesR (failures_of load) ;; py_sum l) ;;
     failures <- itemsR (failures_of load) ;;
     Ok ([b1; b2; b3], failures)).

(** [[i for i, passed in enumerate(checks) if not passed]] *)
Fixpoint failed_from (i : Z) (checks : list bool) : list Z :=
  match checks with
  | [] => []
  | b :: checks => if b then failed_from (i + 1) checks else i :: failed_from (i + 1) checks
  end.

Definition run_row (t : tree) (path : parts) : res (val * list string) :=
  run <- read t path ;;
  ifR (get ($run) "outcome" !=' str "measured")
    (row <- mkdict [("path", str (str_path path)); ("outcome", get ($run) "outcome"); ("excluded", $(VBool true));
                    ("error", get ($run) "error")] ;;
     Ok (row, []))
    (bs <- binary_checks t run ;;
     let* (ls, failures) := load_checks run in
     let checks := bs ++ ls in
     let failed := VList (map VInt (failed_from 0 checks)) in
     row <- mkdict [("path", str (str_path path)); ("outcome", str "measured");
                    ("checks", int (Z.of_nat (length checks))); ("failed_checks", $failed);
                    ("load_failures", $(VDict failures)); ("warmup_errors", get ($run.["load"]) "warmup_errors");
                    ("clock_uncertainty_ms", $run.["clock_uncertainty_ns"] /' lit 1000000 0)] ;;
     Ok (row, if truthy failed then [str_path path +:+ ": failed integrity checks " +:+ py_repr failed] else [])).

Definition audit (t : tree) (folder : parts) : expr :=
  manifests <- mapR (manifest_row t) (sorted_paths (glob t folder (is_anywhere "manifest.json"))) ;;
  runs <- mapR (run_row t) (sorted_paths (glob t folder (is_anywhere "run.json"))) ;;
  let issues := concat (map snd manifests) ++ concat (map snd runs) in
  mkdict
    [("passed_integrity", $(VBool (match issues with [] => true | _ => false end)));
     ("issues", $(VList (map VStr issues))); ("manifests", $(VList (map fst manifests)));
     ("runs", $(VList (map fst runs)));
     ("scope", str "Provenance and accounting only; this is not a zero-error capacity or sustained-load certification.")].

(** The script: the report, the printed digest of it, and the exit status. *)
Definition main (t : tree) (folder : parts) : res (list output * Z) :=
  result <- audit t folder ;;
  text <- json_dumps2 result ;;
  brief <- dictcomp ["passed_integrity"; "issues"; "scope"] (fun k => $result.[k]) ;;
  printed <- json_dumps2 brief ;;
  passed <- test ($result.["passed_integrity"]) ;;
  Ok ([Written (str_path (under folder "audit.json")) (text +:+ nl); Printed (printed +:+ nl)],
      if passed : bool then 0 else 1).

(** ** What a passing audit has checked *)

(** Every source a manifest names exists and has the digest the manifest gives. *)
Definition sources_match (t : tree) (path : parts) (manifest : val) : Prop :=
  exists l, itemsR ($manifest.["sources"]) = Ok l
  /\ Forall (fun kv => exists name d, kv.1 = VStr name /\ exists_ t (source_path path name) = true
       /\ digest t (source_path path name) = Ok d /\ py_eqb (VStr d) kv.2 = true) l.

(** Offers, starts and responses of a phase add up, and enough samples were taken during it. *)
Definition phase_accounted (run phase : val) : Prop :=
  (exists failures, (l <- valuesR (failures_of phase) ;; py_sum l) = Ok failures
   /\ ($phase.["started"] ==' $phase.["successes"] +' $phase.["rejection_latency"].["count"] +' $failures) = Ok true)
  /\ ($phase.["offered"] ==' $phase.["started"] +' $phase.["generator_queue_drops"] +' $phase.["generator_expired"]) = Ok true
  /\ ($phase.["success_latency"].["count"] ==' $phase.["successes"]) = Ok true
  /\ ($phase.["success_service_latency"].["count"] ==' $phase.["successes"]) = Ok true
  /\ ($phase.["window_successes"] <=' $phase.["successes"]) = Ok true
  /\ enough_samples run phase = Ok true.

(** The server ran elsewhere than the client, from the present binaries. *)
Definition placed (t : tree) (run : val) : Prop :=
  ($run.["server_identity"].["boot_id"] !=' $run.["remote_identity"].["boot_id"]) = Ok true
  /\ ($run.["remote_started"].["binary_sha256"] ==' rmap VStr (digest t (path_of "zig-out/bench/load"))) = Ok true
  /\ ($run.["server_exit"] ==' expected_exit run) = Ok true
  /\ ($run.["clock_uncertainty_ns"] <' int 5000000) = Ok true
  /\ exists binary, ($run.["binary_sha256"] ==' rmap VStr (digest t (path_of binary))) = Ok true.

Definition run_accounted (run : val) : Prop :=
  (exists phases, iterR ($run.["load"].["phases"]) = Ok phases /\ Forall (phase_accounted run) phases)
  \/ (($run.["load"].["attempts"] ==' $run.["load"].["successes"] +' $run.["load"].["errors"]) = Ok true
      /\ ($run.["load"].["connections_ready"] ==' $run.["load"].["connections_measured"]) = Ok true).

Lemma failed_from_nil i l : failed_from i l = [] -> Forall (fun b => b = true) l.
Proof. revert i. induction l as [|[] l IH]; intros i H; [done| |done]. constructor; [done|]. by apply (IH (i + 1)). Qed.

Lemma manifest_row_ok t path row : manifest_row t path = Ok (row, []) ->
  exists manifest, read t path = Ok manifest /\ sources_match t path manifest.
Proof.
  unfold manifest_row. intros (manifest & Hm & H)%rbind_ok. apply rbind_ok in H as (changed & Hc & H).
  apply rbind_ok in H as (v & _ & H). destruct changed as [|c changed]; [|by injection H as _ ?].
  exists manifest. split; [done|]. unfold changed_sources in Hc. apply rbind_ok in Hc as (l & Hl & Hc). exists l. split; [done|].
  apply rmap_ok in Hc as (kvs & Hf & Hn). destruct kvs; [|done]. clear - Hf.
  induction l as [|[k v] l IH]; [done|]. cbn in Hf. apply rbind_ok in Hf as (b & Hb & Hf).
  apply rbind_ok in Hf as (r & Hf & Hr). destruct b; [done|]. injection Hr as ->. constructor; [|by apply IH]. clear IH Hf.
  unfold source_changed in Hb. apply rbind_ok in Hb as (n & Hn & Hb). destruct k; try done. cbn in Hn. injection Hn as ->.
  destruct (exists_ t (source_path path n)) eqn:He; [|done]. apply rbind_ok in Hb as (d & Hd & Hb). injection Hb as Hb.
  exists n, d. split_and!; [done..|]. by apply negb_false_iff in Hb.
Qed.

Lemma phase_checks_true run phase l :
  phase_checks run phase = Ok l -> Forall (fun b => b = true) l -> phase_accounted run phase.
Proof.
  unfold phase_checks. intros (failures & Hf & H)%rbind_ok. apply rbind_ok in H as (b1 & H1 & H).
  apply rbind_ok in H as (b2 & H2 & H). apply rbind_ok in H as (b3 & H3 & H). apply rbind_ok in H as (b4 & H4 & H).
  apply rbind_ok in H as (b5 & H5 & H). apply rbind_ok in H as (b6 & _ & H). apply rbind_ok in H as (b7 & H7 & H).
  injection H as <-. rewrite !Forall_cons. intros (-> & -> & -> & -> & -> & _ & -> & _).
  split; [by exists failures|]. by split_and!.
Qed.

Lemma binary_checks_true t run l :
  binary_checks t run = Ok l -> Forall (fun b => b = true) l -> placed t run.
Proof.
  unfold binary_checks. intros (b1 & H1 & H)%rbind_ok. apply rbind_ok in H as (b2 & H2 & H).
  apply rbind_ok in H as (binary0 & _ & H). apply rbind_ok in H as (go & _ & H). apply rbind_ok in H as (binary & _ & H).
  apply rbind_ok in H as (b3 & _ & H). apply rbind_ok in H as (b4 & H4 & H). apply rbind_ok in H as (b5 & H5 & H).
  apply rbind_ok in H as (b6 & H6 & H). apply rbind_ok in H as (b7 & _ & H). injection H as <-.
  rewrite !Forall_cons, Forall_app, !Forall_cons. intros (-> & -> & _ & -> & -> & -> & _).
  split_and!; [done..|]. unfold eqR, lift2 in H4. apply rbind_ok in H4 as (x & Hx & H4). apply rbind_ok in H4 as (y & Hy & H4).
  apply rbind_ok in Hy as (n & Hn & Hy). exists n. unfold eqR, lift2. rewrite Hx. cbn [rbind]. rewrite Hy. cbn [rbind]. exact H4.
Qed.

Lemma load_checks_true run l failures :
  load_checks run = Ok (l, failures) -> Forall (fun b => b = true) l -> run_accounted run.
Proof.
  unfold load_checks. intros (load & Hload & H)%rbind_ok Hall. unfold ifR in H. apply rbind_ok in H as (b & _ & H).
  unfold run_accounted. rewrite Hload. destruct b.
  - apply rbind_ok in H as (b1 & _ & H). apply rbind_ok in H as (b2 & _ & H). apply rbind_ok in H as (phases & Hp & H).
    left. exists phases. split; [exact Hp|]. clear Hp Hload.
    assert (G : forall st, foldR (fun st phase => bs <- phase_checks run phase ;;
                  failures <- add_failures st.2 phase ;; Ok (st.1 ++ bs, failures)) st phases = Ok (l, failures) ->
                exists l', l = st.1 ++ l' /\ (Forall (fun b => b = true) l' -> Forall (phase_accounted run) phases)).
    { clear H Hall. induction phases as [|phase phases IH]; intros st H; cbn in H.
      - injection H as ->. exists []. by rewrite app_nil_r.
      - apply rbind_ok in H as (st1 & H1 & H). apply rbind_ok in H1 as (bs & Hbs & H1).
        apply rbind_ok in H1 as (fs & _ & H1). injection H1 as <-. destruct (IH _ H) as (l' & -> & Hl'). cbn.
        exists (bs ++ l'). split; [by rewrite app_assoc|]. rewrite Forall_app. intros [Ha Hb].
        constructor; [by eapply phase_checks_true|auto]. }
    destruct (G _ H) as (l' & -> & Hl'). apply Hl'. by apply Forall_app in Hall as [_ ?].
  - right. apply rbind_ok in H as (b1 & H1 & H). apply rbind_ok in H as (b2 & H2 & H). apply rbind_ok in H as (b3 & _ & H).
    apply rbind_ok in H as (fs & _ & H). injection H as <- _. rewrite !Forall_cons in Hall. destruct Hall as (-> & -> & _).
    split; [exact H2|]. unfold andR in H1. apply rbind_ok in H1 as (x & Hx & H1). destruct x; [exact Hx|done].
Qed.

Lemma run_row_ok t path row : run_row t path = Ok (row, []) ->
  exists run, read t path = Ok run
  /\ ((get ($run) "outcome" ==' str "measured") = Ok true -> placed t run /\ run_accounted run).
Proof.
  unfold run_row. intros (run & Hr & H)%rbind_ok. exists run. split; [done|]. intros Ho. unfold ifR, notR in H.
  rewrite Ho in H. cbn [rmap rbind negb] in H. apply rbind_ok in H as (bs & Hb & H).
  apply rbind_ok in H as ([ls failures] & Hl & H). apply rbind_ok in H as (v & _ & H). injection H as _ H.
  destruct (failed_from 0 (bs ++ ls)) eqn:E; [|done]. apply failed_from_nil, Forall_app in E as [Hbs Hls].
  split; [by eapply binary_checks_true|by eapply load_checks_true].
Qed.

(** Rows without issues come from rows that each have none. *)
Lemma no_issues {A B} (f : A -> res (B * list string)) l rows :
  mapR f l = Ok rows -> concat (map snd rows) = [] -> forall x, x ∈ l -> exists row, f x = Ok (row, []).
Proof.
  intros H%mapR_ok. induction H as [|x [row is_] l rows Hx H IH]; cbn; [intros _ x Hx; by apply not_elem_of_nil in Hx|].
  intros [-> Hc]%app_nil y [->|Hy]%elem_of_cons; [by exists row|by apply IH].
Qed.

(** *** One manifest and one measured run *)

Definition sample_phase : val :=
  obj [("failures", VNone); ("offered", VInt 10); ("started", VInt 10); ("generator_queue_drops", VInt 0);
       ("generator_expired", VInt 0); ("successes", VInt 9); ("rejection_latency", obj [("count", VInt 1)]);
       ("success_latency", obj [("count", VInt 9)]); ("success_service_latency", obj [("count", VInt 9)]);
       ("window_successes", VInt 8); ("window_successes_per_second", VInt 8); ("duration_seconds", VInt 1);
       ("start_unix_ns", VInt 0); ("end_unix_ns", VInt 1000000000); ("connections_opened", VInt 8192)].
Definition sample_run : val :=
  obj [("outcome", VStr "measured"); ("server_identity", obj [("boot_id", VStr "s")]);
       ("remote_identity", obj [("boot_id", VStr "c")]); ("remote_started", obj [("binary_sha256", VStr (sha256_hex "load"))]);
       ("options", obj [("profile", VBool false)]); ("variant", VStr "zig"); ("binary_sha256", VStr (sha256_hex "server"));
       ("server_exit", VInt 0); ("clock_uncertainty_ns", VInt 1000); ("clock_offset_ns", VInt 0);
       ("samples", VList [obj [("unix_ns", VInt 600000000)]; obj [("unix_ns", VInt 700000000)]]);
       ("load", obj [("connections", VInt 8192); ("gomaxprocs", VInt 8); ("phases", VList [sample_phase])])].
Definition document (v : val) : string := match json_dumps v with Ok s => s | Err _ => "" end.
Definition sample_tree : tree :=
  Tree [(path_of "runs/manifest.json", document (obj [("sources", obj [("src/main.zig", VStr (sha256_hex "source"))])]));
        (path_of "runs/a/run.json", document sample_run); (path_of "src/main.zig", "source");
        (path_of "zig-out/bench/load", "load"); (path_of "zig-out/bench/release_safe/bin/zhtps", "server")] [].

(** ** Properties *)

(** C38: The diagnostic audit succeeds only on evidence that holds together.  When the script exits with 0, every recorded
    source still has its recorded digest, and every measured run came from the present binaries on another
    machine than its client's and accounts for every offer, start and response of each of its phases. *)
Theorem architecture_audit_sound t folder out :
  main t folder = Ok (out, 0) ->
  (forall path, path ∈ sorted_paths (glob t folder (is_anywhere "manifest.json")) ->
     exists manifest, read t path = Ok manifest /\ sources_match t path manifest)
  /\ (forall path, path ∈ sorted_paths (glob t folder (is_anywhere "run.json")) ->
     exists run, read t path = Ok run
     /\ ((get ($run) "outcome" ==' str "measured") = Ok true -> placed t run /\ run_accounted run)).
Proof.
  unfold main. intros (result & Ha & H)%rbind_ok. apply rbind_ok in H as (text & _ & H).
  apply rbind_ok in H as (brief & _ & H). apply rbind_ok in H as (printed & _ & H). apply rbind_ok in H as (passed & Hp & H).
  injection H as _ H. destruct passed; [clear H|done].
  unfold audit in Ha. apply rbind_ok in Ha as (manifests & Hm & Ha). apply rbind_ok in Ha as (runs & Hr & Ha).
  destruct (mkdict_get _ _ "passed_integrity" _ Ha eq_refl) as (w & Hw & Hg).
  unfold test in Hp. apply rmap_ok in Hp as (w' & Hw' & Ht). rewrite Hg in Hw'. injection Hw' as <-.
  injection Hw as <-. destruct (concat (map snd manifests) ++ concat (map snd runs)) eqn:E; [|done].
  apply app_nil in E as [E1 E2]. split; intros path Hin.
  - destruct (no_issues _ _ _ Hm E1 path Hin) as (row & Hrow). by eapply manifest_row_ok.
  - destruct (no_issues _ _ _ Hr E2 path Hin) as (row & Hrow). by eapply run_row_ok.
Qed.

Lemma architecture_audit_sound_witness :
  rmap snd (main sample_tree (path_of "runs")) = Ok 0
  /\ (forall path, path ∈ sorted_paths (glob sample_tree (path_of "runs") (is_anywhere "run.json")) ->
     exists run, read sample_tree path = Ok run
     /\ ((get ($run) "outcome" ==' str "measured") = Ok true -> placed sample_tree run /\ run_accounted run)).
Proof.
  assert (B : rmap snd (main sample_tree (path_of "runs")) = Ok 0) by (vm_compute; reflexivity).
  split; [exact B|]. destruct (main sample_tree (path_of "runs")) as [[out code]|e] eqn:E; [|discriminate B].
  injection B as B. rewrite B in E. apply (architecture_audit_sound sample_tree (path_of "runs") out E).
Defined.
