(* ===== verification/AuditArchitectureImplementation.v ===== *)
(** * [bench/audit_architecture_implementation.py]: archived binaries and accounting across experiments

    [audit] collects the source versions of every archive, checks the binary and the archive of every provenance record, looks
    for every source of a manifest among the archived versions and the present files, and checks the accounting of every run.
    It reports issues and never stops at one; [main] exits with 0 when there are none.  The members of an archive are an
    argument: a function of the bytes of the file. *)

From stdpp Require Import base list strings.
From Stdlib Require Import ZArith Lia Ascii.
From S2P Require Import Prelude PyFloat PyText PyVal PyJson PyScript PyStats PyHash Evidence SummarizeOverload AuditArchitecture.

Local Open Scope Z_scope.
Open Scope py_scope.

(** A member of an archive: its name, whether it is a file, and its content. *)
Record member := Member { m_name : string; m_isfile : bool; m_content : string }.

Definition removeprefix (p s : string) : string := if startswith p s then str_drop (String.length p) s else s.

Section Audit.
(** [tarfile.open(path)] of a file with the given content, read to its end. *)
Context (archive_of : string -> res (list member)).
Context (t : tree) (ROOT : parts).

Definition FOLDER : parts := under ROOT "docs/architecture-implementation".
Definition shown (p : parts) : res string := rmap str_path (relative_to p ROOT).

(** ** Archives

    [versions] is the list of the names with the digests of their archived contents. *)

Abbreviation version_list := (list (string * string)).

Definition is_archive (q : parts) : bool := endswith ".tar.gz" (hd "" q).
Definition archive_row (path : parts) : res (val * version_list) :=
  content <- read_text t path ;;
  members <- archive_of content ;;
  let files := List.filter m_isfile members in
  shown_path <- shown path ;;
  sha <- digest t path ;;
  Ok (obj [("path", VStr shown_path); ("sha256", VStr sha); ("files", VInt (Z.of_nat (length files)))],
      map (fun m => (removeprefix "./" (m_name m), sha256_hex (m_content m))) files).
Definition archived (versions : version_list) (name : string) (expected : val) : bool :=
  existsb (fun nd => String.eqb nd.1 name && py_eqb expected (VStr nd.2)) versions.

(** ** Provenance *)

(** The entry of a record in [binaries], and the issues with it. *)
Definition binary_row (path : parts) (record : val) : res (val * val * list string) :=
  archive <- (v <- $record.["source_archive"] ;; as_str v) ;;
  let source := resolve t (under (parent path) archive) in
  let missing := if exists_ t source then [] else [str_path path +:+ ": missing archive " +:+ str_path source] in
  name <- (v <- $record.["binary"] ;; as_str v) ;;
  let binary := under ROOT name in
  changed <- (if exists_ t binary then rmap VStr (digest t binary) !=' $record.["binary_sha256"] else Ok true) ;;
  let issues := missing ++ (if changed : bool then [str_path path +:+ ": binary changed: " +:+ str_path binary] else []) in
  shown_binary <- shown binary ;;
  shown_source <- shown source ;;
  k <- key ($record.["binary_sha256"]) ;;
  Ok (k, obj [("binary", VStr shown_binary); ("source_archive", VStr shown_source)], issues).
Definition names_binary (record : val) : bool := match record with VDict d => bool_decide (is_Some (sget "binary_sha256" d)) | _ => false end.
Definition provenance_rows (path : parts) : res (list (val * val) * list string) :=
  records <- valuesR (read t path) ;;
  rows <- mapR (binary_row path) (List.filter names_binary records) ;;
  Ok (map fst rows, concat (map snd rows)).

(** ** Manifests *)

Definition source_row (versions : version_list) (path : parts) (ne : val * val) : res (unit * list string) :=
  name <- as_str ne.1 ;;
  expected <- key ($(ne.2)) ;;
  let present := under ROOT name in
  missing <- (if archived versions name expected then Ok false
              else if exists_ t present then rmap VStr (digest t present) !=' $expected else Ok true) ;;
  shown_path <- shown path ;;
  Ok (tt, if missing : bool then [shown_path +:+ ": unavailable source version: " +:+ name +:+ " " +:+ py_str expected] else []).
Definition manifest_row (versions : version_list) (path : parts) : res (unit * list string) :=
  sources <- itemsR ((read t path).["sources"]) ;;
  rows <- mapR (source_row versions path) sources ;;
  Ok (tt, concat (map snd rows)).

(** ** Runs *)

Abbreviation check_results := (list (string * bool)).

(** The checks of a measured run, in their order. *)
Definition check_list (l : list (string * res bool)) : res check_results := mapR (fun nc => b <- nc.2 ;; Ok (nc.1, b)) l.
Definition host_checks (binaries : dict) (run : val) : res check_results :=
  check_list
    [("separate_hosts", $run.["server_identity"].["boot_id"] !=' $run.["remote_identity"].["boot_id"]);
     ("archived_binary", k <- key ($run.["binary_sha256"]) ;; py_in k (VDict binaries));
     ("client_binary", $run.["remote_started"].["binary_sha256"] ==' rmap VStr (digest t (under ROOT "zig-out/bench/load")));
     ("server_exit", $run.["server_exit"] ==' int 0);
     ("clock_uncertainty", $run.["clock_uncertainty_ns"] <' int 5000000)].
Definition client_checks (run load : val) : res check_results :=
  check_list
    [("connections", $load.["connections"] ==' $run.["options"].["connections"]);
     ("client_procs", $load.["gomaxprocs"] ==' int 8)].
Definition phase_checks (run : val) (index : nat) (phase : val) : res check_results :=
  failed <- (l <- valuesR (failures_of phase) ;; py_sum l) ;;
  let named k := string_of_Z (Z.of_nat index) +:+ "_" +:+ k in
  check_list
    [(named "offers", $phase.["offered"] ==' $phase.["started"] +' $phase.["generator_queue_drops"] +' $phase.["generator_expired"]);
     (named "outcomes", $phase.["started"] ==' $phase.["successes"] +' $phase.["rejection_latency"].["count"] +' $failed);
     (named "latencies", chain_eq ($phase.["success_latency"].["count"])
                           [$phase.["success_service_latency"].["count"]; $phase.["successes"]]);
     (named "goodput", (d <- $phase.["window_successes_per_second"] *' $phase.["duration_seconds"] -' $phase.["window_successes"] ;;
                        py_abs d) <' lit 1 3);
     (named "window", $phase.["window_successes"] <=' $phase.["successes"]);
     (named "samples", enough_samples run phase)].
(** The loop over the phases, with the failures of every kind. *)
Fixpoint phases_checks (run : val) (index : nat) (phases : list val) (checks : check_results) (failures : dict) : res (check_results * dict) :=
  match phases with
  | [] => Ok (checks, failures)
  | phase :: phases =>
      more <- phase_checks run index phase ;;
      failures <- add_failures failures phase ;;
      phases_checks run (S index) phases (checks ++ more) failures
  end.
Definition run_checks (binaries : dict) (run : val) : res (check_results * dict) :=
  measured <- get ($run) "outcome" ==' str "measured" ;;
  if measured : bool then
    hosts <- host_checks binaries run ;;
    load <- $run.["load"] ;;
    client <- client_checks run load ;;
    phases <- iterR ($load.["phases"]) ;;
    phases_checks run 0 phases (("measured", true) :: hosts ++ client) []
  else Ok ([("measured", false)], []).
Definition failed_checks (checks : check_results) : list val := map (fun nb => VStr nb.1) (List.filter (fun nb => negb nb.2) checks).
Definition run_row (binaries : dict) (path : parts) : res (val * list string) :=
  run <- read t path ;;
  let* (checks, failures) := run_checks binaries run in
  let failed := failed_checks checks in
  shown_path <- shown path ;;
  sha <- get ($run) "binary_sha256" ;;
  Ok (obj [("path", VStr shown_path); ("checks", VInt (Z.of_nat (length checks))); ("failed_checks", VList failed);
           ("load_failures", VDict failures); ("binary_sha256", sha)],
      match failed with [] => [] | _ => [shown_path +:+ ": " +:+ py_repr (VList failed)] end).

(** ** The audit *)

Definition scope_text : string :=
  "Binary preservation, source availability, two-host identity, and accounting. Source availability does not assert that an old "
  +:+ "binary was built from its newer measurement manifest. Failed requests remain failures; this audit does not certify sustained capacity.".

(** [versions] with the harness that is kept outside an archive, and [binaries] of all records. *)
Definition versions_of (archives : list (val * version_list)) (harness : string) : version_list :=
  concat (map snd archives) ++ [("bench/architecture.py", harness)].
Definition binaries_of (records : list (list (val * val) * list string)) : dict := dupdate [] (concat (map fst records)).

Definition audit : expr :=
  archives <- mapR archive_row (sorted_paths (glob t FOLDER is_archive)) ;;
  harness <- digest t (under FOLDER "echo-rates/architecture.py") ;;
  let versions := versions_of archives harness in
  records <- mapR provenance_rows (glob t FOLDER (is_anywhere "provenance.json")) ;;
  let binaries := binaries_of records in
  manifests <- mapR (manifest_row versions) (sorted_paths (glob t FOLDER (is_anywhere "manifest.json"))) ;;
  runs <- mapR (run_row binaries) (sorted_paths (glob t FOLDER (is_anywhere "run.json"))) ;;
  let issues := concat (map snd records) ++ concat (map snd manifests) ++ concat (map snd runs) in
  mkdict
    [("passed_integrity", $(VBool (match issues with [] => true | _ => false end))); ("issues", $(VList (map VStr issues)));
     ("archives", $(VList (map fst archives))); ("binaries", $(VDict binaries)); ("runs", $(VList (map fst runs)));
     ("scope", str scope_text)].

(** The script: the report, the printed digest of it, and the exit status. *)
Definition main : res (list output * Z) :=
  result <- audit ;;
  text <- json_dumps2 result ;;
  brief <- dictcomp ["passed_integrity"; "issues"; "scope"] (fun k => $result.[k]) ;;
  printed <- json_dumps2 brief ;;
  runs <- lenR ($result.["runs"]) ;;
  passed <- test ($result.["passed_integrity"]) ;;
  Ok ([Written (str_path (under FOLDER "audit.json")) (text +:+ nl); Printed (printed +:+ nl);
       Printed (py_str runs +:+ " runs audited" +:+ nl)],
      if passed : bool then 0 else 1).

(** ** What a passing audit has checked *)

(** A provenance record: its archive exists, and its binary has the recorded digest. *)
Definition binary_kept (path : parts) (record : val) : Prop := exists archive name,
  $record.["source_archive"] = str archive /\ exists_ t (resolve t (under (parent path) archive)) = true
  /\ $record.["binary"] = str name /\ exists_ t (under ROOT name) = true
  /\ (rmap VStr (digest t (under ROOT name)) ==' $record.["binary_sha256"]) = Ok true.

(** A source of a manifest: its version is archived, or it is the present one. *)
Definition source_kept (versions : version_list) (ne : val * val) : Prop := exists name,
  ne.1 = VStr name
  /\ (archived versions name ne.2 = true
      \/ exists_ t (under ROOT name) = true /\ (rmap VStr (digest t (under ROOT name)) ==' $(ne.2)) = Ok true).

Record phase_balance (run phase : val) : Prop := {
  pb_offers : ($phase.["offered"] ==' $phase.["started"] +' $phase.["generator_queue_drops"] +' $phase.["generator_expired"]) = Ok true;
  pb_outcomes : exists failed, (l <- valuesR (failures_of phase) ;; py_sum l) = Ok failed
    /\ ($phase.["started"] ==' $phase.["successes"] +' $phase.["rejection_latency"].["count"] +' $failed) = Ok true;
  pb_latencies : ($phase.["success_latency"].["count"] ==' $phase.["success_service_latency"].["count"]) = Ok true
    /\ ($phase.["success_service_latency"].["count"] ==' $phase.["successes"]) = Ok true;
  pb_window : ($phase.["window_successes"] <=' $phase.["successes"]) = Ok true;
  pb_samples : enough_samples run phase = Ok true }.

(** A run: measured between two hosts with an archived binary and the present client, every phase of its load balanced. *)
Record run_kept (binaries : dict) (run : val) : Prop := {
  rk_measured : (get ($run) "outcome" ==' str "measured") = Ok true;
  rk_hosts : ($run.["server_identity"].["boot_id"] !=' $run.["remote_identity"].["boot_id"]) = Ok true;
  rk_binary : exists k, $run.["binary_sha256"] = Ok k /\ py_in k (VDict binaries) = Ok true;
  rk_client : ($run.["remote_started"].["binary_sha256"] ==' rmap VStr (digest t (under ROOT "zig-out/bench/load"))) = Ok true;
  rk_exit : ($run.["server_exit"] ==' int 0) = Ok true;
  rk_phases : exists phases, iterR ($run.["load"].["phases"]) = Ok phases /\ Forall (phase_balance run) phases }.

(** No issue in a list of rows, each with its own. *)
Lemma rows_without_issues {A B} (f : A -> res (B * list string)) l rows (P : A -> Prop) :
  (forall x row, f x = Ok (row, []) -> P x) -> mapR f l = Ok rows -> concat (map snd rows) = [] -> Forall P l.
Proof. intros Hf H E. apply Forall_forall. intros x Hx. destruct (no_issues _ _ _ H E x Hx) as [row Hr]. by eapply Hf. Qed.

Lemma binary_row_kept path record row : binary_row path record = Ok (row, []) -> binary_kept path record.
Proof.
  unfold binary_row. intros (archive & (v & Hv & Ha)%rbind_ok & H)%rbind_ok. cbv zeta in H.
  apply rbind_ok in H as (name & (w & Hw & Hn)%rbind_ok & H). apply rbind_ok in H as (changed & Hc & H).
  do 3 (apply rbind_ok in H as (? & _ & H)). injection H as _ H. apply app_nil in H as [H1 H2].
  destruct v, w; try done. injection Ha as ->. injection Hn as ->. exists archive, name. destruct changed; [done|].
  destruct (exists_ t (resolve t _)) eqn:E1; [|done]. destruct (exists_ t (under ROOT name)) eqn:E2; [|done].
  apply notR_ok in Hc. by split_and!.
Qed.

Lemma provenance_rows_kept path rows : provenance_rows path = Ok (rows, []) ->
  exists records, valuesR (read t path) = Ok records /\ Forall (binary_kept path) (List.filter names_binary records).
Proof.
  unfold provenance_rows. intros (records & Hr & H)%rbind_ok. apply rbind_ok in H as (rs & Hrs & [= _ H]).
  exists records. split; [done|]. eapply rows_without_issues; [|exact Hrs|exact H]. intros x row. apply binary_row_kept.
Qed.

Lemma source_row_kept versions path ne row : source_row versions path ne = Ok (row, []) -> source_kept versions ne.
Proof.
  unfold source_row. intros (name & Hn & H)%rbind_ok. apply rbind_ok in H as (expected & Hk%key_ok & H). cbv zeta in H.
  apply rbind_ok in H as (missing & Hm & H). apply rbind_ok in H as (? & _ & [= H]).
  destruct ne as [k e]. cbn in *. injection Hk as ->. destruct k; try done. injection Hn as ->. exists name. split; [done|].
  destruct missing; [done|]. destruct (archived versions name expected) eqn:Ea; [by left|right].
  destruct (exists_ t (under ROOT name)); [|done]. apply notR_ok in Hm. done.
Qed.
Lemma manifest_row_kept versions path row : manifest_row versions path = Ok (row, []) ->
  exists sources, itemsR ((read t path).["sources"]) = Ok sources /\ Forall (source_kept versions) sources.
Proof.
  unfold manifest_row. intros (sources & Hs & H)%rbind_ok. apply rbind_ok in H as (rs & Hrs & [= _ H]).
  exists sources. split; [done|]. eapply rows_without_issues; [|exact Hrs|exact H]. intros x r. apply source_row_kept.
Qed.

Lemma check_list_true l checks : check_list l = Ok checks -> Forall (fun nb => nb.2 = true) checks -> Forall (fun nc => nc.2 = Ok true) l.
Proof.
  intros H%mapR_ok F. induction H as [|[n c] [m b] l checks H _ IH]; [done|]. apply rbind_ok in H as (b' & Hb & [= <- <-]).
  apply Forall_cons in F as [Ht F]. cbn in Ht. subst. constructor; [done|by apply IH].
Qed.
Lemma phase_checks_balance run i phase checks :
  phase_checks run i phase = Ok checks -> Forall (fun nb => nb.2 = true) checks -> phase_balance run phase.
Proof.
  unfold phase_checks. intros (failed & Hf & H)%rbind_ok F. cbv zeta in H. pose proof (check_list_true _ _ H F) as G. clear H F.
  rewrite !Forall_cons in G. destruct G as (H1 & H2 & H3 & _ & H5 & H6 & _). cbn [fst snd] in *.
  unfold chain_eq in H3. apply andR_true in H3 as [H3 [H3' _]%andR_true]. split; try done. by exists failed.
Qed.
Lemma phases_checks_balance run i phases checks failures checks' failures' :
  phases_checks run i phases checks failures = Ok (checks', failures') -> Forall (fun nb => nb.2 = true) checks' ->
  Forall (fun nb => nb.2 = true) checks /\ Forall (phase_balance run) phases.
Proof.
  revert i checks failures. induction phases as [|phase phases IH]; intros i checks failures; cbn [phases_checks]; [by intros [= -> ->]|].
  intros (more & Hm & H)%rbind_ok F. apply rbind_ok in H as (fs & _ & H). destruct (IH _ _ _ H F) as [[F1 F2]%Forall_app F3].
  split; [done|]. constructor; [by eapply phase_checks_balance|done].
Qed.
Lemma no_failed_checks checks : failed_checks checks = [] -> Forall (fun nb => nb.2 = true) checks.
Proof. unfold failed_checks. induction checks as [|[n []] checks IH]; [done| |done]. intros H. constructor; [done|by apply IH]. Qed.

Lemma run_row_kept binaries path row : run_row binaries path = Ok (row, []) -> exists run, read t path = Ok run /\ run_kept binaries run.
Proof.
  unfold run_row. intros (run & Hr & H)%rbind_ok. apply rbind_ok in H as ([checks failures] & Hc & H). cbv zeta in H.
  apply rbind_ok in H as (? & _ & H). apply rbind_ok in H as (? & _ & H). injection H as _ H.
  assert (F : Forall (fun nb => nb.2 = true) checks) by (apply no_failed_checks; by destruct (failed_checks checks)).
  exists run. split; [done|]. unfold run_checks in Hc. apply rbind_ok in Hc as (measured & Hm & Hc).
  destruct measured; [|injection Hc as <- <-; by apply Forall_cons in F as [? _]].
  apply rbind_ok in Hc as (hosts & Hh & Hc). apply rbind_ok in Hc as (load & Hl & Hc). apply rbind_ok in Hc as (client & _ & Hc).
  apply rbind_ok in Hc as (phases & Hp & Hc). apply phases_checks_balance in Hc as [G Hb]; [|done].
  apply Forall_cons in G as [_ [G _]%Forall_app]. pose proof (check_list_true _ _ Hh G) as K. clear Hh G.
  rewrite !Forall_cons in K. destruct K as (H1 & H2 & H3 & H4 & _). cbn [fst snd] in *.
  apply rbind_ok in H2 as (k & Hk%key_ok & H2). split; try done; [by exists k|]. exists phases. by rewrite Hl.
Qed.

(** Soundness of the audit.  When the script exits with 0, every provenance record below the folder has its archive and its
    binary with the recorded digest; every source of every manifest is present in the recorded version, archived or as it
    is now; and every run was measured between two hosts with one of those binaries and accounts for every offer, start and
    response of each of its phases.  Unlike the audit of diagnostic runs, it does not excuse a run that was not measured. *)
Theorem implementation_audit_sound out :
  main = Ok (out, 0) ->
  exists archives harness records,
    let versions := versions_of archives harness in
    let binaries := binaries_of records in
    mapR archive_row (sorted_paths (glob t FOLDER is_archive)) = Ok archives
    /\ digest t (under FOLDER "echo-rates/architecture.py") = Ok harness
    /\ mapR provenance_rows (glob t FOLDER (is_anywhere "provenance.json")) = Ok records
    /\ (forall path, path ∈ glob t FOLDER (is_anywhere "provenance.json") ->
       exists records, valuesR (read t path) = Ok records /\ Forall (binary_kept path) (List.filter names_binary records))
    /\ (forall path, path ∈ sorted_paths (glob t FOLDER (is_anywhere "manifest.json")) ->
       exists sources, itemsR ((read t path).["sources"]) = Ok sources /\ Forall (source_kept versions) sources)
    /\ (forall path, path ∈ sorted_paths (glob t FOLDER (is_anywhere "run.json")) ->
       exists run, read t path = Ok run /\ run_kept binaries run).
Proof.
  unfold main. intros (result & Ha & H)%rbind_ok. do 4 (apply rbind_ok in H as (? & _ & H)).
  apply rbind_ok in H as (passed & Hp & H). injection H as _ H. destruct passed; [clear H|done].
  unfold audit in Ha. apply rbind_ok in Ha as (archives & Harc & Ha). apply rbind_ok in Ha as (harness & Hhar & Ha). cbv zeta in Ha.
  apply rbind_ok in Ha as (records & Hrec & Ha). apply rbind_ok in Ha as (manifests & Hman & Ha). apply rbind_ok in Ha as (runs & Hrun & Ha).
  destruct (mkdict_get _ _ "passed_integrity" _ Ha eq_refl) as (w & Hw & Hg). clear Ha. unfold test in Hp. rewrite Hg in Hp. injection Hw as <-.
  destruct (concat (map snd records) ++ concat (map snd manifests) ++ concat (map snd runs)) eqn:E; [clear Hp|done].
  apply app_nil in E as [E1 [E2 E3]%app_nil]. exists archives, harness, records. cbv zeta. split_and!; [done|done|done| | |]; intros path Hin.
  - destruct (no_issues _ _ _ Hrec E1 path Hin) as (row & Hrow). by eapply provenance_rows_kept.
  - destruct (no_issues _ _ _ Hman E2 path Hin) as (row & Hrow). by eapply manifest_row_kept.
  - destruct (no_issues _ _ _ Hrun E3 path Hin) as (row & Hrow). by eapply run_row_kept.
Qed.
End Audit.

(** *** One archive, one record, one manifest and one run *)

Definition sample_files : list (parts * string) :=
  let at_ s := path_of ("/r/docs/architecture-implementation/" +:+ s) in
  [(at_ "a/source.tar.gz", "archived"); (at_ "echo-rates/architecture.py", "harness"); (path_of "/r/b/zhtps", "elf");
   (path_of "/r/zig-out/bench/load", "load"); (path_of "/r/src/new.zig", "new");
   (at_ "a/provenance.json",
    document (obj [("zhtps", obj [("binary", VStr "b/zhtps"); ("binary_sha256", VStr (sha256_hex "elf")); ("source_archive", VStr "source.tar.gz")]);
                   ("note", VStr "text")]));
   (at_ "a/manifest.json",
    document (obj [("sources", obj [("src/main.zig", VStr (sha256_hex "archived")); ("src/new.zig", VStr (sha256_hex "new"));
                                    ("bench/architecture.py", VStr (sha256_hex "harness"))])]));
   (at_ "a/run.json",
    document (obj [("outcome", VStr "measured"); ("server_identity", obj [("boot_id", VStr "s")]); ("remote_identity", obj [("boot_id", VStr "c")]);
                   ("remote_started", obj [("binary_sha256", VStr (sha256_hex "load"))]); ("options", obj [("connections", VInt 8192)]);
                   ("binary_sha256", VStr (sha256_hex "elf")); ("server_exit", VInt 0); ("clock_uncertainty_ns", VInt 1000);
                   ("clock_offset_ns", VInt 0); ("samples", VList [obj [("unix_ns", VInt 600000000)]; obj [("unix_ns", VInt 700000000)]]);
                   ("load", obj [("connections", VInt 8192); ("gomaxprocs", VInt 8); ("phases", VList [sample_phase])])]))].
(** An archive that holds one source. *)
Definition sample_archive (content : string) : res (list member) :=
  Ok [Member "./src" false ""; Member "./src/main.zig" true content].

Example implementation_audit_passes : rmap snd (main sample_archive (Tree sample_files (path_of "/r")) (path_of "/r")) = Ok 0.
Proof. vm_compute. reflexivity. Qed.
(** Without the archive the binary's record and the source are both reported. *)
Example implementation_audit_reports :
  rmap snd (main sample_archive (Tree (drop 1 sample_files) (path_of "/r")) (path_of "/r")) = Ok 1
  /\ (audit sample_archive (Tree (drop 1 sample_files) (path_of "/r")) (path_of "/r")).["issues"]
  = $(VList (map VStr
        ["/r/docs/architecture-implementation/a/provenance.json: missing archive /r/docs/architecture-implementation/a/source.tar.gz";
         "docs/architecture-implementation/a/manifest.json: unavailable source version: src/main.zig "
         +:+ sha256_hex "archived"])).
Proof. vm_compute. done. Qed.
