(* ===== verification/AuditNginxImplementation.v ===== *)
(** * [bench/audit_nginx_implementation.py]: executables and accounting of the retained experiments

    [main] checks every build against its receipt and its source archive, every run of eight groups against its own
    accounting, and at the end the present sources against the final build.  A source that was changed after the last
    measurement may differ from the archived one only in comments and blank lines, which the script decides line by line on
    the opcodes of [Difflib].  The members of an archive are an argument, as in [AuditArchitectureImplementation]. *)

From stdpp Require Import base list strings.
From Stdlib Require Import ZArith Lia Ascii.
From S2P Require Import Prelude PyFloat PyText PyVal PyJson PyScript PyStats PyHash Evidence Difflib AuditUploadParity AuditArchitectureImplementation.

Local Open Scope Z_scope.
Open Scope py_scope.

(** [archive.extractfile(name).read()]: the last member of that name; only a file has a content. *)
Definition extract (members : list member) (name : string) : res string :=
  match List.find (fun m => String.eqb (m_name m) name) (rev members) with
  | Some m => if m_isfile m then Ok (m_content m) else raise AttributeError "'NoneType' object has no attribute 'read'"
  | None => raise KeyError "filename not found"
  end.

Section Audit.
Context (archive_of : string -> res (list member)).
Context (t : tree) (ROOT : parts).

Definition EVIDENCE : parts := under ROOT "docs/nginx-implementation".
Definition in_evidence (s : string) : parts := under EVIDENCE s.
(** [tarfile.open(path)] *)
Definition open_archive (path : parts) : res (list member) := content <- read_text t path ;; archive_of content.

(** ** Builds *)

Definition check_member (members : list member) (re : val * val) : res unit :=
  relative <- as_str re.1 ;; content <- extract members relative ;; assertR (str (sha256_hex content) ==' $(re.2)) relative.
(** A binary of a receipt, with its expected digest in [known]. *)
Definition check_known (known : dict) (re : val * val) : res dict :=
  relative <- as_str re.1 ;;
  let binary := under ROOT relative in
  assertR (digest_at t binary ==' $(re.2)) relative ;;;
  Ok (dset (VStr (str_path binary)) (re.2) known).
Definition check_baseline (baseline : val) : res dict :=
  name <- (v <- $baseline.["binary"] ;; as_str v) ;;
  let path := under ROOT name in
  assertR (digest_at t path ==' $baseline.["binary_sha256"]) "" ;;;
  sha <- digest_at t path ;;
  members <- open_archive (in_evidence "baseline-source.tar.gz") ;;
  sources <- itemsR ($baseline.["sources"]) ;;
  eachR (check_member members) sources ;;;
  Ok [(VStr (str_path path), sha)].
Definition BUILDS : list string :=
  ["request-storage"; "idle-reclaim"; "upload-before"; "upload-streaming"; "upload-before-unobserved"; "upload-streaming-unobserved"; "final"].
Definition check_build (known : dict) (name : string) : res dict :=
  let folder := in_evidence name in
  receipt <- read t (under folder "build.json") ;;
  assertR ($receipt.["build_exit"] ==' int 0) "" ;;;
  assertR (digest_at t (under folder "source.tar.gz") ==' $receipt.["source_archive_sha256"]) "" ;;;
  members <- open_archive (under folder "source.tar.gz") ;;
  sources <- itemsR ($receipt.["sources"]) ;;
  eachR (check_member members) sources ;;;
  binaries <- itemsR ($receipt.["binaries"]) ;;
  foldR check_known known binaries.

(** The receipt of the baseline and the digest of every binary. *)
Definition builds : res (val * dict) :=
  baseline <- read t (in_evidence "baseline.json") ;;
  known <- check_baseline baseline ;;
  known <- foldR check_build known BUILDS ;;
  Ok (baseline, known).

(** ** Runs *)

Definition groups : list (string * nat) :=
  [("storage-rates", 12%nat); ("idle-rates", 6%nat); ("idle-policy", 6%nat); ("idle-pressure-v3", 6%nat); ("uploads", 12%nat);
   ("uploads-paced", 6%nat); ("uploads-unobserved", 12%nat); ("uploads-unobserved-paced", 6%nat)].
Definition is_upload (group : string) : bool := startswith "uploads" group.
Definition is_pressure (group : string) : bool := String.eqb group "idle-pressure-v3".
(** [*/zig-1/run.json] *)
Definition is_zig_run (q : parts) : bool := match q with [x; y; _] => String.eqb x "run.json" && String.eqb y "zig-1" | _ => false end.
Definition runs_of (group : string) : list parts :=
  sorted_paths (glob t (in_evidence group) (if is_upload group || is_pressure group then is_child "run.json" else is_zig_run)).

(** What holds of every run: the digest of its binary. *)
Definition check_run (known : dict) (record : val) : expr :=
  actual <- $record.["running_binary_sha256"] ;;
  assertR (chain_eq ($actual) [$record.["binary_sha256"]; at_ ($(VDict known)) (idx_at ($record.["command"]) 0)]) "" ;;;
  actual <- key ($actual) ;;
  assertR (($record.["outcome"] ==' str "measured") &&' ($record.["server_exit"] ==' int 0)) "" ;;;
  assertR ($record.["server_identity"].["boot_id"] !=' $record.["remote_identity"].["boot_id"]) "" ;;;
  Ok actual.

Definition even_worker (w : val) : res bool := ($w.["attempts"] ==' $w.["successes"]) &&' notR (test ($w.["failures"])).
Definition check_sent (record : val) (flag content : string) : res unit :=
  assertR ($record.["remote_started"].["files"].[flag] ==' $(file_row content)) "".
Definition check_upload (group : string) (record load : val) : res unit :=
  size <- $record.["body_bytes"] ;;
  body <- read_text t (under (in_evidence group) ("body-" +:+ py_str size +:+ ".bin")) ;;
  let expected := py_str size +:+ ":" +:+ hex8 (crc32 body) +:+ nl in
  assertR (chain_eq (int (Z.of_nat (String.length body))) [$size; $load.["request_body_bytes"]]) "" ;;;
  assertR ($load.["request_body_sha256"] ==' str (sha256_hex body)) "" ;;;
  assertR ($load.["expected_body_sha256"] ==' str (sha256_hex expected)) "" ;;;
  assertR (notR (test ($load.["failures"])) &&' ($load.["window_successes"] >' int 0)) "" ;;;
  assertR (chain_eq (lenR ($load.["workers"])) [$load.["connections"]; $record.["connections"]; int 32]) "" ;;;
  workers <- iterR ($load.["workers"]) ;;
  assertR (allR even_worker workers) "" ;;;
  assertR (sumR (fun w => lenR ($w.["latencies_ns"])) workers ==' $load.["window_successes"]) "" ;;;
  assertR ($load.["validated_body_bytes"] ==' $size *' $load.["window_successes"]) "" ;;;
  assertR ($load.["goodput_bytes_per_second"] ==' $load.["validated_body_bytes"] /' $load.["duration_seconds"]) "" ;;;
  assertR ($load.["duration_seconds"] ==' int 20) "" ;;;
  assertR (getd ($load) "rate_cap" (VInt 0) ==' int (if endswith "paced" group then 25 else 0)) "" ;;;
  check_sent record "-request-body" body ;;;
  check_sent record "-expect-body" expected.

Definition check_pressure (record load : val) : res unit :=
  assertR ($record.["setup"].["validated_initial_responses"] ==' int 1024) "" ;;;
  assertR ($load.["offered_new_connections"] ==' int 128) "" ;;;
  assertR ($load.["successes"] +' (l <- valuesR ($load.["failures"]) ;; py_sum l) ==' int 128) "" ;;;
  ifR ($record.["variant"] ==' str "before")
    (assertR (($load.["successes"] ==' int 0) &&' ($load.["failures"] ==' $(VDict [(VStr "TimeoutError", VInt 128)]))) "")
    (assertR (($load.["successes"] ==' int 128) &&' notR (test ($load.["failures"]))) "" ;;;
     assertR ($record.["metrics_after"].["counters"].["connection_reclaim_timeouts_total"] ==' int 0) "").

Definition check_rate_phase (phase : val) : res unit :=
  assertR ($phase.["offered"] ==' $phase.["sent"] +' $phase.["generator_expired"] +' $phase.["generator_queue_drops"]) "" ;;;
  assertR (($phase.["successes"] ==' $phase.["sent"]) &&' notR (test ($phase.["failures"]))) "" ;;;
  assertR ($phase.["response_bytes_validated"] ==' int 6 *' $phase.["successes"]) "".
Definition check_rates (load : val) : res unit :=
  phases <- iterR ($load.["phases"]) ;;
  assertR (sumR (fun p => $p.["connections_opened"]) phases ==' $load.["connections"]) "" ;;;
  eachR check_rate_phase phases.

(** The digests of the binaries of a group, by first occurrence, and the audited paths. *)
Record seen_runs := Seen { s_hashes : list val; s_audited : list val }.
Definition audit_run (known : dict) (group : string) (s : seen_runs) (path : parts) : res seen_runs :=
  record <- read t path ;;
  actual <- check_run known record ;;
  load <- $record.["load"] ;;
  (if is_upload group then check_upload group record load
   else if is_pressure group then check_pressure record load else check_rates load) ;;;
  p <- relative_to path EVIDENCE ;;
  Ok (Seen (if existsb (py_eqb actual) (s_hashes s) then s_hashes s else s_hashes s ++ [actual]) (s_audited s ++ [VStr (str_path p)])).
(** Two binaries are compared, but for the control that turns a policy of one binary off. *)
Definition binaries_of_group (group : string) : nat := if String.eqb group "idle-policy" then 1 else 2.
Definition audit_group (known : dict) (audited : list val) (gn : string * nat) : res (list val) :=
  let runs := runs_of gn.1 in
  require (length runs =? gn.2)%nat gn.1 ;;;
  s <- foldR (audit_run known gn.1) (Seen [] audited) runs ;;
  require (length (s_hashes s) =? binaries_of_group gn.1)%nat "" ;;;
  Ok (s_audited s).

(** ** Aggregates *)

Definition UPLOADS : list string := ["uploads"; "uploads-paced"; "uploads-unobserved"; "uploads-unobserved-paced"].
Definition fields : list string := ["goodput_mib_per_second"; "service_p99_ms"; "rss_median_mib"; "rss_peak_mib"; "cpu_us_per_mib"].
Definition size_variant (r : val) : expr := tupleR [$r.["body_bytes"]; $r.["variant"]].
Definition aggregate_row (rows : list val) (k : val) : expr :=
  selected <- filterR (fun r => size_variant r ==' $k) rows ;;
  mkdict [("body_bytes", idx_at ($k) 0); ("variant", idx_at ($k) 1);
          ("medians", dictcomp fields (fun field => medianR (fun r => $r.[field]) selected));
          ("trials", dictcomp fields (fun field => listR (fun r => $r.[field]) selected));
          ("server_retransmits", listR (fun r => $r.["server_host"].["tcp"].["RetransSegs"]) selected);
          ("server_rx_missed", listR (fun r => $r.["server_host"].["nics"].["server_eth0"].["rx_missed_errors"]) selected)].
Definition aggregate_group (group : string) : res output :=
  rows <- mapR (read t) (sorted_paths (glob t (in_evidence group) (is_child "summary.json"))) ;;
  keys <- (s <- set_by size_variant rows ;; py_sorted s) ;;
  aggregate <- mapR (aggregate_row rows) keys ;;
  file_out (in_evidence group) "aggregate.json" (VList aggregate).

(** ** The final sources *)

Definition receipt_of (name : string) : expr := read t (under (in_evidence name) "build.json").
Definition check_present (re : val * val) : res unit :=
  relative <- as_str re.1 ;; assertR (digest_at t (under ROOT relative) ==' $(re.2)) relative.
Definition check_unobserved (unobserved : val) (re : val * val) : res unit :=
  relative <- as_str re.1 ;;
  if startswith "src/" relative then assertR ($unobserved.["sources"].[relative] ==' $(re.2)) relative else Ok tt.

(** [not line.strip() or line.lstrip().startswith('//')] *)
Definition is_comment (line : string) : bool := String.eqb (strip line) "" || startswith "//" (lstrip line).
(** Everything outside the equal parts of two texts is a comment. *)
Definition only_comments (previous current : list string) : bool :=
  forallb (fun c => match c_tag c with
                    | Equal => true
                    | _ => forallb is_comment (slice (c_i1 c) (c_i2 c) previous ++ slice (c_j1 c) (c_j2 c) current)
                    end) (get_opcodes previous current).
(** The sources whose comments were updated after the measurements, collected in order. *)
Definition comment_update (members : list member) (final : val) (updates : list val) (re : val * val) : res (list val) :=
  relative <- as_str re.1 ;;
  unchanged <- (if startswith "src/" relative then $final.["sources"].[relative] ==' $(re.2) else Ok true) ;;
  if unchanged : bool then Ok updates
  else
    previous <- rmap splitlines (extract members relative) ;;
    current <- rmap splitlines (read_text t (under ROOT relative)) ;;
    require (only_comments previous current) relative ;;;
    Ok (updates ++ [VStr relative]).
Definition comment_updates (final : val) : res (list val) :=
  measured <- receipt_of "upload-streaming-unobserved" ;;
  members <- open_archive (under (in_evidence "upload-streaming-unobserved") "source.tar.gz") ;;
  sources <- itemsR ($measured.["sources"]) ;;
  foldR (comment_update members final) [] sources.
(** [final['sources'].get(relative) != expected] *)
Definition modified (final : val) (re : val * val) : res bool := (v <- $final.["sources"] ;; vget v (re.1)) !=' $(re.2).

(** What is checked of the final build: its receipt, and the sources with new comments. *)
Definition final_checks : res (val * list val) :=
  final <- receipt_of "final" ;;
  final_sources <- itemsR ($final.["sources"]) ;;
  eachR check_present final_sources ;;;
  unobserved <- receipt_of "upload-before-unobserved" ;;
  observed <- receipt_of "upload-before" ;;
  observed_sources <- itemsR ($observed.["sources"]) ;;
  eachR (check_unobserved unobserved) observed_sources ;;;
  updates <- comment_updates final ;;
  Ok (final, updates).

(** ** The audit *)

Definition excluded : val :=
  obj [("idle-pressure", VStr "Setup failed at the inherited descriptor limit.");
       ("idle-pressure-v2", VStr "Remote idle probe timed out; no complete result.");
       ("idle-pressure-smoke", VStr "Diagnostic small-capacity smoke test.");
       ("upload-smoke", VStr "Three-second smoke measurements; not decision evidence.")].
Definition main : res (list output) :=
  let* (baseline, known) := builds in
  audited <- foldR (audit_group known) [] groups ;;
  aggregates <- mapR aggregate_group UPLOADS ;;
  let* (final, updates) := final_checks in
  sources <- itemsR ($baseline.["sources"]) ;;
  changed <- rmap (map fst) (filterR (modified final) sources) ;;
  let brief := [("outcome", VStr "passed"); ("build_receipts", VList (map VStr BUILDS)); ("measured_runs", VInt (Z.of_nat (length audited)))] in
  let rest := [("final_sources_match", VBool true); ("final_core_differs_from_measured_only_in_comments", VList updates);
               ("modified_baseline_sources", VList changed);
               ("supplemental_instrumented_uploads", VList [VStr "uploads"; VStr "uploads-paced"])] in
  audit <- file_out EVIDENCE "audit.json" (obj (brief ++ [("runs", VList audited)] ++ rest ++ [("excluded", excluded)])) ;;
  printed <- json_dumps2 (obj (brief ++ rest)) ;;
  Ok (aggregates ++ [audit; Printed (printed +:+ nl)]).

(** ** Lemmas *)

Lemma check_build_archive known name known' : check_build known name = Ok known' ->
  exists receipt members sources, receipt_of name = Ok receipt /\ open_archive (under (in_evidence name) "source.tar.gz") = Ok members
    /\ itemsR ($receipt.["sources"]) = Ok sources /\ Forall (fun re => check_member members re = Ok tt) sources.
Proof.
  unfold check_build. cbv zeta. intros (receipt & Hr & H)%rbind_ok. do 2 (apply rbind_ok in H as (? & _ & H)).
  apply rbind_ok in H as (members & Hm & H). apply rbind_ok in H as (sources & Hs & H).
  apply rbind_ok in H as (? & F%eachR_ok & _). by exists receipt, members, sources.
Qed.
Lemma check_member_digest members relative expected :
  check_member members (VStr relative, expected) = Ok tt -> exists content, extract members relative = Ok content /\ expected = VStr (sha256_hex content).
Proof.
  unfold check_member. cbn [fst snd as_str rbind]. intros (content & Hc & H%assertR_ok)%rbind_ok. exists content. split; [done|].
  unfold eqR, str in H. cbn [lift2 rbind] in H. injection H as H. by apply py_eqb_str_inv.
Qed.
Lemma present_digest sources relative v :
  Forall (fun re => check_present re = Ok tt) sources -> dget (VStr relative) sources = Some v ->
  exists current, read_text t (under ROOT relative) = Ok current /\ v = VStr (sha256_hex current).
Proof.
  induction 1 as [|[k w] sources H _ IH]; [done|]. cbn [dget]. destruct (py_eqb (VStr relative) k) eqn:E; [|exact IH].
  intros [= ->]. apply py_eqb_str_inv in E as ->. unfold check_present in H. cbn [fst snd as_str rbind] in H. apply assertR_ok in H.
  unfold digest_at, digest in H. destruct (read_text t (under ROOT relative)) as [current|] eqn:Er; [|done]. exists current. split; [done|].
  unfold eqR in H. cbn [lift2 rmap rbind] in H. injection H as H. by apply py_eqb_str_inv.
Qed.

(** A line of code: neither a comment nor blank. *)
Definition is_code (line : string) : bool := negb (is_comment line).

Lemma only_comments_code previous current :
  only_comments previous current = true -> List.filter is_code previous = List.filter is_code current.
Proof.
  intros H. rewrite <- (drop_0 previous), <- (drop_0 current). eapply script_filter; [apply get_opcodes_script|].
  intros c Hc Ht line Hl. unfold only_comments in H. rewrite forallb_forall in H. specialize (H c). rewrite <- list_elem_of_In in H.
  specialize (H Hc). unfold is_code. apply negb_false_iff.
  destruct (c_tag c); [| | |done]; rewrite forallb_forall in H; apply H; by apply list_elem_of_In.
Qed.

(** The same program: the same bytes, or the same lines of code. *)
Definition same_code (previous current : string) : Prop :=
  sha256_hex previous = sha256_hex current \/ List.filter is_code (splitlines previous) = List.filter is_code (splitlines current).

Lemma comment_update_code members final updates relative updates' :
  forall expected, startswith "src/" relative = true -> comment_update members final updates (VStr relative, expected) = Ok updates' ->
  ($final.["sources"].[relative] ==' $expected) = Ok true
  \/ exists previous current, extract members relative = Ok previous /\ read_text t (under ROOT relative) = Ok current
     /\ List.filter is_code (splitlines previous) = List.filter is_code (splitlines current).
Proof.
  intros expected Hs. unfold comment_update. cbn [fst snd as_str rbind]. rewrite Hs. intros (unchanged & Hu & H)%rbind_ok.
  destruct unchanged; [by left|right]. apply rbind_ok in H as (previous & (p & Hp & ->)%rmap_ok & H).
  apply rbind_ok in H as (current & (c & Hc & ->)%rmap_ok & H). apply rbind_ok in H as (? & Ho%require_ok & _).
  exists p, c. split_and!; [done|done|]. by apply only_comments_code.
Qed.

(** C6: The measured code is the present code.  When the builds and the final state check out, every source under [src/] of the
    last measured build is in its archive with the recorded digest, and the present file either is the same or differs
    from it in nothing but comments and blank lines. *)
Theorem final_core_unchanged baseline known final updates :
  builds = Ok (baseline, known) -> final_checks = Ok (final, updates) ->
  exists measured members sources,
    receipt_of "upload-streaming-unobserved" = Ok measured
    /\ open_archive (under (in_evidence "upload-streaming-unobserved") "source.tar.gz") = Ok members
    /\ itemsR ($measured.["sources"]) = Ok sources
    /\ forall relative expected, (VStr relative, expected) ∈ sources -> startswith "src/" relative = true ->
         exists previous current, extract members relative = Ok previous /\ expected = VStr (sha256_hex previous)
           /\ read_text t (under ROOT relative) = Ok current /\ same_code previous current.
Proof.
  unfold builds. intros (b & _ & H)%rbind_ok. apply rbind_ok in H as (k & _ & H). apply rbind_ok in H as (k' & H & _).
  apply foldR_steps in H. rewrite Forall_forall in H. destruct (H "upload-streaming-unobserved") as (k1 & k2 & Hb); [computed|].
  apply check_build_archive in Hb as (measured & members & sources & Hr & Hm & Hs & Fm). clear H.
  unfold final_checks. intros (f & _ & H)%rbind_ok. apply rbind_ok in H as (fs & Hfs & H). apply rbind_ok in H as (? & Fp%eachR_ok & H).
  do 4 (apply rbind_ok in H as (? & _ & H)). apply rbind_ok in H as (us & Hu & [= -> ->]).
  unfold comment_updates in Hu. rewrite Hr in Hu. cbn [rbind] in Hu. rewrite Hm in Hu. cbn [rbind] in Hu. rewrite Hs in Hu. cbn [rbind] in Hu.
  apply foldR_steps in Hu. exists measured, members, sources. split_and!; [done|done|done|]. intros relative expected Hin Hsrc.
  rewrite Forall_forall in Fm, Hu. destruct (check_member_digest _ _ _ (Fm _ Hin)) as (previous & Hp & He).
  destruct (Hu _ Hin) as (u & u' & Hc). exists previous. apply comment_update_code in Hc as [Hc|(p & c & Hp' & Hc & Hf)]; [|..|done].
  - unfold eqR in Hc. apply lift2_ok in Hc as (v & w & Hv & [= <-] & [= Hvw]). apply idx_ok in Hv as (d & Hd & Hv).
    unfold itemsR in Hfs. rewrite Hd in Hfs. injection Hfs as <-. apply (present_digest _ _ _ Fp) in Hv as (current & Hcur & ->).
    exists current. split_and!; [done|done|done|]. left. rewrite He, py_eqb_str in Hvw. apply String.eqb_eq in Hvw. done.
  - exists c. split_and!; [done|done|done|]. right. rewrite Hp in Hp'. by injection Hp' as ->.
Qed.

(** *** Runs *)

(** A run of every group: measured with a known binary between two hosts, and its load adds up. *)
Record run_sound (known : dict) (record : val) : Prop := {
  rs_measured : ($record.["outcome"] ==' str "measured") = Ok true /\ ($record.["server_exit"] ==' int 0) = Ok true;
  rs_binary : ($record.["running_binary_sha256"] ==' $record.["binary_sha256"]) = Ok true
              /\ ($record.["binary_sha256"] ==' at_ ($(VDict known)) (idx_at ($record.["command"]) 0)) = Ok true;
  rs_hosts : ($record.["server_identity"].["boot_id"] !=' $record.["remote_identity"].["boot_id"]) = Ok true }.
Lemma nginx_run_sound known record actual :
  check_run known record = Ok actual -> run_sound known record /\ $record.["running_binary_sha256"] = Ok actual.
Proof.
  unfold check_run. intros (a & Ha & H)%rbind_ok. apply rbind_ok in H as (? & H1%assertR_ok & H).
  apply rbind_ok in H as (k & Hk%key_ok & H). apply rbind_ok in H as (? & H2%assertR_ok%andR_true & H).
  apply rbind_ok in H as (? & H3%assertR_ok & [= <-]). injection Hk as ->. split; [|done].
  unfold chain_eq in H1. apply andR_true in H1 as [H1 [H1' _]%andR_true]. rewrite <- Ha in H1. split; [tauto| |done].
  split; [exact H1|exact H1'].
Qed.

(** What the loads of the kinds of groups account for. *)
Definition upload_accounted (record load : val) : Prop := exists workers,
  iterR ($load.["workers"]) = Ok workers
  /\ Forall (fun w => ($w.["attempts"] ==' $w.["successes"]) = Ok true /\ test ($w.["failures"]) = Ok false) workers
  /\ (sumR (fun w => lenR ($w.["latencies_ns"])) workers ==' $load.["window_successes"]) = Ok true
  /\ ($load.["validated_body_bytes"] ==' $record.["body_bytes"] *' $load.["window_successes"]) = Ok true.
Definition pressure_accounted (record load : val) : Prop :=
  ($load.["successes"] +' (l <- valuesR ($load.["failures"]) ;; py_sum l) ==' int 128) = Ok true
  /\ exists before, ($record.["variant"] ==' str "before") = Ok before
     /\ ($load.["successes"] ==' int (if before : bool then 0 else 128)) = Ok true.
Definition rates_accounted (load : val) : Prop := exists phases,
  iterR ($load.["phases"]) = Ok phases
  /\ (sumR (fun p => $p.["connections_opened"]) phases ==' $load.["connections"]) = Ok true
  /\ Forall (fun phase =>
       ($phase.["offered"] ==' $phase.["sent"] +' $phase.["generator_expired"] +' $phase.["generator_queue_drops"]) = Ok true
       /\ ($phase.["successes"] ==' $phase.["sent"]) = Ok true /\ test ($phase.["failures"]) = Ok false) phases.
Definition accounted (group : string) (record load : val) : Prop :=
  if is_upload group then upload_accounted record load
  else if is_pressure group then pressure_accounted record load else rates_accounted load.

Lemma check_upload_accounted group record load u : check_upload group record load = Ok u -> upload_accounted record load.
Proof.
  unfold check_upload. cbv zeta. intros (size & Hs & H)%rbind_ok. do 6 (apply rbind_ok in H as (? & _ & H)).
  apply rbind_ok in H as (workers & Hw & H). apply rbind_ok in H as (? & H1%assertR_ok%allR_ok & H).
  apply rbind_ok in H as (? & H2%assertR_ok & H). apply rbind_ok in H as (? & H3%assertR_ok & _).
  exists workers. rewrite Hs. split_and!; [done| |done|done]. eapply Forall_impl; [exact H1|]. by intros w [Ha Hb%notR_ok]%andR_true.
Qed.
Lemma check_pressure_accounted record load u : check_pressure record load = Ok u -> pressure_accounted record load.
Proof.
  unfold check_pressure. intros (? & _ & H)%rbind_ok. apply rbind_ok in H as (? & _ & H). apply rbind_ok in H as (? & H1%assertR_ok & H).
  split; [done|]. unfold ifR in H. apply rbind_ok in H as (before & Hb & H). exists before. split; [done|].
  destruct before; [apply assertR_ok in H|apply rbind_ok in H as (? & H%assertR_ok & _)]; by apply andR_true in H as [H _].
Qed.
Lemma check_rates_accounted load u : check_rates load = Ok u -> rates_accounted load.
Proof.
  unfold check_rates. intros (phases & Hp & H)%rbind_ok. apply rbind_ok in H as (? & H1%assertR_ok & F%eachR_ok).
  exists phases. split_and!; [done|done|]. eapply Forall_impl; [exact F|]. clear. unfold check_rate_phase.
  intros phase (? & H1%assertR_ok & H)%rbind_ok. apply rbind_ok in H as (? & [H2 H3%notR_ok]%assertR_ok%andR_true & _). done.
Qed.

(** An audited run file of a group. *)
Definition run_audited (known : dict) (group : string) (path : parts) : Prop := exists record load,
  read t path = Ok record /\ run_sound known record /\ $record.["load"] = Ok load /\ accounted group record load.

Lemma audit_run_audited known group s path s' :
  audit_run known group s path = Ok s' -> run_audited known group path /\ length (s_audited s') = S (length (s_audited s)).
Proof.
  unfold audit_run. intros (record & Hr & H)%rbind_ok. apply rbind_ok in H as (actual & [Hs _]%nginx_run_sound & H).
  apply rbind_ok in H as (load & Hl & H). apply rbind_ok in H as (u & Hc & H). apply rbind_ok in H as (p & _ & [= <-]).
  split; [|cbn; rewrite length_app; cbn; lia]. exists record, load. split_and!; [done|done|done|]. unfold accounted.
  destruct (is_upload group); [by eapply check_upload_accounted|].
  destruct (is_pressure group); [by eapply check_pressure_accounted|by eapply check_rates_accounted].
Qed.
Lemma audit_runs_count known group l s s' :
  foldR (audit_run known group) s l = Ok s' -> length (s_audited s') = (length (s_audited s) + length l)%nat.
Proof.
  revert s. induction l as [|p l IH]; intros s; cbn [foldR]; [intros [= <-]; cbn; lia|].
  intros (s1 & [_ E]%audit_run_audited & H%IH)%rbind_ok. cbn. lia.
Qed.
Lemma audit_group_audited known audited gn audited' : audit_group known audited gn = Ok audited' ->
  length (runs_of gn.1) = gn.2 /\ Forall (run_audited known gn.1) (runs_of gn.1) /\ length audited' = (length audited + gn.2)%nat.
Proof.
  unfold audit_group. cbv zeta. intros (? & Hn%require_ok%Nat.eqb_eq & H)%rbind_ok. apply rbind_ok in H as (s & Hs & H).
  apply rbind_ok in H as (? & _ & [= <-]). split; [done|]. rewrite <- Hn. split.
  - eapply Forall_impl; [exact (foldR_steps _ _ _ _ Hs)|]. intros p (s1 & s2 & E). by apply audit_run_audited in E as [? _].
  - exact (audit_runs_count _ _ _ _ _ Hs).
Qed.

Lemma audit_groups_count known audited gs audited' :
  foldR (audit_group known) audited gs = Ok audited' -> length audited' = (length audited + sum_list (map snd gs))%nat.
Proof.
  revert audited. induction gs as [|gn gs IH]; intros audited; cbn [foldR]; [intros [= <-]; cbn; lia|].
  intros (a1 & (_ & _ & E)%audit_group_audited & H%IH)%rbind_ok. cbn in *. lia.
Qed.

(** Soundness of the audit.  When it ends, the builds and the final state check out; each of the eight groups has its number of
    runs, every run was measured with a binary of the builds between two hosts, ended with 0 and accounts for its requests; and
    the report counts all 66 of them. *)
Theorem nginx_audit_sound out : main = Ok out ->
  exists baseline known final updates report text measured,
    builds = Ok (baseline, known) /\ final_checks = Ok (final, updates)
    /\ Forall (fun gn => length (runs_of gn.1) = gn.2 /\ Forall (run_audited known gn.1) (runs_of gn.1)) groups
    /\ Written (str_path (under EVIDENCE "audit.json")) (text +:+ nl) ∈ out /\ json_dumps2 report = Ok text
    /\ $report.["outcome"] = str "passed" /\ $report.["measured_runs"] = int measured /\ measured = 66
    /\ $report.["final_core_differs_from_measured_only_in_comments"] = $(VList updates).
Proof.
  unfold main. intros ([baseline known] & Hb & H)%rbind_ok. apply rbind_ok in H as (audited & Ha & H).
  apply rbind_ok in H as (aggregates & _ & H). apply rbind_ok in H as ([final updates] & Hf & H).
  do 2 (apply rbind_ok in H as (? & _ & H)). cbv zeta in H. apply rbind_ok in H as (audit & H1 & H). apply rbind_ok in H as (printed & _ & [= <-]).
  unfold file_out in H1. apply rbind_ok in H1 as (text & Ht & [= <-]). pose proof (audit_groups_count _ _ _ _ Ha) as Hn. cbn in Hn.
  exists baseline, known, final, updates. eexists. exists text, (Z.of_nat (length audited)).
  split_and!; [done|done| | |exact Ht|reflexivity|reflexivity|lia|reflexivity].
  - eapply Forall_impl; [exact (foldR_steps _ _ _ _ Ha)|]. intros gn (a1 & a2 & (H1 & H2 & _)%audit_group_audited). done.
  - apply elem_of_app. right. by left.
Qed.
End Audit.

(** *** Builds whose last source has a new comment *)

(** An archive with two sources; the first has the content of the archive. *)
Definition sample_archive (content : string) : res (list member) :=
  Ok [Member "src/main.zig" true content; Member "src/fixed.zig" true "const fixed = 1;"].
Definition measured_source : string := "// Serve." +:+ nl +:+ "const a = 1;" +:+ nl +:+ "const b = 2;" +:+ nl.
Definition present_source : string :=
  "// Serve requests." +:+ nl +:+ "const a = 1;" +:+ nl +:+ nl +:+ "  // The second." +:+ nl +:+ "const b = 2;" +:+ nl.
Definition sample_sources (content : string) : val :=
  obj [("src/main.zig", VStr (sha256_hex content)); ("src/fixed.zig", VStr (sha256_hex "const fixed = 1;"))].
Definition sample_build (content : string) : val :=
  obj [("build_exit", VInt 0); ("source_archive_sha256", VStr (sha256_hex content)); ("sources", sample_sources content);
       ("binaries", obj [("b/zhtps", VStr (sha256_hex "elf"))])].
Definition sample_tree_with (present : string) : tree :=
  let at_ s := path_of ("/r/docs/nginx-implementation/" +:+ s) in
  Tree ([(path_of "/r/b/zhtps", "elf"); (path_of "/r/src/main.zig", present); (path_of "/r/src/fixed.zig", "const fixed = 1;");
         (at_ "baseline-source.tar.gz", measured_source);
         (at_ "baseline.json", json_text (obj [("binary", VStr "b/zhtps"); ("binary_sha256", VStr (sha256_hex "elf"));
                                               ("sources", sample_sources measured_source)]))]
        ++ concat (map (fun name =>
             let content := if String.eqb name "final" then present else measured_source in
             [(at_ (name +:+ "/source.tar.gz"), content); (at_ (name +:+ "/build.json"), json_text (sample_build content))]) BUILDS))
    (path_of "/r").
Definition sample_tree : tree := sample_tree_with present_source.

(** A change of the code itself is not accepted. *)
Example changed_code_refused :
  final_checks sample_archive (sample_tree_with (present_source +:+ "const c = 3;" +:+ nl)) (path_of "/r") = raise AssertionError "src/main.zig".
Proof. vm_compute. reflexivity. Qed.

Definition sample_baseline : val * dict := value_or (VNone, []) (builds sample_archive sample_tree (path_of "/r")).
Definition sample_final : val * list val := value_or (VNone, []) (final_checks sample_archive sample_tree (path_of "/r")).

Lemma final_core_unchanged_witness :
  builds sample_archive sample_tree (path_of "/r") = Ok (sample_baseline.1, sample_baseline.2)
  /\ final_checks sample_archive sample_tree (path_of "/r") = Ok (sample_final.1, [VStr "src/main.zig"])
  /\ exists measured members sources,
    receipt_of sample_tree (path_of "/r") "upload-streaming-unobserved" = Ok measured
    /\ open_archive sample_archive sample_tree (under (in_evidence (path_of "/r") "upload-streaming-unobserved") "source.tar.gz") = Ok members
    /\ itemsR ($measured.["sources"]) = Ok sources
    /\ forall relative expected, (VStr relative, expected) ∈ sources -> startswith "src/" relative = true ->
         exists previous current, extract members relative = Ok previous /\ expected = VStr (sha256_hex previous)
           /\ read_text sample_tree (under (path_of "/r") relative) = Ok current /\ same_code previous current.
Proof.
  assert (B : builds sample_archive sample_tree (path_of "/r") = Ok (sample_baseline.1, sample_baseline.2)) by (vm_compute; reflexivity).
  assert (F : final_checks sample_archive sample_tree (path_of "/r") = Ok (sample_final.1, [VStr "src/main.zig"])) by (vm_compute; reflexivity).
  split; [exact B|]. split; [exact F|].
  exact (final_core_unchanged sample_archive sample_tree (path_of "/r") _ _ _ _ B F).
Defined.
