(* ===== verification/AuditHttp2Lan.v ===== *)
(** * [bench/audit_http2_lan.py]: the independent audit of LAN trials

    [audit] recomputes every number of a benchmark run from the records of its client shards: the
    matrix of trials, the placement of server and client threads, the request accounting of every
    phase against the retained failure logs, and the latency percentiles from the histograms.  It
    returns a receipt or raises at the first disagreement.

    A gzip file of the tree stands for its uncompressed content, which is all the audit reads of it. *)

From stdpp Require Import base list strings sets sorting.
From Stdlib Require Import ZArith Lia Ascii.
From S2P Require Import Prelude PyFloat PyText PyVal PyJson PyScript PyStats PyHash Evidence.

Local Open Scope Z_scope.
Open Scope py_scope.

Definition PHASES : list string := ["setup"; "holding"; "warmup"; "measurement"].

(** ** Percentiles *)

(** The boundary at which the cumulative count reaches the target. *)
Fixpoint percentile_from (target cumulative : val) (l : dict) : expr :=
  match l with
  | [] => raise AssertionError "missing percentile"
  | (boundary, n) :: l =>
      cumulative <- py_add cumulative n ;;
      ifR ($cumulative >=' $target) ($boundary /' int 1000) (percentile_from target cumulative l)
  end.

Definition percentile (histogram : dict) (percent : Z) : expr :=
  total <- py_sum (map snd histogram) ;;
  if negb (truthy total) then Ok VNone else
  target <- (v <- ($total -' int 1) *' int percent ;; py_floordiv v (VInt 100)) +' int 1 ;;
  l <- py_sorted_by fst histogram ;;
  percentile_from target (VInt 0) l.

(** ** The matrix of trials *)

Definition int_list (e : expr) : res (list Z) := v <- e ;; s <- as_str v ;; mapR py_int (split_char "," s).

Definition trial (workers connections : Z) (server : val) (repeat : Z) : val :=
  VTuple [VInt workers; VInt connections; server; VInt repeat].

Definition add_member (s : list val) (v : val) : list val := if existsb (py_eqb v) s then s else s ++ [v].

(** [range(n)] *)
Definition range (e : expr) : res (list Z) :=
  v <- e ;; match v with VInt n => Ok (seqZ 0 n) | VBool b => Ok (seqZ 0 (if b then 1 else 0))
            | _ => type_error "object cannot be interpreted as an integer" end.

(** The cell of the matrix at [workers] and [connections], added to [(expected, skipped)]. *)
Definition matrix_cell (variants : val) (args : val) (servers : list val) (workers connections : Z)
    (st : list val * list val) : res (list val * list val) :=
  if truthy variants && (workers * 8176 <? connections)
  then Ok (st.1, add_member st.2 (VTuple [VInt workers; VInt connections]))
  else
    expected <- foldR (fun expected server =>
      if negb (truthy variants) && (1 <? workers)
         && existsb (py_eqb server) [VStr "node"; VStr "bun"] then Ok expected else
      repeats <- range ($args.["repeats"]) ;;
      Ok (foldl (fun expected repeat => add_member expected (trial workers connections server repeat))
            expected repeats)) st.1 servers ;;
    Ok (expected, st.2).

Definition matrix (variants args : val) (servers : list val) : res (list val * list val) :=
  workers <- int_list ($args.["workers"]) ;;
  foldR (fun st w =>
    connections <- int_list ($args.["connections"]) ;;
    foldR (fun st c => matrix_cell variants args servers w c st) st connections) ([], []) workers.

Definition label_of (run : val) : expr := server <- $run.["server"] ;; getd ($run) "variant" server.
(** [(r['workers'], r['connections'], r.get('variant', r['server']), r['repeat'])] *)
Definition trial_of (run : val) : expr :=
  tupleR [$run.["workers"]; $run.["connections"]; label_of run; $run.["repeat"]].

(** The trials the report has are exactly the expected ones, once each. *)
Definition check_matrix (report args variants : val) (servers : list val) : res (list val) :=
  let* (expected, skipped) := matrix variants args servers in
  (if truthy variants
   then rows <- iterR ($report.["skipped"]) ;;
        listed <- set_by (fun row => tupleR [$row.["workers"]; $row.["connections"]]) rows ;;
        require (set_eqb skipped listed) ""
   else Ok tt) ;;;
  runs <- iterR ($report.["runs"]) ;;
  actual <- mapR trial_of runs ;;
  distinct <- set_by (fun v => $v) actual ;;
  require ((length actual =? length distinct)%nat && set_eqb distinct expected) "" ;;;
  Ok actual.

(** ** One run *)

(** Identity, placement of the server, and the retained copy of the run. *)
Definition check_identity (t : tree) (path : parts) (report args variants run label : val) : res bool :=
  assertR (read t (under path "run.json") ==' $run) "" ;;;
  same_host <- $run.["client_identity"].["boot_id"] ==' $run.["server_identity"].["boot_id"] ;;
  assertR (rmap (Bool.eqb same_host) (get ($args) "location" ==' str "loopback")) "" ;;;
  (if truthy variants then
     assertR ($run.["server_binary_sha256"] ==' at_ ($report.["binary_sha256"]) ($label)) "" ;;;
     assertR (idx_at ($run.["server_command"]) 3 ==' at_ ($variants) ($label)) ""
   else Ok tt) ;;;
  assertR ($run.["server_identity"].["boot_id"] ==' $report.["server_identity"].["boot_id"]) "" ;;;
  assertR ($run.["client_launch"].["binary_sha256"] ==' $report.["binary_sha256"].["client"]) "" ;;;
  assertR ($run.["streams"] ==' $args.["streams"]) "" ;;;
  Ok same_host.

(** [{tuple(identity['topology'][str(cpu)]) for cpu in cpus}] *)
Definition core_set (identity : expr) (cpus : list val) : res (list val) :=
  set_by (fun cpu => l <- (v <- at_ (idx identity "topology") (str (py_str cpu)) ;; py_iter v) ;; Ok (VTuple l)) cpus.

(** [for placement in placements for cpu in placement] *)
Definition flatten (l : list val) : res (list val) := rmap (@concat _) (mapR py_iter l).

Definition disjoint (s u : list val) : bool := forallb (fun x => negb (existsb (py_eqb x) u)) s.

(** Every thread of the server snapshots runs on its CPUs only. *)
Definition check_threads (run : val) (cpus : list val) : res unit :=
  before <- $run.["server_before"] ;;
  after <- $run.["server_after"] ;;
  eachR (fun snapshot =>
    if truthy snapshot then
      threads <- iterR ($snapshot.["threads"]) ;;
      assertR (allR (fun thread =>
        s <- (l <- iterR ($thread.["cpus"]) ;; set_by (fun v => $v) l) ;; Ok (subsetb s cpus)) threads) ""
    else Ok tt) [before; after].

Definition check_placement (run args workers : val) (same_host : bool) : res unit :=
  cpus <- (l <- iterR ($run.["server_cpus"]) ;; set_by (fun v => $v) l) ;;
  cores <- core_set ($run.["server_identity"]) cpus ;;
  assertR ((int (Z.of_nat (length cores)) ==' $workers) &&' ($workers ==' int (Z.of_nat (length cpus)))) "" ;;;
  check_threads run cpus ;;;
  placements <- iterR ($run.["client_launch"].["placements"]) ;;
  (if same_host then
     flat <- flatten placements ;;
     client_cores <- core_set ($run.["client_identity"]) flat ;;
     require (disjoint cores client_cores) ""
   else Ok tt) ;;;
  assertR (int (Z.of_nat (length placements)) ==' $args.["client_processes"]) "" ;;;
  flat <- flatten placements ;;
  distinct <- set_by (fun v => $v) flat ;;
  assertR (int (Z.of_nat (length distinct)) ==' (l <- mapR (fun p => rmap VInt (py_len p)) placements ;; py_sum l)) "".

(** ** One client shard *)

(** Counters by phase: [{phase: Counter() for phase in PHASES}]. *)
Abbreviation by_phase := (list (string * dict)).
Definition no_counts : by_phase := map (fun phase => (phase, [])) PHASES.
Definition at_phase (phase : string) (c : by_phase) : dict := default [] (assoc phase c).
Fixpoint set_phase (phase : string) (d : dict) (c : by_phase) : by_phase :=
  match c with
  | [] => []
  | (k, e) :: c => if String.eqb phase k then (k, d) :: c else (k, e) :: set_phase phase d c
  end.
Definition update_phase (phase : string) (f : dict -> res dict) (c : by_phase) : res by_phase :=
  d <- f (at_phase phase c) ;; Ok (set_phase phase d c).

Definition check_population (shard args : val) : res unit :=
  assertR (($shard.["streams"] ==' $args.["streams"]) &&' ($shard.["reconnections"] ==' int 0)) "" ;;;
  assertR ($shard.["setup"].["attempted"] +' $shard.["setup_unattempted"] ==' $shard.["requested_connections"]) "" ;;;
  assertR ($shard.["setup"].["succeeded"] ==' $shard.["established_connections"]) "" ;;;
  assertR ((int 0 <=' $shard.["successful_connections"])
           &&' ($shard.["successful_connections"] <=' $shard.["participating_connections"])
           &&' ($shard.["participating_connections"] <=' $shard.["established_connections"])) "" ;;;
  assertR ((int 0 <=' $shard.["alive_connections"])
           &&' ($shard.["alive_connections"] <=' $shard.["established_connections"])) "" ;;;
  assertR ($shard.["seconds"] >=' $args.["duration"]) "".

(** The lines of a log, without their terminators. *)
Definition log_lines (s : string) : list string :=
  let l := split_char "010" s in
  match last l with Some "" => take (length l - 1) l | _ => l end.

(** One failure record: well formed, and counted by phase and kind. *)
Definition log_event (shard args : val) (observed : by_phase) (line : string) : res by_phase :=
  event <- json_loads line ;;
  phase <- $event.["phase"] ;;
  assertR (py_in phase (VTuple (map VStr PHASES))) "" ;;;
  assertR ((int 0 <=' $event.["connection"]) &&' ($event.["connection"] <' $shard.["requested_connections"])) "" ;;;
  assertR ((int (-1) <=' $event.["stream_slot"]) &&' ($event.["stream_slot"] <' $args.["streams"])) "" ;;;
  assertR (($event.["started_unix_ns"] >' int 0) &&' ($event.["elapsed_ns"] >=' int 0)) "" ;;;
  assertR (test ($event.["error"])) "" ;;;
  kind <- $event.["kind"] ;;
  p <- as_str phase ;;
  update_phase p (fun c => counter_add c kind) observed.

(** The retained failure log of shard [i] against its receipt. *)
Definition check_log (t : tree) (path : parts) (run args : val) (i : Z) (shard : val) : res by_phase :=
  receipt <- idx_at ($run.["client_result"].["failure_logs"]) i ;;
  assertR ($receipt.["path"] ==' str ("client-" +:+ string_of_Z i +:+ ".failures.jsonl.gz")) "" ;;;
  file <- (v <- $receipt.["path"] ;; as_str v) ;;
  content <- read_text t (under (under path "client") file) ;;
  observed <- foldR (log_event shard args) no_counts (log_lines content) ;;
  assertR (str (sha256_hex content) ==' $receipt.["sha256_uncompressed"]) "" ;;;
  let entries := int (Z.of_nat (length (log_lines content))) in
  assertR ((entries ==' $receipt.["entries"]) &&' ($receipt.["entries"] ==' $shard.["failure_log_entries"])) "" ;;;
  Ok observed.

Definition stat_names : list string := ["attempted"; "succeeded"; "failed"].

Record sums := Sums { s_totals : by_phase; s_kinds : by_phase; s_latency : dict; s_failure_latency : dict }.
Definition no_sums : sums := Sums no_counts no_counts [] [].

(** The accounting of one phase of a shard, added to the totals of the run. *)
Definition add_phase (shard : val) (observed : by_phase) (st : by_phase * by_phase) (phase : string)
  : res (by_phase * by_phase) :=
  stats <- $shard.[phase] ;;
  assertR ($stats.["attempted"] ==' $stats.["succeeded"] +' $stats.["failed"]) "" ;;;
  assertR (py_sum (map snd (at_phase phase observed)) ==' $stats.["failed"]) "" ;;;
  kinds <- (v <- orE ($stats.["failure_kinds"]) ($(VDict [])) ;; counter_of v) ;;
  require (counter_eqb (at_phase phase observed) kinds) "" ;;;
  counts <- mapR (fun k => v <- $stats.[k] ;; Ok (VStr k, v)) stat_names ;;
  totals <- update_phase phase (fun c => counter_update c counts) st.1 ;;
  all_kinds <- update_phase phase (fun c => counter_update c (at_phase phase observed)) st.2 ;;
  Ok (totals, all_kinds).

(** A histogram of a shard, whose counts add up to a measured count, added to the run's. *)
Definition add_histogram (shard : val) (key count : string) (histogram : dict) : res dict :=
  assertR ((l <- valuesR ($shard.[key]) ;; py_sum l) ==' $shard.["measurement"].[count]) "" ;;;
  l <- itemsR ($shard.[key]) ;;
  buckets <- dict_by (fun bn => py_int_of bn.1) (fun bn => $(bn.2)) l ;;
  counter_update histogram buckets.

Definition add_shard (t : tree) (path : parts) (run args : val) (st : Z * sums) (shard : val) : res (Z * sums) :=
  let '(i, s) := st in
  assertR (read t (under (under path "client") ("client-" +:+ string_of_Z i +:+ ".json")) ==' $shard) "" ;;;
  check_population shard args ;;;
  observed <- check_log t path run args i shard ;;
  let* (totals, kinds) := foldR (add_phase shard observed) (s_totals s, s_kinds s) PHASES in
  latency <- add_histogram shard "latency_us" "succeeded" (s_latency s) ;;
  failure_latency <- add_histogram shard "failure_latency_us" "failed" (s_failure_latency s) ;;
  Ok (i + 1, Sums totals kinds latency failure_latency).

(** ** The numbers of a run *)

Definition run_totals : list string :=
  ["requested_connections"; "established_connections"; "ready_connections"; "participating_connections";
   "successful_connections"; "alive_connections"; "setup_unattempted"; "reconnections"; "failure_log_entries"].

(** The totals of the run against the sums of its shards; the failures by kind go to the receipt. *)
Definition check_phase (run : val) (s : sums) (failures : by_phase) (phase : string) : res by_phase :=
  eachR (fun key => assertR ($run.[phase].[key] ==' $(VDict (at_phase phase (s_totals s))).[key]) "") stat_names ;;;
  kinds <- (v <- $run.[phase].["failure_kinds"] ;; counter_of v) ;;
  require (counter_eqb kinds (at_phase phase (s_kinds s))) "" ;;;
  update_phase phase (fun c => counter_update c (at_phase phase (s_kinds s))) failures.

Definition check_rates (run args connections : val) (shards : list val) (s : sums) : res unit :=
  eachR (fun key => assertR ($run.[key] ==' sumR (fun shard => $shard.[key]) shards) "") run_totals ;;;
  assertR ($run.["requested_connections"] ==' $connections) "" ;;;
  full <- ($run.["ready_connections"] ==' $connections) &&' ($run.["participating_connections"] ==' $connections) ;;
  assertR ($run.["full_population"] ==' $(VBool full)) "" ;;;
  elapsed <- (duration <- $args.["duration"] ;;
              span <- (maxR (fun s => $s.["end_ns"]) shards -' minR (fun s => $s.["start_ns"]) shards)
                      /' lit 1000000000 0 ;;
              py_max [duration; span]) ;;
  assertR ($run.["seconds"] ==' $elapsed) "" ;;;
  assertR ($run.["requests_per_second"] ==' $run.["measurement"].["succeeded"] /' $elapsed) "" ;;;
  assertR ($run.["p50_ms"] ==' percentile (s_latency s) 50) "" ;;;
  assertR ($run.["p99_ms"] ==' percentile (s_latency s) 99) "" ;;;
  assertR ($run.["failure_p99_ms"] ==' percentile (s_failure_latency s) 99) "".

Definition run_path (folder : parts) (run label : val) : res parts :=
  rmap (under folder)
    (fstring [F "w"; V ($run.["workers"]); F "-c"; V ($run.["connections"]); F "-"; V ($label); F "-r";
              V ($run.["repeat"] +' int 1)]).

(** The body of the loop over the runs. *)
Definition audit_run (t : tree) (folder : parts) (report args variants : val)
    (st : by_phase * val) (run : val) : res (by_phase * val) :=
  assertR (test ($run.["valid"])) "" ;;;
  workers <- $run.["workers"] ;;
  connections <- $run.["connections"] ;;
  label <- label_of run ;;
  path <- run_path folder run label ;;
  same_host <- check_identity t path report args variants run label ;;
  check_placement run args workers same_host ;;;
  shards <- iterR ($run.["client_result"].["shards"]) ;;
  assertR (int (Z.of_nat (length shards)) ==' $args.["client_processes"]) "" ;;;
  codes <- valuesR ($run.["client_result"].["exit_codes"]) ;;
  assertR (allR (fun code => $code ==' int 0) codes) "" ;;;
  let* (_, s) := foldR (add_shard t path run args) (0, no_sums) shards in
  failures <- foldR (check_phase run s) st.1 PHASES ;;
  check_rates run args connections shards s ;;;
  successes <- $(st.2) +' $run.["measurement"].["succeeded"] ;;
  Ok (failures, successes).

Definition phase_dict (c : by_phase) : val := VDict (map (fun kd => (VStr kd.1, VDict kd.2)) c).

Definition audit (t : tree) (folder : parts) : expr :=
  report <- read t (under folder "results.json") ;;
  assertR (test ($report.["complete"])) "incomplete benchmark" ;;;
  args <- $report.["arguments"] ;;
  variants <- get ($report) "variants" ;;
  servers <- (if truthy variants then py_iter variants
              else s <- (v <- $args.["servers"] ;; as_str v) ;; Ok (map VStr (split_char "," s))) ;;
  actual <- check_matrix report args variants servers ;;
  runs <- iterR ($report.["runs"]) ;;
  let* (failures, successes) := foldR (audit_run t folder report args variants) (no_counts, VInt 0) runs in
  mkdict
    [("passed", $(VBool true)); ("trials", int (Z.of_nat (length actual))); ("measured_successes", $successes);
     ("failures_by_phase_and_kind", $(phase_dict failures));
     ("failure_records", l <- mapR (fun kd => py_sum (map snd kd.2)) failures ;; py_sum l);
     ("setup_unattempted", sumR (fun r => $r.["setup_unattempted"]) runs);
     ("partial_population_trials", sumR (fun r => rmap VBool (notR (test ($r.["full_population"])))) runs);
     ("unexpected_server_exits", sumR (fun r => rmap VBool (notR (noneR ($r.["server_exit_before_shutdown"])))) runs)].

(** The script prints the receipt. *)
Definition main (t : tree) (folder : string) : res output :=
  result <- audit t (path_of folder) ;;
  text <- json_dumps2 result ;;
  Ok (Printed (text +:+ nl)).

(** ** Percentiles by rank *)

(** A histogram of integer boundaries and counts. *)
Definition histogram_of (h : list (Z * Z)) : dict := map (fun bn => (VInt bn.1, VInt bn.2)) h.

(** How many observations are at most, or below, a boundary. *)
Definition at_most (b : Z) (h : list (Z * Z)) : Z := sumZ (map snd (List.filter (fun bn => bn.1 <=? b) h)).
Definition below (b : Z) (h : list (Z * Z)) : Z := sumZ (map snd (List.filter (fun bn => bn.1 <? b) h)).

Definition counted (h : list (Z * Z)) : Prop := Forall (fun bn => 0 <= bn.2) h.

Lemma sum_filter_le (p q : Z * Z -> bool) h :
  counted h -> (forall x, x ∈ h -> p x = true -> q x = true) ->
  sumZ (map snd (List.filter p h)) <= sumZ (map snd (List.filter q h)).
Proof.
  intros Hc. induction Hc as [|x h Hx Hc IH]; intros Hpq; cbn; [lia|].
  specialize (IH (fun y Hy => Hpq y ltac:(by right))). pose proof (Hpq x (list_elem_of_here _ _)).
  destruct (p x); [rewrite H by done; cbn; lia|]. destruct (q x); cbn; lia.
Qed.

Lemma sum_filter_perm (p : Z * Z -> bool) h l : h ≡ₚ l ->
  sumZ (map snd (List.filter p h)) = sumZ (map snd (List.filter p l)).
Proof.
  induction 1 as [|x h l _ IH|x y h|h l m _ IH1 _ IH2]; cbn; [done| | |congruence].
  - destruct (p x); cbn; lia.
  - destruct (p x), (p y); cbn; lia.
Qed.

Lemma percentile_from_rank target cum l :
  cum < target <= cum + sumZ (map snd l) ->
  exists l1 b n l2, l = l1 ++ (b, n) :: l2 /\ cum + sumZ (map snd l1) < target <= cum + sumZ (map snd l1) + n
  /\ percentile_from (VInt target) (VInt cum) (histogram_of l) = (int b /' int 1000).
Proof.
  revert cum. induction l as [|[b n] l IH]; intros cum H; cbn in H; [lia|].
  change (percentile_from (VInt target) (VInt cum) (histogram_of ((b, n) :: l)))
    with (if target <=? cum + n then int b /' int 1000 else percentile_from (VInt target) (VInt (cum + n)) (histogram_of l)).
  destruct (Z.leb_spec target (cum + n)) as [Hle|Hgt].
  - exists [], b, n, l. cbn. split_and!; [done|lia|lia|done].
  - destruct (IH (cum + n)) as (l1 & b' & n' & l2 & -> & Hr & Hp); [lia|].
    exists ((b, n) :: l1), b', n', l2. cbn. split_and!; [done|lia|lia|]. done.
Qed.

Lemma sum_perm (h l : list (Z * Z)) : h ≡ₚ l -> sumZ (map snd h) = sumZ (map snd l).
Proof. induction 1; cbn; lia || congruence. Qed.

(** In an ordered histogram, the counts before a boundary and up to it bound those of the observations below it
    and at most it. *)
Lemma rank_bounds l1 b n l2 :
  let l := l1 ++ (b, n) :: l2 in
  counted l -> StronglySorted (in_order (fun kv : val * val => match kv.1 with VInt z => z | _ => 0 end)) (histogram_of l) ->
  below b l <= sumZ (map snd l1) /\ sumZ (map snd l1) + n <= at_most b l.
Proof.
  intros l Hc Hs.
  assert (Hord : (forall x, x ∈ l1 -> x.1 <= b) /\ (forall y, y ∈ l2 -> b <= y.1)).
  { clear Hc. subst l. induction l1 as [|x l1 IH]; cbn in Hs; apply StronglySorted_inv in Hs as [Hs Hf].
    - split; [intros x Hx; by apply not_elem_of_nil in Hx|]. intros y Hy.
      rewrite Forall_forall in Hf. apply (Hf (VInt y.1, VInt y.2)). by apply (list_elem_of_fmap_2 (fun bn => (VInt bn.1, VInt bn.2))).
    - destruct (IH Hs) as [H1 H2]. split; [|done]. intros z [->|Hz]%elem_of_cons; [|auto].
      rewrite Forall_forall in Hf. apply (Hf (VInt b, VInt n)). unfold histogram_of. rewrite map_app. set_solver. }
  destruct Hord as [H1 H2]. unfold below, at_most, l. rewrite !List.filter_app, !map_app, !sumZ_app. unfold counted, l in Hc.
  apply Forall_app in Hc as [Hc1 [Hn Hc2]%Forall_cons]. cbn [List.filter fst]. rewrite Z.ltb_irrefl, Z.leb_refl.
  pose proof (sum_filter_le (fun bn => bn.1 <? b) (fun _ => true) l1 Hc1 ltac:(done)) as B1.
  pose proof (sum_filter_le (fun _ => true) (fun bn => bn.1 <=? b) l1 Hc1 ltac:(intros x Hx _; by apply Z.leb_le, H1)) as B2.
  pose proof (sum_filter_le (fun bn => bn.1 <? b) (fun _ => false) l2 Hc2
                ltac:(intros y Hy Hlt; apply Z.ltb_lt in Hlt; specialize (H2 y Hy); lia)) as B3.
  pose proof (sum_filter_le (fun _ => false) (fun bn => bn.1 <=? b) l2 Hc2 ltac:(done)) as B4.
  assert (F1 : forall h : list (Z * Z), List.filter (fun _ => true) h = h) by (induction h; cbn; congruence).
  assert (F0 : forall h : list (Z * Z), List.filter (fun _ => false) h = []) by (induction h; cbn; congruence).
  rewrite !F1 in *. rewrite !F0 in *. cbn in *. lia.
Qed.



(** ** Failure records *)

(** The phase a line of a failure log is about. *)
Definition phase_of (line : string) : option string :=
  match (event <- json_loads line ;; v <- $event.["phase"] ;; as_str v) with Ok p => Some p | Err _ => None end.
Definition records (phase content : string) : Z :=
  Z.of_nat (length (List.filter (fun line => bool_decide (phase_of line = Some phase)) (log_lines content))).

Definition client_log (i : Z) : string := "client-" +:+ string_of_Z i +:+ ".failures.jsonl.gz".

(** Shard [i] accounts for its requests, and its log holds one record for every failure of every phase. *)
Definition recorded (t : tree) (path : parts) (i : Z) (shard : val) : Prop :=
  exists content, read_text t (under (under path "client") (client_log i)) = Ok content
  /\ (exists entries, py_eqb (VInt (Z.of_nat (length (log_lines content)))) entries = true
      /\ ($entries ==' $shard.["failure_log_entries"]) = Ok true)
  /\ Forall (fun phase =>
       ($shard.[phase].["attempted"] ==' $shard.[phase].["succeeded"] +' $shard.[phase].["failed"]) = Ok true
       /\ (int (records phase content) ==' $shard.[phase].["failed"]) = Ok true) PHASES.

(** A counter whose counts are integers adding up to [n]. *)
Definition counts_to (n : Z) (c : dict) : Prop := exists zs, map snd c = map VInt zs /\ sumZ zs = n.

Lemma counts_sum n c : counts_to n c -> py_sum (map snd c) = Ok (VInt n).
Proof. intros (zs & -> & <-). apply py_sum_int. Qed.

Lemma dset_counts k c zs : map snd c = map VInt zs ->
  exists z zs', default (VInt 0) (dget k c) = VInt z /\ map snd (dset k (VInt (z + 1)) c) = map VInt zs'
  /\ sumZ zs' = sumZ zs + 1.
Proof.
  revert zs. induction c as [|[k' v] c IH]; intros [|z zs] [=]; cbn.
  - exists 0, [1]. done.
  - subst v. destruct (py_eqb k k'); cbn.
    + exists z, ((z + 1) :: zs). split_and!; [done|cbn; congruence|cbn; lia].
    + destruct (IH zs) as (x & zs' & Hd & Hm & Hs); [done|]. exists x, (z :: zs'). rewrite Hm. split_and!; [done|done|cbn; lia].
Qed.

Lemma counter_add_counts n c k c' : counts_to n c -> counter_add c k = Ok c' -> counts_to (n + 1) c'.
Proof.
  intros (zs & Hz & <-) H. unfold counter_add in H. apply rbind_ok in H as (k' & _ & H).
  destruct (dset_counts k' c zs Hz) as (z & zs' & Hd & Hs & Hn). rewrite Hd in H. cbn in H. injection H as <-. by exists zs'.
Qed.

Lemma at_set_phase p q d c :
  at_phase q (set_phase p d c) = if bool_decide (q = p /\ p ∈ map fst c) then d else at_phase q c.
Proof.
  unfold at_phase. induction c as [|[k e] c IH]; cbn; [by rewrite bool_decide_eq_false_2 by set_solver|].
  destruct (String.eqb_spec p k) as [->|Hne]; cbn.
  - destruct (String.eqb_spec q k) as [->|Hq]; [by rewrite bool_decide_eq_true_2 by set_solver|].
    by rewrite bool_decide_eq_false_2 by tauto.
  - destruct (String.eqb_spec q k) as [->|Hq]; [by rewrite bool_decide_eq_false_2 by naive_solver|].
    rewrite IH. apply (f_equal (fun b : bool => if b then d else _)). apply bool_decide_ext. set_solver.
Qed.

Lemma set_phase_keys p d c : map fst (set_phase p d c) = map fst c.
Proof. induction c as [|[k e] c IH]; cbn; [done|]. case_match; cbn; congruence. Qed.

(** The counters of a log count its records by phase. *)
Lemma log_events shard args lines c c' (n : string -> Z) :
  map fst c = PHASES -> (forall p, p ∈ PHASES -> counts_to (n p) (at_phase p c)) ->
  foldR (log_event shard args) c lines = Ok c' ->
  forall p, p ∈ PHASES ->
    counts_to (n p + Z.of_nat (length (List.filter (fun line => bool_decide (phase_of line = Some p)) lines))) (at_phase p c').
Proof.
  revert c n. induction lines as [|line lines IH]; intros c n Hk Hn H p Hp; cbn in H.
  { injection H as <-. cbn. rewrite Z.add_0_r. auto. }
  apply rbind_ok in H as (c1 & H1 & H). unfold log_event in H1.
  apply rbind_ok in H1 as (event & He & H1). apply rbind_ok in H1 as (phase & Hph & H1).
  apply rbind_ok in H1 as (_ & _ & H1). apply rbind_ok in H1 as (_ & _ & H1). apply rbind_ok in H1 as (_ & _ & H1).
  apply rbind_ok in H1 as (_ & _ & H1). apply rbind_ok in H1 as (_ & _ & H1). apply rbind_ok in H1 as (kind & _ & H1).
  apply rbind_ok in H1 as (q & Hq & H1). unfold update_phase in H1. apply rbind_ok in H1 as (d & Hd & H1). injection H1 as <-.
  assert (Hline : phase_of line = Some q) by (unfold phase_of; rewrite He; cbn [rbind]; rewrite Hph; cbn [rbind]; by rewrite Hq).
  specialize (IH (set_phase q d c) (fun p => n p + (if bool_decide (q = p) then 1 else 0))).
  cbn [List.filter]. rewrite Hline.
  replace (n p + _) with ((n p + (if bool_decide (q = p) then 1 else 0))
    + Z.of_nat (length (List.filter (fun line => bool_decide (phase_of line = Some p)) lines))).
  2: { destruct (decide (q = p)) as [->|Hne]; [rewrite !bool_decide_eq_true_2 by done; cbn [length]; lia|].
       rewrite !bool_decide_eq_false_2 by congruence. lia. }
  apply IH; [by rewrite set_phase_keys| |exact H|exact Hp].
  intros r Hr. rewrite at_set_phase, Hk. destruct (decide (r = q)) as [->|Hne].
  - rewrite !bool_decide_eq_true_2 by done. eapply counter_add_counts; [by apply Hn|exact Hd].
  - rewrite !bool_decide_eq_false_2 by naive_solver. rewrite Z.add_0_r. by apply Hn.
Qed.

Lemma assertR_true c m u : assertR c m = Ok u -> c = Ok true.
Proof. unfold assertR. intros (b & -> & H)%rbind_ok. by apply require_ok in H as ->. Qed.

Lemma add_phase_checks shard observed st phase st' :
  add_phase shard observed st phase = Ok st' ->
  ($shard.[phase].["attempted"] ==' $shard.[phase].["succeeded"] +' $shard.[phase].["failed"]) = Ok true
  /\ (py_sum (map snd (at_phase phase observed)) ==' $shard.[phase].["failed"]) = Ok true.
Proof.
  unfold add_phase. intros (stats & Hs & H)%rbind_ok. apply rbind_ok in H as (_ & H1%assertR_true & H).
  apply rbind_ok in H as (_ & H2%assertR_true & _). unfold idx at 1 3 5 7. rewrite Hs. done.
Qed.

Lemma add_shard_recorded t path run args i s shard st' :
  add_shard t path run args (i, s) shard = Ok st' -> st'.1 = i + 1 /\ recorded t path i shard.
Proof.
  unfold add_shard. intros (_ & _ & H)%rbind_ok. apply rbind_ok in H as (_ & _ & H).
  apply rbind_ok in H as (observed & Hlog & H). apply rbind_ok in H as ([totals kinds] & Hp & H).
  apply rbind_ok in H as (latency & _ & H). apply rbind_ok in H as (failure & _ & H). injection H as <-. split; [done|].
  unfold check_log in Hlog. apply rbind_ok in Hlog as (receipt & _ & Hlog).
  apply rbind_ok in Hlog as (_ & Hpath%assertR_true & Hlog). apply rbind_ok in Hlog as (file & Hfile & Hlog).
  apply rbind_ok in Hlog as (content & Hread & Hlog). apply rbind_ok in Hlog as (obs & Hev & Hlog).
  apply rbind_ok in Hlog as (_ & _ & Hlog). apply rbind_ok in Hlog as (_ & Hn%assertR_true & Hlog). injection Hlog as ->.
  exists content.
  assert (file = client_log i) as ->.
  { unfold eqR, lift2 in Hpath. apply rbind_ok in Hfile as (v & Hv & Hf). rewrite Hv in Hpath. cbn in Hpath.
    injection Hpath as Hpath. destruct v; try done. cbn in *. injection Hf as <-. by apply String.eqb_eq in Hpath. }
  split; [exact Hread|]. split.
  - unfold andR in Hn. apply rbind_ok in Hn as (b & Hb & Hn). destruct b; [|done].
    unfold eqR, lift2 in *. apply rbind_ok in Hb as (x & Hx & Hb). apply rbind_ok in Hb as (y & Hy & Hb).
    injection Hx as <-. injection Hb as Hb. rewrite Hy in Hn. exists y. split; [exact Hb|exact Hn].
  - assert (Hfacts : Forall (fun phase =>
      ($shard.[phase].["attempted"] ==' $shard.[phase].["succeeded"] +' $shard.[phase].["failed"]) = Ok true
      /\ (py_sum (map snd (at_phase phase observed)) ==' $shard.[phase].["failed"]) = Ok true) PHASES).
    { refine (foldR_elem (fun phase _ => _) (add_phase shard observed) PHASES _ _ _ _ Hp); [|done]. intros st phase st'. apply add_phase_checks. }
    rewrite Forall_forall in Hfacts. apply Forall_forall. intros phase Hin. destruct (Hfacts phase Hin) as [H1 H2].
    split; [exact H1|]. rewrite <- H2. f_equal. symmetry. apply counts_sum.
    apply (log_events shard args (log_lines content) no_counts observed (fun _ => 0)); [done| |exact Hev|exact Hin].
    intros p Hq. exists []. split; [|done]. repeat (apply elem_of_cons in Hq as [->|Hq]; [done|]). by apply not_elem_of_nil in Hq.
Qed.

(** All shards of a run, in the order of their logs. *)
Lemma add_shards_recorded t path run args shards i s st' :
  foldR (add_shard t path run args) (i, s) shards = Ok st' ->
  forall j shard, shards !! j = Some shard -> recorded t path (i + Z.of_nat j) shard.
Proof.
  revert i s. induction shards as [|x shards IH]; intros i s H j shard Hj; [done|]. cbn in H.
  apply rbind_ok in H as ([i' s'] & Hx & H). apply add_shard_recorded in Hx as [Hi Hx]. cbn in Hi. subst i'.
  destruct j as [|j]; cbn in Hj; [injection Hj as <-; by rewrite Z.add_0_r|].
  replace (i + Z.of_nat (S j)) with (i + 1 + Z.of_nat j) by lia. by eapply IH.
Qed.

(** *** A benchmark of one trial with one failure *)

Definition sample_log : string :=
  "{'phase':'measurement','connection':0,'stream_slot':0,'started_unix_ns':1,'elapsed_ns':5,'error':'late','kind':'timeout'}".
Definition double_quoted (s : string) : string := str_replace "'" (String dquote "") s.
Definition sample_stats (attempted succeeded failed : Z) (kinds : val) : val :=
  obj [("attempted", VInt attempted); ("succeeded", VInt succeeded); ("failed", VInt failed); ("failure_kinds", kinds)].
Definition sample_phases : list (string * val) :=
  [("setup", sample_stats 1 1 0 (obj [])); ("holding", sample_stats 0 0 0 (obj [])); ("warmup", sample_stats 0 0 0 (obj []));
   ("measurement", sample_stats 3 2 1 (obj [("timeout", VInt 1)]))].
Definition sample_population : list (string * val) :=
  [("requested_connections", VInt 1); ("established_connections", VInt 1); ("ready_connections", VInt 1);
   ("participating_connections", VInt 1); ("successful_connections", VInt 1); ("alive_connections", VInt 1);
   ("setup_unattempted", VInt 0); ("reconnections", VInt 0); ("failure_log_entries", VInt 1); ("streams", VInt 1)].
Definition sample_shard : val :=
  obj (sample_population ++ sample_phases ++
    [("seconds", VInt 1); ("latency_us", obj [("20", VInt 1); ("10", VInt 1)]); ("failure_latency_us", obj [("1000", VInt 1)]);
     ("start_ns", VInt 0); ("end_ns", VInt 1000000000)]).
Definition sample_run : val :=
  obj ([("valid", VBool true); ("workers", VInt 1); ("connections", VInt 1); ("server", VStr "zhtps"); ("repeat", VInt 0);
        ("client_identity", obj [("boot_id", VStr "c")]);
        ("server_identity", obj [("boot_id", VStr "s"); ("topology", obj [("0", VList [VInt 0; VInt 0])])]);
        ("server_before", VNone); ("server_after", VNone); ("server_cpus", VList [VInt 0]);
        ("client_launch", obj [("binary_sha256", VStr "b"); ("placements", VList [VList [VInt 1]])]);
        ("client_result", obj [("shards", VList [sample_shard]); ("exit_codes", obj [("0", VInt 0)]);
           ("failure_logs", VList [obj [("path", VStr (client_log 0)); ("entries", VInt 1);
                                        ("sha256_uncompressed", VStr (sha256_hex (double_quoted sample_log +:+ nl)))]])])]
       ++ sample_population ++ sample_phases ++
       [("full_population", VBool true); ("seconds", VInt 1); ("requests_per_second", VInt 2);
        ("p50_ms", VFloat (f64_lit 1 2)); ("p99_ms", VFloat (f64_lit 1 2)); ("failure_p99_ms", VInt 1);
        ("server_exit_before_shutdown", VNone)]).
Definition sample_report : val :=
  obj [("complete", VBool true); ("runs", VList [sample_run]); ("server_identity", obj [("boot_id", VStr "s")]);
       ("binary_sha256", obj [("client", VStr "b")]);
       ("arguments", obj [("workers", VStr "1"); ("connections", VStr "1"); ("servers", VStr "zhtps"); ("repeats", VInt 1);
                          ("streams", VInt 1); ("client_processes", VInt 1); ("duration", VInt 1); ("location", VStr "lan")])].
Definition document (v : val) : string := match json_dumps v with Ok s => s | Err _ => "" end.
Definition sample_tree : tree :=
  Tree [(path_of "lan/results.json", document sample_report); (path_of "lan/w1-c1-zhtps-r1/run.json", document sample_run);
        (path_of "lan/w1-c1-zhtps-r1/client/client-0.json", document sample_shard);
        (path_of ("lan/w1-c1-zhtps-r1/client/" +:+ client_log 0), double_quoted sample_log +:+ nl)] [].

(** C37: No failure without a record.  When the audit passes, every shard of every run balances its requests in every
    phase - attempted is succeeded plus failed - and its retained failure log holds exactly one record of that
    phase for each failure it counts. *)
Theorem audit_failures_recorded t folder receipt :
  audit t folder = Ok receipt ->
  exists report runs, read t (under folder "results.json") = Ok report /\ iterR ($report.["runs"]) = Ok runs
  /\ forall run, run ∈ runs -> exists label path shards,
       label_of run = Ok label /\ run_path folder run label = Ok path
       /\ iterR ($run.["client_result"].["shards"]) = Ok shards
       /\ forall i shard, shards !! i = Some shard -> recorded t path (Z.of_nat i) shard.
Proof.
  unfold audit. intros (report & Hr & H)%rbind_ok. apply rbind_ok in H as (_ & _ & H). apply rbind_ok in H as (args & _ & H).
  apply rbind_ok in H as (variants & _ & H). apply rbind_ok in H as (servers & _ & H). apply rbind_ok in H as (actual & _ & H).
  apply rbind_ok in H as (runs & Hruns & H). apply rbind_ok in H as ([failures successes] & Hf & _).
  exists report, runs. split; [exact Hr|]. split; [exact Hruns|].
  apply Forall_forall. refine (foldR_elem (fun run _ => _) _ runs _ _ _ _ Hf); [|done]. intros st run st'. unfold audit_run.
  clear. intros (_ & _ & H)%rbind_ok. apply rbind_ok in H as (workers & _ & H). apply rbind_ok in H as (connections & _ & H).
  apply rbind_ok in H as (label & Hl & H). apply rbind_ok in H as (path & Hpath & H). apply rbind_ok in H as (same & _ & H).
  apply rbind_ok in H as (_ & _ & H). apply rbind_ok in H as (shards & Hs & H). apply rbind_ok in H as (_ & _ & H).
  apply rbind_ok in H as (codes & _ & H). apply rbind_ok in H as (_ & _ & H). apply rbind_ok in H as ([n s] & Hfold & _).
  exists label, path, shards. split_and!; [done..|]. apply (add_shards_recorded _ _ _ _ _ _ _ _ Hfold).
Qed.

Lemma audit_failures_recorded_witness :
  is_ok (audit sample_tree (path_of "lan")) = true /\
  exists report runs, read sample_tree (path_of "lan/results.json") = Ok report /\ iterR ($report.["runs"]) = Ok runs
  /\ forall run, run ∈ runs -> exists label path shards,
       label_of run = Ok label /\ run_path (path_of "lan") run label = Ok path
       /\ iterR ($run.["client_result"].["shards"]) = Ok shards
       /\ forall i shard, shards !! i = Some shard -> recorded sample_tree path (Z.of_nat i) shard.
Proof.
  assert (B : is_ok (audit sample_tree (path_of "lan")) = true) by (vm_compute; reflexivity).
  split; [exact B|]. destruct (audit sample_tree (path_of "lan")) as [receipt|e] eqn:E; [|discriminate B].
  exact (audit_failures_recorded sample_tree (path_of "lan") receipt E).
Defined.
