(* ===== verification/SummarizeHttp2Lan.v ===== *)
(** * [bench/summarize_http2_lan.py]: rows, totals and tables of audited LAN trials

    [summarize] runs the audit, groups the trials of the report by workload and server, and reports
    medians and ranges, totals of requests and failures, and the report's tables. *)

From stdpp Require Import base list strings sets.
From Stdlib Require Import ZArith Lia Ascii.
From S2P Require Import Prelude PyFloat PyText PyVal PyJson PyScript PyStats Evidence AuditHttp2Lan.

Local Open Scope Z_scope.
Open Scope py_scope.

Definition NAMES : list (string * string) := [("zhtps", "ZHTPS"); ("go", "Go"); ("node", "Node"); ("bun", "Bun")].

(** [NAMES[v]] *)
Definition name_of (v : val) : res string :=
  s <- key (Ok v) ;;
  match v with VStr k => of_option (assoc k NAMES) KeyError (py_repr v) | _ => raise KeyError (py_repr v) end.

(** ** TCP retransmissions *)

(** [counter(sample)]: the retransmitted segments in a copy of [/proc/net/snmp]. *)
Fixpoint retrans_lines (lines : list string) : expr :=
  match lines with
  | [] => raise ValueError "missing TCP counters"
  | names :: rest =>
      if startswith "Tcp:" names then
        values <- of_option (head rest) IndexError "list index out of range" ;;
        let words := tail (split_ws names) in
        vs <- mapR py_int (take (length words) (tail (split_ws values))) ;;
        d <- dict_by (fun nv => str nv.1) (fun nv => int nv.2) (combine words vs) ;;
        idx ($(VDict d)) "RetransSegs"
      else match rest with _ :: rest => retrans_lines rest | [] => raise ValueError "missing TCP counters" end
  end.
Definition retrans_counter (sample : val) : expr :=
  text <- (v <- $sample.["tcp"] ;; as_str v) ;; retrans_lines (splitlines text).

(** The count and the rate, or nothing when the run has no network samples. *)
Definition retransmissions (run : val) : res (val * val) :=
  ifR (notR (has ($run) "server_network_before")) (Ok (VNone, VNone))
    (before <- $run.["server_network_before"] ;;
     after <- $run.["server_network_after"] ;;
     count <- retrans_counter after -' retrans_counter before ;;
     assertR ($count >=' int 0) "TCP counter decreased" ;;;
     elapsed <- ($after.["unix_ns"] -' $before.["unix_ns"]) /' lit 1000000000 0 ;;
     rate <- $count /' $elapsed ;;
     Ok (count, rate)).

(** ** Grouping *)

(** [groups.setdefault(key, []).append(run)] *)
Definition add_group (groups : list (val * list val)) (k run : val) : list (val * list val) :=
  (fix go (g : list (val * list val)) : list (val * list val) :=
     match g with
     | [] => [(k, [run])]
     | (k', l) :: g => if py_eqb k k' then (k', l ++ [run]) :: g else (k', l) :: go g
     end) groups.
Definition group_by (f : val -> expr) (l : list val) : res (list (val * list val)) :=
  foldR (fun groups run => k <- key (f run) ;; Ok (add_group groups k run)) [] l.

Definition workload (run : val) : expr := tupleR [$run.["workers"]; $run.["connections"]; $run.["server"]].

(** ** One row *)

(** [median(values) if values else None], and the range, under three columns. *)
Definition spread_columns (row : val) (k : string) (values : list val) : expr :=
  let f g := match values with [] => Ok VNone | _ => g values end in
  row <- setR row k (f py_median) ;;
  row <- setR row ("min_" +:+ k) (f py_min) ;;
  setR row ("max_" +:+ k) (f py_max).

Definition spread_names : list string :=
  ["requests_per_second"; "p50_ms"; "p99_ms"; "failure_p99_ms"; "server_cpu_cores";
   "server_cpu_us_per_request"; "client_cpu_cores"; "seconds"; "start_skew_ms"].
Definition range_names : list string :=
  ["established_connections"; "ready_connections"; "participating_connections"; "successful_connections";
   "alive_connections"].
Definition total_names : list string := ["setup_unattempted"; "reconnections"; "failure_log_entries"].

Definition not_none (l : list val) : list val := List.filter (fun v => negb (is_none v)) l.

Definition retransmission_columns (runs : list val) (row : val) : expr :=
  counts <- mapR (fun run => rmap fst (retransmissions run)) runs ;;
  row <- spread_columns row "server_tcp_retransmitted_segments" (not_none counts) ;;
  rates <- mapR (fun run => rmap snd (retransmissions run)) runs ;;
  spread_columns row "server_tcp_retransmits_per_second" (not_none rates).

Definition phase_columns (runs : list val) (row : val) (phase : string) : expr :=
  row <- foldR (fun row k => setR row (phase +:+ "_" +:+ k) (sumR (fun r => $r.[phase].[k]) runs)) row stat_names ;;
  kinds <- foldR (fun kinds run =>
    v <- $run.[phase].["failure_kinds"] ;;
    match v with
    | VNone => Ok kinds
    | VDict d => counter_update kinds d
    | _ => l <- py_iter v ;; foldR counter_add kinds l
    end) [] runs ;;
  setR row (phase +:+ "_failure_kinds") ($(VDict kinds)).

Definition group_row (report key : val) (runs : list val) : expr :=
  row <- mkdict
    [("workers", idx_at ($key) 0); ("connections", idx_at ($key) 1); ("server", idx_at ($key) 2);
     ("streams", $report.["arguments"].["streams"]); ("trials", int (Z.of_nat (length runs)));
     ("full_population_trials", sumR (fun r => $r.["full_population"]) runs);
     ("unexpected_server_exits",
        sumR (fun r => rmap VBool (notR (noneR ($r.["server_exit_before_shutdown"])))) runs)] ;;
  row <- foldR (fun row k =>
    values <- mapR (fun run => $run.[k]) runs ;; spread_columns row k (not_none values)) row spread_names ;;
  row <- foldR (fun row k =>
    row <- setR row ("min_" +:+ k) (minR (fun r => $r.[k]) runs) ;;
    setR row ("max_" +:+ k) (maxR (fun r => $r.[k]) runs)) row range_names ;;
  row <- foldR (fun row k => setR row k (sumR (fun r => $r.[k]) runs)) row total_names ;;
  row <- retransmission_columns runs row ;;
  row <- foldR (phase_columns runs) row PHASES ;;
  setR row "measurement_failure_percent"
    (ifR (test ($row.["measurement_attempted"]))
       (int 100 *' $row.["measurement_failed"] /' $row.["measurement_attempted"]) (Ok VNone)).

(** ** Totals *)

(** [list(NAMES).index(server)] *)
Fixpoint index_of (k : val) (l : list string) (i : Z) : res Z :=
  match l with
  | [] => raise ValueError "value is not in list"
  | x :: l => if py_eqb (VStr x) k then Ok i else index_of k l (i + 1)
  end.
Definition row_order (r : val) : expr :=
  tupleR [$r.["workers"]; $r.["connections"]; (s <- $r.["server"] ;; rmap VInt (index_of s (map fst NAMES) 0))].

(** [rows.sort(key=...)] *)
Definition sort_rows (rows : list val) : res (list val) :=
  keyed <- mapR (fun r => k <- row_order r ;; Ok (k, r)) rows ;; rmap (map snd) (py_sorted_by fst keyed).

Definition server_total_names : list string :=
  ["setup_unattempted"; "measurement_attempted"; "measurement_succeeded"; "measurement_failed";
   "setup_failed"; "holding_failed"; "warmup_failed"; "failure_log_entries"; "unexpected_server_exits"].

Definition server_total (rows : list val) (server : string) : res (list val) :=
  selected <- filterR (fun row => $row.["server"] ==' str server) rows ;;
  match selected with
  | [] => Ok []
  | _ =>
      total <- mkdict [("server", str server); ("trials", sumR (fun row => $row.["trials"]) selected)] ;;
      total <- foldR (fun total k => setR total k (sumR (fun row => $row.[k]) selected)) total server_total_names ;;
      Ok [total]
  end.

(** [summarize] with the instant of [datetime.now] as an argument. *)
Definition summarize (t : tree) (now : string) (folder : parts) : expr :=
  receipt <- audit t folder ;;
  report <- read t (under folder "results.json") ;;
  runs <- iterR ($report.["runs"]) ;;
  groups <- group_by workload runs ;;
  rows <- mapR (fun kr => group_row report kr.1 kr.2) groups ;;
  rows <- sort_rows rows ;;
  totals <- rmap (@concat _) (mapR (fun server => server_total rows server.1) NAMES) ;;
  mkdict
    [("started_utc", $report.["started_utc"]); ("finished_utc", $report.["finished_utc"]);
     ("generated_utc", str now); ("arguments", $report.["arguments"]);
     ("server_identity", $report.["server_identity"]);
     ("client_identity", idx (idx_at ($report.["runs"]) 0) "client_identity");
     ("versions", $report.["versions"]); ("binary_sha256", $report.["binary_sha256"]);
     ("audit", $receipt); ("rows", $(VList rows)); ("totals", $(VList totals))].

(** ** Text *)

Definition dash : string := "—".

(** [number(value, precision)] *)
Definition number (p : nat) (v : val) : res string :=
  if is_none v then Ok dash else format_fixed true p v.

Definition num (p : nat) (e : expr) : piece := V_ (number p) e.
Definition grouped (e : expr) : piece := V_ format_grouped e.

(** [extent(row, key)] *)
Definition extent (row : val) (k : string) : res string :=
  low <- $row.["min_" +:+ k] ;;
  high <- $row.["max_" +:+ k] ;;
  if py_eqb low high then number 0 low else fstring [num 0 ($low); F "–"; num 0 ($high)].

Definition full_population (r : val) : res bool := $r.["full_population_trials"] ==' $r.["trials"].

(** [indexed[workers, connections, server]] *)
Definition by_workload (rows : list val) : res dict := dict_by workload (fun r => $r) rows.
Definition lookup_row (indexed : dict) (workers connections : expr) (server : string) : expr :=
  k <- tupleR [workers; connections; str server] ;; py_getitem (VDict indexed) k.

(** The multi-worker ZHTPS rows with their Go counterpart, both at full population. *)
Definition full_pairs (indexed : dict) (rows : list val) : res (list (val * val)) :=
  foldR (fun pairs row =>
    ifR (($row.["workers"] ==' int 1) ||' ($row.["server"] !=' str "zhtps")) (Ok pairs)
      (other <- lookup_row indexed ($row.["workers"]) ($row.["connections"]) "go" ;;
       full <- allR full_population [row; other] ;;
       Ok (if full : bool then pairs ++ [(row, other)] else pairs))) [] rows.

Definition pick_leader (leader row : val) : expr :=
  ifR ($leader.["requests_per_second"] <' $row.["requests_per_second"]) ($row) ($leader).

(** The leader at one CPU, when every server reached the population. *)
Definition leader_text (rows : list val) (connections : Z) : res (list string) :=
  group <- filterR (fun r => ($r.["workers"] ==' int 1) &&' ($r.["connections"] ==' int connections)) rows ;;
  match group with
  | [] => Ok []
  | first :: rest =>
      full <- allR full_population group ;;
      if negb full then Ok [] else
      leader <- foldR pick_leader first rest ;;
      label <- (v <- $leader.["server"] ;; name_of v) ;;
      rmap (fun s => [s])
        (fstring [F "At one CPU and "; grouped (int connections); F " connections, "; F label;
                  F " has the highest "; F "median verified throughput: ";
                  num 0 ($leader.["requests_per_second"]); F " responses/s."])
  end.

Definition slower_tail (zg : val * val) : res bool :=
  notR (noneR ($(zg.1).["p99_ms"])) &&' notR (noneR ($(zg.2).["p99_ms"])) &&' ($(zg.1).["p99_ms"] >' $(zg.2).["p99_ms"]).

Definition pair_text (pairs : list (val * val)) : res (list string) :=
  match pairs with
  | [] => Ok []
  | _ =>
      faster <- (l <- mapR (fun zg => rmap VBool ($(zg.1).["requests_per_second"] >' $(zg.2).["requests_per_second"])) pairs ;;
                 py_sum l) ;;
      slower <- filterR slower_tail pairs ;;
      first <- fstring [F "Among the "; V (int (Z.of_nat (length pairs)));
                        F " multi-worker workload pairs where both servers reached the ";
                        F "full population in every trial, ZHTPS has higher median throughput in "; V ($faster); F "."] ;;
      match slower with
      | [] => Ok [first]
      | _ =>
          labels <- mapR (fun zg => fstring [V ($(zg.1).["workers"]); F " CPUs / "; grouped ($(zg.1).["connections"]);
                                             F " connections"]) slower ;;
          Ok [first; "Its median successful-response p99 is higher than Go at " +:+ join ", " labels +:+ "."]
      end
  end.

Definition findings (summary : val) : res string :=
  rows <- iterR ($summary.["rows"]) ;;
  indexed <- by_workload rows ;;
  pairs <- full_pairs indexed rows ;;
  leaders <- mapR (leader_text rows) [64; 1024] ;;
  compared <- pair_text pairs ;;
  Ok (join (nl +:+ nl) (concat leaders ++ compared
        ++ ["Throughput, latency, connection capacity, and failures must be considered together; partial-population trials are excluded from that count of full-population comparisons."])).

(** *** Tables *)

Definition cell (row : val) : res string :=
  full <- full_population row ;;
  fstring [num 0 ($row.["requests_per_second"]); F (if full : bool then "" else " †"); F "<br>";
           num 3 ($row.["p99_ms"]); F " ms"].

(** [sorted({f(r) for r in rows if p(r)})] *)
Definition sorted_set (p : val -> res bool) (f : val -> expr) (rows : list val) : res (list val) :=
  l <- filterR p rows ;; s <- set_by f l ;; py_sorted s.

Definition single_lines (by_key : dict) (rows : list val) : res (list string) :=
  connections <- sorted_set (fun r => $r.["workers"] ==' int 1) (fun r => $r.["connections"]) rows ;;
  mapR (fun c =>
    cells <- mapR (fun name => r <- lookup_row by_key (int 1) ($c) name.1 ;; cell r) NAMES ;;
    fstring [F "| "; grouped ($c); F " | "; F (join " | " cells); F " |"]) connections.

Definition multi_lines (by_key : dict) (rows : list val) : res (list string) :=
  pairs <- sorted_set (fun r => $r.["workers"] >' int 1) (fun r => tupleR [$r.["workers"]; $r.["connections"]]) rows ;;
  mapR (fun wc =>
    let w := idx_at ($wc) 0 in
    let c := idx_at ($wc) 1 in
    cells <- mapR (fun name => r <- lookup_row by_key w c name ;; cell r) ["zhtps"; "go"] ;;
    fstring [F "| "; V w; F " | "; grouped c; F " | "; F (join " | " cells); F " |"]) pairs.

(** The lines of one row in the population, failure and range tables. *)
Definition row_lines (row : val) : res (string * string * string) :=
  label <- (v <- $row.["server"] ;; name_of v) ;;
  prefix <- fstring [F "| "; V ($row.["workers"]); F " | "; grouped ($row.["connections"]); F " | "; F label; F " | "] ;;
  extents <- mapR (extent row) ["ready_connections"; "successful_connections"; "alive_connections"] ;;
  population <- fstring [F prefix; F (join " | " extents); F " | "; V ($row.["full_population_trials"]); F "/";
                         V ($row.["trials"]); F " |"] ;;
  failed <- mapR (fun phase => v <- $row.[phase +:+ "_failed"] ;; number 0 v) PHASES ;;
  failure <- fstring [F prefix; F (join " | " failed); F " | "; num 4 ($row.["measurement_failure_percent"]); F "% | ";
                      grouped ($row.["setup_unattempted"]); F " |"] ;;
  ranges <- fstring [F prefix; num 0 ($row.["min_requests_per_second"]); F "–"; num 0 ($row.["max_requests_per_second"]);
                     F " | "; num 3 ($row.["min_p99_ms"]); F "–"; num 3 ($row.["max_p99_ms"]); F " | ";
                     num 3 ($row.["server_cpu_us_per_request"]); F " | "; num 2 ($row.["client_cpu_cores"]); F " | ";
                     num 0 ($row.["server_tcp_retransmits_per_second"]); F " |"] ;;
  Ok (population, failure, ranges).

Definition total_line (total : val) : res string :=
  label <- (v <- $total.["server"] ;; name_of v) ;;
  cells <- mapR (fun k => v <- $total.[k] ;; number 0 v)
             ["measurement_succeeded"; "setup_failed"; "holding_failed"; "warmup_failed"; "measurement_failed"] ;;
  fstring [F "| "; F label; F " | "; V ($total.["trials"]); F " | "; F (join " | " cells); F " |"].

Definition tables (summary : val) : res (list (string * string)) :=
  rows <- iterR ($summary.["rows"]) ;;
  by_key <- by_workload rows ;;
  single <- single_lines by_key rows ;;
  multi <- multi_lines by_key rows ;;
  lines <- mapR row_lines rows ;;
  totals <- (l <- iterR ($summary.["totals"]) ;; mapR total_line l) ;;
  let table header l := join nl (header ++ l) in
  Ok [("SINGLE", table ["| Requested connections | ZHTPS | Go | Node | Bun |"; "|---:|---:|---:|---:|---:|"] single);
      ("MULTI", table ["| Server CPUs / workers | Requested connections | ZHTPS | Go |"; "|---:|---:|---:|---:|"] multi);
      ("POPULATIONS", table
         ["| CPUs | Requested | Server | Ready at measurement start | Successful connections | Alive at end | Full-population trials |";
          "|---:|---:|---|---:|---:|---:|---:|"] (map (fun l => l.1.1) lines));
      ("FAILURES", table
         ["| CPUs | Requested | Server | Setup failures | Holding failures | Warmup failures | Measured failures | Measured failure rate | Unattempted connections |";
          "|---:|---:|---|---:|---:|---:|---:|---:|---:|"] (map (fun l => l.1.2) lines));
      ("RANGES", table
         ["| CPUs | Requested | Server | Requests/s range | p99 range (ms) | Server CPU µs/success | Client CPU cores | Host TCP retransmits/s |";
          "|---:|---:|---|---:|---:|---:|---:|---:|"] (map snd lines));
      ("TOTALS", table
         ["| Server | Trials | Verified measured responses | Setup failures | Holding failures | Warmup failures | Measured failures |";
          "|---|---:|---:|---:|---:|---:|---:|"] totals)].

(** *** The CSV file *)

(** [json.dumps(v, sort_keys=True)] sorts at every level. *)
Fixpoint sort_keys (v : val) : expr :=
  match v with
  | VDict d =>
      l <- (fix go (d : dict) : res dict :=
              match d with
              | [] => Ok []
              | (k, v) :: d => v' <- sort_keys v ;; r <- go d ;; Ok ((k, v') :: r)
              end) d ;;
      rmap VDict (py_sorted_by fst l)
  | VList l =>
      rmap VList ((fix go (l : list val) : res (list val) :=
                     match l with [] => Ok [] | v :: l => v' <- sort_keys v ;; r <- go l ;; Ok (v' :: r) end) l)
  | _ => Ok v
  end.

(** A field of the default dialect, quoted when it contains a separator, a quote or a line break. *)
Definition csv_quoted (s : string) : string :=
  if str_exists (fun a => char_in a [","; "034"; "010"; "013"]%char) s
  then String dquote (str_replace (String dquote "") (String dquote (String dquote "")) s +:+ String dquote "")
  else s.
Definition csv_field (v : val) : res string :=
  match v with
  | VNone => Ok ""
  | VDict _ => v <- sort_keys v ;; rmap csv_quoted (json_dumps v)
  | _ => Ok (csv_quoted (py_str v))
  end.
Definition crlf : string := String "013" nl.

Definition csv_row (fields : list val) (row : val) : res string :=
  d <- py_items row ;;
  guard (negb (forallb (fun kv => existsb (py_eqb kv.1) fields) d)) ValueError "dict contains fields not in fieldnames" ;;;
  cells <- mapR (fun k => csv_field (default (VStr "") (dget k d))) fields ;;
  Ok (join "," cells +:+ crlf).

Definition csv_text (rows : list val) : res string :=
  first <- firstR rows ;;
  fields <- py_iter first ;;
  head <- mapR csv_field fields ;;
  lines <- mapR (csv_row fields) rows ;;
  Ok (join "," head +:+ crlf +:+ join "" lines).

(** ** The script *)

Definition fill (marker text template : string) : string := str_replace ("@@" +:+ marker +:+ "@@") text template.

(** The report: the template with its markers replaced in order. *)
Definition report_text (summary : val) (calibration : res string) (template : string) : res string :=
  parts <- tables summary ;;
  let template := foldl (fun s mv => fill mv.1 mv.2 s) template parts in
  trials <- rmap py_str ($summary.["audit"].["trials"]) ;;
  successes <- (v <- $summary.["audit"].["measured_successes"] ;; number 0 v) ;;
  records <- (v <- $summary.["audit"].["failure_records"] ;; number 0 v) ;;
  started <- (v <- $summary.["started_utc"] ;; as_str v) ;;
  finished <- (v <- $summary.["finished_utc"] ;; as_str v) ;;
  found <- findings summary ;;
  note <- calibration ;;
  Ok (foldl (fun s mv => fill mv.1 mv.2 s) template
        [("TRIALS", trials); ("SUCCESSES", successes); ("FAILURE_RECORDS", records); ("STARTED", started);
         ("FINISHED", finished); ("FINDINGS", found); ("CALIBRATION_NOTE", note)]).

Record arguments := Arguments_ { a_folder : parts; a_output : parts; a_report : option parts; a_calibration : option parts }.

(** [main] from its parsed arguments on; [bench] is the directory of the script. *)
Definition main (t : tree) (now : string) (bench : parts) (args : arguments) : res (list output) :=
  summary <- summarize t now (a_folder args) ;;
  text <- json_dumps2 summary ;;
  audit_text <- (v <- $summary.["audit"] ;; json_dumps2 v) ;;
  csv <- (rows <- iterR ($summary.["rows"]) ;; csv_text rows) ;;
  report <- match a_report args with
            | None => Ok []
            | Some path =>
                template <- read_text t (under bench "http2_lan_report.md") ;;
                let calibration := match a_calibration args with
                  | Some c => v <- read t c ;; s <- $v.["finding"] ;; as_str s
                  | None => Ok "These primary measurements use the stated client placement; see the separate client calibration."
                  end in
                text <- report_text summary calibration template ;;
                Ok [Written (str_path path) text]
            end ;;
  Ok ([Written (str_path (under (a_output args) "summary.json")) (text +:+ nl);
       Written (str_path (under (a_output args) "audit.json")) (audit_text +:+ nl);
       Written (str_path (under (a_output args) "summary.csv")) csv]
      ++ report ++ [Printed (audit_text +:+ nl)]).

(** ** No trial is dropped *)

Lemma add_group_perm groups k run : concat (map snd (add_group groups k run)) ≡ₚ run :: concat (map snd groups).
Proof.
  unfold add_group. induction groups as [|[k' l] g IH]; [done|]. destruct (py_eqb k k'); cbn.
  - rewrite <- app_assoc. cbn. by rewrite Permutation_middle.
  - rewrite IH. by rewrite Permutation_middle.
Qed.

Lemma group_by_perm f l groups : group_by f l = Ok groups -> concat (map snd groups) ≡ₚ l.
Proof.
  unfold group_by. intros H.
  assert (G : forall acc, foldR (fun groups run => k <- key (f run) ;; Ok (add_group groups k run)) acc l = Ok groups ->
                concat (map snd groups) ≡ₚ concat (map snd acc) ++ l).
  { clear H. induction l as [|x l IH]; intros acc H; cbn in H; [injection H as <-; by rewrite app_nil_r|].
    apply rbind_ok in H as (acc' & H1 & H). apply rbind_ok in H1 as (k & _ & [= <-]).
    rewrite (IH _ H), add_group_perm. cbn. by rewrite Permutation_middle. }
  by apply (G []).
Qed.

Lemma sort_rows_perm rows sorted : sort_rows rows = Ok sorted -> sorted ≡ₚ rows.
Proof.
  unfold sort_rows. intros (keyed & Hk & H)%rbind_ok. apply rmap_ok in H as (s & Hs & ->).
  apply py_sorted_by_perm in Hs. rewrite Hs. clear Hs. apply mapR_ok in Hk.
  induction Hk as [|x y rows keyed Hx _ IH]; [done|]. cbn. rewrite IH. by apply rbind_ok in Hx as (k & _ & [= <-]).
Qed.

(** The column of a count of a phase. *)
Definition column (phase k : string) : string := phase +:+ "_" +:+ k.
Definition phase_names (phase : string) : list string := map (column phase) (stat_names ++ ["failure_kinds"]).
(** What [spread_columns] writes. *)
Definition spread_of (k : string) : list string := [k; "min_" +:+ k; "max_" +:+ k].

Lemma spread_keeps c row k values row' :
  c ∉ spread_of k -> spread_columns row k values = Ok row' -> keeps c row row'.
Proof.
  intros Hc H. unfold spread_columns in H. apply rbind_ok in H as (r1 & H1 & H). apply rbind_ok in H as (r2 & H2 & H).
  unfold spread_of in Hc. rewrite !not_elem_of_cons in Hc.
  eapply keeps_trans; [eapply setR_keeps, H1; tauto|]. eapply keeps_trans; [eapply setR_keeps, H2; tauto|].
  eapply setR_keeps, H; tauto.
Qed.

Lemma phase_keeps c runs row phase row' :
  c ∉ phase_names phase -> phase_columns runs row phase = Ok row' -> keeps c row row'.
Proof.
  intros Hc H. unfold phase_columns in H. apply rbind_ok in H as (r1 & H1 & H). apply rbind_ok in H as (kinds & _ & H).
  eapply keeps_trans; [|eapply setR_keeps, H; intros ->; apply Hc; unfold phase_names; cbn; set_solver].
  eapply foldR_keeps, H1. intros r k r' Hk Hr. eapply setR_keeps, Hr. intros ->. apply Hc.
  unfold phase_names. rewrite map_app, elem_of_app. left. by apply (list_elem_of_fmap_2 (column phase)).
Qed.

Lemma phase_sums runs row phase row' k :
  phase ∈ PHASES -> k ∈ stat_names -> phase_columns runs row phase = Ok row' ->
  exists n, sumR (fun r => $r.[phase].[k]) runs = Ok n /\ idx (Ok row') (column phase k) = Ok n.
Proof.
  intros Hp Hk H. unfold phase_columns in H. apply rbind_ok in H as (r1 & H1 & H). apply rbind_ok in H as (kinds & _ & H).
  cbn [foldR stat_names] in H1. apply rbind_ok in H1 as (ra & Ha & H1). apply rbind_ok in H1 as (rb & Hb & H1).
  apply rbind_ok in H1 as (rc & Hc & H1). injection H1 as <-.
  assert (later : forall c r r' e n, c <> column phase k -> setR r c e = Ok r' ->
            idx (Ok r) (column phase k) = Ok n -> idx (Ok r') (column phase k) = Ok n).
  { intros c r r' e n Hne Hs. eapply setR_keeps, Hs. congruence. }
  assert (distinct : forall k', k' <> k -> k' ∈ stat_names ++ ["failure_kinds"] -> column phase k' <> column phase k).
  { intros k' Hne _ E. apply Hne. unfold column in E. clear -E.
    induction phase as [|a p IH]; [by injection E|]. cbn in E. injection E. apply IH. }
  unfold stat_names in Hk. apply elem_of_cons in Hk as [->|Hk]; [|apply elem_of_cons in Hk as [->|Hk%list_elem_of_singleton]].
  - apply setR_new in Ha as (n & Hn & Ha). exists n. split; [done|].
    eapply (later _ _ _ _ _ (distinct "failure_kinds" _ _) H), (later _ _ _ _ _ (distinct "failed" _ _) Hc),
      (later _ _ _ _ _ (distinct "succeeded" _ _) Hb), Ha.
    Unshelve. all: first [discriminate|unfold stat_names; cbn; set_solver].
  - apply setR_new in Hb as (n & Hn & Hb). exists n. split; [done|].
    eapply (later _ _ _ _ _ (distinct "failure_kinds" _ _) H), (later _ _ _ _ _ (distinct "failed" _ _) Hc), Hb.
    Unshelve. all: first [discriminate|unfold stat_names; cbn; set_solver].
  - subst k. apply setR_new in Hc as (n & Hn & Hc). exists n. split; [done|].
    eapply (later _ _ _ _ _ (distinct "failure_kinds" _ _) H), Hc.
    Unshelve. all: first [discriminate|unfold stat_names; cbn; set_solver].
Qed.

(** The names no stage of a row after the first writes again. *)
Definition written : list string :=
  concat (map spread_of spread_names) ++ concat (map (fun k => ["min_" +:+ k; "max_" +:+ k]) range_names) ++ total_names
  ++ spread_of "server_tcp_retransmitted_segments" ++ spread_of "server_tcp_retransmits_per_second"
  ++ ["measurement_failure_percent"].

Lemma retransmission_keeps c runs row row' :
  c ∉ written -> retransmission_columns runs row = Ok row' -> keeps c row row'.
Proof.
  intros Hc H. unfold retransmission_columns in H. apply rbind_ok in H as (counts & _ & H). apply rbind_ok in H as (r1 & H1 & H).
  apply rbind_ok in H as (rates & _ & H). unfold written in Hc. rewrite !elem_of_app in Hc.
  eapply keeps_trans; [eapply spread_keeps, H1; tauto|]. eapply spread_keeps, H; tauto.
Qed.

(** A row counts its trials, and its counts of every phase are the sums over them. *)
Definition row_of (row : val) (runs : list val) : Prop :=
  $row.["trials"] = Ok (VInt (Z.of_nat (length runs)))
  /\ forall phase k, phase ∈ PHASES -> k ∈ stat_names ->
       exists n, sumR (fun r => $r.[phase].[k]) runs = Ok n /\ $row.[column phase k] = Ok n.

Lemma phases_sums runs row row' :
  foldR (phase_columns runs) row PHASES = Ok row' ->
  forall phase k, phase ∈ PHASES -> k ∈ stat_names ->
    exists n, sumR (fun r => $r.[phase].[k]) runs = Ok n /\ idx (Ok row') (column phase k) = Ok n.
Proof.
  assert (other : forall p q k r r', p ∈ PHASES -> q ∈ PHASES -> p <> q -> k ∈ stat_names ->
    phase_columns runs r q = Ok r' -> keeps (column p k) r r').
  { intros p q k r r' Hp Hq Hne Hk. apply phase_keeps.
    assert (D : Forall (fun p => Forall (fun q => p = q \/ Forall (fun k => column p k ∉ phase_names q) stat_names) PHASES) PHASES).
    { apply (bool_decide_unpack _). vm_compute. exact I. }
    rewrite Forall_forall in D. specialize (D p Hp). rewrite Forall_forall in D. destruct (D q Hq) as [|D']; [done|].
    rewrite Forall_forall in D'. by apply D'. }
  assert (G : forall l r, NoDup l -> (forall p, p ∈ l -> p ∈ PHASES) -> foldR (phase_columns runs) r l = Ok row' ->
    (forall p k, p ∈ PHASES -> p ∉ l -> k ∈ stat_names -> keeps (column p k) r row')
    /\ forall p k, p ∈ l -> k ∈ stat_names ->
         exists n, sumR (fun r => $r.[p].[k]) runs = Ok n /\ idx (Ok row') (column p k) = Ok n).
  { induction l as [|q l IH]; intros r Hnd Hin H; cbn in H.
    - injection H as ->. split; [intros; apply keeps_refl|]. intros p k Hp. by apply not_elem_of_nil in Hp.
    - apply rbind_ok in H as (r1 & H1 & H). apply NoDup_cons in Hnd as [Hq Hnd].
      destruct (IH r1 Hnd (fun p Hp => Hin p (list_elem_of_further _ _ _ Hp)) H) as [K S].
      assert (Hq' : q ∈ PHASES) by (apply Hin; left). split.
      + intros p k Hp Hn Hk. rewrite not_elem_of_cons in Hn. destruct Hn as [Hne Hn].
        eapply keeps_trans; [by eapply (other p q)|]. by apply K.
      + intros p k [->|Hp]%elem_of_cons Hk; [|by apply S].
        destruct (phase_sums _ _ _ _ _ Hq' Hk H1) as (n & Hn & Hi). exists n. split; [done|]. by apply K. }
  intros H phase k Hp Hk. destruct (G PHASES row) as [_ S]; [|done|exact H|by apply S].
  apply (bool_decide_unpack _). vm_compute. exact I.
Qed.

Lemma group_row_of report key runs row : group_row report key runs = Ok row -> row_of row runs.
Proof.
  unfold group_row. intros (r0 & H0 & H)%rbind_ok. apply rbind_ok in H as (r1 & H1 & H). apply rbind_ok in H as (r2 & H2 & H).
  apply rbind_ok in H as (r3 & H3 & H). apply rbind_ok in H as (r4 & H4 & H). apply rbind_ok in H as (r5 & H5 & H).
  split.
  - destruct (mkdict_get _ _ "trials" (Ok (VInt (Z.of_nat (length runs)))) H0) as (w & Ew & Hw); [reflexivity|].
    injection Ew as <-.
    assert (F1 : forall k, k ∈ spread_names -> "trials" ∉ spread_of k).
    { apply Forall_forall. apply (bool_decide_unpack _). vm_compute. exact I. }
    assert (F5 : forall p, p ∈ PHASES -> "trials" ∉ phase_names p).
    { apply Forall_forall. apply (bool_decide_unpack _). vm_compute. exact I. }
    eapply (setR_keeps "trials"); [|exact H|]; [discriminate|].
    eapply (foldR_keeps "trials"); [|exact H5|]; [intros r p r' Hp Hr; eapply phase_keeps, Hr; by apply F5|].
    eapply retransmission_keeps; [|exact H4|]; [apply (bool_decide_unpack _); vm_compute; exact I|].
    eapply (foldR_keeps "trials"); [|exact H3|].
    { intros r k r' Hk Hr. eapply setR_keeps, Hr. intros <-. revert Hk. apply (bool_decide_unpack _). vm_compute. exact I. }
    eapply (foldR_keeps "trials"); [|exact H2|].
    { intros r k r' Hk Hr. apply rbind_ok in Hr as (ra & Ha & Hr).
      eapply keeps_trans; [eapply setR_keeps, Ha|eapply setR_keeps, Hr]; discriminate. }
    eapply (foldR_keeps "trials"); [|exact H1|exact Hw].
    intros r k r' Hk Hr. apply rbind_ok in Hr as (values & _ & Hr). eapply spread_keeps, Hr. by apply F1.
  - intros phase k Hp Hk. destruct (phases_sums _ _ _ H5 phase k Hp Hk) as (n & Hn & Hi). exists n. split; [done|].
    eapply setR_keeps, Hi; [|exact H].
    assert (D : Forall (fun p => Forall (fun k => column p k <> "measurement_failure_percent") stat_names) PHASES).
    { apply (bool_decide_unpack _). vm_compute. exact I. }
    rewrite Forall_forall in D. specialize (D phase Hp). rewrite Forall_forall in D. by apply D.
Qed.

(** *** The trial of the audit's example, with what the summary reads besides *)

Definition with_members (v : val) (l : list (string * val)) : val :=
  match v, obj l with VDict d, VDict e => VDict (d ++ e) | _, _ => v end.
Definition measured_run : val :=
  with_members sample_run (map (fun k => (k, VInt 1)) ["server_cpu_cores"; "server_cpu_us_per_request"; "client_cpu_cores"; "start_skew_ms"]).
Definition measured_report : val :=
  match sample_report with
  | VDict d => with_members (VDict (sset "runs" (VList [measured_run]) d))
                 [("started_utc", VStr "a"); ("finished_utc", VStr "b"); ("versions", obj [])]
  | v => v
  end.
Definition measured_tree : tree :=
  Tree ((path_of "lan/results.json", document measured_report)
        :: (path_of "lan/w1-c1-zhtps-r1/run.json", document measured_run) :: drop 2 (t_files sample_tree)) [].

(** ** Properties *)

(** The summary drops no trial.  Every trial of the report is in exactly one group, every row of the summary belongs to
    one group, and it reports the number of its trials and, for every phase, the sums of what they attempted,
    what succeeded and what failed - trials with failures included. *)
Theorem summary_keeps_trials t now folder summary :
  summarize t now folder = Ok summary ->
  exists report runs rows groups, read t (under folder "results.json") = Ok report
  /\ iterR ($report.["runs"]) = Ok runs /\ $summary.["rows"] = Ok (VList rows)
  /\ concat groups ≡ₚ runs
  /\ exists unsorted, rows ≡ₚ unsorted /\ Forall2 row_of unsorted groups.
Proof.
  unfold summarize. intros (receipt & _ & H)%rbind_ok. apply rbind_ok in H as (report & Hr & H).
  apply rbind_ok in H as (runs & Hruns & H). apply rbind_ok in H as (groups & Hg & H).
  apply rbind_ok in H as (rows & Hrows & H). apply rbind_ok in H as (sorted & Hs & H). apply rbind_ok in H as (totals & _ & H).
  destruct (mkdict_get _ _ "rows" (Ok (VList sorted)) H) as (w & Ew & Hw); [reflexivity|]. injection Ew as <-.
  exists report, runs, sorted, (map snd groups). split_and!; [done..|by apply group_by_perm in Hg|].
  exists rows. split; [by apply sort_rows_perm|]. apply mapR_ok in Hrows. clear - Hrows.
  induction Hrows as [|g row groups rows Hx _ IH]; constructor; [by eapply group_row_of|done].
Qed.

Lemma summary_keeps_trials_witness :
  is_ok (summarize measured_tree "now" (path_of "lan")) = true /\
  exists summary report runs rows groups, summarize measured_tree "now" (path_of "lan") = Ok summary
  /\ read measured_tree (path_of "lan/results.json") = Ok report
  /\ iterR ($report.["runs"]) = Ok runs /\ $summary.["rows"] = Ok (VList rows) /\ concat groups ≡ₚ runs
  /\ exists unsorted, rows ≡ₚ unsorted /\ Forall2 row_of unsorted groups.
Proof.
  assert (B : is_ok (summarize measured_tree "now" (path_of "lan")) = true) by (vm_compute; reflexivity).
  split; [exact B|]. destruct (summarize measured_tree "now" (path_of "lan")) as [summary|e] eqn:E; [|discriminate B].
  destruct (summary_keeps_trials measured_tree "now" (path_of "lan") summary E) as (report & runs & rows & groups & H).
  exists summary, report, runs, rows, groups. split; [reflexivity|exact H].
Defined.
