(* ===== verification/SummarizeKeepalivePolicy.v ===== *)
(** * [bench/summarize_keepalive_policy.py]: rotated policy trials by keep-alive age

    Trials are grouped by age and, for offered loads, by rate; every trial value is retained next to
    its median and range, and failures are kept per trial. *)

From stdpp Require Import base list strings.
From Stdlib Require Import ZArith Lia Ascii.
From S2P Require Import Prelude PyFloat PyText PyVal PyJson PyScript PyStats Evidence.

Local Open Scope Z_scope.
Open Scope py_scope.

Definition distribution (values : list val) : expr :=
  mkdict [("median", py_median values); ("minimum", py_min values); ("maximum", py_max values);
          ("trials", $(VList values))].

(** [sorted({f(x) for x in l})] *)
Definition sorted_values (f : val -> expr) (l : list val) : res (list val) := s <- set_by f l ;; py_sorted s.

Definition metrics : list string := ["goodput"; "cpu_us_per_success_estimate"; "service_p99_us"; "offer_p99_us"].

(** [[p[metric] for trial in phases for p in trial if p['offered_rate'] == rate]] *)
Definition rate_values (phases : list val) (rate : val) (metric : string) : res (list val) :=
  l <- filterR (fun p => $p.["offered_rate"] ==' $rate) phases ;; mapR (fun p => $p.[metric]) l.

(** Trials with phases: the first phase is setup and warmup. *)
Definition offered_summary (group : list val) : expr :=
  trials <- mapR (fun r => l <- iterR ($r.["phases"]) ;; Ok (tail l)) group ;;
  let phases := concat trials in
  rates <- sorted_values (fun p => $p.["offered_rate"]) phases ;;
  by_rate <- dict_by (fun rate => $rate)
               (fun rate => dictcomp metrics (fun metric => values <- rate_values phases rate metric ;; distribution values))
               rates ;;
  result <- setR (VDict by_rate) "failures" (listR (fun p => $p.["failures"]) phases) ;;
  setR result "warmup_failures" (listR (fun r => (idx_at ($r.["phases"]) 0).["failures"]) group).

Definition cohort_names : list string := ["offered"; "successes"; "failures"; "connections_opened"; "attempt_errors"].

Definition cohort_summary (group : list val) (cohort : string) : expr :=
  samples <- mapR (fun r => $r.["load"].[cohort]) group ;;
  row <- dictcomp cohort_names (fun k => listR (fun sample => $sample.[k]) samples) ;;
  foldR (fun row k =>
    values <- mapR (fun sample => $sample.[k]) samples ;;
    let values := List.filter (fun v => negb (is_none v)) values in
    setR row k (match values with [] => Ok VNone | _ => distribution values end)) row ["p50_us"; "p99_us"].

Definition closed_summary (group : list val) : expr :=
  result <- dictcomp ["newcomers"; "residents"] (cohort_summary group) ;;
  result <- setR result "reclaimed" (listR (fun r => $r.["reclaimed"]) group) ;;
  setR result "reclaim_timeouts" (listR (fun r => $r.["reclaim_timeouts"]) group).

Definition age_group (rows : list val) (age : val) : expr :=
  selected <- filterR (fun row => $row.["age_ms"] ==' $age) rows ;;
  group <- mapR (fun row => $row.["result"]) selected ;;
  ifR (has (firstR group) "phases") (offered_summary group) (closed_summary group).

(** [summarize] after [json.loads]. *)
Definition summarize_rows (rows : val) : expr :=
  l <- py_iter rows ;;
  ages <- sorted_values (fun row => $row.["age_ms"]) l ;;
  rmap VDict (dict_by (fun age => $age) (age_group l) ages).

Definition summarize (t : tree) (path : parts) : expr := rows <- read t path ;; summarize_rows rows.

Definition main (t : tree) (folder : parts) : res (list output) :=
  result <- dict_by (fun path => str (name (parent path))) (summarize t)
              (sorted_paths (glob t folder (is_child "summary.json"))) ;;
  text <- json_dumps2 (VDict result) ;;
  let output := str_path (under folder "aggregate.json") in
  Ok [Written output (text +:+ nl); Printed (output +:+ nl)].

(** Two screens of two trials at two ages. *)
Definition sample_trial (age goodput : Z) : val :=
  obj [("age_ms", VInt age);
       ("result", obj [("phases", VList (map (fun rate =>
          obj [("offered_rate", VInt rate); ("goodput", VInt (goodput + rate));
               ("cpu_us_per_success_estimate", VFloat (f64_lit 15 1)); ("service_p99_us", VInt 700);
               ("offer_p99_us", VInt 900); ("failures", obj [])]) [100; 100; 200]))])].

Example sample_ages :
  (r <- summarize_rows (VList [sample_trial 500 1; sample_trial 20 5; sample_trial 500 3]) ;;
   a <- py_getitem r (VInt 500) ;; g <- py_getitem a (VInt 100) ;; g <- idx ($g) "goodput" ;;
   ks <- py_iter r ;; Ok (ks, py_repr g))
  = Ok ([VInt 20; VInt 500], "{'median': 102.0, 'minimum': 101, 'maximum': 103, 'trials': [101, 103]}").
Proof. vm_compute. reflexivity. Qed.
