(* ===== verification/AuditHttp2.v ===== *)
(** * [bench/audit_http2.py]: the audit of single-host HTTP/2 runs

    The audit checks the matrix of runs, the placement of server and client threads, the request
    accounting and percentiles of every run from its shards, and the published medians. *)

From stdpp Require Import base list strings.
From Stdlib Require Import ZArith Lia Ascii.
From S2P Require Import Prelude PyFloat PyText PyVal PyJson PyScript PyStats Evidence AuditHttp2Lan.

Local Open Scope Z_scope.
Open Scope py_scope.

(** [args[k].split(",")] *)
Definition words (args : val) (k : string) : res (list string) :=
  s <- (v <- $args.[k] ;; as_str v) ;; Ok (split_char "," s).

(** [connections, streams = map(int, case.split("x"))] *)
Definition parse_case (case : string) : res (Z * Z) :=
  l <- mapR py_int (split_char "x" case) ;;
  match l with [c; s] => Ok (c, s) | _ => raise ValueError "wrong number of values to unpack" end.

(** [expected], a count per (workers, connections, streams, server). *)
Definition expected_runs (args : val) : res dict :=
  workers <- (l <- words args "workers" ;; mapR py_int l) ;;
  foldR (fun expected w =>
    cases <- words args "cases" ;;
    foldR (fun expected case =>
      let* (connections, streams) := parse_case case in
      if (1 <? w) && (connections <? w) then Ok expected else
      servers <- words args "servers" ;;
      foldR (fun expected name =>
        if (1 <? w) && (String.eqb name "node" || String.eqb name "bun") then Ok expected else
        repeats <- $args.["repeats"] ;;
        Ok (dset (VTuple [VInt w; VInt connections; VInt streams; VStr name]) repeats expected))
        expected servers) expected cases) [] workers.

Definition actual_runs (runs : list val) : res dict :=
  ks <- mapR (fun run => tupleR [$run.["workers"]; $run.["connections"]; $run.["streams"]; $run.["server"]]) runs ;;
  foldR counter_add [] ks.

(** ** Placement *)

Definition topology_cores (report : val) (cpus : list val) : res (list val) :=
  set_by (fun cpu => l <- (v <- at_ ($report.["cpu_topology"]) (str (py_str cpu)) ;; py_iter v) ;; Ok (VTuple l)) cpus.

Definition check_cpus (report run : val) : res unit :=
  cpus <- (l <- iterR ($run.["server_cpus"]) ;; set_by (fun v => $v) l) ;;
  server_cores <- topology_cores report cpus ;;
  client <- (l <- iterR ($run.["client_placements"]) ;; flatten l) ;;
  client_cores <- topology_cores report client ;;
  assertR (int (Z.of_nat (length server_cores)) ==' $run.["workers"]) "" ;;;
  require (disjoint server_cores client_cores) "" ;;;
  before <- $run.["server_before"] ;;
  after <- $run.["server_after"] ;;
  eachR (fun snapshot =>
    threads <- iterR ($snapshot.["threads"]) ;;
    assertR (allR (fun thread =>
      s <- (l <- iterR ($thread.["cpus"]) ;; set_by (fun v => $v) l) ;; Ok (subsetb s cpus)) threads) "")
    [before; after].

(** ** Accounting *)

Definition check_totals (run : val) (shards : list val) : res unit :=
  assertR ($run.["errors"] ==' int 0) "" ;;;
  assertR ($run.["connections_opened"] ==' $run.["connections"]) "" ;;;
  assertR (sumR (fun shard => $shard.["requests"]) shards ==' $run.["requests"]) "" ;;;
  assertR (sumR (fun shard => $shard.["connections"]) shards ==' $run.["connections"]) "" ;;;
  elapsed <- (maxR (fun shard => $shard.["end_ns"]) shards -' minR (fun shard => $shard.["start_ns"]) shards)
             /' lit 1000000000 0 ;;
  assertR ($run.["seconds"] ==' $elapsed) "" ;;;
  assertR ($run.["requests_per_second"] ==' $run.["requests"] /' $elapsed) "" ;;;
  assertR ($run.["server_cpu_us_per_request"]
           ==' $run.["server_cpu_seconds"] *' lit 1000000 0 /' $run.["requests"]) "".

(** The checks of one shard; its latencies go to the histogram of the run. *)
Definition add_shard_latencies (run args : val) (histogram : dict) (shard : val) : res dict :=
  assertR (($shard.["errors"] ==' int 0) &&' ($shard.["first_error"] ==' str "")) "" ;;;
  assertR ($shard.["connections_opened"] ==' $shard.["connections"]) "" ;;;
  assertR ($shard.["streams"] ==' $run.["streams"]) "" ;;;
  assertR (($shard.["warmup_requests"] >' int 0) ||' ($args.["warmup"] ==' int 0)) "" ;;;
  assertR ($shard.["seconds"] >=' $args.["duration"]) "" ;;;
  assertR ((l <- valuesR ($shard.["latency_us"]) ;; py_sum l) ==' $shard.["requests"]) "" ;;;
  l <- itemsR ($shard.["latency_us"]) ;;
  buckets <- dict_by (fun bn => py_int_of bn.1) (fun bn => $(bn.2)) l ;;
  counter_update histogram buckets.

(** The [for micros, count in sorted(histogram.items())] loop with its [else]. *)
Fixpoint check_rank (published : expr) (rank : val) (l : dict) : res unit :=
  match l with
  | [] => raise AssertionError "percentile missing from histogram"
  | (micros, count) :: l =>
      ifR ($rank <' $count) (assertR (published ==' $micros /' int 1000) "")
        (rank <- py_sub rank count ;; check_rank published rank l)
  end.

Definition check_percentile (run : val) (histogram : dict) (percentile : Z) : res unit :=
  rank <- (v <- ($run.["requests"] -' int 1) *' int percentile ;; py_floordiv v (VInt 100)) ;;
  l <- py_sorted_by (fun kv => VTuple [kv.1; kv.2]) histogram ;;
  check_rank ($run.["p" +:+ string_of_Z percentile +:+ "_ms"]) rank l.

Definition check_run (report args run : val) : res unit :=
  check_cpus report run ;;;
  shards <- iterR ($run.["shards"]) ;;
  check_totals run shards ;;;
  histogram <- foldR (add_shard_latencies run args) [] shards ;;
  eachR (check_percentile run histogram) [50; 99].

(** ** Medians *)

Definition median_names : list string :=
  ["requests_per_second"; "p50_ms"; "p99_ms"; "server_cpu_us_per_request"; "server_cpu_cores"; "client_cpu_cores"].

Definition check_median (args : val) (all_runs : list val) (row : val) : res unit :=
  runs <- filterR (fun run => allR (fun k => $run.[k] ==' $row.[k]) ["server"; "workers"; "connections"; "streams"])
            all_runs ;;
  repeats <- (l <- mapR (fun run => $run.["repeat"]) runs ;; py_sorted l) ;;
  n <- range ($args.["repeats"]) ;;
  require (py_eqb (VList repeats) (VList (map VInt n))) "" ;;;
  eachR (fun k => assertR ($row.[k] ==' medianR (fun run => $run.[k]) runs) "") median_names ;;;
  assertR ($row.["min_requests_per_second"] ==' minR (fun run => $run.["requests_per_second"]) runs) "" ;;;
  assertR ($row.["max_requests_per_second"] ==' maxR (fun run => $run.["requests_per_second"]) runs) "".

(** [audit] after [json.loads]: what it prints. *)
Definition audit_report (report : val) : res string :=
  assertR (test ($report.["complete"])) "benchmark did not finish" ;;;
  args <- $report.["arguments"] ;;
  expected <- expected_runs args ;;
  runs <- iterR ($report.["runs"]) ;;
  actual <- actual_runs runs ;;
  require (counter_eqb actual expected) (py_repr (VTuple [VDict actual; VDict expected])) ;;;
  eachR (check_run report args) runs ;;;
  medians <- iterR ($report.["medians"]) ;;
  require (length medians =? length expected)%nat "" ;;;
  eachR (check_median args runs) medians ;;;
  fstring [F "Audited "; V (int (Z.of_nat (length runs))); F " trials, "; V (int (Z.of_nat (length expected)));
           F " groups, "; V_ format_grouped (sumR (fun run => $run.["requests"]) runs); F " successful responses"].

Definition audit (t : tree) (path : string) : res output :=
  report <- read t (path_of path) ;; text <- audit_report report ;; Ok (Printed (text +:+ nl)).
