(* ===== verification/Histogram.v ===== *)
(** * Integer histograms and their percentiles

    The drivers and the audits of the HTTP/2 benchmarks add the latency histograms of the client shards and read
    percentiles from them, each with a loop of its own.  Here: histograms with integer boundaries and counts are
    closed under the operations the scripts use, and the boundary at which a rank is exceeded. *)

From stdpp Require Import base list strings.
From Stdlib Require Import ZArith Lia.
From S2P Require Import Prelude PyFloat PyText PyVal PyJson PyScript PyStats AuditHttp2Lan.

Local Open Scope Z_scope.
Open Scope py_scope.

(** ** Dictionaries with integer keys *)

Definition int_keys (d : dict) : Prop := Forall (fun kv : val * val => exists z, kv.1 = VInt z) d.

Lemma histogram_keys h : int_keys (histogram_of h).
Proof. unfold histogram_of, int_keys. apply Forall_map, Forall_forall. intros x _. by eexists. Qed.

Lemma dset_int_keys p v d : int_keys d -> int_keys (dset (VInt p) v d).
Proof.
  intros Hd. induction Hd as [|[k w] d [z Hz] Hd IH]; cbn [dset].
  - repeat constructor. by eexists.
  - case_match; constructor; eauto.
Qed.

Lemma dget_dset_int p q v d :
  int_keys d -> dget (VInt p) (dset (VInt q) v d) = if p =? q then Some v else dget (VInt p) d.
Proof.
  intros Hd. induction Hd as [|[k w] d [z Hz] Hd IH]; cbn [dset dget].
  - by rewrite py_eqb_int.
  - cbn in Hz. subst k. rewrite !py_eqb_int. destruct (Z.eqb_spec q z) as [->|Hq]; cbn [dget]; rewrite py_eqb_int; [by case_match|].
    destruct (Z.eqb_spec p z) as [->|]; [|done]. destruct (Z.eqb_spec z q); [lia|done].
Qed.

(** ** Adding up histograms *)

(** A dictionary of integers by integers. *)
Definition is_histogram (d : dict) : Prop := exists h, d = histogram_of h.

Lemma is_histogram_Forall d : is_histogram d <-> Forall (fun kv : val * val => exists b n, kv = (VInt b, VInt n)) d.
Proof.
  split.
  - intros [h ->]. unfold histogram_of. apply Forall_map, Forall_forall. intros x _. by do 2 eexists.
  - induction 1 as [|kv d (b & n & ->) _ [h ->]]; [by exists []|]. by exists ((b, n) :: h).
Qed.

Lemma dset_histogram b n d : is_histogram d -> is_histogram (dset (VInt b) (VInt n) d).
Proof.
  rewrite !is_histogram_Forall. induction 1 as [|kv d (b' & n' & ->) Hd IH]; cbn [dset]; [by repeat econstructor|].
  rewrite py_eqb_int. case_match; constructor; eauto.
Qed.

Lemma dget_histogram b d v : is_histogram d -> dget (VInt b) d = Some v -> exists n, v = VInt n.
Proof.
  intros [h ->]. induction h as [|[b' n] h IH]; cbn; [done|]. change (cmp_is_eq (num_cmp (NI b) (NI b'))) with (b =? b').
  case_match; [intros [= <-]; by eexists|apply IH].
Qed.

Lemma dupdate_histogram d e : is_histogram d -> is_histogram e -> is_histogram (dupdate d e).
Proof.
  intros Hd [h ->]. revert d Hd. induction h as [|[b n] h IH]; intros d Hd; [done|].
  change (dupdate d (histogram_of ((b, n) :: h))) with (dupdate (dset (VInt b) (VInt n) d) (histogram_of h)).
  apply IH. by apply dset_histogram.
Qed.

Lemma counter_update_histogram c d c' : is_histogram c -> is_histogram d -> counter_update c d = Ok c' -> is_histogram c'.
Proof.
  intros Hc Hd. unfold counter_update. destruct c as [|x c]; [intros [= <-]; apply dupdate_histogram; [by exists []|done]|].
  destruct Hd as [h ->]. revert Hc. generalize (x :: c). induction h as [|[b n] h IH]; intros e He; cbn [foldR histogram_of map];
    [by intros [= <-]|]. cbn [fst snd].
  assert (exists m, default (VInt 0) (dget (VInt b) e) = VInt m) as [m ->].
  { destruct (dget (VInt b) e) as [v|] eqn:E; [|by exists 0]. by eapply dget_histogram. }
  cbn [py_add]. intros (e' & [= <-] & H)%rbind_ok. eapply IH; [|exact H]. by apply dset_histogram.
Qed.

(** A latency histogram as JSON has it: the boundaries are texts. *)
Definition json_histogram (l : list (string * Z)) : dict := map (fun kn => (VStr kn.1, VInt kn.2)) l.

Lemma buckets_histogram l d :
  dict_by (fun bn : val * val => py_int_of bn.1) (fun bn => $(bn.2)) (json_histogram l) = Ok d -> is_histogram d.
Proof.
  unfold dict_by.
  assert (H0 : is_histogram []) by by exists [].
  revert H0. generalize (@nil (val * val)). induction l as [|[k n] l IH]; intros e He; cbn [json_histogram map foldR];
    [by intros [= <-]|]. cbn [fst snd]. intros (e' & H1 & H)%rbind_ok. eapply IH; [|exact H].
  apply rbind_ok in H1 as (b & Hb & H1). cbn [rbind] in H1. injection H1 as <-. apply key_ok in Hb. cbn in Hb.
  apply rmap_ok in Hb as (z & _ & ->). by apply dset_histogram.
Qed.

(** Sorting by a key keeps the shape. *)
Lemma sorted_histogram key_ h l : py_sorted_by key_ (histogram_of h) = Ok l -> exists h', l = histogram_of h' /\ h' ≡ₚ h.
Proof.
  intros H. apply py_sorted_by_perm in H. apply Permutation_map_inv in H as (m & -> & Hm).
  exists m. split; [done|]. by symmetry.
Qed.

(** ** The boundary at which the counts exceed a rank *)

Fixpoint first_above (rank c : Z) (h : list (Z * Z)) : option Z :=
  match h with [] => None | (b, n) :: h => if rank <? c + n then Some b else first_above rank (c + n) h end.

(** [boundary / 1000], the published unit *)
Definition millis (b : Z) : expr := int b /' int 1000.

Lemma millis_ok b v : millis b = Ok v -> py_eqb v v = true.
Proof.
  unfold millis, int, lift2. cbn [rbind]. unfold py_div. cbn [num_of]. change (1000 =? 0) with false. cbv iota.
  intros (x & Hx & ->)%rmap_ok. unfold of_option in Hx. destruct (f64_of_quotient b 1000) as [y|] eqn:E; [|done].
  injection Hx as ->. cbn. rewrite f64_cmp_refl; [done|]. apply finite_not_nan. by eapply f64_of_quotient_finite.
Qed.
