(* ===== verification/CompareHttp2.v ===== *)
(** * [bench/compare_http2.py]: HTTP/2 servers over the loopback

    [main] places servers and clients on disjoint physical cores, [trial] measures one server with one client process
    per placement: the clients report their readiness, get a common start time and report a histogram each, from
    which the run and later the medians are computed.  The clients and the server of a trial are a [crew]. *)

From stdpp Require Import base list strings sets sorting.
From Stdlib Require Import ZArith Lia Ascii.
From S2P Require Import Prelude PyFloat PyText PyVal PyJson PyScript PyStats PyHash Evidence PyIO System ProcSample AuditHttp2Lan Histogram RemoteLoad Compare Crew Http2Remote AuditHttp2.

Local Open Scope Z_scope.
Open Scope py_scope.

(** ** Options *)

Record Options := mkOptions {
  zhtps : string; go_server : string; client : string; node : string; bun : string; servers : string;
  workers : string; cases : string; server_cpus : option string; client_cpus : option string;
  client_processes : Z; duration : val; warmup : val; repeats : Z; output : string; vars : val (* [vars(args)] *) }.

(** ** CPUs *)

Definition cpu_range (part : string) : res (list Z) :=
  ends <- mapR py_int (split_char "-" part) ;;
  Ok (seqZ (hd 0 ends) (List.last ends 0 + 1 - hd 0 ends)).
Definition cpu_list (text : string) : res (list Z) :=
  result <- rmap (@concat _) (mapR cpu_range (split_char "," text)) ;;
  guard ((length result =? 0)%nat || negb (bool_decide (NoDup result))) ValueError
    "CPU lists must be nonempty with no duplicates" ;;;
  Ok result.

(** [(physical_package_id, core_id)] *)
Definition topology (cpu : Z) : io host (Z * Z) :=
  package <~ read_proc ; package <~ lift (py_int package) ;
  core <~ read_proc ; core <~ lift (py_int core) ;
  ret (package, core).

Definition cpu_text (cpus : list Z) : string := join "," (map string_of_Z cpus).

Definition available_port : io host Z := lift_val as_int external.

(** ** Processes *)

Definition cpu_of (stat : string) (tick : Z) : expr :=
  fields <- stat_fields stat ;;
  user <- field fields 11 ;;
  system <- field fields 12 ;;
  py_div (VInt (user + system)) (VInt tick).

Definition cpu_seconds : io host val :=
  stat <~ read_proc ; tick <~ lift_val as_int clock ; lift (cpu_of stat tick).

(** A thread of the server, unless it is gone. *)
Definition thread_row (threads : list val) (task : string) : io host (list val) :=
  catch
    (stat <~ read_proc ;
     fields <~ lift (stat_fields stat) ;
     tid <~ lift (py_int task) ;
     affinity <~ sched_getaffinity ;
     tick <~ lift_val as_int clock ;
     row <~ lift (user <- field fields 11 ;;
                  system <- field fields 12 ;;
                  mkdict [("tid", int tid); ("cpus", $affinity); ("cpu_seconds", py_div (VInt (user + system)) (VInt tick))]) ;
     ret (threads ++ [row]))
    (fun e => if is_class e FileNotFoundError || is_class e ProcessLookupError then ret threads else throw e).

Definition process_snapshot : io host val :=
  status <~ read_proc ;
  tasks <~ (l <~ lift_val py_iter external ; lift (l <- py_sorted l ;; mapR as_str l)) ;
  threads <~ foldM thread_row [] tasks ;
  ret (obj [("status", VList (map VStr (List.filter (starts_any ["VmRSS:"; "VmHWM:"; "Threads:"; "Cpus_allowed_list:"])
                                         (splitlines status))));
            ("threads", VList threads)]).

(** A phase of one client; the environment answers whether its output became readable in time. *)
Definition read_json (client : handle) : io host val :=
  readable <~ clock ;
  pid <~ clock ;
  (if truthy readable then ret tt
   else throw (Exn TimeoutError ("client " +:+ py_str pid +:+ " did not report its phase"))) ;~
  line <~ read_line ;
  (if String.eqb line ""
   then throw (Exn RuntimeError ("client " +:+ py_str pid +:+ " exited before reporting its phase")) else ret tt) ;~
  lift (json_loads line).

(** [list(pool.map(f, l))]: every call runs; the first exception in the order of [l] is raised. *)
Definition attempt {A B} (f : A -> io host B) (x : A) : io host (res B) := fun h =>
  let '(r, h) := f x h in (Ok r, h).
Definition pool_map {A B} (f : A -> io host B) (l : list A) : io host (list B) :=
  outcomes <~ mapM (attempt f) l ; lift (mapR id outcomes).

Definition stop (process : handle) : io host unit :=
  code <~ poll process ;
  match code with
  | Some _ => ret tt
  | None =>
      terminate process ;~
      catch (wait_timeout process ;~ ret tt)
        (fun e => if is_class e TimeoutExpired then kill process ;~ wait process else throw e)
  end.

(** ** Commands *)

Section Root.
Context (ROOT : string).

Definition url (port : Z) : string := "https://localhost:" +:+ string_of_Z port +:+ "/".

Definition server_command (o : Options) (name : string) (workers_ port : Z) (cpus : list Z) (cert key_ : string) : list string :=
  ["taskset"; "-c"; cpu_text cpus]
  ++ (if String.eqb name "zhtps" then
        [zhtps o; "--port"; string_of_Z port; "--admin-connections"; "0"; "--workers"; string_of_Z workers_;
         "--worker-cpus"; cpu_text cpus; "--no-access-log"; "--max-connections"; "2048"; "--max-active"; "2048";
         "--http2-worker-streams"; "2048"; "--http2-memory-bytes"; "536870912"; "--max-requests"; "4294967295";
         "--tls-certificate"; cert; "--tls-key"; key_]
      else if String.eqb name "go" then
        [go_server o; "-listen"; "127.0.0.1:" +:+ string_of_Z port; "-http2"; "-tls-certificate"; cert; "-tls-key"; key_]
      else [if String.eqb name "node" then node o else bun o; ROOT +:+ "/bench/http2_server.cjs";
            string_of_Z port; cert; key_]).

(** [min(connections, args.client_processes or max(1, len(client_cpus) // 2))] *)
Definition processes_of (o : Options) (connections : Z) (client_cpus_ : list Z) : Z :=
  Z.min connections
    (if client_processes o =? 0 then Z.max 1 (Z.of_nat (length client_cpus_) / 2) else client_processes o).

(** [[client_cpus[i::processes][:2] for i in range(processes)]] *)
Definition placements (client_cpus_ : list Z) (processes : Z) : list (list Z) :=
  map (fun i => take 2 (stride i (Z.to_nat processes) client_cpus_)) (seq 0 (Z.to_nat processes)).

Definition client_command (o : Options) (port streams : Z) (cert : string) (placement : list Z) (count : Z) : list string :=
  ["taskset"; "-c"; cpu_text placement; client o; "-url"; url port; "-ca"; cert; "-connections"; string_of_Z count;
   "-streams"; string_of_Z streams; "-duration"; py_str (duration o) +:+ "s"; "-warmup"; py_str (warmup o) +:+ "s";
   "-synchronize"].

(** ** The numbers of a run *)

(** [histogram.update({int(key): value ...})] of a shard *)
Definition add_latencies (histogram : dict) (shard : val) : res dict :=
  l <- itemsR ($shard.["latency_us"]) ;;
  buckets <- dict_by (fun bn => py_int_of bn.1) (fun bn => $(bn.2)) l ;;
  counter_update histogram buckets.

(** A bucket of the ordered histogram: the percentiles it reaches first. *)
Definition reach (requests count latency : val) (quantiles : dict) (percentile : Z) : res dict :=
  ifR (Ok (negb (is_ok (py_getitem (VDict quantiles) (VInt percentile))))
       &&' ($count >' (v <- ($requests -' int 1) *' int percentile ;; py_floordiv v (VInt 100))))
    (q <- $latency /' int 1000 ;; Ok (dset (VInt percentile) q quantiles))
    (Ok quantiles).
Definition quantile_step (requests : val) (st : val * dict) (bn : val * val) : res (val * dict) :=
  count <- py_add st.1 bn.2 ;;
  quantiles <- foldR (reach requests count bn.1) st.2 [50; 99] ;;
  Ok (count, quantiles).
Definition quantiles_of (requests : val) (histogram : dict) : res dict :=
  l <- py_sorted_by (fun kv => VTuple [kv.1; kv.2]) histogram ;;
  st <- foldR (quantile_step requests) (VInt 0, []) l ;;
  Ok st.2.

(** What a trial knows besides the shards. *)
Record observed := Observed {
  ob_name : string; ob_workers : Z; ob_connections : Z; ob_streams : Z; ob_repeat : Z; ob_server_cpus : list Z;
  ob_client_cpus : list Z; ob_processes : Z; ob_placements : list (list Z); ob_cpu_before : val; ob_cpu_after : val;
  ob_cpu_window : val; ob_before : val; ob_after : val; ob_command : list string; ob_commands : list (list string) }.

Definition words_val (l : list string) : val := VList (map VStr l).
Definition ints_val (l : list Z) : val := VList (map VInt l).

Definition run_of (ob : observed) (shards : list val) : expr :=
  histogram <- foldR add_latencies [] shards ;;
  requests <- sumR (fun shard => $shard.["requests"]) shards ;;
  failures <- sumR (fun shard => $shard.["errors"]) shards ;;
  opened <- sumR (fun shard => $shard.["connections_opened"]) shards ;;
  assertR (($failures ==' int 0) &&' ($requests >' int 0) &&' ($opened ==' int (ob_connections ob)))
    (py_repr (VList shards)) ;;;
  assertR (py_sum (map snd histogram) ==' $requests) "" ;;;
  elapsed <- (maxR (fun shard => $shard.["end_ns"]) shards -' minR (fun shard => $shard.["start_ns"]) shards)
             /' lit 1000000000 0 ;;
  quantiles <- quantiles_of requests histogram ;;
  cpu <- py_sub (ob_cpu_after ob) (ob_cpu_before ob) ;;
  mkdict [("server", str (ob_name ob)); ("workers", int (ob_workers ob)); ("connections", int (ob_connections ob));
    ("streams", int (ob_streams ob)); ("repeat", int (ob_repeat ob)); ("server_cpus", $(ints_val (ob_server_cpus ob)));
    ("client_cpus", $(ints_val (ob_client_cpus ob))); ("client_processes", int (ob_processes ob));
    ("client_placements", $(VList (map ints_val (ob_placements ob)))); ("requests", $requests); ("errors", $failures);
    ("connections_opened", $opened); ("seconds", $elapsed); ("requests_per_second", $requests /' $elapsed);
    ("p50_ms", py_getitem (VDict quantiles) (VInt 50)); ("p99_ms", py_getitem (VDict quantiles) (VInt 99));
    ("server_cpu_seconds", $cpu); ("server_cpu_window_seconds", $(ob_cpu_window ob));
    ("server_cpu_cores", $cpu /' $(ob_cpu_window ob));
    ("server_cpu_us_per_request", $cpu *' lit 1000000 0 /' $requests);
    ("client_cpu_cores", sumR (fun shard => $shard.["client_cpu_seconds"]) shards /' $elapsed);
    ("client_start_skew_ms", (maxR (fun shard => $shard.["start_ns"]) shards -' minR (fun shard => $shard.["start_ns"]) shards)
                             /' lit 1000000 0);
    ("server_before", $(ob_before ob)); ("server_after", $(ob_after ob)); ("server_command", $(words_val (ob_command ob)));
    ("client_commands", $(VList (map words_val (ob_commands ob)))); ("shards", $(VList shards))].

(** ** The trial *)

(** The startup loop; [fuel] bounds its rounds. *)
Fixpoint wait_port (fuel : nat) (server : handle) (deadline : val) : io host unit :=
  match fuel with
  | O => throw (Exn RuntimeError "out of fuel")
  | S fuel =>
      code <~ poll server ;
      (match code with Some _ => throw (Exn RuntimeError "server exited during startup") | None => ret tt end) ;~
      connected <~ catch (external ;~ ret true) (fun e => if is_oserror (ex_class e) then ret false else throw e) ;
      if connected : bool then ret tt else
      late <~ (now <~ clock ; lift ($now >=' $deadline)) ;
      (if late : bool then throw (Exn TimeoutError "server startup") else ret tt) ;~
      advance ;~
      wait_port fuel server deadline
  end.

Definition launch (o : Options) (port streams connections processes : Z) (cert : string)
    (commands : list (list string)) (ip : Z * list Z) : io (crew unit) (list (list string)) :=
  let command := client_command o port streams cert ip.2 (share connections processes ip.1) in
  on_host (with_env [("GOMAXPROCS", Some (string_of_Z (Z.of_nat (length ip.2))))]) ;~
  enlist command ;~
  ret (commands ++ [command]).

Definition in_phase (phase : string) (items : list val) : io host unit :=
  ok <~ lift (allR (fun item => $item.["phase"] ==' str phase) items) ;
  if ok : bool then ret tt else throw (Exn AssertionError (py_repr (VList items))).

(** [time.sleep(max(0, (start_ns - time.time_ns()) / 1e9))] *)
Definition sleep_until (start_ns : Z) : io host unit :=
  now <~ clock ;
  lift (v <- (int start_ns -' $now) /' lit 1000000000 0 ;; py_max [VInt 0; v]) ;~
  advance ;~ ret tt.

(** From the clients' readiness to their end. *)
Definition measure (o : Options) (ob : list (list string) -> val -> val -> val -> val -> val -> observed)
    (clients : list handle) (commands : list (list string)) : io host val :=
  ready <~ pool_map read_json clients ;
  in_phase "ready" ready ;~
  before_snapshot <~ process_snapshot ;
  start_ns <~ (now <~ read_clock ; ret (now + 200000000)) ;
  each (fun client => fallible (Input client (string_of_Z start_ns +:+ nl))) clients ;~
  sleep_until start_ns ;~
  before_time <~ clock ;
  before_cpu <~ cpu_seconds ;
  finished <~ pool_map read_json clients ;
  after_cpu <~ cpu_seconds ;
  cpu_window <~ (now <~ clock ; lift ($now -' $before_time)) ;
  in_phase "measured" finished ;~
  after_snapshot <~ process_snapshot ;
  shards <~ pool_map (fun _ => line <~ read_line ; lift (json_loads line)) clients ;
  each (fun client =>
    code <~ wait_timeout client ;
    if code =? 0 then ret tt else throw (Exn RuntimeError ("client failed: " +:+ py_repr (VList shards)))) clients ;~
  lift (run_of (ob commands before_cpu after_cpu cpu_window before_snapshot after_snapshot) shards).

(** The [try] block; the server is the first member of the crew. *)
Definition trial_body (fuel : nat) (o : Options) (name : string) (workers_ connections streams repeat : Z)
    (cpus client_cpus_ : list Z) (cert key_ : string) (port : Z) : io (crew unit) val :=
  let command := server_command o name workers_ port cpus cert key_ in
  let processes := processes_of o connections client_cpus_ in
  let placements_ := placements client_cpus_ processes in
  on_host (with_env [("GOMAXPROCS", Some (string_of_Z workers_))]) ;~
  server <~ enlist command ;
  catch
    (deadline <~ (now <~ on_host clock ; lift ($now +' int 10)) ;
     on_host (wait_port fuel server deadline) ;~
     commands <~ foldM (launch o port streams connections processes cert) [] (enumerate placements_) ;
     clients <~ gets (fun s => drop 1 (cr_members s)) ;
     on_host (measure o (fun commands cpu_before cpu_after window before after =>
       Observed name workers_ connections streams repeat cpus client_cpus_ processes placements_ cpu_before cpu_after window
         before after command commands) clients commands))
    (fun e =>
       on_host (logs <~ answer_text ; say logs ;~ errors <~ answer_text ; say errors) ;~
       throw e).

Definition trial_cleanup : io (crew unit) unit :=
  members <~ gets cr_members ; on_host (each stop (drop 1 members ++ take 1 members)).

Definition trial (fuel : nat) (o : Options) (name : string) (workers_ connections streams repeat : Z)
    (cpus client_cpus_ : list Z) (cert key_ : string) : io host val :=
  port <~ available_port ;
  external ;~
  external ;~
  r <~ with_crew tt (trial_body fuel o name workers_ connections streams repeat cpus client_cpus_ cert key_ port) trial_cleanup ;
  ret r.1.

(** ** The comparison *)

(** [list({topology(cpu): cpu for cpu in reversed(allowed)}.values())], sorted: the first CPU of every core. *)
Definition physical_step (physical : list ((Z * Z) * Z)) (core : Z * Z) (cpu : Z) : list ((Z * Z) * Z) :=
  if existsb (fun kc => bool_decide (kc.1 = core)) physical
  then map (fun kc => if bool_decide (kc.1 = core) then (core, cpu) else kc) physical
  else physical ++ [(core, cpu)].
Definition sort_ints (l : list Z) : list Z := merge_sort Z.le l.
Definition physical_cpus (allowed : list Z) : io host (list Z) :=
  physical <~ foldM (fun physical cpu => core <~ topology cpu ; ret (physical_step physical core cpu)) [] (rev allowed) ;
  ret (sort_ints (map snd physical)).

Definition in_cores (cores : list (Z * Z)) (core : Z * Z) : bool := bool_decide (core ∈ cores).
(** [[cpu for cpu in allowed if topology(cpu) in client_cores]] *)
Definition cpus_in (cores : list (Z * Z)) (allowed : list Z) : io host (list Z) :=
  foldM (fun l cpu => core <~ topology cpu ; ret (if in_cores cores core then l ++ [cpu] else l)) [] allowed.

(** The CPUs of the server and those of the clients. *)
Definition place (o : Options) (allowed : list Z) : io host (list Z * list Z) :=
  physical <~ physical_cpus allowed ;
  let split := (length physical / 2)%nat in
  server <~ (if given (server_cpus o) then lift (cpu_list (default "" (server_cpus o))) else ret (take split physical)) ;
  client_cores_ <~ mapM topology (drop split physical) ;
  clients <~ (if given (client_cpus o) then lift (cpu_list (default "" (client_cpus o))) else cpus_in client_cores_ allowed) ;
  ret (server, clients).

Definition int_words (c : ascii) (s : string) : res (list Z) := mapR py_int (split_char c s).
Definition subset_ints (l m : list Z) : bool := forallb (fun x => existsb (Z.eqb x) m) l.

Definition bad_case (case : list Z) : bool :=
  match case with
  | [connections; streams] =>
      (connections <? 1) || negb (in_range streams 100) || (2048 <? connections * streams)
  | _ => true
  end.

(** The checks after the lists are parsed. *)
Definition check_matrix (o : Options) (allowed server clients workers_ : list Z) (names : list string)
    (cases_ : list (list Z)) : io host unit :=
  lift (usage_if ((length server =? 0)%nat || (length clients =? 0)%nat || negb (subset_ints (server ++ clients) allowed))
          "server and client CPUs must be available") ;~
  server_cores <~ mapM topology server ;
  client_cores_ <~ mapM topology clients ;
  lift (usage_if (existsb (in_cores client_cores_) server_cores)
          "server and client must not share physical cores, including SMT siblings" ;;;
        lowest <- py_min (map VInt workers_) ;;
        highest <- py_max (map VInt workers_) ;;
        bad <- ($lowest <' int 1) ||' ($highest >' int (Z.of_nat (length server))) ;;
        usage_if bad "worker counts exceed server CPU budget" ;;;
        usage_if (Z.of_nat (length clients) <? client_processes o) "client processes exceed client CPU budget" ;;;
        usage_if (negb (forallb (fun n => existsb (String.eqb n) ["zhtps"; "go"; "node"; "bun"]) names)) "unknown server" ;;;
        usage_if (existsb bad_case cases_)
          "cases need positive connections, 1..100 streams, at most 2048 requests in flight").

(** [binaries]: the paths of the programs, [None] for one that is not found. *)
Definition binaries_of (o : Options) (names : list string) (workers_ : list Z) : io host (list (string * val)) :=
  found <~ foldM (fun l name =>
    if existsb (String.eqb name) names && existsb (Z.eqb 1) workers_
    then path <~ clock ; ret (l ++ [(name, path)]) else ret l) [] ["node"; "bun"] ;
  ret ([("zhtps", VStr (zhtps o)); ("go", VStr (go_server o)); ("client", VStr (client o))] ++ found).

(** [subprocess.check_output(args, text=True)] *)
Definition check_output (args : list string) : io host string := command args.

Definition runtime_version (binaries : list (string * val)) (d : dict) (name : string) : io host dict :=
  match PyScript.assoc name binaries with
  | None => ret d
  | Some path =>
      path <~ lift (as_str path) ;
      text <~ check_output [path; "-p"; "JSON.stringify(process.versions)"] ;
      v <~ lift (json_loads text) ;
      ret (sset name v d)
  end.

Definition binary_sha (d : dict) (nb : string * val) : io host dict :=
  lift (as_str nb.2) ;~ content <~ read_proc ; ret (sset nb.1 (VStr (sha256_hex content)) d).

Definition source_files (zig : list string) : list string :=
  ["build.zig"; "build.zig.zon"] ++ zig
  ++ ["bench/compare_http2.py"; "bench/http2_client/main.go"; "bench/go_server/main.go"; "bench/http2_server.cjs"].

Definition topology_row (d : dict) (cpu : Z) : io host dict :=
  core <~ topology cpu ; ret (sset (string_of_Z cpu) (VTuple [VInt core.1; VInt core.2]) d).

Definition initial_report (o : Options) (allowed server clients : list Z) (binaries : list (string * val))
    (sources : list string) : io host val :=
  started <~ clock ;
  kernel <~ clock ;
  topology_ <~ foldM topology_row [] allowed ;
  go <~ check_output ["go"; "version"] ;
  zig <~ check_output ["zig"; "version"] ;
  openssl <~ check_output ["pkg-config"; "--modversion"; "openssl"] ;
  nghttp2 <~ check_output ["pkg-config"; "--modversion"; "libnghttp2"] ;
  runtimes <~ foldM (runtime_version binaries) [] ["node"; "bun"] ;
  cpu <~ (text <~ read_proc ; lift (model_name text)) ;
  binary <~ foldM binary_sha [] binaries ;
  source <~ foldM sha_of [] sources ;
  head_ <~ check_output ["git"; "rev-parse"; "HEAD"] ;
  status <~ check_output ["git"; "status"; "--short"] ;
  ret (obj [("started_utc", started); ("kernel", kernel); ("server_cpu_pool", ints_val server);
            ("client_cpus", ints_val clients); ("cpu_topology", VDict topology_); ("go", VStr (strip go));
            ("zig", VStr (strip zig)); ("openssl", VStr (strip openssl)); ("nghttp2", VStr (strip nghttp2));
            ("runtime_versions", VDict runtimes); ("cpu", VStr cpu); ("binary_sha256", VDict binary);
            ("source_sha256", VDict source); ("git_head", VStr (strip head_)); ("git_status", VStr status);
            ("arguments", vars o); ("runs", VList []); ("complete", VBool false)]).

(** [save()] *)
Definition save (o : Options) (report : val) : io host unit :=
  temporary <~ lift (with_suffix ".tmp" (output o)) ;
  text <~ lift (json_dumps2 report) ;
  write_file temporary (text +:+ nl) ;~
  rename_file temporary (output o).

Definition certificate_command (key_ cert : string) : list string :=
  ["openssl"; "req"; "-x509"; "-newkey"; "ec"; "-pkeyopt"; "ec_paramgen_curve:P-256"; "-nodes"; "-keyout"; key_;
   "-out"; cert; "-days"; "1"; "-subj"; "/CN=localhost"; "-addext"; "subjectAltName=DNS:localhost"].

(** [f"{v:,.0f}"] and the like *)
Definition grouped_fixed (p : nat) (e : expr) : piece := V_ (format_fixed true p) e.
Definition run_line (name : string) (workers_ connections streams repeat : Z) (run : val) : res string :=
  fstring [F (ljust 5 name); F " w="; V (int workers_); F " "; V (int connections); F "x"; V (int streams); F " r=";
           V (int (repeat + 1)); F ": "; grouped_fixed 0 ($run.["requests_per_second"]); F " req/s p99=";
           fixed 0 3 ($run.["p99_ms"]); F " server="; fixed 0 2 ($run.["server_cpu_cores"]); F " client=";
           fixed 0 2 ($run.["client_cpu_cores"]); F " cores errors="; V ($run.["errors"])].

Definition trial_step (fuel : nat) (o : Options) (server clients : list Z) (cert key_ : string)
    (workers_ connections streams repeat : Z) (report : val) (name : string) : io host val :=
  run <~ trial fuel o name workers_ connections streams repeat (take (Z.to_nat workers_) server) clients cert key_ ;
  report <~ lift (append_run report run) ;
  save o report ;~
  line <~ lift (run_line name workers_ connections streams repeat run) ;
  say line ;~
  ret report.

(** The servers measured with [workers_] workers. *)
Definition selected (names : list string) (workers_ : Z) : list string :=
  List.filter (fun name => (workers_ =? 1) || String.eqb name "zhtps" || String.eqb name "go") names.

Definition case_step (fuel : nat) (o : Options) (server clients : list Z) (cert key_ : string) (names : list string)
    (workers_ : Z) (report : val) (case : list Z) : io host val :=
  let~ (connections, streams) := lift (match case with [c; s] => Ok (c, s) | _ => unpack_error end) in
  if (1 <? workers_) && (connections <? workers_) then ret report else
  foldM (fun report repeat =>
           foldM (trial_step fuel o server clients cert key_ workers_ connections streams (Z.of_nat repeat)) report
             (rotate repeat (selected names workers_)))
    report (seq 0 (Z.to_nat (repeats o))).

(** ** The medians *)

Definition group_key (run : val) : expr :=
  tupleR [$run.["workers"]; $run.["connections"]; $run.["streams"]; $run.["server"]].

Definition median_row (runs : list val) (group : val) : expr :=
  names <- (match group with VTuple [w; c; s; n] => Ok (w, c, s, n) | _ => unpack_error end) ;;
  let '(w, c, s, n) := names in
  runs <- filterR (fun run => group_key run ==' tupleR [$w; $c; $s; $n]) runs ;;
  mkdict ([("server", $n); ("workers", $w); ("connections", $c); ("streams", $s)]
    ++ map (fun k => (k, medianR (fun run => $run.[k]) runs)) median_names
    ++ [("min_requests_per_second", minR (fun run => $run.["requests_per_second"]) runs);
        ("max_requests_per_second", maxR (fun run => $run.["requests_per_second"]) runs);
        ("errors", sumR (fun run => $run.["errors"]) runs)]).

Definition medians (runs : list val) : res (list val) :=
  keys <- (ks <- set_by group_key runs ;; py_sorted ks) ;; mapR (median_row runs) keys.

(** ** [main] *)

(** A digest recorded before the first run still holds. *)
Definition unchanged (report : val) (column name : string) : io host unit :=
  content <~ read_proc ;
  same <~ lift (str (sha256_hex content) ==' $report.[column].[name]) ;
  if same : bool then ret tt else throw (Exn AssertionError "").

Definition valid_options (o : Options) : res unit :=
  bad <- Ok (repeats o <? 1) ||' ($(duration o) <=' int 0) ||' ($(warmup o) <' int 0) ||' Ok (client_processes o <? 0) ;;
  usage_if bad "invalid repeats, duration, warmup or client processes".

(** The trials, with a certificate that lives as long as they run. *)
Definition trials (fuel : nat) (o : Options) (server clients workers_ : list Z) (names : list string)
    (cases_ : list (list Z)) (report : val) : io host val :=
  directory <~ answer_text ;
  finally
    (let key_ := directory +:+ "/key.pem" in
     let cert := directory +:+ "/cert.pem" in
     result <~ run_process false (certificate_command key_ cert) ;
     (if cp_code result =? 0 then ret tt
      else throw (Exn CalledProcessError (join " " (certificate_command key_ cert)))) ;~
     foldM (fun report count => foldM (case_step fuel o server clients cert key_ names count) report cases_)
       report workers_)
    (external ;~ ret tt).

(** [main] from its parsed arguments on. *)
Definition main (fuel : nat) (o : Options) : io host val :=
  lift (valid_options o) ;~
  allowed <~ (l <~ lift_val py_iter sched_getaffinity ; lift (mapR as_int l)) ;
  let~ (server, clients) := place o allowed in
  workers_ <~ lift (int_words "," (workers o)) ;
  cases_ <~ lift (mapR (int_words "x") (split_char "," (cases o))) ;
  let names := split_char "," (servers o) in
  check_matrix o allowed server clients workers_ names cases_ ;~
  taken <~ clock ;
  lift (usage_if (truthy taken) ("refusing to overwrite " +:+ str_path (path_of (output o)))) ;~
  external ;~
  binaries <~ binaries_of o names workers_ ;
  zig <~ rglob ;
  let sources := source_files zig in
  report <~ initial_report o allowed server clients binaries sources ;
  save o report ;~
  report <~ trials fuel o server clients workers_ names cases_ report ;
  report <~ lift (runs <- iterR ($report.["runs"]) ;; rows <- medians runs ;; setR report "medians" ($(VList rows))) ;
  each (fun nb => lift (as_str nb.2) ;~ unchanged report "binary_sha256" nb.1) binaries ;~
  each (unchanged report "source_sha256") sources ;~
  report <~ lift (setR report "complete" ($(VBool true))) ;
  finished <~ clock ;
  report <~ lift (setR report "finished_utc" ($finished)) ;
  save o report ;~
  ret report.
End Root.

(** ** Lemmas *)

(** *** Nothing is left running *)

Lemma settled_attempt {A B} (f : A -> io host B) x : settled (f x) -> settled (attempt f x).
Proof. intros Hf w r w'. unfold attempt. destruct (f x w) as [y h] eqn:E. apply Hf in E. by intros [= _ <-]. Qed.
#[export] Hint Resolve settled_attempt : zhtps.
Lemma settled_pool_map {A B} (f : A -> io host B) l : (forall a, settled (f a)) -> settled (pool_map f l).
Proof. intros Hf. unfold pool_map. settle. Qed.
Lemma settled_topology cpu : settled (topology cpu).
Proof. unfold topology. settle. Qed.
Lemma settled_available_port : settled available_port.
Proof. unfold available_port. settle. Qed.
Lemma settled_h2_cpu_seconds : settled cpu_seconds.
Proof. unfold cpu_seconds. settle. Qed.
Lemma settled_thread_row threads task : settled (thread_row threads task).
Proof. unfold thread_row. settle. Qed.
#[export] Hint Resolve settled_pool_map settled_topology settled_available_port settled_h2_cpu_seconds settled_thread_row : zhtps.
Lemma settled_process_snapshot : settled process_snapshot.
Proof. unfold process_snapshot. settle. Qed.
Lemma settled_read_json client : settled (read_json client).
Proof. unfold read_json. settle. Qed.
Lemma settled_h2_stop process : settled (stop process).
Proof. apply (settled_stop_child (Some process)). Qed.
Lemma settled_wait_port fuel server deadline : settled (wait_port fuel server deadline).
Proof. induction fuel; cbn; settle. Qed.
Lemma settled_in_phase phase items : settled (in_phase phase items).
Proof. unfold in_phase. settle. Qed.
Lemma settled_sleep_until start_ns : settled (sleep_until start_ns).
Proof. unfold sleep_until. settle. Qed.
#[export] Hint Resolve settled_process_snapshot settled_read_json settled_h2_stop settled_wait_port settled_in_phase
  settled_sleep_until : zhtps.
Lemma settled_measure o ob clients commands : settled (measure o ob clients commands).
Proof. unfold measure. settle. Qed.
#[export] Hint Resolve settled_measure : zhtps.

Lemma ender_stop : ender stop.
Proof. exact ender_stop_child. Qed.

Lemma watch_trial_body ROOT h0 fuel o name workers_ connections streams repeat cpus client_cpus_ cert key_ port :
  watch h0 (trial_body ROOT fuel o name workers_ connections streams repeat cpus client_cpus_ cert key_ port).
Proof.
  unfold trial_body. apply watch_bind; [auto with zhtps|]. intros _. apply watch_bind; [auto with zhtps|]. intros server.
  apply watch_catch; [|auto 15 with zhtps]. apply watch_bind; [auto with zhtps|]. intros deadline.
  apply watch_bind; [auto with zhtps|]. intros _. apply watch_bind; [|auto 10 with zhtps].
  apply watch_foldM. intros commands ip. unfold launch. auto with zhtps.
Qed.

(** The server first, then the clients: the cleanup stops them all. *)
Lemma trial_cleanup_spec h0 s r s' : watched h0 s -> trial_cleanup s = (r, s') -> dismissed h0 s'.
Proof.
  intros W H. unfold trial_cleanup, bind, gets in H.
  assert (Hin : forall k, In k (drop 1 (cr_members s) ++ take 1 (cr_members s)) <-> In k (cr_members s)).
  { assert (Hp : drop 1 (cr_members s) ++ take 1 (cr_members s) ≡ₚ cr_members s) by by rewrite (comm (++)), take_drop.
    intros k. split; apply Permutation_in; by rewrite Hp. }
  eapply (dismiss_members h0) in H as (_ & D & _); [exact D|apply ender_stop|exact W|apply Hin|].
  intros k Hk. by apply W, Hin.
Qed.

Lemma tidy_trial ROOT fuel o name workers_ connections streams repeat cpus client_cpus_ cert key_ :
  tidy (trial ROOT fuel o name workers_ connections streams repeat cpus client_cpus_ cert key_).
Proof.
  unfold trial. do 3 (apply tidy_bind; [auto with zhtps|]; intros ?). apply tidy_bind; [|auto with zhtps].
  apply tidy_with_crew; [intros; apply watch_trial_body|intros *; apply trial_cleanup_spec].
Qed.
#[export] Hint Resolve tidy_trial : zhtps.

Lemma tidy_check_output args : tidy (check_output args).
Proof. apply tidy_command. Qed.
#[export] Hint Resolve tidy_check_output : zhtps.
Lemma settled_save o report : settled (save o report).
Proof. unfold save. settle. Qed.
#[export] Hint Resolve settled_save : zhtps.
Lemma tidy_initial_report_h2 o allowed server clients binaries sources :
  tidy (initial_report o allowed server clients binaries sources).
Proof. unfold initial_report, topology_row, runtime_version, binary_sha, sha_of. tidily. Qed.
Lemma tidy_place o allowed : tidy (place o allowed).
Proof. unfold place, physical_cpus, cpus_in. tidily. Qed.
Lemma tidy_check_matrix o allowed server clients workers_ names cases_ :
  tidy (check_matrix o allowed server clients workers_ names cases_).
Proof. unfold check_matrix. tidily. Qed.
Lemma tidy_case_step ROOT fuel o server clients cert key_ names workers_ report case :
  tidy (case_step ROOT fuel o server clients cert key_ names workers_ report case).
Proof. unfold case_step, trial_step. tidily. Qed.
#[export] Hint Resolve tidy_initial_report_h2 tidy_place tidy_check_matrix tidy_case_step : zhtps.
Lemma tidy_trials ROOT fuel o server clients workers_ names cases_ report :
  tidy (trials ROOT fuel o server clients workers_ names cases_ report).
Proof.
  unfold trials. apply tidy_bind; [auto with zhtps|]. intros directory. apply tidy_finally; [|auto with zhtps]. tidily.
Qed.
#[export] Hint Resolve tidy_trials : zhtps.
Lemma tidy_h2_main ROOT fuel o : tidy (main ROOT fuel o).
Proof. unfold main, binaries_of, rglob, unchanged. tidily. Qed.

(** *** The percentiles of a run *)

(** The audit's loop finds the first boundary above the rank. *)
Lemma check_rank_first published rank c h :
  check_rank published (VInt (rank - c)) (histogram_of h)
  = match first_above rank c h with
    | Some b => assertR (published ==' millis b) ""
    | None => raise AssertionError "percentile missing from histogram"
    end.
Proof.
  revert c. induction h as [|[b n] h IH]; intros c; [done|].
  change (check_rank published (VInt (rank - c)) (histogram_of ((b, n) :: h)))
    with (if rank - c <? n then assertR (published ==' millis b) ""
          else check_rank published (VInt (rank - c - n)) (histogram_of h)).
  cbn [first_above]. replace (rank - c <? n) with (rank <? c + n) by lia.
  destruct (rank <? c + n); [done|]. rewrite <- IH. f_equal. f_equal. lia.
Qed.

Definition rank_of (requests percentile : Z) : Z := (requests - 1) * percentile / 100.

(** One percentile at one bucket; the other percentiles are left alone. *)
Lemma reach_spec R c b qs q qs' :
  int_keys qs -> reach (VInt R) (VInt c) (VInt b) qs q = Ok qs' ->
  int_keys qs' /\ (forall p, p <> q -> dget (VInt p) qs' = dget (VInt p) qs)
  /\ match dget (VInt q) qs with
     | Some v => dget (VInt q) qs' = Some v
     | None => if rank_of R q <? c then exists v, millis b = Ok v /\ dget (VInt q) qs' = Some v
               else dget (VInt q) qs' = None
     end.
Proof.
  intros Hk H. unfold reach, py_getitem in H.
  destruct (dget (VInt q) qs) as [v|] eqn:E.
  { by injection H as <-. }
  change (ifR (Ok true &&' Ok (rank_of R q <? c)) (q0 <- millis b ;; Ok (dset (VInt q) q0 qs)) (Ok qs) = Ok qs') in H.
  cbn [andR ifR rbind] in H. destruct (rank_of R q <? c).
  - apply rbind_ok in H as (v & Hv & [= <-]). split; [by apply dset_int_keys|]. split.
    + intros p Hp. rewrite dget_dset_int by done. destruct (Z.eqb_spec p q); [lia|done].
    + exists v. split; [done|]. rewrite dget_dset_int by done. by rewrite Z.eqb_refl.
  - injection H as <-. done.
Qed.

(** The driver's loop records for every percentile the first boundary above its rank. *)
Lemma quantiles_first R h c qs st :
  int_keys qs -> foldR (quantile_step (VInt R)) (VInt c, qs) (histogram_of h) = Ok st ->
  forall p, p = 50 \/ p = 99 ->
  match dget (VInt p) qs with
  | Some v => dget (VInt p) st.2 = Some v
  | None => match first_above (rank_of R p) c h with
            | Some b => exists v, millis b = Ok v /\ dget (VInt p) st.2 = Some v
            | None => dget (VInt p) st.2 = None
            end
  end.
Proof.
  revert c qs. induction h as [|[b n] h IH]; intros c qs Hk H p Hp; cbn [histogram_of map foldR] in H.
  { injection H as <-. cbn. by case_match. }
  apply rbind_ok in H as ([c1 qs1] & H1 & H). unfold quantile_step in H1. cbn [fst snd py_add arith num_of rbind] in H1.
  apply rbind_ok in H1 as (qs2 & H1 & [= <- <-]). cbn [foldR] in H1.
  apply rbind_ok in H1 as (qs3 & H3 & H1). apply rbind_ok in H1 as (qs4 & H4 & [= ->]).
  destruct (reach_spec _ _ _ _ _ _ Hk H3) as (K3 & O3 & S3). destruct (reach_spec _ _ _ _ _ _ K3 H4) as (K4 & O4 & S4).
  specialize (IH _ _ K4 H p Hp). cbn [first_above].
  assert (S : match dget (VInt p) qs with
              | Some v => dget (VInt p) qs2 = Some v
              | None => if rank_of R p <? c + n then exists v, millis b = Ok v /\ dget (VInt p) qs2 = Some v
                        else dget (VInt p) qs2 = None
              end).
  { destruct Hp as [-> | ->]; [rewrite O4 by lia; exact S3|]. rewrite <- (O3 99) by lia. exact S4. }
  destruct (dget (VInt p) qs); [by rewrite S in IH|]. destruct (rank_of R p <? c + n).
  - destruct S as (v & Hv & S). rewrite S in IH. by exists v.
  - by rewrite S in IH.
Qed.

Definition percentile_column (p : Z) : string := "p" +:+ string_of_Z p +:+ "_ms".

(** What the driver publishes for an integer histogram is what the audit looks for. *)
Lemma published_percentile run histogram R qs p :
  is_histogram histogram -> quantiles_of (VInt R) histogram = Ok qs -> p = 50 \/ p = 99 ->
  $run.["requests"] = Ok (VInt R) ->
  $run.[percentile_column p] = py_getitem (VDict qs) (VInt p) -> is_ok (py_getitem (VDict qs) (VInt p)) = true ->
  check_percentile run histogram p = Ok tt.
Proof.
  intros [h ->] Hq Hp HR Hc Hok. unfold quantiles_of in Hq. apply rbind_ok in Hq as (l & Hl & Hq).
  apply rbind_ok in Hq as (st & Hst & [= <-]). unfold check_percentile. rewrite HR.
  change ((v <- ($(VInt R) -' int 1) *' int p ;; py_floordiv v (VInt 100))) with (Ok (VInt (rank_of R p))).
  cbn [rbind]. rewrite Hl. cbn [rbind]. destruct (sorted_histogram _ _ _ Hl) as (h' & -> & _).
  pose proof (quantiles_first R h' 0 [] st ltac:(constructor) Hst p Hp) as Hf. cbn [dget] in Hf.
  change (histogram_of h') with (histogram_of h'). rewrite <- (Z.sub_0_r (rank_of R p)), check_rank_first.
  fold (percentile_column p). rewrite Hc. cbn [py_getitem]. cbn [py_getitem] in Hok.
  destruct (first_above (rank_of R p) 0 h') as [b|].
  - destruct Hf as (v & Hv & Hd). rewrite Hd. cbn [of_option]. unfold assertR, eqR, lift2. cbn [rbind].
    rewrite Hv. cbn [rbind]. by rewrite (millis_ok _ _ Hv).
  - by rewrite Hf in Hok.
Qed.

(** *** The totals of a run *)

(** A number that is not NaN, and a finite one. *)
Definition real (v : val) : Prop := match v with VInt _ => True | VFloat x => is_nan x = false | _ => False end.
Definition finite (v : val) : Prop := match v with VInt _ => True | VFloat x => f64_finite x = true | _ => False end.

Lemma real_eqb v : real v -> py_eqb v v = true.
Proof. destruct v; cbn; try done; intros H; [by rewrite Z.compare_refl|by rewrite f64_cmp_refl]. Qed.
Lemma finite_real v : finite v -> real v.
Proof. destruct v; cbn; try done. apply finite_not_nan. Qed.
Lemma finite_f64 v n x : finite v -> num_of v = Some n -> to_f64 n = Ok x -> f64_finite x = true.
Proof.
  destruct v as [| |z|y| | | |]; cbn; try done; intros H [= <-]; cbn; [|by intros [= <-]].
  unfold of_option. destruct (f64_of_Z z) eqn:E; [|done]. intros [= <-]. by eapply f64_of_Z_finite.
Qed.
Lemma real_f64 v n x : real v -> num_of v = Some n -> to_f64 n = Ok x -> is_nan x = false.
Proof.
  destruct v as [| |z|y| | | |]; cbn; try done; intros H [= <-]; cbn; [|by intros [= <-]].
  unfold of_option. destruct (f64_of_Z z) eqn:E; [|done]. intros [= <-]. by eapply finite_not_nan, f64_of_Z_finite.
Qed.

Lemma py_div_real a b v : finite a /\ real b \/ real a /\ finite b -> py_div a b = Ok v -> real v.
Proof.
  intros Hab. unfold py_div. destruct (num_of a) as [na|] eqn:Ea, (num_of b) as [nb|] eqn:Eb; try done; [|by destruct na].
  assert (G : (x <- to_f64 na ;; y <- to_f64 nb ;;
               if f64_is_zero y then raise ZeroDivisionError "float division by zero" else Ok (VFloat (f64_div x y))) = Ok v -> real v).
  { intros (x & Hx & H)%rbind_ok. apply rbind_ok in H as (y & Hy & H). destruct (f64_is_zero y) eqn:Ez; [done|].
    injection H as <-. cbn. destruct Hab as [[Ha Hb]|[Ha Hb]].
    - apply f64_div_finite; [by eapply finite_f64|by eapply real_f64|done].
    - pose proof (finite_f64 _ _ _ Hb Eb Hy) as Hf. apply f64_div_not_nan; [by eapply real_f64|]. by destruct y. }
  destruct na as [p|p], nb as [q|q]; try exact G. case_match; [done|]. intros (x & Hx & ->)%rmap_ok. cbn.
  unfold of_option in Hx. destruct (f64_of_quotient p q) eqn:E; [|done]. injection Hx as ->.
  by eapply finite_not_nan, f64_of_quotient_finite.
Qed.

Definition regular (v : val) : Prop := exists x, v = VFloat x /\ is_regular x = true.
Lemma py_mul_real a b v : real a -> regular b -> py_mul a b = Ok v -> real v.
Proof.
  intros Ha (y & -> & Hy). unfold py_mul, arith. cbn [num_of]. destruct (num_of a) as [[p|p]|] eqn:Ea; [| |done];
    intros (x & Hx & H)%rbind_ok; cbn in H; injection H as <-; (apply f64_mul_not_nan; [by eapply real_f64|done]).
Qed.
Lemma py_sub_real a b v : finite a -> finite b -> py_sub a b = Ok v -> real v.
Proof.
  intros Ha Hb. unfold py_sub, arith. destruct (num_of a) as [na|] eqn:Ea, (num_of b) as [nb|] eqn:Eb; try done; [|by destruct na].
  assert (G : (x <- to_f64 na ;; y <- to_f64 nb ;; Ok (VFloat (f64_sub x y))) = Ok v -> real v).
  { intros (x & Hx & H)%rbind_ok. apply rbind_ok in H as (y & Hy & [= <-]).
    apply f64_sub_not_nan; [exact (finite_f64 _ _ _ Ha Ea Hx)|exact (finite_f64 _ _ _ Hb Eb Hy)]. }
  destruct na as [p|p], nb as [q|q]; try exact G. by intros [= <-].
Qed.

Lemma lit_regular m d x : lit m d = Ok x -> is_regular (f64_lit m d) = true -> regular x.
Proof. intros [= <-] H. by eexists. Qed.

Lemma cpu_of_finite stat tick v : cpu_of stat tick = Ok v -> finite v.
Proof.
  unfold cpu_of. intros (fields & _ & H)%rbind_ok. apply rbind_ok in H as (user & _ & H).
  apply rbind_ok in H as (system & _ & H). cbn in H. case_match; [done|]. apply rmap_ok in H as (x & Hx & ->).
  unfold of_option in Hx. destruct (f64_of_quotient _ _) eqn:E; [|done]. injection Hx as ->. by eapply f64_of_quotient_finite.
Qed.

(** What a shard reports, as far as its types go. *)
Definition int_column (k : string) (shard : val) : Prop := exists z, $shard.[k] = Ok (VInt z).
Definition plain_shard (shard : val) : Prop :=
  (exists l, $shard.["latency_us"] = Ok (VDict (json_histogram l)))
  /\ Forall (fun k => int_column k shard) ["requests"; "connections"; "connections_opened"; "start_ns"; "end_ns"].

Lemma plain_column k shards :
  k ∈ ["requests"; "connections"; "connections_opened"; "start_ns"; "end_ns"] -> Forall plain_shard shards ->
  exists l, mapR (fun shard => $shard.[k]) shards = Ok (map VInt l).
Proof.
  intros Hk. induction 1 as [|shard shards [_ Hs] _ [l IH]]; [by exists []|].
  rewrite Forall_forall in Hs. destruct (Hs k Hk) as [z Hz]. exists (z :: l). cbn [mapR]. by rewrite Hz, IH.
Qed.

Lemma py_max_int x l : exists z, py_max (map VInt (x :: l)) = Ok (VInt z).
Proof.
  revert x. induction l as [|y l IH]; intros x; [by exists x|]. destruct (IH (if x <? y then y else x)) as [z Hz]. exists z.
  unfold py_max in *. cbn [map foldR] in *. unfold pick_max at 1. rewrite py_ltb_int. cbn [rbind]. by case_match.
Qed.
Lemma py_min_int x l : exists z, py_min (map VInt (x :: l)) = Ok (VInt z).
Proof.
  revert x. induction l as [|y l IH]; intros x; [by exists x|]. destruct (IH (if y <? x then y else x)) as [z Hz]. exists z.
  unfold py_min in *. cbn [map foldR] in *. unfold pick_min at 1. rewrite py_ltb_int. cbn [rbind]. by case_match.
Qed.

(** The time from the first start to the last end. *)
Definition elapsed_of (shards : list val) : expr :=
  (maxR (fun shard => $shard.["end_ns"]) shards -' minR (fun shard => $shard.["start_ns"]) shards) /' lit 1000000000 0.

Lemma elapsed_real shards v : Forall plain_shard shards -> elapsed_of shards = Ok v -> real v.
Proof.
  intros Hs. unfold elapsed_of, maxR, minR.
  destruct (plain_column "end_ns" shards ltac:(set_solver) Hs) as [le ->].
  destruct (plain_column "start_ns" shards ltac:(set_solver) Hs) as [ls ->]. cbn [rbind].
  destruct le as [|e le]; [done|]. destruct (py_max_int e le) as [z ->].
  destruct ls as [|s ls]; [done|]. destruct (py_min_int s ls) as [z' ->].
  unfold lift2 at 1. cbn [rbind lift2 lit]. intros H. eapply py_div_real in H; [exact H|]. left. split; [exact I|].
  apply finite_not_nan. vm_compute. reflexivity.
Qed.

(** The place of a run in the matrix: workers, connections, streams and server. *)
Abbreviation spot := (Z * Z * Z * string)%type.
Definition at_spot (pr : spot * Z) (run : val) : Prop :=
  let '((((workers_, connections), streams), name_), repeat) := pr in
  $run.["workers"] = int workers_ /\ $run.["connections"] = int connections /\ $run.["streams"] = int streams
  /\ $run.["server"] = str name_ /\ $run.["repeat"] = int repeat.
Definition spot_of (ob : observed) : spot := (ob_workers ob, ob_connections ob, ob_streams ob, ob_name ob).

(** What an accepted run has under the keys the audit reads. *)
Record accepted (ob : observed) (shards : list val) (run : val) : Prop := {
  acc_spot : at_spot (spot_of ob, ob_repeat ob) run;
  acc_shards : $run.["shards"] = Ok (VList shards);
  acc_connections : $run.["connections"] = int (ob_connections ob);
  acc_requests : $run.["requests"] = sumR (fun shard => $shard.["requests"]) shards;
  acc_errors : eqR ($run.["errors"]) (int 0) = Ok true;
  acc_opened : $run.["connections_opened"] = sumR (fun shard => $shard.["connections_opened"]) shards;
  acc_opened_all : eqR ($run.["connections_opened"]) (int (ob_connections ob)) = Ok true;
  acc_seconds : $run.["seconds"] = elapsed_of shards;
  acc_rate : exists elapsed rate, elapsed_of shards = Ok elapsed /\ $run.["requests_per_second"] = Ok rate
             /\ $run.["requests"] /' $elapsed = Ok rate;
  acc_cpu : exists cpu us, py_sub (ob_cpu_after ob) (ob_cpu_before ob) = Ok cpu /\ $run.["server_cpu_seconds"] = Ok cpu
            /\ $run.["server_cpu_us_per_request"] = Ok us /\ $cpu *' lit 1000000 0 /' $run.["requests"] = Ok us;
  acc_quantiles : exists histogram qs requests, foldR add_latencies [] shards = Ok histogram
                  /\ $run.["requests"] = Ok requests /\ quantiles_of requests histogram = Ok qs
                  /\ forall p, p = 50 \/ p = 99 -> $run.[percentile_column p] = py_getitem (VDict qs) (VInt p)
                       /\ is_ok (py_getitem (VDict qs) (VInt p)) = true }.

Lemma run_of_accepted ob shards run : run_of ob shards = Ok run -> accepted ob shards run.
Proof.
  unfold run_of. intros (histogram & Hh & H)%rbind_ok. apply rbind_ok in H as (requests & Hr & H).
  apply rbind_ok in H as (failures & Hf & H). apply rbind_ok in H as (opened & Ho & H).
  apply rbind_ok in H as (u & Hc & H). apply assertR_ok in Hc. apply andR_true in Hc as [He Hc]. apply andR_true in Hc as [_ Hc].
  apply rbind_ok in H as (u' & _ & H). apply rbind_ok in H as (elapsed & Hel & H).
  apply rbind_ok in H as (qs & Hq & H). apply rbind_ok in H as (cpu & Hcpu & H).
  fold (elapsed_of shards) in Hel.
  assert (G : forall k e, PyScript.assoc k _ = Some e -> exists v, e = Ok v /\ $run.[k] = Ok v) by (intros k e; apply (mkdict_get _ _ k e H)).
  assert (G' : forall k e, PyScript.assoc k _ = Some e -> $run.[k] = e) by (intros k e (v & -> & Hv)%G; exact Hv).
  pose proof (G' "requests" _ eq_refl) as Rr. pose proof (G' "connections_opened" _ eq_refl) as Ro.
  split.
  - unfold spot_of, at_spot. split_and!; [exact (G' "workers" _ eq_refl)|exact (G' "connections" _ eq_refl)|
      exact (G' "streams" _ eq_refl)|exact (G' "server" _ eq_refl)|exact (G' "repeat" _ eq_refl)].
  - exact (G' "shards" _ eq_refl).
  - exact (G' "connections" _ eq_refl).
  - by rewrite Rr, Hr.
  - by rewrite (G' "errors" _ eq_refl).
  - by rewrite Ro, Ho.
  - by rewrite Ro.
  - by rewrite (G' "seconds" _ eq_refl), Hel.
  - destruct (G "requests_per_second" _ eq_refl) as (rate & Hrate & Hv). exists elapsed, rate. by rewrite Rr.
  - destruct (G "server_cpu_us_per_request" _ eq_refl) as (us & Hus & Hv). exists cpu, us. rewrite Rr.
    split_and!; [done|exact (G' "server_cpu_seconds" _ eq_refl)|done|done].
  - exists histogram, qs, requests. split_and!; [done|done|done|]. intros p [-> | ->].
    + destruct (G "p50_ms" _ eq_refl) as (v & Hv & Hk). change (percentile_column 50) with "p50_ms". by rewrite Hk, Hv.
    + destruct (G "p99_ms" _ eq_refl) as (v & Hv & Hk). change (percentile_column 99) with "p99_ms". by rewrite Hk, Hv.
Qed.

(** The audit's checks of the shards, apart from the histogram they add up. *)
Lemma audited_shards run args h shards hist :
  foldR (add_shard_latencies run args) h shards = Ok hist ->
  foldR add_latencies h shards = Ok hist
  /\ Forall (fun shard => eqR ($shard.["connections_opened"]) ($shard.["connections"]) = Ok true) shards.
Proof.
  revert h. induction shards as [|shard shards IH]; intros h; cbn [foldR]; [by intros [= <-]|].
  intros (h1 & H1 & H)%rbind_ok. destruct (IH _ H) as [H2 H3]. unfold add_shard_latencies in H1.
  apply rbind_ok in H1 as (? & _ & H1). apply rbind_ok in H1 as (? & Hc & H1). apply assertR_ok in Hc.
  do 4 (apply rbind_ok in H1 as (? & _ & H1)). split; [|by constructor].
  unfold add_latencies at 1. by rewrite H1.
Qed.

Lemma same_connections shards :
  Forall plain_shard shards ->
  Forall (fun shard => eqR ($shard.["connections_opened"]) ($shard.["connections"]) = Ok true) shards ->
  sumR (fun shard => $shard.["connections"]) shards = sumR (fun shard => $shard.["connections_opened"]) shards.
Proof.
  intros Hp He. unfold sumR. f_equal.
  induction Hp as [|shard shards [_ Hs] _ IH]; [done|]. apply Forall_cons in He as [He Hr]. cbn [mapR].
  rewrite Forall_forall in Hs. destruct (Hs "connections" ltac:(set_solver)) as [z Hz].
  destruct (Hs "connections_opened" ltac:(set_solver)) as [z' Hz']. rewrite Hz, Hz' in *.
  assert (E : py_eqb (VInt z') (VInt z) = true) by (injection He as He; exact He).
  rewrite py_eqb_int in E. apply Z.eqb_eq in E as ->. by rewrite IH.
Qed.

Lemma eqR_refl v : real v -> eqR (Ok v) (Ok v) = Ok true.
Proof. intros Hv. unfold eqR, lift2. cbn [rbind]. by rewrite real_eqb. Qed.

Lemma plain_sum k shards :
  k ∈ ["requests"; "connections"; "connections_opened"; "start_ns"; "end_ns"] -> Forall plain_shard shards ->
  exists z, sumR (fun shard => $shard.[k]) shards = Ok (VInt z).
Proof. intros Hk Hs. unfold sumR. destruct (plain_column k shards Hk Hs) as [l ->]. cbn [rbind]. rewrite py_sum_int. by eexists. Qed.

Lemma accepted_totals ob shards run :
  accepted ob shards run -> Forall plain_shard shards -> finite (ob_cpu_before ob) -> finite (ob_cpu_after ob) ->
  Forall (fun shard => eqR ($shard.["connections_opened"]) ($shard.["connections"]) = Ok true) shards ->
  check_totals run shards = Ok tt.
Proof.
  intros A Hs Hb Ha Hc. destruct (plain_sum "requests" shards ltac:(set_solver) Hs) as [R HR].
  destruct (acc_rate _ _ _ A) as (elapsed & rate & Hel & Hrate & Hdiv).
  destruct (acc_cpu _ _ _ A) as (cpu & us & Hcpu & Hsec & Hus & Hmul).
  pose proof (elapsed_real _ _ Hs Hel) as Re. pose proof (py_sub_real _ _ _ Ha Hb Hcpu) as Rc.
  rewrite (acc_requests _ _ _ A), HR in Hdiv, Hmul.
  assert (Rrate : real rate). { apply (py_div_real (VInt R) elapsed); [left; split; [exact I|exact Re]|exact Hdiv]. }
  assert (Rus : real us).
  { apply lift2_ok in Hmul as (x & y & Hx & [= <-] & Hd). apply lift2_ok in Hx as (c & l & [= <-] & Hl & Hm).
    apply (py_div_real x (VInt R)); [right; split; [|exact I]|exact Hd].
    eapply py_mul_real; [exact Rc| |exact Hm]. eapply lit_regular; [exact Hl|vm_compute; reflexivity]. }
  unfold check_totals. rewrite (acc_errors _ _ _ A). cbn [assertR rbind require].
  rewrite (acc_connections _ _ _ A), (acc_opened_all _ _ _ A). cbn [assertR rbind require].
  rewrite (acc_requests _ _ _ A), HR. rewrite (eqR_refl (VInt R) I). cbn [assertR rbind require].
  rewrite (same_connections _ Hs Hc), <- (acc_opened _ _ _ A), (acc_opened_all _ _ _ A). cbn [assertR rbind require].
  fold (elapsed_of shards). rewrite Hel. cbn [rbind]. rewrite (acc_seconds _ _ _ A), Hel, (eqR_refl _ Re).
  cbn [assertR rbind require]. rewrite Hrate, Hdiv, (eqR_refl _ Rrate). cbn [assertR rbind require].
  by rewrite Hsec, Hus, Hmul, (eqR_refl _ Rus).
Qed.

Lemma accepted_percentiles ob shards run hist :
  accepted ob shards run -> Forall plain_shard shards -> foldR add_latencies [] shards = Ok hist ->
  eachR (check_percentile run hist) [50; 99] = Ok tt.
Proof.
  intros A Hs Hh. destruct (acc_quantiles _ _ _ A) as (hist' & qs & requests & Hh' & Hr & Hq & Hp).
  rewrite Hh in Hh'. injection Hh' as <-. destruct (plain_sum "requests" shards ltac:(set_solver) Hs) as [R HR].
  rewrite (acc_requests _ _ _ A), HR in Hr. injection Hr as <-.
  assert (Hi : is_histogram hist).
  { clear -Hs Hh. assert (H0 : is_histogram []) by (by exists []). revert H0 Hh. generalize (@nil (val * val)).
    induction Hs as [|shard shards [[l Hl] _] _ IH]; intros h H0; cbn [foldR]; [by intros [= <-]|].
    intros (h1 & H1 & H)%rbind_ok. eapply IH; [|exact H]. unfold add_latencies, itemsR in H1. rewrite Hl in H1.
    cbn [rbind py_items] in H1. apply rbind_ok in H1 as (b & Hb & H1). eapply counter_update_histogram; [exact H0| |exact H1].
    by eapply buckets_histogram. }
  assert (HR' : $run.["requests"] = Ok (VInt R)) by by rewrite (acc_requests _ _ _ A).
  cbn [eachR]. destruct (Hp 50 (or_introl eq_refl)) as [C50 K50]. destruct (Hp 99 (or_intror eq_refl)) as [C99 K99].
  rewrite (published_percentile run hist R qs 50 Hi Hq (or_introl eq_refl) HR' C50 K50). cbn [rbind].
  by rewrite (published_percentile run hist R qs 99 Hi Hq (or_intror eq_refl) HR' C99 K99).
Qed.

(** *** From a trial to its run *)

Lemma with_crew_ok {X A} (x : X) (body : io (crew X) A) cleanup h r h' :
  with_crew x body cleanup h = (Ok r, h') -> exists s, body (Crew h [] x) = (Ok r.1, s).
Proof.
  unfold with_crew, finally. destruct (body (Crew h [] x)) as [x1 s1] eqn:E1. destruct (cleanup s1) as [[u|e] s2]; [|done].
  destruct x1 as [a|e]; [|done]. intros [= <- _]. by exists s1.
Qed.

Lemma on_host_ok {X A} (m : io host A) (s : crew X) a s' :
  on_host m s = (Ok a, s') -> exists h', m (cr_host s) = (Ok a, h').
Proof. unfold on_host, zoom. destruct (m (cr_host s)) as [x h']. intros [= -> _]. by exists h'. Qed.

Lemma cpu_seconds_finite w v w' : cpu_seconds w = (Ok v, w') -> finite v.
Proof.
  unfold cpu_seconds. intros (stat & w1 & _ & H)%bind_ok. apply bind_ok in H as (tick & w2 & _ & H).
  apply lift_ok in H as [H _]. by eapply cpu_of_finite.
Qed.

Lemma measure_ok o ob clients commands w run w' :
  measure o ob clients commands w = (Ok run, w') ->
  exists before after window sb sa shards, run_of (ob commands before after window sb sa) shards = Ok run
  /\ finite before /\ finite after.
Proof.
  unfold measure. intros H. do 2 (apply bind_ok in H as (? & ? & _ & H)). apply bind_ok in H as (sb & ? & _ & H).
  do 4 (apply bind_ok in H as (? & ? & _ & H)). apply bind_ok in H as (before & ? & Hb & H).
  apply bind_ok in H as (? & ? & _ & H). apply bind_ok in H as (after & ? & Ha & H).
  apply bind_ok in H as (window & ? & _ & H). apply bind_ok in H as (? & ? & _ & H).
  apply bind_ok in H as (sa & ? & _ & H). apply bind_ok in H as (shards & ? & _ & H). apply bind_ok in H as (? & ? & _ & H).
  apply lift_ok in H as [H _]. exists before, after, window, sb, sa, shards.
  split_and!; [exact H|by eapply cpu_seconds_finite|by eapply cpu_seconds_finite].
Qed.

Lemma trial_accepted ROOT fuel o name_ workers_ connections streams repeat cpus client_cpus_ cert key_ h run h' :
  trial ROOT fuel o name_ workers_ connections streams repeat cpus client_cpus_ cert key_ h = (Ok run, h') ->
  exists ob shards, accepted ob shards run /\ spot_of ob = (workers_, connections, streams, name_) /\ ob_repeat ob = repeat
  /\ finite (ob_cpu_before ob) /\ finite (ob_cpu_after ob).
Proof.
  unfold trial. intros H. do 3 (apply bind_ok in H as (? & ? & _ & H)). apply bind_ok in H as (r & w1 & H & [= <- _]).
  apply with_crew_ok in H as [s H]. unfold trial_body in H. apply bind_ok in H as (? & ? & _ & H).
  apply bind_ok in H as (server & s1 & _ & H). unfold catch in H.
  match type of H with context [match ?m with _ => _ end] => destruct m as [[v|e] s2] eqn:E end.
  2:{ apply bind_ok in H as (? & ? & _ & H). done. }
  injection H as <- _. apply bind_ok in E as (? & ? & _ & E). apply bind_ok in E as (? & ? & _ & E).
  apply bind_ok in E as (? & ? & _ & E). apply bind_ok in E as (? & ? & _ & E). apply on_host_ok in E as [w2 E].
  apply measure_ok in E as (b & a & wd & sb & sa & shards & E & Hb & Ha). apply run_of_accepted in E.
  eexists _, shards. split; [exact E|]. by split_and!.
Qed.

(** A trial whose placement and shards pass the audit passes it as a whole: the totals, rates and percentiles the
    driver publishes are those the audit recomputes. *)
Lemma accepted_audited ob shards run report args hist u :
  accepted ob shards run -> finite (ob_cpu_before ob) -> finite (ob_cpu_after ob) -> Forall plain_shard shards ->
  check_cpus report run = Ok u -> foldR (add_shard_latencies run args) [] shards = Ok hist ->
  check_run report args run = Ok tt.
Proof.
  intros A Hb Ha Hs Hc Hh. destruct (audited_shards _ _ _ _ _ Hh) as [Hh' He].
  unfold check_run. rewrite Hc. cbn [rbind]. unfold iterR. rewrite (acc_shards _ _ _ A). cbn [rbind py_iter].
  rewrite (accepted_totals ob shards run A Hs Hb Ha He). cbn [rbind]. rewrite Hh. cbn [rbind].
  by apply (accepted_percentiles ob shards run).
Qed.

(** However a comparison ends, every server, client, certificate and version command it started has exited. *)
Theorem http2_stops_everything ROOT fuel o h r h' :
  procs h = [] -> main ROOT fuel o h = (r, h') -> all_exited h'.
Proof. intros Hh. by apply tidy_all_exited; [apply tidy_h2_main|]. Qed.
