(* ===== verification/CompareHttp2Lan.v ===== *)
(** * [bench/compare_http2_lan.py]: HTTP/2 servers measured from another host

    [trial] starts a server and, through a shell on the client host, the supervisor of [Http2Remote]; it relays the
    phases of the run, adds the shards of the clients up ([aggregate]) and retains what both sides logged.  [main]
    rotates the servers over workers, connections and repeats.  The server and the supervisor's shell are a [crew]
    whose own state is the run, a dictionary that also survives exceptions.

    The reader thread and its queue are the environment's answers to [receive]; [events.jsonl] is a write per event. *)

From stdpp Require Import base list strings sets sorting.
From Stdlib Require Import ZArith Lia Ascii.
From S2P Require Import Prelude PyFloat PyText PyVal PyJson PyScript Shlex PyStats PyHash Counters Evidence PyIO System ProcSample AuditHttp2Lan Histogram RemoteLoad Compare Crew Http2Remote CompareHttp2.

Local Open Scope Z_scope.
Open Scope py_scope.

(** ** Options *)

Record Options := mkOptions {
  client_host : string; ssh_key : string; address : string; zhtps : string; go_server : string; client : string;
  server_cpus : string; client_cpus : string; client_processes : Z; workers : string; servers : string;
  connections : string; streams : Z; duration : val; warmup : val; timeout : val; setup_deadline : val;
  setup_concurrency : Z; repeats : Z; output : string; vars : val (* [vars(args)] *) }.

Definition digest : io host string := content <~ read_proc ; ret (sha256_hex content).

(** ** The numbers of a run *)

(** The [for micros, count in sorted(histogram.items())] loop. *)
Fixpoint quantile_from (rank : val) (l : dict) : expr :=
  match l with
  | [] => raise AssertionError "percentile missing"
  | (micros, count) :: l =>
      ifR ($rank <' $count) ($micros /' int 1000) (rank <- py_sub rank count ;; quantile_from rank l)
  end.

Definition quantile (histogram : dict) (percentile : Z) : expr :=
  rank <- (v <- (py_sum (map snd histogram) -' int 1) *' int percentile ;; py_floordiv v (VInt 100)) ;;
  ifR ($rank <' int 0) (Ok VNone)
    (l <- py_sorted_by (fun kv => VTuple [kv.1; kv.2]) histogram ;; quantile_from rank l).

(** [item['failure_kinds'] or {}] *)
Definition kinds_of (item : val) : res dict := v <- orE ($item.["failure_kinds"]) ($(VDict [])) ;; py_items v.

(** A phase of a shard, whose failures by kind are counted. *)
Definition count_phase (phase : string) (counts : dict) (shard : val) : res dict :=
  item <- $shard.[phase] ;;
  assertR ($item.["attempted"] ==' $item.["succeeded"] +' $item.["failed"]) "" ;;;
  kinds <- kinds_of item ;;
  assertR (py_sum (map snd kinds) ==' $item.["failed"]) "" ;;;
  counter_update counts kinds.

Definition phase_total (shards : list val) (phase : string) : expr :=
  counts <- foldR (count_phase phase) [] shards ;;
  mkdict (map (fun k => (k, sumR (fun shard => $shard.[phase].[k]) shards)) stat_names
          ++ [("failure_kinds", $(VDict counts))]).

(** [histogram.update({int(key): value ...})], after its counts are checked *)
Definition add_histogram_of (shard : val) (key_ count : string) : res unit :=
  assertR ((l <- valuesR ($shard.[key_]) ;; py_sum l) ==' $shard.["measurement"].[count]) "".
Definition buckets_of (shard : val) (key_ : string) (histogram : dict) : res dict :=
  l <- itemsR ($shard.[key_]) ;;
  buckets <- dict_by (fun bn => py_int_of bn.1) (fun bn => $(bn.2)) l ;;
  counter_update histogram buckets.
Definition add_latency (st : dict * dict) (shard : val) : res (dict * dict) :=
  add_histogram_of shard "latency_us" "succeeded" ;;;
  add_histogram_of shard "failure_latency_us" "failed" ;;;
  latency <- buckets_of shard "latency_us" st.1 ;;
  failure_latency <- buckets_of shard "failure_latency_us" st.2 ;;
  Ok (latency, failure_latency).

(** [d.update(e)] *)
Definition update_of (d e : val) : expr := l <- py_items d ;; m <- py_items e ;; Ok (VDict (dupdate l m)).

Definition span_of (shards : list val) : expr :=
  maxR (fun shard => $shard.["end_ns"]) shards -' minR (fun shard => $shard.["start_ns"]) shards.

Definition aggregate (shards : list val) (duration_ : val) : expr :=
  result <- mkdict (map (fun phase => (phase, phase_total shards phase)) PHASES
                    ++ map (fun k => (k, sumR (fun shard => $shard.[k]) shards)) run_totals) ;;
  let* (latency, failure_latency) := foldR add_latency ([], []) shards in
  assertR ($result.["failure_log_entries"]
           ==' (l <- mapR (fun phase => $result.[phase].["failed"]) PHASES ;; py_sum l)) "" ;;;
  elapsed <- (span <- span_of shards /' lit 1000000000 0 ;; py_max [duration_; span]) ;;
  rates <- mkdict
    [("seconds", $elapsed); ("requests_per_second", $result.["measurement"].["succeeded"] /' $elapsed);
     ("p50_ms", quantile latency 50); ("p99_ms", quantile latency 99);
     ("failure_p99_ms", quantile failure_latency 99);
     ("client_cpu_cores", sumR (fun shard => $shard.["client_cpu_seconds"]) shards /' $elapsed);
     ("start_skew_ms", (maxR (fun shard => $shard.["start_ns"]) shards -' minR (fun shard => $shard.["start_ns"]) shards)
                       /' lit 1000000 0)] ;;
  result <- update_of result rates ;;
  full <- ($result.["ready_connections"] ==' $result.["requested_connections"])
          &&' ($result.["participating_connections"] ==' $result.["requested_connections"]) ;;
  setR result "full_population" ($(VBool full)).

(** ** The supervisor's shell *)

Definition remote_command (ssh command : list string) : list string :=
  match ssh with [] => command | _ => ssh ++ [shlex_join command] end.

Definition send (remote : handle) (message : val) : io host unit :=
  text <~ lift (json_dumps message) ; fallible (Input remote (text +:+ nl)).
(** [self.events.get(timeout=10)] *)
Definition receive : io host val := external.

(** Closing the input flushes it, which fails when the shell is gone; nothing catches that. *)
Definition close (remote : handle) : io host unit :=
  close_pipe ;~
  catch (wait_timeout remote ;~ ret tt)
    (fun e => if is_class e TimeoutExpired then CompareHttp2.stop remote else throw e).

(** ** The trial *)

(** [cr_own] is the run. *)
Abbreviation trial_state := (crew val).

(** The run is changed in place; [run[k] = v] *)
Definition amend (f : val -> expr) : io trial_state unit := run <~ gets cr_own ; run <~ lift (f run) ; set_own run.
Definition put (k : string) (v : val) : io trial_state unit := amend (fun run => setR run k ($v)).
(** [run[k]] *)
Definition recall (k : string) : io trial_state val := run <~ gets cr_own ; lift ($run.[k]).

Definition require_ (b : res bool) (message : string) : io trial_state unit :=
  ok <~ lift b ; if ok : bool then ret tt else throw (Exn AssertionError message).

Definition server_command (ROOT : string) (o : Options) (name : string) (workers_ port : Z) (cpus : list Z)
    (cert key_ : string) : io host (list val) :=
  command <~
    (if String.eqb name "zhtps" then
       ret (map VStr [zhtps o; "--address"; address o; "--port"; string_of_Z port; "--admin-connections"; "0";
         "--workers"; string_of_Z workers_; "--worker-cpus"; cpu_text cpus; "--no-access-log"; "--max-connections";
         "8176"; "--max-active"; "8176"; "--http2-worker-streams"; "65535"; "--http2-memory-bytes"; "4294967295";
         "--max-requests"; "4294967295"; "--tls-certificate"; cert; "--tls-key"; key_])
     else if String.eqb name "go" then
       ret (map VStr [go_server o; "-listen"; address o +:+ ":" +:+ string_of_Z port; "-http2"; "-tls-certificate"; cert;
         "-tls-key"; key_])
     else
       path <~ clock ;
       ret (path :: map VStr [ROOT +:+ "/bench/http2_lan_server.cjs"; string_of_Z port; cert; key_; address o])) ;
  ret (map VStr ["taskset"; "-c"; cpu_text cpus] ++ command).

Definition environment (workers_ : Z) : list (string * option string) :=
  [("GOGC", None); ("GOMEMLIMIT", None); ("GODEBUG", None); ("GOMAXPROCS", Some (string_of_Z workers_))].

(** One exchange of the clock: the offset and half of the time it took. *)
Definition clock_exchange (remote : handle) : io trial_state val :=
  before <~ on_host clock ;
  on_host (send remote (obj [("kind", VStr "clock")])) ;~
  answer <~ on_host receive ;
  after <~ on_host clock ;
  require_ ($answer.["kind"] ==' str "clock") (py_str answer) ;~
  lift (mkdict
    [("offset_ns", $answer.["unix_ns"] -' (v <- $before +' $after ;; py_floordiv v (VInt 2)));
     ("uncertainty_ns", v <- $after -' $before ;; py_floordiv v (VInt 2))]).

(** [min(clocks, key=lambda item: item['uncertainty_ns'])] *)
Definition better_clock (m item : val) : expr :=
  less <- $item.["uncertainty_ns"] <' $m.["uncertainty_ns"] ;; Ok (if less : bool then item else m).
Definition best_clock (clocks : list val) : expr :=
  match clocks with [] => raise ValueError "min() iterable argument is empty" | c :: l => foldR better_clock c l end.

Definition config_of (o : Options) (remote_dir remote_folder sha : string) (connections_ port : Z) : expr :=
  mkdict
    [("kind", str "run"); ("folder", str remote_folder); ("binary", str (remote_dir +:+ "/client"));
     ("binary_sha256", str sha); ("certificate", str (remote_dir +:+ "/cert.pem"));
     ("url", str ("https://" +:+ address o +:+ ":" +:+ string_of_Z port +:+ "/")); ("connections", int connections_);
     ("streams", int (streams o)); ("duration", $(duration o)); ("warmup", $(warmup o)); ("timeout", $(timeout o));
     ("setup_deadline", $(setup_deadline o)); ("setup_concurrency", int (setup_concurrency o));
     ("client_cpus", rmap (fun l => VList (map VInt l)) (cpu_list (client_cpus o)));
     ("client_processes", int (client_processes o)); ("max_seconds", $(setup_deadline o) +' $(duration o) +' int 45)].

(** [process_snapshot(server.pid) if server.poll() is None else None], and the like *)
Definition if_alive (server : handle) (m : io host val) : io host val :=
  code <~ poll server ; match code with None => m | Some _ => ret VNone end.

Record progress := Progress { before_cpu : val; before_time : val }.

Definition one_of (kind : val) (names : list string) : bool := existsb (fun n => py_eqb kind (VStr n)) names.

(** The [kind] of an event decides; [true] ends the loop. *)
Definition take_event (o : Options) (server remote : handle) (clock_ : val) (p : progress) (event : val)
    : io trial_state (progress * bool) :=
  kind <~ lift ($event.["kind"]) ;
  if py_eqb kind (VStr "launched") then put "client_launch" event ;~ ret (p, false)
  else if py_eqb kind (VStr "prepared") then
    put "prepared" event ;~
    snapshot <~ on_host (if_alive server process_snapshot) ; put "server_prepared" snapshot ;~
    on_host (send remote (obj [("kind", VStr "warmup")])) ;~ ret (p, false)
  else if py_eqb kind (VStr "ready") then
    put "ready" event ;~
    snapshot <~ on_host (if_alive server process_snapshot) ; put "server_before" snapshot ;~
    on_host (send remote (obj [("kind", VStr "measure")])) ;~ ret (p, false)
  else if py_eqb kind (VStr "scheduled") then
    local_start <~ lift ($event.["start_ns"] -' $clock_.["offset_ns"]) ;
    on_host (now <~ clock ; lift (v <- ($local_start -' $now) /' lit 1000000000 0 ;; py_max [VInt 0; v]) ;~ advance) ;~
    time <~ on_host clock ;
    cpu <~ on_host (if_alive server cpu_seconds) ;
    sample <~ on_host (host_sample false) ; put "server_network_before" sample ;~
    ret (Progress cpu time, false)
  else if py_eqb kind (VStr "measured") then
    after_cpu <~ on_host (if_alive server cpu_seconds) ;
    now <~ on_host clock ;
    window <~ lift ($now -' $(before_time p)) ; put "server_cpu_window_seconds" window ;~
    cpu <~ lift (if is_none after_cpu || is_none (before_cpu p) then Ok VNone else py_sub after_cpu (before_cpu p)) ;
    put "server_cpu_seconds" cpu ;~
    snapshot <~ on_host (if_alive server process_snapshot) ; put "server_after" snapshot ;~
    sample <~ on_host (host_sample false) ; put "server_network_after" sample ;~
    ret (p, false)
  else if py_eqb kind (VStr "result") then
    put "client_result" event ;~
    amend (fun run => shards <- iterR ($event.["shards"]) ;; result <- aggregate shards (duration o) ;; update_of run result) ;~
    put "valid" (VBool true) ;~
    ret (p, true)
  else if one_of kind ["error"; "eof"; "invalid"] then throw (Exn RuntimeError (py_str event))
  else ret (p, false).

(** The loop over the supervisor's messages; [fuel] bounds its rounds. *)
Fixpoint relay (fuel : nat) (o : Options) (folder : string) (server remote : handle) (clock_ deadline : val) (p : progress)
    : io trial_state unit :=
  match fuel with
  | O => throw (Exn RuntimeError "out of fuel")
  | S fuel =>
      late <~ (now <~ on_host clock ; lift ($now >' $deadline)) ;
      (if late : bool then throw (Exn TimeoutError "controller trial deadline") else ret tt) ;~
      on_host (send remote (obj [("kind", VStr "heartbeat")])) ;~
      event <~ on_host receive ;
      now <~ on_host clock ;
      event <~ lift (setR event "controller_received_ns" ($now)) ;
      line <~ lift (json_dumps_min event) ;
      on_host (write_file (folder +:+ "/events.jsonl") (line +:+ nl)) ;~
      pb <~ take_event o server remote clock_ p event ;
      if pb.2 : bool then ret tt else relay fuel o folder server remote clock_ deadline pb.1
  end.

(** The [try] block. *)
Definition measured_run (fuel : nat) (o : Options) (ssh : list string) (remote_dir remote_folder folder : string)
    (command : list val) (workers_ connections_ port : Z) : io trial_state unit :=
  command <~ lift (mapR as_str command) ;
  on_host (with_env (environment workers_)) ;~
  server <~ enlist command ;
  deadline <~ (now <~ on_host clock ; lift ($now +' int 20)) ;
  on_host (wait_port fuel server deadline) ;~
  remote <~ enlist (remote_command ssh ["python3"; "-u"; remote_dir +:+ "/http2_remote.py"]) ;
  hello <~ on_host receive ;
  require_ ($hello.["kind"] ==' str "hello") (py_str hello) ;~
  identity_ <~ lift ($hello.["identity"]) ;
  put "client_identity" identity_ ;~
  run <~ gets cr_own ;
  same_host <~ lift ($identity_.["boot_id"] ==' $run.["server_identity"].["boot_id"]) ;
  require_ (Ok (Bool.eqb same_host (length ssh =? 0)%nat)) "client location does not match the selected transport" ;~
  clocks <~ mapM (fun _ => clock_exchange remote) (seq 0 5) ;
  clock_ <~ lift (best_clock clocks) ;
  put "clock" clock_ ;~
  sha <~ on_host digest ;
  config <~ lift (config_of o remote_dir remote_folder sha connections_ port) ;
  put "client_config" config ;~
  on_host (send remote config) ;~
  deadline <~ (now <~ on_host clock ; lift ($now +' $config.["max_seconds"] +' int 30)) ;
  relay fuel o folder server remote clock_ deadline (Progress VNone VNone) ;~
  cpu <~ recall "server_cpu_seconds" ;
  run <~ gets cr_own ;
  cores <~ lift (if is_none cpu then Ok VNone else $cpu /' $run.["server_cpu_window_seconds"]) ;
  put "server_cpu_cores" cores ;~
  run <~ gets cr_own ;
  successes <~ lift ($run.["measurement"].["succeeded"]) ;
  us <~ lift (if negb (is_none cpu) && truthy successes then $cpu *' lit 1000000 0 /' $successes else Ok VNone) ;
  put "server_cpu_us_per_request" us.

Definition on_failure (label : string) (e : exn) : io trial_state unit :=
  put "error" (VStr (exn_repr e)) ;~ on_host (say (label +:+ ": " +:+ exn_repr e)).

Definition save_run (folder : string) (run : val) : io host unit :=
  text <~ lift (json_dumps2 run) ; write_file (folder +:+ "/run.json") (text +:+ nl).

Definition exit_code (code : option Z) : val := match code with Some c => VInt c | None => VNone end.

(** The [finally] block; the server is the first member, the supervisor's shell the second. *)
Definition close_remote : io trial_state unit :=
  members <~ gets cr_members ;
  match members !! 1%nat with Some remote => on_host (close remote) | None => ret tt end.
Definition stop_server : io trial_state unit :=
  members <~ gets cr_members ;
  match members !! 0%nat with
  | Some server =>
      code <~ on_host (poll server) ; put "server_exit_before_shutdown" (exit_code code) ;~
      on_host (CompareHttp2.stop server) ;~
      code <~ on_host (returncode server) ; put "server_exit_code" code
  | None => ret tt
  end.
Definition trial_cleanup (folder : string) : io trial_state unit :=
  close_remote ;~
  stop_server ;~
  sample <~ on_host (host_sample false) ; put "server_host_after" sample ;~
  run <~ gets cr_own ; on_host (save_run folder run).

(** [len(content.splitlines())] of bytes *)
Fixpoint byte_lines (open_ : bool) (s : string) : Z :=
  match s with
  | "" => if open_ then 1 else 0
  | String "010" s => 1 + byte_lines false s
  | String "013" (String "010" s) => 1 + byte_lines false s
  | String "013" s => 1 + byte_lines false s
  | String _ s => byte_lines true s
  end%string.

(** A failure log against its receipt; the content is what the compressed file holds. *)
Definition check_receipt (item : val) : io host unit :=
  lift (v <- $item.["path"] ;; as_str v) ;~
  content <~ read_proc ;
  same <~ lift (str (sha256_hex content) ==' $item.["sha256_uncompressed"]) ;
  (if same : bool then ret tt else throw (Exn AssertionError "")) ;~
  same <~ lift (int (byte_lines false content) ==' $item.["entries"]) ;
  (if same : bool then ret tt else throw (Exn AssertionError "")).

(** After the run: what the client host kept. *)
Definition retrieve (ssh : list string) (remote_folder folder : string) (run : val) : io host val :=
  archive <~ run_process true (remote_command ssh ["tar"; "-C"; remote_folder; "-czf"; "-"; "."]) ;
  run <~ (if cp_code archive =? 0 then
            external ;~
            external ;~
            valid <~ lift (get ($run) "valid") ;
            (if truthy valid then
               items <~ lift (iterR ($run.["client_result"].["failure_logs"])) ; each check_receipt items
             else ret tt) ;~
            ret run
          else lift (run <- setR run "artifact_error" (str (cp_stderr archive)) ;; setR run "valid" ($(VBool false)))) ;
  save_run folder run ;~
  ret run.

Section Root.
Context (ROOT : string).

Definition initial_run (o : Options) (ssh : list string) (name : string) (workers_ connections_ repeat : Z)
    (cpus : list Z) (command : list val) : io host val :=
  identity_ <~ identity ;
  before <~ host_sample false ;
  lift (run <- mkdict
          [("server", str name); ("workers", int workers_); ("connections", int connections_); ("streams", int (streams o));
           ("repeat", int repeat); ("server_cpus", $(ints_val cpus)); ("server_command", $(VList command));
           ("server_identity", $identity_); ("server_host_before", $before); ("valid", $(VBool false))] ;;
        setR run "client_location" (str (match ssh with [] => "loopback" | _ => "remote" end))).

Definition trial (fuel : nat) (o : Options) (ssh : list string) (remote_dir output_ name : string)
    (workers_ connections_ repeat port : Z) (cert key_ label : string) : io host val :=
  let folder := output_ +:+ "/" +:+ label in
  let remote_folder := remote_dir +:+ "/" +:+ label in
  external ;~
  cpus <~ lift (rmap (take (Z.to_nat workers_)) (cpu_list (server_cpus o))) ;
  command <~ server_command ROOT o name workers_ port cpus cert key_ ;
  run <~ initial_run o ssh name workers_ connections_ repeat cpus command ;
  external ;~
  external ;~
  external ;~
  r <~ with_crew run
         (catch (measured_run fuel o ssh remote_dir remote_folder folder command workers_ connections_ port)
            (on_failure label))
         (trial_cleanup folder) ;
  retrieve ssh remote_folder folder r.2.

(** ** [main] *)

Definition valid_options (o : Options) (workers_ connections_ : list Z) (names : list string) : res unit :=
  bad <- Ok (negb (forallb (fun n => existsb (String.eqb n) ["zhtps"; "go"; "node"; "bun"]) names))
         ||' ((py_min (map VInt workers_)) <' int 1)
         ||' ((py_max (map VInt workers_)) >' (cpus <- cpu_list (server_cpus o) ;; int (Z.of_nat (length cpus)))) ;;
  usage_if bad "invalid servers or workers" ;;;
  bad <- ((py_min (map VInt connections_)) <' int (client_processes o))
         ||' Ok (negb (in_range (streams o) 100)) ||' Ok (repeats o <? 1) ||' ($(duration o) <=' int 0) ;;
  usage_if bad "invalid connection counts or measurement parameters".

Definition ssh_options (key_ : string) : list string :=
  ["-i"; key_; "-o"; "IdentitiesOnly=yes"; "-o"; "BatchMode=yes"; "-o"; "StrictHostKeyChecking=yes";
   "-o"; "ConnectTimeout=10"].

(** The sources that are files. *)
Definition is_file (l : list string) (path : string) : io host (list string) :=
  file <~ clock ; ret (if truthy file then l ++ [path] else l).
Definition sources_of : io host (list string) :=
  tree <~ rglob ;
  load_client <~ rglob ;
  foldM is_file []
    (["build.zig"; "build.zig.zon"] ++ tree
     ++ ["bench/compare_http2_lan.py"; "bench/compare_http2.py"; "bench/http2_remote.py"; "bench/http2_lan_server.cjs";
         "bench/go_server/main.go"] ++ load_client).

(** The programs, with the runtimes among [names]; [None] for one that is not found. *)
Definition runtimes (names : list string) : list string :=
  List.filter (fun n => existsb (String.eqb n) names) ["node"; "bun"].
Definition binaries_of (o : Options) (names : list string) : io host (list (string * val)) :=
  found <~ foldM (fun l name => path <~ clock ; ret (l ++ [(name, path)])) [] (runtimes names) ;
  ret ([("zhtps", VStr (zhtps o)); ("go", VStr (go_server o)); ("client", VStr (client o))] ++ found).

Definition runtime_version (d : dict) (name : string) : io host dict :=
  path <~ clock ;
  path <~ lift (as_str path) ;
  version <~ check_output [path; "--version"] ;
  ret (sset name (VStr (strip version)) d).

Definition initial_report (o : Options) (remote_dir : string) (names : list string) (binaries : list (string * val))
    (sources : list string) : io host val :=
  started <~ clock ;
  identity_ <~ identity ;
  binary <~ foldM binary_sha [] binaries ;
  source <~ foldM sha_of [] sources ;
  go <~ check_output ["go"; "version"] ;
  zig <~ check_output ["zig"; "version"] ;
  versions <~ foldM runtime_version (dset (VStr "zig") (VStr (strip zig)) [(VStr "go", VStr (strip go))]) (runtimes names) ;
  ret (obj [("arguments", vars o); ("started_utc", started); ("server_identity", identity_);
            ("remote_directory", VStr remote_dir); ("complete", VBool false); ("binary_sha256", VDict binary);
            ("source_sha256", VDict source); ("versions", VDict versions); ("runs", VList [])]).

(** [save()] *)
Definition save (output_ : string) (report : val) : io host unit :=
  text <~ lift (json_dumps2 report) ;
  write_file (output_ +:+ "/results.tmp") (text +:+ nl) ;~
  rename_file (output_ +:+ "/results.tmp") (output_ +:+ "/results.json").

Definition certificate_command (address_ key_ cert : string) : list string :=
  ["openssl"; "req"; "-x509"; "-newkey"; "ec"; "-pkeyopt"; "ec_paramgen_curve:P-256"; "-nodes"; "-keyout"; key_;
   "-out"; cert; "-days"; "1"; "-subj"; "/CN=zhtps-benchmark"; "-addext"; "subjectAltName=IP:" +:+ address_].

(** A port no earlier trial had. *)
Fixpoint fresh_port (fuel : nat) (used : list Z) : io host Z :=
  match fuel with
  | O => throw (Exn RuntimeError "out of fuel")
  | S fuel =>
      port <~ available_port ; if existsb (Z.eqb port) used then fresh_port fuel used else ret port
  end.

Definition run_line (label : string) (population : Z) (run : val) : res string :=
  fstring [F label; F ": "; grouped_fixed 0 ($run.["requests_per_second"]); F " req/s, p99="; V ($run.["p99_ms"]);
           F " ms, setup failures="; V ($run.["setup"].["failed"]); F " + unattempted="; V ($run.["setup_unattempted"]);
           F ", warmup failures="; V ($run.["warmup"].["failed"]); F ", measured failures=";
           V ($run.["measurement"].["failed"]); F ", ready="; V ($run.["ready_connections"]); F "/"; V (int population)].

Definition label_of_trial (count population : Z) (name : string) (repeat : Z) : string :=
  "w" +:+ string_of_Z count +:+ "-c" +:+ string_of_Z population +:+ "-" +:+ name +:+ "-r" +:+ string_of_Z (repeat + 1).

(** One trial of the matrix: the ports used so far and the report. *)
Definition trial_step (fuel : nat) (o : Options) (ssh : list string) (remote_dir output_ cert key_ : string)
    (count population repeat : Z) (st : list Z * val) (name : string) : io host (list Z * val) :=
  port <~ fresh_port fuel st.1 ;
  let label := label_of_trial count population name repeat in
  run <~ trial fuel o ssh remote_dir output_ name count population repeat port cert key_ label ;
  report <~ lift (append_run st.2 run) ;
  save output_ report ;~
  valid <~ lift ($run.["valid"]) ;
  (if truthy valid then line <~ lift (run_line label population run) ; say line else ret tt) ;~
  ret (st.1 ++ [port], report).

Definition population_step (fuel : nat) (o : Options) (ssh : list string) (remote_dir output_ cert key_ : string)
    (names : list string) (count : Z) (st : list Z * val) (population : Z) : io host (list Z * val) :=
  foldM (fun st repeat =>
           foldM (trial_step fuel o ssh remote_dir output_ cert key_ count population (Z.of_nat repeat)) st
             (rotate repeat (selected names count)))
    st (seq 0 (Z.to_nat (repeats o))).

(** [subprocess.run(['scp', ...], check=True)] *)
Definition copy_to (options : list string) (o : Options) (remote_dir : string) (file : string * string) : io host unit :=
  command_shown (["scp"] ++ options ++ [file.1; client_host o +:+ ":" +:+ remote_dir +:+ "/" +:+ file.2]).

(** The trials, with a certificate that lives as long as they run. *)
Definition trials (fuel : nat) (o : Options) (options ssh : list string) (remote_dir output_ : string)
    (workers_ connections_ : list Z) (names : list string) (binaries : list (string * val)) (sources : list string)
    (report : val) : io host val :=
  directory <~ answer_text ;
  finally
    (let cert := directory +:+ "/cert.pem" in
     let key_ := directory +:+ "/key.pem" in
     result <~ run_process false (certificate_command (address o) key_ cert) ;
     (if cp_code result =? 0 then ret tt
      else throw (Exn CalledProcessError (join " " (certificate_command (address o) key_ cert)))) ;~
     each (copy_to options o remote_dir)
       [(client o, "client"); (ROOT +:+ "/bench/http2_remote.py", "http2_remote.py"); (cert, "cert.pem")] ;~
     st <~ foldM (fun st count => foldM (population_step fuel o ssh remote_dir output_ cert key_ names count) st connections_)
             ([], report) workers_ ;
     each (fun nb => lift (as_str nb.2) ;~ unchanged st.2 "binary_sha256" nb.1) binaries ;~
     each (unchanged st.2 "source_sha256") sources ;~
     ret st.2)
    (external ;~ ret tt).

(** [main] from its parsed arguments on. *)
Definition main (fuel : nat) (o : Options) : io host val :=
  workers_ <~ lift (int_words "," (workers o)) ;
  connections_ <~ lift (int_words "," (connections o)) ;
  let names := split_char "," (servers o) in
  lift (valid_options o workers_ connections_ names) ;~
  output_ <~ answer_text ;
  external ;~
  soft <~ clock ;
  hard <~ clock ;
  lift (l <- py_max [soft; VInt 131072] ;; py_min [hard; l]) ;~
  external ;~
  key_ <~ answer_text ;
  let options := ssh_options key_ in
  let ssh := ["ssh"] ++ options ++ [client_host o] in
  remote_dir <~ (text <~ check_output (ssh ++ ["mktemp -d /tmp/zhtps-http2-lan.XXXXXXXX"]) ; ret (strip text)) ;
  sources <~ sources_of ;
  binaries <~ binaries_of o names ;
  report <~ initial_report o remote_dir names binaries sources ;
  external ;~
  each (fun _ => external ;~ ret tt) sources ;~
  save output_ report ;~
  report <~ trials fuel o options ssh remote_dir output_ workers_ connections_ names binaries sources report ;
  finished <~ clock ;
  report <~ lift (setR report "finished_utc" ($finished)) ;
  complete <~ lift (runs <- iterR ($report.["runs"]) ;; allR (fun run => test ($run.["valid"])) runs) ;
  report <~ lift (setR report "complete" ($(VBool complete))) ;
  save output_ report ;~
  (if complete : bool then command_shown (ssh ++ [shlex_join ["rm"; "-rf"; "--"; remote_dir]])
   else throw (Exn (SystemExit 1) "Incomplete trials were retained; remote staging was kept for diagnosis")) ;~
  ret report.
End Root.

(** ** Lemmas *)

(** *** Nothing is left running, unless closing the shell's input fails *)

Lemma settled_digest : settled digest.
Proof. unfold digest. settle. Qed.
Lemma settled_lan_send remote message : settled (send remote message).
Proof. unfold send. settle. Qed.
Lemma settled_receive : settled receive.
Proof. unfold receive. settle. Qed.
Lemma settled_if_alive server m : settled m -> settled (if_alive server m).
Proof. intros Hm. unfold if_alive. settle. Qed.
#[export] Hint Resolve settled_digest settled_lan_send settled_receive settled_if_alive settled_close_pipe : zhtps.
Lemma settled_lan_close remote : settled (close remote).
Proof. unfold close. settle. Qed.
Lemma settled_server_command ROOT o name workers_ port cpus cert key_ :
  settled (server_command ROOT o name workers_ port cpus cert key_).
Proof. unfold server_command. settle. Qed.
Lemma settled_save_run folder run : settled (save_run folder run).
Proof. unfold save_run. settle. Qed.
Lemma settled_check_receipt item : settled (check_receipt item).
Proof. unfold check_receipt. settle. Qed.
Lemma settled_lan_save output_ report : settled (save output_ report).
Proof. unfold save. settle. Qed.
Lemma settled_fresh_port fuel used : settled (fresh_port fuel used).
Proof. induction fuel; cbn; settle. Qed.
#[export] Hint Resolve settled_lan_close settled_server_command settled_save_run settled_check_receipt settled_lan_save
  settled_fresh_port : zhtps.

Ltac watching :=
  repeat first
    [ progress intros
    | solve [auto with zhtps]
    | apply watch_bind
    | apply watch_catch
    | case_match
    | apply watch_mapM
    | apply watch_on_host; tidily ].

Lemma watch_amend h0 f : watch h0 (amend f).
Proof. unfold amend. watching. Qed.
#[export] Hint Resolve watch_amend : zhtps.
Lemma watch_put h0 k v : watch h0 (put k v).
Proof. apply watch_amend. Qed.
Lemma watch_require h0 b message : watch h0 (require_ b message).
Proof. unfold require_. watching. Qed.
#[export] Hint Resolve watch_put watch_require : zhtps.
Lemma watch_take_event h0 o server remote clock_ p event : watch h0 (take_event o server remote clock_ p event).
Proof. unfold take_event. watching. Qed.
#[export] Hint Resolve watch_take_event : zhtps.
Lemma watch_relay h0 fuel o folder server remote clock_ deadline p : watch h0 (relay fuel o folder server remote clock_ deadline p).
Proof. revert p. induction fuel; intros p; cbn [relay]; watching. Qed.
#[export] Hint Resolve watch_relay : zhtps.
Lemma watch_clock_exchange h0 remote : watch h0 (clock_exchange remote).
Proof. unfold clock_exchange. watching. Qed.
#[export] Hint Resolve watch_clock_exchange : zhtps.
Lemma watch_measured_run h0 fuel o ssh remote_dir remote_folder folder command workers_ connections_ port :
  watch h0 (measured_run fuel o ssh remote_dir remote_folder folder command workers_ connections_ port).
Proof. unfold measured_run, recall. watching. Qed.
Lemma watch_on_failure h0 label e : watch h0 (on_failure label e).
Proof. unfold on_failure. watching. Qed.

(** At most two processes: the server and the shell. *)
Ltac staying :=
  repeat first
    [ progress intros
    | solve [auto with zhtps]
    | apply stays_lift | apply stays_ret | apply stays_throw | apply stays_gets
    | apply stays_bind
    | apply stays_catch
    | case_match
    | apply stays_mapM
    | apply stays_on_host; solve [auto] ].

(** The run stays a dictionary. *)
Definition shape (n : nat) (s : trial_state) : Prop := at_most_members n s /\ exists d, cr_own s = VDict d.

Lemma amend_spec f s r s' : amend f s = (r, s') ->
  cr_members s' = cr_members s /\ cr_host s' = cr_host s
  /\ match f (cr_own s) with Ok run => r = Ok tt /\ cr_own s' = run | Err e => r = Err e /\ s' = s end.
Proof. unfold amend, bind, gets, lift, set_own, modify. destruct (f (cr_own s)); by intros [= <- <-]. Qed.
Lemma shape_amend n f : (forall run run', f run = Ok run' -> exists d, run' = VDict d) -> stays (shape n) (amend f).
Proof.
  intros Hf s r s' [Hs Hd] (Hm & _ & H)%amend_spec. assert (W : shape n s'); [|by destruct r].
  split; [unfold at_most_members in *; by rewrite Hm|]. destruct (f (cr_own s)) eqn:E; [|by destruct H as [_ ->]].
  destruct H as [_ ->]. by eapply Hf.
Qed.
Lemma shape_put n k v : stays (shape n) (put k v).
Proof. apply shape_amend. intros run run' (d & w & _ & _ & ->)%setR_ok. by eexists. Qed.
#[local] Hint Resolve shape_put : zhtps.
Lemma update_of_ok d e v : update_of d e = Ok v -> exists l m, d = VDict l /\ e = VDict m /\ v = VDict (dupdate l m).
Proof. destruct d, e; try done. intros [= <-]. by do 2 eexists. Qed.
Lemma shape_result n o event :
  stays (shape n) (amend (fun run => shards <- iterR ($event.["shards"]) ;; result <- aggregate shards (duration o) ;; update_of run result)).
Proof.
  apply shape_amend. intros run run' (shards & _ & H)%rbind_ok. apply rbind_ok in H as (result & _ & H).
  apply update_of_ok in H as (l & m & _ & _ & ->). by eexists.
Qed.
#[local] Hint Resolve shape_result : zhtps.
Lemma shape_require n b message : stays (shape n) (require_ b message).
Proof. unfold require_. staying. Qed.
#[local] Hint Resolve shape_require : zhtps.
Lemma shape_take_event n o server remote clock_ p event : stays (shape n) (take_event o server remote clock_ p event).
Proof. unfold take_event. staying. Qed.
#[local] Hint Resolve shape_take_event : zhtps.
Lemma shape_relay n fuel o folder server remote clock_ deadline p :
  stays (shape n) (relay fuel o folder server remote clock_ deadline p).
Proof. revert p. induction fuel; intros p; cbn [relay]; staying. Qed.
#[local] Hint Resolve shape_relay : zhtps.
Lemma shape_enlist n command : triple (shape n) (enlist command) (fun _ => shape (S n)) (shape (S n)).
Proof.
  intros s r s' [Hs Hd] H. pose proof (enlist_members n command _ _ _ Hs H) as Hm. apply enlist_spec in H as [Ho _].
  destruct r; (split; [exact Hm|by rewrite Ho]).
Qed.

Lemma stays_weaken {X A} (P E : crew X -> Prop) (m : io (crew X) A) :
  stays P m -> (forall s, P s -> E s) -> triple P m (fun _ => P) E.
Proof. intros Hm HE s r s' Hs H. specialize (Hm _ _ _ Hs H). destruct r; [exact Hm|by apply HE]. Qed.
Lemma shape_le n m s : (n <= m)%nat -> shape n s -> shape m s.
Proof. unfold shape, at_most_members. intros ? []. split; [lia|done]. Qed.

Lemma shape_measured_run fuel o ssh remote_dir remote_folder folder command workers_ connections_ port :
  triple (shape 0) (measured_run fuel o ssh remote_dir remote_folder folder command workers_ connections_ port)
    (fun _ => shape 2) (shape 2).
Proof.
  unfold measured_run. do 2 (eapply triple_bind; [apply stays_weaken; [staying|intros s; apply shape_le; lia]|intros]).
  eapply triple_bind; [eapply triple_weaken; [..|apply (shape_enlist 0)]; [done|intros ? ?; exact id|intros s; apply shape_le; lia]|].
  intros server. do 2 (eapply triple_bind; [apply stays_weaken; [staying|intros s; apply shape_le; lia]|intros]).
  eapply triple_bind; [eapply triple_weaken; [..|apply (shape_enlist 1)]; [done|intros ? ?; exact id|done]|].
  intros remote. apply stays_weaken; [|done]. unfold clock_exchange, recall. staying.
Qed.
Lemma shape_on_failure n label e : stays (shape n) (on_failure label e).
Proof. unfold on_failure. staying. Qed.

Lemma lan_close_exits remote w r w' :
  pipes_hold w -> (remote < length (procs w))%nat -> close remote w = (r, w') -> r = Ok tt /\ exited remote w'.
Proof.
  intros Hp Hr. unfold close. unfold bind at 1. destruct (close_pipe w) as [x w1] eqn:E.
  pose proof (settled_close_pipe _ _ _ E) as [L1 N1].
  assert (x = Ok tt) as ->.
  { unfold close_pipe, bind, advance in E. cbn in E. rewrite (Hp (steps w)) in E. by injection E as <- _. }
  unfold catch at 1. unfold bind at 1. unfold wait_timeout. unfold bind at 1.
  destruct (poll remote w1) as [[[c|]|e] w2] eqn:Ep.
  - intros [= <- <-]. split; [done|]. by eapply poll_some.
  - cbn [throw lift]. cbn. intros H. pose proof (settled_poll _ _ _ _ Ep) as [_ N2].
    apply (ender_stop remote) in H; [exact H|lia].
  - by unfold poll, bind, advance, gets in Ep.
Qed.

Lemma put_ok k v s r s' : (exists d, cr_own s = VDict d) -> put k v s = (r, s') ->
  r = Ok tt /\ cr_members s' = cr_members s /\ cr_host s' = cr_host s /\ exists d, cr_own s' = VDict d.
Proof.
  intros [d Hd] (Hm & Hh & H)%amend_spec. rewrite Hd in H. destruct H as [-> Ho]. split_and!; [done|done|done|by eexists].
Qed.

Lemma close_remote_spec h0 s r s' :
  watched h0 s -> pipes_hold (cr_host s) -> close_remote s = (r, s') ->
  r = Ok tt /\ watched h0 s' /\ cr_members s' = cr_members s /\ cr_own s' = cr_own s
  /\ forall k, cr_members s !! 1%nat = Some k -> exited k (cr_host s').
Proof.
  intros W Hp. unfold close_remote, bind, gets. destruct (cr_members s !! 1%nat) as [remote|] eqn:E.
  - intros H. destruct (watched_settled _ _ _ _ _ (settled_lan_close remote) W H) as (W' & Hm & Ho).
    unfold on_host, zoom in H. destruct (close remote (cr_host s)) as [x h] eqn:Ec. injection H as -> <-.
    apply lan_close_exits in Ec as [-> Hx]; [|done|apply W; apply list_elem_of_In; by eapply list_elem_of_lookup_2].
    split_and!; [done|done|done|done|]. by intros k [= <-].
  - intros [= <- <-]. by split_and!.
Qed.

Lemma lan_stop_server_spec h0 s r s' :
  watched h0 s -> (exists d, cr_own s = VDict d) ->
  (forall k, In k (cr_members s) -> cr_members s !! 0%nat = Some k \/ exited k (cr_host s)) ->
  stop_server s = (r, s') -> dismissed h0 s'.
Proof.
  intros W Hd Hin. unfold stop_server. unfold bind at 1, gets at 1. destruct (cr_members s !! 0%nat) as [server|] eqn:E.
  2:{ intros [= <- <-]. destruct W as (L & N & _). split; [done|]. intros k Hk. destruct (N k Hk) as [|Hm]; [done|].
      by destruct (Hin _ Hm) as [?|]. }
  intros H. unfold bind at 1 in H. destruct (on_host (poll server) s) as [x1 s1] eqn:E1.
  destruct (watched_settled _ _ _ _ _ (settled_poll server) W E1) as (W1 & M1 & O1).
  assert (X1 : later (cr_host s) (cr_host s1)).
  { unfold on_host, zoom in E1. destruct (poll server (cr_host s)) eqn:Ep. injection E1 as _ <-. by eapply settled_poll in Ep as [? _]. }
  assert (exists c, x1 = Ok c) as [c ->].
  { unfold on_host, zoom in E1. destruct (poll server (cr_host s)) as [y ?] eqn:Ep. injection E1 as <- _.
    unfold poll, bind, advance, gets in Ep. injection Ep as <- _. by eexists. }
  unfold bind at 1 in H. destruct (put _ _ s1) as [x2 s2] eqn:E2. apply put_ok in E2 as (-> & M2 & H2 & D2); [|by rewrite O1].
  assert (W2 : watched h0 s2) by (unfold watched in *; by rewrite M2, H2).
  unfold bind at 1 in H. destruct (on_host (CompareHttp2.stop server) s2) as [x3 s3] eqn:E3.
  assert (Hs : (server < length (procs (cr_host s2)))%nat).
  { rewrite H2. apply W1. rewrite M1. apply list_elem_of_In. by eapply list_elem_of_lookup_2. }
  assert (D3 : x3 = Ok tt /\ dismissed h0 s3).
  { unfold on_host, zoom in E3. destruct (CompareHttp2.stop server (cr_host s2)) as [y w] eqn:Es. injection E3 as <- <-.
    destruct (ender_stop server) as [Hst Hex]. pose proof (Hst _ _ _ Es) as [L3 N3]. apply Hex in Es as [-> Hx]; [|done].
    split; [done|]. destruct W2 as (L2 & N2 & _). split; cbn; [by eapply later_trans|]. intros k Hk.
    destruct (N2 k ltac:(lia)) as [Hk2|Hm]; [by apply L3|]. rewrite M2, M1 in Hm. destruct (Hin _ Hm) as [[= ->]|Hk2]; [done|].
    apply L3. rewrite H2. by apply X1. }
  destruct D3 as [-> D3]. unfold bind at 1 in H. destruct (on_host (returncode server) s3) as [x4 s4] eqn:E4.
  assert (D4 : dismissed h0 s4) by (eapply dismissed_tidy; [|exact D3|exact E4]; auto with zhtps).
  destruct x4 as [code|e]; [|by injection H as _ <-]. apply amend_spec in H as (_ & Hh & _). unfold dismissed in *. by rewrite Hh.
Qed.

Lemma lan_cleanup_spec h0 folder s r s' :
  watched h0 s -> shape 2 s -> pipes_hold (cr_host s) -> trial_cleanup folder s = (r, s') -> dismissed h0 s'.
Proof.
  intros W [Hn Hd] Hp H. unfold trial_cleanup in H. unfold bind at 1 in H. destruct (close_remote s) as [x1 s1] eqn:E1.
  apply (close_remote_spec h0) in E1 as (-> & W1 & M1 & O1 & X1); [|done|done].
  unfold bind at 1 in H. destruct (stop_server s1) as [x2 s2] eqn:E2.
  apply (lan_stop_server_spec h0) in E2 as D2; [|done|by rewrite O1|].
  2:{ intros k Hk. rewrite M1 in *. unfold at_most_members in Hn. destruct (cr_members s) as [|a [|b [|? ?]]]; cbn in Hk, Hn; [done| | |lia].
      - left. by destruct Hk as [->|[]].
      - destruct Hk as [->|[->|[]]]; [by left|right; by apply X1]. }
  destruct x2; [|by injection H as _ <-]. unfold bind at 1 in H.
  destruct (on_host (host_sample false) s2) as [x3 s3] eqn:E3.
  assert (D3 : dismissed h0 s3) by (eapply dismissed_tidy; [|exact D2|exact E3]; auto with zhtps).
  destruct x3; [|by injection H as _ <-]. unfold bind at 1 in H. destruct (put _ _ s3) as [x4 s4] eqn:E4.
  apply amend_spec in E4 as (_ & H4 & _). assert (D4 : dismissed h0 s4) by (unfold dismissed in *; by rewrite H4).
  destruct x4; [|by injection H as _ <-]. unfold bind, gets in H. eapply dismissed_tidy; [|exact D4|exact H]. auto with zhtps.
Qed.

(** *** Tidy as long as the pipes hold *)

Definition orderly {A} (m : io host A) : Prop := forall w r w', pipes_hold w -> m w = (r, w') ->
  later w w' /\ forall k, (length (procs w) <= k < length (procs w'))%nat -> exited k w'.

Lemma orderly_tidy {A} (m : io host A) : tidy m -> orderly m.
Proof. intros Hm w r w' _ H. by eapply Hm. Qed.
Lemma orderly_bind_post {A B} (Q : A -> Prop) (m : io host A) (k : A -> io host B) :
  orderly m -> (forall w a w', m w = (Ok a, w') -> Q a) -> (forall a, Q a -> orderly (k a)) -> orderly (bind m k).
Proof.
  intros Hm HQ Hk w r w' Hp. unfold bind. destruct (m w) as [[a|e] w1] eqn:E; pose proof E as E'; apply Hm in E as [L1 N1]; [|done| |done].
  - intros H. apply Hk in H as [L2 N2]; [|by eapply HQ|by eapply pipes_later]. by eapply tidy_trans.
  - by intros [= _ <-].
Qed.
Lemma orderly_bind {A B} (m : io host A) (k : A -> io host B) : orderly m -> (forall a, orderly (k a)) -> orderly (bind m k).
Proof. intros Hm Hk. by apply (orderly_bind_post (fun _ => True)). Qed.
Lemma orderly_foldM {A S} (f : S -> A -> io host S) l s : (forall s a, orderly (f s a)) -> orderly (foldM f s l).
Proof. intros Hf. revert s. induction l as [|a l IH]; intros s; cbn; [apply orderly_tidy; auto with zhtps|]. by apply orderly_bind. Qed.
Lemma orderly_finally {A} (m : io host A) c : orderly m -> orderly c -> orderly (finally m c).
Proof.
  intros Hm Hc w r w' Hp. unfold finally. destruct (m w) as [x w1] eqn:E1. apply Hm in E1 as [L1 N1]; [|done].
  destruct (c w1) as [[u|e] w2] eqn:E2; apply Hc in E2 as [L2 N2]; [|by eapply pipes_later| |by eapply pipes_later];
    intros [= _ <-]; by eapply tidy_trans.
Qed.

Lemma mkdict_dict l v : mkdict l = Ok v -> exists d, v = VDict d.
Proof. unfold mkdict. intros (d & _ & ->)%rmap_ok. by eexists. Qed.
Lemma initial_run_dict o ssh name workers_ connections_ repeat cpus command w run w' :
  initial_run o ssh name workers_ connections_ repeat cpus command w = (Ok run, w') -> exists d, run = VDict d.
Proof.
  unfold initial_run. intros H. do 2 (apply bind_ok in H as (? & ? & _ & H)). apply lift_ok in H as [H _].
  apply rbind_ok in H as (r & _ & H). apply setR_ok in H as (d & v & _ & _ & ->). by eexists.
Qed.

Lemma orderly_crew fuel o ssh remote_dir remote_folder folder command workers_ connections_ port label run :
  (exists d, run = VDict d) ->
  orderly (with_crew run
    (catch (measured_run fuel o ssh remote_dir remote_folder folder command workers_ connections_ port) (on_failure label))
    (trial_cleanup folder)).
Proof.
  intros Hd h r w Hp H. apply with_crew_cases in H as (r1 & s1 & r2 & s2 & E1 & E2 & -> & _).
  assert (W0 : watched h (Crew h [] run)) by (split_and!; [apply later_refl|cbn; intros; lia|done]).
  assert (S0 : shape 0 (Crew h [] run)) by (split; [unfold at_most_members; cbn; lia|done]).
  assert (W1 : watched h s1 /\ shape 2 s1).
  { unfold catch in E1. destruct (measured_run _ _ _ _ _ _ _ _ _ _ (Crew h [] run)) as [[u|e] s] eqn:E.
    - injection E1 as _ <-. split; [exact (watch_measured_run h _ _ _ _ _ _ _ _ _ _ _ _ _ W0 E)|].
      exact (shape_measured_run _ _ _ _ _ _ _ _ _ _ _ _ _ S0 E).
    - pose proof (watch_measured_run h _ _ _ _ _ _ _ _ _ _ _ _ _ W0 E) as W. cbn in W.
      pose proof (shape_measured_run _ _ _ _ _ _ _ _ _ _ _ _ _ S0 E) as S. cbn in S.
      pose proof (watch_on_failure h label e _ _ _ W E1). pose proof (shape_on_failure 2 label e _ _ _ S E1). by destruct r1. }
  destruct W1 as [W1 S1]. apply (lan_cleanup_spec h) in E2 as [L N]; [done|done|done|]. eapply pipes_later; [|exact Hp]. apply W1.
Qed.

Lemma orderly_trial ROOT fuel o ssh remote_dir output_ name workers_ connections_ repeat port cert key_ label :
  orderly (trial ROOT fuel o ssh remote_dir output_ name workers_ connections_ repeat port cert key_ label).
Proof.
  unfold trial. cbv zeta. do 3 (apply orderly_bind; [apply orderly_tidy; auto with zhtps|]; intros ?).
  apply (orderly_bind_post (fun run => exists d, run = VDict d)); [apply orderly_tidy; unfold initial_run; tidily|apply initial_run_dict|].
  intros run Hd. do 3 (apply orderly_bind; [apply orderly_tidy; auto with zhtps|]; intros ?).
  apply orderly_bind; [by apply orderly_crew|]. intros r. apply orderly_tidy. unfold retrieve. tidily.
Qed.

Lemma tidy_lan_initial_report o remote_dir names binaries sources : tidy (initial_report o remote_dir names binaries sources).
Proof. unfold initial_report, runtime_version, binary_sha, sha_of. tidily. Qed.
#[export] Hint Resolve tidy_lan_initial_report : zhtps.
Lemma tidy_copy_to options o remote_dir file : tidy (copy_to options o remote_dir file).
Proof. unfold copy_to. auto with zhtps. Qed.
#[export] Hint Resolve tidy_copy_to : zhtps.

Lemma orderly_trials ROOT fuel o options ssh remote_dir output_ workers_ connections_ names binaries sources report :
  orderly (trials ROOT fuel o options ssh remote_dir output_ workers_ connections_ names binaries sources report).
Proof.
  unfold trials. apply orderly_bind; [apply orderly_tidy; auto with zhtps|]. intros directory.
  apply orderly_finally; [|apply orderly_tidy; auto with zhtps].
  do 3 (apply orderly_bind; [apply orderly_tidy; tidily|]; intros ?).
  apply orderly_bind.
  - apply orderly_foldM. intros st count. apply orderly_foldM. intros st' population. unfold population_step.
    apply orderly_foldM. intros st2 repeat. apply orderly_foldM. intros st3 name. unfold trial_step.
    apply orderly_bind; [apply orderly_tidy; auto with zhtps|]. intros port.
    apply orderly_bind; [apply orderly_trial|]. intros run. apply orderly_tidy. tidily.
  - intros st. apply orderly_tidy. unfold unchanged. tidily.
Qed.

Lemma orderly_lan_main ROOT fuel o : orderly (main ROOT fuel o).
Proof.
  unfold main. cbv zeta. repeat (apply orderly_bind; [first [apply orderly_trials|apply orderly_tidy;
    unfold sources_of, is_file, binaries_of, rglob; tidily]|]; intros ?). apply orderly_tidy. auto with zhtps.
Qed.

(** ** A comparison of one trial *)

Definition lan_vars : val :=
  obj [("workers", VStr "1"); ("connections", VStr "1"); ("servers", VStr "go"); ("repeats", VInt 1); ("streams", VInt 1);
       ("client_processes", VInt 1); ("duration", VInt 1)].
Definition lan_options : Options :=
  mkOptions "client" "key" "10.0.0.1" "zhtps" "go-server" "lan-client" "0" "1" 1 "1" "go" "1" 1 (VInt 1) (VInt 0) (VInt 2)
    (VInt 9) 1 1 "out" lan_vars.
Definition lan_ssh : list string := ["ssh"; "client"].

Definition with_key (v : val) (k : string) (e : expr) : val := match setR v k e with Ok w => w | Err _ => v end.
Definition lan_shard : val := with_key sample_shard "client_cpu_seconds" (int 1).
Definition lan_result : val :=
  obj [("kind", VStr "result"); ("shards", VList [lan_shard]); ("exit_codes", obj [("0", VInt 0)]);
       ("failure_logs", VList [obj [("path", VStr (client_log 0)); ("entries", VInt 1);
                                    ("sha256_uncompressed", VStr (sha256_hex (double_quoted sample_log +:+ nl)))]])].

Definition identity_turns : list turn :=
  [answered (VList [VInt 0]); text_ "0"; text_ "0"; text_ "host"; text_ "6.1"; text_ "x86_64"; text_ "s";
   text_ ("model name : cpu" +:+ nl); answered (VList [VInt 1024; VInt 4096]); text_ "mem"; text_ "ports"].
Definition host_turns : list turn := [answered (VList []); number_ 1; text_ "tcp"; text_ "netstat"].
Definition alive_snapshot : list turn := [blank; text_ "VmRSS: 1 kB"; answered (VList [])].
Definition kind_of (kind : string) (fields : list (string * val)) : val := obj (("kind", VStr kind) :: fields).
(** A round of the relay: the deadline, the heartbeat, the event and its record, and what the event asks for. *)
Definition event_turns (event : val) (more : list turn) : list turn := [number_ 1; blank; answered event; number_ 2; blank] ++ more.

(** The server, the shell and the archive command are the processes [k], [k + 1] and [k + 2]. *)
Definition lan_trial_turns (k : nat) : list turn :=
  [blank] ++ identity_turns ++ host_turns ++ repeat blank 3
  ++ [blank; number_ 100; blank; blank; blank]
  ++ [answered (kind_of "hello" [("identity", obj [("boot_id", VStr "c")])])]
  ++ concat (repeat [number_ 10; blank; answered (kind_of "clock" [("unix_ns", VInt 50)]); number_ 14] 5)
  ++ [text_ "bytes"; blank; number_ 100]
  ++ event_turns (kind_of "launched" [("binary_sha256", VStr "b"); ("placements", VList [VList [VInt 1]])]) []
  ++ event_turns (kind_of "prepared" []) (alive_snapshot ++ [blank])
  ++ event_turns (kind_of "ready" []) (alive_snapshot ++ [blank])
  ++ event_turns (kind_of "scheduled" [("start_ns", VInt 200)]) ([number_ 100; blank; number_ 5; blank; text_ stat_text; number_ 100] ++ host_turns)
  ++ event_turns (kind_of "measured" []) ([blank; text_ stat_text; number_ 100; number_ 6] ++ alive_snapshot ++ host_turns)
  ++ event_turns lan_result []
  ++ [blank; ended (k + 1) 0; blank; blank; blank; ended k (-15)] ++ host_turns ++ [blank]
  ++ [blank; text_ "archive"; text_ ""; ended (k + 2) 0; blank; blank; text_ (double_quoted sample_log +:+ nl); blank].

Definition lan_trial_host : host := Host [] (fun n => nth n (lan_trial_turns 0) blank) 0 [] [].
Definition lan_trial (h : host) : res val * host :=
  trial "/r" 20 lan_options lan_ssh "/remote" "out" "go" 1 1 0 9000 "cert" "key" "w1-c1-go-r1" h.

Definition lan_main_turns : list turn :=
  [text_ "out"; blank; number_ 1024; number_ 4096; blank; text_ "key"] ++ command_turns "/remote"
  ++ [answered (VList []); answered (VList [])] ++ repeat (answered (VBool true)) 7
  ++ [text_ "now"] ++ identity_turns ++ repeat (text_ "bytes") 10 ++ command_turns "go1.25" ++ command_turns "0.15"
  ++ repeat blank 10 ++ [text_ "/tmp/d"] ++ command_turns ""
  ++ concat (repeat [blank; number_ 0] 3) ++ [number_ 9000] ++ lan_trial_turns 7
  ++ [blank; blank; blank] ++ repeat (text_ "bytes") 10 ++ [blank; text_ "later"; blank; blank; blank; number_ 0].
Definition lan_main_host : host := Host [] (fun n => nth n lan_main_turns blank) 0 [] [].


(** A host whose turns are all answered from a list. *)
Lemma pipes_hold_nth l ps s ev tr :
  forallb (fun t => negb (t_broken t)) l = true -> pipes_hold (Host ps (fun n => nth n l blank) s ev tr).
Proof.
  intros Hl n. cbn. destruct (nth_in_or_default n l blank) as [Hin|E]; [|by rewrite E].
  rewrite forallb_forall in Hl. apply Hl in Hin. by apply negb_true_iff.
Qed.

(** however a comparison over the LAN ends, as long as no input is found broken when it is closed, the server, the
    shell of the client and every other process that was started have exited. *)
Theorem lan_stops_everything ROOT fuel o h r h' :
  procs h = [] -> pipes_hold h -> main ROOT fuel o h = (r, h') -> all_exited h'.
Proof.
  intros Hh Hp H. apply orderly_lan_main in H as [_ Hx]; [|done]. rewrite Hh in Hx. intros k Hk. apply Hx. cbn. lia.
Qed.

(** A trial whose shell is lost while it is controlled: the message that follows fails, and so does the closing of the input. *)
Definition lost : turn := Turn [] (Some (Exn BrokenPipeError "")) VNone [] true.
Definition lost_shell_host : host := Host [] (fun n => if (n <? 49)%nat then nth n (lan_trial_turns 0) blank else lost) 0 [] [].

(** The closing of the input ends the cleanup before the server is stopped: the server is left running, and the record is
    not written. *)
Example lost_shell_leaves_server :
  (lan_trial lost_shell_host).1 = Err (Exn BrokenPipeError "") /\ procs (lan_trial lost_shell_host).2 !! 0%nat = Some Running.
Proof. split; vm_compute; reflexivity. Qed.

Lemma lan_stops_everything_witness :
  pipes_hold lan_main_host /\ is_ok (main "/r" 20 lan_options lan_main_host).1 = true
  /\ length (procs (main "/r" 20 lan_options lan_main_host).2) = 11%nat
  /\ all_exited (main "/r" 20 lan_options lan_main_host).2.
Proof.
  assert (Hp : pipes_hold lan_main_host) by (apply pipes_hold_nth; vm_compute; reflexivity).
  split_and!; [exact Hp|vm_compute; reflexivity|vm_compute; reflexivity|].
  destruct (main "/r" 20 lan_options lan_main_host) as [r h'] eqn:E.
  exact (lan_stops_everything "/r" 20 lan_options lan_main_host r h' eq_refl Hp E).
Defined.
