(* ===== verification/Http2Report.v ===== *)
(** * The driver and the audit of the loopback HTTP/2 benchmark

    [CompareHttp2] writes a report and [AuditHttp2] reads it back: the matrix of trials, the totals and percentiles of
    every run and the medians are computed once by each.  Whatever the clients measured, the audit accepts the report
    as long as it accepts what only they know: their placement and the consistency of their own shards. *)

From stdpp Require Import base list strings sets sorting.
From Stdlib Require Import ZArith Lia Ascii.
From S2P Require Import Prelude PyFloat PyText PyVal PyJson PyScript PyStats PyHash Counters Evidence PyIO System ProcSample AuditHttp2Lan Histogram RemoteLoad Compare Crew Http2Remote AuditHttp2 CompareHttp2.

Local Open Scope Z_scope.
Open Scope py_scope.

(** ** Counters over the matrix *)

Definition spot_val (p : spot) : val :=
  let '(((workers_, connections), streams), name_) := p in
  VTuple [VInt workers_; VInt connections; VInt streams; VStr name_].

Lemma spot_eqb p q : py_eqb (spot_val p) (spot_val q) = bool_decide (p = q).
Proof.
  destruct p as [[[w c] s] n], q as [[[w' c'] s'] n'].
  change (py_eqb (spot_val (w, c, s, n)) (spot_val (w', c', s', n')))
    with (py_eqb (VInt w) (VInt w') && (py_eqb (VInt c) (VInt c') && (py_eqb (VInt s) (VInt s') && (String.eqb n n' && true)))).
  rewrite !py_eqb_int. case_bool_decide as E.
  - injection E as -> -> -> ->. by rewrite !Z.eqb_refl, String.eqb_refl.
  - destruct (Z.eqb_spec w w'), (Z.eqb_spec c c'), (Z.eqb_spec s s'), (String.eqb_spec n n'); try done. congruence.
Qed.
Lemma spot_inj p q : spot_val p = spot_val q -> p = q.
Proof. destruct p as [[[w c] s] n], q as [[[w' c'] s'] n']. cbn. by intros [= -> -> -> ->]. Qed.
Lemma spot_key p : key (Ok (spot_val p)) = Ok (spot_val p).
Proof. by destruct p as [[[w c] s] n]. Qed.

#[export] Instance spot_counter_key : CounterKey spot_val.
Proof. split; [exact spot_eqb|exact spot_key]. Qed.

(** ** The matrix *)

Lemma concat_map_bind {A B} (f : A -> list B) l : concat (map f l) = l ≫= f.
Proof. induction l as [|x l IH]; [done|]. cbn. by rewrite IH. Qed.

(** The spots of a case; with more workers than connections there is none. *)
Definition case_spots (names : list string) (workers_ : Z) (case : Z * Z) : list spot :=
  if (1 <? workers_) && (case.1 <? workers_) then []
  else map (fun n => (workers_, case.1, case.2, n)) (selected names workers_).
Definition spots (ws : list Z) (cs : list (Z * Z)) (names : list string) : list spot :=
  ws ≫= fun w => cs ≫= case_spots names w.

(** The trials of the driver in their order. *)
Definition case_trials (names : list string) (R : nat) (workers_ : Z) (case : Z * Z) : list (spot * Z) :=
  if (1 <? workers_) && (case.1 <? workers_) then []
  else concat (map (fun r => map (fun n => ((workers_, case.1, case.2, n), Z.of_nat r)) (rotate r (selected names workers_)))
                 (seq 0 R)).
Definition schedule (ws : list Z) (cs : list (Z * Z)) (names : list string) (R : nat) : list (spot * Z) :=
  concat (map (fun w => concat (map (case_trials names R w) cs)) ws).

Lemma elem_of_case_trials names R w case p r :
  (p, r) ∈ case_trials names R w case <-> p ∈ case_spots names w case /\ exists n, r = Z.of_nat n /\ (n < R)%nat.
Proof.
  unfold case_trials, case_spots. destruct (_ && _); [set_solver|]. rewrite concat_map_bind, list_elem_of_bind. split.
  - intros (n & (x & [= -> ->] & Hx)%list_elem_of_fmap & Hn). rewrite rotate_perm in Hx. apply elem_of_seq in Hn.
    split; [by apply (list_elem_of_fmap_2 (fun n => (w, case.1, case.2, n)))|]. exists n. split; [done|lia].
  - intros [(x & -> & Hx)%list_elem_of_fmap (n & -> & Hn)]. exists n. split; [|apply elem_of_seq; lia].
    apply list_elem_of_fmap. exists x. split; [done|]. by rewrite rotate_perm.
Qed.

Lemma NoDup_map_inj {A B} (f : A -> B) l : (forall x y, f x = f y -> x = y) -> NoDup l -> NoDup (map f l).
Proof. intros Hf. exact (@NoDup_fmap_2 _ _ f (fun x y => Hf x y) l). Qed.

Section Distinct.
Context (ws : list Z) (cs : list (Z * Z)) (names : list string) (R : nat).
Hypothesis ws_distinct : NoDup ws.
Hypothesis cs_distinct : NoDup cs.
Hypothesis names_distinct : NoDup names.

Lemma NoDup_selected w : NoDup (selected names w).
Proof. unfold selected. apply NoDup_ListNoDup, List.NoDup_filter. by apply NoDup_ListNoDup. Qed.

Lemma NoDup_case_spots w case : NoDup (case_spots names w case).
Proof.
  unfold case_spots. destruct (_ && _); [constructor|]. apply NoDup_map_inj; [by intros x y [= ->]|].
  apply NoDup_selected.
Qed.

Lemma NoDup_spots : NoDup (spots ws cs names).
Proof.
  apply NoDup_bind; [| |done].
  - intros w w' p _ _ (c & Hp & _)%list_elem_of_bind (c' & Hp' & _)%list_elem_of_bind. unfold case_spots in *.
    destruct (_ && _) in Hp; [set_solver|]. destruct (_ && _) in Hp'; [set_solver|].
    apply list_elem_of_fmap in Hp as (n & -> & _), Hp' as (n' & [= ->] & _). done.
  - intros w _. apply NoDup_bind; [|intros; apply NoDup_case_spots|done].
    intros [c s] [c' s'] p _ _ Hp Hp'. unfold case_spots in *.
    destruct (_ && _) in Hp; [set_solver|]. destruct (_ && _) in Hp'; [set_solver|].
    apply list_elem_of_fmap in Hp as (n & -> & _), Hp' as (n' & [= -> ->] & _). done.
Qed.

Lemma elem_of_schedule p r :
  (p, r) ∈ schedule ws cs names R <-> p ∈ spots ws cs names /\ exists n, r = Z.of_nat n /\ (n < R)%nat.
Proof.
  unfold schedule, spots. rewrite concat_map_bind, !list_elem_of_bind. setoid_rewrite concat_map_bind.
  setoid_rewrite list_elem_of_bind. setoid_rewrite elem_of_case_trials. naive_solver.
Qed.

Lemma NoDup_case_trials w case : NoDup (case_trials names R w case).
Proof.
  unfold case_trials. destruct (_ && _); [constructor|]. rewrite concat_map_bind. apply NoDup_bind.
  - intros r r' p _ _ (n & -> & _)%list_elem_of_fmap (n' & E & _)%list_elem_of_fmap. injection E as _ E. lia.
  - intros r _. apply NoDup_map_inj; [by intros x y [= ->]|]. rewrite rotate_perm. apply NoDup_selected.
  - apply NoDup_seq.
Qed.

Lemma NoDup_schedule : NoDup (schedule ws cs names R).
Proof.
  unfold schedule. rewrite concat_map_bind. apply NoDup_bind; [| |done].
  - intros w w' [p r] _ _. rewrite !concat_map_bind, !list_elem_of_bind.
    intros (c & [Hp _]%elem_of_case_trials & _) (c' & [Hp' _]%elem_of_case_trials & _). unfold case_spots in *.
    destruct (_ && _) in Hp; [set_solver|]. destruct (_ && _) in Hp'; [set_solver|].
    apply list_elem_of_fmap in Hp as (n & -> & _), Hp' as (n' & [= ->] & _). done.
  - intros w _. rewrite concat_map_bind. apply NoDup_bind; [|intros; apply NoDup_case_trials|done].
    intros [c s] [c' s'] [p r] _ _ [Hp _]%elem_of_case_trials [Hp' _]%elem_of_case_trials. unfold case_spots in *.
    destruct (_ && _) in Hp; [set_solver|]. destruct (_ && _) in Hp'; [set_solver|].
    apply list_elem_of_fmap in Hp as (n & -> & _), Hp' as (n' & [= -> ->] & _). done.
Qed.

(** The repeats of a spot. *)
Definition repeats_at (p : spot) (l : list (spot * Z)) : list Z := map snd (List.filter (fun pr => bool_decide (pr.1 = p)) l).

Lemma schedule_repeats p : p ∈ spots ws cs names -> repeats_at p (schedule ws cs names R) ≡ₚ seqZ 0 (Z.of_nat R).
Proof.
  intros Hp. apply NoDup_Permutation; [|apply NoDup_seqZ|].
  - unfold repeats_at. pose proof NoDup_schedule as Hn. revert Hn. generalize (schedule ws cs names R). clear.
    induction l as [|[q r] l IH]; cbn; [constructor|]. intros [Hq Hn]%NoDup_cons. case_bool_decide as E; [|by apply IH].
    cbn. constructor; [|by apply IH]. intros (x & -> & Hx)%list_elem_of_fmap. apply Hq. cbn in E. subst q.
    apply list_elem_of_In, List.filter_In in Hx as [Hx Hd]. apply bool_decide_eq_true in Hd. destruct x as [q r]. cbn in *. subst q.
    by apply list_elem_of_In.
  - intros r. rewrite elem_of_seqZ. unfold repeats_at. split.
    + intros (x & -> & Hx)%list_elem_of_fmap. apply list_elem_of_In, List.filter_In in Hx as [Hx Hd].
      destruct x as [q r]. apply list_elem_of_In, elem_of_schedule in Hx as [_ (n & -> & Hn)]. cbn. lia.
    + intros Hr. apply (list_elem_of_fmap_2 snd _ (p, r)), list_elem_of_In, List.filter_In. split.
      * apply list_elem_of_In, elem_of_schedule. split; [done|]. exists (Z.to_nat r). lia.
      * by apply bool_decide_eq_true.
Qed.
End Distinct.

(** ** The audit's counters *)

Definition put_spots (R : Z) (d : dict) (l : list spot) : dict := foldl (fun d k => dset (spot_val k) (VInt R) d) d l.

Lemma foldR_spots {A B} (f : dict -> A -> res dict) (P : A -> B -> Prop) (g : B -> list spot) R l m d :
  Forall2 P l m -> (forall d x y, y ∈ m -> P x y -> f d x = Ok (put_spots R d (g y))) ->
  foldR f d l = Ok (put_spots R d (m ≫= g)).
Proof.
  intros H. revert d. induction H as [|x y l m Hxy H IH]; intros d Hf; [done|]. cbn [foldR].
  rewrite (Hf d x y) by (done || set_solver). cbn [rbind]. rewrite IH by (intros; apply Hf; set_solver || done).
  unfold put_spots. rewrite bind_cons, foldl_app. done.
Qed.

(** The server names the scripts know. *)
Definition known (n : string) : Prop := n ∈ ["zhtps"; "go"; "node"; "bun"].

Lemma map_filter_bind {A B} (g : A -> B) (p : A -> bool) l : map g (List.filter p l) = l ≫= fun x => if p x then [g x] else [].
Proof. induction l as [|x l IH]; [done|]. rewrite bind_cons. cbn. rewrite <- IH. by destruct (p x). Qed.

Lemma Forall2_diag {A} (P : A -> A -> Prop) l : (forall x, P x x) -> Forall2 P l l.
Proof. intros H. induction l; by constructor. Qed.

(** What the audit expects of the recorded arguments. *)
Record arguments_of (o : Options) (args : val) (ws : list Z) (cs : list (Z * Z)) : Prop := {
  arg_workers : $args.["workers"] = str (workers o);
  arg_cases : $args.["cases"] = str (cases o);
  arg_servers : $args.["servers"] = str (servers o);
  arg_repeats : $args.["repeats"] = int (repeats o);
  arg_ws : int_words "," (workers o) = Ok ws;
  arg_cs : mapR (int_words "x") (split_char "," (cases o)) = Ok (map (fun case : Z * Z => [case.1; case.2]) cs);
  arg_positive : Forall (fun w => 1 <= w) ws;
  arg_known : Forall known (split_char "," (servers o)) }.

Lemma expected_spots o args ws cs :
  arguments_of o args ws cs ->
  expected_runs args = Ok (put_spots (repeats o) [] (spots ws cs (split_char "," (servers o)))).
Proof.
  intros A. unfold expected_runs, words. rewrite (arg_workers _ _ _ _ A). cbn [rbind str as_str].
  change (mapR py_int (split_char "," (workers o))) with (int_words "," (workers o)). rewrite (arg_ws _ _ _ _ A). cbn [rbind].
  unfold spots. apply (foldR_spots _ eq); [by apply Forall2_diag|]. intros d ? w Hw ->.
  assert (H1w : 1 <= w). { pose proof (arg_positive _ _ _ _ A) as H. rewrite Forall_forall in H. by apply H. }
  rewrite (arg_cases _ _ _ _ A). cbn [rbind str as_str].
  pose proof (arg_cs _ _ _ _ A) as Hc. apply mapR_ok in Hc. rewrite Forall2_fmap_r in Hc.
  apply (foldR_spots _ _ _ _ _ _ _ Hc). intros d' case [c s] _ Hcase. unfold parse_case.
  change (mapR py_int (split_char "x" case)) with (int_words "x" case). rewrite Hcase. cbn [rbind fst snd].
  unfold case_spots. cbn [fst snd]. destruct ((1 <? w) && (c <? w)); [done|].
  rewrite (arg_servers _ _ _ _ A). cbn [rbind str as_str]. unfold selected. rewrite map_filter_bind.
  apply (foldR_spots _ (fun x y => x = y)); [by apply Forall2_diag|]. intros d2 ? n Hn ->.
  pose proof (arg_known _ _ _ _ A) as Hk. rewrite Forall_forall in Hk. specialize (Hk n Hn). unfold known in Hk.
  rewrite (arg_repeats _ _ _ _ A). cbn [rbind int]. destruct (Z.ltb_spec 1 w) as [Hlt|Hge].
  - replace (w =? 1) with false by lia. cbn [orb andb].
    repeat (apply elem_of_cons in Hk as [->|Hk]; [done|]). by apply not_elem_of_nil in Hk.
  - replace (w =? 1) with true by lia. done.
Qed.

(** A run that stands at its place. *)
Lemma tuple_of_spot p r run :
  at_spot (p, r) run ->
  tupleR [$run.["workers"]; $run.["connections"]; $run.["streams"]; $run.["server"]] = Ok (spot_val p)
  /\ $run.["repeat"] = int r.
Proof.
  destruct p as [[[w c] s] n]. intros (Hw & Hc & Hs & Hn & Hr). unfold tupleR. cbn [mapR id]. rewrite Hw, Hc, Hs, Hn. by split.
Qed.

Lemma actual_spots sched runs :
  Forall2 at_spot sched runs -> actual_runs runs = foldR counter_add [] (map spot_val (map fst sched)).
Proof.
  intros H. unfold actual_runs.
  assert (E : mapR (fun run => tupleR [$run.["workers"]; $run.["connections"]; $run.["streams"]; $run.["server"]]) runs
              = Ok (map spot_val (map fst sched))); [|by rewrite E].
  induction H as [|[p r] run sched runs Hp _ IH]; [done|]. cbn [mapR map fst].
  destruct (tuple_of_spot _ _ _ Hp) as [-> _]. cbn [rbind]. by rewrite IH.
Qed.

Lemma count_repeats (l : list (spot * Z)) p :
  length (filter (fun k => k = p) (map fst l)) = length (repeats_at p l).
Proof.
  unfold repeats_at. induction l as [|[q r] l IH]; [done|]. cbn [map fst List.filter]. rewrite filter_cons.
  destruct (decide (q = p)) as [->|Hq]; cbn [fst].
  - rewrite bool_decide_eq_true_2 by done. cbn. by rewrite IH.
  - by rewrite bool_decide_eq_false_2 by done.
Qed.

Lemma repeats_nowhere ws cs names R p : p ∉ spots ws cs names -> repeats_at p (schedule ws cs names R) = [].
Proof.
  intros Hp. unfold repeats_at.
  destruct (map snd _) as [|r l] eqn:E; [done|exfalso]. apply Hp.
  assert (Hr : r ∈ map snd (List.filter (fun pr : spot * Z => bool_decide (pr.1 = p)) (schedule ws cs names R))) by (rewrite E; by left).
  apply list_elem_of_fmap in Hr as ([q r'] & -> & Hx). apply list_elem_of_In, List.filter_In in Hx as [Hx Hd].
  apply bool_decide_eq_true in Hd. cbn in Hd. subst q. by apply list_elem_of_In, elem_of_schedule in Hx as [? _].
Qed.

(** The audit counts exactly what it expects. *)
Lemma matrix_accepted o args ws cs runs R :
  arguments_of o args ws cs -> repeats o = Z.of_nat R -> NoDup ws -> NoDup cs -> NoDup (split_char "," (servers o)) ->
  Forall2 at_spot (schedule ws cs (split_char "," (servers o)) R) runs ->
  exists actual expected, actual_runs runs = Ok actual /\ expected_runs args = Ok expected
  /\ counter_eqb actual expected = true /\ length expected = length (spots ws cs (split_char "," (servers o))).
Proof.
  intros A HR Hw Hc Hn Hs. set (names := split_char "," (servers o)) in *.
  destruct (counts_adds spot_val (map fst (schedule ws cs names R)) [] _ (counts_nil spot_val)) as (actual & Ha & Ca).
  pose proof (counts_constant spot_val (repeats o) (spots ws cs names) [] _ (counts_nil spot_val)) as Ce.
  exists actual, (put_spots (repeats o) [] (spots ws cs names)). split_and!.
  - by rewrite (actual_spots _ _ Hs).
  - exact (expected_spots _ _ _ _ A).
  - apply (counts_eqb _ _ _ _ _ Ca Ce). intros k. cbn beta. rewrite count_repeats. case_bool_decide as Hk.
    + rewrite (schedule_repeats ws cs names R Hw Hc Hn k Hk), length_seqZ. lia.
    + by rewrite repeats_nowhere.
  - unfold put_spots. change (@nil (val * val)) with (counts_dict spot_val []). rewrite (constant_new spot_val) by by apply NoDup_spots.
    unfold counts_dict. cbn [app]. by rewrite !length_map.
Qed.

(** ** The medians *)

(** The runs at a spot, in order. *)
Definition picked (p : spot) (sched : list (spot * Z)) (runs : list val) : list val :=
  map snd (List.filter (fun x => bool_decide (x.1.1 = p)) (combine sched runs)).

Lemma filterR_picked (f : val -> res bool) p sched runs :
  Forall2 (fun pr run => f run = Ok (bool_decide (pr.1 = p))) sched runs -> filterR f runs = Ok (picked p sched runs).
Proof.
  unfold picked. induction 1 as [|[q r] run sched runs Hf _ IH]; [done|]. cbn [filterR combine List.filter fst].
  cbn [fst] in Hf. rewrite Hf. cbn [rbind fst]. rewrite IH. cbn [rbind]. by destruct (bool_decide (q = p)).
Qed.

Lemma picked_repeats p sched runs :
  Forall2 at_spot sched runs -> mapR (fun run => $run.["repeat"]) (picked p sched runs) = Ok (map VInt (repeats_at p sched)).
Proof.
  unfold picked, repeats_at. induction 1 as [|[q r] run sched runs Hp _ IH]; [done|]. cbn [combine List.filter fst].
  case_bool_decide; [|done]. cbn [map snd mapR]. destruct (tuple_of_spot _ _ _ Hp) as [_ ->]. cbn [rbind int].
  by rewrite IH.
Qed.

Lemma picked_incl p sched runs run : run ∈ picked p sched runs -> run ∈ runs.
Proof.
  intros (x & -> & Hx)%list_elem_of_fmap. apply list_elem_of_In, List.filter_In in Hx as [Hx _].
  destruct x as [pr run]. apply List.in_combine_r in Hx. by apply list_elem_of_In.
Qed.

Lemma seqZ_sorted m n : StronglySorted Z.le (seqZ m n).
Proof.
  unfold seqZ. generalize (Z.to_nat n), 0%nat. intros k. induction k as [|k IH]; intros a; cbn; [constructor|].
  constructor; [apply IH|]. apply Forall_forall. intros x (i & -> & Hi)%list_elem_of_fmap. apply elem_of_seq in Hi. lia.
Qed.

(** Integers sort to the range they are a permutation of. *)
Lemma sorted_range zs n : zs ≡ₚ seqZ 0 n -> py_sorted (map VInt zs) = Ok (map VInt (seqZ 0 n)).
Proof.
  intros Hz. destruct (py_sorted_by_ints id (fun v => match v with VInt z => z | _ => 0 end) (map VInt zs)) as (r & Hr & Hp & Hs).
  { intros y (z & -> & _)%list_elem_of_fmap. done. }
  unfold py_sorted. rewrite Hr. apply Permutation_map_inv in Hp as (m & -> & Hm). do 2 f_equal.
  apply (StronglySorted_unique Z.le).
  - clear -Hs. induction m as [|z m IH]; [constructor|]. cbn in Hs. apply StronglySorted_inv in Hs as [Hs Hf].
    constructor; [by apply IH|]. rewrite Forall_map in Hf. exact Hf.
  - apply seqZ_sorted.
  - by rewrite <- Hm.
Qed.

Lemma py_eqb_ints l : py_eqb (VList (map VInt l)) (VList (map VInt l)) = true.
Proof.
  induction l as [|z l IH]; [done|].
  change (py_eqb (VInt z) (VInt z) && py_eqb (VList (map VInt l)) (VList (map VInt l)) = true).
  by rewrite py_eqb_int, Z.eqb_refl.
Qed.

(** The columns the medians are taken of hold finite numbers. *)
Definition finite_columns (run : val) : Prop := Forall (fun k => exists v, $run.[k] = Ok v /\ finite v) median_names.

Lemma column_finite k runs l :
  k ∈ median_names -> Forall finite_columns runs -> mapR (fun run => $run.[k]) runs = Ok l -> Forall finite l.
Proof.
  intros Hk Hr Hl. apply mapR_ok in Hl. induction Hl as [|run v runs l Hv _ IH]; [constructor|].
  apply Forall_cons in Hr as [H Hr]. constructor; [|by apply IH]. unfold finite_columns in H. rewrite Forall_forall in H.
  destruct (H k Hk) as (w & Hw & Hf). rewrite Hw in Hv. by injection Hv as <-.
Qed.

Lemma median_finite l v : Forall finite l -> py_median l = Ok v -> real v.
Proof.
  intros Hl. unfold py_median. intros (s & Hs & H)%rbind_ok. apply py_sorted_by_perm in Hs. rewrite <- Hs in Hl.
  assert (G : forall i x, s !! i = Some x -> finite x).
  { intros i x Hx. rewrite Forall_forall in Hl. apply Hl. by eapply list_elem_of_lookup_2. }
  case_match; [done|]. case_match.
  - apply of_option_ok in H. by eapply finite_real, G.
  - apply rbind_ok in H as (a & Ha & H). apply rbind_ok in H as (b & Hb & H). apply of_option_ok in Ha, Hb.
    apply rbind_ok in H as (t & Ht & H). apply (py_div_real t (VInt 2)); [|exact H]. right. split; [|exact I].
    apply G in Ha, Hb. clear -Ha Hb Ht.
    destruct a as [| |x|x| | | |], b as [| |y|y| | | |]; try done; cbn in Ht; [by injection Ht as <-| | |].
    + apply rbind_ok in Ht as (x' & Hx & [= <-]). apply f64_add_not_nan; [|done]. by apply (finite_f64 (VInt x) (NI x)).
    + apply rbind_ok in Ht as (y' & Hy & [= <-]). apply f64_add_not_nan; [done|]. by apply (finite_f64 (VInt y) (NI y)).
    + injection Ht as <-. by apply f64_add_not_nan.
Qed.

Lemma pick_in (pick : val -> val -> expr) l x v :
  (forall m y w, pick m y = Ok w -> w = m \/ w = y) -> foldR pick x l = Ok v -> v ∈ x :: l.
Proof.
  intros Hp. revert x. induction l as [|y l IH]; intros x; cbn [foldR]; [intros [= <-]; by left|].
  intros (m & Hm & H)%rbind_ok. apply IH in H. apply Hp in Hm as [-> | ->]; set_solver.
Qed.
Lemma py_min_in l v : py_min l = Ok v -> v ∈ l.
Proof.
  destruct l as [|x l]; [done|]. apply pick_in. unfold pick_min. intros m y w (b & _ & [= <-])%rbind_ok. destruct b; auto.
Qed.
Lemma py_max_in l v : py_max l = Ok v -> v ∈ l.
Proof.
  destruct l as [|x l]; [done|]. apply pick_in. unfold pick_max. intros m y w (b & _ & [= <-])%rbind_ok. destruct b; auto.
Qed.

Lemma assert_same e v : e = Ok v -> real v -> assertR (e ==' e) "" = Ok tt.
Proof. intros -> Hv. apply assertR_ok, eqR_refl, Hv. Qed.

(** The row of a spot has the medians the audit computes again. *)
Lemma median_row_checked args p sched runs R row :
  Forall2 at_spot sched runs -> repeats_at p sched ≡ₚ seqZ 0 R -> $args.["repeats"] = int R -> Forall finite_columns runs ->
  median_row runs (spot_val p) = Ok row -> check_median args runs row = Ok tt.
Proof.
  intros Hs HR Ha Hf H. destruct p as [[[w c] s] n] eqn:Ep. unfold median_row, spot_val in H. cbn [rbind] in H.
  rewrite <- Ep in HR.
  rewrite (filterR_picked _ p sched) in H.
  2:{ eapply Forall2_impl; [exact Hs|]. intros [q r] run Hq. destruct (tuple_of_spot _ _ _ Hq) as [Hk _].
      unfold group_key. rewrite Hk. unfold tupleR. cbn [mapR id rbind rmap].
      change (eqR (Ok (spot_val q)) (Ok (spot_val (w, c, s, n))) = Ok (bool_decide (q = p))).
      unfold eqR, lift2. cbn [rbind]. rewrite spot_eqb. by rewrite Ep. }
  cbn [rbind] in H. set (mine := picked p sched runs) in *.
  assert (Fm : Forall finite_columns mine).
  { apply Forall_forall. intros run Hrun. rewrite Forall_forall in Hf. by eapply Hf, picked_incl. }
  assert (G : forall k e, PyScript.assoc k _ = Some e -> exists v, e = Ok v /\ $row.[k] = Ok v) by (intros k e; apply (mkdict_get _ _ k e H)).
  assert (G' : forall k e, PyScript.assoc k _ = Some e -> $row.[k] = e) by (intros k e (v & -> & Hv)%G; exact Hv).
  unfold check_median. rewrite (filterR_picked _ p sched).
  2:{ eapply Forall2_impl; [exact Hs|]. intros [[[[w' c'] s'] n'] r] run (Hw & Hc & Hs' & Hn & _).
      cbn [allR]. rewrite (G' "server" _ eq_refl), (G' "workers" _ eq_refl), (G' "connections" _ eq_refl), (G' "streams" _ eq_refl).
      rewrite Hw, Hc, Hs', Hn. unfold eqR, lift2, int, str. cbn [rbind]. rewrite !py_eqb_int, py_eqb_str. subst p. cbn [fst].
      destruct (String.eqb_spec n' n) as [->|]; [|rewrite bool_decide_eq_false_2; [done|congruence]].
      destruct (Z.eqb_spec w' w) as [->|]; [|rewrite bool_decide_eq_false_2; [done|congruence]].
      destruct (Z.eqb_spec c' c) as [->|]; [|rewrite bool_decide_eq_false_2; [done|congruence]].
      destruct (Z.eqb_spec s' s) as [->|]; [|rewrite bool_decide_eq_false_2; [done|congruence]].
      by rewrite bool_decide_eq_true_2. }
  fold mine. cbn [rbind]. pose proof (picked_repeats p sched runs Hs) as Hrep. fold mine in Hrep. rewrite Hrep. cbn [rbind]. rewrite (sorted_range _ _ HR). cbn [rbind].
  unfold range. rewrite Ha. cbn [rbind int]. rewrite py_eqb_ints. cbn [require rbind].
  assert (M : forall k, k ∈ median_names -> assertR ($row.[k] ==' medianR (fun run => $run.[k]) mine) "" = Ok tt).
  { intros k Hk. assert (exists v, medianR (fun run => $run.[k]) mine = Ok v /\ $row.[k] = Ok v) as (v & Hm & Hv).
    { unfold median_names in Hk. repeat (apply elem_of_cons in Hk as [->|Hk]; [apply G; reflexivity|]). by apply not_elem_of_nil in Hk. }
    rewrite Hv, <- Hm. apply (assert_same _ v Hm). unfold medianR in Hm. apply rbind_ok in Hm as (l & Hl & Hm).
    eapply median_finite; [|exact Hm]. by eapply column_finite. }
  rewrite (proj2 (eachR_ok _ median_names tt)) by (apply Forall_forall; exact M). cbn [rbind].
  destruct (G "min_requests_per_second" _ eq_refl) as (lo & Hlo & Rlo). destruct (G "max_requests_per_second" _ eq_refl) as (hi & Hhi & Rhi).
  assert (C : forall l, mapR (fun run => $run.["requests_per_second"]) mine = Ok l -> Forall finite l).
  { intros l. apply column_finite; [set_solver|done]. }
  rewrite Rlo, <- Hlo, (assert_same _ lo Hlo), Rhi, <- Hhi.
  - cbn [rbind]. apply (assert_same _ hi Hhi). unfold maxR in Hhi. apply rbind_ok in Hhi as (l & Hl & Hm). apply C in Hl.
    apply py_max_in in Hm. rewrite Forall_forall in Hl. by apply finite_real, Hl.
  - unfold minR in Hlo. apply rbind_ok in Hlo as (l & Hl & Hm). apply C in Hl.
    apply py_min_in in Hm. rewrite Forall_forall in Hl. by apply finite_real, Hl.
Qed.

(** The groups of the driver are the spots of its trials. *)
Lemma set_by_spots sched runs :
  Forall2 at_spot sched runs ->
  exists ks, set_by group_key runs = Ok (map spot_val ks) /\ NoDup ks /\ (forall p, p ∈ ks <-> p ∈ map fst sched).
Proof.
  intros H. unfold set_by.
  assert (G : forall acc, NoDup acc ->
    exists ks, foldR (fun s x => k <- key (group_key x) ;; Ok (if existsb (py_eqb k) s then s else s ++ [k])) (map spot_val acc) runs
               = Ok (map spot_val ks) /\ NoDup ks /\ (forall p, p ∈ ks <-> p ∈ acc \/ p ∈ map fst sched)).
  { induction H as [|[p r] run sched runs Hp _ IH]; intros acc Ha; cbn [foldR].
    - exists acc. split_and!; [done|done|]. cbn. set_solver.
    - destruct (tuple_of_spot _ _ _ Hp) as [Hk _]. unfold group_key at 1. rewrite Hk, spot_key. cbn [rbind].
      assert (E : existsb (py_eqb (spot_val p)) (map spot_val acc) = bool_decide (p ∈ acc)).
      { clear. induction acc as [|q acc IH]; [done|]. cbn [map existsb]. rewrite IH, spot_eqb.
        destruct (bool_decide_reflect (p = q)) as [->|]; cbn [orb]; [by rewrite bool_decide_eq_true_2 by set_solver|].
        apply bool_decide_ext. set_solver. }
      rewrite E. destruct (bool_decide_reflect (p ∈ acc)) as [Hin|Hin].
      + destruct (IH acc Ha) as (ks & H1 & H2 & H3). exists ks. split_and!; [done|done|]. intros q. rewrite H3. cbn. set_solver.
      + destruct (IH (acc ++ [p])) as (ks & H1 & H2 & H3).
        { apply NoDup_app. split_and!; [done|set_solver|apply NoDup_singleton]. }
        exists ks. rewrite map_app in H1. split_and!; [done|done|]. intros q. rewrite H3. cbn. set_solver. }
  destruct (G [] ltac:(constructor)) as (ks & H1 & H2 & H3). exists ks. split_and!; [done|done|]. intros p. rewrite H3. set_solver.
Qed.

Lemma medians_checked o args ws cs R runs rows :
  arguments_of o args ws cs -> repeats o = Z.of_nat R -> (0 < R)%nat -> NoDup ws -> NoDup cs -> NoDup (split_char "," (servers o)) ->
  Forall2 at_spot (schedule ws cs (split_char "," (servers o)) R) runs -> Forall finite_columns runs -> medians runs = Ok rows ->
  eachR (check_median args runs) rows = Ok tt /\ length rows = length (spots ws cs (split_char "," (servers o))).
Proof.
  intros A HR H0 Hw Hc Hn Hs Hf H. set (names := split_char "," (servers o)) in *. unfold medians in H.
  apply rbind_ok in H as (keys & Hk & H). destruct (set_by_spots _ _ Hs) as (ks & Hks & Nk & Mk). rewrite Hks in Hk. cbn [rbind] in Hk.
  apply py_sorted_by_perm, Permutation_map_inv in Hk as (ks' & -> & Hp). apply mapR_ok in H.
  assert (M : forall p, p ∈ ks' <-> p ∈ spots ws cs names).
  { intros p. rewrite <- Hp, Mk, list_elem_of_fmap. split.
    - intros ([q r] & -> & Hq). by apply elem_of_schedule in Hq as [? _].
    - intros Hq. exists (p, 0). split; [done|]. apply elem_of_schedule. split; [done|]. by exists 0%nat. }
  split.
  - apply eachR_ok, Forall_forall. intros row Hrow. apply list_elem_of_lookup_1 in Hrow as [i Hi].
    eapply Forall2_lookup_r in Hi as (v & Hv & Hm); [|exact H]. apply list_lookup_fmap_Some in Hv as (p & -> & Hp').
    eapply (median_row_checked args p _ runs (Z.of_nat R)); [exact Hs| | |exact Hf|exact Hm].
    + apply schedule_repeats; [done|done|done|]. apply M. by eapply list_elem_of_lookup_2.
    + rewrite <- HR. exact (arg_repeats _ _ _ _ A).
  - apply Forall2_length in H. rewrite <- H, length_map. apply Permutation_length, NoDup_Permutation; [by rewrite <- Hp|by apply NoDup_spots|done].
Qed.

(** ** From the driver's loops to its runs *)

(** What a trial leaves. *)
Definition measured (pr : spot * Z) (run : val) : Prop :=
  at_spot pr run
  /\ exists ob shards, accepted ob shards run /\ finite (ob_cpu_before ob) /\ finite (ob_cpu_after ob).

Definition report_of (o : Options) (report : val) (runs : list val) : Prop :=
  has_runs report runs /\ $report.["arguments"] = Ok (vars o).

Lemma append_run_report o report run report' runs :
  report_of o report runs -> append_run report run = Ok report' -> report_of o report' (runs ++ [run]).
Proof.
  unfold report_of, has_runs, append_run, iterR. intros [Hr Ha] H. rewrite Hr in H. cbn [rbind py_iter] in H. split.
  - by apply setR_new in H as (v & [= <-] & ->).
  - by apply (setR_keeps "arguments") in H; [apply H|].
Qed.

Lemma trial_step_report ROOT fuel o server clients cert key_ w c s repeat report name_ h report' h' runs :
  report_of o report runs ->
  CompareHttp2.trial_step ROOT fuel o server clients cert key_ w c s repeat report name_ h = (Ok report', h') ->
  exists rows, Forall2 measured [((w, c, s, name_), repeat)] rows /\ report_of o report' (runs ++ rows).
Proof.
  unfold CompareHttp2.trial_step. intros Hr H. apply bind_ok in H as (run & h1 & Ht & H).
  apply bind_ok in H as (report1 & h2 & Ha & H). apply lift_ok in Ha as [Ha _].
  do 3 (apply bind_ok in H as (? & ? & _ & H)). injection H as <- _. exists [run].
  split; [|by eapply append_run_report]. constructor; [|constructor].
  apply trial_accepted in Ht as (ob & shards & A & Es & Er & Hb & Hf). split; [|by exists ob, shards].
  pose proof (acc_spot _ _ _ A) as S. by rewrite Es, Er in S.
Qed.

Lemma case_step_report ROOT fuel o server clients cert key_ names w case report h report' h' runs :
  report_of o report runs ->
  case_step ROOT fuel o server clients cert key_ names w report [case.1; case.2] h = (Ok report', h') ->
  exists rows, Forall2 measured (case_trials names (Z.to_nat (repeats o)) w case) rows /\ report_of o report' (runs ++ rows).
Proof.
  unfold case_step, case_trials. intros Hr H. apply bind_ok in H as ([c s] & h1 & E & H). apply lift_ok in E as [[= -> ->] ->].
  destruct ((1 <? w) && (c <? w)).
  { injection H as <- _. exists []. split; [constructor|]. by rewrite app_nil_r. }
  eapply foldM_rows in H as (rows & Hrows & Hr'); [by exists rows| |exact Hr]. intros s1 r w1 s2 w2 xs Hs H1.
  eapply (foldM_rows _ (report_of o) (fun n => [((w, c, s, n), Z.of_nat r)])) in H1 as (ys & Hys & Hs');
    [exists ys; split; [by rewrite <- concat_map_single|exact Hs']| |exact Hs].
  intros s3 n w3 s4 w4 zs Hs3 H3. by eapply trial_step_report in H3.
Qed.

Lemma foldM_map {W A B S} (f : S -> B -> io W S) (g : A -> B) l s : forall w,
  foldM f s (map g l) w = foldM (fun s x => f s (g x)) s l w.
Proof. revert s. induction l as [|x l IH]; intros s w; [done|]. cbn. unfold bind. destruct (f s (g x) w) as [[s'|e] w']; [apply IH|done]. Qed.

Lemma trials_report ROOT fuel o server clients ws cs names report h report' h' runs :
  report_of o report runs ->
  trials ROOT fuel o server clients ws names (map (fun case : Z * Z => [case.1; case.2]) cs) report h = (Ok report', h') ->
  exists rows, Forall2 measured (schedule ws cs names (Z.to_nat (repeats o))) rows /\ report_of o report' (runs ++ rows).
Proof.
  unfold trials, schedule. intros Hr H. apply bind_ok in H as (directory & h1 & _ & H). unfold finally in H.
  match type of H with (let '(_, _) := ?m h1 in _) = _ => destruct (m h1) as [x h2] eqn:E end.
  destruct ((external ;~ ret tt) h2) as [[u|e] h3]; [|done]. injection H as -> _. cbv zeta in E.
  do 2 (apply bind_ok in E as (? & ? & _ & E)).
  eapply foldM_rows in E as (rows & Hrows & Hr'); [by exists rows| |exact Hr]. intros s1 w w1 s2 w2 xs Hs H1.
  rewrite foldM_map in H1. eapply foldM_rows in H1 as (ys & Hys & Hs'); [by exists ys| |exact Hs].
  intros s3 case w3 s4 w4 zs Hs3 H3. by eapply case_step_report in H3.
Qed.

(** ** The report *)

(** The recorded arguments are those the script ran with. *)
Definition recorded (o : Options) : Prop :=
  $(vars o).["workers"] = str (workers o) /\ $(vars o).["cases"] = str (cases o)
  /\ $(vars o).["servers"] = str (servers o) /\ $(vars o).["repeats"] = int (repeats o).

(** No worker count, case or server is given twice. *)
Definition distinct_options (o : Options) : Prop :=
  (forall ws, int_words "," (workers o) = Ok ws -> NoDup ws)
  /\ (forall cs, mapR (int_words "x") (split_char "," (cases o)) = Ok cs -> NoDup cs)
  /\ NoDup (split_char "," (servers o)).

(** What the audit has to take from the clients and the machine: typed shards that pass its checks, the placement
    of the threads, and finite results. *)
Definition trusted (report args run : val) : Prop :=
  exists shards hist u, $run.["shards"] = Ok (VList shards) /\ Forall plain_shard shards
  /\ check_cpus report run = Ok u /\ foldR (add_shard_latencies run args) [] shards = Ok hist /\ finite_columns run.

Lemma usage_if_ok b m u : usage_if b m = Ok u -> b = false.
Proof. by destruct b. Qed.

Lemma check_matrix_facts o allowed server clients ws names cases_ h u h' :
  check_matrix o allowed server clients ws names cases_ h = (Ok u, h') ->
  Forall (fun w => 1 <= w) ws /\ Forall known names /\ exists cs, cases_ = map (fun case : Z * Z => [case.1; case.2]) cs.
Proof.
  unfold CompareHttp2.check_matrix. intros H. do 3 (apply bind_ok in H as (? & ? & _ & H)). apply lift_ok in H as [H _].
  apply rbind_ok in H as (? & _ & H). apply rbind_ok in H as (lowest & Hlo & H). apply rbind_ok in H as (highest & _ & H).
  apply rbind_ok in H as (bad & Hb & H). apply rbind_ok in H as (? & ->%usage_if_ok & H). apply rbind_ok in H as (? & _ & H).
  apply rbind_ok in H as (? & Hk%usage_if_ok & H). apply usage_if_ok in H as Hc. split_and!.
  - apply orR_false in Hb as [Hb _]. unfold ltR, lift2 in Hb. cbn [rbind int] in Hb.
    assert (G : forall l m, foldR pick_min m (map VInt l) = Ok lowest -> (exists z, m = VInt z) ->
      exists z, lowest = VInt z /\ (forall z', m = VInt z' -> z <= z') /\ Forall (fun w => z <= w) l).
    { clear. induction l as [|x l IH]; intros m; cbn [map foldR].
      - intros [= <-] [z ->]. exists z. split_and!; [done|intros z' [= <-]; lia|constructor].
      - unfold pick_min at 1. intros H [z ->]. rewrite py_ltb_int in H. cbn [rbind] in H.
        destruct (IH _ H) as (y & -> & Hy & Hl); [by case_match; eexists|]. exists y. split_and!; [done| |constructor; [|done]].
        + intros z' [= <-]. destruct (Z.ltb_spec x z); [specialize (Hy x eq_refl)|specialize (Hy z eq_refl)]; lia.
        + destruct (Z.ltb_spec x z); [specialize (Hy x eq_refl)|specialize (Hy z eq_refl)]; lia. }
    destruct ws as [|w ws]; [constructor|]. cbn [map py_min] in Hlo. destruct (G _ _ Hlo) as (z & -> & Hz & Hl); [by eexists|].
    rewrite py_ltb_int in Hb. injection Hb as Hb. apply Z.ltb_ge in Hb. specialize (Hz w eq_refl). constructor; [lia|].
    eapply Forall_impl; [exact Hl|]. cbn. lia.
  - apply negb_false_iff in Hk. apply Forall_forall. intros n Hn. apply Is_true_true_2, forallb_True in Hk.
    rewrite Forall_forall in Hk. specialize (Hk n Hn). apply Is_true_true in Hk. unfold known.
    apply existsb_exists in Hk as (m & Hm & ->%String.eqb_eq). by apply list_elem_of_In.
  - clear -Hc. induction cases_ as [|case cases_ IH]; [by exists []|]. cbn [existsb] in Hc. apply orb_false_iff in Hc as [Hc Hr].
    destruct (IH Hr) as [cs ->]. destruct case as [|c [|s [|? ?]]]; try done. by exists ((c, s) :: cs).
Qed.

Lemma finished_report o report0 report1 report2 report3 runs rows v :
  report_of o report0 runs -> setR report0 "medians" ($(VList rows)) = Ok report1 ->
  setR report1 "complete" ($(VBool true)) = Ok report2 -> setR report2 "finished_utc" ($v) = Ok report3 ->
  $report3.["runs"] = Ok (VList runs) /\ $report3.["arguments"] = Ok (vars o)
  /\ $report3.["medians"] = Ok (VList rows) /\ $report3.["complete"] = Ok (VBool true).
Proof.
  intros [Hr Ha] H1 H2 H3. pose proof (fun k N => setR_keeps k _ _ _ _ N H1) as K1.
  pose proof (fun k N => setR_keeps k _ _ _ _ N H2) as K2. pose proof (fun k N => setR_keeps k _ _ _ _ N H3) as K3.
  split_and!.
  - apply K3, K2, K1; done.
  - apply K3, K2, K1; done.
  - apply K3, K2; [done|done|]. by apply setR_new in H1 as (w & [= <-] & ->).
  - apply K3; [done|]. by apply setR_new in H2 as (w & [= <-] & ->).
Qed.

(** The audit's last line only needs integers. *)
Lemma audited_line runs a b :
  (forall run, run ∈ runs -> exists z, $run.["requests"] = Ok (VInt z)) ->
  exists text, fstring [F "Audited "; V (int a); F " trials, "; V (int b); F " groups, ";
                        V_ format_grouped (sumR (fun run => $run.["requests"]) runs); F " successful responses"] = Ok text.
Proof.
  intros H. assert (exists l, mapR (fun run => $run.["requests"]) runs = Ok (map VInt l)) as [l Hl].
  { induction runs as [|run runs IH]; [by exists []|]. destruct (H run ltac:(by left)) as [z Hz].
    destruct IH as [l Hl]; [intros; apply H; by right|]. exists (z :: l). cbn [mapR]. by rewrite Hz, Hl. }
  unfold sumR. rewrite Hl. cbn [rbind]. rewrite py_sum_int. unfold fstring, V_. cbn [mapR piece_text rbind rmap format_grouped num_of].
  by eexists.
Qed.

Lemma report_of_initial o allowed server clients binaries sources h report h' :
  initial_report o allowed server clients binaries sources h = (Ok report, h') -> report_of o report [].
Proof.
  unfold initial_report. intros H. do 13 (apply bind_ok in H as (? & ? & _ & H)). injection H as <- _. by split.
Qed.

Lemma valid_options_repeats o u : valid_options o = Ok u -> 0 < repeats o.
Proof.
  unfold valid_options. intros (bad & Hb & ->%usage_if_ok)%rbind_ok. apply orR_false in Hb as [Hb _]. injection Hb as Hb. lia.
Qed.

(** What a comparison that ends leaves in its report. *)
Lemma main_report ROOT fuel o h report h' :
  main ROOT fuel o h = (Ok report, h') ->
  0 < repeats o /\ exists ws cs runs rows, int_words "," (workers o) = Ok ws
  /\ mapR (int_words "x") (split_char "," (cases o)) = Ok (map (fun case : Z * Z => [case.1; case.2]) cs)
  /\ Forall (fun w => 1 <= w) ws /\ Forall known (split_char "," (servers o))
  /\ Forall2 measured (schedule ws cs (split_char "," (servers o)) (Z.to_nat (repeats o))) runs /\ medians runs = Ok rows
  /\ $report.["runs"] = Ok (VList runs) /\ $report.["arguments"] = Ok (vars o)
  /\ $report.["medians"] = Ok (VList rows) /\ $report.["complete"] = Ok (VBool true).
Proof.
  unfold CompareHttp2.main. intros H. apply bind_ok in H as (? & ? & [Hv _]%lift_ok & H). apply valid_options_repeats in Hv.
  split; [exact Hv|]. apply bind_ok in H as (? & ? & _ & H). apply bind_ok in H as ([server clients] & ? & _ & H).
  apply bind_ok in H as (ws & ? & [Hw _]%lift_ok & H). apply bind_ok in H as (cases_ & ? & [Hc _]%lift_ok & H).
  apply bind_ok in H as (? & ? & (P & K & cs & ->)%check_matrix_facts & H). do 5 (apply bind_ok in H as (? & ? & _ & H)).
  apply bind_ok in H as (report0 & ? & H0%report_of_initial & H). apply bind_ok in H as (? & ? & _ & H).
  apply bind_ok in H as (report1 & ? & Ht & H). apply (trials_report _ _ _ _ _ _ _ _ _ _ _ _ _ H0) in Ht as (runs & Hs & [Hr Ha]).
  cbn [app] in Hr, Ha. apply bind_ok in H as (report2 & ? & [Hm _]%lift_ok & H).
  apply rbind_ok in Hm as (runs' & Hr' & Hm). unfold iterR, has_runs in *. rewrite Hr in Hr'. injection Hr' as <-.
  apply rbind_ok in Hm as (rows & Hrows & Hm). do 2 (apply bind_ok in H as (? & ? & _ & H)).
  apply bind_ok in H as (report3 & ? & [Hk _]%lift_ok & H). apply bind_ok in H as (v & ? & _ & H).
  apply bind_ok in H as (report4 & ? & [Hf _]%lift_ok & H). apply bind_ok in H as (? & ? & _ & H). injection H as <- _.
  exists ws, cs, runs, rows. destruct (finished_report o _ _ _ _ runs rows v (conj Hr Ha) Hm Hk Hf) as (? & ? & ? & ?).
  by split_and!.
Qed.

Lemma trusted_run report args run pr : measured pr run -> trusted report args run ->
  check_run report args run = Ok tt /\ finite_columns run /\ exists z, $run.["requests"] = Ok (VInt z).
Proof.
  intros (_ & ob & shards & A & Hb & Ha) (shards' & hist & u & Hs & P & Hc & Hh & F).
  rewrite (acc_shards _ _ _ A) in Hs. injection Hs as <-. split_and!; [by eapply accepted_audited|done|].
  destruct (plain_sum "requests" shards ltac:(set_solver) P) as [z Hz]. exists z. by rewrite (acc_requests _ _ _ A).
Qed.

(** C1: The driver and the audit agree: whenever [main] ends with a report, for distinct workers, cases and servers,
    the audit accepts that report, provided it accepts of every run what neither computes (the threads' placement and
    the clients' own shards).  The matrix of trials with their repeats, the totals, rates and percentiles of every run,
    the medians and the report's completion need no assumption. *)
Theorem http2_report_audited ROOT fuel o h report h' :
  main ROOT fuel o h = (Ok report, h') -> recorded o -> distinct_options o ->
  (forall run runs, $report.["runs"] = Ok (VList runs) -> run ∈ runs -> trusted report (vars o) run) ->
  exists text, audit_report report = Ok text.
Proof.
  intros (Hrep & ws & cs & runs & rows & Hw & Hc & P & K & Hs & Hm & Rr & Ra & Rm & Rc)%main_report (V1 & V2 & V3 & V4) (Dw & Dc & Dn) T.
  assert (A : arguments_of o (vars o) ws cs) by by split. apply Dw in Hw.
  assert (NoDup cs) as Nc by (apply Dc in Hc; by apply NoDup_fmap_1 in Hc).
  set (R := Z.to_nat (repeats o)) in *. assert (HR : repeats o = Z.of_nat R) by lia.
  assert (Hspots : Forall2 at_spot (schedule ws cs (split_char "," (servers o)) R) runs) by (eapply Forall2_impl; [exact Hs|by intros ? ? [? _]]).
  assert (Q : Forall (fun run => check_run report (vars o) run = Ok tt /\ finite_columns run /\ exists z, $run.["requests"] = Ok (VInt z)) runs).
  { apply Forall_forall. intros run Hin. destruct (list_elem_of_lookup_1 _ _ Hin) as [i Hi].
    eapply Forall2_lookup_r in Hs as (pr & _ & Hpr); [|exact Hi]. by eapply trusted_run, T. }
  destruct (matrix_accepted o (vars o) ws cs runs R A HR Hw Nc Dn Hspots) as (actual & expected & Ea & Ee & Eq & El).
  destruct (medians_checked o (vars o) ws cs R runs rows A HR ltac:(lia) Hw Nc Dn Hspots) as [Mok Mlen]; [|done|].
  { eapply Forall_impl; [exact Q|]. by intros ? (_ & ? & _). }
  destruct (audited_line runs (Z.of_nat (length runs)) (Z.of_nat (length expected))) as [text Ht].
  { rewrite Forall_forall in Q. by intros run (_ & _ & ?)%Q. }
  exists text. unfold audit_report, iterR. rewrite Rc, Ra. cbn [test rmap rbind truthy assertR require]. rewrite Ee, Rr. cbn [rbind py_iter]. rewrite Ea.
  cbn [rbind py_iter]. rewrite Eq. cbn [require rbind].
  rewrite (proj2 (eachR_ok _ runs tt)) by (eapply Forall_impl; [exact Q|by intros ? (? & _)]). cbn [rbind].
  rewrite Rm. cbn [rbind py_iter]. rewrite Mlen, <- El, Nat.eqb_refl. cbn [require rbind]. by rewrite Mok.
Qed.

(** *** A comparison of one server *)

Definition sample_vars : val :=
  obj [("workers", VStr "1"); ("cases", VStr "1x1"); ("servers", VStr "go"); ("repeats", VInt 1); ("warmup", VInt 0);
       ("duration", VInt 1)].
Definition http2_options : Options :=
  mkOptions "zhtps" "go-server" "h2-client" "node" "bun" "go" "1" "1x1" None None 0 (VInt 1) (VInt 0) 1 "out.json" sample_vars.

Definition json_text (v : val) : string := match json_dumps v with Ok s => s | Err _ => "" end.
Definition shard_text : string := json_text (obj
  [("requests", VInt 4); ("errors", VInt 0); ("first_error", VStr ""); ("connections", VInt 1);
   ("connections_opened", VInt 1); ("streams", VInt 1); ("warmup_requests", VInt 0); ("seconds", VInt 1);
   ("latency_us", obj [("500", VInt 3); ("2000", VInt 1)]); ("start_ns", VInt 10); ("end_ns", VInt 1000000010);
   ("client_cpu_seconds", VInt 1)]).

Definition core_turns (core : string) : list turn := [text_ "0"; text_ core].
Definition stat_after : string := "12 (go) S 1 1 1 0 -1 4194304 100 0 0 0 200 80 0 0 20 0 1 0".
Definition snapshot_turns : list turn :=
  [text_ ("VmRSS: 1 kB" +:+ nl); answered (VList [VStr "12"]); text_ stat_text; answered (VList [VInt 0]); number_ 100].
Definition phase_turns (phase : string) : list turn :=
  [answered (VBool true); number_ 8; text_ (json_text (obj [("phase", VStr phase)]))].

Definition http2_turns : list turn :=
  [answered (VList [VInt 0; VInt 1])] ++ core_turns "1" ++ core_turns "0" ++ core_turns "1"
  ++ core_turns "0" ++ core_turns "1" ++ core_turns "0" ++ core_turns "1"
  ++ [answered (VBool false); blank; answered (VList [])]
  ++ [text_ "now"; text_ "6.1"] ++ core_turns "0" ++ core_turns "1"
  ++ command_turns "go1.25" ++ command_turns "0.15" ++ command_turns "3.5" ++ command_turns "1.6"
  ++ [text_ ("model name : cpu" +:+ nl)] ++ repeat (text_ "bytes") 9 ++ command_turns "head" ++ command_turns ""
  ++ [blank; blank; text_ "/tmp/d"] ++ command_turns ""
  ++ [number_ 9000; blank; blank; blank; number_ 100; blank; blank; blank]
  ++ phase_turns "ready" ++ snapshot_turns ++ [number_ 1000; blank; number_ 900; blank; number_ 5; text_ stat_text; number_ 100]
  ++ phase_turns "measured" ++ [text_ stat_after; number_ 100; number_ 6] ++ snapshot_turns
  ++ [text_ shard_text; ended 8 0] ++ [blank; blank; blank; ended 7 (-15)]
  ++ [blank; blank; blank; blank] ++ repeat (text_ "bytes") 9 ++ [text_ "later"; blank; blank].
Definition http2_host : host := Host [] (fun n => nth n http2_turns blank) 0 [] [].

Definition http2_report : val := match (main "/r" 10 http2_options http2_host).1 with Ok r => r | Err _ => VNone end.
Definition http2_run : val := match runs_ <- iterR ($http2_report.["runs"]) ;; Ok (hd VNone runs_) with Ok r => r | Err _ => VNone end.

Lemma sample_run_trusted : trusted http2_report sample_vars http2_run.
Proof.
  eexists [_], _, tt. split_and!; [vm_compute; reflexivity| |vm_compute; reflexivity|vm_compute; reflexivity|].
  - constructor; [|constructor]. split; [by exists [("500", 3); ("2000", 1)]|].
    repeat (constructor; [eexists; reflexivity|]). constructor.
  - repeat (constructor; [eexists; split; [vm_compute; reflexivity|vm_compute; reflexivity]|]). constructor.
Qed.

Lemma sample_runs_to :
  main "/r" 10 http2_options http2_host = (Ok http2_report, (main "/r" 10 http2_options http2_host).2).
Proof. apply ok_pair. vm_compute. reflexivity. Qed.

Lemma sample_runs_are : $http2_report.["runs"] = Ok (VList [http2_run]).
Proof. vm_compute. reflexivity. Qed.

Lemma http2_report_audited_witness :
  exists report, (main "/r" 10 http2_options http2_host).1 = Ok report
  /\ exists text, audit_report report = Ok text.
Proof.
  exists http2_report. split; [vm_compute; reflexivity|].
  apply (http2_report_audited "/r" 10 http2_options http2_host http2_report (main "/r" 10 http2_options http2_host).2).
  - exact sample_runs_to.
  - by split_and!.
  - split_and!.
    + intros ws [= <-]. apply (bool_decide_unpack _). reflexivity.
    + intros cs [= <-]. apply (bool_decide_unpack _). reflexivity.
    + apply (bool_decide_unpack _). reflexivity.
  - intros run runs Hr Hin. 
    rewrite sample_runs_are in Hr. injection Hr as <-. apply elem_of_cons in Hin as [->|Hin]; [|by apply not_elem_of_nil in Hin].
    exact sample_run_trusted.
Defined.
