(* ===== verification/Http2LanReport.v ===== *)
(** * The controller and the audit of the LAN HTTP/2 benchmark

    [CompareHttp2Lan] adds the shards of the clients up; [AuditHttp2Lan] adds them up again, from the shards and from
    the retained failure logs, with loops of its own.  Here: the two percentile functions are the same function, and a
    trial the controller calls valid carries exactly the numbers the audit recomputes. *)

From stdpp Require Import base list strings sets sorting.
From Stdlib Require Import ZArith Lia Ascii.
From S2P Require Import Prelude PyFloat PyText PyVal PyJson PyScript Shlex PyStats PyHash Counters Evidence PyIO System ProcSample AuditHttp2Lan Histogram RemoteLoad Compare Crew Http2Remote CompareHttp2 CompareHttp2Lan.

Local Open Scope Z_scope.
Open Scope py_scope.


(** ** Percentiles *)

Lemma insertR_ext {A} (f g : A -> val) x l :
  (forall y, y ∈ l -> py_ltb (f x) (f y) = py_ltb (g x) (g y)) -> insertR f x l = insertR g x l.
Proof.
  induction l as [|y l IH]; intros H; [done|]. cbn [insertR]. rewrite (H y) by (by left). rewrite IH; [done|].
  intros z Hz. apply H. by right.
Qed.
(** Sorting by two keys that order distinct items alike. *)
Lemma py_sorted_by_ext {A} (f g : A -> val) l :
  NoDup l -> (forall x y, x ∈ l -> y ∈ l -> x <> y -> py_ltb (f x) (f y) = py_ltb (g x) (g y)) ->
  py_sorted_by f l = py_sorted_by g l.
Proof.
  intros Hn Hfg. unfold py_sorted_by.
  assert (G : forall l' acc, (forall x, x ∈ l' \/ x ∈ acc -> x ∈ l) -> NoDup l' -> (forall x, x ∈ l' -> x ∉ acc) ->
    foldR (fun acc x => insertR f x acc) acc l' = foldR (fun acc x => insertR g x acc) acc l'); [|by apply G; set_solver].
  clear Hn. induction l' as [|x l' IH]; intros acc Hin Hn Hd; [done|]. apply NoDup_cons in Hn as [Hx Hn]. cbn [foldR].
  rewrite (insertR_ext f g x acc); [|intros y Hy; apply Hfg; [set_solver|set_solver|intros ->; by apply (Hd y); [left|]]].
  destruct (insertR g x acc) as [acc'|e] eqn:E; [|done]. cbn [rbind]. apply insertR_perm in E. apply IH; [|done|].
  - intros y. rewrite E. set_solver.
  - intros y Hy. rewrite E. intros [->|Hy']%elem_of_cons; [done|]. by apply (Hd y); [right|].
Qed.

Lemma sorted_items h : NoDup (map fst h) ->
  py_sorted_by (fun kv : val * val => VTuple [kv.1; kv.2]) (histogram_of h) = py_sorted_by fst (histogram_of h).
Proof.
  intros Hn. apply py_sorted_by_ext.
  - unfold histogram_of. apply NoDup_fmap_2_strong; [|by eapply NoDup_fmap_1].
    intros [b n] [b' n'] _ _ [= -> ->]. done.
  - intros x y ([b n] & -> & Hx)%list_elem_of_fmap ([b' n'] & -> & Hy)%list_elem_of_fmap Hne. cbn [fst snd].
    destruct (decide (b = b')) as [->|Hb].
    + exfalso. apply Hne. pose proof (lookup_count_In _ _ _ Hn Hx) as E. rewrite (lookup_count_In _ _ _ Hn Hy) in E.
      by injection E as ->.
    + change (py_ltb (VTuple [VInt b; VInt n]) (VTuple [VInt b'; VInt n']))
        with (if py_eqb (VInt b) (VInt b') then py_ltb (VTuple [VInt n]) (VTuple [VInt n']) else py_ltb (VInt b) (VInt b')).
      rewrite py_eqb_int. by destruct (Z.eqb_spec b b').
Qed.

(** The controller counts down from the rank, the audit up to the target. *)
Lemma quantile_from_percentile rank cum l :
  cum <= rank < cum + sumZ (map snd l) ->
  quantile_from (VInt (rank - cum)) (histogram_of l) = percentile_from (VInt (rank + 1)) (VInt cum) (histogram_of l).
Proof.
  revert cum. induction l as [|[b n] l IH]; intros cum H; cbn in H; [lia|].
  change (quantile_from (VInt (rank - cum)) (histogram_of ((b, n) :: l)))
    with (if rank - cum <? n then int b /' int 1000 else quantile_from (VInt (rank - cum - n)) (histogram_of l)).
  change (percentile_from (VInt (rank + 1)) (VInt cum) (histogram_of ((b, n) :: l)))
    with (if rank + 1 <=? cum + n then int b /' int 1000 else percentile_from (VInt (rank + 1)) (VInt (cum + n)) (histogram_of l)).
  replace (rank - cum <? n) with (rank + 1 <=? cum + n) by lia. destruct (Z.leb_spec (rank + 1) (cum + n)); [done|].
  replace (rank - cum - n) with (rank - (cum + n)) by lia. apply IH. lia.
Qed.

Lemma quantile_percentile h p :
  counted h -> NoDup (map fst h) -> 0 < p <= 100 ->
  quantile (histogram_of h) p = percentile (histogram_of h) p
  /\ is_class (match quantile (histogram_of h) p with Err e => e | Ok _ => Exn ValueError "" end) AssertionError = false.
Proof.
  intros Hc Hn Hp. unfold quantile, percentile.
  replace (map snd (histogram_of h)) with (map VInt (map snd h)) by (unfold histogram_of; by rewrite !map_map).
  rewrite py_sum_int. set (total := sumZ (map snd h)). cbn [rbind].
  assert (Ht : 0 <= total) by (apply sumZ_nonneg; by rewrite Forall_map).
  change ((v <- ($(VInt total) -' int 1) *' int p ;; py_floordiv v (VInt 100))) with (Ok (VInt ((total - 1) * p / 100))).
  change ((Ok (VInt ((total - 1) * p / 100)) +' int 1)) with (Ok (VInt ((total - 1) * p / 100 + 1))).
  set (rank := (total - 1) * p / 100). cbn [rbind].
  change (($(VInt rank) <' int 0)) with (Ok (rank <? 0)). cbn [ifR rbind].
  destruct (decide (total = 0)) as [E|E].
  - assert (rank < 0) by (unfold rank; rewrite E; apply Z.div_lt_upper_bound; lia).
    replace (rank <? 0) with true by lia. rewrite E. by split.
  - assert (Hr : 0 <= rank <= total - 1) by (unfold rank; split; [apply Z.div_pos; nia|apply Z.div_le_upper_bound; nia]).
    replace (rank <? 0) with false by lia.
    replace (truthy (VInt total)) with true by (cbn; symmetry; apply negb_true_iff, Z.eqb_neq; lia). cbn [negb].
    rewrite (sorted_items h Hn).
    destruct (py_sorted_by_ints (A:=val * val) fst (fun kv => match kv.1 with VInt z => z | _ => 0 end) (histogram_of h))
      as (l & -> & Hl & _).
    { intros [k v] Hk. unfold histogram_of in Hk. apply list_elem_of_fmap in Hk as ([b n] & [= -> ->] & _). done. }
    cbn [rbind]. apply Permutation_map_inv in Hl as (m & -> & Hm). fold (histogram_of m).
    assert (Hs : 0 <= rank < 0 + sumZ (map snd m)) by (rewrite <- (sum_perm _ _ Hm); fold total; lia).
    pose proof (quantile_from_percentile rank 0 m Hs) as Hq. rewrite Z.sub_0_r in Hq.
    destruct (percentile_from_rank (rank + 1) 0 m ltac:(lia)) as (l1 & b & n & l2 & _ & _ & Hb). rewrite Hq, Hb. split; [done|].
    unfold int, lift2. cbn [rbind]. unfold py_div. cbn [num_of]. change (1000 =? 0) with false. cbv iota. unfold of_option, rmap.
    by destruct (f64_of_quotient b 1000).
Qed.

(** The controller and the audit publish the same percentiles.  On every histogram of distinct integer boundaries
    and counts that are not negative, [quantile] - it orders the buckets with their counts and counts a rank down - and
    [percentile] - it orders the boundaries and counts up to a target - are the same function, empty histograms
    included; neither reaches its assertion. *)
Theorem quantile_audited h p :
  counted h -> NoDup (map fst h) -> 0 < p <= 100 ->
  quantile (histogram_of h) p = percentile (histogram_of h) p
  /\ is_class (match quantile (histogram_of h) p with Err e => e | Ok _ => Exn ValueError "" end) AssertionError = false.
Proof. exact (quantile_percentile h p). Qed.

Lemma quantile_audited_witness :
  quantile (histogram_of [(30, 1); (10, 2); (20, 1)]) 50 = Ok (VFloat (f64_lit 10 3))
  /\ quantile (histogram_of [(30, 1); (10, 2); (20, 1)]) 50 = percentile (histogram_of [(30, 1); (10, 2); (20, 1)]) 50.
Proof.
  split; [vm_compute; reflexivity|]. apply (quantile_audited [(30, 1); (10, 2); (20, 1)] 50); [|computed|lia].
  repeat constructor; cbn; lia.
Defined.

(** ** Failures by kind *)

(** A counter that was only counted up: its counts are positive and no key is there twice. *)
Fixpoint tallied (c : dict) : Prop :=
  match c with
  | [] => True
  | (k, v) :: c => (exists n, v = VInt n /\ 1 <= n) /\ Forall (fun kv : val * val => py_eqb kv.1 k = false) c /\ tallied c
  end.

Lemma dget_tallied k c v : tallied c -> dget k c = Some v -> exists n, v = VInt n /\ 1 <= n.
Proof. induction c as [|[k' v'] c IH]; [done|]. intros (Hn & _ & Hc). cbn. case_match; [by intros [= <-]|by apply IH]. Qed.
Lemma dset_Forall (P : val -> Prop) k v c : Forall (fun kv : val * val => P kv.1) c -> (P k) -> Forall (fun kv : val * val => P kv.1) (dset k v c).
Proof. intros H Hk. induction H as [|[k' v'] c Hx Hc IH]; cbn [dset]; [by repeat constructor|]. case_match; by constructor. Qed.
Lemma dset_tallied k n c : tallied c -> 1 <= n -> tallied (dset k (VInt n) c).
Proof.
  intros Hc Hn. induction c as [|[k' v'] c IH]; cbn [dset]; [by split; [eexists|]|]. destruct Hc as (Hv & Hf & Hc).
  destruct (py_eqb k k') eqn:E; [by split_and!; [by eexists| |]|]. split_and!; [done| |by apply IH].
  by apply (dset_Forall (fun x => py_eqb x k' = false)).
Qed.
Lemma counter_add_tallied c k c' : tallied c -> counter_add c k = Ok c' -> tallied c'.
Proof.
  intros Hc. unfold counter_add. intros (k' & _ & H)%rbind_ok. destruct (dget k' c) as [v|] eqn:E.
  - destruct (dget_tallied _ _ _ Hc E) as (n & -> & Hn). cbn in H. injection H as <-. apply dset_tallied; [done|lia].
  - cbn in H. injection H as <-. by apply dset_tallied.
Qed.

Lemma py_eqb_str_key k s : py_eqb k (VStr s) = true -> k = VStr s.
Proof. destruct k; try done. rewrite py_eqb_str. by intros ->%String.eqb_eq. Qed.

(** When such a counter equals one by texts, its keys are texts. *)
Lemma tallied_counts c d g : tallied c -> counts VStr d g -> counter_eqb c d = true -> counts VStr c g.
Proof.
  intros Hc Hd He. assert (exists l, c = counts_dict VStr l /\ NoDup (map fst l)) as (l & -> & Hl).
  { unfold counter_eqb in He. apply andb_true_iff in He as [He _]. clear -Hc Hd He.
    induction c as [|[k v] c IH]; [by exists []; split; [|constructor]|]. destruct Hc as ((n & -> & Hn) & Hf & Hc).
    cbn [forallb] in He. apply andb_true_iff in He as [Hk He]. destruct (IH Hc He) as (l & -> & Hl). cbn [fst snd] in Hk.
    assert (exists s, k = VStr s) as [s ->].
    { destruct Hd as (m & -> & _ & _). clear IH He. induction m as [|[s z] m IHm].
      - change (py_eqb (VInt n) (VInt 0) = true) in Hk. rewrite py_eqb_int in Hk. lia.
      - change (counts_dict VStr ((s, z) :: m)) with ((VStr s, VInt z) :: counts_dict VStr m) in Hk. cbn [dget] in Hk.
        destruct (py_eqb k (VStr s)) eqn:E; [|by apply IHm]. apply py_eqb_str_key in E as ->. by eexists. }
    exists ((s, n) :: l). split; [done|]. cbn. constructor; [|done]. intros (x & -> & Hx)%list_elem_of_fmap.
    rewrite Forall_forall in Hf. specialize (Hf (VStr x.1, VInt x.2)). cbn [fst] in Hf.
    assert (Hin : (VStr x.1, VInt x.2) ∈ counts_dict VStr l) by by apply (list_elem_of_fmap_2 (fun kn : string * Z => (VStr kn.1, VInt kn.2))).
    apply Hf in Hin. by rewrite py_eqb_str, String.eqb_refl in Hin. }
  assert (C : counts VStr (counts_dict VStr l) (fun k => count_of k l)) by by exists l.
  eapply counts_ext; [|exact C]. by apply (counts_eqb VStr _ _ _ _ C Hd).
Qed.

Lemma log_events_tallied shard args lines c c' :
  (forall p, tallied (at_phase p c)) -> foldR (log_event shard args) c lines = Ok c' -> forall p, tallied (at_phase p c').
Proof.
  revert c. induction lines as [|line lines IH]; intros c Hc H; cbn in H; [by injection H as <-|].
  apply rbind_ok in H as (c1 & H1 & H). apply (IH c1); [|done]. unfold log_event in H1.
  do 7 (apply rbind_ok in H1 as (? & _ & H1)). apply rbind_ok in H1 as (kind & _ & H1).
  apply rbind_ok in H1 as (q & _ & H1). unfold update_phase in H1. apply rbind_ok in H1 as (d & Hd & [= <-]).
  intros p. rewrite at_set_phase. case_bool_decide; [|done]. by eapply counter_add_tallied.
Qed.

Lemma check_log_tallied t path run args i shard observed :
  check_log t path run args i shard = Ok observed -> forall p, tallied (at_phase p observed).
Proof.
  unfold check_log. intros H. do 4 (apply rbind_ok in H as (? & _ & H)). apply rbind_ok in H as (obs & Hev & H).
  do 2 (apply rbind_ok in H as (? & _ & H)). injection H as ->. eapply log_events_tallied; [|exact Hev].
  intros p. unfold at_phase, no_counts. cbn. by repeat case_match.
Qed.

(** ** The shards of a run *)

(** What the shards hold under the keys both programs add up, by type. *)
Record typed_shard (shard : val) : Prop := {
  ts_stats phase k : phase ∈ PHASES -> k ∈ stat_names -> exists n, $shard.[phase].[k] = Ok (VInt n);
  ts_kinds phase : phase ∈ PHASES -> exists d g, (item <- $shard.[phase] ;; kinds_of item) = Ok d /\ counts VStr d g;
  ts_totals k : k ∈ run_totals ++ ["start_ns"; "end_ns"] -> exists n, $shard.[k] = Ok (VInt n);
  ts_latency k : k ∈ ["latency_us"; "failure_latency_us"] ->
    exists l, $shard.[k] = Ok (VDict (json_histogram l)) /\ Forall (fun kn => 0 <= kn.2) l }.

(** The numbers under those keys. *)
Definition int_at (e : expr) : Z := match e with Ok (VInt n) => n | _ => 0 end.
Definition stat (phase k : string) (shard : val) : Z :=
  if bool_decide (k ∈ stat_names) then int_at ($shard.[phase].[k]) else 0.
Definition kinds_in (phase : string) (shard : val) (k : string) : Z :=
  match (item <- $shard.[phase] ;; kinds_of item) with Ok d => int_at (Ok (default (VInt 0) (dget (VStr k) d))) | Err _ => 0 end.
Definition total (f : val -> Z) (shards : list val) : Z := sumZ (map f shards).

Lemma kinds_typed shard phase : typed_shard shard -> phase ∈ PHASES ->
  exists d, (item <- $shard.[phase] ;; kinds_of item) = Ok d /\ counts VStr d (kinds_in phase shard).
Proof.
  intros T Hp. destruct (ts_kinds _ T phase Hp) as (d & g & Hd & Hg). exists d. split; [done|]. eapply counts_ext; [|exact Hg].
  intros k. unfold kinds_in. by rewrite Hd, (counts_get VStr _ _ k Hg).
Qed.
Lemma stat_typed shard phase k : typed_shard shard -> phase ∈ PHASES -> k ∈ stat_names -> $shard.[phase].[k] = Ok (VInt (stat phase k shard)).
Proof.
  intros T Hp Hk. destruct (ts_stats _ T phase k Hp Hk) as [n Hn]. unfold stat. rewrite bool_decide_eq_true_2 by done. by rewrite Hn.
Qed.

Lemma sum_typed (f : val -> expr) shards : Forall (fun shard => exists n, f shard = Ok (VInt n)) shards ->
  sumR f shards = Ok (VInt (total (fun shard => int_at (f shard)) shards)).
Proof.
  intros H. unfold sumR. assert (E : mapR f shards = Ok (map VInt (map (fun shard => int_at (f shard)) shards))).
  { induction H as [|shard shards [n Hn] _ IH]; [done|]. cbn [mapR map]. by rewrite IH, Hn. }
  rewrite E. cbn [rbind]. apply py_sum_int.
Qed.

(** *** As the controller adds them up *)

Lemma count_phases phase shards c f c' :
  Forall typed_shard shards -> phase ∈ PHASES -> counts VStr c f -> foldR (count_phase phase) c shards = Ok c' ->
  counts VStr c' (fun k => f k + total (fun shard => kinds_in phase shard k) shards).
Proof.
  intros Ht Hp. revert c f. induction Ht as [|shard shards T _ IH]; intros c f Hc; cbn [foldR].
  { intros [= <-]. eapply counts_ext; [|exact Hc]. intros k. unfold total. cbn. lia. }
  intros (c1 & H1 & H)%rbind_ok. unfold count_phase in H1. apply rbind_ok in H1 as (item & Hi & H1).
  apply rbind_ok in H1 as (? & _ & H1). apply rbind_ok in H1 as (kinds & Hk & H1). apply rbind_ok in H1 as (? & _ & H1).
  destruct (kinds_typed shard phase T Hp) as (d & Hd & Hg). rewrite Hi in Hd. cbn [rbind] in Hd. rewrite Hk in Hd. injection Hd as ->.
  destruct (counts_update VStr _ _ _ _ Hc Hg) as (e & He & Hf). rewrite He in H1. injection H1 as <-.
  eapply counts_ext; [|exact (IH _ _ Hf H)]. intros k. unfold total. cbn. lia.
Qed.

Lemma phase_total_spec shards phase v :
  Forall typed_shard shards -> phase ∈ PHASES -> phase_total shards phase = Ok v ->
  (forall k, k ∈ stat_names -> $v.[k] = Ok (VInt (total (stat phase k) shards)))
  /\ exists d, $v.["failure_kinds"] = Ok (VDict d) /\ counts VStr d (fun k => total (fun shard => kinds_in phase shard k) shards).
Proof.
  intros Ht Hp. unfold phase_total. intros (c & Hc & H)%rbind_ok. split.
  - intros k Hk.
    assert (Ha : assoc k (map (fun k => (k, sumR (fun shard => $shard.[phase].[k]) shards)) stat_names ++ [("failure_kinds", $(VDict c))])
                 = Some (sumR (fun shard => $shard.[phase].[k]) shards)).
    { unfold stat_names in Hk. repeat (apply elem_of_cons in Hk as [->|Hk]; [reflexivity|]). by apply not_elem_of_nil in Hk. }
    destruct (mkdict_get _ _ _ _ H Ha) as (w & Hw & Hk'). rewrite Hk', <- Hw, sum_typed.
    + f_equal. f_equal. unfold total. f_equal. apply map_ext. intros shard. unfold stat. by rewrite bool_decide_eq_true_2.
    + eapply Forall_impl; [exact Ht|]. intros shard T. by apply (ts_stats _ T).
  - exists c. split.
    + destruct (mkdict_get _ _ "failure_kinds" _ H eq_refl) as (w & [= <-] & Hk'). exact Hk'.
    + eapply counts_ext; [|exact (count_phases phase shards [] _ c Ht Hp (counts_nil VStr) Hc)]. done.
Qed.

(** *** As the audit adds them up *)

(** The totals and the failures by kind of the audit, for one phase. *)
Definition phase_sums (phase : string) (st : by_phase * by_phase) (f g : string -> Z) : Prop :=
  counts VStr (at_phase phase st.1) f /\ counts VStr (at_phase phase st.2) g.

Lemma stat_counts shard phase stats counts_ :
  typed_shard shard -> phase ∈ PHASES -> $shard.[phase] = Ok stats ->
  mapR (fun k => v <- $stats.[k] ;; Ok (VStr k, v)) stat_names = Ok counts_ -> counts VStr counts_ (fun k => stat phase k shard)
  /\ forall k, k ∈ stat_names -> is_Some (dget (VStr k) counts_).
Proof.
  intros T Hp Hs H.
  assert (E : forall k, k ∈ stat_names -> $stats.[k] = Ok (VInt (stat phase k shard))).
  { intros k Hk. rewrite <- (stat_typed shard phase k T Hp Hk). unfold idx at 2. by rewrite Hs. }
  cbn [mapR stat_names] in H. rewrite !E in H by (unfold stat_names; set_solver). cbn [rbind] in H. injection H as <-. split.
  - exists (map (fun k => (k, stat phase k shard)) stat_names). split_and!; [done|computed|].
    intros k. unfold count_of. cbn [map stat_names lookup_count].
    repeat match goal with |- context [bool_decide (k = ?x)] => destruct (bool_decide_reflect (k = x)) as [->|]; [reflexivity|] end.
    unfold stat. rewrite bool_decide_eq_false_2; [done|]. unfold stat_names. set_solver.
  - intros k Hk. unfold stat_names in Hk. repeat (apply elem_of_cons in Hk as [->|Hk]; [by eexists|]). by apply not_elem_of_nil in Hk.
Qed.

(** One phase of one shard: its own sums grow, the others are left alone. *)
Lemma add_phase_spec shard observed st phase st' :
  typed_shard shard -> phase ∈ PHASES -> tallied (at_phase phase observed) -> map fst st.1 = PHASES -> map fst st.2 = PHASES ->
  add_phase shard observed st phase = Ok st' ->
  map fst st'.1 = PHASES /\ map fst st'.2 = PHASES
  /\ (forall q, q <> phase -> at_phase q st'.1 = at_phase q st.1 /\ at_phase q st'.2 = at_phase q st.2)
  /\ forall f g, phase_sums phase st f g ->
     phase_sums phase st' (fun k => f k + stat phase k shard) (fun k => g k + kinds_in phase shard k)
     /\ forall k, k ∈ stat_names -> is_Some (dget (VStr k) (at_phase phase st'.1)).
Proof.
  intros T Hp Ht K1 K2. unfold add_phase. intros (stats & Hs & H)%rbind_ok. do 2 (apply rbind_ok in H as (? & _ & H)).
  apply rbind_ok in H as (kinds & Hk & H). apply rbind_ok in H as (? & He%require_ok & H).
  apply rbind_ok in H as (counts_ & Hc & H). apply rbind_ok in H as (totals & H1 & H). apply rbind_ok in H as (all_kinds & H2 & [= <-]).
  unfold update_phase in H1, H2. apply rbind_ok in H1 as (d1 & H1 & [= <-]). apply rbind_ok in H2 as (d2 & H2 & [= <-]). cbn [fst snd].
  rewrite !set_phase_keys. split_and!; [done|done|..].
  - intros q Hq. rewrite !at_set_phase. by rewrite !bool_decide_eq_false_2 by tauto.
  - intros f g [Cf Cg]. unfold phase_sums. cbn [fst snd]. rewrite !at_set_phase, K1, K2, !bool_decide_eq_true_2 by done.
    destruct (stat_counts shard phase stats counts_ T Hp Hs Hc) as [Cs Ps].
    destruct (kinds_typed shard phase T Hp) as (d & Hd & Hg). rewrite Hs in Hd. cbn [rbind] in Hd. unfold kinds_of in Hd.
    apply rbind_ok in Hd as (v & Hv & Hd). rewrite Hv in Hk. cbn [rbind] in Hk. destruct v; try done. injection Hd as ->.
    rewrite (counts_counter VStr _ _ Hg) in Hk. injection Hk as <-.
    pose proof (tallied_counts _ _ _ Ht Hg He) as Co.
    destruct (counts_update VStr _ _ _ _ Cf Cs) as (e1 & E1 & F1). rewrite E1 in H1. injection H1 as <-.
    destruct (counts_update VStr _ _ _ _ Cg Co) as (e2 & E2 & F2). rewrite E2 in H2. injection H2 as <-.
    split; [by split|]. intros k Hk. eapply (has_update VStr); [exact Cf|exact Cs|exact E1|]. right. by apply Ps.
Qed.

(** All phases of one shard. *)
Lemma add_phases_spec shard observed ps st st' :
  typed_shard shard -> (forall p, tallied (at_phase p observed)) -> NoDup ps -> (forall p, p ∈ ps -> p ∈ PHASES) ->
  map fst st.1 = PHASES -> map fst st.2 = PHASES -> foldR (add_phase shard observed) st ps = Ok st' ->
  map fst st'.1 = PHASES /\ map fst st'.2 = PHASES
  /\ (forall q, q ∉ ps -> at_phase q st'.1 = at_phase q st.1 /\ at_phase q st'.2 = at_phase q st.2)
  /\ forall p f g, p ∈ ps -> phase_sums p st f g ->
     phase_sums p st' (fun k => f k + stat p k shard) (fun k => g k + kinds_in p shard k)
     /\ forall k, k ∈ stat_names -> is_Some (dget (VStr k) (at_phase p st'.1)).
Proof.
  intros T Ht. revert st. induction ps as [|p ps IH]; intros st Hn Hin K1 K2; cbn [foldR].
  { intros [= <-]. split_and!; [done|done|done|]. intros p f g Hp. by apply not_elem_of_nil in Hp. }
  apply NoDup_cons in Hn as [Hp Hn]. intros (st1 & H1 & H)%rbind_ok.
  destruct (add_phase_spec _ _ _ _ _ T (Hin p ltac:(by left)) (Ht p) K1 K2 H1) as (K1' & K2' & O1 & S1).
  destruct (IH st1 Hn (fun q Hq => Hin q ltac:(by right)) K1' K2' H) as (K1'' & K2'' & O2 & S2). split_and!; [done|done|..].
  - intros q [Hq Hqs]%not_elem_of_cons. destruct (O2 q Hqs) as [-> ->]. by apply O1.
  - intros q f g Hq Hs. destruct (decide (q = p)) as [->|Hne].
    + destruct (S1 f g Hs) as [Hs1 Hp1]. unfold phase_sums in *. destruct (O2 p Hp) as [-> ->]. by split.
    + apply elem_of_cons in Hq as [?|Hq]; [done|]. apply S2; [done|]. unfold phase_sums in *. by destruct (O1 q Hne) as [-> ->].
Qed.

(** *** All shards *)

Record summed (shards : list val) (s : sums) : Prop := {
  su_totals : map fst (s_totals s) = PHASES; su_kinds : map fst (s_kinds s) = PHASES;
  su_sums phase : phase ∈ PHASES -> phase_sums phase (s_totals s, s_kinds s)
    (fun k => total (stat phase k) shards) (fun k => total (fun shard => kinds_in phase shard k) shards);
  su_present phase k : shards <> [] -> phase ∈ PHASES -> k ∈ stat_names -> is_Some (dget (VStr k) (at_phase phase (s_totals s)));
  su_histograms : foldR add_latency ([], []) shards = Ok (s_latency s, s_failure_latency s) }.

Lemma total_snoc f shards shard : total f (shards ++ [shard]) = total f shards + f shard.
Proof. unfold total. rewrite map_app, sumZ_app. cbn. lia. Qed.

Lemma foldR_snoc {A S} (f : S -> A -> res S) s l x s' : foldR f s l = Ok s' -> foldR f s (l ++ [x]) = f s' x.
Proof.
  revert s. induction l as [|y l IH]; intros s; cbn; [intros [= ->]; by destruct (f s' x)|].
  intros (s1 & -> & H)%rbind_ok. cbn. by apply IH.
Qed.

Lemma no_sums_summed : summed [] no_sums.
Proof.
  split; [done|done| |done|done]. intros phase Hp. unfold phase_sums. cbn [fst snd s_totals s_kinds no_sums].
  assert (E : at_phase phase no_counts = []) by (unfold PHASES in Hp; repeat (apply elem_of_cons in Hp as [->|Hp]; [done|]); by apply not_elem_of_nil in Hp).
  rewrite E. split; apply (counts_nil VStr).
Qed.

Lemma add_shard_summed t path run args i s done_ shard st :
  typed_shard shard -> summed done_ s -> add_shard t path run args (i, s) shard = Ok st -> summed (done_ ++ [shard]) st.2.
Proof.
  intros T S. unfold add_shard. intros H. do 2 (apply rbind_ok in H as (? & _ & H)).
  apply rbind_ok in H as (observed & Ho & H). apply rbind_ok in H as ([totals kinds] & Hp & H).
  apply rbind_ok in H as (latency & Hl & H). apply rbind_ok in H as (failure & Hf & [= <-]). cbn [snd].
  pose proof (check_log_tallied _ _ _ _ _ _ _ Ho) as Ht.
  apply (add_phases_spec shard observed PHASES) in Hp as (K1 & K2 & _ & Sp);
    [|done|done|computed|done|apply S|apply S]. cbn [fst snd] in *. split; cbn.
  - exact K1.
  - exact K2.
  - intros phase Hph. destruct (Sp phase _ _ Hph (su_sums _ _ S phase Hph)) as [[C1 C2] _].
    split; (eapply counts_ext; [|first [exact C1|exact C2]]); intros k; cbn beta; by rewrite total_snoc.
  - intros phase k _ Hph Hk. by destruct (Sp phase _ _ Hph (su_sums _ _ S phase Hph)) as [_ ?]; auto.
  - rewrite (foldR_snoc _ _ _ _ _ (su_histograms _ _ S)). unfold add_latency, add_histogram_of, buckets_of. cbn [fst snd].
    unfold add_histogram in Hl, Hf. apply rbind_ok in Hl as (? & Ha & Hl). apply rbind_ok in Hf as (? & Hb & Hf).
    rewrite Ha, Hb. cbn [rbind]. rewrite Hl. cbn [rbind]. by rewrite Hf.
Qed.

Lemma add_shards_summed t path run args shards st :
  Forall typed_shard shards -> foldR (add_shard t path run args) (0, no_sums) shards = Ok st -> summed shards st.2.
Proof.
  intros Ht. assert (G : forall l done_ i s st, Forall typed_shard l -> summed done_ s ->
    foldR (add_shard t path run args) (i, s) l = Ok st -> summed (done_ ++ l) st.2); [|by apply (G shards [] 0 no_sums); [|apply no_sums_summed]].
  clear. induction l as [|shard l IH]; intros done_ i s st Ht S; cbn [foldR].
  - intros [= <-]. by rewrite app_nil_r.
  - apply Forall_cons in Ht as [T Ht]. intros ([i1 s1] & H1 & H)%rbind_ok. apply (add_shard_summed _ _ _ _ _ _ done_) in H1 as S1; [|done|done].
    replace (done_ ++ shard :: l) with ((done_ ++ [shard]) ++ l) by by rewrite <- app_assoc. by eapply IH.
Qed.

(** ** The aggregate *)

(** Dictionaries whose keys are distinct texts. *)
Definition string_dict (m : dict) : Prop := exists ks, map fst m = map VStr ks /\ NoDup ks.

Lemma sget_keys m ks k : map fst m = map VStr ks -> k ∉ ks -> sget k m = None.
Proof.
  unfold sget. revert ks. induction m as [|[k' v] m IH]; intros [|a ks] E Hk; try done. injection E as -> E. cbn [dget].
  rewrite py_eqb_str. destruct (String.eqb_spec k a) as [->|]; [exfalso; apply Hk; by left|]. apply (IH ks); [done|set_solver].
Qed.
Lemma dset_string_dict k v m : string_dict m -> string_dict (dset (VStr k) v m).
Proof.
  intros (ks & E & Hn). exists (if bool_decide (k ∈ ks) then ks else ks ++ [k]). split.
  - clear Hn. revert ks E. induction m as [|[k' w] m IH]; intros [|a ks] E; try done. injection E as -> E. cbn [dset].
    rewrite py_eqb_str. destruct (String.eqb_spec k a) as [->|Hka].
    + rewrite bool_decide_eq_true_2 by (by left). cbn. by rewrite E.
    + cbn [map fst]. rewrite (IH ks E). destruct (bool_decide_reflect (k ∈ ks)) as [Hin|Hin].
      * by rewrite bool_decide_eq_true_2 by (by right).
      * rewrite bool_decide_eq_false_2 by set_solver. done.
  - case_bool_decide; [done|]. apply NoDup_app. split_and!; [done|set_solver|apply NoDup_singleton].
Qed.
Lemma dupdate_string_dict l m : string_dict l -> string_dict m -> string_dict (dupdate l m).
Proof.
  intros Hl (ks & E & _). revert l ks E Hl. induction m as [|[k v] m IH]; intros l [|a ks] E Hl; try done. injection E as -> E.
  change (dupdate l ((VStr a, v) :: m)) with (dupdate (dset (VStr a) v l) m). eapply IH; [exact E|]. by apply dset_string_dict.
Qed.
Lemma sget_merged l m k : string_dict m -> sget k (dupdate l m) = match sget k m with Some v => Some v | None => sget k l end.
Proof.
  intros (ks & E & Hn). revert l ks E Hn. induction m as [|[k' v] m IH]; intros l [|a ks] E Hn; try done. injection E as -> E.
  apply NoDup_cons in Hn as [Ha Hn]. change (dupdate l ((VStr a, v) :: m)) with (dupdate (sset a v l) m).
  rewrite (IH _ ks E Hn). change (sget k ((VStr a, v) :: m)) with (if py_eqb (VStr k) (VStr a) then Some v else sget k m).
  rewrite py_eqb_str, sget_sset. destruct (String.eqb_spec k a) as [->|]; [|done]. by rewrite (sget_keys _ _ _ E Ha).
Qed.

Lemma mkdict_string_dict l v : mkdict l = Ok v -> NoDup (map fst l) -> exists d, v = VDict d /\ string_dict d.
Proof.
  intros (d & -> & H)%mkdict_ok Hn. exists d. split; [done|]. exists (map fst l). split; [|done]. clear Hn.
  induction H as [|ke kv l d [Hk _] _ IH]; [done|]. cbn. by rewrite Hk, IH.
Qed.
Lemma mkdict_absent l d k : mkdict l = Ok (VDict d) -> k ∉ map fst l -> sget k d = None.
Proof.
  intros (d' & [= <-] & H)%mkdict_ok Hk. apply (sget_keys d (map fst l)); [|done]. clear Hk.
  induction H as [|ke kv l d [Hk _] _ IH]; [done|]. cbn. by rewrite Hk, IH.
Qed.

Lemma mkdict_has l v k : mkdict l = Ok v -> k ∈ map fst l -> exists w, $v.[k] = Ok w.
Proof.
  intros H Hk. assert (exists e, assoc k l = Some e) as [e He].
  { clear H. induction l as [|[k' e] l IH]; cbn in *; [by apply not_elem_of_nil in Hk|].
    destruct (String.eqb_spec k k') as [->|]; [by eexists|]. apply IH. by apply elem_of_cons in Hk as [?|?]. }
  destruct (mkdict_get _ _ _ _ H He) as (w & _ & Hw). by exists w.
Qed.

(** [d.update(e)] has what [e] has, and keeps the rest. *)
Lemma update_new l m k w : string_dict m -> $(VDict m).[k] = Ok w -> $(VDict (dupdate l m)).[k] = Ok w.
Proof.
  intros Hm (d & [= <-] & Hw)%idx_ok. apply idx_intro. by rewrite sget_merged, Hw.
Qed.
Lemma merge_keeps l m k w : string_dict m -> sget k m = None -> $(VDict l).[k] = Ok w -> $(VDict (dupdate l m)).[k] = Ok w.
Proof.
  intros Hm Hk (d & [= <-] & Hw)%idx_ok. apply idx_intro. by rewrite sget_merged, Hk, Hw.
Qed.

Definition rate_keys : list string :=
  ["seconds"; "requests_per_second"; "p50_ms"; "p99_ms"; "failure_p99_ms"; "client_cpu_cores"; "start_skew_ms"].
Definition agg_keys : list string := PHASES ++ run_totals ++ rate_keys ++ ["full_population"].

(** The time of the run, as both programs take it. *)
Definition elapsed_in (shards : list val) (duration_ : val) : expr :=
  span <- (maxR (fun shard => $shard.["end_ns"]) shards -' minR (fun shard => $shard.["start_ns"]) shards)
          /' lit 1000000000 0 ;;
  py_max [duration_; span].

(** What an aggregate has under the keys the audit reads. *)
Record aggregated (shards : list val) (duration_ agg : val) : Prop := {
  ag_phase phase : phase ∈ PHASES -> exists v, phase_total shards phase = Ok v /\ $agg.[phase] = Ok v;
  ag_total k : k ∈ run_totals -> exists v, sumR (fun shard => $shard.[k]) shards = Ok v /\ $agg.[k] = Ok v;
  ag_rates : exists latency failure_latency elapsed rate p50 p99 f99,
    foldR add_latency ([], []) shards = Ok (latency, failure_latency) /\ elapsed_in shards duration_ = Ok elapsed
    /\ $agg.["seconds"] = Ok elapsed /\ $agg.["requests_per_second"] = Ok rate
    /\ $agg.["measurement"].["succeeded"] /' $elapsed = Ok rate
    /\ $agg.["p50_ms"] = Ok p50 /\ quantile latency 50 = Ok p50 /\ $agg.["p99_ms"] = Ok p99 /\ quantile latency 99 = Ok p99
    /\ $agg.["failure_p99_ms"] = Ok f99 /\ quantile failure_latency 99 = Ok f99;
  ag_full : exists full, $agg.["full_population"] = Ok (VBool full)
    /\ (($agg.["ready_connections"] ==' $agg.["requested_connections"])
        &&' ($agg.["participating_connections"] ==' $agg.["requested_connections"])) = Ok full;
  ag_present k : k ∈ agg_keys -> exists v, $agg.[k] = Ok v;
  ag_dict : exists d, agg = VDict d /\ string_dict d /\ forall k, k ∉ agg_keys -> sget k d = None }.

Lemma assoc_map_in {A} (f : string -> A) l k m : k ∈ l -> assoc k (map (fun k => (k, f k)) l ++ m) = Some (f k).
Proof.
  induction l as [|x l IH]; [intros Hk; by apply not_elem_of_nil in Hk|]. cbn. destruct (String.eqb_spec k x) as [->|]; [done|].
  intros [?|Hk]%elem_of_cons; [done|]. by apply IH.
Qed.
Lemma assoc_map_out {A} (f : string -> A) l k m : k ∉ l -> assoc k (map (fun k => (k, f k)) l ++ m) = assoc k m.
Proof.
  induction l as [|x l IH]; [done|]. cbn. intros Hk. destruct (String.eqb_spec k x) as [->|]; [exfalso; apply Hk; by left|].
  apply IH. set_solver.
Qed.

Lemma aggregate_spec shards duration_ agg : aggregate shards duration_ = Ok agg -> aggregated shards duration_ agg.
Proof.
  unfold aggregate. intros (result & Hres & H)%rbind_ok. apply rbind_ok in H as ([latency failure_latency] & Hl & H).
  apply rbind_ok in H as (? & _ & H). apply rbind_ok in H as (elapsed & Hel & H). apply rbind_ok in H as (rates & Hrates & H).
  apply rbind_ok in H as (result2 & Hup & H). apply rbind_ok in H as (full & Hfull & H).
  destruct (mkdict_string_dict _ _ Hres ltac:(computed)) as (d & -> & Sd).
  destruct (mkdict_string_dict _ _ Hrates ltac:(computed)) as (e & -> & Se).
  injection Hup as <-. apply setR_ok in H as (d2 & v & [= <-] & [= <-] & ->).
  set (agg := VDict (sset "full_population" (VBool full) (dupdate d e))).
  assert (Hset : setR (VDict (dupdate d e)) "full_population" (Ok (VBool full)) = Ok agg) by done.
  assert (G1 : forall k v, k ∉ rate_keys -> k <> "full_population" -> $(VDict d).[k] = Ok v -> $agg.[k] = Ok v).
  { intros k w Hk Hf Hw. eapply setR_keeps; [exact Hf|exact Hset|]. apply merge_keeps; [done| |done].
    apply (mkdict_absent _ _ _ Hrates). exact Hk. }
  assert (G2 : forall k v, k <> "full_population" -> $(VDict e).[k] = Ok v -> $agg.[k] = Ok v).
  { intros k w Hf Hw. eapply setR_keeps; [exact Hf|exact Hset|]. by apply update_new. }
  assert (Hph : forall phase, phase ∈ PHASES -> exists v, phase_total shards phase = Ok v /\ $(VDict d).[phase] = Ok v).
  { intros phase Hp. eapply mkdict_get; [exact Hres|]. by apply assoc_map_in. }
  assert (Htot : forall k, k ∈ run_totals -> exists v, sumR (fun shard => $shard.[k]) shards = Ok v /\ $(VDict d).[k] = Ok v).
  { intros k Hk. eapply mkdict_get; [exact Hres|]. rewrite assoc_map_out.
    - rewrite <- (app_nil_r (map _ run_totals)). by apply (assoc_map_in (fun k => sumR (fun shard => $shard.[k]) shards)).
    - intros Hk'. revert k Hk' Hk. rewrite <- Forall_forall. computed. }
  assert (N1 : forall phase, phase ∈ PHASES -> (phase ∉ rate_keys) /\ phase <> "full_population") by (apply Forall_forall; computed).
  assert (N2 : forall k, k ∈ run_totals -> (k ∉ rate_keys) /\ k <> "full_population") by (apply Forall_forall; computed).
  split.
  - intros phase Hp. destruct (Hph _ Hp) as (w & Hw & Hd), (N1 _ Hp). exists w. split; [done|]. by apply G1.
  - intros k Hk. destruct (Htot _ Hk) as (w & Hw & Hd), (N2 _ Hk). exists w. split; [done|]. by apply G1.
  - assert (R : forall k ex, assoc k _ = Some ex -> exists w, ex = Ok w /\ idx (Ok (VDict e)) k = Ok w) by (intros k ex; exact (mkdict_get _ _ k ex Hrates)).
    destruct (R "seconds" _ eq_refl) as (w & [= <-] & Rs). destruct (R "requests_per_second" _ eq_refl) as (rate & Hr & Rr).
    destruct (R "p50_ms" _ eq_refl) as (p50 & H50 & R50). destruct (R "p99_ms" _ eq_refl) as (p99 & H99 & R99).
    destruct (R "failure_p99_ms" _ eq_refl) as (f99 & Hf & Rf). exists latency, failure_latency, elapsed, rate, p50, p99, f99.
    destruct (Hph "measurement" ltac:(computed)) as (m & Hm & Rm).
    split_and!; [exact Hl|exact Hel|by apply G2|by apply G2| |by apply G2|exact H50|by apply G2|exact H99|by apply G2|exact Hf].
    rewrite (G1 "measurement" m ltac:(computed) ltac:(done) Rm), <- Rm. exact Hr.
  - exists full. split; [apply setR_new in Hset as (w & [= <-] & Hw); exact Hw|]. rewrite <- Hfull.
    assert (E : forall k, k ∈ run_totals -> $agg.[k] = $(VDict (dupdate d e)).[k]).
    { intros k Hk. destruct (Htot _ Hk) as (w & Hw & Hd), (N2 _ Hk) as [Ha Hb]. rewrite (G1 k w Ha Hb Hd). symmetry.
      apply merge_keeps; [done| |done]. by apply (mkdict_absent _ _ _ Hrates). }
    by rewrite !E by computed.
  - intros k Hk. unfold agg_keys in Hk. rewrite !elem_of_app, list_elem_of_singleton in Hk. destruct Hk as [Hk|[Hk|[Hk| ->]]].
    + destruct (Hph _ Hk) as (w & _ & Hd), (N1 _ Hk). exists w. by apply G1.
    + destruct (Htot _ Hk) as (w & _ & Hd), (N2 _ Hk). exists w. by apply G1.
    + assert (exists w, $(VDict e).[k] = Ok w) as [w Hw].
      { by eapply (mkdict_has _ _ _ Hrates). }
      exists w. apply G2; [|done]. revert k Hk Hw. clear. intros k Hk _. revert k Hk. apply Forall_forall. computed.
    + apply setR_new in Hset as (w & _ & Hw). by exists w.
  - eexists. split; [reflexivity|]. split; [apply dset_string_dict; by apply dupdate_string_dict|]. intros k Hk.
    unfold agg_keys in Hk. rewrite app_assoc, !not_elem_of_app, list_elem_of_singleton in Hk. destruct Hk as (Hk1 & Hk2 & Hk3).
    change (sget k (sset "full_population" (VBool full) (dupdate d e)) = None). rewrite sget_sset.
    destruct (String.eqb_spec k "full_population") as [->|]; [done|]. rewrite sget_merged by done.
    rewrite (mkdict_absent _ _ _ Hrates) by exact Hk2. apply (mkdict_absent _ _ _ Hres).
    change (k ∉ PHASES ++ run_totals). by rewrite not_elem_of_app.
Qed.

(** ** The audit of an aggregate *)

Lemma quantile_from_self r l v : quantile_from (VInt r) (histogram_of l) = Ok v -> py_eqb v v = true.
Proof.
  revert r. induction l as [|[b n] l IH]; intros r; [done|].
  change (quantile_from (VInt r) (histogram_of ((b, n) :: l)))
    with (if r <? n then millis b else quantile_from (VInt (r - n)) (histogram_of l)).
  destruct (r <? n); [apply millis_ok|apply IH].
Qed.
Lemma quantile_self h p v : quantile (histogram_of h) p = Ok v -> py_eqb v v = true.
Proof.
  unfold quantile. replace (map snd (histogram_of h)) with (map VInt (map snd h)) by (unfold histogram_of; by rewrite !map_map).
  rewrite py_sum_int. set (total := sumZ (map snd h)).
  change ((v0 <- ($(VInt total) -' int 1) *' int p ;; py_floordiv v0 (VInt 100))) with (Ok (VInt ((total - 1) * p / 100))).
  cbn [rbind]. change (($(VInt ((total - 1) * p / 100)) <' int 0)) with (Ok ((total - 1) * p / 100 <? 0)). cbn [ifR rbind].
  destruct (_ <? 0); [by intros [= <-]|]. intros (l & Hl & H)%rbind_ok. destruct (sorted_histogram _ _ _ Hl) as (h' & -> & _).
  by eapply quantile_from_self.
Qed.

(** Histograms without negative counts. *)
Definition tally (d : dict) : Prop := exists f, counts VInt d f /\ forall k, 0 <= f k.

Lemma tally_histogram d : tally d -> exists h, d = histogram_of h /\ counted h /\ NoDup (map fst h).
Proof.
  intros (f & (l & -> & Hl & Hf) & H0). exists l. split_and!; [done| |done]. apply Forall_forall. intros [b n] Hin.
  pose proof (lookup_count_In _ _ _ Hl Hin) as E. specialize (H0 b). rewrite <- Hf in H0. unfold count_of in H0. by rewrite E in H0.
Qed.
Lemma buckets_tally l d :
  Forall (fun kn : string * Z => 0 <= kn.2) l ->
  dict_by (fun bn : val * val => py_int_of bn.1) (fun bn => $(bn.2)) (json_histogram l) = Ok d -> tally d.
Proof.
  intros Hl. unfold dict_by. assert (T0 : tally []) by (exists (fun _ => 0); split; [apply (counts_nil VInt)|done]).
  revert T0. generalize (@nil (val * val)). induction Hl as [|[k n] l Hn _ IH]; intros e He; cbn [json_histogram map foldR];
    [by intros [= <-]|]. cbn [fst snd]. intros (e' & H1 & H)%rbind_ok. eapply IH; [|exact H].
  apply rbind_ok in H1 as (b & Hb & H1). cbn [rbind] in H1. injection H1 as <-. apply key_ok in Hb. cbn in Hb.
  apply rmap_ok in Hb as (z & _ & ->). destruct He as (f & Hf & H0).
  eexists. split; [by apply (counts_set VInt)|]. intros k'. cbn beta. case_bool_decide; [exact Hn|done].
Qed.
Lemma update_tally c d e : tally c -> tally d -> counter_update c d = Ok e -> tally e.
Proof.
  intros (f & Hf & Pf) (g & Hg & Pg) H. destruct (counts_update VInt _ _ _ _ Hf Hg) as (e' & He & Hc).
  rewrite He in H. injection H as <-. eexists. split; [exact Hc|]. intros k. cbn beta. specialize (Pf k). specialize (Pg k). lia.
Qed.

Lemma buckets_of_tally shard k h h' :
  typed_shard shard -> k ∈ ["latency_us"; "failure_latency_us"] -> tally h -> buckets_of shard k h = Ok h' -> tally h'.
Proof.
  intros T Hk Hh. destruct (ts_latency _ T k Hk) as (l & Hl & Pl). unfold buckets_of, itemsR. rewrite Hl. cbn [rbind py_items].
  intros (b & Hb & H)%rbind_ok. eapply update_tally; [exact Hh| |exact H]. by eapply buckets_tally.
Qed.
Lemma latencies_tally shards a b : Forall typed_shard shards -> foldR add_latency ([], []) shards = Ok (a, b) -> tally a /\ tally b.
Proof.
  intros Ht. assert (T0 : tally []) by (exists (fun _ => 0); split; [apply (counts_nil VInt)|done]).
  assert (G : forall st, tally st.1 -> tally st.2 -> foldR add_latency st shards = Ok (a, b) -> tally a /\ tally b); [|by apply G].
  clear T0. induction Ht as [|shard shards T _ IH]; intros [x y] Hx Hy; cbn [foldR]; [by intros [= -> ->]|].
  intros ([x' y'] & H1 & H)%rbind_ok. eapply IH; [| |exact H]; unfold add_latency in H1; do 2 (apply rbind_ok in H1 as (? & _ & H1));
    apply rbind_ok in H1 as (u & Hu & H1); apply rbind_ok in H1 as (w & Hw & [= <- <-]).
  - eapply buckets_of_tally; [exact T| |exact Hx|exact Hu]. set_solver.
  - eapply buckets_of_tally; [exact T| |exact Hy|exact Hw]. set_solver.
Qed.

Lemma quantile_checked d p v : tally d -> 0 < p <= 100 -> quantile d p = Ok v -> percentile d p = Ok v /\ py_eqb v v = true.
Proof.
  intros (h & -> & Hc & Hn)%tally_histogram Hp H. destruct (quantile_percentile h p Hc Hn Hp) as [E _].
  split; [by rewrite <- E|by eapply quantile_self].
Qed.

(** A run with the numbers of an aggregate. *)
Definition carries (run agg : val) : Prop := forall k, k ∈ agg_keys -> $run.[k] = $agg.[k].

(** Counters of failures by kind with integer counts. *)
Definition tallies (c : by_phase) : Prop :=
  map fst c = PHASES /\ forall phase, phase ∈ PHASES -> exists f, counts VStr (at_phase phase c) f.

Lemma agg_key k : k ∈ PHASES \/ k ∈ run_totals \/ k ∈ rate_keys \/ k = "full_population" -> k ∈ agg_keys.
Proof. intros H. unfold agg_keys. rewrite !elem_of_app, list_elem_of_singleton. tauto. Qed.

Lemma times_int shards k : Forall typed_shard shards -> k ∈ ["start_ns"; "end_ns"] ->
  exists l, mapR (fun shard => $shard.[k]) shards = Ok (map VInt l).
Proof.
  intros Ht Hk. induction Ht as [|shard l T _ [zs IH]]; [by exists []|].
  destruct (ts_totals _ T k) as [z Hz]; [apply elem_of_app; by right|]. exists (z :: zs). cbn [mapR]. by rewrite Hz, IH.
Qed.

Section Audited.
Context (shards : list val) (duration_ run agg : val) (s : sums).
Hypothesis shards_typed : Forall typed_shard shards.
Hypothesis shards_some : shards <> [].
Hypothesis agg_spec : aggregated shards duration_ agg.
Hypothesis run_carries : carries run agg.
Hypothesis audit_sums : summed shards s.

Lemma phase_audited f phase : tallies f -> phase ∈ PHASES -> exists f', check_phase run s f phase = Ok f' /\ tallies f'.
Proof using All.
  intros [Kf Tf] Hp. destruct (ag_phase _ _ _ agg_spec phase Hp) as (v & Hv & Ha).
  destruct (phase_total_spec _ _ _ shards_typed Hp Hv) as (Vs & kinds & Vk & Ck).
  destruct (su_sums _ _ audit_sums phase Hp) as [Ct Cg]. cbn [fst snd] in Ct, Cg.
  assert (Hr : $run.[phase] = Ok v) by (rewrite run_carries by (apply agg_key; tauto); exact Ha).
  unfold check_phase. rewrite Hr.
  rewrite (proj2 (eachR_ok _ stat_names tt)).
  2:{ apply Forall_forall. intros k Hk. rewrite (Vs k Hk).
      pose proof (counts_has VStr _ _ _ Ct (su_present _ _ audit_sums phase k shards_some Hp Hk)) as E.
      rewrite (idx_intro _ _ _ E), (eqR_refl (VInt _) I). reflexivity. }
  cbn [rbind]. rewrite Vk. cbn [rbind]. rewrite (counts_counter VStr _ _ Ck). cbn [rbind].
  rewrite (proj2 (counts_eqb VStr _ _ _ _ Ck Cg)) by done. cbn [require rbind]. unfold update_phase.
  destruct (Tf phase Hp) as (g & Hg). destruct (counts_update VStr _ _ _ _ Hg Cg) as (e & -> & He). cbn [rbind].
  eexists. split; [done|]. split; [by rewrite set_phase_keys|]. intros q Hq. rewrite at_set_phase. case_bool_decide; [by eexists|by apply Tf].
Qed.

Lemma phases_audited ps f : tallies f -> (forall p, p ∈ ps -> p ∈ PHASES) ->
  exists f', foldR (check_phase run s) f ps = Ok f' /\ tallies f'.
Proof using All.
  revert f. induction ps as [|p ps IH]; intros f Tf Hin; cbn [foldR]; [by exists f|].
  destruct (phase_audited f p Tf (Hin p ltac:(by left))) as (f1 & -> & T1). cbn [rbind].
  apply IH; [done|]. intros q Hq. apply Hin. by right.
Qed.

Lemma total_audited k : k ∈ run_totals ->
  sumR (fun shard => $shard.[k]) shards = Ok (VInt (total (fun shard => int_at ($shard.[k])) shards))
  /\ $run.[k] = Ok (VInt (total (fun shard => int_at ($shard.[k])) shards)).
Proof using All.
  intros Hk. destruct (ag_total _ _ _ agg_spec k Hk) as (v & Hv & Ha).
  assert (E : sumR (fun shard => $shard.[k]) shards = Ok (VInt (total (fun shard => int_at ($shard.[k])) shards))).
  { apply sum_typed. eapply Forall_impl; [exact shards_typed|]. intros shard T. apply (ts_totals _ T). apply elem_of_app. by left. }
  split; [exact E|]. rewrite run_carries by (apply agg_key; tauto). rewrite Ha, <- Hv. exact E.
Qed.

Lemma elapsed_in_real elapsed : real duration_ -> elapsed_in shards duration_ = Ok elapsed -> real elapsed.
Proof using shards_typed.
  intros Hd. unfold elapsed_in, maxR, minR.
  destruct (times_int shards "end_ns" shards_typed ltac:(computed)) as [le ->]. destruct (times_int shards "start_ns" shards_typed ltac:(computed)) as [ls ->]. cbn [rbind].
  destruct le as [|e le]; [done|]. destruct (py_max_int e le) as [z ->].
  destruct ls as [|s' ls]; [done|]. destruct (py_min_int s' ls) as [z' ->].
  intros (span & Hs & H)%rbind_ok. unfold lift2 at 1 in Hs. cbn [rbind lift2 lit] in Hs.
  assert (R : real span).
  { eapply py_div_real; [|exact Hs]. left. split; [exact I|]. apply finite_not_nan. vm_compute. reflexivity. }
  unfold py_max in H. cbn [foldR] in H. apply rbind_ok in H as (m & Hm & [= ->]). unfold pick_max in Hm.
  apply rbind_ok in Hm as (b & _ & [= <-]). by destruct b.
Qed.

Lemma rates_audited args connections_ :
  $args.["duration"] = Ok duration_ -> real duration_ -> $run.["requested_connections"] = Ok (VInt connections_) ->
  check_rates run args (VInt connections_) shards s = Ok tt.
Proof using All.
  intros Hd Rd Hc.
  destruct (ag_rates _ _ _ agg_spec) as (lat & flat & elapsed & rate & p50 & p99 & f99 & Hl & Hel & As & Ar & Hrate & A50 & Q50 & A99 & Q99 & Af & Qf).
  rewrite (su_histograms _ _ audit_sums) in Hl. injection Hl as <- <-.
  destruct (latencies_tally _ _ _ shards_typed (su_histograms _ _ audit_sums)) as [T1 T2].
  pose proof (elapsed_in_real _ Rd Hel) as Re.
  assert (C : forall k v, k ∈ rate_keys -> $agg.[k] = Ok v -> $run.[k] = Ok v) by (intros k v Hk Hv; rewrite run_carries by (apply agg_key; tauto); exact Hv).
  destruct (total_audited "ready_connections" ltac:(computed)) as [_ Rr].
  destruct (total_audited "participating_connections" ltac:(computed)) as [_ Rp].
  destruct (ag_full _ _ _ agg_spec) as (full & Ffull & Feq).
  rewrite <- !run_carries in Feq by (apply agg_key; right; left; computed). rewrite Hc, Rr, Rp in Feq.
  unfold check_rates. rewrite (proj2 (eachR_ok _ run_totals tt)).
  2:{ apply Forall_forall. intros k Hk. destruct (total_audited k Hk) as [-> ->]. by rewrite (eqR_refl (VInt _) I). }
  cbn [rbind]. rewrite Hc. rewrite (eqR_refl (VInt connections_) I).
  cbn [assertR rbind require]. rewrite Rr, Rp. rewrite Feq. cbn [rbind].
  rewrite run_carries by (apply agg_key; tauto). rewrite Ffull.
  assert (Eb : eqR ($(VBool full)) ($(VBool full)) = Ok true) by by destruct full.
  rewrite Eb. cbn [assertR rbind require]. rewrite Hd. cbn [rbind]. fold (elapsed_in shards duration_). rewrite Hel. cbn [rbind].
  rewrite (C "seconds" _ ltac:(computed) As), (eqR_refl _ Re). cbn [assertR rbind require].
  rewrite (C "requests_per_second" _ ltac:(computed) Ar).
  rewrite (run_carries "measurement") by (apply agg_key; left; computed). rewrite Hrate.
  assert (Rrate : real rate).
  { destruct (ag_phase _ _ _ agg_spec "measurement" ltac:(computed)) as (v & Hv & Ha). rewrite Ha in Hrate.
    destruct (phase_total_spec shards "measurement" v shards_typed ltac:(computed) Hv) as (Vs & _). rewrite (Vs "succeeded" ltac:(computed)) in Hrate.
    eapply (py_div_real (VInt _) elapsed); [left; split; [exact I|exact Re]|exact Hrate]. }
  rewrite (eqR_refl _ Rrate). cbn [assertR rbind require].
  destruct (quantile_checked _ 50 _ T1 ltac:(lia) Q50) as [P50 E50]. destruct (quantile_checked _ 99 _ T1 ltac:(lia) Q99) as [P99 E99].
  destruct (quantile_checked _ 99 _ T2 ltac:(lia) Qf) as [Pf Ef].
  rewrite (C "p50_ms" _ ltac:(computed) A50), P50. unfold eqR at 1, lift2 at 1. cbn [rbind]. rewrite E50. cbn [assertR rbind require].
  rewrite (C "p99_ms" _ ltac:(computed) A99), P99. unfold eqR at 1, lift2 at 1. cbn [rbind]. rewrite E99. cbn [assertR rbind require].
  rewrite (C "failure_p99_ms" _ ltac:(computed) Af), Pf. unfold eqR, lift2. cbn [rbind]. by rewrite Ef.
Qed.
End Audited.

(** ** From a trial to its run *)

Section Tracked.
Context (o : Options) (c : Z).

(** Before the result, and whenever a run is looked at. *)
Definition pending (run : val) : Prop := $run.["connections"] = int c /\ $run.["valid"] = Ok (VBool false).
Definition with_result (run : val) : Prop :=
  exists shards agg, iterR ($run.["client_result"].["shards"]) = Ok shards /\ aggregate shards (duration o) = Ok agg /\ carries run agg.
Definition reported (run : val) : Prop :=
  $run.["connections"] = int c /\ ($run.["valid"] = Ok (VBool false) \/ with_result run).

Definition protected : list string := ["connections"; "valid"; "client_result"] ++ agg_keys.

Lemma pending_reported run : pending run -> reported run.
Proof. intros [H1 H2]. split; [done|by left]. Qed.

Lemma reported_set run k e run' : k ∉ protected -> setR run k e = Ok run' -> reported run -> reported run'.
Proof.
  intros Hk H [Hc Hv]. unfold protected in Hk. apply not_elem_of_app in Hk as [Hk Ha].
  assert (O : forall q, q ∈ ["connections"; "valid"; "client_result"] \/ q ∈ agg_keys -> $run'.[q] = $run.[q]).
  { intros q Hq. eapply setR_other; [exact H|]. intros ->. by destruct Hq. }
  split; [by rewrite O by (left; computed)|]. destruct Hv as [Hv|(shards & agg & Hs & Hg & Hr)].
  - left. by rewrite O by (left; computed).
  - right. exists shards, agg. split_and!; [by rewrite O by (left; computed)|done|]. intros q Hq. rewrite O by (by right). by apply Hr.
Qed.

Lemma stays_own_put (P : val -> Prop) k v :
  (forall run run', setR run k ($v) = Ok run' -> P run -> P run') -> stays (fun s => P (cr_own s)) (put k v).
Proof.
  intros Hp s r s' Hs (_ & _ & H)%amend_spec. destruct (setR (cr_own s) k ($v)) as [run|e] eqn:E.
  - destruct H as [-> Ho]. cbn. rewrite Ho. by eapply Hp.
  - destruct H as [-> ->]. exact Hs.
Qed.
Lemma reported_put k v : k ∉ protected -> stays (fun s => reported (cr_own s)) (put k v).
Proof. intros Hk. apply stays_own_put. intros run run' H. by apply (reported_set _ k ($v)). Qed.
Lemma pending_put k v : k ∉ protected -> stays (fun s => pending (cr_own s)) (put k v).
Proof.
  intros Hk. apply stays_own_put. intros run run' H [Hc Hv]. unfold protected in Hk. apply not_elem_of_app in Hk as [Hk _].
  split; by rewrite (setR_other _ _ _ _ _ H) by set_solver.
Qed.

#[local] Hint Extern 1 (stays _ (put _ _)) => apply reported_put; computed : zhtps.
#[local] Hint Extern 1 (stays _ (put _ _)) => apply pending_put; computed : zhtps.

Lemma triple_pending {A} (m : io trial_state A) : stays (fun s => pending (cr_own s)) m ->
  triple (fun s => pending (cr_own s)) m (fun _ s => pending (cr_own s)) (fun s => reported (cr_own s)).
Proof. intros Hm. apply (stays_weaken (fun s => pending (cr_own s)) (fun s => reported (cr_own s))); [done|intros s; apply pending_reported]. Qed.

(** The result: the aggregate enters the run, which then is valid. *)
Lemma result_step event p :
  triple (fun s => pending (cr_own s))
    (put "client_result" event ;~
     amend (fun run => shards <- iterR ($event.["shards"]) ;; result <- aggregate shards (duration o) ;; update_of run result) ;~
     put "valid" (VBool true) ;~ ret (p, true))
    (fun (_ : progress * bool) s => reported (cr_own s)) (fun s => reported (cr_own s)).
Proof.
  intros s r s' [Hc Hv]. unfold bind at 1. destruct (put "client_result" event s) as [x1 s1] eqn:E1.
  apply amend_spec in E1 as (_ & _ & E1). destruct (setR (cr_own s) "client_result" ($event)) as [run1|e] eqn:S1.
  2:{ destruct E1 as [-> ->]. intros [= <- <-]. by apply pending_reported. }
  destruct E1 as [-> O1]. pose proof (fun k N => setR_other _ _ _ _ k S1 N) as K1.
  apply setR_new in S1 as (w & [= <-] & R1). unfold bind at 1.
  assert (P1 : pending run1) by (split; by rewrite K1).
  match goal with |- context [amend ?f s1] => destruct (amend f s1) as [x2 s2] eqn:E2; set (f2 := f) in * end.
  apply amend_spec in E2 as (_ & _ & E2). rewrite O1 in E2. destruct (f2 run1) as [run2|e] eqn:S2.
  2:{ destruct E2 as [-> ->]. intros [= <- <-]. rewrite O1. by apply pending_reported. }
  destruct E2 as [-> O2]. unfold f2 in S2. apply rbind_ok in S2 as (shards & Hs & S2). apply rbind_ok in S2 as (agg & Hg & S2).
  destruct (ag_dict _ _ _ (aggregate_spec _ _ _ Hg)) as (d & Ed & Sd & Ad). subst agg.
  apply update_of_ok in S2 as (l & m & E & [= <-] & ->).
  assert (K2 : forall k, k ∉ agg_keys -> $(VDict (dupdate l d)).[k] = $run1.[k]).
  { intros k Hk. rewrite E. unfold idx. cbn [rbind py_getitem]. change (dget (VStr k)) with (sget k). by rewrite (sget_merged _ _ _ Sd), Ad. }
  assert (P2 : pending (VDict (dupdate l d))) by (destruct P1; split; by rewrite K2 by computed).
  unfold bind at 1. destruct (put "valid" (VBool true) s2) as [x3 s3] eqn:E3. apply amend_spec in E3 as (_ & _ & E3).
  rewrite O2 in E3. destruct (setR (VDict (dupdate l d)) "valid" ($(VBool true))) as [run3|e] eqn:S3.
  2:{ destruct E3 as [-> ->]. intros [= <- <-]. rewrite O2. by apply pending_reported. }
  destruct E3 as [-> O3]. intros [= <- <-]. rewrite O3. pose proof (fun k N => setR_other _ _ _ _ k S3 N) as K3. split.
  - rewrite K3 by done. apply P2.
  - right. exists shards, (VDict d). split_and!; [|done|].
    + rewrite K3 by done. rewrite K2 by computed. rewrite R1. exact Hs.
    + intros k Hk. assert (N : k <> "valid") by (revert k Hk; apply Forall_forall; computed). rewrite K3 by done.
      destruct (ag_present _ _ _ (aggregate_spec _ _ _ Hg) k Hk) as [v Hv']. rewrite Hv'. by apply update_new.
Qed.

Lemma tracked_require b message : stays (fun s => pending (cr_own s)) (require_ b message).
Proof. unfold require_. staying. Qed.
#[local] Hint Resolve tracked_require : zhtps.

Lemma take_event_tracked server remote clock_ p event :
  triple (fun s => pending (cr_own s)) (take_event o server remote clock_ p event)
    (fun (pb : progress * bool) s => if pb.2 then reported (cr_own s) else pending (cr_own s)) (fun s => reported (cr_own s)).
Proof.
  assert (R : forall q, triple (fun s : trial_state => pending (cr_own s)) (ret (q, false))
            (fun (pb : progress * bool) s => if pb.2 then reported (cr_own s) else pending (cr_own s)) (fun s => reported (cr_own s)))
    by by intros q s r s' H [= <- <-].
  assert (B : forall {A} (m : io trial_state A) (k : A -> io trial_state (progress * bool)),
    stays (fun s => pending (cr_own s)) m ->
    (forall a, triple (fun s => pending (cr_own s)) (k a)
       (fun (pb : progress * bool) s => if pb.2 then reported (cr_own s) else pending (cr_own s)) (fun s => reported (cr_own s))) ->
    triple (fun s => pending (cr_own s)) (bind m k)
       (fun (pb : progress * bool) s => if pb.2 then reported (cr_own s) else pending (cr_own s)) (fun s => reported (cr_own s))).
  { intros A m k Hm Hk. eapply triple_bind; [by apply triple_pending|exact Hk]. }
  unfold take_event. apply B; [staying|]. intros kind.
  repeat (match goal with |- triple _ (if ?b then _ else _) _ _ => destruct b end;
    [try (repeat (apply B; [staying|intros ?]); apply R)|]).
  - intros s r s' Hs H. pose proof (result_step event p s r s' Hs H) as G. destruct r as [[q b]|e]; [|exact G].
    assert (b = true) as ->; [|exact G]. revert H. clear. unfold bind at 1.
    destruct (put _ _ s) as [[?|?] s1]; [|done]. unfold bind at 1. destruct (amend _ s1) as [[?|?] s2]; [|done].
    unfold bind at 1. destruct (put _ _ s2) as [[?|?] s3]; [|done]. by intros [= _ <- _].
  - intros s r s' Hs [= <- <-]. by apply pending_reported.
  - apply R.
Qed.

Lemma relay_tracked fuel folder server remote clock_ deadline p :
  triple (fun s => pending (cr_own s)) (relay fuel o folder server remote clock_ deadline p)
    (fun _ s => reported (cr_own s)) (fun s => reported (cr_own s)).
Proof.
  revert p. induction fuel as [|fuel IH]; intros p; cbn [relay].
  { intros s r s' Hs [= <- <-]. by apply pending_reported. }
  do 8 (eapply triple_bind; [apply triple_pending; staying|intros]).
  eapply triple_bind; [apply take_event_tracked|]. intros [q []]; cbn [snd fst]; [by intros s r s' Hs [= <- <-]|apply IH].
Qed.

Lemma tracked_enlist l : stays (fun s : trial_state => pending (cr_own s)) (enlist l).
Proof. intros s r s' Hs [Ho _]%enlist_spec. rewrite <- Ho in Hs. by destruct r. Qed.

Lemma measured_run_tracked fuel ssh remote_dir remote_folder folder command workers_ connections_ port :
  triple (fun s => pending (cr_own s)) (measured_run fuel o ssh remote_dir remote_folder folder command workers_ connections_ port)
    (fun _ s => reported (cr_own s)) (fun s => reported (cr_own s)).
Proof.
  unfold measured_run, clock_exchange.
  do 21 (eapply triple_bind; [apply triple_pending; first [apply tracked_enlist|staying]|intros ?]).
  eapply triple_bind; [apply relay_tracked|]. intros ?.
  apply (fun H : stays (fun s : trial_state => reported (cr_own s)) _ => H). unfold recall. staying.
Qed.

(** The crew as a whole: whatever happens, what the cleanup leaves is a tracked run. *)
Lemma crew_tracked fuel ssh remote_dir remote_folder folder command workers_ connections_ port label run h r h' :
  pending run ->
  with_crew run
    (catch (measured_run fuel o ssh remote_dir remote_folder folder command workers_ connections_ port) (on_failure label))
    (trial_cleanup folder) h = (Ok r, h') -> reported r.2.
Proof.
  intros Hr H. apply with_crew_cases in H as (r1 & s1 & r2 & s2 & E1 & E2 & _ & _ & ->).
  assert (F : forall e, stays (fun s : trial_state => reported (cr_own s)) (on_failure label e)) by (intros e; unfold on_failure; staying).
  assert (C : stays (fun s : trial_state => reported (cr_own s)) (trial_cleanup folder)).
  { unfold trial_cleanup, close_remote, stop_server. staying. }
  assert (R1 : reported (cr_own s1)).
  { unfold catch in E1. destruct (measured_run _ _ _ _ _ _ _ _ _ _ (Crew h [] run)) as [[u|e] s] eqn:E;
      pose proof (measured_run_tracked _ _ _ _ _ _ _ _ _ (Crew h [] run) _ _ Hr E) as G; cbn in G.
    - by injection E1 as _ <-.
    - pose proof (F e _ _ _ G E1) as G'. by destruct r1. }
  pose proof (C _ _ _ R1 E2) as G. by destruct r2.
Qed.

Lemma retrieve_tracked ssh remote_folder folder run h run' h' :
  reported run -> retrieve ssh remote_folder folder run h = (Ok run', h') -> reported run'.
Proof.
  intros Hr H. unfold retrieve in H. apply bind_ok in H as (archive & h1 & _ & H). apply bind_ok in H as (run2 & h2 & H2 & H).
  apply bind_ok in H as (? & ? & _ & [= <- _]). destruct (cp_code archive =? 0).
  - do 4 (apply bind_ok in H2 as (? & ? & _ & H2)). by injection H2 as <- _.
  - apply lift_ok in H2 as [H2 _]. apply rbind_ok in H2 as (r1 & H1 & H2).
    apply (reported_set _ "artifact_error" _ _ ltac:(computed)) in H1 as [Hc _]; [|exact Hr]. split.
    + by rewrite (setR_other _ _ _ _ _ H2).
    + left. by apply setR_new in H2 as (v & [= <-] & Hv).
Qed.
End Tracked.

Lemma initial_run_pending o ssh name_ workers_ connections_ repeat cpus command h run h' :
  initial_run o ssh name_ workers_ connections_ repeat cpus command h = (Ok run, h') -> pending connections_ run.
Proof.
  unfold initial_run. intros H. do 2 (apply bind_ok in H as (? & ? & _ & H)). apply lift_ok in H as [H _].
  apply rbind_ok in H as (r & Hr & H). split; rewrite (setR_other _ _ _ _ _ H) by done.
  - destruct (mkdict_get _ _ "connections" _ Hr eq_refl) as (w & Hw & Hk). by rewrite Hk, <- Hw.
  - destruct (mkdict_get _ _ "valid" _ Hr eq_refl) as (w & [= <-] & Hk). exact Hk.
Qed.

(** What a trial returns: it is valid only with the aggregate of its shards. *)
Lemma trial_reported ROOT fuel o ssh remote_dir output_ name_ workers_ connections_ repeat port cert key_ label h run h' :
  CompareHttp2Lan.trial ROOT fuel o ssh remote_dir output_ name_ workers_ connections_ repeat port cert key_ label h = (Ok run, h') ->
  reported o connections_ run.
Proof.
  unfold CompareHttp2Lan.trial. cbv zeta. intros H. do 3 (apply bind_ok in H as (? & ? & _ & H)).
  apply bind_ok in H as (run0 & h1 & Hi & H). apply initial_run_pending in Hi.
  do 3 (apply bind_ok in H as (? & ? & _ & H)). apply bind_ok in H as (r & h2 & Hc & H).
  eapply retrieve_tracked; [|exact H]. by eapply crew_tracked.
Qed.

(** C2: The controller and the audit agree.  When a trial returns a valid run, the audit's accounting accepts it: if the
    audit has read the shards of the run against their failure logs, then the totals of every phase, the failures by
    kind (counted by the controller from the shards, by the audit from the logs), the connection totals, the elapsed
    time, the rate and the percentiles it recomputes are those of the run.  The shards are assumed to be typed as the
    clients write them and to have been asked for as many connections as the trial. *)
Theorem lan_trial_audited ROOT fuel o ssh remote_dir output_ name_ workers_ connections_ repeat port cert key_ label h run h'
    t path args shards n s f :
  CompareHttp2Lan.trial ROOT fuel o ssh remote_dir output_ name_ workers_ connections_ repeat port cert key_ label h = (Ok run, h') ->
  $run.["valid"] = Ok (VBool true) ->
  iterR ($run.["client_result"].["shards"]) = Ok shards -> shards <> [] -> Forall typed_shard shards ->
  sumR (fun shard => $shard.["requested_connections"]) shards = int connections_ ->
  $args.["duration"] = Ok (duration o) -> real (duration o) ->
  foldR (add_shard t path run args) (0, no_sums) shards = Ok (n, s) -> tallies f ->
  (exists f', foldR (check_phase run s) f PHASES = Ok f' /\ tallies f')
  /\ check_rates run args (VInt connections_) shards s = Ok tt.
Proof.
  intros [_ [Hv|(shards' & agg & Hs & Hg & Hr)]]%trial_reported Hvalid Hsh Hne Ht Hc Hd Rd Ha Tf; [by rewrite Hv in Hvalid|].
  rewrite Hsh in Hs. injection Hs as <-. apply aggregate_spec in Hg. apply add_shards_summed in Ha as S; [|done].
  split; [by apply (phases_audited shards (duration o) run agg s Ht Hne Hg Hr S)|].
  apply (rates_audited shards (duration o) run agg s Ht Hne Hg Hr S); [done|done|].
  destruct (total_audited shards (duration o) run agg s Ht Hne Hg Hr S "requested_connections" ltac:(computed)) as [E ->].
  rewrite <- E. exact Hc.
Qed.

(** *** The sample trial *)

Definition lan_tree : tree :=
  Tree [(path_of "lan/client/client-0.json", document lan_shard);
        (path_of ("lan/client/" +:+ client_log 0), double_quoted sample_log +:+ nl)] [].
Definition lan_run : val := match (lan_trial lan_trial_host).1 with Ok run => run | Err _ => VNone end.

Lemma lan_shard_typed : typed_shard lan_shard.
Proof.
  split.
  - intros phase k Hp Hk. each_of Hp; each_of Hk; eexists; reflexivity.
  - intros phase Hp. each_of Hp; (eexists; eexists; split; [reflexivity|]); [apply counts_nil..|].
    exists [("timeout", 1)]. split_and!; [reflexivity|by apply NoDup_singleton|done].
  - intros k Hk. each_of Hk; eexists; reflexivity.
  - intros k Hk. each_of Hk; [exists [("20", 1); ("10", 1)]|exists [("1000", 1)]]; (split; [reflexivity|]);
      repeat constructor; cbn; lia.
Qed.
Lemma no_counts_tallies : tallies no_counts.
Proof.
  split; [done|]. intros phase Hp. exists (fun _ => 0).
  enough (at_phase phase no_counts = []) as -> by apply counts_nil. each_of Hp; done.
Qed.

Lemma lan_trial_returns :
  CompareHttp2Lan.trial "/r" 20 lan_options lan_ssh "/remote" "out" "go" 1 1 0 9000 "cert" "key" "w1-c1-go-r1" lan_trial_host
  = (Ok lan_run, (CompareHttp2Lan.trial "/r" 20 lan_options lan_ssh "/remote" "out" "go" 1 1 0 9000 "cert" "key" "w1-c1-go-r1" lan_trial_host).2).
Proof. apply ok_pair. vm_compute. reflexivity. Qed.

Lemma lan_trial_audited_witness :
  exists n s,
    foldR (add_shard lan_tree (path_of "lan") lan_run lan_vars) (0, no_sums) [lan_shard] = Ok (n, s)
    /\ (exists f', foldR (check_phase lan_run s) no_counts PHASES = Ok f' /\ tallies f')
    /\ check_rates lan_run lan_vars (VInt 1) [lan_shard] s = Ok tt.
Proof.
  assert (A : is_ok (foldR (add_shard lan_tree (path_of "lan") lan_run lan_vars) (0, no_sums) [lan_shard]) = true)
    by (vm_compute; reflexivity).
  destruct (foldR (add_shard lan_tree (path_of "lan") lan_run lan_vars) (0, no_sums) [lan_shard]) as [[n s]|e] eqn:E; [|discriminate A].
  exists n, s. split; [reflexivity|].
  apply (lan_trial_audited _ _ _ _ _ _ _ _ _ _ _ _ _ _ _ _ _ lan_tree (path_of "lan") lan_vars [lan_shard] n s no_counts lan_trial_returns).
  - vm_compute. reflexivity.
  - vm_compute. reflexivity.
  - discriminate.
  - constructor; [apply lan_shard_typed|constructor].
  - vm_compute. reflexivity.
  - vm_compute. reflexivity.
  - exact I.
  - exact E.
  - apply no_counts_tallies.
Defined.
