(* ===== verification/CompareHttp2Variants.v ===== *)
(** * [bench/compare_http2_variants.py]: paired variants of the server over HTTP/2

    [main] compares builds of the server with the trials of [compare_http2_lan.py], over the loopback or from another host,
    and rotates the variants between the repeats.  It raises at the first invalid trial, which it retains. *)

From stdpp Require Import base list strings sets.
From Stdlib Require Import ZArith Lia Ascii.
From S2P Require Import Prelude PyFloat PyText PyVal PyJson PyScript Shlex PyStats PyHash Evidence PyIO System ProcSample AuditHttp2Lan Histogram RemoteLoad Compare Crew Http2Remote CompareHttp2 CompareHttp2Lan Http2Report Http2LanReport.

Local Open Scope Z_scope.
Open Scope py_scope.

(** ** Options

    [base] are the arguments that the trials read, as they are declared; those of the other servers, which a trial of ZHTPS does
    not read, are empty.  [address] and [client_cpus] have a default that depends on the location. *)

Record Options := mkOptions {
  variant : list string; remote : bool; address : option string; client_cpus : option string; base : CompareHttp2Lan.Options }.

Definition or_text (o : option string) (s : string) : string := match o with Some t => if String.eqb t "" then s else t | None => s end.
(** The arguments with their defaults, the resolved client and the server of a trial. *)
Definition arguments (o : Options) (client zhtps output : string) : CompareHttp2Lan.Options :=
  let b := base o in
  CompareHttp2Lan.mkOptions (client_host b) (ssh_key b)
    (or_text (address o) (if remote o then "192.0.2.10" else "127.0.0.1")) zhtps (go_server b) client (server_cpus b)
    (or_text (client_cpus o) (if remote o then "0-15" else "8-15,24-31"))
    (client_processes b) (workers b) (servers b) (connections b) (streams b) (duration b) (warmup b) (timeout b) (setup_deadline b)
    (setup_concurrency b) (repeats b) output (vars b).

(** [dict(value.split('=', 1) for value in args.variant)] *)
Definition split_variant (value : string) : res (string * string) :=
  of_option (split_once "=" value) ValueError "dictionary update sequence element has length 1; 2 is required".
Definition named (l : list (string * string)) : list (string * string) := foldl (fun d nv => assign nv.1 nv.2 d) [] l.
Definition is_label (name : string) : bool :=
  let s := str_replace "_" "" (str_replace "-" "" name) in negb (String.eqb s "") && str_forall is_alnum s.
Definition variants_of (o : Options) : res (list (string * string)) :=
  pairs <- mapR split_variant (variant o) ;;
  let variants := named pairs in
  usage_if (negb (length variants =? length (variant o))%nat || (length variants <? 2)%nat) "at least two uniquely named variants are required" ;;;
  usage_if (existsb (fun nv => negb (is_label nv.1)) variants) "variant labels must be letters, numbers, hyphens or underscores" ;;;
  Ok variants.

(** [str(Path(path).resolve())] *)
Definition resolve_path (nv : string * string) : io host (string * string) := path <~ answer_text ; ret (nv.1, path).

(** The placement: workers within the server's CPUs, which must be allowed, and separate cores on the loopback. *)
Definition allowed_cpus (cpus : list Z) : io host bool :=
  who <~ identity ;
  allowed <~ lift (l <- iterR ($who.["allowed_cpus"]) ;; mapR as_int l) ;
  ret (subset_ints cpus allowed).
Definition check_placement (workers_ cpus : list Z) : io host unit :=
  few <~ lift ((py_min (map VInt workers_)) <' int 1) ;
  many <~ (if few : bool then ret true else lift ((py_max (map VInt workers_)) >' int (Z.of_nat (length cpus)))) ;
  bad <~ (if many : bool then ret true else allowed <~ allowed_cpus cpus ; ret (negb allowed)) ;
  lift (usage_if bad "invalid worker/CPU selection").
Definition check_workload (o : Options) (populations : list Z) : res unit :=
  let b := base o in
  bad <- ((py_min (map VInt populations)) <' int (client_processes b))
         ||' Ok (negb (in_range (streams b) 100)) ||' ($(duration b) <=' int 0) ||' Ok (repeats b <? 1) ;;
  usage_if bad "invalid workload".
Definition core_eqb (a b : Z * Z) : bool := (a.1 =? b.1) && (a.2 =? b.2).
Definition check_cores (cpus clients : list Z) : io host unit :=
  server <~ mapM topology cpus ;
  client <~ mapM topology clients ;
  lift (usage_if (existsb (fun c => existsb (core_eqb c) client) server) "loopback server/client must use separate physical cores").

(** ** The report *)

Definition binaries_of (variants : list (string * string)) (client : string) : list (string * val) :=
  assign "client" (VStr client) (map (fun nv => (nv.1, VStr nv.2)) variants).
Definition sources_of : io host (list string) :=
  load_client <~ rglob ;
  foldM is_file [] (["bench/compare_http2_variants.py"; "bench/compare_http2_lan.py"; "bench/compare_http2.py"; "bench/http2_remote.py"] ++ load_client).
Definition initial_report (o : Options) (variants : list (string * string)) (hashes sources : dict) : io host val :=
  started <~ clock ;
  identity_ <~ identity ;
  ret (obj [("started_utc", started); ("arguments", vars (base o));
            ("variants", obj (map (fun nv => (nv.1, VStr nv.2)) variants)); ("binary_sha256", VDict hashes);
            ("harness_sha256", VDict sources); ("server_identity", identity_); ("runs", VList []); ("skipped", VList []);
            ("complete", VBool false); ("order", VStr "Rotate variant order between repetitions within each worker/connection pair.")]).

Definition MOST : Z := 8176.
Definition remark (count population : Z) : val :=
  obj [("workers", VInt count); ("connections", VInt population);
       ("reason", VStr "Exceeds unchanged 8,176 connections per worker; already diagnosed capacity limit.")].
Definition skip (report : val) (count population : Z) : expr :=
  l <- iterR ($report.["skipped"]) ;; setR report "skipped" ($(VList (l ++ [remark count population]))).

(** [next(int(line.split()[1]) for line in status if line.startswith('VmRSS:')) / 1024] *)
Definition rss_of (run : val) : expr :=
  lines <- iterR ($run.["server_after"].["status"]) ;;
  texts <- mapR as_str lines ;;
  line <- of_option (List.find (startswith "VmRSS:") texts) StopIteration "" ;;
  word <- of_option (split_ws line !! 1%nat) IndexError "list index out of range" ;;
  n <- py_int word ;;
  int n /' int 1024.
Definition run_line (label : string) (population : Z) (run rss : val) : res string :=
  fstring [F label; F ": "; grouped_fixed 0 ($run.["requests_per_second"]); F "/s, CPU ";
           V_ (format_fixed false 3) ($run.["server_cpu_us_per_request"]); F " us/req, RSS "; V_ (format_fixed false 1) ($rss);
           F " MiB, p99 "; V_ (format_fixed false 3) ($run.["p99_ms"]); F " ms, failures "; V ($run.["failure_log_entries"]);
           F ", ready "; V ($run.["ready_connections"]); F "/"; V (int population)].
(** [run.get("error", run.get("artifact_error"))] *)
Definition error_of (run : val) : expr := other <- get ($run) "artifact_error" ;; getd ($run) "error" other.

(** ** The matrix *)

Section Root.
Context (ROOT : string).

Definition trial_step (fuel : nat) (o : CompareHttp2Lan.Options) (paths : list (string * string)) (hashes : dict) (ssh : list string)
    (remote_dir output_ cert key_ : string) (count population repeat : Z) (st : list Z * val) (label : string) : io host (list Z * val) :=
  port <~ fresh_port fuel st.1 ;
  let name := label_of_trial count population label repeat in
  run <~ trial ROOT fuel o ssh remote_dir output_ "zhtps" count population repeat port cert key_ name ;
  run <~ lift (setR run "variant" (str label)) ;
  run <~ lift (setR run "server_binary_sha256" ($(VDict hashes).[label])) ;
  text <~ lift (json_dumps2 run) ;
  write_file (output_ +:+ "/" +:+ name +:+ "/run.json") (text +:+ nl) ;~
  report <~ lift (append_run st.2 run) ;
  save output_ report ;~
  valid <~ lift (test ($run.["valid"])) ;
  (if valid : bool then ret tt
   else error <~ lift (error_of run) ; throw (Exn RuntimeError (name +:+ ": invalid trial retained: " +:+ py_str error))) ;~
  rss <~ lift (rss_of run) ;
  line <~ lift (run_line name population run rss) ;
  say line ;~
  ret (st.1 ++ [port], report).

(** The options of a trial carry the path of its variant. *)
Definition variant_step (fuel : nat) (o : Options) (client : string) (variants : list (string * string)) (hashes : dict) (ssh : list string)
    (remote_dir output_ cert key_ : string) (count population repeat : Z) (st : list Z * val) (nv : string * string) : io host (list Z * val) :=
  trial_step fuel (arguments o client nv.2 output_) variants hashes ssh remote_dir output_ cert key_ count population repeat st nv.1.
Definition population_step (fuel : nat) (o : Options) (client : string) (variants : list (string * string)) (hashes : dict) (ssh : list string)
    (remote_dir output_ cert key_ : string) (count : Z) (st : list Z * val) (population : Z) : io host (list Z * val) :=
  if count * MOST <? population then
    report <~ lift (skip st.2 count population) ; save output_ report ;~ ret (st.1, report)
  else
    foldM (fun st repeat =>
             foldM (variant_step fuel o client variants hashes ssh remote_dir output_ cert key_ count population (Z.of_nat repeat)) st
               (rotate repeat variants))
      st (seq 0 (Z.to_nat (repeats (base o)))).

(** The client is copied to where it runs; on the loopback the certificate is already there. *)
Definition stage_client (o : Options) (options : list string) (remote_dir : string) (file : string * string) : io host unit :=
  if remote o then copy_to options (base o) remote_dir file
  else if String.eqb file.2 "cert.pem" then ret tt else external ;~ ret tt.

Definition same_digest (report : val) (column name : string) : io host unit := unchanged report column name.

(** The trials, in a staging directory that lives as long as they run; the result is the report as it was saved last. *)
Definition staged (fuel : nat) (o : Options) (options ssh : list string) (client output_ : string) (variants : list (string * string))
    (binaries : list (string * val)) (hashes : dict) (sources : list string) (workers_ populations : list Z) (report : val) : io host val :=
  stage <~ answer_text ;
  finally
    (remote_dir <~ (if remote o then text <~ check_output (ssh ++ ["mktemp -d /tmp/zhtps-http2-variants.XXXXXXXX"]) ; ret (strip text)
                    else ret stage) ;
     report <~ lift (setR report "client_staging_directory" (str remote_dir)) ;
     save output_ report ;~
     let cert := stage +:+ "/cert.pem" in
     let key_ := stage +:+ "/key.pem" in
     let command := certificate_command (CompareHttp2Lan.address (arguments o client "" output_)) key_ cert in
     result <~ run_process false command ;
     (if cp_code result =? 0 then ret tt else throw (Exn CalledProcessError (join " " command))) ;~
     each (stage_client o options remote_dir) [(client, "client"); (ROOT +:+ "/bench/http2_remote.py", "http2_remote.py"); (cert, "cert.pem")] ;~
     st <~ foldM (fun st count =>
                    foldM (population_step fuel o client variants hashes ssh remote_dir output_ cert key_ count) st populations)
             ([], report) workers_ ;
     each (fun nb => lift (as_str nb.2) ;~ same_digest st.2 "binary_sha256" nb.1) binaries ;~
     each (same_digest st.2 "harness_sha256") sources ;~
     complete <~ lift (runs <- iterR ($(st.2).["runs"]) ;;
                       match runs with [] => Ok false | _ => allR (fun run => test ($run.["valid"])) runs end) ;
     report <~ lift (setR (st.2) "complete" ($(VBool complete))) ;
     finished <~ clock ;
     report <~ lift (setR report "finished_utc" ($finished)) ;
     save output_ report ;~
     (if remote o && complete then command_shown (ssh ++ [shlex_join ["rm"; "-rf"; "--"; remote_dir]]) else ret tt) ;~
     ret report)
    (external ;~ ret tt).

(** [main] from its parsed arguments on. *)
Definition main (fuel : nat) (o : Options) : io host val :=
  variants <~ lift (variants_of o) ;
  variants <~ mapM resolve_path variants ;
  workers_ <~ lift (int_words "," (workers (base o))) ;
  populations <~ lift (int_words "," (connections (base o))) ;
  cpus <~ lift (cpu_list (server_cpus (base o))) ;
  clients <~ lift (cpu_list (CompareHttp2Lan.client_cpus (arguments o "" "" ""))) ;
  check_placement workers_ cpus ;~
  lift (check_workload o populations) ;~
  (if remote o then ret tt else check_cores cpus clients) ;~
  client <~ answer_text ;
  output_ <~ answer_text ;
  external ;~
  soft <~ clock ;
  hard <~ clock ;
  lift (l <- py_max [soft; VInt 131072] ;; py_min [hard; l]) ;~
  external ;~
  let binaries := binaries_of variants client in
  hashes <~ foldM binary_sha [] binaries ;
  sources <~ sources_of ;
  source_hashes <~ foldM sha_of [] sources ;
  external ;~
  each (fun _ => external ;~ ret tt) sources ;~
  report <~ initial_report o variants hashes source_hashes ;
  key_ <~ answer_text ;
  let options := ssh_options key_ in
  let ssh := if remote o then ["ssh"] ++ options ++ [client_host (base o)] else [] in
  staged fuel o options ssh client output_ variants binaries hashes sources workers_ populations report.
End Root.

(** ** The processes *)

Lemma orderly_variants_trial ROOT fuel o paths hashes ssh remote_dir output_ cert key_ count population repeat st label :
  orderly (trial_step ROOT fuel o paths hashes ssh remote_dir output_ cert key_ count population repeat st label).
Proof.
  unfold trial_step. cbv zeta. apply orderly_bind; [apply orderly_tidy; auto with zhtps|]. intros port.
  apply orderly_bind; [apply orderly_trial|]. intros run. apply orderly_tidy. tidily.
Qed.

Lemma orderly_staged ROOT fuel o options ssh client output_ variants binaries hashes sources workers_ populations report :
  orderly (staged ROOT fuel o options ssh client output_ variants binaries hashes sources workers_ populations report).
Proof.
  unfold staged. apply orderly_bind; [apply orderly_tidy; auto with zhtps|]. intros stage.
  apply orderly_finally; [|apply orderly_tidy; auto with zhtps]. cbv zeta.
  do 6 (apply orderly_bind; [apply orderly_tidy; unfold stage_client; tidily|]; intros ?).
  apply orderly_bind.
  - apply orderly_foldM. intros st count. apply orderly_foldM. intros st' population. unfold population_step.
    case_match; [apply orderly_tidy; tidily|]. apply orderly_foldM. intros st2 repeat. apply orderly_foldM. intros st3 nv.
    apply orderly_variants_trial.
  - intros st. apply orderly_tidy. unfold same_digest, unchanged. tidily.
Qed.

Lemma orderly_variants_main ROOT fuel o : orderly (main ROOT fuel o).
Proof.
  unfold main. cbv zeta. repeat (lazymatch goal with |- orderly (bind _ _) => idtac end; apply orderly_bind; [apply orderly_tidy;
    unfold resolve_path, check_placement, allowed_cpus, check_cores, sources_of, is_file, rglob, initial_report, binary_sha, sha_of;
    tidily|]; intros ?). apply orderly_staged.
Qed.

(** However a comparison of variants ends, as long as no input is found broken when it is closed, every process that was
    started has exited. *)
Theorem variants_stops_everything ROOT fuel o h r h' :
  procs h = [] -> pipes_hold h -> main ROOT fuel o h = (r, h') -> all_exited h'.
Proof.
  intros Hh Hp H. apply orderly_variants_main in H as [_ Hx]; [|done]. rewrite Hh in Hx. intros k Hk. apply Hx. cbn. lia.
Qed.

(** ** The matrix of trials *)

(** What a combination of workers and connections asks for: the trials in rotated order, or a remark. *)
Inductive slot := Trial (count population repeat : Z) (label : string) | Skip (count population : Z).

Definition population_slots (repeats_ : Z) (variants : list (string * string)) (count population : Z) : list slot :=
  if count * MOST <? population then [Skip count population]
  else concat (map (fun r => map (fun nv => Trial count population (Z.of_nat r) nv.1) (rotate r variants)) (seq 0 (Z.to_nat repeats_))).
Definition schedule (repeats_ : Z) (workers_ populations : list Z) (variants : list (string * string)) : list slot :=
  concat (map (fun count => concat (map (population_slots repeats_ variants count) populations)) workers_).

(** A trial that was retained: valid, so that it has the aggregate of its shards, and with the digest of the build it measured. *)
Definition measured (o : Options) (hashes : dict) (population : Z) (label : string) (run : val) : Prop :=
  $run.["variant"] = str label /\ $run.["server_binary_sha256"] = $(VDict hashes).[label]
  /\ $run.["connections"] = int population /\ test ($run.["valid"]) = Ok true
  /\ exists shards agg, iterR ($run.["client_result"].["shards"]) = Ok shards
       /\ aggregate shards (duration (base o)) = Ok agg /\ carries run agg.
Definition recorded (o : Options) (hashes : dict) (s : slot) (row : val + val) : Prop :=
  match s, row with
  | Trial _ population _ label, inl run => measured o hashes population label run
  | Skip count population, inr entry => entry = remark count population
  | _, _ => False
  end.

Definition runs_of (rows : list (val + val)) : list val := omap (fun row => match row with inl run => Some run | inr _ => None end) rows.
Definition skips_of (rows : list (val + val)) : list val := omap (fun row => match row with inl _ => None | inr entry => Some entry end) rows.
(** The report holds the rows so far, and the digests it was begun with. *)
Definition holds (hashes : dict) (report : val) (rows : list (val + val)) : Prop :=
  $report.["runs"] = Ok (VList (runs_of rows)) /\ $report.["skipped"] = Ok (VList (skips_of rows))
  /\ $report.["binary_sha256"] = Ok (VDict hashes).

Lemma holds_other hashes report rows k e report' :
  k ∉ ["runs"; "skipped"; "binary_sha256"] -> setR report k e = Ok report' -> holds hashes report rows -> holds hashes report' rows.
Proof. intros Hk H (H1 & H2 & H3). split_and!; by rewrite (setR_other _ _ _ _ _ H) by set_solver. Qed.

Lemma holds_run hashes report rows run report' :
  holds hashes report rows -> append_run report run = Ok report' -> holds hashes report' (rows ++ [inl run]).
Proof.
  unfold append_run, iterR. intros (H1 & H2 & H3) H. rewrite H1 in H. cbn [rbind py_iter] in H.
  pose proof (fun k N => setR_other _ _ _ _ k H N) as K. apply setR_new in H as (v & [= <-] & Hr).
  unfold holds, runs_of, skips_of. rewrite !omap_app. split_and!; [done|rewrite K by done; cbn; by rewrite app_nil_r|by rewrite K].
Qed.
Lemma holds_skip hashes report rows count population report' :
  holds hashes report rows -> skip report count population = Ok report' ->
  holds hashes report' (rows ++ [inr (remark count population)]).
Proof.
  unfold skip, iterR. intros (H1 & H2 & H3) H. rewrite H2 in H. cbn [rbind py_iter] in H.
  pose proof (fun k N => setR_other _ _ _ _ k H N) as K. apply setR_new in H as (v & [= <-] & Hr).
  unfold holds, runs_of, skips_of. rewrite !omap_app. split_and!; [rewrite K by done; cbn; by rewrite app_nil_r|done|by rewrite K].
Qed.

Lemma reported_measured o o' hashes population label run run1 run2 :
  duration o' = duration (base o) -> reported o' population run -> setR run "variant" (str label) = Ok run1 ->
  setR run1 "server_binary_sha256" ($(VDict hashes).[label]) = Ok run2 -> test ($run2.["valid"]) = Ok true ->
  measured o hashes population label run2.
Proof.
  intros Ed R H1 H2 Hv. apply (reported_set o' population run "variant" (str label) run1) in R; [|computed|done].
  apply (reported_set o' population run1 "server_binary_sha256" ($(VDict hashes).[label]) run2) in R as [Rc Rv]; [|computed|done].
  pose proof (fun k N => setR_other _ _ _ _ k H2 N) as K. apply setR_new in H1 as (v & [= <-] & Hvar).
  apply setR_new in H2 as (w & Ew & Hsha). unfold measured. rewrite K by done. split_and!; [done| |done|done|].
  - by rewrite Ew.
  - destruct Rv as [Rv|(shards & agg & Hs & Hg & Hr)]; [by rewrite Rv in Hv|]. exists shards, agg. by rewrite <- Ed.
Qed.

Lemma variants_trial_row ROOT fuel o o' paths hashes ssh remote_dir output_ cert key_ count population repeat st label h st' h' rows :
  duration o' = duration (base o) -> holds hashes st.2 rows ->
  trial_step ROOT fuel o' paths hashes ssh remote_dir output_ cert key_ count population repeat st label h = (Ok st', h') ->
  exists run, measured o hashes population label run /\ holds hashes st'.2 (rows ++ [inl run]).
Proof.
  unfold trial_step. cbv zeta. intros Ed Hh H. next H. next H. apply trial_reported in E0. next H. apply lift_ok in E1 as [E1 _].
  next H. apply lift_ok in E2 as [E2 _]. do 2 next H. next H. apply lift_ok in E5 as [E5 _]. next H. next H.
  apply lift_ok in E7 as [E7 _]. next H. do 3 next H. injection H as <- _. exists x2. split; [|by eapply holds_run].
  eapply (reported_measured o o'); [done|exact E0|exact E1|exact E2|]. destruct x7; [done|]. exfalso. next E8. discriminate E8.
Qed.

Lemma population_rows ROOT fuel o client variants hashes ssh remote_dir output_ cert key_ count population st h st' h' rows :
  holds hashes st.2 rows ->
  population_step ROOT fuel o client variants hashes ssh remote_dir output_ cert key_ count st population h = (Ok st', h') ->
  exists more, Forall2 (recorded o hashes) (population_slots (repeats (base o)) variants count population) more
               /\ holds hashes st'.2 (rows ++ more).
Proof.
  unfold population_step, population_slots. intros Hh H. destruct (count * MOST <? population).
  { next H. apply lift_ok in E as [E _]. next H. injection H as <- _. eapply holds_skip in E; [|exact Hh].
    eexists [inr _]. split; [by repeat constructor|exact E]. }
  eapply (foldM_rows _ (fun st => holds hashes st.2)) in H; [exact H| |exact Hh]. intros s1 r w1 s2 w2 xs Hs H1.
  eapply (foldM_rows _ (fun st => holds hashes st.2) (fun nv => [Trial count population (Z.of_nat r) nv.1])) in H1 as (ys & Hys & Hs');
    [exists ys; split; [by rewrite <- concat_map_single|exact Hs']| |exact Hs].
  intros s3 nv w3 s4 w4 zs Hs3 H3. unfold variant_step in H3. eapply variants_trial_row in H3 as (run & Hr & Hs4); [|done|exact Hs3].
  exists [inl run]. split; [by constructor|exact Hs4].
Qed.

(** What the driver asks the host before the trials: names and digests only. *)
Lemma mapM_names {A} (f : string * A -> io host (string * string)) l h l' h' :
  (forall nv w nv' w', f nv w = (Ok nv', w') -> nv'.1 = nv.1) -> mapM f l h = (Ok l', h') -> map fst l' = map fst l.
Proof.
  intros Hf. revert h l' h'. induction l as [|nv l IH]; intros h l' h' H; cbn in H; [by injection H as <- _|].
  next H. next H. injection H as <- _. cbn. by rewrite (Hf _ _ _ _ E), (IH _ _ _ E0).
Qed.

Lemma fst_assign {A} (k : string) (v : A) d : NoDup (map fst d) -> NoDup (map fst (assign k v d)).
Proof.
  assert (I : forall q, q ∈ map fst (assign k v d) <-> q = k \/ q ∈ map fst d).
  { induction d as [|[k' v'] d IH]; cbn; [set_solver|]. intros q. destruct (String.eqb_spec k k') as [->|]; cbn; [set_solver|].
    rewrite !elem_of_cons, IH. tauto. }
  clear I. induction d as [|[k' v'] d IH]; cbn; [intros _; by apply NoDup_singleton|]. intros [Hn Hd]%NoDup_cons.
  destruct (String.eqb_spec k k') as [->|Hk]; cbn; [by constructor|]. constructor; [|by apply IH].
  clear IH Hd. induction d as [|[q w] d IHd]; cbn in *; [set_solver|]. destruct (String.eqb_spec k q) as [->|]; cbn; set_solver.
Qed.

Lemma variants_of_ok o variants :
  variants_of o = Ok variants -> NoDup (map fst variants) /\ (2 <= length variants)%nat /\ Forall (fun nv => is_label nv.1 = true) variants.
Proof.
  unfold variants_of. intros (pairs & _ & H)%rbind_ok. apply rbind_ok in H as (? & Hl%usage_if_ok & H).
  apply rbind_ok in H as (? & Hn%usage_if_ok & [= <-]). apply orb_false_iff in Hl as [_ Hl]. apply Nat.ltb_ge in Hl. split_and!; [|done|].
  - unfold named. assert (G : forall d, NoDup (map fst d) -> NoDup (map fst (foldl (fun d nv => assign nv.1 nv.2 d) d pairs))).
    { clear. induction pairs as [|nv l IH]; intros d Hd; cbn; [done|]. by apply IH, fst_assign. }
    apply G. constructor.
  - apply Forall_forall. intros nv Hin. destruct (is_label nv.1) eqn:E; [done|].
    assert (X : existsb (fun nv : string * string => negb (is_label nv.1)) (named pairs) = true); [|by rewrite Hn in X].
    apply existsb_exists. exists nv. split; [by apply list_elem_of_In|by rewrite E].
Qed.

Lemma variants_report_initial o variants hashes sources h report h' :
  initial_report o variants hashes sources h = (Ok report, h') -> holds hashes report [].
Proof. unfold initial_report. intros H. do 2 next H. injection H as <- _. by split_and!. Qed.

(** A run that is retained in a comparison that goes on is valid. *)
Lemma all_valid o hashes slots rows :
  Forall2 (recorded o hashes) slots rows -> allR (fun run => test ($run.["valid"])) (runs_of rows) = Ok true.
Proof.
  induction 1 as [|[count population repeat label|count population] [run|entry] slots rows Hr _ IH]; cbn in *; try done.
  destruct Hr as (_ & _ & _ & Hv & _). cbn in Hv. by rewrite Hv.
Qed.

Lemma matrix_report ROOT fuel o options ssh client output_ variants binaries hashes sources ws ps report h report' h' :
  holds hashes report [] ->
  staged ROOT fuel o options ssh client output_ variants binaries hashes sources ws ps report h = (Ok report', h') ->
  exists rows, Forall2 (recorded o hashes) (schedule (repeats (base o)) ws ps variants) rows /\ holds hashes report' rows
               /\ $report'.["complete"] = Ok (VBool (negb (length (runs_of rows) =? 0)%nat)).
Proof.
  intros Hh H. unfold staged in H. next H. apply finally_ok in H as (h1 & H & _). cbv zeta in H. next H. next H.
  apply lift_ok in E1 as [E1 _]. apply (holds_other hashes report []) in E1; [|computed|done]. do 4 next H. next H.
  eapply (foldM_rows _ (fun st => holds hashes st.2) (fun count => concat (map (population_slots (repeats (base o)) variants count) ps))) in E6
    as (rows & Hrows & Hst); [| |exact E1].
  2:{ intros s1 count v1 s2 v2 xs Hs H1.
      eapply (foldM_rows _ (fun st => holds hashes st.2) (population_slots (repeats (base o)) variants count)) in H1; [exact H1| |exact Hs].
      intros s3 population v3 s4 v4 zs Hs3 H3. eapply population_rows in H3; [exact H3|exact Hs3]. }
  do 2 next H. next H. apply lift_ok in E8 as [E8 _]. next H. apply lift_ok in E9 as [E9 _]. next H. next H.
  apply lift_ok in E11 as [E11 _]. do 2 next H. injection H as <- _. exists rows. split; [exact Hrows|]. cbn in Hst. split.
  - apply (holds_other hashes x10 rows) in E11; [done|computed|]. by apply (holds_other hashes x6.2 rows) in E9; [|computed|].
  - rewrite (setR_other _ _ _ _ _ E11) by done. apply setR_new in E9 as (v & [= <-] & ->). do 2 f_equal.
    unfold iterR in E8. destruct Hst as (Hr & _ & _). rewrite Hr in E8. cbn [rbind py_iter] in E8.
    apply all_valid in Hrows. destruct (runs_of rows); cbn [length]; [by injection E8 as <-|]. rewrite Hrows in E8. by injection E8 as <-.
Qed.

(** ** A comparison of two variants, with one combination beyond the capacity of a worker *)

Definition variants_options : Options :=
  mkOptions ["old=a/zhtps"; "new=b/zhtps"] true None None
    (CompareHttp2Lan.mkOptions "client" "key" "" "" "" "lan-client" "0" "" 1 "1" "" "9000,1" 1 (VInt 1) (VInt 0) (VInt 2)
       (VInt 9) 1 1 "out" lan_vars).
Definition variants_turns : list turn :=
  [text_ "/a"; text_ "/b"] ++ identity_turns ++ [text_ "lan-client"; text_ "out"; blank; number_ 1024; number_ 4096; blank]
  ++ repeat (text_ "bytes") 3 ++ [answered (VList [])] ++ repeat (answered (VBool true)) 4 ++ repeat (text_ "bytes") 4
  ++ repeat blank 5 ++ [text_ "now"] ++ identity_turns ++ [text_ "key"; text_ "/tmp/d"] ++ command_turns "/remote" ++ [blank; blank]
  ++ command_turns "" ++ concat (repeat [blank; number_ 0] 3) ++ [blank; blank]
  ++ [number_ 9000] ++ lan_trial_turns 5 ++ repeat blank 4 ++ [number_ 9001] ++ lan_trial_turns 8 ++ repeat blank 4
  ++ repeat (text_ "bytes") 7 ++ [text_ "later"; blank; blank; blank; number_ 0; blank].
Definition variants_host : host := Host [] (fun n => nth n variants_turns blank) 0 [] [].



Definition variants_report : val := value_or VNone (main "/r" 20 variants_options variants_host).1.

(** A variant may be called [client]: the digest kept under its label, and with every run of it, is then that of the load client. *)
Example client_variant_digest :
  binaries_of [("client", "/build/zhtps"); ("new", "/b/zhtps")] "/bin/lan-client"
  = [("client", VStr "/bin/lan-client"); ("new", VStr "/b/zhtps")]
  /\ is_ok (variants_of (mkOptions ["client=/build/zhtps"; "new=/b/zhtps"] true None None (base variants_options))) = true.
Proof. split; vm_compute; reflexivity. Qed.
