(* ===== verification/UploadReport.v ===== *)
(** * What the upload driver leaves and what its audit asks

    [UploadCompare] records a trial and writes its summary; [AuditUploadParity] checks the record and computes the figures
    of the summary again, with code of its own.  Here: what a trial that ends well writes satisfies those checks. *)

From stdpp Require Import base list strings.
From Stdlib Require Import ZArith Lia Ascii.
From S2P Require Import Prelude PyFloat PyText PyVal PyJson PyScript Shlex PyStats PyHash Evidence PyIO System ProcSample RemoteLoad Compare Overload SummarizeArchitecture Architecture UploadCompare AuditUploadParity CompareHttp2.

Local Open Scope Z_scope.
Open Scope py_scope.

(** ** The figures *)

(** The figures of the summary, from the samples the driver has chosen. *)
Lemma summary_figures o name size load samples summary :
  UploadCompare.summary_of o name size load samples = Ok summary ->
  exists f, figures_of load samples = Ok f
    /\ $summary.["cpu_cores"] = Ok (f_cpu f) /\ $summary.["cpu_us_per_mib"] = cpu_per_mib f /\ is_ok (cpu_per_mib f) = true
    /\ $summary.["rss_median_mib"] = Ok (f_rss f).
Proof.
  unfold UploadCompare.summary_of. intros ([] & _ & H)%rbind_ok. apply rbind_ok in H as (first & Hf & H).
  apply rbind_ok in H as (last & Hl & H). apply rbind_ok in H as (seconds & Hs & H). apply rbind_ok in H as (cpu & Hc & H).
  apply rbind_ok in H as (goodput & Hg & H). pose proof (fun k e Hk => mkdict_get _ _ k e H Hk) as G.
  destruct (G "rss_median_mib" _ eq_refl) as (median & Hm & Gm).
  destruct (G "cpu_cores" _ eq_refl) as (c & [= <-] & Gc). destruct (G "cpu_us_per_mib" _ eq_refl) as (m & Hp & Gp).
  exists (Figures first last seconds cpu goodput median). unfold figures_of, server_delta, cpu_per_mib. cbn [f_cpu f_goodput f_rss].
  rewrite Hf, Hl. cbn [rbind]. rewrite Hs. cbn [rbind]. rewrite Hc. cbn [rbind]. rewrite Hg. cbn [rbind].
  change AuditUploadParity.rss with UploadCompare.rss. rewrite Hm. cbn [rbind]. split_and!; [done|done|by rewrite Gp, Hp|by rewrite Hp|done].
Qed.

(** A figure that is a number is equal to itself; only a float that is not a number is not. *)
Lemma summary_checked o name size load samples summary :
  UploadCompare.summary_of o name size load samples = Ok summary ->
  (forall k v, k ∈ ["cpu_cores"; "cpu_us_per_mib"; "rss_median_mib"] -> $summary.[k] = Ok v -> real v) ->
  exists f, figures_of load samples = Ok f /\ check_figures summary f = Ok tt.
Proof.
  intros (f & Hf & Gc & Gp & Pp & Gm)%summary_figures R. exists f. split; [done|]. unfold check_figures.
  destruct (cpu_per_mib f) as [p|e]; [|done]. rewrite Gc, Gp, Gm.
  assert (N : forall k v, k ∈ ["cpu_cores"; "cpu_us_per_mib"; "rss_median_mib"] -> $summary.[k] = Ok v -> ($v ==' $v) = Ok true).
  { intros k v Hk Hv. apply eqR_refl. by eapply R. }
  assert (K : forall k, k = "cpu_cores" \/ k = "cpu_us_per_mib" \/ k = "rss_median_mib" -> k ∈ ["cpu_cores"; "cpu_us_per_mib"; "rss_median_mib"]).
  { intros k [->|[->| ->]]; [left|right; left|right; right; left]. }
  rewrite (N "cpu_cores" (f_cpu f)), (N "cpu_us_per_mib" p), (N "rss_median_mib" (f_rss f)) by first [done|apply K; tauto]. done.
Qed.

(** ** What a computation of a trial leaves alone *)

(** A method of the collector that does not estimate the clock again. *)
Definition clock_kept {A} (m : io session A) : Prop := forall s r s', m s = (r, s') ->
  rl_clock_offset_ns (s_remote s') = rl_clock_offset_ns (s_remote s).

Lemma clock_kept_bind {A B} (m : io session A) (k : A -> io session B) :
  clock_kept m -> (forall a, clock_kept (k a)) -> clock_kept (bind m k).
Proof.
  intros Hm Hk s r s'. unfold bind. destruct (m s) as [[a|e] s1] eqn:E; apply Hm in E; [|by intros [= _ <-]].
  intros H. apply Hk in H. congruence.
Qed.
Lemma clock_kept_catch {A} (m : io session A) h : clock_kept m -> (forall e, clock_kept (h e)) -> clock_kept (catch m h).
Proof.
  intros Hm Hk s r s'. unfold catch. destruct (m s) as [[a|e] s1] eqn:E; apply Hm in E; [by intros [= _ <-]|].
  intros H. apply Hk in H. congruence.
Qed.
Lemma clock_kept_same {A} (m : io session A) : (forall s, (m s).2 = s) -> clock_kept m.
Proof. intros Hm s r s' E. specialize (Hm s). rewrite E in Hm. by cbn in Hm; subst. Qed.
Lemma clock_kept_ret {A} (a : A) : clock_kept (ret a).
Proof. by apply clock_kept_same. Qed.
Lemma clock_kept_throw {A} e : clock_kept (throw (A:=A) e).
Proof. by apply clock_kept_same. Qed.
Lemma clock_kept_lift {A} (x : res A) : clock_kept (lift x).
Proof. by apply clock_kept_same. Qed.
Lemma clock_kept_gets {A} (f : session -> A) : clock_kept (gets f).
Proof. by apply clock_kept_same. Qed.
Lemma clock_kept_on_host {A} (m : io host A) : clock_kept (RemoteLoad.on_host m).
Proof. intros s r s'. unfold RemoteLoad.on_host, zoom. destruct (m (s_host s)). by intros [= _ <-]. Qed.
Lemma clock_kept_set_remote f : (forall r, rl_clock_offset_ns (f r) = rl_clock_offset_ns r) -> clock_kept (RemoteLoad.set_remote f).
Proof. intros Hf s r s' [= _ <-]. apply Hf. Qed.
#[local] Hint Resolve clock_kept_bind clock_kept_catch clock_kept_ret clock_kept_throw clock_kept_lift clock_kept_gets clock_kept_on_host clock_kept_set_remote : zhtps.

Lemma take_event_kept r event r' : RemoteLoad.take_event r event = Ok r' -> rl_clock_offset_ns r' = rl_clock_offset_ns r.
Proof.
  unfold RemoteLoad.take_event. intros (kind & _ & H)%rbind_ok. repeat case_match; try (apply rbind_ok in H as (? & _ & H));
    by injection H as <-.
Qed.
Lemma clock_kept_drain fuel : clock_kept (RemoteLoad.drain fuel).
Proof.
  induction fuel as [|fuel IH]; cbn [RemoteLoad.drain]; [auto with zhtps|].
  apply clock_kept_bind; [apply clock_kept_catch; [auto with zhtps|]; intros e; case_match; auto with zhtps|]. intros [event|]; [|auto with zhtps].
  intros s x s' H. unfold bind at 1, gets in H. unfold bind at 1, lift in H.
  destruct (RemoteLoad.take_event (s_remote s) event) as [r|e] eqn:E; [|by injection H as _ <-].
  apply take_event_kept in E. apply IH in H. by rewrite H.
Qed.
Lemma clock_kept_start binary arguments cpus connections max_seconds files beat :
  clock_kept (RemoteLoad.start binary arguments cpus connections max_seconds files beat).
Proof. unfold RemoteLoad.start. auto with zhtps. Qed.
Lemma clock_kept_completed fuel : clock_kept (completed fuel).
Proof.
  unfold completed, collect, heartbeat. apply clock_kept_bind; [|intros; auto with zhtps]. apply clock_kept_bind; [apply clock_kept_drain|]. intros _.
  apply clock_kept_bind; [auto with zhtps|]. intros r. apply clock_kept_bind; [case_match; auto with zhtps|]. intros _.
  case_match; [|auto with zhtps]. do 2 (apply clock_kept_bind; [auto with zhtps|]; intros). case_match; [|auto with zhtps].
  apply clock_kept_catch; [auto 6 with zhtps|]. intros e. case_match; auto with zhtps.
Qed.
Lemma clock_kept_stop : clock_kept RemoteLoad.stop.
Proof. unfold RemoteLoad.stop. auto 6 with zhtps. Qed.

(** The entries [ks] of the record and the clock of the collector stay. *)
Definition clock_of (s : state) : option val := option_map rl_clock_offset_ns (o_remote s).
Definition spares {A} (ks : list string) (m : io state A) : Prop := forall s r s', m s = (r, s') ->
  (forall k, k ∈ ks -> $(o_report s').[k] = $(o_report s).[k]) /\ clock_of s' = clock_of s.

Section Spares.
Context (ks : list string).

Lemma spares_same {A} (m : io state A) : (forall s, o_report (m s).2 = o_report s /\ o_remote (m s).2 = o_remote s) -> spares ks m.
Proof. intros Hm s r s' E. destruct (Hm s) as [H1 H2]. rewrite E in H1, H2. unfold clock_of. cbn in *. by rewrite H1, H2. Qed.
Lemma spares_bind {A B} (m : io state A) (k : A -> io state B) : spares ks m -> (forall a, spares ks (k a)) -> spares ks (bind m k).
Proof.
  intros Hm Hk s r s'. unfold bind. destruct (m s) as [[a|e] s1] eqn:E; apply Hm in E as [H1 H2]; [|by intros [= _ <-]].
  intros [H3 H4]%Hk. split; [|congruence]. intros q Hq. by rewrite H3, H1.
Qed.
Lemma spares_ret {A} (a : A) : spares ks (ret a).
Proof. by apply spares_same. Qed.
Lemma spares_throw {A} e : spares ks (throw (A:=A) e).
Proof. by apply spares_same. Qed.
Lemma spares_lift {A} (x : res A) : spares ks (lift x).
Proof. by apply spares_same. Qed.
Lemma spares_gets {A} (f : state -> A) : spares ks (gets f).
Proof. by apply spares_same. Qed.
Lemma spares_on_host {A} (m : io host A) : spares ks (Overload.on_host m).
Proof. apply spares_same. intros s. unfold Overload.on_host, zoom. by destruct (m (o_host s)). Qed.
Lemma spares_set_server h : spares ks (set_server h).
Proof. by apply spares_same. Qed.
Lemma spares_set_client h : spares ks (set_client h).
Proof. by apply spares_same. Qed.
Lemma spares_on_remote {A} (m : io session A) : clock_kept m -> spares ks (on_remote m).
Proof.
  intros Hm s r s'. unfold on_remote, clock_of. destruct (o_remote s) as [rl|] eqn:Er; [|intros [= _ <-]; by rewrite Er].
  destruct (m (Session (o_host s) rl)) as [x ses] eqn:E. apply Hm in E. intros [= _ <-]. cbn in *. by rewrite E.
Qed.
Lemma spares_set_report f k : (forall v w, f v = Ok w -> exists e, setR v k e = Ok w) -> k ∉ ks -> spares ks (set_report f).
Proof.
  intros Hf Hk s r s'. unfold set_report. destruct (f (o_report s)) as [w|e] eqn:E; intros [= _ <-]; [|done].
  split; [|done]. apply Hf in E as (e & E). intros q Hq. cbn. eapply setR_other; [exact E|]. by intros ->.
Qed.
Lemma spares_put k v : k ∉ ks -> spares ks (Overload.put k v).
Proof. apply spares_set_report. intros w w' E. by exists (Ok v). Qed.
Lemma spares_record k m : k ∉ ks -> spares ks (record k m).
Proof. intros Hk. unfold record. apply spares_bind; [apply spares_on_host|]. intros v. by apply spares_put. Qed.
Lemma spares_each {A} (f : A -> io state unit) l : (forall a, spares ks (f a)) -> spares ks (each f l).
Proof. intros Hf. induction l; cbn; [apply spares_ret|]. by apply spares_bind. Qed.
End Spares.
#[local] Hint Resolve clock_kept_start clock_kept_completed clock_kept_stop clock_kept_gets : zhtps.
#[local] Hint Resolve spares_ret spares_throw spares_lift spares_gets spares_on_host spares_set_server spares_set_client
  spares_on_remote spares_each : zhtps.
#[local] Hint Extern 1 (spares _ (Overload.put _ _)) => apply spares_put; computed : zhtps.
#[local] Hint Extern 1 (spares _ (record _ _)) => apply spares_record; computed : zhtps.

Ltac sparing := repeat first [ progress intros | solve [auto with zhtps] | apply spares_bind | apply spares_each | case_match ].


Definition trial_keys : list string := ["binary_sha256"; "server_identity"; "running_binary_sha256"; "remote_identity"; "clock_offset_ns"].

Lemma spares_take_sample name : spares trial_keys (UploadCompare.take_sample name).
Proof.
  unfold UploadCompare.take_sample. sparing. apply (spares_set_report _ _ "samples"); [|computed].
  intros v w (samples & _ & E)%rbind_ok. by eexists.
Qed.
Lemma spares_pin_task cpu task : spares trial_keys (pin_task cpu task).
Proof.
  unfold pin_task. sparing. apply (spares_set_report _ _ "application_affinity"); [|computed].
  intros v w (rows & _ & E)%rbind_ok. by eexists.
Qed.
#[local] Hint Resolve spares_take_sample spares_pin_task : zhtps.
Lemma spares_await_load fuel rounds name server next : spares trial_keys (UploadCompare.await_load fuel rounds name server next).
Proof. revert next. induction rounds as [|rounds IH]; intros next; cbn [UploadCompare.await_load]; sparing. Qed.
Lemma spares_pin_application o name : spares trial_keys (pin_application o name).
Proof. unfold pin_application. sparing. Qed.
Lemma spares_start_profile o folder : spares trial_keys (start_profile o folder).
Proof. unfold start_profile. sparing. Qed.
#[local] Hint Resolve spares_await_load spares_pin_application spares_start_profile : zhtps.

(** ** A trial that ends well *)

Lemma spares_weaken {A} ks ks' (m : io state A) : ks ⊆ ks' -> spares ks' m -> spares ks m.
Proof. intros Hk Hm s r s' E. apply Hm in E as [H1 H2]. split; [|done]. intros k Hin. by apply H1, Hk. Qed.

Lemma put_new k v s s' : Overload.put k v s = (Ok tt, s') -> $(o_report s').[k] = Ok v /\ o_remote s' = o_remote s.
Proof.
  unfold Overload.put, set_report. destruct (setR (o_report s) k (Ok v)) as [w|e] eqn:E; [|done]. intros [= <-].
  apply setR_new in E as (u & [= <-] & E). by split.
Qed.
Lemma require_holds b s s' : require_ b s = (Ok tt, s') -> b = Ok true /\ s' = s.
Proof.
  unfold require_. intros (ok & s1 & [-> ->]%lift_ok & H)%bind_ok. destruct ok; [|done]. by injection H as <-.
Qed.

(** What holds of the record from the connection of the collector on. *)
Record connected (hash : string) (s : state) : Prop := {
  cn_binary : $(o_report s).["binary_sha256"] = str hash;
  cn_running : $(o_report s).["running_binary_sha256"] = str hash;
  cn_kernel : other_kernel (o_report s) = Ok true;
  cn_clock : exists offset, clock_of s = Some offset /\ $(o_report s).["clock_offset_ns"] = Ok offset }.

Lemma connected_spared {A} hash (m : io state A) s r s' :
  spares trial_keys m -> m s = (r, s') -> connected hash s -> connected hash s'.
Proof.
  intros Hm E [H1 H2 H3 (offset & H4 & H5)]. apply Hm in E as [K C].
  split; [by rewrite K by computed|by rewrite K by computed| |exists offset; by rewrite C, K by computed].
  unfold other_kernel in *. by rewrite !K by computed.
Qed.

Lemma open_remote_connects hash agent_source s s' :
  $(o_report s).["binary_sha256"] = str hash -> $(o_report s).["running_binary_sha256"] = str hash ->
  UploadCompare.open_remote agent_source s = (Ok tt, s') -> connected hash s'.
Proof.
  intros H1 H2 H. unfold UploadCompare.open_remote in H. cbv zeta in H. apply bind_ok in H as (r & s1 & E1 & H).
  apply bind_ok in H as ([] & s2 & E2 & H). apply bind_ok in H as ([] & s3 & E3 & H). apply bind_ok in H as (report & s4 & E4 & H).
  apply bind_ok in H as ([] & s5 & E5 & H). apply bind_ok in H as ([] & s6 & E6 & E7).
  assert (R1 : o_report s1 = o_report s) by (unfold Overload.on_host, zoom in E1; destruct (connect _ _ _ _); by injection E1 as _ <-).
  injection E2 as <-. injection E4 as <- <-. apply require_holds in E5 as [Hk ->].
  pose proof (put_new _ _ _ _ E3) as [N3 M3]. pose proof (put_new _ _ _ _ E6) as [N6 M6].
  pose proof (spares_put ["binary_sha256"; "running_binary_sha256"; "server_identity"] "remote_identity" _ ltac:(computed) _ _ _ E3) as [K3 _].
  pose proof (spares_put ["binary_sha256"; "running_binary_sha256"; "server_identity"; "remote_identity"] "clock_offset_ns" _ ltac:(computed) _ _ _ E6) as [K6 _].
  pose proof (spares_put trial_keys "clock_uncertainty_ns" _ ltac:(computed) _ _ _ E7) as [K7 C7].
  cbn [o_report] in K3. rewrite R1 in K3.
  split.
  - by rewrite K7, K6, K3 by computed.
  - by rewrite K7, K6, K3 by computed.
  - unfold other_kernel. rewrite !K7, !K6 by computed. rewrite N3. exact Hk.
  - exists (rl_clock_offset_ns r). split.
    + rewrite C7. unfold clock_of. rewrite M6, M3. done.
    + by rewrite K7, N6 by computed.
Qed.

Definition binary_is (hash : string) (s : state) : Prop := $(o_report s).["binary_sha256"] = str hash.
Definition runs (hash : string) (s : state) : Prop := binary_is hash s /\ $(o_report s).["running_binary_sha256"] = str hash.
Lemma binary_spared {A} hash (m : io state A) s r s' :
  spares ["binary_sha256"] m -> m s = (r, s') -> binary_is hash s -> binary_is hash s'.
Proof. unfold binary_is. intros Hm E H. apply Hm in E as [K _]. by rewrite K by computed. Qed.
Lemma runs_spared {A} hash (m : io state A) s r s' :
  spares ["binary_sha256"; "running_binary_sha256"] m -> m s = (r, s') -> runs hash s -> runs hash s'.
Proof. unfold runs, binary_is. intros Hm E [H1 H2]. apply Hm in E as [K _]. by rewrite !K by computed. Qed.

(** A step of a computation that ends well, with what it keeps. *)
Lemma passes {A B} (P : state -> Prop) ks (m : io state A) (k : A -> io state B) s b s' :
  (forall s r s1, spares ks m -> m s = (r, s1) -> P s -> P s1) ->
  bind m k s = (Ok b, s') -> P s -> spares ks m -> exists a s1, P s1 /\ k a s1 = (Ok b, s').
Proof. intros Hm H Hs Hk. apply bind_ok in H as (a & s1 & E & H). exists a, s1. split; [by eapply Hm|done]. Qed.
Definition passes_binary {A B} hash m k s b s' := @passes A B (binary_is hash) _ m k s b s' (fun s r s1 => binary_spared hash m s r s1).
Definition passes_runs {A B} hash m k s b s' := @passes A B (runs hash) _ m k s b s' (fun s r s1 => runs_spared hash m s r s1).
Definition passes_connected {A B} hash m k s b s' := @passes A B (connected hash) _ m k s b s' (fun s r s1 => connected_spared hash m s r s1).
Tactic Notation "next" ident(known) ident(H) open_constr(lemma) := let E := fresh "E" in let K := fresh "K" in
  edestruct lemma as (? & ? & K & E); [exact H|exact known| |clear H known; rename E into H; rename K into known].

Lemma spares_head {A} (m : io state A) : spares trial_keys m -> spares ["binary_sha256"] m.
Proof. apply spares_weaken. computed. Qed.

Lemma trial_connects fuel o client_source agent_source c command s s' :
  binary_is (c_hash c) s ->
  UploadCompare.trial fuel o client_source agent_source c command s = (Ok tt, s') ->
  exists s1, connected (c_hash c) s1 /\ finish o c s1 = (Ok tt, s').
Proof.
  intros Hb H. unfold UploadCompare.trial in H. cbv zeta in H.
  do 8 (next Hb H (passes_binary (c_hash c)); [apply spares_head; unfold require_; sparing|]).
  apply bind_ok in H as ([] & s9 & E9 & H). pose proof (put_new _ _ _ _ E9) as [N9 _].
  apply (binary_spared (c_hash c)) in E9; [|sparing|done].
  apply bind_ok in H as ([] & s10 & E10 & H). apply require_holds in E10 as [Hs ->].
  assert (R : runs (c_hash c) s9).
  { split; [done|]. rewrite N9. unfold str, eqR, lift2 in Hs. cbn [rbind] in Hs. rewrite py_eqb_str in Hs. injection Hs as Hs.
    by apply String.eqb_eq in Hs as ->. }
  next R H (passes_runs (c_hash c)); [sparing|].
  apply bind_ok in H as ([] & s12 & E12 & H). destruct R as [R1 R2]. apply (open_remote_connects (c_hash c)) in E12; [|done|done].
  do 5 (next E12 H (passes_connected (c_hash c)); [sparing|]).
  eexists. by split.
Qed.

(** ** The end of a trial *)

(** The trace only grows. *)
Definition prolongs {A} (m : io state A) : Prop := forall s r s', m s = (r, s') -> trace (o_host s) `prefix_of` trace (o_host s').
Lemma prolongs_bind {A B} (m : io state A) (k : A -> io state B) : prolongs m -> (forall a, prolongs (k a)) -> prolongs (bind m k).
Proof.
  intros Hm Hk s r s'. unfold bind. destruct (m s) as [[a|e] s1] eqn:E; apply Hm in E; [|by intros [= _ <-]].
  intros H. apply Hk in H. by etrans.
Qed.
Lemma prolongs_on_host {A} (m : io host A) : adds (fun _ => True) m -> prolongs (Overload.on_host m).
Proof.
  intros Hm s r s'. unfold Overload.on_host, zoom. destruct (m (o_host s)) as [x w] eqn:E. apply Hm in E as (l & E & _).
  intros [= _ <-]. cbn. rewrite E. by exists l.
Qed.
Lemma prolongs_put k v : prolongs (Overload.put k v).
Proof. intros s r s'. unfold Overload.put, set_report. destruct (setR _ _ _); by intros [= _ <-]. Qed.
Lemma prolongs_gets {A} (f : state -> A) : prolongs (gets f).
Proof. by intros s r s' [= _ <-]. Qed.
Lemma prolongs_lift {A} (x : res A) : prolongs (lift x).
Proof. by intros s r s' [= _ <-]. Qed.
Lemma prolongs_ret {A} (a : A) : prolongs (ret a).
Proof. by intros s r s' [= _ <-]. Qed.
#[local] Hint Resolve prolongs_bind prolongs_on_host prolongs_put prolongs_gets prolongs_lift prolongs_ret : zhtps.

Lemma adds_stop_process P h b : adds P (stop_process h b).
Proof.
  unfold stop_process, close_pipe, stop_child, terminate, wait. apply adds_bind.
  - case_match; [|auto with zhtps]. apply adds_catch; [|intros e; case_match; auto with zhtps].
    apply adds_bind; [auto with zhtps|]. intros t. case_match; auto with zhtps.
  - intros _. apply adds_bind; [|auto with zhtps]. apply adds_catch; [auto with zhtps|]. intros e. case_match; [|auto with zhtps].
    apply adds_bind; [auto with zhtps|]. intros c. case_match; [auto with zhtps|]. apply adds_bind; [auto with zhtps|]. intros _.
    apply adds_catch; [auto with zhtps|]. intros e'. case_match; auto with zhtps.
Qed.
Lemma prolongs_stop_remote (remote : option remote) :
  prolongs (match remote with Some _ => on_remote RemoteLoad.stop | None => ret tt end).
Proof.
  destruct remote; [|auto with zhtps]. intros s x s'. unfold on_remote. destruct (o_remote s) as [rl|]; [|by intros [= _ <-]].
  unfold RemoteLoad.stop, bind at 1, gets at 1. unfold bind at 1. unfold RemoteLoad.on_host, zoom. cbn [s_host s_remote].
  destruct (stop_process (rl_process rl) (rl_stdin_open rl) (o_host s)) as [[u|e] w] eqn:E;
    apply (adds_stop_process (fun _ => True)) in E as (l & E & _); cbn; intros [= _ <-]; cbn; rewrite E; by exists l.
Qed.
#[local] Hint Resolve prolongs_stop_remote : zhtps.

Lemma write_file_traced path text s s' :
  Overload.on_host (write_file path text) s = (Ok tt, s') ->
  trace (o_host s') = trace (o_host s) ++ [Wrote path text] /\ o_report s' = o_report s.
Proof.
  unfold Overload.on_host, zoom, write_file. destruct (fallible _ (o_host s)) as [x w] eqn:E. intros [= -> <-].
  apply fallible_said in E. by split.
Qed.

(** What a finished trial has computed, and written. *)
Record finished_well (o : UploadCompare.Options) (c : case) (s : state) : Prop := {
  fw_connected : connected (c_hash c) s;
  fw_outcome : $(o_report s).["outcome"] = str "measured";
  fw_summary : exists load samples summary text,
    $(o_report s).["load"] = Ok load
    /\ test ($load.["failures"]) = Ok false /\ ($load.["window_successes"] >' int 0) = Ok true
    /\ ($load.["request_body_sha256"] ==' str (sha256_hex (c_body c))) = Ok true
    /\ measured_samples (o_report s) load = Ok samples
    /\ UploadCompare.summary_of o (c_name c) (c_size c) load samples = Ok summary
    /\ json_dumps2 summary = Ok text /\ Wrote (c_folder c +:+ "/summary.json") (text +:+ nl) ∈ trace (o_host s) }.

Definition result_keys : list string := trial_keys ++ ["load"; "samples"].
Lemma spares_trial {A} (m : io state A) : spares result_keys m -> spares trial_keys m.
Proof. apply spares_weaken. computed. Qed.
(** The part of the record the figures are computed from. *)
Lemma measured_spared {A} (m : io state A) s r s' load :
  spares result_keys m -> m s = (r, s') -> measured_samples (o_report s') load = measured_samples (o_report s) load.
Proof. intros Hm E. apply Hm in E as [K _]. unfold measured_samples, iterR. by rewrite !K by computed. Qed.

Lemma window_measured run load offset all samples :
  $run.["clock_offset_ns"] = Ok offset -> iterR ($run.["samples"]) = Ok all -> UploadCompare.window load offset all = Ok samples ->
  measured_samples run load = Ok samples.
Proof.
  unfold UploadCompare.window, measured_samples. intros -> Ha (begin & Hb & (end_ & He & Hf)%rbind_ok)%rbind_ok.
  rewrite Hb. cbn [rbind]. rewrite He. cbn [rbind]. rewrite Ha. exact Hf.
Qed.

Lemma finish_well o c s s' : connected (c_hash c) s -> finish o c s = (Ok tt, s') -> finished_well o c s'.
Proof.
  intros C H. unfold finish in H. apply bind_ok in H as (rl & s1 & E1 & H). apply bind_ok in H as (load & s2 & [El ->]%lift_ok & H).
  assert (Hr : o_remote s = Some rl /\ s1 = s).
  { unfold on_remote in E1. destruct (o_remote s) as [rl'|] eqn:Er; [|done]. cbn in E1. injection E1 as -> <-. split; [done|].
    destruct s. cbn in *. by subst. }
  destruct Hr as [Hr ->].
  apply bind_ok in H as ([] & s3 & E3 & H). pose proof (put_new _ _ _ _ E3) as [N3 M3].
  apply (connected_spared (c_hash c)) in E3 as C3; [|sparing|done].
  apply bind_ok in H as ([] & s4 & E4 & H). apply bind_ok in H as ([] & s5 & E5 & H).
  assert (K5 : connected (c_hash c) s5 /\ $(o_report s5).["load"] = Ok load /\ clock_of s5 = clock_of s3).
  { apply (connected_spared (c_hash c)) in E4 as C4; [|apply spares_trial; sparing|done].
    apply (connected_spared (c_hash c)) in E5 as C5; [|apply spares_trial; sparing|done]. split; [done|].
    apply (spares_put result_keys "remote_samples" _ ltac:(computed)) in E4 as [K4 D4].
    assert (S5 : spares result_keys (if UploadCompare.is_go (c_name c) then ret tt else record "metrics_after" (admin_json "/debug/metrics"))) by sparing.
    apply S5 in E5 as [K5 D5]. split; [by rewrite K5, K4 by computed|by rewrite D5, D4]. }
  destruct K5 as (C5 & L5 & D5).
  apply bind_ok in H as ([] & s6 & [E6 ->]%lift_ok & H). apply bind_ok in H as (expected & s7 & E7 & H).
  apply bind_ok in H as ([] & s8 & [_ ->]%lift_ok & H). apply bind_ok in H as (report & s9 & E9 & H). injection E9 as <- <-.
  apply bind_ok in H as (summary & s10 & [Es ->]%lift_ok & H). apply bind_ok in H as (text & s11 & [Et ->]%lift_ok & H).
  apply bind_ok in H as ([] & s12 & E12 & H). apply bind_ok in H as ([] & s13 & E13 & H). apply bind_ok in H as (line & s14 & [_ ->]%lift_ok & E14).
  apply rbind_ok in Es as (all & Ha & Es). apply rbind_ok in Es as (samples & Hs & Es).
  assert (S7 : spares result_keys (Overload.on_host read_proc)) by sparing.
  apply (connected_spared (c_hash c)) in E7 as C7; [|sparing|done]. pose proof (S7 _ _ _ E7) as [K7 D7].
  destruct (cn_clock _ _ C7) as (offset & O7 & R7).
  assert (offset = rl_clock_offset_ns rl) as ->.
  { rewrite D7, D5 in O7. unfold clock_of in O7. rewrite M3, Hr in O7. by injection O7 as <-. }
  pose proof (window_measured _ _ _ _ _ R7 Ha Hs) as Hm.
  apply write_file_traced in E12 as W12. destruct W12 as [W12 R12].
  apply (connected_spared (c_hash c)) in E12 as C12; [|sparing|done].
  apply (connected_spared (c_hash c)) in E13 as C13; [|sparing|done]. pose proof (put_new _ _ _ _ E13) as [N13 _].
  apply (connected_spared (c_hash c)) in E14 as C14; [|sparing|done].
  pose proof (spares_put result_keys "outcome" _ ltac:(computed) _ _ _ E13) as [K13 _].
  assert (S14 : forall ks, spares ks (Overload.on_host (say ("DONE " +:+ c_label c +:+ " " +:+ py_str line)))) by (intros; apply spares_on_host).
  pose proof (S14 result_keys _ _ _ E14) as [K14 _]. pose proof (S14 ["outcome"] _ _ _ E14) as [J14 _].
  split; [done|by rewrite J14 by computed|]. exists load, samples, summary, text.
  apply rbind_ok in E6 as ([] & A1%assertR_ok%andR_true & A2%assertR_ok).
  split_and!; [by rewrite K14, K13, R12, K7 by computed| |apply A1|done| |done|done|].
  - destruct A1 as [A1 _]. unfold notR in A1. apply rmap_ok in A1 as (b & -> & E). by destruct b.
  - erewrite measured_spared; [|apply spares_on_host|exact E14].
    erewrite measured_spared; [|apply (spares_put result_keys "outcome"); computed|exact E13]. rewrite R12. exact Hm.
  - eapply elem_of_prefix; [|eapply prolongs_on_host; [|exact E14]; unfold say; auto with zhtps].
    eapply elem_of_prefix; [|eapply prolongs_put; exact E13]. rewrite W12. apply elem_of_app. right. by left.
Qed.

(** A step that spares the result and only adds to the trace keeps what the trial has computed. *)
Definition final_keys : list string := "outcome" :: "run_end" :: result_keys.
Lemma finished_spared {A} o c (m : io state A) s r s' :
  spares final_keys m -> prolongs m -> m s = (r, s') -> finished_well o c s -> finished_well o c s'.
Proof.
  intros Hs Hp E [C O (load & samples & summary & text & L & H1 & H2 & H3 & M & S & T & W)].
  assert (Hr : spares result_keys m) by (eapply spares_weaken; [|exact Hs]; computed).
  assert (Ht : spares trial_keys m) by by apply spares_trial. pose proof (Hs _ _ _ E) as [K _].
  split; [by eapply connected_spared|by rewrite K by computed|]. exists load, samples, summary, text.
  split_and!; [by rewrite K by computed|done|done|done| |done|done|].
  - by rewrite (measured_spared _ _ _ _ load Hr E).
  - eapply elem_of_prefix; [exact W|]. by eapply Hp.
Qed.

Lemma prolongs_record k m : adds (fun _ => True) m -> prolongs (record k m).
Proof. intros Hm. unfold record. auto with zhtps. Qed.
#[local] Hint Resolve prolongs_record : zhtps.
Ltac prolonging := first [solve [auto with zhtps] | case_match; auto with zhtps].

Lemma cleanup_well o c folder s s' : finished_well o c s -> cleanup folder s = (Ok tt, s') ->
  finished_well o c s' /\ exists text, json_dumps2 (o_report s') = Ok text /\ Wrote (folder +:+ "/run.json") (text +:+ nl) ∈ trace (o_host s').
Proof.
  intros F H. unfold cleanup in H.
  do 9 (apply bind_ok in H as (? & ? & E & H); eapply (finished_spared o c) in E; [|sparing|prolonging|exact F];
    clear F; rename E into F).
  apply bind_ok in H as (report & s9 & E9 & H). injection E9 as <- <-.
  apply bind_ok in H as (text & s10 & [Et ->]%lift_ok & H). apply write_file_traced in H as W. destruct W as [W R].
  split.
  - eapply finished_spared; [| |exact H|exact F]; [sparing|]. apply prolongs_on_host. unfold write_file. auto with zhtps.
  - exists text. split; [by rewrite R|]. rewrite W. apply elem_of_app. right. by left.
Qed.

(** ** What a trial leaves on disk *)

(** The record and the summary of a trial, as they are written below its folder. *)
Record left_behind (o : UploadCompare.Options) (c : case) (w : host) (run load summary : val) (samples : list val) : Prop := {
  lb_run : exists text, json_dumps2 run = Ok text /\ Wrote (c_folder c +:+ "/run.json") (text +:+ nl) ∈ trace w;
  lb_summary : exists text, json_dumps2 summary = Ok text /\ Wrote (c_folder c +:+ "/summary.json") (text +:+ nl) ∈ trace w;
  lb_load : $run.["load"] = Ok load;
  lb_samples : measured_samples run load = Ok samples;
  lb_enough : (4 <= length samples)%nat }.

(** The checks of the audit that do not look at other files than these two. *)
Record presentable (c : case) (run load summary : val) (samples : list val) : Prop := {
  pr_outcome : $run.["outcome"] = str "measured";
  pr_binary : $run.["binary_sha256"] = str (c_hash c);
  pr_running : $run.["running_binary_sha256"] = str (c_hash c);
  pr_kernel : other_kernel run = Ok true;
  pr_failures : notR (test ($load.["failures"])) = Ok true;
  pr_successes : ($load.["window_successes"] >' int 0) = Ok true;
  pr_body : $load.["request_body_sha256"] = str (sha256_hex (c_body c));
  pr_figures : (forall k v, k ∈ ["cpu_cores"; "cpu_us_per_mib"; "rss_median_mib"] -> $summary.[k] = Ok v -> real v) ->
    exists f, figures_of load samples = Ok f /\ check_figures summary f = Ok tt }.

Lemma str_eqR_ok e t : (e ==' str t) = Ok true -> e = str t.
Proof.
  unfold eqR, lift2. destruct e as [v|]; cbn [rbind]; [|done]. intros H. injection H as H. destruct v; try done.
  rewrite py_eqb_str in H. by apply String.eqb_eq in H as ->.
Qed.

Lemma summary_enough o name size load samples summary :
  UploadCompare.summary_of o name size load samples = Ok summary -> (4 <= length samples)%nat.
Proof. unfold UploadCompare.summary_of, require. intros ([] & H & _)%rbind_ok. case_match eqn:E; [|done]. by apply Nat.leb_le in E. Qed.

Lemma caught_trial (m : io state unit) s s' : catch m on_failure s = (Ok tt, s') -> m s = (Ok tt, s').
Proof.
  unfold catch. destruct (m s) as [[[]|e] s1]; [done|]. unfold on_failure. intros H.
  do 4 (apply bind_ok in H as (? & ? & _ & H)). done.
Qed.

(** *** A trial that ends well *)

Definition sample_options : UploadCompare.Options :=
  UploadCompare.mkOptions (Some "zhtps") (Some "go-server") "before" 4 "streaming" "out" 1 [2] 1 1 "0" 64 "" None (VInt 2) (VInt 0) false
    "default" false false false false false.
Definition sample_case : case := Case "go" 2 sample_body "out/body-2.bin" "out/expected-2" (sha256_hex "elf") "out/n2-go-1" "n2-go-1" 9000.
Definition trial_load : val :=
  obj [("failures", obj []); ("window_successes", VInt 2); ("goodput_bytes_per_second", VFloat (f64_lit 2 0));
       ("service_p99_ms", VFloat (f64_lit 2 0)); ("measure_start_unix_ns", VInt 0); ("measure_end_unix_ns", VInt 4000000000);
       ("request_body_sha256", VStr (sha256_hex sample_body)); ("expected_body_sha256", VStr (sha256_hex "answer"));
       ("workers", VList [obj [("attempts", VInt 2); ("successes", VInt 2)]])].
(** The greeting of the collector of an architecture trial, and the start of the client. *)
Definition trial_events : list val := greeting ++ [obj [("kind", VStr "started"); ("pid", VInt 7)]].
Definition host_stat (now : Z) : string := "cpu0 1 0 " +:+ string_of_Z now +:+ " 5 0 0 0 0 0 0" +:+ nl.
Definition server_stat (ticks : Z) : string :=
  join " " (["12 (zhtps) S 1 1 1 0 -1 4194304 100 0 0 0"; string_of_Z ticks; "50"] ++ repeat "0" 26).
Definition sampled (now : Z) : list turn :=
  [number_ now; text_ (server_stat now); text_ ("VmRSS: 1024 kB" +:+ nl); number_ 100; number_ 2]
  ++ [number_ now; text_ (host_stat now); text_ ""; text_ ("Tcp: InSegs OutSegs RetransSegs InErrs OutRsts" +:+ nl +:+ "Tcp: 1 2 3 4 5" +:+ nl);
      text_ ("TcpExt: ListenDrops" +:+ nl +:+ "TcpExt: 0" +:+ nl); text_ ""; answered (VList [])].
(** A round of the loop that takes a sample; [arrivals] come during its sleep. *)
Definition round (now : Z) (arrivals : list val) : list turn :=
  [blank; number_ 0; blank; number_ now] ++ sampled (now * 500000000) ++ [number_ now; Turn [] None VNone arrivals false].
Definition trial_turns : list turn :=
  [text_ "server"; text_ "6.1"; text_ "x86_64"; text_ "boot"; answered (VList [VInt 0]); blank; blank; blank]
  ++ [blank; text_ (json_text (obj [("gomaxprocs", VInt 4)])); number_ 0; number_ 1; blank; blank; number_ 200; text_ ("ZHTPS" +:+ nl);
      answered (VList []); text_ "elf"; answered (VList [VInt 0])]
  ++ [text_ "agent"; blank; blank] ++ concat (repeat [number_ 0; number_ 0; blank; blank; number_ 0] 5)
  ++ [text_ sample_body; text_ "answer"; blank; blank]
  ++ concat (map (fun now => round now []) [1; 2; 3; 4; 5])
  ++ round 6 [obj [("kind", VStr "result"); ("client", trial_load)]]
  ++ [blank; blank; text_ "answer"; blank; blank; blank; ended 1 0; blank; blank; blank; ended 0 (-15)].
Definition trial_host : host := Host [] (fun n => nth n trial_turns blank) 0 trial_events [].

(** ** Properties *)


