(* ===== verification/AuditKernelWork.v ===== *)
(** * [bench/audit_kernel_work.py]: the audit of the kernel-work evidence

    Every retained block of trials must have no client error, no server health counter and complete
    request accounting; the runtime sources must match the baseline and the snapshots their manifests. *)

From stdpp Require Import base list strings.
From Stdlib Require Import ZArith Lia Ascii.
From S2P Require Import Prelude PyFloat PyText PyVal PyJson PyScript PyStats PyHash Evidence.

Local Open Scope Z_scope.
Open Scope py_scope.

Definition HEALTH : list string :=
  ["requests_rejected_total"; "requests_aborted_total"; "protocol_errors_total"; "request_timeouts_total";
   "io_errors_total"].

Section Audit.
(** The tree, and the repository root the script lies in. *)
Context (t : tree) (ROOT : parts).

Definition OUT : parts := under ROOT "docs/kernel-work".

Definition file_of (folder : parts) (l : list piece) : res parts := rmap (under folder) (fstring l).

(** [all(d[k] == 0 for k in HEALTH)] *)
Definition healthy (d : expr) : res bool := allR (fun k => idx d k ==' int 0) HEALTH.

(** ** Closed-loop blocks *)

Definition check_closed (block : string) (st : val * val) (brief : val) : res (val * val) :=
  path <- file_of (under OUT block)
            [V ($brief.["case"]); F "-"; V ($brief.["variant"]); F "-"; V ($brief.["repeat"]); F ".json"] ;;
  row <- read t path ;;
  load <- $row.["load"] ;;
  d <- $row.["counter_deltas"] ;;
  assertR (($load.["errors"] ==' $load.["setup_errors"]) &&' ($load.["setup_errors"] ==' $load.["warmup_errors"])
           &&' ($load.["warmup_errors"] ==' int 0)) "" ;;;
  assertR (notR (test ($load.["failures"])) &&' notR (test ($load.["window_failures"]))) "" ;;;
  assertR ($load.["attempts"] ==' $load.["successes"]) "" ;;;
  assertR (($load.["connections_opened"] ==' $load.["connections_measured"])
           &&' ($load.["connections_measured"] ==' $load.["connections_ready"])) "" ;;;
  assertR (healthy ($d)) "" ;;;
  events <- valuesR ($row.["perf"]) ;;
  assertR (allR (fun v => ($v.["running_percent"] ==' int 100) &&' notR (noneR ($v.["count"]))) events) "" ;;;
  count <- $(st.1) +' int 1 ;;
  success <- $(st.2) +' $load.["window_successes"] ;;
  Ok (count, success).

Definition closed_block (block : string) : expr :=
  summary <- read t (under (under OUT block) "summary.json") ;;
  runs <- iterR ($summary.["runs"]) ;;
  let* (count, success) := foldR (check_closed block) (VInt 0, VInt 0) runs in
  mkdict [("trials", $count); ("validated_window_responses", $success); ("errors", int 0);
          ("all_pmu_events_running_percent", int 100)].

(** ** The echo block *)

Definition check_echo_phase (phase : val) : res unit :=
  assertR (notR (test ($phase.["failures"])) &&' ($phase.["successes"] ==' $phase.["sent"])) "" ;;;
  assertR ($phase.["response_bytes_validated"] ==' $phase.["successes"] *' int 65536) "".

Definition check_echo (success brief : val) : expr :=
  path <- file_of (under OUT "echo-offered-counters")
            [F "echo-"; V ($brief.["variant"]); F "-"; V ($brief.["repeat"]); F ".json"] ;;
  row <- read t path ;;
  load <- $row.["load"] ;;
  assertR (($load.["workload"].["request_body_bytes"] ==' $load.["workload"].["expected_body_bytes"])
           &&' ($load.["workload"].["expected_body_bytes"] ==' int 65536)) "" ;;;
  assertR (healthy ($row.["counter_deltas"])) "" ;;;
  phases <- iterR ($load.["phases"]) ;;
  eachR check_echo_phase phases ;;;
  $success +' idx (idx_at ($load.["phases"]) (-1)) "window_successes".

Definition echo_block : expr :=
  summary <- read t (under OUT "echo-offered-counters/summary.json") ;;
  runs <- iterR ($summary.["runs"]) ;;
  success <- foldR check_echo (VInt 0) runs ;;
  mkdict [("trials", lenR ($summary.["runs"])); ("validated_window_responses", $success);
          ("transport_or_http_failures", int 0)].

(** ** The pipeline and physical blocks *)

Definition tagged (block : string) (trial : val) : expr :=
  path <- file_of (under OUT block) [V ($trial.["tag"]); F ".json"] ;; read t path.

Definition check_pipeline (block : string) (success trial : val) : expr :=
  assertR ($trial.["returncode"] ==' int 0) "" ;;;
  row <- tagged block trial ;;
  assertR (($row.["server_exit"] ==' int 0) &&' notR (test ($row.["workload"].["failures"]))) "" ;;;
  assertR (healthy ($row.["counter_deltas"])) "" ;;;
  $success +' $row.["workload"].["validated_responses"].

Definition pipeline_block (block : string) : expr :=
  trials <- read t (under (under OUT block) "trials.json") ;;
  l <- py_iter trials ;;
  success <- foldR (check_pipeline block) (VInt 0) l ;;
  mkdict [("trials", lenR ($trials)); ("validated_responses", $success); ("errors", int 0)].

Definition check_offered_phase (st : val * val) (phase : val) : res (val * val) :=
  assertR (notR (test ($phase.["failures"])) &&' ($phase.["sent"] ==' $phase.["successes"])) "" ;;;
  assertR ($phase.["successes"] >=' $phase.["offered"] *' lit 999 3) "" ;;;
  success <- $(st.1) +' $phase.["window_successes"] ;;
  unsent <- $(st.2) +' ($phase.["generator_expired"] +' $phase.["generator_queue_drops"]) ;;
  Ok (success, unsent).

Definition check_offered (st : val * val) (trial : val) : res (val * val) :=
  assertR ($trial.["returncode"] ==' int 0) "" ;;;
  row <- tagged "physical-offered-gradual" trial ;;
  assertR (($row.["status"] ==' str "complete") &&' ($row.["server_exit"] ==' int 0)) "" ;;;
  assertR (test ($row.["remote_client"].["separate_kernel"])) "" ;;;
  assertR (allR (fun k => $row.["metrics_after"].["counters"].[k] -' $row.["metrics_before"].["counters"].[k]
                          ==' int 0) HEALTH) "" ;;;
  phases <- iterR ($row.["client"].["phases"]) ;;
  assertR (sumR (fun p => $p.["connections_opened"]) phases ==' int 4096) "" ;;;
  assertR (sumR (fun p => $p.["dial_attempts"]) phases ==' int 4096) "" ;;;
  foldR check_offered_phase st phases.

Definition physical_block : expr :=
  trials <- read t (under OUT "physical-offered-gradual/trials.json") ;;
  l <- py_iter trials ;;
  let* (success, unsent) := foldR check_offered (VInt 0, VInt 0) l in
  mkdict [("trials", lenR ($trials)); ("validated_window_responses_including_warmup", $success);
          ("transport_or_http_failures", int 0); ("reconnections", int 0); ("unsent_offers", $unsent);
          ("minimum_phase_success_fraction", lit 999 3)].

(** ** Provenance *)

Definition is_zig (q : parts) : bool := endswith ".zig" (hd "" q).

(** [{str(p.relative_to(ROOT)): digest(p) for p in sorted((ROOT/'src').rglob('*.zig'))}] *)
Definition current_sources : res dict :=
  dict_by (fun p => rmap (fun q => VStr (str_path q)) (relative_to p ROOT)) (fun p => rmap VStr (digest t p))
    (sorted_paths (glob t (under ROOT "src") is_zig)).

Definition check_snapshot (name : string) : res unit :=
  let tree := under (under OUT "snapshots") name in
  manifest <- read t (under tree "manifest.json") ;;
  l <- itemsR ($manifest) ;;
  assertR (allR (fun kv => p <- as_str kv.1 ;; rmap VStr (digest t (under tree p)) ==' $(kv.2)) l) "".

Definition preserved : list string :=
  ["bundle-tests-safe.txt: initial queued-fragment failure, corrected and revalidated";
   "physical-many.txt: saturation client failure; old collector lost its JSON details";
   "physical-offered/same_l3-3.json: collector exit-sampling race, fixed with regression coverage";
   "physical-saturation-followup/same_l3-2.failed.json: two read timeouts and two reconnections";
   "echo-counters.txt: refused unsupported closed-loop echo case before running a trial"].

Definition profile_scope : string :=
  "per-task PMU includes kernel/softirq execution while the task is current; /proc process CPU excludes separately accounted softirq time".

Definition audit : res (list output) :=
  closed <- dict_by (fun b => str b) closed_block
              ["baseline-counters"; "multishot-counters"; "receive-counters-v2"; "send-counters"; "large-pool-counters"] ;;
  echo <- echo_block ;;
  pipeline <- dict_by (fun b => str b) pipeline_block ["pipeline"; "pipeline-packets"] ;;
  physical <- physical_block ;;
  original <- (v <- read t (under OUT "baseline-source.json") ;; $v.["sources"]) ;;
  current <- current_sources ;;
  require (py_eqb original (VDict current)) "runtime source changed from the baseline" ;;;
  eachR check_snapshot ["baseline"; "multishot"; "bundle"; "batch"; "vector"; "multishot-large-pool"] ;;;
  result <- mkdict
    [("closed_loop", $(VDict closed)); ("echo", $echo); ("pipeline", $(VDict pipeline));
     ("physical_gradual", $physical); ("failures_preserved", $(VList (map VStr preserved)));
     ("profile_scope", str profile_scope); ("runtime_matches_baseline", $(VBool true));
     ("source_manifests_verified", $(VBool true))] ;;
  text <- json_dumps2 result ;;
  Ok [Written (str_path (under OUT "audit.json")) (text +:+ nl); Printed (text +:+ nl)].
End Audit.
