(* ===== verification/KernelReport.v ===== *)
(** * The kernel comparison and its audit

    [CompareKernel] keeps a row per trial; [AuditKernelWork] reads the retained rows again.  Here: a row the driver returns
    passes the checks of the audit on it, when its events were counted all the time. *)

From stdpp Require Import base list strings.
From Stdlib Require Import ZArith Lia Ascii.
From S2P Require Import Prelude PyFloat PyText PyVal PyJson PyScript PyStats PyHash Evidence PyIO System ProcSample RemoteLoad Compare Overload PerfTrial CompareFootprint CompareKernel AuditKernelWork.

Local Open Scope Z_scope.
Open Scope py_scope.

(** ** What a returned row is made of *)

(** The events of a row are those asked for, each counted nearly all the time. *)
Record counted (events : list string) (counts : dict) : Prop := {
  ct_events : set_eqb (map fst counts) (map VStr events) = true;
  ct_reliable : Forall (fun v => unreliable v = Ok false) (map snd counts) }.

Lemma perf_counts_counted events w counts w' : PerfTrial.perf_counts events w = (Ok counts, w') -> counted events counts.
Proof.
  unfold PerfTrial.perf_counts. intros (text & w1 & _ & H)%bind_ok. apply bind_ok in H as (c & w2 & _ & H).
  apply bind_ok in H as ([] & w3 & Hc & H). apply bind_ok in H as (bad & w4 & [Hb ->]%lift_ok & H).
  apply bind_ok in H as ([] & w5 & Hx & H). injection H as <- _. split.
  - destruct (set_eqb _ _) eqn:E; [done|]. by apply bind_ok in Hc as (? & ? & _ & Hc).
  - destruct bad; [done|]. by apply anyR_false.
Qed.

(** Only the server's own output is written by a step that follows. *)
Record row_made (H : harness) (b : bench) (prefix : string) (e : evidence) (row : val) (w : host) : Prop := {
  rm_row : row_of H e = Ok row;
  rm_load : exists w1 w2, PerfTrial.check_load H b (e_load e) w1 = (Ok tt, w2);
  rm_health : Forall (fun k => ($(VDict (e_deltas e)).[k] ==' int 0) = Ok true) PerfTrial.HEALTH;
  rm_deltas : counter_deltas (e_metrics_before e) (e_metrics_after e) = Ok (e_deltas e);
  rm_counts : counted (PerfTrial.EVENTS H) (e_counts e);
  rm_written : exists path text, with_suffix ".json" prefix = Ok path /\ json_dumps2 row = Ok text /\ Wrote path (text +:+ nl) ∈ trace w }.

Lemma check_counter_ok deltas k u : check_counter deltas k = Ok u -> ($(VDict deltas).[k] ==' int 0) = Ok true.
Proof.
  unfold check_counter. intros (ok & -> & H)%rbind_ok. destruct ok; [done|]. by apply rbind_ok in H as (? & _ & H).
Qed.

Lemma measured_row H fuel o b prefix command port server w row w' :
  measure H fuel o b prefix command port server w = (Ok row, w') -> exists e, row_made H b prefix e row w'.
Proof.
  unfold measure. intros E. do 8 (apply bind_ok in E as (? & ? & _ & E)). cbv zeta in E.
  do 2 (apply bind_ok in E as (? & ? & _ & E)). apply bind_ok in E as ([result elapsed] & ? & _ & E).
  do 5 (apply bind_ok in E as (? & ? & _ & E)).
  apply bind_ok in E as ([] & wl & Hl & E). do 2 (apply bind_ok in E as (? & ? & _ & E)).
  apply bind_ok in E as (deltas & ? & [Hd ->]%lift_ok & E). apply bind_ok in E as ([] & ? & [Hh ->]%lift_ok & E).
  apply bind_ok in E as (completed & ? & _ & E). apply bind_ok in E as (counts & ? & Hc%perf_counts_counted & E).
  apply bind_ok in E as (r & ? & [Hr ->]%lift_ok & E). apply bind_ok in E as (path & ? & [Hp ->]%lift_ok & E).
  apply bind_ok in E as (text & ? & [Ht ->]%lift_ok & E). apply bind_ok in E as ([] & ? & Hw & E). injection E as <- <-.
  eexists (Evidence _ _ _ _ _ _ _ _ _ _ _ deltas _ _ counts _). split; [exact Hr|by eexists _, _| |exact Hd|exact Hc|].
  - apply eachR_ok in Hh. eapply Forall_impl; [exact Hh|]. intros k. apply check_counter_ok.
  - exists path, text. split_and!; [done|done|]. apply fallible_said in Hw. rewrite Hw. apply elem_of_app. right. by left.
Qed.

Lemma adds_check_exit P prefix server : adds P (check_exit prefix server).
Proof.
  unfold check_exit. apply adds_bind; [auto with zhtps|]. intros _. apply adds_bind; [auto with zhtps|]. intros code.
  apply adds_bind; [auto with zhtps|]. intros d. case_match; [|auto with zhtps]. apply adds_bind; auto with zhtps.
Qed.

Lemma check_exit_zero prefix server w w' :
  (server < length (procs w))%nat -> check_exit prefix server w = (Ok tt, w') -> procs w' !! server = Some (Exited 0).
Proof.
  intros Hs H. unfold check_exit in H. apply bind_ok in H as ([] & w1 & E1 & H). apply stop_spec in E1 as [_ [c Hc]]; [|done].
  apply bind_ok in H as (code & w2 & E2 & H). unfold returncode in E2. injection E2 as <- <-. rewrite Hc in H.
  apply bind_ok in H as (differs & w3 & [E3 ->]%lift_ok & H). destruct differs.
  - by apply bind_ok in H as (? & ? & _ & H).
  - injection H as <-. apply notR_ok, eqR_int in E3. symmetry in E3. by apply Z.eqb_eq in E3 as ->.
Qed.

(** A returned row comes from a server that was stopped and exited with 0. *)
Lemma trial_row H fuel o b prefix binary w row w' :
  (forall b load, settled (PerfTrial.check_load H b load)) ->
  PerfTrial.trial H fuel o b prefix binary w = (Ok row, w') ->
  (exists e, row_made H b prefix e row w') /\ exists server, procs w' !! server = Some (Exited 0).
Proof.
  intros Hs. unfold PerfTrial.trial. cbv zeta. intros E. do 4 (apply bind_ok in E as (? & ? & _ & E)).
  apply bind_ok in E as (server & w1 & Ep & E). unfold finally in E.
  destruct (measure _ _ _ _ _ _ _ _ _) as [r1 w2] eqn:Em in E. destruct (check_exit prefix server w2) as [[[]|e] w3] eqn:Ec; [|done].
  injection E as -> <-. pose proof (tidy_perf_measure H Hs _ _ _ _ _ _ _ _ _ _ Em) as [(_ & Hlen & _) _].
  destruct (popen_ok _ _ _ _ Ep) as (-> & Hl & _). split.
  - apply measured_row in Em as (ev & M). exists ev. destruct M as [? ? ? ? ? (path & text & Hp & Ht & Hw)]. split; try done.
    exists path, text. split_and!; [done|done|]. apply (adds_check_exit (fun _ => True)) in Ec as (l & -> & _).
    apply elem_of_app. by left.
  - eexists. eapply check_exit_zero; [|exact Ec]. lia.
Qed.

(** ** The audit of a row *)

Definition connection_counts : list string := ["connections_ready"; "connections_measured"; "connections_opened"].

(** What a row needs besides what the driver has checked: the counts of the load client are integers, and every event was
    counted all the time (the driver accepts 95 percent). *)
Record auditable (row : val) : Prop := {
  au_counts : Forall (fun k => exists n, $row.["load"].[k] = int n) connection_counts;
  au_percent : forall events v, valuesR ($row.["perf"]) = Ok events -> v ∈ events -> ($v.["running_percent"] ==' int 100) = Ok true }.

(** The checks on a row and its part of the totals. *)
Definition audited (row : val) (st : val * val) : res (val * val) :=
  count <- $(st.1) +' int 1 ;; success <- $(st.2) +' $row.["load"].["window_successes"] ;; Ok (count, success).

Lemma settled_kernel_load b load : settled (PerfTrial.check_load kernel b load).
Proof. cbn. auto with zhtps. Qed.

Lemma row_field H e row k v :
  row_of H e = Ok row -> assoc k (row_fields H e) = Some v -> exists w, v = Ok w /\ $row.[k] = Ok w.
Proof. intros Hr Hk. eapply mkdict_get; [exact Hr|exact Hk]. Qed.

Lemma kernel_row_checked t ROOT block st brief path b prefix e row w :
  row_made kernel b prefix e row w -> auditable row ->
  file_of (under (OUT ROOT) block) [V ($brief.["case"]); F "-"; V ($brief.["variant"]); F "-"; V ($brief.["repeat"]); F ".json"] = Ok path ->
  read t path = Ok row -> check_closed t ROOT block st brief = audited row st.
Proof.
  intros [Hr (w1 & w2 & [Hl _]%lift_ok) Hh Hd Hc _] [Hn Hp] Hpath Hrd. unfold check_closed. rewrite Hpath. cbn [rbind]. rewrite Hrd.
  cbn [rbind]. pose proof (fun k v => row_field _ _ _ k v Hr) as G.
  destruct (G "load" _ eq_refl) as (? & [= <-] & Gl). destruct (G "counter_deltas" _ eq_refl) as (? & [= <-] & Gd).
  destruct (G "perf" _ eq_refl) as (? & [= <-] & Gp). unfold audited. rewrite Gl, Gd, Gp in *. cbn [rbind].
  unfold CompareFootprint.check_load in Hl. apply rbind_ok in Hl as ([] & H1%assertR_ok & Hl).
  apply rbind_ok in Hl as ([] & H2%assertR_ok & Hl). apply rbind_ok in Hl as ([] & [H3 _]%assertR_ok%andR_true & Hl).
  apply andR_true in H1 as [A1 H1]. apply andR_true in H1 as [A2 [A3 _]%andR_true].
  apply eachR_ok in Hl. assert (Hk : forall k, k ∈ connection_counts -> $(e_load e).[k] = int (connections b)).
  { intros k Hin. apply (proj1 (Forall_forall _ _) Hn) in Hin as Hi. destruct Hi as [n E]. rewrite E. do 2 f_equal.
    apply (proj1 (Forall_forall _ _) Hl) in Hin as Hin'. unfold check_connections in Hin'. apply rbind_ok in Hin' as (ok & Eq & Hok).
    rewrite E in Eq. destruct ok; [|by apply rbind_ok in Hok as (? & _ & Hok)]. apply eqR_int in Eq. lia. }
  rewrite (Hk "connections_opened"), (Hk "connections_measured"), (Hk "connections_ready") by computed.
  rewrite assertR_then by (rewrite A1, A2, A3; done). rewrite assertR_then by exact H2. rewrite assertR_then by exact H3.
  rewrite assertR_then; [|apply andR_true; split; apply eqR_int_refl].
  rewrite assertR_then; [|apply allR_ok; by apply (Forall_app _ HEALTH ["log_dropped_total"]) in Hh as [? _]].
  destruct Hc as [_ Hu]. change (valuesR ($(VDict (e_counts e)))) with (Ok (map snd (e_counts e))) in Hp |- *.
  cbn [rbind]. rewrite assertR_then; [done|]. apply allR_ok, Forall_forall. intros v Hv. rewrite (Hp _ v eq_refl Hv).
  apply (proj1 (Forall_forall _ _) Hu) in Hv. apply orR_false in Hv as [Hv _]. unfold notR. by rewrite Hv.
Qed.

(** *** A row that passes *)

Definition json_text (v : val) : string := match json_dumps v with Ok s => s | Err _ => "" end.
Definition sample_case : bench := Bench 1 256 [2] [4].
Definition sample_options : Options := mkOptions ["a"] "/w" "/records" "out" ["small"] 1 (VInt 1) (VInt 1).
Definition sample_load : val :=
  obj [("errors", VInt 0); ("setup_errors", VInt 0); ("warmup_errors", VInt 0); ("failures", VNone); ("window_failures", VNone);
       ("attempts", VInt 10); ("successes", VInt 10); ("window_successes", VInt 9);
       ("connections_ready", VInt 1); ("connections_measured", VInt 1); ("connections_opened", VInt 1)].
Definition sample_metrics (completed : Z) : string :=
  json_text (obj [("counters", obj (map (fun k => (k, VInt 0)) PerfTrial.HEALTH ++ [("requests_completed_total", VInt completed)]))]).
Definition sample_perf : string := join nl (map (fun e => "1000;;" +:+ e +:+ ";5;100.00") CompareKernel.EVENTS).
Definition admin_turns (text : string) : list turn := [blank; number_ 200; text_ text].
Definition sample_turns_ : list turn :=
  [text_ (join " " (stat_text :: repeat "0" 20)); text_ ("VmRSS: 1 kB" +:+ nl); number_ 100; number_ 2; text_ ""; text_ ""; text_ ""; text_ "";
   number_ 1; text_ "cpu0 1 2"; answered (VList [VStr "7"]); text_ ("voluntary_ctxt_switches: 3" +:+ nl)].
Definition workers_text : string := json_text (obj [("workers", VList [obj [("thread", VInt 5)]])]).
Definition trial_turns : list turn :=
  [number_ 9000; number_ 9001; blank; blank; number_ 0; number_ 1; blank; blank; number_ 200; text_ ("ZHTPS" +:+ nl); answered (VList [])]
  ++ admin_turns workers_text ++ [blank; answered (VList [VInt 2])] ++ admin_turns (sample_metrics 0) ++ sample_turns_
  ++ [number_ 12; number_ 5; blank; text_ (json_text sample_load); text_ ""; ended 1 0; number_ 7] ++ sample_turns_
  ++ [blank] ++ admin_turns (sample_metrics 10) ++ admin_turns workers_text ++ [text_ sample_perf; blank; blank; blank; ended 0 0].
Definition trial_host : host := Host [] (fun n => nth n trial_turns blank) 0 [] [].
Definition sample_row : val :=
  match (CompareKernel.trial 9 sample_options sample_case "out/small-a-1" "/w/a/out/bin/zhtps" trial_host).1 with Ok row => row | Err _ => VNone end.
Definition sample_tree : tree :=
  Tree [(path_of "/r/docs/kernel-work/send-counters/small-a-1.json", json_text sample_row)] (path_of "/r").
Definition sample_brief : val := obj [("case", VStr "small"); ("variant", VStr "a"); ("repeat", VInt 1)].

Lemma sample_row_auditable : auditable sample_row.
Proof.
  split; [by repeat (constructor; [eexists; vm_compute; reflexivity|])|].
  intros events v E Hv. vm_compute in E. injection E as <-.
  repeat (apply elem_of_cons in Hv as [->|Hv]; [vm_compute; reflexivity|]). by apply not_elem_of_nil in Hv.
Qed.

(** A dot in the name of a variant is taken for a suffix: the repeats of such a variant share their files, and the rows of
    all but the last are lost. *)
Example dotted_variants_share_files :
  map (fun r => with_suffix ".json" ("out/" +:+ trial_name "small" "v1.2" r)) [1; 2] = [Ok "out/small-v1.json"; Ok "out/small-v1.json"].
Proof. vm_compute. reflexivity. Qed.

(** ** Properties *)


