(* ===== verification/AuditGoPerformance.v ===== *)
(** * [bench/audit_go_performance.py]: the audit of repeated Go comparisons

    The audit collects build receipts, checks every measured GET and upload run against its own
    accounting, its binaries and its queues, compares the runs found with the plans, and writes the
    aggregates.  It stops at the first check that fails. *)

From stdpp Require Import base list strings.
From Stdlib Require Import ZArith Lia Ascii.
From S2P Require Import Prelude PyFloat PyText PyVal PyJson PyScript PyStats PyHash Evidence ProcSample SummarizeArchitecture AuditHttp2Lan SummarizeHttp2Lan.

Local Open Scope Z_scope.
Open Scope py_scope.

Section Audit.
(** The tree, the repository root, and the resolved folder. *)
Context (t : tree) (ROOT folder : parts).

Definition pathR (e : expr) : res parts := s <- (v <- e ;; as_str v) ;; Ok (path_of s).
Definition digestR (p : parts) : expr := rmap VStr (digest t p).

(** ** Receipts *)

Definition add_receipts (receipts : dict) (path : parts) : res dict :=
  receipt <- read t path ;;
  binaries <- (v <- getd ($receipt) "binaries" (VDict []) ;; py_items v) ;;
  foldR (fun receipts be =>
    binary <- as_str be.1 ;;
    relative <- relative_to path ROOT ;;
    Ok (sset (str_path (resolve t (under ROOT binary))) (VTuple [be.2; VStr (str_path relative)]) receipts))
    receipts binaries.

Definition go_build : parts := under ROOT "docs/go-after-nginx/build.json".

Definition receipts_of : res dict :=
  receipts <- foldR add_receipts [] (glob t (under ROOT "docs/nginx-implementation") (is_child "build.json")) ;;
  builds <- (v <- read t go_build ;; iterR ($v.["builds"])) ;;
  foldR (fun receipts row =>
    k <- $row.["binary"] ;; k <- key (Ok k) ;;
    sha <- $row.["binary_sha256"] ;;
    Ok (dset k (VTuple [sha; VStr "docs/go-after-nginx/build.json"]) receipts)) receipts builds.

(** [clients]: the legacy client and every rebuilt one with matching settings. *)
Definition add_client (clients : dict) (client_build : parts) : res dict :=
  receipt <- read t client_build ;;
  ifR (notR (test (getd ($receipt) "build_settings_match_original" (VBool false)))) (Ok clients)
    (assertR (chain_eq ($receipt.["build_exit"]) [$receipt.["test_exit"]; int 0]) "" ;;;
     assertR (digestR (under (parent client_build) "source.tar.gz") ==' $receipt.["source_archive_sha256"]) "" ;;;
     k <- $receipt.["binary"] ;; k <- key (Ok k) ;;
     sha <- $receipt.["binary_sha256"] ;;
     sources <- $receipt.["sources"] ;;
     Ok (dset k (VTuple [sha; sources]) clients)).

Definition clients_of (legacy : val) : res dict :=
  k <- $legacy.["path"] ;; k <- key (Ok k) ;;
  sha <- $legacy.["sha256"] ;;
  foldR add_client [(k, VTuple [sha; VDict []])]
    (glob t (under ROOT "docs/go-performance-followup") (is_child "client-build.json")).

(** [harness_sources[source].add(checksum)] *)
Definition add_checksum (sources : dict) (source checksum : val) : dict :=
  let old := match dget source sources with Some (VList l) => l | _ => [] end in
  dset source (VList (add_member old checksum)) sources.

Definition is_harness (q : parts) : bool :=
  match q with [x; d] => String.eqb x "sources.json" && startswith "harness-" d | _ => false end.

Definition harness_sources_of : res dict :=
  foldR (fun sources harness =>
    l <- (v <- read t harness ;; py_items v) ;;
    foldR (fun sources sc =>
      source <- as_str sc.1 ;;
      assertR (digestR (under (parent harness) source) ==' $(sc.2)) "" ;;;
      Ok (add_checksum sources sc.1 sc.2)) sources l) [] (glob t folder is_harness).

(** ** GET runs *)

Record inputs := Inputs { i_receipts : dict; i_legacy : val; i_clients : dict; i_harness : dict }.

Record rows := Rows { r_uploads : list val; r_get : list val; r_checked : list val }.

Definition lookup (d : dict) (k : expr) : expr := k <- k ;; py_getitem (VDict d) k.

(** Server and client binaries, placement and exit of a GET run; the list of client CPUs. *)
Definition check_get_binaries (inp : inputs) (run : val) : res (list Z * val) :=
  assertR (one_of ($run.["variant"]) ["go"; "zig"; "before"]) "" ;;;
  command <- $run.["command"] ;;
  binary <- ifR (idx_at ($command) 0 ==' str "taskset") (idx_at ($command) 3) (idx_at ($command) 0) ;;
  receipt <- lookup (i_receipts inp) ($binary) ;;
  binary_path <- pathR ($binary) ;;
  assertR (chain_eq (digestR binary_path)
             [idx_at ($receipt) 0; $run.["binary_sha256"]; $run.["running_binary_sha256"]]) "" ;;;
  assertR ($run.["remote_identity"].["boot_id"] !=' $run.["server_identity"].["boot_id"]) "" ;;;
  spec <- (v <- getd ($run.["options"]) "client_cpus" (VStr "0-7") ;; as_str v) ;;
  cpus <- cpu_list spec ;;
  expected <- py_sorted (map VInt cpus) ;;
  assertR ($run.["remote_started"].["cpus"] ==' $(VList expected)) "" ;;;
  default_client <- $(i_legacy inp).["path"] ;;
  local <- pathR (getd ($run.["options"]) "local_client_binary" default_client) ;;
  let local_client := resolve t local in
  client <- lookup (i_clients inp) (str (str_path local_client)) ;;
  assertR (chain_eq ($run.["remote_started"].["binary_sha256"]) [digestR local_client; idx_at ($client) 0]) "" ;;;
  go <- $run.["variant"] ==' str "go" ;;
  assertR ($run.["server_exit"] ==' int (if go : bool then -15 else 0)) "" ;;;
  (if go : bool then assertR ($run.["go_runtime"].["gomaxprocs"] ==' int 32) "" else Ok tt) ;;;
  Ok (cpus, client).

(** The sources of a GET run: those of its Zig receipt, of its client, of an archived harness, or the
    present ones. *)
Definition check_source (inp : inputs) (zig_receipt client_sources : val) (sc : val * val) : res unit :=
  source <- as_str sc.1 ;;
  if startswith "src/" source then assertR (at_ ($zig_receipt.["sources"]) ($(sc.1)) ==' $(sc.2)) source
  else
    assertR (($(sc.2) ==' (v <- $zig_receipt.["sources"] ;; vget v sc.1))
             ||' ($(sc.2) ==' vget client_sources sc.1)
             ||' (match dget sc.1 (i_harness inp) with Some l => py_in sc.2 l | None => Ok false end)
             ||' (digestR (under ROOT source) ==' $(sc.2))) source.

Definition check_get_sources (inp : inputs) (path : parts) (run client : val) : res unit :=
  let group := parent (parent path) in
  manifest <- read t (under group "manifest.json") ;;
  assertR (v <- $manifest.["runs"] ;; py_in (VStr (str_path path)) v) "" ;;;
  zig <- pathR ($run.["options"].["zig_binary"]) ;;
  receipt <- lookup (i_receipts inp) (str (str_path (resolve t zig))) ;;
  zig_receipt <- (s <- (v <- idx_at ($receipt) 1 ;; as_str v) ;; read t (under ROOT s)) ;;
  client_sources <- idx_at ($client) 1 ;;
  sources <- itemsR ($manifest.["sources"]) ;;
  eachR (check_source inp zig_receipt client_sources) sources.

(** [[sample for sample in run['samples'] if start + a <= sample['unix_ns'] < end - b]] *)
Definition samples_between (run start end_ : val) (a b : Z) : res (list val) :=
  l <- iterR ($run.["samples"]) ;;
  filterR (fun s => ($start +' int a <=' $s.["unix_ns"]) &&' ($s.["unix_ns"] <' $end_ -' int b)) l.

(** The measured interval of a closed-loop run, when it was recorded. *)
Definition interval_row (run load row : val) : expr :=
  ifR (notR (has ($load) "measurement_start_unix_ns")) (Ok row)
    (assertR ($load.["measurement_end_unix_ns"] -' $load.["measurement_start_unix_ns"]
              ==' (v <- $load.["measurement_seconds"] *' lit 1000000000 0 ;; py_round v)) "" ;;;
     start <- $load.["measurement_start_unix_ns"] +' $run.["clock_offset_ns"] ;;
     end_ <- $load.["measurement_end_unix_ns"] +' $run.["clock_offset_ns"] ;;
     samples <- samples_between run start end_ 500000000 200000000 ;;
     require (3 <=? length samples)%nat "" ;;;
     first <- firstR samples ;;
     last <- lastR samples ;;
     seconds <- ($last.["unix_ns"] -' $first.["unix_ns"]) /' lit 1000000000 0 ;;
     assertR ($seconds >=' $load.["measurement_seconds"] *' lit 6 1) "" ;;;
     cpu_rate <- ($last.["server"].["cpu_seconds"] -' $first.["server"].["cpu_seconds"]) /' $seconds ;;
     row <- setR row "rss_mib" (medianR (fun s => $s.["server"].["VmRSS"]) samples /' int 1048576) ;;
     row <- setR row "cpu_us" ($cpu_rate *' lit 1000000 0 /' $load.["window_successes_per_second"]) ;;
     row <- setR row "cpu_interval_seconds" ($seconds) ;;
     row <- setR row "cpu_interval_start_unix_ns" ($first.["unix_ns"]) ;;
     setR row "cpu_interval_end_unix_ns" ($last.["unix_ns"])).

(** [sum((d['failures'] or {}).values())] *)
Definition failure_count (d : val) : expr := l <- valuesR (orE ($d.["failures"]) ($(VDict []))) ;; py_sum l.

Definition closed_row (group : parts) (relative : string) (run load derived : val) : expr :=
  count <- $run.["options"].["connections"] ;;
  assertR ($load.["attempts"] ==' $load.["successes"] +' $load.["errors"]) "" ;;;
  assertR (failure_count load ==' $load.["errors"]) "" ;;;
  assertR ($load.["window_successes_per_second"] ==' $load.["window_successes"] /' $load.["measurement_seconds"]) "" ;;;
  assertR ($load.["connections_ready"] +' $load.["setup_errors"] ==' $count) "" ;;;
  assertR (chain_eq ($load.["connections_measured"]) [$load.["connections_ready"]; $count]) "" ;;;
  row <- mkdict
    [("group", str (name group)); ("path", str relative); ("variant", $run.["variant"]); ("connections", $count);
     ("rate", int 0); ("goodput", $load.["window_successes_per_second"]);
     ("p50_ms", $load.["latency_us"].["p50"] /' int 1000); ("p99_ms", $load.["latency_us"].["p99"] /' int 1000);
     ("rss_end_mib", $derived.["rss_mib"]);
     ("process_cpu_seconds_including_setup_warmup_drain", $derived.["process_cpu_seconds"]);
     ("failures", $load.["errors"]); ("failure_types", $load.["failures"]);
     ("window_failures", $load.["window_failures"]); ("warmup_errors", $load.["warmup_errors"]);
     ("setup_errors", $load.["setup_errors"])] ;;
  row <- setR row "rss_peak_mib"
    ((ends <- mapR id [$run.["server_before"].["VmHWM"]; $run.["server_after"].["VmHWM"]] ;;
      peaks <- (l <- iterR ($run.["samples"]) ;; mapR (fun s => $s.["server"].["VmHWM"]) l) ;;
      py_max (ends ++ peaks)) /' int 1048576) ;;
  interval_row run load row.

(** One phase of an offered load: its accounting, and its row unless it is the warmup. *)
Definition get_phase_row (group : parts) (relative : string) (run : val) (several : bool)
    (index : nat) (phase result : val) : res (list val) :=
  failed <- $phase.["failure_latency"].["count"] +' $phase.["rejection_latency"].["count"] ;;
  assertR ($failed ==' failure_count phase) "" ;;;
  assertR ($phase.["offered"] ==' $phase.["successes"] +' $failed +' $phase.["generator_expired"]
                                  +' $phase.["generator_queue_drops"]) "" ;;;
  assertR ($phase.["response_bytes_validated"] ==' $phase.["successes"] *' int 6) "" ;;;
  if (index =? 0)%nat && several then Ok [] else
  start <- $phase.["start_unix_ns"] +' $run.["clock_offset_ns"] ;;
  end_ <- $phase.["end_unix_ns"] +' $run.["clock_offset_ns"] ;;
  samples <- samples_between run start end_ 500000000 200000000 ;;
  row <- mkdict
    [("group", str (name group)); ("path", str relative); ("variant", $run.["variant"]);
     ("connections", $run.["options"].["connections"]); ("rate", $phase.["offered_rate"]);
     ("goodput", $result.["goodput"]); ("p99_ms", $result.["service_p99_us"] /' int 1000);
     ("p50_ms", $phase.["success_service_latency"].["p50_us"] /' int 1000);
     ("cpu_us", $result.["cpu_us_per_success_estimate"]);
     ("rss_mib", medianR (fun s => $s.["server"].["VmRSS"] /' int 1048576) samples);
     ("failures", $failed); ("failure_types", $phase.["failures"]); ("generator_drops", $result.["generator_drops"])] ;;
  Ok [row].

Fixpoint get_phase_rows (group : parts) (relative : string) (run : val) (several : bool) (index : nat)
    (l : list (val * val)) : res (list val) :=
  match l with
  | [] => Ok []
  | (phase, result) :: l =>
      row <- get_phase_row group relative run several index phase result ;;
      rest <- get_phase_rows group relative run several (S index) l ;;
      Ok (row ++ rest)
  end.

(** A GET run: the rows it adds and the summary written beside it. *)
Definition get_run (inp : inputs) (path : parts) (relative : string) (run : val) : res (list val * output) :=
  let* (cpus, client) := check_get_binaries inp run in
  check_get_sources inp path run client ;;;
  load <- $run.["load"] ;;
  derived <- SummarizeArchitecture.summarize t path ;;
  text <- json_dumps2 derived ;;
  let written := Written (str_path (under (parent path) "summary.json")) (text +:+ nl) in
  let group := parent (parent path) in
  closed <- notR (has ($load) "phases") ;;
  if closed : bool then row <- closed_row group relative run load derived ;; Ok ([row], written) else
  assertR ($load.["gomaxprocs"] ==' int (Z.of_nat (length cpus))) "" ;;;
  phases <- iterR ($load.["phases"]) ;;
  results <- iterR ($derived.["phases"]) ;;
  pairs <- zip_strict phases results ;;
  rows <- get_phase_rows group relative run (1 <? length phases)%nat 0 pairs ;;
  Ok (rows, written).

(** ** Upload runs *)

(** [command[command.index(flag) + 1]] *)
Definition index_in (v : val) (l : list val) : res nat :=
  (fix go (i : nat) (l : list val) : res nat :=
     match l with
     | [] => raise ValueError "value is not in list"
     | x :: l => if py_eqb x v then Ok i else go (S i) l
     end) 0%nat l.
Definition argument_of (command : list val) (flag : string) : expr :=
  i <- index_in (VStr flag) command ;; of_option (command !! S i) IndexError "list index out of range".

Definition check_upload_binaries (inp : inputs) (group : parts) (run : val) : expr :=
  variants <- read t (under group "variants.json") ;;
  variant <- $run.["variant"] ;;
  binary <- at_ ($variants.["binaries"]) ($variant) ;;
  receipt <- lookup (i_receipts inp) ($binary) ;;
  binary_path <- pathR ($binary) ;;
  assertR (chain_eq (digestR binary_path) [idx_at ($receipt) 0; at_ ($variants.["sha256"]) ($variant)]) "" ;;;
  assertR (chain_eq ($run.["running_binary_sha256"]) [$run.["binary_sha256"]; idx_at ($receipt) 0]) "" ;;;
  assertR (digestR (under group "upload_client.py") ==' $variants.["client_source_sha256"]) "" ;;;
  command <- iterR ($run.["remote_started"].["command"]) ;;
  assertR (argument_of command "-c" ==' rmap VStr (read_text t (under group "upload_client.py"))) "" ;;;
  assertR ($run.["remote_identity"].["boot_id"] !=' $run.["server_identity"].["boot_id"]) "" ;;;
  assertR ($run.["remote_started"].["cpus"] ==' $(VList (map VInt (seqZ 0 8)))) "" ;;;
  go <- $run.["variant"] ==' str "go" ;;
  (if go : bool
   then assertR ($run.["go_runtime"].["gomaxprocs"] ==' int 32) "" ;;;
        assertR ($run.["server_exit"] ==' int (-15)) ""
   else assertR ($run.["server_exit"] ==' int 0) "") ;;;
  idx_at ($receipt) 1.

(** [dict(bytes=len(content), sha256=...)] *)
Definition file_record (content : string) : val :=
  obj [("bytes", VInt (Z.of_nat (String.length content))); ("sha256", VStr (sha256_hex content))].

(** The body sent, and the response expected for it: its length and CRC. *)
Definition check_bodies (group : parts) (run load size : val) : res unit :=
  body <- read_text t (under group ("body-" +:+ py_str size +:+ ".bin")) ;;
  let n := Z.of_nat (String.length body) in
  let response := string_of_Z n +:+ ":" +:+ hex8 (crc32 body) +:+ nl in
  assertR (chain_eq (int n) [$size; $load.["request_body_bytes"]]) "" ;;;
  assertR (str (sha256_hex body) ==' $load.["request_body_sha256"]) "" ;;;
  assertR (str (sha256_hex response) ==' $load.["expected_body_sha256"]) "" ;;;
  eachR (fun fc => assertR ($run.["remote_started"].["files"].[fc.1] ==' $(file_record fc.2)) "")
    [("-request-body", body); ("-expect-body", response)].

(** [latencies[min(len(latencies) - 1, int(.99 * len(latencies)))]] *)
Definition p99_of (latencies : list val) : expr :=
  let n := Z.of_nat (length latencies) in
  i <- (v <- lit 99 2 *' int n ;; py_int_of v) ;;
  i <- py_min [VInt (n - 1); i] ;;
  py_getitem (VList latencies) i.

(** Every latency of every worker is counted, and the published rates follow from them. *)
Definition check_accounting (run load size : val) : res (list val) :=
  assertR (notR (test ($load.["failures"]))) "" ;;;
  assertR (chain_eq (lenR ($load.["workers"])) [$load.["connections"]; $run.["connections"]]) "" ;;;
  workers <- iterR ($load.["workers"]) ;;
  all <- mapR (fun worker => iterR ($worker.["latencies_ns"])) workers ;;
  latencies <- py_sorted (concat all) ;;
  let n := int (Z.of_nat (length latencies)) in
  assertR ((n ==' $load.["window_successes"]) &&' ($load.["window_successes"] >' int 0)) "" ;;;
  assertR ($load.["validated_body_bytes"] ==' n *' $size) "" ;;;
  assertR ($load.["goodput_bytes_per_second"] ==' n *' $size /' $load.["duration_seconds"]) "" ;;;
  assertR (allR (fun w => ($w.["attempts"] ==' $w.["successes"]) &&' notR (test ($w.["failures"]))) workers) "" ;;;
  assertR ($load.["service_p99_ms"] ==' p99_of latencies /' lit 1000000 0) "" ;;;
  Ok latencies.

Definition check_worker (load worker : val) : res unit :=
  ifR (test (get ($load) "freeze_hash") ||' test (get ($load) "unique_queues"))
    (ifR (has ($worker) "tx_rehash") (assertR ($worker.["tx_rehash"] ==' int 0) "") (Ok tt)) (Ok tt) ;;;
  ifR (test (get ($load) "calibrate_body"))
    (assertR ($worker.["calibration_bytes"] ==' int 8388608) "") (Ok tt) ;;;
  ifR (has ($worker) "queue_bucket")
    (assertR ($worker.["queue_bucket"] ==' (idx_at ($worker.["queue_probes"]) (-1)).["bucket"]) "" ;;;
     weights <- (idx_at ($worker.["queue_probes"]) (-1)).["weights"] ;;
     assertR (at_ ($weights) ($worker.["queue_bucket"])
              >=' (l <- py_values weights ;; py_sum l) *' lit 9 1) "")
    (Ok tt).

Definition check_queues (load : val) : res unit :=
  workers <- iterR ($load.["workers"]) ;;
  ifR (test (get ($load) "unique_queues"))
    (s <- set_by (fun w => $w.["queue_bucket"]) workers ;;
     assertR (int (Z.of_nat (length s)) ==' $load.["connections"]) "") (Ok tt) ;;;
  eachR (check_worker load) workers.

(** The measured interval of an upload run against its summary, and its row. *)
Definition upload_row (group path : parts) (relative : string) (run load size receipt : val) (latencies : list val)
  : expr :=
  summary <- read t (under (parent path) "summary.json") ;;
  start <- $load.["measure_start_unix_ns"] +' $run.["clock_offset_ns"] ;;
  end_ <- $load.["measure_end_unix_ns"] +' $run.["clock_offset_ns"] ;;
  samples <- samples_between run start end_ 250000000 250000000 ;;
  first <- firstR samples ;;
  last <- lastR samples ;;
  seconds <- ($last.["unix_ns"] -' $first.["unix_ns"]) /' lit 1000000000 0 ;;
  cpu <- ($last.["server"].["cpu_seconds"] -' $first.["server"].["cpu_seconds"]) /' $seconds ;;
  goodput <- $load.["goodput_bytes_per_second"] /' int 1048576 ;;
  rss <- medianR (fun s => $s.["server"].["VmRSS"] /' int 1048576) samples ;;
  assertR ($summary.["cpu_cores"] ==' $cpu) "" ;;;
  assertR ($summary.["cpu_us_per_mib"] ==' $cpu /' $goodput *' lit 1000000 0) "" ;;;
  assertR ($summary.["rss_median_mib"] ==' $rss) "" ;;;
  client_delta <- (a <- (idx_at ($run.["remote_samples"]) 0).["host"] ;;
                   b <- (idx_at ($run.["remote_samples"]) (-1)).["host"] ;; host_delta a b) ;;
  let delta k := $last.["server"].[k] -' $first.["server"].[k] in
  mkdict
    [("group", str (name group)); ("path", str relative); ("variant", $run.["variant"]); ("body_bytes", $size);
     ("receipt", $receipt); ("connections", $load.["connections"]); ("rate", $load.["rate_cap"]);
     ("profiled", rmap VBool (has ($run) "profile_command"));
     ("unique_queues", getd ($load) "unique_queues" (VBool false));
     ("freeze_hash", getd ($load) "freeze_hash" (VBool false));
     ("calibrate_body", getd ($load) "calibrate_body" (VBool false));
     ("goodput_mib_per_second", $goodput); ("p50_ms", py_median latencies /' lit 1000000 0);
     ("p99_ms", $load.["service_p99_ms"]); ("rss_mib", $rss);
     ("cpu_us_per_mib", $cpu /' $goodput *' lit 1000000 0);
     ("client_retransmissions", $client_delta.["tcp"].["RetransSegs"]); ("successes", $load.["window_successes"]);
     ("minor_faults", delta "minor_faults");
     ("buffer_allocations",
        ifR (test (get ($first) "metrics"))
          ($last.["metrics"].["counters"].["buffer_allocations_total"]
           -' $first.["metrics"].["counters"].["buffer_allocations_total"]) (Ok VNone));
     ("user_cpu_us_per_mib", delta "user_seconds" /' $seconds /' $goodput *' lit 1000000 0);
     ("system_cpu_us_per_mib", delta "system_seconds" /' $seconds /' $goodput *' lit 1000000 0)].

Definition upload_run (inp : inputs) (path : parts) (relative : string) (run : val) : expr :=
  let group := parent (parent path) in
  receipt <- check_upload_binaries inp group run ;;
  load <- $run.["load"] ;;
  size <- $run.["body_bytes"] ;;
  check_bodies group run load size ;;;
  latencies <- check_accounting run load size ;;
  check_queues load ;;;
  upload_row group path relative run load size receipt latencies.

(** ** All runs *)

(** The body of the loop over the recorded runs.  [expected_failures] is empty, so an unmeasured run
    raises [KeyError] here. *)
Definition audit_run (inp : inputs) (st : rows * list output) (path : parts) : res (rows * list output) :=
  relative <- rmap str_path (relative_to path folder) ;;
  run <- read t path ;;
  ifR ($run.["outcome"] !=' str "measured") (raise KeyError (repr_str relative))
    (upload <- has ($run) "body_bytes" ;;
     if upload : bool then
       row <- upload_run inp path relative run ;;
       Ok (Rows (r_uploads st.1 ++ [row]) (r_get st.1) (r_checked st.1), st.2)
     else
       let* (get_rows, written) := get_run inp path relative run in
       Ok (Rows (r_uploads st.1) (r_get st.1 ++ get_rows) (r_checked st.1 ++ [VStr relative]), st.2 ++ [written])).

(** ** Plans *)

(** The arguments after a flag, up to the next flag. *)
Fixpoint until_flag (l : list val) : res (list val) :=
  match l with
  | [] => Ok []
  | a :: l => s <- as_str a ;; if startswith "--" s then Ok [] else r <- until_flag l ;; Ok (a :: r)
  end.
Definition values_of (command : list val) (flag : string) : res (list val) :=
  i <- index_in (VStr flag) command ;; until_flag (drop (S i) command).

Definition has_flag (command : list val) (flag : string) : bool := existsb (py_eqb (VStr flag)) command.

(** [len(set(l)) == len(l)] *)
Definition distinct (l : list val) : res bool :=
  s <- set_by (fun v => $v) l ;; Ok (length s =? length l)%nat.

Definition plan_variants (command : list val) (body_sizes : list Z) (label : string) : res (list val) :=
  if has_flag command "--variants" then
    variants <- values_of command "--variants" ;;
    assertR (d <- distinct variants ;; Ok (truthy (VList variants) && d)) label ;;;
    Ok variants
  else match body_sizes with
  | [] => Ok []
  | _ =>
      before <- (if has_flag command "--before"
                 then v <- (if has_flag command "--before-label" then argument_of command "--before-label"
                            else str "buffered") ;; Ok [v]
                 else Ok []) ;;
      let variants := VStr "streaming" :: before ++ (if has_flag command "--go-binary" then [VStr "go"] else []) in
      assertR (d <- distinct variants ;; Ok ((2 <=? length variants)%nat && d)) label ;;;
      Ok variants
  end.

(** [f'n{size}-{variant}-{repeat}'] for every size, variant and repeat *)
Definition planned_names (body_sizes : list Z) (variants : list val) (repeats : Z) : list val :=
  concat (map (fun size => concat (map (fun variant => map (fun repeat =>
    VStr ("n" +:+ string_of_Z size +:+ "-" +:+ py_str variant +:+ "-" +:+ string_of_Z repeat))
    (seqZ 1 repeats)) variants)) body_sizes).

(** [range(1, n + 1)] never has a negative length. *)
Definition check_sized_paths (paths : list parts) (body_sizes : list Z) (variants : list val) (repeats : Z)
    (label : string) : res unit :=
  require (set_eqb (map (fun p => VStr (name (parent p))) paths)
             (planned_names body_sizes variants repeats)) label ;;;
  eachR (fun path =>
    run <- read t path ;;
    let folder_name := name (parent path) in
    suffix <- of_option (rsplit_once "-" folder_name) IndexError "list index out of range" ;;
    repeat <- py_int suffix.2 ;;
    assertR (str folder_name ==' fstr [F "n"; V ($run.["body_bytes"]); F "-"; V ($run.["variant"]); F "-";
                                       V (int repeat)]) "" ;;;
    assertR (getd ($run) "repeat" (VInt repeat) ==' int repeat) "") paths.

Definition check_variant_paths (paths : list parts) (variants : list val) (repeats : Z) (label : string) : res unit :=
  actual <- foldR (fun c path =>
    run <- read t path ;; k <- tupleR [$run.["variant"]; $run.["repeat"]] ;; counter_add c k) [] paths ;;
  expected <- foldR counter_add []
    (concat (map (fun variant => map (fun repeat => VTuple [variant; VInt repeat]) (seqZ 1 repeats)) variants)) ;;
  require (counter_eqb actual expected) label.

(** One plan item: the relative paths of its runs, after checking that they are the planned ones. *)
Definition plan_item (item : val) : res (list val) :=
  command <- iterR ($item.["command"]) ;;
  repeats <- (v <- argument_of command "--repeats" ;; s <- as_str v ;; py_int s) ;;
  label <- (v <- $item.["label"] ;; as_str v) ;;
  let sized := has_flag command "--body-bytes" in
  body_sizes <- (if sized
                 then l <- values_of command "--body-bytes" ;; mapR (fun v => s <- as_str v ;; py_int s) l
                 else Ok []) ;;
  let sizes := if sized then Z.of_nat (length body_sizes) else 1 in
  let paths := glob t (under folder label) (is_child "run.json") in
  variants <- plan_variants command body_sizes label ;;
  let per := match variants with [] => 2 | _ => Z.of_nat (length variants) end in
  require (Z.of_nat (length paths) =? repeats * per * sizes) label ;;;
  (match body_sizes with
   | _ :: _ => check_sized_paths paths body_sizes variants repeats label
   | [] => match variants with [] => Ok tt | _ => check_variant_paths paths variants repeats label end
   end) ;;;
  mapR (fun p => rmap (fun q => VStr (str_path q)) (relative_to p folder)) paths.

Definition planned_of (plans : list parts) : res (list val) :=
  foldR (fun planned plan =>
    items <- (v <- read t plan ;; py_iter v) ;;
    foldR (fun planned item => paths <- plan_item item ;; Ok (foldl add_member planned paths)) planned items)
    [] plans.

(** ** Aggregates *)

Definition group_rows (names : list string) (rows : list val) : res (list (val * list val)) :=
  group_by (fun row => tupleR (map (fun k => $row.[k]) names)) rows.

Definition medians_of (fields : list string) (trials : list val) : expr :=
  dictcomp fields (fun k => medianR (fun t => $t.[k]) trials).
Definition trials_of (fields : list string) (trials : list val) : expr :=
  dictcomp fields (fun k => listR (fun t => $t.[k]) trials).

Definition upload_fields : list string := ["goodput_mib_per_second"; "p50_ms"; "p99_ms"; "rss_mib"; "cpu_us_per_mib"].

Definition upload_aggregate (kt : val * list val) : expr :=
  mkdict
    [("group", idx_at ($(kt.1)) 0); ("variant", idx_at ($(kt.1)) 1); ("body_bytes", idx_at ($(kt.1)) 2);
     ("repeats", int (Z.of_nat (length kt.2))); ("medians", medians_of upload_fields kt.2);
     ("trials", trials_of upload_fields kt.2)].

Definition get_fields : list string :=
  ["goodput"; "p50_ms"; "p99_ms"; "rss_mib"; "cpu_us"; "rss_end_mib"; "rss_peak_mib"].

Definition sum_or_zero (k : string) (trials : list val) : expr := sumR (fun t => getd ($t) k (VInt 0)) trials.

Definition get_aggregate (kt : val * list val) : expr :=
  let trials := kt.2 in
  first <- firstR trials ;;
  fields <- filterR (fun k => has ($first) k) get_fields ;;
  mkdict
    [("group", idx_at ($(kt.1)) 0); ("variant", idx_at ($(kt.1)) 1); ("rate", idx_at ($(kt.1)) 2);
     ("repeats", int (Z.of_nat (length trials))); ("medians", medians_of fields trials);
     ("trials", trials_of fields trials); ("failures", sumR (fun t => $t.["failures"]) trials);
     ("generator_drops", sum_or_zero "generator_drops" trials);
     ("setup_errors", sum_or_zero "setup_errors" trials);
     ("warmup_errors", sum_or_zero "warmup_errors" trials)].

(** ** The script *)

(** [if args.final_build:] the sources of the final build are the present ones. *)
Definition is_build_source (path : string) : bool :=
  startswith "src/" path || startswith "tests/" path
  || existsb (String.eqb path) ["build.zig"; "bench/upload.zig"; "bench/Crc32.zig"].

Definition check_final (final_build : parts) : res unit :=
  sources <- (v <- read t final_build ;; itemsR ($v.["sources"])) ;;
  eachR (fun pe =>
    path <- as_str pe.1 ;;
    if is_build_source path then assertR (digestR (under ROOT path) ==' $(pe.2)) path else Ok tt) sources.

Definition inputs_of : res inputs :=
  receipts <- receipts_of ;;
  legacy <- (v <- read t go_build ;; $v.["client"]) ;;
  clients <- clients_of legacy ;;
  harness <- harness_sources_of ;;
  Ok (Inputs receipts legacy clients harness).

Definition union (s u : list val) : list val := foldl add_member s u.

Definition json_file (name : string) (v : expr) : res output :=
  v <- v ;; text <- json_dumps2 v ;; Ok (Written (str_path (under folder name)) (text +:+ nl)).

Definition summary_lines (aggregate : list val) (columns : val -> list piece) : res string :=
  rmap (join "") (mapR (fun row => rmap (fun s => s +:+ nl) (fstring (columns row))) aggregate).

Definition main (final_build : option parts) (plans : list parts) : res (list output) :=
  inp <- inputs_of ;;
  let* (rows, written) := foldR (audit_run inp) (Rows [] [] [], []) (sorted_paths (glob t folder (is_grandchild "run.json"))) in
  aggregate <- (g <- group_rows ["group"; "variant"; "body_bytes"] (r_uploads rows) ;; mapR upload_aggregate g) ;;
  (match final_build with Some p => check_final p | None => Ok tt end) ;;;
  planned <- planned_of plans ;;
  audited <- mapR (fun r => $r.["path"]) (r_uploads rows) ;;
  require (set_eqb planned (union (union [] audited) (r_checked rows))) "" ;;;
  get_rows <- (g <- group_rows ["group"; "variant"; "rate"] (r_get rows) ;; mapR get_aggregate g) ;;
  files <- mapR id
    [json_file "get-aggregate.json" ($(VList get_rows)); json_file "get-trials.json" ($(VList (r_get rows)));
     json_file "trials.json" ($(VList (r_uploads rows))); json_file "aggregate.json" ($(VList aggregate));
     json_file "audit.json" (mkdict
       [("outcome", str "passed"); ("measured_runs", int (Z.of_nat (length (r_uploads rows))));
        ("get_control_runs", int (Z.of_nat (length (r_checked rows)))); ("failed_excluded", $(VList []));
        ("checked", $(VList (audited ++ r_checked rows)));
        ("final_build", $(match final_build with Some p => VStr (str_path p) | None => VNone end))])] ;;
  get_lines <- summary_lines get_rows (fun row =>
    [V ($row.["group"]); F " "; V ($row.["variant"]); F " "; V ($row.["rate"]); F " "; V ($row.["medians"]);
     F " failures "; V ($row.["failures"])]) ;;
  upload_lines <- summary_lines aggregate (fun row =>
    [V ($row.["group"]); F " "; V ($row.["variant"]); F " "; V ($row.["body_bytes"]); F " "; V ($row.["repeats"]);
     F " "; V ($row.["medians"])]) ;;
  Ok (written ++ files
      ++ [Printed ("Audited " +:+ string_of_Z (Z.of_nat (length (r_uploads rows))) +:+ " upload runs and "
                   +:+ string_of_Z (Z.of_nat (length (r_checked rows))) +:+ " GET runs." +:+ nl);
          Printed get_lines; Printed upload_lines]).
End Audit.
