(* ===== verification/AuditGoLan.v ===== *)
(** * [bench/audit_go_lan.py]: audit of two-host Go comparisons

    [audit] checks one report of [bench/compare.py]: its sources and binaries are the present ones, its runs
    are the whole matrix, its summary is recomputed ([Compare.summarize]) and every run accounts for its load.
    It then subtracts the network counters around each run. *)

From stdpp Require Import base list strings.
From Stdlib Require Import ZArith Lia Ascii.
From S2P Require Import Prelude PyFloat PyText PyVal PyJson PyScript PyStats PyHash Evidence Compare.

Local Open Scope Z_scope.
Open Scope py_scope.

(** ** TCP counters *)

(** The pairs of header and value lines, up to the first TCP header.  The lengths are compared only when
    the pairs run out. *)
Fixpoint tcp_lines (lines : list string) : res dict :=
  match lines with
  | names :: values :: rest =>
      if startswith "Tcp:" names then
        vs <- mapR py_int (tail (split_ws values)) ;;
        l <- zip_strict (tail (split_ws names)) vs ;;
        dict_by (fun nv => str nv.1) (fun nv => int nv.2) l
      else tcp_lines rest
  | [_] => raise ValueError "zip() argument 2 is shorter than argument 1"
  | [] => raise AssertionError "missing TCP counters"
  end.
Definition tcp_counters (snapshot : val) : expr :=
  text <- (v <- $snapshot.["snmp"] ;; as_str v) ;; rmap VDict (tcp_lines (splitlines text)).

(** ** Provenance *)

Section Audit.
Context (t : tree) (ROOT : parts).

Definition BUILD : parts := under ROOT "zig-out/bench".

Definition digest_is (p : parts) (expected : val) (name : string) : res unit :=
  assertR (rmap VStr (digest t p) ==' $expected) name.

Definition check_source (kv : val * val) : res unit :=
  name <- as_str kv.1 ;; digest_is (under ROOT name) kv.2 name.

Definition binaries : list (string * parts) :=
  [("zig_debug", under BUILD "debug/bin/zhtps"); ("zig_release_safe", under BUILD "release_safe/bin/zhtps");
   ("go", under BUILD "go_server"); ("load", under BUILD "load")].
Definition check_binary (kv : val * val) : res unit :=
  name <- as_str kv.1 ;;
  p <- of_option (assoc name binaries) KeyError (repr_str name) ;;
  digest_is p kv.2 name.

(** ** The matrix *)

(** [range(1, e + 1)] *)
Definition range_from_one (e : expr) : res (list val) :=
  v <- e +' int 1 ;;
  match v with VInt n => Ok (map VInt (seqZ 1 (n - 1))) | _ => type_error "object cannot be interpreted as an integer" end.

Definition product (connections variants repeats : list val) : list val :=
  concat (map (fun c => concat (map (fun v => map (fun r => VTuple [c; v; r]) repeats) variants)) connections).

Definition trial_key (row : val) : expr := tupleR [$row.["connections"]; $row.["variant"]; $row.["repeat"]].

Definition connections_of (report : val) : res (list val) :=
  rows <- iterR ($report.["summary"]) ;; l <- set_by (fun row => $row.["connections"]) rows ;; py_sorted l.
Definition variants_of (report : val) : res (list val) :=
  rows <- iterR ($report.["summary"]) ;; set_by (fun row => $row.["variant"]) rows.

Definition check_matrix (report : val) (connections variants : list val) : res unit :=
  repeats <- range_from_one ($report.["repeats"]) ;;
  expected <- set_by (fun k => $k) (product connections variants repeats) ;;
  rows <- iterR ($report.["runs"]) ;;
  actual <- mapR trial_key rows ;;
  distinct <- set_by (fun k => $k) actual ;;
  require ((length actual =? length distinct)%nat && set_eqb distinct expected) "".

Definition check_summary (report : val) (connections variants : list val) : res unit :=
  runs <- iterR ($report.["runs"]) ;;
  assertR (rmap VList (summarize runs connections variants) ==' $report.["summary"]) "".

(** ** One run *)

Definition failures_of (row : val) : expr := orE ($row.["failures"]) ($(VDict [])).

Definition check_remote (report row : val) : res unit :=
  remote <- $row.["remote_client"] ;;
  assertR (test ($remote.["separate_kernel"])) "" ;;;
  assertR ($remote.["identity"].["boot_id"] !=' $report.["server_identity"].["boot_id"]) "" ;;;
  assertR ($remote.["binary_sha256"] ==' $report.["binary_sha256"].["load"]) "" ;;;
  assertR ($remote.["cpus"] ==' $report.["client_cpus"]) "".

Definition check_accounting (row : val) : res unit :=
  assertR ($row.["outcome"] ==' str "measured") "" ;;;
  assertR ($row.["attempts"] ==' $row.["successes"] +' $row.["errors"]) "" ;;;
  assertR ((l <- valuesR (failures_of row) ;; py_sum l) ==' $row.["errors"]) "" ;;;
  assertR ($row.["connections_ready"] +' $row.["setup_errors"] ==' $row.["connections"]) "" ;;;
  assertR ((int 0 <' $row.["connections_measured"]) &&' ($row.["connections_measured"] <=' $row.["connections"])) "".

(** Without allowed errors nothing failed and every connection took part once. *)
Definition check_strict (row : val) : res unit :=
  assertR (chain_eq ($row.["setup_errors"]) [$row.["warmup_errors"]; $row.["errors"]; int 0]) "" ;;;
  assertR (notR (test ($row.["failures"])) &&' notR (test ($row.["window_failures"]))) "" ;;;
  assertR (chain_eq ($row.["connections_ready"])
             [$row.["connections_measured"]; $row.["connections_opened"]; $row.["connections"]]) "".

Definition error_counters : list string :=
  ["requests_rejected_total"; "requests_aborted_total"; "protocol_errors_total"; "request_timeouts_total";
   "io_errors_total"; "log_write_errors_total"].

Definition check_zig (strict : bool) (row : val) : res unit :=
  counters <- $row.["metrics_after"].["counters"] ;;
  (if strict then eachR (fun name => assertR ($counters.[name] ==' int 0) name) error_counters else Ok tt) ;;;
  many <- $row.["zig_workers"] >' int 1 ;;
  if many : bool then
    assertR (lenR ($row.["workers_after"].["workers"]) ==' $row.["zig_workers"]) "" ;;;
    seconds <- valuesR ($row.["worker_cpu_seconds_including_warmup"]) ;;
    assertR (allR (fun value => $value >' int 0) seconds) "" ;;;
    workers <- iterR ($row.["workers_after"].["workers"]) ;;
    assertR (allR (fun worker => $worker.["requests_completed_total"] >' int 0) workers) ""
  else Ok tt.

Definition check_go (report row : val) : res unit :=
  expected <- ifR ($report.["go_cpu_mode"] ==' str "single") (int 1) (lenR ($report.["available_cpus"])) ;;
  assertR ($row.["go_runtime"].["gomaxprocs"] ==' $expected) "".

Definition check_row (report row : val) : res unit :=
  check_remote report row ;;;
  check_accounting row ;;;
  strict <- notR (test ($report.["allow_errors"])) ;;
  (if strict : bool then check_strict row else Ok tt) ;;;
  assertR ($row.["window_successes_per_second"] ==' $row.["window_successes"] /' $report.["duration_seconds"]) "" ;;;
  ifR ($row.["variant"] !=' str "go") (check_zig strict row) (check_go report row).

Definition tcp_names : list string := ["InSegs"; "OutSegs"; "RetransSegs"; "InErrs"; "OutRsts"].

Definition nic_delta (before : val) (nic stats : val) : expr :=
  l <- py_items stats ;;
  rmap VDict (dict_by (fun kv => $(kv.1))
    (fun kv => $(kv.2) -' at_ (at_ ($before.["nics"]) ($nic)) ($(kv.1))) l).

Definition network_row (row : val) : expr :=
  before <- $row.["server_network_before"] ;;
  after <- $row.["server_network_after"] ;;
  seconds <- ($after.["monotonic_ns"] -' $before.["monotonic_ns"]) /' lit 1000000000 0 ;;
  tcp_before <- tcp_counters before ;;
  tcp_after <- tcp_counters after ;;
  mkdict [("connections", $row.["connections"]); ("variant", $row.["variant"]); ("repeat", $row.["repeat"]);
          ("seconds", $seconds);
          ("tcp_delta", dictcomp tcp_names (fun k => $tcp_after.[k] -' $tcp_before.[k]));
          ("nics", l <- itemsR ($after.["nics"]) ;;
                   rmap VDict (dict_by (fun kv => $(kv.1)) (fun kv => nic_delta before kv.1 kv.2) l))].

Definition checked_row (report row : val) : expr := check_row report row ;;; network_row row.

(** ** The audit *)

Definition audit (path : parts) : expr :=
  report <- read t path ;;
  assertR (has ($report) "summary") "incomplete report" ;;;
  sources <- itemsR ($report.["source_sha256"]) ;;
  eachR check_source sources ;;;
  hashes <- itemsR ($report.["binary_sha256"]) ;;
  eachR check_binary hashes ;;;
  connections <- connections_of report ;;
  variants <- variants_of report ;;
  check_matrix report connections variants ;;;
  check_summary report connections variants ;;;
  runs <- iterR ($report.["runs"]) ;;
  network <- mapR (checked_row report) runs ;;
  mkdict [("report", str (str_path path)); ("trials", int (Z.of_nat (length runs)));
          ("validated_window_responses", sumR (fun row => $row.["window_successes"]) runs);
          ("hashes_match", $(VBool true));
          ("all_requested_connections_participated",
             rmap VBool (allR (fun row => $row.["connections_measured"] ==' $row.["connections"]) runs));
          ("errors", dictcomp ["setup_errors"; "warmup_errors"; "errors"] (fun name => sumR (fun row => $row.[name]) runs));
          ("extra_connection_opens",
             sumR (fun row => d <- $row.["connections_opened"] -' $row.["connections"] ;; py_max [VInt 0; d]) runs);
          ("network", $(VList network))].

Definition audit_line (result : val) : res string :=
  fstring [V ($result.["report"]); F ": "; V ($result.["trials"]); F " trials, ";
           V_ format_grouped ($result.["validated_window_responses"]); F " validated responses; audit passed"].

(** The script from its parsed arguments on. *)
Definition main (reports : list parts) (output : parts) : res (list PyScript.output) :=
  audits <- mapR audit reports ;;
  text <- json_dumps2 (VList audits) ;;
  lines <- mapR audit_line audits ;;
  Ok (Written (str_path output) (text +:+ nl) :: map (fun line => Printed (line +:+ nl)) lines).
End Audit.

(** ** What a passing audit has checked *)

(** The files the report names have the digests it gives. *)
Definition files_match (t : tree) (path_of_name : string -> option parts) (items : dict) : Prop :=
  Forall (fun kv => exists name p, kv.1 = VStr name /\ path_of_name name = Some p
                    /\ (rmap VStr (digest t p) ==' $(kv.2)) = Ok true) items.

(** One run per expected trial, and no other. *)
Definition whole_matrix (connections variants repeats actual : list val) : Prop :=
  (exists expected, set_by (fun k => $k) (product connections variants repeats) = Ok expected
                    /\ set_eqb actual expected = true)
  /\ forall i j x y, (i < j)%nat -> actual !! i = Some x -> actual !! j = Some y -> py_eqb y x = false.

(** A run on two kernels that accounts for its attempts and connections. *)
Definition run_checked (report row : val) : Prop :=
  ($row.["remote_client"].["identity"].["boot_id"] !=' $report.["server_identity"].["boot_id"]) = Ok true
  /\ ($row.["remote_client"].["binary_sha256"] ==' $report.["binary_sha256"].["load"]) = Ok true
  /\ ($row.["attempts"] ==' $row.["successes"] +' $row.["errors"]) = Ok true
  /\ ((l <- valuesR (failures_of row) ;; py_sum l) ==' $row.["errors"]) = Ok true
  /\ ($row.["connections_ready"] +' $row.["setup_errors"] ==' $row.["connections"]) = Ok true.

(** Where errors are not allowed there were none, and no connection was lost or opened twice. *)
Definition run_flawless (row : val) : Prop :=
  chain_eq ($row.["setup_errors"]) [$row.["warmup_errors"]; $row.["errors"]; int 0] = Ok true
  /\ chain_eq ($row.["connections_ready"])
       [$row.["connections_measured"]; $row.["connections_opened"]; $row.["connections"]] = Ok true
  /\ (($row.["variant"] !=' str "go") = Ok true ->
      Forall (fun name => ($row.["metrics_after"].["counters"].[name] ==' int 0) = Ok true) error_counters).

Ltac step H := let a := fresh "a" in let E := fresh "E" in apply rbind_ok in H as (a & E & H).

Lemma check_row_ok report row u : check_row report row = Ok u ->
  run_checked report row /\ (test ($report.["allow_errors"]) = Ok false -> run_flawless row).
Proof.
  unfold check_row. intros H. apply rbind_ok in H as (u1 & Hr & H). apply rbind_ok in H as (u2 & Ha & H).
  apply rbind_ok in H as (strict & Hs & H). apply rbind_ok in H as (u3 & Hst & H). apply rbind_ok in H as (u4 & _ & H).
  unfold check_remote in Hr. apply rbind_ok in Hr as (remote & Hrem & Hr). step Hr. apply rbind_ok in Hr as (? & Hb%assertR_ok & Hr).
  apply rbind_ok in Hr as (? & Hsha%assertR_ok & _). unfold check_accounting in Ha. step Ha.
  apply rbind_ok in Ha as (? & Hat%assertR_ok & Ha). apply rbind_ok in Ha as (? & Hf%assertR_ok & Ha).
  apply rbind_ok in Ha as (? & Hc%assertR_ok & _).
  split; [unfold run_checked; rewrite Hrem; by split_and!|]. intros Hallow. rewrite Hallow in Hs. injection Hs as <-.
  unfold check_strict in Hst. apply rbind_ok in Hst as (? & Hz%assertR_ok & Hst). step Hst. apply assertR_ok in Hst.
  split_and!; [done|done|]. intros Hv. unfold ifR in H. rewrite Hv in H. cbn [rbind] in H. unfold check_zig in H.
  apply rbind_ok in H as (counters & Hcn & H). apply rbind_ok in H as (u5 & He & _). rewrite Hcn.
  apply eachR_ok in He. eapply Forall_impl; [exact He|]. intros name Hn. by apply assertR_ok in Hn.
Qed.

Lemma check_matrix_ok report connections variants u : check_matrix report connections variants = Ok u ->
  exists repeats rows actual, range_from_one ($report.["repeats"]) = Ok repeats /\ iterR ($report.["runs"]) = Ok rows
  /\ mapR trial_key rows = Ok actual /\ whole_matrix connections variants repeats actual.
Proof.
  unfold check_matrix. intros (repeats & Hrep & H)%rbind_ok. apply rbind_ok in H as (expected & Hexp & H).
  apply rbind_ok in H as (rows & Hrows & H). apply rbind_ok in H as (actual & Hact & H).
  apply rbind_ok in H as (distinct & Hd & H). apply require_ok, andb_true_iff in H as [Hlen%Nat.eqb_eq Heq].
  exists repeats, rows, actual. split_and!; [done..|]. destruct (set_by_length _ _ _ Hd) as [_ Hx].
  destruct Hx as [Hx Hdist]; [done|]. assert (distinct = actual) as ->.
  { clear - Hx. induction Hx as [|x k l s Hk _ IH]; [done|]. injection Hk as ->. by rewrite IH. }
  split; [by exists expected|done].
Qed.

Lemma files_match_ok t (f : string -> option parts) check items :
  (forall kv, check kv = Ok tt -> exists name p, kv.1 = VStr name /\ f name = Some p /\ (rmap VStr (digest t p) ==' $(kv.2)) = Ok true) ->
  eachR check items = Ok tt -> files_match t f items.
Proof. intros Hc H%eachR_ok. eapply Forall_impl; [exact H|]. intros kv. apply Hc. Qed.

Lemma check_source_ok t ROOT kv : check_source t ROOT kv = Ok tt ->
  exists name p, kv.1 = VStr name /\ Some (under ROOT name) = Some p /\ (rmap VStr (digest t p) ==' $(kv.2)) = Ok true.
Proof.
  unfold check_source. intros (name & Hn & H%assertR_ok)%rbind_ok. destruct (kv.1); try done. injection Hn as ->.
  by exists name, (under ROOT name).
Qed.
Lemma check_binary_ok t ROOT kv : check_binary t ROOT kv = Ok tt ->
  exists name p, kv.1 = VStr name /\ assoc name (binaries ROOT) = Some p /\ (rmap VStr (digest t p) ==' $(kv.2)) = Ok true.
Proof.
  unfold check_binary. intros (name & Hn & H)%rbind_ok. apply rbind_ok in H as (p & Hp%of_option_ok & H%assertR_ok).
  destruct (kv.1); try done. injection Hn as ->. by exists name, p.
Qed.

(** *** A report of one run *)

Definition sample_snapshot (ns n : Z) : val :=
  obj [("monotonic_ns", VInt ns); ("nics", obj [("eth0", obj [("rx_bytes", VInt n)])]);
       ("snmp", VStr ("Ip: Forwarding" +:+ nl +:+ "Ip: 1" +:+ nl +:+ "Tcp: InSegs OutSegs RetransSegs InErrs OutRsts" +:+ nl
                      +:+ "Tcp: " +:+ string_of_Z n +:+ " 2 3 0 0" +:+ nl))].
Definition sample_row : val :=
  obj [("variant", VStr "go"); ("connections", VInt 16); ("repeat", VInt 1); ("outcome", VStr "measured");
       ("remote_client", obj [("separate_kernel", VBool true); ("identity", obj [("boot_id", VStr "c")]);
                              ("binary_sha256", VStr (sha256_hex "l")); ("cpus", VList [VInt 0])]);
       ("attempts", VInt 40); ("successes", VInt 40); ("errors", VInt 0); ("failures", VNone); ("window_failures", VNone);
       ("connections_ready", VInt 16); ("connections_measured", VInt 16); ("connections_opened", VInt 16);
       ("setup_errors", VInt 0); ("warmup_errors", VInt 0); ("window_successes", VInt 30);
       ("window_successes_per_second", VInt 6); ("requests_per_second", VInt 7);
       ("latency_us", obj [("p50", VInt 1); ("p95", VInt 2); ("p99", VInt 3)]);
       ("server_cpu_percent_including_warmup", VInt 90); ("generator_cpu_percent_including_warmup", VInt 40);
       ("go_runtime", obj [("gomaxprocs", VInt 2)]);
       ("server_network_before", sample_snapshot 0 5); ("server_network_after", sample_snapshot 5000000000 9)].
Definition sample_report : val :=
  obj [("summary", match summarize [sample_row] [VInt 16] [VStr "go"] with Ok l => VList l | Err _ => VNone end);
       ("source_sha256", obj [("build.zig", VStr (sha256_hex "b"))]); ("binary_sha256", obj [("load", VStr (sha256_hex "l"))]);
       ("repeats", VInt 1); ("runs", VList [sample_row]); ("server_identity", obj [("boot_id", VStr "s")]);
       ("client_cpus", VList [VInt 0]); ("allow_errors", VBool false); ("duration_seconds", VInt 5);
       ("go_cpu_mode", VStr "unrestricted"); ("available_cpus", VList [VInt 0; VInt 1])].
Definition sample_tree : tree :=
  Tree [(path_of "lan.json", match json_dumps sample_report with Ok s => s | Err _ => "" end);
        (path_of "repo/build.zig", "b"); (path_of "repo/zig-out/bench/load", "l")] [].

(** ** Properties *)

(** The audit of a two-host comparison passes only a complete and consistent report.  When it returns, the sources
    and binaries the report names have the recorded digests, there is exactly one run for every combination of the
    summary's connections and variants with a repeat, the summary equals the one recomputed from the runs, and every
    run used another kernel and the recorded client and accounts for all its attempts, failures and connections; where
    errors were not allowed none occurred, no connection was lost or opened twice, and the ZHTPS error counters are 0. *)
Theorem go_lan_audit_sound t ROOT path result :
  audit t ROOT path = Ok result ->
  exists report sources hashes connections variants repeats runs actual,
    read t path = Ok report
    /\ itemsR ($report.["source_sha256"]) = Ok sources /\ files_match t (fun name => Some (under ROOT name)) sources
    /\ itemsR ($report.["binary_sha256"]) = Ok hashes /\ files_match t (fun name => assoc name (binaries ROOT)) hashes
    /\ iterR ($report.["runs"]) = Ok runs /\ mapR trial_key runs = Ok actual
    /\ range_from_one ($report.["repeats"]) = Ok repeats /\ whole_matrix connections variants repeats actual
    /\ (rmap VList (summarize runs connections variants) ==' $report.["summary"]) = Ok true
    /\ Forall (run_checked report) runs
    /\ (test ($report.["allow_errors"]) = Ok false -> Forall run_flawless runs).
Proof.
  unfold audit. intros (report & Hr & H)%rbind_ok. step H. apply rbind_ok in H as (sources & Hs & H).
  apply rbind_ok in H as ([] & Hsrc & H). apply rbind_ok in H as (hashes & Hh & H). apply rbind_ok in H as ([] & Hbin & H).
  apply rbind_ok in H as (connections & _ & H). apply rbind_ok in H as (variants & _ & H).
  apply rbind_ok in H as (u & Hm & H). apply rbind_ok in H as (u' & Hsum & H). apply rbind_ok in H as (runs & Hruns & H).
  apply rbind_ok in H as (network & Hnet%mapR_ok & _).
  apply check_matrix_ok in Hm as (repeats & rows & actual & Hrep & Hrows & Hact & Hw).
  rewrite Hruns in Hrows. injection Hrows as <-. unfold check_summary in Hsum. rewrite Hruns in Hsum.
  apply assertR_ok in Hsum. assert (Hall : Forall (fun row => check_row report row = Ok tt) runs).
  { clear - Hnet. induction Hnet as [|row v l vs Hrow _ IH]; [done|]. constructor; [|done].
    unfold checked_row in Hrow. by apply rbind_ok in Hrow as ([] & ? & _). }
  exists report, sources, hashes, connections, variants, repeats, runs, actual. split_and!; try done.
  - by eapply files_match_ok; [apply check_source_ok|].
  - by eapply files_match_ok; [apply check_binary_ok|].
  - eapply Forall_impl; [exact Hall|]. by intros row [? _]%check_row_ok.
  - intros Ha. eapply Forall_impl; [exact Hall|]. intros row [_ Hf]%check_row_ok. by apply Hf.
Qed.

Lemma go_lan_audit_sound_witness :
  exists result report runs, audit sample_tree (path_of "repo") (path_of "lan.json") = Ok result
  /\ read sample_tree (path_of "lan.json") = Ok report /\ iterR ($report.["runs"]) = Ok runs
  /\ Forall (run_checked report) runs /\ (test ($report.["allow_errors"]) = Ok false -> Forall run_flawless runs).
Proof.
  assert (B : is_ok (audit sample_tree (path_of "repo") (path_of "lan.json")) = true) by (vm_compute; reflexivity).
  destruct (audit sample_tree (path_of "repo") (path_of "lan.json")) as [result|e] eqn:E; [|discriminate B].
  destruct (go_lan_audit_sound sample_tree (path_of "repo") (path_of "lan.json") result E)
    as (report & s & h & c & v & r & runs & a & H1 & _ & _ & _ & _ & H2 & _ & _ & _ & _ & H3 & H4).
  exists result, report, runs. exact (conj eq_refl (conj H1 (conj H2 (conj H3 H4)))).
Defined.
