(* ===== verification/SummarizeHttp2Storage.v ===== *)
(** * [bench/summarize_http2_storage.py]: allocation and resident memory of a fixed population

    [main] checks the builds and the sources of a comparison, every run of its matrix - the uploads, the gauges of every
    snapshot - and reports the median memory of three repeats with the change from the first label to the second. *)

From stdpp Require Import base list strings sets.
From Stdlib Require Import ZArith Lia Ascii.
From S2P Require Import Prelude PyFloat PyText PyVal PyJson PyScript PyStats PyHash Evidence AuditHttp2Lan SummarizeHttp2Lan AuditGoPerformance.

Local Open Scope Z_scope.
Open Scope py_scope.

(** ** Tables

    [csv.DictWriter]: the values of the fields of a row, empty where it has none; [strict] is [extrasaction='raise']. *)

Definition plain_field (v : val) : string := match v with VNone => "" | _ => csv_quoted (py_str v) end.
Definition dict_row (strict : bool) (fields : list val) (row : val) : res string :=
  d <- py_items row ;;
  guard (strict && negb (forallb (fun kv => existsb (py_eqb kv.1) fields) d)) ValueError "dict contains fields not in fieldnames" ;;;
  Ok (join "," (map (fun k => plain_field (default (VStr "") (dget k d))) fields) +:+ crlf).
Definition dict_rows (strict : bool) (fields rows : list val) : res string :=
  lines <- mapR (dict_row strict fields) rows ;; Ok (join "," (map plain_field fields) +:+ crlf +:+ join "" lines).

(** [f'{v:+.1f}'] *)
Definition format_change (v : val) : res string :=
  s <- format_fixed false 1 v ;; Ok (if startswith "-" s then s else "+" +:+ s).

(** ** The builds *)

Section Root.
Context (t : tree) (ROOT : parts).

Definition check_build (le : val * val) : res unit :=
  receipt <- read t (under ROOT ("docs/bun-http2-implementation/" +:+ py_str le.1 +:+ "-build.json")) ;;
  assertR ($(le.2) ==' $receipt.["binary_sha256"]) "".
Definition check_source (pe : val * val) : res unit :=
  path <- as_str pe.1 ;; assertR ((d <- digest t (under ROOT path) ;; str d) ==' $(pe.2)) path.
Definition check_evidence (report : val) : res unit :=
  binaries <- itemsR ($report.["binary_sha256"]) ;;
  eachR check_build binaries ;;;
  sources <- itemsR ($report.["source_sha256"]) ;;
  eachR check_source sources.
End Root.

(** ** The snapshots of a run *)

(** [','.join(map(str, range(n)))] *)
Definition first_cpus (n : expr) : expr := l <- range n ;; str (join "," (map string_of_Z l)).

(** [next(line for line in status if line.startswith(field + ':')).split()[1]], as a number of bytes *)
Fixpoint status_line (field : string) (lines : list val) : res string :=
  match lines with
  | [] => raise StopIteration ""
  | line :: lines =>
      found <- startswithR ($line) (field +:+ ":") ;; if found : bool then as_str line else status_line field lines
  end.
Definition status_bytes (snapshot : val) (field : string) : expr :=
  lines <- iterR ($snapshot.["status"]) ;;
  line <- status_line field lines ;;
  word <- of_option (split_ws line !! 1%nat) IndexError "list index out of range" ;;
  n <- py_int word ;;
  int (n * 1024).

Definition sizes : list (string * string) := [("rss_bytes", "VmRSS"); ("peak_rss_bytes", "VmHWM"); ("virtual_bytes", "VmSize")].

Definition snapshot_row (population run : val) (phase : val) (snapshot : val) : expr :=
  gauges <- $snapshot.["metrics"].["gauges"] ;;
  pending <- startswithR ($phase) "pending_" ;;
  let active := if pending : bool then population else VInt 0 in
  assertR ($gauges.["http2_streams_active"] ==' $active) "" ;;;
  assertR ($gauges.["requests_active"] ==' $active) "" ;;;
  assertR ((int 0 <=' $gauges.["http2_streams_cached"]) &&' ($gauges.["http2_streams_cached"] <=' int 64 *' $run.["workers"])) "" ;;;
  mkdict ([("charged_bytes", $gauges.["http2_bytes_allocated"]); ("cached_streams", $gauges.["http2_streams_cached"])]
          ++ map (fun nf => (nf.1, status_bytes snapshot nf.2)) sizes).

(** ** The matrix *)

Abbreviation grouping := (list (val * list val)).

Definition trial_key (run : val) : expr := tupleR [$run.["workers"]; $run.["repeat"]; $run.["variant"]].
Definition check_run (population run : val) : res unit :=
  assertR (notR (test ($run.["errors"])) &&' ($run.["server_exit"] ==' int 0)) "" ;;;
  assertR ($run.["successful_uploads"] ==' $population) "" ;;;
  assertR (command <- $run.["command"] ;; py_in (VStr "--worker-cpus") command) "" ;;;
  assertR ((command <- iterR ($run.["command"]) ;; argument_of command "--worker-cpus") ==' first_cpus ($run.["workers"])) "".
Definition add_snapshot (population run : val) (groups : grouping) (ps : val * val) : res grouping :=
  row <- snapshot_row population run ps.1 ps.2 ;;
  k <- key (tupleR [$run.["workers"]; $run.["variant"]; $(ps.1)]) ;;
  Ok (add_group groups k row).
Definition add_run (population : val) (st : list val * grouping) (run : val) : res (list val * grouping) :=
  k <- key (trial_key run) ;;
  require (negb (existsb (py_eqb k) st.1)) "" ;;;
  check_run population run ;;;
  snapshots <- itemsR ($run.["snapshots"]) ;;
  groups <- foldR (add_snapshot population run) st.2 snapshots ;;
  Ok (st.1 ++ [k], groups).

Definition WORKERS : list Z := [1; 2; 4; 8].
Definition matrix (labels : list val) : list val :=
  concat (map (fun w => concat (map (fun r => map (fun label => VTuple [VInt w; VInt r; label]) labels) [1; 2; 3])) WORKERS).

Definition audit_runs (report : val) (labels : list val) : res (val * list val * grouping) :=
  population <- $report.["workload"].["connections"] *' $report.["workload"].["streams"] ;;
  runs <- iterR ($report.["runs"]) ;;
  st <- foldR (add_run population) ([], []) runs ;;
  require (set_eqb st.1 (matrix labels)) "" ;;;
  Ok (population, st.1, st.2).

(** ** The summary *)

Definition spread_of (items : list val) (row : val) (field : val) : expr :=
  name <- as_str field ;;
  values <- mapR (fun item => $item.[name]) items ;;
  row <- setR row name (py_median values) ;;
  setR row (name +:+ "_range") (rmap VList (mapR id [py_min values; py_max values])).
Definition group_row (k : val) (items : list val) : expr :=
  require (length items =? 3)%nat "" ;;;
  row <- mkdict [("workers", idx_at ($k) 0); ("variant", idx_at ($k) 1); ("phase", idx_at ($k) 2);
                 ("trials", int (Z.of_nat (length items)))] ;;
  fields <- iterR (firstR items) ;;
  foldR (spread_of items) row fields.
Definition rows_of (groups : grouping) : res (list val) :=
  sorted <- py_sorted_by fst groups ;; mapR (fun kg => group_row kg.1 kg.2) sorted.

Definition row_key (row : val) : expr := tupleR [$row.["workers"]; $row.["variant"]; $row.["phase"]].
Definition pair_columns (before after pair : val) (field : string) : expr :=
  pair <- setR pair (field +:+ "_median_percent") (($after.[field] /' $before.[field] -' int 1) *' int 100) ;;
  pair <- setR pair (field +:+ "_before") ($before.[field]) ;;
  setR pair (field +:+ "_after") ($after.[field]).
Definition pair_of (lookup : dict) (labels : list val) (workers : Z) (phase : string) : expr :=
  rows <- mapR (fun label => py_getitem (VDict lookup) (VTuple [VInt workers; label; VStr phase])) (take 3 labels) ;;
  match rows with
  | [before; after] =>
      foldR (pair_columns before after) (obj [("workers", VInt workers); ("phase", VStr phase)])
        ["charged_bytes"; "rss_bytes"; "peak_rss_bytes"; "virtual_bytes"]
  | _ => raise ValueError "not enough or too many values to unpack"
  end.
Definition STAGES : list string := ["connected"; "pending_heads"; "pending_bodies"; "completed"].
Definition pairs_of (lookup : dict) (labels : list val) : res (list val) :=
  rmap (@concat _) (mapR (fun w => mapR (pair_of lookup labels w) STAGES) WORKERS).

Definition pair_line (pair : val) : res (list output) :=
  connected <- $pair.["phase"] ==' str "connected" ;;
  if connected : bool then Ok [] else
  text <- fstring [F "w"; V ($pair.["workers"]); F " "; V ($pair.["phase"]); F ": charged ";
                   V_ format_change ($pair.["charged_bytes_median_percent"]); F "%, RSS ";
                   V_ format_change ($pair.["rss_bytes_median_percent"]); F "%"] ;;
  Ok [Printed (text +:+ nl)].

(** What the audit of the report gives: the population, the trials, the rows and the pairs. *)
Definition summarize (t : tree) (ROOT : parts) (report : val) : res (val * list val * list val * list val) :=
  assertR (test ($report.["complete"])) "" ;;;
  labels <- iterR ($report.["binary_sha256"]) ;;
  check_evidence t ROOT report ;;;
  let* (population, seen, groups) := audit_runs report labels in
  rows <- rows_of groups ;;
  lookup <- dict_by row_key (fun row => $row) rows ;;
  pairs <- pairs_of lookup labels ;;
  Ok (population, seen, rows, pairs).

(** [main] from its parsed arguments on. *)
Definition main (t : tree) (ROOT folder : parts) (destination : string) : res (list output) :=
  report <- read t (under folder "results.json") ;;
  let* (population, seen, rows, pairs) := summarize t ROOT report in
  audit <- mkdict [("trials", int (Z.of_nat (length seen))); ("verified_uploads", int (Z.of_nat (length seen)) *' $population);
                   ("failed_uploads", int 0); ("source_hashes_verified", $(VBool true))] ;;
  text <- json_dumps2 (obj [("audit", audit); ("rows", VList rows); ("pairs", VList pairs)]) ;;
  csv <- with_suffix ".csv" destination ;;
  fields <- iterR (firstR pairs) ;;
  table <- dict_rows true fields pairs ;;
  lines <- mapR pair_line pairs ;;
  Ok (Written destination (text +:+ nl) :: Written csv table :: concat lines).

(** ** Lemmas *)

(** No member repeats an earlier one. *)
Definition unrepeated (l : list val) : Prop := forall i j x y, (i < j)%nat -> l !! i = Some x -> l !! j = Some y -> py_eqb y x = false.

Lemma unrepeated_snoc l k : unrepeated l -> existsb (py_eqb k) l = false -> unrepeated (l ++ [k]).
Proof.
  intros Hl Hk i j x y Hij [[? Hi]|[? ?]]%lookup_snoc_Some [[? Hj]|[? <-]]%lookup_snoc_Some; [exact (Hl i j x y Hij Hi Hj)| |lia|lia].
  destruct (py_eqb k x) eqn:E; [|done]. rewrite (proj2 (existsb_exists _ _)) in Hk; [done|].
  exists x. split; [|done]. apply list_elem_of_In. by eapply list_elem_of_lookup_2.
Qed.

(** What the audit has found out about a snapshot and about a run. *)
Definition at_rest (population run phase snapshot : val) : Prop :=
  exists gauges pending, $snapshot.["metrics"].["gauges"] = Ok gauges /\ startswithR ($phase) "pending_" = Ok pending
  /\ ($gauges.["http2_streams_active"] ==' $(if pending : bool then population else VInt 0)) = Ok true
  /\ ($gauges.["requests_active"] ==' $(if pending then population else VInt 0)) = Ok true
  /\ (int 0 <=' $gauges.["http2_streams_cached"]) = Ok true
  /\ ($gauges.["http2_streams_cached"] <=' int 64 *' $run.["workers"]) = Ok true.
Definition verified (population run : val) : Prop :=
  test ($run.["errors"]) = Ok false /\ ($run.["server_exit"] ==' int 0) = Ok true
  /\ ($run.["successful_uploads"] ==' $population) = Ok true
  /\ (exists command, iterR ($run.["command"]) = Ok command /\ (argument_of command "--worker-cpus" ==' first_cpus ($run.["workers"])) = Ok true)
  /\ exists snapshots, itemsR ($run.["snapshots"]) = Ok snapshots /\ Forall (fun ps => at_rest population run ps.1 ps.2) snapshots.

Lemma add_snapshot_ok population run groups ps groups' : add_snapshot population run groups ps = Ok groups' -> at_rest population run ps.1 ps.2.
Proof.
  unfold add_snapshot, snapshot_row. intros (row & H & _)%rbind_ok. apply rbind_ok in H as (gauges & Hg & H).
  apply rbind_ok in H as (pending & Hp & H). apply rbind_ok in H as (? & Ha%assertR_ok & H).
  apply rbind_ok in H as (? & Hr%assertR_ok & H). apply rbind_ok in H as (? & Hc%assertR_ok & _). apply andR_true in Hc as [Hc1 Hc2].
  by exists gauges, pending.
Qed.

Lemma add_run_ok population st run st' :
  add_run population st run = Ok st' ->
  exists k, trial_key run = Ok k /\ existsb (py_eqb k) st.1 = false /\ verified population run /\ st'.1 = st.1 ++ [k].
Proof.
  unfold add_run. intros (k & Hk%key_ok & H)%rbind_ok. apply rbind_ok in H as (? & Hn & H). apply rbind_ok in H as (? & Hc & H).
  apply rbind_ok in H as (snapshots & Hs & H). apply rbind_ok in H as (groups & Hg & [= <-]). exists k. split_and!; [done| | |done].
  - by destruct (existsb _ _).
  - unfold check_run in Hc. apply rbind_ok in Hc as (? & [He%notR_ok Hx]%assertR_ok%andR_true & Hc).
    apply rbind_ok in Hc as (? & Hu%assertR_ok & Hc). apply rbind_ok in Hc as (? & _ & Hf%assertR_ok).
    split_and!; [done|done|done| |].
    + destruct (iterR ($run.["command"])) as [command|e]; [by exists command|discriminate Hf].
    + exists snapshots. split; [done|]. apply foldR_steps in Hg. eapply Forall_impl; [exact Hg|].
      intros ps (g1 & g2 & Hstep). by eapply add_snapshot_ok.
Qed.

Lemma add_runs_ok population runs st st' :
  unrepeated st.1 -> foldR (add_run population) st runs = Ok st' ->
  exists ks, st'.1 = st.1 ++ ks /\ Forall2 (fun run k => trial_key run = Ok k) runs ks /\ unrepeated st'.1
             /\ Forall (verified population) runs.
Proof.
  revert st. induction runs as [|run runs IH]; intros st Hd H; cbn in H.
  { injection H as <-. exists []. split_and!; [by rewrite app_nil_r|constructor|done|constructor]. }
  apply rbind_ok in H as (st1 & (k & Hk & Hn & Hv & E)%add_run_ok & H). apply IH in H as (ks & Es & Hks & Hd' & Hvs).
  - exists (k :: ks). split_and!; [by rewrite Es, E, <- app_assoc|by constructor|done|by constructor].
  - rewrite E. by apply unrepeated_snoc.
Qed.

(** *** The medians *)

Definition row_fields : list string := ["charged_bytes"; "cached_streams"; "rss_bytes"; "peak_rss_bytes"; "virtual_bytes"].
Definition shaped (item : val) : Prop := exists d, item = VDict d /\ map fst d = map VStr row_fields.

Lemma add_group_shaped groups k row :
  shaped row -> Forall (fun kg => Forall shaped kg.2) groups -> Forall (fun kg => Forall shaped kg.2) (add_group groups k row).
Proof.
  intros Hr. unfold add_group. induction 1 as [|[k' l] g Hl Hg IH]; [by repeat constructor|].
  destruct (py_eqb k k'); constructor; [|done|done|done]. cbn in *. apply Forall_app. by repeat constructor.
Qed.
Lemma mkdict_keys (l : list (string * expr)) (d : dict) :
  Forall2 (fun ke kv => kv.1 = VStr ke.1 /\ ke.2 = Ok kv.2) l d -> map fst d = map (fun ke => VStr ke.1) l.
Proof. induction 1 as [|ke kv l d [E _] _ IH]; [done|]. cbn. by rewrite E, IH. Qed.
Lemma snapshot_row_shaped population run phase snapshot row : snapshot_row population run phase snapshot = Ok row -> shaped row.
Proof.
  unfold snapshot_row. intros H. do 5 (apply rbind_ok in H as (? & _ & H)). apply mkdict_ok in H as (d & -> & H).
  exists d. split; [done|]. by rewrite (mkdict_keys _ _ H).
Qed.
Lemma audit_runs_shaped report labels population seen groups :
  audit_runs report labels = Ok (population, seen, groups) -> Forall (fun kg => Forall shaped kg.2) groups.
Proof.
  unfold audit_runs. intros (? & _ & H)%rbind_ok. apply rbind_ok in H as (runs & _ & H). apply rbind_ok in H as (st & Hst & H).
  apply rbind_ok in H as (? & _ & [= <- _ <-]). revert Hst. apply (foldR_inv (fun st => Forall (fun kg => Forall shaped kg.2) st.2)); [constructor|].
  intros s run s' _ Hs H. unfold add_run in H. do 4 (apply rbind_ok in H as (? & _ & H)). apply rbind_ok in H as (g & Hg & [= <-]).
  revert Hg. apply (foldR_inv (Forall (fun kg => Forall shaped kg.2))); [done|]. intros g1 ps g2 _ Hg1 H.
  unfold add_snapshot in H. apply rbind_ok in H as (row & Hrow%snapshot_row_shaped & H). apply rbind_ok in H as (k & _ & [= <-]).
  by apply add_group_shaped.
Qed.

Lemma spread_of_ok items row name_ row' :
  spread_of items row (VStr name_) = Ok row' ->
  (exists values, mapR (fun item => $item.[name_]) items = Ok values /\ $row'.[name_] = py_median values)
  /\ forall k, k <> name_ -> k <> name_ +:+ "_range" -> $row'.[k] = $row.[k].
Proof.
  unfold spread_of. cbn [as_str rbind]. intros (values & Hv & H)%rbind_ok. apply rbind_ok in H as (r1 & H1 & H2).
  pose proof (fun k N => setR_other _ _ _ _ k H1 N) as K1. pose proof (fun k N => setR_other _ _ _ _ k H2 N) as K2. split.
  - exists values. split; [done|]. rewrite K2; [by apply setR_new in H1 as (m & -> & ->)|].
    intros E. apply (f_equal String.length) in E. rewrite str_length_app in E. cbn in E. lia.
  - intros k Hk Hr. by rewrite K2, K1.
Qed.

Lemma spread_columns_ok items names row row' :
  NoDup names -> (forall m n, m ∈ names -> n ∈ names -> n <> m +:+ "_range") ->
  foldR (spread_of items) row (map VStr names) = Ok row' ->
  (forall n, n ∈ names -> exists values, mapR (fun item => $item.[n]) items = Ok values /\ $row'.[n] = py_median values)
  /\ forall k, k ∉ names -> (forall m, m ∈ names -> k <> m +:+ "_range") -> $row'.[k] = $row.[k].
Proof.
  revert row. induction names as [|m names IH]; intros row Hd Hn H; cbn in H; [injection H as <-; split; [set_solver|done]|].
  apply NoDup_cons in Hd as [Hm Hd]. apply rbind_ok in H as (r1 & [Hv Ho]%spread_of_ok & H).
  apply IH in H as [Hc Hk]; [|done|intros; apply Hn; by right]. split.
  - intros n [->|Hin]%elem_of_cons; [|by apply Hc]. destruct Hv as (values & Hv & E). exists values. split; [done|].
    rewrite Hk; [done|done|]. intros q Hq. apply Hn; [by right|by left].
  - intros k [Hkm Hkn]%not_elem_of_cons Hr. rewrite Hk; [|done|intros q Hq; apply Hr; by right]. apply Ho; [done|]. apply Hr. by left.
Qed.

(** A row has the medians of exactly three snapshots. *)
Definition three_medians (items : list val) (row : val) : Prop :=
  length items = 3%nat
  /\ forall field, field ∈ row_fields -> exists values, mapR (fun item => $item.[field]) items = Ok values /\ $row.[field] = py_median values.

Lemma group_row_ok k items row : Forall shaped items -> group_row k items = Ok row -> three_medians items row.
Proof.
  unfold group_row. intros Hs (? & Hl & H)%rbind_ok. destruct (length items =? 3)%nat eqn:El; [|done]. apply Nat.eqb_eq in El.
  apply rbind_ok in H as (row0 & _ & H). apply rbind_ok in H as (fields & Hf & H). split; [done|].
  assert (fields = map VStr row_fields) as ->.
  { destruct items as [|item items]; [done|]. apply Forall_cons in Hs as [(d & -> & Hd) _]. cbn in Hf. injection Hf as <-. exact Hd. }
  apply spread_columns_ok in H as [Hc _]; [exact Hc|computed|]. intros m n Hm Hn.
  each_of Hm; each_of Hn; done.
Qed.

Lemma rows_of_ok groups rows :
  Forall (fun kg => Forall shaped kg.2) groups -> rows_of groups = Ok rows ->
  exists sorted, sorted ≡ₚ groups /\ Forall2 (fun kg row => three_medians kg.2 row) sorted rows.
Proof.
  unfold rows_of. intros Hg (sorted & Hp%py_sorted_by_perm & H%mapR_ok)%rbind_ok. exists sorted. split; [done|].
  rewrite <- Hp in Hg. clear Hp. induction H as [|[k items] row sorted rows Hr _ IH]; [constructor|].
  apply Forall_cons in Hg as [Hi Hg]. constructor; [by eapply group_row_ok|by apply IH].
Qed.

(** *** The changes *)

Definition columns : list string := ["charged_bytes"; "rss_bytes"; "peak_rss_bytes"; "virtual_bytes"].

Lemma pair_columns_ok before after pair field pair' :
  pair_columns before after pair field = Ok pair' ->
  $pair'.[field +:+ "_median_percent"] = ($after.[field] /' $before.[field] -' int 1) *' int 100
  /\ forall k, k <> field +:+ "_median_percent" -> k <> field +:+ "_before" -> k <> field +:+ "_after" -> $pair'.[k] = $pair.[k].
Proof.
  unfold pair_columns. intros (p1 & H1 & H)%rbind_ok. apply rbind_ok in H as (p2 & H2 & H3).
  pose proof (fun k N => setR_other _ _ _ _ k H1 N) as K1. pose proof (fun k N => setR_other _ _ _ _ k H2 N) as K2.
  pose proof (fun k N => setR_other _ _ _ _ k H3 N) as K3. split; [|intros k ? ? ?; by rewrite K3, K2, K1].
  assert (N : forall s, String.length s <> 15%nat -> field +:+ "_median_percent" <> field +:+ s).
  { intros s Hs E. apply (f_equal String.length) in E. rewrite !str_length_app in E. cbn in E. lia. }
  rewrite K3, K2 by by apply N. apply setR_new in H1 as (v & E & Hv). by rewrite Hv, <- E.
Qed.

Definition endings : list string := ["_median_percent"; "_before"; "_after"].
Lemma columns_keep before after fields k pair pair' :
  (forall n s, n ∈ fields -> s ∈ endings -> k <> n +:+ s) -> foldR (pair_columns before after) pair fields = Ok pair' -> $pair'.[k] = $pair.[k].
Proof.
  intros Hk. apply (foldR_inv (fun p => $p.[k] = $pair.[k])); [done|]. intros p1 n p2 Hn E [_ Ho]%pair_columns_ok.
  rewrite <- E. apply Ho; apply Hk; try done; computed.
Qed.
Lemma columns_ok before after fields pair pair' :
  NoDup fields -> (forall m n s, m ∈ fields -> n ∈ fields -> m <> n -> s ∈ endings ->
                   m +:+ "_median_percent" <> n +:+ s) ->
  foldR (pair_columns before after) pair fields = Ok pair' ->
  Forall (fun field => $pair'.[field +:+ "_median_percent"] = ($after.[field] /' $before.[field] -' int 1) *' int 100) fields.
Proof.
  revert pair. induction fields as [|f fields IH]; intros pair Hd Hn H; cbn in H; [constructor|]. apply NoDup_cons in Hd as [Hf Hd].
  apply rbind_ok in H as (p1 & [Hp _]%pair_columns_ok & H). constructor.
  - rewrite <- Hp. eapply columns_keep; [|exact H]. intros n s Hin Hs. apply Hn; [by left|by right| |done]. by intros <-.
  - eapply IH; [done| |exact H]. intros m n s Hm Hn' Hne Hs. apply Hn; [by right|by right|done|done].
Qed.

(** The change between the rows of the two builds. *)
Definition compared (rows labels : list val) (cell : Z * string) (pair : val) : Prop :=
  exists a b before after lookup, labels = [a; b] /\ dict_by row_key (fun row => $row) rows = Ok lookup
  /\ py_getitem (VDict lookup) (VTuple [VInt cell.1; a; VStr cell.2]) = Ok before
  /\ py_getitem (VDict lookup) (VTuple [VInt cell.1; b; VStr cell.2]) = Ok after
  /\ before ∈ rows /\ after ∈ rows
  /\ Forall (fun field => $pair.[field +:+ "_median_percent"] = ($after.[field] /' $before.[field] -' int 1) *' int 100) columns.

Lemma lookup_member rows lookup k row :
  dict_by row_key (fun row => $row) rows = Ok lookup -> py_getitem (VDict lookup) k = Ok row -> row ∈ rows.
Proof.
  intros Hl H. cbn [py_getitem] in H. destruct (dget k lookup) as [v|] eqn:E; [|done]. injection H as <-.
  apply dget_In in E as (k' & Hin). by apply (dict_by_In _ _ _ _ _ _ Hl) in Hin as (x & Hx & _ & [= <-]).
Qed.

Lemma pair_of_ok rows lookup labels w stage pair :
  dict_by row_key (fun row => $row) rows = Ok lookup -> pair_of lookup labels w stage = Ok pair -> compared rows labels (w, stage) pair.
Proof.
  unfold pair_of. intros Hl (found & H & Hp)%rbind_ok. apply mapR_ok in H as H2.
  destruct labels as [|a [|b [|c labels]]]; cbn [take] in H2; inversion H2 as [|? before ? ? Ea H3]; subst; try done;
    inversion H3 as [|? after ? ? Eb H4]; subst; try done; [|by inversion H4; subst].
  inversion H4; subst. exists a, b, before, after, lookup. split_and!; try done; [by eapply lookup_member|by eapply lookup_member|].
  eapply columns_ok; [|clear|exact Hp]; [computed|]. intros m n s Hm Hn Hne Hs.
  each_of Hm; each_of Hn; each_of Hs; done.
Qed.

Definition cells : list (Z * string) := concat (map (fun w => map (fun stage => (w, stage)) STAGES) WORKERS).

Lemma pairs_of_ok rows lookup labels pairs :
  dict_by row_key (fun row => $row) rows = Ok lookup -> pairs_of lookup labels = Ok pairs -> Forall2 (compared rows labels) cells pairs.
Proof.
  unfold pairs_of, cells. intros Hl (l & H & ->)%rmap_ok. apply mapR_ok in H.
  induction H as [|w ps ws l Hw _ IH]; [constructor|]. cbn [map concat]. apply Forall2_app; [|exact IH]. apply mapR_ok in Hw. clear IH.
  induction Hw as [|stage pair stages ps Hp _ IHp]; [constructor|]. cbn [map]. constructor; [by eapply pair_of_ok|exact IHp].
Qed.


(** ** A comparison of two builds

    The second build needs half of the memory in every phase. *)

Definition sample_snapshot (phase : string) (bytes : Z) : val :=
  let active := VInt (if startswith "pending_" phase then 2 else 0) in
  obj [("metrics", obj [("gauges", obj [("http2_streams_active", active); ("requests_active", active);
                                        ("http2_streams_cached", VInt 3); ("http2_bytes_allocated", VInt bytes)])]);
       ("status", VList (map (fun nf => VStr (nf.2 +:+ ":  " +:+ string_of_Z bytes +:+ " kB")) sizes))].
Definition sample_run (w r : Z) (label : string) : val :=
  let bytes := (if String.eqb label "old" then 4096 else 2048) + r in
  obj [("workers", VInt w); ("repeat", VInt r); ("variant", VStr label); ("errors", VList []); ("server_exit", VInt 0);
       ("successful_uploads", VInt 2); ("command", VList [VStr "zhtps"; VStr "--worker-cpus"; VStr (join "," (map string_of_Z (seqZ 0 w)))]);
       ("snapshots", obj (map (fun phase => (phase, sample_snapshot phase bytes)) STAGES))].
Definition sample_report : val :=
  obj [("complete", VBool true); ("binary_sha256", obj [("old", VStr "a"); ("new", VStr "b")]);
       ("source_sha256", obj [("src/a.zig", VStr (sha256_hex "source"))]);
       ("workload", obj [("connections", VInt 1); ("streams", VInt 2)]);
       ("runs", VList (concat (map (fun w => concat (map (fun r => [sample_run w r "old"; sample_run w r "new"]) [1; 2; 3])) WORKERS)))].
Definition sample_tree : tree :=
  Tree [(path_of "/r/docs/bun-http2-implementation/old-build.json", document (obj [("binary_sha256", VStr "a")]));
        (path_of "/r/docs/bun-http2-implementation/new-build.json", document (obj [("binary_sha256", VStr "b")]));
        (path_of "/r/src/a.zig", "source"); (path_of "/r/out/results.json", document sample_report)] (path_of "/r").

Example sample_summary_text :
  (l <- main sample_tree (path_of "/r") (path_of "out") "out/summary.json" ;; Ok (drop 2 l))
  = Ok (concat (map (fun w => map (fun stage => Printed ("w" +:+ w +:+ " " +:+ stage +:+ ": charged -50.0%, RSS -50.0%" +:+ nl))
                               ["pending_heads"; "pending_bodies"; "completed"]) ["1"; "2"; "4"; "8"])).
Proof. vm_compute. reflexivity. Qed.

Definition sample_summary : val * list val * list val * list val :=
  value_or (VNone, [], [], []) (summarize sample_tree (path_of "/r") sample_report).
