(* ===== verification/SummarizeHttp2Diagnosis.v ===== *)
(** * [bench/summarize_http2_diagnosis.py]: audit and summary of the investigation of HTTP/2 failures

    [main] audits the trials of every case, pairs the failures the clients captured with the snapshots of the server, and
    reads the 16-bit counter of missed frames of both network cards ([nic_samples]).  [tcpInfo] is the function of the
    observer that the script imports from [docs/]; a compressed log is represented by its content. *)

From stdpp Require Import base list strings sets.
From Stdlib Require Import ZArith Lia Ascii.
From S2P Require Import Prelude PyFloat PyText PyVal PyJson PyScript PyStats Counters Evidence AuditHttp2Lan RemoteLoad.

Local Open Scope Z_scope.
Open Scope py_scope.

(** ** Language *)

(** [a % b] on [int]s *)
Definition py_mod (a b : val) : expr :=
  match num_of a, num_of b with
  | Some (NI x), Some (NI y) =>
      if y =? 0 then raise ZeroDivisionError "integer modulo by zero" else Ok (VInt (x mod y))
  | _, _ => type_error "unsupported operand type(s) for %"
  end.

(** [zip(l, l[1:])] *)
Definition neighbours {A} (l : list A) : list (A * A) := combine l (tail l).

Definition boolR (b : res bool) : expr := rmap VBool b.
Definition endswithR (e : expr) (suffix : string) : res bool :=
  v <- e ;; match v with VStr s => Ok (endswith suffix s) | _ => raise AttributeError "object has no attribute 'endswith'" end.

(** [base64.b64decode(text)]: what is not in the alphabet is skipped, and a complete padding ends the text. *)
Fixpoint decode_loose (quad pads : nat) (left : Z) (s : string) : option string :=
  match s with
  | EmptyString => if (quad =? 0)%nat then Some "" else None
  | String a s =>
      if Ascii.eqb a "=" then
        if (2 <=? quad)%nat then if (4 <=? quad + S pads)%nat then Some "" else decode_loose quad (S pads) left s
        else decode_loose quad pads left s
      else match value64 a with
      | None => decode_loose quad pads left s
      | Some x =>
          match quad with
          | 0%nat => decode_loose 1 0 x s
          | 1%nat => rest ← decode_loose 2 0 (x mod 16) s; Some (String (byte_char (left * 4 + x / 16)) rest)
          | 2%nat => rest ← decode_loose 3 0 (x mod 4) s; Some (String (byte_char (left * 16 + x / 4)) rest)
          | _ => rest ← decode_loose 0 0 0 s; Some (String (byte_char (left * 64 + x)) rest)
          end
      end
  end.
Definition b64decode (v : val) : res string :=
  match v with
  | VStr s =>
      if str_forall (fun a => code a <? 128) s
      then of_option (decode_loose 0 0 0 s) ValueError "Incorrect padding"
      else raise ValueError "string argument should contain only ASCII characters"
  | _ => type_error "argument should be a bytes-like object or ASCII string"
  end.

Example b64decode_examples :
  map (fun s => b64decode (VStr s)) [b64encode "load!"; "bG9h ZCE="; "bG9hZCE=bG9h"]
  = [Ok "load!"; Ok "load!"; Ok "load!"]
  /\ is_ok (b64decode (VStr "bG9hZCE")) = false.
Proof. split; vm_compute; reflexivity. Qed.

Section Script.
Context (t : tree) (tcpInfo : string -> expr).

(** [[json.loads(line) for line in path.read_text().splitlines()]] *)
Definition json_rows (path : parts) : res (list val) := text <- read_text t path ;; mapR json_loads (splitlines text).

(** ** The counters of a network card *)

(** The rows between two times. *)
Definition window (start end_ : val) (rows : list val) : res (list val) :=
  filterR (fun row => ($start <=' $row.["started_ns"]) &&' ($row.["finished_ns"] <=' $end_)) rows.

Section Card.
Context (nic : string).

Definition reading (row : val) : expr := $row.["counters"].[nic].
(** [(b - a) % 65536] *)
Definition increment (ab : val * val) : expr := d <- reading ab.2 -' reading ab.1 ;; py_mod d (VInt 65536).
Definition gap (ab : val * val) : expr := $(ab.2).["finished_ns"] -' $(ab.1).["started_ns"].
Definition sum_pairs (f : val * val -> expr) (pairs : list (val * val)) : expr := l <- mapR f pairs ;; py_sum l.

(** What is computed from the rows of the window. *)
Definition nic_summary (rows : list val) (max_gap_ns : val) : expr :=
  let pairs := neighbours rows in
  assertR (allR (fun row => (int 0 <=' reading row) &&' (reading row <' int 65536)) rows) "" ;;;
  gaps <- mapR gap pairs ;;
  mkdict
    [("samples", int (Z.of_nat (length rows))); ("first_ns", (firstR rows).["started_ns"]); ("last_ns", (lastR rows).["finished_ns"]);
     ("modulo_increment", sum_pairs increment pairs);
     ("observed_wraps", sum_pairs (fun ab => boolR (reading ab.2 <' reading ab.1)) pairs);
     ("positive_intervals", sum_pairs (fun ab => boolR (reading ab.2 !=' reading ab.1)) pairs);
     ("max_gap_ms", py_max gaps /' lit 1000000 0);
     ("ambiguous_wrap_intervals", sumR (fun gap => boolR ($gap >=' $max_gap_ns)) gaps);
     ("assumption", str "No counter reset. Extra wraps cannot be excluded in intervals exceeding the conservative line-rate bound.")].

Definition nic_samples (path : parts) (start end_ : val) (speed : Z) : expr :=
  all_rows <- json_rows path ;;
  assertR (allR (fun row => notR (has ($row) "error")) all_rows) "" ;;;
  rows <- window start end_ all_rows ;;
  require (1 <? length rows)%nat "" ;;;
  max_gap_ns <- int (65536 * 64 * 8) *' lit 1000000000 0 /' (int speed *' lit 1000000 0) ;;
  nic_summary rows max_gap_ns.
End Card.

(** ** Pairing failures with snapshots of the server *)

Record pairing := Pairing {
  counts_ : dict; observations : list val; unpaired : list val; delays : list val; lateness : list val; writes : list val }.
Definition no_pairs : pairing := Pairing [] [] [] [] [] [].

Definition identity_of (v : val) : expr := key (tupleR [$v.["client"]; $v.["failed_unix_ns"]]).

Definition predicates_of (d s t_ c : val) : res dict :=
  dict_by (fun kb => str kb.1) (fun kb => boolR kb.2)
    [("waiting_headers", $d.["stage"] ==' str "headers"); ("observer_ack_timeout", has ($d) "observer_error");
     ("server_output_outstanding", $s.["outstanding_response_bytes"] >' int 0);
     ("server_unread_zero", $s.["unread_request_bytes"] ==' int 0); ("server_unsent_zero", $t_.["notsent_bytes"] ==' int 0);
     ("server_timeout_retries_7plus", $t_.["retransmits"] >=' int 7); ("client_unacked_zero", $c.["unacked"] ==' int 0)].
(** [{key: int(value) for key, value in predicates.items()}] *)
Definition indicators (predicates : dict) : dict := map (fun kb => (kb.1, VInt (if truthy kb.2 then 1 else 0))) predicates.

Definition check_captured (d : val) : res unit :=
  assertR (notR (has ($d) "probe_error")) "" ;;;
  ifR (has ($d) "observer_error") (assertR (endswithR ($d.["observer_error"]) "i/o timeout") "")
    (assertR (test ($d.["observer_reply"].["captured"])) "").
Definition check_snapshot (row d s : val) : res unit :=
  assertR (($s.["state"] ==' int 1) &&' ($s.["remote"] ==' $d.["client"]) &&' ($s.["local"] ==' $d.["server"])) "".

Definition observe (run failure d row : val) (p : pairing) : res pairing :=
  assertR (notR (has ($row) "probe_error")) "" ;;;
  s <- $row.["server"] ;;
  check_snapshot row d s ;;;
  t_ <- $s.["tcp_info"] ;;
  c <- (raw <- $d.["client_tcp_info_raw"] ;; raw <- b64decode raw ;; tcpInfo raw) ;;
  predicates <- predicates_of d s t_ c ;;
  counts <- counter_update (counts_ p) (indicators predicates) ;;
  delay <- ($s.["started_unix_ns"] +' $run.["clock"].["offset_ns"] -' $d.["failed_unix_ns"]) /' lit 1000000 0 ;;
  late <- $failure.["elapsed_ns"] /' lit 1000000 0 -' int 2000 ;;
  write <- ($d.["wrote_request_ns"] -' $failure.["started_unix_ns"]) /' lit 1000000 0 ;;
  observation <- mkdict
    [("client", $d.["client"]); ("failed_unix_ns", $d.["failed_unix_ns"]); ("server_tcp", $t_); ("client_tcp", $c);
     ("server_outstanding", $s.["outstanding_response_bytes"]); ("server_unread", $s.["unread_request_bytes"])] ;;
  fields <- py_items observation ;;
  Ok (Pairing counts (observations p ++ [VDict (dupdate fields predicates)]) (unpaired p) (delays p ++ [delay]) (lateness p ++ [late])
        (writes p ++ [write])).

Definition pair_failure (servers : dict) (run : val) (p : pairing) (failure : val) : res pairing :=
  d <- $failure.["diagnostic"] ;;
  assertR (($failure.["phase"] ==' str "measurement") &&' ($failure.["kind"] ==' str "timeout")) "" ;;;
  check_captured d ;;;
  k <- identity_of d ;;
  match dget k servers with
  | None =>
      assertR (has ($d) "observer_error") "" ;;;
      Ok (Pairing (counts_ p) (observations p) (unpaired p ++ [d]) (delays p) (lateness p) (writes p))
  | Some row => observe run failure d row p
  end.

(** The failures with a diagnosis in the log of one client. *)
Definition captured_of (path : parts) : res (list val) :=
  text <- read_text t path ;;
  rows <- mapR json_loads (log_lines text) ;;
  captured <- filterR (fun r => has ($r) "diagnostic") rows ;;
  require (length captured <=? 32)%nat "" ;;;
  connections <- set_by (fun r => $r.["connection"]) captured ;;
  require (length connections =? length captured)%nat "" ;;;
  Ok captured.
Definition is_log (q : parts) : bool := match q with [x] => endswith ".failures.jsonl.gz" x | _ => false end.

Definition range_of (l : list val) : expr := rmap VList (mapR id [py_min l; py_median l; py_max l]).

Definition nic_step (run : val) (path : parts) (nics : val) (hnf : string * string * string) : expr :=
  let '(host, nic, file) := hnf in
  if exists_ t (under path file) then
    offset <- (if String.eqb host "client" then $run.["clock"].["offset_ns"] else int 0) ;;
    start <- $run.["server_network_before"].["unix_ns"] +' $offset ;;
    end_ <- $run.["server_network_after"].["unix_ns"] +' $offset ;;
    setR nics host (nic_samples nic (under path file) start end_ 2500)
  else Ok nics.

(** The pairing of one run of an instrumented case. *)
Definition paired_row (case : string) (folder : parts) (run : val) : expr :=
  number <- $run.["repeat"] +' int 1 ;;
  let path := under folder ("w8-c16384-zhtps-r" +:+ py_str number) in
  server_rows <- json_rows (under path "server-sockets.jsonl") ;;
  servers <- dict_by (fun r => tupleR [$r.["request"].["client"]; $r.["request"].["failed_unix_ns"]]) (fun r => $r) server_rows ;;
  clients <- rmap (@concat _) (mapR captured_of (sorted_paths (glob t (under path "client") is_log))) ;;
  named <- set_by (fun d => tupleR [$d.["diagnostic"].["client"]; $d.["diagnostic"].["failed_unix_ns"]]) clients ;;
  require (subsetb (map fst servers) named) "" ;;;
  p <- foldR (pair_failure servers run) no_pairs clients ;;
  result <- mkdict
    [("case", str case); ("captured", int (Z.of_nat (length servers))); ("client_captured", int (Z.of_nat (length clients)));
     ("unpaired", $(VList (unpaired p))); ("counts", $(VDict (counts_ p))); ("observations", $(VList (observations p)));
     ("query_delay_ms", range_of (delays p)); ("deadline_lateness_ms", range_of (lateness p));
     ("request_written_ms", range_of (writes p)); ("nic", $(VDict []))] ;;
  nics <- foldR (nic_step run path) (VDict [])
            [("server", "server_eth0", "server-nic-missed.jsonl"); ("client", "client_eth0", "client/nic-missed.jsonl")] ;;
  setR result "nic" ($nics).

(** ** The cases *)

Definition CASES : list string :=
  ["baseline"; "client7"; "paired"; "nic-busy7"; "nic-free7"; "loopback"; "nic-samples"; "nic-samples-free"].
Definition is_instrumented (case : string) : bool := existsb (String.eqb case) ["paired"; "nic-samples"; "nic-samples-free"].

(** A trial of the loopback, which has its own format. *)
Definition check_receipt (folder : parts) (n : string) (receipt : val) : res unit :=
  file <- (v <- $receipt.["path"] ;; as_str v) ;;
  raw <- read_text t (under (under folder ("r" +:+ n +:+ "/client")) file) ;;
  assertR (Ok (String.eqb raw "") &&' ($receipt.["entries"] ==' int 0)) "".
Definition check_loopback (folder : parts) (i : nat) (item : val) : res unit :=
  let n := string_of_Z (Z.of_nat i + 1) in
  assertR ($item ==' read t (under folder ("r" +:+ n +:+ "/run.json"))) "" ;;;
  assertR (noneR ($item.["server_exit_before_shutdown"])) "" ;;;
  assertR ((shards <- iterR ($item.["result"].["shards"]) ;; sumR (fun s => $s.["measurement"].["succeeded"]) shards)
           ==' $item.["summary"].["measurement"].["succeeded"]) "" ;;;
  receipts <- iterR ($item.["result"].["failure_logs"]) ;;
  eachR (check_receipt folder n) receipts.

(** The runs of a case and what the audit says of them. *)
Definition runs_of (case : string) (folder : parts) (report : val) : res (list val * val) :=
  if negb (String.eqb case "loopback") then
    audited <- audit t folder ;;
    runs <- iterR ($report.["runs"]) ;;
    Ok (runs, audited)
  else
    items <- iterR ($report.["runs"]) ;;
    runs <- mapR (fun item => $item.["summary"]) items ;;
    eachR (fun ii => check_loopback folder ii.1 ii.2) (combine (seq 0 (length items)) items) ;;;
    Ok (runs, obj [("passed", VBool true); ("trials", VInt (Z.of_nat (length runs))); ("failure_records", VInt 0)]).

Definition check_full (run : val) : res unit :=
  assertR (chain_eq ($run.["ready_connections"]) [$run.["alive_connections"]; int 16384]) "" ;;;
  assertR (test ($run.["full_population"])) "".

Definition group_of (case : string) (report : val) (runs : list val) : expr :=
  arguments <- get ($report) "arguments" ;;
  mkdict
    [("case", str case); ("trials", int (Z.of_nat (length runs))); ("instrumented_client", $(VBool (is_instrumented case)));
     ("client_sha256", $report.["binary_sha256"].["client"]); ("arguments", $arguments);
     ("median_rps", medianR (fun r => $r.["requests_per_second"]) runs);
     ("rps_range", rmap VList (mapR id [minR (fun r => $r.["requests_per_second"]) runs; maxR (fun r => $r.["requests_per_second"]) runs]));
     ("median_p99_ms", medianR (fun r => $r.["p99_ms"]) runs);
     ("measured_successes", sumR (fun r => $r.["measurement"].["succeeded"]) runs);
     ("failures", dictcomp ["setup"; "holding"; "warmup"; "measurement"] (fun phase => sumR (fun r => $r.[phase].["failed"]) runs));
     ("measured_failures_by_trial", listR (fun r => $r.["measurement"].["failed"]) runs)].

Record progress := Progress { groups : list val; paired : list val; audited_ : dict }.

Definition case_step (input_root : parts) (expected_server expected_client : val) (st : progress) (case : string) : res progress :=
  let folder := under input_root ("zhtps-http2-diagnose-" +:+ case) in
  report <- read t (under folder "results.json") ;;
  assertR ($report.["binary_sha256"].["zhtps"] ==' $expected_server) "" ;;;
  let* (runs, audited) := runs_of case folder report in
  eachR check_full runs ;;;
  (if is_instrumented case then Ok tt else assertR ($report.["binary_sha256"].["client"] ==' $expected_client) "") ;;;
  group <- group_of case report runs ;;
  rows <- (if is_instrumented case then mapR (paired_row case folder) runs else Ok []) ;;
  Ok (Progress (groups st ++ [group]) (paired st ++ rows) (dset (VStr case) audited (audited_ st))).

(** ** The report *)

Definition total_of (l : list val) (k : string) : expr := sumR (fun g => $g.[k]) l.
Definition selected (keys : list string) (v : val) : expr := dictcomp keys (fun k => $v.[k]).

(** [main] from its parsed arguments on; [root] is the directory of the repository. *)
Definition main (root input_root destination : parts) : res (list output) :=
  lan <- read t (under root "docs/http2-lan/summary.json") ;;
  expected_server <- $lan.["binary_sha256"].["zhtps"] ;;
  expected_client <- $lan.["binary_sha256"].["client"] ;;
  st <- foldR (case_step input_root expected_server expected_client) (Progress [] [] []) CASES ;;
  total <- total_of (groups st) "trials" ;;
  text <- json_dumps2 (obj [("server_sha256", expected_server); ("groups", VList (groups st)); ("paired", VList (paired st));
                            ("audit", VDict (audited_ st)); ("total_trials", total)]) ;;
  shown <- mkdict
    [("trials", $total); ("paired_connections", total_of (paired st) "captured");
     ("groups", listR (selected ["case"; "median_rps"; "failures"]) (groups st));
     ("nic_samples", l <- filterR (fun p => test ($p.["nic"])) (paired st) ;; listR (selected ["case"; "nic"]) l)] ;;
  summary <- json_dumps2 shown ;;
  Ok [Written (str_path destination) (text +:+ nl); Printed (summary +:+ nl)].
End Script.

(** ** The counter of missed frames *)

Lemma neighbours_cons {A} (x y : A) l : neighbours (x :: y :: l) = (x, y) :: neighbours (y :: l).
Proof. done. Qed.

(** The readings of a counter that has counted [cs] frames. *)
Definition counts_frames (nic : string) (rows : list val) (cs : list Z) : Prop :=
  Forall2 (fun row c => reading nic row = int (c mod 65536)) rows cs.

(** A comprehension over the neighbouring rows, in terms of the frames. *)
Lemma map_neighbours nic (f : val * val -> expr) (g : Z -> Z -> val) rows cs :
  (forall a b x y, reading nic a = int (x mod 65536) -> reading nic b = int (y mod 65536) -> f (a, b) = Ok (g x y)) ->
  counts_frames nic rows cs -> mapR f (neighbours rows) = Ok (map (fun xy => g xy.1 xy.2) (neighbours cs)).
Proof.
  intros Hf. induction 1 as [|a x rows cs Ha Hr IH]; [done|]. destruct Hr as [|b y rows cs Hb Hr]; [done|].
  rewrite !neighbours_cons. cbn [mapR map fst snd]. by rewrite (Hf a b x y Ha Hb), IH.
Qed.

Lemma sum_step_bool z b : sum_step (VInt z, f64_zero) (VBool b) = Ok (VInt (z + Z.b2z b), f64_zero).
Proof. by destruct b. Qed.
Lemma py_sum_bool l : py_sum (map VBool l) = int (sumZ (map Z.b2z l)).
Proof.
  unfold py_sum. assert (G : forall z, foldR sum_step (VInt z, f64_zero) (map VBool l) = Ok (VInt (z + sumZ (map Z.b2z l)), f64_zero)).
  { induction l as [|b l IH]; intros z; cbn [map foldR sumZ]; [by rewrite Z.add_0_r|]. rewrite sum_step_bool. cbn [rbind].
    rewrite IH. do 3 f_equal. lia. }
  by rewrite G.
Qed.

Lemma increment_frames nic a b x y :
  reading nic a = int (x mod 65536) -> reading nic b = int (y mod 65536) -> increment nic (a, b) = Ok (VInt ((y - x) mod 65536)).
Proof. intros Ha Hb. unfold increment. cbn [fst snd]. rewrite Ha, Hb. cbn. by rewrite <- Zminus_mod. Qed.
Lemma wrap_frames nic a b x y :
  reading nic a = int (x mod 65536) -> reading nic b = int (y mod 65536) ->
  boolR (reading nic (a, b).2 <' reading nic (a, b).1) = Ok (VBool (y mod 65536 <? x mod 65536)).
Proof. intros Ha Hb. cbn [fst snd]. rewrite Ha, Hb. unfold ltR, lift2. cbn [rbind int]. by rewrite py_ltb_int. Qed.

(** What is counted between the first and the last of [cs]. *)
Definition increments (cs : list Z) : Z := sumZ (map (fun xy => (xy.2 - xy.1) mod 65536) (neighbours cs)).
Definition wraps (cs : list Z) : Z := sumZ (map Z.b2z (map (fun xy => xy.2 mod 65536 <? xy.1 mod 65536) (neighbours cs))).
Definition rising (cs : list Z) : Prop := Forall (fun xy => xy.1 <= xy.2) (neighbours cs).
Definition slow (cs : list Z) : Prop := Forall (fun xy => xy.2 - xy.1 < 65536) (neighbours cs).

Lemma step_frames x y : (y - x) mod 65536 = y mod 65536 - x mod 65536 + 65536 * Z.b2z (y mod 65536 <? x mod 65536).
Proof.
  pose proof (Z.mod_pos_bound x 65536 ltac:(lia)). pose proof (Z.mod_pos_bound y 65536 ltac:(lia)). rewrite Zminus_mod.
  destruct (Z.ltb_spec (y mod 65536) (x mod 65536)); cbn [Z.b2z].
  - symmetry. apply Z.mod_unique with (-1); lia.
  - rewrite Z.mod_small; lia.
Qed.

Lemma frames_counted x cs z :
  rising (x :: cs) -> last (x :: cs) = Some z ->
  increments (x :: cs) = z mod 65536 - x mod 65536 + 65536 * wraps (x :: cs)
  /\ x <= z /\ 0 <= wraps (x :: cs) <= z / 65536 - x / 65536
  /\ (slow (x :: cs) -> wraps (x :: cs) = z / 65536 - x / 65536).
Proof.
  unfold increments, wraps. revert x. induction cs as [|y cs IH]; intros x Hr Hz.
  { injection Hz as ->. cbn. split_and!; lia. }
  unfold rising, slow in *. rewrite neighbours_cons in *. apply Forall_cons in Hr as [Hxy Hr]. cbn [fst snd] in Hxy.
  destruct (IH y Hr Hz) as (E & Hle & [Hw1 Hw2] & Hs). cbn [map sumZ fst snd] in *.
  pose proof (step_frames x y) as Ex. pose proof (Z.div_mod x 65536 ltac:(lia)). pose proof (Z.div_mod y 65536 ltac:(lia)).
  pose proof (Z.mod_pos_bound x 65536 ltac:(lia)). pose proof (Z.mod_pos_bound y 65536 ltac:(lia)).
  assert (Hd : 0 <= Z.b2z (y mod 65536 <? x mod 65536) <= y / 65536 - x / 65536).
  { destruct (Z.ltb_spec (y mod 65536) (x mod 65536)); cbn [Z.b2z]; lia. }
  split_and!; [lia|lia|lia|lia|]. intros [Hxs Hs']%Forall_cons. cbn [fst snd] in Hxs. rewrite (Hs Hs').
  destruct (Z.ltb_spec (y mod 65536) (x mod 65536)); cbn [Z.b2z]; lia.
Qed.

(** C9: What the summary of a network card says of a counter that only counts up.  The first and the last of the rows in the window
    have seen [first] and [last] frames; whatever happened in between, the sum of the increments modulo 65536 differs from
    [last - first] by a multiple of 65536 and does not exceed it, and no more wraps are observed than there were.  When no interval
    between two rows had 65536 frames or more - the caveat the result carries - both numbers are exact. *)
Theorem nic_samples_exact t nic path start end_ speed result :
  nic_samples t nic path start end_ speed = Ok result ->
  exists all_rows rows, json_rows t path = Ok all_rows /\ window start end_ all_rows = Ok rows /\ (1 < length rows)%nat
  /\ forall cs, counts_frames nic rows cs -> rising cs ->
     exists first last_ m w, head cs = Some first /\ last cs = Some last_
       /\ $result.["modulo_increment"] = int m /\ $result.["observed_wraps"] = int w
       /\ 0 <= m <= last_ - first /\ m mod 65536 = (last_ - first) mod 65536 /\ 0 <= w <= last_ / 65536 - first / 65536
       /\ (slow cs -> m = last_ - first /\ w = last_ / 65536 - first / 65536).
Proof.
  unfold nic_samples. intros (all_rows & Ha & H)%rbind_ok. apply rbind_ok in H as (? & _ & H). apply rbind_ok in H as (rows & Hw & H).
  apply rbind_ok in H as (? & Hl & H). apply rbind_ok in H as (max_gap & _ & H). exists all_rows, rows.
  destruct (Nat.ltb_spec 1 (length rows)) as [Hlen|]; [|done]. split_and!; [done|done|done|]. clear Ha Hw Hl. intros cs Hc Hr.
  unfold nic_summary in H. apply rbind_ok in H as (? & _ & H). apply rbind_ok in H as (gaps & _ & H).
  destruct (mkdict_get _ _ "modulo_increment" _ H eq_refl) as (m & Hm & Em).
  destruct (mkdict_get _ _ "observed_wraps" _ H eq_refl) as (w & Hw & Ew).
  unfold sum_pairs in Hm, Hw. rewrite (map_neighbours nic _ (fun x y => VInt ((y - x) mod 65536)) _ _ (increment_frames nic) Hc) in Hm.
  rewrite (map_neighbours nic _ (fun x y => VBool (y mod 65536 <? x mod 65536)) _ _ (wrap_frames nic) Hc) in Hw.
  cbn [rbind] in Hm, Hw. rewrite <- (map_map (fun xy => (xy.2 - xy.1) mod 65536) VInt), py_sum_int in Hm.
  rewrite <- (map_map (fun xy => xy.2 mod 65536 <? xy.1 mod 65536) VBool), py_sum_bool in Hw. injection Hm as <-. injection Hw as <-.
  apply Forall2_length in Hc. destruct cs as [|c cs]; [cbn in Hc; lia|]. destruct (last (c :: cs)) as [z|] eqn:Ez; [|by apply last_None in Ez].
  destruct (frames_counted c cs z Hr Ez) as (E & Hle & Hwr & Hs). exists c, z, (increments (c :: cs)), (wraps (c :: cs)).
  pose proof (Z.div_mod c 65536 ltac:(lia)). pose proof (Z.div_mod z 65536 ltac:(lia)).
  assert (0 <= increments (c :: cs)).
  { apply sumZ_nonneg, Forall_forall. intros y (xy & -> & _)%list_elem_of_fmap. apply Z.mod_pos_bound. lia. }
  split_and!; try done; lia.
Qed.

(** *** A counter that wraps once *)

Definition card_row (started finished frames : Z) : val :=
  obj [("started_ns", VInt started); ("finished_ns", VInt finished); ("counters", obj [("eth0", VInt (frames mod 65536))])].
Definition card_tree : tree :=
  Tree [(path_of "/r/nic.jsonl",
         join nl (map (fun r => value_or "" (json_dumps r)) [card_row 0 1 0; card_row 10 11 65000; card_row 20 21 65000; card_row 30 31 70000; card_row 90 91 9]))]
       (path_of "/r").
Definition card_frames : list Z := [65000; 65000; 70000].

Example card_summary :
  (r <- nic_samples card_tree "eth0" (path_of "nic.jsonl") (VInt 5) (VInt 50) 2500 ;;
   mapR (fun k => $r.[k]) ["samples"; "modulo_increment"; "observed_wraps"; "positive_intervals"; "ambiguous_wrap_intervals"])
  = Ok [VInt 3; VInt 5000; VInt 1; VInt 1; VInt 0].
Proof. vm_compute. reflexivity. Qed.

Definition card_result : val := value_or VNone (nic_samples card_tree "eth0" (path_of "nic.jsonl") (VInt 5) (VInt 50) 2500).
Lemma nic_samples_exact_witness :
  nic_samples card_tree "eth0" (path_of "nic.jsonl") (VInt 5) (VInt 50) 2500 = Ok card_result
  /\ $card_result.["modulo_increment"] = int 5000 /\ $card_result.["observed_wraps"] = int 1.
Proof.
  assert (H : nic_samples card_tree "eth0" (path_of "nic.jsonl") (VInt 5) (VInt 50) 2500 = Ok card_result) by (vm_compute; reflexivity).
  split; [exact H|]. apply nic_samples_exact in H as (all_rows & rows & Ha & Hw & _ & H).
  vm_compute in Ha. injection Ha as <-. vm_compute in Hw. injection Hw as <-.
  destruct (H card_frames) as (f & l & m & w & [= <-] & [= <-] & Hm & Hw' & _ & _ & _ & S).
  - repeat constructor.
  - repeat constructor; discriminate.
  - destruct S as [-> ->]; [repeat constructor|]. split; [exact Hm|exact Hw'].
Defined.
