(* ===== verification/SummarizeHttp2Variants.v ===== *)
(** * [bench/summarize_http2_variants.py]: paired variants of the server

    [main] audits the trials of every folder, reports the medians of every workload and variant, and pairs the repeats of a
    candidate with those of the baseline.  The groups are a dictionary that gives an empty list for a missing key. *)

From stdpp Require Import base list strings sets.
From Stdlib Require Import ZArith Lia Ascii.
From S2P Require Import Prelude PyFloat PyText PyVal PyJson PyScript PyStats Evidence AuditHttp2Lan SummarizeHttp2Lan SummarizeHttp2Storage.

Local Open Scope Z_scope.
Open Scope py_scope.

(** ** Groups *)

Definition memory (snapshot : val) (field : string) : expr := if is_none snapshot then Ok VNone else status_bytes snapshot field.

(** [groups[key]] of a [defaultdict(list)] *)
Definition members (groups : grouping) (k : val) : list val :=
  match List.find (fun kg => py_eqb k kg.1) groups with Some kg => kg.2 | None => [] end.

Definition run_row (run : val) : expr :=
  fields <- py_items run ;;
  row <- setR (VDict fields) "rss_bytes" (s <- $run.["server_after"] ;; memory s "VmRSS") ;;
  row <- setR row "peak_rss_bytes" (s <- $run.["server_after"] ;; memory s "VmHWM") ;;
  row <- setR row "prepared_rss_bytes" (s <- $run.["server_prepared"] ;; memory s "VmRSS") ;;
  setR row "measurement_failure_rate"
    ($run.["measurement"].["failed"] /' (attempted <- $run.["measurement"].["attempted"] ;; py_max [VInt 1; attempted])).
Definition group_key (folder : parts) (report run : val) : expr :=
  tupleR [str (name folder); $report.["arguments"].["location"]; $run.["workers"]; $run.["connections"]; $run.["variant"]].
Definition add_run (folder : parts) (report : val) (groups : grouping) (run : val) : res grouping :=
  row <- run_row run ;; k <- key (group_key folder report run) ;; Ok (add_group groups k row).

Section Tree.
Context (t : tree).

Definition add_folder (st : list val * grouping) (folder : parts) : res (list val * grouping) :=
  audited <- (v <- audit t folder ;; py_items v) ;;
  report <- read t (under folder "results.json") ;;
  runs <- iterR ($report.["runs"]) ;;
  groups <- foldR (add_run folder report) st.2 runs ;;
  Ok (st.1 ++ [VDict (dupdate [(VStr "folder", VStr (str_path folder))] audited)], groups).

(** ** Rows *)

Definition median_fields : list string :=
  ["requests_per_second"; "server_cpu_us_per_request"; "p50_ms"; "p99_ms"; "rss_bytes"; "peak_rss_bytes"; "prepared_rss_bytes";
   "measurement_failure_rate"; "server_cpu_cores"; "client_cpu_cores"].
Definition median_columns (runs : list val) (row : val) (field : string) : expr :=
  values <- mapR (fun run => $run.[field]) runs ;;
  row <- setR row field (py_median values) ;;
  setR row (field +:+ "_range") (rmap VList (mapR id [py_min values; py_max values])).
Definition phase_columns (runs : list val) (row : val) (phase : string) : expr :=
  foldR (fun row field => setR row (phase +:+ "_" +:+ field) (sumR (fun run => $run.[phase].[field]) runs)) row stat_names.

Definition group_row (k : val) (runs : list val) : expr :=
  let first := firstR runs in
  row <- mkdict
    [("experiment", idx_at ($k) 0); ("location", idx_at ($k) 1); ("workers", idx_at ($k) 2); ("connections", idx_at ($k) 3);
     ("streams", first.["streams"]); ("variant", idx_at ($k) 4); ("trials", int (Z.of_nat (length runs)));
     ("full_population_trials", sumR (fun run => $run.["full_population"]) runs);
     ("server_binary_sha256", first.["server_binary_sha256"])] ;;
  assertR (allR (fun run => $run.["server_binary_sha256"] ==' $row.["server_binary_sha256"]) runs) "" ;;;
  row <- foldR (median_columns runs) row median_fields ;;
  row <- foldR (phase_columns runs) row PHASES ;;
  row <- setR row "setup_unattempted" (sumR (fun run => $run.["setup_unattempted"]) runs) ;;
  setR row "failure_records" (sumR (fun run => $run.["failure_log_entries"]) runs).
Definition rows_of (groups : grouping) : res (list val) :=
  sorted <- py_sorted_by fst groups ;; mapR (fun kg => group_row kg.1 kg.2) sorted.

(** ** Pairs *)

(** [a and b] as a value *)
Definition andE (a b : expr) : expr := x <- a ;; if truthy x then b else Ok x.
Definition by_repeat (runs : list val) : res dict := dict_by (fun run => $run.["repeat"]) (fun run => $run) runs.
Definition paired_fields : list string := ["requests_per_second"; "server_cpu_us_per_request"; "p99_ms"; "rss_bytes"; "peak_rss_bytes"].

Definition change (a b : expr) : expr := (b /' a -' int 1) *' int 100.
Definition paired_columns (before after : list val) (old new : dict) (pair : val) (field : string) : expr :=
  repeats <- py_sorted (map fst old) ;;
  changes <- mapR (fun i => change (at_ ($(VDict old)) ($i)).[field] (at_ ($(VDict new)) ($i)).[field]) repeats ;;
  pair <- setR pair (field +:+ "_paired_percent") ($(VList changes)) ;;
  pair <- setR pair (field +:+ "_paired_median_percent") (py_median changes) ;;
  setR pair (field +:+ "_median_percent")
    ((medianR (fun run => $run.[field]) after /' medianR (fun run => $run.[field]) before -' int 1) *' int 100).

Definition pair_of (groups : grouping) (folder : parts) (report baseline candidate workers connections : val) : expr :=
  location <- $report.["arguments"].["location"] ;;
  let k variant := key (tupleR [str (name folder); $location; $workers; $connections; $variant]) in
  before <- rmap (members groups) (k baseline) ;;
  after <- rmap (members groups) (k candidate) ;;
  old <- by_repeat before ;;
  new <- by_repeat after ;;
  require (set_eqb (map fst old) (map fst new)) "" ;;;
  pair <- mkdict
    [("experiment", str (name folder)); ("location", $location); ("workers", $workers); ("connections", $connections);
     ("baseline", $baseline); ("candidate", $candidate); ("pairs", int (Z.of_nat (length old)));
     ("full_population_pairs",
        sumR (fun i => andE (at_ ($(VDict old)) ($i)).["full_population"] (at_ ($(VDict new)) ($i)).["full_population"]) (map fst old))] ;;
  pair <- foldR (paired_columns before after old new) pair paired_fields ;;
  pair <- setR pair "before_failures" (sumR (fun run => $run.["failure_log_entries"]) before) ;;
  setR pair "after_failures" (sumR (fun run => $run.["failure_log_entries"]) after).

Definition workloads (report : val) : res (list val) :=
  runs <- iterR ($report.["runs"]) ;; s <- set_by (fun run => tupleR [$run.["workers"]; $run.["connections"]]) runs ;; py_sorted s.
Definition candidate_pairs (groups : grouping) (folder : parts) (report baseline candidate : val) : res (list val) :=
  l <- workloads report ;;
  mapR (fun wc => workers <- idx_at ($wc) 0 ;; connections <- idx_at ($wc) 1 ;; pair_of groups folder report baseline candidate workers connections) l.
Definition folder_pairs (groups : grouping) (folder : parts) : res (list val) :=
  report <- read t (under folder "results.json") ;;
  variants <- iterR ($report.["variants"]) ;;
  match variants with
  | [] => raise ValueError "not enough values to unpack (expected at least 1, got 0)"
  | baseline :: candidates => rmap (@concat _) (mapR (candidate_pairs groups folder report baseline) candidates)
  end.

(** ** The script *)

Definition pair_line (pair : val) : res output :=
  text <- fstring [V ($pair.["experiment"]); F " w"; V ($pair.["workers"]); F " c"; V ($pair.["connections"]); F " ";
                   V ($pair.["candidate"]); F ": RPS "; V_ format_change ($pair.["requests_per_second_median_percent"]);
                   F "%, CPU/req "; V_ format_change ($pair.["server_cpu_us_per_request_median_percent"]);
                   F "%, RSS "; V_ format_change ($pair.["rss_bytes_median_percent"]); F "%, failures ";
                   V ($pair.["before_failures"]); F " -> "; V ($pair.["after_failures"])] ;;
  Ok (Printed (text +:+ nl)).

(** [[key for key in rows[0] if not key.endswith('_range')]] *)
Definition columns_of (rows : list val) : res (list val) :=
  keys <- iterR (firstR rows) ;; filterR (fun k => s <- as_str k ;; Ok (negb (endswith "_range" s))) keys.

(** [main] from its parsed arguments on. *)
Definition main (folders : list parts) (destination : string) : res (list output) :=
  st <- foldR add_folder ([], []) folders ;;
  rows <- rows_of st.2 ;;
  pairs <- rmap (@concat _) (mapR (folder_pairs st.2) folders) ;;
  text <- json_dumps2 (obj [("audits", VList st.1); ("rows", VList rows); ("pairs", VList pairs)]) ;;
  csv <- with_suffix ".csv" destination ;;
  columns <- columns_of rows ;;
  table <- dict_rows false columns rows ;;
  lines <- mapR pair_line pairs ;;
  Ok ([Written destination (text +:+ nl); Written csv table] ++ lines).
End Tree.

(** ** No trial is dropped *)

Lemma foldR_groups folder report runs groups groups' :
  foldR (add_run folder report) groups runs = Ok groups' ->
  exists rows, mapR run_row runs = Ok rows /\ concat (map snd groups') ≡ₚ concat (map snd groups) ++ rows.
Proof.
  revert groups. induction runs as [|run runs IH]; intros groups H; cbn in H.
  { injection H as <-. exists []. by rewrite app_nil_r. }
  apply rbind_ok in H as (g1 & H1 & H). unfold add_run in H1. apply rbind_ok in H1 as (row & Hrow & H1). apply rbind_ok in H1 as (k & _ & [= <-]).
  apply IH in H as (rows & Hrows & Hp). exists (row :: rows). cbn [mapR]. rewrite Hrow, Hrows. split; [done|].
  rewrite Hp, add_group_perm. cbn. by rewrite Permutation_middle.
Qed.

(** The rows of the trials of a folder. *)
Definition trials_in (t : tree) (folder : parts) (rows : list val) : Prop :=
  exists report runs, read t (under folder "results.json") = Ok report /\ iterR ($report.["runs"]) = Ok runs /\ mapR run_row runs = Ok rows.

Lemma add_folders t folders st st' :
  foldR (add_folder t) st folders = Ok st' ->
  exists rowss, Forall2 (trials_in t) folders rowss /\ concat (map snd st'.2) ≡ₚ concat (map snd st.2) ++ concat rowss.
Proof.
  revert st. induction folders as [|folder folders IH]; intros st H; cbn in H.
  { injection H as <-. exists []. split; [constructor|by rewrite app_nil_r]. }
  apply rbind_ok in H as (st1 & H1 & H). unfold add_folder in H1. apply rbind_ok in H1 as (? & _ & H1). apply rbind_ok in H1 as (report & Hr & H1).
  apply rbind_ok in H1 as (runs & Hruns & H1). apply rbind_ok in H1 as (groups & Hg & [= <-]). apply foldR_groups in Hg as (rows & Hrows & Hp).
  apply IH in H as (rowss & Hf & Hq). exists (rows :: rowss). split; [constructor; [by exists report, runs|done]|].
  cbn [snd] in Hq. rewrite Hq, Hp. cbn [concat]. by rewrite app_assoc.
Qed.

(** A row of the summary counts its trials and adds their failures up. *)
Definition accounted (kg : val * list val) (row : val) : Prop :=
  $row.["trials"] = int (Z.of_nat (length kg.2)) /\ $row.["failure_records"] = sumR (fun run => $run.["failure_log_entries"]) kg.2
  /\ exists sha, $row.["server_binary_sha256"] = Ok sha /\ Forall (fun run => ($run.["server_binary_sha256"] ==' $sha) = Ok true) kg.2.

Lemma median_columns_keep runs row fields row' k :
  (forall f, f ∈ fields -> k <> f /\ k <> f +:+ "_range") -> foldR (median_columns runs) row fields = Ok row' -> $row'.[k] = $row.[k].
Proof.
  intros Hk. apply (foldR_inv (fun r => $r.[k] = $row.[k])); [done|]. intros r1 f r2 Hf E H. destruct (Hk f Hf) as [N1 N2].
  unfold median_columns in H. apply rbind_ok in H as (values & _ & H). apply rbind_ok in H as (r & H1 & H2).
  by rewrite (setR_other _ _ _ _ _ H2), (setR_other _ _ _ _ _ H1).
Qed.
Lemma phase_columns_keep runs row row' k :
  (forall phase f, phase ∈ PHASES -> f ∈ stat_names -> k <> phase +:+ "_" +:+ f) -> foldR (phase_columns runs) row PHASES = Ok row' ->
  $row'.[k] = $row.[k].
Proof.
  intros Hk. apply (foldR_inv (fun r => $r.[k] = $row.[k])); [done|]. intros r1 phase r2 Hp E.
  unfold phase_columns. apply (foldR_inv (fun r => $r.[k] = $row.[k])); [done|]. intros r3 f r4 Hf E3 H.
  rewrite (setR_other _ _ _ _ _ H); [done|by apply Hk].
Qed.

Lemma group_row_accounted k runs row : group_row k runs = Ok row -> accounted (k, runs) row.
Proof.
  unfold group_row. cbv zeta. intros (row0 & H0 & H)%rbind_ok. apply rbind_ok in H as (? & Hs%assertR_ok & H).
  apply rbind_ok in H as (row1 & H1 & H). apply rbind_ok in H as (row2 & H2 & H). apply rbind_ok in H as (row3 & H3 & H4).
  assert (K : forall q, q ∈ ["trials"; "server_binary_sha256"] -> $row.[q] = $row0.[q]).
  { intros q Hq. rewrite (setR_other _ _ _ _ _ H4), (setR_other _ _ _ _ _ H3) by (intros ->; revert Hq; computed).
    rewrite (phase_columns_keep _ _ _ q ltac:(clear -Hq; unfold PHASES, stat_names; intros phase f Hp Hf; each_of Hq; each_of Hp; each_of Hf; done) H2).
    apply (median_columns_keep _ _ median_fields _ q ltac:(clear -Hq; unfold median_fields; intros f Hf; each_of Hq; each_of Hf; done) H1). }
  split_and!.
  - rewrite K by computed. by destruct (mkdict_get _ _ "trials" _ H0 eq_refl) as (w & [= <-] & ->).
  - by apply setR_new in H4 as (v & E & ->).
  - rewrite K by computed. destruct (mkdict_get _ _ "server_binary_sha256" _ H0 eq_refl) as (sha & _ & Hsha). rewrite Hsha in Hs.
    exists sha. split; [exact Hsha|]. by apply allR_ok in Hs.
Qed.

(** Every trial of every folder is in exactly one row, which counts it, with its failures, and was measured with the build of the row. *)
Theorem variants_rows_partition t folders st rows :
  foldR (add_folder t) ([], []) folders = Ok st -> rows_of st.2 = Ok rows ->
  exists rowss groups, Forall2 (trials_in t) folders rowss /\ concat (map snd groups) ≡ₚ concat rowss /\ Forall2 accounted groups rows.
Proof.
  intros (rowss & Hf & Hp)%add_folders H. unfold rows_of in H. apply rbind_ok in H as (groups & Hg%py_sorted_by_perm & H%mapR_ok).
  exists rowss, groups. split_and!; [done| |].
  - rewrite <- Hp. by rewrite Hg.
  - eapply Forall2_impl; [exact H|]. intros [k runs] row. apply group_row_accounted.
Qed.

(** *** Two repeats of two builds *)

Definition sample_snapshot (kb : Z) : val :=
  obj [("status", VList (map (fun f => VStr (f +:+ ": " +:+ string_of_Z kb +:+ " kB")) ["VmHWM"; "VmRSS"]))].
Definition sample_run (variant : string) (repeat rate : Z) : val :=
  let phase := obj [("attempted", VInt 10); ("succeeded", VInt 10); ("failed", VInt 0)] in
  obj ([("workers", VInt 1); ("connections", VInt 64); ("streams", VInt 4); ("repeat", VInt repeat); ("variant", VStr variant);
        ("server_binary_sha256", VStr variant); ("server_after", sample_snapshot 10); ("server_prepared", VNone);
        ("requests_per_second", VInt rate); ("full_population", VBool true); ("setup_unattempted", VInt 0); ("failure_log_entries", VInt 0)]
       ++ map (fun k => (k, VInt 2)) ["server_cpu_us_per_request"; "p50_ms"; "p99_ms"; "server_cpu_cores"; "client_cpu_cores"]
       ++ map (fun phase_ => (phase_, phase)) PHASES).
Definition sample_report : val := obj [("arguments", obj [("location", VStr "loopback")])].
Definition sample_groups : grouping :=
  value_or [] (foldR (add_run (path_of "out") sample_report) []
    [sample_run "old" 0 100; sample_run "new" 0 110; sample_run "new" 1 121; sample_run "old" 1 110]).

(** The prepared server had ended, so its memory has no median. *)
Example sample_median_missing : is_ok (rows_of sample_groups) = false.
Proof. vm_compute. reflexivity. Qed.
Example sample_pair :
  (pair <- pair_of sample_groups (path_of "out") sample_report (VStr "old") (VStr "new") (VInt 1) (VInt 64) ;; pair_line pair)
  = Ok (Printed ("out w1 c64 new: RPS +10.0%, CPU/req +0.0%, RSS +0.0%, failures 0 -> 0" +:+ nl)).
Proof. vm_compute. reflexivity. Qed.
