(* ===== verification/MeasureKernelLayout.v ===== *)
(** * [bench/measure_kernel_layout.py]: cache lines of the fields a request touches

    [main] builds a program that prints the compiled layouts, reads its output ([parse_layouts]) and counts the cache lines of
    two groups of fields at every position within a line ([coverage]).  The printed names are ASCII. *)

From stdpp Require Import base list strings gmap.
From Stdlib Require Import ZArith Lia Ascii.
From S2P Require Import Prelude PyFloat PyText PyVal PyJson PyScript PyHash Evidence PyIO System RemoteLoad Compare.

Local Open Scope Z_scope.
Open Scope py_scope.

(** ** The printed layouts *)

Definition find {A} (k : string) (d : list (string * A)) : res A := of_option (assoc k d) KeyError (py_repr (VStr k)).

Record field := Field { f_offset : Z; f_size : Z }.
Record layout := Layout { l_size : Z; l_alignment : Z; l_fields : list (string * field) }.
Abbreviation layouts := (list (string * layout)).

Definition is_word (a : ascii) : bool := is_alnum a || Ascii.eqb a "_".
Definition is_name (a : ascii) : bool := is_word a || Ascii.eqb a ".".

(** [s] without the prefix [p] *)
Definition after (p s : string) : option string := if startswith p s then Some (str_drop (String.length p) s) else None.
(** [(\d+)] and what follows *)
Definition digits (s : string) : option (Z * string) :=
  let '(ds, rest) := span is_digit s in
  match parse_int ds with Some n => Some (n, rest) | None => None end.
(** [name: first=n second=m] with [name] of the given characters, and nothing else *)
Definition match_line (class : ascii -> bool) (first second line : string) : option (string * Z * Z) :=
  nr ← split_once ":" line;
  let '(name, rest) := nr in
  if String.eqb name "" || negb (str_forall class name) then None else
  rest ← after (" " +:+ first +:+ "=") rest;
  nr ← digits rest;
  let '(n, rest) := nr in
  rest ← after (" " +:+ second +:+ "=") rest;
  mr ← digits rest;
  let '(m, rest) := mr in
  if String.eqb rest "" then Some (name, n, m) else None.
Definition match_layout (line : string) : option (string * Z * Z) := match_line is_name "size" "align" line.
Definition match_field (line : string) : option (string * Z * Z) := rest ← after "  " line; match_line is_word "offset" "bytes" rest.

(** The layouts so far and the name of the one whose fields follow; it is the last that was stored under that name. *)
Definition parse_line (st : layouts * option string) (line : string) : res (layouts * option string) :=
  match match_layout line with
  | Some (name, size, align) => Ok (assign name (Layout size align []) st.1, Some name)
  | None =>
      match match_field line with
      | None => Ok st
      | Some (name, offset, size) =>
          current <- of_option st.2 TypeError "'NoneType' object is not subscriptable" ;;
          l <- find current st.1 ;;
          Ok (assign current (Layout (l_size l) (l_alignment l) (assign name (Field offset size) (l_fields l))) st.1, st.2)
      end
  end.
Definition parse_layouts (output : string) : res layouts := rmap fst (foldR parse_line ([], None) (splitlines output)).

(** ** Cache lines *)

Definition groups : list (string * list string) :=
  [("completion", ["fd"; "generation"; "pending"; "phase"; "receive_pending"; "send_pending"]);
   ("request_io", ["fd"; "phase"; "receive_buffer"; "receive_start"; "receive_end"; "output_buffer"; "output_len"; "output_sent"; "body"; "body_sent";
                   "send_pending"; "receive_pending"; "request_started"; "request_completed"; "first_byte_recorded"; "request_id"; "started_ns";
                   "deadline"; "requests"; "response_status"; "permit"; "response_body_bytes"; "streaming"; "interim"; "close_after_response";
                   "more_pending"; "more_count"])].
Definition parser_fields : list string :=
  ["head_storage"; "limits"; "request"; "phase"; "head_len"; "leading_lines"; "first_line"; "spaces"; "target_len"].

Definition range_of (l : layout) (base : Z) (name : string) : res (Z * Z) :=
  entry <- find name (l_fields l) ;; Ok (base + f_offset entry, f_size entry).
(** The ranges of a group: offset and size of each. *)
Definition ranges_of (connection decoder : layout) (label : string) (fields : list string) : res (list (Z * Z)) :=
  ranges <- mapR (range_of connection 0) fields ;;
  if String.eqb label "request_io" then
    base <- rmap f_offset (find "parser" (l_fields connection)) ;;
    parsed <- mapR (range_of decoder base) parser_fields ;;
    entry <- find "head_fields" (l_fields decoder) ;;
    Ok (ranges ++ parsed ++ [(base + f_offset entry, Z.min 32 (f_size entry))])
  else Ok ranges.

(** [range((alignment+offset)//64, (alignment+offset+size-1)//64+1)] *)
Definition lines_of (alignment : Z) (os : Z * Z) : list Z :=
  let first := (alignment + os.1) / 64 in seqZ first ((alignment + os.1 + os.2 - 1) / 64 + 1 - first).
Definition lines (alignment : Z) (ranges : list (Z * Z)) : gset Z := foldl (fun s os => s ∪ list_to_set (lines_of alignment os)) ∅ ranges.
Definition alignments : list Z := [0; 8; 16; 24; 32; 40; 48; 56].
Definition coverage (ranges : list (Z * Z)) : list Z := map (fun alignment => Z.of_nat (size (lines alignment ranges))) alignments.

Definition model_of (connection decoder : layout) : res (list (string * list Z)) :=
  mapR (fun lf => ranges <- ranges_of connection decoder lf.1 lf.2 ;; Ok (lf.1, coverage ranges)) groups.

(** ** The report *)

Definition field_val (f : field) : val := obj [("offset", VInt (f_offset f)); ("size", VInt (f_size f))].
Definition layout_val (l : layout) : val :=
  obj [("size", VInt (l_size l)); ("alignment", VInt (l_alignment l)); ("fields", obj (map (fun nf => (nf.1, field_val nf.2)) (l_fields l)))].
Definition counts_val (counts : list Z) : expr :=
  mkdict [("cache_lines_by_alignment", $(VList (map VInt counts))); ("mean", int (foldr Z.add 0 counts) /' int (Z.of_nat (length counts)))].
Definition model_val (model : list (string * list Z)) : expr := mkdict (map (fun lc => (lc.1, counts_val lc.2)) model).

Definition OUTPUT (ROOT : string) : parts := under (path_of ROOT) "docs/kernel-work".
Definition WORKSPACE : parts := path_of "/tmp/zhtps-kernel-work".
Definition build_command (ROOT : string) (tree : parts) (zeit : string) : list string :=
  ["zig"; "build-exe"; "-O"; "ReleaseSafe"; "-mcpu=x86_64_v4"; "--cache-dir"; str_path (under tree "layout-cache");
   "--global-cache-dir"; "/tmp/zhtps-zig-global-cache"; "--dep"; "zhtps"; "-Mroot=" +:+ str_path (under (OUTPUT ROOT) "layout.zig"); "--dep"; "zeit";
   "-Mzhtps=" +:+ str_path (under tree "src/root.zig"); "-Mzeit=" +:+ zeit; "-femit-bin=" +:+ str_path (under tree "out/bin/layout")].

Definition variant_step (ROOT name : string) : io host unit :=
  let tree := under WORKSPACE name in
  found <~ lift_val py_iter external ;
  zeit <~ lift (v <- of_option (head found) StopIteration "" ;; as_str v) ;
  let command := build_command ROOT tree zeit in
  command_shown command ;~
  result <~ run_process false [str_path (under tree "out/bin/layout")] ;
  (if cp_code result =? 0 then ret tt else throw (Exn CalledProcessError "layout")) ;~
  write_file (str_path (under (OUTPUT ROOT) (name +:+ "-layout.txt"))) (cp_stderr result) ;~
  ls <~ lift (parse_layouts (cp_stderr result)) ;
  connection <~ lift (find "Connection" ls) ;
  decoder <~ lift (find "Connection.Parser" ls) ;
  model <~ lift (m <- model_of connection decoder ;; model_val m) ;
  source <~ read_proc ;
  text <~ lift (json_dumps2 (obj [("command", VList (map VStr command)); ("source_sha256", VStr (sha256_hex source));
                                  ("layouts", obj (map (fun nl => (nl.1, layout_val nl.2)) ls)); ("static_access_model", model)])) ;
  write_file (str_path (under (OUTPUT ROOT) (name +:+ "-layout.json"))) (text +:+ nl) ;~
  say (join " " [name; "connection"; string_of_Z (l_size connection); "parser"; string_of_Z (l_size decoder); "static lines"; py_str model]).

(** [main] from its parsed arguments on. *)
Definition main (ROOT : string) (variants : list string) : io host unit := each (variant_step ROOT) variants.

(** ** Lemmas *)

Theorem layout_stops_everything ROOT variants h r h' : procs h = [] -> main ROOT variants h = (r, h') -> all_exited h'.
Proof. intros Hh. apply tidy_all_exited; [|done]. unfold main, variant_step. cbv zeta. apply tidy_each. intros name. tidily. Qed.

(** The bytes a line at a position holds. *)
Definition touches (alignment : Z) (ranges : list (Z * Z)) (line : Z) : Prop :=
  exists offset size b, (offset, size) ∈ ranges /\ offset <= b < offset + size /\ (alignment + b) / 64 = line.

Lemma elem_of_lines_of alignment offset size line :
  0 < size -> line ∈ lines_of alignment (offset, size) <-> exists b, offset <= b < offset + size /\ (alignment + b) / 64 = line.
Proof.
  intros Hs. unfold lines_of. cbn [fst snd]. rewrite elem_of_seqZ. split.
  - intros [H1 H2]. exists (Z.max offset (64 * line - alignment)).
    pose proof (Z.div_mod (alignment + offset) 64 ltac:(lia)). pose proof (Z.mod_pos_bound (alignment + offset) 64 ltac:(lia)).
    pose proof (Z.div_mod (alignment + offset + size - 1) 64 ltac:(lia)). pose proof (Z.mod_pos_bound (alignment + offset + size - 1) 64 ltac:(lia)).
    split; [lia|]. symmetry. apply (Z.div_unique_pos _ _ _ (alignment + Z.max offset (64 * line - alignment) - 64 * line)); lia.
  - intros (b & Hb & <-). pose proof (Z.div_le_mono (alignment + offset) (alignment + b) 64 ltac:(lia) ltac:(lia)).
    pose proof (Z.div_le_mono (alignment + b) (alignment + offset + size - 1) 64 ltac:(lia) ltac:(lia)). lia.
Qed.

Lemma elem_of_lines_go alignment ranges (s : gset Z) line :
  line ∈ foldl (fun s os => s ∪ list_to_set (lines_of alignment os)) s ranges <-> line ∈ s \/ exists os, os ∈ ranges /\ line ∈ lines_of alignment os.
Proof. revert s. induction ranges as [|os ranges IH]; intros s; cbn; [set_solver|]. rewrite IH. set_solver. Qed.

(** The set is that of the lines that hold a byte of a range. *)
Lemma elem_of_lines alignment ranges line :
  Forall (fun os => 0 < os.2) ranges -> line ∈ lines alignment ranges <-> touches alignment ranges line.
Proof.
  intros Hs. unfold lines. rewrite elem_of_lines_go. split.
  - intros [H|([offset size] & Hin & H)]; [set_solver|]. rewrite Forall_forall in Hs. specialize (Hs _ Hin).
    apply elem_of_lines_of in H as (b & Hb & <-); [|done]. by exists offset, size, b.
  - intros (offset & size & b & Hin & Hb & <-). right. exists (offset, size). split; [done|]. rewrite Forall_forall in Hs. specialize (Hs _ Hin).
    apply elem_of_lines_of; [done|]. by exists b.
Qed.

(** A position that is a whole number of lines further has the same number of lines. *)
Lemma lines_shift alignment k ranges :
  Forall (fun os => 0 < os.2) ranges -> lines (alignment + 64 * k) ranges = set_map (Z.add k) (lines alignment ranges).
Proof.
  intros Hs. apply set_eq. intros line. rewrite elem_of_map. setoid_rewrite elem_of_lines; [|done..].
  assert (D : forall b, (alignment + 64 * k + b) / 64 = k + (alignment + b) / 64).
  { intros b. replace (alignment + 64 * k + b) with (alignment + b + k * 64) by lia. rewrite Z.div_add by lia. lia. }
  split.
  - intros (offset & size & b & Hin & Hb & <-). exists ((alignment + b) / 64). split; [apply D|]. by exists offset, size, b.
  - intros (l & -> & offset & size & b & Hin & Hb & <-). exists offset, size, b. by rewrite D.
Qed.
Lemma size_shifted k (s : gset Z) : size (set_map (Z.add k) s : gset Z) = size s.
Proof.
  induction s as [|x s Hx IH] using set_ind_L; [by rewrite set_map_empty|]. rewrite set_map_union_L, set_map_singleton_L, !size_union, !size_singleton, IH;
    [done|set_solver|]. intros y Hy (z & -> & Hz)%elem_of_map. apply elem_of_singleton in Hy. assert (z = x) as -> by lia. done.
Qed.
Lemma size_lines_shift alignment k ranges :
  Forall (fun os => 0 < os.2) ranges -> size (lines (alignment + 64 * k) ranges) = size (lines alignment ranges).
Proof. intros Hs. rewrite lines_shift by done. apply size_shifted. Qed.

(** C10: Wherever an object lies that is aligned to eight bytes, one of the eight counts is the number of cache lines that hold a
    byte of its ranges. *)
Theorem coverage_complete ranges base :
  Forall (fun os => 0 < os.2) ranges -> (8 | base) ->
  exists (touched : gset Z) i count, coverage ranges !! i = Some count /\ (i < 8)%nat /\ Z.of_nat i = base mod 64 / 8
  /\ count = Z.of_nat (size touched) /\ forall line, line ∈ touched <-> touches base ranges line.
Proof.
  intros Hs [q Hq]. exists (lines base ranges), (Z.to_nat (q mod 8)), (Z.of_nat (size (lines base ranges))).
  pose proof (Z.mod_pos_bound q 8 ltac:(lia)) as Hm. pose proof (Z.div_mod q 8 ltac:(lia)) as Hd.
  assert (E : base = 8 * (q mod 8) + 64 * (q / 8)) by lia.
  split_and!; [|lia| |done|intros line; by apply elem_of_lines].
  - rewrite E, size_lines_shift by done. unfold coverage. rewrite list_lookup_fmap.
    assert (Ha : alignments !! Z.to_nat (q mod 8) = Some (8 * (q mod 8))); [|by rewrite Ha].
    assert (C : q mod 8 = 0 \/ q mod 8 = 1 \/ q mod 8 = 2 \/ q mod 8 = 3 \/ q mod 8 = 4 \/ q mod 8 = 5 \/ q mod 8 = 6 \/ q mod 8 = 7) by lia.
    destruct C as [->|[->|[->|[->|[->|[->|[->| ->]]]]]]]; reflexivity.
  - rewrite Z2Nat.id by lia. subst base. rewrite (Z.mul_comm q 8). replace 64 with (8 * 8) by lia. rewrite Z.mul_mod_distr_l by lia.
    rewrite Z.mul_comm, Z.div_mul by lia. done.
Qed.

(** ** A printed layout *)

Definition layout_text : string :=
  join nl ["compiling"; "Connection: size=24 align=8"; "  fd: offset=0 bytes=4"; "  body: offset=8 bytes=16"; "  note bytes=1"; "Connection.Parser: size=8 align=8";
           "  limits: offset=0 bytes=8"; ""].
Example layout_parsed :
  parse_layouts layout_text
  = Ok [("Connection", Layout 24 8 [("fd", Field 0 4); ("body", Field 8 16)]); ("Connection.Parser", Layout 8 8 [("limits", Field 0 8)])].
Proof. vm_compute. reflexivity. Qed.
(** A field without a layout before it. *)
Example layout_missing : parse_layouts "  fd: offset=0 bytes=4" = raise TypeError "'NoneType' object is not subscriptable".
Proof. vm_compute. reflexivity. Qed.

(** Twenty bytes fit into one line except at the end of one; the object at address 120 is there. *)
Lemma coverage_complete_witness :
  coverage [(0, 4); (8, 12)] = [1; 1; 1; 1; 1; 1; 2; 2]
  /\ exists (touched : gset Z) i count, coverage [(0, 4); (8, 12)] !! i = Some count /\ (i < 8)%nat /\ Z.of_nat i = 120 mod 64 / 8
     /\ count = Z.of_nat (size touched) /\ forall line, line ∈ touched <-> touches 120 [(0, 4); (8, 12)] line.
Proof.
  split; [vm_compute; reflexivity|]. apply (coverage_complete [(0, 4); (8, 12)] 120); [repeat constructor|by exists 15].
Defined.
