(* ===== verification/CompareHotPaths.v ===== *)
(** * [bench/compare_hot_paths.py]: two prebuilt benchmarks of the hot paths

    [main] alternates the two executables and asks that every run does the same work; the summary compares their times case
    by case. *)

From stdpp Require Import base list strings.
From Stdlib Require Import ZArith Lia Ascii.
From S2P Require Import Prelude PyFloat PyText PyVal PyJson PyScript PyStats PyHash Evidence PyIO System RemoteLoad Compare Http2Remote.

Local Open Scope Z_scope.
Open Scope py_scope.

Record Options := mkOptions { before : string; after : string; cpu : Z; iterations : Z; repeats : Z; output : string }.

Definition names : list string := ["before"; "after"].
Definition order (repeat : nat) : list string := if Nat.even repeat then names else rev names.

(** [[json.loads(line) for line in result.stderr.splitlines()]] *)
Definition rows_of (stderr : string) : res (list val) := mapR json_loads (splitlines stderr).
(** What a case has done: its row without the time. *)
Definition outcome_of (row : val) : expr :=
  d <- py_items row ;; Ok (VDict (List.filter (fun kv => negb (py_eqb kv.1 (VStr "elapsed_ns"))) d)).
(** The outcomes are those of the first run, every run has cases, and each took some time.  The first run is compared with
    itself. *)
Definition check_rows (expected : option (list val)) (outcomes rows : list val) : res unit :=
  let differs := match expected with None => false | Some e => negb (py_eqb (VList outcomes) (VList e)) end in
  bad <- Ok differs ||' Ok (length rows =? 0)%nat ||' anyR (fun row => $row.["elapsed_ns"] <=' int 0) rows ;;
  guard bad RuntimeError "benchmark workloads or results differ".

Definition run_command (o : Options) (binary : string) : list string := ["taskset"; "-c"; string_of_Z (cpu o); binary; string_of_Z (iterations o)].

(** The outcomes of the first run, and the report. *)
Abbreviation progress := (option (list val) * val)%type.
Definition trial (o : Options) (binaries : list (string * string)) (repeat : nat) (st : progress) (name : string) : io host progress :=
  binary <~ lift (of_option (assoc name binaries) KeyError name) ;
  let command := run_command o binary in
  result <~ run_process false command ;
  (if cp_code result =? 0 then ret tt else throw (Exn CalledProcessError name)) ;~
  rows <~ lift (rows_of (cp_stderr result)) ;
  outcomes <~ lift (mapR outcome_of rows) ;
  lift (check_rows st.1 outcomes rows) ;~
  report <~ lift (append_run st.2 (obj [("variant", VStr name); ("repeat", VInt (Z.of_nat repeat)); ("command", VList (map VStr command));
                                         ("cases", VList rows)])) ;
  say ("finished " +:+ name +:+ " repeat " +:+ string_of_Z (Z.of_nat repeat + 1)) ;~
  ret (Some (default outcomes st.1), report).
Definition trials (o : Options) (binaries : list (string * string)) (report : val) : io host progress :=
  foldM (fun st repeat => foldM (trial o binaries repeat) st (order repeat)) (None, report) (seq 0 (Z.to_nat (repeats o))).

(** ** The summary *)

Definition samples_of (runs : list val) (name : string) (case : val) : res (list val) :=
  ours <- filterR (fun run => $run.["variant"] ==' str name) runs ;;
  samples <- mapR (fun run => cases <- iterR ($run.["cases"]) ;; rows <- filterR (fun sample => $sample.["case"] ==' $case) cases ;;
                              mapR (fun sample => $sample.["elapsed_ns"] /' $sample.["iterations"]) rows) ours ;;
  Ok (concat samples).
Definition spread (samples : list val) : expr :=
  mkdict [("median_ns", py_median samples); ("min_ns", py_min samples); ("max_ns", py_max samples)].
Definition case_summary (runs : list val) (case : val) : expr :=
  summary <- mkdict (map (fun name => (name, samples <- samples_of runs name case ;; spread samples)) names) ;;
  setR summary "change_percent" (int 100 *' ($summary.["after"].["median_ns"] /' $summary.["before"].["median_ns"] -' int 1)).
Definition summary_of (runs expected : list val) : expr :=
  rmap VDict (foldR (fun d row => case <- $row.["case"] ;; s <- case_summary runs case ;; k <- key ($case) ;; Ok (dset k s d)) [] expected).

(** ** [main] *)

Definition valid (o : Options) (allowed : val) : res unit :=
  there <- py_in (VInt (cpu o)) allowed ;;
  usage_if (negb there || (iterations o <=? 0) || (repeats o <=? 0)) "require an available CPU and positive iterations/repeats".
Definition resolve (name : string) : io host (string * string) := path <~ answer_text ; ret (name, path).
Definition hash_of (d : dict) (nb : string * string) : io host dict := content <~ read_proc ; ret (sset nb.1 (VStr (sha256_hex content)) d).

(** [main] from its parsed arguments on; the result is the report that is saved. *)
Definition main (o : Options) : io host val :=
  allowed <~ external ;
  lift (valid o allowed) ;~
  binaries <~ mapM resolve names ;
  kernel <~ clock ;
  cpuinfo <~ read_proc ;
  model <~ lift (model_name cpuinfo) ;
  hashes <~ foldM hash_of [] binaries ;
  harness <~ read_proc ;
  let~ (expected, report) := trials o binaries
    (obj [("kernel", kernel); ("cpu", VInt (cpu o)); ("cpu_model", VStr model); ("binary_hashes", VDict hashes);
          ("harness_hash", VStr (sha256_hex harness)); ("runs", VList [])]) in
  runs <~ lift (iterR ($report.["runs"])) ;
  expected <~ lift (of_option expected TypeError "'NoneType' object is not iterable") ;
  summary <~ lift (summary_of runs expected) ;
  report <~ lift (setR report "summary" ($summary)) ;
  external ;~
  text <~ lift (json_dumps2 report) ;
  write_file (output o) (text +:+ nl) ;~
  ret report.

(** ** Lemmas *)

(** Every benchmark has exited when a comparison is over. *)
Theorem hot_paths_stops_everything o h r h' : procs h = [] -> main o h = (r, h') -> all_exited h'.
Proof.
  intros Hh. apply tidy_all_exited; [|done]. unfold main, trials, trial, resolve, hash_of. cbv zeta. tidily.
Qed.

(** The runs in their order. *)
Definition slots (o : Options) : list (nat * string) := concat (map (fun r => map (fun n => (r, n)) (order r)) (seq 0 (Z.to_nat (repeats o)))).

Definition at_slot (slot : nat * string) (run : val) : Prop := $run.["variant"] = str slot.2 /\ $run.["repeat"] = int (Z.of_nat slot.1).
(** The cases of a run did the work of the first run - the outcomes are the same - in some time each. *)
Definition same_work (expected : list val) (run : val) : Prop :=
  exists rows outcomes, $run.["cases"] = Ok (VList rows) /\ rows <> [] /\ mapR outcome_of rows = Ok outcomes
  /\ (outcomes = expected \/ py_eqb (VList outcomes) (VList expected) = true)
  /\ Forall (fun row => ($row.["elapsed_ns"] <=' int 0) = Ok false) rows.

Lemma check_rows_ok expected outcomes rows :
  check_rows expected outcomes rows = Ok tt ->
  rows <> [] /\ (outcomes = default outcomes expected \/ py_eqb (VList outcomes) (VList (default outcomes expected)) = true)
  /\ Forall (fun row => ($row.["elapsed_ns"] <=' int 0) = Ok false) rows.
Proof.
  unfold check_rows. intros (bad & Hb & H)%rbind_ok. destruct bad; [discriminate H|]. apply orR_false in Hb as [H1 H3]. apply orR_false in H3 as [H2 H3].
  injection H1 as H1. injection H2 as H2. split_and!; [by destruct rows| |by apply anyR_false].
  destruct expected as [e|]; [right|by left]. by apply negb_false_iff in H1.
Qed.

(** What the loops keep: the outcomes of the first run, and runs that did the same work. *)
Definition progressed (st : progress) (runs : list val) : Prop :=
  $(st.2).["runs"] = Ok (VList runs) /\ match st.1 with None => runs = [] | Some expected => Forall (same_work expected) runs end.

Lemma trial_progressed o binaries repeat st name h st' h' runs :
  progressed st runs -> trial o binaries repeat st name h = (Ok st', h') ->
  exists more, Forall2 at_slot [(repeat, name)] more /\ progressed st' (runs ++ more).
Proof.
  intros [Hr He] H. unfold trial in H. cbv zeta in H. do 3 next H. apply bind_ok in H as (rows & ? & _ & H).
  apply bind_ok in H as (outcomes & ? & [Ho _]%lift_ok & H). apply bind_ok in H as ([] & ? & [Hc _]%lift_ok & H).
  apply bind_ok in H as (report & ? & [Ha _]%lift_ok & H). next H. injection H as <- _. apply check_rows_ok in Hc as (Hn & Hq & Ht).
  set (run := obj _) in Ha. exists [run]. split; [constructor; [by split|constructor]|]. unfold append_run, iterR in Ha. rewrite Hr in Ha. cbn [rbind py_iter] in Ha. split; cbn [fst snd].
  - by apply setR_new in Ha as (v & [= <-] & ->).
  - apply Forall_app. split; [by destruct (st.1) as [e|]; [|subst; constructor]|]. constructor; [|constructor]. by exists rows, outcomes.
Qed.
Lemma trials_progressed o binaries report h st h' :
  $report.["runs"] = Ok (VList []) -> trials o binaries report h = (Ok st, h') -> exists runs, Forall2 at_slot (slots o) runs /\ progressed st runs.
Proof.
  unfold trials, slots. intros Hr H. refine ((fun Hf => foldM_rows _ progressed _ at_slot _ Hf _ _ _ _ [] _ H) _); [by split|].
  intros s1 r w1 s2 w2 xs Hs H1. eapply (foldM_rows _ progressed (fun n => [(r, n)])) in H1 as (ys & Hys & Hs');
    [exists ys; split; [by rewrite <- concat_map_single|exact Hs']| |exact Hs].
  intros *. apply trial_progressed.
Qed.

(** A comparison that ends has run both executables equally often, in alternating order, on the same work: every run has
    the outcomes of the first, so a difference of the times is not one of the results; and the summary is that of those runs. *)
Theorem hot_paths_same_work o h report h' :
  main o h = (Ok report, h') ->
  exists expected runs summary, $report.["runs"] = Ok (VList runs) /\ Forall2 at_slot (slots o) runs /\ Forall (same_work expected) runs
  /\ (0 < length runs)%nat /\ summary_of runs expected = Ok summary /\ $report.["summary"] = Ok summary.
Proof.
  unfold main. intros H. do 8 next H. apply bind_ok in H as ([expected report1] & ? & Ht & H). cbn beta iota in H.
  apply trials_progressed in Ht as (runs & Hs0 & Hr & He); [|done]. cbn [fst snd] in *.
  apply bind_ok in H as (runs' & ? & [Hr' _]%lift_ok & H). unfold iterR in Hr'. rewrite Hr in Hr'. injection Hr' as <-.
  apply bind_ok in H as (e & ? & [Hex _]%lift_ok & H). destruct expected as [e'|]; [injection Hex as ->|done].
  apply bind_ok in H as (summary & ? & [Hs _]%lift_ok & H). apply bind_ok in H as (report2 & ? & [H2 _]%lift_ok & H). do 3 next H. injection H as <- _.
  pose proof (setR_other _ _ _ _ "runs" H2 ltac:(done)) as K. apply setR_new in H2 as (v & [= <-] & H2).
  exists e, runs, summary. split_and!; [by rewrite K|done|done| |done|done].
  apply Forall2_length in Hs0. rewrite <- Hs0. apply lift_ok in E0 as [Hv _]. unfold valid in Hv. apply rbind_ok in Hv as (there & _ & Hv).
  unfold usage_if in Hv. destruct (negb there || (iterations o <=? 0) || (repeats o <=? 0)) eqn:Eb; [done|]. apply orb_false_iff in Eb as [_ Eb].
  unfold slots. destruct (Z.to_nat (repeats o)) eqn:En; [lia|]. cbn. lia.
Qed.

(** ** Two runs of two cases *)

Definition hot_options : Options := mkOptions "before" "after" 2 1000 1 "out.json".
Definition hot_rows (checksum : Z) (times : list Z) : string :=
  join "" (map (fun ct => value_or "" (json_dumps (obj [("case", VStr ct.1); ("iterations", VInt 1000); ("checksum", VInt checksum); ("elapsed_ns", VInt ct.2)])) +:+ nl)
               (combine ["parse"; "route"] times)).
Definition hot_turns (checksum : Z) : list turn :=
  [answered (VList [VInt 2]); text_ "/before"; text_ "/after"; text_ "6.1"; text_ ("model name : cpu" +:+ nl); text_ "A"; text_ "B"; text_ "H"]
  ++ [blank; text_ ""; text_ (hot_rows 7 [4000; 8000]); number_ 0; blank; blank; text_ ""; text_ (hot_rows checksum [3000; 9000]); number_ 0; blank; blank; blank].
Definition hot_host (checksum : Z) : host := Host [] (fun n => nth n (hot_turns checksum) blank) 0 [] [].

Example hot_paths_change :
  (report <- (main hot_options (hot_host 7)).1 ;;
   mapR (fun case => rmap py_str ($report.["summary"].[case].["change_percent"])) ["parse"; "route"]) = Ok ["-25.0"; "12.5"].
Proof. vm_compute. reflexivity. Qed.
(** Another checksum is another result. *)
Example hot_paths_differ : (main hot_options (hot_host 8)).1 = raise RuntimeError "benchmark workloads or results differ".
Proof. vm_compute. reflexivity. Qed.
