(* ===== verification/MeasureAccessLog.v ===== *)
(** * [bench/measure_access_log.py]: microbenchmarks of the access log

    [main] alternates the executables, asks of every run the twelve cases without a dropped record and the same sizes,
    checksums and accounting, and summarizes the time of a record case by case. *)

From stdpp Require Import base list strings.
From Stdlib Require Import ZArith Lia Ascii.
From S2P Require Import Prelude PyFloat PyText PyVal PyJson PyScript PyStats PyHash Evidence PyIO System AuditHttp2Lan RemoteLoad Compare CompareHotPaths.

Local Open Scope Z_scope.
Open Scope py_scope.

Record Options := mkOptions { variants : list string; output : string; cpu : Z; iterations : Z; repeats : Z }.

Definition check_options (o : Options) : res unit := usage_if ((iterations o <? 1) || (repeats o <? 1)) "iterations and repeats must be positive".
(** [{name: Path(path).resolve() for name, path in ...}] *)
Definition variant_of (d : list (string * string)) (v : string) : io host (list (string * string)) :=
  np <~ lift (of_option (split_once "=" v) ValueError "not enough values to unpack (expected 2, got 1)") ;
  path <~ answer_text ; ret (assign np.1 path d).
Definition order (repeat : nat) (names : list string) : list string := if Nat.even repeat then names else rev names.

(** ** A run *)

Definition signature_fields : list string := ["case"; "batch"; "iterations"; "bytes"; "checksum"; "dropped"].
Definition signature_of (row : val) : expr := tupleR (map (fun k => $row.[k]) signature_fields).
Definition check_complete (rows : list val) : res unit :=
  bad <- Ok (negb (length rows =? 12)%nat) ||' anyR (fun row => test ($row.["dropped"])) rows ;;
  guard bad RuntimeError "missing benchmark cases or dropped records".
(** The signature of the first run is the reference. *)
Definition check_signature (reference : option (list val)) (signature : list val) : res unit :=
  match reference with
  | None => Ok tt
  | Some r => guard (negb (py_eqb (VList signature) (VList r))) RuntimeError "variants produced different sizes, checksums, or accounting"
  end.
(** [next(r['elapsed_ns'] / r['iterations'] for r in rows if ...)] *)
Fixpoint browser_ns (rows : list val) : expr :=
  match rows with
  | [] => raise StopIteration ""
  | row :: rows =>
      found <- ($row.["case"] ==' str "browser") &&' ($row.["batch"] ==' int 16) ;;
      if found : bool then $row.["elapsed_ns"] /' $row.["iterations"] else browser_ns rows
  end.

Definition save (o : Options) (report : val) : io host unit := text <~ lift (json_dumps2 report) ; write_file (output o) (text +:+ nl).

(** The reference and the report. *)
Abbreviation progress := (option (list val) * val)%type.
Definition trial (o : Options) (binaries : list (string * string)) (repeat : nat) (st : progress) (name : string) : io host progress :=
  binary <~ lift (of_option (assoc name binaries) KeyError name) ;
  result <~ run_process false ["taskset"; "-c"; string_of_Z (cpu o); binary; string_of_Z (iterations o)] ;
  (if cp_code result =? 0 then ret tt else throw (Exn CalledProcessError name)) ;~
  rows <~ lift (CompareHotPaths.rows_of (cp_stderr result)) ;
  signature <~ lift (mapR signature_of rows) ;
  lift (check_complete rows) ;~
  lift (check_signature st.1 signature) ;~
  report <~ lift (append_run st.2 (obj [("variant", VStr name); ("repeat", VInt (Z.of_nat repeat)); ("rows", VList rows)])) ;
  save o report ;~
  line <~ lift (ns <- browser_ns rows ;; json_dumps (obj [("variant", VStr name); ("repeat", VInt (Z.of_nat repeat)); ("browser_ns", ns)])) ;
  say line ;~
  ret (Some (default signature st.1), report).
Definition trials (o : Options) (binaries : list (string * string)) (report : val) : io host progress :=
  foldM (fun st repeat => foldM (trial o binaries repeat) st (order repeat (map fst binaries))) (None, report) (seq 0 (Z.to_nat (repeats o))).

(** ** The summary *)

(** [cases.setdefault(case, []).append(value)] *)
Definition add_time (cases : list (string * list val)) (row : val) : res (list (string * list val)) :=
  k <- fstring [V ($row.["case"]); F "_"; V ($row.["batch"])] ;;
  v <- $row.["elapsed_ns"] /' $row.["iterations"] ;;
  Ok (assign k (default [] (assoc k cases) ++ [v]) cases).
Definition add_run (name : string) (cases : list (string * list val)) (run : val) : res (list (string * list val)) :=
  ours <- $run.["variant"] ==' str name ;;
  if negb ours then Ok cases else rows <- iterR ($run.["rows"]) ;; foldR add_time cases rows.
Definition variant_summary (runs : list val) (name : string) : expr :=
  cases <- foldR (add_run name) [] runs ;; mkdict (map (fun kv => (kv.1, CompareHotPaths.spread kv.2)) cases).
Definition summary_of (runs : list val) (names : list string) : expr := mkdict (map (fun name => (name, variant_summary runs name)) names).

(** [main] from its parsed arguments on; the result is the report that is saved last. *)
Definition main (o : Options) : io host val :=
  lift (check_options o) ;~
  binaries <~ foldM variant_of [] (variants o) ;
  hashes <~ foldM hash_of [] binaries ;
  external ;~
  let~ (_, report) := trials o binaries
    (obj [("iterations", VInt (iterations o)); ("cpu", VInt (cpu o)); ("runs", VList []); ("sha256", VDict hashes)]) in
  runs <~ lift (iterR ($report.["runs"])) ;
  summary <~ lift (summary_of runs (map fst binaries)) ;
  report <~ lift (setR report "summary" ($summary)) ;
  save o report ;~
  ret report.

(** ** Lemmas *)

(** Every benchmark has exited when the measurement is over. *)
Theorem access_benchmark_stops_everything o h r h' : procs h = [] -> main o h = (r, h') -> all_exited h'.
Proof. intros Hh. apply tidy_all_exited; [|done]. unfold main, trials, trial, variant_of, hash_of, save. cbv zeta. tidily. Qed.

(** The runs in their order. *)
Definition slots (o : Options) (names : list string) : list (nat * string) :=
  concat (map (fun r => map (fun n => (r, n)) (order r names)) (seq 0 (Z.to_nat (repeats o)))).
(** A complete run with the signature of the reference. *)
Definition same_accounting (reference : list val) (run : val) : Prop :=
  exists rows signature, $run.["rows"] = Ok (VList rows) /\ length rows = 12%nat /\ Forall (fun row => test ($row.["dropped"]) = Ok false) rows
  /\ mapR signature_of rows = Ok signature /\ (signature = reference \/ py_eqb (VList signature) (VList reference) = true).

(** What the loops keep. *)
Definition measured (st : progress) (runs : list val) : Prop :=
  $(st.2).["runs"] = Ok (VList runs) /\ match st.1 with None => runs = [] | Some reference => Forall (same_accounting reference) runs end.

Lemma trial_measured o binaries repeat st name h st' h' runs :
  measured st runs -> trial o binaries repeat st name h = (Ok st', h') ->
  exists more, Forall2 at_slot [(repeat, name)] more /\ measured st' (runs ++ more).
Proof.
  intros [Hr He] H. unfold trial in H. do 3 next H. apply bind_ok in H as (rows & ? & _ & H).
  apply bind_ok in H as (signature & ? & [Hs _]%lift_ok & H). apply bind_ok in H as ([] & ? & [Hc _]%lift_ok & H).
  apply bind_ok in H as ([] & ? & [Hg _]%lift_ok & H). apply bind_ok in H as (report & ? & [Ha _]%lift_ok & H). do 3 next H. injection H as <- _.
  unfold check_complete in Hc. apply rbind_ok in Hc as (bad & Hb & Hc). destruct bad; [discriminate Hc|]. apply orR_false in Hb as [H12 Hd].
  injection H12 as H12%negb_false_iff%Nat.eqb_eq. apply anyR_false in Hd.
  set (run := obj _) in Ha. exists [run]. split; [constructor; [by split|constructor]|].
  unfold append_run, iterR in Ha. rewrite Hr in Ha. cbn [rbind py_iter] in Ha. split; cbn [fst snd].
  - by apply setR_new in Ha as (v & [= <-] & ->).
  - apply Forall_app. split; [by destruct (st.1) as [e|]; [|subst; constructor]|]. constructor; [|constructor].
    exists rows, signature. split_and!; [done|done|done|done|]. destruct (st.1) as [e|]; [right|by left]. unfold check_signature in Hg.
    destruct (py_eqb (VList signature) (VList e)) eqn:Eq; [exact Eq|discriminate Hg].
Qed.

(** A measurement that ends has run every executable once per repeat, in alternating order; every run has all twelve cases,
    dropped nothing and agrees with the first in sizes, checksums and accounting; the summary is that of those runs. *)
Theorem access_benchmark_agrees o h report h' :
  main o h = (Ok report, h') ->
  exists names reference runs, $report.["runs"] = Ok (VList runs) /\ Forall2 at_slot (slots o names) runs
  /\ Forall (same_accounting reference) runs /\ $report.["summary"] = summary_of runs names.
Proof.
  unfold main. intros H. next H. apply bind_ok in H as (binaries & ? & _ & H). do 2 next H. apply bind_ok in H as ([reference report1] & ? & Ht & H).
  cbn beta iota in H. assert (G : exists runs, Forall2 at_slot (slots o (map fst binaries)) runs /\ measured (reference, report1) ([] ++ runs)).
  { unfold trials in Ht. unfold slots. refine ((fun Hf => foldM_rows _ measured _ at_slot _ Hf _ _ _ _ [] _ Ht) _); [by split|].
    intros s1 r wa s2 wb xs Hs0 H1. eapply (foldM_rows _ measured (fun n => [(r, n)])) in H1 as (ys & Hys & Hs');
      [exists ys; split; [by rewrite <- concat_map_single|exact Hs']| |exact Hs0].
    intros *. apply trial_measured. }
  destruct G as (runs & Hs & Hr & He). cbn [app fst snd] in *.
  apply bind_ok in H as (runs' & ? & [Hr' _]%lift_ok & H). unfold iterR in Hr'. rewrite Hr in Hr'. injection Hr' as <-.
  apply bind_ok in H as (summary & ? & [Hsum _]%lift_ok & H). apply bind_ok in H as (report2 & ? & [H2 _]%lift_ok & H). next H. injection H as <- _.
  pose proof (setR_other _ _ _ _ "runs" H2 ltac:(done)) as K. apply setR_new in H2 as (v & [= <-] & H2).
  exists (map fst binaries), (default [] reference), runs. split_and!; [by rewrite K|done| |by rewrite H2]. destruct reference; [done|by subst].
Qed.

(** ** Two executables *)

Definition log_options : Options := mkOptions ["old=/old"; "new=/new"] "out.json" 2 1000 1.
Definition log_rows (bytes elapsed : Z) : string :=
  join "" (map (fun cb => value_or "" (json_dumps (obj [("case", VStr cb.1); ("batch", VInt cb.2); ("iterations", VInt 1000); ("bytes", VInt bytes);
                                                         ("checksum", VInt 9); ("dropped", VInt 0); ("elapsed_ns", VInt elapsed)])) +:+ nl)
               (concat (map (fun case => map (fun batch => (case, batch)) [1; 4; 16; 64]) ["plain"; "browser"; "json"]))).
Definition log_turns (bytes : Z) : list turn :=
  [text_ "/old"; text_ "/new"; text_ "A"; text_ "B"; blank; blank; text_ ""; text_ (log_rows 120 5000); number_ 0; blank; blank;
   blank; text_ ""; text_ (log_rows bytes 2500); number_ 0; blank; blank; blank].
Definition log_host (bytes : Z) : host := Host [] (fun n => nth n (log_turns bytes) blank) 0 [] [].

Example access_benchmark_medians :
  (report <- (main log_options (log_host 120)).1 ;;
   mapR (fun name => rmap py_str ($report.["summary"].[name].["browser_16"].["median_ns"])) ["old"; "new"]) = Ok ["5.0"; "2.5"].
Proof. vm_compute. reflexivity. Qed.
Example access_benchmark_differs :
  (main log_options (log_host 121)).1 = raise RuntimeError "variants produced different sizes, checksums, or accounting".
Proof. vm_compute. reflexivity. Qed.
