(* ===== verification/AggregationRevisit.v ===== *)
(** * [bench/aggregation_revisit.py]: rotated comparisons of request pipelines

    [main] runs [pipeline_packets.py] for every case, trial and variant; after each run [summarize] reads all results of the
    directory again.  A result is known by its name, [case--variant--trial.json]. *)

From stdpp Require Import base list strings.
From Stdlib Require Import ZArith Lia Ascii.
From S2P Require Import Prelude PyFloat PyText PyVal PyJson PyScript PyStats PyHash Evidence PyIO System RemoteLoad Compare SummarizeHttp2Lan.

Local Open Scope Z_scope.
Open Scope py_scope.

Record Options := mkOptions { output : string; variant : list string; repeats : Z; cases : list string; user_perf : bool }.

(** Depth, fragment and permits of a case. *)
Definition CASES : list (string * (Z * Z * Z)) :=
  [("serial", (1, 0, 192)); ("pipeline8", (8, 0, 192)); ("pipeline32", (32, 0, 192)); ("fragmented8", (8, 8, 192)); ("roomy8", (8, 0, 1024));
   ("roomy32", (32, 0, 1024))].
Definition case_val (c : Z * Z * Z) : val := VTuple [VInt c.1.1; VInt c.1.2; VInt c.2].

(** ** The summary *)

(** [s.split('--')] *)
Fixpoint split_dashes_go (cur s : string) : list string :=
  match s with
  | "" => [str_rev cur]
  | String "-" (String "-" r) => str_rev cur :: split_dashes_go "" r
  | String a r => split_dashes_go (String a cur) r
  end%string.
Definition split_dashes (s : string) : list string := split_dashes_go "" s.

(** [case, variant, trial = path.stem.split('--')] *)
Definition parts_of_stem (file : string) : res (string * string * string) :=
  match split_dashes (stem_of (name (path_of file))) with
  | [case; variant; trial] => Ok (case, variant, trial)
  | _ => raise ValueError "wrong number of values to unpack"
  end.

Definition segments (record : val) : expr :=
  $record.["kernel_after"].["tcp_mib"].["OutSegs"] -' $record.["kernel_before"].["tcp_mib"].["OutSegs"].
Definition row_of (file : string) (record : val) : expr :=
  let* (cv, trial) := parts_of_stem file in
  count <- $record.["counter_deltas"].["requests_completed_total"] ;;
  mkdict
    [("case", str cv.1); ("variant", str cv.2); ("trial", n <- py_int trial ;; int n);
     ("responses_per_second", $record.["workload"].["responses_per_second"]); ("cpu_ns_per_response", $record.["cpu_ns_per_response"]);
     ("tcp_segments_per_response", segments record /' $count);
     ("validated_responses", $record.["workload"].["validated_responses"]); ("counter_deltas", $record.["counter_deltas"]);
     ("server_sha256", $record.["server_sha256"])].

Definition skipped (file : string) : bool := existsb (String.eqb (name (path_of file))) ["manifest.json"; "summary.json"].
(** A file of the directory; one without a workload is passed over. *)
Definition file_row (rows : list val) (file : string) : io host (list val) :=
  if skipped file then ret rows else
  text <~ read_proc ;
  record <~ lift (json_loads text) ;
  there <~ lift (has ($record) "workload") ;
  if negb there then ret rows else row <~ lift (row_of file record) ; ret (rows ++ [row]).

Definition metrics : list string := ["responses_per_second"; "cpu_ns_per_response"; "tcp_segments_per_response"].
Definition trials_at (rows : list val) (case : string) (variant : val) : res (list val) :=
  filterR (fun row => ($row.["case"] ==' str case) &&' ($row.["variant"] ==' $variant)) rows.
Definition variant_medians (rows : list val) (case : string) (variant : val) : expr :=
  trials <- trials_at rows case variant ;;
  mkdict (("trials", int (Z.of_nat (length trials))) :: map (fun k => (k, medianR (fun row => $row.[k]) trials)) metrics).
Definition case_medians (rows : list val) (case : string) : expr :=
  variants <- sorted_set (fun row => $row.["case"] ==' str case) (fun row => $row.["variant"]) rows ;;
  rmap VDict (dict_by (fun v => $v) (variant_medians rows case) variants).
Definition result_of (rows : list val) : expr :=
  mkdict [("trials", $(VList rows)); ("medians", mkdict (map (fun c => (c.1, case_medians rows c.1)) CASES))].

Definition summarize (directory : string) : io host val :=
  files <~ rglob ;
  rows <~ foldM file_row [] files ;
  result <~ lift (result_of rows) ;
  text <~ lift (json_dumps2 result) ;
  write_file (str_path (under (path_of directory) "summary.json")) (text +:+ nl) ;~
  ret result.

(** ** The runs *)

Section Root.
Context (ROOT python : string).

(** [dict(item.split('=', 1) for item in args.variant)] *)
Definition variants_of (o : Options) : res (list (string * string)) :=
  foldR (fun d item => nv <- of_option (split_once "=" item) ValueError "dictionary update sequence element has length 1; 2 is required" ;;
                       Ok (assign nv.1 nv.2 d)) [] (variant o).
Definition check_options (o : Options) (variants : list (string * string)) : res unit :=
  usage_if (negb ((1 <=? repeats o) && (repeats o <=? 20)) || existsb (fun nv => str_contains "--" nv.1 || str_contains "/" nv.1) variants)
    "invalid repeats or variant name".

Definition variant_entry (d : dict) (nb : string * string) : io host dict :=
  content <~ read_proc ; ret (sset nb.1 (obj [("binary", VStr nb.2); ("sha256", VStr (sha256_hex content))]) d).
Definition manifest (o : Options) (variants : list (string * string)) : io host val :=
  started <~ clock ;
  entries <~ foldM variant_entry [] variants ;
  chosen <~ lift (dict_by (fun n => str n) (fun n => rmap case_val (of_option (assoc n CASES) KeyError n)) (cases o)) ;
  paranoid <~ read_proc ;
  ret (obj [("started_utc", started); ("variants", VDict entries); ("cases", VDict chosen); ("repeats", VInt (repeats o));
            ("user_perf_only", VBool (user_perf o)); ("perf_event_paranoid", VStr (strip paranoid))]).

Definition prefix_of (o : Options) (case name_ : string) (trial : nat) : string :=
  str_path (under (path_of (output o)) (case +:+ "--" +:+ name_ +:+ "--" +:+ string_of_Z (Z.of_nat trial + 1))).
Definition run_command (o : Options) (binary result_ : string) (c : Z * Z * Z) : list string :=
  [python; str_path (under (path_of ROOT) "bench/pipeline_packets.py"); "--binary"; binary; "--output"; result_; "--depth"; string_of_Z c.1.1;
   "--fragment"; string_of_Z c.1.2; "--max-active"; string_of_Z c.2] ++ (if user_perf o then ["--user-perf"] else []).

(** [next(row for row in rows if ...)] *)
Fixpoint next_row (case name_ : string) (trial : Z) (rows : list val) : expr :=
  match rows with
  | [] => raise StopIteration ""
  | row :: rows =>
      found <- ($row.["case"] ==' str case) &&' ($row.["variant"] ==' str name_) &&' ($row.["trial"] ==' int trial) ;;
      if found : bool then Ok row else next_row case name_ trial rows
  end.
Definition run_line (row : val) : res string :=
  line <- dictcomp (["case"; "variant"; "trial"] ++ metrics) (fun k => $row.[k]) ;; json_dumps line.

Definition trial (o : Options) (case : string) (c : Z * Z * Z) (number : nat) (nb : string * string) : io host unit :=
  let prefix := prefix_of o case nb.1 number in
  result_ <~ lift (with_suffix ".json" prefix) ;
  lift (with_suffix ".runner.txt" prefix) ;~
  external ;~
  code <~ run_with wait_timeout (run_command o nb.2 result_ c) ;
  (if code =? 0 then ret tt else throw (Exn CalledProcessError result_)) ;~
  summary <~ summarize (output o) ;
  row <~ lift (rows <- iterR ($summary.["trials"]) ;; next_row case nb.1 (Z.of_nat number + 1) rows) ;
  line <~ lift (run_line row) ;
  say line.
Definition case_step (o : Options) (variants : list (string * string)) (case : string) : io host unit :=
  c <~ lift (of_option (assoc case CASES) KeyError case) ;
  each (fun number => each (trial o case c number) (rotate number variants)) (seq 0 (Z.to_nat (repeats o))).

(** [main] from its parsed arguments on. *)
Definition main (o : Options) : io host unit :=
  there <~ external ;
  lift (usage_if (truthy there) "use a fresh output directory") ;~
  variants <~ lift (variants_of o) ;
  lift (check_options o variants) ;~
  external ;~
  text <~ (m <~ manifest o variants ; lift (json_dumps2 m)) ;
  write_file (str_path (under (path_of (output o)) "manifest.json")) (text +:+ nl) ;~
  each (case_step o variants) (cases o).

(** ** Lemmas *)

Lemma tidy_wait_timeout_run command : tidy (run_with wait_timeout command).
Proof. apply tidy_run_with; [auto with zhtps|]. intros h w a w' _. apply wait_timeout_ok. Qed.
Lemma tidy_file_row rows file : tidy (file_row rows file).
Proof. unfold file_row. destruct (skipped file); [tidily|]. do 3 (apply tidy_bind; [tidily|]; intros ?). case_match; tidily. Qed.
Lemma tidy_summarize directory : tidy (summarize directory).
Proof. unfold summarize, rglob. pose proof tidy_file_row. apply tidy_bind; [tidily|]. intros files. apply tidy_bind; [by apply tidy_foldM|tidily]. Qed.
#[local] Hint Resolve tidy_wait_timeout_run tidy_summarize : zhtps.

(** Every run has exited when the comparison is over, also one that took too long. *)
Theorem aggregation_stops_everything o h r h' : procs h = [] -> main o h = (r, h') -> all_exited h'.
Proof.
  intros Hh. apply tidy_all_exited; [|done]. unfold main, manifest, variant_entry. do 7 (apply tidy_bind; [tidily|]; intros ?).
  apply tidy_each. intros case. unfold case_step. apply tidy_bind; [tidily|]. intros c. apply tidy_each. intros number. apply tidy_each. intros nb.
  unfold trial. cbv zeta. tidily.
Qed.
End Root.

(** *** Names of results *)

(** No two dashes in a row, and none at the end. *)
Fixpoint undashed (s : string) : bool :=
  match s with
  | "" => true
  | String "-" r => match r with String a _ => negb (Ascii.eqb a "-") && undashed r | "" => false end
  | String _ r => undashed r
  end%string.

Lemma split_dashes_go_step a s cur :
  (forall r, a = "-"%char -> s <> String "-" r) -> split_dashes_go cur (String a s) = split_dashes_go (String a cur) s.
Proof.
  intros H. destruct a as [[] [] [] [] [] [] [] []]; try reflexivity. destruct s as [|[[] [] [] [] [] [] [] []] r]; try reflexivity.
  by destruct (H r).
Qed.
Lemma undashed_cons a s : undashed (String a s) = true -> undashed s = true /\ (a = "-"%char -> exists b r, s = String b r /\ b <> "-"%char).
Proof.
  destruct (Ascii.eqb_spec a "-") as [->|Ha].
  - cbn. destruct s as [|b r]; [done|]. intros [Hb H]%andb_true_iff. split; [done|]. intros _. exists b, r. split; [done|].
    by destruct (Ascii.eqb_spec b "-").
  - destruct a as [[] [] [] [] [] [] [] []]; try done; intros H; by split.
Qed.
Lemma split_dashes_first s r : forall cur, undashed s = true -> split_dashes_go cur (s +:+ "--" +:+ r) = (str_rev cur +:+ s) :: split_dashes r.
Proof.
  induction s as [|a s IH]; intros cur H.
  - cbn. by rewrite str_app_nil.
  - apply undashed_cons in H as [H Ha]. change (String a s +:+ "--" +:+ r) with (String a (s +:+ "--" +:+ r)). rewrite split_dashes_go_step.
    + rewrite IH by done. by rewrite str_rev_cons, str_app_assoc.
    + intros q Ea. destruct (Ha Ea) as (b & t & -> & Hb). cbn. congruence.
Qed.
Lemma split_dashes_last s : forall cur, undashed s = true -> split_dashes_go cur s = [str_rev cur +:+ s].
Proof.
  induction s as [|a s IH]; intros cur H; [cbn; by rewrite str_app_nil|]. apply undashed_cons in H as [H Ha]. rewrite split_dashes_go_step.
  - rewrite IH by done. by rewrite str_rev_cons, str_app_assoc.
  - intros q Ea. destruct (Ha Ea) as (b & t & -> & Hb). congruence.
Qed.

(** A name built from its three parts falls apart into them. *)
Lemma split_dashes_three case name trial : undashed case = true -> undashed name = true -> undashed trial = true ->
  split_dashes (case +:+ "--" +:+ name +:+ "--" +:+ trial) = [case; name; trial].
Proof.
  intros Hc Hn Ht. unfold split_dashes at 1. rewrite split_dashes_first by done. unfold split_dashes at 1. rewrite split_dashes_first by done.
  unfold split_dashes. by rewrite split_dashes_last.
Qed.

(** The names of the table keep apart; a variant with a point loses its trial, so that the next [summarize] fails. *)
Example dotted_variant :
  with_suffix ".json" "/tmp/o/serial--main--1" = Ok "/tmp/o/serial--main--1.json" /\
  parts_of_stem "/tmp/o/serial--main--1.json" = Ok ("serial", "main", "1") /\
  with_suffix ".json" "/tmp/o/serial--v1.2--1" = Ok "/tmp/o/serial--v1.json" /\
  parts_of_stem "/tmp/o/serial--v1.json" = raise ValueError "wrong number of values to unpack".
Proof. by vm_compute. Qed.
Example cases_undashed : forallb undashed (map fst CASES) = true.
Proof. done. Qed.

(** Two runs of one variant: the medians are those of its rows, and files without a workload are passed over. *)
Definition sample_result (rate segments : Z) : val :=
  obj [("workload", obj [("responses_per_second", VInt rate); ("validated_responses", VInt 100)]);
       ("counter_deltas", obj [("requests_completed_total", VInt 100)]); ("cpu_ns_per_response", VInt (2 * rate));
       ("kernel_before", obj [("tcp_mib", obj [("OutSegs", VInt 1000)])]);
       ("kernel_after", obj [("tcp_mib", obj [("OutSegs", VInt (1000 + segments))])]); ("server_sha256", VStr "s")].
Definition directory_turns : list turn :=
  [answered (VList (map VStr ["/o/manifest.json"; "/o/perf.json"; "/o/serial--main--1.json"; "/o/serial--main--2.json"]));
   text_ (value_or "" (json_dumps (obj [("counters", VNone)]))); text_ (value_or "" (json_dumps (sample_result 10 50)));
   text_ (value_or "" (json_dumps (sample_result 30 150)))].
Definition sample_directory : host := Host [] (fun n => nth n directory_turns blank) 0 [] [].
Example summary_of_two :
  (r <- (summarize "/o" sample_directory).1 ;; $r.["medians"].["serial"]) =
    Ok (obj [("main", obj [("trials", VInt 2); ("responses_per_second", VFloat (f64_lit 20 0)); ("cpu_ns_per_response", VFloat (f64_lit 40 0));
                           ("tcp_segments_per_response", VFloat (f64_lit 1 0))])]).
Proof. by vm_compute. Qed.
