(* ===== verification/CompareRequestPath.v ===== *)
(** * [bench/compare_request_path.py]: prebuilt variants of the request path

    [main] checks every build against its receipt and runs [overload.py] for every variant, forwards and backwards in turn;
    a run is reduced by [summarize] of [summarize_overload.py].  The files of a run are answers of the environment. *)

From stdpp Require Import base list strings.
From Stdlib Require Import ZArith Lia Ascii.
From S2P Require Import Prelude PyFloat PyText PyVal PyJson PyScript PyStats PyHash Evidence PyIO System SummarizeOverload AuditHttp2Lan RemoteLoad Compare CompareHttp2 AccessLog.

Local Open Scope Z_scope.
Open Scope py_scope.

Record Options := mkOptions {
  variants : list string; workspace : string; output : string; case_ : string; repeats : Z; schedule : string; connections : Z;
  capacity : Z; server_cpus : string; client_cpus : string; workers : Z; records : string; churn : bool; isolated_loopback : bool;
  observed_cpus : option string; options : val (** [vars(args)] with the paths as texts *) }.

(** ** The builds *)

(** The keys of a dictionary comprehension over [l]. *)
Definition distinct (l : list string) : list string := foldl (fun s x => if bool_decide (x ∈ s) then s else s ++ [x]) [] l.

Definition tree_of (o : Options) (variant : string) : parts := under (path_of (workspace o)) variant.
Definition binary_of (o : Options) (variant : string) : string := str_path (under (tree_of o variant) "out/bin/zhtps").
Definition file_sha : io host string := content <~ read_proc ; ret (sha256_hex content).
Definition zig_sources : io host dict := names <~ rglob ; foldM sha_of [] names.

(** [if e: raise RuntimeError(message)] *)
Definition refuse (e : res bool) (message : string) : io host unit :=
  bad <~ lift e ; if bad : bool then throw (Exn RuntimeError message) else ret tt.

Definition check_hashes (hashes : list string) : io host unit :=
  refuse (Ok (negb (length (distinct hashes) =? length hashes)%nat)) "variant executables must differ; check build cache/source roots".
Definition check_build (variant : string) : io host unit :=
  provenance <~ (text <~ read_proc ; lift (json_loads text)) ;
  current <~ zig_sources ;
  refuse ($(VDict current) !=' $provenance.["sources"]) (variant +:+ ": source differs from recorded build") ;~
  sha <~ file_sha ;
  refuse (str sha !=' $provenance.["binaries"].["zhtps"]) (variant +:+ ": executable differs from recorded build").

Definition binary_hash (d : dict) (variant : string) : io host dict := sha <~ file_sha ; ret (sset variant (VStr sha) d).
Definition source_hash (d : dict) (variant : string) : io host dict := sources <~ zig_sources ; ret (sset variant (VDict sources) d).
Definition initial_metadata (o : Options) : io host val :=
  binaries <~ foldM binary_hash [] (distinct (variants o)) ;
  sources <~ foldM source_hash [] (variants o) ;
  ret (obj [("case", VStr (case_ o)); ("options", options o); ("binary_hashes", VDict binaries); ("source_hashes", VDict sources);
            ("runs", VList [])]).

(** ** A run *)

Definition header_type : string := "application/x-" +:+ join "" (repeat "a" 512).
Definition case_arguments (case temporary : string) : list string :=
  let file name := str_path (under (path_of temporary) name) in
  if String.eqb case "logging" then ["--access-log"]
  else if String.eqb case "headers" then ["--method"; "POST"; "--path"; "/echo"; "--expect-body"; file "empty"; "--content-type"; header_type]
  else if String.eqb case "echo" then ["--method"; "POST"; "--path"; "/echo"; "--request-body"; file "body"; "--expect-body"; file "body"]
  else if String.eqb case "stream" then ["--path"; "/stream"; "--allow-chunked"; "--expect-body"; file "stream"]
  else if String.eqb case "overload" then ["--rate-limit"; "150000"; "--burst"; "1024"]
  else [].

(** [bytes(range(256)) * 256] *)
Definition body : string := join "" (repeat (String.string_of_list_ascii (map ascii_of_nat (seq 0 256))) 256).

Section Root.
Context (ROOT python : string).

Definition run_command (o : Options) (temporary variant output_ : string) : list string :=
  let command :=
    [python; str_path (under (path_of ROOT) "bench/overload.py"); "--server-binary"; binary_of o variant; "--output"; output_;
     "--server-cpus"; server_cpus o; "--client-cpus"; client_cpus o; "--workers"; string_of_Z (workers o);
     "--connections"; string_of_Z (connections o); "--max-connections"; string_of_Z (capacity o);
     "--max-active"; string_of_Z (capacity o); "--schedule"; schedule o]
    ++ (if churn o then ["--churn"; "--source-ips"; "64"] else [])
    ++ (if given (observed_cpus o) then ["--observed-cpus"; default "" (observed_cpus o)] else [])
    ++ case_arguments (case_ o) temporary in
  if isolated_loopback o
  then ["unshare"; "--user"; "--map-root-user"; "--net"; python; str_path (under (path_of ROOT) "bench/isolated_loopback.py")] ++ command
  else command.

(** What the access log holds: the lines, and those of them that are requests. *)
Definition log_line (counted : Z * Z) (line : string) : res (Z * Z) :=
  event <- json_loads line ;;
  access <- $event.["event"] ==' str "request_complete" ;;
  Ok (counted.1 + 1, counted.2 + if access : bool then 1 else 0).
Definition log_of : io host val :=
  bytes <~ external ;
  content <~ read_proc ;
  counted <~ lift (foldR log_line (0, 0) (splitlines_bytes "" content)) ;
  ret (obj [("bytes", bytes); ("records", VInt counted.1); ("access_records", VInt counted.2)]).

(** [after[...] - before[...]] of a counter *)
Definition counted (raw : val) (name : string) : expr :=
  $raw.["metrics_after"].["counters"].[name] -' $raw.["metrics_before"].["counters"].[name].
Definition counter_deltas (raw : val) : expr :=
  before <- itemsR ($raw.["metrics_before"].["counters"]) ;;
  rmap VDict (dict_by (fun kv => $(kv.1)) (fun kv => at_ ($raw.["metrics_after"].["counters"]) ($(kv.1)) -' $(kv.2)) before).

(** The row of a run, with the summary as it is at first. *)
Definition row_of (variant : string) (repeat : Z) (raw summary log completed submitted : val) : expr :=
  mkdict [("variant", str variant); ("repeat", int repeat); ("summary", $summary); ("log", $log);
          ("io_per_completed", $submitted /' $completed); ("counter_deltas", counter_deltas raw)].

Definition cpu_ns (phase : val) : expr :=
  ifR (test (get ($phase) "goodput") &&' has ($phase) "server_cpu_cores")
    ($phase.["server_cpu_cores"] *' lit 1000000000 0 /' $phase.["goodput"]) ($VNone).
Definition with_cpu (phase : val) : expr := setR phase "cpu_ns_per_success" (cpu_ns phase).
(** The phases of the summary, which the row holds too, get their cost. *)
Definition priced (row summary : val) : expr :=
  phases <- iterR ($summary.["phases"]) ;;
  setR row "summary" (setR summary "phases" (listR with_cpu phases)).

Definition line_names : list string := ["offered_rate"; "goodput"; "cpu_ns_per_success"; "service_p99_ms"; "failures"].
Definition run_line (variant : string) (row : val) : res string :=
  line <- mkdict [("variant", str variant); ("io_per_completed", $row.["io_per_completed"]);
                  ("access_records", $row.["log"].["access_records"]);
                  ("phases", phases <- iterR ($row.["summary"].["phases"]) ;;
                             listR (fun p => dictcomp line_names (fun k => get ($p) k)) phases)] ;;
  json_dumps line.

Definition save (o : Options) (metadata : val) : io host unit :=
  text <~ lift (json_dumps2 metadata) ; write_file (str_path (under (path_of (output o)) "summary.json")) (text +:+ nl).

(** The load of a run: its report. *)
Definition load (o : Options) (temporary variant name_ : string) : io host val :=
  let output_ := str_path (under (path_of temporary) (name_ +:+ ".json")) in
  result <~ run_process true (run_command o temporary variant output_) ;
  write_file (str_path (under (path_of (output o)) (name_ +:+ ".txt"))) (cp_stdout result +:+ cp_stderr result) ;~
  refuse (Ok (negb (cp_code result =? 0))) (name_ +:+ ": " +:+ cp_stdout result +:+ " " +:+ cp_stderr result) ;~
  text <~ read_proc ;
  lift (json_loads text).

(** The report reduced to a row; its files are kept. *)
Definition measured_row (variant : string) (repeat : Z) (raw : val) : io host val :=
  summary <~ lift (SummarizeOverload.summarize raw) ;
  external ;~
  external ;~
  completed <~ lift (_ <- $raw.["metrics_before"] ;; counted raw "requests_completed_total") ;
  submitted <~ lift (counted raw "io_submissions_total") ;
  log <~ log_of ;
  lift (row <- row_of variant repeat raw summary log completed submitted ;; priced row summary).

Definition trial (o : Options) (temporary : string) (repeat : Z) (metadata : val) (variant : string) : io host val :=
  say (case_ o +:+ " repeat " +:+ string_of_Z repeat +:+ ": " +:+ variant) ;~
  raw <~ load o temporary variant (variant +:+ "-" +:+ string_of_Z repeat) ;
  row <~ measured_row variant repeat raw ;
  metadata <~ lift (append_run metadata row) ;
  save o metadata ;~
  line <~ lift (run_line variant row) ;
  say line ;~
  ret metadata.

(** Backwards in every second repeat. *)
Definition order (repeat : nat) (l : list string) : list string := if Nat.odd repeat then rev l else l.
Definition trials (o : Options) (temporary : string) (metadata : val) : io host val :=
  foldM (fun metadata repeat => foldM (trial o temporary (Z.of_nat repeat + 1)) metadata (order repeat (variants o)))
    metadata (seq 0 (Z.to_nat (repeats o))).

(** ** The medians *)

Definition median_names : list string := ["goodput"; "cpu_ns_per_success"; "service_p99_ms"; "success_p99_ms"].
Definition phase_at (row : val) (i : Z) : expr := at_ ($row.["summary"].["phases"]) (int i).
Definition median_at (rows : list val) (i : Z) (k : string) : expr :=
  present <- filterR (fun row => notR (noneR (get (phase_at row i) k))) rows ;;
  medianR (fun row => (phase_at row i).[k]) present.
Definition variant_medians (runs : list val) (variant : string) : expr :=
  rows <- filterR (fun row => $row.["variant"] ==' str variant) runs ;;
  first <- firstR rows ;;
  is_ <- range (lenR ($first.["summary"].["phases"])) ;;
  rmap VList (mapR (fun i => dictcomp median_names (median_at rows i)) is_).
Definition medians_of (l : list string) (runs : list val) : expr :=
  rmap VDict (dict_by (fun v => str v) (variant_medians runs) l).

(** ** [main] *)

(** [main] from its parsed arguments on; the result is what is saved last. *)
Definition main (o : Options) : io host val :=
  external ;~
  stamp <~ clock ;
  let temporary := str_path (under (path_of "/tmp") ("zhtps-trials-" +:+ py_str stamp)) in
  let file name := str_path (under (path_of temporary) name) in
  external ;~
  write_file (file "empty") "" ;~
  write_file (file "body") body ;~
  write_file (file "stream") (join nl ["one"; "two"; "three"; ""]) ;~
  hashes <~ mapM (fun _ => file_sha) (distinct (variants o)) ;
  check_hashes hashes ;~
  each check_build (distinct (variants o)) ;~
  metadata <~ initial_metadata o ;
  metadata <~ trials o temporary metadata ;
  runs <~ lift (iterR ($metadata.["runs"])) ;
  medians <~ lift (medians_of (variants o) runs) ;
  metadata <~ lift (setR metadata "medians" ($medians)) ;
  save o metadata ;~
  text <~ lift (json_dumps2 medians) ;
  say text ;~
  ret metadata.

(** ** Lemmas *)

Lemma tidy_request_path o : tidy (main o).
Proof.
  unfold main. cbv zeta. repeat (apply tidy_bind; [|intros ?]);
    unfold trials, trial, load, measured_row, log_of, check_build, check_hashes, initial_metadata, binary_hash, source_hash, zig_sources, rglob,
      sha_of, file_sha, refuse, save; tidily.
Qed.

(** Every child has exited when a comparison is over, however it ends. *)
Theorem request_path_stops_everything o h r h' : procs h = [] -> main o h = (r, h') -> all_exited h'.
Proof. intros Hh. by apply tidy_all_exited; [apply tidy_request_path|]. Qed.

(** *** What a row says *)

(** The trials in their order, and as a matrix. *)
Definition slots (o : Options) : list (Z * string) :=
  concat (map (fun r => map (fun v => (Z.of_nat r + 1, v)) (order r (variants o))) (seq 0 (Z.to_nat (repeats o)))).
Definition matrix (o : Options) : list (Z * string) :=
  concat (map (fun r => map (fun v => (Z.of_nat r + 1, v)) (variants o)) (seq 0 (Z.to_nat (repeats o)))).

Lemma slots_perm o : slots o ≡ₚ matrix o.
Proof. apply concat_map_perm. intros r. apply Permutation_map. unfold order. destruct (Nat.odd r); [symmetry; apply Permutation_rev|done]. Qed.

(** The row of a run: its phases are those of the summary of the run's report, with the cost of a success, and still account for
    every offer. *)
Definition row_at (s : Z * string) (row : val) : Prop :=
  $row.["variant"] = str s.2 /\ $row.["repeat"] = int s.1
  /\ exists raw summary phases priced_, SummarizeOverload.summarize raw = Ok summary
  /\ $summary.["phases"] = Ok (VList phases) /\ $row.["summary"].["phases"] = Ok (VList priced_)
  /\ Forall2 (fun p q => with_cpu p = Ok q) phases priced_
  /\ $row.["io_per_completed"] = (counted raw "io_submissions_total" /' counted raw "requests_completed_total")
  /\ exists offered, iterR ($raw.["client"].["phases"]) = Ok offered /\ Forall2 SummarizeOverload.accounted offered priced_.

Lemma accounted_with_cpu phase row row' : SummarizeOverload.accounted phase row -> with_cpu row = Ok row' -> SummarizeOverload.accounted phase row'.
Proof.
  intros Ha H c Hc. apply Ha in Hc as (H1 & H2 & H3 & seconds & H4 & H5 & H6). pose proof (fun k N => setR_other _ _ _ _ k H N) as K.
  split_and!; [done|by rewrite K|by rewrite K|]. exists seconds. split_and!; [done|by rewrite K|by rewrite K].
Qed.

Lemma measured_row_ok variant repeat raw h row h' : measured_row variant repeat raw h = (Ok row, h') -> row_at (repeat, variant) row.
Proof.
  unfold measured_row. intros H. apply bind_ok in H as (summary & ? & [Hs _]%lift_ok & H). do 2 next H.
  apply bind_ok in H as (completed & ? & [Hc _]%lift_ok & H). apply rbind_ok in Hc as (? & _ & Hc).
  apply bind_ok in H as (submitted & ? & [Hi _]%lift_ok & H). apply bind_ok in H as (log & ? & _ & H). apply lift_ok in H as [H _].
  apply rbind_ok in H as (row0 & H0 & H). unfold priced in H. apply rbind_ok in H as (phases & Hp & H).
  destruct (setR_new _ _ _ _ H) as (summary' & H1 & H2). destruct (setR_new _ _ _ _ H1) as (ps & H3 & H4).
  apply rmap_ok in H3 as (priced_ & H3%mapR_ok & ->). pose proof (fun k N => setR_other _ _ _ _ k H N) as K.
  destruct (summarize_phases _ _ Hs) as (offered & rows & Ho & Hr & Hf). unfold iterR in Hp. rewrite Hr in Hp. injection Hp as <-.
  unfold row_of in H0. split_and!.
  - rewrite K by done. by destruct (mkdict_get _ _ "variant" _ H0 eq_refl) as (? & <- & ?).
  - rewrite K by done. by destruct (mkdict_get _ _ "repeat" _ H0 eq_refl) as (? & <- & ?).
  - exists raw, summary, rows, priced_. split_and!; [done|done| |done| |].
    + by rewrite H2.
    + rewrite K by done. rewrite Hc, Hi. by destruct (mkdict_get _ _ "io_per_completed" _ H0 eq_refl) as (? & -> & ?).
    + exists offered. split; [done|]. clear -Hf H3. revert priced_ H3. induction Hf as [|p r ps rs Hp _ IH]; intros qs Hq; inversion Hq; subst; constructor; [|by apply IH].
      eapply accounted_with_cpu; [|done]. by eapply phase_row_accounted.
Qed.

(** *** The report *)

Definition has_runs (metadata : val) (rows : list val) : Prop := $metadata.["runs"] = Ok (VList rows).

Lemma trials_rows o temporary metadata h metadata' h' :
  has_runs metadata [] -> trials o temporary metadata h = (Ok metadata', h') ->
  exists rows, Forall2 row_at (slots o) rows /\ has_runs metadata' rows.
Proof.
  unfold trials, slots. intros Hr H. refine ((fun Hf => foldM_rows _ has_runs _ row_at _ Hf _ _ _ _ [] Hr H) _).
  intros s1 r w1 s2 w2 xs Hs H1. eapply (foldM_rows _ has_runs (fun v => [(Z.of_nat r + 1, v)])) in H1 as (ys & Hys & Hs');
    [exists ys; split; [by rewrite <- concat_map_single|exact Hs']| |exact Hs].
  intros s3 v w3 s4 w4 zs Hs3 H3. unfold trial in H3. do 2 next H3. apply bind_ok in H3 as (row & ? & Hrow%measured_row_ok & H3).
  apply bind_ok in H3 as (s5 & ? & [Ha _]%lift_ok & H3). do 3 next H3. injection H3 as <- _. exists [row]. split; [constructor; [exact Hrow|constructor]|].
  unfold append_run, iterR in Ha. unfold has_runs in *. rewrite Hs3 in Ha. cbn [rbind py_iter] in Ha. by apply setR_new in Ha as (v' & [= <-] & ->).
Qed.

(** The medians of a variant: one cell per phase of its first row, of the rows of that variant only. *)
Definition medians_at (runs : list val) (medians : val) (variant : string) : Prop :=
  exists rows first phases cells, filterR (fun row => $row.["variant"] ==' str variant) runs = Ok rows /\ head rows = Some first
  /\ $first.["summary"].["phases"] = Ok phases /\ $medians.[variant] = Ok (VList cells)
  /\ py_len phases = Ok (Z.of_nat (length cells))
  /\ forall i cell, cells !! i = Some cell -> forall k, k ∈ median_names -> $cell.[k] = median_at rows (Z.of_nat i) k.

Lemma variant_medians_ok runs variant v medians :
  variant_medians runs variant = Ok v -> $medians.[variant] = Ok v -> medians_at runs medians variant.
Proof.
  unfold variant_medians. intros (rows & Hrows & H)%rbind_ok Hm. apply rbind_ok in H as (first & Hf & H).
  unfold firstR in Hf. destruct (head rows) as [f|] eqn:Eh; [|done]. injection Hf as ->.
  apply rbind_ok in H as (is_ & Hi & H). apply rmap_ok in H as (cells & Hc%mapR_ok & ->).
  unfold range in Hi. apply rbind_ok in Hi as (n & Hn & Hi). unfold lenR in Hn. apply rbind_ok in Hn as (phases & Hp & Hn).
  apply rmap_ok in Hn as (z & Hz & ->). injection Hi as <-. exists rows, first, phases, cells. split_and!; [done|done|done|done| |].
  - rewrite Hz. f_equal. apply Forall2_length in Hc. rewrite length_seqZ in Hc. rewrite <- Hc.
    assert (0 <= z); [|lia]. destruct phases; try discriminate Hz; injection Hz as <-; lia.
  - intros i cell Hcell k Hk. eapply Forall2_lookup_r in Hc as (z' & Hz' & Hc); [|exact Hcell].
    apply lookup_seqZ in Hz' as [-> _]. rewrite Z.add_0_l in Hc. unfold dictcomp in Hc.
    assert (Ha : assoc k (map (fun k => (k, median_at rows (Z.of_nat i) k)) median_names) = Some (median_at rows (Z.of_nat i) k)) by (by each_of Hk).
    by destruct (mkdict_get _ _ _ _ Hc Ha) as (w & -> & Hw).
Qed.

Lemma medians_of_ok l runs medians : medians_of l runs = Ok medians -> Forall (medians_at runs medians) l.
Proof.
  unfold medians_of. intros (d & Hd & ->)%rmap_ok. apply Forall_forall. intros variant Hin.
  destruct (dict_by_has _ _ _ _ variant variant Hd Hin eq_refl) as [v Hv]. destruct (dict_by_get _ _ _ _ _ _ Hd Hv) as (i & x & _ & [= ->] & Hx).
  eapply variant_medians_ok; [exact Hx|]. unfold idx, str. cbn. unfold sget in *. by rewrite Hv.
Qed.

(** A comparison that ends has one row per repeat and variant, every second repeat backwards; every row holds the
    summary of its own report, which accounts for every offer of the load, with the cost of a success where there is one; and the medians of
    every variant, phase by phase, are those of the rows of that variant. *)
Theorem request_path_rows o h metadata h' :
  main o h = (Ok metadata, h') ->
  exists rows medians, $metadata.["runs"] = Ok (VList rows) /\ $metadata.["medians"] = Ok medians
  /\ Forall2 row_at (slots o) rows /\ slots o ≡ₚ matrix o /\ Forall (medians_at rows medians) (variants o).
Proof.
  unfold main. cbv zeta. intros H. do 9 next H. apply bind_ok in H as (m0 & ? & H0 & H).
  assert (Hm0 : has_runs m0 []) by (unfold initial_metadata in H0; do 2 next H0; by injection H0 as <- _).
  apply bind_ok in H as (m1 & ? & (rows & Hrows & Hm1)%trials_rows & H); [|done].
  apply bind_ok in H as (runs & ? & [Hr _]%lift_ok & H). unfold iterR in Hr. rewrite Hm1 in Hr. injection Hr as <-.
  apply bind_ok in H as (medians & ? & [Hm _]%lift_ok & H). apply bind_ok in H as (m2 & ? & [H2 _]%lift_ok & H). do 3 next H. injection H as <- _.
  pose proof (setR_other _ _ _ _ "runs" H2 ltac:(done)) as K. apply setR_new in H2 as (v & [= <-] & H2).
  exists rows, medians. split_and!; [by rewrite K|done|done|apply slots_perm|by apply medians_of_ok].
Qed.
End Root.

(** ** Two builds, one with half of the submissions *)

Definition path_options : Options :=
  mkOptions ["plain"; "batched"] "/w" "out" "small" 2 "100:60s" 64 256 "2" "4-7" 1 "/records" false false None (obj []).
Definition path_metrics (completed submitted : Z) : val :=
  obj [("counters", obj [("requests_completed_total", VInt completed); ("io_submissions_total", VInt submitted)])].
Definition path_report (submitted : Z) : string :=
  value_or "" (r <- setR SummarizeOverload.sample_report "metrics_before" ($(path_metrics 100 50)) ;;
               r <- setR r "metrics_after" ($(path_metrics 1100 (50 + submitted))) ;; json_dumps r).
Definition receipt_text (binary : string) : string :=
  value_or "" (json_dumps (obj [("sources", obj [("src/a.zig", VStr (sha256_hex "zig"))]); ("binaries", obj [("zhtps", VStr (sha256_hex binary))])])).
Definition glob_turns : list turn := [answered (VList [VStr "src/a.zig"]); text_ "zig"].
Definition log_text : string :=
  join "" (map (fun kind => value_or "" (json_dumps (obj [("event", VStr kind)])) +:+ nl) ["listening"; "request_complete"]).
Definition path_trial_turns (process : nat) (submitted : Z) : list turn :=
  [blank; blank; text_ "done"; text_ ""; ended process 0; blank; text_ (path_report submitted); blank; blank; number_ 80; text_ log_text; blank; blank].
Definition path_turns : list turn :=
  [blank; number_ 7; blank; blank; blank; blank; text_ "A"; text_ "B"; text_ (receipt_text "A")] ++ glob_turns ++ [text_ "A"; text_ (receipt_text "B")]
  ++ glob_turns ++ [text_ "B"; text_ "A"; text_ "B"] ++ glob_turns ++ glob_turns
  ++ path_trial_turns 0 2000 ++ path_trial_turns 1 1000 ++ path_trial_turns 2 1000 ++ path_trial_turns 3 2000 ++ [blank; blank].
Definition path_host : host := Host [] (fun n => nth n path_turns blank) 0 [] [].
Definition path_result : val := value_or VNone (main "/r" "python3" path_options path_host).1.

(** The second repeat runs backwards; the cost of a success is the same. *)
Example path_rows :
  (rows <- iterR ($path_result.["runs"]) ;;
   mapR (fun row => fstring [V ($row.["variant"]); F " "; V ($row.["repeat"]); F " "; V ($row.["io_per_completed"]); F " ";
                             V ($row.["log"].["access_records"])]) rows)
  = Ok ["plain 1 2.0 1"; "batched 1 1.0 1"; "batched 2 1.0 1"; "plain 2 2.0 1"].
Proof. vm_compute. reflexivity. Qed.
Example path_medians :
  (cells <- iterR ($path_result.["medians"].["batched"]) ;; row <- firstR cells ;;
   mapR (fun k => rmap py_str ($row.[k])) median_names) = Ok ["100.0"; "20000000.0"; "3.0"; "4.0"].
Proof. vm_compute. reflexivity. Qed.
