(* ===== verification/InspectRequestPath.v ===== *)
(** * [bench/inspect_request_path.py]: what an idle pool costs, and which system calls a request takes

    [main] starts a pinned server and traces ten thousand requests, loads it at a fixed rate, or holds idle connections; the
    [finally] clause ends the load client, the profiler and the server and saves the report. *)

From stdpp Require Import base list strings.
From Stdlib Require Import ZArith Lia Ascii.
From S2P Require Import Prelude PyFloat PyText PyVal PyJson PyScript PyStats PyHash Evidence SummarizeHttp2Lan PyIO System AccessLog ProcSample RemoteLoad Compare Overload Crew.

Local Open Scope Z_scope.
Open Scope py_scope.

Record Options := mkOptions {
  binary : string; output : string; trace : bool; idle_connections : Z; seconds : val; capacity : Z; rate : option Z; perf : bool }.

(** [if args.rate] *)
Definition rated (o : Options) : bool := match rate o with Some r => negb (r =? 0) | None => false end.
Definition check_options (o : Options) : res unit :=
  usage_if (perf o && negb (rated o)) "--perf requires --rate" ;;;
  usage_if (trace o && rated o) "--trace and --rate are separate experiments".

(** ** Commands *)

Definition plain_command (o : Options) : list string :=
  ["taskset"; "-c"; "2"; binary o; "--port"; "0"; "--admin-port"; "0"; "--max-connections"; string_of_Z (capacity o); "--no-access-log";
   "--idle-timeout-ms"; "60000"; "--max-requests"; "4294967295"].
Definition server_command (o : Options) : res (list string) :=
  if trace o
  then path <- with_suffix ".trace" (output o) ;; Ok (["strace"; "-f"; "-qq"; "-c"; "-e"; "trace=io_uring_enter"; "-o"; path] ++ plain_command o)
  else Ok (plain_command o).
Definition load_command (o : Options) (load_binary : string) (port : val) : list string :=
  ["taskset"; "-c"; "4-7"; load_binary; "-address"; "127.0.0.1:" +:+ py_str port; "-connections"; "64";
   "-schedule"; string_of_Z (default 0 (rate o)) +:+ ":" +:+ py_str (seconds o) +:+ "s"].
Definition perf_command (data : string) (pid : val) : list string :=
  ["perf"; "record"; "-q"; "-e"; "cpu-clock"; "-F"; "199"; "-g"; "-o"; data; "-p"; py_str pid].
Definition texts (l : list string) : val := VList (map VStr l).

(** ** The state of a run

    What the [finally] clause reads: the report, the load client and the profiler. *)

Record own := Own { i_report : val; i_client : option handle; i_profile : option handle }.
Abbreviation world := (crew own).

Definition put (k : string) (e : expr) : io world unit :=
  s <~ gets cr_own ; report <~ lift (setR (i_report s) k e) ; set_own (Own report (i_client s) (i_profile s)).
Definition put_sample (v : val) : io world unit :=
  s <~ gets cr_own ; samples <~ lift (iterR ($(i_report s).["samples"])) ; put "samples" ($(VList (samples ++ [v]))).
Definition start_client (command : list string) : io world handle :=
  h <~ enlist command ; s <~ gets cr_own ; set_own (Own (i_report s) (Some h) (i_profile s)) ;~ ret h.
Definition start_profile (command : list string) : io world unit :=
  h <~ enlist command ; s <~ gets cr_own ; set_own (Own (i_report s) (i_client s) (Some h)).

(** ** Startup *)

(** A line of the log; one that is not JSON, or names no event, ends the run. *)
Definition port_line (ports : dict) (line : string) : res dict :=
  event <- json_loads line ;;
  ifR (one_of ($event.["event"]) ["listening"; "admin_listening"])
    (k <- $event.["event"] ;; port <- $event.["port"] ;; Ok (dset k port ports)) (Ok ports).

Fixpoint wait_ports (fuel : nat) (server : handle) (until : val) (ports : dict) : io host dict :=
  if (2 <=? length ports)%nat then ret ports else
  match fuel with
  | O => throw (Exn RuntimeError "out of fuel")
  | S fuel =>
      code <~ poll server ;
      (match code with Some _ => text <~ read_proc ; throw (Exn RuntimeError text) | None => ret tt end) ;~
      text <~ read_proc ;
      ports <~ lift (foldR port_line ports (splitlines_bytes "" text)) ;
      late <~ (now <~ clock ; lift ($now >=' $until)) ;
      (if late : bool then throw (Exn TimeoutError "startup") else ret tt) ;~
      advance ;~
      wait_ports fuel server until ports
  end.

(** ** Traced requests *)

(** The headers up to the empty line. *)
Fixpoint skip_headers (fuel : nat) : io host unit :=
  match fuel with
  | O => throw (Exn RuntimeError "out of fuel")
  | S fuel =>
      line <~ answer_text ;
      if String.eqb line crlf then ret tt
      else if String.eqb line "" then throw (Exn EOFError "incomplete response headers")
      else skip_headers fuel
  end.
Definition assertion (ok : bool) (message : string) : io host unit := if ok then ret tt else throw (Exn AssertionError message).
Definition traced_request (fuel : nat) (_ : nat) : io host unit :=
  external ;~
  status <~ answer_text ;
  assertion (String.eqb status ("HTTP/1.1 200 OK" +:+ crlf)) status ;~
  skip_headers fuel ;~
  body <~ answer_text ;
  assertion (String.eqb body ("ZHTPS" +:+ nl)) "".
Definition requests : Z := 10000.
Definition traced (fuel : nat) : io world unit :=
  on_host (external ;~ external ;~ each (traced_request fuel) (seq 0 (Z.to_nat requests)) ;~ external) ;~
  put "requests" (int requests).

(** ** A fixed rate *)

Definition core_two : io host val := text <~ read_proc ; lift (core_sample [2] text).
Definition timed_sample (process : io host val) : io host val :=
  ns <~ clock ; p <~ process ; core <~ core_two ; ret (obj [("ns", ns); ("process", p); ("core", core)]).

(** A field of [stat] in seconds *)
Definition clock_seconds (fields : list string) (i : nat) : io host val :=
  n <~ lift (field fields i) ; tick <~ clock ; lift (int n /' $tick).
(** The sample of a process, its two times read before it. *)
Definition split_sample : io host val :=
  text <~ read_proc ;
  fields <~ lift (stat_fields text) ;
  p <~ take_proc_sample ;
  user <~ clock_seconds fields 11 ;
  system <~ clock_seconds fields 12 ;
  lift (p <- setR p "user_seconds" ($user) ;; setR p "system_seconds" ($system)).

Fixpoint load_loop (fuel : nat) (client : handle) (deadline : val) : io world unit :=
  match fuel with
  | O => throw (Exn RuntimeError "out of fuel")
  | S fuel =>
      p <~ on_host split_sample ;
      v <~ on_host (timed_sample (ret p)) ;
      put_sample v ;~
      code <~ on_host (poll client) ;
      match code with
      | Some c => if c =? 0 then ret tt else on_host (text <~ read_proc ; throw (Exn RuntimeError text))
      | None =>
          late <~ on_host (now <~ clock ; lift ($now >' $deadline)) ;
          (if late : bool then throw (Exn TimeoutError "load") else ret tt) ;~
          on_host advance ;~
          load_loop fuel client deadline
      end
  end.

Definition profiled (o : Options) (pid : val) : io world unit :=
  path <~ lift (with_suffix ".perf.txt" (output o)) ;
  on_host external ;~
  data <~ lift (with_suffix ".perf.data" (output o)) ;
  let command := perf_command data pid in
  put "perf_command" ($(texts command)) ;~
  start_profile command ;~
  on_host advance ;~ ret tt.
Definition loaded (ROOT : string) (fuel : nat) (o : Options) (pid port : val) : io world unit :=
  (if perf o then profiled o pid else ret tt) ;~
  let command := load_command o (str_path (under (path_of ROOT) "zig-out/bench/load")) port in
  put "load_command" ($(texts command)) ;~
  path <~ lift (with_suffix ".client.json" (output o)) ;
  on_host external ;~
  client <~ start_client command ;
  deadline <~ on_host (now <~ clock ; lift ($now +' $(seconds o) +' int 10)) ;
  load_loop fuel client deadline ;~
  text <~ on_host read_proc ;
  put "client" (json_loads text).

(** ** Idle connections *)

Definition connect (i : nat) : io host unit := external ;~ (if (i mod 64 =? 63)%nat then advance ;~ ret tt else ret tt).
Definition idle_sample (last : nat) (i : nat) : io world unit :=
  v <~ on_host (timed_sample take_proc_sample) ;
  put_sample v ;~
  (if (i <? last)%nat then on_host advance ;~ ret tt else ret tt).
Definition idled (o : Options) : io world unit :=
  on_host (each connect (seq 0 (Z.to_nat (idle_connections o)))) ;~
  on_host advance ;~
  whole <~ on_host (lift (v <- py_int_of (seconds o) ;; as_int v)) ;
  each (idle_sample (Z.to_nat whole)) (seq 0 (Z.to_nat (whole + 1))).

(** ** A run *)

Definition run (ROOT : string) (fuel : nat) (o : Options) (server : handle) : io world unit :=
  until <~ on_host (now <~ clock ; lift ($now +' int 10)) ;
  ports <~ on_host (wait_ports fuel server until []) ;
  port <~ lift (idx ($(VDict ports)) "listening") ;
  if trace o then traced fuel
  else if rated o then pid <~ on_host clock ; loaded ROOT fuel o pid port
  else idled o.

(** [process.wait(timeout=...)] *)
Definition wait_for (h : handle) : io host Z := wait_timeout h.
Definition end_client (client : option handle) : io host unit :=
  match client with
  | None => ret tt
  | Some h =>
      code <~ poll h ; (match code with None => kill h | Some _ => ret tt end) ;~ wait_for h ;~ advance ;~ ret tt
  end.
Definition end_profile (profile : option handle) : io world unit :=
  match profile with
  | None => ret tt
  | Some h =>
      code <~ on_host (poll h) ;
      (match code with None => on_host (advance ;~ ret tt) | Some _ => ret tt end) ;~
      code <~ on_host (wait_for h) ;
      put "perf_exit" (int code) ;~
      on_host advance ;~ ret tt
  end.
(** A traced server is ended through the children of [strace]. *)
Definition signal_server (o : Options) (server : handle) : io host unit :=
  if trace o
  then text <~ read_proc ; each (fun child => lift (py_int child) ;~ external ;~ ret tt) (split_ws text)
  else terminate server.
Definition cleanup (o : Options) (server : handle) : io world unit :=
  s <~ gets cr_own ;
  on_host (end_client (i_client s)) ;~
  end_profile (i_profile s) ;~
  on_host (advance ;~ ret tt) ;~
  on_host (signal_server o server) ;~
  on_host (wait_for server) ;~
  code <~ on_host (returncode server) ;
  put "exit" ($code) ;~
  s <~ gets cr_own ;
  on_host (text <~ lift (json_dumps2 (i_report s)) ; write_file (output o) (text +:+ nl)).

Definition inspect (ROOT : string) (fuel : nat) (o : Options) (report : val) (command : list string) : io host val :=
  server <~ popen command ;
  r <~ with_crew (Own report None None) (run ROOT fuel o server) (cleanup o server) ;
  ret (i_report r.2).

(** ** [main] *)

Definition cpu_cores (first last : val) : expr :=
  ($last.["process"].["cpu_seconds"] -' $first.["process"].["cpu_seconds"])
  /' (($last.["ns"] -' $first.["ns"]) /' lit 1000000000 0).
Definition summary_line (o : Options) (samples : list val) : res string :=
  first <- firstR samples ;;
  last <- lastR samples ;;
  cpu <- cpu_cores first last ;;
  line <- mkdict [("output", str (output o)); ("cpu_cores", $cpu); ("rss_mib", $last.["process"].["VmRSS"] /' int 1048576)] ;;
  json_dumps line.

(** [main] from its parsed arguments on; the result is the report that is saved.  The first calls pin the process and raise its
    limit of open files. *)
Definition main (ROOT : string) (fuel : nat) (o : Options) : io host val :=
  lift (check_options o) ;~
  external ;~
  clock ;~
  external ;~
  external ;~
  command <~ lift (server_command o) ;
  content <~ read_proc ;
  log_path <~ lift (with_suffix ".log" (output o)) ;
  external ;~
  report <~ inspect ROOT fuel o
    (obj [("command", texts command); ("binary_sha256", VStr (sha256_hex content)); ("trace", VBool (trace o));
          ("idle_connections", VInt (idle_connections o)); ("samples", VList [])]) command ;
  samples <~ lift (iterR ($report.["samples"])) ;
  (match samples with
   | [] => lift (with_suffix ".trace" (output o)) ;~ text <~ read_proc ; say text
   | _ => line <~ lift (summary_line o samples) ; say line
   end) ;~
  ret report.

(** ** Lemmas *)

(** *** What a run holds when its cleanup begins *)

(** Of the processes started after the server only the client and the profiler may still run; [c] and [p] say that there is
    none yet. *)
Definition held (h0 : host) (c p : bool) (s : world) : Prop :=
  watched h0 s /\ (forall k, In k (cr_members s) -> i_client (cr_own s) = Some k \/ i_profile (cr_own s) = Some k)
  /\ (c = true -> i_client (cr_own s) = None) /\ (p = true -> i_profile (cr_own s) = None).

Lemma held_weaken h0 c p s : held h0 c p s -> held h0 false false s.
Proof. intros (W & M & _). by split_and!. Qed.

(** [m] begins without a client ([c]), a profiler ([p]), and ends so ([c'], [p']). *)
Definition moves {A} (h0 : host) (c p c' p' : bool) (m : io world A) : Prop :=
  triple (held h0 c p) m (fun _ => held h0 c' p') (held h0 false false).

Section Moves.
Context {A B : Type} (h0 : host).

Lemma moves_bind c p c1 p1 c2 p2 (m : io world A) (k : A -> io world B) :
  moves h0 c p c1 p1 m -> (forall a, moves h0 c1 p1 c2 p2 (k a)) -> moves h0 c p c2 p2 (bind m k).
Proof. intros Hm Hk. by eapply triple_bind. Qed.
Lemma moves_lift c p (x : res A) : moves h0 c p c p (lift x).
Proof. intros s r s' H [= <- <-]. destruct x; [done|by eapply held_weaken]. Qed.
Lemma moves_ret c p (a : A) : moves h0 c p c p (ret a).
Proof. apply (moves_lift c p (Ok a)). Qed.
Lemma moves_throw c p e : moves h0 c p c p (throw (A:=A) e).
Proof. apply (moves_lift c p (Err e)). Qed.
Lemma moves_gets c p (f : world -> A) : moves h0 c p c p (gets f).
Proof. by intros s r s' H [= <- <-]. Qed.
Lemma moves_on_host c p (m : io host A) : tidy m -> moves h0 c p c p (on_host m).
Proof.
  intros Hm s r s' (W & M & C & P) E. pose proof (watch_on_host h0 m Hm _ _ _ W E) as W'. unfold on_host, zoom in E.
  destruct (m (cr_host s)) as [x h]. injection E as <- <-. by destruct x; split_and!.
Qed.
Lemma moves_forget c p c' p' (m : io world A) : moves h0 c p c' p' m -> moves h0 c p c' false m.
Proof.
  intros Hm s r s' H E. specialize (Hm _ _ _ H E). destruct r; [|done]. destruct Hm as (W & M & C & _). by split_and!.
Qed.
Lemma moves_forget_both c p c' p' (m : io world A) : moves h0 c p c' p' m -> moves h0 c p false false m.
Proof. intros Hm s r s' H E. specialize (Hm _ _ _ H E). destruct r; [by eapply held_weaken|done]. Qed.
End Moves.

Lemma moves_put h0 c p k e : moves h0 c p c p (put k e).
Proof.
  unfold put. intros s r s' (W & M & C & P). unfold bind, gets, lift. destruct (setR _ k e) as [report|x].
  - intros [= <- <-]. by split_and!.
  - intros [= <- <-]. by split_and!.
Qed.
Lemma moves_put_sample h0 c p v : moves h0 c p c p (put_sample v).
Proof.
  unfold put_sample. eapply moves_bind; [apply moves_gets|]. intros s. eapply moves_bind; [apply moves_lift|]. intros samples. apply moves_put.
Qed.
Lemma moves_each {A} h0 c p (f : A -> io world unit) l : (forall a, moves h0 c p c p (f a)) -> moves h0 c p c p (each f l).
Proof. intros Hf. induction l as [|a l IH]; cbn; [apply moves_ret|]. by eapply moves_bind. Qed.

(** The two starts, each at most once. *)
Lemma moves_start_client h0 p command : moves h0 true p false p (start_client command).
Proof.
  unfold start_client. intros s r s' (W & M & C & P). unfold bind at 1. destruct (enlist command s) as [[h|e] s1] eqn:E.
  all: pose proof (watch_enlist h0 command _ _ _ W E) as W1; apply enlist_spec in E as [Eo Em]; cbn in W1.
  - intros [= <- <-]. split_and!; cbn; [exact W1| |done|by rewrite Eo].
    intros k. rewrite Em. intros [Hk|[->|[]]]%in_app_iff; [|by left]. apply M in Hk. rewrite (C eq_refl) in Hk. destruct Hk as [|Hk]; [done|]. right. by rewrite Eo.
  - intros [= <- <-]. split_and!; [done| |done|done]. intros k. rewrite Em, Eo. apply M.
Qed.
Lemma moves_start_profile h0 c command : moves h0 c true c false (start_profile command).
Proof.
  unfold start_profile. intros s r s' (W & M & C & P). unfold bind at 1. destruct (enlist command s) as [[h|e] s1] eqn:E.
  all: pose proof (watch_enlist h0 command _ _ _ W E) as W1; apply enlist_spec in E as [Eo Em]; cbn in W1.
  - intros [= <- <-]. split_and!; cbn; [exact W1| |by rewrite Eo|done].
    intros k. rewrite Em. intros [Hk|[->|[]]]%in_app_iff; [|by right]. apply M in Hk. rewrite (P eq_refl) in Hk. destruct Hk as [Hk|]; [|done]. left. by rewrite Eo.
  - intros [= <- <-]. split_and!; [done| |done|done]. intros k. rewrite Em, Eo. apply M.
Qed.
#[local] Hint Resolve moves_lift moves_ret moves_throw moves_gets moves_put moves_put_sample moves_start_client moves_start_profile : zhtps.

Ltac moving := repeat first [ progress intros | solve [auto with zhtps] | apply moves_on_host; tidily | apply moves_each | eapply moves_bind | case_match ].

Lemma settled_ports fuel server limit ports : settled (wait_ports fuel server limit ports).
Proof. revert ports. induction fuel as [|fuel IH]; intros ports; cbn [wait_ports]; case_match; settle; apply IH. Qed.
Lemma settled_headers fuel : settled (skip_headers fuel).
Proof. induction fuel as [|fuel IH]; cbn [skip_headers]; settle; apply IH. Qed.
#[local] Hint Resolve settled_ports settled_headers : zhtps.

Lemma moves_load_loop h0 fuel client deadline : moves h0 false false false false (load_loop fuel client deadline).
Proof.
  induction fuel as [|fuel IH]; cbn [load_loop]; [auto with zhtps|]. unfold split_sample, timed_sample, clock_seconds, core_two, take_proc_sample.
  moving.
Qed.
Lemma moves_traced h0 c p fuel : moves h0 c p c p (traced fuel).
Proof. unfold traced. eapply moves_bind; [|moving]. apply moves_on_host. unfold traced_request, assertion. generalize requests. intros n. tidily. Qed.
Lemma moves_idled h0 c p o : moves h0 c p c p (idled o).
Proof. unfold idled, connect, idle_sample, timed_sample, core_two, take_proc_sample. moving. Qed.
Lemma moves_profiled h0 c o pid : moves h0 c true c false (profiled o pid).
Proof. unfold profiled. cbv zeta. moving. Qed.
Lemma moves_loaded h0 ROOT fuel o pid port : moves h0 true true false false (loaded ROOT fuel o pid port).
Proof.
  unfold loaded. cbv zeta. eapply (moves_bind _ true true true false).
  - destruct (perf o); [apply moves_profiled|]. eapply moves_forget, moves_ret.
  - intros _. pose proof (moves_load_loop h0). moving.
Qed.
Lemma moves_run h0 ROOT fuel o server : moves h0 true true false false (run ROOT fuel o server).
Proof.
  unfold run. eapply moves_bind; [moving|]. intros limit. eapply moves_bind; [moving|]. intros ports. eapply moves_bind; [moving|]. intros port.
  destruct (trace o); [eapply moves_forget_both, moves_traced|]. destruct (rated o); [|eapply moves_forget_both, moves_idled].
  eapply moves_bind; [moving|]. intros pid. apply moves_loaded.
Qed.

(** *** The cleanup *)

(** A step that starts no process. *)
Definition resting {A} (m : io world A) : Prop := forall s r s', m s = (r, s') ->
  later (cr_host s) (cr_host s') /\ length (procs (cr_host s')) = length (procs (cr_host s)).

Lemma resting_on_host {A} (m : io host A) : settled m -> resting (on_host m).
Proof. intros Hm s r s'. unfold on_host, zoom. destruct (m (cr_host s)) as [x h] eqn:E. intros [= _ <-]. by apply Hm in E. Qed.
Lemma resting_put k e : resting (put k e).
Proof.
  unfold put. intros s r s'. unfold bind, gets, lift. destruct (setR _ k e) as [report|x]; intros [= _ <-]; (split; [apply later_refl|done]).
Qed.
Lemma resting_ret {A} (a : A) : resting (ret a).
Proof. intros s r s' [= _ <-]. by split; [apply later_refl|]. Qed.
Lemma resting_gets {A} (f : world -> A) : resting (gets f).
Proof. intros s r s' [= _ <-]. by split; [apply later_refl|]. Qed.
Lemma resting_bind {A B} (m : io world A) (k : A -> io world B) : resting m -> (forall a, resting (k a)) -> resting (bind m k).
Proof.
  intros Hm Hk s r s'. unfold bind. destruct (m s) as [[a|e] s1] eqn:E; apply Hm in E as [L N].
  - intros H. apply Hk in H as [L' N']. split; [by eapply later_trans|congruence].
  - by intros [= _ <-].
Qed.
#[local] Hint Resolve resting_put resting_ret resting_gets : zhtps.
Ltac restfully := repeat first [ progress intros | solve [auto with zhtps] | apply resting_on_host; settle | apply resting_bind | case_match ].

(** What a resting step ends, is ended. *)
Lemma resting_ends {A B} (m : io world A) (k : A -> io world B) s b s' :
  resting m -> bind m k s = (Ok b, s') ->
  exists a s1, m s = (Ok a, s1) /\ k a s1 = (Ok b, s') /\ (forall h, exited h (cr_host s) -> exited h (cr_host s1))
  /\ later (cr_host s) (cr_host s1) /\ length (procs (cr_host s1)) = length (procs (cr_host s)).
Proof. intros Hm (a & s1 & H1 & H2)%bind_ok. exists a, s1. apply Hm in H1 as L. split_and!; try done; [by apply L|apply L|apply L]. Qed.

Lemma settled_end_client client : settled (end_client client).
Proof. unfold end_client, wait_for. settle. Qed.
Lemma end_client_ok k w u w' : (k < length (procs w))%nat -> end_client (Some k) w = (Ok u, w') -> exited k w'.
Proof.
  unfold end_client, wait_for. intros Hk (code & w1 & H1 & H)%bind_ok. apply bind_ok in H as (u1 & w2 & H2 & H).
  apply bind_ok in H as (c & w3 & H3 & H). apply wait_timeout_ok in H3. apply bind_ok in H as (t & w4 & H4 & [= _ <-]).
  apply settled_advance in H4 as [(L & _) _]. by apply L.
Qed.

Lemma end_profile_ok k s u s' :
  (k < length (procs (cr_host s)))%nat -> end_profile (Some k) s = (Ok u, s') -> exited k (cr_host s').
Proof.
  unfold end_profile, wait_for. intros Hk (code & s1 & H1 & H)%bind_ok. apply bind_ok in H as (u1 & s2 & H2 & H).
  apply bind_ok in H as (c & s3 & H3 & H). unfold on_host, zoom in H3. destruct (wait_timeout k (cr_host s2)) as [x w] eqn:E.
  injection H3 as -> <-. apply wait_timeout_ok in E.
  assert (Hc : resting (put "perf_exit" (int c) ;~ on_host advance ;~ ret tt)) by restfully. apply Hc in H as [(L & _) _]. by apply L.
Qed.
Lemma resting_end_profile profile : resting (end_profile profile).
Proof. unfold end_profile, wait_for. restfully. Qed.
#[local] Hint Resolve settled_end_client resting_end_profile : zhtps.

(** A cleanup that ends well has ended every process. *)
Lemma cleanup_ok h0 o server s u s' :
  held h0 false false s -> (server < length (procs h0))%nat -> cleanup o server s = (Ok u, s') ->
  later h0 (cr_host s') /\ exited server (cr_host s')
  /\ forall k, (length (procs h0) <= k < length (procs (cr_host s')))%nat -> exited k (cr_host s').
Proof.
  intros ((L0 & N0 & C0) & M & _) Hs H. unfold cleanup in H. apply bind_ok in H as (own & s0 & [= <- <-] & H).
  assert (Hsig : settled (signal_server o server)) by (unfold signal_server; settle).
  apply resting_ends in H as (u1 & s1 & H1 & H & X1 & L1 & E1); [|restfully].
  apply resting_ends in H as (u2 & s2 & H2 & H & X2 & L2 & E2); [|restfully].
  apply resting_ends in H as (u3 & s3 & H3 & H & X3 & L3 & E3); [|restfully].
  apply resting_ends in H as (u4 & s4 & H4 & H & X4 & L4 & E4); [|restfully].
  apply resting_ends in H as (u5 & s5 & H5 & H & X5 & L5 & E5); [|unfold wait_for; restfully].
  match type of H with ?rest _ = _ => assert (Hr : resting rest) by restfully end. apply Hr in H as [L6 E6].
  assert (X6 : forall h, exited h (cr_host s5) -> exited h (cr_host s')) by apply L6.
  assert (Xc : forall k, i_client (cr_own s) = Some k -> In k (cr_members s) -> exited k (cr_host s1)).
  { intros k Hk Hin%C0. rewrite Hk in H1. unfold on_host, zoom in H1. destruct (end_client (Some k) (cr_host s)) as [x w] eqn:E.
    injection H1 as -> <-. by eapply end_client_ok. }
  assert (Xp : forall k, i_profile (cr_own s) = Some k -> In k (cr_members s) -> exited k (cr_host s2)).
  { intros k Hk Hin%C0. rewrite Hk in H2. eapply end_profile_ok; [|exact H2]. lia. }
  split; [do 6 (eapply later_trans; [done|]); done|]. split.
  - apply X6. unfold on_host, zoom, wait_for in H5. destruct (wait_timeout server (cr_host s4)) as [x w] eqn:E. injection H5 as -> <-. by eapply wait_timeout_ok.
  - intros k Hk. apply X6, X5, X4, X3. destruct (N0 k) as [?|Hm]; [lia|by apply X2, X1|]. destruct (M k Hm) as [Hc|Hp]; [apply X2|]; auto.
Qed.

Lemma inspect_ok ROOT fuel o report command h v h' :
  inspect ROOT fuel o report command h = (Ok v, h') ->
  later h h' /\ forall k, (length (procs h) <= k < length (procs h'))%nat -> exited k h'.
Proof.
  unfold inspect. intros (server & h1 & H1 & H)%bind_ok. pose proof (steady_popen _ _ _ _ H1) as L. apply popen_ok in H1 as (-> & N & _).
  apply bind_ok in H as (r & h2 & H2 & [= _ <-]). unfold with_crew in H2.
  destruct (finally _ _ _) as [x s'] eqn:E in H2. injection H2 as H2 <-. destruct x as [a|e]; [|done].
  apply finally_ok in E as (s1 & Eb & Ec).
  assert (W : held h1 true true (Crew h1 [] (Own report None None))).
  { split_and!; [|done|done|done]. split_and!; [apply later_refl|cbn; intros; lia|done]. }
  pose proof (moves_run h1 ROOT fuel o (length (procs h)) _ _ _ W Eb) as Hh. cbn in Hh.
  apply (cleanup_ok h1) in Ec as (L2 & Xs & X2); [|done|lia]. split; [by eapply later_trans|]. intros k Hk.
  destruct (decide (k = length (procs h))) as [->|]; [done|]. apply X2. lia.
Qed.

(** An experiment that ends well leaves no process: the load client, the profiler and the server have exited. *)
Theorem inspect_stops_everything ROOT fuel o h report h' :
  procs h = [] -> main ROOT fuel o h = (Ok report, h') -> all_exited h'.
Proof.
  intros Hh. unfold main. assert (G : forall {A B} (m : io host A) (k : A -> io host B) w b w', settled m -> bind m k w = (Ok b, w') -> procs w = [] -> exists a w1, k a w1 = (Ok b, w') /\ procs w1 = []).
  { intros A B m k w b w' Hm (a & w1 & H1 & H2)%bind_ok Hw. exists a, w1. split; [done|]. apply Hm in H1 as [_ N]. rewrite Hw in N. by destruct (procs w1). }
  intros H. do 9 (eapply G in H as (? & ? & H & ?); [|settle|done]).
  apply bind_ok in H as (r & h1 & Hi & H). apply inspect_ok in Hi as [L X].
  match type of H with ?rest _ = _ => assert (Hr : settled rest) by settle end. apply Hr in H as [(L2 & _) N2].
  match goal with E : procs ?w = [], Y : context [length (procs ?w)] |- _ => rewrite E in Y end. intros k Hk. apply L2, X. cbn. lia.
Qed.

(** ** A profiled run

    The server is process 0, the profiler 1 and the load client 2. *)

Definition inspect_options : Options := mkOptions "zhtps" "out.json" false 0 (VInt 1) 64 (Some 100) true.
Definition announced : string :=
  join "" (map (fun kp => value_or "" (json_dumps (obj [("event", VStr kp.1); ("port", VInt kp.2)])) +:+ nl) [("listening", 8080); ("admin_listening", 8081)]).
Definition split_turns (ns ticks : Z) : list turn :=
  [text_ long_stat] ++ proc_turns ++ [number_ 100; number_ 100; number_ ns; text_ ("cpu2 1 2 " +:+ string_of_Z ticks)].
(** [last] is the turn in which the profiler has been waited for. *)
Definition inspect_turns (last : turn) : list turn :=
  [blank; blank; blank; blank; text_ "binary"; blank; blank; number_ 0; blank; text_ announced; number_ 0; blank; number_ 42]
  ++ [blank; blank; blank; blank; blank; number_ 0] ++ split_turns 1000000000 7 ++ [blank; number_ 1; blank]
  ++ split_turns 3000000000 9 ++ [ended 2 0; text_ "{}"; blank; blank; blank; blank; blank; last; blank; blank; blank; ended 0 0; blank; blank].
Definition inspect_host (last : turn) : host := Host [] (fun n => nth n (inspect_turns last) blank) 0 [] [].

Example inspect_profiled :
  (let '(r, h) := main "/r" 5 inspect_options (inspect_host (ended 1 0)) in
   (rmap (fun report => (ifR (has ($report) "perf_exit") (str "profiled") (str "not"), $report.["exit"])) r, procs h))
  = (Ok (str "profiled", int 0), [Exited 0; Exited 0; Exited 0]).
Proof. vm_compute. reflexivity. Qed.

(** A profiler that does not end in time: the exception of its wait leaves the server running, and nothing is saved. *)
Example inspect_profiler_hangs :
  (let '(r, h) := main "/r" 5 inspect_options (inspect_host blank) in
   (match r with Ok _ => None | Err e => Some (ex_class e) end, procs h, existsb (fun e => match e with Wrote _ _ => true | _ => false end) (System.trace h)))
  = (Some TimeoutExpired, [Running; Running; Exited 0], false).
Proof. vm_compute. reflexivity. Qed.
