(* ===== verification/DiagnoseHttp2Loopback.v ===== *)
(** * [bench/diagnose_http2_loopback.py]: the LAN benchmark without the network

    [main] runs the server and the supervisor of [Http2Remote] on one host and relays the phases of a run; the shards are
    added up by [aggregate] of [CompareHttp2Lan], and every failure log is compared with its digest.  A compressed log is
    represented by its content. *)

From stdpp Require Import base list strings.
From Stdlib Require Import ZArith Lia Ascii.
From S2P Require Import Prelude PyFloat PyText PyVal PyJson PyScript PyStats PyHash Evidence PyIO System AccessLog ProcSample AuditHttp2Lan RemoteLoad Compare Crew CompareHttp2 CompareHttp2Lan.

Local Open Scope Z_scope.
Open Scope py_scope.

Section Root.
Context (ROOT python : string).

Definition binary : string := str_path (under (path_of ROOT) "zig-out/http2-benchmark/bin/zhtps").
Definition client : string := str_path (under (path_of ROOT) "zig-out/http2-benchmark/lan-client").
Definition digest : io host string := content <~ read_proc ; ret (sha256_hex content).

(** ** A run *)

Definition certificate_command (cert key_ : string) : list string :=
  ["openssl"; "req"; "-x509"; "-newkey"; "ec"; "-pkeyopt"; "ec_paramgen_curve:P-256"; "-nodes"; "-keyout"; key_; "-out"; cert;
   "-days"; "1"; "-subj"; "/CN=localhost"; "-addext"; "subjectAltName=IP:127.0.0.1"].
Definition server_command (cert key_ : string) (port : Z) : list string :=
  ["taskset"; "-c"; "0-7"; binary; "--address"; "127.0.0.1"; "--port"; string_of_Z port; "--admin-connections"; "0"; "--workers"; "8";
   "--worker-cpus"; "0-7"; "--no-access-log"; "--max-connections"; "8176"; "--max-active"; "8176"; "--http2-worker-streams"; "65535";
   "--http2-memory-bytes"; "4294967295"; "--max-requests"; "4294967295"; "--tls-certificate"; cert; "--tls-key"; key_].

(** The exception of the last attempt is the one that is raised. *)
Fixpoint wait_port (fuel : nat) (server : handle) (port : Z) (deadline : val) : io host unit :=
  match fuel with
  | O => throw (Exn RuntimeError "out of fuel")
  | S fuel =>
      code <~ poll server ;
      (match code with Some _ => throw (Exn RuntimeError "server exited during setup") | None => ret tt end) ;~
      failed <~ catch (external ;~ ret None)
        (fun e => if is_oserror (ex_class e) then late <~ (now <~ clock ; lift ($now >=' $deadline)) ; if late : bool then throw e else advance ;~ ret (Some tt) else throw e) ;
      match failed with None => ret tt | Some _ => wait_port fuel server port deadline end
  end.

Definition config_of (folder cert sha : string) (port : Z) : val :=
  obj [("kind", VStr "run"); ("folder", VStr folder); ("binary", VStr client); ("binary_sha256", VStr sha); ("certificate", VStr cert);
       ("client_cpus", VList (map VInt (seqZ 8 8 ++ seqZ 24 8))); ("client_processes", VInt 8); ("connections", VInt 16384);
       ("streams", VInt 4); ("url", VStr ("https://127.0.0.1:" +:+ string_of_Z port +:+ "/")); ("duration", VInt 8); ("warmup", VInt 2);
       ("timeout", VInt 2); ("setup_deadline", VInt 180); ("setup_concurrency", VInt 32); ("max_seconds", VInt 240)].

(** The events of the supervisor, each written to [events.jsonl]; a line that is empty is the end of its output. *)
Fixpoint relay (fuel : nat) (supervisor : handle) : io host val :=
  match fuel with
  | O => throw (Exn RuntimeError "out of fuel")
  | S fuel =>
      line <~ answer_text ;
      if String.eqb line "" then throw (Exn RuntimeError "supervisor exited without a result") else
      external ;~
      event <~ lift (json_loads line) ;
      kind <~ lift ($event.["kind"]) ;
      if py_eqb kind (VStr "result") then ret event else
      (if py_eqb kind (VStr "prepared") then send supervisor (obj [("kind", VStr "warmup")])
       else if py_eqb kind (VStr "ready") then send supervisor (obj [("kind", VStr "measure")])
       else if CompareHttp2Lan.one_of kind ["error"; "eof"] then throw (Exn RuntimeError (py_str event))
       else ret tt) ;~
      send supervisor (obj [("kind", VStr "heartbeat")]) ;~
      relay fuel supervisor
  end.

Definition assertion (b : res bool) : io host unit := ok <~ lift b ; if ok : bool then ret tt else throw (Exn AssertionError "").

Definition check_log (item : val) : io host unit :=
  lift ($item.["path"]) ;~
  raw <~ answer_text ;
  assertion (str (sha256_hex raw) ==' $item.["sha256_uncompressed"]) ;~
  assertion (int (Z.of_nat (length (splitlines_bytes "" raw))) ==' $item.["entries"]).

(** What follows the relay of the events. *)
Definition finish (server supervisor : handle) (command : list string) (config hello result : val) : io host val :=
  close_pipe ;~
  code <~ wait_timeout supervisor ;
  assertion (Ok (code =? 0)) ;~
  summary <~ lift (shards <- iterR ($result.["shards"]) ;; aggregate shards (VInt 8)) ;
  logs <~ lift (iterR ($result.["failure_logs"])) ;
  each check_log logs ;~
  exit_ <~ poll server ;
  ret (obj [("server_command", VList (map VStr command)); ("client_config", config); ("identity", hello); ("result", result);
            ("summary", summary); ("server_exit_before_shutdown", match exit_ with Some c => VInt c | None => VNone end)]).

Definition save (folder name_ : string) (v : val) : io host unit :=
  text <~ lift (json_dumps2 v) ; write_file (str_path (under (path_of folder) name_)) (text +:+ nl).
Definition run_line (repeat : Z) (summary : val) : res string :=
  fstring [F "r"; V (int repeat); F ": "; grouped_fixed 0 ($summary.["requests_per_second"]); F "/s, p99 "; V ($summary.["p99_ms"]);
           F " ms, "; V ($summary.["failure_log_entries"]); F " total failures"].

(** The [try] block: the server is the first member of the crew, the supervisor the second; the report survives in [cr_own]. *)
Definition run_body (fuel : nat) (output folder cert key_ : string) (port repeat : Z) : io (crew val) unit :=
  let command := server_command cert key_ port in
  server <~ enlist command ;
  deadline <~ on_host (now <~ clock ; lift ($now +' int 10)) ;
  on_host (wait_port fuel server port deadline) ;~
  supervisor <~ enlist [python; "-u"; str_path (under (path_of ROOT) "bench/http2_remote.py")] ;
  hello <~ on_host (line <~ answer_text ; lift (json_loads line)) ;
  on_host (assertion ($hello.["kind"] ==' str "hello")) ;~
  resolved <~ on_host answer_text ;
  sha <~ on_host digest ;
  let config := config_of resolved cert sha port in
  on_host (send supervisor config) ;~
  on_host external ;~
  result <~ on_host (relay fuel supervisor) ;
  run <~ on_host (finish server supervisor command config hello result) ;
  on_host (save folder "run.json" run) ;~
  report <~ gets cr_own ;
  report <~ lift (append_run report run) ;
  set_own report ;~
  on_host (save output "results.json" report) ;~
  on_host (line <~ lift (summary <- $run.["summary"] ;; run_line repeat summary) ; say line).

Definition end_supervisor (h : handle) : io host unit :=
  code <~ poll h ; match code with None => CompareHttp2.stop h | Some _ => ret tt end.
Definition run_cleanup : io (crew val) unit :=
  members <~ gets cr_members ;
  on_host (each end_supervisor (drop 1 members)) ;~
  on_host (each CompareHttp2.stop (take 1 members)).

Definition run_step (fuel : nat) (output cert key_ : string) (report : val) (repeat : nat) : io host val :=
  let number := Z.of_nat repeat + 1 in
  let folder := str_path (under (path_of output) ("r" +:+ string_of_Z number)) in
  external ;~
  port <~ available_port ;
  external ;~
  external ;~
  r <~ with_crew report (run_body fuel output folder cert key_ port number) run_cleanup ;
  ret r.2.

(** ** [main] *)

Definition scope : string := "Loopback diagnostic; both processes share a host with disjoint physical CPU cores.".

(** [main] from its parsed arguments on; the result is the report that was saved last. *)
Definition main (fuel : nat) (output : string) (repeats : Z) : io host val :=
  external ;~
  clock ;~
  external ;~
  server_sha <~ digest ;
  client_sha <~ digest ;
  let report := obj [("scope", VStr scope); ("binary_sha256", obj [("zhtps", VStr server_sha); ("client", VStr client_sha)]); ("runs", VList [])] in
  temporary <~ answer_text ;
  report <~ finally (
      let cert := str_path (under (path_of temporary) "cert.pem") in
      let key_ := str_path (under (path_of temporary) "key.pem") in
      result <~ run_process false (certificate_command cert key_) ;
      (if cp_code result =? 0 then ret tt else throw (Exn CalledProcessError "openssl")) ;~
      foldM (run_step fuel output cert key_) report (seq 0 (Z.to_nat repeats))) (external ;~ ret tt) ;
  again <~ digest ;
  assertion (str again ==' $report.["binary_sha256"].["zhtps"]) ;~
  again <~ digest ;
  assertion (str again ==' $report.["binary_sha256"].["client"]) ;~
  ret report.

(** ** Lemmas *)

Lemma settled_loop_port fuel server port deadline : settled (wait_port fuel server port deadline).
Proof. induction fuel as [|fuel IH]; cbn [wait_port]; settle; apply IH. Qed.
Lemma settled_relay fuel supervisor : settled (relay fuel supervisor).
Proof. induction fuel as [|fuel IH]; cbn [relay]; unfold send; settle; apply IH. Qed.
Lemma settled_loop_finish server supervisor command config hello result : settled (finish server supervisor command config hello result).
Proof. unfold finish, check_log, assertion, close_pipe. settle. Qed.
#[local] Hint Resolve settled_loop_port settled_relay settled_loop_finish : zhtps.

Ltac watching := repeat first [ progress intros | solve [auto with zhtps] | apply watch_on_host; tidily | apply watch_bind ].

Lemma watch_run_body h0 fuel output folder cert key_ port repeat : watch h0 (run_body fuel output folder cert key_ port repeat).
Proof. unfold run_body, assertion, digest, send, save. cbv zeta. watching. Qed.

Lemma ender_supervisor : ender end_supervisor.
Proof.
  intros h. unfold end_supervisor. split; [settle|]. intros w r w' Hh. unfold bind. destruct (poll h w) as [[[c|]|e] w1] eqn:E.
  - intros [= <- <-]. split; [done|]. by eapply poll_some.
  - apply settled_poll in E as [_ N]. intros H. apply ender_stop in H; [done|lia].
  - unfold poll, bind in E. discriminate E.
Qed.

Lemma run_cleanup_spec h0 s r s' : watched h0 s -> run_cleanup s = (r, s') -> dismissed h0 s'.
Proof.
  intros W H. unfold run_cleanup, bind at 1, gets in H. unfold bind in H.
  destruct (on_host (each end_supervisor (drop 1 (cr_members s))) s) as [x s1] eqn:E1.
  assert (S1 : settled (each end_supervisor (drop 1 (cr_members s)))) by (apply settled_each; intros; apply ender_supervisor).
  destruct (watched_settled h0 _ _ _ _ S1 W E1) as (W1 & M1 & _).
  unfold on_host at 1, zoom in E1. destruct (each end_supervisor (drop 1 (cr_members s)) (cr_host s)) as [y w] eqn:E.
  injection E1 as -> <-. apply each_ender in E as [-> Hx]; [|apply ender_supervisor|].
  2:{ intros k Hk. apply W. rewrite <- (take_drop 1 (cr_members s)). apply in_app_iff. by right. }
  cbn [cr_members cr_host] in *.
  destruct (on_host (each CompareHttp2.stop (take 1 (cr_members s))) (Crew w (cr_members s) (cr_own s))) as [z s2] eqn:E2.
  unfold on_host, zoom in E2. cbn [cr_host cr_members cr_own] in E2.
  destruct (each CompareHttp2.stop (take 1 (cr_members s)) w) as [v w2] eqn:E3. injection E2 as -> <-.
  assert (S2 : settled (each CompareHttp2.stop (take 1 (cr_members s)))) by (apply settled_each; intros; apply ender_stop).
  pose proof (S2 _ _ _ E3) as [L2 N2]. destruct W1 as (L1 & X1 & C1).
  apply each_ender in E3 as [-> Hy]; [|apply ender_stop|].
  2:{ intros k Hk. apply C1. cbn. rewrite <- (take_drop 1 (cr_members s)). apply in_app_iff. by left. }
  injection H as _ <-. split; cbn; [by eapply later_trans|]. intros k Hk. destruct (X1 k) as [?|Hm]; [cbn; lia|by apply L2|].
  cbn in Hm. rewrite <- (take_drop 1 (cr_members s)) in Hm. apply in_app_iff in Hm as [Hm|Hm]; [by apply Hy|by apply L2, Hx].
Qed.

Lemma tidy_run_step fuel output cert key_ report repeat : tidy (run_step fuel output cert key_ report repeat).
Proof.
  unfold run_step. cbv zeta. do 4 (apply tidy_bind; [auto with zhtps|]; intros ?). apply tidy_bind; [|auto with zhtps].
  apply tidy_with_crew; [intros; apply watch_run_body|intros *; apply run_cleanup_spec].
Qed.
#[local] Hint Resolve tidy_run_step : zhtps.

(** However a diagnostic ends, no server and no supervisor is left. *)
Theorem loopback_stops_everything fuel output repeats h r h' : procs h = [] -> main fuel output repeats h = (r, h') -> all_exited h'.
Proof.
  intros Hh. apply tidy_all_exited; [|done]. unfold main, digest, assertion. cbv zeta.
  do 6 (apply tidy_bind; [tidily|]; intros ?). apply tidy_bind; [apply tidy_finally; tidily|tidily].
Qed.

(** *** What the report holds *)

(** A failure log with the digest and the number of lines the supervisor reports. *)
Definition log_verified (item : val) : Prop :=
  exists raw, (str (sha256_hex raw) ==' $item.["sha256_uncompressed"]) = Ok true
  /\ (int (Z.of_nat (length (splitlines_bytes "" raw))) ==' $item.["entries"]) = Ok true.
Definition run_verified (run : val) : Prop :=
  exists shards logs, iterR ($run.["result"].["shards"]) = Ok shards /\ $run.["summary"] = aggregate shards (VInt 8)
  /\ ($run.["result"].["kind"] ==' str "result") = Ok true
  /\ iterR ($run.["result"].["failure_logs"]) = Ok logs /\ Forall log_verified logs.

Lemma assertion_ok b h u h' : assertion b h = (Ok u, h') -> b = Ok true.
Proof. unfold assertion. intros (ok & w & [Hb _]%lift_ok & H)%bind_ok. by destruct ok. Qed.

Lemma relay_ok fuel supervisor h event h' : relay fuel supervisor h = (Ok event, h') -> ($event.["kind"] ==' str "result") = Ok true.
Proof.
  revert h. induction fuel as [|fuel IH]; intros h H; cbn [relay] in H; [done|]. next H. destruct (String.eqb x ""); [done|].
  do 3 next H. apply lift_ok in E2 as [E2 _]. destruct (py_eqb x2 (VStr "result")) eqn:Ek.
  - injection H as <- _. unfold eqR, lift2. rewrite E2. cbn. by rewrite Ek.
  - do 2 next H. by apply IH in H.
Qed.

Lemma check_logs_ok logs h u h' : each check_log logs h = (Ok u, h') -> Forall log_verified logs.
Proof.
  revert h. induction logs as [|item logs IH]; intros h H; cbn in H; [constructor|]. apply bind_ok in H as (? & w & H1 & H).
  constructor; [|by eapply IH]. unfold check_log in H1. do 2 next H1. apply bind_ok in H1 as (? & ? & H2%assertion_ok & H3%assertion_ok). by exists x1.
Qed.

Lemma finish_ok server supervisor command config hello result h run h' :
  ($result.["kind"] ==' str "result") = Ok true ->
  finish server supervisor command config hello result h = (Ok run, h') -> run_verified run.
Proof.
  unfold finish. intros Hk H. do 3 next H. apply bind_ok in H as (summary & ? & [Hs _]%lift_ok & H). apply rbind_ok in Hs as (shards & Hsh & Hs).
  apply bind_ok in H as (logs & ? & [Hl _]%lift_ok & H). apply bind_ok in H as (? & ? & Hc%check_logs_ok & H). next H. injection H as <- _.
  exists shards, logs. by split_and!.
Qed.

Definition has_runs (report : val) (runs : list val) : Prop := $report.["runs"] = Ok (VList runs).

Lemma on_host_own {A} (m : io host A) (s : crew val) r s' : on_host m s = (r, s') -> cr_own s' = cr_own s.
Proof. unfold on_host, zoom. destruct (m (cr_host s)). by intros [= _ <-]. Qed.
Ltac host_step H := let E := fresh "E" in apply bind_ok in H as (? & ? & E & H); apply on_host_own in E.

(** What the steps of a run keep of the report. *)
Definition carries_on (report report' : val) (runs : list val) : Prop :=
  has_runs report' runs /\ $report'.["binary_sha256"] = $report.["binary_sha256"].

Lemma run_body_ok fuel output folder cert key_ port repeat s u s' runs :
  has_runs (cr_own s) runs -> run_body fuel output folder cert key_ port repeat s = (Ok u, s') ->
  exists run, run_verified run /\ carries_on (cr_own s) (cr_own s') (runs ++ [run]).
Proof.
  unfold run_body. cbv zeta. intros Hr H. apply bind_ok in H as (server & s1 & [E1 _]%enlist_spec & H). do 2 host_step H.
  apply bind_ok in H as (supervisor & s2 & [E2 _]%enlist_spec & H). do 6 host_step H.
  apply bind_ok in H as (result & s3 & H3 & H). apply on_host_own in H3 as E9. unfold on_host, zoom in H3.
  destruct (relay fuel supervisor _) as [y w] eqn:Ey in H3. injection H3 as -> _. apply relay_ok in Ey.
  apply bind_ok in H as (run & s4 & H4 & H). apply on_host_own in H4 as E10. unfold on_host, zoom in H4.
  destruct (finish server supervisor _ _ _ result _) as [z w2] eqn:Ez in H4. injection H4 as -> _. apply finish_ok in Ez; [|done].
  host_step H. apply bind_ok in H as (report & s5 & [= <- <-] & H). apply bind_ok in H as (report' & s6 & [Ha ->]%lift_ok & H).
  apply bind_ok in H as (? & s7 & [= _ <-] & H). host_step H. apply on_host_own in H. cbn [cr_own] in *.
  assert (Eo : cr_own s' = report') by congruence.
  match type of Ha with append_run ?a _ = _ => assert (Ea : a = cr_own s) by congruence; rewrite Ea in Ha end.
  exists run. split; [done|]. rewrite Eo. unfold append_run, iterR in Ha. unfold has_runs in Hr. rewrite Hr in Ha. cbn [rbind py_iter] in Ha. split.
  - unfold has_runs. by apply setR_new in Ha as (v & [= <-] & ->).
  - by apply (setR_other _ _ _ _ "binary_sha256" Ha).
Qed.

(** A diagnostic that ends has as many verified runs as were asked for, and the two executables still have the digests of its report. *)
Theorem loopback_runs fuel output repeats h report h' :
  main fuel output repeats h = (Ok report, h') ->
  exists runs server client, $report.["runs"] = Ok (VList runs) /\ length runs = Z.to_nat repeats /\ Forall run_verified runs
  /\ $report.["binary_sha256"] = Ok (obj [("zhtps", VStr server); ("client", VStr client)])
  /\ exists binary_bytes client_bytes, server = sha256_hex binary_bytes /\ client = sha256_hex client_bytes.
Proof.
  unfold main. cbv zeta. intros H. do 3 next H. apply bind_ok in H as (server & ? & Hb & H). apply bind_ok in H as (client_ & ? & Hc & H).
  next H. apply bind_ok in H as (report1 & wa & (wb & Hr & _)%finally_ok & H).
  apply bind_ok in Hr as (? & ? & _ & Hr). apply bind_ok in Hr as (? & ? & _ & Hr).
  set (report0 := obj _) in Hr.
  assert (G : exists runs, Forall2 (fun _ run => run_verified run) (concat (map (fun n : nat => [n]) (seq 0 (Z.to_nat repeats)))) runs
                           /\ carries_on report0 report1 ([] ++ runs)).
  { refine ((fun Hf => foldM_rows _ (carries_on report0) _ (fun _ run => run_verified run) _ Hf _ _ _ _ [] _ Hr) _); [by split|].
    intros s1 n v1 s2 v2 xs [Hs Hk] H1. unfold run_step in H1. cbv zeta in H1. do 4 next H1. apply bind_ok in H1 as (rr & ? & Hcrew & H1). injection H1 as <- _.
    apply with_crew_cases in Hcrew as (r1 & c1 & r2 & c2 & Hbody & Hclean & _ & -> & Eo).
    apply run_body_ok with (runs := xs) in Hbody as (run & Hv & Hr' & Hk'); [|done]. exists [run]. split; [by repeat constructor|].
    assert (Ec : cr_own c2 = cr_own c1).
    { unfold run_cleanup, bind, gets in Hclean. destruct (on_host _ c1) as [[y|e] c3] eqn:Hsup; apply on_host_own in Hsup.
      - apply on_host_own in Hclean. congruence.
      - by injection Hclean as _ <-. }
    rewrite Eo, Ec. split; [done|]. by rewrite Hk'. }
  destruct G as (runs & Hruns & Hr1 & Hk). cbn [app] in Hr1. rewrite concat_map_single, map_id in Hruns.
  apply bind_ok in H as (again & ? & H1 & H). apply bind_ok in H as (? & ? & D1%assertion_ok & H).
  apply bind_ok in H as (again2 & ? & H2 & H). apply bind_ok in H as (? & ? & D2%assertion_ok & H). injection H as <- _.
  unfold digest in H1, H2. apply bind_ok in H1 as (bytes & ? & _ & [= <- _]). apply bind_ok in H2 as (bytes2 & ? & _ & [= <- _]).
  assert (Hb0 : $report0.["binary_sha256"] = Ok (obj [("zhtps", VStr server); ("client", VStr client_)])) by reflexivity.
  rewrite Hk, Hb0 in D1, D2. exists runs, server, client_. split_and!; [done| | |by rewrite Hk|].
  - apply Forall2_length in Hruns. by rewrite length_seq in Hruns.
  - by apply Forall2_Forall_r with (1 := Hruns), Forall_forall.
  - exists bytes, bytes2. change (Ok (py_eqb (VStr (sha256_hex bytes)) (VStr server)) = Ok true) in D1.
    change (Ok (py_eqb (VStr (sha256_hex bytes2)) (VStr client_)) = Ok true) in D2.
    rewrite py_eqb_str in D1, D2. injection D1 as D1%String.eqb_eq. injection D2 as D2%String.eqb_eq. done.
Qed.
End Root.

(** ** A diagnostic of one run

    The certificate is made by process 0; the server is process 1 and the supervisor 2. *)

Definition event_text (v : val) : string := value_or "" (json_dumps v) +:+ nl.
Definition relayed (kind : string) (asks : list turn) : list turn := [text_ (event_text (kind_of kind [])); blank] ++ asks ++ [blank].
Definition loopback_turns : list turn :=
  [blank; blank; blank; text_ "A"; text_ "B"; text_ "/tmp/d"] ++ command_turns ""
  ++ [blank; number_ 9000; blank; blank; blank; number_ 0; blank; blank; blank; text_ (event_text (kind_of "hello" [])); text_ "/out/r1/client"; text_ "B";
      blank; blank]
  ++ relayed "prepared" [blank] ++ relayed "ready" [blank] ++ relayed "measured" [] ++ [text_ (event_text lan_result); blank]
  ++ [blank; ended 2 0; text_ (double_quoted sample_log +:+ nl); blank; blank; blank; blank; blank; blank; blank; ended 1 (-15); blank; text_ "A"; text_ "B"].
Definition loopback_host : host := Host [] (fun n => nth n loopback_turns blank) 0 [] [].

Example loopback_run :
  (let '(r, h) := main "/r" "python3" 9 "out" 1 loopback_host in
   (report <- r ;; runs <- iterR ($report.["runs"]) ;; mapR (fun run => rmap py_str ($run.["summary"].["failure_log_entries"])) runs, procs h))
  = (Ok ["1"], [Exited 0; Exited (-15); Exited 0]).
Proof. vm_compute. reflexivity. Qed.
(** Without the last event the run fails, and both processes are stopped. *)
Example loopback_no_result :
  (let '(r, h) := main "/r" "python3" 9 "out" 1
       (Host [] (fun n => if (n =? 35)%nat then text_ "" else nth n loopback_turns blank) 0 [] []) in
   (match r with Ok _ => "" | Err e => ex_msg e end, forallb (fun p => match p with Running => false | _ => true end) (procs h)))
  = ("supervisor exited without a result", true).
Proof. vm_compute. reflexivity. Qed.
