(* ===== verification/CheckHttp2LanIdle.v ===== *)
(** * [bench/check_http2_lan_idle.py]: connections survive the barrier

    [check] starts a server and a load client, holds the client at its barrier for longer than the server's idle timeout and
    asks that no connection was lost.  The queue of the thread that reads the client is the environment's answers to [receive]. *)

From stdpp Require Import base list strings.
From Stdlib Require Import ZArith Lia Ascii.
From S2P Require Import Prelude PyFloat PyText PyVal PyJson PyScript PyStats Evidence PyIO System ProcSample AuditHttp2Lan RemoteLoad Compare Crew CompareHttp2 CompareHttp2Lan DiagnoseHttp2Loopback.

Local Open Scope Z_scope.
Open Scope py_scope.

Section Root.
Context (ROOT : string).

Definition server_command (cert key_ : string) (port : Z) : list string :=
  [str_path (under (path_of ROOT) "zig-out/http2-benchmark/bin/zhtps"); "--port"; string_of_Z port; "--admin-connections"; "0";
   "--tls-certificate"; cert; "--tls-key"; key_; "--no-access-log"; "--max-requests"; "4294967295"].
Definition client_command (client cert failures : string) (port : Z) : list string :=
  [client; "-url"; "https://127.0.0.1:" +:+ string_of_Z port +:+ "/"; "-ca"; cert; "-connections"; "2"; "-streams"; "4";
   "-duration"; ".2s"; "-warmup"; ".1s"; "-timeout"; "2s"; "-failures"; failures; "-synchronize"].

Definition assert_ (b : res bool) (message : string) : io host unit :=
  ok <~ lift b ; if ok : bool then ret tt else throw (Exn AssertionError message).

(** The exception of the last attempt is the one that is raised. *)
Fixpoint wait_port (fuel : nat) (server : handle) (deadline : val) : io host unit :=
  match fuel with
  | O => throw (Exn RuntimeError "out of fuel")
  | S fuel =>
      code <~ poll server ;
      assert_ (Ok (negb (is_some code))) "server exited" ;~
      failed <~ catch (external ;~ ret None)
        (fun e => if is_oserror (ex_class e) then late <~ (now <~ clock ; lift ($now >' $deadline)) ; if late : bool then throw e else advance ;~ ret (Some tt)
                  else throw e) ;
      match failed with None => ret tt | Some _ => wait_port fuel server deadline end
  end.

(** [start()]: the time at which the next phase begins *)
Definition start (process : handle) : io host unit :=
  time <~ (now <~ read_clock ; ret (now + 100000000)) ; fallible (Input process (string_of_Z time +:+ nl)).
Definition expect (phase : string) : io host val :=
  event <~ receive ; assert_ ($event.["phase"] ==' str phase) (py_str event) ;~ ret event.

(** From the barrier to the result of the client. *)
Definition phases (process : handle) : io host val :=
  event <~ receive ;
  assert_ (PyScript.one_of ($event.["phase"]) ["prepared"; "ready"]) (py_str event) ;~
  assert_ ($event.["established"] ==' int 2) "" ;~
  advance ;~
  prepared <~ lift ($event.["phase"] ==' str "prepared") ;
  (if prepared : bool then start process ;~ expect "ready" ;~ ret tt else ret tt) ;~
  start process ;~
  expect "measured" ;~
  expect "result".
Definition accept (process : handle) (result : val) : io host unit :=
  code <~ wait_timeout process ;
  assert_ (Ok (code =? 0)) "" ;~
  measurement <~ lift ($result.["measurement"]) ;
  assert_ ($measurement.["failed"] ==' int 0) (py_str measurement) ;~
  assert_ (chain_eq ($result.["successful_connections"]) [$result.["alive_connections"]; int 2]) "" ;~
  assert_ ($result.["failure_log_entries"] ==' int 0) "".
Definition passed_line (result : val) : res string :=
  line <- mkdict [("passed", $(VBool true)); ("barrier_seconds", int 17); ("successful_connections", $result.["successful_connections"]);
                  ("measured_successes", $result.["measurement"].["succeeded"]); ("failures", $result.["failure_log_entries"])] ;;
  json_dumps line.

(** The [try] block; the server is the first member of the crew, the client the second. *)
Definition body (fuel : nat) (client cert key_ failures : string) (port : Z) : io (crew unit) val :=
  server <~ enlist (server_command cert key_ port) ;
  deadline <~ on_host (now <~ clock ; lift ($now +' int 5)) ;
  on_host (wait_port fuel server deadline) ;~
  resolved <~ on_host answer_text ;
  process <~ enlist (client_command resolved cert failures port) ;
  result <~ on_host (phases process) ;
  on_host (accept process result) ;~
  line <~ lift (passed_line result) ;
  on_host (say line) ;~
  ret result.
(** The client first. *)
Definition end_children : io (crew unit) unit := members <~ gets cr_members ; on_host (each CompareHttp2.stop (rev members)).

(** [check(client)]; the result is what the client reported. *)
Definition check (fuel : nat) (client : string) : io host val :=
  temporary <~ answer_text ;
  let file name := str_path (under (path_of temporary) name) in
  finally
    (result <~ run_process false (DiagnoseHttp2Loopback.certificate_command (file "cert.pem") (file "key.pem")) ;
     (if cp_code result =? 0 then ret tt else throw (Exn CalledProcessError "openssl")) ;~
     port <~ available_port ;
     external ;~
     external ;~
     r <~ with_crew tt (body fuel client (file "cert.pem") (file "key.pem") (file "failures.jsonl") port) end_children ;
     ret r.1)
    (external ;~ ret tt).

(** ** Lemmas *)

Lemma settled_idle_port fuel server deadline : settled (wait_port fuel server deadline).
Proof. induction fuel as [|fuel IH]; cbn [wait_port]; unfold assert_; settle; apply IH. Qed.
Lemma settled_phases process : settled (phases process).
Proof. unfold phases, expect, start, receive, assert_. settle. Qed.
Lemma settled_accept process result : settled (accept process result).
Proof. unfold accept, assert_. settle. Qed.
#[local] Hint Resolve settled_idle_port settled_phases settled_accept : zhtps.

Lemma watch_check_body h0 fuel client cert key_ failures port : watch h0 (body fuel client cert key_ failures port).
Proof. unfold body. repeat first [ progress intros | solve [auto with zhtps] | apply watch_on_host; tidily | apply watch_bind ]. Qed.

Lemma end_children_spec h0 s r s' : watched h0 s -> end_children s = (r, s') -> dismissed h0 s'.
Proof.
  intros W H. unfold end_children, bind, gets in H. eapply (dismiss_members h0) in H as (_ & D & _); [exact D|apply ender_stop|exact W| |].
  - intros k. by rewrite <- in_rev.
  - intros k Hk. apply W. by rewrite in_rev.
Qed.

(** However the check ends, neither the server nor the client is left. *)
Theorem idle_check_stops_everything fuel client h r h' : procs h = [] -> check fuel client h = (r, h') -> all_exited h'.
Proof.
  intros Hh. apply tidy_all_exited; [|done]. unfold check. cbv zeta. apply tidy_bind; [tidily|]. intros temporary. apply tidy_finally; [|tidily].
  do 5 (apply tidy_bind; [tidily|]; intros ?). apply tidy_bind; [|tidily].
  apply tidy_with_crew; [intros; apply watch_check_body|intros *; apply end_children_spec].
Qed.

(** What the client of a passed check has reported. *)
Definition no_loss (result : val) : Prop :=
  ($result.["phase"] ==' str "result") = Ok true /\ ($result.["measurement"].["failed"] ==' int 0) = Ok true
  /\ ($result.["successful_connections"] ==' $result.["alive_connections"]) = Ok true /\ ($result.["alive_connections"] ==' int 2) = Ok true
  /\ ($result.["failure_log_entries"] ==' int 0) = Ok true.

Lemma assert_ok b m h u h' : assert_ b m h = (Ok u, h') -> b = Ok true.
Proof. unfold assert_. intros (ok & w & [Hb _]%lift_ok & H)%bind_ok. by destruct ok. Qed.

(** A check that passes: both connections survived the barrier, nothing failed, and the client exited with 0. *)
Theorem idle_check_passes fuel client h result h' : check fuel client h = (Ok result, h') -> no_loss result.
Proof.
  unfold check. cbv zeta. intros H. next H. apply finally_ok in H as (h1 & H & _). do 5 next H.
  apply bind_ok in H as (r & h2 & Hc & [= <- _]). apply with_crew_cases in Hc as (r1 & s1 & r2 & s2 & Hb & _ & _ & -> & _).
  unfold body in Hb. do 5 next Hb. apply bind_ok in Hb as (res & s3 & Hp & Hb). apply bind_ok in Hb as (u & s4 & Ha & Hb).
  do 2 next Hb. injection Hb as -> _. unfold on_host, zoom in Hp, Ha.
  destruct (phases x9 _) as [y hp] eqn:Ep in Hp. injection Hp as -> _. destruct (accept x9 _ _) as [z ha] eqn:Ea in Ha. injection Ha as -> _.
  unfold phases in Ep. do 8 next Ep. unfold expect in Ep. next Ep. apply bind_ok in Ep as (? & ? & Hphase%assert_ok & [= Er _]). rewrite Er in Hphase.
  unfold accept in Ea. next Ea. next Ea. apply bind_ok in Ea as (m & ? & [Hm _]%lift_ok & Ea). apply bind_ok in Ea as (? & ? & Hf%assert_ok & Ea).
  apply bind_ok in Ea as (? & ? & Hcq%assert_ok & Hl%assert_ok). unfold chain_eq in Hcq. apply andR_true in Hcq as [H1 [H2 _]%andR_true].
  unfold no_loss. split_and!; [done| |done|done|done]. by rewrite Hm.
Qed.
End Root.

(** ** A client with the shared setup barrier *)

Definition phase_of (phase : string) (fields : list (string * val)) : turn := answered (obj (("phase", VStr phase) :: fields)).
Definition final_turn (alive : Z) : turn :=
  phase_of "result" [("measurement", obj [("failed", VInt 0); ("succeeded", VInt 40)]); ("successful_connections", VInt 2);
                     ("alive_connections", VInt alive); ("failure_log_entries", VInt 0)].
Definition idle_turns (alive : Z) : list turn :=
  [text_ "/tmp/d"] ++ command_turns "" ++ [number_ 9000; blank; blank; blank; number_ 0; blank; blank; text_ "/client"; blank;
   phase_of "prepared" [("established", VInt 2)]; blank; number_ 5; blank; phase_of "ready" []; number_ 6; blank; phase_of "measured" []; final_turn alive;
   ended 2 0; blank; blank; blank; blank; ended 1 (-15)].
Definition idle_host (alive : Z) : host := Host [] (fun n => nth n (idle_turns alive) blank) 0 [] [].

Example idle_check_outcomes :
  map (fun alive => let '(r, h) := check "/r" 3 "client" (idle_host alive) in
         (match r with Ok _ => None | Err e => Some (ex_class e) end, procs h)) [2; 1]
  = [(None, [Exited 0; Exited (-15); Exited 0]); (Some AssertionError, [Exited 0; Exited (-15); Exited 0])].
Proof. vm_compute. reflexivity. Qed.
