(* ===== verification/MeasureHttp2Storage.v ===== *)
(** * [bench/measure_http2_storage.py]: memory of live HTTP/2 uploads

    [main] starts every build with every number of workers and samples it with no, pending and completed uploads; the record
    of a run survives the exception that ends it and is saved with it.  [with_running] is [wire.Running] of [src/tests] as a context;
    the HTTP/2 client and the request for the metrics of the same directory are calls of the environment that may fail: a client,
    its streams, the response [wait] returns and the metrics are its answers. *)

From stdpp Require Import base list strings sets.
From Stdlib Require Import ZArith Lia Ascii.
From S2P Require Import Prelude PyFloat PyText PyVal PyJson PyScript PyStats PyHash Evidence PyIO System ProcSample AuditHttp2Lan RemoteLoad Compare Crew CompareHttp2 CompareHttp2Variants SummarizeHttp2Storage.

Local Open Scope Z_scope.
Open Scope py_scope.

Record Options := mkOptions { variant : list string; workers : string; connections : Z; streams : Z; repeats : Z; output : string }.

(** ** The record of a run *)

(** [run] without the keys that identify it; [extra] are those that are added. *)
Record progress := Progress { uploads : Z; errors : list val; snapshots : list (string * val); extra : list (string * val) }.
Definition nothing_yet : progress := Progress 0 [] [] [].
Definition run_of (label : string) (count repeat : Z) (p : progress) : val :=
  obj ([("variant", VStr label); ("workers", VInt count); ("repeat", VInt repeat); ("successful_uploads", VInt (uploads p));
        ("errors", VList (errors p)); ("snapshots", obj (snapshots p))] ++ extra p).

Abbreviation world := (crew progress).

Definition amend (f : progress -> progress) : io world unit := p <~ gets cr_own ; set_own (f p).
Definition add (k : string) (v : val) : io world unit :=
  amend (fun p => Progress (uploads p) (errors p) (snapshots p) (extra p ++ [(k, v)])).
Definition add_snapshot (phase : string) (v : val) : io world unit :=
  amend (fun p => Progress (uploads p) (errors p) (snapshots p ++ [(phase, v)]) (extra p)).
Definition add_upload : io world unit := amend (fun p => Progress (uploads p + 1) (errors p) (snapshots p) (extra p)).
Definition add_error (e : exn) : io world unit :=
  amend (fun p => Progress (uploads p) (errors p ++ [VStr (exn_repr e)]) (snapshots p) (extra p)).

Definition assertion (b : res bool) (message : string) : io host unit :=
  ok <~ lift b ; if ok : bool then ret tt else throw (Exn AssertionError message).

(** ** A running server *)

(** The ports the server announces; the events are those of its log. *)
Fixpoint wait_ports (fuel : nat) (ports : dict) : io host unit :=
  match fuel with
  | O => throw (Exn RuntimeError "out of fuel")
  | S fuel =>
      if (2 <=? length ports)%nat then ret tt else
      event <~ external ;
      kind <~ lift (get ($event) "event") ;
      (if py_eqb kind (VStr "startup_or_runtime_error") then throw (Exn RuntimeError (py_str event)) else ret tt) ;~
      ports <~ (if existsb (fun n => py_eqb kind (VStr n)) ["listening"; "admin_listening"]
                then lift (port <- $event.["port"] ;; Ok (dset kind port ports)) else ret ports) ;
      wait_ports fuel ports
  end.

(** [Running.close]: the reader of the log is joined and its pipe closed. *)
Definition close (server : handle) : io host unit :=
  code <~ poll server ;
  (match code with None => terminate server | Some _ => ret tt end) ;~
  catch (wait_timeout server ;~ ret tt)
    (fun e => if is_class e TimeoutExpired
              then kill server ;~ wait server ;~ throw (Exn AssertionError "server did not shut down within its deadline") else throw e) ;~
  advance ;~ advance ;~ ret tt.

(** [with Running(...) as server]: the server is closed however the block ends, and must exit with 0 when it ends normally. *)
Definition with_running {A} (fuel : nat) (command : list string) (body : handle -> io world A) : io world A :=
  server <~ on_host (popen command) ;
  catch (on_host (wait_ports fuel [])) (fun e => on_host (close server) ;~ throw e) ;~
  a <~ catch (body server) (fun e => on_host (close server) ;~ throw e) ;
  on_host (close server) ;~
  code <~ on_host (returncode server) ;
  on_host (assertion ($code ==' int 0) "") ;~
  ret a.

Definition defaults : list string :=
  ["--workers"; "1"; "--max-connections"; "256"; "--large-buffer-bytes"; "67108864"; "--http2-worker-streams"; "256";
   "--http2-memory-bytes"; "67108864"].
Definition server_command (binary cert key_ : string) (count : Z) : list string :=
  [binary; "--port"; "0"; "--admin-port"; "0"] ++ defaults ++ ["--tls-certificate"; cert; "--tls-key"; key_]
  ++ ["--workers"; string_of_Z count; "--worker-cpus"; join "," (map string_of_Z (seqZ 0 count)); "--no-access-log"; "--max-active"; "1024";
      "--max-connections"; "1024"; "--http2-worker-streams"; "65535"; "--http2-memory-bytes"; "4294967295";
      "--header-timeout-ms"; "60000"; "--body-timeout-ms"; "60000"].

(** ** Snapshots *)

Fixpoint await_active (fuel : nat) (active : Z) (deadline : val) : io host val :=
  match fuel with
  | O => throw (Exn RuntimeError "out of fuel")
  | S fuel =>
      captured <~ external ;
      there <~ lift ($captured.["gauges"].["http2_streams_active"] ==' int active) ;
      if there : bool then ret captured else
      now <~ clock ; assertion ($now <' $deadline) (py_str captured) ;~ advance ;~ await_active fuel active deadline
  end.
Definition kept (line : string) : bool := existsb (fun p => startswith p line) ["VmRSS:"; "VmHWM:"; "VmSize:"; "VmData:"; "Threads:"].
Definition snapshot (fuel : nat) (active : Z) : io host val :=
  deadline <~ (now <~ clock ; lift ($now +' int 5)) ;
  captured <~ await_active fuel active deadline ;
  status <~ read_proc ;
  ret (obj [("metrics", captured); ("status", VList (map VStr (List.filter kept (splitlines status))))]).
Definition record (fuel : nat) (phase : string) (active : Z) : io world unit := v <~ on_host (snapshot fuel active) ; add_snapshot phase v.

(** ** The uploads *)

(** The response of a stream: not reset, complete, and the byte that was sent. *)
Definition check_response : io world unit :=
  response <~ on_host external ;
  on_host (assertion (noneR ($response.["reset"]) &&' test ($response.["ended"])) (py_str response)) ;~
  on_host (assertion (($response.["headers"].[":status"] ==' str "200") &&' ($response.["body"] ==' str "x")) (py_str response)) ;~
  add_upload.

(** A call of a client *)
Definition call : io world val := on_host external.
Definition open_streams (o : Options) (client : val) : io world (list val) :=
  ids <~ mapM (fun _ => call) (seq 0 (Z.to_nat (streams o))) ; call ;~ ret ids.
Definition send_bodies (ids : list val) : io world unit := each (fun _ => call ;~ ret tt) ids ;~ call ;~ ret tt.
Definition finish_streams (ids : list val) : io world unit :=
  each (fun _ => call ;~ ret tt) ids ;~ call ;~ each (fun _ => check_response) ids ;~ call ;~ ret tt.

(** The block of a running server; the connections are closed at its end. *)
Definition upload_run (fuel : nat) (o : Options) (command : list string) (server : handle) : io world unit :=
  let active := connections o * streams o in
  add "command" (VList (map VStr command)) ;~
  finally
    (clients <~ mapM (fun _ => call) (seq 0 (Z.to_nat (connections o))) ;
     each (fun _ => call ;~ ret tt) clients ;~
     record fuel "connected" 0 ;~
     ids <~ mapM (open_streams o) clients ;
     record fuel "pending_heads" active ;~
     each send_bodies ids ;~
     record fuel "pending_bodies" active ;~
     each finish_streams ids ;~
     record fuel "completed" 0)
    (on_host (advance ;~ ret tt)) ;~
  events <~ on_host clock ; add "server_events" events.

(** ** A trial *)

Definition save (o : Options) (report : val) : io host unit :=
  text <~ lift (json_dumps2 report) ; write_file (output o +:+ "/results.json") (text +:+ nl).
(** The report with the run as it is now, saved. *)
Definition save_run (o : Options) (report : val) (label : string) (count repeat : Z) (p : progress) : io host val :=
  report <~ lift (append_run report (run_of label count repeat p)) ; save o report ;~ ret report.

Definition charged (p : progress) : expr :=
  dictcomp (map fst (snapshots p)) (fun phase => $(obj (snapshots p)).[phase].["metrics"].["gauges"].["http2_bytes_allocated"]).

Definition trial_body (fuel : nat) (o : Options) (binary cert key_ : string) (count : Z) : io world unit :=
  let command := server_command binary cert key_ count in
  server <~ with_running fuel command (fun server => upload_run fuel o command server ;~ ret server) ;
  p <~ gets cr_own ;
  on_host (assertion (Ok (uploads p =? connections o * streams o)) "") ;~
  exit_ <~ on_host (returncode server) ;
  add "server_exit" exit_.

Definition trial (fuel : nat) (o : Options) (cert key_ : string) (count repeat : Z) (report : val) (label binary : string) : io host val :=
  r <~ with_crew nothing_yet
         (catch (trial_body fuel o binary cert key_ count)
            (fun e => add_error e ;~ p <~ gets cr_own ; on_host (save_run o report label count repeat p) ;~ throw e))
         (ret tt) ;
  report <~ save_run o report label count repeat r.2 ;
  amount <~ lift (charged r.2) ;
  say (label +:+ " w" +:+ string_of_Z count +:+ " r" +:+ string_of_Z repeat +:+ ": " +:+ py_str amount +:+ "; "
       +:+ string_of_Z (uploads r.2) +:+ " verified uploads") ;~
  ret report.

(** ** [main] *)

Definition variants_of (o : Options) : io host (list (string * string)) :=
  foldM (fun d item =>
           nv <~ lift (of_option (split_once "=" item) ValueError "not enough values to unpack (expected 2, got 1)") ;
           path <~ answer_text ; ret (assign nv.1 path d)) [] (variant o).

Definition sources : list string := ["bench/measure_http2_storage.py"; "tests/http2.py"; "tests/wire.py"; "tests/buffer_pools.py"].
Definition initial_report (o : Options) (variants : list (string * string)) : io host val :=
  started <~ clock ;
  hashes <~ foldM binary_sha [] (map (fun nv => (nv.1, VStr nv.2)) variants) ;
  source_hashes <~ foldM sha_of [] sources ;
  ret (obj
    [("started_utc", started);
     ("workload", obj [("connections", VInt (connections o)); ("streams", VInt (streams o)); ("method", VStr "POST /echo");
        ("body", VStr "one verified byte per stream");
        ("description", VStr "Sample connected, pending heads, consumed partial bodies and completed streams; no throughput claim.")]);
     ("binary_sha256", VDict hashes); ("source_sha256", VDict source_hashes); ("runs", VList []); ("complete", VBool false)]).

(** [Http2Tests.setUpClass]: a directory with a certificate, and the context of the clients. *)
Definition set_up : io host (string * string) :=
  directory <~ answer_text ;
  let cert := directory +:+ "/cert.pem" in
  let key_ := directory +:+ "/key.pem" in
  result <~ run_process false (CompareHttp2.certificate_command key_ cert) ;
  (if cp_code result =? 0 then ret tt else throw (Exn CalledProcessError "openssl")) ;~
  external ;~ ret (cert, key_).

Definition trials (fuel : nat) (o : Options) (variants : list (string * string)) (cert key_ : string) (workers_ : list Z) (report : val)
    : io host val :=
  foldM (fun report count =>
           foldM (fun report repeat =>
                    foldM (fun report nv => trial fuel o cert key_ count (Z.of_nat repeat + 1) report nv.1 nv.2) report
                      (rotate repeat variants))
             report (seq 0 (Z.to_nat (repeats o))))
    report workers_.

(** The digests are taken again. *)
Definition same_digests (report : val) (variants : list (string * string)) : io host unit :=
  again <~ foldM binary_sha [] (map (fun nv => (nv.1, VStr nv.2)) variants) ;
  assertion ($(VDict again) ==' $report.["binary_sha256"]) "" ;~
  sources <~ lift (itemsR ($report.["source_sha256"])) ;
  each (fun pe => content <~ read_proc ; assertion (str (sha256_hex content) ==' $(pe.2)) "") sources.

(** [main] from its parsed arguments on; the result is the report as it was saved last. *)
Definition main (fuel : nat) (o : Options) : io host val :=
  variants <~ variants_of o ;
  assertion (Ok ((length variants =? length (variant o))%nat && (2 <=? length (variant o))%nat)) "" ;~
  assertion (Ok (in_range (connections o) 256 && in_range (streams o) 100)) "" ;~
  workers_ <~ lift (int_words "," (workers o)) ;
  assertion (Ok (forallb (fun count => in_range count 8) workers_)) "" ;~
  external ;~
  external ;~
  report <~ initial_report o variants ;
  save o report ;~
  ck <~ set_up ;
  finally
    (report <~ trials fuel o variants ck.1 ck.2 workers_ report ;
     same_digests report variants ;~
     report <~ lift (setR report "complete" ($(VBool true))) ;
     finished <~ clock ;
     report <~ lift (setR report "finished_utc" ($finished)) ;
     save o report ;~
     ret report)
    (external ;~ ret tt).

(** ** Lemmas *)

(** *** What a trial leaves in its record *)

(** A step that ends well and keeps the record; [but_uploads] may count uploads. *)
Definition kept_by {A} (R : progress -> progress -> Prop) (m : io world A) : Prop :=
  forall s a s', m s = (Ok a, s') -> R (cr_own s) (cr_own s').
Definition but_uploads (p q : progress) : Prop := errors q = errors p /\ snapshots q = snapshots p /\ extra q = extra p.

#[export] Instance but_uploads_preorder : PreOrder but_uploads.
Proof. split; [by intros p|]. intros p q r (A1 & A2 & A3) (B1 & B2 & B3). split_and!; congruence. Qed.

Section Kept.
Context {R : progress -> progress -> Prop} `{!PreOrder R} {A B : Type}.

Lemma kept_by_on_host (m : io host A) : kept_by R (on_host m).
Proof. intros s a s'. unfold on_host, zoom. destruct (m (cr_host s)) as [x h]. by intros [= _ <-]. Qed.
Lemma kept_by_bind (m : io world A) (k : A -> io world B) : kept_by R m -> (forall a, kept_by R (k a)) -> kept_by R (bind m k).
Proof. intros Hm Hk s b s' (a & s1 & H1 & H2)%bind_ok. etransitivity; [by eapply Hm|by eapply Hk]. Qed.
Lemma kept_by_ret (a : A) : kept_by R (ret a).
Proof. by intros s b s' [= _ <-]. Qed.
Lemma kept_each (f : A -> io world unit) l : (forall a, kept_by R (f a)) -> kept_by R (each f l).
Proof. intros Hf. induction l as [|a l IH]; intros s u s'; cbn; [by intros [= _ <-]|]. intros (u1 & s1 & H1 & H2)%bind_ok. etransitivity; [by eapply Hf|by eapply IH]. Qed.
End Kept.
Lemma kept_mapM {R : progress -> progress -> Prop} `{!PreOrder R} {A B} (f : A -> io world B) l : (forall a, kept_by R (f a)) -> kept_by R (mapM f l).
Proof.
  intros Hf. induction l as [|a l IH]; cbn; [apply kept_by_ret|]. apply kept_by_bind; [done|]. intros b. apply kept_by_bind; [done|]. intros bs. apply kept_by_ret.
Qed.

Lemma kept_add_upload : kept_by but_uploads add_upload.
Proof. by intros s a s' [= _ <-]. Qed.

Ltac keep := repeat first [ apply kept_add_upload | apply kept_by_on_host | apply kept_by_ret | apply kept_mapM; intros ? | apply kept_each; intros ? | apply kept_by_bind; [|intros ?] ].

Lemma kept_open_streams o client : kept_by eq (open_streams o client).
Proof. unfold open_streams, call. keep. Qed.
Lemma kept_send_bodies ids : kept_by eq (send_bodies ids).
Proof. unfold send_bodies, call. keep. Qed.
Lemma kept_finish_streams ids : kept_by but_uploads (finish_streams ids).
Proof. unfold finish_streams, check_response, call. keep. Qed.

(** A snapshot is only taken of the asked number of active streams. *)
Definition active_in (snapshot : val) (active : Z) : Prop := ($snapshot.["metrics"].["gauges"].["http2_streams_active"] ==' int active) = Ok true.

Lemma await_active_ok fuel active deadline h v h' :
  await_active fuel active deadline h = (Ok v, h') -> ($v.["gauges"].["http2_streams_active"] ==' int active) = Ok true.
Proof.
  revert h. induction fuel as [|fuel IH]; intros h H; cbn in H; [done|]. next H. next H. apply lift_ok in E0 as [E0 _].
  destruct x0; [by injection H as <- _|]. do 3 next H. by apply IH in H.
Qed.
Lemma snapshot_ok fuel active h v h' : snapshot fuel active h = (Ok v, h') -> active_in v active.
Proof. unfold snapshot. intros H. next H. next H. apply await_active_ok in E0. next H. by injection H as <- _. Qed.
Lemma record_ok fuel phase active s u s' :
  record fuel phase active s = (Ok u, s') ->
  exists v, active_in v active
  /\ cr_own s' = Progress (uploads (cr_own s)) (errors (cr_own s)) (snapshots (cr_own s) ++ [(phase, v)]) (extra (cr_own s)).
Proof.
  unfold record. intros (v & s1 & H1 & H2)%bind_ok. unfold on_host, zoom in H1. destruct (snapshot fuel active (cr_host s)) as [x h] eqn:E.
  injection H1 as -> <-. exists v. split; [by eapply snapshot_ok|]. by injection H2 as _ <-.
Qed.

(** The snapshots of a complete run. *)
Definition complete_snapshots (active : Z) (l : list (string * val)) : Prop :=
  map fst l = STAGES /\ Forall (fun pv => active_in pv.2 (if startswith "pending_" pv.1 then active else 0)) l.

Lemma upload_run_ok fuel o command server s u s' :
  cr_own s = nothing_yet -> upload_run fuel o command server s = (Ok u, s') ->
  errors (cr_own s') = [] /\ complete_snapshots (connections o * streams o) (snapshots (cr_own s'))
  /\ exists events, extra (cr_own s') = [("command", VList (map VStr command)); ("server_events", events)].
Proof.
  intros E0 H. unfold upload_run in H. apply bind_ok in H as (u1 & s1 & [= _ <-] & H). rewrite E0 in H. cbn [uploads errors snapshots extra app nothing_yet] in H.
  apply bind_ok in H as (u2 & s2 & (s3 & H2 & H3)%finally_ok & H). apply (kept_by_on_host (R := eq)) in H3.
  apply bind_ok in H as (events & s4 & H4 & H). apply (kept_by_on_host (R := eq)) in H4. injection H as _ <-.
  apply bind_ok in H2 as (clients & t1 & T1 & H2). apply (kept_mapM (R := eq) (fun _ => call)) in T1; [|intros; apply kept_by_on_host].
  apply bind_ok in H2 as (? & t2 & T2 & H2). apply (kept_each (R := eq)) in T2; [|intros; unfold call; keep].
  apply bind_ok in H2 as (? & t3 & (v1 & A1 & T3)%record_ok & H2).
  apply bind_ok in H2 as (ids & t4 & T4 & H2). apply (kept_mapM (R := eq)) in T4; [|intros; apply kept_open_streams].
  apply bind_ok in H2 as (? & t5 & (v2 & A2 & T5)%record_ok & H2).
  apply bind_ok in H2 as (? & t6 & T6 & H2). apply (kept_each (R := eq)) in T6; [|intros; apply kept_send_bodies].
  apply bind_ok in H2 as (? & t7 & (v3 & A3 & T7)%record_ok & H2).
  apply bind_ok in H2 as (? & t8 & T8 & H2). apply (kept_each (R := but_uploads)) in T8 as (B1 & B2 & B3); [|intros; apply kept_finish_streams].
  apply record_ok in H2 as (v4 & A4 & T9). cbn [cr_own] in *. rewrite <- H4, <- H3, T9. cbn [errors snapshots extra].
  rewrite B1, B2, B3, T7, <- T6, T5, <- T4, T3, <- T2, <- T1. cbn. split_and!; [done| |by eexists].
  split; [done|]. by repeat constructor.
Qed.

(** *** A trial *)

(** A trial that ends well: every upload verified, the four snapshots, and a server that exited with 0. *)
Definition done_run (o : Options) (command : list string) (p : progress) : Prop :=
  uploads p = connections o * streams o /\ errors p = [] /\ complete_snapshots (connections o * streams o) (snapshots p)
  /\ exists events, extra p = [("command", VList (map VStr command)); ("server_events", events); ("server_exit", VInt 0)].

Lemma returncode_zero server h code u h' :
  returncode server h = (Ok code, h) -> assertion ($code ==' int 0) "" h = (Ok u, h') -> h' = h /\ code = VInt 0.
Proof.
  unfold returncode, gets. intros [= <-] H. unfold assertion in H. apply bind_ok in H as (ok & h1 & H1 & H). apply lift_ok in H1 as [H1 ->].
  destruct ok; [|done]. injection H as _ <-. split; [done|]. destruct (procs h !! server) as [[|c]|]; [done| |done].
  unfold eqR, lift2 in H1. cbn [rbind int] in H1. rewrite py_eqb_int in H1. injection H1 as H1. f_equal. lia.
Qed.

Lemma with_running_ok {A} fuel command (body : handle -> io world A) s a s' :
  with_running fuel command body s = (Ok a, s') ->
  exists server s1 s2, cr_own s1 = cr_own s /\ body server s1 = (Ok a, s2) /\ cr_own s' = cr_own s2
  /\ returncode server (cr_host s') = (Ok (VInt 0), cr_host s').
Proof.
  unfold with_running. intros (server & s1 & H1 & H)%bind_ok. apply (kept_by_on_host (R := eq)) in H1.
  apply bind_ok in H as (? & s2 & H2 & H).
  assert (E2 : cr_own s2 = cr_own s1).
  { unfold catch in H2. destruct (on_host (wait_ports fuel []) s1) as [[u|e] s3] eqn:E.
    - injection H2 as _ <-. by apply (kept_by_on_host (R := eq)) in E.
    - by apply bind_ok in H2 as (? & ? & _ & H2). }
  apply bind_ok in H as (a' & s3 & H3 & H).
  assert (E3 : body server s2 = (Ok a', s3)).
  { unfold catch in H3. destruct (body server s2) as [[b|e] s4]; [done|]. by apply bind_ok in H3 as (? & ? & _ & H3). }
  apply bind_ok in H as (? & s4 & H4 & H). apply (kept_by_on_host (R := eq)) in H4. apply bind_ok in H as (code & s5 & H5 & H).
  apply bind_ok in H as (u6 & s6 & H6 & H). injection H as -> <-. exists server, s2, s3. split_and!; [congruence|done| |].
  - apply (kept_by_on_host (R := eq)) in H5, H6. congruence.
  - unfold on_host, zoom in H5, H6. cbn in H5. injection H5 as Hcode <-. cbn [cr_host] in H6.
    destruct (assertion ($code ==' int 0) "" (cr_host s4)) as [y h] eqn:E. injection H6 as -> <-.
    destruct (returncode_zero server (cr_host s4) code u6 h) as [-> ->]; [unfold returncode, gets; by rewrite Hcode|done|].
    unfold returncode, gets. cbn. by rewrite Hcode.
Qed.

Lemma trial_body_ok fuel o binary cert key_ count s u s' :
  cr_own s = nothing_yet -> trial_body fuel o binary cert key_ count s = (Ok u, s') ->
  done_run o (server_command binary cert key_ count) (cr_own s').
Proof.
  unfold trial_body. cbv zeta. intros E0 H. apply bind_ok in H as (server & s1 & H1 & H).
  apply with_running_ok in H1 as (server' & t1 & t2 & Et & Hb & Eo & Hc). apply bind_ok in Hb as (? & t3 & Hb & [= -> ->]).
  apply upload_run_ok in Hb as (He & Hs & events & Hx); [|congruence]. rewrite <- Eo in *.
  apply bind_ok in H as (p & s2 & [= <- <-] & H). apply bind_ok in H as (? & s3 & H3 & H).
  unfold on_host, zoom in H3. destruct (assertion _ _ (cr_host s1)) as [y h] eqn:E. injection H3 as -> <-.
  unfold assertion in E. apply bind_ok in E as (ok & ? & El & E). apply lift_ok in El as [[= <-] ->].
  destruct (Z.eqb_spec (uploads (cr_own s1)) (connections o * streams o)) as [Hu|]; [|done]. injection E as _ <-.
  apply bind_ok in H as (code & s4 & H4 & H). unfold on_host, zoom in H4. cbn [cr_host cr_own cr_members] in H4. rewrite Hc in H4. injection H4 as <- <-.
  injection H as _ <-. cbn. split_and!; [done|done|done|]. exists events. by rewrite Hx.
Qed.

Lemma storage_trial_ok fuel o cert key_ count repeat report label binary h report' h' :
  trial fuel o cert key_ count repeat report label binary h = (Ok report', h') ->
  exists p, done_run o (server_command binary cert key_ count) p /\ append_run report (run_of label count repeat p) = Ok report'.
Proof.
  unfold trial. intros H. next H. apply with_crew_cases in E as (r1 & s1 & r2 & s2 & E1 & E2 & _ & -> & Ep).
  injection E2 as <- <-. exists x.2. split.
  - unfold catch in E1. destruct (trial_body fuel o binary cert key_ count (Crew h [] nothing_yet)) as [[u|e] s] eqn:E.
    + injection E1 as _ <-. rewrite Ep. eapply trial_body_ok; [|exact E]. done.
    + exfalso. do 3 next E1. discriminate E1.
  - next H. unfold save_run in E. next E. apply lift_ok in E0 as [E0 _]. next E. injection E as <- _. do 2 next H. by injection H as <- _.
Qed.

(** *** The report *)

Inductive slot := Slot (count repeat : Z) (label binary : string).
Definition schedule (repeats_ : Z) (workers_ : list Z) (variants : list (string * string)) : list slot :=
  concat (map (fun count => concat (map (fun r => map (fun nv => Slot count (Z.of_nat r + 1) nv.1 nv.2) (rotate r variants))
                                        (seq 0 (Z.to_nat repeats_)))) workers_).
Definition done_at (o : Options) (cert key_ : string) (s : slot) (run : val) : Prop :=
  let '(Slot count repeat label binary) := s in
  exists p, run = run_of label count repeat p /\ done_run o (server_command binary cert key_ count) p.

(** What the loops keep of the report. *)
Definition carries_on (report0 report : val) (runs : list val) : Prop :=
  $report.["runs"] = Ok (VList runs)
  /\ forall k, k ∈ ["workload"; "binary_sha256"; "source_sha256"] -> $report.[k] = $report0.[k].

Lemma append_carries report0 report runs run report' :
  carries_on report0 report runs -> append_run report run = Ok report' -> carries_on report0 report' (runs ++ [run]).
Proof.
  unfold append_run, iterR. intros [Hr Hk] H. rewrite Hr in H. cbn [rbind py_iter] in H.
  pose proof (fun k N => setR_other _ _ _ _ k H N) as K. split.
  - by apply setR_new in H as (v & [= <-] & ->).
  - intros k Hin. rewrite <- Hk by done. apply K. each_of Hin; done.
Qed.

Lemma trials_ok fuel o variants cert key_ ws report0 report h report' h' runs :
  carries_on report0 report runs -> trials fuel o variants cert key_ ws report h = (Ok report', h') ->
  exists more, Forall2 (done_at o cert key_) (schedule (repeats o) ws variants) more /\ carries_on report0 report' (runs ++ more).
Proof.
  unfold trials, schedule. intros Hc H. eapply (foldM_rows _ (carries_on report0)) in H; [exact H| |exact Hc].
  intros r1 count v1 r2 v2 xs Hr H1. eapply (foldM_rows _ (carries_on report0)) in H1; [exact H1| |exact Hr].
  intros r3 r v3 r4 v4 ys Hr3 H3.
  eapply (foldM_rows _ (carries_on report0) (fun nv => [Slot count (Z.of_nat r + 1) nv.1 nv.2])) in H3 as (zs & Hzs & Hr4);
    [exists zs; split; [by rewrite <- concat_map_single|exact Hr4]| |exact Hr3].
  intros r5 nv v5 r6 v6 ws' Hr5 H5. apply storage_trial_ok in H5 as (p & Hp & Ha). eexists. split; [|by eapply append_carries].
  constructor; [by exists p|constructor].
Qed.

(** *** The digests of the builds *)

#[export] Instance VStr_inj : Inj (=) (=) VStr.
Proof. by intros s s' [= ->]. Qed.

Lemma binary_digests l d0 h d h' :
  foldM binary_sha d0 l h = (Ok d, h') -> NoDup (map fst d0 ++ map (fun nb => VStr nb.1) l) ->
  map fst d = map fst d0 ++ map (fun nb => VStr nb.1) l.
Proof.
  revert d0 h. induction l as [|[n b] l IH]; intros d0 h H Hd; cbn in H; [injection H as <- _; by rewrite app_nil_r|].
  apply bind_ok in H as (d1 & h1 & H1 & H). unfold binary_sha in H1. do 2 next H1. injection H1 as <- _. cbn [map fst] in *.
  assert (Ed : map fst (sset n (VStr (sha256_hex x0)) d0) = map fst d0 ++ [VStr n]).
  { apply NoDup_app in Hd as (_ & Hd & _). clear IH H. assert (Hn : VStr n ∉ map fst d0) by (intros Hn; apply (Hd _ Hn); by left). clear Hd.
    unfold sset. induction d0 as [|[k v] d0 IH]; [done|]. cbn [map fst] in Hn. apply not_elem_of_cons in Hn as [Hk Hn]. cbn [dset].
    destruct (py_eqb (VStr n) k) eqn:Ek; [apply py_eqb_str_inv in Ek; congruence|]. cbn [map fst app]. by rewrite IH. }
  apply IH in H; rewrite Ed in *; rewrite <- (app_assoc (map fst d0)) in *; done.
Qed.

Lemma assigned_keys o h variants h' : variants_of o h = (Ok variants, h') -> NoDup (map fst variants).
Proof.
  unfold variants_of. assert (G : forall l d h d' h', NoDup (map fst d) ->
    foldM (fun d item => nv <~ lift (of_option (split_once "=" item) ValueError "not enough values to unpack (expected 2, got 1)") ;
             path <~ answer_text ; ret (assign nv.1 path d)) d l h = (Ok d', h') -> NoDup (map fst d')).
  { induction l as [|item l IH]; intros d h1 d' h2 Hd H; cbn in H; [by injection H as <- _|].
    apply bind_ok in H as (d1 & h3 & H1 & H). do 2 next H1. injection H1 as <- _. eapply IH; [|exact H]. by apply fst_assign. }
  apply G. constructor.
Qed.

(** What a measurement that ends has in its report. *)
Lemma storage_main_report fuel o h report h' :
  main fuel o h = (Ok report, h') ->
  exists ws variants directory runs,
    int_words "," (workers o) = Ok ws /\ NoDup (map fst variants) /\ (2 <= length variants)%nat
    /\ $report.["runs"] = Ok (VList runs) /\ $report.["complete"] = Ok (VBool true)
    /\ $report.["workload"].["connections"] = int (connections o) /\ $report.["workload"].["streams"] = int (streams o)
    /\ iterR ($report.["binary_sha256"]) = Ok (map (fun nv => VStr nv.1) variants)
    /\ Forall2 (done_at o (directory +:+ "/cert.pem") (directory +:+ "/key.pem")) (schedule (repeats o) ws variants) runs.
Proof.
  unfold main. intros H. apply bind_ok in H as (variants & h1 & Hv & H). apply assigned_keys in Hv as Hd.
  apply bind_ok in H as (? & h2 & Ha & H). unfold assertion in Ha. apply bind_ok in Ha as (b & ? & Hb & Ha). apply lift_ok in Hb as [<-%(inj Ok) ->].
  destruct ((length variants =? length (variant o))%nat && (2 <=? length (variant o))%nat) eqn:Hl; [|done]. clear Ha.
  apply andb_true_iff in Hl as [Hl1%Nat.eqb_eq Hl2%Nat.leb_le].
  apply bind_ok in H as (? & h3 & _ & H). apply bind_ok in H as (ws & h4 & Hw & H). apply lift_ok in Hw as [Hw _].
  do 3 (apply bind_ok in H as (? & ? & _ & H)). apply bind_ok in H as (report0 & h5 & Hi & H).
  apply bind_ok in H as (? & ? & _ & H). apply bind_ok in H as (ck & h6 & Hs & H).
  assert (exists directory, ck = (directory +:+ "/cert.pem", directory +:+ "/key.pem")) as [directory ->].
  { unfold set_up in Hs. cbv zeta in Hs. apply bind_ok in Hs as (directory & ? & _ & Hs). do 3 (apply bind_ok in Hs as (? & ? & _ & Hs)).
    injection Hs as <- _. by eexists. }
  apply finally_ok in H as (h7 & H & _). apply bind_ok in H as (report1 & h8 & Ht & H). apply bind_ok in H as (? & ? & _ & H).
  apply bind_ok in H as (report2 & h9 & H2 & H). apply lift_ok in H2 as [H2 _]. apply bind_ok in H as (finished & h10 & _ & H).
  apply bind_ok in H as (report3 & h11 & H3 & H). apply lift_ok in H3 as [H3 _]. apply bind_ok in H as (? & ? & _ & H). injection H as <- _.
  unfold initial_report in Hi. apply bind_ok in Hi as (started & ? & _ & Hi). apply bind_ok in Hi as (hashes & ? & Hh & Hi).
  apply bind_ok in Hi as (source_hashes & ? & _ & Hi). injection Hi as <- _.
  apply binary_digests in Hh. 2:{ cbn. rewrite map_map. cbn. rewrite <- (map_map fst VStr). by apply (NoDup_fmap_2 VStr). }
  cbn in Hh. rewrite map_map in Hh. cbn in Hh.
  eapply trials_ok in Ht as (runs & Hr & Hruns & Hk); [|split; [reflexivity|reflexivity]]. cbn [app] in Hruns.
  pose proof (fun k N => setR_other _ _ _ _ k H2 N) as K2. pose proof (fun k N => setR_other _ _ _ _ k H3 N) as K3.
  exists ws, variants, directory, runs. split_and!; [done|done|lia| | | | | |exact Hr].
  - by rewrite K3, K2.
  - rewrite K3 by done. by apply setR_new in H2 as (v & [= <-] & ->).
  - rewrite K3, K2, Hk by (done || computed). reflexivity.
  - rewrite K3, K2, Hk by (done || computed). reflexivity.
  - rewrite K3, K2, Hk by (done || computed). cbn. by rewrite Hh.
Qed.

(** *** No server is left running *)

(** The counterpart of [tidy]: every process that was started has exited. *)
Definition neat {A} (m : io world A) : Prop := forall s r s', m s = (r, s') ->
  later (cr_host s) (cr_host s')
  /\ forall k, (length (procs (cr_host s)) <= k < length (procs (cr_host s')))%nat -> exited k (cr_host s').

Section Neat.
Context {A B : Type}.

Lemma neat_on_host (m : io host A) : tidy m -> neat (on_host m).
Proof. intros Hm s r s'. unfold on_host, zoom. destruct (m (cr_host s)) as [x h] eqn:E. intros [= _ <-]. by apply Hm in E. Qed.
Lemma neat_amend f : neat (amend f).
Proof. intros s r s' [= _ <-]. split; [apply later_refl|]. cbn. lia. Qed.
Lemma neat_gets (f : world -> A) : neat (gets f).
Proof. intros s r s' [= _ <-]. split; [apply later_refl|]. lia. Qed.
Lemma neat_result (x : res A) : neat (fun s => (x, s)).
Proof. intros s r s' [= _ <-]. split; [apply later_refl|]. lia. Qed.

Lemma neat_trans (s s1 s2 : world) :
  later (cr_host s) (cr_host s1) /\ (forall k, (length (procs (cr_host s)) <= k < length (procs (cr_host s1)))%nat -> exited k (cr_host s1)) ->
  later (cr_host s1) (cr_host s2) /\ (forall k, (length (procs (cr_host s1)) <= k < length (procs (cr_host s2)))%nat -> exited k (cr_host s2)) ->
  later (cr_host s) (cr_host s2) /\ (forall k, (length (procs (cr_host s)) <= k < length (procs (cr_host s2)))%nat -> exited k (cr_host s2)).
Proof. intros [L1 N1] [L2 N2]. by apply (tidy_trans (cr_host s) (cr_host s1) (cr_host s2)). Qed.

Lemma neat_bind (m : io world A) (k : A -> io world B) : neat m -> (forall a, neat (k a)) -> neat (bind m k).
Proof.
  intros Hm Hk s r s'. unfold bind. destruct (m s) as [[a|e] s1] eqn:E; apply Hm in E.
  - intros H. apply Hk in H. by eapply neat_trans.
  - by intros [= _ <-].
Qed.
Lemma neat_catch (m : io world A) c : neat m -> (forall e, neat (c e)) -> neat (catch m c).
Proof.
  intros Hm Hc s r s'. unfold catch. destruct (m s) as [[a|e] s1] eqn:E; apply Hm in E.
  - by intros [= _ <-].
  - intros H. apply Hc in H. by eapply neat_trans.
Qed.
Lemma neat_finally (m : io world A) c : neat m -> neat c -> neat (finally m c).
Proof.
  intros Hm Hc s r s'. unfold finally. destruct (m s) as [x s1] eqn:E1. apply Hm in E1. destruct (c s1) as [[u|e] s2] eqn:E2; apply Hc in E2;
    intros [= _ <-]; by eapply neat_trans.
Qed.
End Neat.
Lemma neat_ret {A} (a : A) : neat (ret a).
Proof. apply neat_result. Qed.
Lemma neat_throw {A} e : neat (throw (A:=A) e).
Proof. apply neat_result. Qed.
Lemma neat_each {A} (f : A -> io world unit) l : (forall a, neat (f a)) -> neat (each f l).
Proof. intros Hf. induction l; cbn; [apply neat_ret|by apply neat_bind]. Qed.
Lemma neat_mapM {A B} (f : A -> io world B) l : (forall a, neat (f a)) -> neat (mapM f l).
Proof. intros Hf. induction l; cbn; [apply neat_ret|]. apply neat_bind; [done|]. intros b. apply neat_bind; [done|]. intros bs. apply neat_ret. Qed.
#[local] Hint Resolve neat_on_host neat_amend neat_gets neat_ret neat_throw neat_each neat_mapM neat_bind neat_catch neat_finally : zhtps.

Ltac neatly := repeat first [ progress intros | solve [auto with zhtps] | apply neat_bind | apply neat_catch | apply neat_finally | apply neat_each | apply neat_mapM
                            | apply neat_on_host; tidily ].

(** [m] ends with the exit of [server]. *)
Definition ensures {A} (server : handle) (m : io host A) : Prop :=
  forall h r h', (server < length (procs h))%nat -> m h = (r, h') -> exited server h'.

Lemma ensures_after {A B} server (m : io host A) (k : A -> io host B) :
  settled m -> (forall h, is_ok (m h).1 = true) -> (forall a, ensures server (k a)) -> ensures server (bind m k).
Proof.
  intros Hm Ho Hk h r h' Hs. unfold bind. pose proof (Ho h) as O. destruct (m h) as [[a|e] h1] eqn:E; [|discriminate O].
  apply Hm in E as [_ N]. intros H. eapply Hk; [|exact H]. lia.
Qed.
Lemma ensures_then {A B} server (m : io host A) (k : A -> io host B) : ensures server m -> (forall a, settled (k a)) -> ensures server (bind m k).
Proof.
  intros Hm Hk h r h' Hs. unfold bind. destruct (m h) as [[a|e] h1] eqn:E; pose proof (Hm _ _ _ Hs E) as X.
  - intros H. apply Hk in H as [(L & _) _]. by apply L.
  - by intros [= _ <-].
Qed.

(** A closed server has exited, also when it had to be killed. *)
Lemma close_ensures server : ensures server (close server).
Proof.
  unfold close. apply ensures_after; [apply settled_poll|done|]. intros code.
  apply ensures_after; [by destruct code; auto using settled_terminate, settled_ret|by destruct code|]. intros _.
  apply ensures_then; [|intros _; settle]. intros h r h' Hs. unfold catch, bind at 1. destruct (wait_timeout server h) as [[c|e] h1] eqn:E.
  - intros [= _ <-]. by eapply wait_timeout_ok.
  - rewrite (wait_timeout_err _ _ _ _ E). apply settled_wait_timeout in E as [_ N]. unfold bind at 1.
    destruct (kill server h1) as [[u|e2] h2] eqn:Ek; [|discriminate Ek]. apply kill_exited in Ek; [|lia]. unfold bind.
    destruct (wait server h2) as [[v|e3] h3] eqn:Ew; [|discriminate Ew]. apply settled_wait in Ew as [(L & _) _]. intros [= _ <-]. by apply L.
Qed.
Lemma settled_close server : settled (close server).
Proof. unfold close. settle. Qed.
#[local] Hint Resolve settled_close : zhtps.

Definition closes {A} (server : handle) (m : io world A) : Prop :=
  forall s r s', (server < length (procs (cr_host s)))%nat -> m s = (r, s') -> exited server (cr_host s').

Lemma closes_now {A} server (k : unit -> io world A) : (forall u, neat (k u)) -> closes server (bind (on_host (close server)) k).
Proof.
  intros Hk s r s' Hs. unfold bind, on_host, zoom. destruct (close server (cr_host s)) as [x h] eqn:E. apply close_ensures in E; [|done].
  destruct x as [u|e]; [|by intros [= _ <-]]. intros H. apply Hk in H as [(L & _) _]. by apply L.
Qed.
(** A block whose failure closes the server. *)
Lemma closes_block {A B} server (m : io world A) (k : A -> io world B) :
  neat m -> (forall a, closes server (k a)) -> closes server (bind (catch m (fun e => on_host (close server) ;~ throw e)) k).
Proof.
  intros Hm Hk s r s' Hs. unfold bind at 1, catch. destruct (m s) as [[a|e] s1] eqn:E; apply Hm in E as [(_ & N & _) _].
  - apply Hk. lia.
  - destruct ((on_host (close server) ;~ throw e) s1) as [x s2] eqn:E2.
    assert (X : exited server (cr_host s2)).
    { eapply (closes_now server (fun _ => throw (A:=A) e)); [intros; apply neat_throw| |exact E2]. lia. }
    destruct x as [a|e2]; [|by intros [= _ <-]]. exfalso. by apply bind_ok in E2 as (? & ? & _ & E2).
Qed.

Lemma settled_running_ports fuel ports : settled (wait_ports fuel ports).
Proof. revert ports. induction fuel as [|fuel IH]; intros ports; cbn [wait_ports]; settle; apply IH. Qed.

Lemma neat_with_running {A} fuel command (body : handle -> io world A) :
  (forall server, neat (body server)) -> neat (with_running fuel command body).
Proof.
  intros Hb s r s'. unfold with_running. unfold bind at 1. unfold on_host at 1, zoom.
  destruct (popen command (cr_host s)) as [[server|e] h] eqn:E; pose proof (steady_popen _ _ _ _ E) as L1.
  2:{ apply popen_err in E. intros [= _ <-]. split; [done|]. cbn. lia. }
  apply popen_ok in E as (-> & N1 & _). set (server := length (procs (cr_host s))) in *. intros H.
  pose proof (tidy_settled _ (settled_running_ports fuel [])) as P.
  match type of H with ?rest _ = _ => assert (R : neat rest /\ closes server rest) end.
  { assert (K : forall a code, neat (on_host (assertion ($code ==' int 0) "") ;~ ret (A:=A) a)) by (intros; unfold assertion; neatly).
    assert (C : forall e, neat (A:=unit) (on_host (close server) ;~ throw e)) by (intros; neatly).
    assert (C' : forall e, neat (A:=A) (on_host (close server) ;~ throw e)) by (intros; neatly).
    split.
    - apply neat_bind; [apply neat_catch; [by apply neat_on_host|done]|]. intros _. apply neat_bind; [by apply neat_catch|]. intros a. neatly.
    - apply closes_block; [by apply neat_on_host|]. intros _. apply closes_block; [done|]. intros a. apply closes_now. intros _. neatly. }
  destruct R as [Rn Rc]. apply Rc in H as X; [|cbn; lia]. apply Rn in H as [L2 N2]. cbn [cr_host] in *.
  split; [by eapply later_trans|]. intros k Hk. destruct (decide (k = server)) as [->|]; [done|]. apply N2. lia.
Qed.

Lemma tidy_snapshot fuel active : tidy (snapshot fuel active).
Proof.
  assert (S : forall deadline, settled (await_active fuel active deadline)).
  { intros deadline. induction fuel as [|fuel IH]; cbn [await_active]; unfold assertion; settle; apply IH. }
  unfold snapshot. tidily.
Qed.
Lemma neat_record fuel phase active : neat (record fuel phase active).
Proof. apply neat_bind; [apply neat_on_host, tidy_snapshot|]. intros v. apply neat_amend. Qed.
#[local] Hint Resolve neat_record : zhtps.

Lemma neat_upload_run fuel o command server : neat (upload_run fuel o command server).
Proof. unfold upload_run, open_streams, send_bodies, finish_streams, check_response, call, add, add_upload, assertion. cbv zeta. neatly. Qed.

Lemma tidy_storage_trial fuel o cert key_ count repeat report label binary : tidy (trial fuel o cert key_ count repeat report label binary).
Proof.
  unfold trial. apply tidy_bind; [|intros r; unfold save_run, save; tidily]. intros h r h' H.
  apply with_crew_cases in H as (r1 & s1 & r2 & s2 & E1 & E2 & -> & _). injection E2 as _ <-.
  match type of E1 with ?body _ = _ => assert (N : neat body) end.
  { apply neat_catch.
    - unfold trial_body, add, assertion. cbv zeta. apply neat_bind; [|intros; neatly]. apply neat_with_running. intros server.
      apply neat_bind; [apply neat_upload_run|]. intros; apply neat_ret.
    - intros e. unfold add_error, save_run, save. neatly. }
  apply N in E1. exact E1.
Qed.
#[local] Hint Resolve tidy_storage_trial : zhtps.

Lemma tidy_storage_main fuel o : tidy (main fuel o).
Proof.
  unfold main. do 9 (apply tidy_bind; [unfold variants_of, assertion, initial_report, binary_sha, sha_of, save; tidily|intros ?]).
  apply tidy_bind; [unfold set_up; tidily|]. intros ck. apply tidy_finally; [|tidily]. unfold trials. apply tidy_bind; [tidily|]. intros report.
  unfold same_digests, assertion, binary_sha, save. tidily.
Qed.

(** However a measurement ends, every server it started, and the command that made the certificate, has exited. *)
Theorem storage_stops_everything fuel o h r h' : procs h = [] -> main fuel o h = (r, h') -> all_exited h'.
Proof. intros Hh. by apply tidy_all_exited; [apply tidy_storage_main|]. Qed.
