(* ===== verification/StorageReport.v ===== *)
(** * What the measurement of storage reports, its summary accepts

    [bench/measure_http2_storage.py] against [bench/summarize_http2_storage.py]: the runs of a finished measurement of the whole
    matrix pass the audit of the summary, as far as the audit asks for what the driver has checked. *)

From stdpp Require Import base list strings sets.
From Stdlib Require Import ZArith Lia Ascii.
From S2P Require Import Prelude PyFloat PyText PyVal PyJson PyScript PyStats PyHash Evidence PyIO System AuditHttp2Lan AuditGoPerformance RemoteLoad Compare Crew CompareHttp2 Http2Report CompareHttp2Variants SummarizeHttp2Lan SummarizeHttp2Storage MeasureHttp2Storage.

Local Open Scope Z_scope.
Open Scope py_scope.

(** ** The keys of the trials *)

Definition trial_spot : Type := Z * Z * string.
Definition trial_val (p : trial_spot) : val := VTuple [VInt p.1.1; VInt p.1.2; VStr p.2].

Lemma trial_eqb p q : py_eqb (trial_val p) (trial_val q) = bool_decide (p = q).
Proof.
  destruct p as [[w r] n], q as [[w' r'] n'].
  change (py_eqb (trial_val (w, r, n)) (trial_val (w', r', n'))) with (py_eqb (VInt w) (VInt w') && (py_eqb (VInt r) (VInt r') && (String.eqb n n' && true))).
  rewrite !py_eqb_int. case_bool_decide as E.
  - injection E as -> -> ->. by rewrite !Z.eqb_refl, String.eqb_refl.
  - destruct (Z.eqb_spec w w'), (Z.eqb_spec r r'), (String.eqb_spec n n'); try done. congruence.
Qed.
Lemma seen_trials p l : existsb (py_eqb (trial_val p)) (map trial_val l) = bool_decide (p ∈ l).
Proof.
  induction l as [|q l IH]; [done|]. cbn [map existsb]. rewrite IH, trial_eqb.
  destruct (bool_decide_reflect (p = q)) as [->|]; cbn [orb]; [by rewrite bool_decide_eq_true_2 by set_solver|]. apply bool_decide_ext. set_solver.
Qed.

(** ** One run *)

(** What the driver does not check itself: the gauges it does not wait for, and a complete [/proc] status. *)
Definition reliable (active count : Z) (v : val) : Prop :=
  ($v.["metrics"].["gauges"].["requests_active"] ==' int active) = Ok true
  /\ (int 0 <=' $v.["metrics"].["gauges"].["http2_streams_cached"]) = Ok true
  /\ ($v.["metrics"].["gauges"].["http2_streams_cached"] <=' int (64 * count)) = Ok true
  /\ (exists bytes, $v.["metrics"].["gauges"].["http2_bytes_allocated"] = Ok bytes)
  /\ forall nf, nf ∈ sizes -> exists n, status_bytes v nf.2 = int n.

Lemma snapshot_accepted population count run phase v :
  $run.["workers"] = int count ->
  active_in v (if startswith "pending_" phase then population else 0) -> reliable (if startswith "pending_" phase then population else 0) count v ->
  exists row, snapshot_row (VInt population) run (VStr phase) v = Ok row.
Proof.
  intros Hw Ha (Hr & Hc1 & Hc2 & (bytes & Hb) & Hs). unfold active_in in Ha. unfold snapshot_row. set (b := startswith "pending_" phase) in *.
  destruct ($v.["metrics"].["gauges"]) as [gauges|e]; [|discriminate Ha]. cbn [rbind]. unfold startswithR. cbn [rbind]. fold b.
  assert (E : ($(if b then VInt population else VInt 0) : expr) = int (if b then population else 0)) by by destruct b.
  rewrite E, Ha. cbn [assertR rbind require]. rewrite Hr. cbn [assertR rbind require].
  assert (Em : int 64 *' $run.["workers"] = int (64 * count)) by by rewrite Hw. rewrite Em, Hc1. cbn [andR rbind]. rewrite Hc2.
  cbn [assertR rbind require]. unfold mkdict, sizes. cbn [map app mapR fst snd]. rewrite Hb. cbn [rbind].
  destruct ($gauges.["http2_streams_cached"]) as [cached|e]; [|discriminate Hc1]. cbn [rbind].
  destruct (Hs ("rss_bytes", "VmRSS") ltac:(computed)) as [n1 E1], (Hs ("peak_rss_bytes", "VmHWM") ltac:(computed)) as [n2 E2],
    (Hs ("virtual_bytes", "VmSize") ltac:(computed)) as [n3 E3]. cbn [snd] in E1, E2, E3. rewrite E1, E2, E3. cbn. by eexists.
Qed.

Lemma flag_found binary cert key_ count :
  binary <> "--worker-cpus" -> cert <> "--worker-cpus" -> key_ <> "--worker-cpus" ->
  argument_of (map VStr (server_command binary cert key_ count)) "--worker-cpus" = str (join "," (map string_of_Z (seqZ 0 count)))
  /\ py_in (VStr "--worker-cpus") (VList (map VStr (server_command binary cert key_ count))) = Ok true.
Proof.
  intros Hb Hc Hk.
  assert (Hn : string_of_Z count <> "--worker-cpus") by (intros E; pose proof (parse_int_string_of_Z count) as P; rewrite E in P; discriminate P).
  unfold server_command, defaults. cbn [app map]. split.
  - unfold argument_of, index_in. rewrite !py_eqb_str. apply String.eqb_neq in Hb, Hc, Hk, Hn. rewrite Hb, Hc, Hk, Hn. reflexivity.
  - cbn [py_in existsb]. rewrite !py_eqb_str. by rewrite !(String.eqb_sym "--worker-cpus"), !orb_true_r.
Qed.

(** A run whose snapshots are reliable, and whose server is not named like the option the summary looks for. *)
Definition reliable_run (population : Z) (run : val) : Prop :=
  exists count snaps binary rest, $run.["workers"] = int count /\ itemsR ($run.["snapshots"]) = Ok snaps
  /\ $run.["command"] = Ok (VList (VStr binary :: rest)) /\ binary <> "--worker-cpus"
  /\ forall phase v, (VStr phase, v) ∈ snaps -> reliable (if startswith "pending_" phase then population else 0) count v.

Lemma snapshots_accepted population count run (l : list (string * val)) groups w n :
  $run.["workers"] = int w -> w = count -> $run.["variant"] = str n ->
  Forall (fun pv => active_in pv.2 (if startswith "pending_" pv.1 then population else 0)
                    /\ reliable (if startswith "pending_" pv.1 then population else 0) count pv.2) l ->
  exists groups', foldR (SummarizeHttp2Storage.add_snapshot (VInt population) run) groups (map (fun pv => (VStr pv.1, pv.2)) l) = Ok groups'.
Proof.
  intros Hw -> Hn H. revert groups. induction H as [|[phase v] l [Ha Hr] _ IH]; intros groups; [by exists groups|].
  cbn [map foldR fst snd]. unfold SummarizeHttp2Storage.add_snapshot at 1. cbn [fst snd] in *.
  destruct (snapshot_accepted population count run phase v Hw Ha Hr) as [row ->]. cbn [rbind]. rewrite Hw, Hn. cbn. apply IH.
Qed.

Lemma run_accepted o binary cert key_ count repeat label p seen groups :
  done_run o (server_command binary cert key_ count) p ->
  cert <> "--worker-cpus" -> key_ <> "--worker-cpus" ->
  reliable_run (connections o * streams o) (run_of label count repeat p) -> (count, repeat, label) ∉ seen ->
  exists groups', add_run (VInt (connections o * streams o)) (map trial_val seen, groups) (run_of label count repeat p)
                  = Ok (map trial_val (seen ++ [(count, repeat, label)]), groups').
Proof.
  intros (Hu & He & [Hph Hact] & events & Hx) Hc Hk (count' & snaps & binary' & rest & Hw & Hs & Hbin & Hb & Hr) Hseen. destruct p as [u es sn ex]. cbn [uploads errors snapshots extra] in *. subst u es ex.
  injection Hw as <-. injection Hs as <-. injection Hbin as <- _. unfold add_run, SummarizeHttp2Storage.trial_key.
  change (key (tupleR _)) with (Ok (trial_val (count, repeat, label))). cbn [rbind fst]. rewrite seen_trials, bool_decide_eq_false_2 by done.
  cbn [negb require rbind]. destruct (flag_found binary cert key_ count Hb Hc Hk) as [Ha Hin].
  assert (Hcheck : SummarizeHttp2Storage.check_run (VInt (connections o * streams o))
    (run_of label count repeat (Progress (connections o * streams o) [] sn
       [("command", VList (map VStr (server_command binary cert key_ count))); ("server_events", events); ("server_exit", VInt 0)])) = Ok tt).
  { unfold SummarizeHttp2Storage.check_run. set (run := run_of _ _ _ _).
    assert (E1 : (notR (test ($run.["errors"])) &&' ($run.["server_exit"] ==' int 0)) = Ok true) by reflexivity. rewrite E1. cbn [assertR rbind require].
    assert (E2 : ($run.["successful_uploads"] ==' $(VInt (connections o * streams o))) = Ok true) by (apply eqR_int_refl). rewrite E2. cbn [assertR rbind require].
    assert (E3 : $run.["command"] = Ok (VList (map VStr (server_command binary cert key_ count)))) by reflexivity. rewrite E3. cbn [rbind]. rewrite Hin.
    cbn [assertR rbind require]. unfold iterR. cbn [rbind py_iter]. rewrite Ha.
    assert (E4 : first_cpus ($run.["workers"]) = str (join "," (map string_of_Z (seqZ 0 count)))) by reflexivity. rewrite E4.
    unfold eqR, lift2. cbn [rbind str]. by rewrite py_eqb_str, String.eqb_refl. }
  rewrite Hcheck. cbn [rbind]. set (run := run_of _ _ _ _) in *.
  assert (Hf : Forall (fun pv => active_in pv.2 (if startswith "pending_" pv.1 then connections o * streams o else 0)
                    /\ reliable (if startswith "pending_" pv.1 then connections o * streams o else 0) count pv.2) sn).
  { apply Forall_forall. intros [phase v] Hin'. rewrite Forall_forall in Hact. split; [by apply (Hact _ Hin')|]. apply Hr.
    apply list_elem_of_fmap. by exists (phase, v). }
  destruct (snapshots_accepted _ count run sn groups count label eq_refl eq_refl eq_refl Hf) as [groups' Hg].
  exists groups'. change (itemsR ($run.["snapshots"])) with (Ok (map (fun pv : string * val => (VStr pv.1, pv.2)) sn)). cbn [rbind snd]. rewrite Hg. cbn [rbind fst].
  by rewrite map_app.
Qed.

(** ** The matrix *)

Definition spot_of (s : slot) : trial_spot := let '(Slot count repeat label _) := s in (count, repeat, label).
Definition matrix_spots (names : list string) : list trial_spot :=
  WORKERS ≫= fun w => [1; 2; 3] ≫= fun r => map (fun n => (w, r, n)) names.

Lemma matrix_vals names : matrix (map VStr names) = map trial_val (matrix_spots names).
Proof. unfold matrix, matrix_spots, WORKERS. cbn [map concat mbind list_bind]. by rewrite !map_app, !map_map. Qed.

Lemma NoDup_matrix names : NoDup names -> NoDup (matrix_spots names).
Proof.
  intros Hn. apply NoDup_bind; [| |apply (bool_decide_unpack _); reflexivity].
  - intros w w' p _ _ (r & (n & -> & _)%list_elem_of_fmap & _)%list_elem_of_bind (r' & (n' & [= -> _ _] & _)%list_elem_of_fmap & _)%list_elem_of_bind. done.
  - intros w _. apply NoDup_bind; [| |apply (bool_decide_unpack _); reflexivity].
    + intros r r' p _ _ (n & -> & _)%list_elem_of_fmap (n' & [= -> _] & _)%list_elem_of_fmap. done.
    + intros r _. apply NoDup_map_inj; [by intros x y [= ->]|done].
Qed.

Lemma schedule_matrix variants : map spot_of (schedule 3 WORKERS variants) ≡ₚ matrix_spots (map fst variants).
Proof.
  unfold schedule, matrix_spots. rewrite concat_map. rewrite map_map. rewrite <- concat_map_bind. apply concat_map_perm. intros w.
  rewrite concat_map, map_map. rewrite <- concat_map_bind. change (seq 0 (Z.to_nat 3)) with [0%nat; 1%nat; 2%nat].
  cbn [map concat]. rewrite !map_map. cbn [spot_of]. change (Z.of_nat 0 + 1) with 1. change (Z.of_nat 1 + 1) with 2. change (Z.of_nat 2 + 1) with 3.
  repeat apply Permutation_app; try done; by rewrite rotate_perm.
Qed.

Lemma same_set (a b : list trial_spot) : a ≡ₚ b -> set_eqb (map trial_val a) (map trial_val b) = true.
Proof.
  assert (S : forall a b : list trial_spot, a ⊆ b -> subsetb (map trial_val a) (map trial_val b) = true).
  { intros l m Hs. unfold subsetb. rewrite forallb_forall. intros v (p & <- & Hp)%in_map_iff. rewrite seen_trials.
    apply bool_decide_eq_true_2. apply Hs. by apply list_elem_of_In. }
  intros E. unfold set_eqb. rewrite !S; [done| |]; intros p; by rewrite E.
Qed.

(** ** The report *)

Lemma runs_accepted o cert key_ (slots : list slot) runs seen groups :
  Forall2 (done_at o cert key_) slots runs -> Forall (reliable_run (connections o * streams o)) runs ->
  cert <> "--worker-cpus" -> key_ <> "--worker-cpus" -> NoDup (seen ++ map spot_of slots) ->
  exists groups', foldR (add_run (VInt (connections o * streams o))) (map trial_val seen, groups) runs
                  = Ok (map trial_val (seen ++ map spot_of slots), groups').
Proof.
  intros H Hr Hc Hk. revert seen groups. induction H as [|[count repeat label binary] run slots runs (p & -> & Hd) _ IH]; intros seen groups Hn.
  { exists groups. by rewrite app_nil_r. }
  inversion Hr as [|? ? Hr1 Hr2]; subst. cbn [map spot_of foldR] in *.
  assert (Hs : (count, repeat, label) ∉ seen).
  { apply NoDup_app in Hn as (_ & Hn & _). intros Hin. apply (Hn _ Hin). by left. }
  destruct (run_accepted o binary cert key_ count repeat label p seen groups Hd Hc Hk Hr1 Hs) as [groups' ->]. cbn [rbind].
  destruct (IH Hr2 (seen ++ [(count, repeat, label)]) groups') as [groups'' ->]; [by rewrite <- app_assoc|]. exists groups''. by rewrite <- app_assoc.
Qed.

Lemma no_flag directory name : directory +:+ String "/" name <> "--worker-cpus".
Proof.
  intros E. assert (H : In "/"%char (String.list_ascii_of_string (directory +:+ String "/" name))) by (clear E; induction directory; cbn; auto).
  rewrite E in H. cbn in H. intuition discriminate.
Qed.


(** ** A measurement of two builds

    One connection with one stream, the whole matrix: the servers are the processes after the one that makes the certificate. *)

Definition storage_options : Options := mkOptions ["old=/old"; "new=/new"] "1,2,4,8" 1 1 3 "out".
Definition storage_metrics (active : Z) : val :=
  obj [("gauges", obj [("http2_streams_active", VInt active); ("requests_active", VInt active); ("http2_streams_cached", VInt 1);
                       ("http2_bytes_allocated", VInt 4096)])].
Definition storage_status : string :=
  join "" (map (fun line => line +:+ nl) ["Name: zhtps"; "VmSize: 9 kB"; "VmHWM: 7 kB"; "VmRSS: 5 kB"; "Threads: 2"]).
Definition snapshot_turns (active : Z) : list turn := [number_ 0; answered (storage_metrics active); text_ storage_status].
Definition storage_response : val :=
  obj [("reset", VNone); ("ended", VBool true); ("headers", obj [(":status", VStr "200")]); ("body", VStr "x")].
Definition listening (kind : string) : turn := answered (obj [("event", VStr kind); ("port", VInt 8080)]).
Definition storage_trial_turns (server : nat) : list turn :=
  [blank; listening "listening"; listening "admin_listening"; blank; blank] ++ snapshot_turns 0
  ++ [number_ 1; blank] ++ snapshot_turns 1 ++ [blank; blank] ++ snapshot_turns 1
  ++ [blank; blank; answered storage_response; blank] ++ snapshot_turns 0
  ++ [blank; answered (VList []); blank; blank; ended server 0; blank; blank; blank; blank].
Definition storage_turns : list turn :=
  [text_ "/old"; text_ "/new"; blank; blank; text_ "now"] ++ repeat (text_ "bytes") 6 ++ [blank; text_ "/tmp/d"] ++ command_turns "" ++ [blank]
  ++ concat (map storage_trial_turns (seq 1 24)) ++ repeat (text_ "bytes") 6 ++ [text_ "later"; blank; blank].
Definition storage_host : host := Host [] (fun n => nth n storage_turns blank) 0 [] [].

Definition storage_report : val := value_or VNone (main 5 storage_options storage_host).1.
Definition storage_snapshot (active : Z) : val :=
  obj [("metrics", storage_metrics active); ("status", VList (map VStr ["VmSize: 9 kB"; "VmHWM: 7 kB"; "VmRSS: 5 kB"; "Threads: 2"]))].
Definition storage_run (s : slot) : val :=
  let '(Slot count repeat label binary) := s in
  run_of label count repeat
    (Progress 1 [] (map (fun phase => (phase, storage_snapshot (if startswith "pending_" phase then 1 else 0))) STAGES)
       [("command", VList (map VStr (server_command binary "/tmp/d/cert.pem" "/tmp/d/key.pem" count))); ("server_events", VList []);
        ("server_exit", VInt 0)]).

Lemma storage_runs :
  $storage_report.["runs"] = Ok (VList (map storage_run (schedule 3 WORKERS [("old", "/old"); ("new", "/new")]))).
Proof. vm_compute. reflexivity. Qed.

Lemma storage_run_reliable s : (let '(Slot count _ _ binary) := s in 1 <= count /\ binary <> "--worker-cpus") -> reliable_run 1 (storage_run s).
Proof.
  destruct s as [count repeat label binary]. intros [Hc Hb]. eexists count, _, binary, _. split_and!; [done|done|done|done|].
  intros phase v Hin. cbn in Hin.
  assert (H : v = storage_snapshot (if startswith "pending_" phase then 1 else 0)) by (revert Hin; clear; intros Hin; repeat (apply elem_of_cons in Hin as [[= -> ->]|Hin]; [done|]); by apply not_elem_of_nil in Hin).
  subst v. clear Hin. generalize (if startswith "pending_" phase then 1 else 0). intros active. split_and!.
  - apply eqR_int_refl.
  - done.
  - change (py_leb (VInt 1) (VInt (64 * count)) = Ok true). rewrite py_leb_int. f_equal. lia.
  - by eexists.
  - intros nf Hn. each_of Hn; eexists; vm_compute; reflexivity.
Qed.

Lemma storage_runs_reliable : Forall (reliable_run 1) (map storage_run (schedule 3 WORKERS [("old", "/old"); ("new", "/new")])).
Proof.
  apply Forall_forall. intros run (s & -> & Hs)%list_elem_of_fmap. apply storage_run_reliable. revert s Hs. apply Forall_forall.
  cbn. repeat (constructor; [by split|]). constructor.
Qed.

